(* ===== verification/_CoqProject ===== *)
-Q . S2P
Prelude.v
IperfTime.v
Timer.v
TimerSpec.v
TimerRun.v
Cdouble.v
CdoubleFacts.v
CdoubleText.v
Cscan.v
Units.v
CscanFacts.v
Dscp.v
Errors.v
CjsonData.v
CjsonPrint.v
CjsonPrintSpec.v
CjsonPrintProof.v
CjsonPrintThms.v
CjsonParse.v
CjsonParseSafe.v
CjsonRoundtrip.v
CjsonTree.v
CjsonMem.v
CjsonLinks.v
JsonObject.v
Net.v
Stream.v
Iperf.v
Frame.v
Udp.v
Util.v
Output.v
OutputThms.v
Setup.v
SetupThms.v
Args.v
Transfer.v
Stats.v
Reports.v
ReportsJson.v
ReportsSummary.v
ReportsThms.v
ReportsText.v
Params.v
ParamsProof.v
ParamsThms.v
ArgsThms.v
Jni.v
JniThms.v
Results.v
ResultsProof.v
Control.v
Protocol.v
DataStep.v
ProtocolTurns.v
ProtocolRun.v
ProtocolThms.v
Serve.v
Process.v
TestTimers.v
TestTimersThms.v
ClientLoop.v
ClientLoopThms.v
ServerLoop.v
Loops.v
Packet.v
UdpClient.v
UdpClientThms.v
Probe.v
