(* ===== verification/Prelude.v ===== *)
(** * The measuring engines of mmWaveTracker

    mmWaveTracker is an Android application that measures a network with
    iperf3; the measuring engine is the C code under
    src/iperfwrapperlib/iperf/src, started by the application through JNI.
    Two smaller programs measure with UDP packets of their own: the client of
    src/app/src/main/udprecvlib and the probe of src/app/src/main/rrclibcpp.
    This library models these engines and proves what their parts promise.

    ** The program

    A client and a server talk over a control connection (TCP).  The client
    describes the test in a JSON message (iperf_api.c: send_parameters), the
    server applies it to its own test (get_parameters); JSON text is printed
    and parsed by cjson.c and framed with a length (JSON_write, JSON_read) over
    Nread and Nwrite (net.c).  Both sides create data streams
    (iperf_new_stream, iperf_add_stream) over sockets that iperf_tcp.c and
    iperf_udp.c set up, move data with iperf_send and iperf_recv through the
    functions of the protocol, and run timers (timer.c, iperf_time.c) that end
    the test, pace the streams (iperf_check_throttle) and close statistics
    intervals (iperf_stats_callback).  At the end they exchange their results
    (send_results, get_results).  The order of all this is kept by two state
    machines driven by one-byte messages: iperf_handle_message_client under
    iperf_run_client and iperf_handle_message_server under iperf_run_server.
    What a client asks for comes from its command line
    (iperf_parse_arguments, units.c, dscp.c) or, on Android, from the calls of
    the application (test_run.c).  A reporter turns the statistics into text
    or JSON (iperf_reporter_callback) through iperf_printf, which hands the
    lines to Java.  main.c runs a server for one client after the other and
    keeps its pid file.

    The UDP client (client.cpp) sends numbered packets at a rate, or answers
    the packets of a server with acknowledgements (packet.cpp); both log what
    arrives.  The probe (client_udp_down.cpp) answers pings and says in the
    answer whether other traffic passed the radio interface since the last one.

    ** Conventions

    A w-bit integer is a [Z] and the conversions [u32], [i32], ... write out
    the wrap-around; a C string is the list of its bytes; [outcome] separates a
    result ([Ok]) from undefined behaviour ([UB]: access outside an object,
    NULL, signed overflow) and from a model that ran out of iterations
    ([Fuel]).  Theorems that code returns state [= Ok _], so they rule out both.
    The operating system is an argument: which allocations fail, how a socket
    splits or fails calls, what the clock shows.  Theorems hold for every such
    argument, or say which behaviour they assume.

    ** Files

    - Prelude.v: integers, outcomes, C strings, shared tactics.
    - IperfTime.v: iperf_time.c.  The operations are arithmetic on
      microseconds, modulo the range of the seconds field.
    - Timer.v, TimerSpec.v, TimerRun.v: timer.c.  Timers are nodes of a store
      linked by prev and next, as in C; the invariant ties the store to a list
      sorted by time and a free list.  Every operation refines the operation on
      the sorted list; tmr_run terminates on timers that cannot fire again
      within the call and fires each due timer once, in order.
    - Cdouble.v, CdoubleFacts.v, CdoubleText.v: IEEE doubles (the standard
      library's SpecFloat), strtod and printf %g, and the proof that integers of
      at most 15 digits survive printing and reading.
    - CjsonData.v, CjsonPrint.v, CjsonPrintSpec.v, CjsonPrintProof.v,
      CjsonPrintThms.v: the printer of cjson.c with its growing buffer; the
      text of an item as a function; printing writes exactly that text within
      bounds, for every growth of the buffer and failing malloc.
    - CjsonParse.v, CjsonParseSafe.v, CjsonRoundtrip.v: the parser of cjson.c;
      it terminates without touching memory outside its input on every
      NUL-terminated text, and parses what the printer prints back to the item.
    - CjsonTree.v, JsonObject.v: lookup, construction, comparison and the
      predicates of items (cjson.c) on trees, and objects as lists of named
      values.
    - CjsonMem.v, CjsonLinks.v: the items of cjson.c on a heap with their
      pointers.  cJSON_Delete frees everything an item owns once; the
      constructors of arrays give all or nothing when memory runs out; adding,
      detaching, inserting and replacing items make the pointers of the
      operation on trees and touch no other block.
    - Cscan.v, CscanFacts.v, Units.v, Dscp.v: strtol, atoi, atof and sscanf;
      units.c (sizes and rates are read exactly) and dscp.c (names of service
      classes).
    - Errors.v: iperf_strerror (iperf_error.c) with its table.
    - Net.v: netdial, netannounce, timeout_connect (net.c) as traces of system
      calls; descriptors and address lists are accounted for on every path.
    - Stream.v: Nread, Nwrite, Nsendfile (net.c).
    - Iperf.v: the structures of iperf.h and the operations on the test.
    - Frame.v: JSON_write and JSON_read; a message survives any splitting.
    - Udp.v: iperf_udp_send and iperf_udp_recv; loss and reordering are counted
      exactly on every selection and order of distinct datagrams.
    - Transfer.v: iperf_send, iperf_recv, iperf_check_throttle, diskfile_send,
      iperf_tcp_send, iperf_tcp_recv.  The classes [SendOk] and [RecvOk] are the
      interface between the test and its protocols; TCP and UDP are instances,
      and the accounting theorems are proved against the classes.
    - Stats.v: iperf_stats_callback, iperf_reset_stats, iperf_init_test; the
      intervals partition the transfer (invariant of a step relation).
    - Util.v: make_cookie, the payload pattern, timeval arithmetic, cpu_util and
      iperf_json_printf (iperf_util.c).
    - Output.v, OutputThms.v: printf with the formats of iperf_locale.c,
      iperf_printf with its two line buffers, iperf_err, the JSON tree of a
      test with pointers into it as paths, the messages of iperf_on_connect
      and iperf_on_test_start; which lines fit the buffers, and what
      iperf_json_printf builds for the formats in use.
    - Reports.v: iperf_print_intermediate, print_interval_results,
      iperf_print_results, iperf_reporter_callback.  ReportsJson.v,
      ReportsSummary.v: the JSON objects they add, as functions of the test.
      ReportsThms.v: along every run of transfers and reports the totals of the
      final report are the sums of the interval reports and of the streams.
      ReportsText.v: the text reports of a server are defined and only append.
    - Setup.v, SetupThms.v: the connect, accept and listen functions of TCP and
      UDP, iperf_connect, iperf_server_listen, iperf_new_stream and
      iperf_free_stream, as code that returns or fails over the system calls of
      Net.v; a calculus of weakest preconditions gives what each of them
      leaves open on every path.
    - Params.v, ParamsProof.v, ParamsThms.v: send_parameters, get_parameters;
      the server ends with the test the client described.
    - Args.v, ArgsThms.v: iperf_parse_arguments with getopt_long and every
      option of this build; an accepted command line is within the limits, and
      reaches the server through the parameters.
    - Jni.v, JniThms.v: the functions of test_run.c the application calls, over
      a heap of live blocks, with iperf_new_test, iperf_defaults,
      iperf_free_test and the setters; no sensible sequence of calls uses or
      frees a block twice, and the test the application sets up is the one of
      the command line with the same settings.
    - Results.v, ResultsProof.v: send_results, get_results; the figures arrive
      at the streams they belong to.
    - Control.v: the turns of the two event loops at the level of control
      messages.  Protocol.v: both loops, the two directions of the control
      connection and the data connections as one step relation, with the
      phases of a run.  DataStep.v: moving data does not disturb control.
      ProtocolTurns.v, ProtocolRun.v, ProtocolThms.v: every reachable state is
      in a phase, so no run goes wrong and every run completes with the
      results exchanged.
    - Serve.v: the loop of run() in main.c; a server, reset after each test,
      serves any list of clients.  Process.v: the pid file.
    - TestTimers.v, TestTimersThms.v: the timers of client and server over
      timer.c; a test ends exactly when its duration has passed.
    - ClientLoop.v, ServerLoop.v: a pass of the event loops of iperf_run_client
      and iperf_run_server as they are written: select, messages, new clients
      and streams, transfers, timers.  ClientLoopThms.v, Loops.v: every
      interleaving of such passes is a run of the protocol, and only the
      outside makes the client fail.  A whole test is run as an example.
    - Packet.v, UdpClient.v, UdpClientThms.v: the UDP client (packet.cpp,
      timestamp.cpp, client.cpp); the packets survive the wire, every packet is
      acknowledged with its number, sending ends in time at the rate asked for.
      Probe.v: the probe, with the parsing of the interface counters; every
      ping is answered with its number and the right verdict.

    ** Bounds and fuel

    Loops over lists, schedules and queues are structural.  The parser takes
    fuel: [parse_fuel] (a linear function of the input length) is enough, which
    CjsonParseSafe.v proves.  tmr_run takes fuel; [run_bound] bounds the
    callbacks of a run and is proved sufficient.  The jump of
    iperf_server_listen is a recursion of depth 2, which SetupThms.v proves to
    be enough.  cJSON_Delete takes the number of items as fuel, which is enough.
    The loop of send_udp_packets takes fuel; duration / sleep + 2 rounds are
    proved enough.  The loops that receive are bounded by what arrives.  In
    Protocol.v the number of transfers and statistics callbacks
    in a run is a parameter, any number; the messages are not bounded.

    ** What the protocol theorems assume

    The control connection delivers in order and writes to it succeed;
    connecting and listening succeed and memory does not run out (the failures
    of these functions are the subject of SetupThms.v); the server's timer for
    a client that went away does not fire; the figures stay in the range that
    JSON numbers carry exactly.  The server is new or was reset after a test of
    any client that did not ask for the server's output.  For the event loops:
    the passes do not fail (select, accept and the data connections work), and
    no timer of the server changes a test that is not running.

    ** Not modelled

    SCTP, authentication, CPU affinity, flow labels, TCP_CONGESTION and socket
    pacing (not in this build), signals and daemon (main.c), the log file and
    the JSON output around the event loops, the calls of the Java machine in
    test_run.c, debug output, the usage text, opening the sockets and starting
    the threads of the C++ programs, and the Java application.  Plain getters
    and setters of iperf_api.c that no modelled code uses are left out.

    ** What is left

    The start and the end of iperf_run_client and iperf_run_server around their
    loops, signal handling, and the remaining accessors.
*)

From Stdlib Require Import ZArith Lia List Ascii String.
From stdpp Require Import base numbers gmap list.

Open Scope Z_scope.

(** ** Machine integers

    A [w]-bit integer is a [Z]; the conversions below write out what the C
    conversions of the source do (modulo reduction, two's complement). *)

Definition u8 (x : Z) : Z := x mod 2 ^ 8.
Definition u32 (x : Z) : Z := x mod 2 ^ 32.
Definition u64 (x : Z) : Z := x mod 2 ^ 64.
Definition i32 (x : Z) : Z := (x + 2 ^ 31) mod 2 ^ 32 - 2 ^ 31.
Definition i64 (x : Z) : Z := (x + 2 ^ 63) mod 2 ^ 64 - 2 ^ 63.

Definition is_u32 (x : Z) : Prop := 0 <= x < 2 ^ 32.
Definition is_u64 (x : Z) : Prop := 0 <= x < 2 ^ 64.
Definition is_i32 (x : Z) : Prop := - 2 ^ 31 <= x < 2 ^ 31.
Definition is_i64 (x : Z) : Prop := - 2 ^ 63 <= x < 2 ^ 63.
Definition is_byte (x : Z) : Prop := 0 <= x < 256.

Definition INT_MAX : Z := 2 ^ 31 - 1.
Definition LLONG_MAX : Z := 2 ^ 63 - 1.
Definition LLONG_MIN : Z := - 2 ^ 63.

#[export] Instance is_byte_dec x : Decision (is_byte x).
Proof. unfold is_byte. apply _. Defined.
#[export] Instance is_i32_dec x : Decision (is_i32 x).
Proof. unfold is_i32. apply _. Defined.
#[export] Instance is_u32_dec x : Decision (is_u32 x).
Proof. unfold is_u32. apply _. Defined.

Ltac unfold_ints :=
  unfold u8, u32, u64, i32, i64, is_u32, is_u64, is_i32, is_i64, is_byte,
    INT_MAX, LLONG_MAX, LLONG_MIN in *;
  change (2 ^ 8) with 256 in *; change (2 ^ 31) with 2147483648 in *;
  change (2 ^ 32) with 4294967296 in *;
  change (2 ^ 63) with 9223372036854775808 in *;
  change (2 ^ 64) with 18446744073709551616 in *.

(** [zlia]: linear arithmetic after unfolding the widths, with [/] and [mod]
    by constants turned into their defining equations. *)
Ltac zlia := unfold_ints; Z.to_euclidean_division_equations; lia.

Create HintDb ints.

Lemma u32_small x : is_u32 x -> u32 x = x.
Proof. intros; zlia. Qed.
Lemma u64_small x : is_u64 x -> u64 x = x.
Proof. intros; zlia. Qed.
Lemma i32_small x : is_i32 x -> i32 x = x.
Proof. intros; zlia. Qed.
Lemma i64_small x : is_i64 x -> i64 x = x.
Proof. intros; zlia. Qed.
Lemma u32_range x : is_u32 (u32 x).
Proof. zlia. Qed.
Lemma i32_range x : is_i32 (i32 x).
Proof. zlia. Qed.
#[export] Hint Resolve u32_range i32_range : ints.

(** ** Outcomes of C code

    [Ok a]: the code ran and produced [a].  [UB]: it read or wrote outside an
    object, dereferenced a null or dangling pointer, or overflowed a signed
    integer.  [Fuel]: the bound on
    the number of loop iterations given to the model was too small; every
    theorem that a function returns rules it out. *)

Inductive outcome (A : Type) : Type :=
| Ok (a : A)
| UB
| Fuel.
Arguments Ok {A} a.
Arguments UB {A}.
Arguments Fuel {A}.

Definition obind {A B} (m : outcome A) (k : A -> outcome B) : outcome B :=
  match m with
  | Ok a => k a
  | UB => UB
  | Fuel => Fuel
  end.

(** A null or missing object turns into [UB]. *)
Definition deref {A} (o : option A) : outcome A :=
  match o with
  | Some a => Ok a
  | None => UB
  end.

(** An integer used as a condition. *)
Definition nonzero_int (z : Z) : bool := negb (z =? 0).

(** The result of an operation on [int]. *)
Definition int_of (z : Z) : outcome Z :=
  if (- 2 ^ 31 <=? z) && (z <? 2 ^ 31) then Ok z else UB.

Lemma int_of_ok z : is_i32 z -> int_of z = Ok z.
Proof.
  unfold is_i32, int_of. intros H. destruct (Z.leb_spec (- 2 ^ 31) z), (Z.ltb_spec z (2 ^ 31)); (done || lia).
Qed.

Declare Scope c_scope.
Delimit Scope c_scope with c.
Notation "'let!' x := m 'in' k" := (obind m (fun x => k))
  (at level 10, x pattern, m at level 100, k at level 200,
   format "'[v' 'let!'  x  :=  m  'in' '/' k ']'") : c_scope.

(** Turn a run that starts with a successful [obind] into its continuation. *)
Ltac ostep H := rewrite H; cbn [obind deref].

(** ** C strings

    A C string is the list of its bytes, without the terminating NUL. *)

Abbreviation bytes := (list Z).

Definition byte_of_ascii (c : ascii) : Z := Z.of_N (N_of_ascii c).

Fixpoint bytes_of (s : string) : bytes :=
  match s with
  | EmptyString => []
  | String c r => byte_of_ascii c :: bytes_of r
  end.

(** strlen: the bytes before the first NUL. *)
Fixpoint cstr_of (l : bytes) : bytes :=
  match l with
  | [] => []
  | c :: r => if c =? 0 then [] else c :: cstr_of r
  end.

Lemma cstr_of_nonzero l : Forall (fun c => c <> 0) l -> cstr_of l = l.
Proof.
  induction 1 as [|c l Hc Hl IH]; simpl; [done|].
  destruct (Z.eqb_spec c 0); [done|]. by rewrite IH.
Qed.

Lemma cstr_of_app l r :
  Forall (fun c => c <> 0) l -> cstr_of (l ++ 0 :: r) = l.
Proof.
  induction 1 as [|c l Hc Hl IH]; simpl; [done|].
  destruct (Z.eqb_spec c 0); [done|]. by rewrite IH.
Qed.

Abbreviation nonzero := (Forall (fun c : Z => c <> 0)).

Lemma cstr_of_nz s : nonzero (cstr_of s).
Proof.
  induction s as [|c s IH]; simpl; [constructor|].
  destruct (Z.eqb_spec c 0); [constructor|by constructor].
Qed.
