(* ===== verification/IperfTime.v ===== *)
(** * iperf_time.c: timestamps

    [struct iperf_time] is a pair of [uint32_t]; every operation of
    iperf_time.c is below, with the wrap-around of its fields.  The theorems
    relate the operations to arithmetic on the number of microseconds. *)

From S2P Require Import Prelude.
From stdpp Require Import base numbers gmap list.

Open Scope Z_scope.

(** struct iperf_time *)
Record iperf_time := mk_time { secs : Z; usecs : Z }.

#[export] Instance iperf_time_eq_dec : EqDecision iperf_time.
Proof. solve_decision. Defined.

Definition iperf_time_add_usecs (time1 : iperf_time) (n : Z) : iperf_time :=
  let s := u32 (secs time1 + n / 1000000) in
  let u := u32 (usecs time1 + n mod 1000000) in
  if u >=? 1000000
  then mk_time (u32 (s + u / 1000000)) (u mod 1000000)
  else mk_time s u.

Definition iperf_time_in_usecs (time : iperf_time) : Z :=
  u64 (secs time * 1000000 + usecs time).

Definition iperf_time_compare (time1 time2 : iperf_time) : Z :=
  if secs time1 <? secs time2 then -1
  else if secs time1 >? secs time2 then 1
  else if usecs time1 <? usecs time2 then -1
  else if usecs time1 >? usecs time2 then 1
  else 0.

(** Returns (past, diff). *)
Definition iperf_time_diff (time1 time2 : iperf_time) : Z * iperf_time :=
  let cmp := iperf_time_compare time1 time2 in
  if cmp =? 0 then (1, mk_time 0 0)
  else if cmp =? 1 then
    let s := u32 (secs time1 - secs time2) in
    let u := usecs time1 in
    let '(s, u) := if u <? usecs time2 then (u32 (s - 1), u32 (u + 1000000)) else (s, u) in
    (0, mk_time s (u32 (u - usecs time2)))
  else
    let s := u32 (secs time2 - secs time1) in
    let u := usecs time2 in
    let '(s, u) := if u <? usecs time1 then (u32 (s - 1), u32 (u + 1000000)) else (s, u) in
    (1, mk_time s (u32 (u - usecs time1))).

(** A timestamp as the clock produces it. *)
Definition wf_time (t : iperf_time) : Prop :=
  is_u32 (secs t) /\ 0 <= usecs t < 1000000.

#[export] Instance wf_time_dec t : Decision (wf_time t).
Proof. unfold wf_time. apply _. Defined.

(** Microseconds since the epoch of the clock, as an integer. *)
Definition us (t : iperf_time) : Z := secs t * 1000000 + usecs t.

Ltac time_solve :=
  repeat match goal with t : iperf_time |- _ => destruct t end;
  unfold wf_time, us in *; cbn [secs usecs] in *.

(** Case analysis on every comparison of the goal. *)
Ltac time_cases :=
  repeat match goal with
  | |- context [?a <? ?b] => destruct (Z.ltb_spec a b)
  | |- context [?a >? ?b] => rewrite (Z.gtb_ltb a b)
  | |- context [?a >=? ?b] => rewrite (Z.geb_leb a b)
  | |- context [?a <=? ?b] => destruct (Z.leb_spec a b)
  | |- context [?a =? ?b] => destruct (Z.eqb_spec a b)
  end; cbn [secs usecs] in *; try lia.

Lemma iperf_time_in_usecs_us t : wf_time t -> iperf_time_in_usecs t = us t.
Proof. intros H. unfold iperf_time_in_usecs, us. time_solve. zlia. Qed.

Lemma us_range t : wf_time t -> 0 <= us t < 2 ^ 32 * 1000000.
Proof. intros H. time_solve. zlia. Qed.

Lemma us_inj t1 t2 : wf_time t1 -> wf_time t2 -> us t1 = us t2 -> t1 = t2.
Proof.
  destruct t1 as [s1 u1], t2 as [s2 u2]. intros H1 H2 E. time_solve.
  f_equal; lia.
Qed.

Lemma time_compare_us t1 t2 :
  wf_time t1 -> wf_time t2 ->
  iperf_time_compare t1 t2 = Z.sgn (us t1 - us t2).
Proof.
  intros H1 H2. unfold iperf_time_compare. time_solve. time_cases;
  symmetry; first [ apply Z.sgn_neg; lia | apply Z.sgn_pos; lia | apply Z.sgn_null; lia ].
Qed.

Lemma time_compare_lt t1 t2 :
  wf_time t1 -> wf_time t2 ->
  (iperf_time_compare t1 t2 <? 0) = (us t1 <? us t2).
Proof.
  intros H1 H2. rewrite time_compare_us by done.
  destruct (Z.ltb_spec (us t1) (us t2)); destruct (Z.ltb_spec (Z.sgn (us t1 - us t2)) 0);
  first [ done | lia ].
Qed.

Lemma time_compare_gt t1 t2 :
  wf_time t1 -> wf_time t2 ->
  (iperf_time_compare t1 t2 >? 0) = (us t2 <? us t1).
Proof.
  intros H1 H2. rewrite time_compare_us by done. rewrite Z.gtb_ltb.
  destruct (Z.ltb_spec (us t2) (us t1)); destruct (Z.ltb_spec 0 (Z.sgn (us t1 - us t2)));
  first [ done | lia ].
Qed.

Lemma add_usecs_us t n :
  wf_time t -> is_u64 n ->
  wf_time (iperf_time_add_usecs t n) /\
  us (iperf_time_add_usecs t n) = (us t + n) mod (2 ^ 32 * 1000000).
Proof.
  intros Ht Hn. unfold iperf_time_add_usecs. time_solve.
  unfold_ints. time_cases; split; cbn [secs usecs];
  Z.to_euclidean_division_equations; lia.
Qed.

Lemma add_usecs_small t n :
  wf_time t -> 0 <= n -> us t + n < 2 ^ 32 * 1000000 ->
  wf_time (iperf_time_add_usecs t n) /\ us (iperf_time_add_usecs t n) = us t + n.
Proof.
  intros Ht Hn Hs. pose proof (us_range t Ht).
  destruct (add_usecs_us t n) as [Hw Hu]; [done|unfold_ints; lia|].
  split; [done|]. rewrite Hu. apply Z.mod_small. lia.
Qed.

Lemma iperf_time_diff_us t1 t2 :
  wf_time t1 -> wf_time t2 ->
  let '(past, d) := iperf_time_diff t1 t2 in
  wf_time d /\ us d = Z.abs (us t1 - us t2) /\
  past = (if us t1 <=? us t2 then 1 else 0).
Proof.
  intros H1 H2. unfold iperf_time_diff. rewrite (time_compare_us _ _ H1 H2).
  time_solve. unfold_ints. time_cases; cbn [secs usecs];
  Z.to_euclidean_division_equations; lia.
Qed.

(** ** Properties *)

(** Adding [n] microseconds to a well-formed timestamp gives a well-formed
    timestamp whose distance from the epoch is the sum modulo the 2^32 seconds
    the [secs] field can hold, whatever 64-bit [n] is. *)
Theorem iperf_time_add_usecs_spec (t : iperf_time) (n : Z) :
  wf_time t -> is_u64 n ->
  wf_time (iperf_time_add_usecs t n) /\
  iperf_time_in_usecs (iperf_time_add_usecs t n)
    = (iperf_time_in_usecs t + n) mod (2 ^ 32 * 1000000).
Proof.
  intros Ht Hn. destruct (add_usecs_us t n Ht Hn) as [Hw Hu].
  by rewrite !iperf_time_in_usecs_us.
Qed.

Lemma iperf_time_add_usecs_witness :
  iperf_time_in_usecs (iperf_time_add_usecs (mk_time 3 999999) 2000002)
    = (iperf_time_in_usecs (mk_time 3 999999) + 2000002) mod (2 ^ 32 * 1000000).
Proof.
  apply (iperf_time_add_usecs_spec (mk_time 3 999999) 2000002);
  [vm_compute; repeat split; congruence | vm_compute; split; congruence].
Defined.

(** iperf_time_diff returns the absolute distance of two timestamps, as a
    well-formed timestamp, and the flag [past] exactly when the first is not
    later than the second. *)
Theorem iperf_time_diff_spec (t1 t2 : iperf_time) :
  wf_time t1 -> wf_time t2 ->
  let '(past, d) := iperf_time_diff t1 t2 in
  wf_time d /\
  iperf_time_in_usecs d = Z.abs (iperf_time_in_usecs t1 - iperf_time_in_usecs t2) /\
  past = (if iperf_time_in_usecs t1 <=? iperf_time_in_usecs t2 then 1 else 0).
Proof.
  intros H1 H2. rewrite !(iperf_time_in_usecs_us) by done.
  pose proof (iperf_time_diff_us t1 t2 H1 H2) as H.
  destruct (iperf_time_diff t1 t2) as [past d]. destruct H as (Hw & Hu & Hp).
  by rewrite iperf_time_in_usecs_us.
Qed.

Lemma iperf_time_diff_witness :
  let '(past, d) := iperf_time_diff (mk_time 5 10) (mk_time 3 20) in
  wf_time d /\ iperf_time_in_usecs d = Z.abs (5000010 - 3000020) /\ past = 0.
Proof.
  apply (iperf_time_diff_spec (mk_time 5 10) (mk_time 3 20));
  vm_compute; repeat split; congruence.
Defined.
