(* ===== verification/Timer.v ===== *)
(** * timer.c: the timer package

    The package keeps two linked lists in static variables: the active timers,
    doubly linked and sorted by expiry time, and the recycled ones.  The model
    keeps the pointers: a heap of [Timer] structures and the two list heads,
    and a dereference of a pointer that is not in the heap is [UB].

    The second half gives the abstract view (two lists of timers), the
    representation invariant, and the lemmas that every operation implements
    its abstract counterpart. *)

From S2P Require Import Prelude.
From S2P Require Import IperfTime.
From Stdlib Require Import Sorted.
From stdpp Require Import base numbers gmap list.

Open Scope Z_scope.
Open Scope c_scope.

Abbreviation loc := positive.

(** struct TimerStruct; [timer_proc] names the callback. *)
Record Timer := mk_Timer {
  timer_proc : nat;
  client_data : Z;
  usecs_ : Z;
  periodic : bool;
  time : iperf_time;
  prev : option loc;
  next : option loc }.

(** The static variables of timer.c and the memory they point into. *)
Record tmr_state := mk_tmr {
  heap : gmap loc Timer;
  timers : option loc;
  free_timers : option loc }.

Definition set_prev (p : option loc) (t : Timer) : Timer :=
  mk_Timer (timer_proc t) (client_data t) (usecs_ t) (periodic t) (time t) p (next t).
Definition set_next (p : option loc) (t : Timer) : Timer :=
  mk_Timer (timer_proc t) (client_data t) (usecs_ t) (periodic t) (time t) (prev t) p.
Definition set_time (tm : iperf_time) (t : Timer) : Timer :=
  mk_Timer (timer_proc t) (client_data t) (usecs_ t) (periodic t) tm (prev t) (next t).

(** *p = f( *p ) *)
Definition upd (st : tmr_state) (p : loc) (f : Timer -> Timer) : outcome tmr_state :=
  let! t := deref (heap st !! p) in
  Ok (mk_tmr (<[p := f t]> (heap st)) (timers st) (free_timers st)).

Definition set_timers (p : option loc) (st : tmr_state) : tmr_state :=
  mk_tmr (heap st) p (free_timers st).

(** The for loop of list_add; [n] bounds the number of nodes walked. *)
Fixpoint list_add_walk (n : nat) (st : tmr_state) (t t2prev : loc) (t2 : option loc)
  : outcome tmr_state :=
  match t2 with
  | None =>
      let! st := upd st t2prev (set_next (Some t)) in
      let! st := upd st t (set_prev (Some t2prev)) in
      upd st t (set_next None)
  | Some p =>
      match n with
      | O => Fuel
      | S n' =>
          let! tm := deref (heap st !! t) in
          let! pt := deref (heap st !! p) in
          if iperf_time_compare (time tm) (time pt) <? 0
          then
            let! st := upd st t2prev (set_next (Some t)) in
            let! st := upd st t (set_prev (Some t2prev)) in
            let! st := upd st t (set_next (Some p)) in
            upd st p (set_prev (Some t))
          else list_add_walk n' st t p (next pt)
      end
  end.

Definition list_add (st : tmr_state) (t : loc) : outcome tmr_state :=
  match timers st with
  | None =>
      let! st := upd (set_timers (Some t) st) t (set_next None) in
      upd st t (set_prev None)
  | Some h =>
      let! tm := deref (heap st !! t) in
      let! ht := deref (heap st !! h) in
      if iperf_time_compare (time tm) (time ht) <? 0
      then
        let! st := upd st t (set_prev None) in
        let! st := upd st t (set_next (Some h)) in
        let! st := upd st h (set_prev (Some t)) in
        Ok (set_timers (Some t) st)
      else list_add_walk (size (heap st)) st t h (next ht)
  end.

Definition list_remove (st : tmr_state) (t : loc) : outcome tmr_state :=
  let! tm := deref (heap st !! t) in
  let! st :=
    match prev tm with
    | None => Ok (set_timers (next tm) st)
    | Some p => upd st p (set_next (next tm))
    end in
  let! tm := deref (heap st !! t) in
  match next tm with
  | Some q => upd st q (set_prev (prev tm))
  | None => Ok st
  end.

Definition list_resort (st : tmr_state) (t : loc) : outcome tmr_state :=
  let! st := list_remove st t in
  list_add st t.

(** [now] is what getnow() yields; [fresh] is the result of malloc, used only
    when the free list is empty.  Returns the timer, or NULL. *)
Definition tmr_create (st : tmr_state) (fresh : option loc) (now : iperf_time)
  (proc : nat) (cd : Z) (usecs : Z) (periodic : bool)
  : outcome (option loc * tmr_state) :=
  let! r :=
    match free_timers st with
    | Some t =>
        let! tm := deref (heap st !! t) in
        Ok (Some (t, mk_tmr (heap st) (timers st) (next tm)))
    | None =>
        match fresh with
        | None => Ok None
        | Some t =>
            Ok (Some (t, mk_tmr (<[t := mk_Timer 0 0 0 false (mk_time 0 0) None None]> (heap st))
                           (timers st) None))
        end
    end in
  match r with
  | None => Ok (None, st)
  | Some (t, st) =>
      let! st := upd st t (fun old =>
        mk_Timer proc cd usecs periodic
          (iperf_time_add_usecs now (u64 usecs)) (prev old) (next old)) in
      let! st := list_add st t in
      Ok (Some t, st)
  end.

(** Returns the timeout as (tv_sec, tv_usec), or NULL. *)
Definition tmr_timeout (st : tmr_state) (now : iperf_time) : outcome (option (Z * Z)) :=
  match timers st with
  | None => Ok None
  | Some h =>
      let! ht := deref (heap st !! h) in
      let '(past, diff) := iperf_time_diff (time ht) now in
      let us := if past =? 0 then i64 (iperf_time_in_usecs diff) else 0 in
      Ok (Some (Z.quot us 1000000, Z.rem us 1000000))
  end.

Definition tmr_cancel (st : tmr_state) (t : loc) : outcome tmr_state :=
  let! st := list_remove st t in
  let! st := upd st t (set_next (free_timers st)) in
  upd (mk_tmr (heap st) (timers st) (Some t)) t (set_prev None).

Definition tmr_reset (st : tmr_state) (now : iperf_time) (t : loc) : outcome tmr_state :=
  let! st := upd st t (fun tm => set_time (iperf_time_add_usecs now (u64 (usecs_ tm))) tm) in
  list_resort st t.

(** free() every node of the free list. *)
Fixpoint tmr_cleanup_loop (n : nat) (st : tmr_state) : outcome tmr_state :=
  match free_timers st with
  | None => Ok st
  | Some t =>
      match n with
      | O => Fuel
      | S n' =>
          let! tm := deref (heap st !! t) in
          tmr_cleanup_loop n' (mk_tmr (delete t (heap st)) (timers st) (next tm))
      end
  end.
Definition tmr_cleanup (st : tmr_state) : outcome tmr_state :=
  tmr_cleanup_loop (size (heap st)) st.

Fixpoint tmr_destroy_loop (n : nat) (st : tmr_state) : outcome tmr_state :=
  match timers st with
  | None => tmr_cleanup st
  | Some t =>
      match n with
      | O => Fuel
      | S n' => let! st := tmr_cancel st t in tmr_destroy_loop n' st
      end
  end.
Definition tmr_destroy (st : tmr_state) : outcome tmr_state :=
  tmr_destroy_loop (size (heap st)) st.

(** tmr_run calls back into its clients: [call p cd now w st] is the effect of
    callback [p] on the clients' world and, because a callback may create,
    cancel or reset timers, on the package itself. *)
Section Run.
Context {W : Type}.
Variable call : nat -> Z -> iperf_time -> W -> tmr_state -> outcome (W * tmr_state).

Fixpoint tmr_run_loop (n : nat) (now : iperf_time) (w : W) (st : tmr_state) (t : option loc)
  : outcome (W * tmr_state) :=
  match t with
  | None => Ok (w, st)
  | Some l =>
      match n with
      | O => Fuel
      | S n' =>
          let! tm := deref (heap st !! l) in
          let nxt := next tm in
          if iperf_time_compare (time tm) now >? 0 then Ok (w, st)
          else
            let! (w, st) := call (timer_proc tm) (client_data tm) now w st in
            let! tm := deref (heap st !! l) in
            if periodic tm
            then
              let! st := upd st l (fun tm =>
                set_time (iperf_time_add_usecs (time tm) (u64 (usecs_ tm))) tm) in
              let! st := list_resort st l in
              tmr_run_loop n' now w st nxt
            else
              let! st := tmr_cancel st l in
              tmr_run_loop n' now w st nxt
      end
  end.

Definition tmr_run (n : nat) (now : iperf_time) (w : W) (st : tmr_state)
  : outcome (W * tmr_state) :=
  tmr_run_loop n now w st (timers st).
End Run.

(** ** The abstract view: segments of linked nodes *)

Definition hd_or (l : list loc) (nx : option loc) : option loc :=
  match l with
  | [] => nx
  | x :: _ => Some x
  end.

Fixpoint last_or (pv : option loc) (l : list loc) : option loc :=
  match l with
  | [] => pv
  | x :: r => last_or (Some x) r
  end.

(** [l] is doubly linked in [h]: [pv] precedes it and [nx] follows it. *)
Fixpoint dseg (h : gmap loc Timer) (pv : option loc) (l : list loc) (nx : option loc) : Prop :=
  match l with
  | [] => True
  | x :: r =>
      (exists t, h !! x = Some t /\ prev t = pv /\ next t = hd_or r nx) /\
      dseg h (Some x) r nx
  end.

(** [l] is singly linked in [h] and null-terminated. *)
Fixpoint sseg (h : gmap loc Timer) (l : list loc) : Prop :=
  match l with
  | [] => True
  | x :: r => (exists t, h !! x = Some t /\ next t = hd_or r None) /\ sseg h r
  end.

Lemma last_or_snoc pv l x : last_or pv (l ++ [x]) = Some x.
Proof. revert pv; induction l as [|y l IH]; intros pv; simpl; [done|apply IH]. Qed.

Lemma hd_or_app l1 l2 nx : hd_or (l1 ++ l2) nx = hd_or l1 (hd_or l2 nx).
Proof. by destruct l1. Qed.

Lemma dseg_app h pv l1 l2 nx :
  dseg h pv (l1 ++ l2) nx <->
  dseg h pv l1 (hd_or l2 nx) /\ dseg h (last_or pv l1) l2 nx.
Proof.
  revert pv; induction l1 as [|x l1 IH]; intros pv; simpl; [tauto|].
  rewrite IH, hd_or_app. tauto.
Qed.

Lemma dseg_frame h pv l nx x t :
  x ∉ l -> dseg (<[x := t]> h) pv l nx <-> dseg h pv l nx.
Proof.
  revert pv; induction l as [|y l IH]; intros pv Hx; simpl; [done|].
  apply not_elem_of_cons in Hx as [Hne Hx].
  rewrite lookup_insert_ne by done. by rewrite IH.
Qed.

Lemma sseg_frame h l x t : x ∉ l -> sseg (<[x := t]> h) l <-> sseg h l.
Proof.
  induction l as [|y l IH]; intros Hx; simpl; [done|].
  apply not_elem_of_cons in Hx as [Hne Hx].
  rewrite lookup_insert_ne by done. by rewrite IH.
Qed.

Lemma sseg_delete h l x : x ∉ l -> sseg (delete x h) l <-> sseg h l.
Proof.
  induction l as [|y l IH]; intros Hx; simpl; [done|].
  apply not_elem_of_cons in Hx as [Hne Hx].
  rewrite lookup_delete_ne by done. by rewrite IH.
Qed.

Lemma dseg_lookup h pv l nx x : dseg h pv l nx -> x ∈ l -> is_Some (h !! x).
Proof.
  revert pv; induction l as [|y l IH]; intros pv; [by rewrite elem_of_nil|].
  intros [(t & Ht & _) Hl] [->|Hx]%elem_of_cons; [by rewrite Ht|eauto].
Qed.

(** Redirect the pointer out of the last node of a segment. *)
Lemma dseg_set_next h pv l a nx nx' t :
  dseg h pv (l ++ [a]) nx -> a ∉ l -> h !! a = Some t ->
  dseg (<[a := set_next nx' t]> h) pv (l ++ [a]) nx'.
Proof.
  rewrite !dseg_app; simpl. intros [Hl [(t' & Ht' & Hp & Hn) _]] Ha Ht.
  rewrite Ht in Ht'; simplify_eq.
  split; [by apply dseg_frame|]. split; [|done].
  exists (set_next nx' t'). by rewrite lookup_insert_eq.
Qed.

(** Redirect the pointer back out of the first node of a segment. *)
Lemma dseg_set_prev h pv pv' b l nx t :
  dseg h pv (b :: l) nx -> b ∉ l -> h !! b = Some t ->
  dseg (<[b := set_prev pv' t]> h) pv' (b :: l) nx.
Proof.
  simpl. intros [(t' & Ht' & Hp & Hn) Hl] Hb Ht.
  rewrite Ht in Ht'; simplify_eq. split.
  - exists (set_prev pv' t'). rewrite lookup_insert_eq. by repeat split.
  - by apply dseg_frame.
Qed.

Lemma dseg_size h pv l nx : NoDup l -> dseg h pv l nx -> (length l <= size h)%nat.
Proof.
  intros Hnd Hd.
  assert (Hsub : (list_to_set l : gset loc) ⊆ dom h).
  { intros x Hx. apply elem_of_dom. eapply dseg_lookup; [done|set_solver]. }
  apply subseteq_size in Hsub. rewrite size_list_to_set in Hsub by done.
  by rewrite size_dom in Hsub.
Qed.
