(* ===== verification/TimerSpec.v ===== *)
(** * timer.c: the operations implement a pair of sorted lists

    [tmr_inv st act fre] says that the pointers of [st] represent the list
    [act] of active timers, sorted by expiry time, and the list [fre] of
    recycled ones.  Every operation of the package preserves the invariant and
    computes the list operation one expects. *)

From S2P Require Import Prelude.
From S2P Require Import IperfTime.
From S2P Require Import Timer.
From Stdlib Require Import Sorted.
From stdpp Require Import base numbers gmap list.

Open Scope Z_scope.

(** The fields that no list operation changes. *)
Definition data (t : Timer) : nat * Z * Z * bool * iperf_time :=
  (timer_proc t, client_data t, usecs_ t, periodic t, time t).

Definition same_data (h h' : gmap loc Timer) : Prop :=
  forall x, data <$> h !! x = data <$> h' !! x.

#[export] Instance same_data_equiv : Equivalence same_data.
Proof.
  split.
  - by intros h x.
  - by intros h h' H x.
  - intros h1 h2 h3 H1 H2 x. by rewrite H1.
Qed.

(** Expiry time of a node, in microseconds. *)
Definition expiry (h : gmap loc Timer) (x : loc) : Z :=
  match h !! x with
  | Some t => us (time t)
  | None => 0
  end.

#[export] Instance expiry_proper : Proper (same_data ==> eq ==> eq) expiry.
Proof.
  intros h h' H x ? <-. specialize (H x). unfold expiry.
  destruct (h !! x), (h' !! x); unfold data in H; simpl in H; congruence.
Qed.

(** Insertion into a list sorted by [f], after the elements of equal key. *)
Fixpoint ins (f : loc -> Z) (x : loc) (l : list loc) : list loc :=
  match l with
  | [] => [x]
  | y :: r => if f x <? f y then x :: y :: r else y :: ins f x r
  end.

Lemma ins_perm f x l : ins f x l ≡ₚ x :: l.
Proof.
  induction l as [|y l IH]; simpl; [done|].
  destruct (f x <? f y); [done|]. rewrite IH. apply Permutation_swap.
Qed.

Lemma ins_ext f g x l :
  (forall y, y ∈ x :: l -> f y = g y) -> ins f x l = ins g x l.
Proof.
  induction l as [|y l IH]; intros H; simpl; [done|].
  rewrite (H x), (H y) by set_solver. rewrite IH; [done|]. intros z Hz; apply H; set_solver.
Qed.

Definition sorted_by (f : loc -> Z) (l : list loc) : Prop :=
  StronglySorted (fun x y => f x <= f y) l.

Lemma ins_sorted f x l : sorted_by f l -> sorted_by f (ins f x l).
Proof.
  unfold sorted_by. induction 1 as [|y l Hs IH Hy]; simpl.
  - repeat constructor.
  - destruct (Z.ltb_spec (f x) (f y)).
    + constructor; [by constructor|]. constructor; [lia|].
      rewrite list.Forall_forall in *. intros z Hz. specialize (Hy z Hz). lia.
    + constructor; [done|]. rewrite ins_perm. constructor; [lia|done].
Qed.

Lemma sorted_by_ext f g l :
  (forall y, y ∈ l -> f y = g y) -> sorted_by f l -> sorted_by g l.
Proof.
  unfold sorted_by. intros H Hs. induction Hs as [|y l Hs IH Hy]; constructor.
  - apply IH. set_solver.
  - rewrite list.Forall_forall in *. intros z Hz.
    rewrite <- (H y), <- (H z) by set_solver. by apply Hy.
Qed.

Lemma sorted_by_app f l1 l2 : sorted_by f (l1 ++ l2) -> sorted_by f l1 /\ sorted_by f l2.
Proof.
  unfold sorted_by. induction l1 as [|x l1 IH]; simpl; [split; [constructor|done]|].
  intros H. inversion H as [|? ? Hs Hx]; subst. destruct (IH Hs) as [H1 H2].
  split; [|done]. constructor; [done|]. by apply Forall_app in Hx as [? _].
Qed.

Lemma sorted_by_remove f l1 x l2 : sorted_by f (l1 ++ x :: l2) -> sorted_by f (l1 ++ l2).
Proof.
  unfold sorted_by. induction l1 as [|y l1 IH]; simpl; intros H.
  - by inversion H.
  - inversion H as [|? ? Hs Hx]; subst. constructor; [auto|].
    apply Forall_app in Hx as [? Hx']. inversion Hx'; subst. by apply Forall_app.
Qed.

(** ** The representation invariant *)

Record tmr_inv (st : tmr_state) (act fre : list loc) : Prop := mk_inv {
  inv_head : timers st = hd_or act None;
  inv_dseg : dseg (heap st) None act None;
  inv_fhead : free_timers st = hd_or fre None;
  inv_sseg : sseg (heap st) fre;
  inv_nodup : NoDup (act ++ fre);
  inv_wf : forall x t, x ∈ act -> heap st !! x = Some t -> wf_time (time t);
  inv_sorted : sorted_by (expiry (heap st)) act }.

Lemma upd_ok st p t f :
  heap st !! p = Some t ->
  upd st p f = Ok (mk_tmr (<[p := f t]> (heap st)) (timers st) (free_timers st)).
Proof. intros H. unfold upd. by rewrite H. Qed.

(** Simplify look-ups in updated heaps; the side conditions are disequalities
    of nodes in context. *)
Ltac hsimpl :=
  repeat first
    [ progress cbn [heap timers free_timers obind deref set_timers] in *
    | rewrite lookup_insert_eq
    | rewrite lookup_insert_ne by done
    | rewrite insert_insert_eq ].

Lemma same_data_insert h x t t' :
  h !! x = Some t -> data t' = data t -> same_data h (<[x := t']> h).
Proof.
  intros Hx Hd y. destruct (decide (x = y)) as [<-|Hne].
  - rewrite lookup_insert_eq, Hx. simpl. by rewrite Hd.
  - by rewrite lookup_insert_ne.
Qed.

Ltac solve_same_data :=
  repeat (etransitivity; [|eapply same_data_insert; [hsimpl; eassumption || reflexivity|reflexivity]]);
  try reflexivity.

(** Linking [x] between [a] and what follows it. *)
Lemma splice_dseg h l1 a x l2 ta tx :
  dseg h None (l1 ++ a :: l2) None -> NoDup (l1 ++ a :: l2) ->
  x ∉ l1 ++ a :: l2 -> h !! a = Some ta -> h !! x = Some tx ->
  dseg (<[x := set_next (hd_or l2 None) (set_prev (Some a) tx)]>
         (<[a := set_next (Some x) ta]> h)) None (l1 ++ [a; x]) (hd_or l2 None) /\
  dseg (<[x := set_next (hd_or l2 None) (set_prev (Some a) tx)]>
         (<[a := set_next (Some x) ta]> h)) (Some a) l2 None.
Proof.
  intros Hd Hnd Hx Ha Htx.
  assert (E : l1 ++ a :: l2 = (l1 ++ [a]) ++ l2) by by rewrite <- app_assoc.
  rewrite E in *. apply dseg_app in Hd as [Hd1 Hd2].
  rewrite last_or_snoc in Hd2.
  apply NoDup_app in Hnd as (Hnd1 & Hdis & Hnd2).
  apply NoDup_app in Hnd1 as (_ & Hal & _).
  assert (a ∉ l1) by (intros Hin; apply (Hal a Hin); set_solver).
  assert (a ∉ l2) by (apply Hdis; set_solver).
  assert (x ∉ l1 ++ [a]) by set_solver. assert (x ∉ l2) by set_solver.
  split; [|by rewrite !dseg_frame].
  replace (l1 ++ [a; x]) with ((l1 ++ [a]) ++ [x]) by by rewrite <- app_assoc.
  apply dseg_app; split.
  - rewrite dseg_frame by done. by apply dseg_set_next with (nx := hd_or l2 None).
  - rewrite last_or_snoc. simpl. split; [|done].
    exists (set_next (hd_or l2 None) (set_prev (Some a) tx)). by rewrite lookup_insert_eq.
Qed.

(** What a list operation leaves alone: data everywhere, links outside [l]. *)
Definition frame (l : list loc) (h h' : gmap loc Timer) : Prop :=
  same_data h h' /\ forall y, y ∉ l -> h' !! y = h !! y.

Lemma frame_insert l h x t t' :
  h !! x = Some t -> data t' = data t -> x ∈ l -> frame l h (<[x := t']> h).
Proof.
  intros Hx Hd Hl. split; [by eapply same_data_insert|].
  intros y Hy. rewrite lookup_insert_ne; [done|]. intros ->. done.
Qed.

Lemma frame_refl l h : frame l h h.
Proof. split; [reflexivity|done]. Qed.

Lemma frame_trans l h1 h2 h3 : frame l h1 h2 -> frame l h2 h3 -> frame l h1 h3.
Proof.
  intros [D1 F1] [D2 F2]. split; [by etransitivity|].
  intros y Hy. by rewrite F2, F1.
Qed.

Lemma frame_mono l l' h h' : l ⊆ l' -> frame l h h' -> frame l' h h'.
Proof. intros Hl [D F]. split; [done|]. intros y Hy. apply F. set_solver. Qed.

(** Case the pattern of an [obind] on an [upd] whose target is known. *)
Ltac do_upd :=
  match goal with
  | |- context [upd ?st ?p ?f] =>
      erewrite (upd_ok st p _ f) by (hsimpl; first [eassumption | reflexivity]); hsimpl
  end.

Lemma list_add_walk_spec n : forall st x tx l1 a l2 ta,
  dseg (heap st) None (l1 ++ a :: l2) None -> NoDup (l1 ++ a :: l2) ->
  x ∉ l1 ++ a :: l2 ->
  heap st !! x = Some tx -> heap st !! a = Some ta ->
  wf_time (time tx) ->
  (forall y t, y ∈ l2 -> heap st !! y = Some t -> wf_time (time t)) ->
  (length l2 <= n)%nat ->
  exists h',
    list_add_walk n st x a (hd_or l2 None) = Ok (mk_tmr h' (timers st) (free_timers st)) /\
    dseg h' None (l1 ++ a :: ins (expiry (heap st)) x l2) None /\
    frame (x :: l1 ++ a :: l2) (heap st) h'.
Proof.
  induction n as [|n IH]; intros st x tx l1 a l2 ta Hd Hnd Hx Htx Hta Hwx Hwf Hlen;
  destruct l2 as [|b l2]; simpl in Hlen; try lia.
  1,2: destruct (splice_dseg _ _ _ _ _ _ _ Hd Hnd Hx Hta Htx) as [H1 _];
    assert (a <> x) by set_solver;
    simpl; repeat do_upd;
    eexists; split; [reflexivity|]; split;
      [exact H1 | eapply frame_trans; eapply frame_insert; hsimpl; eauto; set_solver].
  cbn [list_add_walk hd_or]. rewrite Htx; cbn [obind deref].
  destruct (dseg_lookup _ _ _ _ b Hd) as [tb Htb]; [set_solver|].
  rewrite Htb; cbn [obind deref].
  assert (Hwb : wf_time (time tb)) by (eapply Hwf; [|done]; set_solver).
  rewrite time_compare_lt by done.
  assert (Ef : (expiry (heap st) x <? expiry (heap st) b) = (us (time tx) <? us (time tb))).
  { unfold expiry. by rewrite Htx, Htb. }
  assert (Ea : (l1 ++ [a]) ++ b :: l2 = l1 ++ a :: b :: l2) by by rewrite <- app_assoc.
  cbn [ins]. rewrite Ef. destruct (us (time tx) <? us (time tb)).
  - destruct (splice_dseg _ _ _ _ _ _ _ Hd Hnd Hx Hta Htx) as [H1 H2]; cbn [hd_or] in *.
    rewrite <- Ea in Hnd. apply NoDup_app in Hnd as (Hn1 & Hdis & Hn2).
    apply NoDup_cons in Hn2 as [Hbl _].
    assert (a <> x) by set_solver. assert (b <> x) by set_solver.
    assert (a <> b) by set_solver. assert (b ∉ l1 ++ [a; x]) by set_solver.
    repeat do_upd. eexists; split; [reflexivity|]; split.
    + replace (l1 ++ a :: x :: b :: l2) with ((l1 ++ [a; x]) ++ b :: l2) by by rewrite <- app_assoc.
      apply dseg_app; split; [by rewrite dseg_frame|].
      replace (l1 ++ [a; x]) with ((l1 ++ [a]) ++ [x]) by by rewrite <- app_assoc.
      rewrite last_or_snoc. apply dseg_set_prev with (pv := Some a); [done|done|by hsimpl].
    + eapply frame_trans; [eapply frame_trans|]; eapply frame_insert; hsimpl; eauto; set_solver.
  - destruct (IH st x tx (l1 ++ [a]) b l2 tb) as (h' & E & Hd' & Hf);
      rewrite ?Ea; auto; [set_solver|lia|].
    assert (Hnb : next tb = hd_or l2 None).
    { rewrite <- Ea in Hd. apply dseg_app in Hd as [_ [(t' & Ht' & _ & Hn) _]].
      rewrite Htb in Ht'. by simplify_eq. }
    rewrite Hnb. exists h'. split; [exact E|]. split.
    + by rewrite <- app_assoc in Hd'.
    + by rewrite Ea in Hf.
Qed.

Lemma list_add_spec st x tx act :
  timers st = hd_or act None -> dseg (heap st) None act None -> NoDup act ->
  x ∉ act -> heap st !! x = Some tx -> wf_time (time tx) ->
  (forall y t, y ∈ act -> heap st !! y = Some t -> wf_time (time t)) ->
  exists h',
    list_add st x
      = Ok (mk_tmr h' (hd_or (ins (expiry (heap st)) x act) None) (free_timers st)) /\
    dseg h' None (ins (expiry (heap st)) x act) None /\
    frame (x :: act) (heap st) h'.
Proof.
  intros Hh Hd Hnd Hx Htx Hwx Hwf. unfold list_add. rewrite Hh.
  destruct act as [|a l]; cbn [hd_or].
  - repeat do_upd. eexists; split; [reflexivity|]. split.
    + split; [|done]. eexists; rewrite lookup_insert_eq. by repeat split.
    + eapply frame_insert; [done|done|set_solver].
  - destruct (dseg_lookup _ _ _ _ a Hd) as [ta Hta]; [set_solver|].
    rewrite Htx, Hta. cbn [obind deref].
    assert (Hwa : wf_time (time ta)) by (eapply Hwf; [|done]; set_solver).
    rewrite time_compare_lt by done. cbn [ins].
    assert (Ef : (expiry (heap st) x <? expiry (heap st) a) = (us (time tx) <? us (time ta))).
    { unfold expiry. by rewrite Htx, Hta. }
    rewrite Ef. apply NoDup_cons in Hnd as Hnd'. destruct Hnd' as [Hal Hnd'].
    assert (x <> a) by set_solver.
    destruct (us (time tx) <? us (time ta)); cbn [hd_or].
    + repeat do_upd. eexists; split; [reflexivity|]. split.
      * cbn [dseg]. split.
        -- eexists; hsimpl. by repeat split.
        -- apply (dseg_set_prev _ None (Some x) a l None ta); [|done|by hsimpl].
           by rewrite dseg_frame.
      * eapply frame_trans; eapply frame_insert; hsimpl; eauto; set_solver.
    + destruct (list_add_walk_spec (size (heap st)) st x tx [] a l ta) as (h' & E & Hd' & Hf);
        simpl; auto.
      { intros y t Hy; apply Hwf; set_solver. }
      { apply dseg_size in Hd; [simpl in Hd; lia|done]. }
      assert (Hna : next ta = hd_or l None).
      { destruct Hd as [(t' & Ht' & _ & Hn) _]. rewrite Hta in Ht'. by simplify_eq. }
      rewrite Hna, E. exists h'. by rewrite Hh.
Qed.

Lemma list_remove_spec st l1 x l2 :
  timers st = hd_or (l1 ++ x :: l2) None -> dseg (heap st) None (l1 ++ x :: l2) None ->
  NoDup (l1 ++ x :: l2) ->
  exists h',
    list_remove st x = Ok (mk_tmr h' (hd_or (l1 ++ l2) None) (free_timers st)) /\
    dseg h' None (l1 ++ l2) None /\ frame (l1 ++ l2) (heap st) h'.
Proof.
  intros Hh Hd Hnd. unfold list_remove.
  apply NoDup_app in Hnd as (Hn1 & Hdis & [Hx Hn2]%NoDup_cons).
  apply dseg_app in Hd as [Hd1 [(tx & Htx & Hp & Hn) Hd2]].
  cbn [hd_or] in Hd1. rewrite Htx. cbn [obind deref]. rewrite Hp, Hn.
  assert (Hx1 : x ∉ l1) by (intros Hin; apply (Hdis x Hin); set_solver).
  assert (Hdis' : forall y, y ∈ l1 -> y ∉ l2) by (intros y Hy ?; apply (Hdis y Hy); set_solver).
  destruct l1 as [|p l1 _] using rev_ind; cbn [last_or app] in *;
  destruct l2 as [|b l2]; cbn [hd_or] in *.
  - hsimpl. rewrite Htx. hsimpl. rewrite Hn. exists (heap st).
    by repeat split; try apply frame_refl.
  - destruct (dseg_lookup _ _ _ _ b Hd2) as [tb Htb]; [set_solver|].
    apply NoDup_cons in Hn2 as [Hbl _].
    hsimpl. rewrite Htx. hsimpl. rewrite Hn, Hp. repeat do_upd.
    eexists; split; [reflexivity|]. split.
    + by apply (dseg_set_prev _ (Some x) None).
    + eapply frame_insert; [done|done|set_solver].
  - rewrite last_or_snoc in *. rewrite app_nil_r.
    destruct (dseg_lookup _ _ _ _ p Hd1) as [tp Htp]; [set_solver|].
    apply NoDup_app in Hn1 as (_ & Hpl & _).
    assert (p <> x) by set_solver.
    repeat do_upd. rewrite Htx. hsimpl. rewrite Hn.
    eexists; split; [rewrite Hh, !hd_or_app; by destruct l1|]. split.
    + eapply dseg_set_next; [exact Hd1| |done]. intros Hin; apply (Hpl p Hin); set_solver.
    + eapply frame_insert; [done|done|set_solver].
  - rewrite last_or_snoc in *.
    destruct (dseg_lookup _ _ _ _ p Hd1) as [tp Htp]; [set_solver|].
    destruct (dseg_lookup _ _ _ _ b Hd2) as [tb Htb]; [set_solver|].
    apply NoDup_app in Hn1 as (_ & Hpl & _). apply NoDup_cons in Hn2 as [Hbl _].
    assert (p <> x) by set_solver. assert (b <> x) by set_solver.
    assert (p <> b) by (intros ->; apply (Hdis' b); set_solver).
    assert (Hpb : p ∉ b :: l2) by (apply Hdis'; set_solver).
    assert (Hbp : b ∉ l1 ++ [p]) by (intros Hin; apply (Hdis' b Hin); set_solver).
    repeat do_upd. rewrite Htx. hsimpl. rewrite Hn, Hp. repeat do_upd.
    eexists; split; [rewrite Hh, !hd_or_app; by destruct l1|]. split.
    + apply dseg_app; split.
      * rewrite dseg_frame by done. eapply dseg_set_next; [exact Hd1| |done].
        intros Hin; apply (Hpl p Hin); set_solver.
      * rewrite last_or_snoc. apply (dseg_set_prev _ (Some x)); [by rewrite dseg_frame|done|by hsimpl].
    + eapply frame_trans; eapply frame_insert; hsimpl; eauto; set_solver.
Qed.

(** ** The operations preserve the invariant *)

Lemma sseg_ext h h' l : (forall y, y ∈ l -> h' !! y = h !! y) -> sseg h l -> sseg h' l.
Proof.
  induction l as [|x l IH]; intros He; simpl; [done|].
  intros [Hx Hl]. rewrite He by set_solver. split; [done|].
  apply IH; [|done]. intros y Hy; apply He; set_solver.
Qed.

Lemma frame_wf l h h' (act : list loc) :
  frame l h h' ->
  (forall x t, x ∈ act -> h !! x = Some t -> wf_time (time t)) ->
  forall x t, x ∈ act -> h' !! x = Some t -> wf_time (time t).
Proof.
  intros [Hd _] Hw x t Hx Ht. specialize (Hd x). rewrite Ht in Hd.
  destruct (h !! x) as [t0|] eqn:E; unfold data in Hd; simpl in Hd; simplify_eq.
  match goal with H : time _ = time _ |- _ => rewrite <- H end. eauto.
Qed.

Lemma sorted_same_data h h' l :
  same_data h h' -> sorted_by (expiry h) l -> sorted_by (expiry h') l.
Proof. intros Hd. apply sorted_by_ext. intros y _. by rewrite Hd. Qed.

Lemma inv_disjoint st act fre : tmr_inv st act fre -> forall y, y ∈ fre -> y ∉ act.
Proof.
  intros Hi y Hf Ha.
  pose proof (inv_nodup _ _ _ Hi) as (_ & Hd & _)%NoDup_app. by apply (Hd y).
Qed.

Lemma tmr_cancel_inv st l1 x l2 fre :
  tmr_inv st (l1 ++ x :: l2) fre ->
  exists st', tmr_cancel st x = Ok st' /\
    tmr_inv st' (l1 ++ l2) (x :: fre) /\ same_data (heap st) (heap st').
Proof.
  intros Hi. pose proof (inv_disjoint _ _ _ Hi) as Hdis.
  destruct Hi as [Hh Hd Hf Hs Hnd Hw Hso].
  pose proof Hnd as (Hna & _ & Hnf)%NoDup_app.
  destruct (list_remove_spec st l1 x l2) as (h' & E & Hd' & Hfr); [done..|].
  unfold tmr_cancel. rewrite E; hsimpl.
  destruct (dseg_lookup _ _ _ _ x Hd) as [tx Htx]; [set_solver|].
  pose proof Hna as (_ & Hx1 & [Hx2 _]%NoDup_cons)%NoDup_app.
  assert (Hx : x ∉ l1 ++ l2).
  { intros [Hin|Hin]%elem_of_app; [apply (Hx1 x Hin); set_solver|done]. }
  assert (Hxf : x ∉ fre) by (intros Hin; apply (Hdis x Hin); set_solver).
  assert (Htx' : h' !! x = Some tx) by (rewrite (proj2 Hfr); done).
  repeat do_upd. eexists; split; [reflexivity|]. split; [split; hsimpl|].
  - done.
  - by rewrite dseg_frame.
  - done.
  - cbn [sseg]. split; [eexists; rewrite lookup_insert_eq; by rewrite Hf|].
    rewrite sseg_frame by done. eapply sseg_ext; [|exact Hs].
    intros y Hy. apply (proj2 Hfr). specialize (Hdis y Hy). set_solver.
  - rewrite Permutation_app_comm. cbn. rewrite <- Permutation_middle in Hnd.
    cbn in Hnd. apply NoDup_cons in Hnd as [Hn1 Hn2].
    apply NoDup_cons. rewrite Permutation_app_comm. split; [set_solver|done].
  - intros y t Hy. rewrite lookup_insert_ne by (intros ->; done).
    eapply frame_wf; [exact Hfr|exact Hw|set_solver].
  - eapply sorted_same_data; [|eapply sorted_by_remove; exact Hso].
    etransitivity; [exact (proj1 Hfr)|]. by eapply same_data_insert.
  - etransitivity; [exact (proj1 Hfr)|]. by eapply same_data_insert.
Qed.

(** Changing the expiry time of an active timer and sorting it in again. *)
Lemma retime_inv st l1 x l2 fre tx tm :
  tmr_inv st (l1 ++ x :: l2) fre -> heap st !! x = Some tx -> wf_time tm ->
  let h1 := <[x := set_time tm tx]> (heap st) in
  exists st', list_resort (mk_tmr h1 (timers st) (free_timers st)) x = Ok st' /\
    tmr_inv st' (ins (expiry h1) x (l1 ++ l2)) fre /\ same_data h1 (heap st').
Proof.
  intros Hi Htx Hwm h1. pose proof (inv_disjoint _ _ _ Hi) as Hdis.
  destruct Hi as [Hh Hd Hf Hs Hnd Hw Hso].
  pose proof Hnd as (Hna & _ & Hnf)%NoDup_app.
  pose proof Hna as (_ & Hx1 & [Hx2 _]%NoDup_cons)%NoDup_app.
  assert (Hx : x ∉ l1 ++ l2).
  { intros [Hin|Hin]%elem_of_app; [apply (Hx1 x Hin); set_solver|done]. }
  assert (Hd1 : dseg h1 None (l1 ++ x :: l2) None).
  { apply dseg_app in Hd as [Hda [(t & Ht & Hp & Hn) Hdb]]. simplify_eq.
    apply dseg_app; split; [apply dseg_frame; [set_solver|done]|].
    split; [exists (set_time tm t); unfold h1; by rewrite lookup_insert_eq|].
    apply dseg_frame; [set_solver|done]. }
  destruct (list_remove_spec (mk_tmr h1 (timers st) (free_timers st)) l1 x l2)
    as (h2 & E & Hd2 & Hfr2); [done..|].
  unfold list_resort. rewrite E; hsimpl.
  assert (Htx2 : h2 !! x = Some (set_time tm tx)).
  { rewrite (proj2 Hfr2) by done. unfold h1. by hsimpl. }
  assert (Hw1 : forall y t, y ∈ l1 ++ l2 -> h1 !! y = Some t -> wf_time (time t)).
  { intros y t Hy. unfold h1. rewrite lookup_insert_ne by (intros ->; done).
    apply Hw. set_solver. }
  assert (Hnd12 : NoDup (l1 ++ l2)).
  { rewrite <- Permutation_middle in Hna. by apply NoDup_cons in Hna as [_ ?]. }
  destruct (list_add_spec (mk_tmr h2 (hd_or (l1 ++ l2) None) (free_timers st)) x
              (set_time tm tx) (l1 ++ l2)) as (h3 & E3 & Hd3 & Hfr3); [try done..|].
  { intros y t Hy. eapply frame_wf; [exact Hfr2|exact Hw1|done]. }
  rewrite E3. hsimpl. eexists; split; [reflexivity|].
  assert (Hsd : same_data h1 h3).
  { etransitivity; [exact (proj1 Hfr2)|exact (proj1 Hfr3)]. }
  assert (Ei : ins (expiry h2) x (l1 ++ l2) = ins (expiry h1) x (l1 ++ l2)).
  { apply ins_ext. intros y _. by rewrite <- (proj1 Hfr2). }
  rewrite Ei in *. split; [split; hsimpl|done]; [done|done|done|..].
  - eapply sseg_ext; [|exact Hs]. intros y Hy. specialize (Hdis y Hy).
    rewrite (proj2 Hfr3), (proj2 Hfr2) by set_solver. unfold h1.
    rewrite lookup_insert_ne; [done|set_solver].
  - rewrite ins_perm. cbn. by rewrite <- Permutation_middle in Hnd.
  - intros y t. rewrite ins_perm. intros [->|Hy]%elem_of_cons Ht.
    + specialize (Hsd x). rewrite Ht in Hsd. unfold h1 in Hsd.
      rewrite lookup_insert_eq in Hsd. unfold data in Hsd; simpl in Hsd. by simplify_eq.
    + eapply (frame_wf (x :: l1 ++ l2) h1); [|exact Hw1|exact Hy|exact Ht].
      eapply frame_trans; [|exact Hfr3]. eapply frame_mono; [|exact Hfr2]. set_solver.
  - eapply sorted_same_data; [exact Hsd|]. apply ins_sorted.
    eapply sorted_by_ext; [|eapply sorted_by_remove; exact Hso].
    intros y Hy. unfold expiry, h1. rewrite lookup_insert_ne; [done|]. by intros ->.
Qed.

Lemma tmr_reset_inv st l1 x l2 fre tx now :
  tmr_inv st (l1 ++ x :: l2) fre -> heap st !! x = Some tx ->
  wf_time now -> 0 <= usecs_ tx -> us now + usecs_ tx < 2 ^ 32 * 1000000 ->
  let h1 := <[x := set_time (iperf_time_add_usecs now (usecs_ tx)) tx]> (heap st) in
  exists st', tmr_reset st now x = Ok st' /\
    tmr_inv st' (ins (expiry h1) x (l1 ++ l2)) fre /\ same_data h1 (heap st').
Proof.
  intros Hi Htx Hn H0 Hs. destruct (add_usecs_small now (usecs_ tx)) as [Hw _]; [done..|].
  pose proof (us_range now Hn).
  unfold tmr_reset. repeat do_upd. rewrite u64_small by (unfold_ints; lia).
  by apply retime_inv.
Qed.

(** A timer written to the node [t] outside the active list, and linked in. *)
Lemma link_new_inv st act fre t tm :
  timers st = hd_or act None -> dseg (heap st) None act None ->
  free_timers st = hd_or fre None -> sseg (heap st) fre ->
  NoDup (t :: act ++ fre) ->
  (forall x tx, x ∈ act -> heap st !! x = Some tx -> wf_time (time tx)) ->
  sorted_by (expiry (heap st)) act ->
  heap st !! t = Some tm -> wf_time (time tm) ->
  exists st', list_add st t = Ok st' /\ same_data (heap st) (heap st') /\
    tmr_inv st' (ins (expiry (heap st')) t act) fre.
Proof.
  intros Hh Hd Hf Hs Hnd Hw Hso Htm Hwt.
  apply NoDup_cons in Hnd as [Ht Hnd]. pose proof Hnd as (Hna & Hdis & _)%NoDup_app.
  destruct (list_add_spec st t tm act) as (h' & E & Hd' & Hfr); [set_solver..|].
  rewrite E. eexists; split; [reflexivity|]. hsimpl. split; [exact (proj1 Hfr)|].
  assert (Ei : ins (expiry (heap st)) t act = ins (expiry h') t act).
  { apply ins_ext. intros y _. by rewrite (proj1 Hfr). }
  rewrite Ei in *. split; hsimpl; [done|done|done|..].
  - eapply sseg_ext; [|exact Hs]. intros y Hy. apply (proj2 Hfr).
    intros [->|Hin]%elem_of_cons; [set_solver|]. by apply (Hdis y).
  - rewrite ins_perm. cbn. by apply NoDup_cons.
  - intros y ty. rewrite ins_perm. intros Hy. eapply frame_wf; [exact Hfr| |exact Hy].
    intros z tz [->|Hz]%elem_of_cons Htz; [by simplify_eq|eauto].
  - apply ins_sorted. eapply sorted_same_data; [exact (proj1 Hfr)|done].
Qed.

Lemma tmr_create_inv st act fre fresh now proc cd n per :
  tmr_inv st act fre -> wf_time now -> 0 <= n -> us now + n < 2 ^ 32 * 1000000 ->
  (fre = [] -> exists l, fresh = Some l /\ heap st !! l = None) ->
  exists t st',
    tmr_create st fresh now proc cd n per = Ok (Some t, st') /\
    hd_or fre fresh = Some t /\
    (exists tm, heap st' !! t = Some tm /\
       data tm = (proc, cd, n, per, iperf_time_add_usecs now n)) /\
    (forall y, y <> t -> data <$> heap st' !! y = data <$> heap st !! y) /\
    tmr_inv st' (ins (expiry (heap st')) t act) (tail fre).
Proof.
  intros [Hh Hd Hf Hs Hnd Hw Hso] Hnow Hn Hsm Hfresh.
  destruct (add_usecs_small now n) as [Hwt _]; [done..|].
  pose proof (us_range now Hnow). unfold tmr_create.
  rewrite u64_small by (unfold_ints; lia). rewrite Hf.
  (* the node the structure is written to, and the state it is written in *)
  assert (Hnode : exists t h0 t0,
    match hd_or fre None with
    | Some t => (let! tm := deref (heap st !! t) in
        Ok (Some (t, mk_tmr (heap st) (timers st) (next tm))))%c
    | None => match fresh with
        | None => Ok None
        | Some t => Ok (Some (t, mk_tmr (<[t := mk_Timer 0 0 0 false (mk_time 0 0) None None]> (heap st)) (timers st) None))
        end
    end = Ok (Some (t, mk_tmr h0 (timers st) (hd_or (tail fre) None))) /\
    hd_or fre fresh = Some t /\ h0 !! t = Some t0 /\ t ∉ act ++ tail fre /\
    (forall y, y <> t -> h0 !! y = heap st !! y)).
  { destruct fre as [|t fre]; cbn [hd_or tail].
    - destruct (Hfresh eq_refl) as (t & -> & Ht).
      exists t. do 2 eexists. split; [reflexivity|]. split; [done|].
      split; [by rewrite lookup_insert_eq|]. rewrite app_nil_r. split.
      + intros Hin. destruct (dseg_lookup _ _ _ _ t Hd Hin). congruence.
      + intros y Hy. by rewrite lookup_insert_ne.
    - destruct Hs as [(t0 & Ht0 & Hn0) _]. rewrite Ht0; cbn [obind deref]. rewrite Hn0.
      exists t, (heap st), t0. repeat split; try done.
      rewrite <- Permutation_middle in Hnd. by apply NoDup_cons in Hnd as [? _]. }
  destruct Hnode as (t & h0 & t0 & E & Hhd & Ht0 & Hnin & Hoth).
  rewrite E. cbn [obind]. repeat do_upd.
  assert (Hagree : forall y, y ∈ act ++ tail fre ->
    (<[t:=mk_Timer proc cd n per (iperf_time_add_usecs now n) (prev t0) (next t0)]> h0) !! y
      = heap st !! y).
  { intros y Hy. rewrite lookup_insert_ne by (intros ->; done). apply Hoth. by intros ->. }
  edestruct (link_new_inv (mk_tmr (<[t:=mk_Timer proc cd n per (iperf_time_add_usecs now n)
      (prev t0) (next t0)]> h0) (timers st) (hd_or (tail fre) None)) act (tail fre) t)
    as (st' & E' & Hsd & Hi); hsimpl; [done| |done| | | | |done|done|].
  - rewrite dseg_frame by set_solver. clear -Hd Hoth Hnin.
    assert (Hall : forall y, y ∈ act -> h0 !! y = heap st !! y).
    { intros y Hy. apply Hoth. intros ->. set_solver. }
    clear Hoth Hnin. revert Hd Hall. generalize (@None loc) at 1 3.
    induction act as [|x act IH]; intros pv; cbn [dseg]; [done|].
    intros [Hx Hl] Hall. rewrite Hall by set_solver. split; [done|].
    apply IH; [done|]. intros y Hy; apply Hall; set_solver.
  - eapply sseg_ext; [intros y Hy; apply Hagree; set_solver|].
    destruct fre as [|f fre]; [done|]. exact (proj2 Hs).
  - apply NoDup_cons. split; [done|].
    destruct fre as [|f fre]; [done|].
    rewrite <- Permutation_middle in Hnd. exact (proj2 (proj1 (NoDup_cons _ _) Hnd)).
  - intros x tx Hx. rewrite Hagree by set_solver. by apply Hw.
  - eapply sorted_by_ext; [|exact Hso]. intros y Hy. unfold expiry.
    by rewrite Hagree by set_solver.
  - rewrite E'. cbn [obind]. exists t, st'. split; [done|]. split; [done|]. split; [|split; [|done]].
    + pose proof (Hsd t) as Ht. rewrite lookup_insert_eq in Ht.
      destruct (heap st' !! t) as [tm|]; simpl in Ht; [|done].
      exists tm. split; [done|]. unfold data in *; simpl in Ht. congruence.
    + intros y Hy. rewrite <- (Hsd y). rewrite lookup_insert_ne by done. by rewrite Hoth.
Qed.
