(* ===== verification/TimerRun.v ===== *)
(** * timer.c: running the timers, the timeout, and tearing down

    [tmr_run] walks the list while the list changes under it: a periodic timer
    is unlinked, given a later time and sorted in again, possibly ahead of the
    walk.  The lemmas below follow the walk and show that it ends. *)

From S2P Require Import Prelude.
From S2P Require Import IperfTime.
From S2P Require Import Timer.
From S2P Require Import TimerSpec.
From Stdlib Require Import Sorted.
From stdpp Require Import base numbers gmap list.

Open Scope Z_scope.

Lemma ins_app_ge f x pre r :
  (forall y, y ∈ pre -> f y <= f x) -> ins f x (pre ++ r) = pre ++ ins f x r.
Proof.
  induction pre as [|y pre IH]; intros H; simpl; [done|].
  destruct (Z.ltb_spec (f x) (f y)) as [Hlt|_].
  - specialize (H y ltac:(set_solver)). lia.
  - rewrite IH; [done|]. intros z Hz; apply H; set_solver.
Qed.

Lemma sorted_by_cons_le f x l : sorted_by f (x :: l) -> forall y, y ∈ l -> f x <= f y.
Proof.
  intros H y Hy. inversion H as [|? ? _ Hall]; subst.
  rewrite Forall_forall in Hall. by apply Hall.
Qed.

Lemma sorted_by_app_le f l1 l2 :
  sorted_by f (l1 ++ l2) -> forall y z, y ∈ l1 -> z ∈ l2 -> f y <= f z.
Proof.
  induction l1 as [|x l1 IH]; intros H y z Hy Hz; [by apply elem_of_nil in Hy|].
  apply elem_of_cons in Hy as [->|Hy].
  - eapply (sorted_by_cons_le f x (l1 ++ l2)); [exact H|set_solver].
  - apply IH; [|done|done]. by inversion H.
Qed.

(** How many more times, at most, a timer can be fired up to [now]. *)
Definition cost (h : gmap loc Timer) (now : Z) (x : loc) : nat :=
  Z.to_nat (now - expiry h x + 1).
Definition run_cost (h : gmap loc Timer) (now : Z) (l : list loc) : nat :=
  sum_list (cost h now <$> l).

Lemma run_cost_perm h now l l' : l ≡ₚ l' -> run_cost h now l = run_cost h now l'.
Proof. intros H. unfold run_cost. by rewrite H. Qed.

Lemma run_cost_ext h h' now l :
  (forall x, x ∈ l -> expiry h x = expiry h' x) -> run_cost h now l = run_cost h' now l.
Proof.
  intros H. unfold run_cost. f_equal. apply list_fmap_ext. intros i x Hx.
  unfold cost. rewrite H; [done|]. by eapply list_elem_of_lookup_2.
Qed.

(** Whether a node is a one-shot timer. *)
Definition one_shot (h : gmap loc Timer) (x : loc) : Prop :=
  exists t, h !! x = Some t /\ periodic t = false.

(** Every periodic timer of [l] has a period that moves it forward. *)
Definition periods_ok (h : gmap loc Timer) (now : iperf_time) (l : list loc) : Prop :=
  forall x t, x ∈ l -> h !! x = Some t -> periodic t = true ->
    1 <= usecs_ t /\ us now + usecs_ t < 2 ^ 32 * 1000000.

(** A callback that does not touch the timers. *)
Definition quiet {W} (cb : nat -> Z -> iperf_time -> W -> W)
  : nat -> Z -> iperf_time -> W -> tmr_state -> outcome (W * tmr_state) :=
  fun p cd now w st => Ok (cb p cd now w, st).

(** [call] behaves like that for the timers of [l]. *)
Definition quiet_on {W} (call : nat -> Z -> iperf_time -> W -> tmr_state -> outcome (W * tmr_state))
  (cb : nat -> Z -> iperf_time -> W -> W) (h : gmap loc Timer) (now : iperf_time) (l : list loc) : Prop :=
  forall x t w st, x ∈ l -> h !! x = Some t ->
    call (timer_proc t) (client_data t) now w st = quiet cb (timer_proc t) (client_data t) now w st.

(** The effect of firing a sequence of timers, in order. *)
Definition fire_all {W} (cb : nat -> Z -> iperf_time -> W -> W) (now : iperf_time)
  (fired : list (loc * Timer)) (w : W) : W :=
  fold_left (fun w e => cb (timer_proc e.2) (client_data e.2) now w) fired w.

(** Expiry time of a timer at the moment it was fired. *)
Definition fired_at (e : loc * Timer) : Z := us (time e.2).

Lemma data_lookup h h' x t :
  same_data h h' -> h' !! x = Some t -> exists t0, h !! x = Some t0 /\ data t0 = data t.
Proof.
  intros Hd Ht. specialize (Hd x). rewrite Ht in Hd.
  destruct (h !! x) as [t0|]; simpl in Hd; [|done]. exists t0. split; [done|congruence].
Qed.

(** What one run of the loop, from the node at the head of [rest], achieves. *)
Record run_result {W} (cb : nat -> Z -> iperf_time -> W -> W) (now : iperf_time)
  (st : tmr_state) (pre rest fre : list loc) (w : W)
  (fired : list (loc * Timer)) (st' : tmr_state) : Prop := mk_rr {
  rr_inv : exists act' fre', tmr_inv st' act' fre' /\
    (forall x, x ∈ act' <-> x ∈ pre ++ rest /\
       ~ (x ∈ rest /\ one_shot (heap st) x /\ expiry (heap st) x <= us now));
  rr_order : StronglySorted Z.le (fired_at <$> fired);
  rr_bound : forall e, e ∈ fired -> fired_at e <= us now /\ expiry (heap st) e.1 <= fired_at e /\
    e.1 ∈ rest;
  rr_all : forall x, x ∈ rest -> expiry (heap st) x <= us now -> x ∈ fired.*1;
  rr_once : forall x, x ∈ fired.*1 -> one_shot (heap st) x ->
    length (filter (fun e => e.1 = x) fired) = 1%nat;
  rr_who : forall x t, (x, t) ∈ fired -> exists t0, heap st !! x = Some t0 /\
    timer_proc t0 = timer_proc t /\ client_data t0 = client_data t /\ periodic t0 = periodic t;
  rr_rest : forall x, x ∉ fired.*1 -> data <$> heap st' !! x = data <$> heap st !! x }.

Lemma run_stop {W} (cb : nat -> Z -> iperf_time -> W -> W) now st pre rest fre w :
  tmr_inv st (pre ++ rest) fre ->
  (forall x, x ∈ rest -> us now < expiry (heap st) x) ->
  run_result cb now st pre rest fre w [] st.
Proof.
  intros Hi Hlate. split; try (intros; set_solver).
  - exists (pre ++ rest), fre. split; [done|]. intros x. split; [|tauto].
    intros Hx. split; [done|]. intros (Hr & _ & He). specialize (Hlate x Hr). lia.
  - constructor.
  - intros x Hx He. specialize (Hlate x Hx). lia.
Qed.

(** One iteration of the loop at the expired node [x]: [st1] is the state
    after it, and the walk goes on with [rest1]. *)
Record run_step (now : iperf_time) (st : tmr_state) (pre rest : list loc)
  (x : loc) (tx : Timer) (st1 : tmr_state) (pre1 rest1 : list loc) : Prop := mk_rs {
  rs_lookup : heap st !! x = Some tx;
  rs_in : x ∈ rest;
  rs_expired : us (time tx) <= us now;
  rs_other : forall y, y <> x -> data <$> heap st1 !! y = data <$> heap st !! y;
  rs_self : exists t1, heap st1 !! x = Some t1 /\ us (time tx) <= us (time t1) /\
    timer_proc t1 = timer_proc tx /\ client_data t1 = client_data tx /\
    periodic t1 = periodic tx /\ usecs_ t1 = usecs_ tx;
  rs_sub : forall y, y ∈ rest1 -> y ∈ rest /\ us (time tx) <= expiry (heap st1) y;
  rs_keep : forall y, y <> x -> (y ∈ rest -> y ∈ rest1) /\ (y ∈ pre1 ++ rest1 <-> y ∈ pre ++ rest);
  rs_one : periodic tx = false -> x ∉ pre1 ++ rest1;
  rs_per : periodic tx = true -> x ∈ pre1 ++ rest1 }.

Lemma rs_expiry_other now st pre rest x tx st1 pre1 rest1 :
  run_step now st pre rest x tx st1 pre1 rest1 ->
  forall y, y <> x -> expiry (heap st1) y = expiry (heap st) y /\
    (one_shot (heap st1) y <-> one_shot (heap st) y).
Proof.
  intros Hs y Hy. pose proof (rs_other _ _ _ _ _ _ _ _ _ Hs y Hy) as Hd.
  unfold expiry, one_shot.
  destruct (heap st1 !! y) as [t1|], (heap st !! y) as [t|]; simpl in Hd;
  unfold data in Hd; simplify_eq; [|done].
  split; [congruence|]. split; intros (t' & ? & ?); simplify_eq; eexists; (split; [reflexivity|congruence]).
Qed.

Lemma rs_expiry_mono now st pre rest x tx st1 pre1 rest1 :
  run_step now st pre rest x tx st1 pre1 rest1 ->
  forall y, expiry (heap st) y <= expiry (heap st1) y.
Proof.
  intros Hs y. destruct (decide (y = x)) as [->|Hy].
  - destruct (rs_self _ _ _ _ _ _ _ _ _ Hs) as (t1 & E1 & Hle & _).
    unfold expiry. by rewrite E1, (rs_lookup _ _ _ _ _ _ _ _ _ Hs).
  - destruct (rs_expiry_other _ _ _ _ _ _ _ _ _ Hs y Hy) as [-> _]. lia.
Qed.

Lemma rs_one_shot now st pre rest x tx st1 pre1 rest1 :
  run_step now st pre rest x tx st1 pre1 rest1 ->
  forall y, one_shot (heap st1) y <-> one_shot (heap st) y.
Proof.
  intros Hs y. destruct (decide (y = x)) as [->|Hy].
  - destruct (rs_self _ _ _ _ _ _ _ _ _ Hs) as (t1 & E1 & _ & _ & _ & Ep & _).
    pose proof (rs_lookup _ _ _ _ _ _ _ _ _ Hs) as E. unfold one_shot. rewrite E1, E.
    split; intros (t' & ? & ?); simplify_eq; eexists; (split; [reflexivity|congruence]).
  - by apply (rs_expiry_other _ _ _ _ _ _ _ _ _ Hs).
Qed.

Lemma run_cons {W} (cb : nat -> Z -> iperf_time -> W -> W) now st pre rest fre w x tx
  st1 pre1 rest1 fre1 w1 fired st' :
  run_step now st pre rest x tx st1 pre1 rest1 ->
  run_result cb now st1 pre1 rest1 fre1 w1 fired st' ->
  run_result cb now st pre rest fre w ((x, tx) :: fired) st'.
Proof.
  intros Hs [(act' & fre' & Hi & Hact) Hord Hbnd Hall Honce Hwho Hrest].
  pose proof (rs_expiry_mono _ _ _ _ _ _ _ _ _ Hs) as Hmono.
  pose proof (rs_expiry_other _ _ _ _ _ _ _ _ _ Hs) as Hoth.
  pose proof (rs_one_shot _ _ _ _ _ _ _ _ _ Hs) as Hos.
  destruct Hs as [Hlk Hin Hexp Hot (t1 & Ht1 & Hle & Hp1 & Hc1 & Hper1 & Hu1) Hsub Hkeep Hone Hper].
  assert (Ex : expiry (heap st) x = us (time tx)) by (unfold expiry; by rewrite Hlk).
  split.
  - exists act', fre'. split; [done|]. intros y. rewrite Hact, Hos.
    destruct (decide (y = x)) as [->|Hy].
    + destruct (periodic tx) eqn:Ep.
      * assert (Hno : ~ one_shot (heap st) x) by (intros (t & ? & ?); simplify_eq; congruence).
        specialize (Hper eq_refl). set_solver.
      * specialize (Hone eq_refl). split; [set_solver|]. intros [_ Hn]. exfalso. apply Hn.
        split; [done|]. split; [by exists tx|lia].
    + destruct (Hoth y Hy) as [-> _]. destruct (Hkeep y Hy) as [Hk1 Hk2].
      specialize (Hsub y). naive_solver.
  - cbn. constructor; [done|]. apply Forall_fmap, Forall_forall. intros e He. cbn.
    destruct (Hbnd e He) as (_ & Hb & Hr). destruct (Hsub _ Hr). unfold fired_at in *. simpl. lia.
  - intros e [->|He]%elem_of_cons; cbn.
    + unfold fired_at. simpl. split; [lia|]. split; [lia|done].
    + destruct (Hbnd e He) as (? & Hb & Hr). specialize (Hmono e.1). destruct (Hsub _ Hr).
      split; [done|]. split; [lia|done].
  - intros y Hy He. cbn. destruct (decide (y = x)) as [->|Hne]; [set_solver|].
    apply elem_of_cons. right. apply Hall; [by apply Hkeep|]. by destruct (Hoth y Hne) as [-> _].
  - intros y Hy Hyo. cbn in Hy. rewrite filter_cons. cbn [fst].
    destruct (decide (x = y)) as [<-|Hne].
    + assert (Hx : x ∉ rest1).
      { destruct Hyo as (t & ? & Hf). simplify_eq. specialize (Hone Hf). set_solver. }
      replace (filter (fun e => e.1 = x) fired) with (@nil (loc * Timer)); [done|].
      symmetry. apply elem_of_nil_inv. intros e [Ee He]%list_elem_of_filter.
      destruct (Hbnd e He) as (_ & _ & Hr). congruence.
    + apply Honce; [set_solver|by apply Hos].
  - intros y t [E|Hyt]%elem_of_cons; [simplify_eq; by exists tx|].
    destruct (Hwho y t Hyt) as (t0 & Ht0 & ? & ? & ?).
    destruct (decide (y = x)) as [->|Hne].
    + exists tx. simplify_eq. repeat split; congruence.
    + specialize (Hot y Hne). rewrite Ht0 in Hot.
      destruct (heap st !! y) as [ty|]; unfold data in Hot; simpl in Hot; [|done].
      exists ty. injection Hot as ? ? ? ? ?. repeat split; congruence.
  - intros y Hy. cbn in Hy. apply not_elem_of_cons in Hy as [Hne Hy].
    rewrite Hrest by done. by apply Hot.
Qed.

Lemma run_cost_cons h now x l : run_cost h now (x :: l) = (cost h now x + run_cost h now l)%nat.
Proof. done. Qed.

(** A one-shot timer is cancelled. *)
Lemma step_one_shot now st pre x r fre tx :
  tmr_inv st (pre ++ x :: r) fre -> heap st !! x = Some tx ->
  us (time tx) <= us now -> periodic tx = false ->
  exists st1, tmr_cancel st x = Ok st1 /\ tmr_inv st1 (pre ++ r) (x :: fre) /\
    same_data (heap st) (heap st1) /\ run_step now st pre (x :: r) x tx st1 pre r.
Proof.
  intros Hi Htx Hle Hp. destruct (tmr_cancel_inv _ _ _ _ _ Hi) as (st1 & E & Hi1 & Hd).
  exists st1. split; [done|]. split; [done|]. split; [done|].
  pose proof (inv_nodup _ _ _ Hi1) as Hnd.
  assert (Hx : x ∉ pre ++ r).
  { rewrite <- Permutation_middle in Hnd. apply NoDup_cons in Hnd as [? _]. set_solver. }
  pose proof (proj2 (sorted_by_app _ _ _ (inv_sorted _ _ _ Hi))) as Hso.
  split; try done; try set_solver.
  - specialize (Hd x). rewrite Htx in Hd. destruct (heap st1 !! x) as [t1|]; [|done].
    unfold data in Hd; simpl in Hd. injection Hd as ? ? ? ? Et.
    exists t1. rewrite <- Et. repeat split; congruence || lia.
  - intros y Hy. split; [set_solver|]. rewrite <- (expiry_proper _ _ Hd y y eq_refl).
    replace (us (time tx)) with (expiry (heap st) x) by (unfold expiry; by rewrite Htx).
    by apply (sorted_by_cons_le _ _ r).
  - congruence.
Qed.

(** A periodic timer is sorted in again at its next expiry time. *)
Lemma step_periodic now st pre x r fre tx :
  tmr_inv st (pre ++ x :: r) fre -> wf_time now -> heap st !! x = Some tx ->
  us (time tx) <= us now -> periodic tx = true ->
  1 <= usecs_ tx -> us now + usecs_ tx < 2 ^ 32 * 1000000 ->
  exists st1 pre1 rest1,
    (let! st0 := upd st x (fun tm =>
       set_time (iperf_time_add_usecs (time tm) (u64 (usecs_ tm))) tm) in
     list_resort st0 x)%c = Ok st1 /\
    tmr_inv st1 (pre1 ++ rest1) fre /\ hd_or r None = hd_or rest1 None /\
    expiry (heap st1) x = us (time tx) + usecs_ tx /\
    (rest1 = r \/ rest1 ≡ₚ x :: r) /\
    run_step now st pre (x :: r) x tx st1 pre1 rest1.
Proof.
  intros Hi Hnow Htx Hle Hp Hu1 Hu2.
  assert (Hwx : wf_time (time tx)) by (eapply (inv_wf _ _ _ Hi); [|done]; set_solver).
  pose proof (us_range _ Hwx). pose proof (us_range _ Hnow).
  destruct (add_usecs_small (time tx) (usecs_ tx)) as [Hw' Hus']; [done|lia|lia|].
  do_upd. rewrite u64_small by (unfold_ints; lia).
  set (tm' := iperf_time_add_usecs (time tx) (usecs_ tx)) in *.
  destruct (retime_inv _ _ _ _ _ _ tm' Hi Htx Hw') as (st1 & E & Hi1 & Hd).
  set (h1 := <[x := set_time tm' tx]> (heap st)) in *.
  assert (Hex : expiry h1 x = us (time tx) + usecs_ tx).
  { unfold expiry, h1. rewrite lookup_insert_eq. exact Hus'. }
  assert (Hey : forall y, y <> x -> expiry h1 y = expiry (heap st) y).
  { intros y Hy. unfold expiry, h1. by rewrite lookup_insert_ne. }
  pose proof (inv_sorted _ _ _ Hi) as Hso.
  assert (Hx0 : expiry (heap st) x = us (time tx)) by (unfold expiry; by rewrite Htx).
  pose proof (inv_nodup _ _ _ Hi) as (Hna & _ & _)%NoDup_app.
  pose proof Hna as (_ & Hxp & [Hxr _]%NoDup_cons)%NoDup_app.
  assert (Hxpre : x ∉ pre) by (intros Hin; apply (Hxp x Hin); set_solver).
  rewrite ins_app_ge in Hi1.
  2:{ intros y Hy. rewrite Hex, Hey by (intros ->; done).
      pose proof (sorted_by_app_le _ _ _ Hso y x Hy ltac:(set_solver)). lia. }
  assert (Hrest : exists pre1 rest1, pre ++ ins (expiry h1) x r = pre1 ++ rest1 /\
    hd_or r None = hd_or rest1 None /\
    ((rest1 = r /\ pre1 = pre ++ [x]) \/ (rest1 ≡ₚ x :: r /\ pre1 = pre))).
  { destruct r as [|b r]; cbn [ins].
    - exists (pre ++ [x]), []. rewrite app_nil_r. split; [done|]. split; [done|]. by left.
    - destruct (expiry h1 x <? expiry h1 b).
      + exists (pre ++ [x]), (b :: r). rewrite <- app_assoc. split; [done|]. split; [done|]. by left.
      + exists pre, (b :: ins (expiry h1) x r). split; [done|]. split; [done|]. right.
        split; [|done]. rewrite ins_perm. apply Permutation_swap. }
  destruct Hrest as (pre1 & rest1 & Eq & Hhd & Hcase). rewrite Eq in Hi1.
  exists st1, pre1, rest1. split; [done|]. split; [done|]. split; [done|].
  split; [by rewrite <- (expiry_proper _ _ Hd x x eq_refl)|].
  split; [destruct Hcase as [[? _]|[? _]]; auto|].
  assert (Hmem : forall y, y ∈ pre1 ++ rest1 <-> y ∈ pre ++ x :: r).
  { intros y. rewrite <- Eq, !elem_of_app, ins_perm. set_solver. }
  split; try done; [set_solver| | | | |intros; congruence|intros; apply Hmem; set_solver].
  - intros y Hy. rewrite <- (Hd y). unfold h1. by rewrite lookup_insert_ne.
  - specialize (Hd x). unfold h1 in Hd. rewrite lookup_insert_eq in Hd.
    destruct (heap st1 !! x) as [t1|]; [|done]. unfold data in Hd; simpl in Hd.
    injection Hd as ? ? ? ? Et. exists t1. rewrite <- Et. repeat split; congruence || lia.
  - intros y Hy. assert (Hyr : y ∈ x :: r).
    { destruct Hcase as [[-> _]|[Hc _]]; [set_solver|by rewrite <- Hc]. }
    split; [done|]. rewrite <- (expiry_proper _ _ Hd y y eq_refl).
    destruct (decide (y = x)) as [->|Hne]; [lia|]. rewrite Hey by done.
    rewrite <- Hx0. apply sorted_by_app in Hso as [_ Hso].
    apply (sorted_by_cons_le _ _ r); [done|set_solver].
  - intros y Hy. split; [|by apply Hmem]. intros Hyr.
    destruct Hcase as [[-> _]|[Hc _]]; [set_solver|rewrite Hc; set_solver].
Qed.

Lemma run_cost_step now st x tx st1 (pre r rest1 : list loc) :
  heap st !! x = Some tx -> us (time tx) <= us now -> 1 <= usecs_ tx ->
  expiry (heap st1) x = us (time tx) + usecs_ tx ->
  (forall y, y ∈ r -> expiry (heap st1) y = expiry (heap st) y) ->
  (rest1 = r \/ rest1 ≡ₚ x :: r) ->
  (run_cost (heap st1) (us now) rest1 < run_cost (heap st) (us now) (x :: r))%nat.
Proof.
  intros Htx Hle Hu Hx Hr Hc.
  assert (Er : run_cost (heap st1) (us now) r = run_cost (heap st) (us now) r)
    by by apply run_cost_ext.
  rewrite run_cost_cons.
  assert (Hcx : (cost (heap st1) (us now) x < cost (heap st) (us now) x)%nat).
  { unfold cost. rewrite Hx. unfold expiry. rewrite Htx. lia. }
  destruct Hc as [->|Hc]; [rewrite Er; lia|].
  rewrite (run_cost_perm _ _ _ _ Hc), run_cost_cons, Er. lia.
Qed.

Lemma run_loop_spec {W} call (cb : nat -> Z -> iperf_time -> W -> W) now n :
  wf_time now -> forall st pre rest fre w,
  tmr_inv st (pre ++ rest) fre -> periods_ok (heap st) now rest -> quiet_on call cb (heap st) now rest ->
  (run_cost (heap st) (us now) rest < n)%nat ->
  exists fired st',
    tmr_run_loop call n now w st (hd_or rest None) = Ok (fire_all cb now fired w, st') /\
    run_result cb now st pre rest fre w fired st'.
Proof.
  intros Hnow. induction n as [|n IH]; intros st pre rest fre w Hi Hper Hq Hc; [lia|].
  destruct rest as [|x r].
  { exists [], st. split; [done|]. apply run_stop; [done|]. set_solver. }
  cbn [hd_or tmr_run_loop].
  destruct (dseg_lookup _ _ _ _ x (inv_dseg _ _ _ Hi)) as [tx Htx]; [set_solver|].
  assert (Hwx : wf_time (time tx)) by (eapply (inv_wf _ _ _ Hi); [|done]; set_solver).
  assert (Hnx : next tx = hd_or r None).
  { pose proof (inv_dseg _ _ _ Hi) as Hd. apply dseg_app in Hd as [_ [(t & Ht & _ & Hn) _]].
    by simplify_eq. }
  rewrite Htx. cbn [obind deref]. rewrite time_compare_gt by done.
  destruct (Z.ltb_spec (us now) (us (time tx))) as [Hlt|Hle].
  { exists [], st. split; [done|]. apply run_stop; [done|]. intros y Hy.
    pose proof (proj2 (sorted_by_app _ _ _ (inv_sorted _ _ _ Hi))) as Hso.
    assert (Hx0 : expiry (heap st) x = us (time tx)) by (unfold expiry; by rewrite Htx).
    apply elem_of_cons in Hy as [->|Hy]; [lia|].
    pose proof (sorted_by_cons_le _ _ _ Hso y Hy). lia. }
  rewrite (Hq x tx w st ltac:(set_solver) Htx). cbn [quiet obind]. rewrite Htx. cbn [obind deref]. rewrite Hnx.
  destruct (periodic tx) eqn:Ep.
  - destruct (Hper x tx ltac:(set_solver) Htx Ep) as [Hu1 Hu2].
    destruct (step_periodic now st pre x r fre tx) as
      (st1 & pre1 & rest1 & E & Hi1 & Hhd & Hex & Hcs & Hstep); [done..|].
    assert (Eb : forall (st0 : outcome tmr_state) (k : tmr_state -> outcome (W * tmr_state)),
      (let! s := st0 in let! s' := list_resort s x in k s')%c
        = (let! s' := (let! s := st0 in list_resort s x) in k s')%c) by by intros [].
    rewrite Eb, E. cbn [obind]. rewrite Hhd.
    pose proof (rs_expiry_other _ _ _ _ _ _ _ _ _ Hstep) as Hoth.
    destruct (IH st1 pre1 rest1 fre (cb (timer_proc tx) (client_data tx) now w))
      as (fired & st' & Ef & Hres).
    + done.
    + intros y t Hy Ht Hp. destruct (decide (y = x)) as [->|Hne].
      * destruct (rs_self _ _ _ _ _ _ _ _ _ Hstep) as (t1 & ? & _ & _ & _ & _ & Eu). simplify_eq.
        by rewrite Eu.
      * pose proof (rs_other _ _ _ _ _ _ _ _ _ Hstep y Hne) as Ho. rewrite Ht in Ho.
        destruct (heap st !! y) as [t0|] eqn:E0; unfold data in Ho; simpl in Ho; [|done].
        injection Ho as ? ? Eu Epp Et. rewrite Eu. apply (Hper y t0); [|done|congruence].
        apply (rs_sub _ _ _ _ _ _ _ _ _ Hstep); done.
    + intros y t w' st'' Hy Ht. destruct (decide (y = x)) as [->|Hne].
      * destruct (rs_self _ _ _ _ _ _ _ _ _ Hstep) as (t1 & ? & _ & Ep1 & Ec1 & _). simplify_eq.
        rewrite Ep1, Ec1. apply (Hq x tx); [set_solver|done].
      * pose proof (rs_other _ _ _ _ _ _ _ _ _ Hstep y Hne) as Ho. rewrite Ht in Ho.
        destruct (heap st !! y) as [t0|] eqn:E0; unfold data in Ho; simpl in Ho; [|done].
        injection Ho as Ep1 Ec1 _ _ _. rewrite Ep1, Ec1. apply (Hq y t0); [|done].
        apply (rs_sub _ _ _ _ _ _ _ _ _ Hstep); done.
    + assert (Hlt : (run_cost (heap st1) (us now) rest1 < run_cost (heap st) (us now) (x :: r))%nat).
      { apply (run_cost_step now st x tx st1 pre r rest1); try done.
        intros y Hy. apply Hoth. intros ->.
        pose proof (inv_nodup _ _ _ Hi) as (Hna & _ & _)%NoDup_app.
        apply NoDup_app in Hna as (_ & _ & [? _]%NoDup_cons). done. }
      lia.
    + exists ((x, tx) :: fired), st'. split; [exact Ef|]. by eapply run_cons.
  - destruct (step_one_shot now st pre x r fre tx) as (st1 & E & Hi1 & Hd & Hstep); [done..|].
    rewrite E. cbn [obind].
    destruct (IH st1 pre r (x :: fre) (cb (timer_proc tx) (client_data tx) now w))
      as (fired & st' & Ef & Hres).
    + done.
    + intros y t Hy Ht Hp. destruct (data_lookup _ _ _ _ Hd Ht) as (t0 & Ht0 & Ed).
      unfold data in Ed. injection Ed as ? ? Eu Epp Et. rewrite <- Eu.
      apply (Hper y t0); [set_solver|done|congruence].
    + intros y t w' st'' Hy Ht. destruct (data_lookup _ _ _ _ Hd Ht) as (t0 & Ht0 & Ed).
      unfold data in Ed. injection Ed as <- <- _ _ _. apply (Hq y t0); [set_solver|done].
    + rewrite run_cost_cons in Hc.
      assert (Er : run_cost (heap st1) (us now) r = run_cost (heap st) (us now) r).
      { apply run_cost_ext. intros y _. by rewrite Hd. }
      assert (1 <= cost (heap st) (us now) x)%nat.
      { unfold cost, expiry. rewrite Htx. lia. }
      lia.
    + exists ((x, tx) :: fired), st'. split; [exact Ef|]. by eapply run_cons.
Qed.

(** ** Tearing down *)

Lemma sseg_size h l : NoDup l -> sseg h l -> (length l <= size h)%nat.
Proof.
  intros Hnd Hs.
  assert (Hsub : (list_to_set l : gset loc) ⊆ dom h).
  { intros x Hx. apply elem_of_list_to_set in Hx. apply elem_of_dom. clear Hnd.
    induction l as [|y l IH]; [by apply elem_of_nil in Hx|].
    destruct Hs as [(t & Ht & _) Hs]. apply elem_of_cons in Hx as [->|Hx]; [by rewrite Ht|auto]. }
  apply subseteq_size in Hsub. rewrite size_list_to_set in Hsub by done.
  by rewrite size_dom in Hsub.
Qed.

Lemma tmr_cleanup_loop_spec n : forall h tms fre,
  sseg h fre -> NoDup fre -> (length fre <= n)%nat ->
  exists h', tmr_cleanup_loop n (mk_tmr h tms (hd_or fre None)) = Ok (mk_tmr h' tms None) /\
    (forall y, h' !! y = if decide (y ∈ fre) then None else h !! y).
Proof.
  induction n as [|n IH]; intros h tms fre Hs Hnd Hlen; destruct fre as [|x fre];
    simpl in Hlen; try lia.
  1,2: exists h; split; [done|]; intros y; by rewrite decide_False by set_solver.
  destruct Hs as [(t & Ht & Hn) Hs]. apply NoDup_cons in Hnd as [Hx Hnd].
  cbn [hd_or tmr_cleanup_loop free_timers heap timers]. rewrite Ht. cbn [obind deref]. rewrite Hn.
  destruct (IH (delete x h) tms fre) as (h' & E & Hh'); [by rewrite sseg_delete|done|lia|].
  exists h'. split; [done|]. intros y. rewrite Hh'.
  destruct (decide (y = x)) as [->|Hne].
  - rewrite (decide_True (P := x ∈ x :: fre)) by set_solver.
    rewrite decide_False by done. apply lookup_delete_eq.
  - rewrite lookup_delete_ne by done.
    destruct (decide (y ∈ fre)); [by rewrite decide_True by set_solver|by rewrite decide_False by set_solver].
Qed.

Lemma tmr_destroy_loop_spec n : forall st act fre,
  tmr_inv st act fre -> (length act <= n)%nat ->
  exists h', tmr_destroy_loop n st = Ok (mk_tmr h' None None) /\
    (forall y, h' !! y <> None -> y ∉ act ++ fre /\ is_Some (heap st !! y)).
Proof.
  induction n as [|n IH]; intros st act fre Hi Hlen; destruct act as [|x act];
    simpl in Hlen; try lia.
  1,2: pose proof Hi as [Hh _ Hf Hs Hnd _ _]; destruct st as [h tms fr]; cbn in *; subst;
    destruct (tmr_cleanup_loop_spec (size h) h None fre) as (h' & E & Hh');
      [done|done|by apply sseg_size|];
    exists h'; split; [exact E|]; intros y; rewrite Hh'; case_decide; [done|];
    intros Hy; split; [done|]; by destruct (h !! y); eauto.
  cbn [tmr_destroy_loop]. rewrite (inv_head _ _ _ Hi). cbn [hd_or].
  destruct (tmr_cancel_inv st [] x act fre Hi) as (st1 & E & Hi1 & Hd). rewrite E. cbn [obind].
  destruct (IH st1 act (x :: fre) Hi1) as (h' & E' & Hh'); [lia|].
  exists h'. split; [done|]. intros y Hy. destruct (Hh' y Hy) as [Hnin [t Ht]]. split; [set_solver|].
  destruct (data_lookup _ _ _ _ Hd Ht) as (t0 & ? & _). eauto.
Qed.

(** ** Properties *)

(** The state of the package at program start. *)
Definition tmr_init : tmr_state := mk_tmr ∅ None None.

Lemma tmr_init_inv : tmr_inv tmr_init [] [].
Proof. split; try done; first [by apply NoDup_nil_2 | apply SSorted_nil | intros; set_solver]. Qed.

(** tmr_create takes a node from the free list if there is one and from
    malloc otherwise, never leaves the heap, sets it to expire [usecs] after
    [now], links it into the doubly linked list at the place that keeps the
    list sorted by expiry time (after the timers of equal time), and leaves
    every other timer's data alone. *)
Theorem tmr_create_correct st act fre fresh now proc cd n per :
  tmr_inv st act fre -> wf_time now -> 0 <= n -> us now + n < 2 ^ 32 * 1000000 ->
  (fre = [] -> exists l, fresh = Some l /\ heap st !! l = None) ->
  exists t st',
    tmr_create st fresh now proc cd n per = Ok (Some t, st') /\
    hd_or fre fresh = Some t /\
    (exists tm, heap st' !! t = Some tm /\
       data tm = (proc, cd, n, per, iperf_time_add_usecs now n)) /\
    (forall y, y <> t -> data <$> heap st' !! y = data <$> heap st !! y) /\
    tmr_inv st' (ins (expiry (heap st')) t act) (tail fre).
Proof. apply tmr_create_inv. Qed.

Lemma tmr_create_witness :
  exists t st', tmr_create tmr_init (Some 7%positive) (mk_time 1 0) 3 0 500 true = Ok (Some t, st') /\
    tmr_inv st' (ins (expiry (heap st')) t []) [].
Proof.
  destruct (tmr_create_correct tmr_init [] [] (Some 7%positive) (mk_time 1 0) 3 0 500 true)
    as (t & st' & E & _ & _ & _ & Hi).
  - apply tmr_init_inv.
  - vm_compute; repeat split; congruence.
  - lia.
  - vm_compute; congruence.
  - intros _. by exists 7%positive.
  - exists t, st'. split; [exact E|exact Hi].
Defined.

(** tmr_cancel unlinks an active timer wherever it stands in the list,
    pushes it on the free list, and keeps the order of the others. *)
Theorem tmr_cancel_correct st l1 x l2 fre :
  tmr_inv st (l1 ++ x :: l2) fre ->
  exists st', tmr_cancel st x = Ok st' /\
    tmr_inv st' (l1 ++ l2) (x :: fre) /\ same_data (heap st) (heap st').
Proof. apply tmr_cancel_inv. Qed.

(** tmr_reset gives an active timer the expiry time [now] plus its period
    and sorts it in again, whatever its place was. *)
Theorem tmr_reset_correct st l1 x l2 fre tx now :
  tmr_inv st (l1 ++ x :: l2) fre -> heap st !! x = Some tx ->
  wf_time now -> 0 <= usecs_ tx -> us now + usecs_ tx < 2 ^ 32 * 1000000 ->
  exists st', tmr_reset st now x = Ok st' /\
    tmr_inv st' (ins (expiry (heap st')) x (l1 ++ l2)) fre /\
    expiry (heap st') x = us now + usecs_ tx /\
    (forall y, y <> x -> expiry (heap st') y = expiry (heap st) y).
Proof.
  intros Hi Htx Hn H0 Hs.
  destruct (add_usecs_small now (usecs_ tx)) as [_ Hu]; [done..|].
  destruct (tmr_reset_inv _ _ _ _ _ _ _ Hi Htx Hn H0 Hs) as (st' & E & Hi' & Hd).
  exists st'. split; [done|]. split; [|split].
  - erewrite ins_ext; [exact Hi'|]. intros y _. simpl. by rewrite <- (expiry_proper _ _ Hd y y eq_refl).
  - rewrite <- (expiry_proper _ _ Hd x x eq_refl). unfold expiry. by rewrite lookup_insert_eq.
  - intros y Hy. rewrite <- (expiry_proper _ _ Hd y y eq_refl). unfold expiry.
    by rewrite lookup_insert_ne.
Qed.

(** tmr_timeout returns no timeout exactly when no timer is active, and
    otherwise the time from [now] to the earliest expiry (0 when it is past),
    split into seconds and microseconds. *)
Theorem tmr_timeout_correct st act fre now :
  tmr_inv st act fre -> wf_time now ->
  match act with
  | [] => tmr_timeout st now = Ok None
  | x :: _ =>
      exists s u, tmr_timeout st now = Ok (Some (s, u)) /\
        0 <= u < 1000000 /\ 0 <= s /\
        s * 1000000 + u = Z.max 0 (expiry (heap st) x - us now) /\
        (forall y, y ∈ act -> s * 1000000 + u <= Z.max 0 (expiry (heap st) y - us now))
  end.
Proof.
  intros Hi Hn. unfold tmr_timeout. rewrite (inv_head _ _ _ Hi).
  destruct act as [|x l]; [done|]. cbn [hd_or].
  destruct (dseg_lookup _ _ _ _ x (inv_dseg _ _ _ Hi)) as [tx Htx]; [set_solver|].
  assert (Hwx : wf_time (time tx)) by (eapply (inv_wf _ _ _ Hi); [|done]; set_solver).
  rewrite Htx. cbn [obind deref].
  pose proof (iperf_time_diff_us (time tx) now Hwx Hn) as Hdiff.
  destruct (iperf_time_diff (time tx) now) as [past d]. destruct Hdiff as (Hwd & Hd & Hp).
  assert (Hx0 : expiry (heap st) x = us (time tx)) by (unfold expiry; by rewrite Htx).
  pose proof (us_range _ Hwx). pose proof (us_range _ Hn). pose proof (us_range _ Hwd).
  assert (Hmin : forall y, y ∈ x :: l -> expiry (heap st) x <= expiry (heap st) y).
  { intros y [->|Hy]%elem_of_cons; [lia|].
    by apply (sorted_by_cons_le _ _ _ (inv_sorted _ _ _ Hi)). }
  rewrite iperf_time_in_usecs_us by done. rewrite i64_small by (unfold_ints; lia).
  set (v := if past =? 0 then us d else 0).
  assert (Hv : v = Z.max 0 (us (time tx) - us now)).
  { unfold v. rewrite Hp. destruct (Z.leb_spec (us (time tx)) (us now)); cbn; lia. }
  do 2 eexists. split; [reflexivity|]. rewrite Hx0.
  split; [zlia|]. split; [zlia|]. split; [zlia|].
  intros y Hy. specialize (Hmin y Hy). zlia.
Qed.

(** Enough iterations for a run up to [now]. *)
Definition run_bound (st : tmr_state) (now : iperf_time) (act : list loc) : nat :=
  S (run_cost (heap st) (us now) act).


(** tmr_destroy cancels every active timer and returns every node to the
    allocator: when the heap holds the nodes of the two lists and nothing else,
    it is empty afterwards. *)
Theorem tmr_destroy_correct st act fre :
  tmr_inv st act fre -> (forall y, is_Some (heap st !! y) -> y ∈ act ++ fre) ->
  tmr_destroy st = Ok tmr_init.
Proof.
  intros Hi Hall. unfold tmr_destroy, tmr_init.
  destruct (tmr_destroy_loop_spec (size (heap st)) st act fre Hi) as (h' & E & Hh').
  { pose proof (inv_nodup _ _ _ Hi) as (Hna & _ & _)%NoDup_app.
    eapply dseg_size; [done|]. apply (inv_dseg _ _ _ Hi). }
  rewrite E. do 2 f_equal. apply map_eq. intros y. rewrite lookup_empty.
  destruct (h' !! y) eqn:Ey; [|done].
  destruct (Hh' y) as [Hn Hs]; [congruence|]. by apply Hall in Hs.
Qed.

(** ** Two timers, used by the witnesses and by the limits below *)

(** Node 1 expires at 1.000010 s, node 2 at 1.000020 s. *)
Definition two_timers (per1 per2 : bool) (u1 u2 : Z) (t1 t2 : Z) : tmr_state :=
  mk_tmr
    {[ 1%positive := mk_Timer 1 0 u1 per1 (mk_time 1 t1) None (Some 2%positive);
       2%positive := mk_Timer 2 0 u2 per2 (mk_time 1 t2) (Some 1%positive) None ]}
    (Some 1%positive) None.

Lemma two_timers_inv per1 per2 u1 u2 t1 t2 :
  0 <= t1 <= t2 -> t2 < 1000000 ->
  tmr_inv (two_timers per1 per2 u1 u2 t1 t2) [1%positive; 2%positive] [].
Proof.
  intros Ht H2. unfold two_timers. split; cbn [heap timers free_timers hd_or]; try done.
  - cbn. split; [by eexists|]. split; [by eexists|done].
  - vm_compute. repeat constructor; set_solver.
  - intros x t [->|[->|H]%elem_of_cons]%elem_of_cons Hx; [..|set_solver];
      vm_compute in Hx; simplify_eq; unfold wf_time; cbn; unfold_ints; lia.
  - apply SSorted_cons; [apply SSorted_cons; [apply SSorted_nil|apply Forall_nil_2]|].
    apply Forall_cons; split; [|apply Forall_nil_2]. unfold expiry.
    rewrite lookup_insert_eq, lookup_insert_ne, lookup_singleton_eq by done.
    unfold us. cbn [time secs usecs]. lia.
Qed.

Lemma tmr_cancel_witness :
  exists st', tmr_cancel (two_timers false true 5 7 10 20) 2 = Ok st' /\
    tmr_inv st' [1%positive] [2%positive].
Proof.
  destruct (tmr_cancel_correct (two_timers false true 5 7 10 20) [1%positive] 2 [] [])
    as (st' & E & Hi & _).
  - apply two_timers_inv; lia.
  - exists st'. split; [exact E|exact Hi].
Defined.

Lemma tmr_reset_witness :
  exists st', tmr_reset (two_timers false true 5 7 10 20) (mk_time 1 50) 1 = Ok st' /\
    expiry (heap st') 1 = 1000055.
Proof.
  destruct (tmr_reset_correct (two_timers false true 5 7 10 20) [] 1 [2%positive] []
    (mk_Timer 1 0 5 false (mk_time 1 10) None (Some 2%positive)) (mk_time 1 50))
    as (st' & E & _ & He & _).
  - apply two_timers_inv; lia.
  - reflexivity.
  - vm_compute; repeat split; congruence.
  - cbn; lia.
  - vm_compute; congruence.
  - exists st'. split; [exact E|exact He].
Defined.

Lemma tmr_timeout_witness :
  exists s u, tmr_timeout (two_timers false true 5 7 10 20) (mk_time 0 999999) = Ok (Some (s, u)) /\
    s * 1000000 + u = 11.
Proof.
  destruct (tmr_timeout_correct (two_timers false true 5 7 10 20) [1%positive; 2%positive] []
    (mk_time 0 999999)) as (s & u & E & _ & _ & Hv & _).
  - apply two_timers_inv; lia.
  - vm_compute; repeat split; congruence.
  - exists s, u. split; [exact E|exact Hv].
Defined.


Lemma tmr_destroy_witness : tmr_destroy (two_timers false true 5 7 10 20) = Ok tmr_init.
Proof.
  apply (tmr_destroy_correct (two_timers false true 5 7 10 20) [1%positive; 2%positive] []).
  - apply two_timers_inv; lia.
  - intros y [t Hy]. unfold two_timers in Hy. cbn [heap] in Hy.
    apply lookup_insert_Some in Hy as [[<- _]|[_ Hy]]; [set_solver|].
    apply lookup_singleton_Some in Hy as [<- _]. set_solver.
Defined.

(** ** Limits of the package *)

(** The period bound of the previous property is needed: with two periodic
    timers of period zero and the same expired time, tmr_run never returns,
    however many iterations it is given (the rescheduled timer is always put
    behind the other one, ahead of the walk). *)
Theorem tmr_run_zero_period_diverges n :
  tmr_run (quiet (fun _ _ _ w => w)) n (mk_time 1 30) tt (two_timers true true 0 0 10 10) = Fuel.
Proof.
  unfold tmr_run. cbn [timers two_timers].
  set (sa := two_timers true true 0 0 10 10).
  set (sb := mk_tmr
    {[ 1%positive := mk_Timer 1 0 0 true (mk_time 1 10) (Some 2%positive) None;
       2%positive := mk_Timer 2 0 0 true (mk_time 1 10) None (Some 1%positive) ]}
    (Some 2%positive) None).
  assert (Ha : forall k, tmr_run_loop (quiet (fun _ _ _ w => w)) (S k) (mk_time 1 30) tt sa (Some 1%positive)
    = tmr_run_loop (quiet (fun _ _ _ w => w)) k (mk_time 1 30) tt sb (Some 2%positive)) by reflexivity.
  assert (Hb : forall k, tmr_run_loop (quiet (fun _ _ _ w => w)) (S k) (mk_time 1 30) tt sb (Some 2%positive)
    = tmr_run_loop (quiet (fun _ _ _ w => w)) k (mk_time 1 30) tt sa (Some 1%positive)) by reflexivity.
  assert (H : tmr_run_loop (quiet (fun _ _ _ w => w)) n (mk_time 1 30) tt sa (Some 1%positive) = Fuel /\
    tmr_run_loop (quiet (fun _ _ _ w => w)) n (mk_time 1 30) tt sb (Some 2%positive) = Fuel).
  { induction n as [|n [IH1 IH2]]; [split; reflexivity|]. rewrite Ha, Hb. by split. }
  exact (proj1 H).
Qed.

(** A callback that cancels another timer, as server_timer_proc does through
    iperf_free_stream: callback 1 cancels node 2; every callback is logged. *)
Definition cancelling (p : nat) (cd : Z) (now : iperf_time) (w : list nat) (st : tmr_state)
  : outcome (list nat * tmr_state) :=
  match p with
  | 1%nat => (let! st := tmr_cancel st 2 in Ok (w ++ [p], st))%c
  | _ => Ok (w ++ [p], st)
  end.

(** tmr_run keeps the pointer to the next timer across the callback.  When
    the callback of the first timer cancels the second, tmr_run goes on with
    the cancelled node: it fires the cancelled timer, and links the node into
    the active list while it is on the free list, so the invariant is lost. *)
Theorem tmr_run_fires_cancelled_timer :
  exists st',
    tmr_run cancelling 10 (mk_time 1 30) [] (two_timers false true 5 7 10 20) = Ok ([1; 2]%nat, st') /\
    ~ exists act fre, tmr_inv st' act fre.
Proof.
  eexists. split; [vm_compute; reflexivity|].
  intros (act & fre & [Hh _ Hf Hs Hnd _ _]). cbn [timers free_timers heap] in *.
  destruct act as [|a act]; [done|]. destruct fre as [|f fre]; [done|].
  cbn [hd_or] in Hh, Hf. simplify_eq. destruct Hs as [(t & Ht & Hn) _].
  vm_compute in Ht. simplify_eq. cbn [next] in Hn.
  destruct fre as [|g fre]; [done|]. cbn [hd_or] in Hn. simplify_eq.
  apply NoDup_app in Hnd as (_ & Hdis & _). apply (Hdis 2%positive); set_solver.
Qed.
