(* ===== verification/Cdouble.v ===== *)
(** * Doubles, strtod and printf's %g

    The C type [double] is IEEE-754 binary64, taken from the standard
    library's executable specification [SpecFloat] (no axioms).  The decimal
    conversions of the C library that the sources use are written out: strtod
    on decimal literals (correctly rounded) and the [%1.<P>g] conversion. The
    program never calls setlocale, so the decimal point is '.'. *)

From S2P Require Import Prelude.
From Stdlib Require Import SpecFloat.
From Stdlib Require Import String.
From stdpp Require Import base numbers gmap list.

Open Scope Z_scope.

Abbreviation double := spec_float.
Abbreviation prec := 53.
Abbreviation emax := 1024.

Definition dadd : double -> double -> double := SFadd prec emax.
Definition dsub : double -> double -> double := SFsub prec emax.
Definition dmul : double -> double -> double := SFmul prec emax.
Definition ddiv : double -> double -> double := SFdiv prec emax.
Definition deqb : double -> double -> bool := SFeqb.
Definition dltb : double -> double -> bool := SFltb.
Definition dleb : double -> double -> bool := SFleb.
Definition d0 : double := S754_zero false.

#[export] Instance spec_float_eq_dec : EqDecision spec_float.
Proof. solve_decision. Defined.

(** Conversion of an integer type to double. *)
Definition d_of_Z (z : Z) : double := binary_normalize prec emax z 0 false.

(** Conversion of a finite double to an integer type: truncation. *)
Definition Z_of_double (d : double) : Z :=
  match d with
  | S754_finite s m e =>
      let v := if 0 <=? e then Zpos m * 2 ^ e else Zpos m / 2 ^ (- e) in
      if s then - v else v
  | _ => 0
  end.

(** Conversion of a double to uint64_t: undefined out of range. *)
Definition u64_of_double (d : double) : outcome Z :=
  match d with
  | S754_zero _ => Ok 0
  | S754_finite _ _ _ =>
      let z := Z_of_double d in if (0 <=? z) && (z <? 2 ^ 64) then Ok z else UB
  | _ => UB
  end.

(** Conversion to int (undefined out of range). *)
Definition int_of_double (d : double) : outcome Z :=
  match d with
  | S754_zero _ => Ok 0
  | S754_finite _ _ _ => int_of (Z_of_double d)
  | _ => UB
  end.

(** ** Decimal digits *)

Abbreviation c_zero := 48.
Abbreviation c_minus := 45.
Abbreviation c_plus := 43.
Abbreviation c_dot := 46.
Abbreviation c_e := 101.
Abbreviation c_E := 69.

Definition is_digit (c : Z) : bool := (48 <=? c) && (c <=? 57).

(** The decimal digits of a non-negative integer, most significant first; the
    fuel is the number of digits it can produce. *)
Fixpoint digits_fuel (n : nat) (z : Z) (acc : bytes) : bytes :=
  match n with
  | O => acc
  | S n' =>
      let acc := (48 + z mod 10) :: acc in
      if z <? 10 then acc else digits_fuel n' (z / 10) acc
  end.

Definition digits (z : Z) : bytes := digits_fuel (S (Z.to_nat (Z.log2 z))) z [].

Fixpoint digits_value (acc : Z) (l : bytes) : Z :=
  match l with
  | [] => acc
  | c :: r => digits_value (10 * acc + (c - 48)) r
  end.

(** The longest prefix of digits, and the rest. *)
Fixpoint scan_digits (l : bytes) : bytes * bytes :=
  match l with
  | [] => ([], [])
  | c :: r =>
      if is_digit c then let '(d, t) := scan_digits r in (c :: d, t) else ([], l)
  end.

(** ** strtod on a decimal literal *)

(** [sign * d * 10^e], correctly rounded. *)
Definition dec_to_double (sign : bool) (d : Z) (e : Z) : double :=
  match d with
  | Zpos p =>
      if 0 <=? e
      then binary_normalize prec emax (if sign then - (Zpos p * 10 ^ e) else Zpos p * 10 ^ e) 0 false
      else let '(q, e', l) := SFdiv_core_binary prec emax (Zpos p) 0 (10 ^ (- e)) 0 in
           binary_round_aux prec emax sign q e' l
  | _ => S754_zero sign
  end.

Definition scan_sign (l : bytes) : bool * bytes :=
  match l with
  | c :: r => if c =? c_minus then (true, r) else if c =? c_plus then (false, r) else (false, l)
  | [] => (false, [])
  end.

(** The exponent part, if one is well formed at the head of [l]. *)
Definition scan_exponent (l : bytes) : Z * bytes :=
  match l with
  | c :: r =>
      if (c =? c_e) || (c =? c_E)
      then
        let '(s, r') := scan_sign r in
        let '(ds, t) := scan_digits r' in
        match ds with
        | [] => (0, l)
        | _ => ((if s then - digits_value 0 ds else digits_value 0 ds), t)
        end
      else (0, l)
  | [] => (0, l)
  end.

(** strtod without leading blanks: the value and the unread rest, [None] when
    no conversion is performed. *)
Definition strtod (l : bytes) : option (double * bytes) :=
  let '(sign, l1) := scan_sign l in
  let '(ip, l2) := scan_digits l1 in
  let '(fp, l3) :=
    match l2 with
    | c :: r => if c =? c_dot then scan_digits r else ([], l2)
    | [] => ([], l2)
    end in
  match ip ++ fp with
  | [] => None
  | ds =>
      let '(e, l4) := scan_exponent l3 in
      Some (dec_to_double sign (digits_value 0 ds) (e - Z.of_nat (length fp)), l4)
  end.

(** ** printf's %1.<P>g *)

(** The non-negative rational [n / d] rounded to an integer, ties to even. *)
Definition round_ratio (n d : Z) : Z :=
  let q := n / d in
  let r := n mod d in
  match Z.compare (2 * r) d with
  | Lt => q
  | Gt => q + 1
  | Eq => if Z.even q then q else q + 1
  end.

(** [n / d * 10^k] *)
Definition scale10 (n d k : Z) : Z * Z :=
  if 0 <=? k then (n * 10 ^ k, d) else (n, d * 10 ^ (- k)).

(** The least [k <= fuel] with [n * 10^k >= d]. *)
Fixpoint leading_zeros (fuel : nat) (n d : Z) : Z :=
  match fuel with
  | O => 0
  | S f => if d <=? n then 0 else 1 + leading_zeros f (10 * n) d
  end.

(** floor(log10(n/d)) for positive [n], [d]. *)
Definition ilog10 (n d : Z) : Z :=
  if d <=? n then Z.of_nat (length (digits (n / d))) - 1
  else - leading_zeros (Z.to_nat (Z.log2 d + 1)) n d.

(** Exponent and the [P] significant digits, as an integer, after rounding. *)
Definition round_sig (P : Z) (n d : Z) : Z * Z :=
  let x := ilog10 n d in
  let '(n', d') := scale10 n d (P - 1 - x) in
  let r := round_ratio n' d' in
  if 10 ^ P <=? r then (x + 1, 10 ^ (P - 1)) else (x, r).

Fixpoint drop_zeros (l : bytes) : bytes :=
  match l with
  | c :: r => if c =? 48 then drop_zeros r else l
  | [] => []
  end.

(** Remove trailing zeros. *)
Definition strip_zeros (l : bytes) : bytes := rev (drop_zeros (rev l)).

Definition with_fraction (ip fp : bytes) : bytes :=
  match strip_zeros fp with
  | [] => ip
  | f => ip ++ c_dot :: f
  end.

Definition exponent_text (x : Z) : bytes :=
  let a := digits (Z.abs x) in
  c_e :: (if x <? 0 then c_minus else c_plus) :: (if Z.abs x <? 10 then c_zero :: a else a).

Definition format_pos_g (P : Z) (n d : Z) : bytes :=
  let '(x, r) := round_sig P n d in
  let ds := digits r in
  if (x <? -4) || (P <=? x)
  then with_fraction (take 1 ds) (drop 1 ds) ++ exponent_text x
  else if 0 <=? x
  then with_fraction (take (Z.to_nat (x + 1)) ds) (drop (Z.to_nat (x + 1)) ds)
  else with_fraction [c_zero] (repeat c_zero (Z.to_nat (- x - 1)) ++ ds).

(** sprintf("%1.<P>g", d) *)
Definition format_g (P : Z) (d : double) : bytes :=
  match d with
  | S754_zero s => if s then [c_minus; c_zero] else [c_zero]
  | S754_infinity s => if s then bytes_of "-inf" else bytes_of "inf"
  | S754_nan => bytes_of "nan"
  | S754_finite s m e =>
      let t := if 0 <=? e then format_pos_g P (Zpos m * 2 ^ e) 1
               else format_pos_g P (Zpos m) (2 ^ (- e)) in
      if s then c_minus :: t else t
  end.
