(* ===== verification/CdoubleFacts.v ===== *)
(** * Integers as doubles, and their decimal texts

    Every integer below 2^53 in absolute value is a double; printed with
    [%1.<P>g] it is its decimal digits when it has at most [P] of them, and
    strtod reads those digits back to the same double. *)

From S2P Require Import Prelude.
From S2P Require Import Cdouble.
From Stdlib Require Import SpecFloat.
From stdpp Require Import base numbers gmap list.

Open Scope Z_scope.

(** ** Decimal digits *)

Lemma digits_fuel_acc n : forall z acc, digits_fuel n z acc = digits_fuel n z [] ++ acc.
Proof.
  induction n as [|n IH]; intros z acc; simpl; [done|].
  destruct (z <? 10); [done|].
  rewrite IH, (IH _ [_]). by rewrite <- app_assoc.
Qed.

Lemma digits_fuel_enough n : forall m z,
  0 <= z < 10 ^ Z.of_nat n -> 0 <= z < 10 ^ Z.of_nat m -> (0 < n)%nat -> (0 < m)%nat ->
  digits_fuel n z [] = digits_fuel m z [].
Proof.
  induction n as [|n IH]; intros [|m] z Hn Hm Hn0 Hm0; try lia. cbn [digits_fuel].
  destruct (Z.ltb_spec z 10) as [|Hz]; [done|].
  rewrite Nat2Z.inj_succ, Z.pow_succ_r in Hn by lia.
  rewrite Nat2Z.inj_succ, Z.pow_succ_r in Hm by lia.
  rewrite (digits_fuel_acc n), (digits_fuel_acc m). f_equal.
  assert (0 < 10 ^ Z.of_nat n) by lia. assert (0 < 10 ^ Z.of_nat m) by lia.
  apply IH; [zlia|zlia| |].
  - destruct n; [simpl in Hn; lia|lia].
  - destruct m; [simpl in Hm; lia|lia].
Qed.

Lemma log2_fuel z : 0 <= z -> z < 10 ^ Z.of_nat (S (Z.to_nat (Z.log2 z))).
Proof.
  intros Hz. destruct (Z.eq_dec z 0) as [->|Hne]; [done|].
  rewrite Nat2Z.inj_succ, Z2Nat.id by apply Z.log2_nonneg.
  pose proof (Z.log2_spec z ltac:(lia)) as [_ H].
  pose proof (Z.pow_le_mono_l 2 10 (Z.succ (Z.log2 z)) ltac:(lia)). lia.
Qed.

Lemma digits_small z : 0 <= z < 10 -> digits z = [48 + z].
Proof.
  intros Hz. unfold digits. cbn [digits_fuel].
  destruct (Z.ltb_spec z 10); [|lia]. by rewrite Z.mod_small.
Qed.

Lemma digits_step z : 10 <= z -> digits z = digits (z / 10) ++ [48 + z mod 10].
Proof.
  intros Hz. unfold digits at 1. cbn [digits_fuel].
  destruct (Z.ltb_spec z 10); [lia|]. rewrite digits_fuel_acc. f_equal.
  pose proof (log2_fuel z ltac:(lia)) as H1.
  pose proof (log2_fuel (z / 10) ltac:(zlia)) as H2.
  rewrite Nat2Z.inj_succ, Z.pow_succ_r in H1 by lia.
  assert (Hl : (0 < Z.to_nat (Z.log2 z))%nat).
  { pose proof (Z.log2_le_mono 2 z ltac:(lia)). change (Z.log2 2) with 1 in *. lia. }
  apply digits_fuel_enough; [zlia|zlia|lia|lia].
Qed.

Lemma digits_ind (P : Z -> Prop) :
  (forall z, 0 <= z < 10 -> P z) -> (forall z, 10 <= z -> P (z / 10) -> P z) ->
  forall z, 0 <= z -> P z.
Proof.
  intros H1 H2 z. induction (Z.lt_wf 0 z) as [z _ IH]. intros Hz. destruct (Z.ltb_spec z 10); [apply H1; lia|].
  apply H2; [lia|]. apply IH; zlia.
Qed.

Lemma digits_value_app acc l c :
  digits_value acc (l ++ [c]) = 10 * digits_value acc l + (c - 48).
Proof. revert acc; induction l as [|x l IH]; intros acc; simpl; [done|apply IH]. Qed.

Lemma digits_value_digits z : 0 <= z -> digits_value 0 (digits z) = z.
Proof.
  revert z. apply digits_ind.
  - intros z Hz. rewrite digits_small by done. simpl. lia.
  - intros z Hz IH. rewrite digits_step by done. rewrite digits_value_app, IH. zlia.
Qed.

Lemma digits_are_digits z : 0 <= z -> Forall (fun c => 48 <= c <= 57) (digits z).
Proof.
  revert z. apply digits_ind.
  - intros z Hz. rewrite digits_small by done. repeat constructor; lia.
  - intros z Hz IH. rewrite digits_step by done. apply Forall_app; split; [done|].
    constructor; [zlia|constructor].
Qed.

Lemma digits_length z : 0 < z ->
  10 ^ (Z.of_nat (length (digits z)) - 1) <= z < 10 ^ Z.of_nat (length (digits z)) /\
  (0 < length (digits z))%nat.
Proof.
  intros H. assert (H0 : 0 <= z) by lia. revert z H0 H.
  apply (digits_ind (fun z => 0 < z -> 10 ^ (Z.of_nat (length (digits z)) - 1) <= z
    < 10 ^ Z.of_nat (length (digits z)) /\ (0 < length (digits z))%nat)).
  - intros z Hz H0. rewrite digits_small by done. simpl. lia.
  - intros z Hz IH H0. rewrite digits_step by done. rewrite length_app. simpl.
    destruct IH as [IH Hl]; [zlia|]. set (k := length (digits (z / 10))) in *.
    split; [|lia].
    replace (Z.of_nat (k + 1)) with (Z.succ (Z.of_nat k)) by lia.
    rewrite Z.pow_succ_r by lia.
    replace (Z.succ (Z.of_nat k) - 1) with (Z.succ (Z.of_nat k - 1)) by lia.
    rewrite Z.pow_succ_r by lia. zlia.
Qed.

Lemma digits_mul10 z k : 0 < z -> digits (z * 10 ^ Z.of_nat k) = digits z ++ repeat 48 k.
Proof.
  intros Hz. induction k as [|k IH].
  - simpl. by rewrite Z.mul_1_r, app_nil_r.
  - rewrite Nat2Z.inj_succ, Z.pow_succ_r by lia.
    replace (z * (10 * 10 ^ Z.of_nat k)) with (z * 10 ^ Z.of_nat k * 10) by lia.
    assert (0 < 10 ^ Z.of_nat k) by lia.
    rewrite digits_step by nia. rewrite Z.div_mul, Z.mod_mul by lia. rewrite IH.
    rewrite <- app_assoc. f_equal. by rewrite <- repeat_cons.
Qed.

Lemma scan_digits_app l r :
  Forall (fun c => 48 <= c <= 57) l ->
  match r with [] => True | c :: _ => is_digit c = false end ->
  scan_digits (l ++ r) = (l, r).
Proof.
  induction 1 as [|c l Hc Hl IH]; intros Hr; simpl.
  - destruct r as [|c r]; [done|]. cbn. by rewrite Hr.
  - rewrite IH by done. unfold is_digit.
    destruct (Z.leb_spec 48 c), (Z.leb_spec c 57); try lia. done.
Qed.

(** ** Exactness of small integers *)

Lemma digits2_pos_log2 p : Zpos (digits2_pos p) = Z.log2 (Zpos p) + 1.
Proof.
  induction p as [p IH|p IH|]; cbn [digits2_pos]; [..|done];
  rewrite Pos2Z.inj_succ, IH.
  - change (Zpos p~1) with (2 * Zpos p + 1). rewrite Z.log2_succ_double by lia. lia.
  - change (Zpos p~0) with (2 * Zpos p). rewrite Z.log2_double by lia. lia.
Qed.

Lemma iter_xO p d : Zpos (Pos.iter xO p d) = Zpos p * 2 ^ Zpos d.
Proof.
  revert p. induction d as [|d IH] using Pos.peano_ind; intros p.
  - simpl. lia.
  - rewrite Pos.iter_succ. change (Zpos (Pos.iter xO p d)~0) with (2 * Zpos (Pos.iter xO p d)).
    rewrite IH, Pos2Z.inj_succ, Z.pow_succ_r by lia. lia.
Qed.

Lemma binary_round_small s p :
  Zpos p < 2 ^ 53 ->
  exists m e, binary_round prec emax s p 0 = S754_finite s m e /\
    -1074 <= e <= 0 /\ Zpos m = Zpos p * 2 ^ (- e) /\ Z.log2 (Zpos m) = 52.
Proof.
  intros Hp.
  set (dg := Zpos (digits2_pos p)).
  assert (Hdg : 1 <= dg <= 53).
  { unfold dg. rewrite digits2_pos_log2.
    pose proof (Z.log2_nonneg (Zpos p)).
    assert (Z.log2 (Zpos p) < 53) by (apply Z.log2_lt_pow2; lia). lia. }
  assert (Hf : fexp prec emax (dg + 0) = dg - 53) by (unfold fexp, emin; lia).
  assert (Hal : exists m, shl_align p 0 (dg - 53) = (m, dg - 53) /\ Zpos m = Zpos p * 2 ^ (53 - dg)).
  { unfold shl_align. destruct (dg - 53 - 0) as [|q|q] eqn:E.
    - exists p. replace dg with 53 by lia. split; [done|]. simpl. lia.
    - lia.
    - exists (Pos.iter xO p q). split; [done|]. rewrite iter_xO. do 2 f_equal. lia. }
  destruct Hal as (m & Em & Hm).
  exists m, (dg - 53). split; [|split; [lia|split; [rewrite Hm; f_equal; f_equal; lia|]]].
  2:{ rewrite Hm, Z.log2_mul_pow2 by lia. unfold dg in *. rewrite digits2_pos_log2 in *. lia. }
  unfold binary_round. fold dg. rewrite Hf, Em.
  assert (Hdm : Zdigits2 (Zpos m) = 53).
  { cbn [Zdigits2]. rewrite digits2_pos_log2, Hm, Z.log2_mul_pow2 by lia.
    unfold dg in *. rewrite digits2_pos_log2 in *. lia. }
  assert (Hs : shr_fexp prec emax (Zpos m) (dg - 53) loc_Exact
    = (Build_shr_record (Zpos m) false false, dg - 53)).
  { unfold shr_fexp. rewrite Hdm. replace (53 + (dg - 53)) with (dg + 0) by lia.
    rewrite Hf, Z.sub_diag. done. }
  unfold binary_round_aux. rewrite Hs. cbn [shr_m loc_of_shr_record round_nearest_even].
  rewrite Hs. cbn [shr_m]. destruct (Z.leb_spec (dg - 53) (emax - prec)); [done|lia].
Qed.

Lemma d_of_Z_exact n :
  0 < n < 2 ^ 53 ->
  exists m e, d_of_Z n = S754_finite false m e /\ d_of_Z (- n) = S754_finite true m e /\
    -1074 <= e <= 0 /\ Zpos m = n * 2 ^ (- e) /\ Z.log2 (Zpos m) = 52.
Proof.
  intros Hn. destruct n as [|p|p]; try lia.
  destruct (binary_round_small false p) as (m & e & E & He & Hm); [lia|].
  destruct (binary_round_small true p) as (m' & e' & E' & He' & Hm'); [lia|].
  exists m, e. split; [exact E|]. split; [|done].
  assert (Em : (m, e) = (m', e')).
  { unfold binary_round in E, E'. destruct (shl_align _ _ _) as [mz ez].
    unfold binary_round_aux in E, E'.
    destruct (shr_fexp _ _ (Zpos mz) ez loc_Exact) as [a b].
    destruct (shr_fexp _ _ _ b loc_Exact) as [c d].
    destruct (shr_m c); try done. destruct (d <=? emax - prec); try done. congruence. }
  simplify_eq. exact E'.
Qed.

Lemma Z_of_double_d_of_Z n : - 2 ^ 53 < n < 2 ^ 53 -> Z_of_double (d_of_Z n) = n.
Proof.
  intros Hn. destruct (Z.eq_dec n 0) as [->|Hne]; [done|].
  assert (Hv : forall m e k, -1074 <= e <= 0 -> Zpos m = k * 2 ^ (- e) ->
    (if 0 <=? e then Zpos m * 2 ^ e else Zpos m / 2 ^ (- e)) = k).
  { intros m e k He Hm. destruct (Z.leb_spec 0 e).
    - replace e with 0 in * by lia. simpl in *. lia.
    - rewrite Hm. apply Z.div_mul. apply Z.pow_nonzero; lia. }
  destruct (Z.lt_trichotomy n 0) as [Hlt|[?|Hgt]]; [|done|].
  - destruct (d_of_Z_exact (- n)) as (m & e & _ & E & He & Hm & _); [lia|].
    rewrite Z.opp_involutive in E. rewrite E. cbn [Z_of_double].
    rewrite (Hv m e (- n)) by done. lia.
  - destruct (d_of_Z_exact n) as (m & e & E & _ & He & Hm & _); [lia|].
    rewrite E. cbn [Z_of_double]. by rewrite (Hv m e n).
Qed.

Lemma d_of_Z_times_zero n : - 2 ^ 53 < n < 2 ^ 53 -> deqb (dmul (d_of_Z n) d0) d0 = true.
Proof.
  intros Hn. destruct (Z.lt_trichotomy n 0) as [Hlt|[->|Hgt]]; [|done|].
  - destruct (d_of_Z_exact (- n)) as (m & e & _ & E & _); [lia|].
    rewrite Z.opp_involutive in E. by rewrite E.
  - destruct (d_of_Z_exact n) as (m & e & E & _); [lia|]. by rewrite E.
Qed.

Lemma deqb_refl_int n : - 2 ^ 53 < n < 2 ^ 53 -> deqb (d_of_Z n) (d_of_Z n) = true.
Proof.
  intros Hn.
  assert (H : forall s m e, deqb (S754_finite s m e) (S754_finite s m e) = true).
  { intros s m e. unfold deqb, SFeqb, SFcompare.
    destruct s; rewrite Z.compare_refl, Pos.compare_refl; done. }
  destruct (Z.lt_trichotomy n 0) as [Hlt|[->|Hgt]]; [|done|].
  - destruct (d_of_Z_exact (- n)) as (m & e & _ & E & _); [lia|].
    rewrite Z.opp_involutive in E. by rewrite E.
  - destruct (d_of_Z_exact n) as (m & e & E & _); [lia|]. by rewrite E.
Qed.

(** ** Printing and scanning integers *)

Lemma strip_zeros_repeat k : strip_zeros (repeat 48 k) = [].
Proof.
  unfold strip_zeros. rewrite rev_repeat. by induction k.
Qed.

Lemma format_pos_g_int P n D :
  0 < n < 10 ^ P -> 0 < D -> format_pos_g P (n * D) D = digits n.
Proof.
  intros Hn HD.
  destruct (digits_length n ltac:(lia)) as [Hlen Hpos].
  set (len := Z.of_nat (length (digits n))) in *.
  assert (HP : 0 <= P) by (destruct (Z.ltb_spec P 0); [rewrite Z.pow_neg_r in Hn by lia; lia|lia]).
  assert (Hle : len <= P).
  { destruct (Z.leb_spec len P); [done|].
    pose proof (Z.pow_le_mono_r 10 P (len - 1) ltac:(lia) ltac:(lia)). lia. }
  unfold format_pos_g, round_sig, ilog10.
  destruct (Z.leb_spec D (n * D)); [|nia].
  rewrite Z.div_mul by lia. fold len.
  unfold scale10. destruct (Z.leb_spec 0 (P - 1 - (len - 1))); [|lia].
  replace (P - 1 - (len - 1)) with (P - len) by lia.
  assert (Hr : round_ratio (n * D * 10 ^ (P - len)) D = n * 10 ^ (P - len)).
  { unfold round_ratio. replace (n * D * 10 ^ (P - len)) with (n * 10 ^ (P - len) * D) by lia.
    rewrite Z.div_mul, Z.mod_mul by lia. simpl. by destruct D. }
  rewrite Hr. assert (0 < 10 ^ (P - len)) by (apply Z.pow_pos_nonneg; lia).
  assert (Hlt : n * 10 ^ (P - len) < 10 ^ P).
  { replace (10 ^ P) with (10 ^ len * 10 ^ (P - len)); [nia|].
    rewrite <- Z.pow_add_r by lia. f_equal. lia. }
  destruct (Z.leb_spec (10 ^ P) (n * 10 ^ (P - len))); [lia|].
  destruct (Z.ltb_spec (len - 1) (-4)); [lia|]. destruct (Z.leb_spec P (len - 1)); [lia|].
  cbn [orb]. destruct (Z.leb_spec 0 (len - 1)); [|lia].
  rewrite <- (Z2Nat.id (P - len)) by lia. rewrite digits_mul10 by lia.
  replace (Z.to_nat (len - 1 + 1)) with (length (digits n)) by lia.
  rewrite take_app_length, drop_app_length.
  unfold with_fraction. by rewrite strip_zeros_repeat.
Qed.

(** The decimal text of an integer. *)
Definition int_text (n : Z) : bytes :=
  if n <? 0 then c_minus :: digits (- n) else digits n.

Lemma format_g_int P n :
  1 <= P -> - 10 ^ P < n < 10 ^ P -> - 2 ^ 53 < n < 2 ^ 53 ->
  format_g P (d_of_Z n) = int_text n.
Proof.
  intros HP Hn H53. unfold int_text.
  assert (Hg : forall k m e, 0 < k < 10 ^ P -> -1074 <= e <= 0 -> Zpos m = k * 2 ^ (- e) ->
    (if 0 <=? e then format_pos_g P (Zpos m * 2 ^ e) 1 else format_pos_g P (Zpos m) (2 ^ (- e)))
      = digits k).
  { intros k m e Hk He Hm. destruct (Z.leb_spec 0 e).
    - replace e with 0 in * by lia. rewrite Hm. simpl.
      rewrite Z.mul_1_r.
      apply format_pos_g_int; lia.
    - rewrite Hm. apply format_pos_g_int; [done|]. apply Z.pow_pos_nonneg; lia. }
  destruct (Z.lt_trichotomy n 0) as [Hlt|[->|Hgt]].
  - destruct (d_of_Z_exact (- n)) as (m & e & _ & E & He & Hm & _); [lia|].
    rewrite Z.opp_involutive in E. rewrite E. cbn [format_g].
    rewrite (Hg (- n)) by (done || lia). destruct (Z.ltb_spec n 0); [done|lia].
  - done.
  - destruct (d_of_Z_exact n) as (m & e & E & _ & He & Hm & _); [lia|].
    rewrite E. cbn [format_g]. rewrite (Hg n) by (done || lia).
    destruct (Z.ltb_spec n 0); [lia|done].
Qed.

(** What may follow a number so that scanning stops there. *)
Definition num_end (r : bytes) : Prop :=
  match r with
  | [] => True
  | c :: _ => is_digit c = false /\ c <> c_dot /\ c <> c_e /\ c <> c_E
  end.

Lemma strtod_digits (sign : bool) (l r : bytes) (z : Z) :
  Forall (fun c => 48 <= c <= 57) l -> l <> [] -> digits_value 0 l = z -> num_end r ->
  strtod (((if sign then [c_minus] else []) : bytes) ++ l ++ r)
    = Some (dec_to_double sign z 0, r).
Proof.
  intros Hl Hne Hz Hr. unfold strtod.
  assert (Es : scan_sign (((if sign then [c_minus] else []) : bytes) ++ l ++ r) = (sign, l ++ r)).
  { destruct sign; [done|]. destruct l as [|c l]; [done|]. inversion Hl as [|? ? Hc _]; subst.
    cbn. destruct (Z.eqb_spec c 45); [lia|]. destruct (Z.eqb_spec c 43); [lia|]. done. }
  rewrite Es, scan_digits_app; [|done|destruct r; [done|apply Hr]].
  assert (Ef : (match r with
      | c :: r' => if c =? c_dot then scan_digits r' else ([], r)
      | [] => ([], r)
      end) = (@nil Z, r)).
  { destruct r as [|c r]; [done|]. destruct Hr as (_ & Hd & _). by destruct (Z.eqb_spec c 46). }
  rewrite Ef, app_nil_r. destruct l as [|c l]; [done|].
  assert (Ex : scan_exponent r = (0, r)).
  { destruct r as [|c' r]; [done|]. destruct Hr as (_ & _ & H1 & H2). cbn.
    destruct (Z.eqb_spec c' 101); [done|]. by destruct (Z.eqb_spec c' 69). }
  rewrite Ex, Hz. done.
Qed.

Lemma dec_to_double_int (sign : bool) z :
  0 <= z -> (sign = true -> 0 < z) ->
  dec_to_double sign z 0 = d_of_Z (if sign then - z else z).
Proof.
  intros Hz Hs. destruct z as [|p|p]; [destruct sign; [specialize (Hs eq_refl); lia|done]| |lia].
  unfold dec_to_double, d_of_Z. cbn [Z.leb]. simpl (10 ^ 0). rewrite Z.mul_1_r. done.
Qed.

Lemma strtod_int_text n r : num_end r -> strtod (int_text n ++ r) = Some (d_of_Z n, r).
Proof.
  intros Hr. unfold int_text. destruct (Z.ltb_spec n 0) as [Hn|Hn].
  - pose proof (strtod_digits true (digits (- n)) r (- n)) as H. simpl in H. simpl. rewrite H.
    + rewrite dec_to_double_int by lia. by rewrite Z.opp_involutive.
    + apply digits_are_digits. lia.
    + destruct (digits_length (- n)) as [_ Hl]; [lia|]. intros E; rewrite E in Hl; simpl in Hl; lia.
    + apply digits_value_digits. lia.
    + done.
  - pose proof (strtod_digits false (digits n) r n) as H. simpl in H. rewrite H.
    + by rewrite dec_to_double_int by (lia || done).
    + by apply digits_are_digits.
    + destruct (Z.eq_dec n 0) as [->|]; [done|].
      destruct (digits_length n) as [_ Hl]; [lia|]. intros E; rewrite E in Hl; simpl in Hl; lia.
    + by apply digits_value_digits.
    + done.
Qed.
