(* ===== verification/CdoubleText.v ===== *)
(** * The size and the bytes of printed doubles

    [%1.17g] of any binary64 value is at most 24 bytes, so it fits the
    26-byte buffer of print_number, and it holds no NUL. *)

From Stdlib Require Import SpecFloat.
From S2P Require Import Prelude.
From S2P Require Import Cdouble.
From S2P Require Import CdoubleFacts.
From stdpp Require Import base numbers gmap list.

Open Scope Z_scope.

(** The doubles of the format (mantissa and exponent in range). *)
Definition valid_double (d : double) : Prop := valid_binary prec emax d = true.

Lemma valid_double_bounds s m e :
  valid_double (S754_finite s m e) -> Zpos m < 2 ^ 53 /\ -1074 <= e <= 971.
Proof.
  unfold valid_double. cbn [valid_binary]. unfold bounded, canonical_mantissa.
  intros [Hc He]%andb_prop. apply Z.eqb_eq in Hc.
  apply Z.leb_le in He. unfold fexp, emin in Hc. rewrite digits2_pos_log2 in Hc.
  split; [|lia]. apply Z.log2_lt_pow2; lia.
Qed.

Lemma valid_double_int n : - 2 ^ 53 < n < 2 ^ 53 -> valid_double (d_of_Z n).
Proof.
  intros Hn. unfold valid_double.
  assert (Hb : forall m e, -1074 <= e <= 0 -> Z.log2 (Zpos m) = 52 -> bounded prec emax m e = true).
  { intros m e He Hm. unfold bounded, canonical_mantissa, fexp, emin.
    rewrite digits2_pos_log2, Hm. apply andb_true_intro. split; [apply Z.eqb_eq|apply Z.leb_le]; lia. }
  destruct (Z.lt_trichotomy n 0) as [Hlt|[->|Hgt]]; [|done|].
  - destruct (d_of_Z_exact (- n)) as (m & e & _ & E & He & _ & Hm); [lia|].
    rewrite Z.opp_involutive in E. rewrite E. by apply Hb.
  - destruct (d_of_Z_exact n) as (m & e & E & _ & He & _ & Hm); [lia|]. rewrite E. by apply Hb.
Qed.

(** ** No NUL *)

Lemma digits_nonzero z : nonzero (digits z).
Proof.
  unfold digits. generalize (S (Z.to_nat (Z.log2 z))) as n; intros n.
  assert (H : nonzero []) by constructor. revert z H. generalize (@nil Z) as acc.
  induction n as [|n IH]; intros acc z H; simpl; [done|].
  assert (nonzero ((48 + z mod 10) :: acc)) by (constructor; [zlia|done]).
  destruct (z <? 10); [done|]. by apply IH.
Qed.

Lemma drop_zeros_suffix l : exists k, l = repeat 48 k ++ drop_zeros l.
Proof.
  induction l as [|c l [k IH]]; [by exists O|]. cbn [drop_zeros].
  destruct (Z.eqb_spec c 48) as [->|]; [|by exists O].
  exists (S k). simpl. by rewrite <- IH.
Qed.

Lemma strip_zeros_prefix l : exists k, l = strip_zeros l ++ repeat 48 k.
Proof.
  destruct (drop_zeros_suffix (rev l)) as [k Hk]. exists k. unfold strip_zeros.
  rewrite <- (rev_involutive l) at 1. rewrite Hk at 1. by rewrite rev_app_distr, rev_repeat.
Qed.

Lemma strip_zeros_length l : (length (strip_zeros l) <= length l)%nat.
Proof.
  destruct (strip_zeros_prefix l) as [k Hk]. rewrite Hk at 2. rewrite length_app. lia.
Qed.

Lemma strip_zeros_nonzero l : nonzero l -> nonzero (strip_zeros l).
Proof.
  destruct (strip_zeros_prefix l) as [k Hk]. rewrite Hk at 1. intros H.
  by apply Forall_app in H as [H _].
Qed.

Lemma with_fraction_nonzero a b : nonzero a -> nonzero b -> nonzero (with_fraction a b).
Proof.
  intros Ha Hb%strip_zeros_nonzero. unfold with_fraction.
  destruct (strip_zeros b); [done|]. apply Forall_app; split; [done|]. by constructor.
Qed.

Lemma exponent_text_nonzero x : nonzero (exponent_text x).
Proof.
  unfold exponent_text. constructor; [done|]. constructor; [by destruct (x <? 0)|].
  destruct (Z.abs x <? 10); [constructor; [done|]|]; apply digits_nonzero.
Qed.

Lemma format_pos_g_nonzero P n d : nonzero (format_pos_g P n d).
Proof.
  unfold format_pos_g. destruct (round_sig P n d) as [x r].
  pose proof (digits_nonzero r) as H.
  destruct ((x <? -4) || (P <=? x)); [|destruct (0 <=? x)].
  - apply Forall_app; split; [|apply exponent_text_nonzero].
    apply with_fraction_nonzero; [by apply Forall_take|by apply Forall_drop].
  - apply with_fraction_nonzero; [by apply Forall_take|by apply Forall_drop].
  - apply with_fraction_nonzero; [by repeat constructor|].
    apply Forall_app; split; [|done]. apply Forall_forall. by intros y ->%list_elem_of_In%repeat_spec.
Qed.

Lemma format_g_nonzero P d : nonzero (format_g P d).
Proof.
  destruct d as [[]|[]| |s m e]; [by repeat constructor..|]. cbn [format_g].
  assert (H : nonzero (if 0 <=? e then format_pos_g P (Zpos m * 2 ^ e) 1
                       else format_pos_g P (Zpos m) (2 ^ (- e))))
    by (destruct (0 <=? e); apply format_pos_g_nonzero).
  destruct s; [by constructor|done].
Qed.

(** ** Length *)

Lemma digits_length_le z k : 0 <= z < 10 ^ Z.of_nat k -> (0 < k)%nat -> (length (digits z) <= k)%nat.
Proof.
  intros Hz Hk. destruct (Z.eq_dec z 0) as [->|]; [simpl; lia|].
  destruct (digits_length z ltac:(lia)) as [[H _] _].
  destruct (Nat.leb_spec (length (digits z)) k); [done|].
  pose proof (Z.pow_le_mono_r 10 (Z.of_nat k) (Z.of_nat (length (digits z)) - 1)). lia.
Qed.

Lemma leading_zeros_le f n d k :
  0 <= k -> d <= n * 10 ^ k -> 0 <= leading_zeros f n d <= k.
Proof.
  revert n k. induction f as [|f IH]; intros n k Hk Hd; cbn [leading_zeros]; [lia|].
  destruct (Z.leb_spec d n); [lia|].
  destruct (Z.eq_dec k 0) as [->|]; [simpl in Hd; lia|].
  specialize (IH (10 * n) (k - 1) ltac:(lia)). rewrite <- Z.mul_assoc, (Z.mul_comm n) in IH.
  replace (10 * (10 ^ (k - 1) * n)) with (n * 10 ^ k) in IH.
  - specialize (IH Hd). lia.
  - replace k with (Z.succ (k - 1)) at 1 by lia. rewrite Z.pow_succ_r by lia. lia.
Qed.

Lemma ilog10_bound n d :
  0 < n < 2 ^ 1024 -> 0 < d <= 2 ^ 1074 -> -400 <= ilog10 n d <= 400.
Proof.
  intros Hn Hd. unfold ilog10. destruct (Z.leb_spec d n).
  - assert (0 < n / d) by (apply Z.div_str_pos; lia).
    assert (n / d <= n) by (apply Z.div_le_upper_bound; nia).
    assert (length (digits (n / d)) <= 400)%nat.
    { apply digits_length_le; [|lia]. split; [lia|].
      eapply Z.le_lt_trans; [done|]. eapply Z.lt_le_trans; [apply Hn|]. by vm_compute. }
    lia.
  - pose proof (leading_zeros_le (Z.to_nat (Z.log2 d + 1)) n d 400 ltac:(lia)) as H0.
    assert (d <= n * 10 ^ 400).
    { transitivity (2 ^ 1074); [lia|]. transitivity (1 * 10 ^ 400); [by vm_compute|].
      apply Z.mul_le_mono_nonneg_r; lia. }
    specialize (H0 ltac:(done)). lia.
Qed.

Lemma round_sig_bound P n d :
  1 <= P -> 0 < n < 2 ^ 1024 -> 0 < d <= 2 ^ 1074 ->
  let '(x, r) := round_sig P n d in -401 <= x <= 401 /\ 0 <= r < 10 ^ P.
Proof.
  intros HP Hn Hd. unfold round_sig. pose proof (ilog10_bound n d Hn Hd) as Hx.
  set (x := ilog10 n d) in *. unfold scale10.
  assert (Hr : forall n' d', 0 <= n' -> 0 < d' -> 0 <= round_ratio n' d').
  { intros n' d' Hn' Hd'. unfold round_ratio.
    pose proof (Z.div_pos n' d' Hn' Hd').
    destruct (Z.compare _ _); [destruct (Z.even _)|..]; lia. }
  assert (Hp : 0 < 10 ^ (P - 1) < 10 ^ P).
  { split; [apply Z.pow_pos_nonneg; lia|]. apply Z.pow_lt_mono_r; lia. }
  destruct (Z.leb_spec 0 (P - 1 - x)).
  - specialize (Hr (n * 10 ^ (P - 1 - x)) d ltac:(apply Z.mul_nonneg_nonneg; lia) ltac:(lia)).
    destruct (Z.leb_spec (10 ^ P) (round_ratio (n * 10 ^ (P - 1 - x)) d)); lia.
  - specialize (Hr n (d * 10 ^ (- (P - 1 - x))) ltac:(lia)
      ltac:(apply Z.mul_pos_pos; [lia|apply Z.pow_pos_nonneg; lia])).
    destruct (Z.leb_spec (10 ^ P) (round_ratio n (d * 10 ^ (- (P - 1 - x))))); lia.
Qed.

Lemma with_fraction_length a b :
  (length (with_fraction a b) <= length a + length b + 1)%nat.
Proof.
  unfold with_fraction. pose proof (strip_zeros_length b).
  destruct (strip_zeros b); [lia|]. rewrite length_app. simpl in *. lia.
Qed.

Lemma exponent_text_length x : -401 <= x <= 401 -> (length (exponent_text x) <= 5)%nat.
Proof.
  intros Hx. unfold exponent_text.
  assert (length (digits (Z.abs x)) <= 3)%nat by (apply digits_length_le; [|lia]; simpl; lia).
  destruct (Z.ltb_spec (Z.abs x) 10); simpl; [|lia].
  rewrite digits_small by lia. simpl. lia.
Qed.

Lemma format_pos_g_length P n d :
  1 <= P <= 17 -> 0 < n < 2 ^ 1024 -> 0 < d <= 2 ^ 1074 ->
  (length (format_pos_g P n d) <= 23)%nat.
Proof.
  intros HP Hn Hd. unfold format_pos_g.
  pose proof (round_sig_bound P n d ltac:(lia) Hn Hd) as H.
  destruct (round_sig P n d) as [x r]. destruct H as [Hx Hr].
  assert (Hl : (length (digits r) <= 17)%nat).
  { apply digits_length_le; [|lia]. split; [lia|]. eapply Z.lt_le_trans; [apply Hr|].
    apply Z.pow_le_mono_r; lia. }
  destruct (Z.ltb_spec x (-4)), (Z.leb_spec P x); cbn [orb];
    [lia|rewrite length_app..|]; try (pose proof (exponent_text_length x Hx);
    pose proof (with_fraction_length (take 1 (digits r)) (drop 1 (digits r)));
    rewrite length_take, length_drop in *; lia).
  destruct (Z.leb_spec 0 x).
  - pose proof (with_fraction_length (take (Z.to_nat (x + 1)) (digits r))
      (drop (Z.to_nat (x + 1)) (digits r))). rewrite length_take, length_drop in *. lia.
  - pose proof (with_fraction_length [c_zero] (repeat c_zero (Z.to_nat (- x - 1)) ++ digits r)).
    rewrite length_app, repeat_length in *. simpl in *. lia.
Qed.

Lemma format_g_length P d :
  1 <= P <= 17 -> valid_double d -> (length (format_g P d) <= 24)%nat.
Proof.
  intros HP Hv. destruct d as [[]|[]| |s m e]; [simpl; lia..|].
  apply valid_double_bounds in Hv as [Hm He]. cbn [format_g].
  assert (Hl : (length (if (0 <=? e)%Z then format_pos_g P (Zpos m * 2 ^ e) 1
                       else format_pos_g P (Zpos m) (2 ^ (- e))) <= 23)%nat).
  { destruct (Z.leb_spec 0 e); apply format_pos_g_length; try done.
    - split; [apply Z.mul_pos_pos; [lia|apply Z.pow_pos_nonneg; lia]|].
      apply Z.lt_le_trans with (2 ^ 53 * 2 ^ e).
      + apply Z.mul_lt_mono_pos_r; [apply Z.pow_pos_nonneg; lia|done].
      + rewrite <- Z.pow_add_r by lia. apply Z.pow_le_mono_r; lia.
    - split; [lia|]. eapply Z.lt_le_trans; [done|]. apply Z.pow_le_mono_r; lia.
    - split; [apply Z.pow_pos_nonneg; lia|]. apply Z.pow_le_mono_r; lia. }
  destruct s; [simpl; lia|lia].
Qed.
