(* ===== verification/Cscan.v ===== *)
(** * Text to numbers: strtol, atoi, strtod, sscanf (C library)

    The conversions the option parser and units.c use, on the bytes of a C
    string.  [long] has 64 bits, as on the 64-bit targets of the build; atoi is
    [(int) strtol(s, NULL, 10)], as the C libraries define it. *)

From Stdlib Require Import SpecFloat.
From Stdlib Require Import String.
From S2P Require Import Prelude.
From S2P Require Import Cdouble.
From S2P Require Import CdoubleFacts.
From stdpp Require Import base numbers list.

Open Scope Z_scope.

Definition is_space (c : Z) : bool := (c =? 32) || ((9 <=? c) && (c <=? 13)).

Fixpoint skip_space (l : bytes) : bytes :=
  match l with
  | c :: r => if is_space c then skip_space r else l
  | [] => []
  end.

Definition lower (c : Z) : Z := if (65 <=? c) && (c <=? 90) then c + 32 else c.
Definition is_upper (c : Z) : bool := (65 <=? c) && (c <=? 90).
Definition toupper (c : Z) : Z := if (97 <=? c) && (c <=? 122) then c - 32 else c.

(** The value of a digit, 36 or more if it is none. *)
Definition digit_value (c : Z) : Z :=
  if is_digit c then c - 48 else if (97 <=? lower c) && (lower c <=? 122) then lower c - 97 + 10 else 36.

Fixpoint scan_base (base : Z) (l : bytes) : bytes * bytes :=
  match l with
  | [] => ([], [])
  | c :: r => if digit_value c <? base then let '(d, t) := scan_base base r in (c :: d, t) else ([], l)
  end.

Definition base_value (base : Z) (l : bytes) : Z := foldl (fun a c => base * a + digit_value c) 0 l.

(** ** strtol *)

Definition clip_long (z : Z) : Z := Z.max LLONG_MIN (Z.min LLONG_MAX z).

(** The base and where the digits start: base 0 takes it from the prefix. *)
Definition detect_base (base : Z) (l : bytes) : Z * bytes :=
  match l with
  | 48 :: x :: h :: r =>
      if ((base =? 0) || (base =? 16)) && (lower x =? 120) && (digit_value h <? 16) then (16, h :: r)
      else if base =? 0 then (8, l) else (base, l)
  | 48 :: _ => if base =? 0 then (8, l) else (base, l)
  | _ => if base =? 0 then (10, l) else (base, l)
  end.

(** The value and the rest of the text (all of it if there is no number). *)
Definition strtol (base : Z) (s : bytes) : Z * bytes :=
  let '(neg, l) := scan_sign (skip_space s) in
  let '(b, l) := detect_base base l in
  match scan_base b l with
  | ([], _) => (0, s)
  | (ds, r) => (clip_long (if neg then - base_value b ds else base_value b ds), r)
  end.

Definition atoi (s : bytes) : Z := i32 (fst (strtol 10 s)).

(** ** Floating point *)

Fixpoint has_prefix (p l : bytes) : bool :=
  match p, l with
  | [], _ => true
  | c :: p, d :: l => (c =? lower d) && has_prefix p l
  | _, [] => false
  end.

(** [m * 2^e] with a sign. *)
Definition bin_to_double (sign : bool) (m e : Z) : double :=
  match m with
  | Zpos _ => binary_normalize prec emax (if sign then - m else m) e sign
  | _ => S754_zero sign
  end.

(** A binary exponent, if one is well formed. *)
Definition scan_bin_exponent (l : bytes) : option (Z * bytes) :=
  match l with
  | c :: r =>
      if lower c =? 112
      then let '(s, r') := scan_sign r in
           match scan_digits r' with
           | ([], _) => None
           | (ds, t) => Some ((if s then - digits_value 0 ds else digits_value 0 ds), t)
           end
      else Some (0, l)
  | [] => Some (0, [])
  end.

(** Digits with an optional fraction in a base. *)
Definition scan_fraction (base : Z) (l : bytes) : bytes * bytes * bytes :=
  let '(ip, l) := scan_base base l in
  match l with
  | c :: r => if c =? c_dot then let '(fp, t) := scan_base base r in (ip, fp, t) else (ip, [], l)
  | [] => (ip, [], [])
  end.

(** What %lf reads: the longest text that is a number or can be continued to
    one; [None] if it is not a number itself. *)
Definition scan_lf (s : bytes) : option (double * bytes) :=
  let l := skip_space s in
  let '(sign, l1) := scan_sign l in
  if has_prefix (bytes_of "infinity") l1 then Some (S754_infinity sign, drop 8 l1)
  else if has_prefix (bytes_of "infi") l1 then None
  else if has_prefix (bytes_of "inf") l1 then Some (S754_infinity sign, drop 3 l1)
  else if has_prefix (bytes_of "nan") l1 then Some (S754_nan, drop 3 l1)
  else if has_prefix (bytes_of "0x") l1
  then
    match scan_fraction 16 (drop 2 l1) with
    | ([], [], _) => None
    | (ip, fp, t) =>
        match scan_bin_exponent t with
        | Some (e, t) => Some (bin_to_double sign (base_value 16 (ip ++ fp)) (e - 4 * Z.of_nat (List.length fp)), t)
        | None => None
        end
    end
  else
    match scan_fraction 10 l1 with
    | ([], [], _) => None
    | (_, _, t) =>
        match t with
        | c :: _ =>
            if ((c =? c_e) || (c =? c_E)) && bool_decide (snd (scan_exponent t) = t) then None
            else strtod l
        | [] => strtod l
        end
    end.

(** sscanf(s, "%lf%c", &n, &suffix) with [suffix] zero before; [None] if [n] is
    not written. *)
Definition sscanf_lf_c (s : bytes) : option (double * Z) :=
  match scan_lf s with
  | Some (d, c :: _) => Some (d, c)
  | Some (d, []) => Some (d, 0)
  | None => None
  end.

(** atof: strtod takes the longest number and nothing is an error. *)
Definition atof (s : bytes) : double :=
  let l := skip_space s in
  let '(sign, l1) := scan_sign l in
  if has_prefix (bytes_of "inf") l1 then S754_infinity sign
  else if has_prefix (bytes_of "nan") l1 then S754_nan
  else if has_prefix (bytes_of "0x") l1
  then
    match scan_fraction 16 (drop 2 l1) with
    | ([], [], _) => S754_zero sign
    | (ip, fp, t) =>
        let e := match scan_bin_exponent t with Some (e, _) => e | None => 0 end in
        bin_to_double sign (base_value 16 (ip ++ fp)) (e - 4 * Z.of_nat (List.length fp))
    end
  else match strtod l with Some (d, _) => d | None => S754_zero false end.

