(* ===== verification/Units.v ===== *)
(** * Sizes and rates as text (units.c)

    Reading a number with a suffix (unit_atof, unit_atof_rate, unit_atoi) and
    printing one with a unit (unit_snprintf).  On whole numbers that a double
    holds exactly reading is multiplication by the unit. *)

From Stdlib Require Import SpecFloat.
From Stdlib Require Import String.
From S2P Require Import Prelude.
From S2P Require Import Cdouble.
From S2P Require Import CdoubleFacts.
From S2P Require Import CdoubleText.
From S2P Require Import Cscan.
From stdpp Require Import base numbers list.

Open Scope Z_scope.
Open Scope c_scope.

(** ** Reading *)

Definition KILO_UNIT : double := d_of_Z 1024.
Definition MEGA_UNIT : double := d_of_Z (1024 ^ 2).
Definition GIGA_UNIT : double := d_of_Z (1024 ^ 3).
Definition TERA_UNIT : double := d_of_Z (1024 ^ 4).
Definition KILO_RATE_UNIT : double := d_of_Z 1000.
Definition MEGA_RATE_UNIT : double := d_of_Z (1000 ^ 2).
Definition GIGA_RATE_UNIT : double := d_of_Z (1000 ^ 3).
Definition TERA_RATE_UNIT : double := d_of_Z (1000 ^ 4).

(** The switch on the suffix. *)
Definition scale_by (kilo mega giga tera : double) (n : double) (suffix : Z) : double :=
  if (suffix =? 116) || (suffix =? 84) then dmul n tera        (* 't', 'T' *)
  else if (suffix =? 103) || (suffix =? 71) then dmul n giga   (* 'g', 'G' *)
  else if (suffix =? 109) || (suffix =? 77) then dmul n mega   (* 'm', 'M' *)
  else if (suffix =? 107) || (suffix =? 75) then dmul n kilo   (* 'k', 'K' *)
  else n.

(** Without a number at the start of the text, [n] is used uninitialised. *)
Definition unit_atof (s : bytes) : outcome double :=
  match sscanf_lf_c s with
  | Some (n, suffix) => Ok (scale_by KILO_UNIT MEGA_UNIT GIGA_UNIT TERA_UNIT n suffix)
  | None => UB
  end.

Definition unit_atof_rate (s : bytes) : outcome double :=
  match sscanf_lf_c s with
  | Some (n, suffix) => Ok (scale_by KILO_RATE_UNIT MEGA_RATE_UNIT GIGA_RATE_UNIT TERA_RATE_UNIT n suffix)
  | None => UB
  end.

Definition unit_atoi (s : bytes) : outcome Z :=
  match sscanf_lf_c s with
  | Some (n, suffix) => u64_of_double (scale_by KILO_UNIT MEGA_UNIT GIGA_UNIT TERA_UNIT n suffix)
  | None => UB
  end.

(** ** Printing *)

(** printf %.<P>f of a non-negative [n / d]. *)
Definition format_pos_f (P : nat) (n d : Z) : bytes :=
  let r := digits (round_ratio (n * 10 ^ Z.of_nat P) d) in
  let r := repeat c_zero (S P - List.length r) ++ r in
  let k := (List.length r - P)%nat in
  take k r ++ match P with O => [] | _ => c_dot :: drop k r end.

Definition format_f (P : nat) (d : double) : bytes :=
  match d with
  | S754_zero s => (if s then [c_minus] else []) ++ format_pos_f P 0 1
  | S754_infinity s => if s then bytes_of "-inf" else bytes_of "inf"
  | S754_nan => bytes_of "nan"
  | S754_finite s m e =>
      (if s then [c_minus] else []) ++
      (if 0 <=? e then format_pos_f P (Zpos m * 2 ^ e) 1 else format_pos_f P (Zpos m) (2 ^ (- e)))
  end.

(** A field of width 4. *)
Definition pad4 (t : bytes) : bytes := repeat 32 (4 - List.length t) ++ t.

(** The quotients are those of the C initialisers. *)
Definition conversion_bytes : list double :=
  Eval vm_compute in
    let d := ddiv in let k := d_of_Z 1024 in let u := d_of_Z 1 in
    [u; d u k; d (d u k) k; d (d (d u k) k) k; d (d (d (d u k) k) k) k].
Definition conversion_bits : list double :=
  Eval vm_compute in
    let d := ddiv in let k := d_of_Z 1000 in let u := d_of_Z 1 in
    [u; d u k; d (d u k) k; d (d (d u k) k) k; d (d (d (d u k) k) k) k].

Definition label_byte : list bytes := map bytes_of ["Byte"; "KByte"; "MByte"; "GByte"; "TByte"]%string.
Definition label_bit : list bytes := map bytes_of ["bit"; "Kbit"; "Mbit"; "Gbit"; "Tbit"]%string.

Abbreviation UNIT_CONV := 0%nat.
Abbreviation TERA_CONV := 4%nat.

(** The loop of the adaptive formats; [k] is TERA_CONV - conv. *)
Fixpoint adapt (base : double) (k conv : nat) (tmpNum : double) : nat :=
  match k with
  | O => conv
  | S k => if dleb base tmpNum then adapt base k (S conv) (ddiv tmpNum base) else conv
  end.

Definition d_dec (n k : Z) : double := dec_to_double false n (- k).

(** The text before snprintf cuts it. *)
Definition unit_text (inNum : double) (inFormat : Z) : bytes :=
  let upper := is_upper inFormat in
  let inNum := if upper then inNum else dmul inNum (d_of_Z 8) in
  let c := toupper (u8 inFormat) in
  let conv :=
    if c =? 66 then UNIT_CONV               (* 'B' *)
    else if c =? 75 then 1%nat              (* 'K' *)
    else if c =? 77 then 2%nat              (* 'M' *)
    else if c =? 71 then 3%nat              (* 'G' *)
    else if c =? 84 then TERA_CONV          (* 'T' *)
    else adapt (if upper then d_of_Z 1024 else d_of_Z 1000) TERA_CONV UNIT_CONV inNum in
  let inNum := dmul inNum (nth conv (if upper then conversion_bytes else conversion_bits) d0) in
  let suffix := nth conv (if upper then label_byte else label_bit) [] in
  let number :=
    if dltb inNum (d_dec 9995 3) then format_f 2 inNum
    else if dltb inNum (d_dec 9995 2) then format_f 1 inNum
    else format_f 0 inNum in
  pad4 number ++ 32 :: suffix.

Definition unit_snprintf (inLen : Z) (inNum : double) (inFormat : Z) : bytes :=
  take (Z.to_nat (inLen - 1)) (unit_text inNum inFormat).

(** ** Multiplication of integers is exact below 2^53 *)

Lemma shr_1_even m : shr_1 (Build_shr_record (2 * m) false false) = Build_shr_record m false false.
Proof. by destruct m. Qed.

Lemma iter_pos_nat {A} (f : A -> A) k : forall x, SpecFloat.iter_pos f k x = Nat.iter (Pos.to_nat k) f x.
Proof.
  induction k as [k IH|k IH|]; intros x; cbn [SpecFloat.iter_pos]; [| |done].
  - rewrite !IH, <- !Nat.iter_add, Pos2Nat.inj_xI, <- Nat.iter_succ_r. f_equal. lia.
  - rewrite !IH, <- !Nat.iter_add, Pos2Nat.inj_xO. f_equal. lia.
Qed.

Lemma shr_exact n m e :
  shr (Build_shr_record (m * 2 ^ Zpos n) false false) e (Zpos n) = (Build_shr_record m false false, e + Zpos n).
Proof.
  unfold shr. f_equal. rewrite iter_pos_nat, <- (positive_nat_Z n). generalize (Pos.to_nat n). clear n. intros n.
  induction n as [|n IH]; [cbn; by rewrite Z.mul_1_r|].
  rewrite Nat.iter_succ_r, Nat2Z.inj_succ, Z.pow_succ_r by lia.
  replace (m * (2 * 2 ^ Z.of_nat n)) with (2 * (m * 2 ^ Z.of_nat n)) by lia. by rewrite shr_1_even.
Qed.

(** An exact value rounds to itself. *)
Lemma round_aux_exact s m k e :
  Z.log2 (Zpos m) = 52 -> -1074 <= e + Zpos k <= 971 ->
  binary_round_aux prec emax s (Zpos m * 2 ^ Zpos k) e loc_Exact = S754_finite s m (e + Zpos k).
Proof.
  intros Hm He.
  assert (Hd : Zdigits2 (Zpos m * 2 ^ Zpos k) = 53 + Zpos k).
  { destruct (Zpos m * 2 ^ Zpos k) as [|q|q] eqn:E; [lia| |lia].
    cbn [Zdigits2]. rewrite digits2_pos_log2, <- E, Z.log2_mul_pow2 by lia. lia. }
  assert (Hf : fexp prec emax (53 + Zpos k + e) - e = Zpos k) by (unfold fexp, emin; lia).
  assert (Hs : shr_fexp prec emax (Zpos m * 2 ^ Zpos k) e loc_Exact = (Build_shr_record (Zpos m) false false, e + Zpos k)).
  { unfold shr_fexp. rewrite Hd, Hf. apply shr_exact. }
  assert (Hs2 : shr_fexp prec emax (Zpos m) (e + Zpos k) loc_Exact = (Build_shr_record (Zpos m) false false, e + Zpos k)).
  { unfold shr_fexp. cbn [Zdigits2]. rewrite digits2_pos_log2, Hm.
    replace (fexp prec emax (52 + 1 + (e + Zpos k)) - (e + Zpos k)) with 0 by (unfold fexp, emin; lia). done. }
  unfold binary_round_aux. rewrite Hs. cbn [shr_m loc_of_shr_record round_nearest_even].
  rewrite Hs2. cbn [shr_m]. destruct (Z.leb_spec (e + Zpos k) (emax - prec)); [done|lia].
Qed.

Lemma dmul_exact a b : 0 < a -> 0 < b -> a * b < 2 ^ 53 -> dmul (d_of_Z a) (d_of_Z b) = d_of_Z (a * b).
Proof.
  intros Ha Hb Hab.
  destruct (d_of_Z_exact a) as (ma & ea & -> & _ & Hea & Ema & La); [nia|].
  destruct (d_of_Z_exact b) as (mb & eb & -> & _ & Heb & Emb & Lb); [nia|].
  destruct (d_of_Z_exact (a * b)) as (m & e & -> & _ & He & Em & Lm); [nia|].
  unfold dmul, SFmul. cbn [xorb]. change (Zpos (ma * mb)) with (Zpos ma * Zpos mb).
  assert (Hl : Zpos ma * Zpos mb = a * b * 2 ^ (- (ea + eb))).
  { rewrite Ema, Emb. replace (- (ea + eb)) with (- ea + - eb) by lia. rewrite Z.pow_add_r by lia. lia. }
  assert (Hge : 2 ^ 52 * 2 ^ 52 <= Zpos ma * Zpos mb).
  { pose proof (Z.log2_spec (Zpos ma)). pose proof (Z.log2_spec (Zpos mb)). rewrite La, Lb in *. nia. }
  assert (Hlog : 104 <= - (ea + eb) + Z.log2 (a * b)).
  { rewrite <- Z.log2_mul_pow2, <- Hl by lia. change 104 with (Z.log2 (2 ^ 52 * 2 ^ 52)). by apply Z.log2_le_mono. }
  assert (Hlm : - e + Z.log2 (a * b) = 52) by (rewrite <- Z.log2_mul_pow2, <- Em by lia; done).
  assert (Hk : exists k, Zpos k = e - (ea + eb)) by (exists (Z.to_pos (e - (ea + eb))); lia).
  destruct Hk as [k Hk].
  replace (Zpos ma * Zpos mb) with (Zpos m * 2 ^ Zpos k).
  2:{ rewrite Hl, Em, <- Z.mul_assoc, <- Z.pow_add_r by lia. do 2 f_equal. lia. }
  rewrite round_aux_exact by lia. f_equal. lia.
Qed.

(** ** Whole numbers *)

(** What may follow a number: nothing that continues it. *)
Definition text_end (r : bytes) : Prop :=
  num_end r /\ match r with c :: _ => lower c <> 120 | [] => True end.

Lemma is_digit_range c : 48 <= c <= 57 -> is_digit c = true.
Proof. intros H. unfold is_digit. destruct (Z.leb_spec 48 c), (Z.leb_spec c 57); try done; lia. Qed.

Lemma digit_lower c : is_digit c = true -> lower c = c /\ digit_value c = c - 48 /\ 48 <= c <= 57.
Proof.
  intros H. unfold digit_value. rewrite H. unfold is_digit in H. apply andb_true_iff in H as [H1 H2].
  apply Z.leb_le in H1, H2. split; [|split; [done|lia]]. unfold lower.
  destruct (Z.leb_spec 65 c); [lia|done].
Qed.

Lemma digit_value_10 c : (digit_value c <? 10) = is_digit c.
Proof.
  destruct (is_digit c) eqn:E.
  - destruct (digit_lower c E) as (_ & -> & H). apply Z.ltb_lt. lia.
  - unfold digit_value. rewrite E. apply Z.ltb_ge. destruct (_ && _) eqn:E2; [|lia].
    apply andb_true_iff in E2 as [E2 _]. apply Z.leb_le in E2. lia.
Qed.

Lemma scan_base_digits l : scan_base 10 l = scan_digits l.
Proof. induction l as [|c l IH]; [done|]. cbn [scan_base scan_digits]. by rewrite digit_value_10, IH. Qed.

(** No word and no hexadecimal prefix starts a decimal number. *)
Lemma decimal_prefix l r : Forall (fun c => is_digit c = true) l -> l <> [] -> text_end r ->
  (forall p c, 97 <= c -> has_prefix (c :: p) (l ++ r) = false) /\ has_prefix (bytes_of "0x") (l ++ r) = false.
Proof.
  intros Hl Hne Hr. destruct l as [|d l]; [done|]. inversion Hl as [|? ? Hd Hl']; subst.
  destruct (digit_lower d Hd) as (Ed & _ & Hd2). cbn [app]. split.
  - intros p c Hc. cbn [has_prefix]. rewrite Ed. destruct (Z.eqb_spec c d); [lia|done].
  - change (bytes_of "0x") with [48; 120]. cbn [has_prefix]. destruct (48 =? lower d); [|done]. cbn [andb].
    destruct l as [|d2 l]; cbn [app].
    + destruct r as [|c r]; [done|]. destruct Hr as [_ Hr]. by destruct (Z.eqb_spec 120 (lower c)).
    + inversion Hl' as [|? ? Hd3 _]; subst. destruct (digit_lower d2 Hd3) as (-> & _ & H). destruct (Z.eqb_spec 120 d2); [lia|done].
Qed.

Lemma scan_lf_digits n r : 0 <= n -> text_end r -> scan_lf (digits n ++ r) = Some (d_of_Z n, r).
Proof.
  intros Hn Hr. assert (Hds : Forall (fun c => is_digit c = true) (digits n)).
  { eapply Forall_impl; [by apply digits_are_digits|]. intros c. apply is_digit_range. }
  assert (Hne : digits n <> []).
  { destruct (Z.eq_dec n 0) as [->|]; [done|]. destruct (digits_length n) as [_ H]; [lia|].
    intros E. rewrite E in H. cbn in H. lia. }
  destruct (decimal_prefix (digits n) r Hds Hne Hr) as [Hp Hx].
  assert (Hstr : strtod (digits n ++ r) = Some (d_of_Z n, r)).
  { pose proof (strtod_int_text n r (proj1 Hr)) as H. unfold int_text in H.
    destruct (Z.ltb_spec n 0); [lia|]. exact H. }
  assert (Hsc : scan_fraction 10 (digits n ++ r) = (digits n, [], r)).
  { unfold scan_fraction. rewrite scan_base_digits, scan_digits_app; [|by apply digits_are_digits|destruct r; [done|apply Hr]].
    destruct r as [|c r]; [done|]. destruct Hr as [(_ & Hd & _) _]. by destruct (Z.eqb_spec c c_dot). }
  assert (Hh : exists d l, digits n ++ r = d :: l /\ is_digit d = true).
  { destruct (digits n) as [|d l]; [done|]. inversion Hds; subst. by exists d, (l ++ r). }
  destruct Hh as (d & l & El & Hd). destruct (digit_lower d Hd) as (_ & _ & Hr2).
  unfold scan_lf. rewrite El in *. assert (Hsp : is_space d = false) by (unfold is_space; lia).
  cbn [skip_space]. rewrite Hsp. cbn [scan_sign].
  destruct (Z.eqb_spec d c_minus); [lia|]. destruct (Z.eqb_spec d c_plus); [lia|].
  change (bytes_of "infinity") with (105 :: bytes_of "nfinity"). change (bytes_of "infi") with (105 :: bytes_of "nfi").
  change (bytes_of "inf") with (105 :: bytes_of "nf"). change (bytes_of "nan") with (110 :: bytes_of "an").
  rewrite !(Hp _ 105), (Hp _ 110), Hx by lia. rewrite Hsc. destruct (digits n) as [|d0 l0]; [done|].
  destruct r as [|c r]; [done|]. destruct Hr as [(_ & _ & He & HE) _].
  destruct (Z.eqb_spec c c_e); [done|]. by destruct (Z.eqb_spec c c_E).
Qed.

(** The factor of a suffix. *)
Definition unit_factor (kilo suffix : Z) : Z :=
  if (suffix =? 116) || (suffix =? 84) then kilo ^ 4
  else if (suffix =? 103) || (suffix =? 71) then kilo ^ 3
  else if (suffix =? 109) || (suffix =? 77) then kilo ^ 2
  else if (suffix =? 107) || (suffix =? 75) then kilo
  else 1.

Definition suffix_of (r : bytes) : Z := match r with c :: _ => c | [] => 0 end.

Lemma dmul_int n k : 0 <= n -> 0 < k < 2 ^ 53 -> n * k < 2 ^ 53 -> dmul (d_of_Z n) (d_of_Z k) = d_of_Z (n * k).
Proof.
  intros Hn Hk Hb. destruct (Z.eq_dec n 0) as [->|]; [|apply dmul_exact; lia].
  destruct (d_of_Z_exact k) as (m & e & -> & _); [lia|]. done.
Qed.

Lemma scale_by_exact kilo n c : 1 < kilo -> kilo ^ 4 < 2 ^ 53 -> 0 <= n -> n * unit_factor kilo c < 2 ^ 53 ->
  scale_by (d_of_Z kilo) (d_of_Z (kilo ^ 2)) (d_of_Z (kilo ^ 3)) (d_of_Z (kilo ^ 4)) (d_of_Z n) c
    = d_of_Z (n * unit_factor kilo c).
Proof.
  intros Hk Hk4 Hn. unfold scale_by, unit_factor.
  assert (0 < kilo ^ 2 < kilo ^ 4 /\ 0 < kilo ^ 3 < kilo ^ 4 /\ kilo < kilo ^ 4).
  { pose proof (Z.pow_lt_mono_r kilo 2 4). pose proof (Z.pow_lt_mono_r kilo 3 4). pose proof (Z.pow_lt_mono_r kilo 1 4).
    pose proof (Z.pow_pos_nonneg kilo 2). pose proof (Z.pow_pos_nonneg kilo 3). lia. }
  repeat case_match; intros Hb; try (apply dmul_int; lia). by rewrite Z.mul_1_r.
Qed.

Lemma sscanf_digits n r : 0 <= n -> text_end r -> sscanf_lf_c (digits n ++ r) = Some (d_of_Z n, suffix_of r).
Proof. intros Hn Hr. unfold sscanf_lf_c. rewrite scan_lf_digits by done. by destruct r. Qed.

Lemma u64_of_double_int n : 0 <= n < 2 ^ 53 -> u64_of_double (d_of_Z n) = Ok n.
Proof.
  intros Hn. destruct (Z.eq_dec n 0) as [->|]; [done|].
  pose proof (Z_of_double_d_of_Z n) as Hz. destruct (d_of_Z_exact n) as (m & e & E & _); [lia|].
  rewrite E in *. unfold u64_of_double. rewrite Hz by lia.
  destruct (Z.leb_spec 0 n), (Z.ltb_spec n (2 ^ 64)); try done; lia.
Qed.

(** Sizes mean what they say.  A whole number with one of the suffixes
    K, M, G, T in either case (or with anything else that does not continue the
    number, which is ignored) is read as the number times the power of 1024 by
    unit_atoi and unit_atof and times the power of 1000 by unit_atof_rate,
    exactly, as long as the product is below 2^53. *)
Theorem unit_reads_exact n r :
  0 <= n -> text_end r -> n * unit_factor 1024 (suffix_of r) < 2 ^ 53 -> n * unit_factor 1000 (suffix_of r) < 2 ^ 53 ->
  unit_atoi (digits n ++ r) = Ok (n * unit_factor 1024 (suffix_of r)) /\
  unit_atof (digits n ++ r) = Ok (d_of_Z (n * unit_factor 1024 (suffix_of r))) /\
  unit_atof_rate (digits n ++ r) = Ok (d_of_Z (n * unit_factor 1000 (suffix_of r))).
Proof.
  intros Hn Hr Hb Hb'. unfold unit_atoi, unit_atof, unit_atof_rate. rewrite sscanf_digits by done.
  unfold KILO_UNIT, MEGA_UNIT, GIGA_UNIT, TERA_UNIT, KILO_RATE_UNIT, MEGA_RATE_UNIT, GIGA_RATE_UNIT, TERA_RATE_UNIT.
  rewrite (scale_by_exact 1024), (scale_by_exact 1000) by first [assumption | lia | reflexivity].
  split; [|by split].
  apply u64_of_double_int. split; [|done]. apply Z.mul_nonneg_nonneg; [done|].
  unfold unit_factor. repeat case_match; vm_compute; discriminate.
Qed.

Lemma unit_reads_exact_witness :
  unit_atoi (digits 128 ++ [75]) = Ok 131072 /\ unit_atof (digits 128 ++ [75]) = Ok (d_of_Z 131072) /\
  unit_atof_rate (digits 128 ++ [75]) = Ok (d_of_Z 128000).
Proof. apply (unit_reads_exact 128 [75]); [lia|repeat split; discriminate|reflexivity|reflexivity]. Defined.
