(* ===== verification/CscanFacts.v ===== *)
(** * Reading the decimal digits of a number back

    strtol and atoi on the text that printf makes of a number, with anything
    that is not a digit behind it. *)

From S2P Require Import Prelude.
From S2P Require Import Cdouble.
From S2P Require Import CdoubleFacts.
From S2P Require Import CdoubleText.
From S2P Require Import Cscan.
From S2P Require Import Units.
From stdpp Require Import base numbers gmap list.

Open Scope Z_scope.

Lemma detect_base_10 l : detect_base 10 l = (10, l).
Proof. unfold detect_base. repeat (case_match; try done). Qed.

Lemma digits_nonempty n : 0 <= n -> exists d l, digits n = d :: l /\ 48 <= d <= 57.
Proof.
  intros Hn. pose proof (digits_are_digits n Hn) as H. destruct (digits n) as [|d l] eqn:E.
  - pose proof (digits_value_digits n Hn) as Hv. rewrite E in Hv. cbn in Hv. subst n. discriminate E.
  - inversion H; subst. by exists d, l.
Qed.

Lemma base_value_digits l : Forall (fun c => 48 <= c <= 57) l -> forall a,
  foldl (fun a c => 10 * a + digit_value c) a l = digits_value a l.
Proof.
  induction 1 as [|c l Hc _ IH]; intros a; [done|]. cbn [foldl digits_value]. rewrite IH. f_equal.
  destruct (digit_lower c) as (_ & -> & _); [|lia]. apply is_digit_range. lia.
Qed.

(** What follows the digits does not go on with one. *)
Definition no_digit_first (r : bytes) : Prop := match r with [] => True | c :: _ => is_digit c = false end.

Lemma strtol_digits n r : 0 <= n < 2 ^ 63 -> no_digit_first r -> strtol 10 (digits n ++ r) = (n, r).
Proof.
  intros Hn Hr. destruct (digits_nonempty n) as (d & l & E & Hd); [lia|]. pose proof (digits_are_digits n ltac:(lia)) as Hds.
  assert (Hs : scan_digits (digits n ++ r) = (digits n, r)) by (by apply scan_digits_app).
  pose proof (base_value_digits _ Hds 0) as Hv. rewrite digits_value_digits in Hv by lia. clear Hds.
  unfold strtol. rewrite E in *. cbn [app skip_space] in *. replace (is_space d) with false by (unfold is_space; lia).
  cbn [scan_sign]. destruct (Z.eqb_spec d c_minus); [lia|]. destruct (Z.eqb_spec d c_plus); [lia|].
  rewrite detect_base_10, scan_base_digits, Hs. unfold base_value. rewrite Hv.
  unfold clip_long. by rewrite Z.min_r, Z.max_r by zlia.
Qed.

Lemma atoi_digits_app n r : 0 <= n < 2 ^ 31 -> no_digit_first r -> atoi (digits n ++ r) = n.
Proof. intros Hn Hr. unfold atoi. rewrite strtol_digits by (done || lia). apply i32_small. unfold is_i32. lia. Qed.

Lemma atoi_digits n : 0 <= n < 2 ^ 31 -> atoi (digits n) = n.
Proof. intros Hn. rewrite <- (app_nil_r (digits n)). by apply atoi_digits_app. Qed.
