(* ===== verification/Dscp.v ===== *)
(** * Names of IP service classes (dscp.c) *)

From Stdlib Require Import String.
From S2P Require Import Prelude.
From S2P Require Import Cdouble.
From S2P Require Import Cscan.
From stdpp Require Import base numbers list.

Open Scope Z_scope.

Definition ipqos : list (bytes * Z) :=
  map (fun p => (bytes_of (fst p), snd p))
    [("af11", 0x28); ("af12", 0x30); ("af13", 0x38); ("af21", 0x48); ("af22", 0x50); ("af23", 0x58);
     ("af31", 0x68); ("af32", 0x70); ("af33", 0x78); ("af41", 0x88); ("af42", 0x90); ("af43", 0x98);
     ("cs0", 0x00); ("cs1", 0x20); ("cs2", 0x40); ("cs3", 0x60); ("cs4", 0x80); ("cs5", 0xa0);
     ("cs6", 0xc0); ("cs7", 0xe0); ("ef", 0xb8);
     ("lowdelay", 0x10); ("throughput", 0x08); ("reliability", 0x04)]%string.

(** strcasecmp(a, b) == 0 *)
Fixpoint case_equal (a b : bytes) : bool :=
  match a, b with
  | [], [] => true
  | x :: a, y :: b => (lower x =? lower y) && case_equal a b
  | _, _ => false
  end.

Definition parse_qos (cp : bytes) : Z :=
  match find (fun p => case_equal cp (fst p)) ipqos with
  | Some (_, v) => v
  | None =>
      let '(val, ep) := strtol 0 cp in
      match cp, ep with
      | [], _ | _, _ :: _ => -1
      | _, [] => if (val <? 0) || (255 <? val) then -1 else val
      end
  end.

Definition hex_digit (z : Z) : Z := if z <? 10 then 48 + z else 97 + z - 10.

Definition iptos2str (iptos : Z) : bytes :=
  let iptos := if (iptos <? 0) || (64 <? iptos) then 0 else iptos in
  match find (fun p => snd p =? iptos) ipqos with
  | Some (n, _) => n
  | None => [48; 120; hex_digit (iptos / 16); hex_digit (iptos mod 16)]
  end.

(** The values [0 .. n - 1]. *)
Definition below (n : nat) : list Z := map Z.of_nat (seq 0 n).

Lemma below_spec n z : 0 <= z < Z.of_nat n -> z ∈ below n.
Proof.
  intros Hz. unfold below. apply list_elem_of_fmap. exists (Z.to_nat z). split; [lia|]. apply elem_of_seq. lia.
Qed.

Lemma forall_below n (f : Z -> bool) z : forallb f (below n) = true -> 0 <= z < Z.of_nat n -> f z = true.
Proof. intros Hf Hz. rewrite forallb_forall in Hf. by apply Hf, list_elem_of_In, below_spec. Qed.

(** parse_qos yields a value of the type-of-service byte or -1. *)
Lemma parse_qos_range cp : -1 <= parse_qos cp <= 255.
Proof.
  unfold parse_qos. destruct (find _ ipqos) as [[n v]|] eqn:E.
  - apply find_some in E as [E _].
    assert (H : forallb (fun p => (-1 <=? snd p) && (snd p <=? 255)) ipqos = true) by reflexivity.
    rewrite forallb_forall in H. specialize (H _ E). cbn [snd] in H. lia.
  - destruct (strtol 0 cp) as [val ep]. destruct cp, ep; try lia.
    destruct (Z.ltb_spec val 0), (Z.ltb_spec 255 val); cbn; lia.
Qed.

(** Names of service classes survive printing and parsing: for every value
    up to 64 the text of iptos2str is read back as the value by parse_qos. *)
Theorem qos_roundtrip v : 0 <= v <= 64 -> parse_qos (iptos2str v) = v.
Proof.
  intros Hv. apply Z.eqb_eq.
  apply (forall_below 65 (fun v => parse_qos (iptos2str v) =? v)); [vm_compute; reflexivity|lia].
Qed.

Lemma qos_roundtrip_witness : parse_qos (iptos2str 40) = 40.
Proof. apply qos_roundtrip. lia. Defined.

(** Larger values print as the class 0, although all type-of-service values up
    to 255 are accepted and half of the table is above 64. *)
Theorem iptos2str_large v : 64 < v <= 255 -> iptos2str v = bytes_of "cs0".
Proof.
  intros Hv. unfold iptos2str. destruct (Z.ltb_spec v 0), (Z.ltb_spec 64 v); try lia. reflexivity.
Qed.
