(* ===== verification/Errors.v ===== *)
(** * Error messages (iperf_error.c: iperf_strerror)

    The message of each error number, whether the reason of errno (perr) or of
    the resolver (herr) is appended, and how the 256 characters of the buffer
    are filled.  The limits in the texts are those of iperf.h. *)

From Stdlib Require Import Ascii.
From Stdlib Require Import String.
From S2P Require Import Prelude.
From stdpp Require Import base numbers list.

Open Scope Z_scope.

(** Number, text, perr, herr. *)
Definition message : Type := Z * String.string * bool * bool.

(** The cases of the switch, in its order. *)
Definition parameter_messages : list message :=
  [(0, "no error"%string, false, false);
   (1, "cannot be both server and client"%string, false, false);
   (2, "must either be a client (-c) or server (-s)"%string, false, false);
   (3, "some option you are trying to set is server only"%string, false, false);
   (4, "some option you are trying to set is client only"%string, false, false);
   (5, "test duration too long (maximum = 86400 seconds)"%string, false, false);
   (6, "number of parallel streams too large (maximum = 128)"%string, false, false);
   (7, "block size too large (maximum = 1048576 bytes)"%string, false, false);
   (8, "socket buffer size too large (maximum = 536870912 bytes)"%string, false, false);
   (9, "invalid report interval (min = 0.1, max = 60 seconds)"%string, false, false);
   (19, "--bind must be specified to use --cport"%string, false, false);
   (20, "block size invalid (minimum = 16 bytes, maximum = 65507 bytes)"%string, false, false);
   (21, "bad TOS value (must be between 0 and 255 inclusive)"%string, false, false);
   (22, "you must specify username (max 20 chars), password (max 20 chars) and a path to a valid public rsa client to be used"%string, false, false);
   (23, "you must specify path to a valid private rsa server to be used and a user credential file"%string, false, false);
   (24, "bad format specifier (valid formats are in the set [kmgtKMGT])"%string, false, false);
   (26, "port number must be between 1 and 65535 inclusive"%string, false, false);
   (10, "TCP MSS too large (maximum = 9216 bytes)"%string, false, false);
   (11, "this OS does not support sendfile"%string, false, false);
   (12, "bogus value for --omit"%string, false, false);
   (13, "an option you are trying to set is not implemented yet"%string, false, false);
   (14, "unable to open -F file"%string, true, false);
   (15, "invalid burst count (maximum = 1000)"%string, false, false);
   (16, "only one test end condition (-t, -n, -k) may be specified"%string, false, false);
   (17, "unable to open log file"%string, true, false);
   (18, "no SCTP support available"%string, false, false)].

Definition test_messages : list message :=
  [(100, "unable to create a new test"%string, true, false);
   (101, "test initialization failed"%string, true, false);
   (142, "test authorization failed"%string, false, false);
   (102, "unable to start listener for connections"%string, true, true);
   (103, "unable to connect to server"%string, true, true);
   (104, "unable to accept connection from client"%string, true, true);
   (105, "unable to send cookie to server"%string, true, false);
   (106, "unable to receive cookie at server"%string, true, false);
   (107, "unable to write to the control socket"%string, true, false);
   (108, "unable to read from the control socket"%string, true, false);
   (109, "control socket has closed unexpectedly"%string, false, false);
   (110, "received an unknown control message"%string, false, false);
   (111, "unable to send control message"%string, true, false);
   (112, "unable to receive control message"%string, true, false);
   (113, "unable to send parameters to server"%string, true, false);
   (114, "unable to receive parameters from client"%string, true, false);
   (115, "unable to package results"%string, true, false);
   (116, "unable to send results"%string, true, false);
   (117, "unable to receive results"%string, true, false);
   (118, "select failed"%string, true, false);
   (119, "the client has terminated"%string, false, false);
   (120, "the server has terminated"%string, false, false);
   (121, "the server is busy running a test. try again later"%string, false, false);
   (122, "unable to set TCP/SCTP NODELAY"%string, true, false);
   (123, "unable to set TCP/SCTP MSS"%string, true, false);
   (124, "unable to set socket buffer size"%string, true, false);
   (125, "unable to set IP TOS"%string, true, false);
   (126, "unable to set IPv6 traffic class"%string, true, false);
   (127, "unable to set IPv6 flow label"%string, false, false);
   (128, "unable to reuse address on socket"%string, true, false);
   (129, "unable to set socket to non-blocking"%string, true, false);
   (130, "unable to set socket window size"%string, true, false);
   (131, "protocol does not exist"%string, false, false);
   (132, "unable to set CPU affinity"%string, true, false);
   (133, "unable to become a daemon"%string, true, false)].

Definition stream_messages : list message :=
  [(200, "unable to create a new stream"%string, true, true);
   (201, "unable to initialize stream"%string, true, true);
   (202, "unable to start stream listener"%string, true, true);
   (203, "unable to connect stream"%string, true, true);
   (204, "unable to accept stream connection"%string, true, false);
   (205, "unable to write to stream socket"%string, true, false);
   (206, "unable to read from stream socket"%string, true, false);
   (207, "stream socket has closed unexpectedly"%string, false, false);
   (208, "stream has an invalid id"%string, false, false);
   (300, "unable to create new timer"%string, true, false);
   (301, "unable to update timer"%string, true, false)].

Definition socket_messages : list message :=
  [(134, "unable to set TCP_CONGESTION: Supplied congestion control algorithm not supported on this host"%string, false, false);
   (135, "unable to write PID file"%string, true, false);
   (136, "Unable to set/reset IPV6_V6ONLY"%string, true, false);
   (137, "unable to set SCTP_DISABLE_FRAGMENTS"%string, true, false);
   (138, ("unable to set SCTP_INIT num of SCTP streams" ++ String (Ascii.ascii_of_nat 10) "")%string, true, false);
   (140, "unable to set socket pacing"%string, true, false);
   (141, "socket buffer size not set correctly"%string, false, false);
   (25, "cannot be both reverse and bidirectional"%string, false, false)].

Definition messages : list message :=
  parameter_messages ++ test_messages ++ stream_messages ++ socket_messages.

(** strncat(errstr, s, len - strlen(errstr) - 1) with len = 256 *)
Definition strncat (errstr s : bytes) : bytes := errstr ++ take (255 - List.length errstr) s.

(** [errno] and [gerror] with their texts; the message and gerror after. *)
Definition iperf_strerror (int_errno errno gerror : Z) (strerror gai_strerror : Z -> bytes) : bytes * Z :=
  let '(text, perr, herr) :=
    match find (fun m : message => m.1.1.1 =? int_errno) messages with
    | Some m => (bytes_of m.1.1.2, m.1.2, m.2)
    | None => ([], false, false)
    end in
  let errstr := take 255 text in
  let errstr := if herr || perr then strncat errstr (bytes_of ": ") else errstr in
  if nonzero_int errno && perr then (strncat errstr (strerror errno), gerror)
  else if herr && nonzero_int gerror then (strncat errstr (gai_strerror gerror), 0)
  else (errstr, gerror).

(** The error numbers of iperf_api.h. *)
Definition error_numbers : list Z :=
  map Z.of_nat (seq 0 27 ++ seq 100 43 ++ seq 200 9 ++ seq 300 2).

Abbreviation IESETSCTPBINDX := 139.

Lemma strncat_length a s : (List.length a <= 255)%nat -> (List.length (strncat a s) <= 255)%nat.
Proof. intros H. unfold strncat. rewrite length_app, length_take. lia. Qed.

Lemma strerror_length i errno gerror se ge : (List.length (fst (iperf_strerror i errno gerror se ge)) <= 255)%nat.
Proof.
  unfold iperf_strerror. destruct (match find _ messages with Some _ => _ | None => _ end) as [[text perr] herr].
  assert (H0 : (List.length (take 255 text) <= 255)%nat) by (rewrite length_take; lia).
  set (s := if herr || perr then _ else _). assert (H1 : (List.length s <= 255)%nat)
    by (unfold s; destruct (herr || perr); [by apply strncat_length|done]).
  destruct (nonzero_int errno && perr); [by apply strncat_length|].
  destruct (herr && nonzero_int gerror); [by apply strncat_length|done].
Qed.

(** The text of a number is a prefix of its message. *)
Lemma strerror_prefix i errno gerror se ge m :
  find (fun m : message => m.1.1.1 =? i) messages = Some m ->
  (List.length (bytes_of m.1.1.2) <= 255)%nat ->
  exists rest, fst (iperf_strerror i errno gerror se ge) = bytes_of m.1.1.2 ++ rest.
Proof.
  intros E Hl. unfold iperf_strerror. rewrite E. rewrite take_ge by done.
  assert (Hs : exists r, (if m.2 || m.1.2 then strncat (bytes_of m.1.1.2) (bytes_of ": ") else bytes_of m.1.1.2) = bytes_of m.1.1.2 ++ r).
  { unfold strncat. destruct (m.2 || m.1.2); [by eexists|]. exists []. by rewrite app_nil_r. }
  destruct Hs as [r ->]. destruct (_ && _); [|destruct (_ && _)]; cbn [fst]; unfold strncat; rewrite <- ?app_assoc; by eexists.
Qed.

(** Every error has a message.  For every error number of iperf_api.h but
    one the text of iperf_strerror starts with the message of that number (a
    non-empty one, different for each number) whatever errno, gerror and the
    texts of the system are, and it always fits the buffer of 256 characters;
    only IESETSCTPBINDX has no message at all. *)
Theorem strerror_messages :
  (forall i errno gerror se ge, (List.length (fst (iperf_strerror i errno gerror se ge)) <= 255)%nat) /\
  (forall i, i ∈ error_numbers -> i <> IESETSCTPBINDX ->
     exists m, In m messages /\ m.1.1.1 = i /\ bytes_of m.1.1.2 <> [] /\
       forall errno gerror se ge, exists rest, fst (iperf_strerror i errno gerror se ge) = bytes_of m.1.1.2 ++ rest) /\
  NoDup (map (fun m : message => m.1.1.2) messages) /\
  (forall errno gerror se ge, fst (iperf_strerror IESETSCTPBINDX errno gerror se ge) = []).
Proof.
  split; [apply strerror_length|]. split; [|split].
  - intros i Hi Hn.
    assert (H : forallb (fun i => (i =? IESETSCTPBINDX) ||
      match find (fun m : message => m.1.1.1 =? i) messages with
      | Some m => (0 <? List.length (bytes_of m.1.1.2))%nat && (List.length (bytes_of m.1.1.2) <=? 255)%nat
      | None => false
      end) error_numbers = true) by (vm_compute; reflexivity).
    rewrite forallb_forall in H. apply list_elem_of_In in Hi. specialize (H i Hi).
    destruct (Z.eqb_spec i IESETSCTPBINDX); [done|]. cbn [orb] in H.
    destruct (find _ messages) as [m|] eqn:E; [|done]. apply andb_true_iff in H as [H1 H2].
    apply Nat.ltb_lt in H1. apply Nat.leb_le in H2. pose proof E as [Hin Hm]%find_some. apply Z.eqb_eq in Hm.
    exists m. split; [done|]. split; [done|]. split; [by destruct (bytes_of m.1.1.2); cbn in H1; [lia|]|].
    intros. by apply strerror_prefix.
  - apply (bool_decide_unpack _). vm_compute. exact I.
  - intros. unfold iperf_strerror. change (find _ messages) with (@None message). cbv beta iota zeta. by rewrite andb_false_r.
Qed.
