(* ===== verification/CjsonData.v ===== *)
(** * cJSON items (cjson.h, cjson.c)

    A [cJSON] item is the C structure without its sibling links: the chain of
    the children reached from [child] through [next] is the list [child], in
    order.  Strings are the bytes of the memory behind the pointer before its
    last NUL ([None] is NULL); code that reads them as C strings sees
    [cstr_of]. *)

From S2P Require Import Prelude.
From S2P Require Import Cdouble.
From Stdlib Require Import SpecFloat.
From stdpp Require Import base numbers gmap list.

Open Scope Z_scope.

Abbreviation cJSON_Invalid := 0.
Abbreviation cJSON_False := 1.
Abbreviation cJSON_True := 2.
Abbreviation cJSON_NULL := 4.
Abbreviation cJSON_Number := 8.
Abbreviation cJSON_String := 16.
Abbreviation cJSON_Array := 32.
Abbreviation cJSON_Object := 64.
Abbreviation cJSON_Raw := 128.
Abbreviation cJSON_IsReference := 256.
Abbreviation cJSON_StringIsConst := 512.
Abbreviation CJSON_NESTING_LIMIT := 1000%nat.

#[warnings="-register-all"]
Inductive cJSON : Type := mkcJSON
  { type : Z;
    valuestring : option bytes;
    valueint : Z;
    valuedouble : double;
    string : option bytes;
    child : list cJSON }.

(** cJSON_New_Item: a zeroed item ([sizeof(cJSON)] bytes of zero; the zero
    double is [+0.0]). *)
Definition cJSON_New_Item : cJSON := mkcJSON 0 None 0 d0 None [].

(** sizeof(cJSON): four pointers and an int, padded, then an int64, a double
    and a pointer. *)
Definition sizeof_cJSON : nat := 64.

Definition set_type (t : Z) (j : cJSON) : cJSON :=
  mkcJSON t (valuestring j) (valueint j) (valuedouble j) (string j) (child j).
Definition set_valuestring (s : option bytes) (j : cJSON) : cJSON :=
  mkcJSON (type j) s (valueint j) (valuedouble j) (string j) (child j).
Definition set_valueint (z : Z) (j : cJSON) : cJSON :=
  mkcJSON (type j) (valuestring j) z (valuedouble j) (string j) (child j).
Definition set_valuedouble (d : double) (j : cJSON) : cJSON :=
  mkcJSON (type j) (valuestring j) (valueint j) d (string j) (child j).
Definition set_string (s : option bytes) (j : cJSON) : cJSON :=
  mkcJSON (type j) (valuestring j) (valueint j) (valuedouble j) s (child j).
Definition set_child (c : list cJSON) (j : cJSON) : cJSON :=
  mkcJSON (type j) (valuestring j) (valueint j) (valuedouble j) (string j) c.

(** [item->type & 0xFF] *)
Definition base_type (j : cJSON) : Z := Z.land (type j) 255.

(** Induction over items that reaches the children. *)
Section cJSON_rect.
Variable P : cJSON -> Prop.
Hypothesis Hnode : forall t vs vi vd s c, Forall P c -> P (mkcJSON t vs vi vd s c).
Fixpoint cJSON_ind' (j : cJSON) : P j :=
  match j with
  | mkcJSON t vs vi vd s c =>
      Hnode t vs vi vd s c
        ((fix go l : Forall P l :=
            match l with
            | [] => List.Forall_nil P
            | x :: r => List.Forall_cons P x r (cJSON_ind' x) (go r)
            end) c)
  end.
End cJSON_rect.

(** Nesting depth of arrays and objects. *)
Fixpoint depth_of (j : cJSON) : nat :=
  let sub := list_max (map depth_of (child j)) in
  if (base_type j =? cJSON_Array) || (base_type j =? cJSON_Object) then S sub else 0.

(** The saturating conversion of the C code (parse_number, cJSON_CreateNumber
    and cJSON_SetNumberHelper): [LLONG_MAX] as a double is 2^63. *)
Definition saturate (number : double) : Z :=
  if dleb (d_of_Z LLONG_MAX) number then LLONG_MAX
  else if dleb number (d_of_Z LLONG_MIN) then LLONG_MIN
  else Z_of_double number.

(** cJSON_SetNumberHelper *)
Definition cJSON_SetNumberHelper (object : cJSON) (number : double) : double * cJSON :=
  (number, set_valuedouble number (set_valueint (saturate number) object)).
