(* ===== verification/CjsonPrint.v ===== *)
(** * Rendering cJSON items to text (cjson.c: ensure .. print_object)

    The output memory is a list of cells; [None] is a byte never written since
    it was allocated, and reading one is [UB], as is a write outside the
    object or through a null or dangling pointer.  The n-th call of the
    allocation hooks succeeds when [allocate n size] says so. *)

From Stdlib Require Import SpecFloat.
From Stdlib Require Import String.
From S2P Require Import Prelude.
From S2P Require Import Cdouble.
From S2P Require Import CjsonData.
From stdpp Require Import base numbers gmap list.

Open Scope Z_scope.
Open Scope c_scope.

(** ** The output buffer *)

Inductive memory : Type :=
| Null
| Live (cells : list (option Z))
| Dangling.

Record printbuffer := mkprintbuffer
  { buffer : memory;
    length_ : nat;
    offset : nat;
    pdepth : nat;
    noalloc : bool;
    format : bool;
    has_realloc : bool;
    allocs : nat }.

Definition set_buffer (m : memory) (p : printbuffer) : printbuffer :=
  mkprintbuffer m (length_ p) (offset p) (pdepth p) (noalloc p) (format p) (has_realloc p) (allocs p).
Definition set_length (n : nat) (p : printbuffer) : printbuffer :=
  mkprintbuffer (buffer p) n (offset p) (pdepth p) (noalloc p) (format p) (has_realloc p) (allocs p).
Definition set_offset (n : nat) (p : printbuffer) : printbuffer :=
  mkprintbuffer (buffer p) (length_ p) n (pdepth p) (noalloc p) (format p) (has_realloc p) (allocs p).
Definition set_depth (n : nat) (p : printbuffer) : printbuffer :=
  mkprintbuffer (buffer p) (length_ p) (offset p) n (noalloc p) (format p) (has_realloc p) (allocs p).
Definition add_alloc (p : printbuffer) : printbuffer :=
  mkprintbuffer (buffer p) (length_ p) (offset p) (pdepth p) (noalloc p) (format p) (has_realloc p)
    (S (allocs p)).

(** [buffer[pos] = c] *)
Definition write1 (m : memory) (pos : nat) (c : Z) : outcome memory :=
  match m with
  | Live b => if (pos <? List.length b)%nat then Ok (Live (<[pos := Some c]> b)) else UB
  | _ => UB
  end.

(** Consecutive stores through an advancing pointer (also strcpy, memcpy). *)
Fixpoint writes (m : memory) (pos : nat) (l : bytes) : outcome memory :=
  match l with
  | [] => Ok m
  | c :: r => let! m' := write1 m pos c in writes m' (S pos) r
  end.

Definition put (p : printbuffer) (pos : nat) (l : bytes) : outcome printbuffer :=
  let! m := writes (buffer p) pos l in Ok (set_buffer m p).

(** free(m) *)
Definition release (m : memory) : outcome memory :=
  match m with
  | Null => Ok Null
  | Live _ => Ok Dangling
  | Dangling => UB
  end.

Fixpoint strlen_cells (b : list (option Z)) : outcome nat :=
  match b with
  | Some c :: r => if c =? 0 then Ok O else let! n := strlen_cells r in Ok (S n)
  | _ => UB
  end.

(** A fresh or grown object: the bytes kept, then bytes never written. *)
Definition grow (b : list (option Z)) (n : nat) : list (option Z) :=
  take n b ++ repeat None (n - List.length b).

Section Print.
Variable allocate : nat -> nat -> bool.

(** The reallocation at the end of ensure, to [n] bytes.  The pointer returned
    is [Some pos] for [buffer + pos] and [None] for NULL; when realloc fails
    the code returns [NULL + p->offset]. *)
Definition reallocate (p : printbuffer) (b : list (option Z)) (n : nat)
    : outcome (option nat * printbuffer) :=
  let ok := allocate (allocs p) n in
  let p := add_alloc p in
  if has_realloc p then
    if ok
    then Ok (Some (offset p), set_length n (set_buffer (Live (grow b n)) p))
    else Ok (if (offset p =? 0)%nat then None else Some (offset p),
             set_length n (set_buffer Null p))
  else
    if ok
    then
      if (offset p + 1 <=? Nat.min (List.length b) n)%nat
      then Ok (Some (offset p),
               set_length n (set_buffer (Live (grow (take (offset p + 1) b) n)) p))
      else UB
    else Ok (None, set_buffer Null (set_length 0 p)).

Definition ensure (p : printbuffer) (needed : nat) : outcome (option nat * printbuffer) :=
  match buffer p with
  | Null => Ok (None, p)
  | m =>
    if (0 <? length_ p)%nat && (length_ p <=? offset p)%nat then Ok (None, p) else
    if LLONG_MAX <? Z.of_nat needed then Ok (None, p) else
    let needed := u64 (Z.of_nat needed + Z.of_nat (offset p) + 1) in
    if needed <=? Z.of_nat (length_ p) then Ok (Some (offset p), p) else
    if noalloc p then Ok (None, p) else
    let newsize :=
      if LLONG_MAX / 2 <? needed
      then if needed <=? LLONG_MAX then Some LLONG_MAX else None
      else Some (needed * 2) in
    match newsize, m with
    | None, _ => Ok (None, p)
    | Some newsize, Live b => reallocate p b (Z.to_nat newsize)
    | _, _ => UB
    end
  end.

Definition update_offset (p : printbuffer) : outcome printbuffer :=
  match buffer p with
  | Null => Ok p
  | Live b =>
      let! n := strlen_cells (drop (offset p) b) in
      Ok (set_offset (offset p + n) p)
  | Dangling => UB
  end.

(** Run [k] when [ensure] returned a pointer, return false otherwise. *)
Definition ensured (p : printbuffer) (needed : nat)
    (k : nat -> printbuffer -> outcome (bool * printbuffer)) : outcome (bool * printbuffer) :=
  let! r := ensure p needed in
  match r with
  | (None, p') => Ok (false, p')
  | (Some pos, p') => k pos p'
  end.

(** ** Numbers *)

(** The text print_number puts into number_buffer.  [sscanf %lg] on the text
    of a finite double reads one number. *)
Definition number_text (d : double) : bytes :=
  if negb (deqb (dmul d d0) d0) then bytes_of "null"
  else
    let t := format_g 15 d in
    match strtod t with
    | Some (test, _) => if deqb test d then t else format_g 17 d
    | None => format_g 17 d
    end.

Definition print_number (item : cJSON) (p : printbuffer) : outcome (bool * printbuffer) :=
  let number_buffer := number_text (valuedouble item) in
  let length := List.length number_buffer in
  (* sprintf writes the text and its NUL into number_buffer[26] *)
  if (26 <? length + 1)%nat then UB else
  if (25 <? length)%nat then Ok (false, p) else
  ensured p length (fun pos p =>
    let! p := put p pos (number_buffer ++ [0]) in
    Ok (true, set_offset (offset p + length) p)).

(** ** Strings *)

(** The extra characters an input byte costs (the switch of the first loop). *)
Definition escape_cost (c : Z) : nat :=
  if (c =? 34) || (c =? 92) || (c =? 8) || (c =? 12) || (c =? 10) || (c =? 13) || (c =? 9)
  then 1 else if c <? 32 then 5 else 0.

Definition hex_digit (n : Z) : Z := if n <? 10 then 48 + n else 97 + (n - 10).

(** sprintf("u%04x", c) for a byte [c], with its NUL *)
Definition unicode_escape (c : Z) : bytes :=
  [117; 48; 48; hex_digit (c / 16); hex_digit (c mod 16)].

(** The character that follows the backslash of a one-character escape. *)
Definition short_escape (c : Z) : option Z :=
  if c =? 92 then Some 92 else if c =? 34 then Some 34 else if c =? 8 then Some 98
  else if c =? 12 then Some 102 else if c =? 10 then Some 110 else if c =? 13 then Some 114
  else if c =? 9 then Some 116 else None.

(** The copy loop; [output_pointer] is where the next byte goes. *)
Fixpoint print_chars (p : printbuffer) (output_pointer : nat) (input : bytes) : outcome printbuffer :=
  match input with
  | [] => Ok p
  | c :: r =>
      if (31 <? c) && negb (c =? 34) && negb (c =? 92)
      then let! p := put p output_pointer [c] in print_chars p (output_pointer + 1) r
      else
        let! p := put p output_pointer [92] in
        let output_pointer := (output_pointer + 1)%nat in
        match short_escape c with
        | Some e => let! p := put p output_pointer [e] in print_chars p (output_pointer + 1) r
        | None =>
            let! p := put p output_pointer (unicode_escape c ++ [0]) in
            print_chars p (output_pointer + 4 + 1) r
        end
  end.

Definition print_string_ptr (input : option bytes) (p : printbuffer) : outcome (bool * printbuffer) :=
  match input with
  | None =>
      ensured p 3 (fun pos p => let! p := put p pos [34; 34; 0] in Ok (true, p))
  | Some s =>
      let input := cstr_of s in
      let escape_characters := list_sum (map escape_cost input) in
      let output_length := (List.length input + escape_characters)%nat in
      ensured p (output_length + 3) (fun output p =>
        if (escape_characters =? 0)%nat
        then
          let! p := put p output [34] in
          let! p := put p (output + 1) input in
          let! p := put p (output + output_length + 1) [34; 0] in
          Ok (true, p)
        else
          let! p := put p output [34] in
          let! p := print_chars p (output + 1) input in
          let! p := put p (output + output_length + 1) [34; 0] in
          Ok (true, p))
  end.

Definition print_string (item : cJSON) (p : printbuffer) : outcome (bool * printbuffer) :=
  print_string_ptr (valuestring item) p.

(** ** Arrays and objects, over the printer [pv] of their elements *)

Section Elements.
Variable pv : cJSON -> printbuffer -> outcome (bool * printbuffer).

Fixpoint print_array_elements (l : list cJSON) (p : printbuffer) : outcome (bool * printbuffer) :=
  match l with
  | [] => Ok (true, p)
  | current_element :: next =>
      let! r := pv current_element p in
      match r with
      | (false, p) => Ok (false, p)
      | (true, p) =>
          let! p := update_offset p in
          match next with
          | [] => Ok (true, p)
          | _ :: _ =>
              let length := if format p then 2%nat else 1%nat in
              ensured p (length + 1) (fun output_pointer p =>
                let! p := put p output_pointer (if format p then [44; 32; 0] else [44; 0]) in
                print_array_elements next (set_offset (offset p + length) p))
          end
      end
  end.

(** The steps of one round of print_object's loop; [k] is what follows. *)
Definition print_indent (k : printbuffer -> outcome (bool * printbuffer)) (p : printbuffer)
    : outcome (bool * printbuffer) :=
  if format p
  then
    let depth := pdepth p in
    ensured p depth (fun output_pointer p =>
      let! p := put p output_pointer (repeat 9 (pdepth p)) in
      k (set_offset (offset p + depth) p))
  else k p.

Definition print_member_value (current_item : cJSON) (next : list cJSON)
    (k : printbuffer -> outcome (bool * printbuffer)) (p : printbuffer)
    : outcome (bool * printbuffer) :=
  let! r := pv current_item p in
  match r with
  | (false, p) => Ok (false, p)
  | (true, p) =>
    let! p := update_offset p in
    let length := ((if format p then 1 else 0) + (match next with [] => 0 | _ => 1 end))%nat in
    ensured p (length + 1) (fun output_pointer p =>
      let! p := put p output_pointer
        ((match next with [] => [] | _ => [44] end) ++ (if format p then [10] else []) ++ [0]) in
      k (set_offset (offset p + length) p))
  end.

Definition print_member (current_item : cJSON) (next : list cJSON)
    (k : printbuffer -> outcome (bool * printbuffer)) (p : printbuffer)
    : outcome (bool * printbuffer) :=
  let! r := print_string_ptr (string current_item) p in
  match r with
  | (false, p) => Ok (false, p)
  | (true, p) =>
    let! p := update_offset p in
    let length := if format p then 2%nat else 1%nat in
    ensured p length (fun output_pointer p =>
      let! p := put p output_pointer (if format p then [58; 9] else [58]) in
      print_member_value current_item next k (set_offset (offset p + length) p))
  end.

Fixpoint print_object_elements (l : list cJSON) (p : printbuffer) : outcome (bool * printbuffer) :=
  match l with
  | [] => Ok (true, p)
  | current_item :: next =>
      print_indent (print_member current_item next (print_object_elements next)) p
  end.

Definition print_array (item : cJSON) (p : printbuffer) : outcome (bool * printbuffer) :=
  ensured p 1 (fun output_pointer p =>
    let! p := put p output_pointer [91] in
    let p := set_depth (pdepth p + 1) (set_offset (offset p + 1) p) in
    let! r := print_array_elements (child item) p in
    match r with
    | (false, p) => Ok (false, p)
    | (true, p) =>
        ensured p 2 (fun output_pointer p =>
          let! p := put p output_pointer [93; 0] in
          Ok (true, set_depth (pdepth p - 1) p))
    end).

Definition print_object (item : cJSON) (p : printbuffer) : outcome (bool * printbuffer) :=
  let length := if format p then 2%nat else 1%nat in
  ensured p (length + 1) (fun output_pointer p =>
    let! p := put p output_pointer (if format p then [123; 10] else [123]) in
    let p := set_offset (offset p + length) (set_depth (pdepth p + 1) p) in
    let! r := print_object_elements (child item) p in
    match r with
    | (false, p) => Ok (false, p)
    | (true, p) =>
        ensured p (if format p then pdepth p + 1 else 2)%nat (fun output_pointer p =>
          let! p := put p output_pointer
            ((if format p then repeat 9 (pdepth p - 1) else []) ++ [125; 0]) in
          Ok (true, set_depth (pdepth p - 1) p))
    end).

End Elements.

(** strcpy of a literal after [ensure] *)
Definition print_literal (p : printbuffer) (needed : nat) (l : bytes) : outcome (bool * printbuffer) :=
  ensured p needed (fun output p => let! p := put p output (l ++ [0]) in Ok (true, p)).

Fixpoint print_value (item : cJSON) (p : printbuffer) {struct item} : outcome (bool * printbuffer) :=
  let t := base_type item in
  if t =? cJSON_NULL then print_literal p 5 (bytes_of "null")
  else if t =? cJSON_False then print_literal p 6 (bytes_of "false")
  else if t =? cJSON_True then print_literal p 5 (bytes_of "true")
  else if t =? cJSON_Number then print_number item p
  else if t =? cJSON_Raw then
    match valuestring item with
    | None =>
        if negb (noalloc p)
        then let! m := release (buffer p) in Ok (false, set_buffer m p)
        else Ok (false, p)
    | Some s => print_literal p (List.length (cstr_of s) + 1) (cstr_of s)
    end
  else if t =? cJSON_String then print_string item p
  else if t =? cJSON_Array then print_array print_value item p
  else if t =? cJSON_Object then print_object print_value item p
  else Ok (false, p).

(** ** The entry points *)

(** The C string at the start of an object. *)
Fixpoint string_at (b : list (option Z)) : outcome bytes :=
  match b with
  | Some c :: r => if c =? 0 then Ok [] else let! t := string_at r in Ok (c :: t)
  | _ => UB
  end.

(** The text behind the returned pointer, [None] for NULL. *)
Definition print (item : cJSON) (fmt : bool) (realloc : bool) : outcome (option (list (option Z))) :=
  if negb (allocate 0 256) then Ok None else
  let p := mkprintbuffer (Live (repeat None 256)) 0 0 0 false fmt realloc 1 in
  let fail (p : printbuffer) := let! _ := release (buffer p) in Ok None in
  let! r := print_value item p in
  match r with
  | (false, p) => fail p
  | (true, p) =>
      let! p := update_offset p in
      match buffer p with
      | Live b =>
          if realloc
          then
            if allocate (allocs p) (length_ p)
            then Ok (Some (grow b (length_ p)))
            else Ok None
          else
            if allocate (allocs p) (offset p + 1)
            then
              let n := Nat.min (length_ p) (offset p + 1) in
              let! m := write1 (Live (grow (take n b) (offset p + 1))) (offset p) 0 in
              match m with Live b => Ok (Some b) | _ => UB end
            else fail p
      | _ => UB
      end
  end.

(** [global_hooks] as the program leaves them: malloc, free, realloc. *)
Definition cJSON_Print (item : cJSON) : outcome (option (list (option Z))) := print item true true.
Definition cJSON_PrintUnformatted (item : cJSON) : outcome (option (list (option Z))) :=
  print item false true.

Definition cJSON_PrintBuffered (item : cJSON) (prebuffer : Z) (fmt : bool)
    : outcome (option (list (option Z))) :=
  if prebuffer <? 0 then Ok None else
  let n := Z.to_nat prebuffer in
  if negb (allocate 0 n) then Ok None else
  let! r := print_value item (mkprintbuffer (Live (repeat None n)) n 0 0 false fmt true 1) in
  match r with
  | (false, _) => Ok None
  | (true, p) => match buffer p with Live b => Ok (Some b) | _ => UB end
  end.

(** The caller's buffer holds [buf] and is afterwards what the memory says. *)
Definition cJSON_PrintPreallocated (item : cJSON) (buf : list (option Z)) (len : Z) (fmt : bool)
    : outcome (bool * memory) :=
  if len <? 0 then Ok (false, Live buf) else
  let! r := print_value item (mkprintbuffer (Live buf) (Z.to_nat len) 0 0 true fmt true 0) in
  let '(ok, p) := r in Ok (ok, buffer p).

End Print.
