(* ===== verification/CjsonPrintSpec.v ===== *)
(** * What the printer writes

    [json_text] is the text of an item, with no buffers or pointers; the
    lemmas show that print_value writes exactly that text, never outside the
    buffer, for any outcome of the allocations (when the hooks have no
    realloc, or realloc does not fail). *)

From Stdlib Require Import SpecFloat.
From Stdlib Require Import String.
From S2P Require Import Prelude.
From S2P Require Import Cdouble.
From S2P Require Import CdoubleText.
From S2P Require Import CjsonData.
From S2P Require Import CjsonPrint.
From stdpp Require Import base numbers gmap list.

Open Scope Z_scope.
Open Scope c_scope.

(** ** The text of an item *)

Definition escape_char (c : Z) : bytes :=
  if (31 <? c) && negb (c =? 34) && negb (c =? 92) then [c]
  else match short_escape c with
       | Some e => [92; e]
       | None => 92 :: unicode_escape c
       end.

Definition escape (s : bytes) : bytes := concat (map escape_char s).

Definition quoted (s : option bytes) : bytes :=
  match s with
  | None => [34; 34]
  | Some s => 34 :: escape (cstr_of s) ++ [34]
  end.

Definition opt (b : bool) (l : bytes) : bytes := if b then l else [].

Section Texts.
Variable pt : cJSON -> option bytes.
Variable fmt : bool.
Variable dep : nat.

Fixpoint elements_text (l : list cJSON) : option bytes :=
  match l with
  | [] => Some []
  | [x] => pt x
  | x :: r =>
      match pt x, elements_text r with
      | Some t, Some u => Some (t ++ [44] ++ opt fmt [32] ++ u)
      | _, _ => None
      end
  end.

Fixpoint members_text (l : list cJSON) : option bytes :=
  match l with
  | [] => Some []
  | x :: r =>
      match pt x, members_text r with
      | Some t, Some u =>
          Some (opt fmt (repeat 9 dep) ++ quoted (string x) ++ [58] ++ opt fmt [9] ++ t
                ++ (match r with [] => [] | _ => [44] end) ++ opt fmt [10] ++ u)
      | _, _ => None
      end
  end.
End Texts.

Fixpoint json_text (fmt : bool) (dep : nat) (item : cJSON) {struct item} : option bytes :=
  let t := base_type item in
  if t =? cJSON_NULL then Some (bytes_of "null")
  else if t =? cJSON_False then Some (bytes_of "false")
  else if t =? cJSON_True then Some (bytes_of "true")
  else if t =? cJSON_Number then Some (number_text (valuedouble item))
  else if t =? cJSON_Raw then option_map cstr_of (valuestring item)
  else if t =? cJSON_String then Some (quoted (valuestring item))
  else if t =? cJSON_Array then
    option_map (fun u => [91] ++ u ++ [93]) (elements_text (json_text fmt (S dep)) fmt (child item))
  else if t =? cJSON_Object then
    option_map (fun u => [123] ++ opt fmt [10] ++ u ++ opt fmt (repeat 9 dep) ++ [125])
      (members_text (json_text fmt (S dep)) fmt (S dep) (child item))
  else None.

(** Items the code builds: a number is a double of the format, a raw item has
    its text, and strings are unsigned bytes. *)
Definition is_bytesb (l : bytes) : bool := forallb (Z.leb 0) l.

Fixpoint printable (j : cJSON) : bool :=
  (if base_type j =? cJSON_Number then valid_binary prec emax (valuedouble j) else true)
  && (if base_type j =? cJSON_Raw then match valuestring j with None => false | _ => true end else true)
  && (match valuestring j with Some s => is_bytesb s | None => true end)
  && (match string j with Some s => is_bytesb s | None => true end)
  && forallb printable (child j).

(** ** The text holds no NUL *)

Lemma hex_digit_nz n : 0 <= n -> hex_digit n <> 0.
Proof. unfold hex_digit. destruct (Z.ltb_spec n 10); lia. Qed.

Lemma escape_char_nz c : 0 <= c -> c <> 0 -> nonzero (escape_char c).
Proof.
  intros H0 Hc. unfold escape_char.
  destruct (_ && _ && _); [by repeat constructor|].
  unfold short_escape. repeat case_match; try by (simplify_eq; repeat constructor).
  unfold unicode_escape.
  repeat (constructor; [first [done | apply hex_digit_nz; zlia]|]). constructor.
Qed.

(** Bytes of C strings are unsigned. *)
Definition is_bytes (l : bytes) : Prop := Forall (fun c => 0 <= c) l.

Lemma cstr_of_bytes s : is_bytes s -> is_bytes (cstr_of s).
Proof.
  induction 1; simpl; [constructor|]. case_match; by constructor.
Qed.

Lemma escape_nz s : is_bytes s -> nonzero s -> nonzero (escape s).
Proof.
  intros Hb. induction Hb as [|c s Hc Hs IH]; intros Hn; [constructor|].
  inversion Hn; subst. apply Forall_app; split; [by apply escape_char_nz|auto].
Qed.

Definition opt_bytes (s : option bytes) : Prop := from_option is_bytes True s.

Lemma is_bytesb_spec l : is_bytesb l = true -> is_bytes l.
Proof.
  unfold is_bytesb. rewrite forallb_forall. intros H. apply Forall_forall.
  intros x Hx%list_elem_of_In. by apply Z.leb_le, H.
Qed.

Lemma printable_inv j :
  printable j = true ->
  (base_type j = cJSON_Number -> valid_double (valuedouble j)) /\
  (base_type j = cJSON_Raw -> valuestring j <> None) /\
  opt_bytes (valuestring j) /\ opt_bytes (string j) /\
  Forall (fun x => printable x = true) (child j).
Proof.
  destruct j as [t vs vi vd s c]. cbn [printable valuedouble valuestring string child].
  intros ((((H1 & H2)%andb_prop & H3)%andb_prop & H4)%andb_prop & H5)%andb_prop.
  split; [intros E; rewrite E in H1; exact H1|].
  split; [intros E; rewrite E in H2; by destruct vs|].
  split; [destruct vs; [by apply is_bytesb_spec|done]|].
  split; [destruct s; [by apply is_bytesb_spec|done]|].
  apply Forall_forall. intros x Hx%list_elem_of_In. rewrite forallb_forall in H5. auto.
Qed.

Lemma quoted_nz s : opt_bytes s -> nonzero (quoted s).
Proof.
  destruct s as [s|]; simpl; intros H; [|by repeat constructor].
  constructor; [done|]. apply Forall_app; split; [|by repeat constructor].
  apply escape_nz; [by apply cstr_of_bytes|apply cstr_of_nz].
Qed.

Lemma number_text_nz d : nonzero (number_text d).
Proof.
  unfold number_text. repeat case_match; try apply format_g_nonzero. by repeat constructor.
Qed.

Lemma number_text_length d : valid_double d -> (List.length (number_text d) <= 24)%nat.
Proof.
  intros Hv. unfold number_text.
  repeat case_match; try (apply format_g_length; [lia|done]). simpl. lia.
Qed.

Lemma opt_nz b l : nonzero l -> nonzero (opt b l).
Proof. destruct b; [done|constructor]. Qed.

Lemma tabs_nz n : nonzero (repeat 9 n).
Proof. induction n; by constructor. Qed.

(** Split a text into its pieces. *)
Ltac nz :=
  repeat first
    [ done | apply Forall_app; split | apply opt_nz | apply tabs_nz
    | apply Forall_cons; split | apply Forall_nil; done ].

Lemma elements_text_nz pt fmt l u :
  Forall (fun x => forall t, pt x = Some t -> nonzero t) l ->
  elements_text pt fmt l = Some u -> nonzero u.
Proof.
  intros H. revert u. induction H as [|x l Hx Hl IH]; intros u; [by intros [= <-]|].
  destruct l as [|y l]; [apply Hx|].
  change (elements_text pt fmt (x :: y :: l)) with
    (match pt x, elements_text pt fmt (y :: l) with
     | Some t, Some u => Some (t ++ [44] ++ opt fmt [32] ++ u)
     | _, _ => None
     end).
  destruct (pt x) eqn:Ex, (elements_text pt fmt (y :: l)) eqn:El; intros [= <-].
  nz; [by apply Hx|by apply IH].
Qed.

Lemma members_text_nz pt fmt dep l u :
  Forall (fun x => opt_bytes (string x) /\ forall t, pt x = Some t -> nonzero t) l ->
  members_text pt fmt dep l = Some u -> nonzero u.
Proof.
  intros H. revert u. induction H as [|x l [Hs Hx] Hl IH]; intros u; [by intros [= <-]|].
  cbn [members_text]. destruct (pt x) eqn:Ex, (members_text pt fmt dep l) eqn:El; intros [= <-].
  nz; [by apply quoted_nz|by apply Hx|destruct l; by repeat constructor|by apply IH].
Qed.

Lemma json_text_nz j : printable j = true ->
  forall fmt dep t, json_text fmt dep j = Some t -> nonzero t.
Proof.
  induction j as [t vs vi vd s c IH] using cJSON_ind'. intros Hp fmt dep u.
  apply printable_inv in Hp as (_ & _ & Hvs & Hs & Hc). cbn [valuestring string child] in *.
  assert (Hnz : forall dep, Forall (fun x => opt_bytes (string x) /\
     forall t, json_text fmt dep x = Some t -> nonzero t) c).
  { intros dep'. rewrite Forall_forall in IH, Hc. apply Forall_forall. intros x Hx.
    split; [|intros t0; by apply IH, Hc].
    by destruct (printable_inv x (Hc _ Hx)) as (_ & _ & _ & H & _). }
  cbn [json_text child valuestring valuedouble].
  repeat match goal with |- context [if ?b then _ else _] => destruct b end; try (intros [= <-]; by repeat constructor).
  - intros [= <-]. apply number_text_nz.
  - destruct vs; intros [= <-]. apply cstr_of_nz.
  - intros [= <-]. by apply quoted_nz.
  - destruct (elements_text _ _ _) as [w|] eqn:E; intros [= <-].
    nz. eapply elements_text_nz; [|exact E]. eapply Forall_impl; [apply Hnz|]. by intros x [_ H].
  - destruct (members_text _ _ _ _) as [w|] eqn:E; intros [= <-].
    nz. eapply members_text_nz; [apply Hnz|exact E].
Qed.

(** ** The state of the buffer *)

(** The buffer starts with the bytes [l] and is at least as large as
    [length_] says; an object has at most PTRDIFF_MAX bytes. *)
Definition cells (p : printbuffer) (l : bytes) : Prop :=
  exists rest, buffer p = Live (map Some l ++ rest) /\
    (length_ p <= List.length l + List.length rest)%nat /\ Z.of_nat (length_ p) <= LLONG_MAX.

(** The configuration a call leaves as it is. *)
Definition same (p q : printbuffer) : Prop :=
  noalloc q = noalloc p /\ format q = format p /\ has_realloc q = has_realloc p /\
  pdepth q = pdepth p.

(** [done] is printed and the next byte goes to [offset]. *)
Definition view (p : printbuffer) (done : bytes) : Prop :=
  offset p = List.length done /\ cells p done /\
  ((List.length done < length_ p)%nat \/
   length_ p = O /\ done = [] /\ (has_realloc p = false -> exists c b, buffer p = Live (c :: b))).

(** The text [t] and its NUL are in the buffer after [done]; the offset is
    somewhere before the NUL. *)
Definition printed (p : printbuffer) (done t : bytes) (q : printbuffer) : Prop :=
  same p q /\ cells q (done ++ t ++ [0]) /\
  (List.length done <= offset q <= List.length done + List.length t)%nat /\
  (List.length done + List.length t < length_ q)%nat.

Lemma cells_app p l x : cells p (l ++ x) -> cells p l.
Proof.
  intros (rest & E & Hl & Hm). exists (map Some x ++ rest). split; [|split; [|done]].
  - by rewrite E, map_app, <- app_assoc.
  - rewrite length_app, length_map. rewrite length_app in Hl. lia.
Qed.

Lemma writes_spec l : forall pre (rest : list (option Z)),
  (List.length l <= List.length rest)%nat ->
  writes (Live (map Some pre ++ rest)) (List.length pre) l
    = Ok (Live (map Some (pre ++ l) ++ drop (List.length l) rest)).
Proof.
  induction l as [|c l IH]; intros pre rest Hl; cbn [writes].
  - by rewrite app_nil_r.
  - destruct rest as [|x rest]; simpl in Hl; [lia|]. unfold write1.
    rewrite length_app, length_map. destruct (Nat.ltb_spec (List.length pre)
      (List.length pre + List.length (x :: rest))); [|simpl in *; lia]. cbn [obind].
    replace (<[List.length pre := Some c]> (map Some pre ++ x :: rest))
      with (map Some (pre ++ [c]) ++ rest).
    + replace (S (List.length pre)) with (List.length (pre ++ [c])) by (rewrite length_app; simpl; lia).
      rewrite IH by lia. by rewrite <- app_assoc.
    + rewrite map_app, <- app_assoc. rewrite insert_app_r_alt by (rewrite length_map; lia).
      rewrite length_map, Nat.sub_diag. done.
Qed.

(** [put] overwrites what follows [l]. *)
Lemma put_spec p l x pos :
  cells p l -> pos = List.length l -> (List.length l + List.length x <= length_ p)%nat ->
  exists m, put p pos x = Ok (set_buffer m p) /\ cells (set_buffer m p) (l ++ x).
Proof.
  intros (rest & E & Hl & Hm) -> Hx. unfold put. rewrite E, writes_spec by lia. cbn [obind].
  eexists; split; [done|]. exists (drop (List.length x) rest). split; [done|].
  cbn. rewrite length_app, length_drop. split; [lia|done].
Qed.

Lemma strlen_cells_spec t rest :
  nonzero t -> strlen_cells (map Some t ++ Some 0 :: rest) = Ok (List.length t).
Proof.
  induction 1 as [|c t Hc Ht IH]; simpl; [done|].
  destruct (Z.eqb_spec c 0); [done|]. by rewrite IH.
Qed.

Lemma update_offset_spec p done t q :
  printed p done t q -> nonzero t ->
  exists r, update_offset q = Ok r /\ same p r /\ view r (done ++ t) /\
    cells r (done ++ t ++ [0]) /\ length_ r = length_ q.
Proof.
  intros (Hs & Hc & Ho & Hl) Ht. pose proof Hc as (rest & E & Hr & Hm). unfold update_offset. rewrite E.
  set (k := (offset q - List.length done)%nat).
  assert (Ed : drop (offset q) (map Some (done ++ t ++ [0]) ++ rest)
             = map Some (drop k t) ++ Some 0 :: rest).
  { replace (offset q) with (List.length (map (@Some Z) done) + k)%nat
      by (rewrite length_map; lia).
    rewrite !map_app, <- !app_assoc, drop_app_add', drop_app_le by (rewrite ?length_map; lia).
    by rewrite <- fmap_drop. }
  rewrite Ed, strlen_cells_spec by by apply Forall_drop. cbn [obind].
  eexists; split; [done|]. split; [done|].
  assert (Hc' : cells (set_offset (offset q + List.length (drop k t)) q) (done ++ t ++ [0])) by done.
  split; [|split; done]. split; [cbn; rewrite length_app, length_drop; lia|].
  split; [|left; cbn; rewrite length_app; lia].
  apply cells_app with [0]. by rewrite <- app_assoc.
Qed.
