(* ===== verification/CjsonPrintProof.v ===== *)
(** * The printer writes the text of its item

    A run of a printing function [yields] a flag: [true] with the text in the
    buffer, or [false] for a reason (an allocation failed, the caller's buffer
    is full, the item has no text); it never reads or writes out of bounds. *)

From Stdlib Require Import SpecFloat.
From Stdlib Require Import String.
From S2P Require Import Prelude.
From S2P Require Import Cdouble.
From S2P Require Import CdoubleText.
From S2P Require Import CjsonData.
From S2P Require Import CjsonPrint.
From S2P Require Import CjsonPrintSpec.
From stdpp Require Import base numbers gmap list.

Open Scope Z_scope.
Open Scope c_scope.

Section Proof.
Variable allocate : nat -> nat -> bool.

(** realloc is not used, or does not fail. *)
Definition safe_alloc (p : printbuffer) : Prop :=
  has_realloc p = true -> noalloc p = true \/ forall n s, allocate n s = true.

(** The buffer may grow, and allocations succeed. *)
Definition can_grow (p : printbuffer) : Prop :=
  noalloc p = false /\ forall n s, allocate n s = true.

(** [m] returns true with [Q], or false when [S] does not hold. *)
Definition yields (m : outcome (bool * printbuffer)) (S : Prop) (Q : printbuffer -> Prop) : Prop :=
  exists ok q, m = Ok (ok, q) /\
    if ok then Q q else ~ S /\ buffer q <> Dangling.

Lemma yields_true q (S : Prop) (Q : printbuffer -> Prop) : Q q -> yields (Ok (true, q)) S Q.
Proof. intros H. by exists true, q. Qed.

Lemma yields_bind m k (S S' : Prop) Q R :
  yields m S' Q -> (S -> S') -> (forall q, Q q -> yields (k q) S R) ->
  yields (let! r := m in match r with (false, p) => Ok (false, p) | (true, p) => k p end) S R.
Proof.
  intros (ok & q & -> & H) HS Hk. cbn [obind]. destruct ok; [by apply Hk|].
  exists false, q. split; [done|]. destruct H. split; [tauto|done].
Qed.

Lemma same_refl p : same p p.
Proof. repeat split. Qed.

Lemma same_trans p q r : same p q -> same q r -> same p r.
Proof. intros (?&?&?&?) (?&?&?&?). repeat split; congruence. Qed.

Lemma same_safe p q : same p q -> safe_alloc p -> safe_alloc q.
Proof. intros (E1&_&E2&_). unfold safe_alloc. by rewrite E1, E2. Qed.

Lemma same_grow p q : same p q -> can_grow p -> can_grow q.
Proof. intros (E1&_&_&_). unfold can_grow. by rewrite E1. Qed.

(** The state in which [ensure] returned a pointer: [n + 1] bytes fit after
    [done]. *)
Definition room (p : printbuffer) (done : bytes) (n : nat) (q : printbuffer) : Prop :=
  same p q /\ offset q = List.length done /\ cells q done /\
  (List.length done + n + 1 <= length_ q)%nat.

(** The part of the address space [ensure] accepts. *)
Definition small (n : nat) : Prop := Z.of_nat n <= LLONG_MAX / 2.

Lemma grow_cells b n done rest :
  b = map Some done ++ rest -> (List.length done <= n)%nat ->
  exists rest', grow b n = map Some done ++ rest' /\ (n = List.length done + List.length rest')%nat.
Proof.
  intros -> Hn. unfold grow.
  exists (take (n - List.length done) rest ++ repeat None (n - List.length (map Some done ++ rest))).
  rewrite take_app, length_map, take_ge by (rewrite length_map; lia). split; [by rewrite <- app_assoc|].
  rewrite length_app, length_take, repeat_length, length_app, length_map. lia.
Qed.

(** What [ensure] promises: the place of the next byte, with room, or NULL. *)
Definition ensures (p : printbuffer) (done : bytes) (needed : nat)
    (m : outcome (option nat * printbuffer)) : Prop :=
  exists r q, m = Ok (r, q) /\
    match r with
    | Some pos => pos = List.length done /\ room p done needed q
    | None => ~ (can_grow p /\ small (List.length done + needed + 1)) /\ buffer q <> Dangling
    end.

Lemma ensures_none p done needed q :
  ~ (can_grow p /\ small (List.length done + needed + 1)) -> buffer q <> Dangling ->
  ensures p done needed (Ok (None, q)).
Proof. intros H1 H2. by exists None, q. Qed.

Lemma reallocate_spec p done rest needed n :
  view p done -> safe_alloc p -> noalloc p = false ->
  buffer p = Live (map Some done ++ rest) ->
  (List.length done + needed + 1 <= n)%nat -> Z.of_nat n <= LLONG_MAX ->
  ensures p done needed (reallocate allocate p (map Some done ++ rest) n).
Proof.
  intros (Ho & Hc & Hv) Hs Hna E Hn Hm. unfold reallocate. cbn [has_realloc add_alloc offset]. rewrite Ho.
  assert (Hok : forall b, (exists rest, b = map Some done ++ rest) -> ensures p done needed
    (Ok (Some (List.length done), set_length n (set_buffer (Live (grow b n)) (add_alloc p))))).
  { intros b [r ->]. destruct (grow_cells (map Some done ++ r) n done r eq_refl) as (r' & Eg & Hr'); [lia|].
    eexists (Some _), _. split; [done|]. split; [done|]. split; [done|]. split; [done|]. split; [|cbn; lia].
    exists r'. cbn. rewrite Eg. repeat split; lia. }
  destruct (has_realloc p) eqn:Er.
  - destruct (Hs Er) as [?|Ha]; [congruence|]. rewrite Ha. apply Hok. by exists rest.
  - destruct (allocate (allocs p) n) eqn:Ea.
    + assert (Hr : (1 <= List.length rest)%nat).
      { destruct Hv as [Hv|(_ & -> & Hv)].
        - destruct Hc as (rest' & E' & Hl & _). rewrite E in E'. simplify_list_eq. lia.
        - destruct (Hv eq_refl) as (c & b & E'). rewrite E in E'. simplify_eq/=. lia. }
      rewrite length_app, length_map.
      destruct (Nat.leb_spec (List.length done + 1) (Nat.min (List.length done + List.length rest) n)); [|lia].
      apply Hok. exists (take 1 rest). rewrite take_app, length_map, take_ge by (rewrite length_map; lia).
      do 2 f_equal. lia.
    + apply ensures_none; [|done]. intros [[_ Ha] _]. by rewrite Ha in Ea.
Qed.

Lemma ensure_spec p done needed :
  view p done -> safe_alloc p -> ensures p done needed (ensure allocate p needed).
Proof.
  intros Hview Hs. pose proof Hview as (Ho & Hc & Hv). pose proof Hc as (rest & E & Hl & Hm).
  unfold ensure. rewrite E, Ho. assert (Hnd : buffer p <> Dangling) by by rewrite E.
  assert (Hb : (0 <? length_ p)%nat && (length_ p <=? List.length done)%nat = false).
  { apply andb_false_iff. destruct Hv as [Hv|[-> _]]; [right; apply Nat.leb_gt; lia|by left]. }
  rewrite Hb.
  destruct (Z.ltb_spec LLONG_MAX (Z.of_nat needed)) as [|Hneed];
    [apply ensures_none; [unfold small; zlia|done]|].
  assert (Hdone : Z.of_nat (List.length done) <= LLONG_MAX)
    by (destruct Hv as [Hv|(Hv & -> & _)]; [lia|simpl; zlia]).
  rewrite (u64_small _) by zlia.
  set (nd := Z.of_nat needed + Z.of_nat (List.length done) + 1).
  destruct (Z.leb_spec nd (Z.of_nat (length_ p))).
  { exists (Some (List.length done)), p. split; [done|]. split; [done|].
    split; [apply same_refl|]. repeat split; [done|done|lia]. }
  destruct (noalloc p) eqn:En.
  { apply ensures_none; [|done]. unfold can_grow. rewrite En. by intros [[? _] _]. }
  destruct (Z.ltb_spec (LLONG_MAX / 2) nd); [destruct (Z.leb_spec nd LLONG_MAX)|].
  2: apply ensures_none; [unfold small; zlia|done].
  all: apply reallocate_spec; [done|done|done|done|zlia|zlia].
Qed.

Lemma yields_ensured p done needed k (S : Prop) Q :
  view p done -> safe_alloc p -> (S -> can_grow p /\ small (List.length done + needed + 1)) ->
  (forall q, room p done needed q -> yields (k (List.length done) q) S Q) ->
  yields (ensured allocate p needed k) S Q.
Proof.
  intros Hv Hs HS Hk. destruct (ensure_spec p done needed Hv Hs) as (r & q & E & H).
  unfold ensured. rewrite E. cbn [obind]. destruct r as [pos|].
  - destruct H as [-> H]. by apply Hk.
  - exists false, q. split; [done|]. destruct H; split; [tauto|done].
Qed.

(** One [put] after [ensure], as a rule on the continuation. *)
Lemma yields_put p l x pos k (S : Prop) Q :
  cells p l -> pos = List.length l -> (List.length l + List.length x <= length_ p)%nat ->
  (forall m, cells (set_buffer m p) (l ++ x) -> yields (k (set_buffer m p)) S Q) ->
  yields (let! q := put p pos x in k q) S Q.
Proof.
  intros Hc Hp Hl Hk. destruct (put_spec p l x pos Hc Hp Hl) as (m & E & Hm).
  rewrite E. cbn [obind]. by apply Hk.
Qed.

(** The text is in the buffer and small enough to be sure to fit. *)
Definition fits (p : printbuffer) (done t : bytes) : Prop :=
  can_grow p /\ small (List.length done + List.length t + 4).

(** [m] prints the text [t], if there is one. *)
Definition prints (p : printbuffer) (done : bytes) (t : option bytes)
    (m : outcome (bool * printbuffer)) : Prop :=
  yields m (exists u, t = Some u /\ fits p done u) (fun q => exists u, t = Some u /\ printed p done u q).

Ltac small :=
  repeat match goal with H : fits _ _ _ |- _ => destruct H as [_ H]; revert H end;
  unfold small; do 3 (simpl; rewrite ?length_app); lia.

Lemma print_literal_spec p done needed l :
  view p done -> safe_alloc p -> (List.length l <= needed <= List.length l + 1)%nat ->
  prints p done (Some l) (print_literal allocate p needed l).
Proof.
  intros Hv Hs Hn. unfold print_literal. apply yields_ensured with (done := done); [done..| |].
  { intros (u & [= <-] & Hf). split; [apply Hf|small]. }
  intros q (Hsame & Ho & Hc & Hl).
  apply yields_put with (l := done); [done|done|rewrite length_app; simpl; lia|].
  intros m Hm. apply yields_true. exists l. split; [done|]. split; [done|]. split; [done|].
  cbn. lia.
Qed.

Lemma print_number_spec p done item :
  view p done -> safe_alloc p -> valid_double (valuedouble item) ->
  prints p done (Some (number_text (valuedouble item))) (print_number allocate item p).
Proof.
  intros Hv Hs Hd. pose proof (number_text_length _ Hd) as Hlen. unfold print_number.
  set (t := number_text (valuedouble item)) in *.
  destruct (Nat.ltb_spec 26 (List.length t + 1)); [lia|].
  destruct (Nat.ltb_spec 25 (List.length t)); [lia|].
  apply yields_ensured with (done := done); [done..| |].
  { intros (u & [= <-] & Hf). split; [apply Hf|small]. }
  intros q (Hsame & Ho & Hc & Hl).
  apply yields_put with (l := done); [done|done|rewrite length_app; simpl; lia|].
  intros m Hm. apply yields_true. exists t. split; [done|]. split; [done|]. split; [done|].
  cbn. lia.
Qed.

Lemma escape_length s :
  nonzero s -> is_bytes s ->
  List.length (escape s) = (List.length s + list_sum (map escape_cost s))%nat.
Proof.
  induction s as [|c s IH]; intros Hz Hb; [done|].
  inversion Hz; inversion Hb; subst. cbn [escape map concat list_sum foldr].
  rewrite length_app. change (concat (map escape_char s)) with (escape s). rewrite IH by done.
  assert (List.length (escape_char c) = S (escape_cost c)); [|unfold list_sum; simpl; lia].
  unfold escape_char, short_escape, escape_cost, unicode_escape.
  repeat match goal with |- context [?a =? ?b] => destruct (Z.eqb_spec a b); subst; try done end.
  destruct (Z.ltb_spec 31 c), (Z.ltb_spec c 32); simpl; done || lia.
Qed.

Lemma escape_no_cost s :
  list_sum (map escape_cost s) = O -> escape s = s.
Proof.
  induction s as [|c s IH]; [done|]. cbn [escape map concat list_sum foldr]. intros H.
  change (concat (map escape_char s)) with (escape s). rewrite IH by (unfold list_sum; lia).
  assert (Hc : escape_cost c = O) by lia. unfold escape_cost in Hc. unfold escape_char.
  repeat match goal with H : context [?a =? ?b] |- _ => destruct (Z.eqb_spec a b); subst; try done end.
  cbn in *. destruct (Z.ltb_spec c 32); [done|].
  destruct (Z.ltb_spec 31 c); [|lia].
  destruct (Z.eqb_spec c 34); [done|]. destruct (Z.eqb_spec c 92); [done|]. done.
Qed.

Lemma print_chars_spec s : forall p l,
  cells p l -> (List.length l + List.length (escape s) + 1 <= length_ p)%nat ->
  exists m, print_chars p (List.length l) s = Ok (set_buffer m p) /\
    cells (set_buffer m p) (l ++ escape s).
Proof.
  assert (Hself : forall p, exists m, Ok p = Ok (set_buffer m p)) by (intros []; by eexists).
  induction s as [|c s IH]; intros p l Hc Hl.
  { destruct (Hself p) as [m E]. injection E as E. exists m. cbn. rewrite <- E, app_nil_r. done. }
  cbn [print_chars]. cbn [escape map concat] in *. change (concat (map escape_char s)) with (escape s) in *.
  rewrite length_app in Hl. unfold escape_char in *.
  assert (Hput : forall x pos l p, cells p l -> pos = List.length l ->
     (List.length l + List.length x + List.length (escape s) + 1 <= length_ p)%nat ->
     exists m, put p pos x = Ok (set_buffer m p) /\ cells (set_buffer m p) (l ++ x)).
  { intros x pos l0 p0 Hc0 -> Hl0. apply put_spec; [done|done|lia]. }
  destruct (_ && _ && _).
  { destruct (Hput [c] _ l p Hc eq_refl) as (m & -> & Hm); [lia|]. cbn [obind].
    destruct (IH _ _ Hm) as (m' & E & Hm'); [rewrite length_app; simpl in *; lia|].
    rewrite length_app in E. simpl in E. rewrite E. exists m'. split; [done|]. by rewrite <- app_assoc in Hm'. }
  destruct (Hput [92] _ l p Hc eq_refl) as (m & -> & Hm);
    [destruct (short_escape c); simpl in *; lia|]. cbn [obind].
  destruct (short_escape c) as [e|].
  - destruct (Hput [e] (List.length l + 1)%nat _ _ Hm) as (m1 & -> & Hm1);
      [by rewrite length_app|rewrite length_app; simpl in *; lia|]. cbn [obind].
    destruct (IH _ _ Hm1) as (m' & E & Hm'); [rewrite !length_app; simpl in *; lia|].
    rewrite !length_app in E. simpl in E. rewrite E. exists m'. split; [done|].
    by rewrite <- !app_assoc in Hm'.
  - destruct (put_spec _ (l ++ [92]) (unicode_escape c ++ [0]) (List.length l + 1) Hm) as (m1 & -> & Hm1);
      [by rewrite length_app|rewrite length_app; simpl in *; lia|]. cbn [obind].
    rewrite app_assoc in Hm1. apply cells_app in Hm1.
    destruct (IH _ _ Hm1) as (m' & E & Hm'); [rewrite !length_app; simpl in *; lia|].
    rewrite !length_app in E. simpl in E.
    replace (List.length l + 1 + 4 + 1)%nat with (List.length l + 1 + 5)%nat by lia. rewrite E.
    exists m'. split; [done|]. by rewrite <- !app_assoc in Hm'.
Qed.

Lemma print_string_ptr_spec p done s :
  view p done -> safe_alloc p -> opt_bytes s ->
  prints p done (Some (quoted s)) (print_string_ptr allocate s p).
Proof.
  intros Hv Hs Hb. unfold print_string_ptr. destruct s as [s|]; cbn [quoted].
  2:{ apply yields_ensured with (done := done); [done..| |].
      { intros (u & [= <-] & Hf). split; [apply Hf|small]. }
      intros q (Hsame & Ho & Hc & Hl).
      apply yields_put with (l := done); [done|done|simpl; lia|].
      intros m Hm. apply yields_true. eexists. split; [done|]. split; [done|]. split; [done|].
      cbn. lia. }
  simpl in Hb. apply cstr_of_bytes in Hb. pose proof (cstr_of_nz s) as Hz.
  set (t := cstr_of s) in *. pose proof (escape_length t Hz Hb) as Hlen.
  set (cost := list_sum (map escape_cost t)) in *.
  assert (Hfin : forall q m, room p done (List.length (escape t) + 3) q ->
     cells (set_buffer m q) (done ++ [34] ++ escape t) ->
     prints p done (Some (34 :: escape t ++ [34]))
       (let! q := put (set_buffer m q) (List.length done + List.length (escape t) + 1) [34; 0] in Ok (true, q))).
  { intros q m (Hsame & Ho & Hc & Hl) Hm.
    apply yields_put with (l := done ++ [34] ++ escape t); [done| | |].
    { rewrite !length_app. simpl. lia. }
    { cbn. rewrite !length_app. simpl. lia. }
    intros m' Hm'. apply yields_true. eexists. split; [done|]. split; [done|].
    rewrite <- !app_assoc in Hm'. split; [simpl; by rewrite <- app_assoc|].
    cbn. rewrite length_app. simpl. lia. }
  rewrite <- Hlen.
  apply yields_ensured with (done := done); [done..| |].
  { intros (u & [= <-] & Hf). split; [apply Hf|small]. }
  intros q Hroom. pose proof Hroom as (Hsame & Ho & Hc & Hl).
  destruct (Nat.eqb_spec cost 0) as [H0|H0].
  - apply yields_put with (l := done); [done|done|simpl; lia|]. intros m Hm.
    pose proof (escape_no_cost t H0) as He. rewrite He in *.
    apply yields_put with (l := done ++ [34]); [done|by rewrite length_app|rewrite length_app; simpl; lia|].
    intros m' Hm'. apply (Hfin q m'); [done|]. by rewrite <- app_assoc in Hm'.
  - apply yields_put with (l := done); [done|done|simpl; lia|]. intros m Hm.
    destruct (print_chars_spec t _ _ Hm) as (m' & E & Hm'); [rewrite length_app; simpl; lia|].
    rewrite length_app in E. simpl in E. rewrite E. cbn [obind].
    apply (Hfin q m'); [done|]. by rewrite <- app_assoc in Hm'.
Qed.

(** ** Arrays and objects *)

Lemma view_put p done n q m x z :
  room p done n q -> cells (set_buffer m q) (done ++ x ++ z) -> (List.length x <= n)%nat ->
  view (set_offset (List.length done + List.length x) (set_buffer m q)) (done ++ x).
Proof.
  intros (Hs & Ho & Hc & Hl) Hm Hx. split; [by rewrite length_app|].
  split; [|left; cbn; rewrite length_app; lia].
  rewrite app_assoc in Hm. by apply cells_app in Hm.
Qed.

(** ensure, store [f q = x ++ z] and move the offset over [x]. *)
Lemma yields_emit p done needed (f : printbuffer -> bytes) x z n k (S : Prop) Q :
  view p done -> safe_alloc p ->
  (S -> can_grow p /\ small (List.length done + needed + 1)) ->
  (forall q, same p q -> f q = x ++ z) -> n = List.length x ->
  (List.length x + List.length z <= needed + 1)%nat -> (List.length x <= needed)%nat ->
  (forall q, same p q -> view q (done ++ x) -> yields (k q) S Q) ->
  yields (ensured allocate p needed (fun pos q =>
    let! q := put q pos (f q) in k (set_offset (offset q + n) q))) S Q.
Proof.
  intros Hv Hs HS Hf -> Hxz Hx Hk. apply yields_ensured with (done := done); [done..|].
  intros q Hr. pose proof Hr as (Hsame & Ho & Hc & Hl). rewrite (Hf q Hsame).
  apply yields_put with (l := done); [done|done|rewrite length_app; lia|].
  intros m Hm. cbn [offset set_buffer]. rewrite Ho. apply Hk; [done|]. by eapply view_put.
Qed.

(** A printer [pv] of items whose texts are [pt format depth]. *)
Definition item_spec (pv : cJSON -> printbuffer -> outcome (bool * printbuffer))
    (pt : bool -> nat -> cJSON -> option bytes) (j : cJSON) : Prop :=
  opt_bytes (string j) /\
  (forall p done, view p done -> safe_alloc p ->
     prints p done (pt (format p) (pdepth p) j) (pv j p)) /\
  (forall fmt dep t, pt fmt dep j = Some t -> nonzero t).

Lemma elements_cons pt fmt x y l t u :
  pt x = Some t -> elements_text pt fmt (y :: l) = Some u ->
  elements_text pt fmt (x :: y :: l) = Some (t ++ [44] ++ opt fmt [32] ++ u).
Proof. intros E1 E2. cbn [elements_text] in *. by rewrite E1, E2. Qed.

Lemma elements_inv pt fmt x y l v :
  elements_text pt fmt (x :: y :: l) = Some v ->
  exists t u, pt x = Some t /\ elements_text pt fmt (y :: l) = Some u /\
    v = t ++ [44] ++ opt fmt [32] ++ u.
Proof.
  change (elements_text pt fmt (x :: y :: l)) with
    (match pt x, elements_text pt fmt (y :: l) with
     | Some t, Some u => Some (t ++ [44] ++ opt fmt [32] ++ u)
     | _, _ => None
     end).
  destruct (pt x) as [t|], (elements_text pt fmt (y :: l)) as [u|]; intros [= <-]. by exists t, u.
Qed.

Lemma print_array_elements_spec pv pt l :
  Forall (item_spec pv pt) l ->
  forall p done (S : Prop), view p done -> safe_alloc p ->
  (S -> exists u, elements_text (pt (format p) (pdepth p)) (format p) l = Some u /\
        fits p done (u ++ [93])) ->
  yields (print_array_elements allocate pv l p) S (fun q => exists u,
    elements_text (pt (format p) (pdepth p)) (format p) l = Some u /\ same p q /\ view q (done ++ u)).
Proof.
  induction 1 as [|x l Hx Hl IH]; intros p done S Hv Hs HS.
  { apply yields_true. exists []. rewrite app_nil_r. split; [done|]. split; [apply same_refl|done]. }
  cbn [print_array_elements]. destruct Hx as (_ & Hx & Hnz).
  assert (HSx : S -> exists t, pt (format p) (pdepth p) x = Some t /\
    match l with [] => fits p done (t ++ [93]) | _ => exists u,
      elements_text (pt (format p) (pdepth p)) (format p) l = Some u /\
      fits p done (t ++ [44] ++ opt (format p) [32] ++ u ++ [93]) end).
  { intros (u & Eu & Hf)%HS. destruct l as [|y l]; [by exists u|].
    apply elements_inv in Eu as (t & v & Et & Ev & ->). exists t; split; [done|]. exists v; split; [done|].
    by rewrite <- !app_assoc in Hf. }
  eapply yields_bind; [apply Hx; [exact Hv|exact Hs]| |].
  { intros (t & Et & Hf)%HSx. exists t. split; [done|]. destruct l; [|destruct Hf as (u & _ & Hf)];
      (split; [apply Hf|small]). }
  intros q (t & Et & Hq). destruct (update_offset_spec p done t q Hq (Hnz _ _ _ Et)) as (r & -> & Hsr & Hvr & _).
  cbn [obind]. destruct l as [|y l].
  { apply yields_true. by exists t. }
  pose proof Hsr as (_ & Ef & _ & Ed).
  eapply (yields_emit r (done ++ t) _ (fun q => if format q then [44; 32; 0] else [44; 0])
    ([44] ++ opt (format p) [32]) [0]); [done|by eapply same_safe| | | | | |].
  - intros (t' & Et' & u & Eu & Hf)%HSx. simplify_eq. split; [eapply same_grow; [done|apply Hf]|].
    rewrite Ef. destruct (format p); small.
  - intros q' (_ & Ef' & _). rewrite Ef', Ef. by destruct (format p).
  - rewrite Ef. by destruct (format p).
  - rewrite Ef. destruct (format p); simpl; lia.
  - rewrite Ef. destruct (format p); simpl; lia.
  - intros q' Hsq Hvq. assert (Hspq : same p q') by by eapply same_trans.
    pose proof Hspq as (_ & Ef' & _ & Ed').
    specialize (IH q' ((done ++ t) ++ [44] ++ opt (format p) [32]) S Hvq (same_safe _ _ Hspq Hs)).
    rewrite Ef', Ed' in IH. destruct IH as (ok & z & E & H).
    { intros (t' & Et' & u & Eu & Hf)%HSx. simplify_eq. exists u. split; [done|].
      split; [eapply same_grow; [done|apply Hf]|]. small. }
    rewrite E. exists ok, z. split; [done|]. destruct ok; [|done]. destruct H as (u & Eu & Hsz & Hvz).
    exists (t ++ [44] ++ opt (format p) [32] ++ u). split; [by apply elements_cons|].
    split; [by eapply same_trans|]. by rewrite <- !app_assoc in Hvz.
Qed.

(** Printing an item, then finding its end with update_offset. *)
Lemma yields_item m p done t0 k (S : Prop) Q :
  prints p done t0 m -> (forall t, t0 = Some t -> nonzero t) ->
  (S -> exists t, t0 = Some t /\ fits p done t) ->
  (forall t r, t0 = Some t -> same p r -> view r (done ++ t) -> yields (k r) S Q) ->
  yields (let! r := m in
          match r with
          | (false, p) => Ok (false, p)
          | (true, p) => let! p := update_offset p in k p
          end) S Q.
Proof.
  intros Hm Hnz HS Hk. eapply yields_bind; [exact Hm|exact HS|].
  intros q (t & Et & Hq).
  destruct (update_offset_spec p done t q Hq (Hnz _ Et)) as (r & -> & Hsr & Hvr & _).
  cbn [obind]. by apply (Hk t).
Qed.

(** The text of one member after its indentation. *)
Definition member_tail (fmt : bool) (x : cJSON) (t : bytes) (next : list cJSON) : bytes :=
  quoted (string x) ++ ([58] ++ opt fmt [9]) ++ t
    ++ (match next with [] => [] | _ => [44] end ++ opt fmt [10]).

Lemma members_cons pt fmt dep x r t u :
  pt x = Some t -> members_text pt fmt dep r = Some u ->
  members_text pt fmt dep (x :: r) = Some (opt fmt (repeat 9 dep) ++ member_tail fmt x t r ++ u).
Proof.
  intros E1 E2. cbn [members_text]. rewrite E1, E2. unfold member_tail. by rewrite <- !app_assoc.
Qed.

Lemma members_inv pt fmt dep x r v :
  members_text pt fmt dep (x :: r) = Some v ->
  exists t u, pt x = Some t /\ members_text pt fmt dep r = Some u /\
    v = opt fmt (repeat 9 dep) ++ member_tail fmt x t r ++ u.
Proof.
  cbn [members_text]. destruct (pt x) as [t|], (members_text pt fmt dep r) as [u|]; intros [= <-].
  exists t, u. unfold member_tail. by rewrite <- !app_assoc.
Qed.

Lemma print_member_spec pv pt x next k p done (S : Prop) Q :
  item_spec pv pt x -> view p done -> safe_alloc p ->
  (S -> exists t, pt (format p) (pdepth p) x = Some t /\ fits p done (member_tail (format p) x t next)) ->
  (forall t q, pt (format p) (pdepth p) x = Some t -> same p q ->
     view q (done ++ member_tail (format p) x t next) -> yields (k q) S Q) ->
  yields (print_member allocate pv x next k p) S Q.
Proof.
  intros (Hstr & Hpv & Hnz) Hv Hs HS Hk. unfold print_member.
  eapply yields_item; [by apply print_string_ptr_spec|intros t [= <-]; by apply quoted_nz| |].
  { intros (t & _ & Hf)%HS. eexists; split; [done|]. split; [apply Hf|]. unfold member_tail in Hf. small. }
  intros key r1 [= <-] Hs1 Hv1. pose proof Hs1 as (_ & Ef1 & _ & Ed1).
  eapply (yields_emit r1 _ _ (fun q => if format q then [58; 9] else [58])
    ([58] ++ opt (format p) [9]) []); [done|by eapply same_safe| | | | | |].
  - intros (t & _ & Hf)%HS. split; [eapply same_grow; [done|apply Hf]|].
    unfold member_tail in Hf. rewrite Ef1. destruct (format p); small.
  - intros q (_ & Ef & _). rewrite Ef, Ef1. by destruct (format p).
  - rewrite Ef1. by destruct (format p).
  - rewrite Ef1. destruct (format p); simpl; lia.
  - rewrite Ef1. destruct (format p); simpl; lia.
  - intros q2 Hs2 Hv2. assert (Hsq : same p q2) by by eapply same_trans.
    pose proof Hsq as (_ & Ef2 & _ & Ed2).
    unfold print_member_value. eapply yields_item; [apply Hpv; [exact Hv2|by eapply same_safe]|by apply Hnz| |].
    { intros (t & Et & Hf)%HS. rewrite Ef2, Ed2. exists t; split; [done|].
      split; [eapply same_grow; [done|apply Hf]|]. unfold member_tail in Hf. small. }
    intros t r3 Et Hs3 Hv3. rewrite Ef2, Ed2 in Et.
    assert (Hsr : same p r3) by by eapply same_trans. pose proof Hsr as (_ & Ef3 & _ & _).
    eapply (yields_emit r3 _ _ (fun q => (match next with [] => [] | _ => [44] end)
      ++ (if format q then [10] else []) ++ [0])
      (match next with [] => [] | _ => [44] end ++ opt (format p) [10]) [0]);
      [done|by eapply same_safe| | | | | |].
    + intros (t' & Et' & Hf)%HS. simplify_eq. split; [eapply same_grow; [done|apply Hf]|].
      unfold member_tail in Hf. rewrite Ef3. destruct (format p), next; small.
    + intros q (_ & Ef & _). rewrite Ef, Ef3, <- app_assoc. by destruct (format p).
    + rewrite Ef3. by destruct (format p), next.
    + rewrite Ef3. destruct (format p), next; simpl; lia.
    + rewrite Ef3. destruct (format p), next; simpl; lia.
    + intros q Hq Hvq. apply (Hk t); [done|by eapply same_trans|].
      unfold member_tail. by rewrite <- !app_assoc in *.
Qed.

Lemma print_object_elements_spec pv pt l :
  Forall (item_spec pv pt) l ->
  forall p done (S : Prop), view p done -> safe_alloc p ->
  (S -> exists u, members_text (pt (format p) (pdepth p)) (format p) (pdepth p) l = Some u /\
        fits p done u) ->
  yields (print_object_elements allocate pv l p) S (fun q => exists u,
    members_text (pt (format p) (pdepth p)) (format p) (pdepth p) l = Some u /\
    same p q /\ view q (done ++ u)).
Proof.
  induction 1 as [|x l Hx Hl IH]; intros p done S Hv Hs HS.
  { apply yields_true. exists []. rewrite app_nil_r. split; [done|]. split; [apply same_refl|done]. }
  assert (HSx : S -> exists t u, pt (format p) (pdepth p) x = Some t /\
    members_text (pt (format p) (pdepth p)) (format p) (pdepth p) l = Some u /\
    fits p done (opt (format p) (repeat 9 (pdepth p)) ++ member_tail (format p) x t l ++ u)).
  { intros (v & (t & u & Et & Eu & ->)%members_inv & Hf)%HS. by exists t, u. }
  assert (Hmem : forall q, same p q -> view q (done ++ opt (format p) (repeat 9 (pdepth p))) ->
    yields (print_member allocate pv x l (print_object_elements allocate pv l) q) S (fun q => exists u,
      members_text (pt (format p) (pdepth p)) (format p) (pdepth p) (x :: l) = Some u /\
      same p q /\ view q (done ++ u))).
  { intros q Hsq Hvq. pose proof Hsq as (_ & Ef & _ & Ed).
    eapply print_member_spec; [done|done|by eapply same_safe| |].
    { intros (t & u & Et & Eu & Hf)%HSx. rewrite Ef, Ed. exists t; split; [done|].
      split; [eapply same_grow; [done|apply Hf]|]. small. }
    rewrite Ef, Ed. intros t r Et Hsr Hvr. assert (Hspr : same p r) by by eapply same_trans.
    pose proof Hspr as (_ & Efr & _ & Edr).
    specialize (IH r _ S Hvr (same_safe _ _ Hspr Hs)). rewrite Efr, Edr in IH.
    destruct IH as (ok & z & E & H).
    { intros (t' & u & Et' & Eu & Hf)%HSx. simplify_eq. exists u; split; [done|].
      split; [eapply same_grow; [done|apply Hf]|]. small. }
    exists ok, z. split; [done|]. destruct ok; [|done]. destruct H as (u & Eu & Hsz & Hvz).
    eexists. split; [by apply members_cons|]. split; [by eapply same_trans|].
    by rewrite <- !app_assoc in *. }
  cbn [print_object_elements]. unfold print_indent. destruct (format p) eqn:Ef; [|].
  - eapply (yields_emit p done (pdepth p) (fun q => repeat 9 (pdepth q)) (repeat 9 (pdepth p)) []);
      [done|done| | | | | |].
    + intros (t & u & _ & _ & Hf)%HSx. split; [apply Hf|]. unfold member_tail in Hf. simpl in Hf.
      destruct Hf as [_ Hf]. unfold small in *. rewrite !length_app, repeat_length in Hf. simpl in Hf.
      lia.
    + intros q (_ & _ & _ & Ed). by rewrite Ed, app_nil_r.
    + by rewrite repeat_length.
    + rewrite repeat_length. simpl. lia.
    + by rewrite repeat_length.
    + apply Hmem.
  - apply Hmem; [apply same_refl|]. simpl. by rewrite app_nil_r.
Qed.

Lemma view_set_depth p done d : view p done -> view (set_depth d p) done.
Proof. intros H. exact H. Qed.

Lemma print_array_spec pv pt item p done :
  Forall (item_spec pv pt) (child item) -> view p done -> safe_alloc p ->
  prints p done
    (option_map (fun u => [91] ++ u ++ [93])
       (elements_text (pt (format p) (S (pdepth p))) (format p) (child item)))
    (print_array allocate pv item p).
Proof.
  intros Hall Hv Hs. unfold print_array, prints.
  set (et := elements_text _ _ _).
  set (S0 := exists u, _ /\ _).
  assert (HS : S0 -> exists u, et = Some u /\ fits p done ([91] ++ u ++ [93])).
  { intros (u & Eu & Hf). destruct et as [w|]; [|done]. injection Eu as <-. by exists w. }
  apply yields_ensured with (done := done); [done..| |].
  { intros (u & Eu & Hf)%HS. split; [apply Hf|small]. }
  intros q Hr. pose proof Hr as (Hsame & Ho & Hc & Hl). pose proof Hsame as (En & Ef & Er & Ed).
  apply yields_put with (l := done); [done|done|simpl; lia|]. intros m Hm.
  cbn [offset set_buffer pdepth set_offset]. rewrite Ho, Ed, Nat.add_1_r.
  set (q1 := set_depth _ _).
  assert (Hv1 : view q1 (done ++ [91])).
  { apply view_set_depth. apply (view_put p done 1 q m [91] []); [done|by rewrite app_nil_r|simpl; lia]. }
  assert (Hs1 : safe_alloc q1) by (unfold safe_alloc, q1; cbn; rewrite En, Er; exact Hs).
  assert (Hg1 : can_grow p -> can_grow q1) by (unfold can_grow, q1; cbn; by rewrite En).
  assert (Eq1 : format q1 = format p /\ pdepth q1 = S (pdepth p)) by done. destruct Eq1 as [Ef1 Ed1].
  pose proof (print_array_elements_spec pv pt (child item) Hall q1 _ S0 Hv1 Hs1) as H.
  rewrite Ef1, Ed1 in H. fold et in H.
  eapply yields_bind; [apply H|done|].
  { intros (u & Eu & Hf)%HS. exists u. split; [done|]. split; [apply Hg1, Hf|]. small. }
  intros r (u & Eu & Hsr & Hvr). pose proof Hsr as (En2 & Ef2 & Er2 & Ed2).
  eapply yields_ensured; [exact Hvr|by eapply same_safe| |].
  { intros (u' & Eu' & Hf)%HS. simplify_eq. split; [eapply same_grow; [exact Hsr|apply Hg1, Hf]|]. small. }
  intros z (Hsz & Hoz & Hcz & Hlz). pose proof Hsz as (En3 & Ef3 & Er3 & Ed3).
  apply yields_put with (l := (done ++ [91]) ++ u); [done|done|simpl in *; lia|]. intros m' Hm'.
  apply yields_true. eexists. split; [by rewrite Eu|]. split; [|split; [|split]].
  - split; [|split; [|split]]; cbn; [by rewrite En3, En2|by rewrite Ef3, Ef2|by rewrite Er3, Er2|]. rewrite Ed3, Ed2, Ed1. lia.
  - rewrite <- !app_assoc in *. exact Hm'.
  - cbn. rewrite !length_app in *. simpl in *. lia.
  - cbn. rewrite !length_app in *. simpl in *. lia.
Qed.

Lemma print_object_spec pv pt item p done :
  Forall (item_spec pv pt) (child item) -> view p done -> safe_alloc p ->
  prints p done
    (option_map (fun u => [123] ++ opt (format p) [10] ++ u ++ opt (format p) (repeat 9 (pdepth p)) ++ [125])
       (members_text (pt (format p) (S (pdepth p))) (format p) (S (pdepth p)) (child item)))
    (print_object allocate pv item p).
Proof.
  intros Hall Hv Hs. unfold print_object, prints.
  set (mt := members_text _ _ _ _). set (tl := opt (format p) (repeat 9 (pdepth p))).
  set (S0 := exists u, _ /\ _).
  assert (HS : S0 -> exists u, mt = Some u /\ fits p done (([123] ++ opt (format p) [10]) ++ u ++ tl ++ [125])).
  { intros (u & Eu & Hf). destruct mt as [w|]; [|done]. injection Eu as <-. exists w. by rewrite <- app_assoc. }
  apply yields_ensured with (done := done); [done..| |].
  { intros (u & Eu & Hf)%HS. split; [apply Hf|destruct (format p); small]. }
  intros q Hr. pose proof Hr as (Hsame & Ho & Hc & Hl). pose proof Hsame as (En & Ef & Er & Ed).
  apply yields_put with (l := done); [done|done|rewrite Ef; destruct (format p); simpl in *; lia|].
  intros m Hm. cbn [offset set_buffer pdepth set_depth]. rewrite Ho, Ed, Nat.add_1_r.
  set (q1 := set_offset _ _). set (hd := [123] ++ opt (format p) [10]).
  assert (Hv1 : view q1 (done ++ hd)).
  { assert (Eh : (if format p then 2 else 1)%nat = List.length hd) by by (unfold hd; destruct (format p)).
    unfold q1. rewrite Eh. apply (view_set_depth (set_offset _ (set_buffer m q))).
    apply (view_put p done _ q m hd [] Hr); [|lia]. rewrite app_nil_r.
    rewrite Ef in Hm. unfold hd. by destruct (format p). }
  assert (Hs1 : safe_alloc q1) by (unfold safe_alloc, q1; cbn; rewrite En, Er; exact Hs).
  assert (Hg1 : can_grow p -> can_grow q1) by (unfold can_grow, q1; cbn; by rewrite En).
  assert (Eq1 : format q1 = format p /\ pdepth q1 = S (pdepth p)) by done. destruct Eq1 as [Ef1 Ed1].
  pose proof (print_object_elements_spec pv pt (child item) Hall q1 _ S0 Hv1 Hs1) as H.
  rewrite Ef1, Ed1 in H. fold mt in H.
  eapply yields_bind; [apply H|done|].
  { intros (u & Eu & Hf)%HS. exists u. split; [done|]. split; [apply Hg1, Hf|]. fold hd in Hf. small. }
  intros r (u & Eu & Hsr & Hvr). pose proof Hsr as (En2 & Ef2 & Er2 & Ed2). rewrite Ef2, Ef1, Ed2, Ed1.
  assert (Htl : tl ++ [125; 0] = (if format p then repeat 9 (S (pdepth p) - 1) else []) ++ [125; 0]).
  { unfold tl, opt. rewrite Nat.sub_succ, Nat.sub_0_r. by destruct (format p). }
  assert (Hlen : (List.length tl + 2 <= (if format p then S (pdepth p) + 1 else 2))%nat /\
                 ((if format p then S (pdepth p) + 1 else 2) <= List.length tl + 2)%nat).
  { unfold tl, opt. destruct (format p); [rewrite repeat_length|simpl]; lia. }
  remember (if format p then S (pdepth p) + 1 else 2)%nat as nd.
  eapply yields_ensured; [exact Hvr|by eapply same_safe| |].
  { intros (u' & Eu' & Hf)%HS. assert (u' = u) as -> by congruence.
    split; [eapply same_grow; [exact Hsr|apply Hg1, Hf]|]. fold hd in Hf. small. }
  intros z (Hsz & Hoz & Hcz & Hlz). pose proof Hsz as (En3 & Ef3 & Er3 & Ed3).
  rewrite Ef3, Ef2, Ef1, Ed3, Ed2, Ed1, <- Htl.
  apply yields_put with (l := (done ++ hd) ++ u); [done|done|rewrite !length_app in *; simpl in *; lia|].
  intros m' Hm'. apply yields_true. eexists. split; [by rewrite Eu|].
  rewrite <- !app_assoc in *. split; [|split; [|split]].
  - split; [|split; [|split]]; cbn; [by rewrite En3, En2|by rewrite Ef3, Ef2|by rewrite Er3, Er2|]. rewrite Ed3, Ed2, Ed1. lia.
  - unfold hd in Hm'. rewrite <- !app_assoc in *. exact Hm'.
  - cbn. rewrite !length_app in *. unfold hd in *. rewrite ?length_app in *. simpl in *. lia.
  - cbn. rewrite !length_app in *. unfold hd in *. rewrite ?length_app in *. simpl in *. lia.
Qed.

(** print_value writes [json_text]. *)
Lemma print_value_spec item :
  printable item = true ->
  forall p done, view p done -> safe_alloc p ->
  prints p done (json_text (format p) (pdepth p) item) (print_value allocate item p).
Proof.
  induction item as [t vs vi vd s c IH] using cJSON_ind'. intros Hp p done Hv Hs.
  pose proof (printable_inv _ Hp) as (Hnum & Hraw & Hvs & Hstr & Hc).
  cbn [valuestring valuedouble string child] in *.
  assert (Hall : Forall (item_spec (print_value allocate) json_text) c).
  { rewrite Forall_forall in *. intros x Hx. pose proof (Hc _ Hx) as Hpx.
    split; [by destruct (printable_inv x Hpx) as (_ & _ & _ & H & _)|].
    split; [by apply IH|by apply json_text_nz]. }
  cbn [print_value json_text valuestring child].
  destruct (_ =? cJSON_NULL); [by apply print_literal_spec; simpl; try lia|].
  destruct (_ =? cJSON_False); [by apply print_literal_spec; simpl; try lia|].
  destruct (_ =? cJSON_True); [by apply print_literal_spec; simpl; try lia|].
  destruct (Z.eqb_spec (base_type (mkcJSON t vs vi vd s c)) cJSON_Number) as [E|E];
    [by apply print_number_spec; auto|].
  destruct (Z.eqb_spec (base_type (mkcJSON t vs vi vd s c)) cJSON_Raw) as [E'|E'].
  { destruct vs as [vs|]; [|by destruct Hraw]. cbn [option_map]. apply print_literal_spec; [done..|lia]. }
  destruct (_ =? cJSON_String); [by apply print_string_ptr_spec|].
  destruct (_ =? cJSON_Array); [by apply (print_array_spec _ _ (mkcJSON t vs vi vd s c))|].
  destruct (_ =? cJSON_Object); [by apply (print_object_spec _ _ (mkcJSON t vs vi vd s c))|].
  exists false, p. split; [done|]. split; [by intros (u & ? & _)|].
  destruct Hv as (_ & (rest & E0 & _) & _). by rewrite E0.
Qed.

End Proof.
