(* ===== verification/CjsonPrintThms.v ===== *)
(** * The printer's entry points

    cJSON_Print and cJSON_PrintUnformatted return the text of the item;
    cJSON_PrintPreallocated stays inside the caller's buffer; with hooks
    without realloc every allocation failure is reported as NULL, but a
    failing realloc is not checked by ensure. *)

From Stdlib Require Import SpecFloat.
From Stdlib Require Import String.
From S2P Require Import Prelude.
From S2P Require Import Cdouble.
From S2P Require Import CdoubleText.
From S2P Require Import CjsonData.
From S2P Require Import CjsonPrint.
From S2P Require Import CjsonPrintSpec.
From S2P Require Import CjsonPrintProof.
From stdpp Require Import base numbers gmap list.

Open Scope Z_scope.
Open Scope c_scope.

Lemma string_at_text t rest :
  nonzero t -> string_at (map Some (t ++ [0]) ++ rest) = Ok t.
Proof.
  induction 1 as [|c t Hc Ht IH]; simpl; [done|].
  destruct (Z.eqb_spec c 0); [done|]. simpl in IH. by rewrite IH.
Qed.

(** The result of an entry point: the text, or NULL when [S] fails. *)
Definition returns_text (m : outcome (option (list (option Z)))) (S : Prop) (t : option bytes) : Prop :=
  exists r, m = Ok r /\
    match r with
    | Some b => exists u, t = Some u /\ string_at b = Ok u
    | None => ~ S
    end.

Lemma print_spec allocate item fmt realloc :
  printable item = true ->
  (realloc = true -> forall n s, allocate n s = true) ->
  returns_text (print allocate item fmt realloc)
    ((forall n s, allocate n s = true) /\
     exists t, json_text fmt 0 item = Some t /\ small (List.length t + 4))
    (json_text fmt 0 item).
Proof.
  intros Hp Hre. unfold print.
  destruct (allocate 0%nat 256%nat) eqn:Ea; cbn [negb].
  2:{ eexists; split; [done|]. intros [H _]. by rewrite H in Ea. }
  set (p := mkprintbuffer _ _ _ _ _ _ _ _).
  assert (Hv : view p []).
  { split; [done|]. split; [exists (repeat None 256); repeat split; simpl; zlia|].
    right. split; [done|]. split; [done|]. intros _. by eexists _, _. }
  assert (Hs : safe_alloc allocate p) by (intros H; right; auto).
  destruct (print_value_spec allocate item Hp p [] Hv Hs) as (ok & q & -> & H). cbn [obind].
  destruct ok.
  2:{ destruct H as [HS Hd]. assert (Hr : exists m, release (buffer q) = Ok m)
        by (destruct (buffer q); simpl; eauto; done).
      destruct Hr as [m ->]. eexists; split; [done|]. intros [Ha (t & Et & Ht)]. apply HS.
      exists t. split; [done|]. by repeat split. }
  destruct H as (t & Et & Hq). cbn [pdepth format p] in Et.
  assert (Hnz : nonzero t) by (by eapply json_text_nz).
  destruct (update_offset_spec p [] t q Hq Hnz) as (r & -> & Hsr & (Ho & Hc & Hl) & Hcz & El). cbn [obind].
  destruct Hcz as (rest & Eb & Hrest & Hmax). cbn [app] in *.
  rewrite Eb. destruct Hq as (_ & _ & _ & Hlq). rewrite <- El in Hlq. simpl in Hlq.
  destruct realloc.
  - rewrite Hre by done.
    destruct (grow_cells (map Some (t ++ [0]) ++ rest) (length_ r) (t ++ [0]) rest eq_refl)
      as (rest' & -> & _); [rewrite length_app; simpl; lia|].
    eexists; split; [done|]. exists t. split; [done|]. by apply string_at_text.
  - rewrite Ho. destruct (allocate (allocs r) (List.length t + 1)%nat) eqn:Ea'.
    2:{ eexists; split; [done|]. intros [H _]. by rewrite H in Ea'. }
    rewrite Nat.min_r by lia.
    rewrite take_app_le, take_ge by (rewrite length_map, length_app; simpl; lia).
    destruct (grow_cells (map Some (t ++ [0])) (List.length t + 1)%nat (t ++ [0]) []) as (rest' & -> & Hr');
      [by rewrite app_nil_r|rewrite length_app; simpl; lia|].
    unfold write1. destruct (Nat.ltb_spec (List.length t) (List.length (map Some (t ++ [0]) ++ rest')));
      [|rewrite length_app, length_map, length_app in *; simpl in *; lia].
    cbn [obind]. eexists; split; [done|]. exists t. split; [done|].
    rewrite map_app, <- app_assoc, insert_app_r_alt by (rewrite length_map; lia).
    rewrite length_map, Nat.sub_diag. simpl.
    change (map Some t ++ Some 0 :: rest') with (map Some t ++ map Some [0] ++ rest').
    rewrite app_assoc, <- map_app. by apply string_at_text.
Qed.

Lemma print_text allocate item fmt realloc t :
  (forall n s, allocate n s = true) -> printable item = true ->
  json_text fmt 0 item = Some t -> small (List.length t + 4) ->
  exists b, print allocate item fmt realloc = Ok (Some b) /\ string_at b = Ok t.
Proof.
  intros Ha Hp Et Ht. destruct (print_spec allocate item fmt realloc Hp) as (r & E & H); [auto|].
  destruct r as [b|]; [|destruct H; eauto]. destruct H as (u & Eu & Hb). simplify_eq. eauto.
Qed.

(** C21: cJSON_Print and cJSON_PrintUnformatted, when memory is available,
    return a NUL-terminated buffer that holds exactly the text of the item
    ([json_text], formatted or not); no step reads an unwritten byte or writes
    outside the buffer that ensure keeps growing. *)
Theorem print_correct allocate item fmt realloc t :
  (forall n s, allocate n s = true) -> printable item = true ->
  json_text fmt 0 item = Some t -> small (List.length t + 4) ->
  exists b, print allocate item fmt realloc = Ok (Some b) /\ string_at b = Ok t.
Proof. apply print_text. Qed.

(** A parameter message with a number, a string that needs escapes and an
    empty array. *)
Definition sample : cJSON :=
  mkcJSON cJSON_Object None 0 d0 None
    [ mkcJSON cJSON_Number None 10 (d_of_Z 10) (Some (bytes_of "time")) [];
      mkcJSON cJSON_String (Some [97; 34; 10; 1]) 0 d0 (Some (bytes_of "title")) [];
      mkcJSON cJSON_Array None 0 d0 (Some (bytes_of "streams")) [] ].

Lemma print_witness :
  exists b, print (fun _ _ => true) sample true true = Ok (Some b) /\
    string_at b = Ok (from_option id [] (json_text true 0 sample)).
Proof.
  apply print_correct; [done|reflexivity|reflexivity|]. vm_compute. discriminate.
Defined.

(** With allocation hooks that have no realloc, printing never goes wrong
    whatever the allocator does: for every pattern of allocation failures the
    result is NULL or the whole text, never undefined behaviour. *)
Theorem print_malloc_only_safe allocate item fmt :
  printable item = true ->
  exists r, print allocate item fmt false = Ok r /\
    match r with
    | Some b => exists t, json_text fmt 0 item = Some t /\ string_at b = Ok t
    | None => True
    end.
Proof.
  intros Hp. destruct (print_spec allocate item fmt false Hp) as (r & E & H); [done|].
  exists r. split; [done|]. by destruct r.
Qed.

Lemma print_malloc_only_witness :
  exists r, print (fun n _ => (n <? 2)%nat) sample false false = Ok r /\
    match r with
    | Some b => exists t, json_text false 0 sample = Some t /\ string_at b = Ok t
    | None => True
    end.
Proof. apply print_malloc_only_safe. reflexivity. Defined.

(** With the default hooks (malloc, free, realloc), a realloc that fails
    while something is already printed is not noticed: ensure returns
    [NULL + offset] and the printer writes through it. *)
Theorem print_realloc_failure_ub :
  print (fun n _ => (n <? 2)%nat) sample false true = UB.
Proof. vm_compute. reflexivity. Qed.

(** CJSON_PrintPreallocated stays inside the caller's buffer: for every
    printable item and every buffer of at least [len] bytes the call returns,
    and when it returns true the buffer holds exactly the text of the item. *)
Theorem cJSON_PrintPreallocated_correct allocate item buf len fmt :
  printable item = true -> 0 <= len <= LLONG_MAX -> len <= Z.of_nat (List.length buf) ->
  exists ok m, cJSON_PrintPreallocated allocate item buf len fmt = Ok (ok, m) /\
    (ok = true -> exists b t, m = Live b /\ json_text fmt 0 item = Some t /\ string_at b = Ok t).
Proof.
  intros Hp Hlen Hbuf. unfold cJSON_PrintPreallocated. destruct (Z.ltb_spec len 0); [lia|].
  set (p := mkprintbuffer _ _ _ _ _ _ _ _).
  assert (Hv : view p []).
  { split; [done|]. split; [exists buf; repeat split; simpl; lia|].
    destruct (decide (len = 0)); [right|left; simpl; lia].
    split; [simpl; lia|]. split; [done|]. by intros H'. }
  destruct (print_value_spec allocate item Hp p [] Hv) as (ok & q & -> & H'); [by left|].
  cbn [obind]. eexists _, _. split; [done|]. intros ->. destruct H' as (t & Et & (_ & (rest & Eb & _) & _)).
  eexists _, t. split; [done|]. split; [done|]. apply string_at_text. by eapply json_text_nz.
Qed.

Lemma cJSON_PrintPreallocated_witness :
  exists ok m, cJSON_PrintPreallocated (fun _ _ => false) sample (repeat None 60) 60 false = Ok (ok, m) /\
    (ok = true -> exists b t, m = Live b /\ json_text false 0 sample = Some t /\ string_at b = Ok t).
Proof.
  apply cJSON_PrintPreallocated_correct; [reflexivity|split; vm_compute; discriminate|vm_compute; discriminate].
Defined.
