(* ===== verification/CjsonParse.v ===== *)
(** * Parsing text into cJSON items (cjson.c: parse_number .. parse_object)

    The input is the memory of the C string with its NUL.  Every read is
    checked: outside [content] it is [UB].  The buffers parse_string allocates
    have a size, and a write beyond it is [UB].  The n-th call of the
    allocation hooks succeeds when [allocate n size] says so. *)

From Stdlib Require Import SpecFloat.
From Stdlib Require Import String.
From S2P Require Import Prelude.
From S2P Require Import Cdouble.
From S2P Require Import CjsonData.
From stdpp Require Import base numbers gmap list.

Open Scope Z_scope.
Open Scope c_scope.

Record parse_buffer := mkparse_buffer
  { content : bytes;
    blength : nat;
    boffset : nat;
    bdepth : nat;
    ballocs : nat }.

Definition set_boffset (n : nat) (b : parse_buffer) : parse_buffer :=
  mkparse_buffer (content b) (blength b) n (bdepth b) (ballocs b).
Definition set_bdepth (n : nat) (b : parse_buffer) : parse_buffer :=
  mkparse_buffer (content b) (blength b) (boffset b) n (ballocs b).
Definition count_alloc (b : parse_buffer) : parse_buffer :=
  mkparse_buffer (content b) (blength b) (boffset b) (bdepth b) (S (ballocs b)).

Definition can_read (b : parse_buffer) (size : nat) : bool := (boffset b + size <=? blength b)%nat.
Definition can_access_at_index (b : parse_buffer) (i : nat) : bool := (boffset b + i <? blength b)%nat.

(** [content[i]] *)
Definition read (b : parse_buffer) (i : nat) : outcome Z := deref (content b !! i).
(** [buffer_at_offset(b)[0]] *)
Definition current (b : parse_buffer) : outcome Z := read b (boffset b).

(** [can_access_at_index(b, 0) && buffer_at_offset(b)[0] == c] *)
Definition at_char (b : parse_buffer) (c : Z) : outcome bool :=
  if can_access_at_index b 0 then let! x := current b in Ok (x =? c) else Ok false.

(** ** Numbers *)

Definition is_number_char (c : Z) : bool :=
  is_digit c || (c =? c_plus) || (c =? c_minus) || (c =? c_e) || (c =? c_E) || (c =? c_dot).

(** The copy loop into number_c_string[64]; [n] is [63 - i]. *)
Fixpoint copy_number (b : parse_buffer) (n i : nat) : outcome bytes :=
  match n with
  | O => Ok []
  | S n' =>
      if can_access_at_index b i
      then
        let! c := read b (boffset b + i) in
        if is_number_char c
        then let! r := copy_number b n' (S i) in Ok (c :: r)
        else Ok []
      else Ok []
  end.

Definition parse_number (item : cJSON) (b : parse_buffer) : outcome (bool * cJSON * parse_buffer) :=
  let! number_c_string := copy_number b 63 0 in
  match strtod number_c_string with
  | None => Ok (false, item, b)
  | Some (number, after_end) =>
      let item := set_valuedouble number item in
      let item := set_valueint (saturate number) item in
      let item := set_type cJSON_Number item in
      Ok (true, item,
          set_boffset (boffset b + (List.length number_c_string - List.length after_end)) b)
  end.

(** ** Strings *)

Definition hex_value (c : Z) : option Z :=
  if (48 <=? c) && (c <=? 57) then Some (c - 48)
  else if (65 <=? c) && (c <=? 70) then Some (10 + c - 65)
  else if (97 <=? c) && (c <=? 102) then Some (10 + c - 97)
  else None.

(** Four hexadecimal digits at [pos]; [0] when one is not a digit. *)
Fixpoint parse_hex4_loop (b : parse_buffer) (pos : nat) (n : nat) (h : Z) : outcome Z :=
  match n with
  | O => Ok h
  | S n' =>
      let! c := read b pos in
      match hex_value c with
      | None => Ok 0
      | Some v =>
          let h := u32 (h + v) in
          let h := match n' with O => h | _ => u32 (Z.shiftl h 4) end in
          parse_hex4_loop b (S pos) n' h
      end
  end.

Definition parse_hex4 (b : parse_buffer) (pos : nat) : outcome Z := parse_hex4_loop b pos 4 0.

(** The encoding loop: positions [utf8_position] down to 1. *)
Fixpoint utf8_tail (utf8_position : nat) (codepoint : Z) (acc : bytes) : Z * bytes :=
  match utf8_position with
  | O => (codepoint, acc)
  | S n => utf8_tail n (Z.shiftr codepoint 6) (Z.land (Z.lor codepoint 128) 191 :: acc)
  end.

Definition utf8_encode (codepoint : Z) : option bytes :=
  let enc utf8_length first_byte_mark :=
    let '(codepoint, tail) := utf8_tail (utf8_length - 1) codepoint [] in
    Some ((if (1 <? utf8_length)%nat then Z.land (Z.lor codepoint first_byte_mark) 255
           else Z.land codepoint 127) :: tail) in
  if codepoint <? 128 then enc 1%nat 0
  else if codepoint <? 2048 then enc 2%nat 192
  else if codepoint <? 65536 then enc 3%nat 224
  else if codepoint <=? 1114111 then enc 4%nat 240
  else None.

(** The bytes the literal at [input_pointer] stands for and the length of the
    literal; [None] is the failure (0 in the code). *)
Definition utf16_literal_to_utf8 (b : parse_buffer) (input_pointer input_end : nat)
    : outcome (option (bytes * nat)) :=
  if (input_end - input_pointer <? 6)%nat then Ok None else
  let! first_code := parse_hex4 b (input_pointer + 2) in
  if (56320 <=? first_code) && (first_code <=? 57343) then Ok None else
  if (55296 <=? first_code) && (first_code <=? 56319) then
    let second_sequence := (input_pointer + 6)%nat in
    if (input_end - second_sequence <? 6)%nat then Ok None else
    let! c0 := read b second_sequence in
    if negb (c0 =? 92) then Ok None else
    let! c1 := read b (second_sequence + 1) in
    if negb (c1 =? 117) then Ok None else
    let! second_code := parse_hex4 b (second_sequence + 2) in
    if (second_code <? 56320) || (57343 <? second_code) then Ok None else
    let codepoint :=
      65536 + Z.lor (Z.shiftl (Z.land first_code 1023) 10) (Z.land second_code 1023) in
    Ok (option_map (fun e => (e, 12%nat)) (utf8_encode codepoint))
  else Ok (option_map (fun e => (e, 6%nat)) (utf8_encode first_code)).

(** The first loop: the index of the closing quote and the number of
    backslashes skipped; [None] is [goto fail].  [fuel] bounds the rounds. *)
Fixpoint find_string_end (b : parse_buffer) (fuel input_end skipped_bytes : nat)
    : outcome (option (nat * nat)) :=
  match fuel with
  | O => Fuel
  | S f =>
      if (input_end <? blength b)%nat
      then
        let! c := read b input_end in
        if c =? 34 then Ok (Some (input_end, skipped_bytes))
        else if c =? 92
        then if (blength b <=? input_end + 1)%nat then Ok None
             else find_string_end b f (input_end + 2) (S skipped_bytes)
        else find_string_end b f (input_end + 1) skipped_bytes
      else Ok None
  end.

(** Append [l] to an output object of [cap] bytes. *)
Definition append (cap : nat) (output l : bytes) : outcome bytes :=
  if (List.length output + List.length l <=? cap)%nat then Ok (output ++ l) else UB.

(** The escapes that stand for one byte. *)
Definition simple_escape (c : Z) : option Z :=
  if c =? 98 then Some 8 else if c =? 102 then Some 12 else if c =? 110 then Some 10
  else if c =? 114 then Some 13 else if c =? 116 then Some 9
  else if (c =? 34) || (c =? 92) || (c =? 47) then Some c else None.

(** The second loop.  It returns the output when it ran to the end, and where
    [input_pointer] stopped. *)
Fixpoint unescape (b : parse_buffer) (cap fuel input_pointer input_end : nat) (output : bytes)
    : outcome (option bytes * nat) :=
  match fuel with
  | O => Fuel
  | S f =>
      if (input_pointer <? input_end)%nat
      then
        let! c := read b input_pointer in
        if negb (c =? 92)
        then
          let! output := append cap output [c] in
          unescape b cap f (input_pointer + 1) input_end output
        else if (input_end - input_pointer <? 1)%nat then Ok (None, input_pointer)
        else
          let! e := read b (input_pointer + 1) in
          match simple_escape e with
          | Some x =>
              let! output := append cap output [x] in
              unescape b cap f (input_pointer + 2) input_end output
          | None =>
              if e =? 117
              then
                let! r := utf16_literal_to_utf8 b input_pointer input_end in
                match r with
                | None => Ok (None, input_pointer)
                | Some (l, sequence_length) =>
                    let! output := append cap output l in
                    unescape b cap f (input_pointer + sequence_length) input_end output
                end
              else Ok (None, input_pointer)
          end
      else Ok (Some output, input_pointer)
  end.

Section Parse.
Variable allocate : nat -> nat -> bool.

Definition parse_string (item : cJSON) (b : parse_buffer) : outcome (bool * cJSON * parse_buffer) :=
  let input_pointer := (boffset b + 1)%nat in
  let fail (input_pointer : nat) (b : parse_buffer) := Ok (false, item, set_boffset input_pointer b) in
  let! c := current b in
  if negb (c =? 34) then fail input_pointer b else
  let! r := find_string_end b (S (blength b)) input_pointer 0 in
  match r with
  | None => fail input_pointer b
  | Some (input_end, skipped_bytes) =>
      let allocation_length := (input_end - boffset b - skipped_bytes)%nat in
      let ok := allocate (ballocs b) (allocation_length + 1)%nat in
      let b := count_alloc b in
      if negb ok then fail input_pointer b else
      let cap := (allocation_length + 1)%nat in
      let! r := unescape b cap (S (blength b)) input_pointer input_end [] in
      match r with
      | (None, input_pointer) => fail input_pointer b
      | (Some output, _) =>
          let! _ := append cap output [0] in
          let item := set_valuestring (Some output) (set_type cJSON_String item) in
          Ok (true, item, set_boffset (input_end + 1) b)
      end
  end.

(** ** Whitespace *)

Fixpoint skip_loop (b : parse_buffer) (fuel : nat) : outcome parse_buffer :=
  match fuel with
  | O => Ok b
  | S f =>
      if can_access_at_index b 0
      then
        let! c := current b in
        if c <=? 32 then skip_loop (set_boffset (boffset b + 1) b) f else Ok b
      else Ok b
  end.

(** The loop runs at most [blength - boffset] times. *)
Definition buffer_skip_whitespace (b : parse_buffer) : outcome parse_buffer :=
  let! b := skip_loop b (blength b - boffset b) in
  if (boffset b =? blength b)%nat then Ok (set_boffset (boffset b - 1) b) else Ok b.

(** cJSON_New_Item: [None] when the allocation fails. *)
Definition new_item (b : parse_buffer) : option cJSON * parse_buffer :=
  ((if allocate (ballocs b) sizeof_cJSON then Some cJSON_New_Item else None), count_alloc b).

(** ** Arrays and objects, over the parser [pv] of their elements *)

Section Elements.
Variable pv : cJSON -> parse_buffer -> outcome (bool * cJSON * parse_buffer).

(** The do-while loop; [head] is the list built so far.  [None]: goto fail. *)
Fixpoint parse_array_loop (fuel : nat) (head : list cJSON) (b : parse_buffer)
    : outcome (option (list cJSON) * parse_buffer) :=
  match fuel with
  | O => Fuel
  | S f =>
      let '(new, b) := new_item b in
      match new with
      | None => Ok (None, b)
      | Some current_item =>
          let! b := buffer_skip_whitespace (set_boffset (boffset b + 1) b) in
          let! r := pv current_item b in
          match r with
          | (false, _, b) => Ok (None, b)
          | (true, current_item, b) =>
              let! b := buffer_skip_whitespace b in
              let head := head ++ [current_item] in
              let! more := at_char b 44 in
              if more then parse_array_loop f head b else Ok (Some head, b)
          end
      end
  end.

(** One member: its name, the colon and its value. *)
Definition parse_member (current_item : cJSON) (b : parse_buffer)
    : outcome (bool * cJSON * parse_buffer) :=
  let! b := buffer_skip_whitespace (set_boffset (boffset b + 1) b) in
  let! r := parse_string current_item b in
  match r with
  | (false, current_item, b) => Ok (false, current_item, b)
  | (true, current_item, b) =>
      let! b := buffer_skip_whitespace b in
      let current_item := set_valuestring None (set_string (valuestring current_item) current_item) in
      let! colon := at_char b 58 in
      if negb colon then Ok (false, current_item, b) else
      let! b := buffer_skip_whitespace (set_boffset (boffset b + 1) b) in
      pv current_item b
  end.

Fixpoint parse_object_loop (fuel : nat) (head : list cJSON) (b : parse_buffer)
    : outcome (option (list cJSON) * parse_buffer) :=
  match fuel with
  | O => Fuel
  | S f =>
      let '(new, b) := new_item b in
      match new with
      | None => Ok (None, b)
      | Some current_item =>
          let! r := parse_member current_item b in
          match r with
          | (false, _, b) => Ok (None, b)
          | (true, current_item, b) =>
              let! b := buffer_skip_whitespace b in
              let head := head ++ [current_item] in
              let! more := at_char b 44 in
              if more then parse_object_loop f head b else Ok (Some head, b)
          end
      end
  end.

Definition parse_array (fuel : nat) (item : cJSON) (b : parse_buffer)
    : outcome (bool * cJSON * parse_buffer) :=
  if (CJSON_NESTING_LIMIT <=? bdepth b)%nat then Ok (false, item, b) else
  let b := set_bdepth (bdepth b + 1) b in
  let success head (b : parse_buffer) :=
    Ok (true, set_child head (set_type cJSON_Array item),
        set_boffset (boffset b + 1) (set_bdepth (bdepth b - 1) b)) in
  let! c := current b in
  if negb (c =? 91) then Ok (false, item, b) else
  let! b := buffer_skip_whitespace (set_boffset (boffset b + 1) b) in
  let! empty := at_char b 93 in
  if empty then success [] b else
  if negb (can_access_at_index b 0) then Ok (false, item, set_boffset (boffset b - 1) b) else
  let! r := parse_array_loop fuel [] (set_boffset (boffset b - 1) b) in
  match r with
  | (None, b) => Ok (false, item, b)
  | (Some head, b) =>
      let! closed := at_char b 93 in
      if negb closed then Ok (false, item, b) else success head b
  end.

Definition parse_object (fuel : nat) (item : cJSON) (b : parse_buffer)
    : outcome (bool * cJSON * parse_buffer) :=
  if (CJSON_NESTING_LIMIT <=? bdepth b)%nat then Ok (false, item, b) else
  let b := set_bdepth (bdepth b + 1) b in
  let success head (b : parse_buffer) :=
    Ok (true, set_child head (set_type cJSON_Object item),
        set_boffset (boffset b + 1) (set_bdepth (bdepth b - 1) b)) in
  let! open := at_char b 123 in
  if negb open then Ok (false, item, b) else
  let! b := buffer_skip_whitespace (set_boffset (boffset b + 1) b) in
  let! empty := at_char b 125 in
  if empty then success [] b else
  if negb (can_access_at_index b 0) then Ok (false, item, set_boffset (boffset b - 1) b) else
  let! r := parse_object_loop fuel [] (set_boffset (boffset b - 1) b) in
  match r with
  | (None, b) => Ok (false, item, b)
  | (Some head, b) =>
      let! closed := at_char b 125 in
      if negb closed then Ok (false, item, b) else success head b
  end.

End Elements.

(** strncmp with a literal that holds no NUL, guarded by can_read *)
Definition at_literal (b : parse_buffer) (l : bytes) : bool :=
  can_read b (List.length l) && bool_decide (take (List.length l) (drop (boffset b) (content b)) = l).

Fixpoint parse_value (fuel : nat) (item : cJSON) (b : parse_buffer)
    : outcome (bool * cJSON * parse_buffer) :=
  match fuel with
  | O => Fuel
  | S f =>
      if at_literal b (bytes_of "null") then Ok (true, set_type cJSON_NULL item, set_boffset (boffset b + 4) b)
      else if at_literal b (bytes_of "false") then
        Ok (true, set_type cJSON_False item, set_boffset (boffset b + 5) b)
      else if at_literal b (bytes_of "true") then
        Ok (true, set_valueint 1 (set_type cJSON_True item), set_boffset (boffset b + 4) b)
      else if can_access_at_index b 0 then
        let! c := current b in
        if c =? 34 then parse_string item b
        else if (c =? c_minus) || ((48 <=? c) && (c <=? 57)) then parse_number item b
        else if c =? 91 then parse_array (parse_value f) f item b
        else if c =? 123 then parse_object (parse_value f) f item b
        else Ok (false, item, b)
      else Ok (false, item, b)
  end.

(** ** The entry points *)

(** What a call leaves: the item ([None] is NULL), what is stored through
    [return_parse_end] if it is not NULL, and the position of global_error. *)
Record parse_result := mkparse_result
  { parsed : option cJSON;
    parse_end : option nat;
    error_position : option nat }.

(** The part after the label fail, for a value that is not NULL. *)
Definition parse_fail (return_parse_end : bool) (b : parse_buffer) : parse_result :=
  let position :=
    if (boffset b <? blength b)%nat then boffset b
    else if (0 <? blength b)%nat then (blength b - 1)%nat else O in
  if return_parse_end then mkparse_result None (Some position) None
  else mkparse_result None None (Some position).

Definition cJSON_ParseWithOpts (fuel : nat) (value : option bytes) (return_parse_end : bool)
    (require_null_terminated : bool) : outcome parse_result :=
  match value with
  | None => Ok (mkparse_result None None None)
  | Some value =>
      let s := cstr_of value in
      let b := mkparse_buffer (s ++ [0]) (List.length s + 1) 0 0 0 in
      let fail (b : parse_buffer) := Ok (parse_fail return_parse_end b) in
      let success item (b : parse_buffer) :=
        Ok (mkparse_result (Some item) (if return_parse_end then Some (boffset b) else None) None) in
      let '(new, b) := new_item b in
      match new with
      | None => fail b
      | Some item =>
          let! b := buffer_skip_whitespace b in
          let! r := parse_value fuel item b in
          match r with
          | (false, _, b) => fail b
          | (true, item, b) =>
              if require_null_terminated
              then
                let! b := buffer_skip_whitespace b in
                if (blength b <=? boffset b)%nat then fail b else
                let! c := current b in
                if negb (c =? 0) then fail b else success item b
              else success item b
          end
      end
  end.

(** The fuel is enough for any value of this size: each round of a loop and
    each level of nesting reads a byte. *)
Definition parse_fuel (value : option bytes) : nat :=
  match value with Some s => S (S (List.length s)) | None => O end.

Definition cJSON_Parse (value : option bytes) : outcome (option cJSON) :=
  let! r := cJSON_ParseWithOpts (parse_fuel value) value false false in Ok (parsed r).

End Parse.
