(* ===== verification/CjsonParseSafe.v ===== *)
(** * The parser is total and memory safe

    On every NUL-terminated input and for every outcome of the allocations,
    the parser returns: it reads no byte outside the input, writes no byte
    outside the buffers it allocates, and its fuel is enough. *)

From Stdlib Require Import SpecFloat.
From Stdlib Require Import String.
From S2P Require Import Prelude.
From S2P Require Import Cdouble.
From S2P Require Import CdoubleText.
From S2P Require Import CjsonData.
From S2P Require Import CjsonParse.
From stdpp Require Import base numbers gmap list.

Open Scope Z_scope.
Open Scope c_scope.

(** ** The input *)

Definition terminated (b : parse_buffer) : Prop :=
  exists s, content b = s ++ [0] /\ nonzero s /\ blength b = (List.length s + 1)%nat.

(** The offset is at a byte of the input. *)
Definition inside (b : parse_buffer) : Prop := (boffset b < blength b)%nat.

(** A call moves in the same input. *)
Definition same_input (b b' : parse_buffer) : Prop :=
  content b' = content b /\ blength b' = blength b.

Lemma same_input_refl b : same_input b b.
Proof. done. Qed.
Lemma same_input_trans a b c : same_input a b -> same_input b c -> same_input a c.
Proof. intros [] []. split; congruence. Qed.
Lemma same_terminated b b' : same_input b b' -> terminated b -> terminated b'.
Proof. intros [E1 E2] (s & H1 & H2 & H3). exists s. rewrite E1, E2. done. Qed.

#[local] Hint Resolve same_input_refl same_input_trans same_terminated : core.

Lemma terminated_length b : terminated b -> blength b = List.length (content b).
Proof. intros (s & -> & _ & ->). rewrite length_app. simpl. lia. Qed.

Lemma read_ok b i : terminated b -> (i < blength b)%nat ->
  exists c, read b i = Ok c /\ content b !! i = Some c.
Proof.
  intros Ht Hi. rewrite (terminated_length b Ht) in Hi.
  destruct (lookup_lt_is_Some_2 _ _ Hi) as [c Hc]. exists c. unfold read. by rewrite Hc.
Qed.

(** A byte other than NUL is not the last one. *)
Lemma nonzero_not_last b i c :
  terminated b -> content b !! i = Some c -> c <> 0 -> (i + 1 < blength b)%nat.
Proof.
  intros (s & E & _ & ->) Hc H0. rewrite E in Hc.
  destruct (decide (i < List.length s)%nat); [lia|].
  rewrite lookup_app_r in Hc by lia.
  destruct (i - List.length s)%nat eqn:Ei; simpl in Hc; simplify_eq.
Qed.

(** A NUL is the last byte. *)
Lemma zero_last b i : terminated b -> content b !! i = Some 0 -> (i + 1 = blength b)%nat.
Proof.
  intros (s & E & Hnz & ->) Hc. rewrite E in Hc.
  destruct (decide (i < List.length s)%nat) as [Hlt|Hge].
  - rewrite lookup_app_l in Hc by lia. by apply (Forall_lookup_1 _ _ _ _ Hnz) in Hc.
  - apply lookup_lt_Some in Hc. rewrite length_app in Hc. simpl in Hc. lia.
Qed.

Lemma at_char_ok b c :
  terminated b -> exists r, at_char b c = Ok r /\
    (r = true -> content b !! boffset b = Some c).
Proof.
  intros Ht. unfold at_char, can_access_at_index, current. rewrite Nat.add_0_r.
  destruct (Nat.ltb_spec (boffset b) (blength b)) as [Hlt|]; [|by exists false].
  destruct (read_ok b (boffset b) Ht Hlt) as (x & -> & Hx). cbn [obind].
  destruct (Z.eqb_spec x c); eexists; split; [done|congruence|done|congruence].
Qed.

(** ** Whitespace *)

Lemma skip_loop_ok fuel : forall b,
  terminated b -> exists b', skip_loop b fuel = Ok b' /\ same_input b b' /\
    bdepth b' = bdepth b /\ ballocs b' = ballocs b /\
    (boffset b <= boffset b' <= Nat.max (boffset b) (blength b))%nat.
Proof.
  induction fuel as [|f IH]; intros b Ht; cbn [skip_loop]; [exists b; eauto with lia|].
  unfold can_access_at_index, current. rewrite Nat.add_0_r.
  destruct (Nat.ltb_spec (boffset b) (blength b)) as [Hlt|]; [|exists b; eauto with lia].
  destruct (read_ok b (boffset b) Ht Hlt) as (x & -> & Hx). cbn [obind].
  destruct (x <=? 32); [|exists b; eauto with lia].
  destruct (IH (set_boffset (boffset b + 1) b)) as (b' & -> & Hs & Hd & Ha & Ho); [done|].
  exists b'. cbn in *. split; [done|]. split; [done|]. split; [done|]. split; [done|]. lia.
Qed.

(** Skipping whitespace ends at a byte of the input, not before the start. *)
Lemma skip_ok b :
  terminated b -> inside b ->
  exists b', buffer_skip_whitespace b = Ok b' /\ same_input b b' /\ bdepth b' = bdepth b /\
    (boffset b <= boffset b')%nat /\ inside b'.
Proof.
  intros Ht Hin. unfold buffer_skip_whitespace, inside in *.
  destruct (skip_loop_ok (blength b - boffset b) b Ht) as (b' & -> & [E1 E2] & Hd & _ & Ho).
  cbn [obind]. rewrite E2. destruct (Nat.eqb_spec (boffset b') (blength b)).
  - eexists; split; [done|]. split; [done|]. cbn. rewrite E2. split; [done|]. lia.
  - eexists; split; [done|]. split; [done|]. rewrite E2. split; [done|]. lia.
Qed.

(** Stepping over a byte other than NUL, then skipping. *)
Lemma step_skip_ok b c :
  terminated b -> content b !! boffset b = Some c -> c <> 0 ->
  exists b', buffer_skip_whitespace (set_boffset (boffset b + 1) b) = Ok b' /\ same_input b b' /\
    bdepth b' = bdepth b /\ (boffset b < boffset b')%nat /\ inside b'.
Proof.
  intros Ht Hc H0. pose proof (nonzero_not_last b _ c Ht Hc H0) as Hlt.
  destruct (skip_ok (set_boffset (boffset b + 1) b)) as (b' & -> & Hs & Hd & Ho & Hin);
    [done|unfold inside; cbn; lia|].
  exists b'. cbn in *. split; [done|]. split; [done|]. split; [done|]. split; [lia|done].
Qed.

(** ** What a parsing function promises *)

Definition parses (b : parse_buffer) (m : outcome (bool * cJSON * parse_buffer)) : Prop :=
  exists ok item b', m = Ok (ok, item, b') /\ same_input b b' /\
    (ok = true -> (boffset b < boffset b')%nat /\ inside b' /\ bdepth b' = bdepth b).

Lemma parses_false b b' item : same_input b b' -> parses b (Ok (false, item, b')).
Proof. intros H. by exists false, item, b'. Qed.

Lemma copy_number_ok b n : forall i,
  terminated b -> exists l, copy_number b n i = Ok l /\
    (List.length l <= n)%nat /\ (l <> [] -> (boffset b + i + List.length l < blength b)%nat).
Proof.
  induction n as [|n IH]; intros i Ht; cbn [copy_number]; [by exists []|].
  unfold can_access_at_index. destruct (Nat.ltb_spec (boffset b + i) (blength b)) as [Hlt|];
    [|exists []; simpl; split; [done|]; split; [lia|done]].
  destruct (read_ok b (boffset b + i) Ht Hlt) as (c & -> & Hc). cbn [obind].
  destruct (is_number_char c) eqn:Ec; [|exists []; simpl; split; [done|]; split; [lia|done]].
  destruct (IH (S i) Ht) as (l & -> & Hl & Hin). cbn [obind]. eexists; split; [done|].
  simpl. split; [lia|]. intros _.
  assert (c <> 0) by (intros ->; done).
  pose proof (nonzero_not_last b _ c Ht Hc ltac:(done)).
  destruct l; [simpl; lia|]. specialize (Hin ltac:(done)). simpl in *. lia.
Qed.

Lemma scan_digits_length l : let '(d, t) := scan_digits l in (List.length d + List.length t = List.length l)%nat.
Proof.
  induction l as [|c l IH]; simpl; [done|]. destruct (is_digit c); [|done].
  destruct (scan_digits l). simpl. lia.
Qed.

Lemma scan_sign_length l : let '(_, t) := scan_sign l in (List.length t <= List.length l)%nat.
Proof.
  destruct l as [|c l]; [simpl; lia|]. unfold scan_sign.
  destruct (c =? c_minus); [|destruct (c =? c_plus)]; simpl; lia.
Qed.

Lemma scan_exponent_length l : let '(_, t) := scan_exponent l in (List.length t <= List.length l)%nat.
Proof.
  destruct l as [|c l]; [simpl; lia|]. cbn [scan_exponent].
  destruct ((c =? c_e) || (c =? c_E)); [|simpl; lia].
  pose proof (scan_sign_length l). destruct (scan_sign l) as [s r].
  pose proof (scan_digits_length r). destruct (scan_digits r) as [ds t].
  destruct ds; simpl in *; lia.
Qed.

(** strtod consumes at least a byte. *)
Lemma strtod_progress l d r : strtod l = Some (d, r) -> (List.length r < List.length l)%nat.
Proof.
  unfold strtod. pose proof (scan_sign_length l). destruct (scan_sign l) as [s l1].
  pose proof (scan_digits_length l1). destruct (scan_digits l1) as [ip l2].
  set (frac := match l2 with [] => _ | c :: r => _ end).
  assert (Hf : let '(fp, l3) := frac in (List.length fp + List.length l3 <= List.length l2)%nat).
  { unfold frac. destruct l2 as [|c l2]; [simpl; lia|]. destruct (c =? c_dot); [|simpl; lia].
    pose proof (scan_digits_length l2). destruct (scan_digits l2). simpl. lia. }
  destruct frac as [fp l3]. pose proof (scan_exponent_length l3).
  destruct (ip ++ fp) as [|x ds] eqn:E; [done|]. destruct (scan_exponent l3) as [e l4].
  intros [= <- <-]. assert (List.length (ip ++ fp) = S (List.length ds)) by by rewrite E.
  rewrite length_app in *. lia.
Qed.

Lemma parse_number_ok item b : terminated b -> parses b (parse_number item b).
Proof.
  intros Ht. unfold parse_number. destruct (copy_number_ok b 63 0 Ht) as (l & -> & _ & Hl). cbn [obind].
  destruct (strtod l) as [[d r]|] eqn:E; [|by apply parses_false].
  apply strtod_progress in E. eexists _, _, _. split; [done|]. split; [done|]. intros _.
  unfold inside. cbn. split; [lia|]. split; [|done].
  destruct l; [simpl in E; lia|]. specialize (Hl ltac:(done)). simpl in *. lia.
Qed.

(** ** Strings

    [weight l] is the space the first loop of parse_string accounts for the
    literal [l]: one byte for each character or escape sequence. *)

Fixpoint weight (l : bytes) : nat :=
  match l with
  | [] => O
  | c :: r => if c =? 92 then match r with [] => 1%nat | _ :: r' => S (weight r') end else S (weight r)
  end.

Lemma weight_cons c r : (weight r <= weight (c :: r) <= S (weight r))%nat.
Proof.
  revert c. induction r as [r IH] using (induction_ltof1 _ (@List.length Z)); unfold ltof in IH; intros c.
  destruct r as [|d r]; cbn [weight]; [destruct (c =? 92); lia|].
  destruct (c =? 92); [|lia].
  destruct (d =? 92); [|lia].
  destruct r as [|e r]; [simpl; lia|]. pose proof (IH r ltac:(simpl; lia) e). lia.
Qed.

Lemma weight_app_ge l r : (weight r <= weight (l ++ r))%nat.
Proof.
  induction l as [|c l IH]; [done|]. cbn [app]. pose proof (weight_cons c (l ++ r)). lia.
Qed.

Lemma weight_plain l r : Forall (fun c => c <> 92) l -> weight (l ++ r) = (List.length l + weight r)%nat.
Proof.
  induction 1 as [|c l Hc Hl IH]; [done|]. cbn [app weight]. destruct (Z.eqb_spec c 92); [done|].
  simpl. lia.
Qed.

(** The bytes from index [i] up to index [j]. *)
Definition seg (b : parse_buffer) (i j : nat) : bytes := take (j - i) (drop i (content b)).

Lemma seg_cons b i j c : (i < j)%nat -> content b !! i = Some c -> seg b i j = c :: seg b (i + 1) j.
Proof.
  intros Hij Hc. unfold seg. rewrite (drop_S _ _ _ Hc), Nat.add_1_r.
  replace (j - i)%nat with (S (j - S i)) by lia. done.
Qed.

Lemma seg_nil b i j : (j <= i)%nat -> seg b i j = [].
Proof. intros H. unfold seg. by replace (j - i)%nat with O by lia. Qed.

Lemma find_string_end_ok b fuel : forall i sk,
  terminated b -> (blength b < i + fuel)%nat -> (i <= blength b)%nat ->
  exists r, find_string_end b fuel i sk = Ok r /\
    match r with
    | None => True
    | Some (e, sk') => (i <= e)%nat /\ (e + 1 < blength b)%nat /\ content b !! e = Some 34 /\
        (e - i + sk = weight (seg b i e) + sk')%nat /\ (sk <= sk')%nat
    end.
Proof.
  induction fuel as [|f IH]; intros i sk Ht Hf Hi; [lia|]. cbn [find_string_end].
  destruct (Nat.ltb_spec i (blength b)) as [Hlt|]; [|by exists None].
  destruct (read_ok b i Ht Hlt) as (c & -> & Hc). cbn [obind].
  destruct (Z.eqb_spec c 34) as [->|Hq].
  { exists (Some (i, sk)). split; [done|]. pose proof (nonzero_not_last b i 34 Ht Hc ltac:(done)).
    rewrite seg_nil by lia. simpl. split_and!; done || lia. }
  destruct (Z.eqb_spec c 92) as [->|Hb].
  - destruct (Nat.leb_spec (blength b) (i + 1)) as [|Hi1]; [by exists None|].
    destruct (IH (i + 2)%nat (S sk) Ht ltac:(lia) ltac:(lia)) as (r & -> & H). exists r. split; [done|].
    destruct r as [[e sk']|]; [|done]. destruct H as (H1 & H2 & H3 & H4 & H5).
    destruct (read_ok b (i + 1) Ht ltac:(lia)) as (d & _ & Hd).
    rewrite (seg_cons b i e 92), (seg_cons b (i + 1) e d) by (done || lia).
    replace (i + 1 + 1)%nat with (i + 2)%nat by lia. simpl. split_and!; done || lia.
  - destruct (IH (i + 1)%nat sk Ht ltac:(lia) ltac:(lia)) as (r & -> & H). exists r. split; [done|].
    destruct r as [[e sk']|]; [|done]. destruct H as (H1 & H2 & H3 & H4 & H5).
    rewrite (seg_cons b i e c) by (done || lia). cbn [weight]. destruct (Z.eqb_spec c 92); [done|].
    split_and!; done || lia.
Qed.

Lemma hex_value_plain c v : hex_value c = Some v -> c <> 92.
Proof. unfold hex_value. intros H ->. done. Qed.

(** parse_hex4 reads inside; a result other than 0 read four digits. *)
Lemma parse_hex4_loop_ok b n : forall pos h j,
  terminated b -> (pos + n <= j)%nat -> (j <= blength b)%nat ->
  exists v, parse_hex4_loop b pos n h = Ok v /\
    (v <> 0 -> weight (seg b pos j) = (n + weight (seg b (pos + n) j))%nat).
Proof.
  induction n as [|n IH]; intros pos h j Ht Hj Hl; cbn [parse_hex4_loop].
  { eexists; split; [done|]. intros _. by rewrite Nat.add_0_r. }
  destruct (read_ok b pos Ht ltac:(lia)) as (c & -> & Hc). cbn [obind].
  destruct (hex_value c) as [v|] eqn:Ev; [|by exists 0].
  edestruct (IH (S pos)) as (w & -> & Hw); [done| |done|]; [lia|].
  exists w. split; [done|]. intros Hw0. specialize (Hw Hw0).
  apply hex_value_plain in Ev. rewrite (seg_cons b pos j c) by (done || lia). cbn [weight].
  destruct (Z.eqb_spec c 92); [done|]. rewrite Nat.add_1_r, Hw.
  replace (S pos + n)%nat with (pos + S n)%nat by lia. lia.
Qed.

Lemma utf8_tail_length n : forall cp acc, List.length (utf8_tail n cp acc).2 = (n + List.length acc)%nat.
Proof. induction n as [|n IH]; intros cp acc; simpl; [done|]. rewrite IH. simpl. lia. Qed.

Lemma utf8_encode_length cp l :
  utf8_encode cp = Some l -> (1 <= List.length l <= 4)%nat /\ (cp = 0 -> List.length l = 1%nat).
Proof.
  unfold utf8_encode.
  assert (H : forall n m, (1 <= n)%nat -> (let '(c, t) := utf8_tail (n - 1) cp [] in
      Some ((if (1 <? n)%nat then Z.land (Z.lor c m) 255 else Z.land c 127) :: t)) = Some l ->
      List.length l = n).
  { intros n m Hn. pose proof (utf8_tail_length (n - 1) cp []) as Hl.
    destruct (utf8_tail (n - 1) cp []) as [c t]. intros [= <-]. simpl in *. lia. }
  destruct (Z.ltb_spec cp 128); [intros E; apply H in E; [|lia]; lia|].
  destruct (Z.ltb_spec cp 2048); [intros E; apply H in E; [|lia]; lia|].
  destruct (Z.ltb_spec cp 65536); [intros E; apply H in E; [|lia]; lia|].
  destruct (Z.leb_spec cp 1114111); [intros E; apply H in E; [|lia]; lia|done].
Qed.

Lemma seg_add b i n j : (i + n <= j)%nat -> (j <= List.length (content b))%nat ->
  exists l, seg b i j = l ++ seg b (i + n) j /\ List.length l = n.
Proof.
  intros Hij Hj. exists (take n (drop i (content b))). unfold seg. split.
  - replace (j - i)%nat with (n + (j - (i + n)))%nat by lia. rewrite <- drop_drop.
    symmetry. apply take_take_drop.
  - rewrite length_take, length_drop. lia.
Qed.

(** The bytes of a UTF-16 literal fit in the space accounted for it. *)
Lemma utf16_ok b i e :
  terminated b -> (i < e)%nat -> (e + 1 < blength b)%nat ->
  content b !! i = Some 92 -> content b !! (i + 1)%nat = Some 117 ->
  exists r, utf16_literal_to_utf8 b i e = Ok r /\
    match r with
    | None => True
    | Some (l, n) => (0 < n)%nat /\ (i + n <= e)%nat /\
        (List.length l + weight (seg b (i + n) e) <= weight (seg b i e))%nat
    end.
Proof.
  intros Ht Hi He H0 H1. pose proof (terminated_length b Ht) as Hlen. unfold utf16_literal_to_utf8.
  destruct (Nat.ltb_spec (e - i) 6); [by exists None|].
  destruct (parse_hex4_loop_ok b 4 (i + 2) 0 e Ht ltac:(lia) ltac:(lia)) as (h & E & Hh).
  unfold parse_hex4 in *. rewrite E. cbn [obind].
  assert (Hw : weight (seg b i e) = S (weight (seg b (i + 2) e))).
  { rewrite (seg_cons b i e 92), (seg_cons b (i + 1) e 117) by (done || lia).
    by replace (i + 1 + 1)%nat with (i + 2)%nat by lia. }
  replace (i + 2 + 4)%nat with (i + 6)%nat in Hh by lia.
  destruct (_ && _); [by exists None|].
  destruct ((55296 <=? h) && (h <=? 56319)) eqn:Esur.
  - apply andb_prop in Esur as [Es1 Es2]. apply Z.leb_le in Es1, Es2. specialize (Hh ltac:(lia)).
    destruct (Nat.ltb_spec (e - (i + 6)) 6); [by exists None|].
    destruct (read_ok b (i + 6) Ht ltac:(lia)) as (c0 & -> & Hc0). cbn [obind].
    destruct (Z.eqb_spec c0 92) as [->|]; [|by exists None]. cbn [negb].
    destruct (read_ok b (i + 6 + 1) Ht ltac:(lia)) as (c1 & -> & Hc1). cbn [obind].
    destruct (Z.eqb_spec c1 117) as [->|]; [|by exists None]. cbn [negb].
    destruct (parse_hex4_loop_ok b 4 (i + 6 + 2) 0 e Ht ltac:(lia) ltac:(lia)) as (k & -> & Hk). cbn [obind].
    destruct (Z.ltb_spec k 56320); [by exists None|]. destruct (57343 <? k); [by exists None|]. cbn [orb].
    specialize (Hk ltac:(lia)). eexists; split; [done|].
    destruct (utf8_encode _) as [l|] eqn:El; [|done]. cbn [option_map].
    apply utf8_encode_length in El as [El _]. split; [lia|]. split; [lia|].
    rewrite Hw, Hh, (seg_cons b (i + 6) e 92), (seg_cons b (i + 6 + 1) e 117) by (done || lia).
    replace (i + 6 + 1 + 1)%nat with (i + 6 + 2)%nat by lia. cbn [weight Z.eqb Pos.eqb].
    rewrite Hk. replace (i + 6 + 2 + 4)%nat with (i + 12)%nat by lia. lia.
  - eexists; split; [done|]. destruct (utf8_encode h) as [l|] eqn:El; [|done]. cbn [option_map].
    apply utf8_encode_length in El as [El El0]. split; [lia|]. split; [lia|]. rewrite Hw.
    destruct (Z.eq_dec h 0) as [->|Hne]; [|rewrite (Hh Hne); lia].
    rewrite (El0 eq_refl). destruct (seg_add b (i + 2) 4 e) as (x & Ex & _); [lia|lia|].
    replace (i + 2 + 4)%nat with (i + 6)%nat in Ex by lia. rewrite Ex.
    pose proof (weight_app_ge x (seg b (i + 6) e)). lia.
Qed.

Lemma append_ok cap output l :
  (List.length output + List.length l <= cap)%nat -> append cap output l = Ok (output ++ l).
Proof. intros H. unfold append. by destruct (Nat.leb_spec (List.length output + List.length l) cap); [|lia]. Qed.

(** The second loop stays inside the allocated output. *)
Lemma unescape_ok b cap fuel : forall i e out,
  terminated b -> (e + 1 < blength b)%nat -> (i <= e + 1 < i + fuel)%nat ->
  (List.length out + weight (seg b i e) + 1 <= cap)%nat ->
  exists r j, unescape b cap fuel i e out = Ok (r, j) /\
    match r with None => True | Some l => (List.length l + 1 <= cap)%nat end.
Proof.
  induction fuel as [|f IH]; intros i e out Ht He Hf Hcap; [lia|]. cbn [unescape].
  destruct (Nat.ltb_spec i e) as [Hi|]; [|eexists _, _; split; [done|]; cbn; lia].
  destruct (read_ok b i Ht ltac:(lia)) as (c & -> & Hc). cbn [obind].
  rewrite (seg_cons b i e c Hi Hc) in Hcap.
  destruct (Z.eqb_spec c 92) as [->|Hne]; cbn [negb].
  2:{ cbn [weight] in Hcap. destruct (Z.eqb_spec c 92); [done|].
      rewrite append_ok by (simpl; lia). cbn [obind]. apply IH; [done|done|lia|].
      rewrite length_app. simpl. lia. }
  destruct (Nat.ltb_spec (e - i) 1); [lia|].
  destruct (read_ok b (i + 1) Ht ltac:(lia)) as (d & -> & Hd). cbn [obind].
  destruct (simple_escape d) as [x|] eqn:Es.
  - assert (Hw : (1 + weight (seg b (i + 2) e) <= weight (92%Z :: seg b (i + 1) e))%nat).
    { cbn [weight Z.eqb Pos.eqb]. destruct (decide (i + 1 < e)%nat).
      - rewrite (seg_cons b (i + 1) e d) by done. by replace (i + 1 + 1)%nat with (i + 2)%nat by lia.
      - by rewrite !seg_nil by lia. }
    rewrite append_ok by (simpl; lia). cbn [obind]. apply IH; [done|done|lia|].
    rewrite length_app. simpl. lia.
  - destruct (Z.eqb_spec d 117) as [->|]; [|by eexists _, _].
    destruct (utf16_ok b i e Ht Hi He Hc Hd) as (r & -> & Hr). cbn [obind].
    destruct r as [[l n]|]; [|by eexists _, _]. destruct Hr as (Hn & Hie & Hw).
    rewrite (seg_cons b i e 92 Hi Hc) in Hw. rewrite append_ok by lia. cbn [obind].
    apply IH; [done|done|lia|]. rewrite length_app. lia.
Qed.

Section Safe.
Variable allocate : nat -> nat -> bool.

Lemma parse_string_ok item b : terminated b -> inside b -> parses b (parse_string allocate item b).
Proof.
  intros Ht Hin. unfold parse_string, current. unfold inside in Hin.
  destruct (read_ok b (boffset b) Ht Hin) as (c & -> & Hc). cbn [obind].
  destruct (Z.eqb_spec c 34) as [->|]; [|by apply parses_false]. cbn [negb].
  destruct (find_string_end_ok b (S (blength b)) (boffset b + 1) 0 Ht) as (r & -> & Hr); [lia|lia|].
  cbn [obind]. destruct r as [[e sk]|]; [|by apply parses_false]. destruct Hr as (H1 & H2 & H3 & H4 & _).
  destruct (allocate _ _); cbn [negb]; [|by apply parses_false].
  set (cap := (e - boffset b - sk + 1)%nat).
  destruct (unescape_ok (count_alloc b) cap (S (blength b)) (boffset b + 1) e []) as (r & j & Eu & Hu);
    [done|done|lia|change (seg (count_alloc b) (boffset b + 1) e) with (seg b (boffset b + 1) e);
                   unfold cap; simpl; lia|].
  cbn [blength count_alloc] in *. rewrite Eu. cbn [obind]. destruct r as [out|]; [|by apply parses_false].
  rewrite append_ok by (simpl; lia). cbn [obind].
  eexists _, _, _. split; [done|]. split; [done|]. intros _. unfold inside. cbn. split; [lia|]. split; [lia|done].
Qed.

(** The loops, over a parser that is total on the inputs they give it. *)
Section Loops.
Variable pv : cJSON -> parse_buffer -> outcome (bool * cJSON * parse_buffer).
Variable fuel0 : nat.
Hypothesis pv_ok : forall item b,
  terminated b -> inside b -> (blength b <= boffset b + fuel0)%nat -> parses b (pv item b).

(** The result of a loop that starts in front of an element. *)
Definition loops (b : parse_buffer) (m : outcome (option (list cJSON) * parse_buffer)) : Prop :=
  exists r b', m = Ok (r, b') /\ same_input b b' /\
    (r <> None -> (boffset b < boffset b')%nat /\ inside b' /\ bdepth b' = bdepth b).

Lemma loops_none b b' : same_input b b' -> loops b (Ok (None, b')).
Proof. intros H. by exists None, b'. Qed.

Lemma parse_array_loop_ok fuel : forall head b,
  terminated b -> (boffset b + 1 < blength b)%nat -> (blength b <= boffset b + 1 + fuel)%nat ->
  (blength b <= boffset b + 1 + fuel0)%nat ->
  loops b (parse_array_loop allocate pv fuel head b).
Proof.
  induction fuel as [|f IH]; intros head b Ht Hin Hf Hf0; [lia|]. cbn [parse_array_loop].
  unfold new_item. destruct (allocate _ _); [|by apply loops_none].
  destruct (skip_ok (set_boffset (boffset (count_alloc b) + 1) (count_alloc b)))
    as (b1 & -> & Hs1 & Hd1 & Ho1 & Hin1); [done|unfold inside; cbn; lia|]. cbn [obind].
  cbn in Hd1, Ho1. assert (Hs : same_input b b1) by by eapply same_input_trans; [|exact Hs1].
  destruct (pv_ok cJSON_New_Item b1) as (ok & item & b2 & -> & Hs2 & H2);
    [eauto|done|destruct Hs as [_ ->]; lia|].
  cbn [obind]. destruct ok; [|apply loops_none; eauto]. destruct (H2 eq_refl) as (Ho2 & Hin2 & Hd2).
  destruct (skip_ok b2) as (b3 & -> & Hs3 & Hd3 & Ho3 & Hin3); [eauto|done|]. cbn [obind].
  assert (Hs' : same_input b b3) by eauto. assert (Ht3 : terminated b3) by eauto.
  destruct (at_char_ok b3 44 Ht3) as (more & -> & Hmore). cbn [obind]. destruct more.
  2:{ eexists _, _; split; [done|]. split; [done|]. intros _. split; [lia|]. split; [done|congruence]. }
  pose proof (nonzero_not_last b3 _ 44 Ht3 (Hmore eq_refl) ltac:(done)).
  assert (El : blength b3 = blength b) by apply Hs'.
  destruct (IH (head ++ [item]) b3) as (r & b4 & -> & Hs4 & H4); [done|lia|lia|lia|].
  eexists _, _; split; [done|]. split; [eauto|]. intros Hr. destruct (H4 Hr) as (? & ? & ?).
  split; [lia|]. split; [done|congruence].
Qed.

Lemma parse_member_ok item b :
  terminated b -> (boffset b + 1 < blength b)%nat -> (blength b <= boffset b + 1 + fuel0)%nat ->
  parses b (parse_member allocate pv item b).
Proof.
  intros Ht Hin Hf0. unfold parse_member.
  destruct (skip_ok (set_boffset (boffset b + 1) b)) as (b1 & -> & Hs1 & Hd1 & Ho1 & Hin1);
    [done|unfold inside; cbn; lia|]. cbn [obind]. cbn in Hd1, Ho1.
  assert (Hs : same_input b b1) by by eapply same_input_trans; [|exact Hs1].
  destruct (parse_string_ok item b1) as (ok & item2 & b2 & -> & Hs2 & H2); [eauto|done|]. cbn [obind].
  destruct ok; [|apply parses_false; eauto]. destruct (H2 eq_refl) as (Ho2 & Hin2 & Hd2).
  destruct (skip_ok b2) as (b3 & -> & Hs3 & Hd3 & Ho3 & Hin3); [eauto|done|]. cbn [obind].
  assert (Hs' : same_input b b3) by eauto. assert (Ht3 : terminated b3) by eauto.
  destruct (at_char_ok b3 58 Ht3) as (colon & -> & Hcolon). cbn [obind].
  destruct colon; cbn [negb]; [|by apply parses_false].
  destruct (step_skip_ok b3 58 Ht3 (Hcolon eq_refl) ltac:(done)) as (b4 & -> & Hs4 & Hd4 & Ho4 & Hin4).
  cbn [obind]. assert (Hs'' : same_input b b4) by eauto.
  assert (El : blength b4 = blength b) by apply Hs''.
  edestruct (pv_ok) as (ok & item5 & b5 & -> & Hs5 & H5); [| |lia|]; [eauto|done|].
  eexists _, _, _; split; [done|]. split; [eauto|]. intros ->. destruct (H5 eq_refl) as (? & ? & ?).
  split; [lia|]. split; [done|congruence].
Qed.

Lemma parse_object_loop_ok fuel : forall head b,
  terminated b -> (boffset b + 1 < blength b)%nat -> (blength b <= boffset b + 1 + fuel)%nat ->
  (blength b <= boffset b + 1 + fuel0)%nat ->
  loops b (parse_object_loop allocate pv fuel head b).
Proof.
  induction fuel as [|f IH]; intros head b Ht Hin Hf Hf0; [lia|]. cbn [parse_object_loop].
  unfold new_item. destruct (allocate _ _); [|by apply loops_none].
  destruct (parse_member_ok cJSON_New_Item (count_alloc b)) as (ok & item & b2 & -> & Hs2 & H2); [done..|].
  cbn [obind]. destruct ok; [|apply loops_none; eauto]. destruct (H2 eq_refl) as (Ho2 & Hin2 & Hd2).
  cbn in Ho2, Hd2. assert (Hs : same_input b b2) by by eapply same_input_trans; [|exact Hs2].
  destruct (skip_ok b2) as (b3 & -> & Hs3 & Hd3 & Ho3 & Hin3); [eauto|done|]. cbn [obind].
  assert (Hs' : same_input b b3) by eauto. assert (Ht3 : terminated b3) by eauto.
  destruct (at_char_ok b3 44 Ht3) as (more & -> & Hmore). cbn [obind]. destruct more.
  2:{ eexists _, _; split; [done|]. split; [done|]. intros _. split; [lia|]. split; [done|congruence]. }
  pose proof (nonzero_not_last b3 _ 44 Ht3 (Hmore eq_refl) ltac:(done)).
  assert (El : blength b3 = blength b) by apply Hs'.
  destruct (IH (head ++ [item]) b3) as (r & b4 & -> & Hs4 & H4); [done|lia|lia|lia|].
  eexists _, _; split; [done|]. split; [eauto|]. intros Hr. destruct (H4 Hr) as (? & ? & ?).
  split; [lia|]. split; [done|congruence].
Qed.

(** The common end of parse_array and parse_object: the loop, then the
    closing character [close]. *)
Lemma close_ok b0 b m item t close :
  same_input b0 b -> terminated b -> close <> 0 -> (boffset b0 <= boffset b)%nat ->
  bdepth b = (bdepth b0 + 1)%nat -> loops b m ->
  parses b0 (let! r := m in
    match r with
    | (None, b) => Ok (false, item, b)
    | (Some head, b) =>
        let! closed := at_char b close in
        if negb closed then Ok (false, item, b)
        else Ok (true, set_child head (set_type t item),
                 set_boffset (boffset b + 1) (set_bdepth (bdepth b - 1) b))
    end).
Proof.
  intros Hs Ht Hc Ho Hd (r & b' & -> & Hs' & H). cbn [obind].
  destruct r as [head|]; [|apply parses_false; eauto].
  destruct (H ltac:(done)) as (Ho' & Hin' & Hd'). assert (Ht' : terminated b') by eauto.
  destruct (at_char_ok b' close Ht') as (closed & -> & Hcl). cbn [obind].
  destruct closed; cbn [negb]; [|apply parses_false; eauto].
  pose proof (nonzero_not_last b' _ close Ht' (Hcl eq_refl) Hc).
  eexists _, _, _; split; [done|]. split; [by eapply same_input_trans; [exact Hs|exact Hs']|].
  intros _. unfold inside. cbn. split; [lia|]. split; [lia|lia].
Qed.

Lemma parse_array_ok item b :
  terminated b -> inside b -> (blength b <= boffset b + 1 + fuel0)%nat ->
  parses b (parse_array allocate pv fuel0 item b).
Proof.
  intros Ht Hin Hf. unfold parse_array. destruct (_ <=? _)%nat; [by apply parses_false|].
  set (b1 := set_bdepth (bdepth b + 1) b). unfold current.
  destruct (read_ok b1 (boffset b1) Ht Hin) as (c & -> & Hc). cbn [obind].
  destruct (Z.eqb_spec c 91) as [->|]; cbn [negb]; [|by apply parses_false].
  destruct (step_skip_ok b1 91 Ht Hc ltac:(done)) as (b2 & -> & Hs2 & Hd2 & Ho2 & Hin2). cbn [obind].
  cbn in Ho2, Hd2. assert (Hs : same_input b b2) by by eapply same_input_trans; [|exact Hs2].
  assert (Ht2 : terminated b2) by eauto.
  destruct (at_char_ok b2 93 Ht2) as (empty & -> & He). cbn [obind]. destruct empty.
  { pose proof (nonzero_not_last b2 _ 93 Ht2 (He eq_refl) ltac:(done)).
    eexists _, _, _; split; [done|]. split; [done|]. intros _. unfold inside. cbn. split; [lia|]. split; [lia|lia]. }
  unfold can_access_at_index. unfold inside in Hin2. rewrite Nat.add_0_r.
  destruct (Nat.ltb_spec (boffset b2) (blength b2)); [|lia]. cbn [negb].
  assert (El : blength b2 = blength b) by apply Hs.
  apply (close_ok b (set_boffset (boffset b2 - 1) b2)); [done|done|done|cbn; lia|done|].
  apply parse_array_loop_ok; [done|cbn; lia|cbn; lia|cbn; lia].
Qed.

Lemma parse_object_ok item b :
  terminated b -> (blength b <= boffset b + 1 + fuel0)%nat ->
  parses b (parse_object allocate pv fuel0 item b).
Proof.
  intros Ht Hf. unfold parse_object. destruct (_ <=? _)%nat; [by apply parses_false|].
  set (b1 := set_bdepth (bdepth b + 1) b).
  destruct (at_char_ok b1 123 Ht) as (open & -> & Hc). cbn [obind].
  destruct open; cbn [negb]; [|by apply parses_false].
  destruct (step_skip_ok b1 123 Ht (Hc eq_refl) ltac:(done)) as (b2 & -> & Hs2 & Hd2 & Ho2 & Hin2). cbn [obind].
  cbn in Ho2, Hd2. assert (Hs : same_input b b2) by by eapply same_input_trans; [|exact Hs2].
  assert (Ht2 : terminated b2) by eauto.
  destruct (at_char_ok b2 125 Ht2) as (empty & -> & He). cbn [obind]. destruct empty.
  { pose proof (nonzero_not_last b2 _ 125 Ht2 (He eq_refl) ltac:(done)).
    eexists _, _, _; split; [done|]. split; [done|]. intros _. unfold inside. cbn. split; [lia|]. split; [lia|lia]. }
  unfold can_access_at_index. unfold inside in Hin2. rewrite Nat.add_0_r.
  destruct (Nat.ltb_spec (boffset b2) (blength b2)); [|lia]. cbn [negb].
  assert (El : blength b2 = blength b) by apply Hs.
  apply (close_ok b (set_boffset (boffset b2 - 1) b2)); [done|done|done|cbn; lia|done|].
  apply parse_object_loop_ok; [done|cbn; lia|cbn; lia|cbn; lia].
Qed.
End Loops.

(** A literal of the input is followed by another byte. *)
Lemma at_literal_ok b l :
  terminated b -> nonzero l -> at_literal b l = true -> l <> [] ->
  (boffset b + List.length l < blength b)%nat.
Proof.
  intros Ht Hnz [Hr Hl]%andb_prop Hne. apply bool_decide_eq_true in Hl. apply Nat.leb_le in Hr.
  destruct (decide (boffset b + List.length l < blength b)%nat); [done|].
  assert (Hlast : content b !! (blength b - 1)%nat = Some 0).
  { destruct Ht as (s & E & _ & ->). rewrite E, Nat.add_sub. by apply list_lookup_middle. }
  assert (Hin : take (List.length l) (drop (boffset b) (content b)) !! (List.length l - 1)%nat = Some 0).
  { destruct l as [|x l]; [done|].
    rewrite lookup_take_lt, lookup_drop by (simpl; lia). rewrite <- Hlast. f_equal. simpl in *. lia. }
  rewrite Hl in Hin. by apply (Forall_lookup_1 _ _ _ _ Hnz) in Hin.
Qed.

(** parse_value is total: the fuel it needs is the number of bytes left. *)
Lemma parse_value_ok fuel : forall item b,
  terminated b -> inside b -> (blength b <= boffset b + fuel)%nat ->
  parses b (parse_value allocate fuel item b).
Proof.
  induction fuel as [|f IH]; intros item b Ht Hin Hf; [unfold inside in Hin; lia|]. cbn [parse_value].
  assert (Hlit : forall l it n, at_literal b l = true -> nonzero l -> l <> [] -> List.length l = n ->
    parses b (Ok (true, it, set_boffset (boffset b + n) b))).
  { intros l it n Hl Hnz Hne <-. pose proof (at_literal_ok b l Ht Hnz Hl Hne).
    eexists _, _, _; split; [done|]. split; [done|]. intros _. unfold inside. cbn.
    destruct l; [done|]. simpl in *. split; [lia|]. split; [lia|done]. }
  destruct (at_literal b (bytes_of "null")) eqn:E1; [eapply Hlit; [exact E1|by repeat constructor|done|done]|].
  destruct (at_literal b (bytes_of "false")) eqn:E2; [eapply Hlit; [exact E2|by repeat constructor|done|done]|].
  destruct (at_literal b (bytes_of "true")) eqn:E3; [eapply Hlit; [exact E3|by repeat constructor|done|done]|].
  clear Hlit. destruct (can_access_at_index b 0); [|by apply parses_false]. unfold current.
  destruct (read_ok b (boffset b) Ht Hin) as (c & -> & Hc). cbn [obind].
  destruct (c =? 34); [by apply parse_string_ok|].
  destruct (_ || _); [by apply parse_number_ok|].
  destruct (c =? 91); [apply parse_array_ok; [intros; by apply IH|done|done|lia]|].
  destruct (c =? 123); [apply parse_object_ok; [intros; by apply IH|done|lia]|].
  by apply parses_false.
Qed.

(** C19: Parsing is total and memory safe: on every C string, for every pattern
    of allocation failures, with or without the check for trailing text,
    cJSON_ParseWithOpts returns (the fuel is enough); it never reads a byte
    outside the input and never writes outside the buffers it allocates for
    strings, whatever escapes the input holds; and the position it reports,
    as the end of the value or of the error, lies inside the input. *)
Theorem cJSON_ParseWithOpts_safe value return_end require_null :
  exists r, cJSON_ParseWithOpts allocate (parse_fuel (Some value)) (Some value) return_end require_null = Ok r /\
    from_option (fun n => n <= List.length (cstr_of value))%nat True (parse_end r) /\
    from_option (fun n => n <= List.length (cstr_of value))%nat True (error_position r).
Proof.
  unfold cJSON_ParseWithOpts. set (s := cstr_of value).
  set (b0 := mkparse_buffer (s ++ [0]) (List.length s + 1) 0 0 0).
  assert (Ht0 : terminated b0) by (exists s; repeat split; apply cstr_of_nz).
  assert (Hfuel : (blength b0 <= parse_fuel (Some value))%nat).
  { cbn. assert (Hle : forall l, (List.length (cstr_of l) <= List.length l)%nat).
    { induction l as [|c l IH]; simpl; [done|]. destruct (c =? 0); simpl; lia. }
    pose proof (Hle value). unfold s. lia. }
  assert (Hfail : forall b, same_input b0 b -> exists r, Ok (parse_fail return_end b) = Ok r /\
    from_option (fun n => n <= List.length s)%nat True (parse_end r) /\
    from_option (fun n => n <= List.length s)%nat True (error_position r)).
  { intros b [_ El]. unfold parse_fail. rewrite El. cbn [blength b0].
    eexists; split; [done|]. destruct (Nat.ltb_spec (boffset b) (List.length s + 1)),
      (Nat.ltb_spec 0 (List.length s + 1)), return_end; simpl; lia. }
  assert (Hsucc : forall it b, same_input b0 b -> inside b -> exists r,
    Ok (mkparse_result (Some it) (if return_end then Some (boffset b) else None) None) = Ok r /\
    from_option (fun n => n <= List.length s)%nat True (parse_end r) /\
    from_option (fun n => n <= List.length s)%nat True (error_position r)).
  { intros it b [_ El] Hin. unfold inside in Hin. rewrite El in Hin. cbn in Hin.
    eexists; split; [done|]. destruct return_end; simpl; lia. }
  unfold new_item. destruct (allocate _ _); [|by apply Hfail].
  destruct (skip_ok (count_alloc b0)) as (b1 & -> & Hs1 & _ & Ho1 & Hin1);
    [done|unfold inside; cbn; lia|]. cbn [obind].
  assert (Hs : same_input b0 b1) by exact Hs1. assert (El : blength b1 = blength b0) by apply Hs.
  destruct (parse_value_ok (parse_fuel (Some value)) cJSON_New_Item b1) as (ok & it & b2 & -> & Hs2 & H2);
    [eauto|done|lia|]. cbn [obind].
  assert (Hs' : same_input b0 b2) by eauto. destruct ok; [|by apply Hfail].
  destruct (H2 eq_refl) as (_ & Hin2 & _). destruct require_null; [|by apply Hsucc].
  destruct (skip_ok b2) as (b3 & -> & Hs3 & _ & _ & Hin3); [eauto|done|]. cbn [obind].
  assert (Hs'' : same_input b0 b3) by eauto.
  destruct (Nat.leb_spec (blength b3) (boffset b3)); [by apply Hfail|]. unfold current.
  destruct (read_ok b3 (boffset b3)) as (c & -> & _); [eauto|done|]. cbn [obind].
  destruct (negb (c =? 0)); [by apply Hfail|by apply Hsucc].
Qed.

End Safe.
