(* ===== verification/CjsonRoundtrip.v ===== *)
(** * Parsing what was printed

    The text print_value writes for an item, formatted or not, is parsed back
    by parse_value to the same item ([norm]: the same type, value and children,
    without the flags and fields the text does not carry). *)

From Stdlib Require Import SpecFloat.
From Stdlib Require Import String.
From S2P Require Import Prelude.
From S2P Require Import Cdouble.
From S2P Require Import CdoubleFacts.
From S2P Require Import CdoubleText.
From S2P Require Import CjsonData.
From S2P Require Import CjsonPrint.
From S2P Require Import CjsonPrintSpec.
From S2P Require Import CjsonPrintProof.
From S2P Require Import CjsonPrintThms.
From S2P Require Import CjsonParse.
From S2P Require Import CjsonParseSafe.
From stdpp Require Import base numbers gmap list.

Open Scope Z_scope.
Open Scope c_scope.

(** ** The item a text carries *)

Definition str_of (s : option bytes) : bytes := from_option cstr_of [] s.

Fixpoint norm (key : option bytes) (j : cJSON) : cJSON :=
  let t := base_type j in
  mkcJSON t
    (if t =? cJSON_String then Some (str_of (valuestring j)) else None)
    (if t =? cJSON_Number then saturate (valuedouble j) else if t =? cJSON_True then 1 else 0)
    (if t =? cJSON_Number then valuedouble j else d0)
    key
    (if t =? cJSON_Array then map (norm None) (child j)
     else if t =? cJSON_Object then map (fun x => norm (Some (str_of (string x))) x) (child j)
     else []).

(** Numbers whose text is a JSON number that strtod reads back exactly. *)
Definition number_ok (d : double) : bool :=
  let t := number_text d in
  forallb is_number_char t && (List.length t <=? 63)%nat
  && match t with c :: _ => (c =? c_minus) || is_digit c | [] => false end
  && bool_decide (strtod t = Some (d, [])).

Definition json_type (t : Z) : bool :=
  (t =? cJSON_NULL) || (t =? cJSON_False) || (t =? cJSON_True) || (t =? cJSON_Number)
  || (t =? cJSON_String) || (t =? cJSON_Array) || (t =? cJSON_Object).

(** Items with a JSON text: no invalid or raw item, and such numbers. *)
Fixpoint portable (j : cJSON) : bool :=
  json_type (base_type j)
  && (if base_type j =? cJSON_Number then number_ok (valuedouble j) else true)
  && forallb portable (child j).

(** ** The rest of the input *)

(** The input from index [i] on is [l]. *)
Definition from (b : parse_buffer) (i : nat) (l : bytes) : Prop :=
  drop i (content b) = l /\ blength b = List.length (content b).

Definition ahead (b : parse_buffer) (l : bytes) : Prop := from b (boffset b) l.

(** [b'] is [b] after [n] bytes. *)
Definition moved (b : parse_buffer) (n : nat) (b' : parse_buffer) : Prop :=
  same_input b b' /\ boffset b' = (boffset b + n)%nat /\ bdepth b' = bdepth b.

Lemma from_cons b i c l : from b i (c :: l) ->
  read b i = Ok c /\ (i < blength b)%nat /\ from b (S i) l.
Proof.
  intros [E El]. unfold read. rewrite El.
  assert (Hc : content b !! i = Some c).
  { rewrite <- (Nat.add_0_r i), <- lookup_drop, E. done. }
  rewrite Hc. split; [done|]. split; [by eapply lookup_lt_Some|]. split; [|done].
  rewrite (drop_S _ _ _ Hc) in E. by injection E.
Qed.

Lemma from_app b i x l : from b i (x ++ l) -> from b (i + List.length x) l.
Proof.
  revert i. induction x as [|c x IH]; intros i H; simpl; [by rewrite Nat.add_0_r|].
  apply from_cons in H as (_ & _ & H). replace (i + S (List.length x))%nat with (S i + List.length x)%nat by lia.
  by apply IH.
Qed.

Lemma from_nonempty b i l : from b i l -> l <> [] -> (i < blength b)%nat.
Proof. destruct l; [done|]. intros H _. by apply from_cons in H as (_ & H & _). Qed.

Lemma from_bound b i l : from b i l -> (i <= blength b)%nat -> (i + List.length l = blength b)%nat.
Proof. intros [<- ->] Hi. rewrite length_drop. lia. Qed.

Lemma from_same b b' i l : same_input b b' -> from b i l -> from b' i l.
Proof. intros [E1 E2] [H1 H2]. split; by rewrite ?E1, ?E2. Qed.

Lemma ahead_moved b b' x l : ahead b (x ++ l) -> moved b (List.length x) b' -> ahead b' l.
Proof.
  intros H (Hs & Ho & _). unfold ahead. rewrite Ho. eapply from_same; [done|]. by apply from_app.
Qed.

Lemma moved_refl b : moved b 0 b.
Proof. split; [done|]. split; [lia|done]. Qed.

Lemma moved_trans b n b' m b'' : moved b n b' -> moved b' m b'' -> moved b (n + m) b''.
Proof.
  intros (H1 & H2 & H3) (H4 & H5 & H6). split; [by eapply same_input_trans|]. split; [lia|congruence].
Qed.

Lemma moved_set b n : moved b n (set_boffset (boffset b + n) b).
Proof. done. Qed.

Lemma at_char_ahead b x l c : ahead b (x :: l) -> at_char b c = Ok (x =? c).
Proof.
  intros H. apply from_cons in H as (E & Hlt & _). unfold at_char, can_access_at_index, current.
  rewrite Nat.add_0_r, E. destruct (Nat.ltb_spec (boffset b) (blength b)); [done|lia].
Qed.

Lemma set_boffset_id b : set_boffset (boffset b) b = b.
Proof. by destruct b. Qed.

Definition blank (l : bytes) : Prop := Forall (fun c => c <= 32) l.

Lemma skip_loop_ahead ws : forall b c l fuel,
  blank ws -> 32 < c -> ahead b (ws ++ c :: l) -> (List.length ws <= fuel)%nat ->
  skip_loop b fuel = Ok (set_boffset (boffset b + List.length ws) b).
Proof.
  induction ws as [|w ws IH]; intros b c l fuel Hw Hc H Hf.
  - cbn [List.length]. rewrite Nat.add_0_r, set_boffset_id. destruct fuel as [|f]; [done|].
    apply from_cons in H as (E & Hlt & _). cbn [skip_loop]. unfold can_access_at_index, current.
    rewrite Nat.add_0_r, E. destruct (Nat.ltb_spec (boffset b) (blength b)); [|lia]. cbn [obind].
    destruct (Z.leb_spec c 32); [lia|done].
  - destruct fuel as [|f]; [simpl in Hf; lia|]. cbn [skip_loop app] in *. inversion Hw; subst.
    pose proof (from_cons _ _ _ _ H) as (E & Hlt & H'). unfold can_access_at_index, current.
    rewrite Nat.add_0_r, E. destruct (Nat.ltb_spec (boffset b) (blength b)); [|lia]. cbn [obind].
    destruct (Z.leb_spec w 32); [|lia].
    rewrite (IH _ c l); [|done|done| |simpl in Hf; lia].
    + unfold set_boffset. cbn [content blength boffset bdepth ballocs List.length].
      replace (boffset b + 1 + List.length ws)%nat with (boffset b + S (List.length ws))%nat by lia. done.
    + unfold ahead. cbn. rewrite Nat.add_1_r. by apply H'.
Qed.

Lemma skip_ahead ws b c l :
  blank ws -> 32 < c -> ahead b (ws ++ c :: l) ->
  exists b', buffer_skip_whitespace b = Ok b' /\ moved b (List.length ws) b' /\ ahead b' (c :: l).
Proof.
  intros Hw Hc H. unfold buffer_skip_whitespace.
  assert (Hlt : (boffset b + List.length ws < blength b)%nat).
  { apply from_app in H. apply from_cons in H as (_ & H & _). done. }
  rewrite (skip_loop_ahead ws b c l) by (done || lia). cbn [obind boffset blength set_boffset].
  destruct (Nat.eqb_spec (boffset b + List.length ws) (blength b)); [lia|].
  eexists; split; [done|]. split; [done|]. by eapply ahead_moved.
Qed.

(** ** Strings *)

(** The escapes of a text. *)
Definition escapes (c : Z) : nat := if (31 <? c) && negb (c =? 34) && negb (c =? 92) then 0 else 1.

Lemma find_plain b l : forall fuel i sk r,
  Forall (fun c => c <> 34 /\ c <> 92) l -> from b i (l ++ r) ->
  find_string_end b (List.length l + fuel) i sk = find_string_end b fuel (i + List.length l) sk.
Proof.
  induction l as [|c l IH]; intros fuel i sk r Hl H; simpl; [by rewrite Nat.add_0_r|].
  inversion Hl as [|? ? [H1 H2] H3]; subst. apply from_cons in H as (E & Hlt & H).
  destruct (Nat.ltb_spec i (blength b)); [|lia]. rewrite E. cbn [obind].
  destruct (Z.eqb_spec c 34); [done|]. destruct (Z.eqb_spec c 92); [done|].
  rewrite Nat.add_1_r. rewrite (IH _ _ _ _ H3 H). f_equal. lia.
Qed.

Lemma find_escape b fuel i sk e r :
  from b i (92 :: e :: r) -> r <> [] ->
  find_string_end b (S fuel) i sk = find_string_end b fuel (i + 2) (S sk).
Proof.
  intros H Hr. apply from_cons in H as (E & Hlt & H). apply from_cons in H as (E' & Hlt' & H').
  cbn [find_string_end]. destruct (Nat.ltb_spec i (blength b)); [|lia]. rewrite E. cbn [obind Z.eqb Pos.eqb].
  destruct (Nat.leb_spec (blength b) (i + 1)); [lia|]. done.
Qed.

Lemma hex_digit_plain n : 0 <= n < 16 -> hex_digit n <> 34 /\ hex_digit n <> 92.
Proof. intros H. unfold hex_digit. destruct (Z.ltb_spec n 10); lia. Qed.

Lemma escape_char_cases c : 0 < c ->
  (escape_char c = [c] /\ escapes c = 0%nat /\ c <> 34 /\ c <> 92) \/
  (exists e, escape_char c = [92; e] /\ escapes c = 1%nat /\ simple_escape e = Some c) \/
  (escape_char c = 92 :: unicode_escape c /\ escapes c = 1%nat /\ c < 32).
Proof.
  intros Hc. unfold escape_char, escapes, short_escape.
  destruct (Z.eqb_spec c 92) as [->|H3]; [right; left; by exists 92|].
  destruct (Z.eqb_spec c 34) as [->|H2]; [right; left; by exists 34|].
  destruct (Z.ltb_spec 31 c) as [H1|H1]; [by left|]. right. cbn [andb].
  repeat match goal with |- context [c =? ?y] =>
    destruct (Z.eqb_spec c y) as [->|]; [left; eexists; split; [done|]; split; done|] end.
  right. split; [done|]. split; [done|lia].
Qed.

Lemma find_string s : forall b fuel i sk r,
  Forall (fun c => 0 < c) s -> from b i (escape s ++ 34 :: r) ->
  (List.length (escape s) < fuel)%nat ->
  find_string_end b fuel i sk
    = Ok (Some ((i + List.length (escape s))%nat, (sk + list_sum (map escapes s))%nat)).
Proof.
  induction s as [|c s IH]; intros b fuel i sk r Hs H Hf.
  - destruct fuel as [|f]; [simpl in Hf; lia|]. apply from_cons in H as (E & Hlt & _).
    cbn [find_string_end]. destruct (Nat.ltb_spec i (blength b)); [|lia]. rewrite E. cbn.
    by rewrite !Nat.add_0_r.
  - inversion Hs as [|? ? Hc Hs']; subst. cbn [escape map concat list_sum foldr] in *.
    change (concat (map escape_char s)) with (escape s) in *. rewrite length_app in *.
    fold (list_sum (map escapes s)). rewrite <- app_assoc in H.
    destruct (escape_char_cases c Hc) as [(E & Ec & Hne)|[(e & E & Ec & Hse)|(E & Ec & Hlt)]];
      rewrite E, Ec in *.
    + replace fuel with (List.length [c] + (fuel - 1))%nat by (simpl in *; lia).
      rewrite (find_plain b [c] _ _ _ _ (List.Forall_cons _ _ _ Hne (List.Forall_nil _)) H).
      rewrite (IH _ _ _ _ r Hs'); [do 3 f_equal; simpl; lia| |simpl in *; lia].
      by apply (from_app b i [c]).
    + replace fuel with (S (fuel - 1)) by (simpl in *; lia).
      rewrite (find_escape b _ i sk e (escape s ++ 34 :: r) H) by by destruct (escape s).
      rewrite (IH _ _ _ _ r Hs'); [do 3 f_equal; simpl; lia| |simpl in *; lia].
      by apply (from_app b i [92; e]).
    + replace fuel with (S (4 + (fuel - 5))) by (simpl in *; lia).
      rewrite (find_escape b _ i sk 117 _ H) by done.
      pose proof (from_app b i [92; 117] _ H) as H'. simpl in H'.
      set (hx := [48; 48; hex_digit (c / 16); hex_digit (c mod 16)]).
      rewrite (find_plain b hx _ _ _ (escape s ++ 34 :: r)); [| |exact H'].
      2:{ unfold hx. constructor; [done|]. constructor; [done|].
          constructor; [apply hex_digit_plain; zlia|]. constructor; [apply hex_digit_plain; zlia|constructor]. }
      rewrite (IH _ _ _ _ r Hs'); [do 3 f_equal; simpl; lia| |simpl in *; lia].
      by apply (from_app b (i + 2) hx).
Qed.

Lemma hex_value_digit n : 0 <= n < 16 -> hex_value (hex_digit n) = Some n.
Proof.
  intros H. unfold hex_value, hex_digit. destruct (Z.ltb_spec n 10).
  - destruct (Z.leb_spec 48 (48 + n)), (Z.leb_spec (48 + n) 57); try lia. cbn. f_equal. lia.
  - destruct (Z.leb_spec 48 (97 + (n - 10))), (Z.leb_spec (97 + (n - 10)) 57); try lia. cbn.
    destruct (Z.leb_spec 65 (97 + (n - 10))), (Z.leb_spec (97 + (n - 10)) 70); try lia. cbn.
    destruct (Z.leb_spec 97 (97 + (n - 10))), (Z.leb_spec (97 + (n - 10)) 102); try lia. cbn.
    f_equal. lia.
Qed.

Lemma parse_hex4_unicode b pos c r :
  0 <= c < 256 -> from b pos ([48; 48; hex_digit (c / 16); hex_digit (c mod 16)] ++ r) ->
  parse_hex4 b pos = Ok c.
Proof.
  intros Hc H. unfold parse_hex4.
  apply from_cons in H as (E1 & _ & H). apply from_cons in H as (E2 & _ & H).
  apply from_cons in H as (E3 & _ & H). apply from_cons in H as (E4 & _ & _).
  cbn [parse_hex4_loop]. rewrite E1. cbn [obind]. change (hex_value 48) with (Some 0). cbn iota.
  rewrite E2. cbn [obind]. change (hex_value 48) with (Some 0). cbn iota.
  rewrite E3. cbn [obind]. rewrite hex_value_digit by zlia.
  rewrite E4. cbn [obind]. rewrite hex_value_digit by zlia.
  f_equal. rewrite !Z.shiftl_mul_pow2 by lia. zlia.
Qed.

Lemma unescape_string s : forall b cap fuel i out r,
  Forall (fun c => 0 < c) s -> from b i (escape s ++ 34 :: r) ->
  (List.length (escape s) < fuel)%nat -> (List.length out + List.length s + 1 <= cap)%nat ->
  unescape b cap fuel i (i + List.length (escape s)) out
    = Ok (Some (out ++ s), (i + List.length (escape s))%nat).
Proof.
  induction s as [|c s IH]; intros b cap fuel i out r Hs H Hf Hcap.
  { destruct fuel as [|f]; [simpl in Hf; lia|]. cbn [unescape escape map concat List.length].
    rewrite Nat.add_0_r, Nat.ltb_irrefl, app_nil_r. done. }
  inversion Hs as [|? ? Hc Hs']; subst. cbn [escape map concat] in *.
  change (concat (map escape_char s)) with (escape s) in *. rewrite length_app in *.
  rewrite <- app_assoc in H.
  destruct fuel as [|f]; [lia|]. cbn [unescape].
  assert (Hgo : forall x l n, l = escape_char c -> n = List.length l ->
    (0 < n)%nat -> x = c ->
    unescape b cap f (i + n) (i + (List.length l + List.length (escape s))) (out ++ [x])
      = Ok (Some (out ++ c :: s), (i + (List.length l + List.length (escape s)))%nat)).
  { intros x l n -> -> Hn ->. replace (i + (List.length (escape_char c) + List.length (escape s)))%nat
      with (i + List.length (escape_char c) + List.length (escape s))%nat by lia.
    rewrite (IH _ _ _ _ _ r Hs'); [by rewrite <- app_assoc|by apply from_app|lia|].
    rewrite length_app. simpl in *. lia. }
  destruct (escape_char_cases c Hc) as [(E & Ec & Hne)|[(e & E & Ec & Hse)|(E & Ec & Hlt)]]; rewrite E in *.
  - pose proof (from_cons _ _ _ _ H) as (Er & _ & _).
    destruct (Nat.ltb_spec i (i + (List.length [c] + List.length (escape s)))); [|simpl in *; lia].
    rewrite Er. cbn [obind]. destruct (Z.eqb_spec c 92); [lia|]. cbn [negb].
    rewrite append_ok by (simpl in *; lia). cbn [obind]. apply (Hgo c [c] 1%nat); [done|done|lia|done].
  - pose proof (from_cons _ _ _ _ H) as (Er & _ & H'). pose proof (from_cons _ _ _ _ H') as (Er' & _ & _).
    destruct (Nat.ltb_spec i (i + (List.length [92; e] + List.length (escape s)))); [|simpl in *; lia].
    rewrite Er. cbn [obind Z.eqb Pos.eqb negb].
    destruct (Nat.ltb_spec (i + (List.length [92; e] + List.length (escape s)) - i) 1); [simpl in *; lia|].
    rewrite Nat.add_1_r, Er'. cbn [obind]. rewrite Hse, append_ok by (simpl in *; lia). cbn [obind].
    apply (Hgo c [92; e] 2%nat); [done|done|lia|done].
  - pose proof (from_cons _ _ _ _ H) as (Er & _ & H'). pose proof (from_cons _ _ _ _ H') as (Er' & _ & H'').
    set (l := 92 :: unicode_escape c) in *. assert (El : List.length l = 6%nat) by done.
    destruct (Nat.ltb_spec i (i + (List.length l + List.length (escape s)))); [|lia].
    rewrite Er. cbn [obind Z.eqb Pos.eqb negb].
    destruct (Nat.ltb_spec (i + (List.length l + List.length (escape s)) - i) 1); [lia|].
    rewrite Nat.add_1_r, Er'. cbn [obind]. change (simple_escape 117) with (@None Z). cbn [Z.eqb Pos.eqb].
    unfold utf16_literal_to_utf8.
    destruct (Nat.ltb_spec (i + (List.length l + List.length (escape s)) - i) 6); [lia|].
    rewrite (parse_hex4_unicode b (i + 2) c (escape s ++ 34 :: r)); [|lia|].
    2:{ replace (i + 2)%nat with (S (S i)) by lia. exact H''. }
    cbn [obind]. destruct (Z.leb_spec 56320 c); [lia|]. destruct (Z.leb_spec 55296 c); [lia|]. cbn [andb].
    assert (Eu : utf8_encode c = Some [c]).
    { unfold utf8_encode. destruct (Z.ltb_spec c 128); [|lia]. cbn.
      change 127 with (Z.ones 7). rewrite Z.land_ones by lia. by rewrite Z.mod_small by lia. }
    rewrite Eu. cbn [option_map obind]. rewrite append_ok by (simpl in *; lia). cbn [obind].
    apply (Hgo c l 6%nat); [done|done|lia|done].
Qed.

(** The space left over by the escapes. *)
Lemma escape_space s :
  Forall (fun c => 0 < c) s ->
  (List.length s + list_sum (map escapes s) <= List.length (escape s))%nat.
Proof.
  induction 1 as [|c s Hc Hs IH]; [done|].
  cbn [escape map concat list_sum foldr List.length]. change (concat (map escape_char s)) with (escape s).
  fold (list_sum (map escapes s)). rewrite length_app.
  destruct (escape_char_cases c Hc) as [(E & Ec & Hne)|[(e & E & Ec & Hse)|(E & Ec & Hlt)]];
    rewrite E, Ec; simpl; lia.
Qed.

Section Roundtrip.
Variable allocate : nat -> nat -> bool.
Hypothesis alloc_ok : forall n s, allocate n s = true.

Lemma parse_string_ahead item b s r :
  Forall (fun c => 0 < c) s -> ahead b (34 :: escape s ++ 34 :: r) ->
  exists b', parse_string allocate item b
      = Ok (true, set_valuestring (Some s) (set_type cJSON_String item), b') /\
    moved b (List.length (escape s) + 2) b'.
Proof.
  intros Hs H. pose proof (from_cons _ _ _ _ H) as (E & Hlt & H'). unfold parse_string, current.
  rewrite E. cbn [obind Z.eqb Pos.eqb negb]. rewrite Nat.add_1_r.
  assert (Hb : (S (boffset b) + List.length (escape s ++ 34%Z :: r) = blength b)%nat).
  { apply from_bound; [done|lia]. }
  rewrite length_app in Hb. simpl in Hb.
  rewrite (find_string s b _ _ _ r Hs H') by lia. cbn [obind].
  rewrite alloc_ok. cbn [negb blength count_alloc].
  pose proof (escape_space s Hs). rewrite (unescape_string s _ _ _ _ _ r Hs); [| |lia|].
  2:{ by eapply from_same; [|exact H']. }
  2:{ simpl. lia. }
  cbn [obind app]. rewrite append_ok by (simpl; lia). cbn [obind].
  eexists; split; [done|]. split; [done|]. cbn. split; [lia|done].
Qed.

(** ** Numbers *)

Definition stop (r : bytes) : Prop :=
  match r with [] => True | c :: _ => is_number_char c = false end.

Lemma copy_number_ahead l : forall b n i r,
  Forall (fun c => is_number_char c = true) l -> from b (boffset b + i) (l ++ r) -> stop r ->
  (List.length l <= n)%nat -> copy_number b n i = Ok l.
Proof.
  induction l as [|c l IH]; intros b n i r Hl H Hr Hn; destruct n as [|n]; simpl in Hn; try lia; [done|..];
    cbn [copy_number]; unfold can_access_at_index.
  - destruct r as [|c r].
    + destruct H as [E El]. apply (f_equal (@List.length Z)) in E. rewrite length_drop in E. simpl in E.
      destruct (Nat.ltb_spec (boffset b + i) (blength b)); [lia|done].
    + apply from_cons in H as (E & Hlt & _). rewrite E. cbn [obind]. cbn in Hr. rewrite Hr.
      by destruct (boffset b + i <? blength b)%nat.
  - inversion Hl as [|? ? Hc Hl']; subst. apply from_cons in H as (E & Hlt & H).
    destruct (Nat.ltb_spec (boffset b + i) (blength b)); [|lia]. rewrite E. cbn [obind]. rewrite Hc.
    rewrite (IH b n (S i) r Hl'); [done| |done|lia].
    by replace (boffset b + S i)%nat with (S (boffset b + i)) by lia.
Qed.

Lemma parse_number_ahead item b d r :
  number_ok d = true -> ahead b (number_text d ++ r) -> stop r ->
  exists b', parse_number item b
      = Ok (true, set_type cJSON_Number (set_valueint (saturate d) (set_valuedouble d item)), b') /\
    moved b (List.length (number_text d)) b'.
Proof.
  intros [[[H1 H2]%andb_prop _]%andb_prop H4]%andb_prop H Hr.
  apply Nat.leb_le in H2. apply bool_decide_eq_true in H4. unfold parse_number.
  rewrite (copy_number_ahead (number_text d) b 63 0 r).
  - cbn [obind]. rewrite H4. eexists; split; [done|]. split; [done|]. cbn. split; [lia|done].
  - apply Forall_forall. intros c Hc%list_elem_of_In. rewrite forallb_forall in H1. auto.
  - by rewrite Nat.add_0_r.
  - done.
  - done.
Qed.

(** ** Arrays and objects *)

(** Flatten nested concatenations. *)
Ltac flat H := repeat first [rewrite <- app_assoc in H | progress cbn [app] in H].
Ltac flat_goal := repeat first [rewrite <- app_assoc | progress cbn [app]].

Lemma blank_stop c l : c <= 32 -> stop (c :: l).
Proof.
  intros Hc. unfold stop, is_number_char, is_digit.
  destruct (Z.leb_spec 48 c); [lia|].
  repeat match goal with |- context [c =? ?y] => destruct (Z.eqb_spec c y); [lia|] end. done.
Qed.

(** The first character of a value: no blank and no closing bracket. *)
Definition text_head (t : bytes) : Prop := exists c r, t = c :: r /\ 32 < c /\ c <> 93.

Section Loops.
Variable pv : cJSON -> parse_buffer -> outcome (bool * cJSON * parse_buffer).
Variable fuel0 : nat.
Variable fmt : bool.
Variable dep : nat.

(** [pv] parses the text of [j] into a fresh item that may have a name. *)
Definition parses_back (j : cJSON) : Prop :=
  (forall t, json_text fmt dep j = Some t -> text_head t) /\ opt_bytes (string j) /\
  forall t0 k b t rest,
  json_text fmt dep j = Some t -> ahead b (t ++ rest) -> stop rest ->
  (blength b <= boffset b + fuel0)%nat -> (bdepth b + depth_of j <= CJSON_NESTING_LIMIT)%nat ->
  exists b', pv (mkcJSON t0 None 0 d0 k []) b = Ok (true, norm k j, b') /\
    moved b (List.length t) b'.

(** From in front of an element: the blanks [w], the element, what follows. *)
Lemma element_ahead j t0 k b w t rest :
  parses_back j -> json_text fmt dep j = Some t -> blank w ->
  from b (boffset b + 1) (w ++ t ++ rest) -> stop rest ->
  (blength b <= boffset b + 1 + fuel0)%nat -> (bdepth b + depth_of j <= CJSON_NESTING_LIMIT)%nat ->
  exists b1 b2, buffer_skip_whitespace (set_boffset (boffset b + 1) b) = Ok b1 /\
    pv (mkcJSON t0 None 0 d0 k []) b1 = Ok (true, norm k j, b2) /\
    moved b (1 + List.length w + List.length t) b2 /\ ahead b2 rest.
Proof.
  intros (Hh & _ & Hp) Et Hw H Hr Hf Hd. destruct (Hh t Et) as (c & t' & Ec & Hc & _).
  destruct (skip_ahead w (set_boffset (boffset b + 1) b) c (t' ++ rest)) as (b1 & E1 & M1 & A1);
    [done|done|subst t; exact H|].
  assert (A1' : ahead b1 (t ++ rest)) by by subst t.
  pose proof M1 as ([E3 E4] & E2 & E5). cbn in E2, E3, E4, E5.
  destruct (Hp t0 k b1 t rest Et A1' Hr) as (b2 & Ep & M2); [lia|lia|].
  exists b1, b2. split; [done|]. split; [done|]. split; [|by eapply ahead_moved].
  eapply (moved_trans b 1 (set_boffset (boffset b + 1) b)) in M1; [|apply moved_set].
  pose proof (moved_trans _ _ _ _ _ M1 M2) as M. exact M.
Qed.

Lemma array_loop_ahead l : l <> [] -> Forall parses_back l ->
  forall fuel head b w u rest,
  elements_text (json_text fmt dep) fmt l = Some u -> blank w ->
  from b (boffset b + 1) (w ++ u ++ 93 :: rest) ->
  (blength b <= boffset b + 1 + fuel)%nat -> (blength b <= boffset b + 1 + fuel0)%nat ->
  (bdepth b + list_max (map depth_of l) <= CJSON_NESTING_LIMIT)%nat ->
  exists b', parse_array_loop allocate pv fuel head b = Ok (Some (head ++ map (norm None) l), b') /\
    moved b (1 + List.length w + List.length u) b' /\ ahead b' (93 :: rest).
Proof.
  intros Hne Hl. induction Hl as [|x l Hx Hl IH]; [done|].
  intros fuel head b w u rest Eu Hw H Hf Hf0 Hd. cbn [map list_max foldr] in Hd.
  fold (list_max (map depth_of l)) in Hd.
  assert (Hlt : (boffset b + 1 < blength b)%nat).
  { eapply from_nonempty; [exact H|]. intros E. apply (f_equal (@List.length Z)) in E.
    rewrite !length_app in E. simpl in E. lia. }
  destruct fuel as [|f]; [lia|]. cbn [parse_array_loop]. unfold new_item. rewrite alloc_ok.
  assert (Hone : forall t r, json_text fmt dep x = Some t -> stop r -> from b (boffset b + 1) (w ++ t ++ r) ->
    match r with c :: _ => 32 < c | [] => False end ->
    exists b1 b2 b3, buffer_skip_whitespace (set_boffset (boffset (count_alloc b) + 1) (count_alloc b)) = Ok b1 /\
      pv cJSON_New_Item b1 = Ok (true, norm None x, b2) /\
      buffer_skip_whitespace b2 = Ok b3 /\
      moved b (1 + List.length w + List.length t) b3 /\ ahead b3 r).
  { intros t r Et Hr Hfrom Hc.
    destruct (element_ahead x 0 None (count_alloc b) w t r) as (b1 & b2 & E1 & E2 & M & A);
      [done|done|done|exact Hfrom|done|done|cbn; lia|].
    destruct r as [|c r]; [done|]. destruct (skip_ahead [] b2 c r) as (b3 & E3 & M3 & A3); [constructor|done|done|].
    exists b1, b2, b3. split; [done|]. split; [done|]. split; [done|]. split; [|done].
    pose proof (moved_trans _ _ _ _ _ M M3) as M'. simpl in M'. by rewrite Nat.add_0_r in M'. }
  destruct l as [|y l].
  - destruct (Hone u (93 :: rest) Eu) as (b1 & b2 & b3 & -> & E2 & E3 & M & A); [done|done|done|].
    cbn [obind]. rewrite E2. cbn [obind]. rewrite E3. cbn [obind].
    rewrite (at_char_ahead b3 93 rest 44 A). cbn [obind Z.eqb Pos.eqb].
    eexists; split; [done|]. done.
  - apply elements_inv in Eu as (t & v & Et & Ev & ->).
    destruct (Hone t (44 :: opt fmt [32] ++ v ++ 93 :: rest) Et) as (b1 & b2 & b3 & -> & E2 & E3 & M & A);
      [done|by rewrite <- !app_assoc in H|done|].
    cbn [obind]. rewrite E2. cbn [obind]. rewrite E3. cbn [obind].
    rewrite (at_char_ahead b3 44 _ 44 A). cbn [obind Z.eqb Pos.eqb].
    pose proof M as ([_ El] & Eo & Ed). apply from_cons in A as (_ & _ & A).
    destruct (IH ltac:(done) f (head ++ [norm None x]) b3 (opt fmt [32]) v rest Ev) as (b4 & -> & M4 & A4);
      [destruct fmt; by repeat constructor|by rewrite Nat.add_1_r|lia|lia|lia|].
    exists b4. split; [by rewrite <- app_assoc|]. split; [|done].
    pose proof (moved_trans _ _ _ _ _ M M4) as M'. rewrite !length_app. simpl.
    match goal with |- moved _ ?n _ => match type of M' with moved _ ?m _ => replace n with m by (simpl; lia) end end.
    done.
Qed.

Lemma quoted_str s : quoted s = 34 :: escape (str_of s) ++ [34].
Proof. by destruct s. Qed.

Lemma str_of_pos s : opt_bytes s -> Forall (fun c => 0 < c) (str_of s).
Proof.
  destruct s as [s|]; simpl; [|constructor]. intros Hb%cstr_of_bytes. pose proof (cstr_of_nz s) as Hz.
  induction Hb as [|c l Hc Hl IH]; inversion Hz; subst; constructor; [lia|auto].
Qed.

(** The member [x] with the text [t], up to its separator. *)
Lemma member_ahead x b w t rest :
  parses_back x -> json_text fmt dep x = Some t -> blank w ->
  from b (boffset b + 1) (w ++ quoted (string x) ++ ([58] ++ opt fmt [9]) ++ t ++ rest) -> stop rest ->
  (blength b <= boffset b + 1 + fuel0)%nat -> (bdepth b + depth_of x <= CJSON_NESTING_LIMIT)%nat ->
  exists b', parse_member allocate pv cJSON_New_Item b
      = Ok (true, norm (Some (str_of (string x))) x, b') /\
    moved b (1 + List.length w + List.length (quoted (string x) ++ ([58] ++ opt fmt [9]) ++ t)) b' /\
    ahead b' rest.
Proof.
  intros Hx Et Hw H Hr Hf Hd. unfold parse_member. pose proof Hx as (_ & Hstr & _).
  rewrite quoted_str in H. cbn [app] in H. rewrite <- !app_assoc in H.
  destruct (skip_ahead w (set_boffset (boffset b + 1) b) 34
    (escape (str_of (string x)) ++ [34] ++ 58 :: opt fmt [9] ++ t ++ rest)) as (b1 & -> & M1 & A1);
    [done|done|exact H|]. cbn [obind].
  destruct (parse_string_ahead cJSON_New_Item b1 _ _ (str_of_pos _ Hstr) A1) as (b2 & -> & M2). cbn [obind].
  assert (A2 : ahead b2 (58 :: opt fmt [9] ++ t ++ rest)).
  { eapply (ahead_moved b1 b2 (34 :: escape (str_of (string x)) ++ [34])).
    - simpl. rewrite <- app_assoc. exact A1.
    - simpl. rewrite length_app. simpl.
      by replace (S (List.length (escape (str_of (string x))) + 1))%nat
        with (List.length (escape (str_of (string x))) + 2)%nat by lia. }
  destruct (skip_ahead [] b2 58 (opt fmt [9] ++ t ++ rest)) as (b3 & -> & M3 & A3); [constructor|done|done|].
  cbn [obind]. rewrite (at_char_ahead b3 58 _ 58 A3). cbn [obind Z.eqb Pos.eqb negb].
  pose proof (from_cons _ _ _ _ A3) as (_ & _ & A3').
  pose proof (moved_trans _ _ _ _ _ (moved_trans _ _ _ _ _
    (moved_trans _ _ _ _ _ (moved_set b 1) M1) M2) M3) as M.
  pose proof M as ([_ El] & Eo & Ed).
  destruct (element_ahead x cJSON_String (Some (str_of (string x))) b3 (opt fmt [9]) t rest)
    as (b4 & b5 & -> & E5 & M5 & A5);
    [done|done|destruct fmt; by repeat constructor|by rewrite Nat.add_1_r|done|lia|lia|].
  cbn [obind]. exists b5. split; [exact E5|]. split; [|done].
  pose proof (moved_trans _ _ _ _ _ M M5) as M'. rewrite quoted_str.
  match goal with |- moved _ ?n _ => match type of M' with moved _ ?m _ =>
    replace n with m; [done|] end end.
  do 3 (simpl; rewrite ?length_app). lia.
Qed.

Lemma object_loop_ahead l : Forall parses_back l ->
  forall x t v fuel head b w tail rest,
  parses_back x -> json_text fmt dep x = Some t ->
  members_text (json_text fmt dep) fmt dep l = Some v -> blank w -> blank tail ->
  from b (boffset b + 1) (w ++ member_tail fmt x t l ++ v ++ tail ++ 125 :: rest) ->
  (blength b <= boffset b + 1 + fuel)%nat -> (blength b <= boffset b + 1 + fuel0)%nat ->
  (bdepth b + list_max (map depth_of (x :: l)) <= CJSON_NESTING_LIMIT)%nat ->
  exists b', parse_object_loop allocate pv fuel head b
      = Ok (Some (head ++ map (fun x => norm (Some (str_of (string x))) x) (x :: l)), b') /\
    moved b (1 + List.length w + List.length (member_tail fmt x t l ++ v ++ tail)) b' /\
    ahead b' (125 :: rest).
Proof.
  induction 1 as [|y l Hy Hl IH]; intros x t v fuel head b w tail rest Hx Et Ev Hw Htail H Hf Hf0 Hd;
    cbn [map list_max foldr] in Hd;
    (assert (Hlt : (boffset b + 1 < blength b)%nat) by
      (eapply from_nonempty; [exact H|]; intros E; apply (f_equal (@List.length Z)) in E;
       rewrite !length_app in E; simpl in E; lia));
    (destruct fuel as [|f]; [lia|]); cbn [parse_object_loop]; unfold new_item; rewrite alloc_ok;
    unfold member_tail in H |- *.
  - injection Ev as <-. flat H.
    destruct (member_ahead x (count_alloc b) w t (opt fmt [10] ++ tail ++ 125 :: rest)) as (b1 & -> & M1 & A1);
      [done|done|done|unfold from; cbn; by flat_goal| |done|cbn; lia|].
    { destruct fmt; [done|]. destruct Htail as [|c tl Hc]; [done|]. apply blank_stop. done. }
    cbn [obind].
    destruct (skip_ahead (opt fmt [10] ++ tail) b1 125 rest) as (b2 & -> & M2 & A2);
      [apply Forall_app; split; [destruct fmt; by repeat constructor|done]|done|by rewrite <- app_assoc|].
    cbn [obind]. rewrite (at_char_ahead b2 125 rest 44 A2). cbn [obind Z.eqb Pos.eqb].
    eexists; split; [done|]. split; [|done].
    pose proof (moved_trans _ _ _ _ _ M1 M2) as M'.
    match goal with |- moved _ ?n _ => match type of M' with moved _ ?m _ =>
      replace n with m; [done|] end end.
    do 3 (simpl; rewrite ?length_app). lia.
  - fold (list_max (map depth_of l)) in Hd.
    apply members_inv in Ev as (t' & v' & Et' & Ev' & ->). flat H.
    destruct (member_ahead x (count_alloc b) w t
      (44 :: opt fmt [10] ++ opt fmt (repeat 9 dep) ++ member_tail fmt y t' l ++ v' ++ tail ++ 125 :: rest))
      as (b1 & -> & M1 & A1); [done|done|done|unfold from; cbn; by flat_goal|done|done|cbn; lia|].
    cbn [obind].
    destruct (skip_ahead [] b1 44 _ (List.Forall_nil _) ltac:(done) A1) as (b2 & -> & M2 & A2).
    cbn [obind]. rewrite (at_char_ahead b2 44 _ 44 A2). cbn [obind Z.eqb Pos.eqb].
    pose proof (moved_trans _ _ _ _ _ M1 M2) as M. pose proof M as ([_ El] & Eo & Ed).
    apply from_cons in A2 as (_ & _ & A2). cbn in El, Eo, Ed.
    destruct (IH y t' v' f (head ++ [norm (Some (str_of (string x))) x]) b2
      (opt fmt [10] ++ opt fmt (repeat 9 dep)) tail rest Hy Et' Ev') as (b3 & -> & M3 & A3);
      [apply Forall_app; split; [destruct fmt; by repeat constructor|]|done| |lia|lia| |].
    + destruct fmt; [|constructor]. apply Forall_forall. intros c Hc%list_elem_of_In%repeat_spec. lia.
    + rewrite Nat.add_1_r, <- app_assoc. exact A2.
    + cbn [map list_max foldr]. fold (list_max (map depth_of l)). lia.
    + exists b3. split; [by rewrite <- app_assoc|]. split; [|done].
      pose proof (moved_trans _ _ _ _ _ M M3) as M'.
      match goal with |- moved _ ?n _ => match type of M' with moved _ ?m _ =>
        replace n with m; [done|] end end.
      do 4 (simpl; rewrite ?length_app). lia.
Qed.

(** The text after the opening bracket of a non-empty array. *)
Lemma elements_head l u :
  Forall parses_back l -> l <> [] -> elements_text (json_text fmt dep) fmt l = Some u -> text_head u.
Proof.
  intros Hall Hne Eu. destruct l as [|x l]; [done|]. inversion Hall as [|? ? (Hx & _ & _) _]; subst.
  destruct l as [|y l]; [by apply Hx|]. apply elements_inv in Eu as (t & v & Et & _ & ->).
  destruct (Hx t Et) as (c & t' & -> & Hc). by eexists c, _.
Qed.

(** The prefix of parse_array and parse_object: the bracket, the blanks [w]
    and the step back in front of the first element. *)
Lemma open_ahead b w c l :
  (0 < boffset b)%nat -> blank w -> 32 < c -> ahead b (w ++ c :: l) ->
  exists b', buffer_skip_whitespace b = Ok b' /\ moved b (List.length w) b' /\ ahead b' (c :: l) /\
    can_access_at_index b' 0 = true /\
    from (set_boffset (boffset b' - 1) b') (boffset b' - 1 + 1) (c :: l) /\ (0 < boffset b')%nat.
Proof.
  intros Hb Hw Hc H. destruct (skip_ahead w b c l Hw Hc H) as (b' & E & M & A). exists b'.
  split; [done|]. split; [done|]. split; [done|].
  pose proof (from_cons _ _ _ _ A) as (_ & Hlt & _). destruct M as (_ & Eo & _).
  split; [unfold can_access_at_index; rewrite Nat.add_0_r; by apply Nat.ltb_lt|].
  split; [|lia]. replace (boffset b' - 1 + 1)%nat with (boffset b') by lia. exact A.
Qed.

Lemma parse_array_ahead item t0 k b u rest :
  Forall parses_back (child item) ->
  elements_text (json_text fmt dep) fmt (child item) = Some u ->
  ahead b (91 :: u ++ 93 :: rest) -> (blength b <= boffset b + 1 + fuel0)%nat ->
  (bdepth b + S (list_max (map depth_of (child item))) <= CJSON_NESTING_LIMIT)%nat ->
  exists b', parse_array allocate pv fuel0 (mkcJSON t0 None 0 d0 k []) b
      = Ok (true, mkcJSON cJSON_Array None 0 d0 k (map (norm None) (child item)), b') /\
    moved b (List.length u + 2) b'.
Proof.
  intros Hall Eu H Hf Hd. unfold parse_array.
  destruct (Nat.leb_spec CJSON_NESTING_LIMIT (bdepth b)); [lia|].
  set (b1 := set_bdepth (bdepth b + 1) b). pose proof (from_cons _ _ _ _ H) as (E & Hlt & H1).
  assert (E' : current b1 = Ok 91) by exact E. rewrite E'. cbn [obind Z.eqb Pos.eqb negb].
  set (b2 := set_boffset (boffset b1 + 1) b1).
  assert (A2 : ahead b2 (u ++ 93 :: rest)).
  { unfold ahead. replace (boffset b2) with (S (boffset b)) by (cbn; lia). exact H1. }
  destruct (child item) as [|x l] eqn:Ec.
  - injection Eu as <-. destruct (open_ahead b2 [] 93 rest) as (b3 & -> & M3 & A3 & _);
      [cbn; lia|constructor|done|done|]. cbn [obind].
    rewrite (at_char_ahead b3 93 rest 93 A3). cbn [obind Z.eqb Pos.eqb].
    eexists; split; [done|]. destruct M3 as (M & Eo & Ed). split; [exact M|]. cbn in *. lia.
  - destruct (elements_head (x :: l) u Hall ltac:(done) Eu) as (c & r & -> & Hc & H93).
    destruct (open_ahead b2 [] c (r ++ 93 :: rest)) as (b3 & -> & M3 & A3 & Hac & A4 & Hb3);
      [cbn; lia|constructor|done|done|]. cbn [obind].
    rewrite (at_char_ahead b3 c _ 93 A3). destruct (Z.eqb_spec c 93); [done|]. cbn [obind].
    rewrite Hac. cbn [negb]. destruct M3 as ([Ei El] & Eo & Ed). cbn in Eo, Ed, El, Ei.
    destruct (array_loop_ahead (x :: l) ltac:(done) Hall fuel0 [] (set_boffset (boffset b3 - 1) b3) []
      (c :: r) rest Eu) as (b4 & -> & M4 & A5); [constructor|exact A4|cbn; lia|cbn; lia|cbn in *; lia|].
    cbn [obind]. rewrite (at_char_ahead b4 93 rest 93 A5). cbn [obind Z.eqb Pos.eqb negb app].
    eexists; split; [done|]. destruct M4 as ([Ei4 El4] & Eo4 & Ed4). cbn in *.
    split; [split; cbn; congruence|]. cbn. lia.
Qed.

Lemma parse_object_ahead item t0 k b u w tail rest :
  Forall parses_back (child item) ->
  members_text (json_text fmt dep) fmt dep (child item) = Some u -> blank w -> blank tail ->
  ahead b (123 :: w ++ u ++ tail ++ 125 :: rest) -> (blength b <= boffset b + 1 + fuel0)%nat ->
  (bdepth b + S (list_max (map depth_of (child item))) <= CJSON_NESTING_LIMIT)%nat ->
  exists b', parse_object allocate pv fuel0 (mkcJSON t0 None 0 d0 k []) b
      = Ok (true, mkcJSON cJSON_Object None 0 d0 k
                    (map (fun x => norm (Some (str_of (string x))) x) (child item)), b') /\
    moved b (List.length w + List.length u + List.length tail + 2) b'.
Proof.
  intros Hall Eu Hw Htl H Hf Hd. unfold parse_object.
  destruct (Nat.leb_spec CJSON_NESTING_LIMIT (bdepth b)); [lia|].
  set (b1 := set_bdepth (bdepth b + 1) b). pose proof (from_cons _ _ _ _ H) as (E & Hlt & H1).
  rewrite (at_char_ahead b1 123 _ 123 H). cbn [obind Z.eqb Pos.eqb negb].
  set (b2 := set_boffset (boffset b1 + 1) b1).
  assert (A2 : ahead b2 (w ++ u ++ tail ++ 125 :: rest)).
  { unfold ahead. replace (boffset b2) with (S (boffset b)) by (cbn; lia). exact H1. }
  destruct (child item) as [|x l] eqn:Ec.
  - injection Eu as <-. destruct (open_ahead b2 (w ++ tail) 125 rest) as (b3 & -> & M3 & A3 & _);
      [cbn; lia|by apply Forall_app|done|by rewrite <- app_assoc|]. cbn [obind].
    rewrite (at_char_ahead b3 125 rest 125 A3). cbn [obind Z.eqb Pos.eqb].
    eexists; split; [done|]. destruct M3 as (M & Eo & Ed). rewrite length_app in Eo.
    split; [exact M|]. cbn in *. lia.
  - apply members_inv in Eu as (t & v & Et & Ev & ->).
    inversion Hall as [|? ? Hx Hl]; subst. set (ind := opt fmt (repeat 9 dep)) in *.
    assert (Hind : blank ind).
    { unfold ind. destruct fmt; [|constructor]. apply Forall_forall. intros c Hc%list_elem_of_In%repeat_spec. lia. }
    set (r := (escape (str_of (string x)) ++ [34]) ++ ([58] ++ opt fmt [9]) ++ t
       ++ (match l with [] => [] | _ => [44] end ++ opt fmt [10])).
    assert (Emt : member_tail fmt x t l = 34 :: r) by (unfold member_tail; by rewrite quoted_str).
    destruct (open_ahead b2 (w ++ ind) 34 (r ++ v ++ tail ++ 125 :: rest)) as (b3 & -> & M3 & A3 & Hac & A4 & Hb3);
      [cbn; lia|by apply Forall_app|done|rewrite Emt in A2; by rewrite <- !app_assoc in *|].
    cbn [obind]. rewrite (at_char_ahead b3 34 _ 125 A3). cbn [obind Z.eqb Pos.eqb].
    rewrite Hac. cbn [negb]. destruct M3 as ([Ei El] & Eo & Ed). cbn in Eo, Ed, El, Ei.
    destruct (object_loop_ahead l Hl x t v fuel0 [] (set_boffset (boffset b3 - 1) b3) [] tail rest Hx Et Ev)
      as (b4 & -> & M4 & A5); [constructor|done|rewrite Emt; exact A4|cbn; lia|cbn; lia|cbn in *; lia|].
    cbn [obind]. rewrite (at_char_ahead b4 125 rest 125 A5). cbn [obind Z.eqb Pos.eqb negb app].
    eexists; split; [done|]. destruct M4 as ([Ei4 El4] & Eo4 & Ed4).
    rewrite !length_app in *. cbn in *. split; [split; cbn; congruence|]. cbn. lia.
Qed.

End Loops.

(** ** Values *)

Lemma at_literal_head b c r x l : ahead b (c :: r) -> x <> c -> at_literal b (x :: l) = false.
Proof.
  intros [E _] Hx. unfold at_literal. rewrite E. apply andb_false_iff. right.
  apply bool_decide_eq_false. simpl. by intros [= ? _].
Qed.

Lemma at_literal_ahead b l r : ahead b (l ++ r) -> (boffset b <= blength b)%nat -> at_literal b l = true.
Proof.
  intros H Hb. unfold at_literal. pose proof (from_bound _ _ _ H Hb) as Hl. rewrite length_app in Hl.
  destruct H as [E _]. rewrite E. apply andb_true_intro. split; [apply Nat.leb_le; lia|].
  apply bool_decide_eq_true. by rewrite take_app_length.
Qed.

Lemma portable_inv j :
  portable j = true ->
  json_type (base_type j) = true /\
  (base_type j = cJSON_Number -> number_ok (valuedouble j) = true) /\
  Forall (fun x => portable x = true) (child j).
Proof.
  destruct j as [t vs vi vd s c]. cbn [portable valuedouble child].
  intros ((H1 & H2)%andb_prop & H3)%andb_prop. split; [done|].
  split; [intros E; by rewrite E in H2|].
  apply Forall_forall. intros x Hx%list_elem_of_In. rewrite forallb_forall in H3. auto.
Qed.

(** The seven types of a portable item. *)
Lemma json_type_cases t : json_type t = true ->
  t = cJSON_NULL \/ t = cJSON_False \/ t = cJSON_True \/ t = cJSON_Number \/ t = cJSON_String \/
  t = cJSON_Array \/ t = cJSON_Object.
Proof.
  unfold json_type. rewrite !orb_true_iff, !Z.eqb_eq. tauto.
Qed.

Lemma number_head d : number_ok d = true ->
  exists c r, number_text d = c :: r /\ (c = c_minus \/ 48 <= c <= 57).
Proof.
  unfold number_ok. intros [[_ H]%andb_prop _]%andb_prop. destruct (number_text d) as [|c r]; [done|].
  exists c, r. split; [done|]. apply orb_prop in H as [H|H]; [left; by apply Z.eqb_eq|right].
  unfold is_digit in H. apply andb_prop in H as [H1 H2]. apply Z.leb_le in H1, H2. lia.
Qed.

Lemma json_text_head j fmt dep t :
  portable j = true -> json_text fmt dep j = Some t -> text_head t.
Proof.
  intros (Ht & Hn & _)%portable_inv. destruct j as [ty vs vi vd s c]. cbn [json_text valuedouble] in *.
  apply json_type_cases in Ht as [E|[E|[E|[E|[E|[E|E]]]]]]; rewrite E in *; cbn [Z.eqb Pos.eqb].
  1-3: intros [= <-]; by eexists _, _.
  - intros [= <-]. destruct (number_head _ (Hn eq_refl)) as (x & r & -> & Hx). exists x, r.
    split; [done|]. lia.
  - intros [= <-]. cbn [valuestring]. rewrite quoted_str. by eexists _, _.
  - destruct (elements_text _ _ _); intros [= <-]. by eexists _, _.
  - destruct (members_text _ _ _ _); intros [= <-]. by eexists _, _.
Qed.

(** The dispatch of parse_value on the first character of a value that is not
    one of the three literals. *)
Lemma parse_value_dispatch fuel item b c r :
  ahead b (c :: r) -> c <> 110 -> c <> 102 -> c <> 116 ->
  parse_value allocate (S fuel) item b =
    if c =? 34 then parse_string allocate item b
    else if (c =? c_minus) || ((48 <=? c) && (c <=? 57)) then parse_number item b
    else if c =? 91 then parse_array allocate (parse_value allocate fuel) fuel item b
    else if c =? 123 then parse_object allocate (parse_value allocate fuel) fuel item b
    else Ok (false, item, b).
Proof.
  intros H H1 H2 H3. cbn [parse_value bytes_of].
  rewrite !(at_literal_head b c r) by (done || (intros E; vm_compute in E; congruence)).
  pose proof (from_cons _ _ _ _ H) as (E & Hlt & _). unfold can_access_at_index, current.
  rewrite Nat.add_0_r, E. destruct (Nat.ltb_spec (boffset b) (blength b)); [done|lia].
Qed.

Lemma parse_value_literal fuel item b rest l it :
  ahead b (l ++ rest) -> (boffset b <= blength b)%nat ->
  (l = bytes_of "null" /\ it = set_type cJSON_NULL item \/
   l = bytes_of "false" /\ it = set_type cJSON_False item \/
   l = bytes_of "true" /\ it = set_valueint 1 (set_type cJSON_True item)) ->
  parse_value allocate (S fuel) item b = Ok (true, it, set_boffset (boffset b + List.length l) b).
Proof.
  intros H Hb Hl. cbn [parse_value].
  pose proof (at_literal_ahead b l rest H Hb) as Hlit.
  destruct Hl as [[-> ->]|[[-> ->]|[-> ->]]].
  - by rewrite Hlit.
  - pose proof (at_literal_head b _ _ 110 [117; 108; 108] H ltac:(done)) as E1.
    change [110; 117; 108; 108] with (bytes_of "null") in E1. by rewrite E1, Hlit.
  - pose proof (at_literal_head b _ _ 110 [117; 108; 108] H ltac:(done)) as E1.
    pose proof (at_literal_head b _ _ 102 [97; 108; 115; 101] H ltac:(done)) as E2.
    change [110; 117; 108; 108] with (bytes_of "null") in E1.
    change [102; 97; 108; 115; 101] with (bytes_of "false") in E2. by rewrite E1, E2, Hlit.
Qed.

Lemma parse_value_back j :
  printable j = true -> portable j = true ->
  forall fuel fmt dep, parses_back (parse_value allocate fuel) fuel fmt dep j.
Proof.
  induction j as [ty vs vi vd s c IH] using cJSON_ind'. intros Hp Hq fuel fmt dep.
  split; [intros t; by apply json_text_head|].
  pose proof (printable_inv _ Hp) as (_ & _ & Hvs & Hstr & Hpc). split; [done|].
  intros t0 k b t rest Et H Hr Hf Hd. pose proof (portable_inv _ Hq) as (Hty & Hn & Hqc).
  cbn [valuestring valuedouble string child] in *.
  destruct (json_text_head _ _ _ _ Hq Et) as (hd & tl & Eh & _).
  assert (Hlt : (boffset b < blength b)%nat) by (rewrite Eh in H; by eapply from_nonempty).
  destruct fuel as [|f]; [lia|].
  assert (Hall : Forall (parses_back (parse_value allocate f) f fmt (S dep)) c).
  { rewrite Forall_forall in IH, Hpc, Hqc. apply Forall_forall. auto. }
  cbn [json_text norm depth_of] in *. cbn [valuestring valuedouble child] in *.
  apply json_type_cases in Hty as [E|[E|[E|[E|[E|[E|E]]]]]]; rewrite E in *; cbn [Z.eqb Pos.eqb orb] in *.
  - injection Et as <-. rewrite (parse_value_literal f _ b rest (bytes_of "null") _ H ltac:(lia) ltac:(by left)).
    by eexists.
  - injection Et as <-. rewrite (parse_value_literal f _ b rest (bytes_of "false") _ H ltac:(lia) ltac:(by right; left)).
    by eexists.
  - injection Et as <-. rewrite (parse_value_literal f _ b rest (bytes_of "true") _ H ltac:(lia) ltac:(by right; right)).
    by eexists.
  - injection Et as <-. destruct (number_head _ (Hn eq_refl)) as (x & r & Ex & Hx).
    pose proof H as H0. rewrite Ex in H0.
    rewrite (parse_value_dispatch f _ b x (r ++ rest) H0) by lia.
    destruct (Z.eqb_spec x 34); [lia|].
    assert (Ed : (x =? c_minus) || ((48 <=? x) && (x <=? 57)) = true).
    { destruct (Z.eqb_spec x c_minus), (Z.leb_spec 48 x), (Z.leb_spec x 57); try done; lia. }
    rewrite Ed. destruct (parse_number_ahead (mkcJSON t0 None 0 d0 k []) b vd rest (Hn eq_refl) H Hr)
      as (b' & Ep & M). by exists b'.
  - injection Et as <-. rewrite quoted_str in H |- *. cbn [app] in H. rewrite <- app_assoc in H.
    rewrite (parse_value_dispatch f _ b 34 _ H) by done. cbn [Z.eqb Pos.eqb].
    destruct (parse_string_ahead (mkcJSON t0 None 0 d0 k []) b (str_of vs) rest (str_of_pos vs Hvs) H)
      as (b' & Ep & M). exists b'. split; [exact Ep|]. simpl. rewrite length_app. simpl.
    by replace (S (List.length (escape (str_of vs)) + 1)) with (List.length (escape (str_of vs)) + 2)%nat by lia.
  - destruct (elements_text _ _ _) as [u|] eqn:Eu; [|done]. injection Et as <-. flat H.
    rewrite (parse_value_dispatch f _ b 91 _ H) by done. cbn [Z.eqb Pos.eqb orb andb Z.leb Z.compare Pos.compare Pos.compare_cont].
    destruct (parse_array_ahead (parse_value allocate f) f fmt (S dep) (mkcJSON ty vs vi vd s c) t0 k b u rest)
      as (b' & Ep & M); [exact Hall|exact Eu|exact H|lia|exact Hd|].
    exists b'. split; [exact Ep|]. cbn [List.length]. rewrite length_app. cbn [List.length].
    by replace (S (List.length u + 1)) with (List.length u + 2)%nat by lia.
  - destruct (members_text _ _ _ _) as [u|] eqn:Eu; [|done]. injection Et as <-. flat H.
    rewrite (parse_value_dispatch f _ b 123 _ H) by done. cbn [Z.eqb Pos.eqb orb andb Z.leb Z.compare Pos.compare Pos.compare_cont].
    destruct (parse_object_ahead (parse_value allocate f) f fmt (S dep) (mkcJSON ty vs vi vd s c) t0 k b u
      (opt fmt [10]) (opt fmt (repeat 9 dep)) rest)
      as (b' & Ep & M); [exact Hall|exact Eu|destruct fmt; by repeat constructor| |exact H|lia|exact Hd|].
    { destruct fmt; [|constructor]. apply Forall_forall. intros x Hx%list_elem_of_In%repeat_spec. lia. }
    exists b'. split; [exact Ep|]. cbn [List.length]. rewrite !length_app. cbn [List.length].
    match goal with |- moved _ ?n _ => match type of M with moved _ ?m _ => replace n with m by lia end end. done.
Qed.

End Roundtrip.

(** ** Numbers that are integers *)

(** Integers of at most 15 digits print as their digits. *)
Lemma number_text_int n : - 10 ^ 15 < n < 10 ^ 15 -> number_text (d_of_Z n) = int_text n.
Proof.
  intros Hn. assert (Hn' : - 2 ^ 53 < n < 2 ^ 53) by lia. unfold number_text.
  rewrite (d_of_Z_times_zero n Hn'). cbn [negb]. rewrite format_g_int by (done || lia).
  pose proof (strtod_int_text n [] I) as Es. rewrite app_nil_r in Es. rewrite Es.
  by rewrite (deqb_refl_int n Hn').
Qed.

Lemma int_text_chars n : Forall (fun c => c = c_minus \/ 48 <= c <= 57) (int_text n) /\ int_text n <> [].
Proof.
  assert (H : forall z, 0 <= z -> Forall (fun c => c = c_minus \/ 48 <= c <= 57) (digits z) /\ digits z <> []).
  { intros z Hz. split.
    - eapply Forall_impl; [by apply digits_are_digits|]. cbn. lia.
    - intros E. pose proof (digits_value_digits z Hz) as Hv. rewrite E in Hv. cbn in Hv. subst z. done. }
  unfold int_text. destruct (Z.ltb_spec n 0).
  - destruct (H (- n)) as [H1 H2]; [lia|]. split; [constructor; [by left|done]|done].
  - by apply H.
Qed.

Lemma number_ok_int n : - 10 ^ 15 < n < 10 ^ 15 -> number_ok (d_of_Z n) = true.
Proof.
  intros Hn. unfold number_ok. rewrite (number_text_int n Hn).
  destruct (int_text_chars n) as [Hc Hne].
  assert (Hd : forall c, c = c_minus \/ 48 <= c <= 57 -> (c =? c_minus) || is_digit c = true).
  { intros c [->|H]; [done|]. apply orb_true_iff. right. unfold is_digit.
    apply andb_true_intro. split; apply Z.leb_le; lia. }
  rewrite !andb_true_iff. split; [split; [split|]|].
  - apply forallb_forall. intros c Hin%list_elem_of_In. rewrite Forall_forall in Hc.
    specialize (Hd c (Hc c Hin)). unfold is_number_char.
    apply orb_true_iff in Hd as [E|E]; rewrite E; [|done]. by rewrite !orb_true_r.
  - apply Nat.leb_le. rewrite <- number_text_int by done.
    pose proof (number_text_length (d_of_Z n) (valid_double_int n ltac:(lia))). lia.
  - destruct (int_text n) as [|c l]; [done|]. inversion Hc; subst. by apply Hd.
  - apply bool_decide_eq_true. pose proof (strtod_int_text n [] I) as Es. by rewrite app_nil_r in Es.
Qed.

(** ** The round trip *)

Lemma cJSON_Parse_text allocate j fmt t :
  (forall n s, allocate n s = true) ->
  printable j = true -> portable j = true -> (depth_of j <= CJSON_NESTING_LIMIT)%nat ->
  json_text fmt 0 j = Some t -> cJSON_Parse allocate (Some t) = Ok (Some (norm None j)).
Proof.
  intros Ha Hp Hq Hd Et. unfold cJSON_Parse, cJSON_ParseWithOpts.
  pose proof (json_text_nz j Hp _ _ _ Et) as Hnz. rewrite (cstr_of_nonzero t Hnz).
  unfold new_item. rewrite Ha.
  set (b := count_alloc _).
  destruct (json_text_head j fmt 0 t Hq Et) as (c & r & Ec & Hc & _).
  assert (A : ahead b (t ++ [0])).
  { split; [done|]. cbn. rewrite length_app. simpl. lia. }
  destruct (skip_ahead [] b c (r ++ [0])) as (b1 & -> & M1 & _); [constructor|done|by subst t|]. cbn [obind].
  assert (A1 : ahead b1 (t ++ [0])) by by eapply (ahead_moved b b1 []).
  destruct M1 as ([_ El] & Eo & Ed). cbn in El, Eo, Ed.
  destruct (parse_value_back allocate Ha j Hp Hq (parse_fuel (Some t)) fmt 0%nat) as (_ & _ & Hback).
  destruct (Hback 0 None b1 t [0] Et A1) as (b2 & E2 & _); [done|cbn; lia|lia|].
  change (mkcJSON 0 None 0 d0 None []) with cJSON_New_Item in E2. by rewrite E2.
Qed.


