(* ===== verification/CjsonTree.v ===== *)
(** * Building and querying cJSON trees (cjson.c: case_insensitive_strcmp,
    cJSON_GetArraySize .. cJSON_Compare)

    A chain of siblings is a list, so a pointer to an item of a container is
    its index.  Items given to a container are fresh (no sharing between
    containers).  [None] is NULL; where the code dereferences NULL the result
    is [UB].  [ok] tells whether an allocation succeeds. *)

From Stdlib Require Import SpecFloat.
From Stdlib Require Import String.
From S2P Require Import Prelude.
From S2P Require Import Cdouble.
From S2P Require Import CjsonData.
From S2P Require Import CdoubleFacts.
From stdpp Require Import base numbers gmap list.

Open Scope Z_scope.
Open Scope c_scope.

(** ** Strings *)

Definition tolower (c : Z) : Z := if (65 <=? c) && (c <=? 90) then c + 32 else c.

(** The loop over two C strings; the end of a list is its NUL. *)
Fixpoint strcasecmp_loop (s1 s2 : bytes) : Z :=
  match s1, s2 with
  | [], [] => 0
  | [], c2 :: _ => 0 - tolower c2
  | c1 :: _, [] => tolower c1
  | c1 :: r1, c2 :: r2 =>
      if tolower c1 =? tolower c2 then strcasecmp_loop r1 r2 else tolower c1 - tolower c2
  end.

Definition case_insensitive_strcmp (string1 string2 : option bytes) : Z :=
  match string1, string2 with
  | Some s1, Some s2 => strcasecmp_loop (cstr_of s1) (cstr_of s2)
  | _, _ => 1
  end.

Fixpoint strcmp_loop (s1 s2 : bytes) : Z :=
  match s1, s2 with
  | [], [] => 0
  | [], c2 :: _ => 0 - c2
  | c1 :: _, [] => c1
  | c1 :: r1, c2 :: r2 => if c1 =? c2 then strcmp_loop r1 r2 else c1 - c2
  end.

(** strcmp: undefined on NULL *)
Definition strcmp (s1 s2 : option bytes) : outcome Z :=
  match s1, s2 with
  | Some s1, Some s2 => Ok (strcmp_loop (cstr_of s1) (cstr_of s2))
  | _, _ => UB
  end.

(** cJSON_strdup: the C string, copied *)
Definition cJSON_strdup (ok : bool) (s : option bytes) : option bytes :=
  match s with
  | None => None
  | Some s => if ok then Some (cstr_of s) else None
  end.

(** ** Queries *)

Definition cJSON_GetArraySize (array : cJSON) : Z := i32 (Z.of_nat (List.length (child array))).

Definition get_array_item (array : option cJSON) (index : nat) : option cJSON :=
  match array with
  | None => None
  | Some a => child a !! index
  end.

Definition cJSON_GetArrayItem (array : option cJSON) (index : Z) : option cJSON :=
  if index <? 0 then None else get_array_item array (Z.to_nat index).

(** The index of the member the loops of get_object_item stop at. *)
Fixpoint find_member (case_sensitive : bool) (name : bytes) (l : list cJSON) : outcome (option nat) :=
  match l with
  | [] => Ok None
  | x :: r =>
      let! d := if case_sensitive then strcmp (Some name) (string x)
                else Ok (case_insensitive_strcmp (Some name) (string x)) in
      if d =? 0 then Ok (Some O)
      else let! k := find_member case_sensitive name r in Ok (option_map S k)
  end.

Definition get_object_item (object : option cJSON) (name : option bytes) (case_sensitive : bool)
    : outcome (option cJSON) :=
  match object, name with
  | Some o, Some n =>
      let! k := find_member case_sensitive n (child o) in
      Ok (k ≫= fun i => child o !! i)
  | _, _ => Ok None
  end.

(** The case-insensitive search never dereferences NULL. *)
Fixpoint find_item (name : bytes) (l : list cJSON) : option cJSON :=
  match l with
  | [] => None
  | x :: r => if case_insensitive_strcmp (Some name) (string x) =? 0 then Some x else find_item name r
  end.

Definition cJSON_GetObjectItem (object : option cJSON) (s : option bytes) : outcome (option cJSON) :=
  get_object_item object s false.
Definition cJSON_GetObjectItemCaseSensitive (object : option cJSON) (s : option bytes)
    : outcome (option cJSON) := get_object_item object s true.
Definition cJSON_HasObjectItem (object : option cJSON) (s : option bytes) : outcome bool :=
  let! r := cJSON_GetObjectItem object s in Ok (match r with Some _ => true | None => false end).

(** ** Construction *)

Definition cJSON_AddItemToArray (array : option cJSON) (item : option cJSON) : option cJSON :=
  match array, item with
  | Some a, Some i => Some (set_child (child a ++ [i]) a)
  | _, _ => array
  end.

Definition cJSON_AddItemToObjectCS (object : option cJSON) (s : option bytes) (item : option cJSON)
    : option cJSON :=
  match item with
  | None => object
  | Some i =>
      let i := set_type (Z.lor (type i) cJSON_StringIsConst) (set_string s i) in
      cJSON_AddItemToArray object (Some i)
  end.

(** The last statement clears a flag of the item, which is now the last child
    of the object when the object is not NULL; a NULL item is dereferenced. *)
Definition cJSON_AddItemToObject (ok : bool) (object : option cJSON) (s : option bytes)
    (item : option cJSON) : outcome (option cJSON) :=
  match item with
  | None => UB
  | Some i =>
      let i := set_string (cJSON_strdup ok s) i in
      let i := set_type (Z.land (Z.lor (type i) cJSON_StringIsConst) (Z.lnot cJSON_StringIsConst)) i in
      Ok (cJSON_AddItemToArray object (Some i))
  end.

(** create_reference: the copy shares the children and the string value. *)
Definition create_reference (ok : bool) (item : cJSON) : option cJSON :=
  if ok then Some (set_type (Z.lor (type item) cJSON_IsReference) (set_string None item)) else None.

Definition cJSON_AddItemReferenceToArray (ok : bool) (array : option cJSON) (item : cJSON) : option cJSON :=
  cJSON_AddItemToArray array (create_reference ok item).
Definition cJSON_AddItemReferenceToObject (ok ok' : bool) (object : option cJSON) (s : option bytes)
    (item : cJSON) : outcome (option cJSON) :=
  cJSON_AddItemToObject ok' object s (create_reference ok item).

Definition cJSON_CreateNull (ok : bool) : option cJSON :=
  if ok then Some (set_type cJSON_NULL cJSON_New_Item) else None.
Definition cJSON_CreateTrue (ok : bool) : option cJSON :=
  if ok then Some (set_type cJSON_True cJSON_New_Item) else None.
Definition cJSON_CreateFalse (ok : bool) : option cJSON :=
  if ok then Some (set_type cJSON_False cJSON_New_Item) else None.
Definition cJSON_CreateBool (ok : bool) (b : bool) : option cJSON :=
  if ok then Some (set_type (if b then cJSON_True else cJSON_False) cJSON_New_Item) else None.
Definition cJSON_CreateNumber (ok : bool) (num : double) : option cJSON :=
  if ok
  then Some (set_valueint (saturate num) (set_valuedouble num (set_type cJSON_Number cJSON_New_Item)))
  else None.
(** [ok] for the item, [ok'] for the copy of the string *)
Definition cJSON_CreateString (ok ok' : bool) (s : option bytes) : option cJSON :=
  if ok
  then match cJSON_strdup ok' s with
       | Some v => Some (set_valuestring (Some v) (set_type cJSON_String cJSON_New_Item))
       | None => None
       end
  else None.
Definition cJSON_CreateRaw (ok ok' : bool) (raw : option bytes) : option cJSON :=
  if ok
  then match cJSON_strdup ok' raw with
       | Some v => Some (set_valuestring (Some v) (set_type cJSON_Raw cJSON_New_Item))
       | None => None
       end
  else None.
Definition cJSON_CreateArray (ok : bool) : option cJSON :=
  if ok then Some (set_type cJSON_Array cJSON_New_Item) else None.
Definition cJSON_CreateObject (ok : bool) : option cJSON :=
  if ok then Some (set_type cJSON_Object cJSON_New_Item) else None.

(** ** Removal and replacement; an item of [parent] is its index *)

Definition remove_at {A} (i : nat) (l : list A) : list A := take i l ++ drop (S i) l.

Definition cJSON_DetachItemViaPointer (parent : option cJSON) (item : option nat)
    : option cJSON * option cJSON :=
  match parent, item with
  | Some p, Some i => (child p !! i, Some (set_child (remove_at i (child p)) p))
  | _, _ => (None, parent)
  end.

(** get_array_item as an index *)
Definition array_index (array : option cJSON) (which : Z) : option nat :=
  match array with
  | Some a => if (Z.to_nat which <? List.length (child a))%nat then Some (Z.to_nat which) else None
  | None => None
  end.

Definition cJSON_DetachItemFromArray (array : option cJSON) (which : Z) : option cJSON * option cJSON :=
  if which <? 0 then (None, array) else cJSON_DetachItemViaPointer array (array_index array which).

Definition cJSON_DetachItemFromObject (object : option cJSON) (s : option bytes)
    : outcome (option cJSON * option cJSON) :=
  match object, s with
  | Some o, Some n =>
      let! k := find_member false n (child o) in Ok (cJSON_DetachItemViaPointer object k)
  | _, _ => Ok (None, object)
  end.

Definition cJSON_InsertItemInArray (array : option cJSON) (which : Z) (newitem : option cJSON)
    : outcome (option cJSON) :=
  if which <? 0 then Ok array else
  match array_index array which, array with
  | Some i, Some a =>
      match newitem with
      | None => UB
      | Some n => Ok (Some (set_child (take i (child a) ++ n :: drop i (child a)) a))
      end
  | _, _ => Ok (cJSON_AddItemToArray array newitem)
  end.

Definition cJSON_ReplaceItemViaPointer (parent : option cJSON) (item : option nat)
    (replacement : option cJSON) : outcome (bool * option cJSON) :=
  match parent, replacement with
  | Some p, Some r =>
      match item with
      | None => UB (* item->next with item == NULL *)
      | Some i => Ok (true, Some (set_child (<[i := r]> (child p)) p))
      end
  | _, _ => Ok (false, parent)
  end.

Definition cJSON_ReplaceItemInArray (array : option cJSON) (which : Z) (newitem : option cJSON)
    : outcome (option cJSON) :=
  if which <? 0 then Ok array else
  let! r := cJSON_ReplaceItemViaPointer array (array_index array which) newitem in Ok (snd r).

(** The functions on members.  On trees a detached member is dropped where the
    C code deletes it. *)
Definition cJSON_DeleteItemFromObject (object : option cJSON) (s : option bytes) : outcome (option cJSON) :=
  let! r := cJSON_DetachItemFromObject object s in Ok (snd r).

Definition cJSON_DetachItemFromObjectCaseSensitive (object : option cJSON) (s : option bytes)
    : outcome (option cJSON * option cJSON) :=
  match object, s with
  | Some o, Some n =>
      let! k := find_member true n (child o) in Ok (cJSON_DetachItemViaPointer object k)
  | _, _ => Ok (None, object)
  end.

Definition cJSON_DeleteItemFromObjectCaseSensitive (object : option cJSON) (s : option bytes) : outcome (option cJSON) :=
  let! r := cJSON_DetachItemFromObjectCaseSensitive object s in Ok (snd r).

(** cJSON_ReplaceItemInObject and its CaseSensitive variant: the member found,
    the replacement takes its place under its own name. *)
Definition replace_member (case_sensitive : bool) (object : option cJSON) (s : option bytes) (newitem : option cJSON)
    : outcome (option cJSON) :=
  let! k := match object, s with
            | Some o, Some n => find_member case_sensitive n (child o)
            | _, _ => Ok None
            end in
  let! r := cJSON_ReplaceItemViaPointer object k newitem in Ok (snd r).

Definition cJSON_ReplaceItemInObject := replace_member false.
Definition cJSON_ReplaceItemInObjectCaseSensitive := replace_member true.

(** ** Kinds of items *)

Definition has_kind (kind : Z) (item : option cJSON) : bool :=
  match item with Some i => Z.land (type i) 255 =? kind | None => false end.

Definition cJSON_IsInvalid := has_kind cJSON_Invalid.
Definition cJSON_IsFalse := has_kind cJSON_False.
Definition cJSON_IsTrue := has_kind cJSON_True.
Definition cJSON_IsNull := has_kind cJSON_NULL.
Definition cJSON_IsNumber := has_kind cJSON_Number.
Definition cJSON_IsString := has_kind cJSON_String.
Definition cJSON_IsArray := has_kind cJSON_Array.
Definition cJSON_IsObject := has_kind cJSON_Object.
Definition cJSON_IsRaw := has_kind cJSON_Raw.

Definition cJSON_IsBool (item : option cJSON) : bool :=
  match item with Some i => negb (Z.land (type i) (Z.lor cJSON_True cJSON_False) =? 0) | None => false end.

(** ** Duplication (allocations succeed) *)

Fixpoint cJSON_Duplicate (item : cJSON) (recurse : bool) {struct item} : cJSON :=
  mkcJSON (Z.land (type item) (Z.lnot cJSON_IsReference))
    (option_map cstr_of (valuestring item)) (valueint item) (valuedouble item)
    (match string item with
     | Some s => Some (if Z.testbit (type item) 9 then s else cstr_of s)
     | None => None
     end)
    (if recurse then map (fun c => cJSON_Duplicate c true) (child item) else []).

(** ** Comparison of two items that are not the same object *)

Definition valid_type (t : Z) : bool :=
  (t =? cJSON_False) || (t =? cJSON_True) || (t =? cJSON_NULL) || (t =? cJSON_Number)
  || (t =? cJSON_String) || (t =? cJSON_Raw) || (t =? cJSON_Array) || (t =? cJSON_Object).

Section Compare.
Variable cmp : cJSON -> cJSON -> outcome bool.

Fixpoint compare_elements (la lb : list cJSON) : outcome bool :=
  match la, lb with
  | a :: ra, b :: rb => let! e := cmp a b in if e then compare_elements ra rb else Ok false
  | _, _ => Ok true
  end.

Fixpoint compare_members (case_sensitive : bool) (la : list cJSON) (b : cJSON) : outcome bool :=
  match la with
  | [] => Ok true
  | a :: ra =>
      let! r := get_object_item (Some b) (string a) case_sensitive in
      match r with
      | None => Ok false
      | Some b_element => let! e := cmp a b_element in if e then compare_members case_sensitive ra b else Ok false
      end
  end.
End Compare.

Fixpoint cJSON_Compare (a b : cJSON) (case_sensitive : bool) {struct a} : outcome bool :=
  let t := base_type a in
  if negb (t =? base_type b) || (t =? cJSON_Invalid) then Ok false else
  if negb (valid_type t) then Ok false else
  if (t =? cJSON_False) || (t =? cJSON_True) || (t =? cJSON_NULL) then Ok true else
  if t =? cJSON_Number then Ok (deqb (valuedouble a) (valuedouble b)) else
  if (t =? cJSON_String) || (t =? cJSON_Raw) then
    match valuestring a, valuestring b with
    | Some sa, Some sb => Ok (strcmp_loop (cstr_of sa) (cstr_of sb) =? 0)
    | _, _ => Ok false
    end
  else if t =? cJSON_Array then
    compare_elements (fun x y => cJSON_Compare x y case_sensitive) (child a) (child b)
  else
    compare_members (fun x y => cJSON_Compare x y case_sensitive) case_sensitive (child a) b.

(** ** cJSON_Minify, on the memory of a C string

    [json] and [into] point into the same object; [into] never overtakes
    [json], so the bytes written are the list [out].  A read outside the
    object is [UB]; [fuel] bounds the rounds. *)

Section Minify.
Variable mem : bytes.

Definition byte_at (i : nat) : outcome Z := deref (mem !! i).

(** [while ( *json && *json != '\n') json++] *)
Fixpoint skip_line (fuel json : nat) : outcome nat :=
  match fuel with
  | O => Fuel
  | S f => let! c := byte_at json in
           if (c =? 0) || (c =? 10) then Ok json else skip_line f (S json)
  end.

(** the loop over a multiline comment *)
Fixpoint skip_comment (fuel json : nat) : outcome nat :=
  match fuel with
  | O => Fuel
  | S f =>
      let! c := byte_at json in
      if c =? 0 then Ok json else
      if c =? 42 then
        let! d := byte_at (S json) in
        if d =? 47 then Ok json else skip_comment f (S json)
      else skip_comment f (S json)
  end.

(** the loop inside a string literal *)
Fixpoint copy_literal (fuel json : nat) (out : bytes) : outcome (nat * bytes) :=
  match fuel with
  | O => Fuel
  | S f =>
      let! c := byte_at json in
      if (c =? 0) || (c =? 34) then Ok (json, out) else
      if c =? 92 then
        let! d := byte_at (S json) in
        copy_literal f (S (S json)) (out ++ [c; d])
      else copy_literal f (S json) (out ++ [c])
  end.

Fixpoint minify_loop (fuel json : nat) (out : bytes) : outcome bytes :=
  match fuel with
  | O => Fuel
  | S f =>
      let! c := byte_at json in
      if c =? 0 then Ok out else
      if (c =? 32) || (c =? 9) || (c =? 13) || (c =? 10) then minify_loop f (S json) out else
      let! comment :=
        if c =? 47 then
          let! d := byte_at (S json) in Ok (if d =? 47 then 1 else if d =? 42 then 2 else 0)
        else Ok 0 in
      if comment =? 1 then let! json := skip_line f json in minify_loop f json out else
      if comment =? 2 then let! json := skip_comment f json in minify_loop f (json + 2) out else
      if c =? 34 then
        let! r := copy_literal f (S json) (out ++ [c]) in
        let '(json, out) := r in
        let! d := byte_at json in
        minify_loop f (S json) (out ++ [d])
      else minify_loop f (S json) (out ++ [c])
  end.
End Minify.

Definition cJSON_Minify (json : bytes) : outcome bytes :=
  let mem := cstr_of json ++ [0] in
  let! out := minify_loop mem (S (List.length mem)) 0 [] in Ok (cstr_of out).

(** ** Properties *)

Lemma strcasecmp_refl s : strcasecmp_loop s s = 0.
Proof. induction s as [|c s IH]; simpl; [done|]. by rewrite Z.eqb_refl. Qed.

Lemma find_member_item name l :
  exists k, find_member false name l = Ok k /\ (k ≫= fun i => l !! i) = find_item name l.
Proof.
  induction l as [|x l (k & E & IH)]; cbn [find_member find_item obind]; [by exists None|].
  destruct (_ =? 0); [by exists (Some O)|]. rewrite E. cbn [obind]. eexists; split; [done|].
  rewrite <- IH. by destruct k.
Qed.

(** The case-insensitive lookup is the first match. *)
Lemma cJSON_GetObjectItem_find o name :
  cJSON_GetObjectItem (Some o) (Some name) = Ok (find_item name (child o)).
Proof.
  unfold cJSON_GetObjectItem, get_object_item.
  destruct (find_member_item name (child o)) as (k & -> & H). cbn [obind]. by rewrite H.
Qed.

Lemma find_item_app name l x :
  find_item name l = None ->
  find_item name (l ++ [x]) =
    if case_insensitive_strcmp (Some name) (string x) =? 0 then Some x else None.
Proof.
  induction l as [|y l IH]; cbn [find_item app]; [done|].
  destruct (case_insensitive_strcmp (Some name) (string y) =? 0); [done|apply IH].
Qed.

(** What is added to an object under a name is found there: if no member
    has the name (compared without case) and memory is available,
    cJSON_AddItemToObject appends the item and cJSON_GetObjectItem returns it,
    with its name and without the StringIsConst flag; all members that were
    there are still found. *)
Theorem cJSON_AddItemToObject_lookup o name item :
  Forall (fun c => c <> 0) name -> find_item name (child o) = None ->
  exists o' i, cJSON_AddItemToObject true (Some o) (Some name) (Some item) = Ok (Some o') /\
    child o' = child o ++ [i] /\
    cJSON_GetObjectItem (Some o') (Some name) = Ok (Some i) /\
    string i = Some name /\ base_type i = base_type item /\ valuedouble i = valuedouble item /\
    valueint i = valueint item /\ valuestring i = valuestring item /\ child i = child item /\
    (forall other x, cJSON_GetObjectItem (Some o) (Some other) = Ok (Some x) ->
       cJSON_GetObjectItem (Some o') (Some other) = Ok (Some x)).
Proof.
  intros Hnz Hnone. unfold cJSON_AddItemToObject. cbn [cJSON_strdup].
  rewrite cstr_of_nonzero by done.
  set (i := set_type _ (set_string (Some name) item)).
  eexists _, i. split; [done|]. cbn [child set_child]. split; [done|].
  rewrite cJSON_GetObjectItem_find. cbn [child set_child].
  rewrite find_item_app by done. cbn [string set_type set_string i].
  unfold case_insensitive_strcmp. rewrite strcasecmp_refl. cbn [Z.eqb].
  split_and!; try done.
  - unfold base_type, i. cbn [type set_type set_string].
    apply Z.bits_inj'. intros n Hn. rewrite !Z.land_spec, Z.lor_spec, Z.lnot_spec by done.
    destruct (decide (n = 9)) as [->|Hne]; [by rewrite !andb_false_r|].
    change 512 with (2 ^ 9). rewrite (Z.pow2_bits_false 9 n) by lia. simpl.
    by rewrite orb_false_r, andb_true_r.
  - intros other x. rewrite !cJSON_GetObjectItem_find. cbn [child set_child]. intros [= Hx]. f_equal.
    revert Hx. clear. induction (child o) as [|y l IH]; cbn [find_item app]; [done|].
    destruct (_ =? 0); [done|apply IH].
Qed.

Lemma cJSON_AddItemToObject_witness :
  exists o' i, cJSON_AddItemToObject true (Some (set_type cJSON_Object cJSON_New_Item))
      (Some (bytes_of "tcp")) (cJSON_CreateTrue true) = Ok (Some o') /\
    cJSON_GetObjectItem (Some o') (Some (bytes_of "tcp")) = Ok (Some i).
Proof.
  destruct (cJSON_AddItemToObject_lookup (set_type cJSON_Object cJSON_New_Item) (bytes_of "tcp")
    (set_type cJSON_True cJSON_New_Item)) as (o' & i & H1 & _ & H2 & _);
    [repeat constructor; done|reflexivity|]. exists o', i. split; [exact H1|exact H2].
Defined.

Definition number_item (z : Z) : cJSON := mkcJSON cJSON_Number None z (d_of_Z z) None [].
Definition number_array (l : list Z) : cJSON := mkcJSON cJSON_Array None 0 d0 None (map number_item l).

(** cJSON_Compare accepts arrays of different lengths: an array compares
    equal to every array it is a prefix of, because the loop ends with the
    shorter one. *)
Theorem cJSON_Compare_array_prefix l r :
  Forall (fun z => - 2 ^ 53 < z < 2 ^ 53) l ->
  cJSON_Compare (number_array l) (number_array (l ++ r)) true = Ok true.
Proof.
  intros Hl.
  change (compare_elements (fun x y => cJSON_Compare x y true) (map number_item l)
            (map number_item (l ++ r)) = Ok true).
  induction Hl as [|z l Hz Hl IH]; [by destruct r|]. cbn [map app compare_elements].
  change (cJSON_Compare (number_item z) (number_item z) true)
    with (@Ok bool (deqb (d_of_Z z) (d_of_Z z))).
  rewrite deqb_refl_int by done. exact IH.
Qed.

Lemma cJSON_Compare_array_witness :
  cJSON_Compare (number_array [1]) (number_array ([1] ++ [2])) true = Ok true.
Proof. apply cJSON_Compare_array_prefix. repeat constructor. Defined.

(** Calls that leave memory: replacing an element beyond the end of an
    array dereferences NULL, and minifying a text that ends inside a string or
    a comment reads behind the text. *)
Theorem cJSON_memory_errors :
  cJSON_ReplaceItemInArray (Some (number_array [1])) 1 (cJSON_CreateTrue true) = UB /\
  cJSON_Minify (bytes_of "/* a") = UB /\ cJSON_Minify (34 :: bytes_of "a") = UB.
Proof. repeat split; vm_compute; reflexivity. Qed.

(** CJSON_Minify removes exactly the blanks outside strings: on text with
    no quote and no slash the result is the text without blanks. *)
Theorem cJSON_Minify_blanks s :
  Forall (fun c => c <> 0 /\ c <> 34 /\ c <> 47) s ->
  cJSON_Minify s = Ok (List.filter (fun c => negb ((c =? 32) || (c =? 9) || (c =? 13) || (c =? 10))) s).
Proof.
  intros Hs. unfold cJSON_Minify.
  assert (Hnz : nonzero s) by (eapply Forall_impl; [exact Hs|]; by intros ? [? _]).
  rewrite (cstr_of_nonzero s Hnz). set (mem := s ++ [0]).
  set (keep := fun c => negb _).
  assert (Hloop : forall r pre out fuel, mem = pre ++ r ++ [0] ->
    Forall (fun c => c <> 0 /\ c <> 34 /\ c <> 47) r -> (List.length r < fuel)%nat ->
    minify_loop mem fuel (List.length pre) out = Ok (out ++ List.filter keep r)).
  { induction r as [|c r IH]; intros pre out fuel E Hr Hf; (destruct fuel as [|f]; [simpl in Hf; lia|]);
      cbn [minify_loop]; unfold byte_at.
    - assert (Hat : mem !! List.length pre = Some 0) by (rewrite E; by apply list_lookup_middle).
      rewrite Hat. cbn. by rewrite app_nil_r.
    - assert (Hat : mem !! List.length pre = Some c) by (rewrite E; by apply list_lookup_middle).
      rewrite Hat. cbn [deref obind]. inversion Hr as [|? ? (H0 & H34 & H47) Hr']; subst x l.
      destruct (Z.eqb_spec c 0); [done|].
      assert (E' : mem = (pre ++ [c]) ++ r ++ [0]) by by rewrite E, <- app_assoc.
      assert (El : S (List.length pre) = List.length (pre ++ [c])) by (rewrite length_app; simpl; lia).
      rewrite El. cbn [List.filter]. unfold keep at 1.
      destruct ((c =? 32) || (c =? 9) || (c =? 13) || (c =? 10)) eqn:Eb; cbn [negb].
      + apply IH; [done|done|simpl in Hf; lia].
      + destruct (Z.eqb_spec c 47); [done|]. cbn [obind Z.eqb]. destruct (Z.eqb_spec c 34); [done|].
        rewrite IH by (done || simpl in Hf; lia). by rewrite <- app_assoc. }
  rewrite (Hloop s [] [] _ eq_refl Hs) by (unfold mem; rewrite length_app; simpl; lia). cbn [obind app].
  rewrite cstr_of_nonzero; [done|]. apply Forall_forall. intros c Hc%list_elem_of_In.
  apply filter_In in Hc as [Hc _]. rewrite Forall_forall in Hnz. apply Hnz. by apply list_elem_of_In.
Qed.

Lemma cJSON_Minify_witness : cJSON_Minify (bytes_of "[ 1, 2 ]") = Ok (bytes_of "[1,2]").
Proof.
  rewrite cJSON_Minify_blanks; [reflexivity|]. repeat (constructor; [done|]). constructor.
Defined.

(** The replacement keeps its own name: a new item put in place of the member
    a of an object with just that member cannot be found under a, and the case
    sensitive search dereferences its missing name. *)
Lemma replace_member_loses_name z z' :
  let o := mkcJSON cJSON_Object None 0 d0 None [mkcJSON cJSON_Number None z (d_of_Z z) (Some [97]) []] in
  exists o', cJSON_ReplaceItemInObject (Some o) (Some [97]) (Some (number_item z')) = Ok (Some o') /\
    child o' = [number_item z'] /\ cJSON_GetObjectItem (Some o') (Some [97]) = Ok None /\
    cJSON_GetObjectItemCaseSensitive (Some o') (Some [97]) = UB.
Proof. cbv zeta. eexists. split; [reflexivity|]. by repeat split. Qed.

(** The predicates tell the types the library makes apart, whatever flags an
    item has, and cJSON_IsBool is the disjunction it stands for. *)
Lemma kinds_exclusive item : valid_type (Z.land (type item) 255) = true ->
  let i := Some item in
  List.length (List.filter id [cJSON_IsFalse i; cJSON_IsTrue i; cJSON_IsNull i; cJSON_IsNumber i; cJSON_IsString i; cJSON_IsArray i;
    cJSON_IsObject i; cJSON_IsRaw i]) = 1%nat /\ cJSON_IsInvalid i = false /\ cJSON_IsBool i = cJSON_IsFalse i || cJSON_IsTrue i.
Proof.
  unfold valid_type. intros H. cbv zeta. unfold cJSON_IsBool, cJSON_IsInvalid, cJSON_IsFalse, cJSON_IsTrue, cJSON_IsNull, cJSON_IsNumber,
    cJSON_IsString, cJSON_IsArray, cJSON_IsObject, cJSON_IsRaw, has_kind.
  assert (E : Z.land (type item) (Z.lor cJSON_True cJSON_False) = Z.land (Z.land (type item) 255) 3) by (by rewrite <- Z.land_assoc).
  rewrite E. rewrite !orb_true_iff, !Z.eqb_eq in H. by destruct H as [[[[[[[H|H]|H]|H]|H]|H]|H]|H]; rewrite H.
Qed.
