(* ===== verification/CjsonMem.v ===== *)
(** * cJSON items in memory (cjson.c: cJSON_Delete, suffix_object,
    cJSON_AddItemToArray, the Create...Array family)

    CjsonTree.v has trees; here items are blocks of a heap with the pointers of
    the C structure, and freeing a block that is not live is undefined.  The
    operations are proved to implement those of CjsonTree.v and to free exactly
    what they should. *)

From coqutil Require Import Datatypes.RecordSetters.
From Stdlib Require Import SpecFloat.
From S2P Require Import Prelude.
From S2P Require Import Cdouble.
From S2P Require Import CjsonData.
From S2P Require Import CjsonTree.
From stdpp Require Import base numbers gmap list.
Import DoubleBraceUpdate.

Open Scope Z_scope.
Open Scope c_scope.

(** struct cJSON *)
Record node := mk_node
  { n_next : option Z;
    n_prev : option Z;
    n_child : option Z;
    n_type : Z;
    n_valuestring : option Z;
    n_string : option Z;
    n_int : Z;
    n_double : double }.

Record heap := mk_heap
  { nodes : gmap Z node;
    texts : gmap Z bytes;
    next_free : Z }.

Definition is_reference (t : Z) : bool := negb (Z.land t cJSON_IsReference =? 0).
Definition string_is_const (t : Z) : bool := negb (Z.land t cJSON_StringIsConst =? 0).

Section Mem.
(** Which allocations succeed, by their address. *)
Variable allocate_ok : Z -> bool.

Definition upd (a : Z) (f : node -> node) (h : heap) : outcome heap :=
  let! n := deref (nodes h !! a) in Ok (h {{ nodes := <[a := f n]> (nodes h) }}).

Definition free_node (a : Z) (h : heap) : outcome heap :=
  let! _ := deref (nodes h !! a) in Ok (h {{ nodes := delete a (nodes h) }}).

Definition free_text (p : option Z) (h : heap) : outcome heap :=
  match p with
  | None => Ok h
  | Some a => let! _ := deref (texts h !! a) in Ok (h {{ texts := delete a (texts h) }})
  end.

(** cJSON_Delete: the chain of siblings from an item on. *)
Fixpoint cJSON_Delete (fuel : nat) (item : option Z) (h : heap) : outcome heap :=
  match item with
  | None => Ok h
  | Some a =>
      match fuel with
      | O => Fuel
      | S fuel =>
          let! n := deref (nodes h !! a) in
          let! h := if is_reference (n_type n) then Ok h else cJSON_Delete fuel (n_child n) h in
          let! h := if is_reference (n_type n) then Ok h else free_text (n_valuestring n) h in
          let! h := if string_is_const (n_type n) then Ok h else free_text (n_string n) h in
          let! h := free_node a h in
          cJSON_Delete fuel (n_next n) h
      end
  end.

Definition blank_node : node := mk_node None None None 0 None None 0 d0.

Definition new_item (n : node) (h : heap) : option Z * heap :=
  let a := next_free h in
  if allocate_ok a then (Some a, h {{ nodes := <[a := n]> (nodes h); next_free := a + 1 }})
  else (None, h {{ next_free := a + 1 }}).

(** cJSON_CreateNumber and cJSON_CreateArray: the item is filled in at once. *)
Definition cJSON_CreateNumber (num : double) (h : heap) : outcome (option Z * heap) :=
  Ok (new_item (blank_node {{ n_type := cJSON_Number; n_double := num; n_int := saturate num }}) h).

Definition cJSON_CreateArray (h : heap) : option Z * heap := new_item (blank_node {{ n_type := cJSON_Array }}) h.

Definition cJSON_strdup (s : bytes) (h : heap) : option Z * heap :=
  let a := next_free h in
  if allocate_ok a then (Some a, h {{ texts := <[a := cstr_of s]> (texts h); next_free := a + 1 }})
  else (None, h {{ next_free := a + 1 }}).

Definition cJSON_CreateString (s : bytes) (h : heap) : outcome (option Z * heap) :=
  let '(item, h) := new_item (blank_node {{ n_type := cJSON_String }}) h in
  match item with
  | None => Ok (None, h)
  | Some a =>
      let '(v, h) := cJSON_strdup s h in
      match v with
      | Some _ => let! h := upd a (fun n => n {{ n_valuestring := v }}) h in Ok (Some a, h)
      | None => let! h := cJSON_Delete 2 (Some a) h in Ok (None, h)
      end
  end.

Definition suffix_object (prev item : Z) (h : heap) : outcome heap :=
  let! h := upd prev (fun n => n {{ n_next := Some item }}) h in
  upd item (fun n => n {{ n_prev := Some prev }}) h.

(** The end of a chain of siblings. *)
Fixpoint last_sibling (fuel : nat) (child : Z) (h : heap) : outcome Z :=
  match fuel with
  | O => Fuel
  | S fuel =>
      let! n := deref (nodes h !! child) in
      match n_next n with
      | Some c => last_sibling fuel c h
      | None => Ok child
      end
  end.

Definition cJSON_AddItemToArray (fuel : nat) (array item : option Z) (h : heap) : outcome heap :=
  match item, array with
  | Some i, Some a =>
      let! n := deref (nodes h !! a) in
      match n_child n with
      | None => upd a (fun n => n {{ n_child := Some i }}) h
      | Some child => let! c := last_sibling fuel child h in suffix_object c i h
      end
  | _, _ => Ok h
  end.

(** The loop of the Create...Array family over the [count] elements the caller
    points to: [p] is the last item so far, [len] their number. *)
Fixpoint create_items {A} (create : A -> heap -> outcome (option Z * heap)) (a : Z) (p : option Z) (len : nat)
    (count : nat) (l : list A) (h : heap) : outcome (option Z * heap) :=
  match count with
  | O => Ok (Some a, h)
  | S count =>
      let! x := deref (head l) in
      let! r := create x h in
      let '(n, h) := r in
      match n with
      | None => let! h := cJSON_Delete (len + 2) (Some a) h in Ok (None, h)
      | Some n =>
          let! h := match p with
                    | None => upd a (fun m => m {{ n_child := Some n }}) h
                    | Some p => suffix_object p n h
                    end in
          create_items create a (Some n) (S len) count (tail l) h
      end
  end.

Definition create_array {A} (create : A -> heap -> outcome (option Z * heap)) (l : list A) (count : Z) (h : heap)
    : outcome (option Z * heap) :=
  if count <? 0 then Ok (None, h)
  else
    let '(a, h) := cJSON_CreateArray h in
    match a with
    | None => Ok (None, h)
    | Some a => create_items create a None 0 (Z.to_nat count) l h
    end.

Definition cJSON_CreateIntArray (numbers : list Z) := create_array (fun z => cJSON_CreateNumber (d_of_Z z)) numbers.
Definition cJSON_CreateFloatArray (numbers : list double) := create_array cJSON_CreateNumber numbers.
Definition cJSON_CreateDoubleArray (numbers : list double) := create_array cJSON_CreateNumber numbers.
Definition cJSON_CreateStringArray (strings : list bytes) := create_array cJSON_CreateString strings.
End Mem.

(** ** Trees with addresses *)

(** An item with the addresses of its blocks.  What a reference shares and a
    constant name are only pointers. *)
#[warnings="-register-all"]
Inductive ptree : Type := PNode
  { p_addr : Z;
    p_type : Z;
    p_text : option (Z * bytes);
    p_name : option (Z * bytes);
    p_int : Z;
    p_double : double;
    p_shared : option Z * option Z * option Z;
    p_kids : list ptree }.

Definition head_addr (l : list ptree) : option Z := p_addr <$> head l.

Definition node_of (x : ptree) (prev next : option Z) : node :=
  let '(c, v, s) := p_shared x in
  mk_node next prev
    (if is_reference (p_type x) then c else head_addr (p_kids x)) (p_type x)
    (if is_reference (p_type x) then v else fst <$> p_text x)
    (if string_is_const (p_type x) then s else fst <$> p_name x) (p_int x) (p_double x).

(** A reference owns neither children nor text, an item with a constant name
    no name. *)
Fixpoint owns (x : ptree) : Prop :=
  (is_reference (p_type x) = true -> p_kids x = [] /\ p_text x = None) /\
  (string_is_const (p_type x) = true -> p_name x = None) /\
  (fix go l := match l with [] => True | y :: l => owns y /\ go l end) (p_kids x).

(** The items of a tree and of a chain of siblings, with their contents. *)
Fixpoint cells (x : ptree) (prev next : option Z) : list (Z * node) :=
  (p_addr x, node_of x prev next) ::
  (fix go prev l := match l with [] => [] | y :: l => cells y prev (head_addr l) ++ go (Some (p_addr y)) l end)
    None (p_kids x).

Fixpoint chain (prev : option Z) (l : list ptree) : list (Z * node) :=
  match l with [] => [] | y :: l => cells y prev (head_addr l) ++ chain (Some (p_addr y)) l end.

Definition opt_list {A} (o : option A) : list A := match o with Some x => [x] | None => [] end.

Fixpoint strings (x : ptree) : list (Z * bytes) :=
  opt_list (p_text x) ++ opt_list (p_name x) ++
  (fix go l := match l with [] => [] | y :: l => strings y ++ go l end) (p_kids x).

Fixpoint all_strings (l : list ptree) : list (Z * bytes) :=
  match l with [] => [] | y :: l => strings y ++ all_strings l end.

Lemma cells_eq x prev next : cells x prev next = (p_addr x, node_of x prev next) :: chain None (p_kids x).
Proof. destruct x. reflexivity. Qed.

Lemma strings_eq x : strings x = opt_list (p_text x) ++ opt_list (p_name x) ++ all_strings (p_kids x).
Proof. destruct x. reflexivity. Qed.

Lemma owns_eq x : owns x <->
  (is_reference (p_type x) = true -> p_kids x = [] /\ p_text x = None) /\
  (string_is_const (p_type x) = true -> p_name x = None) /\ Forall owns (p_kids x).
Proof.
  destruct x as [a t tx nm z d sh ks]. cbn [owns p_type p_kids p_text p_name].
  assert (H : forall l, (fix go l := match l with [] => True | y :: l => owns y /\ go l end) l <-> Forall owns l).
  { induction l as [|y l IH]; [by split|]. rewrite IH, Forall_cons. done. }
  by rewrite H.
Qed.

(** ** Where a chain lies, and what freeing it means *)

Definition addrs {A} (l : list (Z * A)) : list Z := map fst l.

(** The chain lies in the heap, in blocks of its own. *)
Record holds (h : heap) (prev : option Z) (l : list ptree) : Prop := {
  ho_nodes : forall a n, (a, n) ∈ chain prev l -> nodes h !! a = Some n;
  ho_texts : forall a t, (a, t) ∈ all_strings l -> texts h !! a = Some t;
  ho_own_nodes : NoDup (addrs (chain prev l));
  ho_own_texts : NoDup (addrs (all_strings l));
  ho_owns : Forall owns l }.

(** The blocks [ns] and [ts] are gone, the others are as before. *)
Record freed (h h' : heap) (ns ts : list Z) : Prop := {
  fr_nodes : forall a, nodes h' !! a = if bool_decide (a ∈ ns) then None else nodes h !! a;
  fr_texts : forall a, texts h' !! a = if bool_decide (a ∈ ts) then None else texts h !! a;
  fr_next : next_free h' = next_free h }.

Lemma freed_nil h : freed h h [] [].
Proof. constructor; try done; intros a; by rewrite bool_decide_eq_false_2 by apply not_elem_of_nil. Qed.

Lemma freed_app h1 h2 h3 ns1 ts1 ns2 ts2 : freed h1 h2 ns1 ts1 -> freed h2 h3 ns2 ts2 -> freed h1 h3 (ns1 ++ ns2) (ts1 ++ ts2).
Proof.
  intros [A1 A2 A3] [B1 B2 B3]. constructor; [| |congruence]; intros a.
  - rewrite B1, A1. repeat case_bool_decide; set_solver.
  - rewrite B2, A2. repeat case_bool_decide; set_solver.
Qed.

(** A chain is not touched by freeing other blocks. *)
Lemma holds_freed h h' prev l ns ts : holds h prev l -> freed h h' ns ts ->
  (forall a, a ∈ addrs (chain prev l) -> a ∉ ns) -> (forall a, a ∈ addrs (all_strings l) -> a ∉ ts) -> holds h' prev l.
Proof.
  intros [H1 H2 H3 H4 H5] [F1 F2 _] D1 D2. constructor; try done.
  - intros a n Ha. rewrite F1, bool_decide_eq_false_2 by (apply D1, list_elem_of_fmap; by exists (a, n)). by apply H1.
  - intros a n Ha. rewrite F2, bool_decide_eq_false_2 by (apply D2, list_elem_of_fmap; by exists (a, n)). by apply H2.
Qed.

(** A heap with just the blocks of a chain. *)
Definition heap_of (l : list ptree) (n : Z) : heap := mk_heap (list_to_map (chain None l)) (list_to_map (all_strings l)) n.

Lemma heap_of_holds l n : NoDup (addrs (chain None l)) -> NoDup (addrs (all_strings l)) -> Forall owns l -> holds (heap_of l n) None l.
Proof. intros H1 H2 H3. constructor; try done; intros a v Ha; by apply elem_of_list_to_map_1. Qed.

(** ** cJSON_Delete *)

Lemma holds_cons h prev x l : holds h prev (x :: l) ->
  nodes h !! p_addr x = Some (node_of x prev (head_addr l)) /\ holds h None (p_kids x) /\ holds h (Some (p_addr x)) l /\
  owns x /\ (forall a t, (a, t) ∈ opt_list (p_text x) ++ opt_list (p_name x) -> texts h !! a = Some t) /\
  NoDup (addrs (opt_list (p_text x) ++ opt_list (p_name x))) /\
  (forall a, a ∈ addrs (chain None (p_kids x)) -> a <> p_addr x /\ a ∉ addrs (chain (Some (p_addr x)) l)) /\
  p_addr x ∉ addrs (chain (Some (p_addr x)) l) /\
  (forall a, a ∈ addrs (opt_list (p_text x) ++ opt_list (p_name x)) ->
     a ∉ addrs (all_strings (p_kids x)) /\ a ∉ addrs (all_strings l)) /\
  (forall a, a ∈ addrs (all_strings (p_kids x)) -> a ∉ addrs (all_strings l)).
Proof.
  intros [H1 H2 H3 H4 H5]. cbn [chain all_strings] in *. rewrite cells_eq, strings_eq in *. cbn [app] in *.
  inversion H5 as [|? ? Hx Hl]; subst. unfold addrs in *. cbn [map fst] in H3. rewrite !map_app in *.
  apply NoDup_cons in H3 as [N1 N2]. apply NoDup_app in N2 as (N2 & N3 & N4).
  rewrite <- !app_assoc in H4. rewrite app_assoc in H4. apply NoDup_app in H4 as (T1 & T2 & T3).
  apply NoDup_app in T3 as (T3 & T4 & T5).
  apply owns_eq in Hx as Hx'. destruct Hx' as (_ & _ & Hk).
  split; [apply H1; by left|]. split.
  { constructor; try done.
    - intros a n Ha. apply H1. right. apply elem_of_app. by left.
    - intros a t Ha. apply H2. rewrite !elem_of_app. tauto. }
  split.
  { constructor; try done.
    - intros a n Ha. apply H1. right. apply elem_of_app. by right.
    - intros a t Ha. apply H2. rewrite !elem_of_app. tauto. }
  split; [done|]. split.
  { intros a t Ha. apply H2. rewrite !elem_of_app in *. tauto. }
  split; [done|]. split; [|split; [|split]].
  - intros a Ha. split; [intros ->; apply N1; rewrite elem_of_app; by left|]. by apply N3.
  - intros Ha. apply N1. rewrite elem_of_app. by right.
  - intros a Ha. apply T2 in Ha. rewrite elem_of_app in Ha. tauto.
  - exact T4.
Qed.

Lemma free_text_ok h (p : option (Z * bytes)) : (forall a t, (a, t) ∈ opt_list p -> texts h !! a = Some t) ->
  exists h', free_text (fst <$> p) h = Ok h' /\ freed h h' [] (addrs (opt_list p)).
Proof.
  destruct p as [[a t]|]; intros H; [|exists h; split; [done|apply freed_nil]].
  cbn. rewrite (H a t) by (by left). cbn [deref obind]. eexists. split; [done|]. constructor; cbn; unfold constant; try done.
  intros b. destruct (decide (a = b)) as [->|Hne].
  - rewrite lookup_delete_eq, bool_decide_eq_true_2 by (by left). done.
  - rewrite lookup_delete_ne, bool_decide_eq_false_2; [done| |done]. intros ->%list_elem_of_singleton. done.
Qed.

Lemma free_node_ok h a n : nodes h !! a = Some n -> exists h', free_node a h = Ok h' /\ freed h h' [a] [].
Proof.
  intros H. unfold free_node. rewrite H. cbn [deref obind]. eexists. split; [done|]. constructor; cbn; unfold constant; try done.
  intros b. destruct (decide (a = b)) as [->|Hne].
  - rewrite lookup_delete_eq, bool_decide_eq_true_2 by (by left). done.
  - rewrite lookup_delete_ne, bool_decide_eq_false_2; [done| |done]. intros ->%list_elem_of_singleton. done.
Qed.

Lemma freed_perm h h' ns ts ns' ts' : freed h h' ns ts -> (forall a, a ∈ ns <-> a ∈ ns') -> (forall a, a ∈ ts <-> a ∈ ts') ->
  freed h h' ns' ts'.
Proof.
  intros [F1 F2 F3] Hn Ht. constructor; [| |done]; intros a; [rewrite F1|rewrite F2]; by (erewrite bool_decide_ext; [|first [apply Hn|apply Ht]]).
Qed.

(** The two texts of an item. *)
Lemma free_texts_ok h x : owns x ->
  (forall a t, (a, t) ∈ opt_list (p_text x) ++ opt_list (p_name x) -> texts h !! a = Some t) ->
  NoDup (addrs (opt_list (p_text x) ++ opt_list (p_name x))) ->
  exists h1 h2,
    (if is_reference (p_type x) then Ok h else free_text (fst <$> p_text x) h) = Ok h1 /\
    (if string_is_const (p_type x) then Ok h1 else free_text (fst <$> p_name x) h1) = Ok h2 /\
    freed h h2 [] (addrs (opt_list (p_text x) ++ opt_list (p_name x))).
Proof.
  intros (Hr & Hc & _)%owns_eq Ht Hn. unfold addrs in *. rewrite map_app in *. apply NoDup_app in Hn as (_ & Hd & _).
  assert (H1 : exists h1, (if is_reference (p_type x) then Ok h else free_text (fst <$> p_text x) h) = Ok h1 /\
    freed h h1 [] (map fst (opt_list (p_text x)))).
  { destruct (is_reference (p_type x)).
    - destruct (Hr eq_refl) as [_ ->]. exists h. split; [done|apply freed_nil].
    - apply free_text_ok. intros a t Ha. apply Ht, elem_of_app. by left. }
  destruct H1 as (h1 & E1 & F1). exists h1.
  assert (H2 : exists h2, (if string_is_const (p_type x) then Ok h1 else free_text (fst <$> p_name x) h1) = Ok h2 /\
    freed h1 h2 [] (map fst (opt_list (p_name x)))).
  { destruct (string_is_const (p_type x)).
    - rewrite (Hc eq_refl). exists h1. split; [done|apply freed_nil].
    - apply free_text_ok. intros a t Ha. rewrite (fr_texts _ _ _ _ F1), bool_decide_eq_false_2.
      + apply Ht, elem_of_app. by right.
      + intros Hx. apply (Hd a Hx). apply list_elem_of_fmap. by exists (a, t). }
  destruct H2 as (h2 & E2 & F2). exists h2. split; [done|]. split; [done|]. exact (freed_app _ _ _ _ _ _ _ F1 F2).
Qed.

(** Deleting a chain frees its blocks, each once, and no others. *)
Lemma delete_chain fuel : forall h prev l, holds h prev l -> (List.length (chain prev l) < fuel)%nat ->
  exists h', cJSON_Delete fuel (head_addr l) h = Ok h' /\ freed h h' (addrs (chain prev l)) (addrs (all_strings l)).
Proof.
  induction fuel as [|fuel IH]; intros h prev l Hh Hf; [lia|]. destruct l as [|x l]; [exists h; split; [done|apply freed_nil]|].
  destruct (holds_cons h prev x l Hh) as (Hx & Hk & Hl & Ho & Ht & Htn & Dk & Dx & Dt & Ds).
  cbn [chain] in Hf. rewrite cells_eq in Hf. cbn [app List.length] in Hf. rewrite length_app in Hf.
  unfold head_addr. cbn [head fmap option_fmap option_map cJSON_Delete]. rewrite Hx. cbn [deref obind].
  set (n := node_of x prev (head_addr l)).
  assert (En : n_type n = p_type x /\ n_next n = head_addr l /\
    (is_reference (p_type x) = false -> n_child n = head_addr (p_kids x) /\ n_valuestring n = fst <$> p_text x) /\
    (string_is_const (p_type x) = false -> n_string n = fst <$> p_name x)).
  { unfold n, node_of. destruct (p_shared x) as [[c v] s]. cbn. destruct (is_reference _), (string_is_const _); by repeat split. }
  destruct En as (-> & -> & En1 & En2).
  assert (Hdk : exists h1, (if is_reference (p_type x) then Ok h else cJSON_Delete fuel (n_child n) h) = Ok h1 /\
    freed h h1 (addrs (chain None (p_kids x))) (addrs (all_strings (p_kids x)))).
  { pose proof (proj1 (owns_eq x) Ho) as (Hr & _). destruct (is_reference (p_type x)).
    - destruct (Hr eq_refl) as [-> _]. exists h. split; [done|apply freed_nil].
    - destruct (En1 eq_refl) as [-> _]. apply IH; [done|lia]. }
  destruct Hdk as (h1 & -> & F1). cbn [obind].
  destruct (free_texts_ok h1 x Ho) as (h2 & h3 & E2 & E3 & F3).
  { intros a t Ha. rewrite (fr_texts _ _ _ _ F1), bool_decide_eq_false_2; [by apply Ht|].
    apply (Dt a). apply list_elem_of_fmap. by exists (a, t). }
  { done. }
  replace (if is_reference (p_type x) then Ok h1 else free_text (n_valuestring n) h1) with (Ok h2)
    by (rewrite <- E2; destruct (is_reference _); [done|by destruct (En1 eq_refl) as [_ ->]]). cbn [obind].
  replace (if string_is_const (p_type x) then Ok h2 else free_text (n_string n) h2) with (Ok h3)
    by (rewrite <- E3; destruct (string_is_const _); [done|by rewrite En2]). cbn [obind].
  destruct (free_node_ok h3 (p_addr x) n) as (h4 & -> & F4).
  { rewrite (fr_nodes _ _ _ _ F3), bool_decide_eq_false_2 by apply not_elem_of_nil.
    rewrite (fr_nodes _ _ _ _ F1), bool_decide_eq_false_2; [done|]. intros Ha. by apply Dk in Ha as [? _]. }
  cbn [obind]. pose proof (freed_app _ _ _ _ _ _ _ (freed_app _ _ _ _ _ _ _ F1 F3) F4) as F.
  destruct (IH h4 (Some (p_addr x)) l) as (h5 & -> & F5).
  { eapply holds_freed; [exact Hl|exact F| |].
    - intros a Ha Hb. rewrite !elem_of_app in Hb. destruct Hb as [[Hb|Hb%elem_of_nil]|Hb%list_elem_of_singleton]; [|done|congruence].
      by apply Dk in Hb as [_ ?].
    - intros a Ha Hb. rewrite !elem_of_app in Hb. destruct Hb as [[Hb|Hb]|Hb%elem_of_nil]; [| |done].
      + by apply (Ds a Hb).
      + by apply (Dt a Hb). }
  { lia. }
  exists h5. split; [done|]. eapply freed_perm; [exact (freed_app _ _ _ _ _ _ _ F F5)| |]; intros a; cbn [chain all_strings];
    rewrite ?cells_eq, ?strings_eq; unfold addrs; cbn [app map fst]; rewrite ?map_app, ?elem_of_cons, ?elem_of_app, ?elem_of_cons, ?elem_of_nil; tauto.
Qed.

(** ** Chains, piece by piece *)

Definition head_or (l : list ptree) (nx : option Z) : option Z := match l with [] => nx | x :: _ => Some (p_addr x) end.

Definition last_or (pv : option Z) (l : list ptree) : option Z := match last l with Some x => Some (p_addr x) | None => pv end.

(** A chain that goes on with [nx]. *)
Fixpoint chain_to (prev : option Z) (l : list ptree) (nx : option Z) : list (Z * node) :=
  match l with [] => [] | y :: l => cells y prev (head_or l nx) ++ chain_to (Some (p_addr y)) l nx end.

Lemma chain_to_end prev l : chain_to prev l None = chain prev l.
Proof.
  revert prev. induction l as [|y l IH]; intros prev; [done|]. cbn [chain_to chain]. rewrite IH. f_equal. by destruct l.
Qed.

Lemma last_or_cons pv x l : last_or pv (x :: l) = last_or (Some (p_addr x)) l.
Proof. unfold last_or. rewrite last_cons. by destruct (last l). Qed.

Lemma chain_to_app prev l1 l2 nx :
  chain_to prev (l1 ++ l2) nx = chain_to prev l1 (head_or l2 nx) ++ chain_to (last_or prev l1) l2 nx.
Proof.
  revert prev. induction l1 as [|x l1 IH]; intros prev; [done|]. cbn [chain_to app]. rewrite IH, last_or_cons, <- app_assoc.
  f_equal. by destruct l1.
Qed.

Definition in_map {A} (m : gmap Z A) (l : list (Z * A)) : Prop := forall a n, (a, n) ∈ l -> m !! a = Some n.

(** One cell changes. *)
Lemma in_map_insert {A} (m : gmap Z A) l1 a n n' l2 : in_map m (l1 ++ (a, n) :: l2) -> NoDup (addrs (l1 ++ (a, n) :: l2)) ->
  in_map (<[a := n']> m) (l1 ++ (a, n') :: l2).
Proof.
  intros H Hn b k. unfold addrs in Hn. rewrite map_app in Hn. cbn [map fst] in Hn.
  apply NoDup_app in Hn as (_ & Hd & [Ha _]%NoDup_cons).
  assert (Hne : forall k, (b, k) ∈ l1 \/ (b, k) ∈ l2 -> a <> b).
  { intros k' [Hb|Hb] ->.
    - apply (Hd b); [apply list_elem_of_fmap; by exists (b, k')|by left].
    - apply Ha. apply list_elem_of_fmap. by exists (b, k'). }
  rewrite elem_of_app, elem_of_cons. intros [Hb|[[= -> ->]|Hb]].
  - rewrite lookup_insert_ne by (apply (Hne k); by left). apply H, elem_of_app. by left.
  - apply lookup_insert_eq.
  - rewrite lookup_insert_ne by (apply (Hne k); by right). apply H. rewrite elem_of_app, elem_of_cons. auto.
Qed.

Lemma addrs_change {A} (l1 l2 : list (Z * A)) a n n' : addrs (l1 ++ (a, n) :: l2) = addrs (l1 ++ (a, n') :: l2).
Proof. unfold addrs. by rewrite !map_app. Qed.

(** ** Appending an item *)

Definition with_kids (x : ptree) (ks : list ptree) : ptree :=
  PNode (p_addr x) (p_type x) (p_text x) (p_name x) (p_int x) (p_double x) (p_shared x) ks.

Fixpoint erase (x : ptree) : cJSON :=
  mkcJSON (p_type x) (snd <$> p_text x) (p_int x) (p_double x) (snd <$> p_name x) (map erase (p_kids x)).

(** Nothing but the links of the blocks [l] changes. *)
Definition same_but (l : list Z) (h h' : heap) : Prop :=
  (forall a, a ∉ l -> nodes h' !! a = nodes h !! a) /\ texts h' = texts h /\ next_free h' = next_free h.

Lemma upd_node_ok a f h n : nodes h !! a = Some n -> upd a f h = Ok (h {{ nodes := <[a := f n]> (nodes h) }}).
Proof. intros H. unfold upd. by rewrite H. Qed.

Lemma node_of_links x pv nx nx' : (node_of x pv nx) {{ n_next := nx' }} = node_of x pv nx'.
Proof. unfold node_of. by destruct (p_shared x) as [[? ?] ?]. Qed.

Lemma node_of_prev x pv pv' nx : (node_of x pv nx) {{ n_prev := pv' }} = node_of x pv' nx.
Proof. unfold node_of. by destruct (p_shared x) as [[? ?] ?]. Qed.

(** The cells of an array and an item, before and after: [attached] are those
    of the array with the item. *)
Lemma cells_snoc x ks z y : p_kids x = ks ++ [z] ->
  exists l1 l2, cells x None None ++ cells y None None
      = l1 ++ (p_addr z, node_of z (last_or None ks) None) :: l2 ++ (p_addr y, node_of y None None) :: chain None (p_kids y) /\
    cells (with_kids x (p_kids x ++ [y])) None None
      = l1 ++ (p_addr z, node_of z (last_or None ks) (Some (p_addr y))) :: l2
        ++ (p_addr y, node_of y (Some (p_addr z)) None) :: chain None (p_kids y).
Proof.
  intros E. exists ((p_addr x, node_of x None None) :: chain_to None ks (Some (p_addr z))), (chain None (p_kids z)).
  rewrite !cells_eq, E, <- !chain_to_end. cbn [with_kids p_kids p_addr]. rewrite <- app_assoc. cbn [app].
  rewrite !chain_to_app. cbn [head_or chain_to app]. rewrite !cells_eq, !app_nil_r. cbn [app].
  assert (En : node_of (with_kids x (ks ++ [z; y])) None None = node_of x None None).
  { unfold node_of. cbn. rewrite E. by destruct ks. }
  rewrite En, !chain_to_end. split; [by rewrite <- app_assoc|done].
Qed.

(** The array and the item lie in blocks of their own. *)
Record separate (h : heap) (x y : ptree) : Prop := {
  se_array : holds h None [x];
  se_item : holds h None [y];
  se_nodes : forall a, a ∈ addrs (chain None [x]) -> a ∉ addrs (chain None [y]);
  se_texts : forall a, a ∈ addrs (all_strings [x]) -> a ∉ addrs (all_strings [y]) }.

Lemma holds_one h x : holds h None [x] <->
  in_map (nodes h) (cells x None None) /\ in_map (texts h) (strings x) /\
  NoDup (addrs (cells x None None)) /\ NoDup (addrs (strings x)) /\ owns x.
Proof.
  assert (E1 : chain None [x] = cells x None None) by (cbn [chain]; apply app_nil_r).
  assert (E2 : all_strings [x] = strings x) by (cbn [all_strings]; apply app_nil_r).
  split.
  - intros [H1 H2 H3 H4 H5]. rewrite E1, E2 in *. inversion H5; subst. by repeat split.
  - intros (H1 & H2 & H3 & H4 & H5). constructor; rewrite ?E1, ?E2; [exact H1|exact H2|done|done|by constructor].
Qed.

Lemma separate_cells h x y : separate h x y ->
  in_map (nodes h) (cells x None None ++ cells y None None) /\ NoDup (addrs (cells x None None ++ cells y None None)) /\
  in_map (texts h) (strings x ++ strings y) /\ NoDup (addrs (strings x ++ strings y)) /\ owns x /\ owns y.
Proof.
  intros [(A1 & A2 & A3 & A4 & A5)%holds_one (B1 & B2 & B3 & B4 & B5)%holds_one D1 D2].
  cbn [chain all_strings] in D1, D2. rewrite !app_nil_r in D1, D2. unfold addrs in *. rewrite !map_app.
  split; [intros a n [?|?]%elem_of_app; auto|]. split; [by apply NoDup_app|].
  split; [intros a n [?|?]%elem_of_app; auto|]. split; [by apply NoDup_app|]. by split.
Qed.

Lemma strings_add x y : strings (with_kids x (p_kids x ++ [y])) = strings x ++ strings y.
Proof.
  rewrite (strings_eq x), strings_eq. cbn [with_kids p_text p_name p_kids].
  rewrite <- !app_assoc. do 2 f_equal. induction (p_kids x) as [|k l IH]; cbn [app all_strings]; [by rewrite app_nil_r|].
  by rewrite IH, app_assoc.
Qed.

Lemma owns_add x y : owns x -> owns y -> is_reference (p_type x) = false -> owns (with_kids x (p_kids x ++ [y])).
Proof.
  intros Hx Hy Hr. apply owns_eq in Hx as (H1 & H2 & H3). apply owns_eq. cbn [with_kids p_type p_kids p_text p_name].
  rewrite Hr. split; [done|]. split; [done|]. apply Forall_app. split; [done|by constructor].
Qed.

(** What holds of the array with the item, once its cells are in the heap. *)
Lemma holds_added h h' x y : separate h x y -> is_reference (p_type x) = false -> texts h' = texts h ->
  in_map (nodes h') (cells (with_kids x (p_kids x ++ [y])) None None) ->
  addrs (cells (with_kids x (p_kids x ++ [y])) None None) = addrs (cells x None None ++ cells y None None) ->
  holds h' None [with_kids x (p_kids x ++ [y])].
Proof.
  intros (_ & N & T & Tn & Hx & Hy)%separate_cells Hr Et Hin Ea.
  apply holds_one. rewrite Et, Ea, strings_add. split; [done|]. split; [done|]. split; [done|]. split; [done|]. by apply owns_add.
Qed.

(** Linking an item behind the last child. *)
Lemma link_ok h x ks z y : separate h x y -> is_reference (p_type x) = false -> p_kids x = ks ++ [z] ->
  exists h', suffix_object (p_addr z) (p_addr y) h = Ok h' /\ holds h' None [with_kids x (p_kids x ++ [y])] /\
    same_but [p_addr z; p_addr y] h h'.
Proof.
  intros Hs Hr Ek. destruct (separate_cells h x y Hs) as (Hin & Hn & _).
  destruct (cells_snoc x ks z y Ek) as (l1 & l2 & E1 & E2). rewrite E1 in Hin, Hn.
  assert (Hz : nodes h !! p_addr z = Some (node_of z (last_or None ks) None)) by (apply Hin; rewrite elem_of_app, elem_of_cons; auto).
  assert (Hy : nodes h !! p_addr y = Some (node_of y None None))
    by (apply Hin; rewrite elem_of_app, elem_of_cons, elem_of_app, elem_of_cons; auto).
  assert (Hne : p_addr z <> p_addr y).
  { intros E. unfold addrs in Hn. rewrite map_app in Hn. apply NoDup_app in Hn as (_ & _ & Hn). cbn [map fst] in Hn.
    apply NoDup_cons in Hn as [Hn _]. apply Hn. rewrite map_app, elem_of_app. right. rewrite E. by left. }
  unfold suffix_object. rewrite (upd_node_ok _ _ _ _ Hz). cbn [obind]. rewrite node_of_links.
  rewrite (upd_node_ok _ _ _ (node_of y None None)) by (cbn; unfold constant; rewrite lookup_insert_ne by done; exact Hy).
  rewrite node_of_prev. eexists. split; [reflexivity|]. split.
  - apply (holds_added h); [done|done|done| |].
    + rewrite E2. pose proof (in_map_insert _ _ _ _ (node_of z (last_or None ks) (Some (p_addr y))) _ Hin Hn) as H1.
      rewrite (addrs_change _ _ _ _ (node_of z (last_or None ks) (Some (p_addr y)))) in Hn.
      rewrite app_comm_cons, app_assoc in H1, Hn.
      apply (in_map_insert _ _ _ _ (node_of y (Some (p_addr z)) None)) in H1; [|exact Hn].
      rewrite <- app_assoc in H1. exact H1.
    + rewrite E1, E2. unfold addrs. rewrite !map_app. cbn [map fst]. by rewrite !map_app.
  - split; [|by split]. intros a Ha. rewrite !not_elem_of_cons in Ha. cbn. unfold constant.
    rewrite !lookup_insert_ne by (apply not_eq_sym; apply Ha). done.
Qed.

(** The first child. *)
Lemma first_child_ok h x y : separate h x y -> is_reference (p_type x) = false -> p_kids x = [] ->
  exists h', upd (p_addr x) (fun n => n {{ n_child := Some (p_addr y) }}) h = Ok h' /\
    holds h' None [with_kids x (p_kids x ++ [y])] /\ same_but [p_addr x] h h'.
Proof.
  intros Hs Hr Ek. destruct (separate_cells h x y Hs) as (Hin & Hn & _). rewrite (cells_eq x), Ek in Hin, Hn. cbn [chain app] in Hin, Hn.
  rewrite (upd_node_ok _ _ _ (node_of x None None)) by (apply Hin; by left).
  assert (E : (node_of x None None) {{ n_child := Some (p_addr y) }} = node_of (with_kids x [y]) None None).
  { unfold node_of. cbn [with_kids p_shared p_type p_kids p_text p_name p_int p_double]. rewrite Hr. by destruct (p_shared x) as [[? ?] ?]. }
  rewrite E. eexists. split; [reflexivity|]. split.
  - apply (holds_added h); [done|done|done| |]; rewrite Ek; cbn [app].
    + rewrite cells_eq. cbn [with_kids p_kids p_addr chain]. rewrite app_nil_r. cbn [head_addr head fmap option_fmap option_map].
      exact (in_map_insert _ [] _ _ (node_of (with_kids x [y]) None None) _ Hin Hn).
    + rewrite !cells_eq. cbn [with_kids p_kids p_addr]. rewrite Ek. cbn [chain app]. by rewrite app_nil_r, cells_eq.
  - split; [|by split]. intros a Ha. rewrite not_elem_of_cons in Ha. cbn. unfold constant.
    rewrite lookup_insert_ne by (apply not_eq_sym; apply Ha). done.
Qed.

Lemma last_sibling_ok h l : forall x prev fuel, in_map (nodes h) (chain prev (x :: l)) -> (List.length l < fuel)%nat ->
  last_sibling fuel (p_addr x) h = Ok (match last l with Some z => p_addr z | None => p_addr x end).
Proof.
  induction l as [|y l IH]; intros x prev fuel Hin Hf; (destruct fuel as [|fuel]; [lia|]); cbn [last_sibling];
    cbn [chain] in Hin; rewrite cells_eq in Hin; rewrite (Hin (p_addr x) _) by (by left); cbn [deref obind];
    unfold node_of; destruct (p_shared x) as [[? ?] ?]; cbn [n_next head_addr head fmap option_fmap option_map]; [done|].
  rewrite (IH y (Some (p_addr x))); [|intros b n Hb; apply Hin; apply elem_of_app; by right|cbn in Hf; lia].
  rewrite last_cons. by destruct (last l).
Qed.

Lemma kids_in_map h x : in_map (nodes h) (cells x None None) -> in_map (nodes h) (chain None (p_kids x)).
Proof. intros H a n Ha. apply H. rewrite cells_eq. by right. Qed.

(** cJSON_AddItemToArray on the heap. *)
Lemma add_item_ok h x y fuel : separate h x y -> is_reference (p_type x) = false -> (List.length (p_kids x) <= fuel)%nat ->
  exists h', cJSON_AddItemToArray fuel (Some (p_addr x)) (Some (p_addr y)) h = Ok h' /\
    holds h' None [with_kids x (p_kids x ++ [y])] /\ same_but (addrs (cells x None None ++ cells y None None)) h h'.
Proof.
  intros Hs Hr Hf. destruct (separate_cells h x y Hs) as (Hin & _).
  assert (Hx : in_map (nodes h) (cells x None None)) by (intros a n Ha; apply Hin, elem_of_app; by left).
  assert (Hsub : forall l h', same_but l h h' -> (forall a, a ∈ l -> a ∈ addrs (cells x None None ++ cells y None None)) ->
    same_but (addrs (cells x None None ++ cells y None None)) h h').
  { intros l h' (S1 & S2 & S3) Hl. split; [|done]. intros a Ha. apply S1. intros Hb. by apply Ha, Hl. }
  assert (Hxa : p_addr x ∈ addrs (cells x None None ++ cells y None None)) by (rewrite (cells_eq x); by left).
  assert (Hya : p_addr y ∈ addrs (cells x None None ++ cells y None None)).
  { unfold addrs. rewrite map_app, (cells_eq y). apply elem_of_app. right. by left. }
  unfold cJSON_AddItemToArray. rewrite (Hx (p_addr x) (node_of x None None)) by (rewrite cells_eq; by left). cbn [deref obind].
  assert (Ec : n_child (node_of x None None) = head_addr (p_kids x)) by (unfold node_of; destruct (p_shared x) as [[? ?] ?]; cbn; by rewrite Hr).
  rewrite Ec. destruct (p_kids x) as [|k ks] eqn:Ek.
  - cbn [head_addr head fmap option_fmap option_map]. destruct (first_child_ok h x y Hs Hr Ek) as (h' & -> & Hh & Hb). rewrite Ek in Hh.
    exists h'. split; [done|]. split; [done|]. apply (Hsub _ _ Hb). by intros a ->%list_elem_of_singleton.
  - cbn [head_addr head fmap option_fmap option_map]. apply kids_in_map in Hx. rewrite Ek in Hx.
    rewrite (last_sibling_ok h ks k None fuel Hx) by (cbn in Hf; lia). cbn [obind].
    destruct (exists_last (l := k :: ks)) as (ks' & z & Ez); [done|].
    assert (El : match last ks with Some z => p_addr z | None => p_addr k end = p_addr z).
    { assert (E : last (k :: ks) = Some z) by (rewrite Ez; apply last_snoc). rewrite last_cons in E. by destruct (last ks); simplify_eq. }
    rewrite El. destruct (link_ok h x ks' z y Hs Hr) as (h' & -> & Hh & Hb); [congruence|]. rewrite Ek in Hh.
    exists h'. split; [done|]. split; [done|]. apply (Hsub _ _ Hb). intros a Ha. rewrite !elem_of_cons in Ha.
    destruct Ha as [->|[->|?%elem_of_nil]]; [|done|done]. unfold addrs. rewrite map_app. apply elem_of_app. left.
    rewrite cells_eq, Ek, Ez, <- chain_to_end, chain_to_app. cbn [map fst chain_to]. rewrite map_app, (cells_eq z), elem_of_cons, elem_of_app.
    right. right. by left.
Qed.

Lemma erase_add x y : Some (erase (with_kids x (p_kids x ++ [y]))) = CjsonTree.cJSON_AddItemToArray (Some (erase x)) (Some (erase y)).
Proof. destruct x. cbn. unfold set_child. cbn. by rewrite map_app. Qed.

(** ** The Create...Array family *)

(** Live blocks lie below the next address. *)
Record bounded (h : heap) : Prop := {
  bd_nodes : forall a n, nodes h !! a = Some n -> a < next_free h;
  bd_texts : forall a t, texts h !! a = Some t -> a < next_free h }.

(** From [h0] to [h] exactly the blocks of [x] were added, all of them new. *)
Record added (h0 h : heap) (x : ptree) : Prop := {
  ad_holds : holds h None [x];
  ad_nodes : forall a, a ∉ addrs (cells x None None) -> nodes h !! a = nodes h0 !! a;
  ad_texts : forall a, a ∉ addrs (strings x) -> texts h !! a = texts h0 !! a;
  ad_new : forall a, a ∈ addrs (cells x None None) \/ a ∈ addrs (strings x) -> next_free h0 <= a < next_free h;
  ad_next : next_free h0 <= next_free h }.

(** From [h0] to [h] nothing was added. *)
Definition unchanged (h0 h : heap) : Prop := nodes h = nodes h0 /\ texts h = texts h0 /\ next_free h0 <= next_free h.

(** A function that makes an item without children, or nothing. *)
Definition makes {A} (create : A -> heap -> outcome (option Z * heap)) (value : A -> cJSON) : Prop :=
  forall v h, bounded h -> exists r h', create v h = Ok (r, h') /\
    match r with
    | None => unchanged h h'
    | Some n => exists y, p_addr y = n /\ p_kids y = [] /\ erase y = value v /\ added h h' y
    end.

Lemma unchanged_bounded h h' : unchanged h h' -> bounded h -> bounded h'.
Proof.
  intros (E1 & E2 & E3) [B1 B2]. constructor; intros a v; rewrite ?E1, ?E2; [intros H%B1|intros H%B2]; lia.
Qed.

Lemma cell_in {A} (l : list (Z * A)) a : a ∈ addrs l -> exists n, (a, n) ∈ l.
Proof. intros ([b n] & -> & H)%list_elem_of_fmap. by exists n. Qed.

Lemma added_bounded h h' x : added h h' x -> bounded h -> bounded h'.
Proof.
  intros [A1 A2 A3 A4 A5] [B1 B2]. constructor; intros a v Hv.
  - destruct (decide (a ∈ addrs (cells x None None))) as [Ha|Ha]; [by apply A4; left|]. rewrite A2 in Hv by done. apply B1 in Hv. lia.
  - destruct (decide (a ∈ addrs (strings x))) as [Ha|Ha]; [by apply A4; right|]. rewrite A3 in Hv by done. apply B2 in Hv. lia.
Qed.

(** What was made later lies apart. *)
Lemma added_separate h0 h h' x y : added h0 h x -> added h h' y -> separate h' x y.
Proof.
  intros [A1 A2 A3 A4 A5] [B1 B2 B3 B4 B5]. pose proof A1 as (C1 & C2 & C3 & C4 & C5)%holds_one.
  assert (D1 : forall a, a ∈ addrs (cells x None None) -> a ∉ addrs (cells y None None)).
  { intros a Ha Hb. assert (a < next_free h) by (apply A4; by left). assert (next_free h <= a) by (apply B4; by left). lia. }
  assert (D2 : forall a, a ∈ addrs (strings x) -> a ∉ addrs (strings y)).
  { intros a Ha Hb. assert (a < next_free h) by (apply A4; by right). assert (next_free h <= a) by (apply B4; by right). lia. }
  constructor; [|done| |]; [|cbn [chain]; by rewrite !app_nil_r|cbn [all_strings]; by rewrite !app_nil_r].
  apply holds_one. split; [|split; [|done]].
  - intros a n Ha. rewrite B2; [by apply C1|]. apply D1, list_elem_of_fmap. by exists (a, n).
  - intros a t Ha. rewrite B3; [by apply C2|]. apply D2, list_elem_of_fmap. by exists (a, t).
Qed.

Lemma cells_add x y a : is_reference (p_type x) = false ->
  a ∈ addrs (cells (with_kids x (p_kids x ++ [y])) None None) <-> a ∈ addrs (cells x None None ++ cells y None None).
Proof.
  intros Hr. destruct (p_kids x) as [|k ks] eqn:Ek.
  - rewrite !cells_eq, Ek. cbn [with_kids p_kids p_addr app chain]. by rewrite app_nil_r, cells_eq.
  - destruct (exists_last (l := k :: ks)) as (ks' & z & Ez); [done|].
    destruct (cells_snoc x ks' z y) as (l1 & l2 & E1 & E2); [congruence|]. rewrite <- Ek, E1, E2.
    unfold addrs. rewrite !map_app. cbn [map fst]. by rewrite !map_app.
Qed.

(** Adding the item that was made last to the array made before. *)
Lemma added_item h0 h1 h2 h3 x y : is_reference (p_type x) = false -> added h0 h1 x -> added h1 h2 y ->
  holds h3 None [with_kids x (p_kids x ++ [y])] -> same_but (addrs (cells x None None ++ cells y None None)) h2 h3 ->
  added h0 h3 (with_kids x (p_kids x ++ [y])).
Proof.
  intros Hr [A1 A2 A3 A4 A5] [B1 B2 B3 B4 B5] Hh (S1 & S2 & S3). constructor; [done| | | |lia].
  - intros a Ha. rewrite cells_add in Ha by done. rewrite S1 by done. unfold addrs in Ha. rewrite map_app, not_elem_of_app in Ha.
    destruct Ha. by rewrite B2, A2.
  - intros a Ha. rewrite strings_add in Ha. unfold addrs in Ha. rewrite map_app, not_elem_of_app in Ha. destruct Ha. rewrite S2. by rewrite B3, A3.
  - intros a. rewrite cells_add, strings_add by done. unfold addrs. rewrite !map_app, !elem_of_app, S3.
    intros [[H|H]|[H|H]]; [pose proof (A4 a (or_introl H))|pose proof (B4 a (or_introl H))|
      pose proof (A4 a (or_intror H))|pose proof (B4 a (or_intror H))]; lia.
Qed.

(** Deleting what was made restores the heap. *)
Lemma delete_added h0 h x fuel : bounded h0 -> added h0 h x -> (List.length (cells x None None) < fuel)%nat ->
  exists h', cJSON_Delete fuel (Some (p_addr x)) h = Ok h' /\ unchanged h0 h'.
Proof.
  intros [B1 B2] [A1 A2 A3 A4 A5] Hf. destruct (delete_chain fuel h None [x] A1) as (h' & E & [F1 F2 F3]).
  { cbn [chain]. by rewrite app_nil_r. }
  exists h'. split; [exact E|]. cbn [chain all_strings] in F1, F2. rewrite !app_nil_r in F1, F2.
  split; [|split; [|lia]]; apply map_eq; intros a; [rewrite F1|rewrite F2]; case_bool_decide as Ha; [|by apply A2| |by apply A3].
  - destruct (nodes h0 !! a) as [n|] eqn:En; [|done]. apply B1 in En. assert (next_free h0 <= a) by (apply A4; by left). lia.
  - destruct (texts h0 !! a) as [n|] eqn:En; [|done]. apply B2 in En. assert (next_free h0 <= a) by (apply A4; by right). lia.
Qed.

Definition leaf (y : ptree) : Prop := p_kids y = [].

Lemma cells_leaves x : Forall leaf (p_kids x) -> List.length (cells x None None) = S (List.length (p_kids x)).
Proof.
  intros H. rewrite cells_eq. cbn [List.length]. f_equal. generalize (@None Z). induction H as [|y l Hy _ IH]; intros pv; [done|].
  cbn [chain]. rewrite cells_eq, Hy, length_app, IH. reflexivity.
Qed.

Section Create.
Context {A : Type} (allocate_ok : Z -> bool) (create : A -> heap -> outcome (option Z * heap)) (value : A -> cJSON).
Hypothesis Hmakes : makes create value.

Lemma create_items_ok h0 : bounded h0 -> forall count l x h,
  added h0 h x -> is_reference (p_type x) = false -> Forall leaf (p_kids x) -> (count <= List.length l)%nat ->
  exists r h', create_items create (p_addr x) (p_addr <$> last (p_kids x)) (List.length (p_kids x)) count l h = Ok (r, h') /\
    match r with
    | None => unchanged h0 h'
    | Some a => a = p_addr x /\ exists ks, added h0 h' (with_kids x (p_kids x ++ ks)) /\
        map erase ks = map value (take count l) /\ Forall leaf ks
    end.
Proof.
  intros H0. induction count as [|count IH]; intros l x h Ha Hr Hl Hc; cbn [create_items].
  { exists (Some (p_addr x)), h. split; [done|]. split; [done|]. exists []. rewrite app_nil_r. split; [by destruct x|]. split; [done|constructor]. }
  destruct l as [|v l]; [cbn in Hc; lia|]. cbn [head deref obind tail].
  destruct (Hmakes v h (added_bounded _ _ _ Ha H0)) as ([n|] & h1 & -> & H1); cbn [obind].
  2:{ destruct H1 as (E1 & E2 & E3). assert (Ha1 : added h0 h1 x).
      { destruct Ha as [C1 C2 C3 C4 C5]. constructor; rewrite ?E1, ?E2; [|done|done| |lia].
        - destruct C1. constructor; rewrite ?E1, ?E2; done.
        - intros a Hin. pose proof (C4 a Hin). lia. }
      destruct (delete_added h0 h1 x (List.length (p_kids x) + 2) H0 Ha1) as (h2 & -> & Hu).
      { rewrite cells_leaves by done. lia. }
      exists None, h2. by split. }
  destruct H1 as (y & <- & Hy & Ey & Hay). pose proof (added_separate h0 h h1 x y Ha Hay) as Hs.
  assert (Hlink : exists h2, match p_addr <$> last (p_kids x) with
      | None => upd (p_addr x) (fun m => m {{ n_child := Some (p_addr y) }}) h1
      | Some p => suffix_object p (p_addr y) h1
      end = Ok h2 /\ added h0 h2 (with_kids x (p_kids x ++ [y]))).
  { assert (Hin : forall a, a ∈ p_addr x :: map p_addr (p_kids x) -> a ∈ addrs (cells x None None)).
    { intros a. rewrite cells_eq. cbn [addrs map fst]. rewrite !elem_of_cons. intros [->|Hk]; [by left|right].
      revert Hk. generalize (@None Z). clear. induction (p_kids x) as [|k ks IH]; intros pv; [by intros ?%elem_of_nil|].
      cbn [map chain]. rewrite elem_of_cons. rewrite map_app, elem_of_app, cells_eq. intros [->|Hk]; [left; by left|right; by apply IH]. }
    assert (Hsub : forall s h2, same_but s h1 h2 -> (forall a, a ∈ s -> a = p_addr y \/ a ∈ p_addr x :: map p_addr (p_kids x)) ->
      same_but (addrs (cells x None None ++ cells y None None)) h1 h2).
    { intros s h2 (S1 & S2 & S3) Hsub. split; [|done]. intros a Hna. apply S1. intros Has. apply Hna. unfold addrs. rewrite map_app, elem_of_app.
      destruct (Hsub a Has) as [->|Hk]; [right; rewrite cells_eq; by left|left; by apply Hin]. }
    destruct (p_kids x) as [|k ks] eqn:Ek.
    - cbn [last fmap option_fmap option_map]. destruct (first_child_ok h1 x y Hs Hr Ek) as (h2 & -> & Hh & Hb).
      exists h2. split; [done|]. pose proof (added_item h0 h h1 h2 x y Hr Ha Hay Hh) as G. rewrite Ek in G. apply G, (Hsub _ _ Hb).
      intros a ->%list_elem_of_singleton. right. by left.
    - destruct (exists_last (l := k :: ks)) as (ks' & z & Ez); [done|]. rewrite Ez, last_snoc. cbn [fmap option_fmap option_map].
      destruct (link_ok h1 x ks' z y Hs Hr) as (h2 & -> & Hh & Hb); [congruence|]. exists h2. split; [done|].
      pose proof (added_item h0 h h1 h2 x y Hr Ha Hay Hh) as G. rewrite Ek, Ez in G. apply G, (Hsub _ _ Hb).
      intros a Hz. rewrite !elem_of_cons in Hz. destruct Hz as [->|[->|?%elem_of_nil]]; [right; right|by left|done].
      rewrite Ez, map_app, elem_of_app. right. by left. }
  destruct Hlink as (h2 & -> & Ha2). cbn [obind]. set (x' := with_kids x (p_kids x ++ [y])) in *.
  destruct (IH l x' h2 Ha2 Hr) as (r & h3 & E3 & H3).
  { apply Forall_app. split; [done|by constructor]. } { cbn in Hc. lia. }
  exists r, h3. split.
  { rewrite <- E3. f_equal; cbn [x' with_kids p_kids]; [by rewrite last_snoc|rewrite length_app; cbn; lia]. }
  destruct r as [a|]; [|done]. destruct H3 as (-> & ks & H4 & H5 & H6). split; [done|]. exists (y :: ks).
  cbn [x' with_kids p_kids] in H4. rewrite <- app_assoc in H4. split; [by destruct x|]. cbn [map firstn]. rewrite Ey, H5.
  split; [done|]. by constructor.
Qed.
End Create.

(** ** What makes items *)

Section Make.
Variable allocate_ok : Z -> bool.

Definition leaf_of (a t : Z) (s : option (Z * bytes)) (z : Z) (d : double) : ptree := PNode a t s None z d (None, None, None) [].

Lemma new_item_ok h t z d : bounded h -> is_reference t = false -> string_is_const t = false ->
  exists r h', new_item allocate_ok (blank_node {{ n_type := t; n_double := d; n_int := z }}) h = (r, h') /\
    match r with None => unchanged h h' | Some a => a = next_free h /\ added h h' (leaf_of a t None z d) end.
Proof.
  intros [B1 B2] Hr Hc. unfold new_item. destruct (allocate_ok (next_free h)); eexists _, _; (split; [reflexivity|]); cbn.
  2:{ split; [done|]. split; [done|]. cbn. unfold constant. lia. }
  split; [done|]. constructor; cbn; unfold constant.
  - apply holds_one. cbn. unfold constant. rewrite Hr, Hc. split; [|split; [by intros ? ? ?%elem_of_nil|split; [apply NoDup_singleton|split; [constructor|done]]]].
    intros a n [= -> ->]%list_elem_of_singleton. apply lookup_insert_eq.
  - intros a Ha. rewrite lookup_insert_ne; [done|]. intros <-. apply Ha. by left.
  - done.
  - intros a [->%list_elem_of_singleton|?%elem_of_nil]; [lia|done].
  - lia.
Qed.

Definition number_value (d : double) : cJSON := mkcJSON cJSON_Number None (saturate d) d None [].
Definition string_value (s : bytes) : cJSON := mkcJSON cJSON_String (Some (cstr_of s)) 0 d0 None [].

Lemma makes_number : makes (cJSON_CreateNumber allocate_ok) number_value.
Proof.
  intros d h Hb. destruct (new_item_ok h cJSON_Number (saturate d) d Hb eq_refl eq_refl) as (r & h' & E & H).
  exists r, h'. unfold cJSON_CreateNumber. split; [by rewrite <- E|]. destruct r as [a|]; [|done]. destruct H as [-> H].
  by exists (leaf_of (next_free h) cJSON_Number None (saturate d) d).
Qed.

Lemma makes_string : makes (cJSON_CreateString allocate_ok) string_value.
Proof.
  intros s h Hb. destruct (new_item_ok h cJSON_String 0 d0 Hb eq_refl eq_refl) as (r & h1 & E & H).
  unfold cJSON_CreateString. change (blank_node {{ n_type := cJSON_String }}) with (blank_node {{ n_type := cJSON_String; n_double := d0; n_int := 0 }}).
  rewrite E. destruct r as [a|]; [|exists None, h1; by split]. destruct H as [-> H]. set (a := next_free h) in *.
  unfold cJSON_strdup. destruct (allocate_ok (next_free h1)).
  - pose proof H as [(Hin & _)%holds_one A2 A3 A4 A5]. cbn [leaf_of strings p_text p_name p_kids opt_list app cells] in *.
    assert (Ha1 : a < next_free h1) by (apply A4; left; by left).
    rewrite (upd_node_ok _ _ _ (node_of (leaf_of a cJSON_String None 0 d0) None None)) by (apply Hin; by left).
    cbn [obind]. eexists _, _. split; [reflexivity|]. exists (leaf_of a cJSON_String (Some (next_free h1, cstr_of s)) 0 d0).
    do 3 (split; [done|]). constructor; cbn; unfold constant.
    + apply holds_one. cbn. unfold constant. split; [|split; [|split; [apply NoDup_singleton|split; [apply NoDup_singleton|done]]]].
      * intros b n [= -> ->]%list_elem_of_singleton. apply lookup_insert_eq.
      * intros b n [= -> ->]%list_elem_of_singleton. apply lookup_insert_eq.
    + intros b Hb'. rewrite lookup_insert_ne by (intros <-; apply Hb'; by left). apply A2. intros ->%list_elem_of_singleton. apply Hb'. by left.
    + intros b Hb'. rewrite lookup_insert_ne by (intros <-; apply Hb'; by left). apply A3. apply not_elem_of_nil.
    + intros b [->%list_elem_of_singleton| ->%list_elem_of_singleton]; lia.
    + lia.
  - assert (H2 : added h (h1 {{ next_free := next_free h1 + 1 }}) (leaf_of a cJSON_String None 0 d0)).
    { destruct H as [A1 A2 A3 A4 A5]. constructor; try done; cbn; unfold constant; [by destruct A1| |lia].
      intros b Hb'. pose proof (A4 b Hb'). lia. }
    destruct (delete_added h _ _ 2 Hb H2) as (h2 & E2 & Hu); [cbn; lia|].
    cbn [leaf_of p_addr] in E2. rewrite E2. cbn [obind]. by exists None, h2.
Qed.

(** The array that holds the values of [l]. *)
Definition array_value (l : list cJSON) : cJSON := mkcJSON cJSON_Array None 0 d0 None l.

Lemma create_array_ok {A} (create : A -> heap -> outcome (option Z * heap)) value l count h :
  makes create value -> bounded h -> count <= Z.of_nat (List.length l) ->
  exists r h', create_array allocate_ok create l count h = Ok (r, h') /\
    match r with
    | None => unchanged h h'
    | Some a => exists x, p_addr x = a /\ added h h' x /\
        erase x = array_value (map value (take (Z.to_nat count) l)) /\
        exists h'', cJSON_Delete (Z.to_nat count + 2) r h' = Ok h'' /\ unchanged h h''
    end.
Proof.
  intros Hm Hb Hc. unfold create_array. destruct (Z.ltb_spec count 0); [exists None, h; split; [done|]; by split; [|split]|].
  destruct (new_item_ok h cJSON_Array 0 d0 Hb eq_refl eq_refl) as (r & h1 & E & H1).
  unfold cJSON_CreateArray. change (blank_node {{ n_type := cJSON_Array }}) with (blank_node {{ n_type := cJSON_Array; n_double := d0; n_int := 0 }}).
  rewrite E. destruct r as [a|]; [|exists None, h1; by split]. destruct H1 as [-> H1].
  destruct (create_items_ok create value Hm h Hb (Z.to_nat count) l _ h1 H1 eq_refl) as (r & h2 & E2 & H2); [constructor|lia|].
  exists r, h2. split; [exact E2|]. destruct r as [a|]; [|done]. destruct H2 as (-> & ks & Ha & Ek & Hlv).
  destruct (delete_added h h2 _ (Z.to_nat count + 2) Hb Ha) as (h3 & E3 & Hu).
  { rewrite cells_leaves by exact Hlv. apply (f_equal List.length) in Ek. rewrite !length_map, length_take in Ek. cbn. lia. }
  exists (with_kids (leaf_of (next_free h) cJSON_Array None 0 d0) ks). split; [done|]. split; [exact Ha|].
  split; [unfold array_value; cbn; by rewrite Ek|]. by exists h3.
Qed.
End Make.

(** ** The theorems *)

(** C11: cJSON_Delete frees what an item owns.  For an item that lies in blocks
    of its own, cJSON_Delete returns (within as many nested calls as it has
    items) and has freed each item, text and name below it exactly once; what
    a reference shares, constant names and all other blocks are untouched. *)
Theorem cJSON_Delete_frees h x :
  holds h None [x] ->
  exists h', cJSON_Delete (S (List.length (cells x None None))) (Some (p_addr x)) h = Ok h' /\
    freed h h' (addrs (cells x None None)) (addrs (strings x)).
Proof.
  intros H. destruct (delete_chain (S (List.length (cells x None None))) h None [x] H) as (h' & E & F).
  { change (chain None [x]) with (cells x None None ++ []). rewrite app_nil_r. lia. }
  exists h'. split; [exact E|]. cbn [chain all_strings] in F. by rewrite !app_nil_r in F.
Qed.

(** An array of a named string and a reference to a shared item. *)
Definition sample_tree : ptree :=
  PNode 1 cJSON_Array None None 0 d0 (None, None, None)
    [PNode 2 cJSON_String (Some (10, [104; 105])) (Some (11, [110])) 0 d0 (None, None, None) [];
     PNode 3 (Z.lor cJSON_Array cJSON_IsReference) None None 0 d0 (Some 7, None, None) []].

Lemma sample_tree_holds n : holds (heap_of [sample_tree] n) None [sample_tree].
Proof.
  apply heap_of_holds; [apply (bool_decide_unpack _); vm_compute; exact I|apply (bool_decide_unpack _); vm_compute; exact I|].
  constructor; [|constructor]. by repeat split.
Qed.

Lemma cJSON_Delete_frees_witness :
  holds (heap_of [sample_tree] 20) None [sample_tree] /\
  exists h', cJSON_Delete 4 (Some 1) (heap_of [sample_tree] 20) = Ok h' /\ freed (heap_of [sample_tree] 20) h' [1; 2; 3] [10; 11].
Proof.
  split; [apply sample_tree_holds|]. exact (cJSON_Delete_frees _ _ (sample_tree_holds 20)).
Defined.

(** C12: The Create...Array functions make everything or nothing.  Whatever
    allocations fail, cJSON_CreateIntArray, cJSON_CreateDoubleArray and
    cJSON_CreateStringArray return NULL with no block left behind, or an array
    with the given elements in new blocks, which cJSON_Delete takes back
    completely. *)
Theorem create_arrays_all_or_nothing allocate_ok h count :
  bounded h ->
  let outcome_of r h' v := match r with
    | None => unchanged h h'
    | Some a => exists x, p_addr x = a /\ added h h' x /\ erase x = array_value v /\
        exists h'', cJSON_Delete (Z.to_nat count + 2) r h' = Ok h'' /\ unchanged h h''
    end in
  (forall numbers, count <= Z.of_nat (List.length numbers) ->
     exists r h', cJSON_CreateIntArray allocate_ok numbers count h = Ok (r, h') /\
       outcome_of r h' (map (fun z => number_value (d_of_Z z)) (take (Z.to_nat count) numbers))) /\
  (forall numbers, count <= Z.of_nat (List.length numbers) ->
     exists r h', cJSON_CreateDoubleArray allocate_ok numbers count h = Ok (r, h') /\
       outcome_of r h' (map number_value (take (Z.to_nat count) numbers))) /\
  (forall strings, count <= Z.of_nat (List.length strings) ->
     exists r h', cJSON_CreateStringArray allocate_ok strings count h = Ok (r, h') /\
       outcome_of r h' (map string_value (take (Z.to_nat count) strings))).
Proof.
  intros Hb. split; [|split]; intros l Hl; apply create_array_ok; try done.
  - intros z h' H'. exact (makes_number allocate_ok (d_of_Z z) h' H').
  - apply makes_number.
  - apply makes_string.
Qed.

Lemma create_arrays_witness :
  bounded (mk_heap ∅ ∅ 1) /\
  let fails a := negb (a =? 4) in
  exists h', cJSON_CreateStringArray fails [[65]; [66; 67]] 2 (mk_heap ∅ ∅ 1) = Ok (None, h') /\ unchanged (mk_heap ∅ ∅ 1) h'.
Proof.
  assert (Hb : bounded (mk_heap ∅ ∅ 1)) by (constructor; intros a v; cbn; by rewrite lookup_empty).
  split; [exact Hb|]. cbv zeta.
  destruct (create_arrays_all_or_nothing (fun a => negb (a =? 4)) (mk_heap ∅ ∅ 1) 2 Hb) as (_ & _ & H).
  destruct (H [[65]; [66; 67]]) as (r & h' & E & Hr); [cbn; lia|].
  destruct r as [a|]; [vm_compute in E; discriminate|]. by exists h'.
Defined.

(** C24: cJSON_AddItemToArray appends.  With an array and an item in blocks of
    their own, the pointers after the call are those of the array with the
    item as its last child: the function implements the one on trees, keeps
    the blocks of both and touches no other. *)
Theorem cJSON_AddItemToArray_refines h x y fuel :
  separate h x y -> is_reference (p_type x) = false -> (List.length (p_kids x) <= fuel)%nat ->
  let z := with_kids x (p_kids x ++ [y]) in
  Some (erase z) = CjsonTree.cJSON_AddItemToArray (Some (erase x)) (Some (erase y)) /\
  exists h', cJSON_AddItemToArray fuel (Some (p_addr x)) (Some (p_addr y)) h = Ok h' /\ holds h' None [z] /\
    (forall a, a ∈ addrs (cells z None None) <-> a ∈ addrs (cells x None None ++ cells y None None)) /\
    same_but (addrs (cells x None None ++ cells y None None)) h h'.
Proof.
  intros Hs Hr Hf. destruct (add_item_ok h x y fuel Hs Hr Hf) as (h' & E & Hh & Hb).
  split; [apply erase_add|]. exists h'. do 2 (split; [done|]). split; [|done]. intros a. by apply cells_add.
Qed.

(** Two items, each the root of a tree, in a heap with nothing else. *)
Lemma heap_of_separate x y n : NoDup (addrs (cells x None None ++ cells y None None)) -> NoDup (addrs (strings x ++ strings y)) ->
  owns x -> owns y ->
  separate (mk_heap (list_to_map (cells x None None ++ cells y None None)) (list_to_map (strings x ++ strings y)) n) x y.
Proof.
  intros H1 H2 Hx Hy. pose proof H1 as H1'. pose proof H2 as H2'. unfold addrs in H1', H2'. rewrite map_app in H1', H2'.
  apply NoDup_app in H1' as (A1 & A2 & A3), H2' as (B1 & B2 & B3).
  constructor; [apply holds_one|apply holds_one|cbn [chain]; by rewrite !app_nil_r|cbn [all_strings]; by rewrite !app_nil_r].
  all: do 2 (split; [intros a v Ha; apply elem_of_list_to_map_1; [done|apply elem_of_app; tauto]|]); by repeat split.
Qed.

Definition sample_number : ptree := leaf_of 4 cJSON_Number None 5 d0.

Definition sample_pair : heap :=
  mk_heap (list_to_map (cells sample_tree None None ++ cells sample_number None None))
    (list_to_map (strings sample_tree ++ strings sample_number)) 20.

Lemma sample_separate : separate sample_pair sample_tree sample_number.
Proof. apply heap_of_separate; try (apply (bool_decide_unpack _); vm_compute; exact I); by repeat split. Qed.

Lemma cJSON_AddItemToArray_witness :
  separate sample_pair sample_tree sample_number /\
  exists h', cJSON_AddItemToArray 2 (Some 1) (Some 4) sample_pair = Ok h' /\
    holds h' None [with_kids sample_tree (p_kids sample_tree ++ [sample_number])].
Proof.
  split; [apply sample_separate|].
  destruct (cJSON_AddItemToArray_refines sample_pair sample_tree sample_number 2 sample_separate eq_refl) as (_ & h' & E & H & _); [cbn; lia|].
  by exists h'.
Defined.
