(* ===== verification/CjsonLinks.v ===== *)
(** * Editing chains of cJSON items (cjson.c: cJSON_DetachItemViaPointer,
    cJSON_InsertItemInArray, cJSON_ReplaceItemViaPointer and their callers)

    The functions that relink siblings, on the heap of CjsonMem.v.  Chains are
    cut into segments, each with the item before and the item after it; a
    pointer assignment changes one end of one segment.  The functions are
    proved to implement those of CjsonTree.v. *)

From coqutil Require Import Datatypes.RecordSetters.
From Stdlib Require Import SpecFloat.
From S2P Require Import Prelude.
From S2P Require Import Cdouble.
From S2P Require Import CjsonData.
From S2P Require Import CjsonTree.
From S2P Require Import CjsonMem.
From stdpp Require Import base numbers gmap list.
Import DoubleBraceUpdate.

Open Scope Z_scope.
Open Scope c_scope.

(** [p->next = q] and [p->prev = q], where [p] may be NULL only if guarded. *)
Definition set_next (p : option Z) (q : option Z) (h : heap) : outcome heap :=
  match p with Some a => upd a (fun m => m {{ n_next := q }}) h | None => Ok h end.

Definition set_prev (p : option Z) (q : option Z) (h : heap) : outcome heap :=
  match p with Some a => upd a (fun m => m {{ n_prev := q }}) h | None => Ok h end.

Definition cJSON_DetachItemViaPointer (parent item : option Z) (h : heap) : outcome (option Z * heap) :=
  match parent, item with
  | Some p, Some i =>
      let! n := deref (nodes h !! i) in
      let! h := set_next (n_prev n) (n_next n) h in
      let! h := set_prev (n_next n) (n_prev n) h in
      let! m := deref (nodes h !! p) in
      let! h := if bool_decide (n_child m = Some i) then upd p (fun m => m {{ n_child := n_next n }}) h else Ok h in
      let! h := upd i (fun m => m {{ n_prev := None }}) h in
      let! h := upd i (fun m => m {{ n_next := None }}) h in
      Ok (Some i, h)
  | _, _ => Ok (None, h)
  end.

(** get_array_item: the loop over the children. *)
Fixpoint item_at (index : nat) (c : option Z) (h : heap) : outcome (option Z) :=
  match c, index with
  | Some a, S index => let! n := deref (nodes h !! a) in item_at index (n_next n) h
  | _, _ => Ok c
  end.

Definition get_array_item (array : option Z) (index : Z) (h : heap) : outcome (option Z) :=
  match array with
  | None => Ok None
  | Some a => let! n := deref (nodes h !! a) in item_at (Z.to_nat index) (n_child n) h
  end.

Definition cJSON_DetachItemFromArray (array : option Z) (which : Z) (h : heap) : outcome (option Z * heap) :=
  if which <? 0 then Ok (None, h)
  else let! i := get_array_item array which h in cJSON_DetachItemViaPointer array i h.

Definition cJSON_DeleteItemFromArray (fuel : nat) (array : option Z) (which : Z) (h : heap) : outcome heap :=
  let! r := cJSON_DetachItemFromArray array which h in let '(i, h) := r in cJSON_Delete fuel i h.

Definition cJSON_InsertItemInArray (fuel : nat) (array : option Z) (which : Z) (newitem : option Z) (h : heap) : outcome heap :=
  if which <? 0 then Ok h
  else
    let! after_inserted := get_array_item array which h in
    match after_inserted with
    | None => cJSON_AddItemToArray fuel array newitem h
    | Some b =>
        let! a := deref array in
        let! n := deref newitem in
        let! h := upd n (fun m => m {{ n_next := Some b }}) h in
        let! after := deref (nodes h !! b) in
        let! h := upd n (fun m => m {{ n_prev := n_prev after }}) h in
        let! h := upd b (fun m => m {{ n_prev := Some n }}) h in
        let! m := deref (nodes h !! a) in
        if bool_decide (Some b = n_child m) then upd a (fun m => m {{ n_child := Some n }}) h
        else
          let! k := deref (nodes h !! n) in
          let! p := deref (n_prev k) in
          upd p (fun m => m {{ n_next := Some n }}) h
    end.

Definition cJSON_ReplaceItemViaPointer (fuel : nat) (parent item replacement : option Z) (h : heap) : outcome (bool * heap) :=
  match parent, replacement with
  | Some p, Some r =>
      if bool_decide (replacement = item) then Ok (true, h)
      else
        let! i := deref item in
        let! n := deref (nodes h !! i) in
        let! h := upd r (fun m => m {{ n_next := n_next n }}) h in
        let! h := upd r (fun m => m {{ n_prev := n_prev n }}) h in
        let! h := set_prev (n_next n) (Some r) h in
        let! h := set_next (n_prev n) (Some r) h in
        let! m := deref (nodes h !! p) in
        let! h := if bool_decide (n_child m = item) then upd p (fun m => m {{ n_child := Some r }}) h else Ok h in
        let! h := upd i (fun m => m {{ n_next := None }}) h in
        let! h := upd i (fun m => m {{ n_prev := None }}) h in
        let! h := cJSON_Delete fuel item h in
        Ok (true, h)
  | _, _ => Ok (false, h)
  end.

Definition cJSON_ReplaceItemInArray (fuel : nat) (array : option Z) (which : Z) (newitem : option Z) (h : heap) : outcome heap :=
  if which <? 0 then Ok h
  else
    let! i := get_array_item array which h in
    let! r := cJSON_ReplaceItemViaPointer fuel array i newitem h in Ok (snd r).

(** ** Segments *)

(** The addresses of a chain's items. *)
Definition ids (l : list ptree) : list Z := addrs (chain None l).

Lemma addrs_chain_to pv l nx : addrs (chain_to pv l nx) = ids l.
Proof.
  unfold ids. generalize (@None Z) as pv'. revert pv. induction l as [|y l IH]; intros pv pv'; [done|].
  cbn [chain_to chain]. unfold addrs in *. rewrite !map_app, (IH _ (Some (p_addr y))). by rewrite !cells_eq.
Qed.

Lemma ids_cons y l : ids (y :: l) = p_addr y :: ids (p_kids y) ++ ids l.
Proof.
  unfold ids. cbn [chain]. unfold addrs. rewrite map_app, cells_eq. cbn [map fst app]. do 2 f_equal.
  transitivity (ids l); [|done]. rewrite <- chain_to_end. apply addrs_chain_to.
Qed.

Lemma ids_app l1 l2 : ids (l1 ++ l2) = ids l1 ++ ids l2.
Proof. induction l1 as [|y l IH]; [done|]. cbn [app]. rewrite !ids_cons, IH. cbn [app]. by rewrite <- app_assoc. Qed.

(** A part of a chain, from the item after [pv] to the item before [nx]. *)
Definition seg (h : heap) (pv : option Z) (l : list ptree) (nx : option Z) : Prop := CjsonMem.in_map (nodes h) (chain_to pv l nx).

Lemma seg_app h pv l1 l2 nx : seg h pv (l1 ++ l2) nx <-> seg h pv l1 (head_or l2 nx) /\ seg h (last_or pv l1) l2 nx.
Proof.
  unfold seg. rewrite chain_to_app. split.
  - intros H. split; intros a n Ha; apply H, elem_of_app; tauto.
  - intros [H1 H2] a n [Ha|Ha]%elem_of_app; auto.
Qed.

Lemma segment_cons h pv y l nx : seg h pv (y :: l) nx <->
  nodes h !! p_addr y = Some (node_of y pv (head_or l nx)) /\ seg h None (p_kids y) None /\ seg h (Some (p_addr y)) l nx.
Proof.
  unfold seg. cbn [chain_to]. rewrite cells_eq, chain_to_end. split.
  - intros H. split; [apply H; by left|]. split; intros a n Ha; apply H; cbn [app]; right; apply elem_of_app; tauto.
  - intros (H1 & H2 & H3) a n. cbn [app]. rewrite elem_of_cons, elem_of_app. intros [[= -> ->]|[Ha|Ha]]; auto.
Qed.

(** An assignment elsewhere keeps a segment. *)
Lemma seg_frame h h' s pv l nx : same_but s h h' -> (forall a, a ∈ s -> a ∉ ids l) -> seg h pv l nx -> seg h' pv l nx.
Proof.
  intros (S1 & _) Hd H a n Ha. rewrite S1; [by apply H|]. intros Hs. apply (Hd a Hs). rewrite <- (addrs_chain_to pv l nx).
  apply list_elem_of_fmap. by exists (a, n).
Qed.

Lemma upd_same a f h n : nodes h !! a = Some n ->
  exists h', upd a f h = Ok h' /\ nodes h' !! a = Some (f n) /\ same_but [a] h h'.
Proof.
  intros H. rewrite (upd_node_ok _ _ _ _ H). eexists. split; [done|]. split; [apply lookup_insert_eq|]. split; [|done].
  intros b Hb. cbn. unfold constant. apply lookup_insert_ne. intros ->. apply Hb. by left.
Qed.

Lemma same_but_trans s1 s2 h1 h2 h3 : same_but s1 h1 h2 -> same_but s2 h2 h3 -> same_but (s1 ++ s2) h1 h3.
Proof.
  intros (A1 & A2 & A3) (B1 & B2 & B3). split; [|by split; congruence]. intros a [Ha Hb]%not_elem_of_app. by rewrite B1, A1.
Qed.

Lemma same_but_refl h : same_but [] h h.
Proof. by split. Qed.

Lemma same_but_sub s1 s2 h h' : same_but s1 h h' -> (forall a, a ∈ s1 -> a ∈ s2) -> same_but s2 h h'.
Proof. intros (A1 & A2) H. split; [|done]. intros a Ha. apply A1. auto. Qed.

Lemma addr_in_ids y l : y ∈ l -> p_addr y ∈ ids l.
Proof.
  induction l as [|x l IH]; [by intros ?%elem_of_nil|]. rewrite elem_of_cons, ids_cons, elem_of_cons, elem_of_app.
  intros [->|H]; auto.
Qed.

(** The end of a segment. *)
Lemma seg_set_next h pv l nx nx' : seg h pv l nx -> NoDup (ids l) -> (l = [] -> pv = None) ->
  exists h', set_next (last_or pv l) nx' h = Ok h' /\ seg h' pv l nx' /\ same_but (opt_list (p_addr <$> last l)) h h'.
Proof.
  intros H Hn Hp. destruct l as [|k l] using rev_ind; [rewrite Hp by done; exists h; by repeat split|clear IHl].
  rewrite ids_app in Hn. apply NoDup_app in Hn as (_ & Hd & Hn). apply seg_app in H as [H1 H2].
  apply segment_cons in H2 as (Hk & Hkk & _). cbn [head_or] in Hk.
  unfold last_or at 1. rewrite last_snoc. cbn [set_next fmap option_fmap option_map opt_list].
  destruct (upd_same (p_addr k) (fun m => m {{ n_next := nx' }}) h _ Hk) as (h' & -> & Hk' & Hs).
  exists h'. split; [done|]. split; [|done]. rewrite node_of_links in Hk'. apply seg_app. split; [|apply segment_cons; split; [done|split; [|by intros ? ? ?%elem_of_nil]]].
  - eapply seg_frame; [exact Hs| |exact H1]. intros a ->%list_elem_of_singleton Ha. apply (Hd _ Ha). rewrite ids_cons. by left.
  - eapply seg_frame; [exact Hs| |exact Hkk]. intros a ->%list_elem_of_singleton Ha. rewrite ids_cons in Hn.
    apply NoDup_cons in Hn as [Hn _]. apply Hn, elem_of_app. by left.
Qed.

(** The start of a segment. *)
Lemma seg_set_prev h pv pv' l nx : seg h pv l nx -> NoDup (ids l) -> (l = [] -> nx = None) ->
  exists h', set_prev (head_or l nx) pv' h = Ok h' /\ seg h' pv' l nx /\ same_but (opt_list (p_addr <$> head l)) h h'.
Proof.
  intros H Hn Hp. destruct l as [|k l]; [rewrite Hp by done; exists h; by repeat split|].
  rewrite ids_cons in Hn. apply NoDup_cons in Hn as [Hn _]. apply segment_cons in H as (Hk & Hkk & Hl). cbn [head_or set_prev head fmap option_fmap option_map opt_list].
  destruct (upd_same (p_addr k) (fun m => m {{ n_prev := pv' }}) h _ Hk) as (h' & -> & Hk' & Hs).
  exists h'. split; [done|]. split; [|done]. rewrite node_of_prev in Hk'. apply segment_cons. split; [done|].
  split; (eapply seg_frame; [exact Hs| |eassumption]); intros a ->%list_elem_of_singleton Ha; apply Hn, elem_of_app; tauto.
Qed.

Lemma seg_end h l : seg h None l None <-> CjsonMem.in_map (nodes h) (chain None l).
Proof. unfold seg. by rewrite chain_to_end. Qed.

(** An item that lies in the heap, by its segment of children. *)
Lemma holds_item h x : holds h None [x] <->
  nodes h !! p_addr x = Some (node_of x None None) /\ seg h None (p_kids x) None /\ CjsonMem.in_map (texts h) (strings x) /\
  NoDup (p_addr x :: ids (p_kids x)) /\ NoDup (addrs (strings x)) /\ owns x.
Proof.
  rewrite holds_one, seg_end, cells_eq. unfold ids, addrs. cbn [map fst]. split.
  - intros (H1 & H2 & H3 & H4 & H5). split; [apply H1; by left|]. split; [intros a n Ha; apply H1; by right|]. by repeat split.
  - intros (H1 & H2 & H3 & H4 & H5 & H6). split; [|by repeat split]. intros a n [[= -> ->]|Ha]%elem_of_cons; auto.
Qed.

(** Two items apart, likewise. *)
Lemma separate_item h x y : separate h x y <->
  nodes h !! p_addr x = Some (node_of x None None) /\ seg h None (p_kids x) None /\
  nodes h !! p_addr y = Some (node_of y None None) /\ seg h None (p_kids y) None /\
  CjsonMem.in_map (texts h) (strings x ++ strings y) /\
  NoDup ((p_addr x :: ids (p_kids x)) ++ p_addr y :: ids (p_kids y)) /\ NoDup (addrs (strings x ++ strings y)) /\ owns x /\ owns y.
Proof.
  unfold addrs. rewrite map_app. split.
  - intros [(A1 & A2 & A3 & A4 & A5 & A6)%holds_item (B1 & B2 & B3 & B4 & B5 & B6)%holds_item D1 D2].
    cbn [all_strings] in D2. rewrite !app_nil_r in D2. do 4 (split; [done|]).
    split; [intros a t [Ha|Ha]%elem_of_app; auto|]. split; [|split; [by apply NoDup_app|done]].
    apply NoDup_app. split; [done|]. split; [|done]. intros a Ha Hb.
    apply (D1 a); cbn [chain]; rewrite app_nil_r, cells_eq; done.
  - intros (A1 & A2 & B1 & B2 & T & N & (T1 & T2 & T3)%NoDup_app & O1 & O2). apply NoDup_app in N as (N1 & N2 & N3). constructor.
    + apply holds_item. do 2 (split; [done|]). split; [intros a t Ha; apply T, elem_of_app; by left|]. by repeat split.
    + apply holds_item. do 2 (split; [done|]). split; [intros a t Ha; apply T, elem_of_app; by right|]. by repeat split.
    + intros a. cbn [chain]. rewrite !app_nil_r, !cells_eq. exact (N2 a).
    + intros a. cbn [all_strings]. rewrite !app_nil_r. exact (T2 a).
Qed.

(** The blocks of a parent [x], of its children before and after an item [y],
    of [y] and its children, and of the rest are apart. *)
Record parts (x : Z) (A : list Z) (y : Z) (B C E : list Z) (colour : Z -> nat) : Prop := {
  pt_x : colour x = 0%nat;
  pt_A : forall a, a ∈ A -> colour a = 1%nat;
  pt_y : colour y = 2%nat;
  pt_B : forall a, a ∈ B -> colour a = 3%nat;
  pt_C : forall a, a ∈ C -> colour a = 4%nat;
  pt_E : forall a, a ∈ E -> colour a = 5%nat;
  pt_NA : NoDup A;
  pt_NC : NoDup C }.

Lemma parts_intro x A y B C E : NoDup (x :: A ++ y :: B ++ C ++ E) -> exists colour, parts x A y B C E colour.
Proof.
  intros (H1 & (NA & H2 & (H3 & (_ & H4 & (NC & H5 & _)%NoDup_app)%NoDup_app)%NoDup_cons)%NoDup_app)%NoDup_cons.
  exists (fun a => if decide (a = x) then 0 else if decide (a ∈ A) then 1 else if decide (a = y) then 2
    else if decide (a ∈ B) then 3 else if decide (a ∈ C) then 4 else 5)%nat.
  constructor; try done; try (intros a Ha); repeat case_decide; set_solver.
Qed.

Lemma last_in l a : a ∈ opt_list (p_addr <$> last l) -> a ∈ ids l.
Proof.
  destruct (last l) as [k|] eqn:E; cbn; [|by intros ?%elem_of_nil]. intros ->%list_elem_of_singleton.
  apply addr_in_ids. apply last_Some in E as [l' ->]. set_solver.
Qed.

Lemma head_in l a : a ∈ opt_list (p_addr <$> head l) -> a ∈ ids l.
Proof. destruct l as [|k l]; cbn [head fmap option_fmap option_map opt_list]; [by intros ?%elem_of_nil|]. intros ->%list_elem_of_singleton. apply addr_in_ids. by left. Qed.

Definition noted (a : Z) (l : list Z) : Prop := True.

(** Moves facts over an assignment to blocks they do not speak of. *)
Ltac apart :=
  let a := fresh "a" in let Ha := fresh "Ha" in first [intros a Ha | intros Ha];
  try (let Hb := fresh "Hb" in intros Hb);
  repeat match goal with
  | H : _ ∈ [_] |- _ => apply list_elem_of_singleton in H
  | H : _ ∈ opt_list (_ <$> last _) |- _ => apply last_in in H
  | H : _ ∈ opt_list (_ <$> head _) |- _ => apply head_in in H
  end;
  match goal with P : parts _ _ _ _ _ _ _ |- _ => destruct P as [? ? ? ? ? ? _ _] end;
  repeat match goal with
  | H : ?b ∈ ?L, F : forall c, c ∈ ?L -> _ |- _ =>
      lazymatch goal with K : noted b L |- _ => fail | _ => idtac end; pose proof (F b H); assert (noted b L) by exact I
  | H : _ /\ _ |- _ => destruct H
  end; congruence.

Lemma same_lookup h h' s a n : same_but s h h' -> nodes h !! a = Some n -> a ∉ s -> nodes h' !! a = Some n.
Proof. intros (S1 & _) H Ha. by rewrite S1. Qed.

(** A fact of the heap that was there before the last assignments. *)
Ltac keep :=
  first [eassumption |
    match goal with
    | |- nodes ?h !! _ = Some _ => match goal with S : same_but _ ?h0 h |- _ => eapply (same_lookup h0 h); [exact S|keep|apart] end
    | |- seg ?h _ _ _ => match goal with S : same_but _ ?h0 h |- _ => eapply (seg_frame h0 h); [exact S|apart|keep] end
    end].

(** The assignments of the context in order. *)
Ltac chained :=
  match goal with
  | S : same_but _ ?h ?h' |- same_but _ ?h ?h' => exact S
  | S : same_but _ ?h ?h1 |- same_but _ ?h _ => eapply same_but_trans; [exact S|chained]
  end.

Lemma node_of_child x ks pv nx : is_reference (p_type x) = false ->
  (node_of x pv nx) {{ n_child := head_addr ks }} = node_of (with_kids x ks) pv nx.
Proof. intros Hr. unfold node_of. cbn [with_kids p_shared p_type p_kids p_text p_name p_int p_double]. rewrite Hr. by destruct (p_shared x) as [[? ?] ?]. Qed.

Lemma n_child_of x pv nx : is_reference (p_type x) = false -> n_child (node_of x pv nx) = head_addr (p_kids x).
Proof. intros Hr. unfold node_of. rewrite Hr. by destruct (p_shared x) as [[? ?] ?]. Qed.

Lemma n_next_of x pv nx : n_next (node_of x pv nx) = nx.
Proof. unfold node_of. by destruct (p_shared x) as [[? ?] ?]. Qed.

Lemma n_prev_of x pv nx : n_prev (node_of x pv nx) = pv.
Proof. unfold node_of. by destruct (p_shared x) as [[? ?] ?]. Qed.

Lemma all_strings_app l1 l2 : all_strings (l1 ++ l2) = all_strings l1 ++ all_strings l2.
Proof. induction l1 as [|y l IH]; [done|]. cbn [app all_strings]. by rewrite IH, app_assoc. Qed.

(** The parent's pointer to its first child, set where the first child changes. *)
Lemma set_child_ok h x ks (first : bool) c :
  nodes h !! p_addr x = Some (node_of x None None) -> is_reference (p_type x) = false ->
  (if first then c = head_addr ks else head_addr ks = head_addr (p_kids x)) ->
  exists h', (if first then upd (p_addr x) (fun m => m {{ n_child := c }}) h else Ok h) = Ok h' /\
    nodes h' !! p_addr x = Some (node_of (with_kids x ks) None None) /\ same_but [p_addr x] h h'.
Proof.
  intros Hx Hr Hk. destruct first; [subst c|].
  - destruct (upd_same (p_addr x) (fun m => m {{ n_child := head_addr ks }}) h _ Hx) as (h' & -> & H' & Hs).
    exists h'. split; [done|]. split; [|done]. by rewrite node_of_child in H'.
  - exists h. split; [done|]. split; [|split; [done|by split]]. rewrite Hx, <- (node_of_child x ks), Hk by done.
    rewrite <- (n_child_of x None None) by done. unfold node_of. by destruct (p_shared x) as [[? ?] ?].
Qed.

(** ** cJSON_DetachItemViaPointer *)

Lemma head_addr_or l : head_addr l = head_or l None.
Proof. by destruct l. Qed.

(** [item == parent->child] holds for the first child only. *)
Lemma first_child x l1 y l2 : p_kids x = l1 ++ y :: l2 -> NoDup (ids (p_kids x)) ->
  bool_decide (head_addr (p_kids x) = Some (p_addr y)) = match l1 with [] => true | _ => false end.
Proof.
  intros E Hn. rewrite E in *. destruct l1 as [|k l1]; [by apply bool_decide_eq_true_2|]. apply bool_decide_eq_false_2.
  cbn [head_addr app head fmap option_fmap option_map]. intros [= Ek]. cbn [app] in Hn. rewrite ids_cons in Hn.
  apply NoDup_cons in Hn as [Hn _]. apply Hn. rewrite Ek. apply elem_of_app. right. apply addr_in_ids, elem_of_app. right. by left.
Qed.

Lemma strings_detach x l1 y l2 : p_kids x = l1 ++ y :: l2 -> strings x ≡ₚ strings (with_kids x (l1 ++ l2)) ++ strings y.
Proof.
  intros E. rewrite (strings_eq x), (strings_eq (with_kids _ _)), E. cbn [with_kids p_text p_name p_kids].
  rewrite !all_strings_app. cbn [all_strings]. solve_Permutation.
Qed.

Lemma owns_kids x ks : owns x -> is_reference (p_type x) = false -> Forall owns ks -> owns (with_kids x ks).
Proof. intros (_ & H2 & _)%owns_eq Hr Hk. apply owns_eq. cbn [with_kids p_type p_kids p_text p_name]. rewrite Hr. by repeat split. Qed.

Lemma in_map_perm {A} (m : gmap Z A) l l' : CjsonMem.in_map m l -> l ≡ₚ l' -> CjsonMem.in_map m l'.
Proof. intros H Hp a n Ha. apply H. by rewrite Hp. Qed.

Lemma detach_ok h x l1 y l2 :
  holds h None [x] -> is_reference (p_type x) = false -> p_kids x = l1 ++ y :: l2 ->
  exists h', cJSON_DetachItemViaPointer (Some (p_addr x)) (Some (p_addr y)) h = Ok (Some (p_addr y), h') /\
    separate h' (with_kids x (l1 ++ l2)) y /\ same_but (p_addr x :: ids (p_kids x)) h h'.
Proof.
  intros (Hx & Hk & Ht & Hn & Htn & Ho)%holds_item Hr E. pose proof (proj2 (proj1 (NoDup_cons _ _) Hn)) as Hnk.
  pose proof (first_child x l1 y l2 E Hnk) as Hfirst. rewrite E in Hk, Hn.
  rewrite ids_app, ids_cons in Hn. apply seg_app in Hk as [H1 H2]. apply segment_cons in H2 as (Hy & Hky & H2). cbn [head_or] in H1.
  destruct (parts_intro (p_addr x) (ids l1) (p_addr y) (ids (p_kids y)) (ids l2) []) as [colour P]; [by rewrite app_nil_r|].
  unfold cJSON_DetachItemViaPointer. rewrite Hy. cbn [deref obind]. rewrite n_prev_of, n_next_of.
  destruct (seg_set_next h None l1 _ (head_or l2 None) H1 (pt_NA _ _ _ _ _ _ _ P) (fun _ => eq_refl)) as (h1 & -> & H1' & S1). cbn [obind].
  destruct (seg_set_prev h1 (Some (p_addr y)) (last_or None l1) l2 None) as (h2 & -> & H2' & S2); [|apply P|done|].
  { keep. }
  cbn [obind]. assert (Hx2 : nodes h2 !! p_addr x = Some (node_of x None None)) by keep.
  rewrite Hx2. cbn [deref obind]. rewrite n_child_of, Hfirst by done.
  destruct (set_child_ok h2 x (l1 ++ l2) (match l1 with [] => true | _ => false end) (head_or l2 None) Hx2 Hr) as (h3 & -> & Hx3 & S3).
  { rewrite E, <- head_addr_or. by destruct l1. }
  cbn [obind].
  destruct (upd_same (p_addr y) (fun m => m {{ n_prev := None }}) h3 (node_of y (last_or None l1) (head_or l2 None)))
    as (h4 & -> & Hy4 & S4); [keep|]. cbn [obind]. rewrite node_of_prev in Hy4.
  destruct (upd_same (p_addr y) (fun m => m {{ n_next := None }}) h4 _ Hy4) as (h5 & -> & Hy5 & S5). cbn [obind].
  rewrite node_of_links in Hy5. exists h5. split; [done|].
  assert (Hs : same_but (p_addr x :: ids (p_kids x)) h h5).
  { rewrite E, ids_app, ids_cons. eapply same_but_sub; [chained|].
    intros a. rewrite !elem_of_app. intros [Ha%last_in|[Ha%head_in|Ha]]; set_solver. }
  split; [|exact Hs]. destruct Hs as (_ & Et & _). pose proof (strings_detach x l1 y l2 E) as Hp.
  apply owns_eq in Ho as Ho'. destruct Ho' as (_ & _ & Hf). rewrite E, Forall_app, Forall_cons in Hf. destruct Hf as (Hf1 & Hfy & Hf2).
  apply separate_item. cbn [with_kids p_addr p_kids]. rewrite Et. split; [keep|].
  split; [apply seg_app; split; [cbn [head_or]|]; keep|]. split; [keep|]. split; [keep|]. split; [by eapply in_map_perm|].
  split; [|split; [unfold addrs; by rewrite <- Hp|split; [by apply owns_kids, Forall_app|done]]].
  rewrite ids_app. eapply NoDup_Permutation_proper; [|exact Hn]. solve_Permutation.
Qed.

(** get_array_item *)
Lemma item_at_ok h l : forall pv i, seg h pv l None -> item_at i (head_or l None) h = Ok (p_addr <$> l !! i).
Proof.
  induction l as [|k l IH]; intros pv i H; [by destruct i|]. apply segment_cons in H as (Hk & _ & H).
  destruct i as [|i]; [done|]. cbn [head_or item_at lookup list_lookup]. rewrite Hk. cbn [deref obind]. rewrite n_next_of. by apply (IH _ _ H).
Qed.

Lemma get_array_item_ok h x which : nodes h !! p_addr x = Some (node_of x None None) -> seg h None (p_kids x) None ->
  is_reference (p_type x) = false -> get_array_item (Some (p_addr x)) which h = Ok (p_addr <$> p_kids x !! Z.to_nat which).
Proof.
  intros Hx Hk Hr. unfold get_array_item. rewrite Hx. cbn [deref obind]. rewrite n_child_of, head_addr_or by done. by eapply item_at_ok.
Qed.

(** ** cJSON_ReplaceItemViaPointer *)

Lemma strings_replace x l1 i l2 r : p_kids x = l1 ++ i :: l2 ->
  strings x ++ strings r ≡ₚ strings (with_kids x (l1 ++ r :: l2)) ++ strings i.
Proof.
  intros E. rewrite (strings_eq x), (strings_eq (with_kids _ _)), E. cbn [with_kids p_text p_name p_kids].
  rewrite !all_strings_app. cbn [all_strings]. solve_Permutation.
Qed.

(** What cJSON_ReplaceItemViaPointer does before it deletes the item. *)
Definition put_in_place (p i r : Z) (h : heap) : outcome heap :=
  let! n := deref (nodes h !! i) in
  let! h := upd r (fun m => m {{ n_next := n_next n }}) h in
  let! h := upd r (fun m => m {{ n_prev := n_prev n }}) h in
  let! h := set_prev (n_next n) (Some r) h in
  let! h := set_next (n_prev n) (Some r) h in
  let! m := deref (nodes h !! p) in
  let! h := if bool_decide (n_child m = Some i) then upd p (fun m => m {{ n_child := Some r }}) h else Ok h in
  let! h := upd i (fun m => m {{ n_next := None }}) h in
  upd i (fun m => m {{ n_prev := None }}) h.

Lemma replace_step fuel p i r h : r <> i -> cJSON_ReplaceItemViaPointer fuel (Some p) (Some i) (Some r) h =
  (let! h := put_in_place p i r h in let! h := cJSON_Delete fuel (Some i) h in Ok (true, h)).
Proof.
  intros Hne. unfold cJSON_ReplaceItemViaPointer, put_in_place. rewrite bool_decide_eq_false_2 by congruence. cbn [deref obind].
  by repeat match goal with |- context [obind ?o _] => destruct o; cbn [obind] end.
Qed.

Lemma put_in_place_ok h x r l1 i l2 :
  separate h x r -> is_reference (p_type x) = false -> p_kids x = l1 ++ i :: l2 ->
  exists h', put_in_place (p_addr x) (p_addr i) (p_addr r) h = Ok h' /\ separate h' (with_kids x (l1 ++ r :: l2)) i /\
    same_but ((p_addr x :: ids (p_kids x)) ++ [p_addr r]) h h'.
Proof.
  intros (Hx & Hk & Hr & Hkr & Ht & Hn & Htn & Hox & Hor)%separate_item Href E.
  pose proof (proj2 (proj1 (NoDup_cons _ _) (proj1 (proj1 (NoDup_app _ _) Hn)))) as Hnk.
  pose proof (first_child x l1 i l2 E Hnk) as Hfirst. rewrite E in Hk, Hn.
  rewrite ids_app, ids_cons in Hn. apply seg_app in Hk as [H1 H2]. apply segment_cons in H2 as (Hi & Hki & H2). cbn [head_or] in H1.
  destruct (parts_intro (p_addr x) (ids l1) (p_addr r) (ids (p_kids r)) (ids l2) (p_addr i :: ids (p_kids i))) as [colour P].
  { eapply NoDup_Permutation_proper; [|exact Hn]. solve_Permutation. }
  assert (Pi : colour (p_addr i) = 5%nat) by (apply P; by left).
  assert (Pk : forall a, a ∈ ids (p_kids i) -> colour a = 5%nat /\ a <> p_addr i).
  { intros a Ha. split; [apply P; by right|]. intros ->.
    apply NoDup_app in Hn as [(_ & (_ & _ & [Hn _]%NoDup_cons)%NoDup_app)%NoDup_cons _]. apply Hn, elem_of_app. by left. }
  unfold put_in_place. rewrite Hi. cbn [deref obind]. rewrite n_prev_of, n_next_of.
  destruct (upd_same (p_addr r) (fun m => m {{ n_next := head_or l2 None }}) h _ Hr) as (h1 & -> & Hr1 & S1). cbn [obind].
  rewrite node_of_links in Hr1.
  destruct (upd_same (p_addr r) (fun m => m {{ n_prev := last_or None l1 }}) h1 _ Hr1) as (h2 & -> & Hr2 & S2). cbn [obind].
  rewrite node_of_prev in Hr2.
  destruct (seg_set_prev h2 (Some (p_addr i)) (Some (p_addr r)) l2 None) as (h3 & -> & H3 & S3); [keep|apply P|done|]. cbn [obind].
  destruct (seg_set_next h3 None l1 (Some (p_addr i)) (Some (p_addr r))) as (h4 & -> & H4 & S4); [keep|apply P|done|]. cbn [obind].
  assert (Hx4 : nodes h4 !! p_addr x = Some (node_of x None None)) by keep.
  rewrite Hx4. cbn [deref obind]. rewrite n_child_of, Hfirst by done.
  destruct (set_child_ok h4 x (l1 ++ r :: l2) (match l1 with [] => true | _ => false end) (Some (p_addr r)) Hx4 Href) as (h5 & -> & Hx5 & S5).
  { rewrite E. by destruct l1. }
  cbn [obind].
  destruct (upd_same (p_addr i) (fun m => m {{ n_next := None }}) h5 (node_of i (last_or None l1) (head_or l2 None)))
    as (h6 & -> & Hi6 & S6); [keep|]. cbn [obind]. rewrite node_of_links in Hi6.
  destruct (upd_same (p_addr i) (fun m => m {{ n_prev := None }}) h6 _ Hi6) as (h7 & -> & Hi7 & S7). rewrite node_of_prev in Hi7.
  exists h7. split; [done|].
  assert (Hs : same_but ((p_addr x :: ids (p_kids x)) ++ [p_addr r]) h h7).
  { rewrite E, ids_app, ids_cons. eapply same_but_sub; [chained|].
    intros a. rewrite !elem_of_app. intros [Ha|[Ha|[Ha%head_in|[Ha%last_in|Ha]]]]; set_solver. }
  split; [|exact Hs]. destruct Hs as (_ & Et & _). pose proof (strings_replace x l1 i l2 r E) as Hp.
  apply owns_eq in Hox as Ho'. destruct Ho' as (_ & _ & Hf). rewrite E, Forall_app, Forall_cons in Hf. destruct Hf as (Hf1 & Hfi & Hf2).
  apply separate_item. cbn [with_kids p_addr p_kids]. rewrite Et. split; [keep|].
  split; [apply seg_app; split; [|apply segment_cons; split; [|split]]; cbn [head_or]; keep|]. split; [keep|]. split; [keep|].
  split; [by eapply in_map_perm|]. split; [|split; [unfold addrs; by rewrite <- Hp|split; [by apply owns_kids; [..|apply Forall_app, (conj Hf1), Forall_cons]|done]]].
  rewrite ids_app, ids_cons. eapply NoDup_Permutation_proper; [|exact Hn]. solve_Permutation.
Qed.

(** ** cJSON_InsertItemInArray *)

Lemma strings_insert x l1 l2 y : p_kids x = l1 ++ l2 -> strings x ++ strings y ≡ₚ strings (with_kids x (l1 ++ y :: l2)).
Proof.
  intros E. rewrite (strings_eq x), (strings_eq (with_kids _ _)), E. cbn [with_kids p_text p_name p_kids].
  rewrite !all_strings_app. cbn [all_strings]. solve_Permutation.
Qed.

(** The last assignment: the parent's or the previous item's pointer. *)
Lemma hook_ok h3 x y l1 b l2 colour : let ks := l1 ++ y :: b :: l2 in
  p_kids x = l1 ++ b :: l2 -> is_reference (p_type x) = false ->
  parts (p_addr x) (ids l1) (p_addr y) (ids (p_kids y)) (ids (b :: l2)) [] colour ->
  nodes h3 !! p_addr x = Some (node_of x None None) -> nodes h3 !! p_addr y = Some (node_of y (last_or None l1) (Some (p_addr b))) ->
  seg h3 None l1 (Some (p_addr b)) -> seg h3 (Some (p_addr y)) (b :: l2) None -> seg h3 None (p_kids y) None ->
  bool_decide (head_addr (p_kids x) = Some (p_addr b)) = match l1 with [] => true | _ => false end ->
  exists h4, (if bool_decide (Some (p_addr b) = head_addr (p_kids x)) then upd (p_addr x) (fun m => m {{ n_child := Some (p_addr y) }}) h3
      else let! p := deref (last_or None l1) in upd p (fun m => m {{ n_next := Some (p_addr y) }}) h3) = Ok h4 /\
    nodes h4 !! p_addr x = Some (node_of (with_kids x ks) None None) /\ seg h4 None ks None /\
    same_but (p_addr x :: ids l1) h3 h4.
Proof.
  intros ks E Href P Hx3 Hy3 H1 H3 Hky Hfirst.
  rewrite (bool_decide_ext _ (head_addr (p_kids x) = Some (p_addr b))), Hfirst by (split; congruence). destruct l1 as [|k l1].
  - destruct (set_child_ok h3 x ks true (Some (p_addr y)) Hx3 Href eq_refl) as (h4 & -> & Hx4 & S4). exists h4. split; [done|].
    split; [done|]. split; [|eapply same_but_sub; [exact S4|set_solver]].
    apply segment_cons. cbn [head_or]. split; [keep|]. split; keep.
  - destruct (seg_set_next h3 None (k :: l1) (Some (p_addr b)) (Some (p_addr y))) as (h4 & E4 & H4 & S4); [keep|apply P|done|].
    destruct (last_or None (k :: l1)) as [p|] eqn:El; [|unfold last_or in El; rewrite last_cons in El; by destruct (last l1)].
    cbn [set_next] in E4. cbn [deref obind]. rewrite E4. exists h4. split; [done|].
    destruct (set_child_ok h4 x ks false None) as (h4' & [= <-] & Hx4 & _); [keep|done|by rewrite E|].
    split; [exact Hx4|]. split; [|eapply same_but_sub; [exact S4|intros a Ha%last_in; by right]].
    apply seg_app. split; [exact H4|]. rewrite El. apply segment_cons. cbn [head_or]. split; [keep|]. split; keep.
Qed.

Lemma insert_ok fuel h x y l1 b l2 :
  separate h x y -> is_reference (p_type x) = false -> p_kids x = l1 ++ b :: l2 ->
  exists h', cJSON_InsertItemInArray fuel (Some (p_addr x)) (Z.of_nat (List.length l1)) (Some (p_addr y)) h = Ok h' /\
    holds h' None [with_kids x (l1 ++ y :: b :: l2)] /\ same_but ((p_addr x :: ids (p_kids x)) ++ [p_addr y]) h h'.
Proof.
  intros (Hx & Hk & Hy & Hky & Ht & Hn & Htn & Hox & Hoy)%separate_item Href E.
  pose proof (proj2 (proj1 (NoDup_cons _ _) (proj1 (proj1 (NoDup_app _ _) Hn)))) as Hnk.
  pose proof (first_child x l1 b l2 E Hnk) as Hfirst.
  unfold cJSON_InsertItemInArray. destruct (Z.ltb_spec (Z.of_nat (List.length l1)) 0); [lia|].
  rewrite (get_array_item_ok h x _ Hx Hk Href). rewrite E in Hk, Hn |- *. rewrite Nat2Z.id, list_lookup_middle by done.
  cbn [obind fmap option_fmap option_map deref]. rewrite ids_app in Hn. apply seg_app in Hk as [H1 H2]. cbn [head_or] in H1.
  destruct (parts_intro (p_addr x) (ids l1) (p_addr y) (ids (p_kids y)) (ids (b :: l2)) []) as [colour P].
  { rewrite app_nil_r. eapply NoDup_Permutation_proper; [|exact Hn]. solve_Permutation. }
  assert (Hb : colour (p_addr b) = 4%nat) by (apply P; rewrite ids_cons; by left).
  pose proof (proj1 (proj1 (segment_cons _ _ _ _ _) H2)) as Hbn.
  destruct (upd_same (p_addr y) (fun m => m {{ n_next := Some (p_addr b) }}) h _ Hy) as (h1 & -> & Hy1 & S1). cbn [obind].
  rewrite node_of_links in Hy1.
  assert (Hb1 : nodes h1 !! p_addr b = Some (node_of b (last_or None l1) (head_or l2 None))) by keep.
  rewrite Hb1. cbn [deref obind]. rewrite n_prev_of.
  destruct (upd_same (p_addr y) (fun m => m {{ n_prev := last_or None l1 }}) h1 _ Hy1) as (h2 & -> & Hy2 & S2). cbn [obind].
  rewrite node_of_prev in Hy2.
  destruct (seg_set_prev h2 (last_or None l1) (Some (p_addr y)) (b :: l2) None) as (h3 & E3 & H3 & S3); [keep|apply P|done|].
  cbn [head_or set_prev] in E3. rewrite E3. cbn [obind].
  assert (Hx3 : nodes h3 !! p_addr x = Some (node_of x None None)) by keep.
  assert (Hy3 : nodes h3 !! p_addr y = Some (node_of y (last_or None l1) (Some (p_addr b)))) by keep.
  rewrite Hx3. cbn [deref obind]. rewrite n_child_of, Hy3 by done. cbn [deref obind]. rewrite n_prev_of.
  destruct (hook_ok h3 x y l1 b l2 colour E Href P) as (h4 & -> & Hx4 & Hks & S4); [done|done|keep|done|keep|done|].
  exists h4. split; [done|].
  assert (Hs : same_but ((p_addr x :: ids (l1 ++ b :: l2)) ++ [p_addr y]) h h4).
  { rewrite ids_app. eapply same_but_sub; [chained|]. intros a. rewrite !elem_of_app. intros [Ha|[Ha|[Ha%head_in|Ha]]]; set_solver. }
  split; [|exact Hs]. destruct Hs as (_ & Et & _). pose proof (strings_insert x l1 (b :: l2) y E) as Hp.
  apply owns_eq in Hox as Ho'. destruct Ho' as (_ & _ & Hf). rewrite E, Forall_app in Hf. destruct Hf as (Hf1 & Hf2).
  apply holds_item. cbn [with_kids p_addr p_kids]. rewrite Et. split; [exact Hx4|]. split; [exact Hks|].
  split; [by eapply in_map_perm|]. split; [|split; [unfold addrs; by rewrite <- Hp|by apply owns_kids; [..|apply Forall_app, (conj Hf1), Forall_cons]]].
  rewrite ids_app, (ids_cons y). eapply NoDup_Permutation_proper; [|exact Hn]. solve_Permutation.
Qed.

(** ** The theorems *)

Lemma insert_any fuel h x y which : separate h x y -> is_reference (p_type x) = false -> 0 <= which ->
  (List.length (p_kids x) <= fuel)%nat ->
  exists h', cJSON_InsertItemInArray fuel (Some (p_addr x)) which (Some (p_addr y)) h = Ok h' /\
    holds h' None [with_kids x (take (Z.to_nat which) (p_kids x) ++ y :: drop (Z.to_nat which) (p_kids x))] /\
    same_but ((p_addr x :: ids (p_kids x)) ++ p_addr y :: ids (p_kids y)) h h'.
Proof.
  intros Hs Hr Hw Hf. pose proof (take_drop (Z.to_nat which) (p_kids x)) as E.
  destruct (drop (Z.to_nat which) (p_kids x)) as [|b l2] eqn:Ed.
  - pose proof Hs as (Hx & Hk & _)%separate_item. unfold cJSON_InsertItemInArray. destruct (Z.ltb_spec which 0); [lia|].
    rewrite (get_array_item_ok h x which Hx Hk Hr).
    assert (Hlen : (List.length (p_kids x) <= Z.to_nat which)%nat).
    { apply (f_equal List.length) in Ed. rewrite length_drop in Ed. cbn in Ed. lia. }
    rewrite lookup_ge_None_2 by exact Hlen. cbn [fmap option_fmap option_map obind].
    destruct (add_item_ok h x y fuel Hs Hr Hf) as (h' & -> & H1 & H2). exists h'. rewrite take_ge by exact Hlen.
    split; [done|]. split; [done|]. unfold addrs in H2. rewrite map_app, !cells_eq in H2. exact H2.
  - destruct (insert_ok fuel h x y _ b l2 Hs Hr (eq_sym E)) as (h' & E1 & H1 & H2). exists h'.
    rewrite length_take_le in E1 by (apply (f_equal List.length) in Ed; rewrite length_drop in Ed; cbn in Ed; lia).
    rewrite Z2Nat.id in E1 by done. split; [done|]. split; [done|]. eapply same_but_sub; [exact H2|set_solver].
Qed.

(** Two heaps that agree elsewhere and hold the same items are the same. *)
Lemma separate_unique h h' x y : separate h x y -> separate h' x y ->
  same_but ((p_addr x :: ids (p_kids x)) ++ p_addr y :: ids (p_kids y)) h h' -> h' = h.
Proof.
  intros (A1 & A2 & _)%separate_cells (B1 & _)%separate_cells (S1 & S2 & S3).
  assert (E : nodes h' = nodes h).
  { apply map_eq. intros a. destruct (decide (a ∈ addrs (cells x None None ++ cells y None None))) as [Ha|Ha].
    - apply cell_in in Ha as [n Ha]. by rewrite (A1 a n Ha), (B1 a n Ha).
    - apply S1. intros Hin. apply Ha. unfold addrs. rewrite map_app, !cells_eq. exact Hin. }
  destruct h, h'. cbn in *. congruence.
Qed.

Lemma detach_at h x which y : holds h None [x] -> is_reference (p_type x) = false -> 0 <= which -> p_kids x !! Z.to_nat which = Some y ->
  exists h', cJSON_DetachItemFromArray (Some (p_addr x)) which h = Ok (Some (p_addr y), h') /\
    separate h' (with_kids x (remove_at (Z.to_nat which) (p_kids x))) y /\ same_but (p_addr x :: ids (p_kids x)) h h'.
Proof.
  intros Hh Hr Hw Hy. pose proof Hh as (Hx & Hk & _)%holds_item. unfold cJSON_DetachItemFromArray. destruct (Z.ltb_spec which 0); [lia|].
  rewrite (get_array_item_ok h x which Hx Hk Hr), Hy. cbn [fmap option_fmap option_map obind].
  apply detach_ok; [done|done|]. by rewrite take_drop_middle.
Qed.

Lemma erase_kids x ks : erase (with_kids x ks) = set_child (map erase ks) (erase x).
Proof. by destruct x. Qed.

Lemma child_erase x : child (erase x) = map erase (p_kids x).
Proof. by destruct x. Qed.

(** Deleting one of two items keeps the other. *)
Lemma free_other h x y : separate h x y ->
  exists h', cJSON_Delete (S (List.length (cells y None None))) (Some (p_addr y)) h = Ok h' /\ holds h' None [x] /\
    freed h h' (addrs (cells y None None)) (addrs (strings y)).
Proof.
  intros [Hx Hy D1 D2]. destruct (delete_chain (S (List.length (cells y None None))) h None [y] Hy) as (h' & E & F).
  { change (chain None [y]) with (cells y None None ++ []). rewrite app_nil_r. lia. }
  exists h'. split; [exact E|]. cbn [chain all_strings] in F, D1, D2. rewrite !app_nil_r in F, D1, D2.
  split; [|exact F]. eapply holds_freed; [exact Hx|exact F| |]; cbn [chain all_strings]; by rewrite app_nil_r.
Qed.

(** C23: cJSON_InsertItemInArray inserts, and cJSON_DetachItemFromArray undoes
    it.  At any index from 0 to the number of children (where the item is
    appended) the pointers after the call are those of the array with the item
    there, as on trees; detaching at that index returns the item and the heap
    is the one before. *)
Theorem cJSON_InsertItemInArray_refines fuel h x y which :
  separate h x y -> is_reference (p_type x) = false -> 0 <= which <= Z.of_nat (List.length (p_kids x)) ->
  (List.length (p_kids x) <= fuel)%nat ->
  let z := with_kids x (take (Z.to_nat which) (p_kids x) ++ y :: drop (Z.to_nat which) (p_kids x)) in
  CjsonTree.cJSON_InsertItemInArray (Some (erase x)) which (Some (erase y)) = Ok (Some (erase z)) /\
  exists h', cJSON_InsertItemInArray fuel (Some (p_addr x)) which (Some (p_addr y)) h = Ok h' /\ holds h' None [z] /\
    cJSON_DetachItemFromArray (Some (p_addr x)) which h' = Ok (Some (p_addr y), h).
Proof.
  intros Hs Hr [Hw Hle] Hf z. split.
  - unfold z, CjsonTree.cJSON_InsertItemInArray, array_index. destruct (Z.ltb_spec which 0); [lia|].
    rewrite erase_kids, child_erase, length_map, map_app. cbn [map]. destruct (Nat.ltb_spec (Z.to_nat which) (List.length (p_kids x))) as [Hlt|Hge].
    + by rewrite <- firstn_map, <- skipn_map.
    + rewrite take_ge, drop_ge by lia. cbn [CjsonTree.cJSON_AddItemToArray]. by rewrite child_erase.
  - destruct (insert_any fuel h x y which Hs Hr Hw Hf) as (h' & E & Hz & Hb). exists h'. split; [done|]. split; [done|].
    destruct (detach_at h' z which y Hz Hr Hw) as (h'' & E' & Hs' & Hb').
    { unfold z. cbn [with_kids p_kids]. apply list_lookup_middle. rewrite length_take_le; lia. }
    change (p_addr z) with (p_addr x) in E'. rewrite E'. assert (Ez : with_kids z (remove_at (Z.to_nat which) (p_kids z)) = x).
    { unfold z, remove_at. cbn [with_kids p_kids p_addr p_type p_text p_name p_int p_double p_shared].
      assert (El : List.length (take (Z.to_nat which) (p_kids x)) = Z.to_nat which) by (rewrite length_take_le; lia).
      rewrite take_app_length', drop_app_ge, El by lia. replace (S (Z.to_nat which) - Z.to_nat which)%nat with 1%nat by lia.
      cbn [skipn]. rewrite drop_0, take_drop. by destruct x. }
    rewrite Ez in Hs'. do 2 f_equal. eapply separate_unique; [exact Hs|exact Hs'|].
    eapply same_but_sub; [exact (same_but_trans _ _ _ _ _ Hb Hb')|]. intros a. unfold z. cbn [with_kids p_kids p_addr].
    pose proof (ids_app (take (Z.to_nat which) (p_kids x)) (drop (Z.to_nat which) (p_kids x))) as Ei. rewrite take_drop in Ei.
    rewrite ids_app, ids_cons, Ei, !elem_of_app, !elem_of_cons, !elem_of_app, elem_of_cons, elem_of_app. tauto.
Qed.

Lemma cJSON_InsertItemInArray_witness :
  separate sample_pair sample_tree sample_number /\
  exists h', cJSON_InsertItemInArray 2 (Some 1) 1 (Some 4) sample_pair = Ok h' /\
    cJSON_DetachItemFromArray (Some 1) 1 h' = Ok (Some 4, sample_pair).
Proof.
  split; [apply sample_separate|].
  destruct (cJSON_InsertItemInArray_refines 2 sample_pair sample_tree sample_number 1 sample_separate eq_refl) as (_ & h' & E & _ & H);
    [cbn; lia|cbn; lia|]. by exists h'.
Defined.

(** cJSON_DeleteItemFromArray removes one item and frees it.  The index
    of a child given, the function returns, the array's pointers are those of
    the array without that child, and exactly the blocks the child owned are
    freed: every other block of the heap is live or not as before. *)
Theorem cJSON_DeleteItemFromArray_refines h x which y :
  holds h None [x] -> is_reference (p_type x) = false -> 0 <= which -> p_kids x !! Z.to_nat which = Some y ->
  let z := with_kids x (remove_at (Z.to_nat which) (p_kids x)) in
  CjsonTree.cJSON_DetachItemFromArray (Some (erase x)) which = (Some (erase y), Some (erase z)) /\
  exists h', cJSON_DeleteItemFromArray (S (List.length (cells y None None))) (Some (p_addr x)) which h = Ok h' /\
    holds h' None [z] /\
    (forall a, a ∈ addrs (cells y None None) -> nodes h' !! a = None) /\
    (forall a, a ∉ addrs (cells x None None) -> nodes h' !! a = nodes h !! a) /\
    (forall a, texts h' !! a = if bool_decide (a ∈ addrs (strings y)) then None else texts h !! a).
Proof.
  intros Hh Hr Hw Hy z. split.
  - unfold CjsonTree.cJSON_DetachItemFromArray, array_index. destruct (Z.ltb_spec which 0); [lia|].
    rewrite child_erase, length_map. pose proof (lookup_lt_Some _ _ _ Hy). destruct (Nat.ltb_spec (Z.to_nat which) (List.length (p_kids x))); [|lia].
    cbn [CjsonTree.cJSON_DetachItemViaPointer]. rewrite child_erase. unfold z, remove_at. rewrite erase_kids, map_app.
    rewrite <- firstn_map, <- skipn_map. f_equal. change (map erase (p_kids x) !! Z.to_nat which) with ((erase <$> p_kids x) !! Z.to_nat which).
    by rewrite list_lookup_fmap, Hy.
  - unfold cJSON_DeleteItemFromArray. destruct (detach_at h x which y Hh Hr Hw Hy) as (h1 & -> & Hs & (S1 & S2 & S3)). cbn [obind].
    destruct (free_other h1 z y Hs) as (h' & E & Hz & [F1 F2 F3]). exists h'. split; [exact E|]. split; [exact Hz|]. split; [|split].
    + intros a Ha. by rewrite F1, bool_decide_eq_true_2.
    + intros a Ha. rewrite F1, S1 by (intros Hin; apply Ha; by rewrite cells_eq). rewrite bool_decide_eq_false_2; [done|].
      intros Hin. apply Ha. rewrite cells_eq in Hin |- *. unfold addrs in *. cbn [map fst] in *. right. change (a ∈ ids (p_kids x)).
      change (a ∈ p_addr y :: ids (p_kids y)) in Hin. rewrite <- (take_drop_middle _ _ _ Hy), ids_app, ids_cons. set_solver.
    + intros a. by rewrite F2, S2.
Qed.

Lemma cJSON_DeleteItemFromArray_witness :
  holds (heap_of [sample_tree] 20) None [sample_tree] /\
  exists h', cJSON_DeleteItemFromArray 2 (Some 1) 0 (heap_of [sample_tree] 20) = Ok h' /\
    holds h' None [with_kids sample_tree (remove_at 0 (p_kids sample_tree))] /\ texts h' !! 10 = None.
Proof.
  split; [apply sample_tree_holds|].
  destruct (cJSON_DeleteItemFromArray_refines (heap_of [sample_tree] 20) sample_tree 0 _ (sample_tree_holds 20) eq_refl (Z.le_refl 0) eq_refl)
    as (_ & h' & E & H & _ & _ & Ht). exists h'. split; [exact E|]. split; [exact H|]. by rewrite Ht.
Defined.

(** C22: cJSON_ReplaceItemViaPointer puts an item in another's place.  The
    pointers after the call are those of the parent with the replacement in
    the item's position, as on trees, and exactly the blocks the replaced item
    owned are freed. *)
Theorem cJSON_ReplaceItemViaPointer_refines h x r l1 i l2 :
  separate h x r -> is_reference (p_type x) = false -> p_kids x = l1 ++ i :: l2 ->
  let z := with_kids x (l1 ++ r :: l2) in
  CjsonTree.cJSON_ReplaceItemViaPointer (Some (erase x)) (Some (List.length l1)) (Some (erase r)) = Ok (true, Some (erase z)) /\
  exists h', cJSON_ReplaceItemViaPointer (S (List.length (cells i None None))) (Some (p_addr x)) (Some (p_addr i)) (Some (p_addr r)) h
      = Ok (true, h') /\
    holds h' None [z] /\
    (forall a, a ∈ addrs (cells i None None) -> nodes h' !! a = None) /\
    (forall a, a ∉ addrs (cells x None None ++ cells r None None) -> nodes h' !! a = nodes h !! a) /\
    (forall a, texts h' !! a = if bool_decide (a ∈ addrs (strings i)) then None else texts h !! a).
Proof.
  intros Hs Hr E z. split.
  - cbn [CjsonTree.cJSON_ReplaceItemViaPointer]. unfold z. rewrite erase_kids, child_erase, E, !map_app. cbn [map]. do 4 f_equal.
    rewrite <- (length_map erase l1). rewrite insert_app_r_alt, Nat.sub_diag by done. reflexivity.
  - destruct (put_in_place_ok h x r l1 i l2 Hs Hr E) as (h1 & E1 & Hs1 & (S1 & S2 & S3)).
    rewrite replace_step; [rewrite E1; cbn [obind]|].
    2:{ destruct Hs as [_ _ Hd _]. intros Hri. apply (Hd (p_addr i)).
        - cbn [chain]. rewrite app_nil_r, cells_eq. unfold addrs. cbn [map fst]. right. change (p_addr i ∈ ids (p_kids x)).
          apply addr_in_ids. rewrite E. set_solver.
        - cbn [chain]. rewrite app_nil_r, cells_eq, <- Hri. by left. }
    destruct (free_other h1 z i Hs1) as (h' & -> & Hz & [F1 F2 F3]). exists h'. split; [done|]. split; [exact Hz|]. split; [|split].
    + intros a Ha. by rewrite F1, bool_decide_eq_true_2.
    + intros a Ha. unfold addrs in Ha. rewrite map_app, !cells_eq in Ha. change (a ∉ (p_addr x :: ids (p_kids x)) ++ p_addr r :: ids (p_kids r)) in Ha.
      rewrite F1, S1 by set_solver. rewrite bool_decide_eq_false_2; [done|]. intros Hin. apply Ha. rewrite cells_eq in Hin.
      change (a ∈ p_addr i :: ids (p_kids i)) in Hin. rewrite E, ids_app, ids_cons. set_solver.
    + intros a. by rewrite F2, S2.
Qed.

Lemma cJSON_ReplaceItemViaPointer_witness :
  separate sample_pair sample_tree sample_number /\
  exists h', cJSON_ReplaceItemViaPointer 2 (Some 1) (Some 2) (Some 4) sample_pair = Ok (true, h') /\
    holds h' None [with_kids sample_tree (sample_number :: tail (p_kids sample_tree))].
Proof.
  split; [apply sample_separate|].
  destruct (cJSON_ReplaceItemViaPointer_refines sample_pair sample_tree sample_number [] _ _ sample_separate eq_refl eq_refl)
    as (_ & h' & E & H & _). by exists h'.
Defined.
