(* ===== verification/JsonObject.v ===== *)
(** * JSON objects of named values

    The macros of cjson.h that add a member, and the objects they build: a list
    of named values ([entry]) as the sender builds it and as the receiver
    parses it. *)

From Stdlib Require Import SpecFloat.
From Stdlib Require Import String.
From S2P Require Import Prelude.
From S2P Require Import Cdouble.
From S2P Require Import CdoubleFacts.
From S2P Require Import CdoubleText.
From S2P Require Import CjsonData.
From S2P Require Import CjsonPrint.
From S2P Require Import CjsonPrintSpec.
From S2P Require Import CjsonPrintProof.
From S2P Require Import CjsonParse.
From S2P Require Import CjsonRoundtrip.
From S2P Require Import CjsonTree.
From stdpp Require Import base numbers gmap list.

Open Scope Z_scope.
Open Scope c_scope.

(** ** Adding members (the macros of cjson.h) *)

Definition add_item (o : cJSON) (name : String.string) (item : option cJSON) : outcome cJSON :=
  let! r := cJSON_AddItemToObject true (Some o) (Some (bytes_of name)) item in deref r.

Definition cJSON_AddTrueToObject (o : cJSON) (name : String.string) : outcome cJSON :=
  add_item o name (cJSON_CreateTrue true).
Definition cJSON_AddNumberToObject (o : cJSON) (name : String.string) (n : double) : outcome cJSON :=
  add_item o name (cJSON_CreateNumber true n).
Definition cJSON_AddStringToObject (o : cJSON) (name : String.string) (s : option bytes) : outcome cJSON :=
  add_item o name (cJSON_CreateString true true s).

(** [if (cond) f(j)] *)
Definition when (cond : bool) (f : cJSON -> outcome cJSON) (j : cJSON) : outcome cJSON :=
  if cond then f j else Ok j.

Definition non_null {A} (o : option A) : bool := match o with Some _ => true | None => false end.

(** ** Objects of named values *)

Inductive jvalue : Type :=
| JTrue
| JNum (z : Z)
| JDbl (d : double)
| JStr (s : bytes).

Abbreviation entry := (String.string * option jvalue)%type.

Definition obj (l : list cJSON) : cJSON := mkcJSON cJSON_Object None 0 d0 None l.

Definition key_of (n : String.string) : option bytes := Some (cstr_of (bytes_of n)).

(** The item of a value as it is built ... *)
Definition item_of (n : String.string) (v : jvalue) : cJSON :=
  match v with
  | JTrue => mkcJSON cJSON_True None 0 d0 (key_of n) []
  | JNum z => mkcJSON cJSON_Number None (saturate (d_of_Z z)) (d_of_Z z) (key_of n) []
  | JDbl d => mkcJSON cJSON_Number None (saturate d) d (key_of n) []
  | JStr s => mkcJSON cJSON_String (Some (cstr_of s)) 0 d0 (key_of n) []
  end.

(** ... and as it is parsed. *)
Definition parsed_item (n : String.string) (v : jvalue) : cJSON :=
  match v with
  | JTrue => mkcJSON cJSON_True None 1 d0 (key_of n) []
  | JNum z => mkcJSON cJSON_Number None (saturate (d_of_Z z)) (d_of_Z z) (key_of n) []
  | JDbl d => mkcJSON cJSON_Number None (saturate d) d (key_of n) []
  | JStr s => mkcJSON cJSON_String (Some (cstr_of s)) 0 d0 (key_of n) []
  end.

Definition member (f : String.string -> jvalue -> cJSON) (e : entry) : list cJSON :=
  match e.2 with Some v => [f e.1 v] | None => [] end.

Definition members (f : String.string -> jvalue -> cJSON) (es : list entry) : list cJSON :=
  flat_map (member f) es.

(** The value found under a name: the first entry with that name that has a
    value. *)
Fixpoint lookup_entry (name : String.string) (es : list entry) : option cJSON :=
  match es with
  | [] => None
  | (n, o) :: r =>
      if case_insensitive_strcmp (Some (bytes_of name)) (key_of n) =? 0
      then match o with Some v => Some (parsed_item n v) | None => lookup_entry name r end
      else lookup_entry name r
  end.

Lemma cstr_of_idem s : cstr_of (cstr_of s) = cstr_of s.
Proof. apply cstr_of_nonzero, cstr_of_nz. Qed.

Lemma norm_item n v : norm (Some (str_of (string (item_of n v)))) (item_of n v) = parsed_item n v.
Proof. destruct v; cbn; by rewrite ?cstr_of_idem. Qed.

Lemma norm_obj es : norm None (obj (members item_of es)) = obj (members parsed_item es).
Proof.
  unfold obj. cbn [norm base_type child]. change (base_type _) with cJSON_Object. cbn [Z.eqb Pos.eqb]. f_equal.
  induction es as [|[n [v|]] es IH]; [done| |exact IH]. cbn [members flat_map member snd fst app map].
  rewrite norm_item. f_equal. exact IH.
Qed.

Lemma lookup_members name es :
  cJSON_GetObjectItem (Some (obj (members parsed_item es))) (Some (bytes_of name))
    = Ok (lookup_entry name es).
Proof.
  rewrite cJSON_GetObjectItem_find. f_equal. cbn [child obj].
  induction es as [|[n [v|]] es IH]; [done| |].
  - cbn [members flat_map member snd fst app find_item lookup_entry].
    assert (E : string (parsed_item n v) = key_of n) by by destruct v. rewrite E.
    destruct (_ =? 0); [done|exact IH].
  - cbn [lookup_entry]. rewrite <- IH. by destruct (_ =? 0).
Qed.

(** ** Such objects are printed and parsed *)

(** Numbers of at most 15 digits, doubles that survive their text, and strings
    of bytes. *)
Definition value_ok (v : jvalue) : Prop :=
  match v with
  | JTrue => True
  | JNum z => - 10 ^ 15 < z < 10 ^ 15
  | JDbl d => number_ok d = true /\ valid_double d
  | JStr s => is_bytes s
  end.

Definition entry_ok (e : entry) : Prop := is_bytesb (bytes_of e.1) = true /\ from_option value_ok True e.2.

Lemma is_bytesb_true l : is_bytes l -> is_bytesb l = true.
Proof.
  intros H. apply forallb_forall. intros x Hx%list_elem_of_In. unfold is_bytes in H.
  rewrite Forall_forall in H. by apply Z.leb_le, H.
Qed.

Lemma item_printable n v : entry_ok (n, Some v) -> printable (item_of n v) = true /\ portable (item_of n v) = true.
Proof.
  intros [Hn Hv]. cbn in Hn, Hv. apply is_bytesb_spec, cstr_of_bytes, is_bytesb_true in Hn.
  destruct v as [|z|d|s]; cbn [item_of printable portable valuedouble valuestring string child key_of]; rewrite Hn.
  - done.
  - change (base_type _) with cJSON_Number. cbn [Z.eqb Pos.eqb].
    rewrite number_ok_int by exact Hv.
    assert (Hd : valid_double (d_of_Z z)) by (apply valid_double_int; cbn in Hv; lia).
    unfold valid_double in Hd. rewrite Hd. done.
  - change (base_type _) with cJSON_Number. cbn [Z.eqb Pos.eqb].
    destruct Hv as [-> Hd]. unfold valid_double in Hd. rewrite Hd. done.
  - change (base_type _) with cJSON_String. cbn [Z.eqb Pos.eqb].
    rewrite is_bytesb_true by by apply cstr_of_bytes. done.
Qed.

Lemma members_printable es : Forall entry_ok es ->
  printable (obj (members item_of es)) = true /\ portable (obj (members item_of es)) = true /\
  depth_of (obj (members item_of es)) = 1%nat.
Proof.
  intros H.
  assert (Hall : forallb printable (members item_of es) = true /\ forallb portable (members item_of es) = true /\
    list_max (map depth_of (members item_of es)) = 0%nat).
  { induction H as [|[n [v|]] es He Hes IH]; [done| |exact IH].
    cbn [members flat_map member snd fst app forallb map list_max foldr].
    destruct (item_printable n v He) as [-> ->]. destruct IH as (IH1 & IH2 & IH3). split; [exact IH1|].
    split; [exact IH2|]. unfold list_max in *. unfold members in IH3. rewrite IH3. by destruct v. }
  destruct Hall as (H1 & H2 & H3). unfold obj.
  cbn [printable portable depth_of valuedouble valuestring string child].
  change (base_type _) with cJSON_Object. cbn [Z.eqb Pos.eqb orb andb json_type].
  rewrite H1, H2, H3. done.
Qed.

(** A value that is only there under a condition. *)
Definition given (c : bool) (v : jvalue) : option jvalue := if c then Some v else None.

Lemma add_true n l : cJSON_AddTrueToObject (obj l) n = Ok (obj (l ++ member item_of (n, Some JTrue))).
Proof. done. Qed.
Lemma add_number n z l :
  cJSON_AddNumberToObject (obj l) n (d_of_Z z) = Ok (obj (l ++ member item_of (n, Some (JNum z)))).
Proof. done. Qed.
Lemma add_string n s l :
  cJSON_AddStringToObject (obj l) n (Some s) = Ok (obj (l ++ member item_of (n, Some (JStr s)))).
Proof. done. Qed.

Lemma add_double n d l :
  cJSON_AddNumberToObject (obj l) n d = Ok (obj (l ++ member item_of (n, Some (JDbl d)))).
Proof. done. Qed.

Lemma member_none n l : l = l ++ member item_of (n, None).
Proof. by rewrite app_nil_r. Qed.

Lemma when_true c n l :
  when c (fun j => cJSON_AddTrueToObject j n) (obj l) = Ok (obj (l ++ member item_of (n, given c JTrue))).
Proof. destruct c; [done|]. cbn. by rewrite app_nil_r. Qed.
Lemma when_number c n z l :
  when c (fun j => cJSON_AddNumberToObject j n (d_of_Z z)) (obj l)
    = Ok (obj (l ++ member item_of (n, given c (JNum z)))).
Proof. destruct c; [done|]. cbn. by rewrite app_nil_r. Qed.
Lemma when_string n s l :
  when (non_null s) (fun j => cJSON_AddStringToObject j n s) (obj l)
    = Ok (obj (l ++ member item_of (n, option_map JStr s))).
Proof. destruct s; [done|]. cbn. by rewrite app_nil_r. Qed.

(** ** Reading integers *)

Lemma saturate_int z : - 2 ^ 53 < z < 2 ^ 53 -> saturate (d_of_Z z) = z.
Proof.
  intros Hz. unfold saturate. rewrite Z_of_double_d_of_Z by done.
  change (d_of_Z LLONG_MAX) with (S754_finite false 4503599627370496 11).
  change (d_of_Z LLONG_MIN) with (S754_finite true 4503599627370496 11).
  assert (H : dleb (S754_finite false 4503599627370496 11) (d_of_Z z) = false /\
              dleb (d_of_Z z) (S754_finite true 4503599627370496 11) = false).
  { destruct (Z.lt_trichotomy z 0) as [Hlt|[->|Hgt]]; [|done|].
    - destruct (d_of_Z_exact (- z)) as (m & e & _ & E & He & _); [lia|].
      rewrite Z.opp_involutive in E. rewrite E. unfold dleb, SFleb, SFcompare.
      assert (Hc : (e ?= 11) = Lt) by (apply Z.compare_lt_iff; lia). rewrite Hc. done.
    - destruct (d_of_Z_exact z) as (m & e & E & _ & He & _); [lia|]. rewrite E.
      unfold dleb, SFleb, SFcompare.
      assert (Hc : (11 ?= e) = Gt) by (apply Z.compare_gt_iff; lia). rewrite Hc. done. }
  destruct H as [-> ->]. done.
Qed.

(** ** Values that can be sent *)

Lemma given_ok (b : bool) v : value_ok v -> from_option value_ok True (given b v).
Proof. by destruct b. Qed.

Lemma string_ok s : opt_bytes s -> from_option value_ok True (option_map JStr s).
Proof. by destruct s. Qed.

Lemma int_ok z : is_i32 z -> value_ok (JNum z).
Proof. cbn. unfold is_i32. lia. Qed.
Lemma size_ok z : 0 <= z < 10 ^ 15 -> value_ok (JNum z).
Proof. cbn. lia. Qed.
