(* ===== verification/Net.v ===== *)
(** * Sockets (net.c)

    The operating system answers each call as a function of the calls made so
    far, so any behaviour of it is covered.  The state also keeps the ledger
    the code is responsible for: the open descriptors and the live results of
    getaddrinfo.  Stream sockets (Nread, Nwrite, Nsendfile) are modelled with
    their bytes: a schedule says how much each read or write transfers. *)

From coqutil Require Import Datatypes.RecordSetters.
From S2P Require Import Prelude.
From stdpp Require Import base numbers gmap list.
Import DoubleBraceUpdate.

Open Scope Z_scope.
Open Scope c_scope.

Abbreviation AF_UNSPEC := 0.
Abbreviation AF_INET := 2.
Abbreviation AF_INET6 := 10.
Abbreviation SOCK_STREAM := 1.
Abbreviation EINTR := 4.
Abbreviation EAGAIN := 11.
Abbreviation ENOMEM := 12.
Abbreviation EAFNOSUPPORT := 97.
Abbreviation ENOBUFS := 105.
Abbreviation ETIMEDOUT := 110.
Abbreviation EINPROGRESS := 115.
Abbreviation NET_SOFTERROR := (-1).
Abbreviation NET_HARDERROR := (-2).
Abbreviation O_NONBLOCK := 2048.
Abbreviation SOL_SOCKET := 1.
Abbreviation SO_REUSEADDR := 2.
Abbreviation IPPROTO_IPV6 := 41.
Abbreviation IPV6_V6ONLY := 26.

(** ** System calls *)

Inductive syscall : Type :=
| SYS_getaddrinfo (node : option bytes) (service : option Z) (family socktype : Z) (passive : bool)
| SYS_freeaddrinfo
| SYS_socket (family proto : Z)
| SYS_setsockopt (fd level name value : Z)
| SYS_bind (fd : Z) (port : option Z)
| SYS_listen (fd : Z)
| SYS_connect (fd port : Z)
| SYS_poll (fd timeout : Z)
| SYS_getsockopt_error (fd : Z)
| SYS_fcntl_getfl (fd : Z)
| SYS_fcntl_setfl (fd flags : Z)
| SYS_getsockname (fd : Z)
| SYS_close (fd : Z)
| SYS_accept (fd : Z)
| SYS_getpeername (fd : Z)
| SYS_getsockopt (fd level name : Z)
| SYS_read (fd : Z) (count : nat)        (* read, recv, recvfrom, or the loop of Nread *)
| SYS_write (fd : Z) (data : bytes)      (* write, or the loop of Nwrite *)
| SYS_mkstemp
| SYS_unlink
| SYS_ftruncate (fd len : Z)
| SYS_mmap (fd len : Z)
| SYS_munmap (len : Z)
| SYS_open (path : bytes) (write : bool)
| SYS_malloc
| SYS_free.

(** The result of a call, the errno it sets when it fails, and the value it
    stores (ai_family, optval, sa_family) or the bytes it reads. *)
Record answer := mkanswer { ret : Z; err : Z; out : Z; data : bytes }.

(** The ledger: open descriptors, address lists, mappings and blocks of the
    heap. *)
Record sys := mksys
  { history : list syscall;
    errno : Z;
    gerror : Z;
    open_fds : list Z;
    live_infos : nat;
    live_maps : nat;
    live_blocks : nat }.

Definition set_errno (e : Z) (s : sys) : sys :=
  mksys (history s) e (gerror s) (open_fds s) (live_infos s) (live_maps s) (live_blocks s).
Definition set_gerror (e : Z) (s : sys) : sys :=
  mksys (history s) (errno s) e (open_fds s) (live_infos s) (live_maps s) (live_blocks s).

(** The ledger is a multiset: closing takes one entry out. *)
Fixpoint remove_first (fd : Z) (l : list Z) : list Z :=
  match l with
  | [] => []
  | x :: r => if x =? fd then r else x :: remove_first fd r
  end.

Section Syscalls.
Variable os : list syscall -> answer.

(** The ledger after a call that returned [r]. *)
Definition account (c : syscall) (r : Z) (s : sys) : sys :=
  match c with
  | SYS_getaddrinfo _ _ _ _ _ => s {{ live_infos := if r =? 0 then S (live_infos s) else live_infos s }}
  | SYS_freeaddrinfo => s {{ live_infos := pred (live_infos s) }}
  | SYS_socket _ _ | SYS_accept _ | SYS_mkstemp | SYS_open _ _ =>
      s {{ open_fds := if 0 <=? r then r :: open_fds s else open_fds s }}
  | SYS_close fd => s {{ open_fds := remove_first fd (open_fds s) }}
  | SYS_mmap _ _ => s {{ live_maps := if r =? -1 then live_maps s else S (live_maps s) }}
  | SYS_munmap _ => s {{ live_maps := pred (live_maps s) }}
  | SYS_malloc => s {{ live_blocks := if r =? 0 then live_blocks s else S (live_blocks s) }}
  | SYS_free => s {{ live_blocks := pred (live_blocks s) }}
  | _ => s
  end.

Definition call (c : syscall) (s : sys) : Z * Z * sys :=
  let h := history s ++ [c] in
  let a := os h in
  let e := if ret a <? 0 then err a else errno s in
  (ret a, out a, account c (ret a) (s {{ history := h; errno := e }})).

(** ** Connections *)

Fixpoint free_infos (n : nat) (s : sys) : sys :=
  match n with
  | O => s
  | S n' => free_infos n' (snd (call SYS_freeaddrinfo s))
  end.

(** close, freeaddrinfo and restoring errno, as every error path does *)
Definition fail_close (fd : Z) (infos : nat) (s : sys) : Z * sys :=
  let saved_errno := errno s in
  let '(_, _, s) := call (SYS_close fd) s in
  let s := free_infos infos s in
  (-1, set_errno saved_errno s).

Definition timeout_connect (fd port timeout : Z) (s : sys) : Z * sys :=
  let body flags (s : sys) :=
    let '(r, _, s) := call (SYS_connect fd port) s in
    let '(r, s) :=
      if negb (r =? 0) && (errno s =? EINPROGRESS)
      then
        let '(r, _, s) := call (SYS_poll fd timeout) s in
        if r =? 1
        then
          let '(r, optval, s) := call (SYS_getsockopt_error fd) s in
          if r =? 0 then ((if optval =? 0 then 0 else -1), set_errno optval s) else (r, s)
        else if r =? 0 then (-1, set_errno ETIMEDOUT s)
        else (-1, s)
      else (r, s) in
    if negb (timeout =? -1)
    then
      let '(r', _, s) := call (SYS_fcntl_setfl fd flags) s in
      if r' =? -1 then (-1, s) else (r, s)
    else (r, s) in
  if negb (timeout =? -1)
  then
    let '(flags, _, s) := call (SYS_fcntl_getfl fd) s in
    let '(r, _, s) := call (SYS_fcntl_setfl fd (Z.lor flags O_NONBLOCK)) s in
    if r =? -1 then (-1, s) else body flags s
  else body 0 s.

(** The end of netdial, from the connection on. *)
Definition dial_connect (fd port timeout : Z) (s : sys) : Z * sys :=
  let '(r, s) := timeout_connect fd port timeout s in
  if (r <? 0) && negb (errno s =? EINPROGRESS) then fail_close fd 1 s
  else
    let '(_, _, s) := call SYS_freeaddrinfo s in (fd, s).

Definition netdial (domain proto : Z) (local : option bytes) (local_port : Z) (server : bytes)
    (port timeout : Z) (s : sys) : Z * sys :=
  let resolve_server (s : sys) :=
    let '(r, ai_family, s) := call (SYS_getaddrinfo (Some server) None domain proto false) s in
    let s := set_gerror r s in
    if negb (r =? 0) then (-1, s) else
    let '(fd, _, s) := call (SYS_socket ai_family proto) s in
    if fd <? 0
    then
      let s := match local with Some _ => snd (call SYS_freeaddrinfo s) | None => s end in
      let '(_, _, s) := call SYS_freeaddrinfo s in (-1, s)
    else
    match local with
    | Some _ =>
        let '(r, _, s) := call (SYS_bind fd (if local_port =? 0 then None else Some local_port)) s in
        if r <? 0 then fail_close fd 2 s
        else let '(_, _, s) := call SYS_freeaddrinfo s in dial_connect fd port timeout s
    | None =>
        if negb (local_port =? 0)
        then
          if (ai_family =? AF_INET) || (ai_family =? AF_INET6)
          then
            let '(r, _, s) := call (SYS_bind fd (Some local_port)) s in
            if r <? 0 then fail_close fd 1 s else dial_connect fd port timeout s
          else (-1, set_errno EAFNOSUPPORT s)
        else dial_connect fd port timeout s
    end in
  match local with
  | Some l =>
      let '(r, _, s) := call (SYS_getaddrinfo (Some l) None domain proto false) s in
      let s := set_gerror r s in
      if negb (r =? 0) then (-1, s) else resolve_server s
  | None => resolve_server s
  end.

(** The end of netannounce, from bind on. *)
Definition announce_bind (fd proto port : Z) (s : sys) : Z * sys :=
  let '(r, _, s) := call (SYS_bind fd (Some port)) s in
  if r <? 0 then fail_close fd 1 s else
  let '(_, _, s) := call SYS_freeaddrinfo s in
  if proto =? SOCK_STREAM
  then
    let '(r, _, s) := call (SYS_listen fd) s in
    if r <? 0 then fail_close fd 0 s else (fd, s)
  else (fd, s).

Definition netannounce (domain proto : Z) (local : option bytes) (port : Z) (s : sys) : Z * sys :=
  let family :=
    if (domain =? AF_UNSPEC) && match local with None => true | _ => false end then AF_INET6 else domain in
  let '(r, ai_family, s) := call (SYS_getaddrinfo local (Some port) family proto true) s in
  let s := set_gerror r s in
  if negb (r =? 0) then (-1, s) else
  let '(fd, _, s) := call (SYS_socket ai_family proto) s in
  if fd <? 0 then let '(_, _, s) := call SYS_freeaddrinfo s in (-1, s) else
  let '(r, _, s) := call (SYS_setsockopt fd SOL_SOCKET SO_REUSEADDR 1) s in
  if r <? 0 then fail_close fd 1 s else
  if (ai_family =? AF_INET6) && ((domain =? AF_UNSPEC) || (domain =? AF_INET6))
  then
    let opt := if domain =? AF_UNSPEC then 0 else 1 in
    let '(r, _, s) := call (SYS_setsockopt fd IPPROTO_IPV6 IPV6_V6ONLY opt) s in
    if r <? 0 then fail_close fd 1 s else announce_bind fd proto port s
  else announce_bind fd proto port s.

Definition setnonblocking (fd : Z) (nonblocking : bool) (s : sys) : Z * sys :=
  let '(flags, _, s) := call (SYS_fcntl_getfl fd) s in
  if flags <? 0 then (-1, s) else
  let newflags := if nonblocking then Z.lor flags O_NONBLOCK else Z.land flags (Z.lnot O_NONBLOCK) in
  if negb (newflags =? flags)
  then
    let '(r, _, s) := call (SYS_fcntl_setfl fd newflags) s in
    if r <? 0 then (-1, s) else (0, s)
  else (0, s).

Definition getsockdomain (sock : Z) (s : sys) : Z * sys :=
  let '(r, sa_family, s) := call (SYS_getsockname sock) s in
  if r <? 0 then (-1, s) else (sa_family, s).

(** ** No leaks *)

(** The ledger grew by exactly the descriptor returned, if one is. *)
Definition balanced (s : sys) (r : Z) (s' : sys) : Prop :=
  live_infos s' = live_infos s /\
  open_fds s' = (if 0 <=? r then r :: open_fds s else open_fds s).

Lemma call_ledger c s r o s' :
  call c s = (r, o, s') ->
  match c with
  | SYS_getaddrinfo _ _ _ _ _ =>
      open_fds s' = open_fds s /\ live_infos s' = if r =? 0 then S (live_infos s) else live_infos s
  | SYS_freeaddrinfo => open_fds s' = open_fds s /\ live_infos s' = pred (live_infos s)
  | SYS_socket _ _ | SYS_accept _ | SYS_mkstemp | SYS_open _ _ =>
      open_fds s' = (if 0 <=? r then r :: open_fds s else open_fds s) /\ live_infos s' = live_infos s
  | SYS_close fd => open_fds s' = remove_first fd (open_fds s) /\ live_infos s' = live_infos s
  | _ => open_fds s' = open_fds s /\ live_infos s' = live_infos s
  end.
Proof. unfold call. intros [= <- <- <-]. by destruct c. Qed.

Lemma free_infos_ledger n : forall s,
  open_fds (free_infos n s) = open_fds s /\ live_infos (free_infos n s) = (live_infos s - n)%nat.
Proof.
  induction n as [|n IH]; intros s; cbn [free_infos]; [split; [done|lia]|].
  destruct (call SYS_freeaddrinfo s) as [[r o] s'] eqn:E. apply call_ledger in E as [E1 E2].
  cbn [snd]. destruct (IH s') as [-> ->]. split; [done|lia].
Qed.

Lemma fail_close_balanced fd infos s0 s :
  open_fds s = fd :: open_fds s0 -> live_infos s = (live_infos s0 + infos)%nat ->
  balanced s0 (fail_close fd infos s).1 (fail_close fd infos s).2.
Proof.
  intros Ho Hi. unfold fail_close. destruct (call (SYS_close fd) s) as [[rc oc] sc] eqn:Ec.
  apply call_ledger in Ec as [Eo Ei]. rewrite Ho in Eo. cbn [remove_first] in Eo.
  rewrite Z.eqb_refl in Eo. unfold balanced. cbn.
  destruct (free_infos_ledger infos sc) as [-> ->]. rewrite Eo, Ei, Hi. split; [lia|done].
Qed.

(** Take the next call of the code apart, with what it does to the ledger. *)
Tactic Notation "sys_step" ident(r) ident(s') ident(E1) ident(E2) :=
  match goal with
  | |- context [call ?c ?s] =>
      let o := fresh "o" in let E := fresh "E" in
      destruct (call c s) as [[r o] s'] eqn:E; apply call_ledger in E; cbn in E;
      destruct E as [E1 E2]
  end.

Lemma announce_bind_balanced fd proto port s0 s :
  0 <= fd -> open_fds s = fd :: open_fds s0 -> live_infos s = S (live_infos s0) ->
  balanced s0 (announce_bind fd proto port s).1 (announce_bind fd proto port s).2.
Proof.
  intros Hfd Ho Hi. unfold announce_bind. sys_step r1 s1 E1 E1'. destruct (r1 <? 0).
  { apply fail_close_balanced; [congruence|lia]. }
  sys_step r2 s2 E2 E2'.
  assert (Ho2 : open_fds s2 = fd :: open_fds s0) by congruence.
  assert (Hi2 : live_infos s2 = live_infos s0) by (rewrite E2', E1', Hi; done).
  destruct (proto =? SOCK_STREAM).
  - sys_step r3 s3 E3 E3'. destruct (r3 <? 0).
    + apply fail_close_balanced; [congruence|lia].
    + unfold balanced. cbn. destruct (Z.leb_spec 0 fd); [|lia]. split; congruence.
  - unfold balanced. cbn. destruct (Z.leb_spec 0 fd); [|lia]. by split.
Qed.

(** Netannounce leaks nothing, whatever the system calls answer: when it
    fails no descriptor stays open and no address list stays allocated, when it
    succeeds exactly the returned descriptor is open. *)
Theorem netannounce_balanced domain proto local port s :
  balanced s (netannounce domain proto local port s).1 (netannounce domain proto local port s).2.
Proof.
  unfold netannounce. sys_step r1 s1 E1 E1'.
  destruct (Z.eqb_spec r1 0) as [->|]; cbn [negb]; [|by split].
  sys_step fd s2 E2 E2'. destruct (Z.ltb_spec fd 0) as [Hr|Hr]; destruct (Z.leb_spec 0 fd); try lia.
  { sys_step r3 s3 E3 E3'. split; cbn; [by rewrite E3', E2', E1'|congruence]. }
  sys_step r3 s3 E3 E3'.
  assert (Ho : open_fds s3 = fd :: open_fds s) by congruence.
  assert (Hi : live_infos s3 = S (live_infos s)) by congruence.
  destruct (r3 <? 0); [apply fail_close_balanced; [done|lia]|].
  destruct (_ && _); [|by apply announce_bind_balanced].
  sys_step r4 s4 E4 E4'. destruct (r4 <? 0); [apply fail_close_balanced; [congruence|lia]|].
  apply announce_bind_balanced; [done|congruence|congruence].
Qed.

Lemma timeout_connect_ledger fd port timeout s :
  open_fds (timeout_connect fd port timeout s).2 = open_fds s /\
  live_infos (timeout_connect fd port timeout s).2 = live_infos s.
Proof.
  unfold timeout_connect.
  repeat first
    [ progress cbn [snd fst set_errno open_fds live_infos negb]
    | let r := fresh "r" in let t := fresh "t" in let A := fresh "A" in let B := fresh "B" in
      sys_step r t A B
    | match goal with |- context [if ?b then _ else _] => destruct b end ];
  split; congruence.
Qed.

Lemma dial_connect_balanced fd port timeout s0 s :
  0 <= fd -> open_fds s = fd :: open_fds s0 -> live_infos s = S (live_infos s0) ->
  balanced s0 (dial_connect fd port timeout s).1 (dial_connect fd port timeout s).2.
Proof.
  intros Hfd Ho Hi. unfold dial_connect.
  destruct (timeout_connect_ledger fd port timeout s) as [H1 H2].
  destruct (timeout_connect fd port timeout s) as [r s1]. cbn in H1, H2.
  destruct (_ && _); [apply fail_close_balanced; [congruence|lia]|].
  sys_step r2 s2 E2 E2'. unfold balanced. cbn. destruct (Z.leb_spec 0 fd); [|lia].
  split; [lia|congruence].
Qed.

(** Netdial without a local address leaks nothing on every path but one:
    if the port was given (--cport) and the server's address is neither IPv4
    nor IPv6, the socket and the address list stay behind. *)
Theorem netdial_balanced domain proto local_port server port timeout s :
  let r := netdial domain proto None local_port server port timeout s in
  balanced s r.1 r.2 \/
  (local_port <> 0 /\ r.1 = -1 /\ errno r.2 = EAFNOSUPPORT /\
   live_infos r.2 = S (live_infos s) /\ exists fd, open_fds r.2 = fd :: open_fds s).
Proof.
  cbn zeta. unfold netdial. sys_step r1 s1 E1 E1'.
  destruct (Z.eqb_spec r1 0) as [->|]; cbn [negb]; [|left; by split].
  sys_step fd s2 E2 E2'. destruct (Z.ltb_spec fd 0) as [Hr|Hr]; destruct (Z.leb_spec 0 fd); try lia.
  { left. sys_step r3 s3 E3 E3'. split; cbn; [by rewrite E3', E2', E1'|congruence]. }
  assert (Ho : open_fds s2 = fd :: open_fds s) by congruence.
  assert (Hi : live_infos s2 = S (live_infos s)) by congruence.
  destruct (Z.eqb_spec local_port 0); cbn [negb]; [left; by apply dial_connect_balanced|].
  destruct (_ || _).
  - left. sys_step r3 s3 E3 E3'. destruct (r3 <? 0); [apply fail_close_balanced; [congruence|lia]|].
    apply dial_connect_balanced; [done|congruence|congruence].
  - right. cbn. split_and!; [done|done|done|done|by exists fd].
Qed.

End Syscalls.

(** The leak of netdial happens: a client started with --cport against a
    host whose only address family is AF_UNIX keeps the socket open. *)
Theorem netdial_leaks :
  let os h := match last h with
              | Some (SYS_getaddrinfo _ _ _ _ _) => mkanswer 0 0 1 []
              | Some (SYS_socket _ _) => mkanswer 7 0 0 []
              | _ => mkanswer 0 0 0 []
              end in
  let '(r, s) := netdial os AF_UNSPEC SOCK_STREAM None 5000 [104] 5201 (-1) (mksys [] 0 0 [] 0 0 0) in
  r = -1 /\ open_fds s = [7] /\ live_infos s = 1%nat.
Proof. repeat split. Qed.
