(* ===== verification/Stream.v ===== *)
(** * Bytes on a stream socket (net.c: Nread, Nwrite, Nsendfile)

    A connected stream socket delivers the bytes of its peer in order.  How
    many bytes one read or write transfers, and which calls fail, is given by a
    schedule: each entry serves one call, and when the schedule is used up a
    read returns 0 (end of file) and a write returns 0. *)

From S2P Require Import Prelude.
From S2P Require Import Net.
From stdpp Require Import base numbers gmap list.

Open Scope Z_scope.
Open Scope c_scope.

Inductive io : Type :=
| Chunk (k : nat)    (* at most [k + 1] bytes *)
| Fail (e : Z).      (* -1 with errno [e] *)

Record sock := mksock
  { inp : bytes;         (* what the peer has sent and is not read yet *)
    in_sched : list io;
    outp : bytes;        (* what was written *)
    out_sched : list io }.

Definition soft_errno (e : Z) : bool := (e =? EINTR) || (e =? EAGAIN).

(** ** Nread

    [got] are the bytes already stored in [buf]; the object behind [buf] has
    [cap] bytes.  The loop is over the schedule, one entry per read. *)
Fixpoint Nread_loop (cap nleft : nat) (got inp : bytes) (sched : list io)
    : outcome (option bytes * bytes * list io) :=
  match nleft with
  | O => Ok (Some got, inp, sched)
  | _ =>
      match sched with
      | [] => Ok (Some got, inp, [])
      | Fail e :: sched' =>
          if soft_errno e then Ok (Some got, inp, sched') else Ok (None, inp, sched')
      | Chunk k :: sched' =>
          let r := Nat.min (S k) (Nat.min nleft (List.length inp)) in
          if (r =? 0)%nat then Ok (Some got, inp, sched')
          else if (cap <? List.length got + r)%nat then UB
          else Nread_loop cap (nleft - r) (got ++ take r inp) (drop r inp) sched'
      end
  end.

(** The returned int, the bytes now in [buf], and the socket. *)
Definition Nread (s : sock) (cap count : nat) : outcome (Z * bytes * sock) :=
  let! r := Nread_loop cap count [] (inp s) (in_sched s) in
  match r with
  | (Some got, i, sc) => Ok (i32 (Z.of_nat (List.length got)), got, mksock i sc (outp s) (out_sched s))
  | (None, i, sc) => Ok (NET_HARDERROR, [], mksock i sc (outp s) (out_sched s))
  end.

(** ** Nwrite

    [count] is the length of the buffer given, [buf] what is left of it. *)
Fixpoint Nwrite_loop (count : nat) (buf : bytes) (outp : bytes) (sched : list io)
    : Z * bytes * list io :=
  match buf with
  | [] => (i32 (Z.of_nat count), outp, sched)
  | _ =>
      match sched with
      | [] => (NET_SOFTERROR, outp, [])
      | Fail e :: sched' =>
          if soft_errno e then (i32 (Z.of_nat (count - List.length buf)), outp, sched')
          else if e =? ENOBUFS then (NET_SOFTERROR, outp, sched')
          else (NET_HARDERROR, outp, sched')
      | Chunk k :: sched' =>
          let r := Nat.min (S k) (List.length buf) in
          Nwrite_loop count (drop r buf) (outp ++ take r buf) sched'
      end
  end.

Definition Nwrite (s : sock) (buf : bytes) : Z * sock :=
  let '(r, o, sc) := Nwrite_loop (List.length buf) buf (outp s) (out_sched s) in
  (r, mksock (inp s) (in_sched s) o sc).

(** ** Nsendfile (the Linux branch): the file behind [fromfd] *)
Fixpoint Nsendfile_loop (file : bytes) (count nleft : nat) (outp : bytes) (sched : list io)
    : Z * bytes * list io :=
  match nleft with
  | O => (i32 (Z.of_nat count), outp, sched)
  | _ =>
      let offset := (count - nleft)%nat in
      match sched with
      | [] => (NET_SOFTERROR, outp, [])
      | Fail e :: sched' =>
          if soft_errno e
          then if (count =? nleft)%nat then (NET_SOFTERROR, outp, sched')
               else (i32 (Z.of_nat (count - nleft)), outp, sched')
          else if (e =? ENOBUFS) || (e =? ENOMEM) then (NET_SOFTERROR, outp, sched')
          else (NET_HARDERROR, outp, sched')
      | Chunk k :: sched' =>
          let r := Nat.min (S k) (Nat.min nleft (List.length file - offset)) in
          if (r =? 0)%nat then (NET_SOFTERROR, outp, sched')
          else Nsendfile_loop file count (nleft - r) (outp ++ take r (drop offset file)) sched'
      end
  end.

Definition Nsendfile (file : bytes) (s : sock) (count : nat) : Z * sock :=
  let '(r, o, sc) := Nsendfile_loop file count count (outp s) (out_sched s) in
  (r, mksock (inp s) (in_sched s) o sc).

(** ** Properties *)

(** The schedule serves the call: no failure, and enough entries. *)
Definition serves (n : nat) (sched : list io) : Prop :=
  (n <= List.length sched)%nat /\ Forall (fun a => match a with Chunk _ => True | Fail _ => False end) sched.

Lemma Nread_loop_complete n : forall cap got i sched,
  (n <= List.length i)%nat -> serves n sched -> (List.length got + n <= cap)%nat ->
  exists sched', Nread_loop cap n got i sched = Ok (Some (got ++ take n i), drop n i, sched') /\
    (List.length sched <= List.length sched' + n)%nat /\
    Forall (fun a => match a with Chunk _ => True | Fail _ => False end) sched'.
Proof.
  induction n as [n IH] using lt_wf_ind. intros cap got i sched Hn [Hl Hs] Hcap.
  destruct n as [|n].
  { exists sched. destruct sched; cbn; rewrite app_nil_r, drop_0; split; [done|split; [lia|done]|done|split; [lia|done]]. }
  destruct sched as [|[k|e] sched]; [simpl in Hl; lia| |by inversion Hs].
  cbn [Nread_loop]. set (r := Nat.min (S k) (Nat.min (S n) (List.length i))).
  assert (Hr : (1 <= r <= S n)%nat) by lia.
  destruct (Nat.eqb_spec r 0); [lia|]. destruct (Nat.ltb_spec cap (List.length got + r)); [lia|].
  inversion Hs; subst. destruct (IH (S n - r)%nat ltac:(lia) cap (got ++ take r i) (drop r i) sched)
    as (sched' & -> & Hl' & Hs').
  - rewrite length_drop. lia.
  - split; [simpl in Hl; lia|done].
  - rewrite length_app, length_take. lia.
  - exists sched'. split; [|split; [simpl; lia|done]].
    rewrite <- app_assoc, take_take_drop, drop_drop. do 3 f_equal; [do 3 f_equal; lia|f_equal; lia].
Qed.

(** Nread never loses, reorders or invents bytes: whatever the schedule,
    if it returns without a hard error then the buffer holds a prefix of the
    stream of at most [count] bytes, the socket still holds exactly the rest,
    and it never writes past a buffer of [count] bytes. *)
Theorem Nread_prefix s count :
  exists r got s', Nread s count count = Ok (r, got, s') /\
    (r = NET_HARDERROR \/
     (r = i32 (Z.of_nat (List.length got)) /\ inp s = got ++ inp s' /\ (List.length got <= count)%nat)).
Proof.
  unfold Nread.
  assert (H : forall sched nleft got i, (List.length got + nleft <= count)%nat ->
    exists o i' sc, Nread_loop count nleft got i sched = Ok (o, i', sc) /\
      match o with
      | Some g => got ++ i = g ++ i' /\ (List.length g <= List.length got + nleft)%nat
      | None => True
      end).
  { induction sched as [|[k|e] sched IH]; intros nleft got i Hc;
      (destruct nleft as [|n]; [eexists _, _, _; split; [done|]; cbn; split; [done|lia]|]); cbn [Nread_loop].
    - eexists _, _, _; split; [done|]. cbn. split; [done|lia].
    - set (r := Nat.min (S k) (Nat.min (S n) (List.length i))).
      destruct (Nat.eqb_spec r 0); [eexists _, _, _; split; [done|]; cbn; split; [done|lia]|].
      destruct (Nat.ltb_spec count (List.length got + r)); [lia|].
      destruct (IH (S n - r)%nat (got ++ take r i) (drop r i)) as (o & i' & sc & -> & Ho);
        [rewrite length_app, length_take; lia|].
      eexists _, _, _; split; [done|]. destruct o as [g|]; [|done]. destruct Ho as [Ho Hl].
      rewrite <- app_assoc, take_drop in Ho. split; [done|]. rewrite length_app, length_take in Hl. lia.
    - destruct (soft_errno e); eexists _, _, _; (split; [done|]); cbn; [split; [done|lia]|done]. }
  destruct (H (in_sched s) count [] (inp s)) as (o & i' & sc & -> & Ho); [simpl; lia|]. cbn [obind].
  destruct o as [g|]; eexists _, _, _; (split; [done|]); [right|by left].
  destruct Ho as [Ho Hl]. split; [done|]. split; [done|]. exact Hl.
Qed.

Lemma Nwrite_loop_complete buf : forall count o sched,
  serves (List.length buf) sched ->
  exists sched', Nwrite_loop count buf o sched = (i32 (Z.of_nat count), o ++ buf, sched') /\
    (List.length sched <= List.length sched' + List.length buf)%nat /\
    Forall (fun a => match a with Chunk _ => True | Fail _ => False end) sched'.
Proof.
  remember (List.length buf) as n eqn:E. revert buf E.
  induction n as [n IH] using lt_wf_ind. intros buf -> count o sched [Hl Hs].
  destruct buf as [|c buf].
  { exists sched. rewrite app_nil_r. destruct sched; cbn; split; [done|split; [lia|done]|done|split; [lia|done]]. }
  destruct sched as [|[k|e] sched]; [simpl in Hl; lia| |by inversion Hs].
  cbn [Nwrite_loop List.length] in *. assert (Hb : List.length (c :: buf) = S (List.length buf)) by done.
  set (b := c :: buf) in *. set (r := Nat.min (S k) (S (List.length buf))).
  assert (Hr : (1 <= r <= List.length b)%nat) by lia.
  inversion Hs; subst. destruct (IH (List.length (drop r b)) ltac:(rewrite length_drop; lia) (drop r b) eq_refl
    count (o ++ take r b) sched) as (sched' & -> & Hl' & Hs').
  - split; [rewrite length_drop; lia|done].
  - exists sched'. rewrite <- app_assoc, take_drop. split; [done|].
    rewrite length_drop in Hl'. split; [lia|done].
Qed.
