(* ===== verification/Iperf.v ===== *)
(** * The test, its settings and its streams (iperf.h, iperf_api.c)

    The records of iperf.h with the fields the modelled code reads or writes
    (a C string is an option of its bytes, the list of streams a list, fd_sets
    are sets of descriptors), the setters of iperf_api.c that do more than one
    assignment, the default values, and the reset between two tests of a
    server. *)

From coqutil Require Import Datatypes.RecordSetters.
From Stdlib Require Import SpecFloat.
From S2P Require Import Prelude.
From S2P Require Import IperfTime.
From S2P Require Import Cdouble.
From stdpp Require Import base numbers gmap list.
Import DoubleBraceUpdate.

Open Scope Z_scope.
Open Scope c_scope.

(** States of the control connection (iperf_api.h). *)
Abbreviation TEST_START := 1.
Abbreviation TEST_RUNNING := 2.
Abbreviation TEST_END := 4.
Abbreviation PARAM_EXCHANGE := 9.
Abbreviation CREATE_STREAMS := 10.
Abbreviation SERVER_TERMINATE := 11.
Abbreviation CLIENT_TERMINATE := 12.
Abbreviation EXCHANGE_RESULTS := 13.
Abbreviation DISPLAY_RESULTS := 14.
Abbreviation IPERF_START := 15.
Abbreviation IPERF_DONE := 16.
Abbreviation ACCESS_DENIED := (-1).
Abbreviation SERVER_ERROR := (-2).

Abbreviation Ptcp := 1.
Abbreviation Pudp := 2.
Abbreviation Psctp := 12.
Abbreviation DEFAULT_UDP_BLKSIZE := 1460.
Abbreviation DEFAULT_TCP_BLKSIZE := (128 * 1024).
Abbreviation PORT := 5201.
Abbreviation OMIT := 0.
Abbreviation DURATION := 10.

Abbreviation SENDER := 1.
Abbreviation RECEIVER := 0.
Abbreviation BIDIRECTIONAL := (-1).

(** The characters 'c' and 's' *)
Abbreviation role_client := 99.
Abbreviation role_server := 115.

Record iperf_settings := mk_settings
  { domain : Z;
    socket_bufsize : Z;
    blksize : Z;
    rate : Z;
    fqrate : Z;
    pacing_timer : Z;
    burst : Z;
    mss : Z;
    tos : Z;
    flowlabel : Z;
    bytes_ : Z;
    blocks : Z;
    unit_format : Z;
    connect_timeout : Z }.

Record iperf_interval_results := mk_interval
  { bytes_transferred : Z;
    interval_start_time : iperf_time;
    interval_end_time : iperf_time;
    interval_duration : double;
    interval_packet_count : Z;
    interval_outoforder_packets : Z;
    interval_cnt_error : Z;
    ir_packet_count : Z;
    ir_jitter : double;
    ir_outoforder_packets : Z;
    ir_cnt_error : Z;
    omitted : bool;
    interval_retrans : Z;
    snd_cwnd : Z;
    rtt : Z;
    rttvar : Z;
    pmtu : Z }.

Record iperf_stream_result := mk_result
  { bytes_received : Z;
    bytes_sent : Z;
    bytes_received_this_interval : Z;
    bytes_sent_this_interval : Z;
    bytes_sent_omit : Z;
    stream_prev_total_retrans : Z;
    stream_retrans : Z;
    stream_max_rtt : Z;
    stream_min_rtt : Z;
    stream_sum_rtt : Z;
    stream_count_rtt : Z;
    stream_max_snd_cwnd : Z;
    start_time : iperf_time;
    end_time : iperf_time;
    start_time_fixed : iperf_time;
    sender_time : double;
    receiver_time : double;
    interval_results : list iperf_interval_results }.

Record iperf_stream := mk_stream
  { socket : Z;
    stream_id : Z;
    sender : bool;
    result : iperf_stream_result;
    green_light : bool;
    packet_count : Z;
    peer_packet_count : Z;
    omitted_packet_count : Z;
    jitter : double;
    prev_transit : double;
    outoforder_packets : Z;
    omitted_outoforder_packets : Z;
    cnt_error : Z;
    omitted_cnt_error : Z }.

Record iperf_test := mk_test
  { role : Z;
    mode : Z;
    sender_has_retransmits : Z;
    other_side_has_retransmits : Z;
    protocol : Z;               (* the id of test->protocol *)
    protocols : list Z;         (* the ids of the protocol list *)
    state : Z;
    omit : Z;
    duration : Z;
    server_affinity : Z;
    title : option bytes;
    extra_data : option bytes;
    congestion : option bytes;
    congestion_used : option bytes;
    remote_congestion_used : option bytes;
    server_port : Z;
    ctrl_sck : Z;
    prot_listener : Z;
    no_delay : Z;
    reverse_ : Z;
    bidirectional : Z;
    get_server_output : Z;
    udp_counters_64bit : Z;
    multisend : Z;
    repeating_payload : Z;
    read_set : gset Z;
    write_set : gset Z;
    omitting : bool;
    done_ : bool;
    cpu_util : double * double * double;
    remote_cpu_util : double * double * double;
    num_streams : Z;
    t_bytes_sent : Z;
    t_blocks_sent : Z;
    t_bytes_received : Z;
    t_blocks_received : Z;
    cookie : bytes;
    streams : list iperf_stream;
    settings : iperf_settings }.

Definition zero_time : iperf_time := mk_time 0 0.

Definition zero_result : iperf_stream_result :=
  mk_result 0 0 0 0 0 0 0 0 0 0 0 0 zero_time zero_time zero_time d0 d0 [].

(** A new stream, as iperf_new_stream fills it in. *)
Definition blank_stream (s : Z) (is_sender : bool) : iperf_stream :=
  mk_stream s 0 is_sender zero_result false 0 0 0 d0 d0 0 0 0 0.

(** ** Setters that do more than one assignment *)

Section Config.
(** has_tcpinfo_retransmits(): whether the platform reports TCP
    retransmissions (a constant of the build). *)
Variable has_tcpinfo_retransmits : bool.

Definition check_sender_has_retransmits (ipt : iperf_test) : iperf_test :=
  if negb (mode ipt =? RECEIVER) && (protocol ipt =? Ptcp) && has_tcpinfo_retransmits
  then ipt {{ sender_has_retransmits := 1 }}
  else ipt {{ sender_has_retransmits := 0 }}.

(** The direction a role and the reverse flag stand for; another role leaves
    the mode as it is. *)
Definition mode_of (role : Z) (reverse : bool) (mode : Z) : Z :=
  if negb reverse
  then if role =? role_client then SENDER else if role =? role_server then RECEIVER else mode
  else if role =? role_client then RECEIVER else if role =? role_server then SENDER else mode.

Definition iperf_set_test_role (ipt : iperf_test) (r : Z) : iperf_test :=
  let ipt := ipt {{ role := r }} in
  check_sender_has_retransmits (ipt {{ mode := mode_of r (negb (reverse_ ipt =? 0)) (mode ipt) }}).

Definition iperf_set_test_reverse (ipt : iperf_test) (r : Z) : iperf_test :=
  let ipt := ipt {{ reverse_ := r }} in
  check_sender_has_retransmits (ipt {{ mode := mode_of (role ipt) (negb (r =? 0)) (mode ipt) }}).

Definition iperf_set_test_bidirectional (ipt : iperf_test) (b : Z) : iperf_test :=
  let ipt := ipt {{ bidirectional := b }} in
  if negb (b =? 0) then ipt {{ mode := BIDIRECTIONAL }} else iperf_set_test_reverse ipt (reverse_ ipt).

(** The return value and the test. *)
Definition set_protocol (test : iperf_test) (prot_id : Z) : Z * iperf_test :=
  if existsb (Z.eqb prot_id) (protocols test)
  then (0, check_sender_has_retransmits (test {{ protocol := prot_id }}))
  else (-1, test).

Definition iperf_set_test_protocol (ipt : iperf_test) (proto : Z) : iperf_test :=
  if proto =? 117 (* 'u' *)
  then (snd (set_protocol ipt Pudp)) {{ settings -> blksize := 0 }}
  else ipt.

(** ** Defaults and reset *)

(** iperf_defaults, on the zeroed test of iperf_new_test. *)
Definition iperf_defaults : iperf_test :=
  let settings := mk_settings 0 0 DEFAULT_TCP_BLKSIZE 0 0 1000 0 0 0 0 0 0 97 (-1) in
  let t := mk_test 0 0 0 0 Ptcp [Ptcp; Pudp] 0 OMIT DURATION (-1) None None None None None PORT (-1) (-1)
             0 0 0 0 0 10 0 ∅ ∅ false false (d0, d0, d0) (d0, d0, d0) 1 0 0 0 0 (repeat 0 37) [] settings in
  snd (set_protocol t Ptcp).

(** iperf_reset_test: what the server does between two tests.  Freeing the
    streams cancels their timers (Timer.v). *)
Definition iperf_reset_test (test : iperf_test) : iperf_test :=
  let test := test {{ streams := []; done_ := false; remote_congestion_used := None;
                      role := role_server; mode := RECEIVER; sender_has_retransmits := 0 }} in
  let test := snd (set_protocol test Ptcp) in
  let test := test {{ omit := OMIT; duration := DURATION; server_affinity := -1; state := 0;
                      ctrl_sck := -1; prot_listener := -1;
                      t_bytes_sent := 0; t_blocks_sent := 0; t_bytes_received := 0; t_blocks_received := 0;
                      other_side_has_retransmits := 0;
                      reverse_ := 0; bidirectional := 0; no_delay := 0;
                      read_set := ∅; write_set := ∅; num_streams := 1 }} in
  let test := test {{ settings := (settings test) {{ socket_bufsize := 0; blksize := DEFAULT_TCP_BLKSIZE;
                                                     rate := 0; burst := 0; mss := 0; tos := 0 }} }} in
  test {{ cookie := repeat 0 37; multisend := 10; udp_counters_64bit := 0;
          title := None; extra_data := None }}.

(** ** Streams *)

(** iperf_add_stream: the loop counts from 2 and is incremented once more for
    each stream there. *)
Definition iperf_add_stream (test : iperf_test) (sp : iperf_stream) : iperf_test :=
  match streams test with
  | [] => test {{ streams := [sp {{ stream_id := 1 }}] }}
  | l => test {{ streams := l ++ [sp {{ stream_id := i32 (2 + Z.of_nat (List.length l)) }}] }}
  end.

(** ** Properties *)

(** The ids iperf_add_stream hands out: 1, 3, 4, 5, ... *)
Definition id_at (i : nat) : Z := match i with O => 1 | _ => Z.of_nat i + 2 end.

Definition ids_ok (t : iperf_test) : Prop :=
  forall i sp, streams t !! i = Some sp -> stream_id sp = id_at i.

Lemma add_stream_ids t sp :
  ids_ok t -> Z.of_nat (List.length (streams t)) < 2 ^ 31 - 2 ->
  ids_ok (iperf_add_stream t sp) /\
  exists sp', streams (iperf_add_stream t sp) = streams t ++ [sp'] /\
    result sp' = result sp /\ sender sp' = sender sp /\ socket sp' = socket sp.
Proof.
  intros Hok Hlen.
  assert (H : exists sp', streams (iperf_add_stream t sp) = streams t ++ [sp'] /\
    stream_id sp' = id_at (List.length (streams t)) /\ result sp' = result sp /\ sender sp' = sender sp /\
    socket sp' = socket sp).
  { unfold iperf_add_stream. destruct (streams t) as [|x l] eqn:E; cbn -[i32]; eexists; (split; [done|]).
    - done.
    - split; [|done]. cbn -[i32]. unfold constant. cbn [List.length] in *. rewrite i32_small by zlia. lia. }
  destruct H as (sp' & E & Hid & Hr & Hs & Hk). split; [|by exists sp'].
  intros i x. rewrite E. intros [Hx|(Hi & Hx)]%lookup_app_Some; [by apply Hok|].
  destruct (i - List.length (streams t))%nat eqn:Ei; simplify_eq/=.
  replace i with (List.length (streams t)) by lia. done.
Qed.

Lemma ids_ok_nodup t : ids_ok t -> NoDup (map stream_id (streams t)).
Proof.
  intros Hok. apply NoDup_alt. intros i j x Hi Hj.
  apply list_lookup_fmap_Some in Hi as (y & -> & Hy).
  apply list_lookup_fmap_Some in Hj as (z & Ez & Hz).
  apply Hok in Hy, Hz. rewrite Hy, Hz in Ez.
  unfold id_at in Ez. destruct i, j; lia.
Qed.

(** iperf_add_stream keeps the ids of the streams of a test distinct and
    determined by the order of creation, so that the results the two sides
    exchange by id meet: the first stream is 1, the i-th later one i + 2
    (2 is never used); every stream that was there is unchanged. *)
Theorem iperf_add_stream_ids t sp :
  ids_ok t -> Z.of_nat (List.length (streams t)) < 2 ^ 31 - 2 ->
  let t' := iperf_add_stream t sp in
  ids_ok t' /\ NoDup (map stream_id (streams t')) /\
  exists sp', streams t' = streams t ++ [sp'] /\ result sp' = result sp /\ sender sp' = sender sp.
Proof.
  intros Hok Hlen. cbn zeta. destruct (add_stream_ids t sp Hok Hlen) as (Hok' & sp' & E & Hr & Hs & _).
  split; [done|]. split; [by apply ids_ok_nodup|]. by exists sp'.
Qed.

(** A server with the defaults, as iperf_set_test_role leaves it. *)
Definition fresh_server : iperf_test := iperf_set_test_role iperf_defaults role_server.

(** iperf_reset_test does not bring a server back to a fresh one: all
    counters, streams, flags and most parameters are reset, but the settings
    bytes, blocks, fqrate, pacing_timer and flowlabel, the congestion control
    names, get_server_output and repeating_payload of the last client (and the
    CPU figures and the omit flag) stay; the theorem gives the exact test. *)
Theorem iperf_reset_test_leaks t :
  protocols t = [Ptcp; Pudp] ->
  iperf_reset_test t = fresh_server
    {{ congestion := congestion t; congestion_used := congestion_used t;
       get_server_output := get_server_output t; repeating_payload := repeating_payload t;
       omitting := omitting t; cpu_util := cpu_util t; remote_cpu_util := remote_cpu_util t;
       server_port := server_port t;
       settings := (settings fresh_server)
         {{ domain := domain (settings t); fqrate := fqrate (settings t);
            pacing_timer := pacing_timer (settings t); flowlabel := flowlabel (settings t);
            bytes_ := bytes_ (settings t); blocks := blocks (settings t);
            unit_format := unit_format (settings t); connect_timeout := connect_timeout (settings t) }} }}.
Proof.
  intros Hp. destruct t as [? ? ? ? ? ps]. cbn in Hp. subst ps.
  repeat match goal with s : iperf_settings |- _ => destruct s end. reflexivity.
Qed.

End Config.

Lemma iperf_add_stream_witness :
  let sp := mk_stream 4 0 true zero_result false 0 0 0 d0 d0 0 0 0 0 in
  NoDup (map stream_id (streams (iperf_add_stream (iperf_add_stream (iperf_defaults true) sp) sp))).
Proof.
  cbn zeta. apply iperf_add_stream_ids; [|vm_compute; reflexivity].
  intros i sp. destruct i as [|i]; [|done]. by intros [= <-].
Defined.

Lemma iperf_reset_test_witness :
  bytes_ (settings (iperf_reset_test true ((iperf_defaults true) {{ settings -> bytes_ := 5 }}))) = 5.
Proof. rewrite iperf_reset_test_leaks; reflexivity. Defined.
