(* ===== verification/Frame.v ===== *)
(** * JSON messages on the control connection (iperf_api.c: JSON_write,
    JSON_read)

    A message is a 32-bit length in network byte order and the unformatted
    text of a JSON item. *)

From Stdlib Require Import SpecFloat.
From Stdlib Require Import String.
From S2P Require Import Prelude.
From S2P Require Import Cdouble.
From S2P Require Import CdoubleText.
From S2P Require Import CjsonData.
From S2P Require Import CjsonPrint.
From S2P Require Import CjsonPrintSpec.
From S2P Require Import CjsonPrintProof.
From S2P Require Import CjsonPrintThms.
From S2P Require Import CjsonParse.
From S2P Require Import CjsonParseSafe.
From S2P Require Import CjsonRoundtrip.
From S2P Require Import Stream.
From stdpp Require Import base numbers gmap list.

Open Scope Z_scope.
Open Scope c_scope.

(** The four bytes in memory of htonl(x) *)
Definition htonl_bytes (x : Z) : bytes :=
  [u8 (Z.shiftr x 24); u8 (Z.shiftr x 16); u8 (Z.shiftr x 8); u8 x].

(** ntohl of the number whose bytes in memory are [l]; bytes that were not
    read are the uninitialised [nsize] and do not count as a length. *)
Definition ntohl_bytes (l : bytes) : outcome Z :=
  match l with
  | [a; b; c; d] => Ok (Z.shiftl a 24 + Z.shiftl b 16 + Z.shiftl c 8 + d)
  | _ => UB
  end.

Lemma ntohl_htonl x : is_u32 x -> ntohl_bytes (htonl_bytes x) = Ok x.
Proof.
  intros Hx. unfold ntohl_bytes, htonl_bytes. f_equal.
  rewrite !Z.shiftl_mul_pow2, !Z.shiftr_div_pow2 by lia. zlia.
Qed.

Section Frame.
Variable allocate : nat -> nat -> bool.

(** calloc(1, n) succeeds *)
Variable calloc_ok : Z -> bool.

Definition JSON_write (s : sock) (json : cJSON) : outcome (Z * sock) :=
  let! str := cJSON_PrintUnformatted allocate json in
  match str with
  | None => Ok (-1, s)
  | Some b =>
      let! text := string_at b in
      let hsize := u32 (Z.of_nat (List.length text)) in
      let '(r, s) := Nwrite s (htonl_bytes hsize) in
      if r <? 0 then Ok (-1, s)
      else
        let '(r, s) := Nwrite s (take (Z.to_nat hsize) text) in
        if r <? 0 then Ok (-1, s) else Ok (0, s)
  end.

Definition JSON_read (s : sock) : outcome (option cJSON * sock) :=
  let! r := Nread s 4 4 in
  let '(rc, nsize, s) := r in
  if 0 <=? rc
  then
    let! hsize := ntohl_bytes nsize in
    let size := u32 (hsize + 1) in
    if calloc_ok size
    then
      let! r := Nread s (Z.to_nat size) (Z.to_nat hsize) in
      let '(rc, str, s) := r in
      if (0 <=? rc) && (u32 rc =? hsize)
      then let! json := cJSON_Parse allocate (Some str) in Ok (json, s)
      else Ok (None, s)
    else Ok (None, s)
  else Ok (None, s).

(** The message of an item: its length and its text. *)
Definition message (t : bytes) : bytes := htonl_bytes (Z.of_nat (List.length t)) ++ t.

Hypothesis alloc_ok : forall n s, allocate n s = true.

Lemma small_31 (t : bytes) : Z.of_nat (List.length t) < 2 ^ 31 -> small (List.length t + 4).
Proof. unfold small. intros H. zlia. Qed.

Lemma JSON_write_message s j t :
  printable j = true -> json_text false 0 j = Some t ->
  Z.of_nat (List.length t) < 2 ^ 31 -> serves (4 + List.length t) (out_sched s) ->
  exists s', JSON_write s j = Ok (0, s') /\ outp s' = outp s ++ message t /\
    inp s' = inp s /\ in_sched s' = in_sched s.
Proof.
  intros Hp Et Hlen [Hl Hs]. unfold JSON_write, cJSON_PrintUnformatted.
  destruct (print_text allocate j false true t alloc_ok Hp Et (small_31 t Hlen)) as (b & -> & Eb).
  cbn [obind]. rewrite Eb. cbn [obind]. rewrite u32_small by zlia. rewrite Nat2Z.id, take_ge by lia.
  unfold Nwrite at 1.
  destruct (Nwrite_loop_complete (htonl_bytes (Z.of_nat (List.length t)))
    (List.length (htonl_bytes (Z.of_nat (List.length t)))) (outp s) (out_sched s)) as (sc & -> & Hsc & Hok).
  { split; [cbn; lia|done]. }
  cbn [List.length htonl_bytes]. change (i32 (Z.of_nat 4)) with 4. cbn [Z.ltb Z.compare].
  unfold Nwrite. cbn [outp out_sched inp in_sched].
  destruct (Nwrite_loop_complete t (List.length t) (outp s ++ htonl_bytes (Z.of_nat (List.length t))) sc)
    as (sc' & -> & _ & _).
  { split; [cbn in Hsc; lia|done]. }
  rewrite i32_small by zlia. destruct (Z.ltb_spec (Z.of_nat (List.length t)) 0); [lia|].
  eexists; split; [done|]. cbn [outp inp in_sched]. split; [|done]. unfold message. by rewrite app_assoc.
Qed.

Lemma JSON_read_message s j t rest :
  printable j = true -> portable j = true -> (depth_of j <= CJSON_NESTING_LIMIT)%nat ->
  json_text false 0 j = Some t -> Z.of_nat (List.length t) < 2 ^ 31 ->
  calloc_ok (Z.of_nat (List.length t) + 1) = true ->
  inp s = message t ++ rest -> serves (4 + List.length t) (in_sched s) ->
  exists s', JSON_read s = Ok (Some (norm None j), s') /\ inp s' = rest /\
    outp s' = outp s /\ out_sched s' = out_sched s.
Proof.
  intros Hp Hq Hd Et Hlen Hcal Hi [Hl Hs]. unfold JSON_read, Nread at 1. rewrite Hi. unfold message.
  set (h := htonl_bytes (Z.of_nat (List.length t))).
  assert (Hh : List.length h = 4%nat) by done.
  destruct (Nread_loop_complete 4 4 [] ((h ++ t) ++ rest) (in_sched s)) as (sc & -> & Hsc & Hok).
  { rewrite !length_app. lia. }
  { split; [lia|done]. }
  { simpl. lia. }
  cbn [obind]. rewrite <- app_assoc, take_app_le, drop_app_le by lia. rewrite take_ge, drop_ge by lia.
  cbn [app]. rewrite Hh. change (i32 (Z.of_nat 4)) with 4. cbn [Z.leb Z.compare].
  unfold h at 1. rewrite ntohl_htonl by zlia. cbn [obind].
  rewrite u32_small by zlia. rewrite Hcal.
  unfold Nread. cbn [inp in_sched outp out_sched]. rewrite Nat2Z.id.
  destruct (Nread_loop_complete (List.length t) (Z.to_nat (Z.of_nat (List.length t) + 1)) [] (t ++ rest) sc)
    as (sc' & -> & _ & _).
  { rewrite length_app. lia. }
  { split; [lia|done]. }
  { simpl. lia. }
  cbn [obind app]. rewrite take_app_length, drop_app_length.
  rewrite i32_small by zlia. destruct (Z.leb_spec 0 (Z.of_nat (List.length t))); [|lia]. cbn [andb].
  rewrite u32_small by zlia. rewrite Z.eqb_refl.
  rewrite (cJSON_Parse_text allocate j false t alloc_ok Hp Hq Hd Et). cbn [obind].
  eexists; split; [done|]. done.
Qed.

End Frame.

(** C27: A JSON message survives the control connection: whatever one side
    writes with JSON_write is what the other side gets from JSON_read, for any
    way the two sockets split the bytes as long as no call fails; bytes that
    follow the message stay in the stream. *)
Theorem JSON_message_roundtrip allocate calloc_ok w j t :
  (forall n s, allocate n s = true) -> (forall n, calloc_ok n = true) ->
  printable j = true -> portable j = true -> (depth_of j <= CJSON_NESTING_LIMIT)%nat ->
  json_text false 0 j = Some t -> Z.of_nat (List.length t) < 2 ^ 31 ->
  serves (4 + List.length t) (out_sched w) ->
  exists w' sent, JSON_write allocate w j = Ok (0, w') /\ outp w' = outp w ++ sent /\
    forall r rest, inp r = sent ++ rest -> serves (4 + List.length t) (in_sched r) ->
    exists r', JSON_read allocate calloc_ok r = Ok (Some (norm None j), r') /\ inp r' = rest.
Proof.
  intros Ha Hc Hp Hq Hd Et Hlen Hw.
  destruct (JSON_write_message allocate calloc_ok Ha w j t Hp Et Hlen Hw) as (w' & E & Eo & _).
  exists w', (message t). split; [done|]. split; [done|]. intros r rest Hi Hr.
  destruct (JSON_read_message allocate calloc_ok Ha r j t rest Hp Hq Hd Et Hlen (Hc _) Hi Hr)
    as (r' & Er & Ei & _). by exists r'.
Qed.

Lemma JSON_message_witness :
  exists w' sent, JSON_write (fun _ _ => true) (mksock [] [] [] (repeat (Chunk 0) 80)) sample = Ok (0, w') /\
    outp w' = [] ++ sent /\
    forall r rest, inp r = sent ++ rest -> serves (4 + List.length (from_option id [] (json_text false 0 sample))) (in_sched r) ->
    exists r', JSON_read (fun _ _ => true) (fun _ => true) r = Ok (Some (norm None sample), r') /\ inp r' = rest.
Proof.
  apply (JSON_message_roundtrip (fun _ _ => true) (fun _ => true) (mksock [] [] [] (repeat (Chunk 0) 80))
    sample (from_option id [] (json_text false 0 sample))); try done.
  - simpl. lia.
  - split; [apply Nat.leb_le; vm_compute; reflexivity|]. cbn. repeat constructor.
Defined.

(** A hostile length makes JSON_read overrun its buffer: for the length
    0xFFFFFFFF the size [hsize + 1] wraps to 0, calloc may still return an
    object of no bytes, and the first byte of the message is written behind
    it. *)
Theorem JSON_read_overrun :
  JSON_read (fun _ _ => true) (fun _ => true) (mksock [255; 255; 255; 255; 65] (repeat (Chunk 3) 9) [] []) = UB.
Proof.
  unfold JSON_read. cbn [Nread inp in_sched Nread_loop].
  change (Nread _ 4 4) with
    (@Ok (Z * bytes * sock) (4, [255; 255; 255; 255], mksock [65] (repeat (Chunk 3) 8) [] [])).
  cbn [obind]. change (0 <=? 4) with true. cbn iota.
  change (ntohl_bytes [255; 255; 255; 255]) with (@Ok Z 4294967295). cbn [obind].
  change (u32 (4294967295 + 1)) with 0. unfold Nread. cbn [inp in_sched].
  rewrite (eq_refl : repeat (Chunk 3) 8 = Chunk 3 :: repeat (Chunk 3) 7).
  destruct (Z.to_nat 4294967295) as [|n] eqn:E; [lia|]. cbn [Nread_loop List.length].
  replace (Nat.min 4 (Nat.min (S n) 1)) with 1%nat by lia. reflexivity.
Qed.
