(* ===== verification/Udp.v ===== *)
(** * UDP streams (iperf_udp.c: iperf_udp_send, iperf_udp_recv)

    Every datagram starts with the time it was sent and its number, in network
    byte order; the receiver counts losses and reordering from the numbers.  A
    datagram socket is a queue of what its reads return. *)

From coqutil Require Import Datatypes.RecordSetters.
From Stdlib Require Import SpecFloat.
From S2P Require Import Prelude.
From S2P Require Import IperfTime.
From S2P Require Import Cdouble.
From S2P Require Import Net.
From S2P Require Import Stream.
From S2P Require Import Frame.
From S2P Require Import Iperf.
From stdpp Require Import base numbers gmap list.
Import DoubleBraceUpdate.

Open Scope Z_scope.
Open Scope c_scope.

Definition iperf_time_in_secs (t : iperf_time) : double :=
  dadd (d_of_Z (secs t)) (ddiv (d_of_Z (usecs t)) (d_of_Z 1000000)).

(** ** Datagram sockets *)

(** What one read returns: a datagram, of which at most the requested number
    of bytes is stored and the rest discarded, or -1 with errno. *)
Inductive dgram : Type :=
| Dgram (d : bytes)
| DFail (e : Z).

(** Nread on a datagram socket; a read when the queue is empty is interrupted
    by a signal. *)
Fixpoint Nread_udp (nleft : nat) (got : bytes) (q : list dgram) : option bytes * list dgram :=
  match nleft with
  | O => (Some got, q)
  | _ =>
      match q with
      | [] => (Some got, [])
      | DFail e :: q' => if soft_errno e then (Some got, q') else (None, q')
      | Dgram d :: q' =>
          let r := Nat.min nleft (List.length d) in
          if (r =? 0)%nat then (Some got, q') else Nread_udp (nleft - r) (got ++ take r d) q'
      end
  end.

(** Nwrite on a datagram socket: a write takes the whole buffer or fails with
    the errno [e].  The return value and the datagrams sent. *)
Definition Nwrite_udp (buf : bytes) (e : option Z) : Z * list bytes :=
  match buf, e with
  | [], _ => (0, [])
  | _, None => (i32 (Z.of_nat (List.length buf)), [buf])
  | _, Some e => (if soft_errno e then 0 else if e =? ENOBUFS then NET_SOFTERROR else NET_HARDERROR, [])
  end.

(** ** The header of a datagram *)

Definition htobe64_bytes (x : Z) : bytes :=
  htonl_bytes (u32 (Z.shiftr x 32)) ++ htonl_bytes (u32 x).

Definition be64toh_bytes (l : bytes) : outcome Z :=
  let! hi := ntohl_bytes (take 4 l) in
  let! lo := ntohl_bytes (drop 4 l) in
  Ok (Z.shiftl hi 32 + lo).

(** memcpy to and from [n] bytes at an offset of a buffer *)
Definition store_at (off : nat) (src : bytes) (buf : bytes) : outcome bytes :=
  if (off + List.length src <=? List.length buf)%nat
  then Ok (take off buf ++ src ++ drop (off + List.length src) buf)
  else UB.

Definition load_at (off n : nat) (buf : bytes) : outcome bytes :=
  if (off + n <=? List.length buf)%nat then Ok (take n (drop off buf)) else UB.

(** ** iperf_udp_send

    [before] is the time of the clock, [e] the errno of the write.  The return
    value, the stream, its buffer and the datagrams sent. *)
Definition iperf_udp_send (test : iperf_test) (sp : iperf_stream) (buffer : bytes)
    (before : iperf_time) (e : option Z) : outcome (Z * iperf_stream * bytes * list bytes) :=
  let size := Z.to_nat (blksize (settings test)) in
  let! pc := int_of (packet_count sp + 1) in
  let sp := sp {{ packet_count := pc }} in
  let pcount := if nonzero_int (udp_counters_64bit test) then htobe64_bytes (u64 pc) else htonl_bytes (u32 pc) in
  let! buffer := store_at 0 (htonl_bytes (secs before)) buffer in
  let! buffer := store_at 4 (htonl_bytes (usecs before)) buffer in
  let! buffer := store_at 8 pcount buffer in
  let! data := load_at 0 size buffer in
  let '(r, sent) := Nwrite_udp data e in
  if r <? 0 then Ok (r, sp, buffer, sent)
  else
    let rp := result sp in
    Ok (r, sp {{ result := rp {{ bytes_sent := u64 (bytes_sent rp + r);
                                 bytes_sent_this_interval := u64 (bytes_sent_this_interval rp + r) }} }},
        buffer, sent).

(** ** iperf_udp_recv *)

(** The loss and reordering counters; the comparison and the gap are computed
    with 64-bit unsigned numbers. *)
Definition udp_count (sp : iperf_stream) (pcount : Z) : outcome iperf_stream :=
  let! next := int_of (packet_count sp + 1) in
  if u64 next <=? pcount
  then
    let sp :=
      if u64 next <? pcount
      then sp {{ cnt_error := i32 (u64 (cnt_error sp + (u64 (pcount - 1) - packet_count sp))) }}
      else sp in
    Ok (sp {{ packet_count := i32 pcount }})
  else
    let! ooo := int_of (outoforder_packets sp + 1) in
    let sp := sp {{ outoforder_packets := ooo }} in
    if 0 <? cnt_error sp then Ok (sp {{ cnt_error := cnt_error sp - 1 }}) else Ok sp.

Definition dabs_diff (a b : double) : double :=
  let d := dsub a b in if dltb d d0 then SFopp d else d.

(** RFC 1889 jitter *)
Definition udp_jitter (sp : iperf_stream) (arrival sent : iperf_time) : iperf_stream :=
  let transit := iperf_time_in_secs (snd (iperf_time_diff arrival sent)) in
  let d := dabs_diff transit (prev_transit sp) in
  sp {{ prev_transit := transit;
        jitter := dadd (jitter sp) (ddiv (dsub d (jitter sp)) (d_of_Z 16)) }}.

(** The time and the number of a datagram. *)
Definition udp_header (test : iperf_test) (buffer : bytes) : outcome (iperf_time * Z) :=
  let! sec := load_at 0 4 buffer in
  let! sec := ntohl_bytes sec in
  let! usec := load_at 4 4 buffer in
  let! usec := ntohl_bytes usec in
  let! pcount :=
    if nonzero_int (udp_counters_64bit test)
    then let! pc := load_at 8 8 buffer in be64toh_bytes pc
    else let! pc := load_at 8 4 buffer in ntohl_bytes pc in
  Ok (mk_time sec usec, pcount).

(** [now] is the time of arrival.  The return value, the stream, its buffer
    and the socket. *)
Definition iperf_udp_recv (test : iperf_test) (sp : iperf_stream) (buffer : bytes) (q : list dgram)
    (now : iperf_time) : outcome (Z * iperf_stream * bytes * list dgram) :=
  let size := Z.to_nat (blksize (settings test)) in
  let '(got, q) := Nread_udp size [] q in
  match got with
  | None => Ok (NET_HARDERROR, sp, buffer, q)
  | Some got =>
      let r := i32 (Z.of_nat (List.length got)) in
      let! buffer := store_at 0 got buffer in
      if r <=? 0 then Ok (r, sp, buffer, q)
      else if state test =? TEST_RUNNING
      then
        let rp := result sp in
        let sp := sp {{ result := rp {{ bytes_received := u64 (bytes_received rp + r);
                     bytes_received_this_interval := u64 (bytes_received_this_interval rp + r) }} }} in
        let! h := udp_header test buffer in
        let '(sent_time, pcount) := h in
        let! sp := udp_count sp pcount in
        Ok (r, udp_jitter sp now sent_time, buffer, q)
      else Ok (r, sp, buffer, q)
  end.

(** ** Runs of a sender and of a receiver *)

Fixpoint udp_send_all (test : iperf_test) (sp : iperf_stream) (buffer : bytes) (times : list iperf_time)
    : outcome (iperf_stream * list bytes) :=
  match times with
  | [] => Ok (sp, [])
  | t :: times =>
      let! r := iperf_udp_send test sp buffer t None in
      let '(_, sp, buffer, d) := r in
      let! r := udp_send_all test sp buffer times in
      let '(sp, ds) := r in Ok (sp, d ++ ds)
  end.

Fixpoint udp_recv_all (test : iperf_test) (sp : iperf_stream) (buffer : bytes) (q : list dgram)
    (times : list iperf_time) : outcome iperf_stream :=
  match times with
  | [] => Ok sp
  | t :: times =>
      let! r := iperf_udp_recv test sp buffer q t in
      let '(_, sp, buffer, q) := r in udp_recv_all test sp buffer q times
  end.

(** ** The header *)

Lemma htonl_length x : List.length (htonl_bytes x) = 4%nat.
Proof. done. Qed.

Lemma be64_roundtrip x : is_u64 x -> be64toh_bytes (htobe64_bytes x) = Ok x.
Proof.
  intros Hx.
  change (be64toh_bytes (htobe64_bytes x)) with
    (let! hi := ntohl_bytes (htonl_bytes (u32 (Z.shiftr x 32))) in
     let! lo := ntohl_bytes (htonl_bytes (u32 x)) in Ok (Z.shiftl hi 32 + lo)).
  rewrite !ntohl_htonl by apply u32_range. cbn [obind]. f_equal.
  rewrite Z.shiftr_div_pow2, Z.shiftl_mul_pow2 by lia. zlia.
Qed.

(** The number of a datagram in its header. *)
Definition counter (test : iperf_test) (pc : Z) : bytes :=
  if nonzero_int (udp_counters_64bit test) then htobe64_bytes (u64 pc) else htonl_bytes (u32 pc).

Lemma udp_header_read test t pc rest :
  wf_time t -> 0 <= pc < 2 ^ 31 ->
  udp_header test (htonl_bytes (secs t) ++ htonl_bytes (usecs t) ++ counter test pc ++ rest) = Ok (t, pc).
Proof.
  intros [Hs Hu] Hpc. destruct t as [sec usec]. cbn [secs usecs] in *.
  unfold udp_header, counter. destruct (nonzero_int _).
  - transitivity (let! sec := ntohl_bytes (htonl_bytes sec) in
      let! usec := ntohl_bytes (htonl_bytes usec) in
      let! pcount := be64toh_bytes (htobe64_bytes (u64 pc)) in Ok (mk_time sec usec, pcount)); [done|].
    rewrite be64_roundtrip, !ntohl_htonl by zlia. cbn [obind]. by rewrite u64_small by zlia.
  - transitivity (let! sec := ntohl_bytes (htonl_bytes sec) in
      let! usec := ntohl_bytes (htonl_bytes usec) in
      let! pcount := ntohl_bytes (htonl_bytes (u32 pc)) in Ok (mk_time sec usec, pcount)); [done|].
    rewrite !ntohl_htonl by zlia. cbn [obind]. by rewrite u32_small by zlia.
Qed.

(** ** One datagram *)

Definition add_sent (sp : iperf_stream) (r : Z) : iperf_stream :=
  sp {{ result := (result sp) {{ bytes_sent := u64 (bytes_sent (result sp) + r);
          bytes_sent_this_interval := u64 (bytes_sent_this_interval (result sp) + r) }} }}.
Definition add_received (sp : iperf_stream) (r : Z) : iperf_stream :=
  sp {{ result := (result sp) {{ bytes_received := u64 (bytes_received (result sp) + r);
          bytes_received_this_interval := u64 (bytes_received_this_interval (result sp) + r) }} }}.

Definition buffer_ok (test : iperf_test) (buf : bytes) : Prop :=
  blksize (settings test) = Z.of_nat (List.length buf) /\ (16 <= List.length buf)%nat /\
  Z.of_nat (List.length buf) < 2 ^ 31.

Lemma counter_length test pc : (List.length (counter test pc) <= 8)%nat.
Proof. unfold counter. destruct (nonzero_int _); simpl; lia. Qed.

Lemma store_at_app (pre src mid rest : bytes) :
  List.length src = List.length mid ->
  store_at (List.length pre) src (pre ++ mid ++ rest) = Ok (pre ++ src ++ rest).
Proof.
  intros E. unfold store_at. rewrite !length_app.
  destruct (Nat.leb_spec (List.length pre + List.length src)
    (List.length pre + (List.length mid + List.length rest))); [|lia].
  rewrite take_app_length, E, (app_assoc pre mid), drop_app_length' by (by rewrite length_app). done.
Qed.

Lemma udp_send_one test sp buf t :
  buffer_ok test buf -> 0 <= packet_count sp < 2 ^ 31 - 1 ->
  exists d, iperf_udp_send test sp buf t None
    = Ok (Z.of_nat (List.length buf),
          add_sent (sp {{ packet_count := packet_count sp + 1 }}) (Z.of_nat (List.length buf)), d, [d]) /\
    List.length d = List.length buf /\
    exists rest, d = htonl_bytes (secs t) ++ htonl_bytes (usecs t) ++ counter test (packet_count sp + 1) ++ rest.
Proof.
  intros (Hb & H16 & Hlt) Hpc. unfold iperf_udp_send. rewrite int_of_ok by zlia. cbn [obind].
  fold (counter test (packet_count sp + 1)). set (pc := counter test (packet_count sp + 1)).
  assert (Hc : (List.length pc <= 8)%nat) by apply counter_length.
  assert (Eb : buf = take 4 buf ++ take 4 (drop 4 buf) ++ take (List.length pc) (drop 8 buf)
      ++ drop (8 + List.length pc) buf).
  { rewrite <- drop_drop, take_drop. change (drop 8 buf) with (drop (4 + 4) buf).
    by rewrite <- drop_drop, !take_drop. }
  set (x := take 4 buf) in *. set (y := take 4 (drop 4 buf)) in *.
  set (z := take (List.length pc) (drop 8 buf)) in *. set (rest := drop (8 + List.length pc) buf) in *.
  assert (Hx : List.length x = 4%nat) by (unfold x; rewrite length_take; lia).
  assert (Hy : List.length y = 4%nat) by (unfold y; rewrite length_take, length_drop; lia).
  assert (Hz : List.length z = List.length pc) by (unfold z; rewrite length_take, length_drop; lia).
  assert (Hn : List.length buf = (8 + List.length pc + List.length rest)%nat)
    by (unfold rest; rewrite length_drop; lia).
  clearbody x y z rest.
  replace (store_at 0 (htonl_bytes (secs t)) buf)
    with (store_at (List.length (@nil Z)) (htonl_bytes (secs t)) ([] ++ x ++ y ++ z ++ rest))
    by (cbn [List.length app]; by rewrite <- Eb).
  rewrite (store_at_app [] (htonl_bytes (secs t)) x (y ++ z ++ rest)) by done. cbn [obind].
  rewrite app_nil_l.
  change (store_at 4) with (store_at (List.length (htonl_bytes (secs t)))).
  rewrite (store_at_app (htonl_bytes (secs t)) (htonl_bytes (usecs t)) y (z ++ rest)) by done. cbn [obind].
  rewrite (app_assoc (htonl_bytes (secs t))).
  change (store_at 8) with (store_at (List.length (htonl_bytes (secs t) ++ htonl_bytes (usecs t)))).
  rewrite (store_at_app (htonl_bytes (secs t) ++ htonl_bytes (usecs t)) pc z) by done. cbn [obind].
  rewrite <- app_assoc. set (d := htonl_bytes (secs t) ++ htonl_bytes (usecs t) ++ pc ++ rest).
  assert (Hd : List.length d = List.length buf) by (unfold d; rewrite !length_app, !htonl_length; lia).
  exists d. split; [|split; [done|by exists rest]]. clearbody d.
  unfold load_at. rewrite Hb, Nat2Z.id, Hd, Nat.leb_refl. cbn [obind drop Nat.add].
  rewrite drop_0, take_ge by lia.
  unfold Nwrite_udp. destruct d as [|x0 d'] eqn:Ed; [simpl in Hd; lia|]. rewrite <- Ed in *.
  rewrite Hd, i32_small by zlia. destruct (Z.ltb_spec (Z.of_nat (List.length buf)) 0); [lia|]. done.
Qed.

Lemma Nread_udp_0 got q : Nread_udp 0 got q = (Some got, q).
Proof. by destruct q. Qed.

Lemma udp_recv_one test sp buf d q now t pc :
  buffer_ok test buf -> List.length d = List.length buf -> state test = TEST_RUNNING ->
  udp_header test d = Ok (t, pc) ->
  iperf_udp_recv test sp buf (Dgram d :: q) now
    = let! sp := udp_count (add_received sp (Z.of_nat (List.length buf))) pc in
      Ok (Z.of_nat (List.length buf), udp_jitter sp now t, d, q).
Proof.
  intros (Hb & H16 & Hlt) Hd Hst Hh. unfold iperf_udp_recv. rewrite Hb, Nat2Z.id.
  destruct (List.length buf) as [|n] eqn:En; [lia|]. cbn [Nread_udp]. rewrite Hd, Nat.min_id.
  cbn [Nat.eqb]. rewrite Nat.sub_diag. rewrite <- Hd, take_ge by lia. rewrite Nread_udp_0, app_nil_l.
  rewrite Hd, i32_small by zlia. unfold store_at. rewrite Hd, En, Nat.leb_refl. cbn [Nat.add].
  rewrite take_0, app_nil_l, drop_ge, app_nil_r by lia. cbn [obind].
  destruct (Z.leb_spec (Z.of_nat (S n)) 0); [lia|]. rewrite Hst. cbn [Z.eqb Pos.eqb]. by rewrite Hh.
Qed.

(** ** Runs *)

Lemma udp_send_run test times : forall sp buf,
  buffer_ok test buf -> 0 <= packet_count sp -> packet_count sp + Z.of_nat (List.length times) < 2 ^ 31 ->
  Forall wf_time times ->
  exists sp' ds, udp_send_all test sp buf times = Ok (sp', ds) /\ List.length ds = List.length times /\
    packet_count sp' = packet_count sp + Z.of_nat (List.length times) /\
    forall i d, ds !! i = Some d -> List.length d = List.length buf /\
      exists t, udp_header test d = Ok (t, packet_count sp + Z.of_nat i + 1).
Proof.
  induction times as [|t times IH]; intros sp buf Hb H0 Hn Ht.
  { exists sp, []. repeat split; [simpl; lia|..]; by rewrite lookup_nil in *. }
  cbn [List.length] in Hn. apply Forall_cons in Ht as [Ht Hts].
  destruct (udp_send_one test sp buf t Hb ltac:(lia)) as (d & E & Hd & rest & Er).
  assert (Hb' : buffer_ok test d) by (unfold buffer_ok in *; by rewrite Hd).
  set (sp1 := add_sent _ _) in E.
  assert (E1 : packet_count sp1 = packet_count sp + 1) by done.
  destruct (IH sp1 d Hb') as (sp' & ds & Es & Hl & Hp & Hds); [lia..|done|].
  exists sp', (d :: ds). cbn [udp_send_all]. rewrite E. cbn [obind]. rewrite Es. cbn [obind app List.length].
  split; [done|]. split; [lia|]. split; [lia|].
  intros [|i] d' Hi; cbn in Hi.
  - injection Hi as <-. split; [done|]. exists t. rewrite Er, udp_header_read by (done || lia).
    do 2 f_equal. lia.
  - destruct (Hds i d' Hi) as [Hl' [t' Ht']]. split; [lia|]. exists t'. rewrite Ht'. do 2 f_equal. lia.
Qed.

(** The datagrams that arrive after one with a higher number. *)
Fixpoint late (m : Z) (l : list Z) : Z :=
  match l with
  | [] => 0
  | p :: l => if m <? p then late p l else 1 + late m l
  end.

Fixpoint highest (m : Z) (l : list Z) : Z :=
  match l with
  | [] => m
  | p :: l => highest (Z.max m p) l
  end.

(** The counters of a receiver that has seen the datagrams [seen]. *)
Record counted (sp : iperf_stream) (seen : list Z) : Prop := {
  c_range : 0 <= packet_count sp < 2 ^ 31 - 1;
  c_seen : forall p, p ∈ seen -> 1 <= p <= packet_count sp;
  c_nodup : NoDup seen;
  c_error : cnt_error sp = packet_count sp - Z.of_nat (List.length seen);
  c_late : 0 <= outoforder_packets sp <= Z.of_nat (List.length seen) }.

(** There are at most [m] distinct numbers in [1..m]. *)
Lemma distinct_le (seen : list Z) (m : Z) :
  0 <= m -> NoDup seen -> (forall x, x ∈ seen -> 1 <= x <= m) -> Z.of_nat (List.length seen) <= m.
Proof.
  intros Hm Hn Hs.
  assert (H : (List.length seen <= List.length (seqZ 1 m))%nat).
  { apply NoDup_incl_length; [by apply NoDup_ListNoDup|].
    intros x Hx%list_elem_of_In. apply list_elem_of_In, elem_of_seqZ. specialize (Hs x Hx). lia. }
  rewrite length_seqZ in H. lia.
Qed.

Lemma counted_seen sp seen p : counted sp seen -> p ∉ seen -> 1 <= p ->
  Z.of_nat (S (List.length seen)) <= Z.max (packet_count sp) p.
Proof.
  intros [Hr Hs Hn _ _] Hp H1. apply (distinct_le (p :: seen)); [lia|by constructor|].
  intros x [->|Hx]%elem_of_cons; [lia|]. specialize (Hs x Hx). lia.
Qed.

Lemma udp_count_new sp seen p :
  counted sp seen -> p ∉ seen -> 1 <= p < 2 ^ 31 - 1 ->
  exists sp', udp_count sp p = Ok sp' /\ counted sp' (p :: seen) /\
    packet_count sp' = Z.max (packet_count sp) p /\ result sp' = result sp /\
    outoforder_packets sp' = outoforder_packets sp + (if packet_count sp <? p then 0 else 1).
Proof.
  intros Hc Hp Hrange. pose proof (counted_seen sp seen p Hc Hp ltac:(lia)) as Hlen.
  pose proof (distinct_le seen (packet_count sp) ltac:(destruct Hc; lia) (c_nodup _ _ Hc) (c_seen _ _ Hc)) as Hle.
  destruct Hc as [Hr Hs Hn He Hl].
  unfold udp_count. rewrite int_of_ok by zlia. cbn [obind]. rewrite (u64_small (packet_count sp + 1)) by zlia.
  destruct (Z.leb_spec (packet_count sp + 1) p) as [Hf|Hf].
  - set (sp1 := if _ <? p then _ else sp).
    assert (E : cnt_error sp1 = cnt_error sp + (p - 1 - packet_count sp) /\ packet_count sp1 = packet_count sp /\
      result sp1 = result sp /\ outoforder_packets sp1 = outoforder_packets sp).
    { unfold sp1. destruct (Z.ltb_spec (packet_count sp + 1) p); cbn -[i32 u64]; (split; [|done]); [|lia].
      unfold constant. rewrite (u64_small (p - 1)), u64_small, i32_small by zlia. lia. }
    destruct E as (E1 & E2 & E3 & E4). clearbody sp1.
    destruct sp1 as [a0 a1 a2 a3 a4 a5 a6 a7 a8 a9 b0 b1 b2 b3]. cbn in E1, E2, E3, E4. eexists. split; [done|]. cbn -[i32 u64]. unfold constant.
    rewrite i32_small by zlia. destruct (Z.ltb_spec (packet_count sp) p); [|lia].
    split; [|split; [lia|split; [done|lia]]].
    constructor; cbn -[i32 u64]; unfold constant; rewrite ?i32_small by zlia; [lia| |by constructor|lia|lia].
    intros x [->|Hx]%elem_of_cons; [lia|]. specialize (Hs x Hx). lia.
  - rewrite int_of_ok by zlia. cbn [obind].
    destruct sp as [a0 a1 a2 a3 a4 a5 a6 a7 a8 a9 b0 b1 b2 b3]. cbn in Hr, Hs, He, Hl, Hlen, Hle, Hf.
    cbn. unfold constant.
    destruct (Z.ltb_spec 0 b2); [|lia]. eexists. split; [done|]. cbn. unfold constant.
    destruct (Z.ltb_spec a5 p); [lia|].
    split; [|split; [lia|split; [done|lia]]].
    constructor; cbn; unfold constant; [lia| |by constructor|lia|lia].
    intros x [->|Hx]%elem_of_cons; [lia|]. specialize (Hs x Hx). lia.
Qed.

Lemma counted_same sp sp' seen :
  packet_count sp' = packet_count sp -> cnt_error sp' = cnt_error sp ->
  outoforder_packets sp' = outoforder_packets sp -> counted sp seen -> counted sp' seen.
Proof. intros E1 E2 E3 []. constructor; rewrite ?E1, ?E2, ?E3; done. Qed.

(** A datagram with the number [p], as long as the buffer. *)
Definition numbered (test : iperf_test) (n : nat) (d : bytes) (p : Z) : Prop :=
  List.length d = n /\ exists t, udp_header test d = Ok (t, p).

Lemma u64_add a b : u64 (u64 a + b) = u64 (a + b).
Proof. unfold u64. by rewrite Zplus_mod_idemp_l. Qed.

Lemma udp_recv_run test ds ps n : state test = TEST_RUNNING -> Forall2 (numbered test n) ds ps ->
  forall sp buf seen times,
  buffer_ok test buf -> List.length buf = n -> counted sp seen ->
  NoDup ps -> (forall p, p ∈ ps -> 1 <= p < 2 ^ 31 - 1 /\ p ∉ seen) -> List.length times = List.length ds ->
  exists sp', udp_recv_all test sp buf (map Dgram ds) times = Ok sp' /\
    packet_count sp' = highest (packet_count sp) ps /\
    cnt_error sp' = packet_count sp' - Z.of_nat (List.length ps + List.length seen) /\
    outoforder_packets sp' = outoforder_packets sp + late (packet_count sp) ps /\
    u64 (bytes_received (result sp')) = u64 (bytes_received (result sp) + Z.of_nat (List.length ps * n)).
Proof.
  intros Hst. induction 1 as [|d p ds ps [Hd [t Ht]] Hds IH]; intros sp buf seen times Hb Hn Hc Hnd Hps Hl.
  { destruct times; [|done]. exists sp. destruct Hc. cbn. rewrite !Z.add_0_r. done. }
  destruct times as [|now times]; [done|]. cbn [map udp_recv_all].
  rewrite (udp_recv_one test sp buf d _ now t p Hb ltac:(lia) Hst Ht).
  destruct (Hps p (list_elem_of_here _ _)) as [Hp Hnp]. apply NoDup_cons in Hnd as [Hpp Hnd].
  set (sp1 := add_received sp _).
  destruct (udp_count_new sp1 seen p) as (sp2 & E2 & Hc2 & Ep & Er & Eo); [by apply (counted_same sp)|done|done|].
  rewrite E2. cbn [obind].
  destruct (IH (udp_jitter sp2 now t) d (p :: seen) times) as (sp' & E' & Ep' & Ee' & Eo' & Eb').
  - unfold buffer_ok in *. by rewrite Hd, <- Hn.
  - done.
  - by apply (counted_same sp2).
  - done.
  - intros x Hx. destruct (Hps x (list_elem_of_further _ _ _ Hx)) as [H1 H2]. split; [done|].
    rewrite elem_of_cons. intros [->|?]; done.
  - by injection Hl.
  - exists sp'. split; [done|]. cbn [highest late List.length].
    change (packet_count (udp_jitter sp2 now t)) with (packet_count sp2) in *.
    change (outoforder_packets (udp_jitter sp2 now t)) with (outoforder_packets sp2) in *.
    change (result (udp_jitter sp2 now t)) with (result sp2) in *.
    change (packet_count sp1) with (packet_count sp) in *.
    change (outoforder_packets sp1) with (outoforder_packets sp) in *.
    rewrite Ep', Ep in *. cbn [List.length] in Ee'.
    split; [done|]. split; [lia|]. split.
    + rewrite Eo', Eo. destruct (Z.ltb_spec (packet_count sp) p).
      * rewrite Z.max_r by lia. lia.
      * rewrite Z.max_l by lia. lia.
    + rewrite Eb', Er. change (bytes_received (result sp1))
        with (u64 (bytes_received (result sp) + Z.of_nat (List.length buf))).
      rewrite u64_add. f_equal. rewrite Hn. lia.
Qed.

(** C9: Loss and reordering are counted exactly.  A sender emits datagrams;
    the network delivers any selection of them in any order, without
    duplicates.  The receiver ends with the highest number it saw as its packet
    count, with a loss count that is exactly the number of datagrams up to that
    number that did not arrive, with a reordering count that is exactly the
    number that arrived after a later one, and with all bytes counted; no
    counter overflows and no buffer is overrun, with 32-bit and with 64-bit
    counters in the header. *)
Theorem udp_delivery ts tr sp rp sbuf rbuf sends order arrivals :
  buffer_ok ts sbuf -> buffer_ok tr rbuf -> List.length sbuf = List.length rbuf ->
  nonzero_int (udp_counters_64bit ts) = nonzero_int (udp_counters_64bit tr) -> state tr = TEST_RUNNING ->
  packet_count sp = 0 -> packet_count rp = 0 -> cnt_error rp = 0 -> outoforder_packets rp = 0 ->
  Forall wf_time sends -> Z.of_nat (List.length sends) < 2 ^ 31 - 1 ->
  NoDup order -> Forall (fun i => i < List.length sends)%nat order -> List.length arrivals = List.length order ->
  let numbers := map (fun i => Z.of_nat i + 1) order in
  exists sp' ds rp', udp_send_all ts sp sbuf sends = Ok (sp', ds) /\ List.length ds = List.length sends /\
    udp_recv_all tr rp rbuf (map Dgram (map (fun i => nth i ds []) order)) arrivals = Ok rp' /\
    packet_count rp' = highest 0 numbers /\
    cnt_error rp' = packet_count rp' - Z.of_nat (List.length order) /\
    outoforder_packets rp' = late 0 numbers /\
    u64 (bytes_received (result rp'))
      = u64 (bytes_received (result rp) + Z.of_nat (List.length order * List.length rbuf)).
Proof.
  intros Hsb Hrb Hlen Hw Hst Hs0 Hr0 He0 Ho0 Ht Hn Hnd Hin Harr numbers.
  destruct (udp_send_run ts sends sp sbuf Hsb ltac:(lia) ltac:(lia) Ht) as (sp' & ds & Es & Hl & _ & Hds).
  exists sp', ds.
  assert (Hnum : Forall2 (numbered tr (List.length rbuf)) (map (fun i => nth i ds []) order) numbers).
  { unfold numbers. clear Hnd Harr numbers. induction Hin as [|i order Hi _ IH]; [constructor|].
    constructor; [|done]. destruct (lookup_lt_is_Some_2 ds i) as [d Hd]; [lia|].
    rewrite (nth_lookup_Some ds i [] d Hd). destruct (Hds i d Hd) as [Hl' [t' Ht']].
    split; [lia|]. exists t'. rewrite Hs0 in Ht'. unfold udp_header in *. by rewrite <- Hw. }
  destruct (udp_recv_run tr _ numbers (List.length rbuf) Hst Hnum rp rbuf [] arrivals) as (rp' & E & Ep & Ee & Eo & Eb);
    [done|done| | | | |].
  - constructor; rewrite ?Hr0, ?He0, ?Ho0; [lia|by intros p ?%not_elem_of_nil|constructor|done|cbn; lia].
  - apply NoDup_fmap_2; [|done]. intros ???. lia.
  - intros p Hp. split; [|apply not_elem_of_nil]. apply list_elem_of_fmap in Hp as (i & -> & Hi).
    rewrite Forall_forall in Hin. specialize (Hin i Hi). lia.
  - by rewrite length_map.
  - assert (El : List.length numbers = List.length order) by apply length_map.
    exists rp'. rewrite Hr0 in Ep, Eo. rewrite Ho0, El in *. rewrite Nat.add_0_r in Ee. done.
Qed.

(** Four datagrams, of which the fourth, the first and the second arrive. *)
Lemma udp_delivery_witness :
  let test := (iperf_defaults true) {{ state := TEST_RUNNING; settings -> blksize := 16 }} in
  let sp := mk_stream 4 0 true zero_result true 0 0 0 d0 d0 0 0 0 0 in
  let now := mk_time 5 10 in
  exists sp' ds rp', udp_send_all test sp (repeat 0 16) [now; now; now; now] = Ok (sp', ds) /\
    List.length ds = 4%nat /\
    udp_recv_all test sp (repeat 0 16) (map Dgram (map (fun i => nth i ds []) [3; 0; 1]%nat)) [now; now; now] = Ok rp' /\
    packet_count rp' = 4 /\ cnt_error rp' = packet_count rp' - 3 /\ outoforder_packets rp' = 2 /\
    u64 (bytes_received (result rp')) = u64 48.
Proof.
  intros test sp now.
  apply (udp_delivery test test sp sp (repeat 0 16) (repeat 0 16) [now; now; now; now] [3; 0; 1]%nat [now; now; now]);
    try done; try (repeat constructor; cbn; lia).
  repeat (constructor; [rewrite ?elem_of_cons, ?elem_of_nil; lia|]). constructor.
Defined.
