(* ===== verification/Util.v ===== *)
(** * Utilities (iperf_util.c)

    Cookies, the payload pattern, differences of timevals, CPU figures, and the
    helper that builds JSON objects from a format.  The entropy of
    /dev/urandom, clock() and getrusage() are arguments; daemon() and getline()
    are those of the C library in this build. *)

From Stdlib Require Import SpecFloat.
From Stdlib Require Import String.
From S2P Require Import Prelude.
From S2P Require Import IperfTime.
From S2P Require Import Cdouble.
From S2P Require Import CjsonData.
From S2P Require Import CjsonTree.
From S2P Require Import JsonObject.
From S2P Require Import Udp.
From S2P Require Import Dscp.
From stdpp Require Import base numbers list.

Open Scope Z_scope.
Open Scope c_scope.

Abbreviation COOKIE_SIZE := 37%nat.

(** ** Payload and cookies *)

(** The loop over the buffer with its counter. *)
Fixpoint fill_pattern (n : nat) (counter : Z) : bytes :=
  match n with
  | O => []
  | S n => (48 + counter) :: fill_pattern n (if 9 <=? counter then 0 else counter + 1)
  end.

Definition fill_with_repeating_pattern (outsize : nat) : bytes := fill_pattern outsize 0.

Definition rndchars : bytes := bytes_of "abcdefghijklmnopqrstuvwxyz234567".

(** [entropy] are the COOKIE_SIZE bytes readentropy fills in (it does not
    return without them). *)
Definition make_cookie (entropy : bytes) : bytes :=
  map (fun b => nth (Z.to_nat (b mod 32)) rndchars 0) (take (COOKIE_SIZE - 1) entropy) ++ [0].

(** is_closed: whether select on the descriptor fails, and errno. *)
Abbreviation EBADF := 9.
Definition is_closed (select_failed : bool) (errno : Z) : Z :=
  if select_failed && (errno =? EBADF) then 1 else 0.

(** ** Times *)

Record timeval := mk_timeval { tv_sec : Z; tv_usec : Z }.

(** The division is one of integers. *)
Definition timeval_to_double (tv : timeval) : double := d_of_Z (tv_sec tv + Z.quot (tv_usec tv) 1000000).

Definition timeval_equals (tv0 tv1 : timeval) : Z :=
  if (tv_sec tv0 =? tv_sec tv1) && (tv_usec tv0 =? tv_usec tv1) then 1 else 0.

Definition timeval_diff (tv0 tv1 : timeval) : double :=
  let secs tv := dadd (d_of_Z (tv_sec tv)) (ddiv (d_of_Z (tv_usec tv)) (d_of_Z 1000000)) in
  let time1 := dsub (secs tv0) (secs tv1) in
  if dltb time1 d0 then SFopp time1 else time1.

(** What cpu_util samples: the time, clock(), and the user and system time of
    getrusage. *)
Record cpu_sample := mk_sample
  { cs_time : iperf_time;
    cs_clock : Z;
    cs_user : timeval;
    cs_system : timeval }.

Abbreviation CLOCKS_PER_SEC := 1000000.

(** The three figures between the sample of the call with NULL and the one of
    this call. *)
Definition cpu_util (last now : cpu_sample) : double * double * double :=
  let usecs tv := dadd (dmul (d_of_Z (tv_sec tv)) (d_of_Z 1000000)) (d_of_Z (tv_usec tv)) in
  let timediff := d_of_Z (iperf_time_in_usecs (snd (iperf_time_diff (cs_time now) (cs_time last)))) in
  let userdiff := dsub (usecs (cs_user now)) (usecs (cs_user last)) in
  let systemdiff := dsub (usecs (cs_system now)) (usecs (cs_system last)) in
  let percent x := dmul (ddiv x timediff) (d_of_Z 100) in
  (percent (ddiv (dmul (d_of_Z (i64 (cs_clock now - cs_clock last))) (d_of_Z 1000000)) (d_of_Z CLOCKS_PER_SEC)),
   percent userdiff, percent systemdiff).

(** ** iperf_json_printf *)

(** An argument of the call. *)
Inductive jarg : Type :=
| AInt (b : Z)
| AInt64 (z : Z)
| ADouble (d : double)
| AString (s : option bytes).

(** The item of a conversion ([inl None]: not allocated; [inr tt]: another
    letter) and the arguments left; taking an argument of another type or one
    too many is undefined. *)
Definition conversion (ok : bool) (c : Z) (args : list jarg) : outcome ((option cJSON + unit) * list jarg) :=
  if c =? 98 then match args with AInt b :: r => Ok (inl (cJSON_CreateBool ok (nonzero_int b)), r) | _ => UB end
  else if c =? 100 then match args with AInt64 z :: r => Ok (inl (cJSON_CreateNumber ok (d_of_Z z)), r) | _ => UB end
  else if c =? 102 then match args with ADouble d :: r => Ok (inl (cJSON_CreateNumber ok d), r) | _ => UB end
  else if c =? 115 then match args with AString s :: r => Ok (inl (cJSON_CreateString ok ok s), r) | _ => UB end
  else Ok (inr tt, args).

(** The C string in a buffer: undefined without a terminator. *)
Definition string_in (buf : bytes) : outcome bytes :=
  if existsb (Z.eqb 0) buf then Ok (cstr_of buf) else UB.

Section Printf.
(** Whether the allocations for the n-th member succeed. *)
Variable ok : nat -> bool.

(** The loop over the format; [name] is the buffer of 100 characters and [np]
    the position in it. *)
Fixpoint json_loop (fmt : bytes) (args : list jarg) (name : bytes) (np : nat) (o : cJSON) : outcome (option cJSON) :=
  match fmt with
  | [] => Ok (Some o)
  | c :: fmt =>
      if c =? 32 then json_loop fmt args name np o
      else if c =? 58 then let! name := store_at np [0] name in json_loop fmt args name np o
      else if c =? 37
      then
        match fmt with
        | [] => Ok None
        | k :: fmt =>
            let! r := conversion (ok (S (List.length (child o)))) k args in
            match r with
            | (inl (Some j), args) =>
                let! key := string_in name in
                let! o := cJSON_AddItemToObject (ok (S (List.length (child o)))) (Some o) (Some key) (Some j) in
                let! o := deref o in
                json_loop fmt args name 0 o
            | _ => Ok None
            end
        end
      else let! name := store_at np [c] name in json_loop fmt args name (S np) o
  end.

(** [name0] are the contents of the uninitialised buffer. *)
Definition iperf_json_printf (name0 : bytes) (format : bytes) (args : list jarg) : outcome (option cJSON) :=
  match cJSON_CreateObject (ok 0) with
  | None => Ok None
  | Some o => json_loop (cstr_of format) args name0 0 o
  end.

End Printf.

(** ** Properties *)

Lemma fill_pattern_at n : forall c i, 0 <= c <= 9 -> (i < n)%nat ->
  fill_pattern n c !! i = Some (48 + (c + Z.of_nat i) mod 10).
Proof.
  induction n as [|n IH]; intros c i Hc Hi; [lia|]. destruct i as [|i]; cbn [fill_pattern lookup].
  - rewrite Z.add_0_r, Z.mod_small by lia. done.
  - change (fill_pattern n (if 9 <=? c then 0 else c + 1) !! i = Some (48 + (c + Z.of_nat (S i)) mod 10)).
    destruct (Z.leb_spec 9 c); rewrite IH by lia; do 2 f_equal.
    + replace (c + Z.of_nat (S i)) with (0 + Z.of_nat i + 1 * 10) by lia. by rewrite Z_mod_plus_full.
    + f_equal. lia.
Qed.

(** The pattern repeats the digits. *)
Lemma fill_pattern_digits n i : (i < n)%nat -> fill_with_repeating_pattern n !! i = Some (48 + Z.of_nat i mod 10).
Proof. intros Hi. unfold fill_with_repeating_pattern. by rewrite fill_pattern_at by lia. Qed.

Lemma rndchars_range k : (k < 32)%nat -> 50 <= nth k rndchars 0 <= 122.
Proof.
  intros Hk. assert (H : forallb (fun z => (50 <=? nth (Z.to_nat z) rndchars 0) && (nth (Z.to_nat z) rndchars 0 <=? 122)) (below 32) = true)
    by (vm_compute; reflexivity).
  rewrite <- (Nat2Z.id k). pose proof (forall_below 32 _ (Z.of_nat k) H ltac:(lia)) as H2. cbn beta in H2. lia.
Qed.

(** A cookie is a C string of exactly 36 letters and digits, whatever the
    entropy: it fills the 37 bytes both sides reserve and send, and comparing
    cookies compares all of it. *)
Theorem make_cookie_shape entropy :
  List.length entropy = COOKIE_SIZE ->
  List.length (make_cookie entropy) = COOKIE_SIZE /\
  cstr_of (make_cookie entropy) = take 36 (make_cookie entropy) /\
  Forall (fun c => 50 <= c <= 122) (take 36 (make_cookie entropy)).
Proof.
  intros Hlen. unfold make_cookie. set (l := map _ _).
  assert (Hl : List.length l = 36%nat) by (unfold l; rewrite length_map, length_take, Hlen; reflexivity).
  assert (Hr : Forall (fun c => 50 <= c <= 122) l).
  { unfold l. apply List.Forall_map, Forall_forall. intros b _. apply rndchars_range.
    pose proof (Z.mod_pos_bound b 32). lia. }
  split; [by rewrite length_app, Hl|]. rewrite take_app_le by (rewrite Hl; done). rewrite take_ge by (by rewrite Hl).
  split; [|done]. apply cstr_of_app. eapply Forall_impl; [exact Hr|]. cbn. lia.
Qed.

Lemma make_cookie_shape_witness : cstr_of (make_cookie (repeat 33 37)) = repeat 98 36.
Proof.
  etransitivity; [apply (make_cookie_shape (repeat 33 37)); reflexivity|]. vm_compute. reflexivity.
Defined.

(** ** The objects iperf_json_printf builds *)

Abbreviation field := (bytes * jarg)%type.

Definition letter (v : jarg) : Z :=
  match v with AInt _ => 98 | AInt64 _ => 100 | ADouble _ => 102 | AString _ => 115 end.

(** [name: %d  ] *)
Definition field_format (f : field) : bytes := fst f ++ [58; 32; 37; letter (snd f); 32; 32].

(** The item of a value under a name. *)
Definition field_item (f : field) : cJSON :=
  match snd f with
  | AInt b => mkcJSON (if nonzero_int b then cJSON_True else cJSON_False) None 0 d0 (Some (fst f)) []
  | AInt64 z => mkcJSON cJSON_Number None (saturate (d_of_Z z)) (d_of_Z z) (Some (fst f)) []
  | ADouble d => mkcJSON cJSON_Number None (saturate d) d (Some (fst f)) []
  | AString s => mkcJSON cJSON_String (option_map cstr_of s) 0 d0 (Some (fst f)) []
  end.

(** Names of at most 99 ordinary characters; strings that are there. *)
Definition field_ok (f : field) : Prop :=
  Forall (fun c => c <> 0 /\ c <> 32 /\ c <> 58 /\ c <> 37) (fst f) /\ (List.length (fst f) <= 99)%nat /\
  match snd f with AString None => False | _ => True end.

Lemma store_one np c name : (np < List.length name)%nat ->
  store_at np [c] name = Ok (take np name ++ c :: drop (S np) name).
Proof.
  intros H. unfold store_at. cbn [List.length]. destruct (Nat.leb_spec (np + 1) (List.length name)); [|lia].
  by rewrite Nat.add_1_r.
Qed.

Lemma store_one_length np (c : Z) (name : bytes) : (np < List.length name)%nat ->
  List.length (take np name ++ c :: drop (S np) name) = List.length name.
Proof. intros H. rewrite length_app, length_take. cbn [List.length]. rewrite length_drop. lia. Qed.

Lemma json_loop_name ok n rest args o : forall name np,
  Forall (fun c => c <> 0 /\ c <> 32 /\ c <> 58 /\ c <> 37) n -> (np + List.length n <= List.length name)%nat ->
  json_loop ok (n ++ rest) args name np o
    = json_loop ok rest args (take np name ++ n ++ drop (np + List.length n) name) (np + List.length n) o.
Proof.
  induction n as [|c n IH]; intros name np Hn Hl.
  { cbn [app List.length]. by rewrite Nat.add_0_r, take_drop. }
  inversion Hn as [|? ? (H0 & H1 & H2 & H3) Hn']; subst. cbn [List.length] in Hl. cbn [app json_loop].
  destruct (Z.eqb_spec c 32); [done|]. destruct (Z.eqb_spec c 58); [done|]. destruct (Z.eqb_spec c 37); [done|].
  rewrite store_one by lia. cbn [obind]. rewrite IH; [|done|rewrite store_one_length by lia; lia].
  cbn [List.length]. rewrite Nat.add_succ_r, Nat.add_succ_l. f_equal.
  assert (Ht : List.length (take np name) = np) by (rewrite length_take; lia).
  rewrite take_app_ge by (rewrite Ht; lia). rewrite Ht. replace (S np - np)%nat with 1%nat by lia.
  rewrite firstn_cons, take_0, <- app_assoc. f_equal. cbn [app]. f_equal. f_equal.
  rewrite drop_app_ge by (rewrite Ht; lia). rewrite Ht.
  replace (S (np + List.length n) - np)%nat with (S (List.length n)) by lia. cbn [drop]. rewrite drop_drop. f_equal; lia.
Qed.

(** The buffer after a name and its terminator. *)
Lemma string_in_name (n : bytes) (tail : bytes) : Forall (fun c => c <> 0 /\ c <> 32 /\ c <> 58 /\ c <> 37) n ->
  string_in (n ++ 0 :: tail) = Ok n.
Proof.
  intros Hn. unfold string_in. assert (E : existsb (Z.eqb 0) (n ++ 0 :: tail) = true).
  { apply existsb_exists. exists 0. split; [|done]. apply in_or_app. right. by left. }
  rewrite E, cstr_of_app; [done|]. eapply Forall_impl; [exact Hn|]. by intros ? [].
Qed.

Lemma conversion_letter v args : (match v with AString None => False | _ => True end) ->
  exists j, conversion true (letter v) (v :: args) = Ok (inl (Some j), args) /\
    forall n o, cJSON_AddItemToObject true (Some o) (Some n) (Some j)
      = Ok (Some (set_child (child o ++ [field_item (cstr_of n, v)]) o)).
Proof.
  intros Hv. destruct v as [b|z|d|[s|]]; try done; eexists; (split; [reflexivity|]); intros n o; try reflexivity.
  unfold cJSON_CreateBool, field_item. cbn [snd fst]. destruct (nonzero_int b); reflexivity.
Qed.

Lemma json_loop_fields fields : forall name done_l,
  Forall field_ok fields -> List.length name = 100%nat ->
  json_loop (fun _ => true) (flat_map field_format fields) (map snd fields) name 0 (obj done_l)
    = Ok (Some (obj (done_l ++ map field_item fields))).
Proof.
  induction fields as [|[n v] fields IH]; intros name done_l Hf Hl; [by rewrite app_nil_r|].
  inversion Hf as [|? ? (Hn & Hlen & Hv) Hf']; subst. cbn [fst snd] in *. cbn [flat_map map]. unfold field_format at 1.
  cbn [fst snd]. rewrite <- app_assoc, json_loop_name by (done || lia). rewrite take_0, app_nil_l. cbn [Nat.add app].
  assert (Hd : List.length (n ++ drop (List.length n) name) = 100%nat) by (rewrite length_app, length_drop; lia).
  cbn [json_loop Z.eqb Pos.eqb]. rewrite store_one by lia. cbn [obind].
  rewrite take_app_le, take_ge by lia.
  destruct (conversion_letter v (map snd fields) Hv) as (j & -> & Hj). cbn [obind].
  rewrite string_in_name by done. cbn [obind]. rewrite Hj. cbn [obind deref].
  rewrite cstr_of_nonzero by (eapply Forall_impl; [exact Hn|]; by intros ? []).
  cbn [child obj]. change (set_child (done_l ++ [field_item (n, v)]) (obj done_l)) with (obj (done_l ++ [field_item (n, v)])).
  rewrite IH; [by rewrite <- app_assoc|done|].
  rewrite length_app. cbn [List.length]. rewrite length_drop, Hd. lia.
Qed.

(** iperf_json_printf builds the object its format describes: for fields
    with names of at most 99 ordinary characters and a conversion that matches
    each argument, the object has exactly the fields, in order, with their
    names and values; the buffer of 100 characters is never left. *)
Theorem iperf_json_printf_fields fields name0 :
  Forall field_ok fields -> List.length name0 = 100%nat ->
  iperf_json_printf (fun _ => true) name0 (flat_map field_format fields) (map snd fields)
    = Ok (Some (obj (map field_item fields))).
Proof.
  intros Hf Hl. unfold iperf_json_printf. cbn [cJSON_CreateObject].
  change (set_type cJSON_Object cJSON_New_Item) with (obj []).
  rewrite cstr_of_nonzero; [by apply (json_loop_fields fields name0 [])|].
  clear Hl. induction Hf as [|[n v] fields (Hn & _) _ IH]; [constructor|]. cbn [flat_map]. apply Forall_app. split; [|exact IH].
  unfold field_format. apply Forall_app. split; [eapply Forall_impl; [exact Hn|]; by intros ? []|].
  repeat constructor; try discriminate. by destruct v.
Qed.

Lemma iperf_json_printf_witness :
  iperf_json_printf (fun _ => true) (repeat 7 100) (bytes_of "socket: %d  start: %f  ")
      [AInt64 5; ADouble d0]
    = Ok (Some (obj [field_item (bytes_of "socket", AInt64 5); field_item (bytes_of "start", ADouble d0)])).
Proof.
  apply (iperf_json_printf_fields [(bytes_of "socket", AInt64 5); (bytes_of "start", ADouble d0)] (repeat 7 100));
    [|reflexivity].
  repeat (apply Forall_cons; split); [..|constructor];
    (split; [vm_compute; repeat constructor; discriminate|split; [apply Nat.leb_le; reflexivity|exact I]]).
Defined.

(** A longer name overruns the buffer. *)
Theorem iperf_json_printf_overrun : 
  iperf_json_printf (fun _ => true) (repeat 7 100) (repeat 97 100 ++ bytes_of ": %d") [AInt64 5] = UB.
Proof. vm_compute. reflexivity. Qed.

(** timeval_to_double loses the microseconds. *)
Theorem timeval_to_double_truncates s u : 0 <= u < 1000000 -> timeval_to_double (mk_timeval s u) = d_of_Z s.
Proof. intros Hu. unfold timeval_to_double. cbn [tv_sec tv_usec]. by rewrite Z.quot_small, Z.add_0_r by lia. Qed.
