(* ===== verification/Output.v ===== *)
(** * Output of a test (iperf_api.c: iperf_printf, iperf_json_start,
    iperf_json_finish, the callbacks; iperf_error.c: iperf_err;
    iperf_locale.c)

    A test reports either as lines of text or as one JSON tree.  Lines go
    through printf; the tree is built in place, through pointers to nodes
    inside it. *)

From coqutil Require Import Datatypes.RecordSetters.
From Stdlib Require Import SpecFloat.
From Stdlib Require Import String.
From S2P Require Import Prelude.
From S2P Require Import Cdouble.
From S2P Require Import Units.
From S2P Require Import CjsonData.
From S2P Require Import CjsonPrint.
From S2P Require Import CjsonTree.
From S2P Require Import JsonObject.
From S2P Require Import Iperf.
From S2P Require Import Util.
From stdpp Require Import base numbers gmap list.
Import DoubleBraceUpdate.

Open Scope Z_scope.
Open Scope c_scope.

(** ** printf, for the conversions of iperf_locale.c *)

Inductive parg : Type :=
| PInt (z : Z)
| PU64 (z : Z)
| PDouble (d : double)
| PStr (s : option bytes).

(** A directive up to its letter: the flag [-], the width, the precision and
    the number of [l]. *)
Record directive := mk_directive
  { left_adjust : bool;
    width : nat;
    precision : option nat;
    longs : nat }.

Definition percent : directive := mk_directive false 0 None 0.

Definition pad (d : directive) (t : bytes) : bytes :=
  let fill := repeat 32 (width d - List.length t) in
  if left_adjust d then t ++ fill else fill ++ t.

Definition int_text (z : Z) : bytes := (if z <? 0 then [c_minus] else []) ++ digits (Z.abs z).

(** The text of a conversion and the arguments left; an argument of another
    type, a missing one or a null string is undefined. *)
Definition convert (d : directive) (c : Z) (args : list parg) : outcome (bytes * list parg) :=
  if c =? 37 then Ok ([37], args) else
  let! t :=
    match args with
    | PInt z :: _ =>
        if negb (longs d =? 0)%nat then UB
        else if c =? 100 then Ok (int_text z) else if c =? 117 then Ok (digits (u32 z)) else UB
    | PU64 z :: _ => if (c =? 117) && (longs d =? 2)%nat then Ok (digits (u64 z)) else UB
    | PDouble x :: _ =>
        let p := match precision d with Some p => p | None => 6%nat end in
        if c =? 102 then Ok (format_f p x) else if c =? 103 then Ok (format_g (Z.of_nat p) x) else UB
    | PStr (Some s) :: _ => if c =? 115 then Ok (cstr_of s) else UB
    | _ => UB
    end in
  Ok (pad d t, tail args).

(** One more character of a directive that is not its letter. *)
Definition extend (d : directive) (c : Z) : option directive :=
  if c =? c_minus then Some (d {{ left_adjust := true }})
  else if c =? c_dot then Some (d {{ precision := Some 0%nat }})
  else if c =? 108 then Some (d {{ longs := S (longs d) }})
  else if is_digit c
  then let k := Z.to_nat (c - c_zero) in
       match precision d with
       | Some p => Some (d {{ precision := Some (10 * p + k)%nat }})
       | None => Some (d {{ width := (10 * width d + k)%nat }})
       end
  else None.

(** [dir] is the directive that is being read. *)
Fixpoint vformat (fmt : bytes) (dir : option directive) (args : list parg) : outcome bytes :=
  match fmt with
  | [] => match dir with None => Ok [] | Some _ => UB end
  | c :: fmt =>
      match dir with
      | None =>
          if c =? 37 then vformat fmt (Some percent) args
          else let! t := vformat fmt None args in Ok (c :: t)
      | Some d =>
          match extend d c with
          | Some d => vformat fmt (Some d) args
          | None =>
              let! r := convert d c args in
              let! t := vformat fmt None (snd r) in
              Ok (fst r ++ t)
          end
      end
  end.

Definition vsnprintf (size : nat) (format : bytes) (args : list parg) : outcome bytes :=
  let! t := vformat format None args in Ok (take (size - 1) t).

(** ** The formats (iperf_locale.c) *)

Definition line (s : String.string) : bytes := bytes_of s ++ [10].

Definition test_start_time : bytes := line
  "Starting Test: protocol: %s, %d streams, %d byte blocks, omitting %d seconds, %d second test, tos %d".
Definition test_start_bytes : bytes := line
  "Starting Test: protocol: %s, %d streams, %d byte blocks, omitting %d seconds, %llu bytes to send, tos %d".
Definition test_start_blocks : bytes := line
  "Starting Test: protocol: %s, %d streams, %d byte blocks, omitting %d seconds, %d blocks to send, tos %d".
Definition report_time : bytes := line "Time: %s".
Definition report_connecting : bytes := line "Connecting to host %s, port %d".
Definition report_reverse : bytes := line "Reverse mode, remote host %s is sending".
Definition report_accepted : bytes := line "Accepted connection from %s, port %d".
Definition report_cookie : bytes := line "      Cookie: %s".
Definition report_connected : bytes := line "[%3d] local %s port %d connected to %s port %d".
Definition report_diskfile : bytes := line "        Sent %s / %s (%d%%) of %s".
Definition report_bw_header : bytes := line "[ ID] Interval           Transfer     Bitrate".
Definition report_bw_header_bidir : bytes := line "[ ID][Role] Interval           Transfer     Bitrate".
Definition report_bw_retrans_header : bytes := line "[ ID] Interval           Transfer     Bitrate         Retr".
Definition report_bw_retrans_header_bidir : bytes :=
  line "[ ID][Role] Interval           Transfer     Bitrate         Retr".
Definition report_bw_retrans_cwnd_header : bytes :=
  line "[ ID] Interval           Transfer     Bitrate         Retr  Cwnd".
Definition report_bw_retrans_cwnd_header_bidir : bytes :=
  line "[ ID][Role] Interval           Transfer     Bitrate         Retr  Cwnd".
Definition report_bw_udp_header : bytes :=
  line "[ ID] Interval           Transfer     Bitrate         Jitter    Lost/Total Datagrams".
Definition report_bw_udp_header_bidir : bytes :=
  line "[ ID][Role] Interval           Transfer     Bitrate         Jitter    Lost/Total Datagrams".
Definition report_bw_udp_sender_header : bytes :=
  line "[ ID] Interval           Transfer     Bitrate         Total Datagrams".
Definition report_bw_format : bytes :=
  line "[%3d]%s %6.2f-%-6.2f sec  %ss  %ss/sec                  %s".
Definition report_bw_retrans_format : bytes :=
  line "[%3d]%s %6.2f-%-6.2f sec  %ss  %ss/sec  %3u             %s".
Definition report_bw_retrans_cwnd_format : bytes :=
  line "[%3d]%s %6.2f-%-6.2f sec  %ss  %ss/sec  %3u   %ss       %s".
Definition report_bw_udp_format : bytes :=
  line "[%3d]%s %6.2f-%-6.2f sec  %ss  %ss/sec  %5.3f ms  %d/%d (%.2g%%)  %s".
Definition report_bw_udp_sender_format : bytes :=
  line "[%3d]%s %6.2f-%-6.2f sec  %ss  %ss/sec %s %d  %s".
Definition report_summary : bytes := line "Test Complete. Summary Results:".
Definition report_sum_bw_format : bytes :=
  line "[SUM]%s %6.2f-%-6.2f sec  %ss  %ss/sec                  %s".
Definition report_sum_bw_retrans_format : bytes :=
  line "[SUM]%s %6.2f-%-6.2f sec  %ss  %ss/sec  %3d             %s".
Definition report_sum_bw_udp_format : bytes :=
  line "[SUM]%s %6.2f-%-6.2f sec  %ss  %ss/sec  %5.3f ms  %d/%d (%.2g%%)  %s".
Definition report_sum_bw_udp_sender_format : bytes :=
  line "[SUM]%s %6.2f-%-6.2f sec  %ss  %ss/sec %s %d  %s".
Definition report_omitted : bytes := bytes_of "(omitted)".
Definition report_bw_separator : bytes := line "- - - - - - - - - - - - - - - - - - - - - - - - -".
Definition report_sum_outoforder : bytes :=
  line "[SUM]%s %4.1f-%4.1f sec  %d datagrams received out-of-order".
Definition report_cpu : bytes :=
  line "CPU Utilization: %s/%s %.1f%% (%.1f%%u/%.1f%%s), %s/%s %.1f%% (%.1f%%u/%.1f%%s)".
Definition report_local : bytes := bytes_of "local".
Definition report_remote : bytes := bytes_of "remote".
Definition report_sender : bytes := bytes_of "sender".
Definition report_receiver : bytes := bytes_of "receiver".
Definition report_sender_not_available_format : bytes := line "[%3d] (sender statistics not available)".
Definition report_sender_not_available_summary_format : bytes := line "[%3s] (sender statistics not available)".
Definition report_receiver_not_available_format : bytes := line "[%3d] (receiver statistics not available)".
Definition report_receiver_not_available_summary_format : bytes := line "[%3s] (receiver statistics not available)".

(** ** Where the output goes *)

(** The fields of struct iperf_test that output reads and writes.  [out] is
    what was handed to Java or written to the output file, [err] what went to
    stderr; [outfile_stdout]: outfile is stdout. *)
Record output := mk_output
  { json_output : bool;
    verbose : bool;
    outfile_stdout : bool;
    stats_interval : double;
    diskfile_name : option bytes;
    server_hostname : option bytes;
    ctrl_sck_mss : Z;
    json_top : option cJSON;
    json_server_output : option cJSON;
    server_output_text : option bytes;
    server_output_list : list bytes;
    out : list bytes;
    err : list bytes }.

Definition emit (t : bytes) (o : output) : output := o {{ out := out o ++ [t] }}.

Abbreviation LINEBUFFER := 1024%nat.

(** iperf_printf.  On the client the [if] that guarded the title now guards
    va_start alone: without a title the arguments are read from an
    uninitialised list.  The title and the line meet in a second buffer of the
    same size.  On the server the line may also be kept for the client. *)
Definition iperf_printf (test : iperf_test) (format : bytes) (args : list parg) (o : output) : outcome output :=
  if role test =? role_client
  then
    match title test with
    | None => UB
    | Some title =>
        let! linebuffer := vsnprintf LINEBUFFER format args in
        let finalLine := cstr_of title ++ bytes_of ":  " ++ linebuffer in
        if (List.length finalLine <? LINEBUFFER)%nat then Ok (emit finalLine o) else UB
    end
  else if role test =? role_server
  then
    let! linebuffer := vsnprintf LINEBUFFER format args in
    let o := emit linebuffer o in
    Ok (if nonzero_int (get_server_output test)
        then o {{ server_output_list := server_output_list o ++ [linebuffer] }} else o)
  else Ok o.

(** iperf_err, for a message without arguments. *)
Definition iperf_err (msg : String.string) (o : output) : outcome output :=
  let str := take 999 (bytes_of msg) in
  match json_output o, json_top o with
  | true, Some top =>
      let! top := cJSON_AddStringToObject top "error" (Some str) in Ok (o {{ json_top := Some top }})
  | _, _ =>
      if negb (outfile_stdout o) then Ok o
      else Ok (o {{ err := err o ++ [bytes_of "iperf3: " ++ str ++ [10]] }})
  end.

(** ** The JSON tree

    json_start, json_connected, json_intervals and json_end point into the
    tree of json_top; a pointer is the path of child indices to its node. *)

Abbreviation json_start := [0%nat].
Abbreviation json_connected := [0%nat; 0%nat].
Abbreviation json_intervals := [1%nat].
Abbreviation json_end := [2%nat].

Fixpoint update_at (p : list nat) (f : cJSON -> outcome cJSON) (j : cJSON) : outcome cJSON :=
  match p with
  | [] => f j
  | i :: p =>
      let! c := deref (child j !! i) in
      let! c := update_at p f c in
      Ok (set_child (<[i := c]> (child j)) j)
  end.

Fixpoint node_at (p : list nat) (j : cJSON) : option cJSON :=
  match p with
  | [] => Some j
  | i :: p => match child j !! i with Some c => node_at p c | None => None end
  end.

Definition json_update (p : list nat) (f : cJSON -> outcome cJSON) (o : output) : outcome output :=
  let! top := deref (json_top o) in
  let! top := update_at p f top in
  Ok (o {{ json_top := Some top }}).

(** The number of children of a node of the tree. *)
Definition children_at (p : list nat) (o : output) : outcome nat :=
  let! top := deref (json_top o) in
  let! j := deref (node_at p top) in
  Ok (List.length (child j)).

Definition add_to_object (p : list nat) (name : String.string) (item : option cJSON) : output -> outcome output :=
  json_update p (fun j => add_item j name item).

Definition add_to_array (p : list nat) (item : option cJSON) : output -> outcome output :=
  json_update p (fun j => deref (cJSON_AddItemToArray (Some j) item)).

Section Output.
(** The contents of the uninitialised name buffer of iperf_json_printf; the
    allocations of reports succeed. *)
Variable name0 : bytes.

Definition json_printf (format : String.string) (args : list jarg) : outcome (option cJSON) :=
  iperf_json_printf (fun _ => true) name0 (bytes_of format) args.

(** The return value is 0. *)
Definition iperf_json_start (o : output) : outcome output :=
  let! top := deref (cJSON_CreateObject true) in
  let o := o {{ json_top := Some top }} in
  let! o := add_to_object [] "start" (cJSON_CreateObject true) o in
  let! o := add_to_object json_start "connected" (cJSON_CreateArray true) o in
  let! o := add_to_object [] "intervals" (cJSON_CreateArray true) o in
  add_to_object [] "end" (cJSON_CreateObject true) o.

(** [if (p) cJSON_AddStringToObject(json_top, name, p)] *)
Definition add_string_opt (name : String.string) (s : option bytes) (o : output) : outcome output :=
  match s with
  | Some _ => json_update [] (fun j => cJSON_AddStringToObject j name s) o
  | None => Ok o
  end.

(** The return value; [allocate] as for cJSON_Print. *)
Definition iperf_json_finish (allocate : nat -> nat -> bool) (test : iperf_test) (o : output) : outcome (Z * output) :=
  let! o := add_string_opt "title" (title test) o in
  let! o := add_string_opt "extra_data" (extra_data test) o in
  let! o := match json_server_output o with
            | Some j => add_to_object [] "server_output_json" (Some j) o
            | None => Ok o
            end in
  let! o := add_string_opt "server_output_text" (server_output_text o) o in
  let! top := deref (json_top o) in
  let! text := cJSON_Print allocate top in
  match text with
  | None => Ok (-1, o)
  | Some buf =>
      let! t := string_at buf in
      Ok (0, (emit t o) {{ json_top := None; json_server_output := None }})
  end.

(** ** The callbacks before the first report *)

Definition protocol_name (test : iperf_test) : bytes :=
  if protocol test =? Ptcp then bytes_of "TCP" else bytes_of "UDP".

Definition iperf_on_test_start (test : iperf_test) (o : output) : outcome output :=
  let s := settings test in
  let first := [PStr (Some (protocol_name test)); PInt (num_streams test); PInt (blksize s); PInt (omit test)] in
  if json_output o
  then
    let! j := json_printf
      "protocol: %s  num_streams: %d  blksize: %d  omit: %d  duration: %d  bytes: %d  blocks: %d  reverse: %d  tos: %d"
      [AString (Some (protocol_name test)); AInt64 (num_streams test); AInt64 (blksize s); AInt64 (omit test);
       AInt64 (duration test); AInt64 (i64 (bytes_ s)); AInt64 (i64 (blocks s));
       AInt64 (if nonzero_int (reverse_ test) then 1 else 0); AInt64 (tos s)] in
    add_to_object json_start "test_start" j o
  else if verbose o
  then
    if nonzero_int (bytes_ s)
    then iperf_printf test test_start_bytes (first ++ [PU64 (bytes_ s); PInt (tos s)]) o
    else if nonzero_int (blocks s)
    then iperf_printf test test_start_blocks (first ++ [PU64 (blocks s); PInt (tos s)]) o
    else iperf_printf test test_start_time (first ++ [PInt (duration test); PInt (tos s)]) o
  else Ok o.

(** A v4-mapped IPv6 address without its prefix. *)
Definition mapped_v4_to_regular_v4 (str : bytes) : bytes :=
  let prefix := bytes_of "::ffff:" in
  if bool_decide (take (List.length prefix) str = prefix) then drop (List.length prefix) str else str.

(** [now_str] and [now_secs] are the time; [peer] the address and port of the
    control connection, as inet_ntop and ntohs give them. *)
Definition iperf_on_connect (now_str : bytes) (now_secs : Z) (peer : bytes * Z)
    (test : iperf_test) (o : output) : outcome output :=
  let! o :=
    if json_output o
    then let! j := json_printf "time: %s  timesecs: %d" [AString (Some now_str); AInt64 now_secs] in
         add_to_object json_start "timestamp" j o
    else if verbose o then iperf_printf test report_time [PStr (Some now_str)] o else Ok o in
  let! o :=
    if role test =? role_client
    then
      if json_output o
      then let! j := json_printf "host: %s  port: %d" [AString (server_hostname o); AInt64 (server_port test)] in
           add_to_object json_start "connecting_to" j o
      else
        let! o := iperf_printf test report_connecting [PStr (server_hostname o); PInt (server_port test)] o in
        if nonzero_int (reverse_ test) then iperf_printf test report_reverse [PStr (server_hostname o)] o else Ok o
    else
      let ipr := mapped_v4_to_regular_v4 (fst peer) in
      if json_output o
      then let! j := json_printf "host: %s  port: %d" [AString (Some ipr); AInt64 (snd peer)] in
           add_to_object json_start "accepted_connection" j o
      else iperf_printf test report_accepted [PStr (Some ipr); PInt (snd peer)] o in
  let s := settings test in
  let number name z := json_update json_start (fun j => cJSON_AddNumberToObject j name (d_of_Z z)) in
  if json_output o
  then
    let! o := json_update json_start (fun j => cJSON_AddStringToObject j "cookie" (Some (cookie test))) o in
    if protocol test =? Ptcp
    then
      let! o := if nonzero_int (mss s) then number "tcp_mss"%string (mss s) o
                else number "tcp_mss_default"%string (ctrl_sck_mss o) o in
      if nonzero_int (rate s) then number "target_bitrate"%string (rate s) o else Ok o
    else Ok o
  else if verbose o
  then
    let! o := iperf_printf test report_cookie [PStr (Some (cookie test))] o in
    let! o :=
      if protocol test =? Ptcp
      then if nonzero_int (mss s) then iperf_printf test (line "      TCP MSS: %d") [PInt (mss s)] o
           else iperf_printf test (line "      TCP MSS: %d (default)") [PInt (ctrl_sck_mss o)] o
      else Ok o in
    if nonzero_int (rate s) then iperf_printf test (line "      Target Bitrate: %llu") [PU64 (rate s)] o else Ok o
  else Ok o.

(** connect_msg, which iperf_on_new_stream calls; the addresses and ports of
    the stream as inet_ntop and ntohs give them. *)
Definition connect_msg (local remote : bytes * Z) (test : iperf_test) (sp : iperf_stream) (o : output) : outcome output :=
  let ipl := mapped_v4_to_regular_v4 (fst local) in
  let ipr := mapped_v4_to_regular_v4 (fst remote) in
  if json_output o
  then
    let! j := json_printf "socket: %d  local_host: %s  local_port: %d  remote_host: %s  remote_port: %d"
      [AInt64 (socket sp); AString (Some ipl); AInt64 (snd local); AString (Some ipr); AInt64 (snd remote)] in
    add_to_array json_connected j o
  else
    iperf_printf test report_connected
      [PInt (socket sp); PStr (Some ipl); PInt (snd local); PStr (Some ipr); PInt (snd remote)] o.

End Output.
