(* ===== verification/OutputThms.v ===== *)
(** * Facts on the output of a test

    Objects of iperf_json_printf for the formats as they are written, updates
    of nodes of the JSON tree and how they compose, and formats that accept
    their arguments. *)

From coqutil Require Import Datatypes.RecordSetters.
From Stdlib Require Import SpecFloat.
From Stdlib Require Import String.
From S2P Require Import Prelude.
From S2P Require Import Cdouble.
From S2P Require Import Units.
From S2P Require Import CjsonData.
From S2P Require Import CjsonPrint.
From S2P Require Import CjsonTree.
From S2P Require Import JsonObject.
From S2P Require Import Iperf.
From S2P Require Import Udp.
From S2P Require Import Util.
From S2P Require Import Output.
From stdpp Require Import base numbers gmap list.
Import DoubleBraceUpdate.

Open Scope Z_scope.
Open Scope c_scope.

(** ** iperf_json_printf ignores blanks *)

(** The format without blanks, if no blank follows a percent sign. *)
Fixpoint squeeze (fmt : bytes) : option bytes :=
  match fmt with
  | [] => Some []
  | c :: fmt =>
      if c =? 32 then squeeze fmt
      else if c =? 37
      then match fmt with
           | [] => None
           | k :: fmt => if k =? 32 then None else option_map (fun r => 37 :: k :: r) (squeeze fmt)
           end
      else option_map (cons c) (squeeze fmt)
  end.

Lemma json_loop_squeeze ok : forall n fmt r args name np o, (List.length fmt <= n)%nat -> squeeze fmt = Some r ->
  json_loop ok fmt args name np o = json_loop ok r args name np o.
Proof.
  induction n as [|n IH]; intros fmt r args name np o Hn E.
  { destruct fmt; [by injection E as <-|cbn in Hn; lia]. }
  destruct fmt as [|c fmt]; [by injection E as <-|]. cbn [List.length] in Hn. cbn [squeeze] in E. cbn [json_loop].
  destruct (Z.eqb_spec c 32) as [->|H32]; [apply IH; [lia|done]|].
  destruct (Z.eqb_spec c 37) as [->|H37].
  - destruct fmt as [|k fmt]; [done|]. destruct (Z.eqb_spec k 32); [done|]. cbn [List.length] in Hn.
    destruct (squeeze fmt) as [r'|] eqn:Er; [|done]. injection E as <-. cbn [Z.eqb Pos.eqb json_loop].
    destruct (conversion _ _ _) as [[[[j|]|[]] args']| |]; cbn [obind]; try done.
    destruct (string_in name); cbn [obind]; try done. destruct (cJSON_AddItemToObject _ _ _ _); cbn [obind]; try done.
    destruct (deref _); cbn [obind]; try done. apply IH; [lia|done].
  - destruct (squeeze fmt) as [r'|] eqn:Er; [|done]. injection E as <-. cbn [json_loop].
    destruct (Z.eqb_spec c 32); [done|]. destruct (Z.eqb_spec c 37); [done|].
    destruct (c =? 58).
    + destruct (store_at _ _ _); cbn [obind]; try done. apply IH; [lia|done].
    + destruct (store_at _ _ _); cbn [obind]; try done. apply IH; [lia|done].
Qed.

(** The test of [field_ok] on the names. *)
Definition name_okb (n : bytes) : bool :=
  forallb (fun c => negb ((c =? 0) || (c =? 32) || (c =? 58) || (c =? 37))) n && (List.length n <=? 99)%nat.

Definition there (v : jarg) : Prop := match v with AString None => False | _ => True end.

Lemma name_okb_spec n v : name_okb n = true -> there v -> field_ok (n, v).
Proof.
  intros [H1 H2]%andb_prop Hv. apply Nat.leb_le in H2. split; [|split; [done|by destruct v as [| | |[]]]].
  apply Forall_forall. intros c Hc. rewrite forallb_forall in H1. apply list_elem_of_In in Hc.
  specialize (H1 c Hc). cbn in H1. destruct (Z.eqb_spec c 0), (Z.eqb_spec c 32), (Z.eqb_spec c 58), (Z.eqb_spec c 37);
    cbn in H1; done.
Qed.

(** The shape of a format: what a list of names and letters squeezes to. *)
Definition shape (names : list bytes) (letters : list Z) : bytes :=
  concat (zip_with (fun n k => n ++ [58; 37; k]) names letters).

Definition format_shape (fmt : bytes) (names : list bytes) (letters : list Z) : bool :=
  match squeeze fmt with
  | Some r => bool_decide (r = shape names letters) && forallb name_okb names
              && (List.length names =? List.length letters)%nat && forallb (fun c => negb (c =? 0)) fmt
  | None => false
  end.

Lemma squeeze_app l r : (forall c, c ∈ l -> c <> 32 /\ c <> 37) ->
  squeeze (l ++ r) = option_map (app l) (squeeze r).
Proof.
  induction l as [|c l IH]; intros H; cbn [app squeeze]; [by destruct (squeeze r)|].
  destruct (H c ltac:(by left)) as [H1 H2]. destruct (Z.eqb_spec c 32); [done|]. destruct (Z.eqb_spec c 37); [done|].
  rewrite IH by (intros; apply H; by right). by destruct (squeeze r).
Qed.

Lemma squeeze_fields fields : Forall field_ok fields ->
  squeeze (flat_map field_format fields) = Some (shape (map fst fields) (map letter (map snd fields))).
Proof.
  induction 1 as [|[n v] fields (Hn & _) _ IH]; [done|]. cbn [flat_map map]. unfold field_format at 1. cbn [fst snd].
  rewrite <- app_assoc, squeeze_app; cycle 1.
  { cbn [fst] in Hn. rewrite Forall_forall in Hn. intros c Hc. destruct (Hn c Hc) as (_ & ? & _ & ?). done. }
  cbn [app squeeze Z.eqb Pos.eqb]. destruct (Z.eqb_spec (letter v) 32) as [E|_]; [by destruct v|].
  rewrite IH. cbn [option_map]. unfold shape. cbn [zip_with concat]. by rewrite <- app_assoc.
Qed.

(** iperf_json_printf on a format as it is written. *)
Lemma json_printf_fields name0 (format : String.string) names args :
  List.length name0 = 100%nat -> Forall there args ->
  format_shape (bytes_of format) names (map letter args) = true ->
  json_printf name0 format args = Ok (Some (obj (map field_item (zip names args)))).
Proof.
  intros Hl Ha. unfold format_shape. destruct (squeeze (bytes_of format)) as [r|] eqn:Er; [|done].
  intros [[[Es Hn]%andb_prop Hlen]%andb_prop Hz]%andb_prop. apply bool_decide_eq_true in Es.
  apply Nat.eqb_eq in Hlen. rewrite length_map in Hlen.
  assert (Hf : Forall field_ok (zip names args)).
  { apply Forall_forall. intros [n v] Hin. apply list_elem_of_In in Hin.
    pose proof (in_combine_l _ _ _ _ Hin). pose proof (in_combine_r _ _ _ _ Hin) as Hv.
    rewrite forallb_forall in Hn. apply name_okb_spec; [by apply Hn|].
    rewrite Forall_forall in Ha. apply Ha, list_elem_of_In, Hv. }
  assert (E1 : map fst (zip names args) = names) by (apply fst_zip; lia).
  assert (E2 : map snd (zip names args) = args) by (apply snd_zip; lia).
  unfold json_printf, iperf_json_printf. cbn [cJSON_CreateObject].
  change (set_type cJSON_Object cJSON_New_Item) with (obj []).
  rewrite cstr_of_nonzero; cycle 1.
  { apply Forall_forall. intros c Hc. apply list_elem_of_In in Hc. rewrite forallb_forall in Hz.
    specialize (Hz c Hc). cbn in Hz. destruct (Z.eqb_spec c 0); done. }
  rewrite (json_loop_squeeze _ _ _ _ _ _ _ _ (le_n _) Er), Es.
  pose proof (json_loop_fields (zip names args) name0 [] Hf Hl) as H. rewrite E2 in H.
  pose proof (squeeze_fields _ Hf) as Hs. rewrite E1, E2 in Hs.
  by rewrite (json_loop_squeeze _ _ _ _ _ _ _ _ (le_n _) Hs) in H.
Qed.

(** ** Updates of the tree *)

(** Appending children to a node. *)
Definition append (items : list cJSON) (j : cJSON) : outcome cJSON := Ok (set_child (child j ++ items) j).

Lemma update_at_app p q f j : update_at (p ++ q) f j = update_at p (update_at q f) j.
Proof.
  revert j. induction p as [|i p IH]; intros j; [done|]. cbn [app update_at].
  destruct (deref _); cbn [obind]; [|done|done]. by rewrite IH.
Qed.

Lemma update_at_ext p f g j : (forall x, f x = g x) -> update_at p f j = update_at p g j.
Proof.
  intros H. revert j. induction p as [|i p IH]; intros j; [apply H|]. cbn [update_at].
  destruct (deref _); cbn [obind]; [|done|done]. by rewrite IH.
Qed.

Lemma update_at_twice p f g j :
  obind (update_at p f j) (update_at p g) = update_at p (fun x => obind (f x) g) j.
Proof.
  revert j. induction p as [|i p IH]; intros j; [done|]. cbn [update_at].
  destruct (deref (child j !! i)) as [c| |] eqn:E; cbn [obind]; [|done|done].
  rewrite <- IH. destruct (update_at p f c) as [c'| |]; cbn [obind]; [|done|done].
  destruct (child j !! i) as [c0|] eqn:Ec; [|done]. injection E as ->.
  cbn [set_child child]. rewrite list_lookup_insert_eq by (by eapply lookup_lt_Some). cbn [deref obind].
  destruct (update_at p g c'); cbn [obind]; [|done|done]. by rewrite list_insert_insert_eq.
Qed.

(** A child after known ones. *)
Lemma update_child c x r j f :
  update_at [List.length c] f (set_child (c ++ x :: r) j) = obind (f x) (fun x => Ok (set_child (c ++ x :: r) j)).
Proof.
  cbn [update_at child set_child]. rewrite lookup_app_r, Nat.sub_diag by lia. cbn [lookup list_lookup deref obind].
  destruct (f x); cbn [obind]; [|done|done]. by rewrite insert_app_r_alt, Nat.sub_diag by lia.
Qed.

Lemma obind_ok {A} (m : outcome A) : obind m Ok = m.
Proof. by destruct m. Qed.

Lemma json_update_ok p f o t t' :
  json_top o = Some t -> update_at p f t = Ok t' -> json_update p f o = Ok (o {{ json_top := Some t' }}).
Proof. intros H1 H2. unfold json_update. by rewrite H1; cbn [deref obind]; rewrite H2. Qed.

Lemma json_update_twice p f g o :
  obind (json_update p f o) (json_update p g) = json_update p (fun x => obind (f x) g) o.
Proof.
  unfold json_update. destruct (json_top o) as [t|]; cbn [deref obind]; [|done].
  rewrite <- update_at_twice. destruct (update_at p f t) as [t'| |]; cbn [obind json_top]; [|done|done].
  cbn. unfold constant. destruct (update_at p g t'); done.
Qed.

Lemma json_update_ext p f g o : (forall x, f x = g x) -> json_update p f o = json_update p g o.
Proof.
  intros H. unfold json_update. destruct (json_top o); cbn [deref obind]; [|done].
  by rewrite (update_at_ext _ _ _ _ H).
Qed.

Lemma json_update_app p q f o : json_update (p ++ q) f o = json_update p (update_at q f) o.
Proof. unfold json_update. destruct (json_top o); cbn [deref obind]; [|done]. by rewrite update_at_app. Qed.

(** Splitting an update in two. *)
Lemma json_update_seq p f g o o' : json_update p (fun x => obind (f x) g) o = Ok o' ->
  exists o1, json_update p f o = Ok o1 /\ json_update p g o1 = Ok o'.
Proof.
  rewrite <- json_update_twice. intros E. destruct (json_update p f o) as [o1| |]; cbn [obind] in E; [eauto|done|done].
Qed.

Lemma append_append l1 l2 j : obind (append l1 j) (append l2) = append (l1 ++ l2) j.
Proof. unfold append. cbn. by rewrite <- app_assoc. Qed.

Lemma append_nil j : append [] j = Ok j.
Proof. unfold append. rewrite app_nil_r. by destruct j. Qed.

(** An update changes the tree alone. *)
Lemma json_update_same p f o o' : json_update p f o = Ok o' ->
  json_output o' = json_output o /\ verbose o' = verbose o /\ stats_interval o' = stats_interval o /\
  out o' = out o.
Proof.
  unfold json_update. destruct (deref _); cbn [obind]; [|done|done]. destruct (update_at _ _ _); cbn [obind]; [|done|done].
  by intros [= <-].
Qed.

Lemma update_at_id p f j j' : (forall x, f x = Ok x) -> update_at p f j = Ok j' -> j' = j.
Proof.
  intros Hf. revert j j'. induction p as [|i p IH]; intros j j' E; [by cbn in E; rewrite Hf in E; injection E|].
  cbn [update_at] in E. destruct (child j !! i) as [c|] eqn:Ec; [|done]. cbn [deref obind] in E.
  destruct (update_at p f c) as [c'| |] eqn:Eu; [|done|done]. cbn [obind] in E. injection E as <-.
  rewrite (IH _ _ Eu), list_insert_id by done. by destruct j.
Qed.

Lemma json_update_id p f o o' : (forall x, f x = Ok x) -> json_update p f o = Ok o' -> o' = o.
Proof.
  intros Hf. unfold json_update. destruct (json_top o) as [t|] eqn:Et; cbn [deref obind]; [|done].
  destruct (update_at p f t) as [t'| |] eqn:Eu; cbn [obind]; [|done|done]. intros [= <-].
  rewrite (update_at_id _ _ _ _ Hf Eu). destruct o. cbn in *. by rewrite Et.
Qed.

(** Appending a list is appending its head and then its tail. *)
Lemma json_append_cons p i items o o' :
  json_update p (append (i :: items)) o = Ok o' ->
  exists o1, json_update p (append [i]) o = Ok o1 /\ json_update p (append items) o1 = Ok o'.
Proof.
  intros E. apply json_update_seq. rewrite <- E. apply json_update_ext. intros x. by rewrite append_append.
Qed.

(** An update sees the node alone. *)
Lemma update_at_node p f g j a : node_at p j = Some a -> f a = g a -> update_at p f j = update_at p g j.
Proof.
  intros Hn Hf. revert j Hn. induction p as [|i p IH]; intros j Hn; cbn [node_at update_at] in *.
  - by injection Hn as ->.
  - destruct (child j !! i) as [c|]; [|done]. cbn [deref obind]. by rewrite (IH c Hn).
Qed.

Lemma update_at_ok p f j a a' : node_at p j = Some a -> f a = Ok a' ->
  exists j', update_at p f j = Ok j' /\ node_at p j' = Some a'.
Proof.
  intros Hn Hf. revert j Hn. induction p as [|i p IH]; intros j Hn; cbn [node_at update_at] in *.
  - injection Hn as ->. eauto.
  - destruct (child j !! i) as [c|] eqn:Ec; [|done]. cbn [deref obind]. destruct (IH c Hn) as (c' & -> & Hc').
    cbn [obind]. eexists. split; [done|]. cbn [child set_child].
    by rewrite list_lookup_insert_eq by (by eapply lookup_lt_Some).
Qed.

Lemma update_at_inv p f j j' : update_at p f j = Ok j' ->
  exists a a', node_at p j = Some a /\ f a = Ok a' /\ node_at p j' = Some a'.
Proof.
  revert j j'. induction p as [|i p IH]; intros j j' E; cbn [node_at update_at] in *; [eauto|].
  destruct (child j !! i) as [c|] eqn:Ec; [|done]. cbn [deref obind] in E.
  destruct (update_at p f c) as [c'| |] eqn:Eu; cbn [obind] in E; [|done|done]. injection E as <-.
  cbn [child set_child]. rewrite list_lookup_insert_eq by (by eapply lookup_lt_Some). by apply IH.
Qed.

(** A child that is appended and then filled in is appended filled in. *)
Lemma json_grow p x f x' o o' : f x = Ok x' -> json_update p (append [x']) o = Ok o' ->
  exists n o1, children_at p o = Ok n /\ json_update p (append [x]) o = Ok o1 /\ json_update (p ++ [n]) f o1 = Ok o'.
Proof.
  intros Hf E. unfold json_update in E. destruct (json_top o) as [t|] eqn:Et; cbn [deref obind] in E; [|done].
  destruct (update_at p (append [x']) t) as [t'| |] eqn:Eu; cbn [obind] in E; [|done|done]. injection E as <-.
  destruct (update_at_inv _ _ _ _ Eu) as (a & a' & Ha & Ea & _). exists (List.length (child a)).
  assert (EF : obind (append [x] a) (update_at [List.length (child a)] f) = append [x'] a).
  { unfold append. cbn [obind]. rewrite update_child, Hf. done. }
  assert (Eo : json_update p (fun a' => obind (append [x] a') (update_at [List.length (child a)] f)) o
               = Ok (o {{ json_top := Some t' }})).
  { eapply json_update_ok; [done|]. by rewrite (update_at_node _ _ _ _ _ Ha EF). }
  apply json_update_seq in Eo as (o1 & E1 & Eo). exists o1. rewrite json_update_app.
  split; [|done]. unfold children_at. rewrite Et. cbn [deref obind]. rewrite Ha. done.
Qed.

(** A member of an object: the item under its name. *)
Definition named (name : String.string) (j : cJSON) : cJSON := set_string (Some (cstr_of (bytes_of name))) j.

Lemma add_to_object_append p name l o :
  add_to_object p name (Some (obj l)) o = json_update p (append [named name (obj l)]) o.
Proof. by apply json_update_ext. Qed.

Lemma add_to_array_append p i o : add_to_array p (Some i) o = json_update p (append [i]) o.
Proof. by apply json_update_ext. Qed.

(** ** Lines *)

(** The types of the arguments a format takes. *)
Inductive ptype : Type := TInt | TU64 | TDouble | TStr.

Definition type_of (a : parg) : option ptype :=
  match a with
  | PInt _ => Some TInt | PU64 _ => Some TU64 | PDouble _ => Some TDouble
  | PStr (Some _) => Some TStr | PStr None => None
  end.

Definition letter_type (d : directive) (c : Z) : option ptype :=
  if (c =? 100) || (c =? 117) && (longs d =? 0)%nat then if (longs d =? 0)%nat then Some TInt else None
  else if (c =? 117) && (longs d =? 2)%nat then Some TU64
  else if (c =? 102) || (c =? 103) then Some TDouble
  else if c =? 115 then Some TStr else None.

Fixpoint format_types (fmt : bytes) (dir : option directive) : option (list ptype) :=
  match fmt with
  | [] => match dir with None => Some [] | Some _ => None end
  | c :: fmt =>
      match dir with
      | None => format_types fmt (if c =? 37 then Some percent else None)
      | Some d =>
          match extend d c with
          | Some d => format_types fmt (Some d)
          | None =>
              if c =? 37 then format_types fmt None
              else match letter_type d c, format_types fmt None with
                   | Some t, Some l => Some (t :: l)
                   | _, _ => None
                   end
          end
      end
  end.

Lemma convert_ok d c a args : letter_type d c = type_of a -> type_of a <> None -> c <> 37 ->
  exists t, convert d c (a :: args) = Ok (t, args).
Proof.
  intros E Ha Hc. unfold convert. destruct (Z.eqb_spec c 37); [done|]. unfold letter_type in E.
  destruct a as [z|z|x|[s|]]; cbn [type_of] in E, Ha; [..|done].
  - destruct (longs d =? 0)%nat eqn:El; cbn [negb andb] in *.
    + rewrite andb_true_r in E. destruct (c =? 100); cbn [orb obind] in *; [eauto|].
      destruct (c =? 117); cbn [orb obind] in *; [eauto|]. cbn [andb] in E. destruct (_ || _); [done|]. by destruct (c =? 115).
    + rewrite andb_false_r, orb_false_r in E. destruct (c =? 100); [done|]. destruct (_ && _); [done|].
      destruct (_ || _); [done|]. by destruct (c =? 115).
  - destruct (c =? 100), (c =? 117), (longs d =? 0)%nat, (longs d =? 2)%nat; cbn [orb andb obind] in *;
      try discriminate E; eauto; destruct (_ || _); try done; by destruct (c =? 115).
  - destruct (c =? 102) eqn:E1; cbn [obind]; [eauto|]. destruct (c =? 103) eqn:E2; cbn [obind]; [eauto|].
    destruct (_ || _) in E; [by destruct (longs d =? 0)%nat|]. destruct (_ && _) in E; [done|]. cbn in E.
    by destruct (c =? 115).
  - destruct (c =? 115) eqn:E1; cbn [obind]; [eauto|].
    destruct (_ || _ && _) in E; [by destruct (longs d =? 0)%nat|]. destruct (_ && _) in E; [done|].
    by destruct (_ || _) in E.
Qed.

(** A format takes arguments of its types. *)
Lemma vformat_ok fmt : forall dir args l, format_types fmt dir = Some l ->
  map type_of args = map Some l -> exists t, vformat fmt dir args = Ok t.
Proof.
  induction fmt as [|c fmt IH]; intros dir args l E Ha; cbn [format_types vformat] in *.
  - destruct dir; [done|eauto].
  - destruct dir as [d|].
    + destruct (extend d c) as [d'|]; [by eapply IH|]. destruct (Z.eqb_spec c 37) as [->|Hc].
      * unfold convert. cbn [Z.eqb Pos.eqb obind snd fst]. destruct (IH None args l E Ha) as [t ->]. cbn [obind]. eauto.
      * destruct (letter_type d c) as [ty|] eqn:El; [|done]. destruct (format_types fmt None) as [l'|] eqn:Ef; [|done].
        injection E as <-. destruct args as [|a args]; [done|]. cbn [map] in Ha. injection Ha as H1 H2.
        destruct (convert_ok d c a args) as [t ->]; [congruence|congruence|done|]. cbn [obind snd fst].
        destruct (IH None args l' Ef H2) as [t' ->]. cbn [obind]. eauto.
    + destruct (c =? 37); [by eapply IH|]. destruct (IH None args l E Ha) as [t ->]. cbn [obind]. eauto.
Qed.

(** A line of a server is written whatever its arguments are. *)
Lemma iperf_printf_server test fmt args l o :
  role test = role_server -> format_types fmt None = Some l -> map type_of args = map Some l ->
  exists t sl, iperf_printf test fmt args o = Ok (o {{ out := out o ++ [t]; server_output_list := sl }}).
Proof.
  intros Hr Hf Ha. unfold iperf_printf, vsnprintf. rewrite Hr. cbn [Z.eqb Pos.eqb].
  destruct (vformat_ok fmt None args l Hf Ha) as [t ->]. cbn [obind].
  destruct (nonzero_int _); eexists _, _; reflexivity.
Qed.


(** A line longer than the buffers, on a client with a title. *)
Definition titled : iperf_test := (iperf_defaults true) {{ role := role_client; title := Some (bytes_of "phone") }}.


(** iperf_on_test_start prints a number of blocks, 64 bits wide, with %d. *)
Theorem test_start_blocks_type test o :
  role test = role_server -> json_output o = false -> verbose o = true -> bytes_ (settings test) = 0 ->
  blocks (settings test) <> 0 -> iperf_on_test_start (repeat 7 100) test o = UB.
Proof.
  intros Hr Hj Hv Hb Hk. unfold iperf_on_test_start. rewrite Hj, Hv, Hb. unfold nonzero_int at 1. cbn [Z.eqb negb].
  unfold nonzero_int. destruct (Z.eqb_spec (blocks (settings test)) 0); [done|]. cbn [negb].
  unfold iperf_printf. rewrite Hr. cbn [Z.eqb Pos.eqb]. unfold vsnprintf. 
  match goal with |- obind (obind ?m _) _ = _ => assert (E : m = UB) end; [|by rewrite E].
  reflexivity.
Qed.
