(* ===== verification/Setup.v ===== *)
(** * Setting sockets and streams up

    The connect, accept and listen functions of TCP (iperf_tcp.c) and UDP
    (iperf_udp.c), iperf_connect (iperf_client_api.c), iperf_server_listen and
    cleanup_server (iperf_server_api.c), and the creation and release of streams
    (iperf_api.c), over the system calls of Net.v.  A function either returns or
    fails with the i_errno it set; the state is that of the system, with its
    ledger, and of the test.  Output, pacing (not in this build) and flow
    labels are left out; so are the debug messages. *)

From coqutil Require Import Datatypes.RecordSetters.
From Stdlib Require Import SpecFloat.
From S2P Require Import Prelude.
From S2P Require Import Cdouble.
From S2P Require Import Net.
From S2P Require Import Iperf.
From S2P Require Import Util.
From stdpp Require Import base numbers gmap list.
Import DoubleBraceUpdate.

Open Scope Z_scope.
Open Scope c_scope.

Abbreviation IPPROTO_IP := 0.
Abbreviation IPPROTO_TCP := 6.
Abbreviation IP_TOS := 1.
Abbreviation IPV6_TCLASS := 67.
Abbreviation TCP_NODELAY := 1.
Abbreviation TCP_MAXSEG := 2.
Abbreviation SO_SNDBUF := 7.
Abbreviation SO_RCVBUF := 8.
Abbreviation SO_RCVTIMEO := 20.
Abbreviation UDP_BUFFER_EXTRA := 1024.
Abbreviation MAX_UDP_BLOCKSIZE := 65507.
Abbreviation SERVER_CONNECTION_TIMEOUT := 10000.

Abbreviation IEFILE := 14.
Abbreviation IELISTEN := 102.
Abbreviation IECONNECT := 103.
Abbreviation IESENDCOOKIE := 105.
Abbreviation IERECVCOOKIE := 106.
Abbreviation IESENDMESSAGE := 111.
Abbreviation IESETNODELAY := 122.
Abbreviation IESETMSS := 123.
Abbreviation IESETBUF := 124.
Abbreviation IESETTOS := 125.
Abbreviation IESETCOS := 126.
Abbreviation IEREUSEADDR := 128.
Abbreviation IEPROTOCOL := 131.
Abbreviation IEV6ONLY := 136.
Abbreviation IESETBUF2 := 141.
Abbreviation IECREATESTREAM := 200.
Abbreviation IEINITSTREAM := 201.
Abbreviation IESTREAMLISTEN := 202.
Abbreviation IESTREAMCONNECT := 203.
Abbreviation IESTREAMACCEPT := 204.
Abbreviation IESTREAMWRITE := 205.
Abbreviation IESTREAMREAD := 206.

(** The fields of the test that only these functions use. *)
Record host := mk_host
  { listener : Z;
    server_hostname : bytes;
    bind_address : option bytes;
    bind_port : Z;
    diskfile_name : option bytes;
    ctrl_sck_mss : Z }.

Record world := mk_world
  { w_sys : sys;
    w_test : iperf_test;
    w_host : host }.

(** ** Code that returns a value or fails with an i_errno *)

Definition M (A : Type) : Type := world -> (A + Z) * world.

#[export] Instance M_ret : MRet M := fun A a w => (inl a, w).
#[export] Instance M_bind : MBind M := fun A B f m w =>
  match m w with
  | (inl a, w) => f a w
  | (inr e, w) => (inr e, w)
  end.

Definition fail {A} (e : Z) : M A := fun w => (inr e, w).
Definition get_test : M iperf_test := fun w => (inl (w_test w), w).
Definition get_host : M host := fun w => (inl (w_host w), w).
Definition on_test (f : iperf_test -> iperf_test) : M unit := fun w => (inl (), mk_world (w_sys w) (f (w_test w)) (w_host w)).
Definition on_host (f : host -> host) : M unit := fun w => (inl (), mk_world (w_sys w) (w_test w) (f (w_host w))).

(** Code of Net.v. *)
Definition lift {A} (f : sys -> A * sys) : M A :=
  fun w => let '(a, s) := f (w_sys w) in (inl a, mk_world s (w_test w) (w_host w)).

Section Setup.
Variable os : list syscall -> answer.

(** The return value and the value stored. *)
Definition do_out (c : syscall) : M (Z * Z) :=
  lift (fun s => let '(r, o, s) := call os c s in ((r, o), s)).
Definition do (c : syscall) : M Z := r ← do_out c; mret r.1.

(** A read, with its bytes. *)
Definition do_read (fd : Z) (count : nat) : M (Z * bytes) :=
  fun w =>
    let d := data (os (history (w_sys w) ++ [SYS_read fd count])) in
    (r ← do (SYS_read fd count); mret (r, d)) w.

Definition getaddrinfo (node : option bytes) (service : option Z) (family : Z) (passive : bool) : M (Z * Z) :=
  r ← do_out (SYS_getaddrinfo node service family SOCK_STREAM passive);
  lift (fun s => (r, set_gerror r.1 s)).

(** The way out of most errors: close, free the address lists, keep errno. *)
Definition bail_out {A} (fd : Z) (infos : nat) (e : Z) : M A :=
  lift (fun s => fail_close os fd infos s);; fail e.

Definition checked (r fd : Z) (infos : nat) (e : Z) : M unit :=
  if r <? 0 then bail_out fd infos e else mret ().

Definition set_option (fd level name value : Z) (infos : nat) (e : Z) : M unit :=
  r ← do (SYS_setsockopt fd level name value); checked r fd infos e.

(** ** TCP *)

(** The options of the test on a new socket. *)
Definition set_tcp_options (fd : Z) (infos : nat) : M unit :=
  t ← get_test;
  (if nonzero_int (no_delay t) then set_option fd IPPROTO_TCP TCP_NODELAY 1 infos IESETNODELAY else mret ());;
  (if nonzero_int (mss (settings t))
   then set_option fd IPPROTO_TCP TCP_MAXSEG (mss (settings t)) infos IESETMSS else mret ());;
  (if nonzero_int (socket_bufsize (settings t))
   then set_option fd SOL_SOCKET SO_RCVBUF (socket_bufsize (settings t)) infos IESETBUF;;
        set_option fd SOL_SOCKET SO_SNDBUF (socket_bufsize (settings t)) infos IESETBUF
   else mret ()).

(** Read a buffer size back and verify it. *)
Definition verify_buffer (fd name : Z) (infos : nat) : M unit :=
  t ← get_test;
  r ← do_out (SYS_getsockopt fd SOL_SOCKET name);
  checked r.1 fd infos IESETBUF;;
  if nonzero_int (socket_bufsize (settings t)) && (r.2 <? socket_bufsize (settings t))
  then fail IESETBUF2 else mret ().

Definition free_info : M unit := do SYS_freeaddrinfo;; mret ().

(** Binding the local end, with --bind or --cport. *)
Definition bind_local (fd ai_family : Z) : M unit :=
  h ← get_host;
  match bind_address h with
  | Some _ =>
      r ← do (SYS_bind fd (Some (bind_port h)));
      checked r fd 2 IESTREAMCONNECT;; free_info
  | None =>
      if nonzero_int (bind_port h)
      then if (ai_family =? AF_INET) || (ai_family =? AF_INET6)
           then r ← do (SYS_bind fd (Some (bind_port h))); checked r fd 1 IESTREAMCONNECT
           else bail_out fd 1 IEPROTOCOL
      else mret ()
  end.

Definition iperf_tcp_connect : M Z :=
  t ← get_test;
  h ← get_host;
  let free_local := match bind_address h with Some _ => free_info | None => mret () end in
  match bind_address h with
  | Some a =>
      r ← getaddrinfo (Some a) None (domain (settings t)) false;
      if negb (r.1 =? 0) then fail IESTREAMCONNECT else mret ()
  | None => mret ()
  end;;
  r ← getaddrinfo (Some (server_hostname h)) (Some (server_port t)) (domain (settings t)) false;
  if negb (r.1 =? 0) then free_local;; fail IESTREAMCONNECT
  else
    fd ← do (SYS_socket r.2 SOCK_STREAM);
    if fd <? 0 then free_local;; free_info;; fail IESTREAMCONNECT
    else
      bind_local fd r.2;;
      set_tcp_options fd 1;;
      verify_buffer fd SO_SNDBUF 1;;
      verify_buffer fd SO_RCVBUF 1;;
      c ← do (SYS_connect fd (server_port t));
      e ← lift (fun s => (errno s, s));
      if (c <? 0) && negb (e =? EINPROGRESS) then bail_out fd 1 IESTREAMCONNECT
      else
        free_info;;
        n ← do (SYS_write fd (cookie t));
        checked n fd 0 IESENDCOOKIE;;
        mret fd.

(** The listening socket is made anew when an option is set. *)
Definition new_tcp_listener : M Z :=
  t ← get_test;
  h ← get_host;
  let dom := domain (settings t) in
  on_test (fun t => t {{ read_set := read_set t ∖ {[ listener h ]} }});;
  do (SYS_close (listener h));;
  r ← getaddrinfo (bind_address h) (Some (server_port t))
        (if (dom =? AF_UNSPEC) && match bind_address h with None => true | Some _ => false end then AF_INET6 else dom)
        true;
  if negb (r.1 =? 0) then fail IESTREAMLISTEN
  else
    fd ← do (SYS_socket r.2 SOCK_STREAM);
    if fd <? 0 then free_info;; fail IESTREAMLISTEN
    else
      set_tcp_options fd 1;;
      set_option fd SOL_SOCKET SO_REUSEADDR 1 1 IEREUSEADDR;;
      (if (r.2 =? AF_INET6) && ((dom =? AF_UNSPEC) || (dom =? AF_INET))
       then set_option fd IPPROTO_IPV6 IPV6_V6ONLY (if dom =? AF_UNSPEC then 0 else 1) 1 IEV6ONLY else mret ());;
      b ← do (SYS_bind fd (Some (server_port t)));
      checked b fd 1 IESTREAMLISTEN;;
      free_info;;
      l ← do (SYS_listen fd);
      if l <? 0 then fail IESTREAMLISTEN
      else on_host (fun h => h {{ listener := fd }});; mret fd.

Definition wants_listener (t : iperf_test) : bool :=
  nonzero_int (no_delay t) || nonzero_int (mss (settings t)) || nonzero_int (socket_bufsize (settings t)).

Definition iperf_tcp_listen : M Z :=
  t ← get_test;
  h ← get_host;
  fd ← if wants_listener t then new_tcp_listener else mret (listener h);
  verify_buffer fd SO_SNDBUF 0;;
  verify_buffer fd SO_RCVBUF 0;;
  mret fd.

(** strcmp of the cookie of the test with a buffer of which only the bytes
    [got] are initialised: whether they differ, [None] if the comparison reads
    beyond them. *)
Fixpoint strcmp_differs (a got : bytes) : option bool :=
  match a, got with
  | _, [] => None
  | [], y :: _ => Some (negb (y =? 0))
  | x :: a, y :: got =>
      if negb (x =? y) then Some true else if x =? 0 then Some false else strcmp_differs a got
  end.

(** Another cookie: ACCESS_DENIED is sent and the socket closed. *)
Definition refuse (s : Z) : M Z :=
  n ← do (SYS_write s [255]);
  if n <? 0 then fail IESENDMESSAGE else do (SYS_close s);; mret s.

(** iperf_tcp_accept: [UB] when the comparison reads uninitialised memory.  A
    socket that brings another cookie is closed and
    still returned. *)
Definition iperf_tcp_accept : world -> outcome ((Z + Z) * world) := fun w =>
  match do (SYS_accept (listener (w_host w))) w with
  | (inl s, w) =>
      if s <? 0 then Ok (inr IESTREAMCONNECT, w)
      else
        match do_read s COOKIE_SIZE w with
        | (inl (r, got), w) =>
            if r <? 0 then Ok (inr IERECVCOOKIE, w)
            else
              match strcmp_differs (cookie (w_test w)) got with
              | None => UB
              | Some false => Ok (inl s, w)
              | Some true => Ok (refuse s w)
              end
        | (inr e, w) => Ok (inr e, w)
        end
  | (inr e, w) => Ok (inr e, w)
  end.

(** ** UDP *)

(** One direction of the check: the size is read back, must not be below what
    was asked for, and a block must fit. *)
Definition check_buffer (fd name : Z) : M bool :=
  t ← get_test;
  r ← do_out (SYS_getsockopt fd SOL_SOCKET name);
  if r.1 <? 0 then fail IESETBUF
  else if nonzero_int (socket_bufsize (settings t)) && (r.2 <? socket_bufsize (settings t)) then fail IESETBUF2
  else mret (r.2 <? blksize (settings t)).

Definition check_buffers (fd : Z) : M Z :=
  snd_small ← check_buffer fd SO_SNDBUF;
  rcv_small ← check_buffer fd SO_RCVBUF;
  mret (if snd_small || rcv_small then 1 else 0).

(** Set and verify the buffer sizes: 1 if a block does not fit. *)
Definition iperf_udp_buffercheck (fd : Z) : M Z :=
  t ← get_test;
  let size := socket_bufsize (settings t) in
  (if nonzero_int size
   then r ← do (SYS_setsockopt fd SOL_SOCKET SO_RCVBUF size);
        if r <? 0 then fail IESETBUF
        else
          r ← do (SYS_setsockopt fd SOL_SOCKET SO_SNDBUF size);
          if r <? 0 then fail IESETBUF else mret ()
   else mret ());;
  check_buffers fd.

(** The check, with a second try when the default size was too small. *)
Definition udp_buffers (fd : Z) : M unit :=
  rc ← iperf_udp_buffercheck fd;
  t ← get_test;
  if (0 <? rc) && (socket_bufsize (settings t) =? 0)
  then on_test (fun t => t {{ settings -> socket_bufsize := i32 (blksize (settings t) + UDP_BUFFER_EXTRA) }});;
       iperf_udp_buffercheck fd;; mret ()
  else mret ().

Definition le32 (z : Z) : bytes := [z mod 256; z / 2 ^ 8 mod 256; z / 2 ^ 16 mod 256; z / 2 ^ 24 mod 256].

Definition announce (domain : Z) (proto : Z) : M Z :=
  t ← get_test;
  h ← get_host;
  lift (netannounce os domain proto (bind_address h) (server_port t)).

Definition iperf_udp_accept : M Z :=
  t ← get_test;
  let s := prot_listener t in
  sz ← do_out (SYS_read s 4);    (* with the address of the client *)
  if sz.1 <? 0 then fail IESTREAMACCEPT
  else
    c ← do (SYS_connect s sz.2);
    if c <? 0 then fail IESTREAMACCEPT
    else
      udp_buffers s;;
      l ← announce (domain (settings t)) Pudp;
      on_test (fun t => t {{ prot_listener := l }});;
      if l <? 0 then fail IESTREAMLISTEN
      else
        on_test (fun t => t {{ read_set := {[ l ]} ∪ read_set t }});;
        n ← do (SYS_write s (le32 987654321));
        if n <? 0 then fail IESTREAMWRITE else mret s.

Definition iperf_udp_listen : M Z :=
  t ← get_test;
  s ← announce (domain (settings t)) Pudp;
  if s <? 0 then fail IESTREAMLISTEN else mret s.

Definition iperf_udp_connect : M Z :=
  t ← get_test;
  h ← get_host;
  s ← lift (netdial os (domain (settings t)) Pudp (bind_address h) (bind_port h) (server_hostname h) (server_port t) (-1));
  if s <? 0 then fail IESTREAMCONNECT
  else
    udp_buffers s;;
    do (SYS_setsockopt s SOL_SOCKET SO_RCVTIMEO 30);;
    n ← do (SYS_write s (le32 123456789));
    if n <? 0 then fail IESTREAMWRITE
    else
      r ← do_read s 4;
      if r.1 <? 0 then fail IESTREAMREAD else mret s.

(** ** The control connection *)

(** iperf_connect; [entropy] fills the cookie. *)
Definition connect_control (entropy : bytes) : M unit :=
  on_test (fun t => t {{ read_set := ∅; write_set := ∅; cookie := make_cookie entropy }});;
  t ← get_test;
  h ← get_host;
  (if ctrl_sck t <? 0
   then s ← lift (netdial os (domain (settings t)) Ptcp (bind_address h) 0 (server_hostname h) (server_port t)
                    SERVER_CONNECTION_TIMEOUT);
        on_test (fun t => t {{ ctrl_sck := s }})
   else mret ());;
  t ← get_test;
  if ctrl_sck t <? 0 then fail IECONNECT
  else
    n ← do (SYS_write (ctrl_sck t) (cookie t));
    if n <? 0 then fail IESENDCOOKIE
    else on_test (fun t => t {{ read_set := {[ ctrl_sck t ]} ∪ read_set t }}).

(** The rest of iperf_connect: the MSS of the control connection is the default
    of the block size of UDP. *)
Definition control_mss : M unit :=
  t ← get_test;
  r ← do_out (SYS_getsockopt (ctrl_sck t) IPPROTO_TCP TCP_MAXSEG);
  on_host (fun h => h {{ ctrl_sck_mss :=
    if r.1 <? 0 then 0 else if (0 <? r.2) && (r.2 <=? MAX_UDP_BLOCKSIZE) then r.2 else 0 }}).

Definition udp_block_size : M unit :=
  t ← get_test;
  h ← get_host;
  if (protocol t =? Pudp) && (blksize (settings t) =? 0)
  then on_test (fun t => t {{ settings -> blksize :=
         if nonzero_int (ctrl_sck_mss h) then ctrl_sck_mss h else DEFAULT_UDP_BLKSIZE }})
  else mret ().

Definition iperf_connect (entropy : bytes) : M Z :=
  connect_control entropy;; control_mss;; udp_block_size;; mret 0.

(** iperf_server_listen: the jump back to [retry] is the recursion. *)
Fixpoint server_listen_loop (fuel : nat) : world -> outcome ((Z + Z) * world) := fun w =>
  match fuel with
  | O => Fuel
  | S fuel =>
      let dom := domain (settings (w_test w)) in
      match announce dom Ptcp w with
      | (inr e, w) => Ok (inr e, w)
      | (inl l, w) =>
          let w := w {{ w_host -> listener := l }} in
          if l <? 0
          then if (errno (w_sys w) =? EAFNOSUPPORT) && ((dom =? AF_INET6) || (dom =? AF_UNSPEC))
               then server_listen_loop fuel (w {{ w_test := (w_test w) {{ settings -> domain := AF_INET }} }})
               else Ok (inr IELISTEN, w)
          else Ok (inl 0, w {{ w_test := (w_test w) {{ read_set := {[ l ]}; write_set := ∅ }} }})
      end
  end.

Definition iperf_server_listen : world -> outcome ((Z + Z) * world) := server_listen_loop 2.

(** The sockets cleanup_server closes. *)
Definition cleanup_server : M unit :=
  t ← get_test;
  h ← get_host;
  (if nonzero_int (ctrl_sck t) then do (SYS_close (ctrl_sck t));; mret () else mret ());;
  if nonzero_int (listener h) then do (SYS_close (listener h));; mret () else mret ().

(** ** Streams *)

(** A stream with what only its creation and its release use. *)
Record new_stream := mk_new_stream
  { ns_stream : iperf_stream;
    buffer_fd : Z;
    diskfile_fd : Z;
    buffer : bytes }.

Definition free_stream_blocks : M unit := do SYS_free;; do SYS_free;; mret ().

Definition iperf_init_stream (sp : iperf_stream) : M unit :=
  t ← get_test;
  r ← do (SYS_getsockname (socket sp));
  if r <? 0 then fail IEINITSTREAM
  else
    r ← do (SYS_getpeername (socket sp));
    if r <? 0 then fail IEINITSTREAM
    else if nonzero_int (tos (settings t))
    then
      d ← lift (getsockdomain os (socket sp));
      if d =? AF_INET6
      then r ← do (SYS_setsockopt (socket sp) IPPROTO_IPV6 IPV6_TCLASS (tos (settings t)));
           if r <? 0 then fail IESETCOS else mret ()
      else r ← do (SYS_setsockopt (socket sp) IPPROTO_IP IP_TOS (tos (settings t)));
           if r <? 0 then fail IESETTOS else mret ()
    else mret ().

(** Run [m], and when it fails [clean] before failing with the same error. *)
Definition on_error {A} (m : M A) (clean : M unit) : M A := fun w =>
  match m w with
  | (inl a, w) => (inl a, w)
  | (inr e, w) => (clean;; fail e) w
  end.

(** iperf_new_stream; [entropy] fills the buffer (readentropy does not return
    without it). *)
Definition iperf_new_stream (entropy : bytes) (s : Z) (is_sender : bool) : M new_stream :=
  t ← get_test;
  h ← get_host;
  let len := blksize (settings t) in
  p ← do SYS_malloc;
  if p =? 0 then fail IECREATESTREAM
  else
    p ← do SYS_malloc;
    if p =? 0 then do SYS_free;; fail IECREATESTREAM
    else
      bfd ← do SYS_mkstemp;
      if bfd =? -1 then free_stream_blocks;; fail IECREATESTREAM
      else
        r ← do SYS_unlink;
        if r <? 0 then free_stream_blocks;; fail IECREATESTREAM
        else
          r ← do (SYS_ftruncate bfd len);
          if r <? 0 then free_stream_blocks;; fail IECREATESTREAM
          else
            r ← do (SYS_mmap bfd len);
            if r =? -1 then free_stream_blocks;; fail IECREATESTREAM
            else
              dfd ← match diskfile_name h with
                    | Some f =>
                        d ← do (SYS_open f (negb is_sender));
                        if d =? -1 then do (SYS_munmap len);; free_stream_blocks;; fail IEFILE else mret d
                    | None => mret (-1)
                    end;
              let buf := if nonzero_int (repeating_payload t)
                         then fill_with_repeating_pattern (Z.to_nat len) else take (Z.to_nat len) entropy in
              on_error (iperf_init_stream (blank_stream s is_sender))
                (do (SYS_close bfd);; do (SYS_munmap len);; free_stream_blocks);;
              on_test (fun t => iperf_add_stream t (blank_stream s is_sender));;
              mret (mk_new_stream (blank_stream s is_sender) bfd dfd buf).

(** iperf_free_stream, without the send timer and the list of intervals. *)
Definition iperf_free_stream (n : new_stream) : M unit :=
  t ← get_test;
  do (SYS_munmap (blksize (settings t)));;
  do (SYS_close (buffer_fd n));;
  (if 0 <=? diskfile_fd n then do (SYS_close (diskfile_fd n));; mret () else mret ());;
  free_stream_blocks.

End Setup.
