(* ===== verification/SetupThms.v ===== *)
(** * Resources of the setup functions

    A weakest-precondition calculus for the code of Setup.v, and what each
    function leaves in the ledger of descriptors, address lists, mappings and
    blocks, on every path. *)

From coqutil Require Import Datatypes.RecordSetters.
From S2P Require Import Prelude.
From S2P Require Import Net.
From S2P Require Import Iperf.
From S2P Require Import Util.
From S2P Require Import Setup.
From stdpp Require Import base numbers gmap list.
Import DoubleBraceUpdate.

Open Scope Z_scope.
Open Scope c_scope.

(** ** Weakest preconditions *)

(** [m] from [w]: [Q] of what it returns, [E] of the error. *)
Definition wp {A} (m : M A) (Q : A -> world -> Prop) (E : Z -> world -> Prop) (w : world) : Prop :=
  match m w with
  | (inl a, w') => Q a w'
  | (inr e, w') => E e w'
  end.

(** The test, and the ledger of descriptors and address lists. *)
Record at_ (t : iperf_test) (h : host) (l : list Z) (n : nat) (w : world) : Prop := mk_at {
  at_test : w_test w = t;
  at_host : w_host w = h;
  at_fds : open_fds (w_sys w) = l;
  at_infos : live_infos (w_sys w) = n }.

Definition fds_after (c : syscall) (r : Z) (l : list Z) : list Z :=
  match c with
  | SYS_socket _ _ | SYS_accept _ | SYS_mkstemp | SYS_open _ _ => if 0 <=? r then r :: l else l
  | SYS_close fd => remove_first fd l
  | _ => l
  end.

Definition infos_after (c : syscall) (r : Z) (n : nat) : nat :=
  match c with
  | SYS_getaddrinfo _ _ _ _ _ => if r =? 0 then S n else n
  | SYS_freeaddrinfo => pred n
  | _ => n
  end.

Section Wp.
Variable os : list syscall -> answer.
Context {A B : Type} (E : Z -> world -> Prop).
Implicit Types (t : iperf_test) (h : host) (l : list Z) (n : nat) (w : world).

Lemma wp_bind (m : M A) (f : A -> M B) Q w :
  wp m (fun a => wp (f a) Q E) E w -> wp (m ≫= f) Q E w.
Proof. unfold wp, mbind, M_bind. by destruct (m w) as [[a|e] w']. Qed.

Lemma wp_mono (m : M A) (Q Q' : A -> world -> Prop) (E' : Z -> world -> Prop) w :
  wp m Q E' w -> (forall a w', Q a w' -> Q' a w') -> (forall e w', E' e w' -> E e w') -> wp m Q' E w.
Proof. unfold wp. destruct (m w) as [[a|e] w']; auto. Qed.

Lemma wp_ret (a : A) Q w : Q a w -> wp (mret a) Q E w.
Proof. done. Qed.

Lemma wp_fail e (Q : A -> world -> Prop) w : E e w -> wp (fail e) Q E w.
Proof. done. Qed.

Lemma wp_get_test t h l n Q w : at_ t h l n w -> Q t w -> wp get_test Q E w.
Proof. by intros [<- ? ? ?]. Qed.

Lemma wp_get_host t h l n Q w : at_ t h l n w -> Q h w -> wp get_host Q E w.
Proof. by intros [? <- ? ?]. Qed.

Lemma wp_on_test f t h l n Q w :
  at_ t h l n w -> (forall w', at_ (f t) h l n w' -> Q () w') -> wp (on_test f) Q E w.
Proof. intros [<- ? ? ?] HQ. apply HQ. by constructor. Qed.

Lemma wp_on_host f t h l n Q w :
  at_ t h l n w -> (forall w', at_ t (f h) l n w' -> Q () w') -> wp (on_host f) Q E w.
Proof. intros [? <- ? ?] HQ. apply HQ. by constructor. Qed.

Lemma wp_do_out c t h l n Q w :
  at_ t h l n w ->
  (forall r o w', at_ t h (fds_after c r l) (infos_after c r n) w' -> last (history (w_sys w')) = Some c -> Q (r, o) w') ->
  wp (do_out os c) Q E w.
Proof.
  intros [Ht Hh Hl Hn] HQ. unfold wp, do_out, lift.
  destruct (call os c (w_sys w)) as [[r o] s'] eqn:Ec. apply HQ.
  - pose proof (call_ledger os _ _ _ _ _ Ec) as L. constructor; [done|done|..]; cbn; destruct c; cbn in *; destruct L as [Lo Li];
      subst; by rewrite ?Lo, ?Li.
  - unfold call in Ec. injection Ec as <- <- <-. cbn. destruct c; apply last_snoc.
Qed.

Lemma wp_do c t h l n Q w :
  at_ t h l n w ->
  (forall r w', at_ t h (fds_after c r l) (infos_after c r n) w' -> last (history (w_sys w')) = Some c -> Q r w') ->
  wp (do os c) Q E w.
Proof.
  intros Hw HQ. unfold do, wp, mbind, M_bind. pose proof (wp_do_out c t h l n (fun p w' => Q p.1 w') w Hw) as H.
  unfold wp in H. destruct (do_out os c w) as [[[r o]|e] w'] eqn:Ed; [|by unfold do_out, lift in Ed; destruct (call os c (w_sys w)) as [[? ?] ?]].
  apply H. intros r' o' w''. cbn. apply HQ.
Qed.


Lemma wp_free_info t h l n Q w :
  at_ t h l (S n) w -> (forall w', at_ t h l n w' -> Q () w') -> wp (free_info os) Q E w.
Proof.
  intros Hw HQ. unfold free_info, wp, mbind, M_bind.
  pose proof (wp_do SYS_freeaddrinfo t h l (S n) (fun _ => Q ()) w Hw) as H. unfold wp in H.
  destruct (do os SYS_freeaddrinfo w) as [[r|e] w'] eqn:Ed; [|by unfold do, do_out, lift in Ed; cbn in Ed].
  apply H. intros r' w'' Hw'' _. by apply HQ.
Qed.

Lemma wp_getaddrinfo node service family passive t h l n Q w :
  at_ t h l n w -> (forall r o w', at_ t h l (if r =? 0 then S n else n) w' -> Q (r, o) w') ->
  wp (getaddrinfo os node service family passive) Q E w.
Proof.
  intros Hw HQ. unfold getaddrinfo, wp, mbind, M_bind.
  pose proof (wp_do_out (SYS_getaddrinfo node service family SOCK_STREAM passive) t h l n
    (fun p w' => Q p (mk_world (set_gerror p.1 (w_sys w')) (w_test w') (w_host w'))) w Hw) as H. unfold wp in H.
  destruct (do_out _ _ w) as [[[r o]|e] w'] eqn:Ed; [|by unfold do_out, lift in Ed; cbn in Ed].
  cbn. apply H. intros r' o' w'' [] _. apply HQ. by constructor.
Qed.

(** Giving up leaves no trace of the socket and of the address lists. *)
Lemma wp_bail_out {A'} fd infos e t h l n (Q : A' -> world -> Prop) w :
  at_ t h (fd :: l) (n + infos) w -> (forall w', at_ t h l n w' -> E e w') -> wp (bail_out os fd infos e) Q E w.
Proof.
  intros [Ht Hh Hl Hn] HE. unfold bail_out, wp, mbind, M_bind, lift.
  pose (s0 := mksys [] 0 0 l n 0 0).
  destruct (fail_close_balanced os fd infos s0 (w_sys w) Hl Hn) as [F1 F2].
  destruct (fail_close os fd infos (w_sys w)) as [r s'] eqn:Ef. cbn.
  assert (r = -1) as ->.
  { unfold fail_close in Ef. destruct (call os (SYS_close fd) (w_sys w)) as [[? ?] ?]. congruence. }
  apply HE. by constructor.
Qed.

Lemma wp_checked r fd infos e t h l n Q w :
  at_ t h (fd :: l) (n + infos) w ->
  (0 <= r -> Q () w) -> (forall w', at_ t h l n w' -> E e w') -> wp (checked os r fd infos e) Q E w.
Proof.
  intros Hw HQ HE. unfold checked. destruct (Z.ltb_spec r 0); [by eapply wp_bail_out|]. exact (HQ ltac:(done)).
Qed.

End Wp.

(** Run the code to the next branch.  [Hw : at_ t h l n w] describes the current
    state. *)
Ltac wp_step :=
  cbv beta;
  lazymatch goal with
  | |- wp (mbind _ _) _ _ _ => apply wp_bind
  | |- wp (mret _) _ _ _ => apply wp_ret
  | |- wp (fail _) _ _ _ => apply wp_fail
  | Hw : at_ _ _ _ _ ?w |- wp get_test _ _ ?w => eapply wp_get_test; [exact Hw|]
  | Hw : at_ _ _ _ _ ?w |- wp get_host _ _ ?w => eapply wp_get_host; [exact Hw|]
  | Hw : at_ _ _ _ _ ?w |- wp (on_test _) _ _ ?w =>
      eapply wp_on_test; [exact Hw|]; clear Hw; let w' := fresh "w" in intros w' Hw
  | Hw : at_ _ _ _ _ ?w |- wp (on_host _) _ _ ?w =>
      eapply wp_on_host; [exact Hw|]; clear Hw; let w' := fresh "w" in intros w' Hw
  | Hw : at_ _ _ _ _ ?w |- wp (do _ _) _ _ ?w =>
      eapply wp_do; [exact Hw|]; clear Hw;
      let r := fresh "r" in let w' := fresh "w" in let Hl := fresh "Hlast" in
      intros r w' Hw Hl; cbn [fds_after infos_after pred] in Hw
  | Hw : at_ _ _ _ _ ?w |- wp (do_out _ _) _ _ ?w =>
      eapply wp_do_out; [exact Hw|]; clear Hw;
      let r := fresh "r" in let o := fresh "o" in let w' := fresh "w" in let Hl := fresh "Hlast" in
      intros r o w' Hw Hl; cbn [fds_after infos_after pred fst snd] in Hw |- *
  | Hw : at_ _ _ _ _ ?w |- wp (free_info _) _ _ ?w =>
      eapply wp_free_info; [exact Hw|]; clear Hw; let w' := fresh "w" in intros w' Hw
  | Hw : at_ _ _ _ _ ?w |- wp (getaddrinfo _ _ _ _ _) _ _ ?w =>
      eapply wp_getaddrinfo; [exact Hw|]; clear Hw;
      let r := fresh "r" in let o := fresh "o" in let w' := fresh "w" in
      intros r o w' Hw; cbn [fst snd]
  end.

Section Tcp.
Variable os : list syscall -> answer.
Implicit Types (t : iperf_test) (h : host) (l : list Z) (n : nat) (w : world).

Section Blocks.
Variable E : Z -> world -> Prop.

(** What the blocks of the TCP functions do: they leave the ledger as it is, or
    close the socket. *)
Lemma wp_set_option fd level name value infos e t h l n Q w :
  at_ t h (fd :: l) (n + infos) w ->
  (forall w', at_ t h (fd :: l) (n + infos) w' -> Q () w') -> (forall w', at_ t h l n w' -> E e w') ->
  wp (set_option os fd level name value infos e) Q E w.
Proof.
  intros Hw HQ HE. unfold set_option. repeat wp_step. eapply wp_checked; [exact Hw|intros; by apply HQ|done].
Qed.

Lemma wp_set_tcp_options fd infos t h l n Q w :
  at_ t h (fd :: l) (n + infos) w ->
  (forall w', at_ t h (fd :: l) (n + infos) w' -> Q () w') ->
  (forall e w', e <> IESETBUF2 -> at_ t h l n w' -> E e w') ->
  wp (set_tcp_options os fd infos) Q E w.
Proof.
  intros Hw HQ HE. unfold set_tcp_options. repeat wp_step.
  destruct (nonzero_int (no_delay t)); [eapply wp_set_option; [exact Hw|clear w Hw; intros w Hw|by eauto]|];
    repeat wp_step;
    (destruct (nonzero_int (mss (settings t))); [eapply wp_set_option; [exact Hw|clear w Hw; intros w Hw|by eauto]|]);
    repeat wp_step;
    (destruct (nonzero_int (socket_bufsize (settings t))); repeat wp_step; [|by apply HQ]);
    (eapply wp_set_option; [exact Hw|clear w Hw; intros w Hw|by eauto]);
    (eapply wp_set_option; [exact Hw|clear w Hw; intros w Hw; by apply HQ|by eauto]).
Qed.

Lemma wp_verify_buffer fd name infos t h l n Q w :
  at_ t h (fd :: l) (n + infos) w ->
  (forall w', at_ t h (fd :: l) (n + infos) w' -> Q () w') ->
  (forall w', at_ t h l n w' -> E IESETBUF w') ->
  (forall w', at_ t h (fd :: l) (n + infos) w' -> E IESETBUF2 w') ->
  wp (verify_buffer os fd name infos) Q E w.
Proof.
  intros Hw HQ HE HE2. unfold verify_buffer. repeat wp_step.
  eapply wp_checked; [exact Hw|intros _|by eauto]. destruct (_ && _); repeat wp_step; eauto.
Qed.

Lemma wp_bind_local fd ai_family t h l n Q w :
  let k := match bind_address h with Some _ => 2%nat | None => 1%nat end in
  at_ t h (fd :: l) (n + k) w ->
  (forall w', at_ t h (fd :: l) (n + 1) w' -> Q () w') ->
  (forall e w', e <> IESETBUF2 -> at_ t h l n w' -> E e w') ->
  wp (bind_local os fd ai_family) Q E w.
Proof.
  cbn zeta. intros Hw HQ HE. unfold bind_local. repeat wp_step.
  destruct (bind_address h); repeat wp_step.
  - eapply wp_checked; [exact Hw|intros _|by eauto].
    replace (n + 2)%nat with (S (n + 1)) in Hw by lia. repeat wp_step. by apply HQ.
  - destruct (nonzero_int (bind_port h)); repeat wp_step; [|by apply HQ].
    destruct (_ || _); repeat wp_step.
    + eapply wp_checked; [exact Hw|intros _; by apply HQ|by eauto].
    + eapply wp_bail_out; [exact Hw|by eauto].
Qed.

End Blocks.

Lemma at_self w : at_ (w_test w) (w_host w) (open_fds (w_sys w)) (live_infos (w_sys w)) w.
Proof. by constructor. Qed.

Lemma wp_errno E t h l n (Q : Z -> world -> Prop) w :
  at_ t h l n w -> (forall e, Q e w) -> wp (lift (fun s => (errno s, s))) Q E w.
Proof. intros _ HQ. destruct w. apply HQ. Qed.

(** From the socket of iperf_tcp_connect on. *)
Lemma wp_free_local E t h l n Q w :
  let k := match bind_address h with Some _ => 1%nat | None => 0%nat end in
  at_ t h l (n + k) w -> (forall w', at_ t h l n w' -> Q () w') ->
  wp (match bind_address h with Some _ => free_info os | None => mret () end) Q E w.
Proof.
  cbn zeta. destruct (bind_address h); intros Hw HQ.
  - replace (n + 1)%nat with (S n) in Hw by lia. wp_step. by apply HQ.
  - replace (n + 0)%nat with n in Hw by lia. by apply wp_ret, HQ.
Qed.

(** What iperf_tcp_connect leaves, on success and on failure. *)
Definition connected t h l n (fd : Z) (w : world) : Prop :=
  0 <= fd /\ at_ t h (fd :: l) n w /\ last (history (w_sys w)) = Some (SYS_write fd (cookie t)).
Definition not_connected t h l n (e : Z) (w : world) : Prop :=
  if e =? IESETBUF2 then exists fd, at_ t h (fd :: l) (S n) w else at_ t h l n w.

Lemma not_connected_clean t h l n e w : e <> IESETBUF2 -> at_ t h l n w -> not_connected t h l n e w.
Proof. intros He ?. unfold not_connected. by destruct (Z.eqb_spec e IESETBUF2). Qed.

(** The end of iperf_tcp_connect, once the socket is bound. *)
Lemma wp_tcp_connect_end fd t h l n w :
  0 <= fd -> at_ t h (fd :: l) (n + 1) w ->
  wp (set_tcp_options os fd 1;;
      verify_buffer os fd SO_SNDBUF 1;;
      verify_buffer os fd SO_RCVBUF 1;;
      c ← do os (SYS_connect fd (server_port t));
      e ← lift (fun s => (errno s, s));
      if (c <? 0) && negb (e =? EINPROGRESS) then bail_out os fd 1 IESTREAMCONNECT
      else
        free_info os;;
        n ← do os (SYS_write fd (cookie t));
        checked os n fd 0 IESENDCOOKIE;;
        mret fd) (connected t h l n) (not_connected t h l n) w.
Proof.
  intros Hfd Hw. pose proof (not_connected_clean t h l n) as HE.
  assert (HE2 : forall w', at_ t h (fd :: l) (n + 1) w' -> not_connected t h l n IESETBUF2 w').
  { intros w' ?. exists fd. by replace (S n) with (n + 1)%nat by lia. }
  wp_step. eapply wp_set_tcp_options; [exact Hw|clear w Hw; intros w Hw|done].
  do 2 (wp_step; eapply wp_verify_buffer; [exact Hw|clear w Hw; intros w Hw|intros; by apply HE|done]).
  do 3 wp_step. eapply wp_errno; [exact Hw|]. intros e.
  destruct (_ && _); [eapply wp_bail_out; [exact Hw|intros; by apply HE]|].
  replace (n + 1)%nat with (S n) in Hw by lia. repeat wp_step.
  rewrite <- (Nat.add_0_r n) in Hw. eapply wp_checked; [exact Hw|intros _|intros; by apply HE].
  rewrite Nat.add_0_r in Hw. by apply wp_ret.
Qed.

Lemma wp_tcp_connect t h l n w :
  at_ t h l n w -> wp (iperf_tcp_connect os) (connected t h l n) (not_connected t h l n) w.
Proof.
  intros Hw. pose proof (not_connected_clean t h l n) as HE.
  pose (k := match bind_address h with Some _ => 1%nat | None => 0%nat end).
  unfold iperf_tcp_connect. do 4 wp_step.
  apply wp_bind. apply wp_mono with (Q := fun _ w' => at_ t h l (n + k) w') (E' := not_connected t h l n);
    [|clear w Hw; intros _ w Hw|done].
  { unfold k. destruct (bind_address h); repeat wp_step; [|by rewrite Nat.add_0_r].
    destruct (Z.eqb_spec r 0) as [->|]; cbn [negb]; repeat wp_step; [by rewrite Nat.add_1_r|by apply HE]. }
  repeat wp_step. destruct (Z.eqb_spec r 0) as [->|]; cbn [negb]; repeat wp_step.
  2: { eapply wp_free_local; [exact Hw|]. intros w' Hw'. by apply wp_fail, HE. }
  destruct (Z.leb_spec 0 r) as [Hr|Hr], (Z.ltb_spec r 0); try lia; repeat wp_step.
  2: { eapply wp_free_local with (n := S n); [exact Hw|]. clear w Hw. intros w Hw. repeat wp_step. by apply HE. }
  eapply wp_bind_local with (n := n); [|intros w' Hw'; by eapply wp_tcp_connect_end|done].
  replace (S (n + k)) with (n + S k)%nat in Hw by lia. unfold k in Hw. by destruct (bind_address h).
Qed.

(** C37: iperf_tcp_connect keeps its books.  Whatever the system calls answer, a
    successful connection leaves exactly the returned socket open, all address
    lists freed and the cookie of the test as the last thing sent; a failure
    leaves nothing behind, except for IESETBUF2 (the kernel gave a smaller
    buffer than asked for), which leaks the socket and the address of the
    server. *)
Theorem iperf_tcp_connect_ledger w :
  let at' := at_ (w_test w) (w_host w) in
  let l := open_fds (w_sys w) in let n := live_infos (w_sys w) in
  match iperf_tcp_connect os w with
  | (inl fd, w') => 0 <= fd /\ at' (fd :: l) n w' /\
                    last (history (w_sys w')) = Some (SYS_write fd (cookie (w_test w)))
  | (inr e, w') => if e =? IESETBUF2 then exists fd, at' (fd :: l) (S n) w' else at' l n w'
  end.
Proof. exact (wp_tcp_connect _ _ _ _ w (at_self w)). Qed.

(** What iperf_tcp_listen leaves. *)
Definition listening t h l n (fd : Z) (w : world) : Prop :=
  exists t', at_ t' (h {{ listener := fd }}) (fd :: l) n w /\
    t' = if wants_listener t then t {{ read_set := read_set t ∖ {[ listener h ]} }} else t.
Definition not_listening h l n (e : Z) (w : world) : Prop :=
  live_infos (w_sys w) = n /\
  if e =? IESETBUF2 then open_fds (w_sys w) = listener (w_host w) :: l
  else open_fds (w_sys w) = l \/ (e = IESTREAMLISTEN /\ w_host w = h /\ exists fd, open_fds (w_sys w) = fd :: l).

Lemma not_listening_clean t h0 h l n e w : e <> IESETBUF2 -> at_ t h0 l n w -> not_listening h l n e w.
Proof. intros He [? ? ? ?]. split; [done|]. destruct (Z.eqb_spec e IESETBUF2); [done|by left]. Qed.

Lemma wp_new_tcp_listener t h l n w :
  at_ t h (listener h :: l) n w ->
  wp (new_tcp_listener os)
    (fun fd w' => at_ (t {{ read_set := read_set t ∖ {[ listener h ]} }}) (h {{ listener := fd }}) (fd :: l) n w')
    (not_listening h l n) w.
Proof.
  intros Hw. unfold new_tcp_listener. do 8 wp_step. cbn [remove_first] in Hw. rewrite Z.eqb_refl in Hw.
  set (t' := t {{ read_set := _ }}) in *.
  pose proof (not_listening_clean t' h h l n) as HE.
  repeat wp_step. destruct (Z.eqb_spec r0 0) as [->|]; cbn [negb]; repeat wp_step; [|by apply HE].
  rename r0 into fd. destruct (Z.leb_spec 0 fd), (Z.ltb_spec fd 0); try lia; repeat wp_step; [|by apply HE].
  rewrite <- (Nat.add_1_r n) in Hw. eapply wp_set_tcp_options; [exact Hw|clear w Hw; intros w Hw|done].
  wp_step. eapply wp_set_option; [exact Hw|clear w Hw; intros w Hw|intros; by apply HE].
  wp_step. apply wp_mono with (Q := fun _ w' => at_ t' h (fd :: l) (n + 1) w') (E' := not_listening h l n);
    [|clear w Hw; intros _ w Hw|done].
  { destruct (_ && _); [|done]. eapply wp_set_option; [exact Hw|done|intros; by apply HE]. }
  do 3 wp_step. eapply wp_checked; [exact Hw|intros _|intros; by apply HE].
  rewrite Nat.add_1_r in Hw. repeat wp_step. destruct (_ <? 0); repeat wp_step; [|exact Hw].
  destruct Hw. split; [done|]. right. eauto.
Qed.

Lemma wp_tcp_listen t h l n w :
  at_ t h (listener h :: l) n w -> wp (iperf_tcp_listen os) (listening t h l n) (not_listening h l n) w.
Proof.
  intros Hw. unfold iperf_tcp_listen. do 5 wp_step.
  apply wp_mono with (Q := listening t h l n) (E' := not_listening h l n);
    [|clear w Hw; intros fd w (t' & Hw & Ht)|done].
  { destruct (wants_listener t) eqn:Ew.
    - eapply wp_mono; [by apply wp_new_tcp_listener| |done]. intros fd w' H. eexists. rewrite Ew. split; [exact H|reflexivity].
    - apply wp_ret. exists t. rewrite Ew. split; [|done]. destruct h. exact Hw. }
  rewrite <- (Nat.add_0_r n) in Hw.
  assert (HE2 : forall w', at_ t' (h {{ listener := fd }}) (fd :: l) (n + 0) w' -> not_listening h l n IESETBUF2 w').
  { intros w' [? Hh ? ?]. split; [lia|]. cbn. rewrite Hh. done. }
  do 2 (wp_step; eapply wp_verify_buffer;
        [exact Hw|clear w Hw; intros w Hw|intros w' Hw'; by eapply not_listening_clean|done]).
  wp_step. exists t'. rewrite Nat.add_0_r in Hw. done.
Qed.

(** iperf_tcp_listen keeps its books.  With the listener of the test open, a
    success leaves exactly one listener open, the one in the test (a new one if
    socket options are set, and then the old one is closed and out of the read
    set); on IESETBUF2 the listener of the test is still open; any other
    failure closes it, but when listen() itself fails the new socket is leaked. *)
Theorem iperf_tcp_listen_ledger l w :
  open_fds (w_sys w) = listener (w_host w) :: l ->
  match iperf_tcp_listen os w with
  | (inl fd, w') => listening (w_test w) (w_host w) l (live_infos (w_sys w)) fd w'
  | (inr e, w') => not_listening (w_host w) l (live_infos (w_sys w)) e w'
  end.
Proof. intros Hl. apply wp_tcp_listen. by constructor. Qed.

(** ** UDP *)

Lemma wp_announce E dom proto t h l n Q w :
  at_ t h l n w ->
  (forall r w', at_ t h (if 0 <=? r then r :: l else l) n w' -> Q r w') -> wp (announce os dom proto) Q E w.
Proof.
  intros Hw HQ. unfold announce. repeat wp_step. destruct Hw as [Ht Hh Hl Hn]. unfold wp, lift.
  destruct (netannounce_balanced os dom proto (bind_address h) (server_port t) (w_sys w)) as [B1 B2].
  destruct (netannounce _ _ _ _ _ _) as [r s']. apply HQ. cbn in *. subst. by constructor.
Qed.

(** A test after the check of the buffers: only the size may have changed. *)
Definition with_bufsize (t : iperf_test) (size : Z) : iperf_test := t {{ settings -> socket_bufsize := size }}.

Lemma with_bufsize_self t : with_bufsize t (socket_bufsize (settings t)) = t.
Proof. by destruct t as [? ? ? ? ? ? ? ? ? ? ? ? ? ? ? ? ? ? ? ? ? ? ? ? ? ? ? ? ? ? ? ? ? ? ? ? ? ? []]. Qed.

Lemma wp_check_buffer E fd name t h l n Q w :
  at_ t h l n w -> (forall b w', at_ t h l n w' -> Q b w') -> (forall e w', at_ t h l n w' -> e ∈ [IESETBUF; IESETBUF2] -> E e w') ->
  wp (check_buffer os fd name) Q E w.
Proof.
  intros Hw HQ HE. unfold check_buffer. repeat wp_step.
  destruct (r <? 0); [apply HE; [done|set_solver]|]. destruct (_ && _); [apply HE; [done|set_solver]|]. by apply HQ.
Qed.

Lemma wp_udp_buffercheck E fd t h l n Q w :
  at_ t h l n w -> (forall b w', at_ t h l n w' -> Q b w') -> (forall e w', at_ t h l n w' -> e ∈ [IESETBUF; IESETBUF2] -> E e w') ->
  wp (iperf_udp_buffercheck os fd) Q E w.
Proof.
  intros Hw HQ HE. unfold iperf_udp_buffercheck. do 3 wp_step.
  apply wp_mono with (Q := fun _ w' => at_ t h l n w') (E' := E); [|clear w Hw; intros _ w Hw|done].
  { destruct (nonzero_int _); repeat wp_step; [|done].
    do 2 (destruct (_ <? 0); repeat wp_step; [apply HE; [done|set_solver]|]). done. }
  unfold check_buffers.
  do 2 (wp_step; eapply wp_check_buffer; [exact Hw|clear w Hw; intros ? w Hw|done]). wp_step. by apply HQ.
Qed.

Lemma wp_udp_buffers E fd t h l n Q w :
  at_ t h l n w -> (forall size w', at_ (with_bufsize t size) h l n w' -> Q () w') ->
  (forall e size w', at_ (with_bufsize t size) h l n w' -> e ∈ [IESETBUF; IESETBUF2] -> E e w') ->
  wp (udp_buffers os fd) Q E w.
Proof.
  intros Hw HQ HE.
  assert (Hs : forall w', at_ t h l n w' -> at_ (with_bufsize t (socket_bufsize (settings t))) h l n w').
  { by rewrite with_bufsize_self. }
  unfold udp_buffers. wp_step. eapply wp_udp_buffercheck; [exact Hw|clear w Hw; intros rc w Hw|by eauto].
  repeat wp_step. destruct (_ && _); repeat wp_step; [|by eauto].
  eapply wp_udp_buffercheck; [exact Hw|clear w Hw; intros ? w Hw|intros; by eapply HE]. wp_step. by eapply HQ.
Qed.

(** What iperf_udp_accept leaves: the socket of the listener is the stream's,
    and there is a new listener. *)
Definition udp_accepted t h l n (s : Z) (w : world) : Prop :=
  s = prot_listener t /\
  exists t', at_ t' h (prot_listener t' :: l) n w /\ 0 <= prot_listener t' /\ prot_listener t' ∈ read_set t'.
Definition not_udp_accepted h l n (e : Z) (w : world) : Prop :=
  exists t', if e =? IESTREAMWRITE then 0 <= prot_listener t' /\ at_ t' h (prot_listener t' :: l) n w else at_ t' h l n w.

Lemma wp_udp_accept t h l n w :
  at_ t h l n w -> wp (iperf_udp_accept os) (udp_accepted t h l n) (not_udp_accepted h l n) w.
Proof.
  intros Hw.
  assert (HE : forall e t' w', e <> IESTREAMWRITE -> at_ t' h l n w' -> not_udp_accepted h l n e w').
  { intros e t' w' He ?. exists t'. by destruct (Z.eqb_spec e IESTREAMWRITE). }
  unfold iperf_udp_accept. do 4 wp_step. destruct (r <? 0); [by eapply wp_fail, HE|].
  repeat wp_step. destruct (r0 <? 0); [by eapply wp_fail, HE|].
  repeat wp_step. eapply wp_udp_buffers; [exact Hw|clear w Hw; intros size w' Hw|].
  2: { intros e size w' ? He. eapply HE; [|done]. intros ->. set_solver. }
  wp_step. eapply wp_announce; [exact Hw|clear w' Hw; intros fd w' Hw]. repeat wp_step.
  destruct (Z.ltb_spec fd 0), (Z.leb_spec 0 fd); try lia; [by eapply wp_fail, HE|].
  repeat wp_step. destruct (_ <? 0); repeat wp_step.
  - eexists. split; [|exact Hw]. done.
  - split; [done|]. eexists. split_and!; [exact Hw|done|]. cbn. unfold constant. set_solver.
Qed.

(** iperf_udp_accept hands the socket of the listener over.  On success the
    stream gets the socket the first datagram came to, and the test a new
    listening socket that is in its read set; nothing else is open.  On a
    failure the old socket is still open; if only the answer to the client
    fails the new listener is open and in the test. *)
Theorem iperf_udp_accept_ledger w :
  let n := live_infos (w_sys w) in let l := open_fds (w_sys w) in
  match iperf_udp_accept os w with
  | (inl s, w') => udp_accepted (w_test w) (w_host w) l n s w'
  | (inr e, w') => not_udp_accepted (w_host w) l n e w'
  end.
Proof. exact (wp_udp_accept _ _ _ _ w (at_self w)). Qed.

(** What iperf_udp_connect leaves. *)
Definition udp_connected t h l n (s : Z) (w : world) : Prop :=
  0 <= s /\ exists size, at_ (with_bufsize t size) h (s :: l) n w.
Definition not_udp_connected t h l n (e : Z) (w : world) : Prop :=
  if e =? IESTREAMCONNECT then at_ t h l n w else exists s size, at_ (with_bufsize t size) h (s :: l) n w.

Lemma wp_netdial E dom proto server port timeout t h l n Q w :
  at_ t h l n w -> (forall r w', at_ t h (if 0 <=? r then r :: l else l) n w' -> Q r w') ->
  wp (lift (netdial os dom proto None 0 server port timeout)) Q E w.
Proof.
  intros [Ht Hh Hl Hn] HQ. unfold wp, lift.
  destruct (netdial_balanced os dom proto 0 server port timeout (w_sys w)) as [[B1 B2]|[? _]]; [|done].
  destruct (netdial _ _ _ _ _ _ _ _ _) as [r s']. apply HQ. cbn in *. subst. by constructor.
Qed.

Lemma wp_do_read E fd count t h l n Q w :
  at_ t h l n w -> (forall r d w', at_ t h l n w' -> Q (r, d) w') -> wp (do_read os fd count) Q E w.
Proof.
  intros Hw HQ. unfold do_read.
  change (wp (r ← do os (SYS_read fd count); mret (r, data (os (history (w_sys w) ++ [SYS_read fd count])))) Q E w).
  repeat wp_step. by apply HQ.
Qed.

Lemma wp_udp_connect t h l n w :
  bind_address h = None -> bind_port h = 0 ->
  at_ t h l n w -> wp (iperf_udp_connect os) (udp_connected t h l n) (not_udp_connected t h l n) w.
Proof.
  intros Ha Hp Hw.
  assert (HE : forall fd e size w', e <> IESTREAMCONNECT ->
    at_ (with_bufsize t size) h (fd :: l) n w' -> not_udp_connected t h l n e w').
  { intros fd e size w' He ?. unfold not_udp_connected. destruct (Z.eqb_spec e IESTREAMCONNECT); [done|by eauto]. }
  unfold iperf_udp_connect. do 5 wp_step. rewrite Ha, Hp.
  eapply wp_netdial; [exact Hw|clear w Hw; intros fd w Hw].
  destruct (Z.ltb_spec fd 0), (Z.leb_spec 0 fd); try lia; [exact Hw|].
  wp_step. eapply wp_udp_buffers; [exact Hw|clear w Hw; intros size w Hw|].
  2: { intros e size w'' ? He. eapply HE; [|done]. intros ->. set_solver. }
  do 4 wp_step. destruct (_ <? 0); [by eapply wp_fail, HE|].
  wp_step. eapply wp_do_read; [exact Hw|clear w Hw; intros r1 d w' Hw]. cbn [fst].
  destruct (_ <? 0); [by eapply wp_fail, HE|]. split; [done|by eexists].
Qed.

(** iperf_udp_connect leaks its socket.  Without --bind and --cport a success
    leaves exactly the returned socket open and a failed netdial leaves
    nothing; every later failure (the buffers, the first datagram, the answer of
    the server) leaves the socket open and unreachable. *)
Theorem iperf_udp_connect_ledger w :
  bind_address (w_host w) = None -> bind_port (w_host w) = 0 ->
  let n := live_infos (w_sys w) in let l := open_fds (w_sys w) in
  match iperf_udp_connect os w with
  | (inl s, w') => udp_connected (w_test w) (w_host w) l n s w'
  | (inr e, w') => not_udp_connected (w_test w) (w_host w) l n e w'
  end.
Proof. intros Ha Hp. exact (wp_udp_connect _ _ _ _ w Ha Hp (at_self w)). Qed.

End Tcp.

(** ** Streams *)

Section Streams.
Variable os : list syscall -> answer.

(** The test, the descriptors, the mappings and the blocks. *)
Record held (t : iperf_test) (h : host) (l : list Z) (m b : nat) (w : world) : Prop := mk_held {
  hd_test : w_test w = t;
  hd_host : w_host w = h;
  hd_fds : open_fds (w_sys w) = l;
  hd_maps : live_maps (w_sys w) = m;
  hd_blocks : live_blocks (w_sys w) = b }.

Lemma held_self w :
  held (w_test w) (w_host w) (open_fds (w_sys w)) (live_maps (w_sys w)) (live_blocks (w_sys w)) w.
Proof. by constructor. Qed.

Definition maps_after (c : syscall) (r : Z) (m : nat) : nat :=
  match c with
  | SYS_mmap _ _ => if r =? -1 then m else S m
  | SYS_munmap _ => pred m
  | _ => m
  end.
Definition blocks_after (c : syscall) (r : Z) (b : nat) : nat :=
  match c with
  | SYS_malloc => if r =? 0 then b else S b
  | SYS_free => pred b
  | _ => b
  end.

Section Rules.
Variable E : Z -> world -> Prop.

Lemma wpr_do c t h l m b Q w :
  held t h l m b w ->
  (forall r w', (exists hs, r = ret (os hs)) -> held t h (fds_after c r l) (maps_after c r m) (blocks_after c r b) w' -> Q r w') ->
  wp (do os c) Q E w.
Proof.
  intros [Ht Hh Hl Hm Hb] HQ. unfold do, do_out, lift, wp, mbind, M_bind, call. cbn.
  apply HQ; [by eexists|]. subst. by destruct c; constructor.
Qed.

Lemma wpr_get_test t h l m b Q w : held t h l m b w -> Q t w -> wp get_test Q E w.
Proof. by intros [<- ? ? ? ?]. Qed.
Lemma wpr_get_host t h l m b Q w : held t h l m b w -> Q h w -> wp get_host Q E w.
Proof. by intros [? <- ? ? ?]. Qed.
Lemma wpr_on_test f t h l m b Q w :
  held t h l m b w -> (forall w', held (f t) h l m b w' -> Q () w') -> wp (on_test f) Q E w.
Proof. intros [<- ? ? ? ?] HQ. apply HQ. by constructor. Qed.

Lemma wpr_getsockdomain s t h l m b Q w :
  held t h l m b w -> (forall r w', held t h l m b w' -> Q r w') -> wp (lift (getsockdomain os s)) Q E w.
Proof.
  intros [] HQ. unfold lift, getsockdomain, wp, call. cbn. destruct (_ <? 0); apply HQ; by constructor.
Qed.

Lemma wp_on_error {A} (m : M A) clean (Q : A -> world -> Prop) w :
  wp m Q (fun e w' => wp (clean;; fail e) Q E w') w -> wp (on_error m clean) Q E w.
Proof. unfold wp, on_error. by destruct (m w) as [[a|e] w']. Qed.

End Rules.

Ltac wpr_step :=
  cbv beta;
  lazymatch goal with
  | |- wp (mbind _ _) _ _ _ => apply wp_bind
  | |- wp (mret _) _ _ _ => apply wp_ret
  | |- wp (fail _) _ _ _ => apply wp_fail
  | |- wp (free_stream_blocks _) _ _ _ => unfold free_stream_blocks
  | Hw : held _ _ _ _ _ ?w |- wp get_test _ _ ?w => eapply wpr_get_test; [exact Hw|]
  | Hw : held _ _ _ _ _ ?w |- wp get_host _ _ ?w => eapply wpr_get_host; [exact Hw|]
  | Hw : held _ _ _ _ _ ?w |- wp (on_test _) _ _ ?w =>
      eapply wpr_on_test; [exact Hw|]; clear Hw; let w' := fresh "w" in intros w' Hw
  | Hw : held _ _ _ _ _ ?w |- wp (do _ _) _ _ ?w =>
      eapply wpr_do; [exact Hw|]; clear Hw;
      let r := fresh "r" in let w' := fresh "w" in let Ho := fresh "Ho" in
      intros r w' Ho Hw; cbn [fds_after maps_after blocks_after pred] in Hw
  | Hw : held _ _ _ _ _ ?w |- wp (lift (getsockdomain _ _)) _ _ ?w =>
      eapply wpr_getsockdomain; [exact Hw|]; clear Hw;
      let r := fresh "r" in let w' := fresh "w" in intros r w' Hw
  end.

Lemma wp_init_stream E sp t h l m b (Q : unit -> world -> Prop) w :
  held t h l m b w -> (forall w', held t h l m b w' -> Q () w') ->
  (forall e w', e ∈ [IEINITSTREAM; IESETTOS; IESETCOS] -> held t h l m b w' -> E e w') ->
  wp (iperf_init_stream os sp) Q E w.
Proof.
  intros Hw HQ HE. unfold iperf_init_stream.
  repeat (repeat wpr_step; lazymatch goal with |- context [if ?c then _ else _] => destruct c | _ => idtac end);
    first [by apply HQ | apply HE; [set_solver|done]].
Qed.

(** The descriptors of a stream, the file of -F first. *)
Definition stream_fds (ns : new_stream) : list Z :=
  if 0 <=? diskfile_fd ns then [diskfile_fd ns; buffer_fd ns] else [buffer_fd ns].

Definition made t h l m b (s : Z) (is_sender : bool) (ns : new_stream) (w : world) : Prop :=
  ns_stream ns = blank_stream s is_sender /\ 0 <= buffer_fd ns /\
  held (iperf_add_stream t (blank_stream s is_sender)) h (stream_fds ns ++ l) (S m) (S (S b)) w.

Definition not_made t h l m b (e : Z) (w : world) : Prop :=
  held t h l m b w \/
  exists fd, held t h (fd :: l) m b w /\
    (e ∈ [IECREATESTREAM; IEFILE] \/ (diskfile_name h <> None /\ e ∈ [IEINITSTREAM; IESETTOS; IESETCOS])).
(** System calls return -1 when they fail. *)
Hypothesis os_minus1 : forall hs, -1 <= ret (os hs).

Lemma returned r : (exists hs, r = ret (os hs)) -> r <> -1 -> (0 <=? r) = true.
Proof. intros [hs ->] ?. pose proof (os_minus1 hs). apply Z.leb_le. lia. Qed.

(** The end of iperf_new_stream: initialisation, with [fds] open for it. *)
Lemma wp_new_stream_end bfd dfd buf len s is_sender t h l m b w :
  0 <= bfd -> (dfd = -1 \/ 0 <= dfd /\ diskfile_name h <> None) ->
  held t h ((if 0 <=? dfd then [dfd; bfd] else [bfd]) ++ l) (S m) (S (S b)) w ->
  wp (on_error (iperf_init_stream os (blank_stream s is_sender))
        (do os (SYS_close bfd);; do os (SYS_munmap len);; free_stream_blocks os))
    (fun _ => wp (on_test (fun t => iperf_add_stream t (blank_stream s is_sender));;
                  mret (mk_new_stream (blank_stream s is_sender) bfd dfd buf))
                (made t h l m b s is_sender) (not_made t h l m b))
    (not_made t h l m b) w.
Proof.
  intros Hb Hd Hw. apply wp_on_error.
  eapply wp_init_stream; [exact Hw|clear w Hw; intros w Hw|clear w Hw; intros e w He Hw].
  - repeat wpr_step. split_and!; [done|done|exact Hw].
  - repeat wpr_step. destruct Hd as [->|[Hd ?]]; [left|right].
    + cbn in Hw. by rewrite Z.eqb_refl in Hw.
    + exists dfd. assert ((0 <=? dfd) = true) as Ed by (by apply Z.leb_le). rewrite Ed in Hw. cbn in Hw.
      destruct (Z.eqb_spec dfd bfd) as [<-|]; rewrite ?Z.eqb_refl in Hw; split; auto.
Qed.

Lemma wp_new_stream entropy s is_sender t h l m b w :
  held t h l m b w ->
  wp (iperf_new_stream os entropy s is_sender) (made t h l m b s is_sender) (not_made t h l m b) w.
Proof.
  intros Hw.
  assert (HL : forall e fd w', e ∈ [IECREATESTREAM; IEFILE] -> held t h (fd :: l) m b w' -> not_made t h l m b e w').
  { intros. right. eauto. }
  unfold iperf_new_stream. repeat wpr_step. destruct (r =? 0); [left; exact Hw|].
  repeat wpr_step. destruct (r0 =? 0); repeat wpr_step; [left; exact Hw|].
  rename r1 into bfd. destruct (Z.eqb_spec bfd (-1)) as [->|Hb]; repeat wpr_step; [left; exact Hw|].
  rewrite (returned bfd) in Hw by done. pose proof (returned bfd Ho1 Hb) as Hb'. apply Z.leb_le in Hb'.
  destruct (_ <? 0); repeat wpr_step; [eapply HL; [set_solver|exact Hw]|].
  destruct (_ <? 0); repeat wpr_step; [eapply HL; [set_solver|exact Hw]|].
  destruct (r3 =? -1); repeat wpr_step; [eapply HL; [set_solver|exact Hw]|].
  destruct (diskfile_name h) as [f|] eqn:Ed; repeat wpr_step.
  - rename r4 into dfd. destruct (Z.eqb_spec dfd (-1)) as [->|Hd]; repeat wpr_step; [eapply HL; [set_solver|exact Hw]|].
    rewrite (returned dfd) in Hw by done. pose proof (returned dfd Ho5 Hd) as Hd'.
    eapply wp_new_stream_end; [done|right; split; [by apply Z.leb_le|congruence]|]. by rewrite Hd'.
  - eapply wp_new_stream_end; [done|by left|exact Hw].
Qed.

Lemma wp_free_stream ns t h l m b w :
  0 <= buffer_fd ns -> held t h (stream_fds ns ++ l) (S m) (S (S b)) w ->
  wp (iperf_free_stream os ns) (fun _ => held t h l m b) (fun _ _ => False) w.
Proof.
  intros Hb Hw. unfold iperf_free_stream, stream_fds in *. repeat wpr_step.
  destruct (0 <=? diskfile_fd ns); cbn in Hw; rewrite ?Z.eqb_refl in Hw; repeat wpr_step; [|exact Hw].
  destruct (Z.eqb_spec (diskfile_fd ns) (buffer_fd ns)) as [Ed|]; cbn in Hw;
    rewrite ?Ed, ?Z.eqb_refl in Hw; exact Hw.
Qed.

(** C38: Streams are created and released without loss.  When system calls fail
    with -1, iperf_new_stream either adds a stream with all counters zero to the
    test, and then holds its temporary file, the file of -F if there is one, one
    mapping and two blocks, all of which iperf_free_stream releases; or it fails
    and has released all memory, but it may leave one descriptor open: the
    temporary file, or the file of -F when the socket cannot be initialised. *)
Theorem iperf_new_stream_ledger entropy s is_sender w :
  let t := w_test w in let h := w_host w in
  let l := open_fds (w_sys w) in let m := live_maps (w_sys w) in let b := live_blocks (w_sys w) in
  match iperf_new_stream os entropy s is_sender w with
  | (inl ns, w') =>
      made t h l m b s is_sender ns w' /\
      match iperf_free_stream os ns w' with
      | (inl _, w'') => held (w_test w') h l m b w''
      | (inr _, _) => False
      end
  | (inr e, w') => not_made t h l m b e w'
  end.
Proof.
  cbn zeta. pose proof (wp_new_stream entropy s is_sender _ _ _ _ _ w (held_self w)) as H. unfold wp in H.
  destruct (iperf_new_stream os entropy s is_sender w) as [[ns|e] w']; [|done].
  split; [done|]. destruct H as (_ & Hb & Hw). pose proof (wp_free_stream ns _ _ _ _ _ w' Hb Hw) as F.
  unfold wp in F. destruct (iperf_free_stream os ns w') as [[[]|e] w'']; [|done]. by rewrite (hd_test _ _ _ _ _ _ Hw).
Qed.

End Streams.

(** ** The control connection *)

Section Connections.
Variable os : list syscall -> answer.

(** What iperf_server_listen leaves. *)
Definition listened (l : list Z) (n : nat) (r : Z + Z) (w : world) : Prop :=
  live_infos (w_sys w) = n /\
  match r with
  | inl v => v = 0 /\ 0 <= listener (w_host w) /\ read_set (w_test w) = {[ listener (w_host w) ]} /\
             open_fds (w_sys w) = listener (w_host w) :: l
  | inr e => e = IELISTEN /\ open_fds (w_sys w) = l
  end.

Lemma server_listen_step k : forall w,
  domain (settings (w_test w)) = AF_INET \/ (1 <= k)%nat ->
  exists r w', server_listen_loop os (S k) w = Ok (r, w') /\ listened (open_fds (w_sys w)) (live_infos (w_sys w)) r w'.
Proof.
  induction k as [|k IH]; intros w Hd; cbn [server_listen_loop].
  all: pose proof (wp_announce os (fun _ _ => False) (domain (settings (w_test w))) Ptcp _ _ _ _
         (fun r w' => at_ (w_test w) (w_host w) (if 0 <=? r then r :: open_fds (w_sys w) else open_fds (w_sys w))
                        (live_infos (w_sys w)) w') w (at_self w)) as H; unfold wp in H.
  all: destruct (announce os _ Ptcp w) as [[fd|e] w1]; [|exfalso; by apply H].
  all: destruct (H ltac:(done)) as [H1 H2 H3 H4]; clear H; destruct (Z.leb_spec 0 fd), (Z.ltb_spec fd 0); try lia.
  all: try (eexists _, _; split; [reflexivity|]; split; [done|]; by split_and!).
  - destruct Hd as [->|Hd]; [|lia]. rewrite andb_false_r. eexists _, _. split; [reflexivity|]. done.
  - destruct (_ && _); [|eexists _, _; split; [reflexivity|]; done].
    all: destruct (IH (w1 {{ w_host -> listener := fd }} {{ w_test := (w_test w1) {{ settings -> domain := AF_INET }} }}))
      as (r & w' & E & L); [by left|]; eexists _, _; split; [exact E|].
    by rewrite <- H3, <- H4.
Qed.

(** C40: The server finds a family it can listen on.  iperf_server_listen jumps
    back at most once, whatever the system answers; it returns with a listener
    that is open, in the test and the only descriptor of the read set, or fails
    with IELISTEN and leaves nothing open. *)
Theorem iperf_server_listen_returns w :
  exists r w', iperf_server_listen os w = Ok (r, w') /\ listened (open_fds (w_sys w)) (live_infos (w_sys w)) r w'.
Proof. apply server_listen_step. by right. Qed.

(** What iperf_connect leaves of the test. *)
Definition with_control (t t' : iperf_test) (entropy : bytes) (mss_ : Z) : Prop :=
  cookie t' = make_cookie entropy /\ 0 <= ctrl_sck t' /\ ctrl_sck t' ∈ read_set t' /\
  blksize (settings t') =
    (if (protocol t =? Pudp) && (blksize (settings t) =? 0)
     then if nonzero_int mss_ then mss_ else DEFAULT_UDP_BLKSIZE else blksize (settings t)).

Lemma wp_connect_control entropy t h l n w :
  bind_address h = None -> ctrl_sck t < 0 -> at_ t h l n w ->
  wp (connect_control os entropy)
    (fun _ w' => exists t', at_ t' h (ctrl_sck t' :: l) n w' /\ cookie t' = make_cookie entropy /\
       0 <= ctrl_sck t' /\ ctrl_sck t' ∈ read_set t' /\ settings t' = settings t /\ protocol t' = protocol t)
    (fun e w' => if e =? IESENDCOOKIE then open_fds (w_sys w') = ctrl_sck (w_test w') :: l
                 else e = IECONNECT /\ open_fds (w_sys w') = l) w.
Proof.
  intros Ha Hc Hw. unfold connect_control. do 6 wp_step.
  assert (Hc' : (ctrl_sck (t {{ read_set := ∅; write_set := ∅; cookie := make_cookie entropy }}) <? 0) = true).
  { apply Z.ltb_lt. by destruct t. }
  rewrite Hc', Ha. clear Hc'. do 2 wp_step. eapply wp_netdial; [exact Hw|clear Hw; intros fd w' Hw]. repeat wp_step.
  change (ctrl_sck (_ {{ ctrl_sck := fd }})) with fd.
  destruct (Z.ltb_spec fd 0), (Z.leb_spec 0 fd); try lia.
  { wp_step. destruct Hw. by split. }
  repeat wp_step. destruct (_ <? 0); repeat wp_step; [destruct Hw as [E ? ? ?]; by rewrite E|].
  eexists. split; [exact Hw|]. cbn. split_and!; try done. unfold constant. set_solver.
Qed.

Lemma wp_control_mss E t h l n (Q : unit -> world -> Prop) w :
  at_ t h l n w ->
  (forall k w', 0 <= k <= MAX_UDP_BLOCKSIZE -> at_ t (h {{ ctrl_sck_mss := k }}) l n w' -> Q () w') ->
  wp (control_mss os) Q E w.
Proof.
  intros Hw HQ. unfold control_mss. repeat wp_step. eapply HQ; [|exact Hw].
  destruct (r <? 0); [lia|]. destruct (Z.ltb_spec 0 o), (Z.leb_spec o MAX_UDP_BLOCKSIZE); cbn; lia.
Qed.


(** ** Accepting and checking *)

Lemma strcmp_differs_total a : forall got,
  0 ∈ a -> (List.length a <= List.length got)%nat -> exists b, strcmp_differs a got = Some b.
Proof.
  induction a as [|x a IH]; intros got Hz Hl; [by apply not_elem_of_nil in Hz|].
  destruct got as [|y got]; cbn in Hl; [lia|]. cbn [strcmp_differs].
  destruct (Z.eqb_spec x y) as [<-|]; cbn [negb]; [|by eexists].
  destruct (Z.eqb_spec x 0); [by eexists|]. apply IH; [|lia]. apply elem_of_cons in Hz as [Hx|]; [congruence|done].
Qed.

Lemma do_read_answer fd count t h l n w :
  at_ t h l n w ->
  let a := os (history (w_sys w) ++ [SYS_read fd count]) in
  exists w', do_read os fd count w = (inl (ret a, data a), w') /\ at_ t h l n w'.
Proof.
  intros [<- <- <- <-]. cbn zeta. eexists. split; [reflexivity|]. by constructor.
Qed.

(** What iperf_tcp_accept leaves. *)
Definition tcp_accepted (t : iperf_test) (h : host) (l : list Z) (n : nat) (r : Z + Z) (w : world) : Prop :=
  match r with
  | inl s => 0 <= s /\ (at_ t h (s :: l) n w \/ (at_ t h l n w /\ last (history (w_sys w)) = Some (SYS_close s)))
  | inr e => if e =? IESTREAMCONNECT then at_ t h l n w
             else (e = IERECVCOOKIE \/ e = IESENDMESSAGE) /\ exists s, at_ t h (s :: l) n w
  end.

(** Refusing a connection. *)
Lemma tcp_refused s t h l n w :
  0 <= s -> at_ t h (s :: l) n w ->
  exists r w', Ok (refuse os s w) = Ok (r, w') /\ tcp_accepted t h l n r w'.
Proof.
  intros Hs Hw.
  assert (H : wp (refuse os s) (fun r => tcp_accepted t h l n (inl r)) (fun e => tcp_accepted t h l n (inr e)) w).
  { unfold refuse. repeat wp_step. destruct (r <? 0); repeat wp_step; [split; [by right|by eexists]|].
    split; [done|right]. cbn [remove_first] in Hw. by rewrite Z.eqb_refl in Hw. }
  unfold wp in H. destruct (refuse os s w) as [[r|e] w']; eauto.
Qed.

(** iperf_tcp_accept, when the client sends a whole cookie: a socket with the
    cookie of the test stays open and is returned; one with another cookie is
    told so and closed, and its number is returned all the same; when the cookie
    cannot be read, or the refusal not be sent, the socket is leaked. *)
Theorem iperf_tcp_accept_ledger w :
  0 ∈ cookie (w_test w) -> List.length (cookie (w_test w)) = COOKIE_SIZE ->
  (forall hs fd, 0 <= ret (os (hs ++ [SYS_read fd COOKIE_SIZE])) ->
     List.length (data (os (hs ++ [SYS_read fd COOKIE_SIZE]))) = COOKIE_SIZE) ->
  exists r w', iperf_tcp_accept os w = Ok (r, w') /\
    tcp_accepted (w_test w) (w_host w) (open_fds (w_sys w)) (live_infos (w_sys w)) r w'.
Proof.
  intros Hz Hl Hos. unfold iperf_tcp_accept.
  pose proof (wp_do os (fun _ _ => False) (SYS_accept (listener (w_host w))) _ _ _ _
    (fun r w' => at_ (w_test w) (w_host w) (if 0 <=? r then r :: open_fds (w_sys w) else open_fds (w_sys w))
      (live_infos (w_sys w)) w') w (at_self w)) as H. unfold wp in H.
  destruct (do os _ w) as [[s|e] w1]; [|exfalso; by apply H].
  assert (Hw : at_ (w_test w) (w_host w) (if 0 <=? s then s :: open_fds (w_sys w) else open_fds (w_sys w))
      (live_infos (w_sys w)) w1) by (apply H; by intros). clear H.
  destruct (Z.leb_spec 0 s), (Z.ltb_spec s 0); try lia; [|eexists _, _; split; [reflexivity|]; exact Hw].
  destruct (do_read_answer s COOKIE_SIZE _ _ _ _ w1 Hw) as (w2 & -> & Hw2). specialize (Hos (history (w_sys w1)) s).
  destruct (Z.ltb_spec (ret (os (history (w_sys w1) ++ [SYS_read s COOKIE_SIZE]))) 0).
  { eexists _, _. split; [reflexivity|]. split; [by left|by eexists]. }
  rewrite (at_test _ _ _ _ _ Hw2).
  destruct (strcmp_differs_total (cookie (w_test w)) (data (os (history (w_sys w1) ++ [SYS_read s COOKIE_SIZE]))) Hz)
    as [b ->]; [rewrite Hos by done; lia|].
  destruct b; [|eexists _, _; split; [reflexivity|]; split; [done|by left]].
  clear Hw Hos. rename Hw2 into Hw. by apply tcp_refused.
Qed.

Lemma do_out_answer c w :
  let a := os (history (w_sys w) ++ [c]) in
  exists w', do_out os c w = (inl (ret a, out a), w') /\ w_test w' = w_test w.
Proof. cbn zeta. unfold do_out, lift, call. eexists. split; reflexivity. Qed.

Lemma do_answer c w :
  exists w', do os c w = (inl (ret (os (history (w_sys w) ++ [c]))), w') /\ w_test w' = w_test w.
Proof. unfold do, do_out, lift, call, mbind, M_bind. eexists. split; reflexivity. Qed.

(** A system that gives sockets buffers of certain sizes. *)
Record buffers (sndbuf rcvbuf : Z) : Prop := {
  bu_set hs fd name v : ret (os (hs ++ [SYS_setsockopt fd SOL_SOCKET name v])) = 0;
  bu_get hs fd name : ret (os (hs ++ [SYS_getsockopt fd SOL_SOCKET name])) = 0;
  bu_snd hs fd : out (os (hs ++ [SYS_getsockopt fd SOL_SOCKET SO_SNDBUF])) = sndbuf;
  bu_rcv hs fd : out (os (hs ++ [SYS_getsockopt fd SOL_SOCKET SO_RCVBUF])) = rcvbuf }.

(** The decision of iperf_udp_buffercheck. *)
Definition buffers_verdict (t : iperf_settings) (sndbuf rcvbuf : Z) : Z + Z :=
  if nonzero_int (socket_bufsize t) && ((sndbuf <? socket_bufsize t) || (rcvbuf <? socket_bufsize t)) then inr IESETBUF2
  else inl (if (sndbuf <? blksize t) || (rcvbuf <? blksize t) then 1 else 0).

Section Sizes.
Context (sndbuf rcvbuf : Z) (Hb : buffers sndbuf rcvbuf).

(** One direction of the check. *)
Lemma check_buffer_answer fd name size w :
  (forall hs, out (os (hs ++ [SYS_getsockopt fd SOL_SOCKET name])) = size) ->
  let t := settings (w_test w) in
  exists w', w_test w' = w_test w /\
    check_buffer os fd name w =
    (if nonzero_int (socket_bufsize t) && (size <? socket_bufsize t) then inr IESETBUF2 else inl (size <? blksize t), w').
Proof.
  intros Hs. cbn zeta. unfold check_buffer, mbind, M_bind, get_test.
  destruct (do_out_answer (SYS_getsockopt fd SOL_SOCKET name) w) as (w' & -> & Ht).
  rewrite (bu_get _ _ Hb), Hs. exists w'. split; [done|]. cbn [fst snd]. by destruct (_ && _).
Qed.

Lemma check_buffers_answer fd w : (check_buffers os fd w).1 = buffers_verdict (settings (w_test w)) sndbuf rcvbuf.
Proof.
  unfold check_buffers, buffers_verdict, mbind, M_bind.
  destruct (check_buffer_answer fd SO_SNDBUF sndbuf w (fun hs => bu_snd _ _ Hb hs fd)) as (w1 & Ht1 & ->).
  destruct (nonzero_int _) eqn:En; cbn [andb]; [destruct (sndbuf <? socket_bufsize _); cbn [orb]; [done|]|];
    destruct (check_buffer_answer fd SO_RCVBUF rcvbuf w1 (fun hs => bu_rcv _ _ Hb hs fd)) as (w2 & Ht2 & ->);
    rewrite Ht1, En; cbn [andb]; [|done]. by destruct (rcvbuf <? socket_bufsize _).
Qed.

(** iperf_udp_buffercheck decides by the sizes the kernel reports: IESETBUF2
    when a size was asked for and one of the buffers is smaller, otherwise 1
    when a block does not fit into one of them and 0 when it does. *)
Theorem iperf_udp_buffercheck_result fd w :
  (iperf_udp_buffercheck os fd w).1 = buffers_verdict (settings (w_test w)) sndbuf rcvbuf.
Proof.
  unfold iperf_udp_buffercheck, mbind, M_bind, get_test. cbv beta iota.
  destruct (nonzero_int _); [|apply check_buffers_answer].
  destruct (do_answer (SYS_setsockopt fd SOL_SOCKET SO_RCVBUF (socket_bufsize (settings (w_test w)))) w)
    as (w1 & -> & Ht1). rewrite (bu_set _ _ Hb). change (0 <? 0) with false. cbv beta iota.
  destruct (do_answer (SYS_setsockopt fd SOL_SOCKET SO_SNDBUF (socket_bufsize (settings (w_test w)))) w1)
    as (w2 & -> & Ht2). rewrite (bu_set _ _ Hb). change (0 <? 0) with false. cbv iota.
  unfold mret, M_ret. rewrite check_buffers_answer. by rewrite Ht2, Ht1.
Qed.

End Sizes.

End Connections.

(** ** Concrete systems *)

(** A system that gives descriptor 7 and IPv6 addresses, buffers of 212992 bytes
    and cookies of 37 letters, and otherwise answers 0. *)
Definition some_os (hs : list syscall) : answer :=
  match last hs with
  | Some (SYS_getaddrinfo _ _ _ _ _) => mkanswer 0 0 AF_INET6 []
  | Some (SYS_socket _ _) | Some (SYS_accept _) | Some SYS_mkstemp | Some (SYS_open _ _) => mkanswer 7 0 0 []
  | Some (SYS_getsockopt _ _ _) => mkanswer 0 0 212992 []
  | Some (SYS_read _ n) => mkanswer (Z.of_nat n) 0 0 (repeat 97 n)
  | Some SYS_malloc | Some (SYS_mmap _ _) => mkanswer 4096 0 0 []
  | _ => mkanswer 0 0 0 []
  end.

Definition some_world (t : iperf_test) : world :=
  mk_world (mksys [] 0 0 [3; 0] 0 0 0) t (mk_host 3 [104] None 0 None 0).

(** With socket options the listener 3 is replaced by 7. *)
Lemma iperf_tcp_listen_witness :
  let w := some_world ((iperf_defaults true) {{ no_delay := 1; read_set := {[ 3 ]} }}) in
  fst (iperf_tcp_listen some_os w) = inl 7 /\
  match iperf_tcp_listen some_os w with
  | (inl fd, w') => listening (w_test w) (w_host w) [0] 0 fd w'
  | (inr e, w') => not_listening (w_host w) [0] 0 e w'
  end.
Proof.
  intros w. split; [by vm_compute|]. exact (iperf_tcp_listen_ledger some_os [0] w eq_refl).
Defined.

Lemma iperf_udp_connect_witness :
  let w := some_world (iperf_defaults true) in
  fst (iperf_udp_connect some_os w) = inl 7 /\
  match iperf_udp_connect some_os w with
  | (inl s, w') => udp_connected (w_test w) (w_host w) [3; 0] 0 s w'
  | (inr e, w') => not_udp_connected (w_test w) (w_host w) [3; 0] 0 e w'
  end.
Proof. intros w. split; [by vm_compute|]. exact (iperf_udp_connect_ledger some_os w eq_refl eq_refl). Defined.

Lemma iperf_new_stream_witness :
  let w := some_world (iperf_defaults true) in
  match iperf_new_stream some_os [] 5 true w with
  | (inl ns, w') =>
      made (w_test w) (w_host w) [3; 0] 0 0 5 true ns w' /\
      match iperf_free_stream some_os ns w' with
      | (inl _, w'') => held (w_test w') (w_host w) [3; 0] 0 0 w''
      | (inr _, _) => False
      end
  | (inr e, w') => not_made (w_test w) (w_host w) [3; 0] 0 0 e w'
  end.
Proof.
  refine (iperf_new_stream_ledger some_os _ [] 5 true (some_world (iperf_defaults true))).
  intros hs. unfold some_os. destruct (last hs) as [[]|]; cbn; lia.
Defined.


Lemma iperf_tcp_accept_witness :
  let w := some_world ((iperf_defaults true) {{ cookie := repeat 97 36 ++ [0] }}) in
  exists r w', iperf_tcp_accept some_os w = Ok (r, w') /\ tcp_accepted (w_test w) (w_host w) [3; 0] 0 r w'.
Proof.
  refine (iperf_tcp_accept_ledger some_os (some_world ((iperf_defaults true) {{ cookie := repeat 97 36 ++ [0] }})) _ _ _).
  - cbn. set_solver.
  - reflexivity.
  - intros hs fd _. unfold some_os. by rewrite last_snoc.
Defined.

(** The default block of TCP does not fit into a buffer of 100000 bytes. *)
Lemma iperf_udp_buffercheck_witness :
  let os hs := match last hs with
               | Some (SYS_getsockopt _ _ _) => mkanswer 0 0 100000 []
               | _ => mkanswer 0 0 0 []
               end in
  (iperf_udp_buffercheck os 7 (some_world (iperf_defaults true))).1 =
  buffers_verdict (settings (iperf_defaults true)) 100000 100000 /\
  buffers_verdict (settings (iperf_defaults true)) 100000 100000 = inl 1.
Proof.
  cbv zeta. split; [|reflexivity].
  refine (iperf_udp_buffercheck_result _ 100000 100000 _ 7 (some_world (iperf_defaults true))).
  constructor; intros; by rewrite last_snoc.
Defined.

(** A client that connects to the data port and closes at once makes the server
    compare the cookie with uninitialised memory. *)
Theorem iperf_tcp_accept_short_cookie :
  let os hs := match last hs with
               | Some (SYS_accept _) => mkanswer 7 0 0 []
               | _ => mkanswer 0 0 0 []       (* the read finds the end of the stream *)
               end in
  iperf_tcp_accept os (some_world ((iperf_defaults true) {{ cookie := repeat 97 36 ++ [0] }})) = UB.
Proof. reflexivity. Qed.
