(* ===== verification/Args.v ===== *)
(** * The command line (iperf_api.c: iperf_parse_arguments)

    getopt_long with the option table of the program, the switch over the
    options as a list of cases, and the checks after the loop.  The build has
    sendfile and neither CPU affinity, flow labels, SCTP, TCP_CONGESTION,
    socket pacing nor SSL. *)

From coqutil Require Import Datatypes.RecordSetters.
From Stdlib Require Import SpecFloat.
From Stdlib Require Import String.
From S2P Require Import Prelude.
From S2P Require Import Cdouble.
From S2P Require Import Cscan.
From S2P Require Import Units.
From S2P Require Import Dscp.
From S2P Require Import Iperf.
From stdpp Require Import base numbers gmap list.
Import DoubleBraceUpdate.

Open Scope Z_scope.
Open Scope c_scope.

Abbreviation OPT_SCTP := 1.
Abbreviation OPT_LOGFILE := 2.
Abbreviation OPT_GET_SERVER_OUTPUT := 3.
Abbreviation OPT_UDP_COUNTERS_64BIT := 4.
Abbreviation OPT_CLIENT_PORT := 5.
Abbreviation OPT_NUMSTREAMS := 6.
Abbreviation OPT_FORCEFLUSH := 7.
Abbreviation OPT_NO_FQ_SOCKET_PACING := 9.
Abbreviation OPT_FQ_RATE := 10.
Abbreviation OPT_DSCP := 11.
Abbreviation OPT_PACING_TIMER := 16.
Abbreviation OPT_CONNECT_TIMEOUT := 17.
Abbreviation OPT_REPEATING_PAYLOAD := 18.
Abbreviation OPT_EXTRA_DATA := 19.
Abbreviation OPT_BIDIRECTIONAL := 20.

Abbreviation MAX_TIME := 86400.
Abbreviation MAX_STREAMS := 128.
Abbreviation MAX_BURST := 1000.
Abbreviation MAX_MSS := (9 * 1024).
Abbreviation MAX_TCP_BUFFER := (512 * 1024 * 1024).
Abbreviation MAX_BLOCKSIZE := (1024 * 1024).
Abbreviation MIN_UDP_BLOCKSIZE := 16.
Abbreviation MAX_UDP_BLOCKSIZE := 65507.
Abbreviation UDP_RATE := (1024 * 1024).
Abbreviation AF_INET := 2.
Abbreviation AF_INET6 := 10.

Abbreviation IESERVCLIENT := 1.
Abbreviation IENOROLE := 2.
Abbreviation IESERVERONLY := 3.
Abbreviation IECLIENTONLY := 4.
Abbreviation IEDURATION := 5.
Abbreviation IENUMSTREAMS := 6.
Abbreviation IEBLOCKSIZE := 7.
Abbreviation IEBUFSIZE := 8.
Abbreviation IEINTERVAL := 9.
Abbreviation IEMSS := 10.
Abbreviation IEUNIMP := 13.
Abbreviation IEOMIT := 12.
Abbreviation IEBURST := 15.
Abbreviation IEENDCONDITIONS := 16.
Abbreviation IEUDPBLOCKSIZE := 20.
Abbreviation IEBADTOS := 21.
Abbreviation IEBADFORMAT := 24.
Abbreviation IEREVERSEBIDIR := 25.
Abbreviation IEBADPORT := 26.

(** ** getopt_long

    The options of [argv] in order as (value, argument); ['?'] for an error.
    Arguments that are no options are passed over, [--] ends the options, a
    long name may be shortened as long as it is unique. *)

Definition shortopts : bytes := bytes_of "p:f:i:D1VJvsc:ub:t:n:k:l:P:Rw:B:M:N46S:L:ZO:F:A:T:C:dI:hX:".

(** name, whether it has an argument, value *)
Definition longopts : list (bytes * bool * Z) :=
  map (fun o => (bytes_of o.1.1, o.1.2, o.2))
    [("port", true, 112); ("format", true, 102); ("interval", true, 105); ("daemon", false, 68);
     ("one-off", false, 49); ("verbose", false, 86); ("json", false, 74); ("version", false, 118);
     ("server", false, 115); ("client", true, 99); ("udp", false, 117); ("bitrate", true, 98);
     ("bandwidth", true, 98); ("time", true, 116); ("bytes", true, 110); ("blockcount", true, 107);
     ("length", true, 108); ("parallel", true, 80); ("reverse", false, 82);
     ("bidir", false, OPT_BIDIRECTIONAL); ("window", true, 119); ("bind", true, 66);
     ("cport", true, OPT_CLIENT_PORT); ("set-mss", true, 77); ("no-delay", false, 78);
     ("version4", false, 52); ("version6", false, 54); ("tos", true, 83); ("dscp", true, OPT_DSCP);
     ("extra-data", true, OPT_EXTRA_DATA); ("zerocopy", false, 90); ("omit", true, 79); ("file", true, 70);
     ("repeating-payload", false, OPT_REPEATING_PAYLOAD); ("title", true, 84); ("pidfile", true, 73);
     ("logfile", true, OPT_LOGFILE); ("forceflush", false, OPT_FORCEFLUSH);
     ("get-server-output", false, OPT_GET_SERVER_OUTPUT);
     ("udp-counters-64bit", false, OPT_UDP_COUNTERS_64BIT);
     ("no-fq-socket-pacing", false, OPT_NO_FQ_SOCKET_PACING); ("fq-rate", true, OPT_FQ_RATE);
     ("pacing-timer", true, OPT_PACING_TIMER); ("connect-timeout", true, OPT_CONNECT_TIMEOUT);
     ("debug", false, 100); ("help", false, 104)]%string.

(** Whether a short option has an argument. *)
Fixpoint short_option (c : Z) (l : bytes) : option bool :=
  match l with
  | x :: (58 :: _) as r => if x =? c then Some true else short_option c r
  | x :: r => if (x =? c) && negb (c =? 58) then Some false else short_option c r
  | [] => None
  end.

Fixpoint prefixb (p l : bytes) : bool :=
  match p, l with
  | [], _ => true
  | x :: p, y :: l => (x =? y) && prefixb p l
  | _, [] => false
  end.

Definition long_option (name : bytes) : option (bool * Z) :=
  match find (fun o : bytes * bool * Z => bool_decide (o.1.1 = name)) longopts with
  | Some o => Some (o.1.2, o.2)
  | None =>
      match filter (fun o : bytes * bool * Z => prefixb name o.1.1 = true) longopts with
      | [o] => Some (o.1.2, o.2)
      | _ => None
      end
  end.

(** The text before and after the first [c]. *)
Fixpoint split_at (c : Z) (l : bytes) : bytes * option bytes :=
  match l with
  | [] => ([], None)
  | x :: r => if x =? c then ([], Some r) else let '(a, b) := split_at c r in (x :: a, b)
  end.

Abbreviation event := (Z * bytes)%type.
Abbreviation QUESTION := (63, @nil Z).

(** The letters of one argument; whether the next argument was used. *)
Fixpoint cluster (l : bytes) (next : option bytes) : list event * bool :=
  match l with
  | [] => ([], false)
  | c :: r =>
      match short_option c shortopts with
      | Some false => let '(ev, b) := cluster r next in ((c, []) :: ev, b)
      | Some true =>
          match r, next with
          | _ :: _, _ => ([(c, r)], false)
          | [], Some a => ([(c, a)], true)
          | [], None => ([QUESTION], false)
          end
      | None => let '(ev, b) := cluster r next in (QUESTION :: ev, b)
      end
  end.

Definition long (l : bytes) (next : option bytes) : list event * bool :=
  let '(name, val) := split_at 61 l in
  match long_option name, val, next with
  | Some (false, v), None, _ => ([(v, [])], false)
  | Some (true, v), Some a, _ => ([(v, a)], false)
  | Some (true, v), None, Some a => ([(v, a)], true)
  | _, _, _ => ([QUESTION], false)
  end.

Fixpoint getopt_long (argv : list bytes) : list event :=
  match argv with
  | [] => []
  | a :: r =>
      let one :=
        match a with
        | x :: y :: l =>
            if x =? 45
            then if y =? 45 then match l with [] => None | _ => Some (long l (hd_error r)) end
                 else Some (cluster (y :: l) (hd_error r))
            else Some ([], false)
        | _ => Some ([], false)
        end in
      match one with
      | None => []
      | Some (ev, false) => ev ++ getopt_long r
      | Some (ev, true) => ev ++ match r with [] => [] | _ :: r => getopt_long r end
      end
  end.

(** ** What is parsed *)

(** The test, the other fields of it that only options set, and the local
    variables of the function. *)
Record args := mk_args
  { a_test : iperf_test;
    stats_interval : double;
    reporter_interval : double;
    daemon : bool;
    one_off : bool;
    verbose : bool;
    json_output : bool;
    zerocopy : bool;
    debug : bool;
    forceflush : bool;
    server_hostname : option bytes;
    bind_address : option bytes;
    bind_port : Z;
    diskfile_name : option bytes;
    pidfile : option bytes;
    logfile : option bytes;
    xbind_addrs : list bytes;
    num_ostreams : Z;
    l_blksize : Z;
    server_flag : bool;
    client_flag : bool;
    rate_flag : bool;
    duration_flag : bool }.

(** The effect of an option, and of the whole: go on, return -1 with i_errno
    (what was changed until then is left out), or exit. *)
Inductive parsed : Type :=
| Parsed (a : args)
| Error (e : Z)
| Exited (status : Z).

Definition handler := args -> bytes -> outcome parsed.

(** The next option after an assignment, with the flag of client options. *)
Definition next (a : args) : outcome parsed := Ok (Parsed a).
Definition client (a : args) : outcome parsed := Ok (Parsed (a {{ client_flag := true }})).
Definition fail_with (e : Z) : outcome parsed := Ok (Error e).

Definition set_test (a : args) (t : iperf_test) : args := a {{ a_test := t }}.

Definition MIN_INTERVAL : double := dec_to_double false 1 (-1).
Definition MAX_INTERVAL : double := d_of_Z 60.

Section Parse.
Variable has_tcpinfo_retransmits : bool.

Definition opt_port : handler := fun a s =>
  let portno := atoi s in
  if (portno <? 1) || (65535 <? portno) then fail_with IEBADPORT
  else next (set_test a ((a_test a) {{ server_port := portno }})).

Definition opt_format : handler := fun a s =>
  let c := match s with c :: _ => c | [] => 0 end in
  if bool_decide (c ∈ [107; 75; 109; 77; 103; 71; 116; 84])
  then next (set_test a ((a_test a) {{ settings -> unit_format := c }})) else fail_with IEBADFORMAT.

Definition opt_interval : handler := fun a s =>
  let x := atof s in
  if (dltb x MIN_INTERVAL || dltb MAX_INTERVAL x) && negb (deqb x d0) then fail_with IEINTERVAL
  else next (a {{ stats_interval := x; reporter_interval := x }}).

Definition opt_server : handler := fun a _ =>
  if role (a_test a) =? role_client then fail_with IESERVCLIENT
  else next (set_test a (iperf_set_test_role has_tcpinfo_retransmits (a_test a) role_server)).

Definition opt_client : handler := fun a s =>
  if role (a_test a) =? role_server then fail_with IESERVCLIENT
  else next ((set_test a (iperf_set_test_role has_tcpinfo_retransmits (a_test a) role_client)) {{ server_hostname := Some s }}).

Definition opt_udp : handler := fun a _ => client (set_test a (snd (set_protocol has_tcpinfo_retransmits (a_test a) Pudp))).

Definition opt_rate : handler := fun a s =>
  let '(s, slash) := split_at 47 s in
  let burst_ := match slash with Some b => atoi b | None => burst (settings (a_test a)) end in
  if (match slash with Some _ => true | None => false end) && ((burst_ <=? 0) || (MAX_BURST <? burst_))
  then fail_with IEBURST
  else
    let! r := unit_atof_rate s in
    let! r := u64_of_double r in
    client ((set_test a ((a_test a) {{ settings -> burst := burst_; settings -> rate := r }})) {{ rate_flag := true }}).

(** The case of OPT_NUMSTREAMS has no break and goes on with that of -b. *)
Definition opt_numstreams : handler := fun a s =>
  let! n := unit_atoi s in
  opt_rate (a {{ num_ostreams := i32 n; client_flag := true }}) s.

Definition opt_time : handler := fun a s =>
  let d := atoi s in
  if MAX_TIME <? d then fail_with IEDURATION
  else client ((set_test a ((a_test a) {{ duration := d }})) {{ duration_flag := true }}).

Definition opt_bytes_ : handler := fun a s =>
  let! n := unit_atoi s in client (set_test a ((a_test a) {{ settings -> bytes_ := n }})).
Definition opt_blocks : handler := fun a s =>
  let! n := unit_atoi s in client (set_test a ((a_test a) {{ settings -> blocks := n }})).
Definition opt_length : handler := fun a s =>
  let! n := unit_atoi s in client (a {{ l_blksize := i32 n }}).

Definition opt_parallel : handler := fun a s =>
  let n := atoi s in
  if MAX_STREAMS <? n then fail_with IENUMSTREAMS
  else client (set_test a ((a_test a) {{ num_streams := n }})).

Definition opt_reverse : handler := fun a _ =>
  if negb (bidirectional (a_test a) =? 0) then fail_with IEREVERSEBIDIR
  else client (set_test a (iperf_set_test_reverse has_tcpinfo_retransmits (a_test a) 1)).

Definition opt_bidir : handler := fun a _ =>
  if negb (reverse_ (a_test a) =? 0) then fail_with IEREVERSEBIDIR
  else client (set_test a (iperf_set_test_bidirectional has_tcpinfo_retransmits (a_test a) 1)).

Definition opt_window : handler := fun a s =>
  let! farg := unit_atof s in
  if dltb (d_of_Z MAX_TCP_BUFFER) farg then fail_with IEBUFSIZE
  else let! n := int_of_double farg in client (set_test a ((a_test a) {{ settings -> socket_bufsize := n }})).

Definition opt_cport : handler := fun a s =>
  let portno := atoi s in
  if (portno <? 1) || (65535 <? portno) then fail_with IEBADPORT else next (a {{ bind_port := portno }}).

Definition opt_mss : handler := fun a s =>
  let n := atoi s in
  if MAX_MSS <? n then fail_with IEMSS else client (set_test a ((a_test a) {{ settings -> mss := n }})).

Definition opt_tos : handler := fun a s =>
  let '(v, endptr) := strtol 0 s in
  let v := i32 v in
  if bool_decide (endptr = s) || (v <? 0) || (255 <? v) then fail_with IEBADTOS
  else client (set_test a ((a_test a) {{ settings -> tos := v }})).

Definition opt_dscp : handler := fun a s =>
  let v := parse_qos s in
  if v <? 0 then fail_with IEBADTOS else client (set_test a ((a_test a) {{ settings -> tos := v }})).

Definition opt_omit : handler := fun a s =>
  let n := atoi s in
  if (n <? 0) || (60 <? n) then fail_with IEOMIT else client (set_test a ((a_test a) {{ omit := n }})).

Definition opt_pacing_timer : handler := fun a s =>
  let! n := unit_atoi s in client (set_test a ((a_test a) {{ settings -> pacing_timer := i32 n }})).
Definition opt_connect_timeout : handler := fun a s =>
  let! n := unit_atoi s in client (set_test a ((a_test a) {{ settings -> connect_timeout := i32 n }})).

(** The switch, in its order: from -p to -P, from -R to -Z, the rest. *)
Definition switch_basic : list (Z * handler) :=
  [ (112, opt_port);
    (102, opt_format);
    (105, opt_interval);
    (68, fun a _ => next (a {{ daemon := true; server_flag := true }}));
    (49, fun a _ => next (a {{ one_off := true; server_flag := true }}));
    (86, fun a _ => next (a {{ verbose := true }}));
    (74, fun a _ => next (a {{ json_output := true }}));
    (118, fun _ _ => Ok (Exited 0));
    (115, opt_server);
    (99, opt_client);
    (117, opt_udp);
    (OPT_SCTP, fun _ _ => fail_with IEUNIMP);
    (OPT_NUMSTREAMS, opt_numstreams);
    (98, opt_rate);
    (116, opt_time);
    (110, opt_bytes_);
    (107, opt_blocks);
    (108, opt_length);
    (80, opt_parallel) ].

Definition switch_socket : list (Z * handler) :=
  [ (82, opt_reverse);
    (OPT_BIDIRECTIONAL, opt_bidir);
    (119, opt_window);
    (66, fun a s => next (a {{ bind_address := Some s }}));
    (OPT_CLIENT_PORT, opt_cport);
    (77, opt_mss);
    (78, fun a _ => client (set_test a ((a_test a) {{ no_delay := 1 }})));
    (52, fun a _ => next (set_test a ((a_test a) {{ settings -> domain := AF_INET }})));
    (54, fun a _ => next (set_test a ((a_test a) {{ settings -> domain := AF_INET6 }})));
    (83, opt_tos);
    (OPT_DSCP, opt_dscp);
    (OPT_EXTRA_DATA, fun a s => client (set_test a ((a_test a) {{ extra_data := Some s }})));
    (76, fun _ _ => fail_with IEUNIMP);
    (88, fun a s => next (a {{ xbind_addrs := xbind_addrs a ++ [s] }}));
    (90, fun a _ => client (a {{ zerocopy := true }})) ].

Definition switch_rest : list (Z * handler) :=
  [ (OPT_REPEATING_PAYLOAD, fun a _ => client (set_test a ((a_test a) {{ repeating_payload := 1 }})));
    (79, opt_omit);
    (70, fun a s => next (a {{ diskfile_name := Some s }}));
    (65, fun _ _ => fail_with IEUNIMP);
    (84, fun a s => client (set_test a ((a_test a) {{ title := Some s }})));
    (67, fun _ _ => fail_with IEUNIMP);
    (100, fun a _ => next (a {{ debug := true }}));
    (73, fun a s => next (a {{ pidfile := Some s; server_flag := true }}));
    (OPT_LOGFILE, fun a s => next (a {{ logfile := Some s }}));
    (OPT_FORCEFLUSH, fun a _ => next (a {{ forceflush := true }}));
    (OPT_GET_SERVER_OUTPUT, fun a _ => client (set_test a ((a_test a) {{ get_server_output := 1 }})));
    (OPT_UDP_COUNTERS_64BIT, fun a _ => next (set_test a ((a_test a) {{ udp_counters_64bit := 1 }})));
    (OPT_NO_FQ_SOCKET_PACING, fun _ _ => fail_with IEUNIMP);
    (OPT_FQ_RATE, fun _ _ => fail_with IEUNIMP);
    (OPT_PACING_TIMER, opt_pacing_timer);
    (OPT_CONNECT_TIMEOUT, opt_connect_timeout);
    (104, fun _ _ => Ok (Exited 0)) ].

Definition switch : list (Z * handler) := switch_basic ++ switch_socket ++ switch_rest.

Definition parse_option (a : args) (ev : event) : outcome parsed :=
  match find (fun h => fst h =? fst ev) switch with
  | Some (_, h) => h a (snd ev)
  | None => Ok (Exited 1)
  end.

(** The loop. *)
Fixpoint parse_options (evs : list event) (a : args) : outcome parsed :=
  match evs with
  | [] => Ok (Parsed a)
  | ev :: evs =>
      let! r := parse_option a ev in
      match r with
      | Parsed a => parse_options evs a
      | r => Ok r
      end
  end.

(** The checks after the loop. *)
Definition check_options (a : args) : parsed :=
  let t := a_test a in
  if (role t =? role_client) && server_flag a then Error IESERVERONLY
  else if (role t =? role_server) && client_flag a then Error IECLIENTONLY
  else
    let blk := if l_blksize a =? 0 then if protocol t =? Pudp then 0 else DEFAULT_TCP_BLKSIZE else l_blksize a in
    if (negb (protocol t =? Pudp) && (blk <=? 0)) || (MAX_BLOCKSIZE <? blk) then Error IEBLOCKSIZE
    else if (protocol t =? Pudp) && ((0 <? blk) && ((blk <? MIN_UDP_BLOCKSIZE) || (MAX_UDP_BLOCKSIZE <? blk)))
    then Error IEUDPBLOCKSIZE
    else
      let t := t {{ settings -> blksize := blk }} in
      let t := if rate_flag a then t
               else t {{ settings -> rate := if protocol t =? Pudp then UDP_RATE else 0 }} in
      let bytes_given := negb (bytes_ (settings t) =? 0) in
      let blocks_given := negb (blocks (settings t) =? 0) in
      let t := if (bytes_given || blocks_given) && negb (duration_flag a) then t {{ duration := 0 }} else t in
      if (duration_flag a && bytes_given) || (duration_flag a && blocks_given) || (bytes_given && blocks_given)
      then Error IEENDCONDITIONS
      else if negb (role t =? role_client) && negb (role t =? role_server) then Error IENOROLE
      else Parsed (set_test a t).

Definition iperf_parse_arguments (a : args) (argv : list bytes) : outcome parsed :=
  let! r := parse_options (getopt_long (tl argv)) a in
  match r with
  | Parsed a => Ok (check_options a)
  | r => Ok r
  end.

(** The test of main() before the options are read. *)
Definition default_args : args :=
  mk_args (iperf_defaults has_tcpinfo_retransmits) (d_of_Z 1) (d_of_Z 1) false false false false false false false
    None None 0 None None None [] 0 0 false false false false.

End Parse.
