(* ===== verification/Transfer.v ===== *)
(** * Moving data (iperf_api.c: iperf_send, iperf_recv, iperf_check_throttle,
    diskfile_send; iperf_tcp.c: iperf_tcp_send, iperf_tcp_recv)

    A stream sends and receives through the function pointers [snd] and [rcv]
    that its protocol installs.  [StreamIO] is what iperf_send and iperf_recv
    rely on; the TCP and UDP functions implement it. *)

From coqutil Require Import Datatypes.RecordSetters.
From Stdlib Require Import SpecFloat.
From S2P Require Import Prelude.
From S2P Require Import IperfTime.
From S2P Require Import Cdouble.
From S2P Require Import Net.
From S2P Require Import Stream.
From S2P Require Import Frame.
From S2P Require Import Iperf.
From S2P Require Import Udp.
From stdpp Require Import base numbers gmap list.
Import DoubleBraceUpdate.

Open Scope Z_scope.
Open Scope c_scope.

Abbreviation IESTREAMWRITE := 205.
Abbreviation IESTREAMREAD := 206.

(** ** iperf_check_throttle *)

(** The average rate of a stream so far. *)
Definition bits_per_second (sp : iperf_stream) (now : iperf_time) : outcome Z :=
  let seconds := iperf_time_in_secs (snd (iperf_time_diff (start_time_fixed (result sp)) now)) in
  u64_of_double (ddiv (d_of_Z (u64 (bytes_sent (result sp) * 8))) seconds).

(** The stream and the write set of the test. *)
Definition iperf_check_throttle (test : iperf_test) (sp : iperf_stream) (now : iperf_time)
    : outcome (iperf_stream * gset Z) :=
  if done_ test then Ok (sp, write_set test)
  else
    let! bps := bits_per_second sp now in
    if bps <? rate (settings test)
    then Ok (sp {{ green_light := true }}, {[ socket sp ]} ∪ write_set test)
    else Ok (sp {{ green_light := false }}, write_set test ∖ {[ socket sp ]}).

(** ** iperf_send and iperf_recv

    [W] is the state of the sockets and of the clock. *)
Section Transfer.
Context {W : Type}.
Variable snd_fn : iperf_test -> iperf_stream -> W -> outcome (Z * iperf_stream * W).
Variable rcv_fn : iperf_test -> iperf_stream -> W -> outcome (Z * iperf_stream * W).
Variable clock : W -> iperf_time * W.

(** How a loop over the streams ends. *)
Inductive flow : Type :=
| Go
| Break
| Return (r : Z).

(** The body of the inner loop of iperf_send for one stream: the flow, whether
    the stream was active, the test (all but its streams), the stream. *)
Definition send_stream (multisend : Z) (now : iperf_time) (write_setP : option (gset Z))
    (test : iperf_test) (sp : iperf_stream) (w : W)
    : outcome (flow * bool * iperf_test * iperf_stream * W) :=
  let set := settings test in
  if green_light sp && sender sp && (match write_setP with None => true | Some ws => bool_decide (socket sp ∈ ws) end)
  then
    let! r := snd_fn test sp w in
    let '(r, sp, w) := r in
    if r <? 0
    then if r =? NET_SOFTERROR then Ok (Break, false, test, sp, w) else Ok (Return r, false, test, sp, w)
    else
      let test := test {{ t_bytes_sent := u64 (t_bytes_sent test + r);
                          t_blocks_sent := u64 (t_blocks_sent test + 1) }} in
      let! th :=
        if negb (rate set =? 0) && (burst set =? 0)
        then iperf_check_throttle test sp now else Ok (sp, write_set test) in
      let '(sp, ws) := th in
      let test := test {{ write_set := ws }} in
      if (1 <? multisend) && negb (bytes_ set =? 0) && (bytes_ set <=? t_bytes_sent test)
      then Ok (Break, true, test, sp, w)
      else if (1 <? multisend) && negb (blocks set =? 0) && (blocks set <=? t_blocks_sent test)
      then Ok (Break, true, test, sp, w)
      else Ok (Go, true, test, sp, w)
  else Ok (Go, false, test, sp, w).

(** One pass over the streams [todo]; [None] or the value to return, whether a
    stream was active, the test, the streams. *)
Fixpoint send_pass (multisend : Z) (now : iperf_time) (write_setP : option (gset Z))
    (test : iperf_test) (active : bool) (todo : list iperf_stream) (w : W)
    : outcome (option Z * bool * iperf_test * list iperf_stream * W) :=
  match todo with
  | [] => Ok (None, active, test, [], w)
  | sp :: todo =>
      let! r := send_stream multisend now write_setP test sp w in
      let '(fl, act, test, sp, w) := r in
      match fl with
      | Return r => Ok (Some r, active || act, test, sp :: todo, w)
      | Break => Ok (None, active || act, test, sp :: todo, w)
      | Go =>
          let! r := send_pass multisend now write_setP test (active || act) todo w in
          let '(ret, active, test, rest, w) := r in Ok (ret, active, test, sp :: rest, w)
      end
  end.

(** The outer loop: [n] is the number of passes left. *)
Fixpoint send_passes (n : nat) (now : iperf_time) (write_setP : option (gset Z)) (test : iperf_test) (w : W)
    : outcome (option Z * iperf_test * W) :=
  match n with
  | O => Ok (None, test, w)
  | S n' =>
      let '(now, w) :=
        if negb (rate (settings test) =? 0) && (burst (settings test) =? 0) then clock w else (now, w) in
      let! r := send_pass (Z.of_nat n) now write_setP test false (streams test) w in
      let '(ret, active, test, sps, w) := r in
      let test := test {{ streams := sps }} in
      match ret with
      | Some r => Ok (Some r, test, w)
      | None => if active then send_passes n' now write_setP test w else Ok (None, test, w)
      end
  end.

(** [iperf_check_throttle] on every stream *)
Fixpoint throttle_all (now : iperf_time) (test : iperf_test) (todo : list iperf_stream)
    : outcome (iperf_test * list iperf_stream) :=
  match todo with
  | [] => Ok (test, [])
  | sp :: todo =>
      let! r := iperf_check_throttle test sp now in
      let '(sp, ws) := r in
      let! r := throttle_all now (test {{ write_set := ws }}) todo in
      let '(test, rest) := r in Ok (test, sp :: rest)
  end.

(** The return value, i_errno if it is set, the test and the caller's set
    ([None] for a null pointer); [now0] is the uninitialised variable [now]. *)
Definition iperf_send (test : iperf_test) (write_setP : option (gset Z)) (now0 : iperf_time) (w : W)
    : outcome (Z * option Z * iperf_test * option (gset Z) * W) :=
  let set := settings test in
  let multisend := if negb (burst set =? 0) then burst set else if rate set =? 0 then multisend test else 1 in
  let! r := send_passes (Z.to_nat multisend) now0 write_setP test w in
  let '(ret, test, w) := r in
  match ret with
  | Some r => Ok (r, Some IESTREAMWRITE, test, write_setP, w)
  | None =>
      let! r :=
        if negb (burst set =? 0)
        then let '(now, w) := clock w in
             let! r := throttle_all now test (streams test) in
             let '(test, sps) := r in Ok (test {{ streams := sps }}, w)
        else Ok (test, w) in
      let '(test, w) := r in
      let clear ws := foldl (fun ws sp => ws ∖ {[ socket sp ]}) ws (streams test) in
      Ok (0, None, test, clear <$> write_setP, w)
  end.

(** The loop of iperf_recv. *)
Fixpoint recv_pass (test : iperf_test) (read_set : gset Z) (todo : list iperf_stream) (w : W)
    : outcome (option Z * iperf_test * gset Z * list iperf_stream * W) :=
  match todo with
  | [] => Ok (None, test, read_set, [], w)
  | sp :: todo =>
      if bool_decide (socket sp ∈ read_set) && negb (sender sp)
      then
        let! r := rcv_fn test sp w in
        let '(r, sp, w) := r in
        if r <? 0 then Ok (Some r, test, read_set, sp :: todo, w)
        else
          let test := test {{ t_bytes_received := u64 (t_bytes_received test + r);
                              t_blocks_received := u64 (t_blocks_received test + 1) }} in
          let! r := recv_pass test (read_set ∖ {[ socket sp ]}) todo w in
          let '(ret, test, rs, rest, w) := r in Ok (ret, test, rs, sp :: rest, w)
      else
        let! r := recv_pass test read_set todo w in
        let '(ret, test, rs, rest, w) := r in Ok (ret, test, rs, sp :: rest, w)
  end.

Definition iperf_recv (test : iperf_test) (read_setP : gset Z) (w : W)
    : outcome (Z * option Z * iperf_test * gset Z * W) :=
  let! r := recv_pass test read_setP (streams test) w in
  let '(ret, test, rs, sps, w) := r in
  let test := test {{ streams := sps }} in
  match ret with
  | Some r => Ok (r, Some IESTREAMREAD, test, rs, w)
  | None => Ok (0, None, test, rs, w)
  end.

End Transfer.

(** ** TCP streams

    [w] are the sockets by descriptor, [buffer] the block of the stream (also
    the content of its temporary file). *)

Abbreviation fds := (gmap Z sock).

Definition iperf_tcp_send (zerocopy : bool) (buffer : iperf_stream -> bytes)
    (test : iperf_test) (sp : iperf_stream) (w : fds) : outcome (Z * iperf_stream * fds) :=
  let size := Z.to_nat (blksize (settings test)) in
  match w !! socket sp with
  | None => Ok (NET_HARDERROR, sp, w)    (* EBADF *)
  | Some s =>
      let! data := load_at 0 size (buffer sp) in
      let '(r, s) := if zerocopy then Nsendfile (buffer sp) s size else Nwrite s data in
      let w := <[socket sp := s]> w in
      if r <? 0 then Ok (r, sp, w) else Ok (r, add_sent sp r, w)
  end.

Definition iperf_tcp_recv (buffer : iperf_stream -> bytes)
    (test : iperf_test) (sp : iperf_stream) (w : fds) : outcome (Z * iperf_stream * fds) :=
  let size := Z.to_nat (blksize (settings test)) in
  match w !! socket sp with
  | None => Ok (NET_HARDERROR, sp, w)
  | Some s =>
      let! r := Nread s (List.length (buffer sp)) size in
      let '(r, _, s) := r in
      let w := <[socket sp := s]> w in
      if r <? 0 then Ok (r, sp, w)
      else if state test =? TEST_RUNNING then Ok (r, add_received sp r, w) else Ok (r, sp, w)
  end.

(** ** diskfile_send: a stream that sends a file

    [diskfile_left] and [buffer] are of the stream, [file] the unread part of the file; the send
    function of the protocol is given by what it returns, [r]. The value
    returned, diskfile_left, the buffer, the file, test->done, and the block
    that was passed to the send function. *)
Definition diskfile_send (blk : nat) (is_done : bool) (diskfile_left : nat) (buffer file : bytes) (r : Z)
    : outcome (Z * nat * bytes * bytes * bool * bytes) :=
  let! st :=
    if (diskfile_left <? blk)%nat && negb is_done
    then
      let data := take (blk - diskfile_left) file in
      let! buffer := store_at 0 data buffer in
      Ok (buffer, drop (blk - diskfile_left) file,
          is_done || ((List.length data =? 0)%nat && (diskfile_left =? 0)%nat))
    else Ok (buffer, file, is_done) in
  let '(buffer, file, is_done) := st in
  if r <? 0 then Ok (r, diskfile_left, buffer, file, is_done, buffer)
  else
    let diskfile_left := (blk - Z.to_nat r)%nat in
    if negb (diskfile_left =? 0)%nat && (diskfile_left <? blk)%nat
    then
      (* memcpy of overlapping objects is undefined *)
      if (diskfile_left <=? blk - diskfile_left)%nat
      then let! src := load_at (blk - diskfile_left) diskfile_left buffer in
           let! buffer' := store_at 0 src buffer in
           Ok (r, diskfile_left, buffer', file, is_done, buffer)
      else UB
    else Ok (r, diskfile_left, buffer, file, is_done, buffer).

(** ** Properties *)

(** What iperf_send relies on: a send function counts the bytes it reports in
    the stream and leaves the identity of the stream alone. *)
Class SendOk {W} (snd_fn : iperf_test -> iperf_stream -> W -> outcome (Z * iperf_stream * W)) : Prop := {
  snd_identity t sp w r sp' w' : snd_fn t sp w = Ok (r, sp', w') ->
    socket sp' = socket sp /\ stream_id sp' = stream_id sp /\ sender sp' = sender sp;
  snd_counts t sp w r sp' w' : snd_fn t sp w = Ok (r, sp', w') ->
    result sp' = if r <? 0 then result sp else result (add_sent sp r) }.

(** What iperf_recv relies on, while the test is running. *)
Class RecvOk {W} (rcv_fn : iperf_test -> iperf_stream -> W -> outcome (Z * iperf_stream * W)) : Prop := {
  rcv_identity t sp w r sp' w' : rcv_fn t sp w = Ok (r, sp', w') ->
    socket sp' = socket sp /\ stream_id sp' = stream_id sp /\ sender sp' = sender sp;
  rcv_counts t sp w r sp' w' : state t = TEST_RUNNING -> rcv_fn t sp w = Ok (r, sp', w') ->
    u64 (bytes_received (result sp')) = u64 (bytes_received (result sp) + Z.max 0 r) }.

Definition total (f : iperf_stream_result -> Z) (l : list iperf_stream) : Z :=
  foldr (fun sp n => f (result sp) + n) 0 l.

Definition identity (sp : iperf_stream) : Z * Z * bool := (socket sp, stream_id sp, sender sp).

(** Take a successful run apart. *)
Ltac run_inv H :=
  repeat (match type of H with
  | obind ?m _ = Ok _ => let E := fresh "E" in destruct m eqn:E; cbn [obind] in H; [|discriminate H|discriminate H]
  | (let '(_, _) := ?p in _) = Ok _ => destruct p
  | (if ?b then _ else _) = Ok _ => let E := fresh "E" in destruct b eqn:E
  | (match ?x with _ => _ end) = Ok _ => let E := fresh "E" in destruct x eqn:E
  end; try discriminate H); simplify_eq.

(** Use the outcome of a test on the returned value. *)
Ltac use_test := match goal with E : (?r <? 0) = _ |- context [?r <? 0] => rewrite E end; done.

#[export] Instance tcp_send_ok zc buffer : SendOk (iperf_tcp_send zc buffer).
Proof.
  split; intros t sp w r sp' w' H; unfold iperf_tcp_send in H; run_inv H; (done || use_test).
Qed.

Lemma u64_idem x : u64 (u64 x) = u64 x.
Proof. unfold u64. by rewrite Zmod_mod. Qed.

Lemma add_received_bytes sp r :
  bytes_received (result (add_received sp r)) = u64 (bytes_received (result sp) + r).
Proof. done. Qed.

#[export] Instance tcp_recv_ok buffer : RecvOk (iperf_tcp_recv buffer).
Proof.
  split; intros t sp w r sp' w'; [intros H|intros Hst H]; unfold iperf_tcp_recv in H; run_inv H; try done.
  all: try (rewrite Hst in *; done).
  all: rewrite ?Z.max_l by lia; rewrite ?Z.add_0_r; try done.
  rewrite add_received_bytes, Z.max_r by lia. apply u64_idem.
Qed.

(** UDP streams as send and receive functions: the world holds the buffer and
    the socket of each descriptor and what was sent; [before] and [e] are the
    clock and the outcome of the write. *)
Record udp_world := mk_udp { u_buffer : gmap Z bytes; u_queue : gmap Z (list dgram); u_sent : list bytes }.

Definition udp_snd (before : udp_world -> iperf_time) (e : udp_world -> option Z)
    (test : iperf_test) (sp : iperf_stream) (w : udp_world) : outcome (Z * iperf_stream * udp_world) :=
  let! buffer := deref (u_buffer w !! socket sp) in
  let! r := iperf_udp_send test sp buffer (before w) (e w) in
  let '(r, sp', buffer, ds) := r in
  Ok (r, sp', mk_udp (<[socket sp := buffer]> (u_buffer w)) (u_queue w) (u_sent w ++ ds)).

Definition udp_rcv (now : udp_world -> iperf_time)
    (test : iperf_test) (sp : iperf_stream) (w : udp_world) : outcome (Z * iperf_stream * udp_world) :=
  let! buffer := deref (u_buffer w !! socket sp) in
  let! q := deref (u_queue w !! socket sp) in
  let! r := iperf_udp_recv test sp buffer q (now w) in
  let '(r, sp', buffer, q) := r in
  Ok (r, sp', mk_udp (<[socket sp := buffer]> (u_buffer w)) (<[socket sp := q]> (u_queue w)) (u_sent w)).

Lemma udp_send_effect test sp buffer before e r sp' buffer' ds :
  iperf_udp_send test sp buffer before e = Ok (r, sp', buffer', ds) ->
  identity sp' = identity sp /\ result sp' = if r <? 0 then result sp else result (add_sent sp r).
Proof. intros H. unfold iperf_udp_send in H. run_inv H; (split; [done|use_test]). Qed.

#[export] Instance udp_send_ok before e : SendOk (udp_snd before e).
Proof.
  split; intros t sp w r sp' w' H; unfold udp_snd in H; run_inv H;
    match goal with E : iperf_udp_send _ _ _ _ _ = _ |- _ => apply udp_send_effect in E as [Ei Er] end.
  - by injection Ei.
  - done.
Qed.

Lemma udp_count_same sp p sp' : udp_count sp p = Ok sp' -> result sp' = result sp /\ identity sp' = identity sp.
Proof. unfold udp_count. intros H. run_inv H; try done; by destruct (_ <? _). Qed.

(** What iperf_udp_recv does to the stream. *)
Lemma udp_recv_effect test sp buffer q now r sp' buffer' q' :
  iperf_udp_recv test sp buffer q now = Ok (r, sp', buffer', q') ->
  identity sp' = identity sp /\
  (state test = TEST_RUNNING ->
   u64 (bytes_received (result sp')) = u64 (bytes_received (result sp) + Z.max 0 r)).
Proof.
  unfold iperf_udp_recv. intros H.
  destruct (Nread_udp _ _ _) as [[got|] q0]; [|by simplify_eq; rewrite Z.max_l, Z.add_0_r by lia].
  destruct (store_at _ _ _); cbn [obind] in H; [|done|done].
  destruct (Z.leb_spec (i32 (Z.of_nat (List.length got))) 0).
  { simplify_eq. by rewrite Z.max_l, Z.add_0_r by lia. }
  destruct (Z.eqb_spec (state test) TEST_RUNNING); [|by simplify_eq].
  destruct (udp_header _ _) as [[t p]| |]; cbn [obind] in H; [|done|done].
  change (sp {{ result := _ }}) with (add_received sp (i32 (Z.of_nat (List.length got)))) in H.
  destruct (udp_count _ _) as [sp1| |] eqn:E; cbn [obind] in H; [|done|done]. simplify_eq.
  apply udp_count_same in E as [Er Ei]. split; [exact Ei|]. intros _.
  change (result (udp_jitter sp1 now t)) with (result sp1). rewrite Er, add_received_bytes, Z.max_r by lia.
  apply u64_idem.
Qed.

#[export] Instance udp_recv_ok now : RecvOk (udp_rcv now).
Proof.
  split; intros t sp w r sp' w'; [intros H|intros Hst H]; unfold udp_rcv in H; run_inv H;
    match goal with E : iperf_udp_recv _ _ _ _ _ = _ |- _ => apply udp_recv_effect in E as [Ei Eb] end.
  - by injection Ei.
  - by apply Eb.
Qed.

(** ** iperf_send and iperf_recv count what the streams count *)

(** The bytes the test has counted beyond those of its streams, modulo 2^64. *)
Definition surplus_sent (test : iperf_test) (l : list iperf_stream) : Z :=
  u64 (t_bytes_sent test - total bytes_sent l).
Definition surplus_received (test : iperf_test) (l : list iperf_stream) : Z :=
  u64 (t_bytes_received test - total bytes_received l).

Lemma u64_eq a b k : a = b + k * 2 ^ 64 -> u64 a = u64 b.
Proof. intros ->. unfold u64. apply Z_mod_plus_full. Qed.

Lemma u64_split x : exists k, u64 x = x + k * 2 ^ 64.
Proof. exists (- (x / 2 ^ 64)). unfold u64. pose proof (Z.div_mod x (2 ^ 64)). lia. Qed.

Section Accounting.
Context {W : Type} (snd_fn rcv_fn : iperf_test -> iperf_stream -> W -> outcome (Z * iperf_stream * W))
  (clock : W -> iperf_time * W) `{!SendOk snd_fn} `{!RecvOk rcv_fn}.

Lemma throttle_effect test sp now sp' ws :
  iperf_check_throttle test sp now = Ok (sp', ws) -> identity sp' = identity sp /\ result sp' = result sp.
Proof. unfold iperf_check_throttle. intros H. run_inv H; done. Qed.

(** Throttling may clear a stream; nothing else changes. *)
Lemma send_stream_effect ms now wsP test sp w fl act test' sp' w' :
  send_stream snd_fn ms now wsP test sp w = Ok (fl, act, test', sp', w') ->
  identity sp' = identity sp /\ settings test' = settings test /\ streams test' = streams test /\
  (sender sp = false -> result sp' = result sp) /\
  u64 (t_bytes_sent test' - bytes_sent (result sp')) = u64 (t_bytes_sent test - bytes_sent (result sp)) /\
  (forall r, fl = Return r -> r < 0).
Proof.
  unfold send_stream. destruct (green_light sp && sender sp && _) eqn:Eg; [|intros [= <- <- <- <- <-]; done].
  assert (Hs : sender sp = true) by (destruct (sender sp); [done|by rewrite andb_false_r in Eg]).
  rewrite Hs. destruct (snd_fn test sp w) as [[[r sp1] w1]| |] eqn:E; cbn [obind]; [|done|done].
  pose proof (snd_identity _ _ _ _ _ _ E) as (I1 & I2 & I3).
  pose proof (snd_counts _ _ _ _ _ _ E) as Hr.
  assert (Hi : identity sp1 = identity sp) by (unfold identity; congruence).
  destruct (Z.ltb_spec r 0).
  { intros H'. destruct (r =? _); injection H' as <- <- <- <- <-; rewrite Hr; repeat split; try done.
    intros ? [= <-]. lia. }
  set (test1 := test {{ t_bytes_sent := _; t_blocks_sent := _ }}).
  destruct (if _ && _ then iperf_check_throttle test1 sp1 now else Ok (sp1, write_set test1))
    as [[sp2 ws]| |] eqn:Et; cbn [obind]; [|done|done].
  assert (H2 : identity sp2 = identity sp1 /\ result sp2 = result sp1).
  { destruct (_ && _) in Et; [by eapply throttle_effect|by injection Et as <- <-]. }
  destruct H2 as [H2 H3]. intros H'.
  assert (E' : (test', sp') = (test1 {{ write_set := ws }}, sp2) /\ forall r, fl <> Return r)
    by (destruct (_ && _) in H'; [by simplify_eq|]; destruct (_ && _) in H'; by simplify_eq).
  destruct E' as [[= -> ->] Hfl]. split; [congruence|]. repeat split; try done; [|by intros r' Hf; destruct (Hfl r')].
  rewrite H3, Hr. cbn -[u64].
  change (bytes_sent (result (add_sent sp r))) with (u64 (bytes_sent (result sp) + r)).
  unfold constant. destruct (u64_split (t_bytes_sent test + r)) as [k1 ->].
  destruct (u64_split (bytes_sent (result sp) + r)) as [k2 ->]. apply (u64_eq _ _ (k1 - k2)). lia.
Qed.

(** What a run of sends leaves between two states of the test. *)
Definition kept (sp sp' : iperf_stream) : Prop :=
  identity sp' = identity sp /\ (sender sp = false -> result sp' = result sp).

Record sent_rel (t : iperf_test) (l : list iperf_stream) (t' : iperf_test) (l' : list iperf_stream) : Prop := {
  sr_settings : settings t' = settings t;
  sr_streams : Forall2 kept l l';
  sr_bytes : surplus_sent t' l' = surplus_sent t l }.

Lemma kept_refl l : Forall2 kept l l.
Proof. induction l; constructor; done. Qed.

Lemma kept_trans l1 l2 l3 : Forall2 kept l1 l2 -> Forall2 kept l2 l3 -> Forall2 kept l1 l3.
Proof.
  intros H1. revert l3. induction H1 as [|a b l1 l2 [Hi Hr] _ IH]; intros l3 H2; inversion H2 as [|? c ? l4 [Hi' Hr']];
    subst; constructor; [|by apply IH].
  split; [congruence|]. intros Hs. rewrite Hr', Hr by (unfold identity in *; congruence). done.
Qed.

Lemma sent_refl t l : sent_rel t l t l.
Proof. split; [done|apply kept_refl|done]. Qed.

Lemma sent_trans t1 l1 t2 l2 t3 l3 : sent_rel t1 l1 t2 l2 -> sent_rel t2 l2 t3 l3 -> sent_rel t1 l1 t3 l3.
Proof.
  intros [A1 A2 A3] [B1 B2 B3]. split; [congruence|by eapply kept_trans|congruence].
Qed.

(** One more stream in front. *)
Lemma sent_cons t sp t1 sp' t' l l' :
  settings t1 = settings t -> kept sp sp' ->
  u64 (t_bytes_sent t1 - bytes_sent (result sp')) = u64 (t_bytes_sent t - bytes_sent (result sp)) ->
  sent_rel t1 l t' l' -> sent_rel t (sp :: l) t' (sp' :: l').
Proof.
  intros Hs Hk Hb [A1 A2 A3]. split; [congruence|by constructor|].
  unfold surplus_sent in *. cbn [total foldr].
  fold (total bytes_sent l) (total bytes_sent l'). unfold u64 in *.
  replace (t_bytes_sent t' - (bytes_sent (result sp') + total bytes_sent l'))
    with ((t_bytes_sent t' - total bytes_sent l') - bytes_sent (result sp')) by lia.
  rewrite Zminus_mod, A3, <- Zminus_mod.
  replace (t_bytes_sent t1 - total bytes_sent l - bytes_sent (result sp'))
    with ((t_bytes_sent t1 - bytes_sent (result sp')) - total bytes_sent l) by lia.
  rewrite Zminus_mod, Hb, <- Zminus_mod. f_equal. lia.
Qed.

Lemma send_pass_sent ms now wsP todo : forall test active w ret act test' l' w',
  send_pass snd_fn ms now wsP test active todo w = Ok (ret, act, test', l', w') ->
  sent_rel test todo test' l' /\ (forall r, ret = Some r -> r < 0).
Proof.
  induction todo as [|sp todo IH]; intros test active w ret act test' l' w' H; cbn [send_pass] in H.
  { simplify_eq. split; [apply sent_refl|done]. }
  destruct (send_stream _ _ _ _ _ _ _) as [[[[[fl a] t1] sp1] w1]| |] eqn:E; cbn [obind] in H; [|done|done].
  apply send_stream_effect in E as (Hi & Hs & _ & Hk & Hb & Hr).
  assert (Hkept : kept sp sp1) by done.
  destruct fl as [| |r].
  - destruct (send_pass _ _ _ _ _ _ _ _) as [[[[[rt ac] t2] l2] w2]| |] eqn:E; cbn [obind] in H; [|done|done].
    simplify_eq. apply IH in E as [E Hret]. split; [|done]. by eapply sent_cons.
  - simplify_eq. split; [|done]. eapply sent_cons; [done..|apply sent_refl].
  - simplify_eq. split; [|intros ? [= <-]; by apply Hr]. eapply sent_cons; [done..|apply sent_refl].
Qed.

Lemma send_passes_sent n now wsP : forall test w ret test' w',
  send_passes snd_fn clock n now wsP test w = Ok (ret, test', w') ->
  sent_rel test (streams test) test' (streams test') /\ (forall r, ret = Some r -> r < 0).
Proof.
  revert now. induction n as [|n IH]; intros now test w ret test' w' H; cbn [send_passes] in H.
  { simplify_eq. split; [apply sent_refl|done]. }
  destruct (if _ && _ then clock w else _) as [now1 w1].
  destruct (send_pass _ _ _ _ _ _ _ _) as [[[[[rt ac] t1] l1] w2]| |] eqn:E; cbn [obind] in H; [|done|done].
  apply send_pass_sent in E as [E Hr].
  assert (E1 : sent_rel test (streams test) (t1 {{ streams := l1 }}) l1) by (destruct E; by split).
  destruct rt as [r|]; [simplify_eq; by split|]. destruct ac; [|simplify_eq; by split].
  apply IH in H as [H2 H3]. split; [|done]. by eapply sent_trans.
Qed.

Lemma throttle_all_sent now todo : forall test test' l',
  throttle_all now test todo = Ok (test', l') -> sent_rel test todo test' l'.
Proof.
  induction todo as [|sp todo IH]; intros test test' l' H; cbn [throttle_all] in H.
  { simplify_eq. apply sent_refl. }
  destruct (iperf_check_throttle _ _ _) as [[sp1 ws]| |] eqn:E; cbn [obind] in H; [|done|done].
  destruct (throttle_all _ _ _) as [[t2 l2]| |] eqn:E2; cbn [obind] in H; [|done|done]. simplify_eq.
  apply throttle_effect in E as [Hi Hr]. apply IH in E2.
  eapply sent_cons; [..|exact E2]; [done|by split|by rewrite Hr].
Qed.

(** C26: iperf_send counts exactly what its streams count.  For any protocol
    whose send function counts the bytes it reports ([SendOk]: TCP and UDP
    do), a call changes the byte counter of the test by the sum of the changes
    of its streams' counters (modulo 2^64), keeps the streams and their
    identities and the settings, never touches the results of a receiving
    stream, and either returns 0 with every stream removed from the set of
    writable sockets or fails with IESTREAMWRITE. *)
Theorem iperf_send_accounts test wsP now0 w rv err test' ws' w' :
  iperf_send snd_fn clock test wsP now0 w = Ok (rv, err, test', ws', w') ->
  settings test' = settings test /\ Forall2 kept (streams test) (streams test') /\
  surplus_sent test' (streams test') = surplus_sent test (streams test) /\
  (rv = 0 /\ err = None /\ (forall ws sp, ws' = Some ws -> sp ∈ streams test' -> socket sp ∉ ws) \/
   rv < 0 /\ err = Some IESTREAMWRITE /\ ws' = wsP).
Proof.
  unfold iperf_send. intros H.
  destruct (send_passes _ _ _ _ _ _ _) as [[[ret t1] w1]| |] eqn:E; cbn [obind] in H; [|done|done].
  apply send_passes_sent in E as [E1 Hr].
  destruct ret as [r|].
  { simplify_eq. destruct E1. repeat (split; [done|]). right. split; [by apply Hr|done]. }
  destruct (if negb _ then _ else _) as [[t2 w2]| |] eqn:E; cbn [obind] in H; [|done|done]. simplify_eq.
  assert (E2 : sent_rel t1 (streams t1) test' (streams test')).
  { destruct (negb _) in E; [|simplify_eq; apply sent_refl]. destruct (clock w1) as [now w2].
    destruct (throttle_all _ _ _) as [[t2 l2]| |] eqn:Et; cbn [obind] in E; [|done|done]. simplify_eq.
    apply throttle_all_sent in Et as [A1 A2 A3]. by split. }
  destruct (sent_trans _ _ _ _ _ _ E1 E2). repeat (split; [done|]). left. split; [done|]. split; [done|].
  intros ws sp Hws Hsp. destruct wsP as [ws0|]; [|done]. cbn in Hws. injection Hws as <-.
  clear -Hsp. revert ws0. induction (streams test') as [|a l IH]; intros ws0; [by apply not_elem_of_nil in Hsp|].
  cbn [foldl]. apply elem_of_cons in Hsp as [->|Hsp]; [|by apply IH].
  clear IH. assert (Hn : socket a ∉ ws0 ∖ {[socket a]}) by set_solver. revert Hn.
  generalize (ws0 ∖ {[socket a]}) as x. induction l as [|b l IH]; intros x Hx; [done|].
  cbn [foldl]. apply IH. set_solver.
Qed.

(** One more received stream in front. *)
Record recv_rel (t : iperf_test) (l : list iperf_stream) (t' : iperf_test) (l' : list iperf_stream) : Prop := {
  rr_state : state t' = state t;
  rr_streams : Forall2 (fun sp sp' => identity sp' = identity sp /\ (sender sp = true -> sp' = sp)) l l';
  rr_bytes : surplus_received t' l' = surplus_received t l }.

Lemma recv_refl t l : recv_rel t l t l.
Proof. split; [done| |done]. induction l; constructor; done. Qed.

Lemma recv_cons t sp t1 sp' t' l l' :
  state t1 = state t -> identity sp' = identity sp -> (sender sp = true -> sp' = sp) ->
  u64 (t_bytes_received t1 - bytes_received (result sp')) = u64 (t_bytes_received t - bytes_received (result sp)) ->
  recv_rel t1 l t' l' -> recv_rel t (sp :: l) t' (sp' :: l').
Proof.
  intros Hs Hi Hk Hb [A1 A2 A3]. split; [congruence|by constructor|].
  unfold surplus_received in *. cbn [total foldr].
  fold (total bytes_received l) (total bytes_received l'). unfold u64 in *.
  replace (t_bytes_received t' - (bytes_received (result sp') + total bytes_received l'))
    with ((t_bytes_received t' - total bytes_received l') - bytes_received (result sp')) by lia.
  rewrite Zminus_mod, A3, <- Zminus_mod.
  replace (t_bytes_received t1 - total bytes_received l - bytes_received (result sp'))
    with ((t_bytes_received t1 - bytes_received (result sp')) - total bytes_received l) by lia.
  rewrite Zminus_mod, Hb, <- Zminus_mod. f_equal. lia.
Qed.

Lemma recv_pass_received todo : forall test rs w ret test' rs' l' w',
  state test = TEST_RUNNING ->
  recv_pass rcv_fn test rs todo w = Ok (ret, test', rs', l', w') ->
  recv_rel test todo test' l' /\ (forall r, ret = Some r -> r < 0).
Proof.
  induction todo as [|sp todo IH]; intros test rs w ret test' rs' l' w' Hst H; cbn [recv_pass] in H.
  { simplify_eq. split; [apply recv_refl|done]. }
  destruct (bool_decide _ && negb (sender sp)) eqn:Eb.
  - assert (Hs : sender sp = false) by (destruct (sender sp); [by rewrite andb_false_r in Eb|done]).
    destruct (rcv_fn test sp w) as [[[r sp1] w1]| |] eqn:E; cbn [obind] in H; [|done|done].
    pose proof (rcv_identity _ _ _ _ _ _ E) as (I1 & I2 & I3).
    pose proof (rcv_counts _ _ _ _ _ _ Hst E) as Hr.
    assert (Hi : identity sp1 = identity sp) by (unfold identity; congruence).
    destruct (Z.ltb_spec r 0).
    { simplify_eq. split; [|by intros ? [= <-]].
      eapply recv_cons; [done|unfold identity; congruence|by rewrite Hs| |apply recv_refl].
      rewrite Z.max_l, Z.add_0_r in Hr by lia. unfold u64 in *.
      by rewrite Zminus_mod, Hr, <- Zminus_mod. }
    set (t1 := test {{ t_bytes_received := _; t_blocks_received := _ }}) in H.
    destruct (recv_pass _ _ _ _ _) as [[[[[rt t2] rs2] l2] w2]| |] eqn:E2; cbn [obind] in H; [|done|done].
    simplify_eq. apply IH in E2 as [E2 Hret]; [|done]. split; [|done].
    eapply recv_cons; [..|exact E2]; [done|unfold identity; congruence|by rewrite Hs|].
    change (t_bytes_received t1) with (u64 (t_bytes_received test + r)).
    rewrite Z.max_r in Hr by lia. destruct (u64_split (t_bytes_received test + r)) as [k ->].
    unfold u64 in *. rewrite Zminus_mod, Hr, <- Zminus_mod. apply (u64_eq _ _ k). lia.
  - destruct (recv_pass _ _ _ _ _) as [[[[[rt t2] rs2] l2] w2]| |] eqn:E2; cbn [obind] in H; [|done|done].
    simplify_eq. apply IH in E2 as [E2 Hret]; [|done]. split; [|done]. by eapply recv_cons.
Qed.

(** iperf_recv counts exactly what its streams count: while the test runs
    and for any protocol whose receive function counts the bytes it reports
    ([RecvOk]: TCP and UDP do), the byte counter of the test changes by the sum
    of the changes of its streams' counters (modulo 2^64), sending streams are
    untouched, and the call returns 0 or fails with IESTREAMREAD. *)
Theorem iperf_recv_accounts test rs w rv err test' rs' w' :
  state test = TEST_RUNNING ->
  iperf_recv rcv_fn test rs w = Ok (rv, err, test', rs', w') ->
  state test' = TEST_RUNNING /\
  Forall2 (fun sp sp' => identity sp' = identity sp /\ (sender sp = true -> sp' = sp)) (streams test) (streams test') /\
  surplus_received test' (streams test') = surplus_received test (streams test) /\
  (rv = 0 /\ err = None \/ rv < 0 /\ err = Some IESTREAMREAD).
Proof.
  unfold iperf_recv. intros Hst H.
  destruct (recv_pass _ _ _ _ _) as [[[[[ret t1] rs1] l1] w1]| |] eqn:E; cbn [obind] in H; [|done|done].
  apply recv_pass_received in E as [[E1 E2 E3] Hr]; [|done].
  destruct ret as [r|]; simplify_eq; (split; [exact (eq_trans E1 Hst)|]; split; [done|]; split; [exact E3|]).
  - right. split; [by apply Hr|done].
  - by left.
Qed.

End Accounting.

(** Two TCP streams, one of them sending. *)
Definition tcp_pair : iperf_test :=
  (iperf_defaults true)
    {{ state := TEST_RUNNING; settings -> blksize := 4;
       streams := [mk_stream 4 1 true zero_result true 0 0 0 d0 d0 0 0 0 0;
                   mk_stream 5 3 false zero_result true 0 0 0 d0 d0 0 0 0 0] }}.

Definition tcp_fds : fds :=
  {[ 4 := mksock [] [] [] (repeat (Chunk 1) 8); 5 := mksock (repeat 7 9) (repeat (Chunk 2) 8) [] [] ]}.

Lemma iperf_send_accounts_witness :
  exists rv err test' ws' w',
    iperf_send (iperf_tcp_send false (fun _ => repeat 1 4)) (fun w => (mk_time 0 0, w)) tcp_pair None (mk_time 0 0) tcp_fds
      = Ok (rv, err, test', ws', w') /\
    t_bytes_sent test' = 16 /\
    surplus_sent test' (streams test') = surplus_sent tcp_pair (streams tcp_pair).
Proof.
  do 5 eexists. split; [vm_compute; reflexivity|]. split; [reflexivity|].
  eapply (iperf_send_accounts (iperf_tcp_send false (fun _ => repeat 1 4)) (fun w => (mk_time 0 0, w)) tcp_pair
    None (mk_time 0 0) tcp_fds). vm_compute. reflexivity.
Defined.

Lemma iperf_recv_accounts_witness :
  exists rv err test' rs' w',
    iperf_recv (iperf_tcp_recv (fun _ => repeat 1 4)) tcp_pair {[ 5 ]} tcp_fds = Ok (rv, err, test', rs', w') /\
    t_bytes_received test' = 4 /\
    surplus_received test' (streams test') = surplus_received tcp_pair (streams tcp_pair).
Proof.
  do 5 eexists. split; [vm_compute; reflexivity|]. split; [reflexivity|].
  eapply (iperf_recv_accounts (iperf_tcp_recv (fun _ => repeat 1 4)) tcp_pair {[ 5 ]} tcp_fds); [reflexivity|].
  vm_compute. reflexivity.
Defined.

(** ** The throttle at the start of a test *)

Lemma ddiv_zero_ub x : u64_of_double (ddiv x (S754_zero false)) = UB.
Proof. by destruct x. Qed.

Lemma time_diff_self t : snd (iperf_time_diff t t) = mk_time 0 0.
Proof. unfold iperf_time_diff, iperf_time_compare. by rewrite !Z.ltb_irrefl, !Z.gtb_ltb, !Z.ltb_irrefl. Qed.

(** iperf_check_throttle is undefined when it runs at the instant the test
    started: the elapsed time is zero and the quotient, an infinity or a NaN,
    is converted to an integer. *)
Theorem iperf_check_throttle_start test sp now :
  done_ test = false -> start_time_fixed (result sp) = now -> iperf_check_throttle test sp now = UB.
Proof.
  intros Hd <-. unfold iperf_check_throttle, bits_per_second. rewrite Hd, time_diff_self.
  change (iperf_time_in_secs (mk_time 0 0)) with (S754_zero false). by rewrite ddiv_zero_ub.
Qed.

Lemma iperf_check_throttle_start_witness :
  iperf_check_throttle tcp_pair (mk_stream 4 1 true zero_result true 0 0 0 d0 d0 0 0 0 0) (mk_time 0 0) = UB.
Proof. apply iperf_check_throttle_start; reflexivity. Defined.

(** ** Sending a file *)

(** Calls of diskfile_send whose send function takes [rs] bytes; what went
    out. *)
Fixpoint diskfile_run (blk : nat) (diskfile_left : nat) (buffer file : bytes) (rs : list nat) : outcome bytes :=
  match rs with
  | [] => Ok []
  | r :: rs =>
      let! st := diskfile_send blk false diskfile_left buffer file (Z.of_nat r) in
      let '(_, diskfile_left, buffer, file, _, block) := st in
      let! out := diskfile_run blk diskfile_left buffer file rs in Ok (take r block ++ out)
  end.

Lemma diskfile_send_block blk buffer file :
  List.length buffer = blk -> (0 < blk <= List.length file)%nat ->
  diskfile_send blk false 0 buffer file (Z.of_nat blk)
    = Ok (Z.of_nat blk, 0%nat, take blk file, drop blk file, false, take blk file).
Proof.
  intros Hb Hf. unfold diskfile_send. destruct (Nat.ltb_spec 0 blk); [|lia]. cbn [andb negb].
  rewrite Nat.sub_0_r. unfold store_at. rewrite length_take, Nat.min_l by lia. rewrite Hb, Nat.leb_refl.
  cbn [Nat.add obind]. rewrite take_0, app_nil_l, drop_ge, app_nil_r by lia.
  destruct (Nat.eqb_spec blk 0); [lia|]. cbn [andb orb].
  destruct (Z.ltb_spec (Z.of_nat blk) 0); [lia|]. rewrite Nat2Z.id, Nat.sub_diag. done.
Qed.

(** As long as every call sends a whole block, a stream with a file sends
    the bytes of the file in order. *)
Theorem diskfile_run_blocks blk n : forall buffer file,
  List.length buffer = blk -> (0 < blk)%nat -> (n * blk <= List.length file)%nat ->
  diskfile_run blk 0 buffer file (repeat blk n) = Ok (take (n * blk) file).
Proof.
  induction n as [|n IH]; intros buffer file Hb H0 Hf; [done|]. cbn [repeat diskfile_run].
  cbn [Nat.mul] in Hf. rewrite diskfile_send_block by lia. cbn [obind].
  rewrite IH; [|rewrite length_take; lia|lia|rewrite length_drop; lia]. cbn [obind].
  rewrite (take_ge (take blk file)) by (rewrite length_take; lia).
  f_equal. cbn [Nat.mul]. apply take_take_drop.
Qed.

Lemma diskfile_run_witness :
  diskfile_run 2 0 [0; 0] [1; 2; 3; 4; 5] [2; 2]%nat = Ok [1; 2; 3; 4].
Proof. apply (diskfile_run_blocks 2 2 [0; 0] [1; 2; 3; 4; 5]); simpl; lia. Defined.

(** A partial send corrupts the file: after two of four bytes went out,
    the two left over are moved to the front of the buffer and the next read
    overwrites them, so the stream carries 1 2 5 6 3 4 instead of 1 2 3 4 5 6. *)
Theorem diskfile_send_corrupts :
  diskfile_run 4 0 (repeat 0 4) [1; 2; 3; 4; 5; 6; 7; 8] [2; 4]%nat = Ok [1; 2; 5; 6; 3; 4].
Proof. vm_compute. reflexivity. Qed.
