(* ===== verification/Stats.v ===== *)
(** * Statistics of a test (iperf_api.c: iperf_init_test, iperf_stats_callback,
    iperf_reset_stats, add_to_interval_list; tcp_info.c)

    Every interval the statistics timer closes appends a record to each
    stream; the theorem shows that the intervals partition what was
    transferred. *)

From coqutil Require Import Datatypes.RecordSetters.
From Stdlib Require Import SpecFloat.
From S2P Require Import Prelude.
From S2P Require Import IperfTime.
From S2P Require Import Cdouble.
From S2P Require Import Iperf.
From S2P Require Import Frame.
From S2P Require Import Udp.
From S2P Require Import Transfer.
From stdpp Require Import base numbers gmap list relations.
Import DoubleBraceUpdate.

Open Scope Z_scope.
Open Scope c_scope.

(** ** tcp_info.c: what the kernel reports for a TCP socket (Linux; the
    fields are uint32_t) *)

Record tcp_info := mk_tcp_info
  { tcpi_total_retrans : Z;
    tcpi_snd_cwnd : Z;
    tcpi_snd_mss : Z;
    tcpi_rtt : Z;
    tcpi_rttvar : Z;
    tcpi_pmtu : Z }.

Definition get_total_retransmits (i : tcp_info) : Z := tcpi_total_retrans i.
Definition get_snd_cwnd (i : tcp_info) : Z := u32 (tcpi_snd_cwnd i * tcpi_snd_mss i).
Definition get_rtt (i : tcp_info) : Z := tcpi_rtt i.
Definition get_rttvar (i : tcp_info) : Z := tcpi_rttvar i.
Definition get_pmtu (i : tcp_info) : Z := tcpi_pmtu i.

(** Conversion of a double to float, kept as a double. *)
Definition to_float (d : double) : double :=
  match d with
  | S754_finite s m e => binary_round 24 128 s m e
  | _ => d
  end.

Definition add_to_interval_list (rp : iperf_stream_result) (new : iperf_interval_results) : iperf_stream_result :=
  rp {{ interval_results := interval_results rp ++ [new] }}.

(** ** iperf_init_test: [init] is the return value of the protocol's init, [now]
    the clock (None if it fails) *)
Definition iperf_init_test (init : Z) (now : option iperf_time) (test : iperf_test) : Z * option Z * iperf_test :=
  if init <? 0 then (-1, None, test)
  else
    match now with
    | None => (-1, Some 101 (* IEINITTEST *), test)
    | Some now =>
        (0, None, test {{ streams := map (fun sp =>
           sp {{ result := (result sp) {{ start_time := now; start_time_fixed := now }} }}) (streams test) }})
    end.

(** ** iperf_reset_stats, for one stream; [ti] is its TCP_INFO *)
Definition reset_stream (test : iperf_test) (now : iperf_time) (ti : tcp_info) (sp : iperf_stream) : iperf_stream :=
  let rp := result sp in
  let rp := rp {{ bytes_sent_omit := bytes_sent rp; bytes_received := 0;
                  bytes_sent_this_interval := 0; bytes_received_this_interval := 0 }} in
  let rp := if sender_has_retransmits test =? 1
            then rp {{ stream_prev_total_retrans := i32 (get_total_retransmits ti) }} else rp in
  sp {{ omitted_packet_count := packet_count sp; omitted_cnt_error := cnt_error sp;
        omitted_outoforder_packets := outoforder_packets sp; jitter := d0;
        result := rp {{ stream_retrans := 0; start_time := now }} }}.

Definition iperf_reset_stats (test : iperf_test) (now : iperf_time) (ti : iperf_stream -> tcp_info) : iperf_test :=
  let test := test {{ t_bytes_sent := 0; t_blocks_sent := 0 }} in
  test {{ streams := map (fun sp => reset_stream test now (ti sp) sp) (streams test) }}.

(** ** iperf_stats_callback *)

Section Callback.
(** has_tcpinfo(): a constant of the build *)
Variable has_tcpinfo : bool.

(** The TCP figures of an interval. *)
Definition stats_tcp (test : iperf_test) (ti : tcp_info) (temp : iperf_interval_results) (rp : iperf_stream_result)
    : outcome (iperf_interval_results * iperf_stream_result) :=
  if has_tcpinfo && (sender_has_retransmits test =? 1)
  then
    let total_retrans := get_total_retransmits ti in
    let temp := temp {{ interval_retrans := i32 (total_retrans - stream_prev_total_retrans rp) }} in
    let! sr := int_of (stream_retrans rp + interval_retrans temp) in
    let rp := rp {{ stream_retrans := sr; stream_prev_total_retrans := i32 total_retrans }} in
    let temp := temp {{ snd_cwnd := i32 (get_snd_cwnd ti) }} in
    let rp := if stream_max_snd_cwnd rp <? snd_cwnd temp then rp {{ stream_max_snd_cwnd := snd_cwnd temp }} else rp in
    let temp := temp {{ rtt := i32 (get_rtt ti) }} in
    let rp := if stream_max_rtt rp <? rtt temp then rp {{ stream_max_rtt := rtt temp }} else rp in
    let rp := if (stream_min_rtt rp =? 0) || (rtt temp <? stream_min_rtt rp)
              then rp {{ stream_min_rtt := rtt temp }} else rp in
    let! sum := int_of (stream_sum_rtt rp + rtt temp) in
    let! cnt := int_of (stream_count_rtt rp + 1) in
    Ok (temp {{ rttvar := i32 (get_rttvar ti); pmtu := i32 (get_pmtu ti) }},
        rp {{ stream_sum_rtt := sum; stream_count_rtt := cnt }})
  else Ok (temp, rp).

(** The UDP figures of an interval; [irp] is the previous one. *)
Definition stats_udp (sp : iperf_stream) (irp : option iperf_interval_results) (temp : iperf_interval_results)
    : outcome iperf_interval_results :=
  let prev f := match irp with None => 0 | Some i => f i end in
  let! pc := int_of (packet_count sp - prev ir_packet_count) in
  let! oo := int_of (outoforder_packets sp - prev ir_outoforder_packets) in
  let! ce := int_of (cnt_error sp - prev ir_cnt_error) in
  Ok (temp {{ interval_packet_count := pc; interval_outoforder_packets := oo; interval_cnt_error := ce;
              ir_packet_count := packet_count sp; ir_jitter := jitter sp;
              ir_outoforder_packets := outoforder_packets sp; ir_cnt_error := cnt_error sp }}).

(** The body of the loop; [temp] is shared by the streams, [now] the clock. *)
Definition stats_stream (test : iperf_test) (now : iperf_time) (ti : tcp_info)
    (temp : iperf_interval_results) (sp : iperf_stream) : outcome (iperf_interval_results * iperf_stream) :=
  let rp := result sp in
  let temp := temp {{ bytes_transferred :=
                        if sender sp then bytes_sent_this_interval rp else bytes_received_this_interval rp }} in
  let irp := last (interval_results rp) in
  let temp := temp {{ interval_start_time := match irp with Some _ => end_time rp | None => start_time rp end }} in
  let rp := rp {{ end_time := now }} in
  let temp := temp {{ interval_end_time := now }} in
  let d := snd (iperf_time_diff (interval_start_time temp) (interval_end_time temp)) in
  let temp := temp {{ interval_duration := to_float (iperf_time_in_secs d) }} in
  let! r :=
    if protocol test =? Ptcp then stats_tcp test ti temp rp
    else let! temp := stats_udp sp irp temp in Ok (temp, rp) in
  let '(temp, rp) := r in
  let rp := add_to_interval_list rp temp in
  Ok (temp, sp {{ result := rp {{ bytes_sent_this_interval := 0; bytes_received_this_interval := 0 }} }}).

(** [clock] and [ti] give the time and the TCP_INFO each stream sees; [temp] is
    the uninitialised local variable. *)
Fixpoint stats_streams (test : iperf_test) (clock : iperf_stream -> iperf_time) (ti : iperf_stream -> tcp_info)
    (temp : iperf_interval_results) (l : list iperf_stream) : outcome (list iperf_stream) :=
  match l with
  | [] => Ok []
  | sp :: l =>
      let! r := stats_stream test (clock sp) (ti sp) temp sp in
      let '(temp, sp) := r in
      let! l := stats_streams test clock ti temp l in Ok (sp :: l)
  end.

Definition iperf_stats_callback (test : iperf_test) (clock : iperf_stream -> iperf_time)
    (ti : iperf_stream -> tcp_info) (temp : iperf_interval_results) : outcome iperf_test :=
  let temp := temp {{ omitted := omitting test }} in
  let! l := stats_streams test clock ti temp (streams test) in
  Ok (test {{ streams := l }}).

End Callback.

(** ** The life of the counters of one stream

    A stream and the number of intervals that were closed before the omit
    period ended. *)
Inductive stream_step (test : iperf_test) : iperf_stream * nat -> iperf_stream * nat -> Prop :=
| step_sent sp k r : stream_step test (sp, k) (add_sent sp r, k)
| step_received sp k r : stream_step test (sp, k) (add_received sp r, k)
| step_datagram sp k p sp' : udp_count sp p = Ok sp' -> stream_step test (sp, k) (sp', k)
| step_stats has now ti temp sp k temp' sp' :
    stats_stream has test now ti temp sp = Ok (temp', sp') -> stream_step test (sp, k) (sp', k)
| step_reset now ti sp k :
    stream_step test (sp, k) (reset_stream test now ti sp, List.length (interval_results (result sp))).

(** What send_results reports for a stream. *)
Definition reported_bytes (sp : iperf_stream) : Z :=
  if sender sp then bytes_sent (result sp) - bytes_sent_omit (result sp) else bytes_received (result sp).

Definition this_interval (sp : iperf_stream) : Z :=
  if sender sp then bytes_sent_this_interval (result sp) else bytes_received_this_interval (result sp).

Definition sum_of (f : iperf_interval_results -> Z) (l : list iperf_interval_results) : Z :=
  foldr (fun i n => f i + n) 0 l.

(** Each interval starts when the previous one ended. *)
Fixpoint contiguous (l : list iperf_interval_results) : Prop :=
  match l with
  | a :: (b :: _) as r => interval_start_time b = interval_end_time a /\ contiguous r
  | _ => True
  end.

(** The figures at the last callback. *)
Definition at_last (f : iperf_interval_results -> Z) (l : list iperf_interval_results) : Z :=
  match last l with Some i => f i | None => 0 end.

Record intervals_ok (test : iperf_test) (s : iperf_stream * nat) : Prop := {
  io_start : (s.2 <= List.length (interval_results (result s.1)))%nat;
  io_bytes : u64 (sum_of bytes_transferred (drop s.2 (interval_results (result s.1))) + this_interval s.1)
             = u64 (reported_bytes s.1);
  io_contiguous : contiguous (interval_results (result s.1));
  io_end : forall i, last (interval_results (result s.1)) = Some i -> interval_end_time i = end_time (result s.1);
  io_packets : protocol test <> Ptcp ->
    let l := interval_results (result s.1) in
    sum_of interval_packet_count l = at_last ir_packet_count l /\
    sum_of interval_outoforder_packets l = at_last ir_outoforder_packets l /\
    sum_of interval_cnt_error l = at_last ir_cnt_error l }.

Lemma sum_of_app f l i : sum_of f (l ++ [i]) = sum_of f l + f i.
Proof. induction l as [|a l IH]; cbn; [lia|]. unfold sum_of in IH. rewrite IH. lia. Qed.

Lemma contiguous_app l i :
  contiguous l -> (forall a, last l = Some a -> interval_start_time i = interval_end_time a) -> contiguous (l ++ [i]).
Proof.
  induction l as [|a [|b l] IH]; intros Hc Hl; [done| |].
  - split; [by apply Hl|done].
  - destruct Hc as [H1 H2]. split; [done|]. by apply IH.
Qed.

(** The fields that the protocol figures leave alone. *)
Definition same_interval (i j : iperf_interval_results) : Prop :=
  bytes_transferred j = bytes_transferred i /\ interval_start_time j = interval_start_time i /\
  interval_end_time j = interval_end_time i.
Definition same_result (r r' : iperf_stream_result) : Prop :=
  interval_results r' = interval_results r /\ end_time r' = end_time r /\ bytes_sent r' = bytes_sent r /\
  bytes_sent_omit r' = bytes_sent_omit r /\ bytes_received r' = bytes_received r.

Lemma stats_tcp_effect has test ti temp rp temp' rp' :
  stats_tcp has test ti temp rp = Ok (temp', rp') -> same_interval temp temp' /\ same_result rp rp'.
Proof.
  unfold stats_tcp. destruct (has && _); [|by intros [= <- <-]].
  destruct (int_of _) as [sr| |]; cbn [obind]; [|done|done].
  set (rp1 := rp {{ stream_retrans := _; stream_prev_total_retrans := _ }}).
  assert (H1 : same_result rp rp1) by done. clearbody rp1.
  set (rp2 := if _ <? _ then rp1 {{ stream_max_snd_cwnd := _ }} else rp1).
  assert (H2 : same_result rp rp2) by (unfold rp2; destruct (_ <? _); [exact H1|done]). clearbody rp2.
  set (rp3 := if _ <? _ then rp2 {{ stream_max_rtt := _ }} else rp2).
  assert (H3 : same_result rp rp3) by (unfold rp3; destruct (_ <? _); [exact H2|done]). clearbody rp3.
  set (rp4 := if _ || _ then rp3 {{ stream_min_rtt := _ }} else rp3).
  assert (H4 : same_result rp rp4) by (unfold rp4; destruct (_ || _); [exact H3|done]). clearbody rp4.
  destruct (int_of _); cbn [obind]; [|done|done]. destruct (int_of _); cbn [obind]; [|done|done].
  intros [= <- <-]. split; [done|exact H4].
Qed.

Lemma stats_udp_effect sp irp temp temp' :
  stats_udp sp irp temp = Ok temp' ->
  let prev f := match irp with None => 0 | Some i => f i end in
  same_interval temp temp' /\
  interval_packet_count temp' = packet_count sp - prev ir_packet_count /\ ir_packet_count temp' = packet_count sp /\
  interval_outoforder_packets temp' = outoforder_packets sp - prev ir_outoforder_packets /\
  ir_outoforder_packets temp' = outoforder_packets sp /\
  interval_cnt_error temp' = cnt_error sp - prev ir_cnt_error /\ ir_cnt_error temp' = cnt_error sp.
Proof.
  unfold stats_udp. intros H.
  repeat match type of H with
  | obind (int_of ?z) _ = _ =>
      let E := fresh "E" in destruct (int_of z) eqn:E; cbn [obind] in H; [|discriminate H|discriminate H];
      unfold int_of in E; destruct (_ && _) in E; [|discriminate E]; injection E as <-
  end.
  by injection H as <-.
Qed.

(** What a callback does to a stream. *)
Lemma stats_stream_effect has test now ti temp sp temp' sp' :
  stats_stream has test now ti temp sp = Ok (temp', sp') ->
  interval_results (result sp') = interval_results (result sp) ++ [temp'] /\
  bytes_transferred temp' = this_interval sp /\ this_interval sp' = 0 /\ reported_bytes sp' = reported_bytes sp /\
  interval_start_time temp' =
    match last (interval_results (result sp)) with Some _ => end_time (result sp) | None => start_time (result sp) end /\
  interval_end_time temp' = now /\ end_time (result sp') = now /\
  (protocol test <> Ptcp ->
   let prev f := at_last f (interval_results (result sp)) in
   interval_packet_count temp' = packet_count sp - prev ir_packet_count /\ ir_packet_count temp' = packet_count sp /\
   interval_outoforder_packets temp' = outoforder_packets sp - prev ir_outoforder_packets /\
   ir_outoforder_packets temp' = outoforder_packets sp /\
   interval_cnt_error temp' = cnt_error sp - prev ir_cnt_error /\ ir_cnt_error temp' = cnt_error sp).
Proof.
  unfold stats_stream. intros H.
  match type of H with obind ?m _ = _ => destruct m as [[t1 r1]| |] eqn:E; cbn [obind] in H; [|done|done] end.
  injection H as <- <-.
  match type of E with
  | (if _ then stats_tcp _ _ _ ?t0 ?r0 else _) = _ =>
      assert (Hs : same_interval t0 t1 /\ same_result r0 r1 /\ (protocol test <> Ptcp ->
        stats_udp sp (last (interval_results (result sp))) t0 = Ok t1));
      [|set (t := t0) in *; set (r := r0) in *]
  end.
  { destruct (Z.eqb_spec (protocol test) Ptcp) as [Ep|Ep].
    - apply stats_tcp_effect in E as [? ?]. done.
    - destruct (stats_udp _ _ _) as [t2| |] eqn:Eu; cbn [obind] in E; [|done|done].
      injection E as <- <-. split; [by apply stats_udp_effect in Eu as [? _]|]. done. }
  destruct Hs as ((A1 & A2 & A3) & (B1 & B2 & B3 & B4 & B5) & Hu).
  repeat match goal with |- _ /\ _ => split end.
  - cbn. rewrite B1. done.
  - by rewrite A1.
  - transitivity (if sender sp then 0 else 0); [done|by destruct (sender sp)].
  - transitivity (if sender sp then bytes_sent r1 - bytes_sent_omit r1 else bytes_received r1); [done|].
    by rewrite B3, B4, B5.
  - by rewrite A2.
  - by rewrite A3.
  - exact B2.
  - intros Hp. specialize (Hu Hp). apply stats_udp_effect in Hu as [_ Hu]. exact Hu.
Qed.

(** ** The intervals partition the transfer *)

Lemma stats_intervals has test now ti temp temp' sp sp' k :
  stats_stream has test now ti temp sp = Ok (temp', sp') ->
  intervals_ok test (sp, k) -> intervals_ok test (sp', k).
Proof.
  intros H [H1 H2 H3 H4 H5]. cbn [fst snd] in *.
  apply stats_stream_effect in H as (El & Eb & Et & Er & Es & Ee & Een & Ep).
  constructor; cbn [fst snd]; rewrite El.
  - rewrite length_app. lia.
  - rewrite drop_app_le, sum_of_app, Et, Er, Eb, Z.add_0_r by lia. done.
  - apply contiguous_app; [done|]. intros a Ha. rewrite Es, Ha. symmetry. by apply H4.
  - intros i. rewrite last_snoc. intros [= <-]. congruence.
  - intros Hp. destruct (Ep Hp) as (P1 & P2 & P3 & P4 & P5 & P6). destruct (H5 Hp) as (Q1 & Q2 & Q3).
    cbn zeta. unfold at_last at 1 2 3. rewrite last_snoc, !sum_of_app, P1, P2, P3, P4, P5, P6, Q1, Q2, Q3. lia.
Qed.

(** Steps that leave the intervals alone. *)
Lemma intervals_same test sp sp' k :
  interval_results (result sp') = interval_results (result sp) -> end_time (result sp') = end_time (result sp) ->
  u64 (this_interval sp' - reported_bytes sp') = u64 (this_interval sp - reported_bytes sp) ->
  intervals_ok test (sp, k) -> intervals_ok test (sp', k).
Proof.
  intros El Ee Ed [H1 H2 H3 H4 H5]. cbn [fst snd] in *. constructor; cbn [fst snd]; rewrite ?El, ?Ee; try done.
  set (x := sum_of _ _) in *. unfold u64 in *.
  replace (x + this_interval sp') with (this_interval sp' - reported_bytes sp' + (x + reported_bytes sp')) by lia.
  rewrite Zplus_mod, Ed, <- Zplus_mod.
  replace (this_interval sp - reported_bytes sp + (x + reported_bytes sp'))
    with ((x + this_interval sp) + (reported_bytes sp' - reported_bytes sp)) by lia.
  rewrite Zplus_mod, H2, <- Zplus_mod. f_equal. lia.
Qed.

Lemma step_intervals test s s' : stream_step test s s' -> intervals_ok test s -> intervals_ok test s'.
Proof.
  intros H Hok. inversion H as [sp k r E1 E2|sp k r E1 E2|sp k p sp' Hc E1 E2
    |has now ti temp sp k temp' sp' Hs E1 E2|now ti sp k E1 E2]; subst.
  - apply (intervals_same test sp); try done. unfold this_interval, reported_bytes.
    change (sender (add_sent sp r)) with (sender sp). destruct (sender sp); [|done].
    change (bytes_sent (result (add_sent sp r))) with (u64 (bytes_sent (result sp) + r)).
    change (bytes_sent_omit (result (add_sent sp r))) with (bytes_sent_omit (result sp)).
    change (bytes_sent_this_interval (result (add_sent sp r)))
      with (u64 (bytes_sent_this_interval (result sp) + r)).
    destruct (u64_split (bytes_sent (result sp) + r)) as [k1 ->].
    destruct (u64_split (bytes_sent_this_interval (result sp) + r)) as [k2 ->]. apply (u64_eq _ _ (k2 - k1)). lia.
  - apply (intervals_same test sp); try done. unfold this_interval, reported_bytes.
    change (sender (add_received sp r)) with (sender sp). destruct (sender sp); [done|].
    change (bytes_received (result (add_received sp r))) with (u64 (bytes_received (result sp) + r)).
    change (bytes_received_this_interval (result (add_received sp r)))
      with (u64 (bytes_received_this_interval (result sp) + r)).
    destruct (u64_split (bytes_received (result sp) + r)) as [k1 ->].
    destruct (u64_split (bytes_received_this_interval (result sp) + r)) as [k2 ->].
    apply (u64_eq _ _ (k2 - k1)). lia.
  - apply udp_count_same in Hc as [Er Ei]. unfold identity in Ei. injection Ei as _ _ Es.
    apply (intervals_same test sp); unfold this_interval, reported_bytes; by rewrite ?Er, ?Es.
  - by eapply stats_intervals.
  - destruct Hok as [H1 H2 H3 H4 H5]. cbn [fst snd] in *.
    assert (El : interval_results (result (reset_stream test now ti sp)) = interval_results (result sp))
      by (unfold reset_stream; by destruct (_ =? 1)).
    assert (Ee : end_time (result (reset_stream test now ti sp)) = end_time (result sp))
      by (unfold reset_stream; by destruct (_ =? 1)).
    constructor; cbn [fst snd]; rewrite ?El, ?Ee; try done.
    rewrite drop_ge by lia. unfold this_interval, reported_bytes, reset_stream.
    destruct (_ =? 1), sp as [? ? [] [] ? ? ? ? ? ? ? ? ? ?]; cbn; unfold constant; f_equal; lia.
Qed.

(** C25: The intervals of a stream partition its transfer.  Along any
    interleaving of transfers, datagram counts, statistics callbacks and the
    end of the omit period: the bytes of the intervals since the omit period
    plus those of the unfinished interval are the bytes send_results reports
    for the stream (modulo 2^64), each interval starts when the previous one
    ended, and for UDP the packets, losses and reorderings of the intervals add
    up to the totals at the last callback. *)
Theorem stream_intervals test sp sp' k :
  bytes_sent (result sp) = 0 -> bytes_sent_omit (result sp) = 0 -> bytes_received (result sp) = 0 ->
  this_interval sp = 0 -> interval_results (result sp) = [] ->
  rtc (stream_step test) (sp, 0%nat) (sp', k) ->
  intervals_ok test (sp', k).
Proof.
  intros E1 E2 E3 E4 E5 H.
  assert (Hok : intervals_ok test (sp, 0%nat)).
  { constructor; cbn [fst snd]; rewrite ?E5; try done.
    unfold reported_bytes. rewrite E1, E2, E3, E4. by destruct (sender sp). }
  remember (sp, 0%nat) as s. remember (sp', k) as s'. clear Heqs E1 E2 E3 E4 E5 sp.
  revert sp' k Heqs'. induction H as [s|s1 s2 s3 Hs _ IH]; intros sp' k ->; [done|].
  eapply IH; [|done]. by eapply step_intervals.
Qed.

(** iperf_reset_stats ends the omit period: nothing transferred before is
    in the counters of the test or in what the streams report. *)
Theorem iperf_reset_stats_clears test now ti :
  let test' := iperf_reset_stats test now ti in
  t_bytes_sent test' = 0 /\ t_blocks_sent test' = 0 /\
  Forall2 (fun sp sp' => identity sp' = identity sp /\ reported_bytes sp' = 0 /\ this_interval sp' = 0 /\
      stream_retrans (result sp') = 0 /\ start_time (result sp') = now /\
      cnt_error sp' - omitted_cnt_error sp' = 0 /\ packet_count sp' - omitted_packet_count sp' = 0 /\
      interval_results (result sp') = interval_results (result sp))
    (streams test) (streams test').
Proof.
  cbn zeta. split; [done|]. split; [done|]. unfold iperf_reset_stats.
  set (t1 := test {{ t_bytes_sent := 0; t_blocks_sent := 0 }}).
  change (streams (t1 {{ streams := _ }})) with (map (fun sp => reset_stream t1 now (ti sp) sp) (streams test)).
  clearbody t1. induction (streams test) as [|sp l IH]; constructor; [clear IH|exact IH].
  unfold reset_stream, identity, reported_bytes, this_interval.
  destruct (_ =? 1), sp as [? ? [] [] ? ? ? ? ? ? ? ? ? ?]; cbn; unfold constant; repeat split; lia.
Qed.

(** A sending TCP stream: 5 bytes, a callback, the end of the omit period, 7
    bytes, a callback, 2 bytes. *)
Lemma stream_intervals_witness :
  let test := iperf_defaults true in
  let sp := mk_stream 4 1 true zero_result true 0 0 0 d0 d0 0 0 0 0 in
  let temp := mk_interval 0 zero_time zero_time d0 0 0 0 0 d0 0 0 false 0 0 0 0 0 in
  let ti := mk_tcp_info 0 10 1000 20 5 1500 in
  exists sp', rtc (stream_step test) (sp, 0%nat) (sp', 1%nat) /\
    map bytes_transferred (interval_results (result sp')) = [5; 7] /\ reported_bytes sp' = 9 /\
    intervals_ok test (sp', 1%nat).
Proof.
  intros test sp temp ti. eexists. split; [|split; [|split]].
  - eapply rtc_l; [apply (step_sent test _ _ 5)|].
    eapply rtc_l; [eapply (step_stats test true (mk_time 1 0) ti temp); vm_compute; reflexivity|].
    eapply rtc_l; [apply (step_reset test (mk_time 1 5) ti)|].
    eapply rtc_l; [apply (step_sent test _ _ 7)|].
    eapply rtc_l; [eapply (step_stats test true (mk_time 2 0) ti temp); vm_compute; reflexivity|].
    eapply rtc_l; [apply (step_sent test _ _ 2)|]. apply rtc_refl.
  - vm_compute. reflexivity.
  - vm_compute. reflexivity.
  - apply (stream_intervals test sp); [reflexivity..|].
    eapply rtc_l; [apply (step_sent test _ _ 5)|].
    eapply rtc_l; [eapply (step_stats test true (mk_time 1 0) ti temp); vm_compute; reflexivity|].
    eapply rtc_l; [apply (step_reset test (mk_time 1 5) ti)|].
    eapply rtc_l; [apply (step_sent test _ _ 7)|].
    eapply rtc_l; [eapply (step_stats test true (mk_time 2 0) ti temp); vm_compute; reflexivity|].
    eapply rtc_l; [apply (step_sent test _ _ 2)|]. apply rtc_refl.
Defined.
