(* ===== verification/Reports.v ===== *)
(** * Reports (iperf_api.c: iperf_print_intermediate, print_interval_results,
    iperf_print_results, iperf_reporter_callback)

    What the reporter prints from the statistics, as text and as JSON.  Debug
    output and flushing are left out; SCTP is not in this build. *)

From coqutil Require Import Datatypes.RecordSetters.
From Stdlib Require Import SpecFloat.
From Stdlib Require Import String.
From S2P Require Import Prelude.
From S2P Require Import IperfTime.
From S2P Require Import Cdouble.
From S2P Require Import Units.
From S2P Require Import CjsonData.
From S2P Require Import CjsonPrint.
From S2P Require Import CjsonTree.
From S2P Require Import JsonObject.
From S2P Require Import Iperf.
From S2P Require Import Udp.
From S2P Require Import Util.
From S2P Require Import Output.
From stdpp Require Import base numbers gmap list.
Import DoubleBraceUpdate.

Open Scope Z_scope.
Open Scope c_scope.

Abbreviation STREAM_RUNNING := 6.
Abbreviation UNIT_LEN := 32.

(** ** Figures *)

(** TAILQ_LAST of the intervals. *)
Definition irp_of (sp : iperf_stream) : option iperf_interval_results := last (interval_results (result sp)).

Definition secs_between (time1 time2 : iperf_time) : double := iperf_time_in_secs (snd (iperf_time_diff time1 time2)).

(** bytes / seconds, with and without the test for a positive divisor *)
Definition per_second (n : Z) (d : double) : double := ddiv (d_of_Z n) d.
Definition bandwidth_of (n : Z) (d : double) : double := if dltb d0 d then per_second n d else d0.
Definition bits (bandwidth : double) : double := dmul bandwidth (d_of_Z 8).

(** 100.0 * lost / total *)
Definition lost_percent_of (lost total : Z) : double :=
  if 0 <? total then ddiv (dmul (d_of_Z 100) (d_of_Z lost)) (d_of_Z total) else d0.

Definition millis (x : double) : double := dmul x (d_of_Z 1000).

(** unit_snprintf of a number of bytes, and of a rate in the format of the
    test *)
Definition amount (n : double) : parg := PStr (Some (unit_snprintf UNIT_LEN n 65 (* 'A' *))).
Definition rate_text (test : iperf_test) (bandwidth : double) : parg :=
  PStr (Some (unit_snprintf UNIT_LEN bandwidth (unit_format (settings test)))).

(** The role of a stream, for bidirectional tests. *)
Definition mbuf (test : iperf_test) (is_sender : bool) : parg :=
  PStr (Some (if mode test =? BIDIRECTIONAL
              then bytes_of "[" ++ bytes_of (if is_sender then "TX" else "RX") ++ bytes_of "-"
                   ++ bytes_of (if role test =? role_client then "C" else "S") ++ bytes_of "]"
              else [])).
Definition zbuf (test : iperf_test) : parg :=
  PStr (Some (if mode test =? BIDIRECTIONAL then bytes_of "          " else [])).

Definition text (t : bytes) : parg := PStr (Some t).
Definition omitted_text (b : bool) : parg := text (if b then report_omitted else []).
Definition flag (b : bool) : jarg := AInt (if b then 1 else 0).

(** The directions a report covers, in the order of the loop. *)
Definition modes (test : iperf_test) : list Z :=
  if mode test =? BIDIRECTIONAL
  then if role test =? role_client then [-1; 0] else [0; 1]
  else [mode test].

Definition must_be_sender (current_mode : Z) : bool := nonzero_int (current_mode * current_mode).

Section Reports.
Variable name0 : bytes.
Abbreviation json_printf := (json_printf name0).

(** ** print_interval_results *)

(** The header or separator before the first stream. *)
Definition interval_header (test : iperf_test) (sp : iperf_stream) (irp : iperf_interval_results)
    (o : output) : outcome output :=
  let bidir := nonzero_int (bidirectional test) in
  let header h := iperf_printf test (bytes_of "%s") [text h] o in
  if iperf_time_compare (start_time (result sp)) (interval_start_time irp) =? 0
  then
    if protocol test =? Ptcp
    then
      if sender_has_retransmits test =? 1
      then header (if bidir then report_bw_retrans_cwnd_header_bidir else report_bw_retrans_cwnd_header)
      else header (if bidir then report_bw_header_bidir else report_bw_header)
    else
      header (if mode test =? SENDER then report_bw_udp_sender_header
              else if mode test =? RECEIVER then report_bw_udp_header else report_bw_udp_header_bidir)
  else if 1 <? num_streams test then header report_bw_separator else Ok o.

(** [first]: the stream is the first of the test. *)
Definition print_interval_results (test : iperf_test) (first : bool) (sp : iperf_stream)
    (json_interval_streams : list nat) (o : output) : outcome output :=
  match irp_of sp with
  | None => iperf_err "print_interval_results error: interval_results is NULL" o
  | Some irp =>
      let! o := if negb (json_output o) && first then interval_header test sp irp o else Ok o in
      let bytes := bytes_transferred irp in
      let bandwidth := bandwidth_of bytes (interval_duration irp) in
      let st := secs_between (start_time (result sp)) (interval_start_time irp) in
      let et := secs_between (start_time (result sp)) (interval_end_time irp) in
      let json := [AInt64 (socket sp); ADouble st; ADouble et; ADouble (interval_duration irp); AInt64 (i64 bytes);
                   ADouble (bits bandwidth)] in
      let plain := [PInt (socket sp); mbuf test (sender sp); PDouble st; PDouble et; amount (d_of_Z bytes);
                    rate_text test bandwidth] in
      let ends := [flag (omitted irp); flag (sender sp)] in
      let report format more plain_format plain_more :=
        if json_output o
        then let! j := json_printf format (json ++ more ++ ends) in add_to_array json_interval_streams j o
        else iperf_printf test plain_format (plain ++ plain_more ++ [omitted_text (omitted irp)]) o in
      if protocol test =? Ptcp
      then
        if (sender_has_retransmits test =? 1) && sender sp
        then report
          "socket: %d  start: %f  end: %f  seconds: %f  bytes: %d  bits_per_second: %f  retransmits: %d  snd_cwnd:  %d  rtt:  %d  rttvar: %d  pmtu: %d  omitted: %b sender: %b"%string
          [AInt64 (interval_retrans irp); AInt64 (snd_cwnd irp); AInt64 (rtt irp); AInt64 (rttvar irp); AInt64 (pmtu irp)]
          report_bw_retrans_cwnd_format [PInt (interval_retrans irp); amount (d_of_Z (snd_cwnd irp))]
        else report
          "socket: %d  start: %f  end: %f  seconds: %f  bytes: %d  bits_per_second: %f  omitted: %b sender: %b"%string
          [] report_bw_format []
      else
        let packets := interval_packet_count irp in
        if sender sp
        then report
          "socket: %d  start: %f  end: %f  seconds: %f  bytes: %d  bits_per_second: %f  packets: %d  omitted: %b sender: %b"%string
          [AInt64 packets] report_bw_udp_sender_format [zbuf test; PInt packets]
        else
          let lost := interval_cnt_error irp in
          let lost_percent := lost_percent_of lost packets in
          report
            "socket: %d  start: %f  end: %f  seconds: %f  bytes: %d  bits_per_second: %f  jitter_ms: %f  lost_packets: %d  packets: %d  lost_percent: %f  omitted: %b sender: %b"%string
            [ADouble (millis (ir_jitter irp)); AInt64 lost; AInt64 packets; ADouble lost_percent]
            report_bw_udp_format [PDouble (millis (ir_jitter irp)); PInt lost; PInt packets; PDouble lost_percent]
  end.

(** ** iperf_print_intermediate *)

(** Whether the last interval of some stream is long enough or has data. *)
Definition interval_ok (test : iperf_test) (o : output) : bool :=
  existsb (fun sp =>
    match irp_of sp with
    | Some irp =>
        dleb (dmul (stats_interval o) (d_dec 10 2)) (secs_between (interval_start_time irp) (interval_end_time irp))
        || (0 <? bytes_transferred irp)
    | None => false
    end) (streams test).

Record sums := mk_sums
  { s_bytes : Z;
    s_retransmits : Z;
    s_total_packets : Z;
    s_lost_packets : Z;
    s_avg_jitter : double }.

Definition no_sums : sums := mk_sums 0 0 0 0 d0.

Definition sum_up (test : iperf_test) (irp : iperf_interval_results) (s : sums) : outcome sums :=
  let s := s {{ s_bytes := u64 (s_bytes s + bytes_transferred irp) }} in
  if protocol test =? Ptcp
  then
    if sender_has_retransmits test =? 1
    then let! r := int_of (s_retransmits s + interval_retrans irp) in Ok (s {{ s_retransmits := r }})
    else Ok s
  else
    let! total := int_of (s_total_packets s + interval_packet_count irp) in
    let! lost := int_of (s_lost_packets s + interval_cnt_error irp) in
    Ok (s {{ s_total_packets := total; s_lost_packets := lost;
             s_avg_jitter := dadd (s_avg_jitter s) (ir_jitter irp) }}).

(** The loop over the streams of one direction; None: the function returns. *)
Fixpoint interval_streams (test : iperf_test) (is_sender : bool) (json_interval_streams : list nat)
    (first : bool) (l : list iperf_stream) (s : sums) (o : output) : outcome (option sums * output) :=
  match l with
  | [] => Ok (Some s, o)
  | sp :: l =>
      if Bool.eqb (sender sp) is_sender
      then
        let! o := print_interval_results test first sp json_interval_streams o in
        match irp_of sp with
        | None =>
            let! o := iperf_err "iperf_print_intermediate error: interval_results is NULL" o in Ok (None, o)
        | Some irp =>
            let! s := sum_up test irp s in
            interval_streams test is_sender json_interval_streams false l s o
        end
      else interval_streams test is_sender json_interval_streams false l s o
  end.

(** The sum of one direction; its times are those of the first stream. *)
Definition interval_sum (test : iperf_test) (is_sender : bool) (json_interval : list nat) (s : sums) (o : output)
    : outcome output :=
  if negb ((1 <? num_streams test) || json_output o) then Ok o else
  match streams test with
  | [] => Ok o
  | sp :: _ =>
      let! irp := deref (irp_of sp) in
      let bandwidth := per_second (s_bytes s) (interval_duration irp) in
      let start := secs_between (start_time (result sp)) (interval_start_time irp) in
      let stop := secs_between (start_time (result sp)) (interval_end_time irp) in
      let json := [ADouble start; ADouble stop; ADouble (interval_duration irp); AInt64 (i64 (s_bytes s));
                   ADouble (bits bandwidth)] in
      let plain := [mbuf test is_sender; PDouble start; PDouble stop; amount (d_of_Z (s_bytes s));
                    rate_text test bandwidth] in
      let report format more was_omitted plain_format plain_more :=
        if json_output o
        then
          let! j := json_printf format (json ++ more ++ [flag was_omitted; flag is_sender]) in
          add_to_object json_interval "sum" j o
        else iperf_printf test plain_format (plain ++ plain_more ++ [omitted_text was_omitted]) o in
      if protocol test =? Ptcp
      then
        if (sender_has_retransmits test =? 1) && is_sender
        then report
          "start: %f  end: %f  seconds: %f  bytes: %d  bits_per_second: %f  retransmits: %d  omitted: %b sender: %b"%string
          [AInt64 (s_retransmits s)] (omitted irp) report_sum_bw_retrans_format [PInt (s_retransmits s)]
        else report
          "start: %f  end: %f  seconds: %f  bytes: %d  bits_per_second: %f  omitted: %b sender: %b"%string
          [] (omitting test) report_sum_bw_format []
      else if is_sender
      then report
        "start: %f  end: %f  seconds: %f  bytes: %d  bits_per_second: %f  packets: %d  omitted: %b sender: %b"%string
        [AInt64 (s_total_packets s)] (omitting test) report_sum_bw_udp_sender_format
        [zbuf test; PInt (s_total_packets s)]
      else
        let avg_jitter := millis (ddiv (s_avg_jitter s) (d_of_Z (num_streams test))) in
        let lost_percent := lost_percent_of (s_lost_packets s) (s_total_packets s) in
        report
          "start: %f  end: %f  seconds: %f  bytes: %d  bits_per_second: %f  jitter_ms: %f  lost_packets: %d  packets: %d  lost_percent: %f  omitted: %b sender: %b"%string
          [ADouble avg_jitter; AInt64 (s_lost_packets s); AInt64 (s_total_packets s); ADouble lost_percent]
          (omitting test) report_sum_bw_udp_format
          [PDouble avg_jitter; PInt (s_lost_packets s); PInt (s_total_packets s); PDouble lost_percent]
  end.

Fixpoint interval_modes (test : iperf_test) (json_interval : list nat) (l : list Z) (o : output) : outcome output :=
  match l with
  | [] => Ok o
  | current_mode :: l =>
      let is_sender := must_be_sender current_mode in
      let! r := interval_streams test is_sender (json_interval ++ [0%nat]) true (streams test) no_sums o in
      match r with
      | (None, o) => Ok o
      | (Some s, o) =>
          let! o := interval_sum test is_sender json_interval s o in
          interval_modes test json_interval l o
      end
  end.

Definition iperf_print_intermediate (test : iperf_test) (o : output) : outcome output :=
  if negb (interval_ok test o) then Ok o
  else if json_output o
  then
    let! n := children_at json_intervals o in
    let json_interval := json_intervals ++ [n] in
    let! o := add_to_array json_intervals (cJSON_CreateObject true) o in
    let! o := add_to_object json_interval "streams" (cJSON_CreateArray true) o in
    interval_modes test json_interval (modes test) o
  else interval_modes test [] (modes test) o.

(** ** iperf_print_results *)

Record totals := mk_totals
  { t_retransmits : Z;
    t_packets : Z;
    t_lost : Z;
    t_sender_packets : Z;
    t_receiver_packets : Z;
    t_sent : Z;
    t_received : Z;
    t_jitter : double }.

Definition no_totals : totals := mk_totals 0 0 0 0 0 0 0 d0.

(** The header of the text. *)
Definition summary_header (test : iperf_test) (o : output) : outcome output :=
  let header h o := iperf_printf test (bytes_of "%s") [text h] o in
  let bidir := nonzero_int (bidirectional test) in
  let! o := header report_bw_separator o in
  let! o := if verbose o then header report_summary o else Ok o in
  if protocol test =? Ptcp
  then
    if nonzero_int (sender_has_retransmits test) || nonzero_int (other_side_has_retransmits test)
    then header (if bidir then report_bw_retrans_header_bidir else report_bw_retrans_header) o
    else header (if bidir then report_bw_header_bidir else report_bw_header) o
  else header (if bidir then report_bw_udp_header_bidir else report_bw_udp_header) o.

(** The times of the first stream: (sender_time, receiver_time); a time the
    peer did not report is taken from this side. *)
Definition first_times (sp : iperf_stream) : double * double :=
  let rp := result sp in
  let end_time := secs_between (start_time rp) (end_time rp) in
  if sender sp
  then (end_time, if deqb (receiver_time rp) d0 then end_time else receiver_time rp)
  else (if deqb (sender_time rp) d0 then end_time else sender_time rp, end_time).

Definition set_times (sp : iperf_stream) : iperf_stream :=
  sp {{ result := (result sp) {{ sender_time := fst (first_times sp); receiver_time := snd (first_times sp) }} }}.

(** The packets the sender and the receiver of a stream counted. *)
Definition packet_counts (sp : iperf_stream) : Z * Z :=
  if sender sp then (packet_count sp, peer_packet_count sp) else (peer_packet_count sp, packet_count sp).

Definition stream_sent (sp : iperf_stream) : Z := u64 (bytes_sent (result sp) - bytes_sent_omit (result sp)).

Definition total_up (test : iperf_test) (sp : iperf_stream) (t : totals) : outcome totals :=
  let t := t {{ t_sent := u64 (t_sent t + stream_sent sp);
                t_received := u64 (t_received t + bytes_received (result sp)) }} in
  if protocol test =? Ptcp
  then
    if nonzero_int (sender_has_retransmits test)
    then let! r := int_of (t_retransmits t + stream_retrans (result sp)) in Ok (t {{ t_retransmits := r }})
    else Ok t
  else
    let '(sent, received) := packet_counts sp in
    let packets := if nonzero_int sent then sent else received in
    let! d := int_of (packets - omitted_packet_count sp) in
    let! packets := int_of (t_packets t + d) in
    let! d := int_of (sent - omitted_packet_count sp) in
    let! sp_sent := int_of (t_sender_packets t + d) in
    let! d := int_of (received - omitted_packet_count sp) in
    let! sp_received := int_of (t_receiver_packets t + d) in
    let! d := int_of (cnt_error sp - omitted_cnt_error sp) in
    let! lost := int_of (t_lost t + d) in
    Ok (t {{ t_packets := packets; t_sender_packets := sp_sent; t_receiver_packets := sp_received;
             t_lost := lost; t_jitter := dadd (t_jitter t) (jitter sp) }}).

(** A line of a side that has no figures of the other one: printed only when
    verbose. *)
Definition not_available (test : iperf_test) (format : bytes) (a : parg) (o : output) : outcome output :=
  if verbose o then iperf_printf test format [a] o else Ok o.

(** The summary of the sender of a stream; [jp] is the object of the stream. *)
Definition sender_summary (test : iperf_test) (is_sender : bool) (jp : list nat) (sender_time : double)
    (sp : iperf_stream) (o : output) : outcome output :=
  let rp := result sp in
  let bytes := stream_sent sp in
  let bandwidth := bandwidth_of bytes sender_time in
  let json := [AInt64 (socket sp); ADouble d0; ADouble sender_time; ADouble sender_time; AInt64 (i64 bytes);
               ADouble (bits bandwidth)] in
  let plain := [PInt (socket sp); mbuf test is_sender; PDouble d0; PDouble sender_time; amount (d_of_Z bytes);
                rate_text test bandwidth] in
  let print format more :=
    if (role test =? role_server) && negb (sender sp)
    then not_available test report_sender_not_available_format (PInt (socket sp)) o
    else iperf_printf test format (plain ++ more ++ [text report_sender]) o in
  if protocol test =? Ptcp
  then
    if nonzero_int (sender_has_retransmits test)
    then
      if json_output o
      then
        let mean := if stream_count_rtt rp =? 0 then 0 else Z.quot (stream_sum_rtt rp) (stream_count_rtt rp) in
        let! j := json_printf
          "socket: %d  start: %f  end: %f  seconds: %f  bytes: %d  bits_per_second: %f  retransmits: %d  max_snd_cwnd:  %d  max_rtt:  %d  min_rtt:  %d  mean_rtt:  %d sender: %b"
          (json ++ [AInt64 (stream_retrans rp); AInt64 (stream_max_snd_cwnd rp); AInt64 (stream_max_rtt rp);
                    AInt64 (stream_min_rtt rp); AInt64 mean; flag is_sender]) in
        add_to_object jp "sender" j o
      else print report_bw_retrans_format [PInt (stream_retrans rp)]
    else
      if json_output o
      then
        let! j := json_printf
          "socket: %d  start: %f  end: %f  seconds: %f  bytes: %d  bits_per_second: %f sender: %b"
          (json ++ [flag is_sender]) in
        add_to_object jp "sender" j o
      else print report_bw_format []
  else
    let '(sent, received) := packet_counts sp in
    let! sent_packets := int_of (sent - omitted_packet_count sp) in
    let! lost := int_of (cnt_error sp - omitted_cnt_error sp) in
    let! outoforder := int_of (outoforder_packets sp - omitted_outoforder_packets sp) in
    if json_output o
    then
      let! packets := int_of ((if nonzero_int sent then sent else received) - omitted_packet_count sp) in
      let! j := json_printf
        "socket: %d  start: %f  end: %f  seconds: %f  bytes: %d  bits_per_second: %f  jitter_ms: %f  lost_packets: %d  packets: %d  lost_percent: %f  out_of_order: %d sender: %b"
        (json ++ [ADouble (millis (jitter sp)); AInt64 lost; AInt64 packets;
                  ADouble (lost_percent_of lost sent_packets); AInt64 outoforder; flag is_sender]) in
      add_to_object jp "udp" j o
    else
      let! o := print report_bw_udp_format [PDouble d0; PInt 0; PInt sent_packets; PDouble d0] in
      if 0 <? outoforder
      then iperf_printf test report_sum_outoforder [mbuf test is_sender; PDouble d0; PDouble sender_time; PInt outoforder] o
      else Ok o.

(** The size of the disk file of a stream: None without one, or if fstat
    fails. *)
Variable diskfile_size : iperf_stream -> option Z.

Definition percent_of (n size : Z) : outcome Z :=
  if 0 <? size then int_of_double (dmul (ddiv (d_of_Z n) (d_of_Z size)) (d_of_Z 100)) else Ok 100.

Definition diskfile_summary (test : iperf_test) (is_sender : bool) (jp : list nat) (sp : iperf_stream) (o : output)
    : outcome output :=
  match diskfile_size sp with
  | None => Ok o
  | Some size =>
      let sent := stream_sent sp in
      let received := bytes_received (result sp) in
      let! percent_sent := percent_of sent size in
      let! percent_received := percent_of received size in
      if json_output o
      then
        let! j := json_printf "sent: %d  received: %d  size: %d  percent_sent: %d  percent_received: %d  filename: %s"
          [AInt64 (i64 sent); AInt64 (i64 received); AInt64 size; AInt64 percent_sent; AInt64 percent_received;
           AString (diskfile_name o)] in
        add_to_object jp "diskfile" j o
      else
        let '(n, percent) := if is_sender then (sent, percent_sent) else (received, percent_received) in
        iperf_printf test report_diskfile [amount (d_of_Z n); amount (d_of_Z size); PInt percent; PStr (diskfile_name o)] o
  end.

(** The summary of the receiver of a stream; a UDP stream has one object for
    both sides. *)
Definition receiver_summary (test : iperf_test) (is_sender : bool) (jp : list nat) (receiver_time end_time : double)
    (sp : iperf_stream) (o : output) : outcome output :=
  let bytes := bytes_received (result sp) in
  let bandwidth := bandwidth_of bytes receiver_time in
  let plain := [PInt (socket sp); mbuf test is_sender; PDouble d0; PDouble receiver_time; amount (d_of_Z bytes);
                rate_text test bandwidth] in
  let print format more :=
    if (role test =? role_server) && sender sp
    then not_available test report_receiver_not_available_format (PInt (socket sp)) o
    else iperf_printf test format (plain ++ more ++ [text report_receiver]) o in
  if protocol test =? Ptcp
  then
    if json_output o
    then
      let! j := json_printf
        "socket: %d  start: %f  end: %f  seconds: %f  bytes: %d  bits_per_second: %f sender: %b"
        [AInt64 (socket sp); ADouble d0; ADouble receiver_time; ADouble end_time; AInt64 (i64 bytes);
         ADouble (bits bandwidth); flag is_sender] in
      add_to_object jp "receiver" j o
    else print report_bw_format []
  else if json_output o then Ok o
  else
    let! packets := int_of (snd (packet_counts sp) - omitted_packet_count sp) in
    let! lost := int_of (cnt_error sp - omitted_cnt_error sp) in
    print report_bw_udp_format
      [PDouble (millis (jitter sp)); PInt lost; PInt packets; PDouble (lost_percent_of lost packets)].

(** The loop over the streams of one direction; [js] is the array of the
    summaries. *)
Fixpoint summary_streams (test : iperf_test) (is_sender : bool) (js : list nat)
    (sender_time receiver_time end_time : double) (l : list iperf_stream) (t : totals) (o : output)
    : outcome (totals * output) :=
  match l with
  | [] => Ok (t, o)
  | sp :: l =>
      if Bool.eqb (sender sp) is_sender
      then
        let! r :=
          if json_output o
          then let! n := children_at js o in
               let! o := add_to_array js (cJSON_CreateObject true) o in Ok (js ++ [n], o)
          else Ok ([], o) in
        let '(jp, o) := r in
        let! t := total_up test sp t in
        let! o := sender_summary test is_sender jp sender_time sp o in
        let! o := diskfile_summary test is_sender jp sp o in
        let! o := receiver_summary test is_sender jp receiver_time end_time sp o in
        summary_streams test is_sender js sender_time receiver_time end_time l t o
      else summary_streams test is_sender js sender_time receiver_time end_time l t o
  end.

(** The sum of one direction. *)
Definition summary_sum (test : iperf_test) (is_sender : bool) (sender_time receiver_time end_time : double)
    (t : totals) (o : output) : outcome output :=
  if negb ((1 <? num_streams test) || json_output o) then Ok o else
  let sent_bw := bandwidth_of (t_sent t) sender_time in
  let recv_bw := bandwidth_of (t_received t) receiver_time in
  let json time n bw := [ADouble d0; ADouble time; ADouble time; AInt64 (i64 n); ADouble (bits bw)] in
  let plain time n bw := [mbuf test is_sender; PDouble d0; PDouble time; amount (d_of_Z n); rate_text test bw] in
  let server_only (hide : bool) format other o :=
    if (role test =? role_server) && hide then not_available test format (text (bytes_of "SUM")) o else other o in
  if protocol test =? Ptcp
  then
    let! o :=
      if nonzero_int (sender_has_retransmits test)
      then
        if json_output o
        then
          let! j := json_printf
            "start: %f  end: %f  seconds: %f  bytes: %d  bits_per_second: %f  retransmits: %d sender: %b"
            (json sender_time (t_sent t) sent_bw ++ [AInt64 (t_retransmits t); flag is_sender]) in
          add_to_object json_end "sum_sent" j o
        else
          server_only (negb is_sender) report_sender_not_available_summary_format
            (iperf_printf test report_sum_bw_retrans_format
               (plain sender_time (t_sent t) sent_bw ++ [PInt (t_retransmits t); text report_sender])) o
      else
        if json_output o
        then
          let! j := json_printf
            "start: %f  end: %f  seconds: %f  bytes: %d  bits_per_second: %f sender: %b"
            (json sender_time (t_sent t) sent_bw ++ [flag is_sender]) in
          add_to_object json_end "sum_sent" j o
        else
          server_only (negb is_sender) report_sender_not_available_summary_format
            (iperf_printf test report_sum_bw_format
               (plain sender_time (t_sent t) sent_bw ++ [text report_sender])) o in
    if json_output o
    then
      let! j := json_printf
        "start: %f  end: %f  seconds: %f  bytes: %d  bits_per_second: %f sender: %b"
        (json receiver_time (t_received t) recv_bw ++ [flag is_sender]) in
      add_to_object json_end "sum_received" j o
    else
      server_only is_sender report_receiver_not_available_summary_format
        (iperf_printf test report_sum_bw_format
           (plain receiver_time (t_received t) recv_bw ++ [text report_receiver])) o
  else
    let avg_jitter := millis (ddiv (t_jitter t) (d_of_Z (num_streams test))) in
    let lost_percent := lost_percent_of (t_lost t) (t_packets t) in
    if json_output o
    then
      let! j := json_printf
        "start: %f  end: %f  seconds: %f  bytes: %d  bits_per_second: %f  jitter_ms: %f  lost_packets: %d  packets: %d  lost_percent: %f sender: %b"
        (json receiver_time (t_sent t) sent_bw
           ++ [ADouble avg_jitter; AInt64 (t_lost t); AInt64 (t_packets t); ADouble lost_percent; flag is_sender]) in
      add_to_object json_end "sum" j o
    else
      let! o :=
        if (role test =? role_server) && negb is_sender then Ok o
        else iperf_printf test report_sum_bw_udp_format
               (plain sender_time (t_sent t) sent_bw
                  ++ [PDouble d0; PInt 0; PInt (t_sender_packets t); PDouble d0; text report_sender]) o in
      if (role test =? role_server) && is_sender then Ok o
      else
        let bandwidth := if dltb d0 end_time then per_second (t_received t) receiver_time else d0 in
        iperf_printf test report_sum_bw_udp_format
          (plain receiver_time (t_received t) bandwidth
             ++ [PDouble avg_jitter; PInt (t_lost t); PInt (t_receiver_packets t); PDouble lost_percent;
                 text report_receiver]) o.

(** The names of the congestion controls of the sender and the receiver. *)
Definition congestions (test : iperf_test) (is_sender : bool) : option bytes * option bytes :=
  if is_sender then (congestion_used test, remote_congestion_used test)
  else (remote_congestion_used test, congestion_used test).

Definition cpu_line (test : iperf_test) (a b : bytes) (o : output) : outcome output :=
  let '(h0, h1, h2) := Iperf.cpu_util test in
  let '(r0, r1, r2) := remote_cpu_util test in
  iperf_printf test report_cpu
    [text report_local; text a; PDouble h0; PDouble h1; PDouble h2;
     text report_remote; text b; PDouble r0; PDouble r1; PDouble r2] o.

Definition if_some {A} (x : option A) (f : output -> outcome output) (o : output) : outcome output :=
  match x with Some _ => f o | None => Ok o end.

(** CPU figures and congestion control at the end of the JSON. *)
Definition json_last (test : iperf_test) (is_sender : bool) (o : output) : outcome output :=
  let '(h0, h1, h2) := Iperf.cpu_util test in
  let '(r0, r1, r2) := remote_cpu_util test in
  let! j := json_printf
    "host_total: %f  host_user: %f  host_system: %f  remote_total: %f  remote_user: %f  remote_system: %f"
    [ADouble h0; ADouble h1; ADouble h2; ADouble r0; ADouble r1; ADouble r2] in
  let! o := add_to_object json_end "cpu_utilization_percent" j o in
  if protocol test =? Ptcp
  then
    let '(snd_congestion, rcv_congestion) := congestions test is_sender in
    let add name s := if_some s (json_update json_end (fun j => cJSON_AddStringToObject j name s)) in
    let! o := add "sender_tcp_congestion"%string snd_congestion o in
    add "receiver_tcp_congestion"%string rcv_congestion o
  else Ok o.

(** ... and in the text; [allocate] as for cJSON_Print. *)
Variable allocate : nat -> nat -> bool.

Definition text_last (test : iperf_test) (is_sender : bool) (o : output) : outcome output :=
  let! o :=
    if verbose o
    then
      let! o :=
        if is_sender
        then
          let! o := cpu_line test report_sender report_receiver o in
          if nonzero_int (bidirectional test) then cpu_line test report_receiver report_sender o else Ok o
        else Ok o in
      if protocol test =? Ptcp
      then
        let '(snd_congestion, rcv_congestion) := congestions test is_sender in
        let! o := if_some snd_congestion (iperf_printf test (line "snd_tcp_congestion %s") [PStr snd_congestion]) o in
        if_some rcv_congestion (iperf_printf test (line "rcv_tcp_congestion %s") [PStr rcv_congestion]) o
      else Ok o
    else Ok o in
  if (role test =? role_client) && nonzero_int (get_server_output test) && negb (json_output o)
  then
    let! o :=
      match json_server_output o with
      | None => Ok o
      | Some j =>
          let! buf := cJSON_Print allocate j in
          let! s := match buf with
                    | Some b => let! t := string_at b in Ok (Some t)
                    | None => Ok None
                    end in
          let! o := iperf_printf test (10 :: line "Server JSON output:" ++ line "%s") [PStr s] o in
          Ok (o {{ json_server_output := None }})
      end in
    match server_output_text o with
    | None => Ok o
    | Some t =>
        let! o := iperf_printf test (10 :: line "Server output:" ++ line "%s") [PStr (Some t)] o in
        Ok (o {{ server_output_text := None }})
    end
  else Ok o.

(** The body of the loop over the directions; [upper]: it is the last one,
    [retrans] the value of sender_has_retransmits before the loop. *)
Definition summary_mode (retrans : Z) (js : list nat) (current_mode : Z) (upper : bool) (test : iperf_test) (o : output)
    : outcome (iperf_test * output) :=
  let is_sender := must_be_sender current_mode in
  let test :=
    if mode test =? BIDIRECTIONAL
    then test {{ sender_has_retransmits := if is_sender then retrans else other_side_has_retransmits test }}
    else test in
  let! r :=
    match streams test with
    | [] => Ok (test, no_totals, o, (d0, d0, d0))
    | sp :: l =>
        let '(st, rt) := first_times sp in
        let et := secs_between (start_time (result sp)) (end_time (result sp)) in
        let test := test {{ streams := set_times sp :: l }} in
        let! r := summary_streams test is_sender js st rt et (streams test) no_totals o in
        Ok (test, fst r, snd r, (st, rt, et))
    end in
  let '(test, t, o, (st, rt, et)) := r in
  let! o := summary_sum test is_sender st rt et t o in
  let! o := if json_output o && upper then json_last test is_sender o else text_last test is_sender o in
  Ok (test, o).

Fixpoint summary_modes (retrans : Z) (js : list nat) (l : list Z) (test : iperf_test) (o : output)
    : outcome (iperf_test * output) :=
  match l with
  | [] => Ok (test, o)
  | current_mode :: l =>
      let upper := match l with [] => true | _ => false end in
      let! r := summary_mode retrans js current_mode upper test o in
      summary_modes retrans js l (fst r) (snd r)
  end.

Definition iperf_print_results (test : iperf_test) (o : output) : outcome (iperf_test * output) :=
  let retrans := sender_has_retransmits test in
  let! r :=
    if json_output o
    then let! n := children_at json_end o in
         let! o := add_to_object json_end "streams" (cJSON_CreateArray true) o in Ok (json_end ++ [n], o)
    else let! o := summary_header test o in Ok ([], o) in
  let! r := summary_modes retrans (fst r) (modes test) test (snd r) in
  let '(test, o) := r in
  Ok (if mode test =? BIDIRECTIONAL then test {{ sender_has_retransmits := retrans }} else test, o).

(** ** iperf_reporter_callback *)
Definition iperf_reporter_callback (test : iperf_test) (o : output) : outcome (iperf_test * output) :=
  if (state test =? TEST_RUNNING) || (state test =? STREAM_RUNNING)
  then let! o := iperf_print_intermediate test o in Ok (test, o)
  else if (state test =? TEST_END) || (state test =? DISPLAY_RESULTS)
  then let! o := iperf_print_intermediate test o in iperf_print_results test o
  else Ok (test, o).

End Reports.
