(* ===== verification/ReportsJson.v ===== *)
(** * The JSON of the reports

    What the reporter adds to the JSON tree: for an interval one object with a
    member per stream and the sums of each direction, at the end the summaries
    of the streams and their totals. *)

From coqutil Require Import Datatypes.RecordSetters.
From Stdlib Require Import SpecFloat.
From Stdlib Require Import String.
From S2P Require Import Prelude.
From S2P Require Import IperfTime.
From S2P Require Import Cdouble.
From S2P Require Import Units.
From S2P Require Import CjsonData.
From S2P Require Import CjsonPrint.
From S2P Require Import CjsonTree.
From S2P Require Import JsonObject.
From S2P Require Import Iperf.
From S2P Require Import Udp.
From S2P Require Import Util.
From S2P Require Import Output.
From S2P Require Import OutputThms.
From S2P Require Import Reports.
From stdpp Require Import base numbers gmap list.
Import DoubleBraceUpdate.

Open Scope Z_scope.
Open Scope c_scope.

(** ** Specification of an interval *)

Definition fld (name : String.string) (v : jarg) : field := (bytes_of name, v).

Definition object_of (fields : list field) : cJSON := obj (map field_item fields).
Definition array_of (items : list cJSON) : cJSON := mkcJSON cJSON_Array None 0 d0 None items.

(** The figures of one stream. *)
Definition interval_fields (test : iperf_test) (sp : iperf_stream) (irp : iperf_interval_results) : list field :=
  let bytes := bytes_transferred irp in
  [fld "socket" (AInt64 (socket sp));
   fld "start" (ADouble (secs_between (start_time (result sp)) (interval_start_time irp)));
   fld "end" (ADouble (secs_between (start_time (result sp)) (interval_end_time irp)));
   fld "seconds" (ADouble (interval_duration irp));
   fld "bytes" (AInt64 (i64 bytes));
   fld "bits_per_second" (ADouble (bits (bandwidth_of bytes (interval_duration irp))))]
  ++ (if protocol test =? Ptcp
      then if (sender_has_retransmits test =? 1) && sender sp
           then [fld "retransmits" (AInt64 (interval_retrans irp)); fld "snd_cwnd" (AInt64 (snd_cwnd irp));
                 fld "rtt" (AInt64 (rtt irp)); fld "rttvar" (AInt64 (rttvar irp)); fld "pmtu" (AInt64 (pmtu irp))]
           else []
      else if sender sp
      then [fld "packets" (AInt64 (interval_packet_count irp))]
      else [fld "jitter_ms" (ADouble (millis (ir_jitter irp)));
            fld "lost_packets" (AInt64 (interval_cnt_error irp));
            fld "packets" (AInt64 (interval_packet_count irp));
            fld "lost_percent" (ADouble (lost_percent_of (interval_cnt_error irp) (interval_packet_count irp)))])
  ++ [fld "omitted" (flag (omitted irp)); fld "sender" (flag (sender sp))].

Definition zsum {A} (f : A -> Z) (l : list A) : Z := foldr (fun x n => f x + n) 0 l.

(** The sums over the intervals of the streams of one direction. *)
Definition interval_sums (test : iperf_test) (l : list iperf_interval_results) : sums :=
  let tcp := protocol test =? Ptcp in
  mk_sums (u64 (zsum bytes_transferred l))
    (if tcp && (sender_has_retransmits test =? 1) then zsum interval_retrans l else 0)
    (if tcp then 0 else zsum interval_packet_count l)
    (if tcp then 0 else zsum interval_cnt_error l)
    (if tcp then d0 else foldl dadd d0 (map ir_jitter l)).

(** The sum of a direction; [sp] is the first stream and [irp] its interval. *)
Definition sum_fields (test : iperf_test) (is_sender : bool) (s : sums) (sp : iperf_stream) (irp : iperf_interval_results)
    : list field :=
  let tcp := protocol test =? Ptcp in
  let retr := (sender_has_retransmits test =? 1) && is_sender in
  [fld "start" (ADouble (secs_between (start_time (result sp)) (interval_start_time irp)));
   fld "end" (ADouble (secs_between (start_time (result sp)) (interval_end_time irp)));
   fld "seconds" (ADouble (interval_duration irp));
   fld "bytes" (AInt64 (i64 (s_bytes s)));
   fld "bits_per_second" (ADouble (bits (per_second (s_bytes s) (interval_duration irp))))]
  ++ (if tcp
      then if retr then [fld "retransmits" (AInt64 (s_retransmits s))] else []
      else if is_sender
      then [fld "packets" (AInt64 (s_total_packets s))]
      else [fld "jitter_ms" (ADouble (millis (ddiv (s_avg_jitter s) (d_of_Z (num_streams test)))));
            fld "lost_packets" (AInt64 (s_lost_packets s));
            fld "packets" (AInt64 (s_total_packets s));
            fld "lost_percent" (ADouble (lost_percent_of (s_lost_packets s) (s_total_packets s)))])
  ++ [fld "omitted" (flag (if tcp && retr then omitted irp else omitting test)); fld "sender" (flag is_sender)].

(** The streams of a direction and their last intervals. *)
Definition towards (is_sender : bool) (l : list iperf_stream) : list iperf_stream :=
  List.filter (fun sp => Bool.eqb (sender sp) is_sender) l.
Definition intervals_of (l : list iperf_stream) : list iperf_interval_results := omap irp_of l.

Definition stream_items (test : iperf_test) (l : list iperf_stream) : list cJSON :=
  omap (fun sp => option_map (fun irp => object_of (interval_fields test sp irp)) (irp_of sp)) l.

Definition sum_items (test : iperf_test) (is_sender : bool) : list cJSON :=
  match streams test with
  | sp :: _ =>
      match irp_of sp with
      | Some irp =>
          [named "sum" (object_of (sum_fields test is_sender
             (interval_sums test (intervals_of (towards is_sender (streams test)))) sp irp))]
      | None => []
      end
  | [] => []
  end.

Definition interval_item (test : iperf_test) : cJSON :=
  let dirs := map must_be_sender (modes test) in
  obj (named "streams" (array_of (flat_map (fun d => stream_items test (towards d (streams test))) dirs))
       :: flat_map (sum_items test) dirs).

(** The sums fit an int. *)
Definition fits {A} (f : A -> Z) (l : list A) : Prop := zsum (fun x => Z.abs (f x)) l < 2 ^ 31.
Definition sums_fit (test : iperf_test) : Prop :=
  let l := intervals_of (streams test) in
  fits interval_retrans l /\ fits interval_packet_count l /\ fits interval_cnt_error l.

Definition have_intervals (test : iperf_test) : Prop := Forall (fun sp => irp_of sp <> None) (streams test).

(** ** Objects from their formats *)

Lemma json_printf_object name0 format args fields letters :
  List.length name0 = 100%nat -> args = map snd fields -> letters = map letter args -> Forall there args ->
  format_shape (bytes_of format) (map fst fields) letters = true ->
  json_printf name0 format args = Ok (Some (object_of fields)).
Proof.
  intros Hl -> -> Ht Hs. rewrite (json_printf_fields name0 format (map fst fields)) by done.
  by rewrite zip_fst_snd.
Qed.

(** [build fields]: run json_printf with the fields of a specification. *)
Ltac build fields :=
  erewrite (json_printf_object _ _ _ fields);
  [|eassumption|reflexivity|reflexivity|repeat constructor|vm_compute; reflexivity]; cbn [obind].

(** ** The sums *)

Definition sum_ups (test : iperf_test) (l : list iperf_interval_results) (s : sums) : outcome sums :=
  foldl (fun m irp => obind m (sum_up test irp)) (Ok s) l.

Lemma sum_ups_first test l : forall m s', foldl (fun m irp => obind m (sum_up test irp)) m l = Ok s' -> exists s, m = Ok s.
Proof.
  induction l as [|irp l IH]; intros m s' H; cbn in H; [eauto|]. apply IH in H as [s H]. destruct m; [eauto|done|done].
Qed.

Lemma zsum_cons {A} (f : A -> Z) x l : zsum f (x :: l) = f x + zsum f l.
Proof. done. Qed.

Lemma zsum_app {A} (f : A -> Z) l l' : zsum f (l ++ l') = zsum f l + zsum f l'.
Proof. induction l as [|x l IH]; [done|]. cbn [app]. rewrite !zsum_cons, IH. lia. Qed.

Lemma zsum_abs {A} (f : A -> Z) l : Z.abs (zsum f l) <= zsum (fun x => Z.abs (f x)) l.
Proof. induction l as [|x l IH]; [done|]. rewrite !zsum_cons. lia. Qed.

Lemma fits_app {A} (f : A -> Z) l l' : fits f (l ++ l') -> is_i32 (zsum f l).
Proof.
  unfold fits, is_i32. rewrite zsum_app. intros H. pose proof (zsum_abs f l). pose proof (zsum_abs f l').
  set (a := zsum (fun x => Z.abs (f x)) l) in *. set (b := zsum (fun x => Z.abs (f x)) l') in *. lia.
Qed.

Lemma sum_up_snoc test l irp :
  fits interval_retrans (l ++ [irp]) -> fits interval_packet_count (l ++ [irp]) -> fits interval_cnt_error (l ++ [irp]) ->
  sum_up test irp (interval_sums test l) = Ok (interval_sums test (l ++ [irp])).
Proof.
  intros H1 H2 H3. rewrite <- (app_nil_r (l ++ [irp])) in H1, H2, H3. apply fits_app in H1, H2, H3.
  rewrite zsum_app in H1, H2, H3. cbn [zsum foldr] in H1, H2, H3. rewrite Z.add_0_r in H1, H2, H3.
  unfold sum_up, interval_sums. rewrite !zsum_app, map_app, foldl_app. cbn [zsum foldr map foldl]. rewrite !Z.add_0_r.
  assert (Eb : u64 (u64 (zsum bytes_transferred l) + bytes_transferred irp)
               = u64 (zsum bytes_transferred l + bytes_transferred irp)) by (unfold u64; apply Zplus_mod_idemp_l).
  destruct (protocol test =? Ptcp).
  - destruct (sender_has_retransmits test =? 1); cbn -[u64 Z.add]; rewrite Eb; [|done].
    rewrite int_of_ok by done. done.
  - cbn -[u64 Z.add]. rewrite Eb, !int_of_ok by done. done.
Qed.

Lemma sum_ups_ok test l : forall l0,
  fits interval_retrans (l0 ++ l) -> fits interval_packet_count (l0 ++ l) -> fits interval_cnt_error (l0 ++ l) ->
  sum_ups test l (interval_sums test l0) = Ok (interval_sums test (l0 ++ l)).
Proof.
  assert (Hs : forall A (f : A -> Z) l1 l2, fits f (l1 ++ l2) -> fits f l1).
  { intros A f l1 l2. unfold fits. rewrite zsum_app. pose proof (zsum_abs f l2). lia. }
  induction l as [|irp l IH]; intros l0 H1 H2 H3; [by rewrite app_nil_r|].
  rewrite (cons_middle irp l0 l), app_assoc in *. unfold sum_ups. cbn [foldl obind].
  rewrite sum_up_snoc by (by eapply Hs). apply IH; done.
Qed.

Lemma interval_sums_nil test : interval_sums test [] = no_sums.
Proof. unfold interval_sums. by destruct (_ =? Ptcp), (_ =? 1). Qed.

(** A part of the streams sums to no more. *)
Lemma fits_towards (f : iperf_interval_results -> Z) d l :
  fits f (intervals_of l) -> fits f (intervals_of (towards d l)).
Proof.
  unfold fits. intros H. eapply Z.le_lt_trans; [|exact H]. clear H. unfold intervals_of, towards.
  induction l as [|sp l IH]; [done|]. cbn [List.filter omap list_omap] in *.
  destruct (Bool.eqb (sender sp) d); cbn [omap list_omap]; destruct (irp_of sp); cbn [zsum foldr] in *;
    unfold zsum, omap in *; lia.
Qed.

Section Json.
Variable name0 : bytes.
Hypothesis Hname0 : List.length name0 = 100%nat.

Lemma print_interval_json test first sp irp p o :
  json_output o = true -> irp_of sp = Some irp ->
  print_interval_results name0 test first sp p o
    = json_update p (append [object_of (interval_fields test sp irp)]) o.
Proof.
  intros Hj Hi. unfold print_interval_results. rewrite Hi, Hj. cbn [negb andb obind]. rewrite Hj.
  rewrite <- add_to_array_append. unfold interval_fields.
  destruct (protocol test =? Ptcp); [destruct (_ && sender sp)|destruct (sender sp)].
  all: match goal with |- context [add_to_array _ (Some (object_of ?f)) _] => build f end; reflexivity.
Qed.
(** ** One direction of an interval *)

Lemma interval_streams_json test d p l : forall first s s' o o',
  json_output o = true -> Forall (fun sp => irp_of sp <> None) l ->
  sum_ups test (intervals_of (towards d l)) s = Ok s' ->
  json_update p (append (stream_items test (towards d l))) o = Ok o' ->
  interval_streams name0 test d p first l s o = Ok (Some s', o').
Proof.
  induction l as [|sp l IH]; intros first s s' o o' Hj Hi Hs Hu.
  { injection Hs as <-. by rewrite (json_update_id _ _ _ _ append_nil Hu). }
  inversion Hi as [|? ? Hsp Hi']; subst. cbn [interval_streams towards List.filter] in *.
  destruct (Bool.eqb (sender sp) d); [|by apply IH].
  unfold intervals_of, stream_items in Hs, Hu. cbn [omap list_omap] in Hs, Hu.
  destruct (irp_of sp) as [irp|] eqn:Ei; [|done]. cbn [option_map] in Hu. cbn [foldl] in Hs.
  unfold sum_ups in Hs. cbn [foldl obind] in Hs.
  destruct (json_append_cons _ _ _ _ _ Hu) as (o1 & E1 & E2).
  rewrite (print_interval_json _ _ _ _ _ _ Hj Ei), E1. cbn [obind].
  destruct (sum_ups_first _ _ _ _ Hs) as [s1 Es]. rewrite Es in Hs |- *. cbn [obind].
  apply IH; [|done|done|done]. by rewrite (proj1 (json_update_same _ _ _ _ E1)).
Qed.

Lemma interval_sum_json test d p s sp l irp o :
  json_output o = true -> streams test = sp :: l -> irp_of sp = Some irp ->
  interval_sum name0 test d p s o = json_update p (append [named "sum" (object_of (sum_fields test d s sp irp))]) o.
Proof.
  intros Hj Es Hi. unfold interval_sum. rewrite Hj, orb_true_r, Es, Hi. cbn [negb deref obind].
  unfold object_of at 1. rewrite <- add_to_object_append. fold (object_of (sum_fields test d s sp irp)). unfold sum_fields.
  destruct (protocol test =? Ptcp); [destruct (_ && d)|destruct d].
  all: match goal with |- context [add_to_object _ _ (Some (object_of ?f)) _] => build f end; reflexivity.
Qed.

(** What one direction adds to the object of the interval. *)
Definition mode_effect (test : iperf_test) (d : bool) (j : cJSON) : outcome cJSON :=
  obind (update_at [0%nat] (append (stream_items test (towards d (streams test)))) j) (append (sum_items test d)).

Fixpoint mode_effects (test : iperf_test) (ds : list bool) (j : cJSON) : outcome cJSON :=
  match ds with
  | [] => Ok j
  | d :: ds => obind (mode_effect test d j) (mode_effects test ds)
  end.

Lemma mode_effects_object test ds : forall a b,
  mode_effects test ds (obj (named "streams" (array_of a) :: b))
    = Ok (obj (named "streams" (array_of (a ++ flat_map (fun d => stream_items test (towards d (streams test))) ds))
               :: b ++ flat_map (sum_items test) ds)).
Proof.
  induction ds as [|d ds IH]; intros a b; [cbn; by rewrite !app_nil_r|].
  cbn [mode_effects flat_map]. unfold mode_effect. cbn [obind update_at append child obj lookup list_lookup deref].
  cbn [set_child type valuestring valueint valuedouble string child named set_string array_of].
  change (list_insert 0%nat ?x (?y :: ?l)) with (x :: l).
  rewrite !app_assoc. etransitivity; [|apply IH]. reflexivity.
Qed.

Lemma interval_modes_json test p ms : forall o o',
  json_output o = true -> have_intervals test -> sums_fit test -> streams test <> [] ->
  json_update p (mode_effects test (map must_be_sender ms)) o = Ok o' ->
  interval_modes name0 test p ms o = Ok o'.
Proof.
  induction ms as [|m ms IH]; intros o o' Hj Hi Hf Hs Hu.
  { by rewrite (json_update_id _ _ _ _ (fun _ => eq_refl) Hu). }
  cbn [map mode_effects] in Hu. set (d := must_be_sender m) in *.
  apply (json_update_seq _ (mode_effect test d)) in Hu as (o1 & H1 & Hu).
  unfold mode_effect in H1. apply json_update_seq in H1 as (o2 & H2 & H1).
  rewrite <- json_update_app in H2. cbn [interval_modes]. fold d.
  pose proof (proj1 (json_update_same _ _ _ _ H2)) as Hj2. rewrite Hj in Hj2.
  pose proof (proj1 (json_update_same _ _ _ _ H1)) as Hj1. rewrite Hj2 in Hj1.
  destruct Hf as (F1 & F2 & F3).
  assert (Esum := sum_ups_ok test (intervals_of (towards d (streams test))) []
    (fits_towards _ d _ F1) (fits_towards _ d _ F2) (fits_towards _ d _ F3)).
  rewrite interval_sums_nil in Esum. cbn [app] in Esum.
  rewrite (interval_streams_json _ _ _ _ _ _ _ _ _ Hj Hi Esum H2). cbn [obind].
  destruct (streams test) as [|sp l] eqn:Es; [done|]. rewrite <- Es in *.
  destruct (irp_of sp) as [irp|] eqn:Ei.
  2:{ exfalso. unfold have_intervals in Hi. rewrite Es in Hi. by inversion Hi. }
  rewrite (interval_sum_json _ _ _ _ _ _ _ _ Hj2 Es Ei).
  unfold sum_items in H1. rewrite Es, Ei, <- Es in H1. rewrite H1. cbn [obind]. by apply IH.
Qed.

(** The tree has its arrays and objects. *)
Definition tree_ok (o : output) : Prop :=
  exists top intervals end_, json_top o = Some top /\ node_at json_intervals top = Some intervals /\
    node_at json_end top = Some end_.

Lemma interval_ok_streams test o : interval_ok test o = true -> streams test <> [].
Proof. unfold interval_ok. by destruct (streams test). Qed.

(** iperf_print_intermediate appends one object to the intervals. *)
Lemma print_intermediate_json test o :
  json_output o = true -> tree_ok o -> have_intervals test -> sums_fit test ->
  iperf_print_intermediate name0 test o
    = if interval_ok test o then json_update json_intervals (append [interval_item test]) o else Ok o.
Proof.
  intros Hj (top & a & e & Ht & Ha & He) Hi Hf. unfold iperf_print_intermediate.
  destruct (interval_ok test o) eqn:Eok; cbn [negb]; [|done]. rewrite Hj.
  destruct (update_at_ok json_intervals (append [interval_item test]) top a _ Ha eq_refl) as (top' & Eu & _).
  pose proof (json_update_ok _ _ _ _ _ Ht Eu) as E. rewrite E.
  set (f := fun x => obind (append [named "streams" (array_of [])] x)
              (mode_effects test (map must_be_sender (modes test)))).
  destruct (json_grow json_intervals (obj []) f (interval_item test) o _ (mode_effects_object test _ [] []) E)
    as (n & o1 & -> & E1 & E2). cbn [obind].
  apply json_update_seq in E2 as (o2 & E2 & E3).
  pose proof (proj1 (json_update_same _ _ _ _ E1)) as Hj1. pose proof (proj1 (json_update_same _ _ _ _ E2)) as Hj2.
  change (cJSON_CreateObject true) with (Some (obj [])). rewrite add_to_array_append, E1. cbn [obind].
  unfold add_to_object. rewrite (json_update_ext _ _ (append [named "streams" (array_of [])])) by reflexivity.
  rewrite E2. cbn [obind]. apply interval_modes_json; [congruence|done|done|by eapply interval_ok_streams|done].
Qed.

End Json.
