(* ===== verification/ReportsSummary.v ===== *)
(** * The JSON of the final report

    What iperf_print_results adds to the end of the JSON tree: an object for
    each stream, the totals of the direction, the CPU figures and the
    congestion controls. *)

From coqutil Require Import Datatypes.RecordSetters.
From Stdlib Require Import SpecFloat.
From Stdlib Require Import String.
From S2P Require Import Prelude.
From S2P Require Import IperfTime.
From S2P Require Import Cdouble.
From S2P Require Import Units.
From S2P Require Import CjsonData.
From S2P Require Import CjsonPrint.
From S2P Require Import CjsonTree.
From S2P Require Import JsonObject.
From S2P Require Import Iperf.
From S2P Require Import Udp.
From S2P Require Import Util.
From S2P Require Import Output.
From S2P Require Import OutputThms.
From S2P Require Import Reports.
From S2P Require Import ReportsJson.
From stdpp Require Import base numbers gmap list.
Import DoubleBraceUpdate.

Open Scope Z_scope.
Open Scope c_scope.

(** ** Specification *)

(** What the sender of a stream did: the datagrams it sent, if they are known
    here. *)
Definition known_packets (sp : iperf_stream) : Z :=
  let '(sent, received) := packet_counts sp in if nonzero_int sent then sent else received.
Definition lost_of (sp : iperf_stream) : Z := cnt_error sp - omitted_cnt_error sp.
Definition retransmitting (test : iperf_test) : bool := nonzero_int (sender_has_retransmits test).

(** The totals over the streams of one direction. *)
Definition totals_of (test : iperf_test) (l : list iperf_stream) : totals :=
  let tcp := protocol test =? Ptcp in
  let counted f := if tcp then 0 else zsum f l in
  mk_totals
    (if tcp && retransmitting test then zsum (fun sp => stream_retrans (result sp)) l else 0)
    (counted (fun sp => known_packets sp - omitted_packet_count sp))
    (counted lost_of)
    (counted (fun sp => fst (packet_counts sp) - omitted_packet_count sp))
    (counted (fun sp => snd (packet_counts sp) - omitted_packet_count sp))
    (u64 (zsum stream_sent l))
    (u64 (zsum (fun sp => bytes_received (result sp)) l))
    (if tcp then d0 else foldl dadd d0 (map jitter l)).

Definition figures (socket_ : list field) (time seconds : double) (n : Z) : list field :=
  socket_ ++
  [fld "start" (ADouble d0); fld "end" (ADouble time); fld "seconds" (ADouble seconds);
   fld "bytes" (AInt64 (i64 n)); fld "bits_per_second" (ADouble (bits (bandwidth_of n time)))].

Definition socket_field (sp : iperf_stream) : list field := [fld "socket" (AInt64 (socket sp))].

Definition mean_rtt (rp : iperf_stream_result) : Z :=
  if stream_count_rtt rp =? 0 then 0 else Z.quot (stream_sum_rtt rp) (stream_count_rtt rp).

Definition sender_fields (test : iperf_test) (d : bool) (st : double) (sp : iperf_stream) : list field :=
  let rp := result sp in
  figures (socket_field sp) st st (stream_sent sp)
  ++ (if retransmitting test
      then [fld "retransmits" (AInt64 (stream_retrans rp)); fld "max_snd_cwnd" (AInt64 (stream_max_snd_cwnd rp));
            fld "max_rtt" (AInt64 (stream_max_rtt rp)); fld "min_rtt" (AInt64 (stream_min_rtt rp));
            fld "mean_rtt" (AInt64 (mean_rtt rp))]
      else [])
  ++ [fld "sender" (flag d)].

Definition udp_fields (d : bool) (st : double) (sp : iperf_stream) : list field :=
  figures (socket_field sp) st st (stream_sent sp)
  ++ [fld "jitter_ms" (ADouble (millis (jitter sp)));
      fld "lost_packets" (AInt64 (lost_of sp));
      fld "packets" (AInt64 (known_packets sp - omitted_packet_count sp));
      fld "lost_percent" (ADouble (lost_percent_of (lost_of sp) (fst (packet_counts sp) - omitted_packet_count sp)));
      fld "out_of_order" (AInt64 (outoforder_packets sp - omitted_outoforder_packets sp));
      fld "sender" (flag d)].

Definition receiver_fields (d : bool) (rt et : double) (sp : iperf_stream) : list field :=
  figures (socket_field sp) rt et (bytes_received (result sp)) ++ [fld "sender" (flag d)].

Definition summary_item (test : iperf_test) (d : bool) (st rt et : double) (sp : iperf_stream) : cJSON :=
  obj (if protocol test =? Ptcp
       then [named "sender" (object_of (sender_fields test d st sp)); named "receiver" (object_of (receiver_fields d rt et sp))]
       else [named "udp" (object_of (udp_fields d st sp))]).

(** The members with the totals of a direction. *)
Definition total_items (test : iperf_test) (d : bool) (st rt : double) (t : totals) : list cJSON :=
  if protocol test =? Ptcp
  then
    [named "sum_sent" (object_of (figures [] st st (t_sent t)
       ++ (if retransmitting test then [fld "retransmits" (AInt64 (t_retransmits t))] else []) ++ [fld "sender" (flag d)]));
     named "sum_received" (object_of (figures [] rt rt (t_received t) ++ [fld "sender" (flag d)]))]
  else
    [named "sum" (object_of
      [fld "start" (ADouble d0); fld "end" (ADouble rt); fld "seconds" (ADouble rt); fld "bytes" (AInt64 (i64 (t_sent t)));
       fld "bits_per_second" (ADouble (bits (bandwidth_of (t_sent t) st)));
       fld "jitter_ms" (ADouble (millis (ddiv (t_jitter t) (d_of_Z (num_streams test)))));
       fld "lost_packets" (AInt64 (t_lost t)); fld "packets" (AInt64 (t_packets t));
       fld "lost_percent" (ADouble (lost_percent_of (t_lost t) (t_packets t)));
       fld "sender" (flag d)])].

Definition name_item (name : String.string) (s : option bytes) : list cJSON :=
  match s with Some s => [item_of name (JStr s)] | None => [] end.

Definition last_items (test : iperf_test) (d : bool) : list cJSON :=
  let '(h0, h1, h2) := Iperf.cpu_util test in
  let '(r0, r1, r2) := remote_cpu_util test in
  named "cpu_utilization_percent" (object_of
    [fld "host_total" (ADouble h0); fld "host_user" (ADouble h1); fld "host_system" (ADouble h2);
     fld "remote_total" (ADouble r0); fld "remote_user" (ADouble r1); fld "remote_system" (ADouble r2)])
  :: (if protocol test =? Ptcp
      then name_item "sender_tcp_congestion" (fst (congestions test d))
           ++ name_item "receiver_tcp_congestion" (snd (congestions test d))
      else []).

(** The times of the report: those of the first stream. *)
Definition report_times (test : iperf_test) : double * double * double :=
  match streams test with
  | [] => (d0, d0, d0)
  | sp :: _ => (first_times sp, secs_between (start_time (result sp)) (end_time (result sp)))
  end.

(** What a report of the direction [d] adds to the end of the tree. *)
Definition end_items (test : iperf_test) (d : bool) : list cJSON :=
  let '(st, rt, et) := report_times test in
  let l := towards d (streams test) in
  named "streams" (array_of (map (summary_item test d st rt et) l))
  :: total_items test d st rt (totals_of test l) ++ last_items test d.

(** The counters of the datagrams fit an int, as do their sums. *)
Definition counters : list (iperf_stream -> Z) :=
  [fun sp => known_packets sp - omitted_packet_count sp; lost_of;
   fun sp => fst (packet_counts sp) - omitted_packet_count sp;
   fun sp => snd (packet_counts sp) - omitted_packet_count sp;
   fun sp => outoforder_packets sp - omitted_outoforder_packets sp;
   fun sp => stream_retrans (result sp)].

Definition totals_fit (l : list iperf_stream) : Prop := Forall (fun f => fits f l) counters.

(** ** Totals *)

Lemma fits_part {A} (f : A -> Z) l1 l2 : fits f (l1 ++ l2) -> fits f l1.
Proof. unfold fits. rewrite zsum_app. pose proof (zsum_abs f l2). lia. Qed.

Lemma fits_member {A} (f : A -> Z) l x : fits f l -> x ∈ l -> is_i32 (f x).
Proof.
  intros H (l1 & l2 & ->)%list_elem_of_split. unfold fits in H. rewrite zsum_app, zsum_cons in H.
  pose proof (zsum_abs f l1). pose proof (zsum_abs f l2). unfold is_i32. lia.
Qed.

Lemma totals_fit_app l1 l2 : totals_fit (l1 ++ l2) -> totals_fit l1.
Proof. intros H. eapply Forall_impl; [exact H|]. intros f. apply fits_part. Qed.

Lemma fits_tail {A} (f : A -> Z) x l : fits f (x :: l) -> fits f l.
Proof. unfold fits. rewrite zsum_cons. lia. Qed.

(** The next operation on ints is in range. *)
Ltac fit H := match goal with |- obind (int_of ?z) _ = _ => rewrite (int_of_ok z) by exact H end; cbn [obind].

(** A stream added to the totals. *)
Lemma total_up_snoc test l sp :
  totals_fit (l ++ [sp]) -> total_up test sp (totals_of test l) = Ok (totals_of test (l ++ [sp])).
Proof.
  intros H. assert (Hm : forall f, f ∈ counters -> is_i32 (f sp) /\ is_i32 (zsum f l + f sp)).
  { intros f Hf. unfold totals_fit in H. rewrite Forall_forall in H. specialize (H f Hf). split.
    - apply (fits_member _ _ _ H). apply elem_of_app. right. by left.
    - rewrite <- (app_nil_r (l ++ [sp])) in H. apply fits_app in H. rewrite zsum_app, zsum_cons in H.
      cbn [zsum foldr] in H. by rewrite Z.add_0_r in H. }
  unfold total_up, totals_of. rewrite !zsum_app, map_app, foldl_app, !zsum_cons. cbn [zsum foldr map foldl]. rewrite !Z.add_0_r.
  assert (Eu : forall a b, u64 (u64 a + b) = u64 (a + b)) by (intros; unfold u64; apply Zplus_mod_idemp_l).
  unfold retransmitting. destruct (protocol test =? Ptcp).
  - destruct (nonzero_int _); cbn -[u64 Z.add stream_sent]; rewrite !Eu; [|done].
    rewrite int_of_ok; [done|]. apply (Hm (fun sp => stream_retrans (result sp))). set_solver.
  - assert (Ek : known_packets sp = if nonzero_int (fst (packet_counts sp)) then fst (packet_counts sp) else snd (packet_counts sp))
      by (unfold known_packets; by destruct (packet_counts sp)).
    destruct (Hm (fun sp => known_packets sp - omitted_packet_count sp) ltac:(set_solver)) as [A1 B1].
    destruct (Hm lost_of ltac:(set_solver)) as [A2 B2].
    destruct (Hm (fun sp => fst (packet_counts sp) - omitted_packet_count sp) ltac:(set_solver)) as [A3 B3].
    destruct (Hm (fun sp => snd (packet_counts sp) - omitted_packet_count sp) ltac:(set_solver)) as [A4 B4].
    cbv beta in *. rewrite Ek in A1, B1 |- *. clear Ek Hm H.
    change (cnt_error sp - omitted_cnt_error sp) with (lost_of sp).
    destruct (packet_counts sp) as [sent received]. cbn [fst snd] in *.
    fit A1. fit B1. fit A3. fit B3. fit A4. fit B4. fit A2. fit B2.
    cbn -[u64 Z.add stream_sent]. rewrite !Eu. done.
Qed.

(** ** The summary of a stream *)

(** The counters of one stream are in range. *)
Definition stream_fits (sp : iperf_stream) : Prop := Forall (fun f => is_i32 (f sp)) counters.

Lemma totals_fit_member l sp : totals_fit l -> sp ∈ l -> stream_fits sp.
Proof. intros H Hsp. eapply Forall_impl; [exact H|]. intros f Hf. exact (fits_member f l sp Hf Hsp). Qed.

Section Json.
Variable name0 : bytes.
Hypothesis Hname0 : List.length name0 = 100%nat.
Variable allocate : nat -> nat -> bool.

Lemma sender_summary_json test d jp st sp o :
  json_output o = true -> stream_fits sp ->
  sender_summary name0 test d jp st sp o
    = json_update jp (append [if protocol test =? Ptcp then named "sender" (object_of (sender_fields test d st sp))
                              else named "udp" (object_of (udp_fields d st sp))]) o.
Proof.
  intros Hj Hs. unfold sender_summary. rewrite Hj. destruct (protocol test =? Ptcp).
  - unfold object_of. rewrite <- add_to_object_append. fold (object_of (sender_fields test d st sp)).
    unfold sender_fields, retransmitting. destruct (nonzero_int (sender_has_retransmits test)).
    all: match goal with |- context [add_to_object _ _ (Some (object_of ?f)) _] => build f end; reflexivity.
  - unfold stream_fits, counters in Hs.
    inversion Hs as [|? ? A1 Hs1]; subst. inversion Hs1 as [|? ? A2 Hs2]; subst. inversion Hs2 as [|? ? A3 Hs3]; subst.
    inversion Hs3 as [|? ? A4 Hs4]; subst. inversion Hs4 as [|? ? A5 _]; subst. clear Hs Hs1 Hs2 Hs3 Hs4.
    unfold object_of. rewrite <- add_to_object_append. fold (object_of (udp_fields d st sp)). unfold udp_fields.
    change (cnt_error sp - omitted_cnt_error sp) with (lost_of sp).
    assert (Ek : known_packets sp = if nonzero_int (fst (packet_counts sp)) then fst (packet_counts sp) else snd (packet_counts sp))
      by (unfold known_packets; by destruct (packet_counts sp)).
    rewrite Ek in *. clear Ek. destruct (packet_counts sp) as [sent received]. cbn [fst snd] in *.
    fit A3. fit A2. fit A5. fit A1.
    match goal with |- context [add_to_object _ _ (Some (object_of ?f)) _] => build f end; reflexivity.
Qed.

Lemma receiver_summary_json test d jp rt et sp o o' :
  json_output o = true ->
  json_update jp (append (if protocol test =? Ptcp then [named "receiver" (object_of (receiver_fields d rt et sp))] else [])) o
    = Ok o' ->
  receiver_summary name0 test d jp rt et sp o = Ok o'.
Proof.
  intros Hj. unfold receiver_summary. rewrite Hj. destruct (protocol test =? Ptcp).
  - unfold object_of. rewrite <- add_to_object_append. fold (object_of (receiver_fields d rt et sp)). unfold receiver_fields.
    intros <-. match goal with |- context [add_to_object _ _ (Some (object_of ?f)) _] => build f end. reflexivity.
  - intros Hu. by rewrite (json_update_id _ _ _ _ append_nil Hu).
Qed.

Lemma json_append_app p l1 l2 o o' : json_update p (append (l1 ++ l2)) o = Ok o' ->
  exists o1, json_update p (append l1) o = Ok o1 /\ json_update p (append l2) o1 = Ok o'.
Proof.
  intros E. apply json_update_seq. rewrite <- E. apply json_update_ext. intros x. by rewrite append_append.
Qed.

Lemma summary_streams_json test d js st rt et l : forall l0 o o',
  json_output o = true -> totals_fit (l0 ++ towards d l) ->
  json_update js (append (map (summary_item test d st rt et) (towards d l))) o = Ok o' ->
  summary_streams name0 (fun _ => None) test d js st rt et l (totals_of test l0) o
    = Ok (totals_of test (l0 ++ towards d l), o').
Proof.
  induction l as [|sp l IH]; intros l0 o o' Hj Hf Hu.
  { cbn [towards List.filter] in *. rewrite app_nil_r. by rewrite (json_update_id _ _ _ _ append_nil Hu). }
  cbn [summary_streams towards List.filter] in *. fold (towards d l) in *.
  destruct (Bool.eqb (sender sp) d); [|by apply IH]. rewrite Hj. cbn [map] in Hu.
  destruct (json_append_cons _ _ _ _ _ Hu) as (o1 & E1 & E2).
  set (s := if protocol test =? Ptcp then named "sender" (object_of (sender_fields test d st sp))
            else named "udp" (object_of (udp_fields d st sp))).
  set (r := if protocol test =? Ptcp then [named "receiver" (object_of (receiver_fields d rt et sp))] else []).
  assert (Es : append (s :: r) (obj []) = Ok (summary_item test d st rt et sp))
    by (unfold s, r, summary_item; destruct (protocol test =? Ptcp); reflexivity).
  destruct (json_grow _ _ _ _ _ _ Es E1) as (n & o2 & En & E3 & E4).
  destruct (json_append_cons _ _ _ _ _ E4) as (o3 & E5 & E6).
  pose proof (proj1 (json_update_same _ _ _ _ E3)) as Hj2. rewrite Hj in Hj2.
  pose proof (proj1 (json_update_same _ _ _ _ E5)) as Hj3. rewrite Hj2 in Hj3.
  pose proof (proj1 (json_update_same _ _ _ _ E6)) as Hj4. rewrite Hj3 in Hj4.
  rewrite (cons_middle sp l0), app_assoc in Hf |- *.
  rewrite En. cbn [obind]. change (cJSON_CreateObject true) with (Some (obj [])). rewrite add_to_array_append, E3. cbn [obind].
  rewrite total_up_snoc by (by eapply totals_fit_app). cbn [obind].
  rewrite sender_summary_json; [|done|].
  2:{ eapply totals_fit_member; [exact Hf|]. set_solver. }
  fold s. rewrite E5. cbn [obind diskfile_summary]. rewrite (receiver_summary_json _ _ _ _ _ _ _ _ Hj3 E6). cbn [obind].
  by apply IH.
Qed.

(** ** The end of the tree *)

Lemma summary_sum_json test d st rt et t o o' :
  json_output o = true -> json_update json_end (append (total_items test d st rt t)) o = Ok o' ->
  summary_sum name0 test d st rt et t o = Ok o'.
Proof.
  intros Hj. unfold summary_sum, total_items, retransmitting. rewrite Hj, orb_true_r. cbn [negb].
  destruct (protocol test =? Ptcp).
  - intros Hu. destruct (json_append_cons _ _ _ _ _ Hu) as (o1 & E1 & E2).
    pose proof (proj1 (json_update_same _ _ _ _ E1)) as Hj1. rewrite Hj in Hj1.
    unfold object_of in E1, E2. rewrite <- add_to_object_append in E1, E2.
    match type of E1 with context [obj (map field_item ?f)] => fold (object_of f) in E1 end.
    match type of E2 with context [obj (map field_item ?f)] => fold (object_of f) in E2 end.
    destruct (nonzero_int (sender_has_retransmits test)).
    all: match type of E1 with context [object_of ?f] => build f end; rewrite E1; cbn [obind]; rewrite Hj1.
    all: match type of E2 with context [object_of ?f] => build f end; exact E2.
  - unfold object_of. rewrite <- add_to_object_append.
    match goal with |- context [obj (map field_item ?f)] => fold (object_of f); intros <-; build f end. reflexivity.
Qed.

Lemma add_string_append p name s o o' :
  json_update p (append (name_item name s)) o = Ok o' ->
  if_some s (json_update p (fun j => cJSON_AddStringToObject j name s)) o = Ok o'.
Proof.
  destruct s as [s|]; cbn [if_some name_item]; intros Hu.
  - rewrite <- Hu. by apply json_update_ext.
  - by rewrite (json_update_id _ _ _ _ append_nil Hu).
Qed.

Lemma json_last_json test d o o' :
  json_update json_end (append (last_items test d)) o = Ok o' -> json_last name0 test d o = Ok o'.
Proof.
  unfold json_last, last_items. destruct (Iperf.cpu_util test) as [[h0 h1] h2], (remote_cpu_util test) as [[r0 r1] r2].
  intros Hu. destruct (json_append_cons _ _ _ _ _ Hu) as (o1 & E1 & E2).
  unfold object_of in E1. rewrite <- add_to_object_append in E1.
  match type of E1 with context [obj (map field_item ?f)] => fold (object_of f) in E1; build f end. rewrite E1. cbn [obind].
  destruct (protocol test =? Ptcp).
  - destruct (congestions test d) as [sc rc]. cbn [fst snd] in E2. destruct (json_append_app _ _ _ _ _ E2) as (o2 & E3 & E4).
    rewrite (add_string_append _ _ _ _ _ E3). cbn [obind]. by apply add_string_append.
  - by rewrite (json_update_id _ _ _ _ append_nil E2).
Qed.

(** The test after a report: the first stream has its times. *)
Definition with_times (test : iperf_test) : iperf_test :=
  match streams test with
  | [] => test
  | sp :: l => test {{ streams := set_times sp :: l }}
  end.

Lemma with_times_totals test d : totals_of test (towards d (streams (with_times test))) = totals_of test (towards d (streams test)).
Proof.
  unfold with_times. destruct (streams test) as [|sp l] eqn:E; [by rewrite E|].
  change (streams (test {{ streams := set_times sp :: l }})) with (set_times sp :: l).
  unfold towards. cbn [List.filter]. change (sender (set_times sp)) with (sender sp). by destruct (Bool.eqb (sender sp) d).
Qed.

Lemma totals_fit_times sp l : totals_fit (sp :: l) -> totals_fit (set_times sp :: l).
Proof. unfold totals_fit, counters. rewrite !Forall_cons, !Forall_nil. intros H. exact H. Qed.

(** A report of one direction, from an array of the streams that is there
    already. *)
Lemma summary_mode_json test n m o o' st rt et :
  json_output o = true -> mode test <> BIDIRECTIONAL -> totals_fit (towards (must_be_sender m) (streams test)) ->
  report_times test = (st, rt, et) ->
  json_update json_end (fun e =>
    obind (update_at [n] (append (map (summary_item test (must_be_sender m) st rt et) (towards (must_be_sender m) (streams test)))) e)
      (append (total_items test (must_be_sender m) st rt (totals_of test (towards (must_be_sender m) (streams test)))
               ++ last_items test (must_be_sender m)))) o = Ok o' ->
  summary_mode name0 (fun _ => None) allocate (sender_has_retransmits test) (json_end ++ [n]) m true test o
    = Ok (with_times test, o').
Proof.
  intros Hj Hm Hf Ht Hu. set (d := must_be_sender m) in *. unfold summary_mode. fold d.
  destruct (Z.eqb_spec (mode test) BIDIRECTIONAL); [done|].
  apply (json_update_seq json_end (update_at [n] _)) in Hu as (o1 & E1 & Hu). rewrite <- json_update_app in E1.
  destruct (json_append_app _ _ _ _ _ Hu) as (o2 & E2 & E3).
  pose proof (proj1 (json_update_same _ _ _ _ E1)) as Hj1. rewrite Hj in Hj1.
  pose proof (proj1 (json_update_same _ _ _ _ E2)) as Hj2. rewrite Hj1 in Hj2.
  assert (Es : forall test', summary_sum name0 test' d st rt et (totals_of test (towards d (streams test))) o1 = Ok o2 ->
    json_last name0 test' d o2 = Ok o' ->
    (let! o := summary_sum name0 test' d st rt et (totals_of test (towards d (streams test))) o1 in
     let! o := if json_output o && true then json_last name0 test' d o else text_last allocate test' d o in
     Ok (test', o)) = Ok (test', o')).
  { intros test' H1 H2. rewrite H1. cbn [obind]. rewrite Hj2. cbn [andb]. by rewrite H2. }
  unfold report_times, with_times in *. destruct (streams test) as [|sp l] eqn:El.
  - injection Ht as <- <- <-. cbn [towards List.filter map] in E1. apply (json_update_id _ _ _ _ append_nil) in E1 as ->.
    cbn [obind]. replace no_totals with (totals_of test (towards d [])).
    2:{ unfold totals_of, towards. cbn. by destruct (_ =? Ptcp), (retransmitting test). }
    apply Es; [by apply summary_sum_json|by apply json_last_json].
  - destruct (first_times sp) as [st' rt'] eqn:Eft. injection Ht as -> -> ->.
    set (test' := test {{ streams := set_times sp :: l }}).
    assert (Es' : towards d (streams test') = towards d (set_times sp :: l)) by done.
    assert (Ht0 : totals_of test' (towards d (streams test')) = totals_of test (towards d (sp :: l))).
    { change (totals_of test' (towards d (streams test'))) with (totals_of test (towards d (streams test'))).
      pose proof (with_times_totals test d) as H. unfold with_times in H. rewrite El in H. exact H. }
    replace no_totals with (totals_of test' []).
    2:{ unfold totals_of. cbn. by destruct (_ =? Ptcp), (retransmitting _). }
    rewrite (summary_streams_json test' d _ st rt et (streams test') [] o o1 Hj).
    + cbn [obind app fst snd]. rewrite Ht0. apply Es; [by apply summary_sum_json|by apply json_last_json].
    + cbn [app]. rewrite Es'. revert Hf. unfold towards. cbn [List.filter]. change (sender (set_times sp)) with (sender sp).
      destruct (Bool.eqb (sender sp) d); [apply totals_fit_times|done].
    + rewrite Es'. revert E1. unfold towards. cbn [List.filter]. change (sender (set_times sp)) with (sender sp).
      by destruct (Bool.eqb (sender sp) d).
Qed.

(** iperf_print_results appends its members to the end of the tree. *)
Lemma print_results_json test o :
  json_output o = true -> tree_ok o -> mode test <> BIDIRECTIONAL ->
  totals_fit (towards (must_be_sender (mode test)) (streams test)) ->
  iperf_print_results name0 (fun _ => None) allocate test o
    = obind (json_update json_end (append (end_items test (must_be_sender (mode test)))) o)
        (fun o => Ok (with_times test, o)).
Proof.
  intros Hj (top & a & e & Ht & Ha & He) Hm Hf. set (d := must_be_sender (mode test)) in *.
  destruct (update_at_ok json_end (append (end_items test d)) top e _ He eq_refl) as (top' & Eu & _).
  pose proof (json_update_ok _ _ _ _ _ Ht Eu) as E. rewrite E. cbn [obind].
  unfold end_items in Eu. destruct (report_times test) as [[st rt] et] eqn:Ert.
  set (items := map _ _) in *. set (rest := _ ++ last_items test d) in *.
  set (n := List.length (child e)).
  assert (EF : obind (append [named "streams" (array_of [])] e)
      (fun e => obind (update_at [n] (append items) e) (append rest))
      = append (named "streams" (array_of items) :: rest) e).
  { unfold append at 1. cbn [obind]. unfold n. rewrite update_child. unfold append at 1. cbn [obind].
    unfold append. cbn [child set_child]. rewrite <- app_assoc. reflexivity. }
  assert (Eo : json_update json_end (fun e => obind (append [named "streams" (array_of [])] e)
      (fun e => obind (update_at [n] (append items) e) (append rest))) o = Ok (o {{ json_top := Some top' }})).
  { eapply json_update_ok; [done|]. by rewrite (update_at_node _ _ _ _ _ He EF). }
  apply json_update_seq in Eo as (o1 & E1 & E2).
  pose proof (proj1 (json_update_same _ _ _ _ E1)) as Hj1. rewrite Hj in Hj1.
  unfold iperf_print_results. rewrite Hj. unfold children_at. rewrite Ht. cbn [deref obind]. rewrite He. cbn [deref obind].
  fold n. unfold add_to_object. rewrite (json_update_ext _ _ (append [named "streams" (array_of [])])) by reflexivity.
  rewrite E1. cbn [obind fst snd]. unfold modes. destruct (Z.eqb_spec (mode test) BIDIRECTIONAL) as [|_]; [done|].
  cbn [summary_modes]. rewrite (summary_mode_json test n (mode test) o1 _ st rt et Hj1 Hm Hf Ert E2). cbn [obind fst snd].
  assert (Ew : mode (with_times test) = mode test) by (unfold with_times; by destruct (streams test)).
  rewrite Ew. by destruct (Z.eqb_spec (mode test) BIDIRECTIONAL).
Qed.
End Json.
