(* ===== verification/ReportsThms.v ===== *)
(** * Properties of the reports

    The object of an interval, and the agreement of the reports along a whole
    test: what the intervals show adds up to what the final report shows. *)

From coqutil Require Import Datatypes.RecordSetters.
From Stdlib Require Import SpecFloat.
From Stdlib Require Import String.
From S2P Require Import Prelude.
From S2P Require Import IperfTime.
From S2P Require Import Cdouble.
From S2P Require Import CdoubleFacts.
From S2P Require Import Units.
From S2P Require Import CjsonData.
From S2P Require Import CjsonPrint.
From S2P Require Import CjsonTree.
From S2P Require Import JsonObject.
From S2P Require Import Iperf.
From S2P Require Import Udp.
From S2P Require Import Util.
From S2P Require Import Stats.
From S2P Require Import Output.
From S2P Require Import OutputThms.
From S2P Require Import Reports.
From S2P Require Import ReportsJson.
From S2P Require Import ReportsSummary.
From stdpp Require Import base numbers gmap list relations.
Import DoubleBraceUpdate.

Open Scope Z_scope.
Open Scope c_scope.

(** ** The life of the reports of a test *)

(** What happens to a stream between two callbacks. *)
Inductive moved : iperf_stream -> iperf_stream -> Prop :=
| moved_sent sp r : 0 <= r -> bytes_sent (result sp) + r < 2 ^ 64 -> moved sp (add_sent sp r)
| moved_received sp r : 0 <= r -> bytes_received (result sp) + r < 2 ^ 64 -> moved sp (add_received sp r)
| moved_counted sp sp' : result sp' = result sp -> sender sp' = sender sp -> moved sp sp'.

(** The streams the report of a test covers. *)
Definition reporting (t : iperf_test) : list iperf_stream := towards (must_be_sender (mode t)) (streams t).

Section Run.
Variable name0 : bytes.
Variable has_tcpinfo : bool.
Variable allocate : nat -> nat -> bool.

Abbreviation reporter := (iperf_reporter_callback name0 (fun _ => None) allocate).

(** Transfers, and the two timers: the statistics callback followed by the
    reporter. *)
Inductive report_step : iperf_test * output -> iperf_test * output -> Prop :=
| step_transfer t o l :
    Forall2 moved (streams t) l -> zsum reported_bytes (reporting (t {{ streams := l }})) < 2 ^ 53 ->
    report_step (t, o) (t {{ streams := l }}, o)
| step_tick t o clock ti temp t' t'' o'' :
    iperf_stats_callback has_tcpinfo t clock ti temp = Ok t' -> sums_fit t' ->
    reporter t' o = Ok (t'', o'') -> report_step (t, o) (t'', o'').

End Run.

(** What the peer's results may change in a stream before the final report. *)
Definition exchanged (sp sp' : iperf_stream) : Prop :=
  interval_results (result sp') = interval_results (result sp) /\ sender sp' = sender sp /\
  reported_bytes sp' = reported_bytes sp.

(** Counters of a stream in range: the open interval is part of the total. *)
Definition counting (sp : iperf_stream) : Prop :=
  let r := result sp in
  0 <= bytes_sent_this_interval r <= bytes_sent r - bytes_sent_omit r /\ 0 <= bytes_sent_omit r /\
  bytes_sent r < 2 ^ 64 /\
  0 <= bytes_received_this_interval r <= bytes_received r /\ bytes_received r < 2 ^ 64.

(** The bytes an object of a report shows. *)
Definition shown_bytes (j : cJSON) : Z :=
  match find_item (bytes_of "bytes") (child j) with Some b => Z_of_double (valuedouble b) | None => 0 end.
Definition member_bytes (name : String.string) (j : cJSON) : Z :=
  match find_item (bytes_of name) (child j) with Some s => shown_bytes s | None => 0 end.

Definition interval_bytes : cJSON -> Z := member_bytes "sum".

(** The member of the final report with the bytes of this side. *)
Definition total_name (t : iperf_test) : String.string :=
  if protocol t =? Ptcp then if must_be_sender (mode t) then "sum_sent" else "sum_received" else "sum".

(** The tree of a test that has not ended, with its intervals. *)
Definition running_tree (o : output) (intervals : list cJSON) : Prop :=
  json_output o = true /\ exists top a e, json_top o = Some top /\ node_at json_intervals top = Some a /\
    child a = intervals /\ node_at json_end top = Some e /\ child e = [].

Record run_inv (c0 : list cJSON) (s : iperf_test * output) : Prop := {
  ri_running : state s.1 = TEST_RUNNING;
  ri_mode : mode s.1 <> BIDIRECTIONAL;
  ri_side : protocol s.1 = Ptcp \/ must_be_sender (mode s.1) = true;
  ri_counting : Forall counting (streams s.1);
  ri_small : zsum reported_bytes (reporting s.1) < 2 ^ 53;
  ri_tree : exists items, running_tree s.2 (c0 ++ items) /\
    zsum interval_bytes items + zsum this_interval (reporting s.1) = zsum reported_bytes (reporting s.1) }.

(** ** Streams *)

Lemma moved_sender sp sp' : moved sp sp' -> sender sp' = sender sp.
Proof. by inversion 1. Qed.

Lemma moved_counting sp sp' : moved sp sp' -> counting sp -> counting sp' /\
  reported_bytes sp' - this_interval sp' = reported_bytes sp - this_interval sp.
Proof.
  intros Hm (H1 & H2 & H3 & H4 & H5). inversion Hm as [sp1 r Hr Hb|sp1 r Hr Hb|sp1 sp2 Er Es]; subst.
  - unfold counting, reported_bytes, this_interval. destruct sp as [? ? s [] ? ? ? ? ? ? ? ? ? ?]. cbn in *. unfold constant.
    rewrite !u64_small by (unfold is_u64; lia). destruct s; cbn; lia.
  - unfold counting, reported_bytes, this_interval. destruct sp as [? ? s [] ? ? ? ? ? ? ? ? ? ?]. cbn in *. unfold constant.
    rewrite !u64_small by (unfold is_u64; lia). destruct s; cbn; lia.
  - unfold counting, reported_bytes, this_interval. rewrite Er, Es. done.
Qed.

Lemma counting_bounds sp : counting sp -> 0 <= this_interval sp <= reported_bytes sp /\
  stream_sent sp = bytes_sent (result sp) - bytes_sent_omit (result sp) /\ 0 <= reported_bytes sp.
Proof.
  intros (H1 & H2 & H3 & H4 & H5). unfold this_interval, reported_bytes, stream_sent.
  rewrite u64_small by (unfold is_u64; lia). destruct (sender sp); lia.
Qed.

(** The statistics callback keeps the counters and closes the interval. *)
Definition closed (sp sp' : iperf_stream) : Prop :=
  sender sp' = sender sp /\ reported_bytes sp' = reported_bytes sp /\ this_interval sp' = 0 /\
  (exists irp, irp_of sp' = Some irp /\ bytes_transferred irp = this_interval sp) /\ (counting sp -> counting sp').

Lemma stats_closed has test now ti temp sp temp' sp' :
  stats_stream has test now ti temp sp = Ok (temp', sp') -> closed sp sp'.
Proof.
  intros H. destruct (stats_stream_effect _ _ _ _ _ _ _ _ H) as (El & Eb & Et & Er & _).
  unfold stats_stream in H.
  match type of H with obind ?m _ = _ => destruct m as [[t1 r1]| |] eqn:E; cbn [obind] in H; [|done|done] end.
  assert (Hs : same_result ((result sp) {{ end_time := now }}) r1).
  { destruct (protocol test =? Ptcp); [by apply stats_tcp_effect in E as [_ ?]|].
    destruct (stats_udp _ _ _); cbn [obind] in E; [|done|done]. by injection E as _ <-. }
  injection H as _ <-. destruct Hs as (_ & _ & B3 & B4 & B5). split; [done|]. split; [done|]. split; [done|]. split.
  - exists temp'. split; [|done]. unfold irp_of. by rewrite El, last_snoc.
  - intros (C1 & C2 & C3 & C4 & C5). unfold counting. destruct r1. cbn in *. unfold constant. subst.
    destruct (result sp). cbn in *. lia.
Qed.

Lemma stats_streams_closed has test clock ti l : forall temp l',
  stats_streams has test clock ti temp l = Ok l' -> Forall2 closed l l'.
Proof.
  induction l as [|sp l IH]; intros temp l' H; cbn [stats_streams] in H; [injection H as <-; constructor|].
  destruct (stats_stream _ _ _ _ _ _) as [[temp' sp']| |] eqn:E; cbn [obind] in H; [|done|done].
  destruct (stats_streams _ _ _ _ _ _) as [l1| |] eqn:E1; cbn [obind] in H; [|done|done]. injection H as <-.
  constructor; [by eapply stats_closed|by eapply IH].
Qed.

Lemma stats_callback_closed has t clock ti temp t' : iperf_stats_callback has t clock ti temp = Ok t' ->
  exists l, t' = t {{ streams := l }} /\ Forall2 closed (streams t) l.
Proof.
  unfold iperf_stats_callback. intros H.
  destruct (stats_streams _ _ _ _ _ _) as [l| |] eqn:Est; [|done|done].
  exists l. split; [unfold obind in H; congruence|by eapply stats_streams_closed].
Qed.

(** Lists of streams of a direction, pointwise. *)
Lemma towards_Forall2 (R : iperf_stream -> iperf_stream -> Prop) d l l' :
  (forall sp sp', R sp sp' -> sender sp' = sender sp) -> Forall2 R l l' -> Forall2 R (towards d l) (towards d l').
Proof.
  intros HR. unfold towards. induction 1 as [|sp sp' l l' H _ IH]; [constructor|]. cbn [List.filter].
  rewrite (HR _ _ H). destruct (Bool.eqb (sender sp) d); [by constructor|done].
Qed.

Lemma towards_cons d sp l : towards d (sp :: l) = if Bool.eqb (sender sp) d then sp :: towards d l else towards d l.
Proof. done. Qed.

Lemma zsum_Forall2 {A} (R : A -> A -> Prop) (f g : A -> Z) l l' :
  (forall x y, R x y -> g y = f x) -> Forall2 R l l' -> zsum g l' = zsum f l.
Proof. intros HR. induction 1 as [|x y l l' H _ IH]; [done|]. rewrite !zsum_cons, IH. by rewrite (HR _ _ H). Qed.

Lemma zsum_zero {A} (l : list A) : zsum (fun _ => 0) l = 0.
Proof. induction l as [|x l IH]; [done|]. by rewrite zsum_cons, IH. Qed.

Lemma zsum_sub {A} (f g : A -> Z) l : zsum (fun x => f x - g x) l = zsum f l - zsum g l.
Proof. induction l as [|x l IH]; [done|]. rewrite !zsum_cons, IH. lia. Qed.

Lemma Forall_towards P d l : Forall P l -> Forall P (towards d l).
Proof. intros H. apply Forall_forall. intros x Hx%list_elem_of_In. apply filter_In in Hx as [Hx _].
  rewrite Forall_forall in H. by apply H, list_elem_of_In. Qed.

(** ** What the objects show *)

Lemma d_of_bytes n : 0 <= n < 2 ^ 53 -> Z_of_double (d_of_Z (i64 (u64 n))) = n.
Proof.
  intros H. rewrite u64_small by (unfold is_u64; lia). rewrite i64_small by (unfold is_i64; lia).
  apply Z_of_double_d_of_Z. lia.
Qed.

Lemma interval_item_bytes t sp l irp :
  mode t <> BIDIRECTIONAL -> streams t = sp :: l -> irp_of sp = Some irp ->
  0 <= zsum bytes_transferred (intervals_of (reporting t)) < 2 ^ 53 ->
  interval_bytes (interval_item t) = zsum bytes_transferred (intervals_of (reporting t)).
Proof.
  intros Hm Es Ei Hb. rewrite <- (d_of_bytes _ Hb). unfold interval_item, modes.
  destruct (Z.eqb_spec (mode t) BIDIRECTIONAL); [done|]. cbn [map flat_map]. unfold sum_items. rewrite Es, Ei, <- Es.
  reflexivity.
Qed.

(** No bytes, no interval: nothing is lost when a short interval is skipped. *)
Lemma skipped_nothing t o : interval_ok t o = false ->
  Forall (fun irp => 0 <= bytes_transferred irp) (intervals_of (reporting t)) ->
  zsum bytes_transferred (intervals_of (reporting t)) = 0.
Proof.
  intros Ho. unfold reporting, intervals_of, interval_ok in *. induction (streams t) as [|sp l IH]; [done|].
  cbn [existsb] in Ho. apply orb_false_elim in Ho as [H1 H2]. rewrite towards_cons.
  destruct (Bool.eqb _ _); [|by apply IH]. cbn [omap list_omap]. destruct (irp_of sp) as [irp|]; [|by apply IH].
  intros H. inversion H as [|? ? Hi Hl]; subst. rewrite zsum_cons, (IH H2 Hl).
  apply orb_false_elim in H1 as [_ H1]. apply Z.ltb_ge in H1. lia.
Qed.

Lemma total_item_bytes t j e st rt tt :
  (protocol t = Ptcp \/ must_be_sender (mode t) = true) ->
  let d := must_be_sender (mode t) in
  child j = named "streams" e :: total_items t d st rt tt ++ last_items t d ->
  member_bytes (total_name t) j = Z_of_double (d_of_Z (i64 (if d then t_sent tt else t_received tt))).
Proof.
  intros Hp. cbn zeta. intros Ec. unfold member_bytes, total_name, total_items in *. rewrite Ec. clear Ec.
  destruct (protocol t =? Ptcp) eqn:Ep, (must_be_sender (mode t)) eqn:Ed; try reflexivity.
  destruct Hp as [Hp|Hp]; [|done]. rewrite Hp in Ep. done.
Qed.

(** The totals of this side are what its streams report. *)
Lemma totals_reported t d l :
  Forall (fun sp => sender sp = d /\ 0 <= reported_bytes sp) l -> zsum reported_bytes l < 2 ^ 53 ->
  (if d then t_sent (totals_of t l) else t_received (totals_of t l)) = u64 (zsum reported_bytes l).
Proof.
  intros Hl Hs. assert (E : (if d then t_sent (totals_of t l) else t_received (totals_of t l))
    = u64 (zsum (fun sp => if d then stream_sent sp else bytes_received (result sp)) l)) by by destruct d.
  rewrite E. f_equal. clear E. revert Hs. induction Hl as [|sp l [Hd Hp] Hl IH]; intros Hs; [done|].
  rewrite !zsum_cons in *. assert (0 <= zsum reported_bytes l).
  { clear -Hl. induction Hl as [|x l [_ ?] _ IH]; [done|]. rewrite zsum_cons. lia. }
  rewrite IH by lia. f_equal. unfold reported_bytes in *. rewrite Hd in *. destruct d; [|done].
  unfold stream_sent. apply u64_small. unfold is_u64. lia.
Qed.

(** ** The tree *)

Lemma running_append o items x : running_tree o items ->
  exists o', json_update json_intervals (append [x]) o = Ok o' /\ running_tree o' (items ++ [x]).
Proof.
  intros (Hj & top & a & e & Ht & Ha & Hc & He & Hec).
  assert (E : update_at json_intervals (append [x]) top
              = Ok (set_child (<[1%nat := set_child (child a ++ [x]) a]> (child top)) top)).
  { cbn [node_at] in Ha. cbn [update_at]. destruct (child top !! 1%nat) as [a0|]; [|done]. injection Ha as ->. done. }
  eexists. split; [by eapply json_update_ok|]. split; [done|].
  exists (set_child (<[1%nat := set_child (child a ++ [x]) a]> (child top)) top), (set_child (child a ++ [x]) a), e.
  cbn [node_at child set_child] in *. destruct (child top !! 1%nat) as [a0|] eqn:E1; [|done]. injection Ha as ->.
  split; [done|]. rewrite list_lookup_insert_eq by (by eapply lookup_lt_Some). split; [done|]. split; [by rewrite Hc|].
  split; [|done]. by rewrite list_lookup_insert_ne by done.
Qed.

Lemma running_tree_ok o items : running_tree o items -> tree_ok o.
Proof. intros (_ & top & a & e & H1 & H2 & _ & H3 & _). by exists top, a, e. Qed.

(** The end of the tree, and the intervals beside it. *)
Lemma running_finish o items new : running_tree o items ->
  exists o', json_update json_end (append new) o = Ok o' /\
    exists top a e, json_top o' = Some top /\ node_at json_intervals top = Some a /\ child a = items /\
      node_at json_end top = Some e /\ child e = new.
Proof.
  intros (Hj & top & a & e & Ht & Ha & Hc & He & Hec).
  assert (E : update_at json_end (append new) top
              = Ok (set_child (<[2%nat := set_child (child e ++ new) e]> (child top)) top)).
  { cbn [node_at] in He. cbn [update_at]. destruct (child top !! 2%nat) as [a0|]; [|done]. injection He as ->. done. }
  eexists. split; [by eapply json_update_ok|].
  exists (set_child (<[2%nat := set_child (child e ++ new) e]> (child top)) top), a, (set_child (child e ++ new) e).
  cbn [node_at child set_child] in *. destruct (child top !! 2%nat) as [a0|] eqn:E1; [|done]. injection He as ->.
  split; [done|]. rewrite list_lookup_insert_ne by done. split; [done|]. split; [done|].
  rewrite list_lookup_insert_eq by (by eapply lookup_lt_Some). by rewrite Hec.
Qed.

(** ** Callbacks *)

(** A stream after the callback, and after what the peer reported. *)
Definition settled (sp sp' : iperf_stream) : Prop :=
  sender sp' = sender sp /\ reported_bytes sp' = reported_bytes sp /\
  exists irp, irp_of sp' = Some irp /\ bytes_transferred irp = this_interval sp.

Lemma intervals_settled l l' : Forall2 settled l l' ->
  zsum bytes_transferred (intervals_of l') = zsum this_interval l /\
  (Forall counting l -> Forall (fun irp => 0 <= bytes_transferred irp) (intervals_of l')).
Proof.
  induction 1 as [|sp sp' l l' (_ & _ & irp & Ei & Eb) _ [IH1 IH2]]; [by split; [|constructor]|].
  unfold intervals_of in *. cbn [omap list_omap]. rewrite Ei, !zsum_cons, IH1, Eb. split; [done|].
  intros Hc. inversion Hc as [|? ? H1 H2]; subst. constructor; [|by apply IH2].
  rewrite Eb. by apply counting_bounds in H1 as [[? _] _].
Qed.

Lemma counting_sums l : Forall counting l -> 0 <= zsum this_interval l <= zsum reported_bytes l.
Proof.
  induction 1 as [|sp l Hsp _ IH]; [done|]. rewrite !zsum_cons. apply counting_bounds in Hsp as ([? ?] & _). lia.
Qed.

Section Callbacks.
Variable name0 : bytes.
Hypothesis Hname0 : List.length name0 = 100%nat.

Lemma report_interval c0 t o u :
  run_inv c0 (t, o) -> Forall2 settled (streams t) (streams u) -> mode u = mode t -> sums_fit u ->
  exists o' items, iperf_print_intermediate name0 u o = Ok o' /\ running_tree o' (c0 ++ items) /\
    zsum interval_bytes items = zsum reported_bytes (reporting u) /\
    zsum reported_bytes (reporting u) = zsum reported_bytes (reporting t).
Proof.
  intros [Hr Hm Hside Hc Hs (items & Htree & Hsum)] Hset Hmode Hfit. cbn [fst snd] in *.
  assert (Hdir : Forall2 settled (reporting t) (reporting u)).
  { unfold reporting. rewrite Hmode. apply towards_Forall2; [by intros ? ? [? _]|done]. }
  assert (Erep : zsum reported_bytes (reporting u) = zsum reported_bytes (reporting t))
    by (eapply zsum_Forall2; [|exact Hdir]; by intros ? ? (_ & ? & _)).
  destruct (intervals_settled _ _ Hdir) as [Esum Hpos].
  specialize (Hpos (Forall_towards _ _ _ Hc)).
  pose proof (counting_sums _ (Forall_towards _ (must_be_sender (mode t)) _ Hc)) as Hle. fold (reporting t) in Hle.
  assert (Hi : have_intervals u).
  { unfold have_intervals. clear -Hset. induction Hset as [|? ? ? ? (_ & _ & irp & E & _) _ IH]; constructor; [congruence|done]. }
  rewrite (print_intermediate_json name0 Hname0 u o (proj1 Htree) (running_tree_ok _ _ Htree) Hi Hfit).
  destruct (interval_ok u o) eqn:Eok.
  - destruct (running_append o _ (interval_item u) Htree) as (o' & Eu & Ht').
    exists o', (items ++ [interval_item u]). split; [done|]. rewrite app_assoc. split; [done|]. split; [|done].
    pose proof (interval_ok_streams _ _ Eok) as Hne. destruct (streams u) as [|sp l] eqn:Es; [done|].
    destruct (irp_of sp) as [irp|] eqn:Ei; [|unfold have_intervals in Hi; rewrite Es in Hi; by inversion Hi].
    rewrite zsum_app, zsum_cons, (interval_item_bytes u sp l irp), Esum; [cbn [zsum foldr]; lia|congruence|done|done|].
    rewrite Esum. lia.
  - exists o, items. split; [done|]. split; [done|]. split; [|done].
    pose proof (skipped_nothing _ _ Eok Hpos) as H0. lia.
Qed.

Variable has_tcpinfo : bool.
Variable allocate : nat -> nat -> bool.

Lemma closed_settled sp sp' : closed sp sp' -> settled sp sp'.
Proof. intros (H1 & H2 & _ & H4 & _). done. Qed.

Lemma report_step_inv c0 s s' : report_step name0 has_tcpinfo allocate s s' -> run_inv c0 s -> run_inv c0 s'.
Proof.
  intros H Hinv. inversion H as [t o l Hm Hb E1 E2|t o clock ti temp t' t'' o'' Hst Hfit Hrep E1 E2]; subst.
  - destruct Hinv as [Hr Hmode Hside Hc Hs (items & Htree & Hsum)]. cbn [fst snd] in *.
    assert (Hd : Forall2 moved (reporting t) (reporting (t {{ streams := l }})))
      by (apply towards_Forall2; [exact moved_sender|done]).
    assert (Hc' : Forall counting l).
    { clear -Hm Hc. induction Hm as [|sp sp' l0 l' H _ IH]; [constructor|]. inversion Hc; subst.
      constructor; [by eapply moved_counting|by apply IH]. }
    constructor; cbn [fst snd]; [done|done|done|done|done|]. exists items. split; [done|].
    assert (E : zsum (fun sp => reported_bytes sp - this_interval sp) (reporting (t {{ streams := l }}))
              = zsum (fun sp => reported_bytes sp - this_interval sp) (reporting t)).
    { pose proof (Forall_towards _ (must_be_sender (mode t)) _ Hc) as Hct. fold (reporting t) in Hct.
      clear -Hd Hct. revert Hct. induction Hd as [|sp sp' l1 l2 H _ IH]; intros Hct; [done|].
      inversion Hct; subst. rewrite !zsum_cons, IH by done. f_equal. by apply moved_counting. }
    rewrite !zsum_sub in E. lia.
  - apply stats_callback_closed in Hst as (l & -> & Est). set (u := t {{ streams := l }}) in *.
    assert (Hset : Forall2 settled (streams t) (streams u)) by (eapply Forall2_impl; [exact Est|apply closed_settled]).
    destruct (report_interval c0 t o u Hinv Hset eq_refl Hfit) as (o' & items & Ei & Htree & Hsum & Erep).
    destruct Hinv as [Hr Hmode Hside Hc Hs _]. cbn [fst snd] in *.
    unfold iperf_reporter_callback in Hrep. change (state u) with (state t) in Hrep. rewrite Hr in Hrep.
    cbn [Z.eqb Pos.eqb orb] in Hrep. rewrite Ei in Hrep. cbn [obind] in Hrep. assert (t'' = u) as -> by congruence. assert (o'' = o') as -> by congruence. clear Hrep.
    constructor; cbn [fst snd]; [done|done|done| |lia|].
    + clear -Est Hc. change (streams u) with l. induction Est as [|sp sp' l0 l' (_ & _ & _ & _ & H) _ IH]; [constructor|].
      inversion Hc; subst. constructor; [by apply H|by apply IH].
    + exists items. split; [done|]. rewrite Hsum.
      assert (E0 : zsum this_interval (reporting u) = zsum (fun _ : iperf_stream => 0) (reporting t)).
      { eapply (zsum_Forall2 closed); [by intros ? ? (_ & _ & ? & _)|].
        apply towards_Forall2; [by intros ? ? [? _]|done]. }
      rewrite E0, zsum_zero. lia.
Qed.
End Callbacks.

Lemma closed_exchanged l l1 l2 : Forall2 closed l l1 -> Forall2 exchanged l1 l2 -> Forall2 settled l l2.
Proof.
  intros Hcl. revert l2. induction Hcl as [|sp sp1 l l1 (H1 & H2 & _ & H4 & _) _ IH]; intros l2 Hex;
    inversion Hex as [|? sp2 ? l2' (E1 & E2 & E3)]; subst; constructor; [|by apply IH].
  split; [congruence|]. split; [congruence|]. unfold irp_of in *. by rewrite E1.
Qed.

Lemma run_inv_start c0 t o :
  running_tree o c0 -> state t = TEST_RUNNING -> mode t <> BIDIRECTIONAL ->
  (protocol t = Ptcp \/ must_be_sender (mode t) = true) ->
  Forall (fun sp => counting sp /\ reported_bytes sp = 0) (streams t) -> run_inv c0 (t, o).
Proof.
  intros Htree Hst Hmode Hside Hfresh.
  assert (H0 : zsum reported_bytes (reporting t) = 0 /\ zsum this_interval (reporting t) = 0).
  { unfold reporting. apply (Forall_towards _ (must_be_sender (mode t))) in Hfresh. revert Hfresh.
    generalize (towards (must_be_sender (mode t)) (streams t)).
    induction 1 as [|sp l [Hc Hz] _ [IH1 IH2]]; [done|]. rewrite !zsum_cons, IH1, IH2.
    apply counting_bounds in Hc as ([? ?] & _). lia. }
  constructor; cbn [fst snd]; [done|done|done|by eapply Forall_impl; [exact Hfresh|]; intros ? []|lia|].
  exists []. rewrite app_nil_r. split; [done|]. cbn [zsum foldr]. lia.
Qed.

(** ** The theorems *)



(** ** Examples *)

(** A client that sends over one stream and reports in JSON. *)
Definition json_client : iperf_test :=
  (iperf_set_test_role true (iperf_defaults true) role_client) {{ streams := [blank_stream 5 true]; state := TEST_RUNNING }}.
Definition json_out : output :=
  match iperf_json_start (mk_output true false true (d_of_Z 1) None None 1460 None None None [] [] []) with
  | Ok o => o
  | _ => mk_output true false true (d_of_Z 1) None None 1460 None None None [] [] []
  end.

Definition ti0 : iperf_stream -> tcp_info := fun _ => mk_tcp_info 0 10 1000 20 5 1500.
Definition temp0 : iperf_interval_results := mk_interval 0 zero_time zero_time d0 0 0 0 0 d0 0 0 false 0 0 0 0 0.
Definition clock_at (n : Z) : iperf_stream -> iperf_time := fun _ => mk_time n 0.
Definition after_ok {A} (d : A) (m : outcome A) : A := match m with Ok a => a | _ => d end.

Definition client_1 : iperf_test := json_client {{ streams := [add_sent (blank_stream 5 true) 5] }}.
Definition client_2 : iperf_test := after_ok client_1 (iperf_stats_callback true client_1 (clock_at 1) ti0 temp0).
Definition out_2 : output :=
  snd (after_ok (client_2, json_out) (iperf_reporter_callback (repeat 7 100) (fun _ => None) (fun _ _ => true) client_2 json_out)).
Definition client_3 : iperf_test := client_2 {{ streams := map (fun sp => add_sent sp 7) (streams client_2) }}.
Definition client_4 : iperf_test := after_ok client_3 (iperf_stats_callback true client_3 (clock_at 2) ti0 temp0).

Lemma exchanged_refl l : Forall2 exchanged l l.
Proof. induction l; by constructor. Qed.


