(* ===== verification/ReportsText.v ===== *)
(** * The reports of a server as text

    Every line a server prints is well formed: the formats match their
    arguments, and no sum leaves its type. *)

From coqutil Require Import Datatypes.RecordSetters.
From Stdlib Require Import SpecFloat.
From Stdlib Require Import String.
From S2P Require Import Prelude.
From S2P Require Import IperfTime.
From S2P Require Import Cdouble.
From S2P Require Import Units.
From S2P Require Import CjsonData.
From S2P Require Import CjsonPrint.
From S2P Require Import CjsonTree.
From S2P Require Import JsonObject.
From S2P Require Import Iperf.
From S2P Require Import Udp.
From S2P Require Import Util.
From S2P Require Import Output.
From S2P Require Import OutputThms.
From S2P Require Import Reports.
From S2P Require Import ReportsJson.
From S2P Require Import ReportsSummary.
From stdpp Require Import base numbers gmap list.
Import DoubleBraceUpdate.

Open Scope Z_scope.
Open Scope c_scope.

(** ** Lines are added *)

(** More lines, and nothing else but the copy kept for the client. *)
Definition grows (o o' : output) : Prop :=
  exists lines kept, o' = o {{ out := out o ++ lines; server_output_list := kept }}.

Lemma grows_refl o : grows o o.
Proof. exists [], (server_output_list o). rewrite app_nil_r. by destruct o. Qed.

Lemma grows_trans o1 o2 o3 : grows o1 o2 -> grows o2 o3 -> grows o1 o3.
Proof.
  intros (l1 & k1 & ->) (l2 & k2 & ->). exists (l1 ++ l2), k2. destruct o1. cbn. unfold constant. by rewrite <- app_assoc.
Qed.

Lemma grows_cfg o o' : grows o o' -> json_output o' = json_output o /\ verbose o' = verbose o /\
  stats_interval o' = stats_interval o.
Proof. by intros (l & k & ->). Qed.

Definition prints (o : output) (m : outcome output) : Prop := exists o', m = Ok o' /\ grows o o'.

Lemma prints_ok o : prints o (Ok o).
Proof. exists o. split; [done|apply grows_refl]. Qed.

Lemma prints_bind o m k : prints o m -> (forall o', grows o o' -> prints o' (k o')) -> prints o (obind m k).
Proof.
  intros (o1 & -> & H1) Hk. destruct (Hk o1 H1) as (o2 & E & H2). cbn [obind]. rewrite E. exists o2.
  split; [done|by eapply grows_trans].
Qed.

#[local] Hint Resolve prints_ok grows_refl : core.

Section Text.
Variable name0 : bytes.
Variable allocate : nat -> nat -> bool.

Section Test.
Variable test : iperf_test.
Hypothesis Hrole : role test = role_server.

Lemma printf_prints fmt args l o :
  format_types fmt None = Some l -> map type_of args = map Some l -> prints o (iperf_printf test fmt args o).
Proof.
  intros Hf Ha. destruct (iperf_printf_server test fmt args l o Hrole Hf Ha) as (t & sl & ->).
  eexists. split; [done|]. by exists [t], sl.
Qed.

(** [put_line]: the format takes its arguments. *)
Ltac put_line := eapply printf_prints; [vm_compute; reflexivity|reflexivity].

(** [put]: a branch of a report, by its conditions. *)
Ltac put :=
  repeat match goal with
  | |- prints _ (if ?b then _ else _) => destruct b eqn:?
  end; try apply prints_ok; try put_line.

Lemma interval_header_prints sp irp o : prints o (interval_header test sp irp o).
Proof.
  unfold interval_header. destruct (_ =? 0); [|put].
  destruct (_ =? Ptcp); [destruct (_ =? 1)|]; put_line.
Qed.

Lemma print_interval_prints first sp irp p o :
  json_output o = false -> irp_of sp = Some irp -> prints o (print_interval_results name0 test first sp p o).
Proof.
  intros Hj Hi. unfold print_interval_results. rewrite Hi, Hj. cbn [negb andb]. apply prints_bind.
  { destruct first; [apply interval_header_prints|apply prints_ok]. }
  intros o' Ho. rewrite (proj1 (grows_cfg _ _ Ho)), Hj. put.
Qed.

Lemma interval_sum_prints d p s o : json_output o = false -> have_intervals test -> prints o (interval_sum name0 test d p s o).
Proof.
  intros Hj Hi. unfold interval_sum. rewrite Hj. destruct (negb _); [apply prints_ok|].
  destruct (streams test) as [|sp l] eqn:Es; [apply prints_ok|].
  destruct (irp_of sp) as [irp|] eqn:Ei; [|unfold have_intervals in Hi; rewrite Es in Hi; by inversion Hi].
  cbn [deref obind]. put.
Qed.

Lemma interval_streams_prints d p l : forall first s s' o,
  json_output o = false -> Forall (fun sp => irp_of sp <> None) l ->
  sum_ups test (intervals_of (towards d l)) s = Ok s' ->
  exists o', interval_streams name0 test d p first l s o = Ok (Some s', o') /\ grows o o'.
Proof.
  induction l as [|sp l IH]; intros first s s' o Hj Hi Hs.
  { injection Hs as <-. exists o. by split. }
  inversion Hi as [|? ? Hsp Hi']; subst. cbn [interval_streams towards List.filter] in *.
  destruct (Bool.eqb (sender sp) d); [|by apply IH].
  unfold intervals_of in Hs. cbn [omap list_omap] in Hs. destruct (irp_of sp) as [irp|] eqn:Ei; [|done].
  unfold sum_ups in Hs. cbn [foldl obind] in Hs.
  destruct (sum_ups_first _ _ _ _ Hs) as [s1 Es]. rewrite Es in Hs |- *.
  destruct (print_interval_prints first sp irp p o Hj Ei) as (o1 & -> & H1). cbn [obind].
  destruct (IH false s1 s' o1) as (o2 & -> & H2); [by rewrite (proj1 (grows_cfg _ _ H1))|done|done|].
  exists o2. split; [done|by eapply grows_trans].
Qed.

Lemma interval_modes_prints p ms : forall o, json_output o = false -> have_intervals test -> sums_fit test ->
  prints o (interval_modes name0 test p ms o).
Proof.
  induction ms as [|m ms IH]; intros o Hj Hi Hf; [apply prints_ok|]. cbn [interval_modes]. set (d := must_be_sender m).
  destruct Hf as (F1 & F2 & F3).
  assert (Esum := sum_ups_ok test (intervals_of (towards d (streams test))) []
    (fits_towards _ d _ F1) (fits_towards _ d _ F2) (fits_towards _ d _ F3)).
  rewrite interval_sums_nil in Esum.
  destruct (interval_streams_prints d (p ++ [0%nat]) (streams test) true no_sums _ o Hj Hi Esum) as (o1 & -> & H1). cbn [obind].
  assert (Hj1 : json_output o1 = false) by (by rewrite (proj1 (grows_cfg _ _ H1))).
  destruct (interval_sum_prints d p (interval_sums test (intervals_of (towards d (streams test)))) o1 Hj1 Hi) as (o2 & E2 & H2).
  cbn [app]. rewrite E2. cbn [obind]. assert (Hj2 : json_output o2 = false) by (by rewrite (proj1 (grows_cfg _ _ H2))).
  destruct (IH o2 Hj2 Hi (conj F1 (conj F2 F3))) as (o3 & -> & H3). exists o3. split; [done|].
  eapply grows_trans; [exact H1|by eapply grows_trans].
Qed.

Lemma print_intermediate_prints o : json_output o = false -> have_intervals test -> sums_fit test ->
  prints o (iperf_print_intermediate name0 test o).
Proof.
  intros Hj Hi Hf. unfold iperf_print_intermediate. destruct (negb _); [apply prints_ok|]. rewrite Hj.
  by apply interval_modes_prints.
Qed.

(** ** The final report *)

Lemma summary_header_prints o : prints o (summary_header test o).
Proof.
  unfold summary_header. apply prints_bind; [put_line|]. intros o1 _. apply prints_bind.
  { destruct (verbose o1); put. }
  intros o2 _. destruct (_ =? Ptcp); [destruct (_ || _)|]; put_line.
Qed.

Lemma not_available_prints fmt a l o :
  format_types fmt None = Some l -> map type_of [a] = map Some l -> prints o (not_available test fmt a o).
Proof. intros Hf Ha. unfold not_available. destruct (verbose o); [by eapply printf_prints|apply prints_ok]. Qed.

Ltac put_na := eapply not_available_prints; [vm_compute; reflexivity|reflexivity].

Lemma sender_summary_prints d jp st sp o :
  json_output o = false -> stream_fits sp -> prints o (sender_summary name0 test d jp st sp o).
Proof.
  intros Hj Hs. unfold sender_summary. rewrite Hj. destruct (protocol test =? Ptcp).
  { destruct (nonzero_int _), (_ && _); (put_na || put_line). }
  unfold stream_fits, counters in Hs. rewrite !Forall_cons in Hs. destruct Hs as (A1 & A2 & A3 & A4 & A5 & _).
  change (cnt_error sp - omitted_cnt_error sp) with (lost_of sp).
  destruct (packet_counts sp) as [sent received]. cbn [fst snd] in *.
  rewrite (int_of_ok (sent - _)), (int_of_ok (lost_of sp)), (int_of_ok (outoforder_packets sp - _)) by done. cbn [obind].
  apply prints_bind; [destruct (_ && _); (put_na || put_line)|]. intros o1 _. put.
Qed.

Lemma receiver_summary_prints d jp rt et sp o :
  json_output o = false -> stream_fits sp -> prints o (receiver_summary name0 test d jp rt et sp o).
Proof.
  intros Hj Hs. unfold receiver_summary. rewrite Hj. destruct (protocol test =? Ptcp).
  { destruct (_ && _); (put_na || put_line). }
  unfold stream_fits, counters in Hs. rewrite !Forall_cons in Hs. destruct Hs as (_ & A2 & _ & A4 & _).
  change (cnt_error sp - omitted_cnt_error sp) with (lost_of sp).
  rewrite !int_of_ok by done. cbn [obind]. destruct (_ && _); (put_na || put_line).
Qed.

Lemma summary_streams_prints d js st rt et l : forall l0 o,
  json_output o = false -> totals_fit (l0 ++ towards d l) ->
  exists o', summary_streams name0 (fun _ => None) test d js st rt et l (totals_of test l0) o
    = Ok (totals_of test (l0 ++ towards d l), o') /\ grows o o'.
Proof.
  induction l as [|sp l IH]; intros l0 o Hj Hf.
  { exists o. cbn [towards List.filter]. rewrite app_nil_r. by split. }
  cbn [summary_streams towards List.filter] in *. fold (towards d l) in *.
  destruct (Bool.eqb (sender sp) d); [|by apply IH]. rewrite Hj. cbn [obind].
  rewrite (cons_middle sp l0), app_assoc in Hf |- *.
  rewrite total_up_snoc by (by eapply totals_fit_app). cbn [obind].
  assert (Hsp : stream_fits sp) by (eapply totals_fit_member; [exact Hf|]; set_solver).
  destruct (sender_summary_prints d [] st sp o Hj Hsp) as (o1 & -> & H1). cbn [obind diskfile_summary].
  assert (Hj1 : json_output o1 = false) by (by rewrite (proj1 (grows_cfg _ _ H1))).
  destruct (receiver_summary_prints d [] rt et sp o1 Hj1 Hsp) as (o2 & -> & H2). cbn [obind].
  destruct (IH (l0 ++ [sp]) o2) as (o3 & -> & H3); [by rewrite (proj1 (grows_cfg _ _ H2))|done|].
  exists o3. split; [done|]. eapply grows_trans; [exact H1|by eapply grows_trans].
Qed.

Lemma summary_sum_prints d st rt et t o : json_output o = false -> prints o (summary_sum name0 test d st rt et t o).
Proof.
  intros Hj. unfold summary_sum. rewrite Hj. destruct (negb _); [apply prints_ok|]. destruct (_ =? Ptcp).
  - apply prints_bind; [destruct (nonzero_int _), (_ && _); (put_na || put_line)|].
    intros o1 Ho. rewrite (proj1 (grows_cfg _ _ Ho)), Hj. destruct (_ && _); (put_na || put_line).
  - apply prints_bind; [put|]. intros o1 _. put.
Qed.

Lemma cpu_line_prints a b o : prints o (cpu_line test a b o).
Proof.
  unfold cpu_line. destruct (Iperf.cpu_util test) as [[? ?] ?], (remote_cpu_util test) as [[? ?] ?]. put_line.
Qed.

Lemma text_last_prints d o : prints o (text_last allocate test d o).
Proof.
  unfold text_last. rewrite Hrole. cbn [Z.eqb Pos.eqb andb]. apply prints_bind; [|intros; apply prints_ok].
  destruct (verbose o); [|apply prints_ok]. apply prints_bind.
  { destruct d; [|apply prints_ok]. apply prints_bind; [apply cpu_line_prints|]. intros o1 _.
    destruct (nonzero_int _); [apply cpu_line_prints|apply prints_ok]. }
  intros o1 _. destruct (_ =? Ptcp); [|apply prints_ok]. destruct (congestions test d) as [[s|] [r|]]; cbn [if_some].
  all: apply prints_bind; [put_line || apply prints_ok|]; intros o2 _; put_line || apply prints_ok.
Qed.

End Test.

(** The test along a report: the first stream has its times, and
    sender_has_retransmits is that of a direction. *)
Definition reported_test (test : iperf_test) (x : Z) : iperf_test := (with_times test) {{ sender_has_retransmits := x }}.

Lemma first_times_idem sp : first_times (set_times sp) = first_times sp.
Proof.
  unfold first_times at 1. change (sender (set_times sp)) with (sender sp).
  change (secs_between (start_time (result (set_times sp))) (end_time (result (set_times sp))))
    with (secs_between (start_time (result sp)) (end_time (result sp))).
  change (receiver_time (result (set_times sp))) with (snd (first_times sp)).
  change (sender_time (result (set_times sp))) with (fst (first_times sp)).
  unfold first_times. destruct (sender sp); cbn [fst snd].
  - destruct (deqb (receiver_time (result sp)) d0) eqn:E; [destruct (deqb (secs_between _ _) d0); reflexivity|by rewrite E].
  - destruct (deqb (sender_time (result sp)) d0) eqn:E; [destruct (deqb (secs_between _ _) d0); reflexivity|by rewrite E].
Qed.

Lemma set_times_idem sp : set_times (set_times sp) = set_times sp.
Proof.
  unfold set_times at 1. rewrite first_times_idem. unfold set_times. destruct sp as [? ? ? [] ? ? ? ? ? ? ? ? ? ?]. reflexivity.
Qed.

Lemma reported_test_idem test x y : reported_test (reported_test test x) y = reported_test test y.
Proof.
  unfold reported_test, with_times. destruct (streams test) as [|sp l] eqn:E.
  - change (streams (test {{ sender_has_retransmits := x }})) with (streams test). rewrite E. by destruct test.
  - change (streams ((test {{ streams := set_times sp :: l }}) {{ sender_has_retransmits := x }})) with (set_times sp :: l).
    cbv iota. rewrite set_times_idem. by destruct test.
Qed.

Lemma totals_fit_towards d l : totals_fit l -> totals_fit (towards d l).
Proof.
  intros H. eapply Forall_impl; [exact H|]. intros f. unfold fits. intros Hf. eapply Z.le_lt_trans; [|exact Hf].
  clear. induction l as [|sp l IH]; [done|]. unfold towards in *. cbn [List.filter].
  destruct (Bool.eqb _ _); rewrite ?zsum_cons; lia.
Qed.

Lemma reported_test_fits test x : totals_fit (streams test) -> totals_fit (streams (reported_test test x)).
Proof.
  unfold reported_test, with_times. destruct (streams test) as [|sp l] eqn:E; intros H.
  - change (totals_fit (streams test)). by rewrite E.
  - change (totals_fit (set_times sp :: l)). by apply totals_fit_times.
Qed.

Lemma summary_mode_prints retrans js m upper test o :
  role test = role_server -> json_output o = false -> totals_fit (streams test) ->
  exists x o', summary_mode name0 (fun _ => None) allocate retrans js m upper test o = Ok (reported_test test x, o') /\
    grows o o' /\ (mode test <> BIDIRECTIONAL -> x = sender_has_retransmits test).
Proof.
  intros Hr Hj Hf. unfold summary_mode. set (d := must_be_sender m).
  set (x := if mode test =? BIDIRECTIONAL then if d then retrans else other_side_has_retransmits test
            else sender_has_retransmits test).
  assert (E1 : (if mode test =? BIDIRECTIONAL
      then test {{ sender_has_retransmits := if d then retrans else other_side_has_retransmits test }} else test)
      = test {{ sender_has_retransmits := x }}) by (unfold x; destruct (_ =? BIDIRECTIONAL); [done|by destruct test]).
  rewrite E1. set (t1 := test {{ sender_has_retransmits := x }}).
  assert (Hx : mode test <> BIDIRECTIONAL -> x = sender_has_retransmits test)
    by (unfold x; by destruct (Z.eqb_spec (mode test) BIDIRECTIONAL)).
  assert (Hlast : forall t o st rt et tt, role t = role_server -> json_output o = false -> exists o',
    (let! o := summary_sum name0 t d st rt et tt o in
     let! o := if json_output o && upper then json_last name0 t d o else text_last allocate t d o in Ok (t, o))
    = Ok (t, o') /\ grows o o').
  { intros t o1 st rt et tt Ht Hj1. destruct (summary_sum_prints t Ht d st rt et tt o1 Hj1) as (o2 & -> & H2). cbn [obind].
    rewrite (proj1 (grows_cfg _ _ H2)), Hj1. cbn [andb].
    destruct (text_last_prints t Ht d o2) as (o3 & -> & H3). cbn [obind]. exists o3. split; [done|by eapply grows_trans]. }
  change (streams t1) with (streams test). destruct (streams test) as [|sp l] eqn:Es.
  - destruct (Hlast t1 o d0 d0 d0 no_totals Hr Hj) as (o' & E & H). cbn [obind]. rewrite E. exists x, o'.
    split; [|done]. unfold reported_test, with_times. by rewrite Es.
  - destruct (first_times sp) as [st rt]. set (t2 := t1 {{ streams := set_times sp :: l }}).
    assert (E0 : no_totals = totals_of t2 []) by (unfold totals_of; cbn; by destruct (_ =? Ptcp), (retransmitting _)).
    rewrite E0.
    destruct (summary_streams_prints t2 Hr d js st rt (secs_between (start_time (result sp)) (end_time (result sp)))
      (streams t2) [] o Hj) as (o1 & -> & H1).
    { cbn [app]. apply totals_fit_towards. change (streams t2) with (set_times sp :: l). by apply totals_fit_times. }
    cbn [obind fst snd app].
    destruct (Hlast t2 o1 st rt (secs_between (start_time (result sp)) (end_time (result sp)))
      (totals_of t2 (towards d (streams t2))) Hr) as (o2 & E2 & H2).
    { by rewrite (proj1 (grows_cfg _ _ H1)). }
    rewrite E2. exists x, o2. split; [|split; [by eapply grows_trans|done]].
    unfold reported_test, with_times. rewrite Es. by destruct test.
Qed.

Lemma summary_modes_prints retrans js ms : forall test o,
  ms <> [] -> role test = role_server -> json_output o = false -> totals_fit (streams test) ->
  exists x o', summary_modes name0 (fun _ => None) allocate retrans js ms test o = Ok (reported_test test x, o') /\
    grows o o' /\ (mode test <> BIDIRECTIONAL -> x = sender_has_retransmits test).
Proof.
  induction ms as [|m ms IH]; intros test o Hne Hr Hj Hf; [done|]. cbn [summary_modes].
  destruct (summary_mode_prints retrans js m (match ms with [] => true | _ => false end) test o Hr Hj Hf)
    as (x & o1 & -> & H1 & Hx). cbn [obind fst snd].
  destruct ms as [|m' ms]; [by exists x, o1|].
  assert (Ew : mode (reported_test test x) = mode test /\ role (reported_test test x) = role test)
    by (unfold reported_test, with_times; by destruct (streams test)). destruct Ew as [Em Er].
  destruct (IH (reported_test test x) o1) as (y & o2 & E & H2 & Hy); [done|congruence| |by apply reported_test_fits|].
  { by rewrite (proj1 (grows_cfg _ _ H1)). }
  exists y, o2. rewrite E, reported_test_idem. split; [done|]. split; [by eapply grows_trans|].
  intros Hm. rewrite Hy by congruence. by apply Hx.
Qed.

End Text.

(** ** Examples *)

Definition a_interval : iperf_interval_results :=
  mk_interval 1310720 (mk_time 100 0) (mk_time 101 0) (d_of_Z 1) 100 0 3 100 (d_dec 1 3) 0 3 false 2 64000 300 10 1500.
Definition a_stream (s : Z) (is_sender : bool) : iperf_stream :=
  (blank_stream s is_sender) {{ result := zero_result {{ start_time := mk_time 100 0; end_time := mk_time 101 0;
    bytes_sent := 1310720; bytes_received := 1310720; interval_results := [a_interval] }} }}.

(** A bidirectional UDP test on a server. *)
Definition bidir_server : iperf_test :=
  (iperf_set_test_role true (iperf_defaults true) role_server)
    {{ mode := BIDIRECTIONAL; bidirectional := 1; protocol := Pudp; state := TEST_END;
       streams := [a_stream 5 false; a_stream 6 true] }}.
Definition text_out : output := mk_output false true true (d_of_Z 1) None None 1460 None None None [] [] [].


Definition after_start (o : output) : output := match iperf_json_start o with Ok o => o | _ => o end.

(** In a bidirectional JSON test that is verbose, lines of text are printed
    beside the tree: CPU figures of the first direction go to the output. *)
Theorem bidirectional_json_prints_text :
  exists test' o', iperf_reporter_callback (repeat 7 100) (fun _ => None) (fun _ _ => true)
      (bidir_server {{ streams := [a_stream 6 true; a_stream 5 false]; role := role_client; title := Some (bytes_of "t") }})
      (after_start (text_out {{ json_output := true }})) = Ok (test', o') /\
    List.length (out o') = 2%nat.
Proof. eexists _, _. split; [vm_compute; reflexivity|reflexivity]. Qed.

(** ... and the sums of the two directions are members of the same name. *)
Theorem bidirectional_sums_share_name :
  map string (child (interval_item bidir_server)) = map (fun n => Some (bytes_of n)) ["streams"; "sum"; "sum"]%string.
Proof. vm_compute. reflexivity. Qed.
