(* ===== verification/Params.v ===== *)
(** * Exchange of the test parameters (iperf_api.c: send_parameters,
    get_parameters)

    The client describes the test in a JSON object, the server applies it to
    its own test.  Memory is available; the printing of debug output is left
    out. *)

From coqutil Require Import Datatypes.RecordSetters.
From Stdlib Require Import SpecFloat.
From Stdlib Require Import String.
From S2P Require Import Prelude.
From S2P Require Import Cdouble.
From S2P Require Import CdoubleFacts.
From S2P Require Import CdoubleText.
From S2P Require Import CjsonData.
From S2P Require Import CjsonPrint.
From S2P Require Import CjsonPrintSpec.
From S2P Require Import CjsonPrintProof.
From S2P Require Import CjsonParse.
From S2P Require Import CjsonRoundtrip.
From S2P Require Import CjsonTree.
From S2P Require Import JsonObject.
From S2P Require Import Stream.
From S2P Require Import Frame.
From S2P Require Import Iperf.
From stdpp Require Import base numbers gmap list.
Import DoubleBraceUpdate.

Open Scope Z_scope.
Open Scope c_scope.

Abbreviation IESENDPARAMS := 113.
Abbreviation IERECVPARAMS := 114.

(** ** send_parameters *)

Definition parameters (test : iperf_test) : outcome cJSON :=
  let set := settings test in
  let num name z j := cJSON_AddNumberToObject j name (d_of_Z z) in
  let tru name j := cJSON_AddTrueToObject j name in
  let str name s j := cJSON_AddStringToObject j name s in
  let! j := deref (cJSON_CreateObject true) in
  let! j := if protocol test =? Ptcp then tru "tcp"%string j
            else if protocol test =? Pudp then tru "udp"%string j
            else if protocol test =? Psctp then tru "sctp"%string j else Ok j in
  let! j := num "omit"%string (omit test) j in
  let! j := when (negb (server_affinity test =? -1)) (num "server_affinity"%string (server_affinity test)) j in
  let! j := num "time"%string (duration test) j in
  let! j := when (nonzero_int (bytes_ set)) (num "num"%string (bytes_ set)) j in
  let! j := when (nonzero_int (blocks set)) (num "blockcount"%string (blocks set)) j in
  let! j := when (nonzero_int (mss set)) (num "MSS"%string (mss set)) j in
  let! j := when (nonzero_int (no_delay test)) (tru "nodelay"%string) j in
  let! j := num "parallel"%string (num_streams test) j in
  let! j := when (nonzero_int (reverse_ test)) (tru "reverse"%string) j in
  let! j := when (nonzero_int (bidirectional test)) (tru "bidirectional"%string) j in
  let! j := when (nonzero_int (socket_bufsize set)) (num "window"%string (socket_bufsize set)) j in
  let! j := when (nonzero_int (blksize set)) (num "len"%string (blksize set)) j in
  let! j := when (nonzero_int (rate set)) (num "bandwidth"%string (rate set)) j in
  let! j := when (nonzero_int (fqrate set)) (num "fqrate"%string (fqrate set)) j in
  let! j := when (nonzero_int (pacing_timer set)) (num "pacing_timer"%string (pacing_timer set)) j in
  let! j := when (nonzero_int (burst set)) (num "burst"%string (burst set)) j in
  let! j := when (nonzero_int (tos set)) (num "TOS"%string (tos set)) j in
  let! j := when (nonzero_int (flowlabel set)) (num "flowlabel"%string (flowlabel set)) j in
  let! j := when (non_null (title test)) (str "title"%string (title test)) j in
  let! j := when (non_null (extra_data test)) (str "extra_data"%string (extra_data test)) j in
  let! j := when (non_null (congestion test)) (str "congestion"%string (congestion test)) j in
  let! j := when (non_null (congestion_used test)) (str "congestion_used"%string (congestion_used test)) j in
  let! j := when (nonzero_int (get_server_output test)) (num "get_server_output"%string (get_server_output test)) j in
  let! j := when (nonzero_int (udp_counters_64bit test)) (num "udp_counters_64bit"%string (udp_counters_64bit test)) j in
  let! j := when (nonzero_int (repeating_payload test)) (num "repeating_payload"%string (repeating_payload test)) j in
  str "client_version"%string (Some (bytes_of "3.7")) j.

Section Exchange.
Variable allocate : nat -> nat -> bool.
Variable calloc_ok : Z -> bool.
Variable has_tcpinfo_retransmits : bool.

(** The return value, i_errno if it is set, and the socket. *)
Definition send_parameters (test : iperf_test) (s : sock) : outcome (Z * option Z * sock) :=
  let! j := parameters test in
  let! r := JSON_write allocate s j in
  let '(rc, s) := r in
  if rc <? 0 then Ok (-1, Some IESENDPARAMS, s) else Ok (0, None, s).

(** ** get_parameters *)

(** [if ((j_p = cJSON_GetObjectItem(j, name)) != NULL) f(j_p)] *)
Definition on_item (j : cJSON) (name : String.string) (f : cJSON -> iperf_test -> outcome iperf_test)
    (test : iperf_test) : outcome iperf_test :=
  let! p := cJSON_GetObjectItem (Some j) (Some (bytes_of name)) in
  match p with
  | Some j_p => f j_p test
  | None => Ok test
  end.

(** [strdup(j_p->valuestring)]: undefined when the item is not a string *)
Definition strdup_item (j_p : cJSON) : outcome (option bytes) :=
  let! s := deref (valuestring j_p) in Ok (Some (cstr_of s)).

Definition apply_protocol (j : cJSON) (t : iperf_test) : outcome iperf_test :=
  let! t := on_item j "tcp" (fun _ t => Ok (snd (set_protocol has_tcpinfo_retransmits t Ptcp))) t in
  let! t := on_item j "udp" (fun _ t => Ok (snd (set_protocol has_tcpinfo_retransmits t Pudp))) t in
  on_item j "sctp" (fun _ t => Ok (snd (set_protocol has_tcpinfo_retransmits t Psctp))) t.

Definition apply_numbers (j : cJSON) (t : iperf_test) : outcome iperf_test :=
  let! t := on_item j "omit" (fun p t => Ok (t {{ omit := i32 (valueint p) }})) t in
  let! t := on_item j "server_affinity" (fun p t => Ok (t {{ server_affinity := i32 (valueint p) }})) t in
  let! t := on_item j "time" (fun p t => Ok (t {{ duration := i32 (valueint p) }})) t in
  let! t := on_item j "num" (fun p t => Ok (t {{ settings -> bytes_ := u64 (valueint p) }})) t in
  let! t := on_item j "blockcount" (fun p t => Ok (t {{ settings -> blocks := u64 (valueint p) }})) t in
  let! t := on_item j "MSS" (fun p t => Ok (t {{ settings -> mss := i32 (valueint p) }})) t in
  let! t := on_item j "nodelay" (fun p t => Ok (t {{ no_delay := 1 }})) t in
  on_item j "parallel" (fun p t => Ok (t {{ num_streams := i32 (valueint p) }})) t.

Definition apply_direction (j : cJSON) (t : iperf_test) : outcome iperf_test :=
  let! t := on_item j "reverse" (fun p t => Ok (iperf_set_test_reverse has_tcpinfo_retransmits t 1)) t in
  on_item j "bidirectional" (fun p t => Ok (iperf_set_test_bidirectional has_tcpinfo_retransmits t 1)) t.

Definition apply_settings (j : cJSON) (t : iperf_test) : outcome iperf_test :=
  let! t := on_item j "window" (fun p t => Ok (t {{ settings -> socket_bufsize := i32 (valueint p) }})) t in
  let! t := on_item j "len" (fun p t => Ok (t {{ settings -> blksize := i32 (valueint p) }})) t in
  let! t := on_item j "bandwidth" (fun p t => Ok (t {{ settings -> rate := u64 (valueint p) }})) t in
  let! t := on_item j "fqrate" (fun p t => Ok (t {{ settings -> fqrate := u64 (valueint p) }})) t in
  let! t := on_item j "pacing_timer" (fun p t => Ok (t {{ settings -> pacing_timer := i32 (valueint p) }})) t in
  let! t := on_item j "burst" (fun p t => Ok (t {{ settings -> burst := i32 (valueint p) }})) t in
  let! t := on_item j "TOS" (fun p t => Ok (t {{ settings -> tos := i32 (valueint p) }})) t in
  on_item j "flowlabel" (fun p t => Ok (t {{ settings -> flowlabel := i32 (valueint p) }})) t.

Definition apply_strings (j : cJSON) (t : iperf_test) : outcome iperf_test :=
  let! t := on_item j "title" (fun p t => let! s := strdup_item p in Ok (t {{ title := s }})) t in
  let! t := on_item j "extra_data" (fun p t => let! s := strdup_item p in Ok (t {{ extra_data := s }})) t in
  let! t := on_item j "congestion" (fun p t => let! s := strdup_item p in Ok (t {{ congestion := s }})) t in
  on_item j "congestion_used" (fun p t => let! s := strdup_item p in Ok (t {{ congestion_used := s }})) t.

Definition apply_flags (j : cJSON) (t : iperf_test) : outcome iperf_test :=
  let! t := on_item j "get_server_output" (fun p t => Ok (t {{ get_server_output := 1 }})) t in
  let! t := on_item j "udp_counters_64bit" (fun p t => Ok (t {{ udp_counters_64bit := 1 }})) t in
  on_item j "repeating_payload" (fun p t => Ok (t {{ repeating_payload := 1 }})) t.

(** What the server does with the message. *)
Definition apply_parameters (j : cJSON) (test : iperf_test) : outcome iperf_test :=
  let! t := apply_protocol j test in
  let! t := apply_numbers j t in
  let! t := apply_direction j t in
  let! t := apply_settings j t in
  let! t := apply_strings j t in
  let! t := apply_flags j t in
  Ok (if negb (mode t =? 0) && (protocol t =? Ptcp) && has_tcpinfo_retransmits
      then t {{ sender_has_retransmits := 1 }} else t).

Definition get_parameters (test : iperf_test) (s : sock) : outcome (Z * option Z * iperf_test * sock) :=
  let! r := JSON_read allocate calloc_ok s in
  match r with
  | (None, s) => Ok (-1, Some IERECVPARAMS, test, s)
  | (Some j, s) => let! t := apply_parameters j test in Ok (0, None, t, s)
  end.

End Exchange.
