(* ===== verification/ParamsProof.v ===== *)
(** * The server applies the test the client described

    The parameters are a list of named values ([entries]); looking a name up
    in the parsed message is looking it up in that list. *)

From coqutil Require Import Datatypes.RecordSetters.
From Stdlib Require Import SpecFloat.
From Stdlib Require Import String.
From S2P Require Import Prelude.
From S2P Require Import Cdouble.
From S2P Require Import CdoubleFacts.
From S2P Require Import CdoubleText.
From S2P Require Import CjsonData.
From S2P Require Import CjsonPrint.
From S2P Require Import CjsonPrintSpec.
From S2P Require Import CjsonPrintProof.
From S2P Require Import CjsonParse.
From S2P Require Import CjsonRoundtrip.
From S2P Require Import CjsonTree.
From S2P Require Import JsonObject.
From S2P Require Import Stream.
From S2P Require Import Frame.
From S2P Require Import Iperf.
From S2P Require Import Params.
From stdpp Require Import base numbers gmap list.
Import DoubleBraceUpdate.

Open Scope Z_scope.
Open Scope c_scope.

(** ** The message of the client *)

Definition entries (test : iperf_test) : list entry :=
  let set := settings test in
  [ ("tcp"%string, given (protocol test =? Ptcp) JTrue);
    ("udp"%string, given (protocol test =? Pudp) JTrue);
    ("sctp"%string, given (protocol test =? Psctp) JTrue);
    ("omit"%string, Some (JNum (omit test)));
    ("server_affinity"%string, given (negb (server_affinity test =? -1)) (JNum (server_affinity test)));
    ("time"%string, Some (JNum (duration test)));
    ("num"%string, given (nonzero_int (bytes_ set)) (JNum (bytes_ set)));
    ("blockcount"%string, given (nonzero_int (blocks set)) (JNum (blocks set)));
    ("MSS"%string, given (nonzero_int (mss set)) (JNum (mss set)));
    ("nodelay"%string, given (nonzero_int (no_delay test)) JTrue);
    ("parallel"%string, Some (JNum (num_streams test)));
    ("reverse"%string, given (nonzero_int (reverse_ test)) JTrue);
    ("bidirectional"%string, given (nonzero_int (bidirectional test)) JTrue);
    ("window"%string, given (nonzero_int (socket_bufsize set)) (JNum (socket_bufsize set)));
    ("len"%string, given (nonzero_int (blksize set)) (JNum (blksize set)));
    ("bandwidth"%string, given (nonzero_int (rate set)) (JNum (rate set)));
    ("fqrate"%string, given (nonzero_int (fqrate set)) (JNum (fqrate set)));
    ("pacing_timer"%string, given (nonzero_int (pacing_timer set)) (JNum (pacing_timer set)));
    ("burst"%string, given (nonzero_int (burst set)) (JNum (burst set)));
    ("TOS"%string, given (nonzero_int (tos set)) (JNum (tos set)));
    ("flowlabel"%string, given (nonzero_int (flowlabel set)) (JNum (flowlabel set)));
    ("title"%string, option_map JStr (title test));
    ("extra_data"%string, option_map JStr (extra_data test));
    ("congestion"%string, option_map JStr (congestion test));
    ("congestion_used"%string, option_map JStr (congestion_used test));
    ("get_server_output"%string, given (nonzero_int (get_server_output test)) (JNum (get_server_output test)));
    ("udp_counters_64bit"%string, given (nonzero_int (udp_counters_64bit test)) (JNum (udp_counters_64bit test)));
    ("repeating_payload"%string, given (nonzero_int (repeating_payload test)) (JNum (repeating_payload test)));
    ("client_version"%string, Some (JStr (bytes_of "3.7"))) ].

Lemma parameters_entries test : parameters test = Ok (obj (members item_of (entries test))).
Proof.
  unfold parameters. cbn [cJSON_CreateObject deref obind].
  change (set_type cJSON_Object cJSON_New_Item) with (obj []).
  set (m0 := member item_of ("tcp"%string, given (protocol test =? Ptcp) JTrue)
     ++ member item_of ("udp"%string, given (protocol test =? Pudp) JTrue)
     ++ member item_of ("sctp"%string, given (protocol test =? Psctp) JTrue)).
  assert (E0 : (if protocol test =? Ptcp then cJSON_AddTrueToObject (obj []) "tcp"
     else if protocol test =? Pudp then cJSON_AddTrueToObject (obj []) "udp"
     else if protocol test =? Psctp then cJSON_AddTrueToObject (obj []) "sctp" else Ok (obj []))
     = Ok (obj m0)).
  { unfold m0. destruct (Z.eqb_spec (protocol test) Ptcp) as [->|]; [done|].
    destruct (Z.eqb_spec (protocol test) Pudp) as [->|]; [done|]. by destruct (_ =? _). }
  rewrite E0. cbn [obind].
  repeat first [rewrite add_number | rewrite when_number | rewrite when_true | rewrite when_string
    | rewrite add_string | progress cbn [obind]].
  do 2 f_equal. unfold m0, entries, members. cbn [flat_map]. rewrite <- !app_assoc, app_nil_r. done.
Qed.

(** ** The steps of get_parameters on a message of the client *)

(** Records are determined by their fields. *)
Ltac eta_test :=
  let x := fresh in intros x; destruct x; repeat match goal with s : iperf_settings |- _ => destruct s end; reflexivity.

Section Server.
Variable has : bool.
Variable c : iperf_test.

(** The message of the client [c], as the server has parsed it. *)
Definition msg : cJSON := obj (members parsed_item (entries c)).

(** A step that assigns a field is one assignment, whether its item was sent
    or not. *)
Lemma on_item_set {E} (get : iperf_test -> E) (upd : E -> iperf_test -> iperf_test) (val : cJSON -> E)
    (name : String.string) (o : option jvalue) t :
  lookup_entry name (entries c) = option_map (parsed_item name) o -> (forall t, upd (get t) t = t) ->
  on_item msg name (fun p t => Ok (upd (val p) t)) t
    = Ok (upd (match o with Some v => val (parsed_item name v) | None => get t end) t).
Proof.
  intros E1 Hid. unfold on_item, msg. rewrite lookup_members, E1. cbn [obind].
  destruct o; [done|]. cbn [option_map]. by rewrite Hid.
Qed.

Lemma on_num (get : iperf_test -> Z) upd conv (name : String.string) (b : bool) z t :
  lookup_entry name (entries c) = option_map (parsed_item name) (given b (JNum z)) ->
  (forall t, upd (get t) t = t) -> - 10 ^ 15 < z < 10 ^ 15 -> conv z = z ->
  on_item msg name (fun p t => Ok (upd (conv (valueint p)) t)) t = Ok (upd (if b then z else get t) t).
Proof.
  intros E1 Hid Hz Hc. rewrite (on_item_set get upd (fun p => conv (valueint p)) name (given b (JNum z)) t E1 Hid).
  destruct b; [|done]. cbn [given parsed_item valueint]. by rewrite saturate_int, Hc by lia.
Qed.

Lemma on_flag (get : iperf_test -> Z) upd (name : String.string) (b : bool) v t :
  lookup_entry name (entries c) = option_map (parsed_item name) (given b v) ->
  (forall t, upd (get t) t = t) ->
  on_item msg name (fun _ t => Ok (upd 1 t)) t = Ok (upd (if b then 1 else get t) t).
Proof.
  intros E1 Hid. rewrite (on_item_set get upd (fun _ => 1) name (given b v) t E1 Hid). by destruct b.
Qed.

Lemma on_string (get : iperf_test -> option bytes) upd (name : String.string) s t :
  lookup_entry name (entries c) = option_map (parsed_item name) (option_map JStr s) ->
  (forall t, upd (get t) t = t) ->
  on_item msg name (fun p t => let! s := strdup_item p in Ok (upd s t)) t
    = Ok (upd (match s with Some s => Some (cstr_of s) | None => get t end) t).
Proof.
  intros E1 Hid. unfold on_item, msg. rewrite lookup_members, E1. cbn [obind].
  destruct s as [s|]; cbn [option_map]; [|by rewrite Hid].
  cbn [parsed_item strdup_item valuestring deref obind]. by rewrite cstr_of_idem.
Qed.

(** All the ranges of the fields that are sent. *)
Record sendable : Prop := {
  s_ints : Forall is_i32 [omit c; duration c; server_affinity c; num_streams c; mss (settings c);
    socket_bufsize (settings c); blksize (settings c); pacing_timer (settings c); burst (settings c);
    tos (settings c); flowlabel (settings c); get_server_output c; udp_counters_64bit c; repeating_payload c];
  s_sizes : Forall (fun z => 0 <= z < 10 ^ 15) [bytes_ (settings c); blocks (settings c);
    rate (settings c); fqrate (settings c)];
  s_strings : Forall opt_bytes [title c; extra_data c; congestion c; congestion_used c] }.

(** Keep the test of a chain of steps in constructor form. *)
Ltac norm_test :=
  lazymatch goal with
  | |- context [on_item msg ?n ?f ?t] =>
      let t' := eval cbn -[nonzero_int Z.eqb negb] in t in change t with t'
  | _ => idtac
  end.

Ltac split_test t :=
  destruct t as [f0 f1 f2 f3 f4 f5 f6 f7 f8 f9 f10 f11 f12 f13 f14 f15 f16 f17 f18 f19 f20 f21
    f22 f23 f24 f25 f26 f27 f28 f29 f30 f31 f32 f33 f34 f35 f36 f37 set];
  destruct set as [s0 s1 s2 s3 s4 s5 s6 s7 s8 s9 s10 s11 s12 s13].

(** Take the next step of the chain. *)
Ltac num_step get upd conv name b z :=
  rewrite (on_num get upd conv name b z _ eq_refl ltac:(eta_test))
    by first [zlia | apply i32_small; zlia | apply u64_small; zlia]; cbn [obind]; norm_test.

Hypothesis Hc : sendable.

Ltac ranges := destruct Hc as [Hi Hs _]; rewrite !Forall_cons in Hi; rewrite !Forall_cons in Hs; cbv beta in Hs.

Definition or_else (b : bool) (z d : Z) : Z := if b then z else d.

Lemma apply_numbers_msg t :
  apply_numbers msg t = Ok (t
    {{ omit := omit c;
       server_affinity := or_else (negb (server_affinity c =? -1)) (server_affinity c) (server_affinity t);
       duration := duration c;
       settings -> bytes_ := or_else (nonzero_int (bytes_ (settings c))) (bytes_ (settings c)) (bytes_ (settings t));
       settings -> blocks := or_else (nonzero_int (blocks (settings c))) (blocks (settings c)) (blocks (settings t));
       settings -> mss := or_else (nonzero_int (mss (settings c))) (mss (settings c)) (mss (settings t));
       no_delay := or_else (nonzero_int (no_delay c)) 1 (no_delay t);
       num_streams := num_streams c }}).
Proof.
  ranges. split_test t. unfold apply_numbers.
  num_step omit (fun v t => t {{ omit := v }}) i32 "omit"%string true (omit c).
  num_step server_affinity (fun v t => t {{ server_affinity := v }}) i32 "server_affinity"%string
    (negb (server_affinity c =? -1)) (server_affinity c).
  num_step duration (fun v t => t {{ duration := v }}) i32 "time"%string true (duration c).
  num_step (fun t => bytes_ (settings t)) (fun v t => t {{ settings -> bytes_ := v }}) u64 "num"%string
    (nonzero_int (bytes_ (settings c))) (bytes_ (settings c)).
  num_step (fun t => blocks (settings t)) (fun v t => t {{ settings -> blocks := v }}) u64 "blockcount"%string
    (nonzero_int (blocks (settings c))) (blocks (settings c)).
  num_step (fun t => mss (settings t)) (fun v t => t {{ settings -> mss := v }}) i32 "MSS"%string
    (nonzero_int (mss (settings c))) (mss (settings c)).
  rewrite (on_flag no_delay (fun v t => t {{ no_delay := v }}) "nodelay" (nonzero_int (no_delay c)) JTrue _
    eq_refl ltac:(eta_test)). cbn [obind]; norm_test.
  num_step num_streams (fun v t => t {{ num_streams := v }}) i32 "parallel"%string true (num_streams c).
  reflexivity.
Qed.

Lemma apply_settings_msg t :
  apply_settings msg t = Ok (t
    {{ settings -> socket_bufsize := or_else (nonzero_int (socket_bufsize (settings c)))
                                       (socket_bufsize (settings c)) (socket_bufsize (settings t));
       settings -> blksize := or_else (nonzero_int (blksize (settings c))) (blksize (settings c)) (blksize (settings t));
       settings -> rate := or_else (nonzero_int (rate (settings c))) (rate (settings c)) (rate (settings t));
       settings -> fqrate := or_else (nonzero_int (fqrate (settings c))) (fqrate (settings c)) (fqrate (settings t));
       settings -> pacing_timer := or_else (nonzero_int (pacing_timer (settings c)))
                                     (pacing_timer (settings c)) (pacing_timer (settings t));
       settings -> burst := or_else (nonzero_int (burst (settings c))) (burst (settings c)) (burst (settings t));
       settings -> tos := or_else (nonzero_int (tos (settings c))) (tos (settings c)) (tos (settings t));
       settings -> flowlabel := or_else (nonzero_int (flowlabel (settings c)))
                                  (flowlabel (settings c)) (flowlabel (settings t)) }}).
Proof.
  ranges. split_test t. unfold apply_settings.
  num_step (fun t => socket_bufsize (settings t)) (fun v t => t {{ settings -> socket_bufsize := v }}) i32
    "window"%string (nonzero_int (socket_bufsize (settings c))) (socket_bufsize (settings c)).
  num_step (fun t => blksize (settings t)) (fun v t => t {{ settings -> blksize := v }}) i32
    "len"%string (nonzero_int (blksize (settings c))) (blksize (settings c)).
  num_step (fun t => rate (settings t)) (fun v t => t {{ settings -> rate := v }}) u64
    "bandwidth"%string (nonzero_int (rate (settings c))) (rate (settings c)).
  num_step (fun t => fqrate (settings t)) (fun v t => t {{ settings -> fqrate := v }}) u64
    "fqrate"%string (nonzero_int (fqrate (settings c))) (fqrate (settings c)).
  num_step (fun t => pacing_timer (settings t)) (fun v t => t {{ settings -> pacing_timer := v }}) i32
    "pacing_timer"%string (nonzero_int (pacing_timer (settings c))) (pacing_timer (settings c)).
  num_step (fun t => burst (settings t)) (fun v t => t {{ settings -> burst := v }}) i32
    "burst"%string (nonzero_int (burst (settings c))) (burst (settings c)).
  num_step (fun t => tos (settings t)) (fun v t => t {{ settings -> tos := v }}) i32
    "TOS"%string (nonzero_int (tos (settings c))) (tos (settings c)).
  num_step (fun t => flowlabel (settings t)) (fun v t => t {{ settings -> flowlabel := v }}) i32
    "flowlabel"%string (nonzero_int (flowlabel (settings c))) (flowlabel (settings c)).
  reflexivity.
Qed.

Definition str_or (s d : option bytes) : option bytes :=
  match s with Some s => Some (cstr_of s) | None => d end.

Lemma apply_strings_msg t :
  apply_strings msg t = Ok (t
    {{ title := str_or (title c) (title t); extra_data := str_or (extra_data c) (extra_data t);
       congestion := str_or (congestion c) (congestion t);
       congestion_used := str_or (congestion_used c) (congestion_used t) }}).
Proof.
  split_test t. unfold apply_strings.
  rewrite (on_string title (fun v t => t {{ title := v }}) "title" (title c) _ eq_refl ltac:(eta_test)).
  cbn [obind]; norm_test.
  rewrite (on_string extra_data (fun v t => t {{ extra_data := v }}) "extra_data" (extra_data c) _ eq_refl
    ltac:(eta_test)). cbn [obind]; norm_test.
  rewrite (on_string congestion (fun v t => t {{ congestion := v }}) "congestion" (congestion c) _ eq_refl
    ltac:(eta_test)). cbn [obind]; norm_test.
  rewrite (on_string congestion_used (fun v t => t {{ congestion_used := v }}) "congestion_used"
    (congestion_used c) _ eq_refl ltac:(eta_test)). reflexivity.
Qed.

Lemma apply_flags_msg t :
  apply_flags msg t = Ok (t
    {{ get_server_output := or_else (nonzero_int (get_server_output c)) 1 (get_server_output t);
       udp_counters_64bit := or_else (nonzero_int (udp_counters_64bit c)) 1 (udp_counters_64bit t);
       repeating_payload := or_else (nonzero_int (repeating_payload c)) 1 (repeating_payload t) }}).
Proof.
  split_test t. unfold apply_flags.
  rewrite (on_flag get_server_output (fun v t => t {{ get_server_output := v }}) "get_server_output"
    (nonzero_int (get_server_output c)) (JNum (get_server_output c)) _ eq_refl ltac:(eta_test)). cbn [obind]; norm_test.
  rewrite (on_flag udp_counters_64bit (fun v t => t {{ udp_counters_64bit := v }}) "udp_counters_64bit"
    (nonzero_int (udp_counters_64bit c)) (JNum (udp_counters_64bit c)) _ eq_refl ltac:(eta_test)). cbn [obind]; norm_test.
  rewrite (on_flag repeating_payload (fun v t => t {{ repeating_payload := v }}) "repeating_payload"
    (nonzero_int (repeating_payload c)) (JNum (repeating_payload c)) _ eq_refl ltac:(eta_test)). reflexivity.
Qed.
Definition flag (z : Z) : Z := if nonzero_int z then 1 else 0.

(** The direction of the other side. *)
Definition peer_mode (m : Z) : Z := if m =? BIDIRECTIONAL then m else if m =? SENDER then RECEIVER else SENDER.

(** What a client and its server agree on. *)
Definition described : iperf_test :=
  (fresh_server has)
    {{ protocol := protocol c; mode := peer_mode (mode c);
       sender_has_retransmits := flag (if (negb (peer_mode (mode c) =? 0) && (protocol c =? Ptcp) && has)%bool then 1 else 0);
       omit := omit c; server_affinity := server_affinity c; duration := duration c;
       no_delay := flag (no_delay c); num_streams := num_streams c;
       reverse_ := flag (reverse_ c); bidirectional := flag (bidirectional c);
       title := option_map cstr_of (title c); extra_data := option_map cstr_of (extra_data c);
       congestion := option_map cstr_of (congestion c);
       congestion_used := option_map cstr_of (congestion_used c);
       get_server_output := flag (get_server_output c);
       udp_counters_64bit := flag (udp_counters_64bit c);
       repeating_payload := flag (repeating_payload c);
       settings := (settings (fresh_server has))
         {{ bytes_ := bytes_ (settings c); blocks := blocks (settings c); mss := mss (settings c);
            socket_bufsize := socket_bufsize (settings c); blksize := blksize (settings c);
            rate := rate (settings c); fqrate := fqrate (settings c); pacing_timer := pacing_timer (settings c);
            burst := burst (settings c); tos := tos (settings c); flowlabel := flowlabel (settings c) }} }}.

(** A client as iperf_parse_arguments and the setters leave it. *)
Record client_config : Prop := {
  cc_protocol : protocol c = Ptcp \/ protocol c = Pudp;
  cc_mode : mode c = if nonzero_int (bidirectional c) then BIDIRECTIONAL
                     else mode_of role_client (nonzero_int (reverse_ c)) 0;
  cc_blksize : blksize (settings c) <> 0;
  cc_pacing : pacing_timer (settings c) <> 0 }.

Hypothesis Hcc : client_config.

Lemma apply_protocol_msg t :
  protocols t = [Ptcp; Pudp] -> mode t = RECEIVER -> sender_has_retransmits t = 0 ->
  apply_protocol has msg t = Ok (t {{ protocol := protocol c }}).
Proof.
  intros Hp Hm Hs. destruct t. cbn in Hp, Hm, Hs. subst.
  unfold apply_protocol, on_item, msg. rewrite !lookup_members.
  destruct (cc_protocol Hcc) as [E|E];
    change (lookup_entry "tcp" (entries c)) with (option_map (parsed_item "tcp") (given (Iperf.protocol c =? Ptcp) JTrue));
    change (lookup_entry "udp" (entries c)) with (option_map (parsed_item "udp") (given (Iperf.protocol c =? Pudp) JTrue));
    change (lookup_entry "sctp" (entries c)) with (option_map (parsed_item "sctp") (given (Iperf.protocol c =? Psctp) JTrue));
    rewrite E; by destruct has.
Qed.

Lemma apply_direction_msg t :
  role t = role_server -> mode t = RECEIVER -> reverse_ t = 0 -> bidirectional t = 0 ->
  apply_direction has msg t = Ok (t
    {{ reverse_ := flag (reverse_ c); bidirectional := flag (bidirectional c); mode := peer_mode (mode c);
       sender_has_retransmits :=
         if nonzero_int (reverse_ c) then if (protocol t =? Ptcp) && has then 1 else 0
         else sender_has_retransmits t }}).
Proof.
  intros Hr Hm Hv Hb. destruct t. cbn in Hr, Hm, Hv, Hb. subst.
  unfold apply_direction, on_item, msg. rewrite !lookup_members.
  change (lookup_entry "reverse" (entries c))
    with (option_map (parsed_item "reverse") (given (nonzero_int (reverse_ c)) JTrue)).
  change (lookup_entry "bidirectional" (entries c))
    with (option_map (parsed_item "bidirectional") (given (nonzero_int (bidirectional c)) JTrue)).
  rewrite (cc_mode Hcc). unfold flag.
  destruct (nonzero_int (reverse_ c)), (nonzero_int (bidirectional c)); try reflexivity; cbn;
    unfold iperf_set_test_bidirectional, iperf_set_test_reverse, check_sender_has_retransmits; cbn;
    destruct ((_ =? 1) && has)%bool; reflexivity.
Qed.

Lemma or_else_self z : or_else (nonzero_int z) z 0 = z.
Proof. unfold or_else, nonzero_int. by destruct (Z.eqb_spec z 0). Qed.

Lemma or_else_default z d : z <> 0 -> or_else (nonzero_int z) z d = z.
Proof. unfold or_else, nonzero_int. by destruct (Z.eqb_spec z 0). Qed.

Lemma str_or_none s : str_or s None = option_map cstr_of s.
Proof. by destruct s. Qed.
End Server.
