(* ===== verification/ParamsThms.v ===== *)
(** * The exchange of parameters, end to end

    What the client sends with send_parameters is what the server applies with
    get_parameters; and what a hostile client can do to the server. *)

From coqutil Require Import Datatypes.RecordSetters.
From Stdlib Require Import SpecFloat.
From Stdlib Require Import String.
From S2P Require Import Prelude.
From S2P Require Import Cdouble.
From S2P Require Import CdoubleFacts.
From S2P Require Import CdoubleText.
From S2P Require Import CjsonData.
From S2P Require Import CjsonPrint.
From S2P Require Import CjsonPrintSpec.
From S2P Require Import CjsonPrintProof.
From S2P Require Import CjsonParse.
From S2P Require Import CjsonRoundtrip.
From S2P Require Import CjsonTree.
From S2P Require Import JsonObject.
From S2P Require Import Stream.
From S2P Require Import Frame.
From S2P Require Import Iperf.
From S2P Require Import Params.
From S2P Require Import ParamsProof.
From stdpp Require Import base numbers gmap list.
Import DoubleBraceUpdate.

Open Scope Z_scope.
Open Scope c_scope.

Lemma or_else_affinity z : or_else (negb (z =? -1)) z (-1) = z.
Proof. unfold or_else. by destruct (Z.eqb_spec z (-1)). Qed.

Lemma fresh_server_eq has :
  fresh_server has = mk_test role_server RECEIVER 0 0 Ptcp [Ptcp; Pudp] 0 0 10 (-1) None None None None None 5201
    (-1) (-1) 0 0 0 0 0 10 0 ∅ ∅ false false (d0, d0, d0) (d0, d0, d0) 1 0 0 0 0 (repeat 0 37) []
    (mk_settings 0 0 131072 0 0 1000 0 0 0 0 0 0 97 (-1)).
Proof. by destruct has. Qed.

(** Bring the test to constructor form between two steps. *)
Ltac norm_step :=
  cbn -[get_parameters or_else str_or flag nonzero_int Z.eqb apply_protocol apply_numbers apply_direction
        apply_settings apply_strings apply_flags andb negb mode_of peer_mode repeat]; unfold constant.

(** A test within a session: the control socket, its cookie, the descriptors
    and the state. *)
Definition with_session (fd : Z) (ck : bytes) (rs ws : gset Z) (st : Z) (t : iperf_test) : iperf_test :=
  t {{ ctrl_sck := fd; cookie := ck; read_set := rs; write_set := ws; state := st }}.

(** A server between two tests, as iperf_reset_test leaves it: [l] is its test
    at the end of the last one. *)
Lemma reset_eq has l : protocols l = [Ptcp; Pudp] ->
  iperf_reset_test has l =
  mk_test role_server RECEIVER 0 0 Ptcp [Ptcp; Pudp] 0 0 10 (-1) None None (congestion l) (congestion_used l) None
    (server_port l) (-1) (-1) 0 0 0 (get_server_output l) 0 10 (repeating_payload l) ∅ ∅ (omitting l) false
    (cpu_util l) (remote_cpu_util l) 1 0 0 0 0 (repeat 0 37) []
    (mk_settings (domain (settings l)) 0 131072 0 (fqrate (settings l)) (pacing_timer (settings l)) 0 0 0
       (flowlabel (settings l)) (bytes_ (settings l)) (blocks (settings l)) (unit_format (settings l))
       (connect_timeout (settings l))).
Proof. intros H. rewrite iperf_reset_test_leaks, fresh_server_eq by done. reflexivity. Qed.

Lemma reset_fresh has : iperf_reset_test has (fresh_server has) = fresh_server has.
Proof. by destruct has. Qed.

(** What the client describes, with what is left over from the last test where
    its message says nothing. *)
Definition described_after (has : bool) (c l : iperf_test) : iperf_test :=
  (described has c)
    {{ congestion := str_or (congestion c) (congestion l); congestion_used := str_or (congestion_used c) (congestion_used l);
       server_port := server_port l; omitting := omitting l; cpu_util := cpu_util l; remote_cpu_util := remote_cpu_util l;
       get_server_output := or_else (nonzero_int (get_server_output c)) 1 (get_server_output l);
       repeating_payload := or_else (nonzero_int (repeating_payload c)) 1 (repeating_payload l);
       settings := (settings (described has c))
         {{ domain := domain (settings l); unit_format := unit_format (settings l);
            connect_timeout := connect_timeout (settings l);
            bytes_ := or_else (nonzero_int (bytes_ (settings c))) (bytes_ (settings c)) (bytes_ (settings l));
            blocks := or_else (nonzero_int (blocks (settings c))) (blocks (settings c)) (blocks (settings l));
            fqrate := or_else (nonzero_int (fqrate (settings c))) (fqrate (settings c)) (fqrate (settings l));
            flowlabel := or_else (nonzero_int (flowlabel (settings c))) (flowlabel (settings c)) (flowlabel (settings l)) }} }}.

(** The steps of get_parameters applied to a server in a session. *)
Lemma apply_parameters_after has c l fd ck rs ws st :
  sendable c -> client_config c -> protocols l = [Ptcp; Pudp] ->
  apply_parameters has (msg c) (with_session fd ck rs ws st (iperf_reset_test has l))
    = Ok (with_session fd ck rs ws st (described_after has c l)).
Proof.
  intros Hc Hcc Hp. unfold apply_parameters.
  unfold described_after, described, with_session. rewrite reset_eq by done. rewrite fresh_server_eq. norm_step.
  rewrite (apply_protocol_msg has c Hcc) by reflexivity. norm_step.
  rewrite (apply_numbers_msg c Hc). norm_step.
  rewrite (apply_direction_msg has c Hcc) by reflexivity. norm_step.
  rewrite (apply_settings_msg c Hc). norm_step.
  rewrite apply_strings_msg. norm_step.
  rewrite apply_flags_msg. norm_step.
  rewrite ?or_else_self, or_else_affinity, ?str_or_none, ?(or_else_default _ _ (cc_blksize c Hcc)),
    ?(or_else_default _ _ (cc_pacing c Hcc)).
  rewrite (cc_mode c Hcc).
  destruct (cc_protocol c Hcc) as [-> | ->], has, (nonzero_int (bidirectional c)),
    (nonzero_int (reverse_ c)); reflexivity.
Qed.

Lemma described_fresh has c : described_after has c (fresh_server has) = described has c.
Proof.
  unfold described_after, described. rewrite fresh_server_eq. norm_step. rewrite ?or_else_self, ?str_or_none. reflexivity.
Qed.

Lemma apply_parameters_session has c fd ck rs ws st :
  sendable c -> client_config c ->
  apply_parameters has (msg c) (with_session fd ck rs ws st (fresh_server has))
    = Ok (with_session fd ck rs ws st (described has c)).
Proof. intros Hc Hcc. rewrite <- (reset_fresh has) at 1. rewrite apply_parameters_after, described_fresh by (done || by destruct has). done. Qed.

Lemma apply_parameters_msg has c :
  sendable c -> client_config c -> apply_parameters has (msg c) (fresh_server has) = Ok (described has c).
Proof.
  intros Hc Hcc. pose proof (apply_parameters_session has c (-1) (repeat 0 37) ∅ ∅ 0 Hc Hcc) as H.
  unfold with_session, described in *. rewrite fresh_server_eq in *. exact H.
Qed.

Lemma entries_ok c : sendable c -> Forall entry_ok (entries c).
Proof.
  intros [Hi Hz Hs]. rewrite !Forall_cons in Hi. rewrite !Forall_cons in Hz. rewrite !Forall_cons in Hs.
  cbv beta in Hz. unfold entries. destruct_and?.
  repeat constructor; cbn [fst snd]; try reflexivity;
    first [by apply string_ok | apply given_ok; first [exact I | by apply int_ok | by apply size_ok]
          | by apply int_ok | exact I | vm_compute; repeat constructor; discriminate].
Qed.

(** C5: The server runs the test the client asked for.  For every client
    configuration (TCP or UDP; numbers in the range of their types, sizes below
    10^15; a block size and a pacing timer, which a configured client has),
    send_parameters succeeds and, however the connection splits the bytes,
    get_parameters of a fresh server succeeds and leaves it with the protocol,
    times, sizes, rates, socket options, flags and strings of the client and
    with the opposite direction. *)
Theorem parameters_exchanged allocate calloc_ok has c w j text :
  (forall n s, allocate n s = true) -> (forall n, calloc_ok n = true) ->
  sendable c -> client_config c ->
  parameters c = Ok j -> json_text false 0 j = Some text -> Z.of_nat (List.length text) < 2 ^ 31 ->
  serves (4 + List.length text) (out_sched w) ->
  exists w' sent, send_parameters allocate c w = Ok (0, None, w') /\ outp w' = outp w ++ sent /\
    forall r rest, inp r = sent ++ rest -> serves (4 + List.length text) (in_sched r) ->
    exists r', get_parameters allocate calloc_ok has (fresh_server has) r = Ok (0, None, described has c, r') /\
      inp r' = rest.
Proof.
  intros Ha Hcal Hc Hcc Ej Et Hlen Hw. rewrite parameters_entries in Ej. injection Ej as <-.
  destruct (members_printable (entries c) (entries_ok c Hc)) as (Hp & Hq & Hd).
  destruct (JSON_write_message allocate calloc_ok Ha w _ text Hp Et Hlen Hw) as (w' & Ew & Eo & _).
  exists w', (message text). split.
  { unfold send_parameters. rewrite parameters_entries. cbn [obind]. by rewrite Ew. }
  split; [done|]. intros r rest Hi Hr.
  destruct (JSON_read_message allocate calloc_ok Ha r _ text rest Hp Hq) as (r' & Er & Ei & _); try done.
  { rewrite Hd. apply Nat.leb_le. reflexivity. }
  exists r'. split; [|done]. unfold get_parameters. rewrite Er, norm_obj. cbn [obind].
  change (obj (members parsed_item (entries c))) with (msg c). by rewrite apply_parameters_msg.
Qed.

(** A client of [iperf3 -c host -u -R -P 2]. *)
Definition sample_client : iperf_test :=
  iperf_set_test_reverse true
    ((iperf_set_test_role true
       (snd (set_protocol true (iperf_defaults true) Pudp)) role_client)
       {{ num_streams := 2; settings -> blksize := DEFAULT_UDP_BLKSIZE; settings -> rate := 1048576;
          title := Some (bytes_of "run") }}) 1.

Definition sample_text : bytes :=
  Eval vm_compute in
    match parameters sample_client with Ok j => from_option id [] (json_text false 0 j) | _ => [] end.

Lemma parameters_exchanged_witness :
  let allocate := fun _ _ => true in
  exists w' sent,
    send_parameters allocate sample_client (mksock [] [] [] (repeat (Chunk 0) 300)) = Ok (0, None, w') /\
    outp w' = [] ++ sent /\
    forall r rest, inp r = sent ++ rest -> serves (4 + List.length sample_text) (in_sched r) ->
    exists r', get_parameters allocate (fun _ => true) true (fresh_server true) r
                 = Ok (0, None, described true sample_client, r') /\ inp r' = rest.
Proof.
  cbn zeta. apply (parameters_exchanged (fun _ _ => true) (fun _ => true) true sample_client
    (mksock [] [] [] (repeat (Chunk 0) 300)) (obj (members item_of (entries sample_client))) sample_text); try done.
  - constructor; repeat constructor; vm_compute; try discriminate; repeat constructor; discriminate.
  - constructor; [by right|reflexivity|discriminate|discriminate].
  - split; [apply Nat.leb_le; reflexivity|]. cbn. repeat constructor.
Defined.

(** A step that cannot fail. *)
Lemma on_item_total j name f t : exists t', on_item j name (fun p t => Ok (f p t)) t = Ok t'.
Proof.
  unfold on_item. rewrite cJSON_GetObjectItem_find. cbn [obind].
  destruct (find_item _ _); by eexists.
Qed.

(** Run the next step that cannot fail. *)
Ltac total_step :=
  lazymatch goal with
  | |- context [on_item ?j ?n (fun p t => Ok (@?f p t)) ?x] =>
      let E := fresh "E" in destruct (on_item_total j n f x) as [? E]; cbv beta in E; rewrite E; clear E; cbn [obind]
  end.

(** A client can crash the server with a well-formed message: when the
    item "title" of the parameters is not a string, get_parameters duplicates
    a NULL pointer, whatever the rest of the message and the test. *)
Theorem get_parameters_title_not_string allocate calloc_ok has t s j s' item :
  JSON_read allocate calloc_ok s = Ok (Some j, s') ->
  cJSON_GetObjectItem (Some j) (Some (bytes_of "title")) = Ok (Some item) -> valuestring item = None ->
  get_parameters allocate calloc_ok has t s = UB.
Proof.
  intros Er El Ev. unfold get_parameters. rewrite Er. cbn [obind].
  unfold apply_parameters, apply_protocol, apply_numbers, apply_direction, apply_settings, apply_strings.
  repeat total_step.
  unfold on_item. rewrite El. cbn [obind strdup_item]. unfold strdup_item. by rewrite Ev.
Qed.

Definition bad_title : bytes := Eval vm_compute in htonl_bytes 11 ++ bytes_of "{`title`:1}".

Lemma get_parameters_title_witness :
  get_parameters (fun _ _ => true) (fun _ => true) true (fresh_server true)
    (mksock (map (fun b => if b =? 96 then 34 else b) bad_title) (repeat (Chunk 3) 9) [] []) = UB.
Proof.
  eapply get_parameters_title_not_string; [vm_compute; reflexivity | vm_compute; reflexivity | reflexivity].
Defined.
