(* ===== verification/ArgsThms.v ===== *)
(** * What the command line can ask for

    Limits every accepted command line obeys, the direction it stands for, and
    that a client configured by it is one the exchange of parameters carries to
    the server. *)

From coqutil Require Import Datatypes.RecordSetters.
From Stdlib Require Import SpecFloat.
From Stdlib Require Import String.
From S2P Require Import Prelude.
From S2P Require Import Cdouble.
From S2P Require Import Cscan.
From S2P Require Import CjsonPrintSpec.
From S2P Require Import Units.
From S2P Require Import Dscp.
From S2P Require Import Iperf.
From S2P Require Import Args.
From S2P Require Import ParamsProof.
From stdpp Require Import base numbers gmap list.
Import DoubleBraceUpdate.

Open Scope Z_scope.
Open Scope c_scope.

Lemma atoi_range s : is_i32 (atoi s).
Proof. apply i32_range. Qed.

Lemma u64_of_double_range d n : u64_of_double d = Ok n -> is_u64 n.
Proof.
  unfold u64_of_double. destruct d; try done; [intros [= <-]; zlia|].
  generalize (Z_of_double (S754_finite s m e)). intros z.
  destruct (Z.leb_spec 0 z), (Z.ltb_spec z (2 ^ 64)); try done. intros [= <-]. zlia.
Qed.

Lemma unit_atoi_range s n : unit_atoi s = Ok n -> is_u64 n.
Proof. unfold unit_atoi. destruct (sscanf_lf_c s) as [[x c]|]; [|done]. apply u64_of_double_range. Qed.

Lemma int_of_double_range d n : int_of_double d = Ok n -> is_i32 n.
Proof.
  unfold int_of_double, int_of. destruct d; try done; [intros [= <-]; zlia|].
  generalize (Z_of_double (S754_finite s m e)). intros z. destruct (_ && _) eqn:E; [|done]. intros [= <-]. zlia.
Qed.

(** ** Limits *)

Record limits (t : iperf_test) : Prop := {
  li_port : 1 <= server_port t <= 65535;
  li_streams : - 2 ^ 31 <= num_streams t <= MAX_STREAMS;
  li_duration : - 2 ^ 31 <= duration t <= MAX_TIME;
  li_omit : 0 <= omit t <= 60;
  li_mss : - 2 ^ 31 <= mss (settings t) <= MAX_MSS;
  li_tos : 0 <= tos (settings t) <= 255;
  li_burst : 0 <= burst (settings t) <= MAX_BURST;
  li_bufsize : is_i32 (socket_bufsize (settings t));
  li_pacing : is_i32 (pacing_timer (settings t));
  li_sizes : is_u64 (bytes_ (settings t)) /\ is_u64 (blocks (settings t)) /\ is_u64 (rate (settings t));
  li_protocol : protocol t = Ptcp \/ protocol t = Pudp;
  li_protocols : protocols t = [Ptcp; Pudp];
  li_flags : Forall (fun z => z = 0 \/ z = 1) [get_server_output t; udp_counters_64bit t; repeating_payload t];
  li_unset : server_affinity t = -1 /\ flowlabel (settings t) = 0 /\ fqrate (settings t) = 0 /\
             congestion t = None /\ congestion_used t = None /\ is_i32 (blksize (settings t)) }.

Record args_ok (a : args) : Prop := {
  ao_limits : limits (a_test a);
  ao_blksize : is_i32 (l_blksize a) }.

Lemma parsed_inj a b : Ok (Parsed a) = Ok (Parsed b) -> a = b.
Proof. congruence. Qed.

Section Thms.
Variable has : bool.

Definition preserves (P : args -> Prop) (h : handler) : Prop :=
  forall a s a', P a -> h a s = Ok (Parsed a') -> P a'.

(** Take the run of an option apart. *)
Ltac opt_inv H :=
  repeat (match type of H with
  | obind ?m _ = Ok _ => let E := fresh "E" in destruct m eqn:E; cbn [obind] in H; [|discriminate H|discriminate H]
  | (let '(_, _) := ?p in _) = Ok _ => let E := fresh "E" in destruct p eqn:E
  | (if ?b then _ else _) = Ok _ => let E := fresh "E" in destruct b eqn:E
  end; cbv beta zeta in H); try discriminate H.

Lemma check_has_limits t : limits t -> limits (check_sender_has_retransmits has t).
Proof. unfold check_sender_has_retransmits. intros []. destruct (_ && _ && _); by constructor. Qed.

Lemma role_limits t r : limits t -> limits (iperf_set_test_role has t r).
Proof. intros []. unfold iperf_set_test_role. apply check_has_limits. by constructor. Qed.

Lemma reverse_limits t r : limits t -> limits (iperf_set_test_reverse has t r).
Proof. intros []. unfold iperf_set_test_reverse. apply check_has_limits. by constructor. Qed.

Lemma bidir_limits t : limits t -> limits (iperf_set_test_bidirectional has t 1).
Proof. intros []. by constructor. Qed.

Lemma udp_limits t : limits t -> limits (snd (set_protocol has t Pudp)).
Proof.
  intros []. unfold set_protocol. rewrite li_protocols0. cbn [existsb Z.eqb Pos.eqb orb snd].
  apply check_has_limits. constructor; try assumption. by right.
Qed.

(** The test after an option, with or without the flags. *)
Lemma next_ok a a' : args_ok a -> l_blksize a' = l_blksize a -> limits (a_test a') -> args_ok a'.
Proof. intros [_ H] E Ht. constructor; [done|]. by rewrite E. Qed.

(** Options of every kind keep the limits. *)
Ltac in_limits :=
  match goal with
  | H : args_ok ?a |- limits _ =>
      let L := fresh in pose proof (ao_limits a H) as L; destruct L;
      constructor; first [assumption | cbn; unfold constant; first [assumption | lia | zlia | by auto] | idtac]
  end.

Ltac handler_ok :=
  let a := fresh "a" in let s := fresh "s" in let a' := fresh "a'" in let H := fresh "H" in let E := fresh "E" in
  intros a s a' H E; cbv beta delta [next client fail_with] in E; opt_inv E; apply parsed_inj in E as <-;
  apply (next_ok a); [exact H|reflexivity|].

Lemma opt_rate_ok : preserves args_ok opt_rate.
Proof.
  unfold opt_rate. handler_ok.
  match goal with E : u64_of_double _ = Ok _ |- _ => apply u64_of_double_range in E end.
  match goal with E : _ && _ = false |- _ => rename E into Hb end.
  destruct o as [b0|]; in_limits; cbn; unfold constant; tauto.
Qed.

(** What the readers of numbers yield. *)
Ltac ranges :=
  repeat match goal with
  | E : unit_atoi _ = Ok _ |- _ => apply unit_atoi_range in E
  | E : int_of_double _ = Ok _ |- _ => apply int_of_double_range in E
  end;
  try match goal with s : bytes |- _ => pose proof (atoi_range s); pose proof (parse_qos_range s) end.

Ltac flags_ok := cbn; unfold constant; rewrite ?Forall_cons in *; intuition (auto; lia).

Lemma opt_window_ok : preserves args_ok opt_window.
Proof. unfold opt_window. handler_ok. ranges. in_limits. Qed.

Lemma length_ok : preserves args_ok opt_length.
Proof.
  unfold opt_length. intros a s a' Ha E. cbv beta delta [client] in E. opt_inv E. apply parsed_inj in E as <-.
  destruct Ha. constructor; [done|]. apply i32_range.
Qed.

Lemma numstreams_ok : preserves args_ok opt_numstreams.
Proof.
  intros a s a' Ha E. unfold opt_numstreams in E. opt_inv E. eapply opt_rate_ok; [|exact E].
  destruct Ha. by constructor.
Qed.

Lemma never_ok (r : outcome parsed) : (forall a, r <> Ok (Parsed a)) -> preserves args_ok (fun _ _ => r).
Proof. intros H a s a' _ E. by destruct (H a'). Qed.

Lemma switch_ok : Forall (fun h => preserves args_ok (snd h)) (switch has).
Proof.
  unfold switch, switch_basic, switch_socket, switch_rest; cbn [app]. repeat (apply Forall_cons; split); [..|by constructor]; cbn [snd];
  first
  [ apply never_ok; intros ?; discriminate
  | apply opt_rate_ok | apply opt_window_ok | apply length_ok | apply numstreams_ok
  | unfold opt_server, opt_client, opt_udp, opt_reverse, opt_bidir; handler_ok;
    first [apply role_limits | apply udp_limits | apply reverse_limits | apply bidir_limits]; by apply ao_limits
  | unfold opt_port, opt_format, opt_interval, opt_time, opt_bytes_, opt_blocks, opt_parallel, opt_cport, opt_mss,
      opt_tos, opt_dscp, opt_omit, opt_pacing_timer, opt_connect_timeout; handler_ok; ranges;
    in_limits; first [flags_ok | apply i32_range] ].
Qed.

(** ** The direction *)

(** A client's mode is that of its flags. *)
Record direction_ok (t : iperf_test) : Prop := {
  do_role : role t = 0 \/ role t = role_client;
  do_reverse : reverse_ t = 0 \/ reverse_ t = 1;
  do_bidir : bidirectional t = 0 \/ bidirectional t = 1;
  do_mode : mode t = if nonzero_int (bidirectional t) then BIDIRECTIONAL
                     else mode_of (role t) (nonzero_int (reverse_ t)) 0 }.

Definition mode_ok (a : args) : Prop := role (a_test a) = role_server \/ direction_ok (a_test a).

(** An option other than --bidir leaves its flag alone, and every option keeps
    the direction, except a -c after --bidir. *)
Definition mode_step (h : Z * handler) : Prop :=
  forall a s a', snd h a s = Ok (Parsed a') ->
  (fst h <> OPT_BIDIRECTIONAL -> bidirectional (a_test a') = bidirectional (a_test a)) /\
  (mode_ok a -> (fst h = 99 -> bidirectional (a_test a) = 0) -> mode_ok a').

(** An option that touches none of this. *)
Definition untouched (t t' : iperf_test) : Prop :=
  role t' = role t /\ reverse_ t' = reverse_ t /\ bidirectional t' = bidirectional t /\ mode t' = mode t.

Lemma untouched_step f h : (forall a s a', h a s = Ok (Parsed a') -> untouched (a_test a) (a_test a')) -> mode_step (f, h).
Proof.
  intros H a s a' E. destruct (H a s a' E) as (E1 & E2 & E3 & E4). split; [done|]. intros [Hr|[]] _.
  - left. congruence.
  - right. constructor; rewrite ?E1, ?E2, ?E3, ?E4; done.
Qed.

Lemma check_untouched t : untouched t (check_sender_has_retransmits has t).
Proof. unfold check_sender_has_retransmits. by destruct (_ && _ && _). Qed.

Lemma opt_rate_untouched a s a' : opt_rate a s = Ok (Parsed a') -> untouched (a_test a) (a_test a').
Proof. unfold opt_rate. intros E. cbv beta delta [client fail_with] in E. opt_inv E. apply parsed_inj in E as <-. done. Qed.

Lemma opt_udp_untouched a s a' : opt_udp has a s = Ok (Parsed a') -> untouched (a_test a) (a_test a').
Proof.
  unfold opt_udp, client. intros E. apply parsed_inj in E as <-.
  change (untouched (a_test a) (snd (set_protocol has (a_test a) Pudp))). unfold set_protocol.
  destruct (existsb _ _); [|done].
  destruct (check_untouched ((a_test a) {{ protocol := Pudp }})) as (E1 & E2 & E3 & E4). by repeat split.
Qed.

Lemma opt_numstreams_untouched a s a' : opt_numstreams a s = Ok (Parsed a') -> untouched (a_test a) (a_test a').
Proof. unfold opt_numstreams. intros E. opt_inv E. by apply opt_rate_untouched in E. Qed.

(** Roles. *)
Lemma role_mode t r : untouched (t {{ role := r; mode := mode_of r (nonzero_int (reverse_ t)) (mode t) }})
  (iperf_set_test_role has t r).
Proof. unfold iperf_set_test_role. apply check_untouched. Qed.

Lemma reverse_mode t : untouched (t {{ reverse_ := 1; mode := mode_of (role t) true (mode t) }})
  (iperf_set_test_reverse has t 1).
Proof. unfold iperf_set_test_reverse. apply check_untouched. Qed.

Lemma server_step : mode_step (115, opt_server has).
Proof.
  intros a s a' E. cbn [fst snd] in *. unfold opt_server, next, fail_with in E. opt_inv E. apply parsed_inj in E as <-.
  destruct (role_mode (a_test a) role_server) as (E1 & E2 & E3 & E4). split; [done|]. intros _ _. by left.
Qed.

Lemma client_step : mode_step (99, opt_client has).
Proof.
  intros a s a' E. cbn [fst snd] in *. unfold opt_client, next, fail_with in E. opt_inv E. apply parsed_inj in E as <-.
  destruct (role_mode (a_test a) role_client) as (E1 & E2 & E3 & E4). split; [done|]. intros Hm Hb.
  specialize (Hb eq_refl). destruct Hm as [Hm|[]]; [by rewrite Hm in E0|]. right.
  change (direction_ok (iperf_set_test_role has (a_test a) role_client)).
  constructor; [by right|by rewrite E2|by rewrite E3|]. rewrite E1, E2, E3, E4.
  change (bidirectional (_ {{ role := _; mode := _ }})) with (bidirectional (a_test a)).
  change (mode (_ {{ role := _; mode := _ }})) with (mode_of role_client (nonzero_int (reverse_ (a_test a))) (mode (a_test a))).
  rewrite Hb. unfold mode_of. by destruct (nonzero_int _).
Qed.
Lemma reverse_step : mode_step (82, opt_reverse has).
Proof.
  intros a s a' E. cbn [fst snd] in *. unfold opt_reverse, client, fail_with in E. opt_inv E. apply parsed_inj in E as <-.
  destruct (reverse_mode (a_test a)) as (E1 & E2 & E3 & E4). split; [done|]. intros Hm _.
  destruct Hm as [Hm|[]]; [left; change (role (iperf_set_test_reverse has (a_test a) 1) = role_server); by rewrite E1|].
  right. change (direction_ok (iperf_set_test_reverse has (a_test a) 1)).
  apply negb_false_iff, Z.eqb_eq in E0.
  constructor; [by rewrite E1|rewrite E2; by right|by rewrite E3|]. rewrite E1, E2, E3, E4.
  change (mode_of (role (a_test a)) true (mode (a_test a)) =
    if nonzero_int (bidirectional (a_test a)) then BIDIRECTIONAL else mode_of (role (a_test a)) true 0).
  rewrite do_mode0, E0. unfold mode_of. destruct do_role0 as [-> | ->], (nonzero_int (reverse_ (a_test a))); reflexivity.
Qed.

Lemma bidir_step : mode_step (OPT_BIDIRECTIONAL, opt_bidir has).
Proof.
  intros a s a' E. cbn [fst snd] in *. unfold opt_bidir, client, fail_with in E. opt_inv E. apply parsed_inj in E as <-.
  split; [done|]. intros Hm _. destruct Hm as [Hm|[]]; [by left|]. right.
  constructor; [done|done|by right|done].
Qed.

Lemma switch_steps : Forall mode_step (switch has).
Proof.
  unfold switch, switch_basic, switch_socket, switch_rest; cbn [app]. repeat (apply Forall_cons; split); [..|by constructor];
  first
  [ apply server_step | apply client_step | apply reverse_step | apply bidir_step
  | apply untouched_step; first [exact opt_udp_untouched | exact opt_rate_untouched | exact opt_numstreams_untouched]
  | apply untouched_step;
    unfold opt_port, opt_format, opt_interval, opt_time, opt_bytes_, opt_blocks, opt_length, opt_parallel, opt_window,
      opt_cport, opt_mss, opt_tos, opt_dscp, opt_omit, opt_pacing_timer, opt_connect_timeout, next, client, fail_with;
    let a := fresh "a" in let E := fresh "E" in
    intros a s a' E; opt_inv E; apply parsed_inj in E as <-; done ].
Qed.

(** ** The loop *)

(** No -c after --bidir. *)
Fixpoint role_first (seen : bool) (evs : list event) : bool :=
  match evs with
  | [] => true
  | ev :: evs => negb (seen && (fst ev =? 99)) && role_first (seen || (fst ev =? OPT_BIDIRECTIONAL)) evs
  end.

Lemma parse_option_ok a ev a' : parse_option has a ev = Ok (Parsed a') -> args_ok a -> args_ok a'.
Proof.
  unfold parse_option. destruct (find _ _) as [[f h]|] eqn:Ef; [|done]. intros E Ha.
  apply find_some in Ef as [Ef _]. pose proof switch_ok as H. rewrite List.Forall_forall in H. exact (H _ Ef a _ a' Ha E).
Qed.

Lemma parse_option_mode a ev a' : parse_option has a ev = Ok (Parsed a') ->
  (fst ev <> OPT_BIDIRECTIONAL -> bidirectional (a_test a') = bidirectional (a_test a)) /\
  (mode_ok a -> (fst ev = 99 -> bidirectional (a_test a) = 0) -> mode_ok a').
Proof.
  unfold parse_option. destruct (find _ _) as [[f h]|] eqn:Ef; [|done]. intros E.
  apply find_some in Ef as [Ef Hf]. apply Z.eqb_eq in Hf. cbn [fst] in Hf. rewrite <- Hf.
  pose proof switch_steps as H. rewrite List.Forall_forall in H. exact (H _ Ef a _ a' E).
Qed.

Lemma parse_options_ok evs : forall a a', parse_options has evs a = Ok (Parsed a') -> args_ok a -> args_ok a'.
Proof.
  induction evs as [|ev evs IH]; intros a a' E Ha; cbn [parse_options] in E; [by apply parsed_inj in E as <-|].
  destruct (parse_option has a ev) as [[a1|e|st]| |] eqn:E1; try discriminate E. cbn [obind] in E.
  eapply IH; [exact E|]. by eapply parse_option_ok.
Qed.

Lemma parse_options_mode evs : forall seen a a',
  parse_options has evs a = Ok (Parsed a') -> role_first seen evs = true ->
  (bidirectional (a_test a) <> 0 -> seen = true) -> mode_ok a -> mode_ok a'.
Proof.
  induction evs as [|ev evs IH]; intros seen a a' E Hr Hs Ha; cbn [parse_options] in E; [by apply parsed_inj in E as <-|].
  destruct (parse_option has a ev) as [[a1|e|st]| |] eqn:E1; try discriminate E. cbn [obind] in E.
  cbn [role_first] in Hr. apply andb_true_iff in Hr as [Hr1 Hr2].
  destruct (parse_option_mode a ev a1 E1) as [Hb Hm].
  eapply IH; [exact E|exact Hr2| |apply Hm; [done|]].
  - intros Hn. destruct (Z.eqb_spec (fst ev) OPT_BIDIRECTIONAL); [by rewrite orb_true_r|].
    rewrite Hb in Hn by done. by rewrite Hs.
  - intros Hc. rewrite Hc in Hr1. destruct (Z.eq_dec (bidirectional (a_test a)) 0); [done|].
    rewrite Hs in Hr1 by done. done.
Qed.

Lemma default_ok : args_ok (default_args has) /\ mode_ok (default_args has).
Proof.
  split; [constructor; [|vm_compute; split; congruence]|right]; destruct has; constructor; vm_compute; repeat constructor; try discriminate; auto.
Qed.
(** ** The checks *)

(** A test that ends by one condition only. *)
Definition one_end (t : iperf_test) : Prop :=
  (bytes_ (settings t) = 0 \/ blocks (settings t) = 0) /\
  (bytes_ (settings t) <> 0 \/ blocks (settings t) <> 0 -> duration t = 0).

(** The block size fits the protocol: for UDP zero stands for the size that
    the connection suggests. *)
Definition block_ok (t : iperf_test) : Prop :=
  (protocol t = Pudp -> blksize (settings t) <= 0 \/ MIN_UDP_BLOCKSIZE <= blksize (settings t) <= MAX_UDP_BLOCKSIZE) /\
  (protocol t <> Pudp -> 0 < blksize (settings t)) /\ blksize (settings t) <= MAX_BLOCKSIZE.

Record accepted_ok (a : args) : Prop := {
  ac_limits : limits (a_test a);
  ac_role : role (a_test a) = role_client \/ role (a_test a) = role_server;
  ac_client : role (a_test a) = role_server -> client_flag a = false;
  ac_server : role (a_test a) = role_client -> server_flag a = false;
  ac_end : one_end (a_test a);
  ac_block : block_ok (a_test a) }.

Lemma limits_rate t x : limits t -> is_u64 x -> limits (t {{ settings -> rate := x }}).
Proof. intros [] Hx. constructor; try assumption. destruct li_sizes0 as (H1 & H2 & _). repeat split; [apply H1|apply H1|apply H2|apply H2|apply Hx|apply Hx]. Qed.

Lemma limits_blksize t x : limits t -> is_i32 x -> limits (t {{ settings -> blksize := x }}).
Proof. intros [] Hx. constructor; try assumption. destruct li_unset0 as (H1 & H2 & H3 & H4 & H5 & _). by repeat (split; [assumption|]). Qed.

Lemma limits_duration t : limits t -> limits (t {{ duration := 0 }}).
Proof. intros []. constructor; try assumption. by cbn. Qed.

(** The three settings the checks fill in. *)
Lemma filled_ok a blk : limits (a_test a) -> is_i32 blk ->
  let t := (a_test a) {{ settings -> blksize := blk }} in
  let t := if rate_flag a then t else t {{ settings -> rate := if protocol t =? Pudp then UDP_RATE else 0 }} in
  limits t /\ untouched (a_test a) t /\ protocol t = protocol (a_test a) /\ blksize (settings t) = blk.
Proof.
  intros Hl Hb t1 t2. assert (H1 : limits t1) by (by apply limits_blksize).
  unfold t2. destruct (rate_flag a); [done|]. split; [|done]. apply limits_rate; [done|].
  destruct (_ =? _); vm_compute; split; congruence.
Qed.

Lemma check_options_ok a a' : check_options a = Parsed a' -> args_ok a ->
  accepted_ok a' /\ untouched (a_test a) (a_test a').
Proof.
  unfold check_options. intros E [Hl Hb].
  destruct ((role (a_test a) =? role_client) && server_flag a) eqn:E1; [discriminate E|].
  destruct ((role (a_test a) =? role_server) && client_flag a) eqn:E2; [discriminate E|].
  set (blk := if l_blksize a =? 0 then _ else _) in E.
  assert (Hblk : is_i32 blk) by (unfold blk; destruct (l_blksize a =? 0), (protocol (a_test a) =? Pudp); try done; vm_compute; split; congruence).
  clearbody blk. destruct (_ || _) eqn:E3 in E; [discriminate E|]. destruct (_ && _) eqn:E4 in E; [discriminate E|].
  pose proof (filled_ok a blk Hl Hblk) as H2. cbv zeta in H2, E. revert H2 E.
  generalize (if rate_flag a then (a_test a) {{ settings -> blksize := blk }} else
    ((a_test a) {{ settings -> blksize := blk }}) {{ settings -> rate :=
      if protocol ((a_test a) {{ settings -> blksize := blk }}) =? Pudp then UDP_RATE else 0 }}).
  intros t (Lt & Ut & Pt & Bt) E.
  set (by1 := negb (bytes_ (settings t) =? 0)) in E. set (bl1 := negb (blocks (settings t) =? 0)) in E.
  set (t' := if (by1 || bl1) && negb (duration_flag a) then t {{ duration := 0 }} else t) in E.
  assert (H3 : limits t' /\ untouched (a_test a) t' /\ protocol t' = protocol t /\ settings t' = settings t /\
    (by1 || bl1 = true -> duration_flag a = false -> duration t' = 0)).
  { unfold t'. destruct (by1 || bl1), (duration_flag a); cbn [andb negb]; try done.
    split; [by apply limits_duration|]. by repeat split; try apply Ut. }
  clearbody t'. destruct H3 as (L' & U' & P' & S' & D').
  destruct (_ || _) eqn:E5 in E; [discriminate E|]. destruct (negb _ && negb _) eqn:E6 in E; [discriminate E|].
  injection E as <-. destruct U' as (R' & U'). split; [|by split].
  assert (Hr : role t' = role_client \/ role t' = role_server) by lia.
  constructor; change (a_test (set_test a t')) with t'; try done.
  - change (role t' = role_server -> client_flag a = false). rewrite R'. intros Hs. rewrite Hs in E2. done.
  - change (role t' = role_client -> server_flag a = false). rewrite R'. intros Hs. rewrite Hs in E1. done.
  - unfold by1, bl1 in *. clear -S' D' E5. unfold one_end. rewrite S'.
    destruct (Z.eqb_spec (bytes_ (settings t)) 0), (Z.eqb_spec (blocks (settings t)) 0), (duration_flag a);
      cbn in E5, D'; try discriminate E5; tauto.
  - unfold block_ok. rewrite P', S', Pt, Bt. lia.
Qed.

Lemma parse_arguments_inv argv a : iperf_parse_arguments has (default_args has) argv = Ok (Parsed a) ->
  exists a0, parse_options has (getopt_long (tl argv)) (default_args has) = Ok (Parsed a0) /\
    accepted_ok a /\ untouched (a_test a0) (a_test a).
Proof.
  unfold iperf_parse_arguments. intros E.
  destruct (parse_options _ _ _) as [[a0|e|st]| |] eqn:E1; try discriminate E. cbn [obind] in E.
  exists a0. split; [done|]. apply check_options_ok; [congruence|].
  eapply parse_options_ok; [exact E1|apply default_ok].
Qed.

(** C29: An accepted command line is within the limits.  When
    iperf_parse_arguments returns 0 the test has a role; the port, the number
    of streams, the duration, the omit time, the MSS, the type of service and
    the burst are at most their maxima; the block size fits the protocol; there
    is one end condition (with -n or -k the duration is 0, and not both); a
    server was given no option of a client and a client none of a server. *)
Theorem parse_arguments_limits argv a :
  iperf_parse_arguments has (default_args has) argv = Ok (Parsed a) -> accepted_ok a.
Proof. by intros (a0 & _ & H & _)%parse_arguments_inv. Qed.

Lemma parse_arguments_direction argv a :
  iperf_parse_arguments has (default_args has) argv = Ok (Parsed a) -> role (a_test a) = role_client ->
  role_first false (getopt_long (tl argv)) = true -> direction_ok (a_test a).
Proof.
  intros (a0 & E & _ & U1 & U2 & U3 & U4)%parse_arguments_inv Hr Hf.
  assert (H : mode_ok a0).
  { eapply parse_options_mode; [exact E|exact Hf| |apply default_ok]. destruct has; done. }
  destruct H as [H|[]]; [congruence|]. constructor; rewrite ?U1, ?U2, ?U3, ?U4; done.
Qed.

(** ** Strings *)

Definition strings_ok (t : iperf_test) : Prop := opt_bytes (title t) /\ opt_bytes (extra_data t).

Definition strings_step (h : handler) : Prop :=
  forall a s a', is_bytes s -> strings_ok (a_test a) -> h a s = Ok (Parsed a') -> strings_ok (a_test a').

Lemma opt_rate_strings : strings_step opt_rate.
Proof.
  intros a s a' Hb Hs E. unfold opt_rate, client, fail_with in E. opt_inv E. apply parsed_inj in E as <-. exact Hs.
Qed.

Lemma opt_numstreams_strings : strings_step opt_numstreams.
Proof.
  intros a s a' Hb Hs E. unfold opt_numstreams in E. opt_inv E. eapply opt_rate_strings; [exact Hb| |exact E]. exact Hs.
Qed.

Lemma switch_strings : Forall (fun h => strings_step (snd h)) (switch has).
Proof.
  unfold switch, switch_basic, switch_socket, switch_rest; cbn [app]. repeat (apply Forall_cons; split); [..|by constructor]; cbn [snd];
  first
  [ exact opt_rate_strings | exact opt_numstreams_strings
  | unfold opt_port, opt_format, opt_interval, opt_time, opt_bytes_, opt_blocks, opt_length, opt_parallel, opt_window,
      opt_cport, opt_mss, opt_tos, opt_dscp, opt_omit, opt_pacing_timer, opt_connect_timeout, opt_server, opt_client,
      opt_udp, opt_reverse, opt_bidir, next, client, fail_with;
    let a := fresh "a" in let s := fresh "s" in let a' := fresh "a'" in
    let Hb := fresh "Hb" in let Hs := fresh "Hs" in let E := fresh "E" in
    intros a s a' Hb Hs E; opt_inv E; apply parsed_inj in E as <-;
    first [ exact Hs | destruct Hs; split; cbn; assumption
          | unfold iperf_set_test_role, iperf_set_test_reverse, set_protocol, check_sender_has_retransmits;
            repeat case_match; exact Hs ] ].
Qed.

Lemma split_at_bytes c l : is_bytes l -> forall r, snd (split_at c l) = Some r -> is_bytes r.
Proof.
  induction 1 as [|x l Hx Hl IH]; intros r; cbn [split_at]; [done|].
  destruct (x =? c); [intros [= <-]; exact Hl|]. destruct (split_at c l) as [u v]. apply IH.
Qed.

Definition events_ok (evs : list event) : Prop := Forall (fun ev => is_bytes (snd ev)) evs.

Lemma cluster_bytes l nxt : is_bytes l -> from_option is_bytes True nxt -> events_ok (fst (cluster l nxt)).
Proof.
  intros Hl Hn. induction Hl as [|c l Hc Hl IH]; cbn [cluster]; [constructor|].
  destruct (short_option c shortopts) as [[]|].
  - destruct l; [destruct nxt|]; repeat constructor; try done; by inversion Hl.
  - destruct (cluster l nxt). constructor; [constructor|exact IH].
  - destruct (cluster l nxt). constructor; [constructor|exact IH].
Qed.

Lemma long_bytes l nxt : is_bytes l -> from_option is_bytes True nxt -> events_ok (fst (long l nxt)).
Proof.
  intros Hl Hn. unfold long. pose proof (split_at_bytes 61 l Hl) as Hs. destruct (split_at 61 l) as [nm [v|]]; cbn [snd] in Hs.
  - specialize (Hs v eq_refl). destruct (long_option nm) as [[[] ?]|]; repeat constructor; exact Hs.
  - destruct (long_option nm) as [[[] ?]|]; destruct nxt; repeat constructor; exact Hn.
Qed.

(** The next argument and the arguments after it. *)
Lemma hd_bytes r : Forall is_bytes r -> from_option is_bytes True (hd_error r).
Proof. by destruct 1. Qed.

Lemma getopt_bytes argv : Forall is_bytes argv -> events_ok (getopt_long argv).
Proof.
  induction argv as [argv IH] using (induction_ltof1 _ (@List.length bytes)). unfold ltof in IH.
  destruct argv as [|a r]; intros Hf; [constructor|]. inversion Hf as [|? ? Ha Hr]; subst. cbn [getopt_long].
  pose proof (hd_bytes r Hr) as Hh. pose proof (IH r ltac:(cbn; lia) Hr) as Hn.
  assert (Ht : events_ok (match r with [] => [] | _ :: r => getopt_long r end)).
  { destruct r as [|x r]; [constructor|]. apply IH; [cbn; lia|by inversion Hr]. }
  assert (H : forall p : list event * bool, events_ok (fst p) ->
    events_ok (match p with (ev, false) => ev ++ getopt_long r
               | (ev, true) => ev ++ match r with [] => [] | _ :: r => getopt_long r end end))
    by (intros [ev []] He; by apply Forall_app).
  destruct a as [|x [|y l]]; [exact Hn|exact Hn|]. destruct (x =? 45); [|exact Hn].
  assert (Hl : is_bytes (y :: l)) by (by inversion Ha).
  destruct (y =? 45); [|by apply H, cluster_bytes].
  destruct l as [|z l]; [constructor|]. apply H, long_bytes; [by inversion Hl|done].
Qed.

Lemma parse_options_strings evs : forall a a', events_ok evs ->
  parse_options has evs a = Ok (Parsed a') -> strings_ok (a_test a) -> strings_ok (a_test a').
Proof.
  induction evs as [|ev evs IH]; intros a a' Hev E Ha; cbn [parse_options] in E; [by apply parsed_inj in E as <-|].
  inversion Hev as [|? ? H1 H2]; subst.
  destruct (parse_option has a ev) as [[a1|er|st]| |] eqn:E1; try discriminate E. cbn [obind] in E.
  eapply IH; [done|exact E|]. unfold parse_option in E1. destruct (find _ _) as [[f h]|] eqn:Ef; [|done].
  apply find_some in Ef as [Ef _]. pose proof switch_strings as H. rewrite List.Forall_forall in H.
  exact (H _ Ef a _ a1 H1 Ha E1).
Qed.

Lemma check_options_strings a a' : check_options a = Parsed a' -> strings_ok (a_test a) -> strings_ok (a_test a').
Proof.
  unfold check_options. intros E Ha. repeat (case_match; try discriminate E); injection E as <-; exact Ha.
Qed.


End Thms.

(** [iperf3 -c h -P 4 -t 20 --bidir] *)
Definition sample_argv : list bytes :=
  map bytes_of ["iperf3"; "-c"; "h"; "-P"; "4"; "-t"; "20"; "--bidir"]%string.

Lemma sample_parse : exists a, iperf_parse_arguments true (default_args true) sample_argv = Ok (Parsed a) /\
  num_streams (a_test a) = 4 /\ duration (a_test a) = 20 /\ mode (a_test a) = BIDIRECTIONAL.
Proof. eexists. split; [vm_compute; reflexivity|]. done. Qed.

Lemma parse_arguments_limits_witness :
  exists a, iperf_parse_arguments true (default_args true) sample_argv = Ok (Parsed a) /\ accepted_ok a.
Proof.
  eexists. split; [vm_compute; reflexivity|]. apply (parse_arguments_limits true sample_argv). vm_compute. reflexivity.
Defined.


(** The order of options matters for --bidir: after [-c h --bidir] the
    client is bidirectional, after [--bidir -c h] it only sends although its
    flag (which the server is told) says bidirectional, so that the server waits
    for streams the client never makes. *)
Theorem bidir_before_client has :
  let parse o := iperf_parse_arguments has (default_args has) (map bytes_of o) in
  (exists a, parse ["iperf3"; "-c"; "h"; "--bidir"]%string = Ok (Parsed a) /\
     mode (a_test a) = BIDIRECTIONAL /\ bidirectional (a_test a) = 1) /\
  (exists a, parse ["iperf3"; "--bidir"; "-c"; "h"]%string = Ok (Parsed a) /\
     mode (a_test a) = SENDER /\ bidirectional (a_test a) = 1).
Proof. destruct has; split; eexists; (split; [vm_compute; reflexivity|]); done. Qed.

(** Numbers of streams and durations have an upper limit only. *)
Theorem negative_numbers_accepted has :
  exists a, iperf_parse_arguments has (default_args has) (map bytes_of ["iperf3"; "-c"; "h"; "-P"; "-3"; "-t"; "-7"]%string)
      = Ok (Parsed a) /\ num_streams (a_test a) = -3 /\ duration (a_test a) = -7.
Proof. destruct has; eexists; (split; [vm_compute; reflexivity|]); done. Qed.
