(* ===== verification/Jni.v ===== *)
(** * The JNI wrapper (test_run.c) and the life of a test (iperf_api.c:
    iperf_new_test, iperf_defaults, iperf_free_test and the setters)

    Java holds the address of a test and calls one function per setting.  The
    state is the heap, as the set of live blocks, the tests in it and i_errno;
    using a test that is not there or freeing a block that is not live is
    undefined.  Running a test (runClientImpl, endTestImpl) is the subject of
    Control.v and Protocol.v; the Java strings are there. *)

From coqutil Require Import Datatypes.RecordSetters.
From Stdlib Require Import SpecFloat.
From S2P Require Import Prelude.
From S2P Require Import Cdouble.
From S2P Require Import Units.
From S2P Require Import Iperf.
From stdpp Require Import base numbers gmap list.
Import DoubleBraceUpdate.

Open Scope Z_scope.
Open Scope c_scope.

Abbreviation IENONE := 0.
Abbreviation IENEWTEST := 100.

(** A test with the fields the wrapper sets beside those of Iperf.v, and the
    heap blocks it points to: of a string its address and text; of each
    stream the intervals, the result and the stream; and of the other strings
    those that iperf_defaults leaves alone (bind_address, server_output_text,
    json_output_string) and those it sets to null (extra_data, the congestion
    names, the lines of the server). *)
Record jtest := mk_jtest
  { conf : iperf_test;
    stats_interval : double;
    reporter_interval : double;
    verbose : Z;
    json_output : Z;
    settings_block : Z;
    protocol_blocks : list Z;
    server_hostname : option (Z * bytes);
    tmp_template : option (Z * bytes);
    title_ : option (Z * bytes);
    logfile : option (Z * bytes);
    stream_blocks : list (list Z);
    kept_blocks : list Z;
    lost_blocks : list Z }.

Record jni := mk_jni
  { live : gset Z;
    next_block : Z;
    tests : gmap Z jtest;
    i_errno : Z }.

(** A struct iperf_test of zeros; the protocol 0 stands for the null
    pointer. *)
Definition zero_test : iperf_test :=
  mk_test 0 0 0 0 0 [] 0 0 0 0 None None None None None 0 0 0 0 0 0 0 0 0 0 ∅ ∅ false false
    (d0, d0, d0) (d0, d0, d0) 0 0 0 0 0 (repeat 0 37) [] (mk_settings 0 0 0 0 0 0 0 0 0 0 0 0 0 0).

Section Jni.
(** Whether the allocation of a block succeeds, by its address. *)
Variable malloc_ok : Z -> bool.
Variable has_tcpinfo_retransmits : bool.

(** ** The heap *)

Definition malloc (s : jni) : option Z * jni :=
  let a := next_block s in
  if malloc_ok a then (Some a, s {{ live := {[a]} ∪ live s; next_block := a + 1 }})
  else (None, s {{ next_block := a + 1 }}).

Definition free (a : Z) (s : jni) : outcome jni :=
  if bool_decide (a ∈ live s) then Ok (s {{ live := live s ∖ {[a]} }}) else UB.

Fixpoint free_all (l : list Z) (s : jni) : outcome jni :=
  match l with
  | [] => Ok s
  | a :: l => let! s := free a s in free_all l s
  end.

Definition strdup (t : bytes) (s : jni) : option (Z * bytes) * jni :=
  let '(a, s) := malloc s in (option_map (fun a => (a, cstr_of t)) a, s).

(** The block of a string that may be null. *)
Definition block_of (p : option (Z * bytes)) : list Z := match p with Some (a, _) => [a] | None => [] end.

(** ** The life of a test *)

(** The address of the test, 0 if there is no memory. *)
Definition iperf_new_test (s : jni) : outcome (Z * jni) :=
  let '(p, s) := malloc s in
  match p with
  | None => Ok (0, s {{ i_errno := IENEWTEST }})
  | Some a =>
      let '(q, s) := malloc s in
      match q with
      | None => let! s := free a s in Ok (0, s {{ i_errno := IENEWTEST }})
      | Some b =>
          let t := mk_jtest zero_test d0 d0 0 0 b [] None None None None [] [] [] in
          Ok (a, s {{ tests := <[a := t]> (tests s) }})
      end
  end.

(** The assignments of iperf_defaults before the protocols. *)
Definition default_fields (t : iperf_test) : iperf_test :=
  let t := t {{ omit := OMIT; duration := DURATION; server_affinity := -1; title := None; extra_data := None;
                congestion := None; congestion_used := None; remote_congestion_used := None; server_port := PORT;
                ctrl_sck := -1; prot_listener := -1; other_side_has_retransmits := 0; num_streams := 1;
                cookie := repeat 0 37; multisend := 10; streams := []; protocols := [] }} in
  t {{ settings := (settings t) {{ domain := 0; unit_format := 97; socket_bufsize := 0; blksize := DEFAULT_TCP_BLKSIZE;
         rate := 0; fqrate := 0; pacing_timer := 1000; burst := 0; mss := 0; bytes_ := 0; blocks := 0;
         connect_timeout := -1 }} }}.

(** The old pointers are lost: to the strings, the streams and the protocols.
    When the second protocol cannot be allocated, the first is freed but stays
    in the list. *)
Definition iperf_defaults (t : jtest) (s : jni) : outcome (jtest * jni) :=
  let t := t {{ conf := default_fields (conf t); stats_interval := d_of_Z 1; reporter_interval := d_of_Z 1;
                title_ := None; stream_blocks := []; lost_blocks := []; protocol_blocks := [] }} in
  let '(tcp, s) := malloc s in
  match tcp with
  | None => Ok (t, s)
  | Some tcp =>
      let '(udp, s) := malloc s in
      match udp with
      | None =>
          let! s := free tcp s in
          Ok (t {{ protocol_blocks := [tcp]; conf := (conf t) {{ protocols := [Ptcp] }} }}, s)
      | Some udp =>
          let c := (conf t) {{ protocols := [Ptcp; Pudp] }} in
          Ok (t {{ protocol_blocks := [tcp; udp]; conf := snd (set_protocol has_tcpinfo_retransmits c Ptcp) }}, s)
      end
  end.

(** The blocks of a test, which are freed before the test itself; the name of
    the log file is not among them.  The timers are cancelled (Timer.v). *)
Definition freed_blocks (t : jtest) : list Z :=
  concat (stream_blocks t) ++ block_of (server_hostname t) ++ block_of (tmp_template t) ++ [settings_block t]
  ++ block_of (title_ t) ++ kept_blocks t ++ lost_blocks t ++ protocol_blocks t.

Definition iperf_free_test (ref : Z) (s : jni) : outcome jni :=
  let! t := deref (tests s !! ref) in
  let! s := free_all (freed_blocks t) s in
  let! s := free ref s in
  Ok (s {{ tests := delete ref (tests s); i_errno := IENONE }}).

(** ** The setters the wrapper uses *)

Definition iperf_set_verbose (v : Z) (t : jtest) : jtest := t {{ verbose := v }}.
Definition iperf_set_test_duration (d : Z) (t : jtest) : jtest := t {{ conf := (conf t) {{ duration := d }} }}.
Definition iperf_set_test_reporter_interval (x : double) (t : jtest) : jtest := t {{ reporter_interval := x }}.
Definition iperf_set_test_stats_interval (x : double) (t : jtest) : jtest := t {{ stats_interval := x }}.
Definition iperf_set_test_interval (interval_ms : Z) (t : jtest) : jtest :=
  let x := ddiv (d_of_Z interval_ms) (d_of_Z 1000) in
  iperf_set_test_stats_interval x (iperf_set_test_reporter_interval x t).
Definition iperf_set_test_num_streams (n : Z) (t : jtest) : jtest := t {{ conf := (conf t) {{ num_streams := n }} }}.
Definition iperf_set_test_server_port (p : Z) (t : jtest) : jtest := t {{ conf := (conf t) {{ server_port := p }} }}.
Definition iperf_set_test_json_output (b : Z) (t : jtest) : jtest := t {{ json_output := b }}.
Definition iperf_set_test_rate (r : Z) (t : jtest) : jtest := t {{ conf := (conf t) {{ settings -> rate := r }} }}.
Definition iperf_set_test_udp_bandwidth (bandwidth : bytes) (t : jtest) : outcome jtest :=
  let! r := unit_atof_rate bandwidth in
  let! r := u64_of_double r in
  Ok (iperf_set_test_rate r t).

(** check_sender_has_retransmits dereferences the protocol of a test that
    sends. *)
Definition checked_protocol (c : iperf_test) : outcome iperf_test :=
  if negb (mode c =? RECEIVER) && (protocol c =? 0) then UB else Ok c.

Definition set_role (r : Z) (t : jtest) : outcome jtest :=
  let! c := checked_protocol (iperf_set_test_role has_tcpinfo_retransmits (conf t) r) in Ok (t {{ conf := c }}).
Definition set_reverse (r : Z) (t : jtest) : outcome jtest :=
  let! c := checked_protocol (iperf_set_test_reverse has_tcpinfo_retransmits (conf t) r) in Ok (t {{ conf := c }}).
Definition set_protocol_letter (p : Z) (t : jtest) : outcome jtest :=
  Ok (t {{ conf := iperf_set_test_protocol has_tcpinfo_retransmits (conf t) p }}).

(** ** The functions of the wrapper *)

Definition with_test (ref : Z) (f : jtest -> outcome jtest) (s : jni) : outcome jni :=
  let! t := deref (tests s !! ref) in
  let! t := f t in
  Ok (s {{ tests := <[ref := t]> (tests s) }}).

(** A string of the test, duplicated; the old one is not freed. *)
Definition with_string (ref : Z) (text : bytes) (f : option (Z * bytes) -> jtest -> jtest) (s : jni) : outcome jni :=
  let! t := deref (tests s !! ref) in
  let '(p, s) := strdup text s in
  Ok (s {{ tests := <[ref := f p t]> (tests s) }}).

Definition newTestImpl (s : jni) : outcome (Z * jni) := iperf_new_test s.
Definition freeTestImpl (ref : Z) : jni -> outcome jni := iperf_free_test ref.
Definition testRoleImpl (ref r : Z) : jni -> outcome jni := with_test ref (set_role (u8 r)).
Definition defaultsImpl (ref : Z) (s : jni) : outcome jni :=
  let! t := deref (tests s !! ref) in
  let! r := iperf_defaults t s in
  let '(t, s) := r in
  Ok (s {{ tests := <[ref := t]> (tests s) }}).
Definition hostnameImpl (ref : Z) (h : bytes) : jni -> outcome jni :=
  with_string ref h (fun p t => t {{ server_hostname := p }}).
Definition protocolImpl (ref p : Z) : jni -> outcome jni := with_test ref (set_protocol_letter (u8 p)).
Definition tempFileTemplateImpl (ref : Z) (x : bytes) : jni -> outcome jni :=
  with_string ref x (fun p t => t {{ tmp_template := p }}).
Definition durationImpl (ref d : Z) : jni -> outcome jni := with_test ref (fun t => Ok (iperf_set_test_duration d t)).
Definition intervalImpl (ref ms : Z) : jni -> outcome jni := with_test ref (fun t => Ok (iperf_set_test_interval ms t)).
Definition numStreamImpl (ref n : Z) : jni -> outcome jni := with_test ref (fun t => Ok (iperf_set_test_num_streams n t)).
Definition serverPortImpl (ref p : Z) : jni -> outcome jni := with_test ref (fun t => Ok (iperf_set_test_server_port p t)).
Definition reverseImpl (ref r : Z) : jni -> outcome jni := with_test ref (set_reverse r).
Definition verboseImpl (ref v : Z) : jni -> outcome jni := with_test ref (fun t => Ok (iperf_set_verbose v t)).
Definition outputJsonImpl (ref : Z) (b : bool) : jni -> outcome jni :=
  with_test ref (fun t => Ok (iperf_set_test_json_output (if b then 1 else 0) t)).
Definition bandwidthImpl (ref : Z) (x : bytes) : jni -> outcome jni := with_test ref (iperf_set_test_udp_bandwidth x).
Definition logFileImpl (ref : Z) (x : bytes) : jni -> outcome jni :=
  with_string ref x (fun p t => t {{ logfile := p }}).
Definition titleImpl (ref : Z) (x : bytes) : jni -> outcome jni :=
  with_string ref x (fun p t => t {{ title_ := p; conf := (conf t) {{ title := option_map snd p }} }}).

End Jni.
