(* ===== verification/JniThms.v ===== *)
(** * Properties of the JNI wrapper

    Memory along any sequence of calls, and the test the application sets up
    compared with that of the command line. *)

From coqutil Require Import Datatypes.RecordSetters.
From Stdlib Require Import SpecFloat.
From Stdlib Require Import String.
From S2P Require Import Prelude.
From S2P Require Import Cdouble.
From S2P Require Import Cscan.
From S2P Require Import Units.
From S2P Require Import Iperf.
From S2P Require Import Args.
From S2P Require Import Jni.
From stdpp Require Import base numbers gmap list.
Import DoubleBraceUpdate.

Open Scope Z_scope.
Open Scope c_scope.

(** ** Ownership *)

(** All blocks a test points to. *)
Definition owned (ref : Z) (t : jtest) : list Z := ref :: freed_blocks t ++ block_of (Jni.logfile t).

(** The blocks of a test that freeing it must release, field by field. *)
Definition test_blocks (t : jtest) : list Z :=
  settings_block t :: protocol_blocks t ++ block_of (Jni.server_hostname t) ++ block_of (tmp_template t)
  ++ block_of (title_ t) ++ concat (stream_blocks t) ++ kept_blocks t ++ lost_blocks t.

Lemma freed_all t : list_to_set (freed_blocks t) =@{gset Z} list_to_set (test_blocks t).
Proof.
  unfold freed_blocks, test_blocks. rewrite list_to_set_cons, !list_to_set_app_L, list_to_set_cons, list_to_set_nil. set_solver.
Qed.

(** Blocks are live, each has one owner, and new ones are new. *)
Record heap_ok (s : jni) : Prop := {
  ho_next : forall a, a ∈ live s -> 0 < a < next_block s;
  ho_start : 0 < next_block s;
  ho_owned : forall ref t, tests s !! ref = Some t -> NoDup (owned ref t) /\ forall a, a ∈ owned ref t -> a ∈ live s;
  ho_disjoint : forall r1 t1 r2 t2 a, tests s !! r1 = Some t1 -> tests s !! r2 = Some t2 ->
    a ∈ owned r1 t1 -> a ∈ owned r2 t2 -> r1 = r2 }.

Definition start_jni : jni := mk_jni ∅ 16 ∅ 0.

Lemma start_ok : heap_ok start_jni.
Proof. constructor; cbn; [set_solver|lia|by intros ? ? ?|by intros ? ? ? ? ? ?]. Qed.

(** A test that keeps its blocks, loses some or gets new ones. *)
Lemma heap_update s s' ref t' :
  heap_ok s -> next_block s <= next_block s' -> tests s' = <[ref := t']> (tests s) ->
  (forall a, a ∈ live s' <-> a ∈ live s \/ (a ∈ live s' /\ next_block s <= a < next_block s')) ->
  NoDup (owned ref t') ->
  (forall a, a ∈ owned ref t' -> (exists t, tests s !! ref = Some t /\ a ∈ owned ref t) \/
     (a ∈ live s' /\ next_block s <= a < next_block s')) ->
  heap_ok s'.
Proof.
  intros [H1 H2 H3 H4] Hn Ht Hl Hnd Ho. constructor.
  - intros a Ha. apply Hl in Ha as [Ha|[_ ?]]; [apply H1 in Ha; lia|lia].
  - lia.
  - intros r t. rewrite Ht. intros [[-> <-]|[Hne Hr]]%lookup_insert_Some.
    + split; [done|]. intros a [(t0 & E & Ha)|[Ha _]]%Ho; [|done]. apply Hl. left. by apply (H3 _ _ E).
    + destruct (H3 _ _ Hr) as [N L]. split; [done|]. intros a Ha. apply Hl. left. by apply L.
  - assert (Hx : forall r t a, r <> ref -> tests s !! r = Some t -> a ∈ owned r t -> a ∈ owned ref t' -> False).
    { intros r t a Hne Hr Ha [(t0 & E & Ha')|[_ Hb]]%Ho.
      - apply Hne. by eapply H4.
      - destruct (H3 _ _ Hr) as [_ L]. apply L, H1 in Ha. lia. }
    intros r1 t1 r2 t2 a. rewrite Ht.
    intros [[-> <-]|[Hne1 E1]]%lookup_insert_Some [[-> <-]|[Hne2 E2]]%lookup_insert_Some Ha1 Ha2; [done| | |by eapply H4].
    + exfalso. eapply (Hx r2); [congruence|exact E2|exact Ha2|exact Ha1].
    + exfalso. eapply (Hx r1); [congruence|exact E1|exact Ha1|exact Ha2].
Qed.

(** A setter that leaves the pointers alone. *)
Lemma heap_same s ref t t' :
  heap_ok s -> tests s !! ref = Some t -> owned ref t' = owned ref t ->
  heap_ok (s {{ tests := <[ref := t']> (tests s) }}).
Proof.
  intros H Ht E. apply (heap_update s _ ref t' H); [done|done| | |].
  - intros a. split; [intros Ha; left; exact Ha|intros [Ha|[Ha _]]; exact Ha].
  - rewrite E. by apply (ho_owned _ H ref).
  - intros a Ha. left. exists t. by rewrite <- E.
Qed.

Section Memory.
Variable malloc_ok : Z -> bool.
Variable has : bool.

Lemma malloc_cases s p s' : malloc malloc_ok s = (p, s') ->
  next_block s' = next_block s + 1 /\ tests s' = tests s /\ i_errno s' = i_errno s /\
  match p with
  | Some a => a = next_block s /\ live s' = {[a]} ∪ live s
  | None => live s' = live s
  end.
Proof. unfold malloc. destruct (malloc_ok _); by intros [= <- <-]. Qed.

(** Freeing distinct live blocks. *)
Lemma free_all_ok l : forall s, NoDup l -> (forall a, a ∈ l -> a ∈ live s) ->
  free_all l s = Ok (s {{ live := live s ∖ list_to_set l }}).
Proof.
  induction l as [|a l IH]; intros s Hn Hl; cbn [free_all].
  - f_equal. destruct s. cbn. unfold constant. f_equal. set_solver.
  - inversion Hn as [|? ? Ha Hn']; subst. unfold free. rewrite bool_decide_eq_true_2 by (apply Hl; by left). cbn [obind].
    rewrite IH; [|done|].
    + f_equal. destruct s. cbn. unfold constant. f_equal. set_solver.
    + intros b Hb. change (b ∈ live s ∖ {[a]}). apply elem_of_difference. split; [apply Hl; by right|].
      intros ->%elem_of_singleton. done.
Qed.

(** ** Calls *)

Inductive jcall : Type :=
| FreeTest | Defaults
| TestRole (r : Z) | Reverse (r : Z) | Protocol (p : Z) | Bandwidth (x : bytes)
| Hostname (x : bytes) | TempFileTemplate (x : bytes) | LogFile (x : bytes) | Title (x : bytes)
| Duration (d : Z) | Interval (ms : Z) | NumStream (n : Z) | ServerPort (p : Z) | Verbose (v : Z) | OutputJson (b : bool).

Definition jni_call (ref : Z) (c : jcall) : jni -> outcome jni :=
  match c with
  | FreeTest => freeTestImpl ref
  | Defaults => defaultsImpl malloc_ok has ref
  | TestRole r => testRoleImpl has ref r
  | Reverse r => reverseImpl has ref r
  | Protocol p => protocolImpl has ref p
  | Bandwidth x => bandwidthImpl ref x
  | Hostname x => hostnameImpl malloc_ok ref x
  | TempFileTemplate x => tempFileTemplateImpl malloc_ok ref x
  | LogFile x => logFileImpl malloc_ok ref x
  | Title x => titleImpl malloc_ok ref x
  | Duration d => durationImpl ref d
  | Interval ms => intervalImpl ref ms
  | NumStream n => numStreamImpl ref n
  | ServerPort p => serverPortImpl ref p
  | Verbose v => verboseImpl ref v
  | OutputJson b => outputJsonImpl ref b
  end.

(** Calls that make sense: the role and the direction after the defaults, a
    bandwidth that is a number in range, and memory for the protocols. *)
Definition sensible (s : jni) (t : jtest) (c : jcall) : Prop :=
  match c with
  | TestRole _ | Reverse _ => protocol (conf t) <> 0
  | Bandwidth x => exists t', iperf_set_test_udp_bandwidth x t = Ok t'
  | Defaults => malloc_ok (next_block s) = true /\ malloc_ok (next_block s + 1) = true
  | _ => True
  end.

Lemma with_test_ok s ref t t' f :
  heap_ok s -> tests s !! ref = Some t -> f t = Ok t' -> owned ref t' = owned ref t ->
  exists s', with_test ref f s = Ok s' /\ heap_ok s'.
Proof.
  intros H Ht Hf Ho. unfold with_test. rewrite Ht. cbn [deref obind]. rewrite Hf. cbn [obind].
  eexists. split; [done|]. by eapply heap_same.
Qed.

Lemma checked_keeps c : protocol c <> 0 -> checked_protocol c = Ok c.
Proof. intros H. unfold checked_protocol. destruct (Z.eqb_spec (protocol c) 0); [done|]. by rewrite andb_false_r. Qed.

Lemma NoDup_block p : NoDup (block_of p).
Proof. destruct p as [[a x]|]; [apply NoDup_singleton|constructor]. Qed.

Lemma NoDup_replace (A B B' C : list Z) :
  NoDup (A ++ B ++ C) -> NoDup B' -> (forall a, a ∈ B' -> a ∉ A ++ B ++ C) -> NoDup (A ++ B' ++ C).
Proof.
  rewrite !NoDup_app. intros (HA & HAB & HB & HBC & HC) HB' Hd. split; [done|]. split; [|split; [done|split; [|done]]].
  - intros x Hx [?|?]%elem_of_app; [eapply Hd; [done|]; apply elem_of_app; by left|].
    eapply HAB; [exact Hx|]. apply elem_of_app. by right.
  - intros x Hx Hc. eapply Hd; [exact Hx|]. rewrite !elem_of_app. auto.
Qed.

(** One string replaced by a new one (or by none). *)
Lemma with_string_ok s ref t x f A B C :
  heap_ok s -> tests s !! ref = Some t ->
  owned ref t = A ++ B ++ C -> (forall p, owned ref (f p t) = A ++ block_of p ++ C) ->
  exists s', with_string malloc_ok ref x f s = Ok s' /\ heap_ok s'.
Proof.
  intros H Ht E0 Ef. unfold with_string, strdup. rewrite Ht. cbn [deref obind].
  destruct (malloc malloc_ok s) as [p s1] eqn:Em. destruct (malloc_cases s p s1 Em) as (E1 & E2 & _ & E3).
  set (q := option_map (fun a => (a, cstr_of x)) p). eexists. split; [done|].
  assert (Hq : forall a, a ∈ block_of q -> p = Some a).
  { intros a. unfold q. destruct p as [b|]; cbn; [|by intros ?%elem_of_nil]. by intros ->%list_elem_of_singleton. }
  assert (Hl : forall a, a ∈ live s1 <-> a ∈ live s \/ p = Some a).
  { intros a. destruct p as [b|].
    - destruct E3 as [-> ->]. rewrite elem_of_union, elem_of_singleton. split; [intros [->|?]; auto|intros [?|[= ->]]; auto].
    - rewrite E3. split; [auto|by intros [?|?]]. }
  assert (Hp : forall a, p = Some a -> a = next_block s) by (intros a ->; by destruct E3).
  set (s2 := s1 {{ tests := <[ref := f q t]> (tests s1) }}).
  assert (En : next_block s2 = next_block s + 1) by exact E1.
  assert (El : live s2 = live s1) by done. assert (Et : tests s2 = <[ref := f q t]> (tests s)) by (rewrite <- E2; done).
  clearbody s2. apply (heap_update s s2 ref (f q t) H); [lia|done| | |]; rewrite ?En, ?El.
  - intros a. rewrite Hl. split; [|by intros [?|[? _]]; [left|]].
    intros [Ha|Ha]; [by left|right]. split; [by right|]. apply Hp in Ha. lia.
  - rewrite Ef. apply (NoDup_replace A B); [rewrite <- E0; by apply (ho_owned _ H ref)|apply NoDup_block|].
    intros a Ha%Hq%Hp Hb. rewrite <- E0 in Hb. apply (proj2 (ho_owned _ H _ _ Ht)), (ho_next _ H) in Hb. lia.
  - intros a. rewrite Ef, !elem_of_app. intros [Ha|[Ha|Ha]].
    + left. exists t. rewrite E0. set_solver.
    + right. apply Hq in Ha. split; [apply Hl; by right|]. apply Hp in Ha. lia.
    + left. exists t. rewrite E0. set_solver.
Qed.

(** [strings A B C]: the blocks of the test around a string. *)
Ltac strings H Ht A B C :=
  apply (with_string_ok _ _ _ _ _ A B C H Ht);
  [|intros p]; clear; match goal with t : jtest |- _ => destruct t end; unfold owned, freed_blocks; cbn; unfold constant;
  rewrite <- ?app_assoc; cbn [app]; rewrite <- ?app_assoc; reflexivity.

Lemma hostname_ok s ref t x : heap_ok s -> tests s !! ref = Some t ->
  exists s', hostnameImpl malloc_ok ref x s = Ok s' /\ heap_ok s'.
Proof.
  intros H Ht. strings H Ht (ref :: concat (stream_blocks t)) (block_of (Jni.server_hostname t))
    (block_of (tmp_template t) ++ [settings_block t] ++ block_of (title_ t) ++ kept_blocks t ++ lost_blocks t
     ++ protocol_blocks t ++ block_of (Jni.logfile t)).
Qed.

Lemma template_ok s ref t x : heap_ok s -> tests s !! ref = Some t ->
  exists s', tempFileTemplateImpl malloc_ok ref x s = Ok s' /\ heap_ok s'.
Proof.
  intros H Ht. strings H Ht (ref :: concat (stream_blocks t) ++ block_of (Jni.server_hostname t)) (block_of (tmp_template t))
    ([settings_block t] ++ block_of (title_ t) ++ kept_blocks t ++ lost_blocks t
     ++ protocol_blocks t ++ block_of (Jni.logfile t)).
Qed.

Lemma title_ok s ref t x : heap_ok s -> tests s !! ref = Some t ->
  exists s', titleImpl malloc_ok ref x s = Ok s' /\ heap_ok s'.
Proof.
  intros H Ht. strings H Ht
    (ref :: concat (stream_blocks t) ++ block_of (Jni.server_hostname t) ++ block_of (tmp_template t) ++ [settings_block t])
    (block_of (title_ t)) (kept_blocks t ++ lost_blocks t ++ protocol_blocks t ++ block_of (Jni.logfile t)).
Qed.

Lemma logfile_ok s ref t x : heap_ok s -> tests s !! ref = Some t ->
  exists s', logFileImpl malloc_ok ref x s = Ok s' /\ heap_ok s'.
Proof.
  intros H Ht. apply (with_string_ok _ _ _ _ _ (ref :: freed_blocks t) (block_of (Jni.logfile t)) [] H Ht).
  - unfold owned. by rewrite app_nil_r.
  - intros p. rewrite app_nil_r. reflexivity.
Qed.

(** iperf_defaults, with memory for the protocols. *)
Lemma defaults_ok s ref t : heap_ok s -> tests s !! ref = Some t ->
  malloc_ok (next_block s) = true -> malloc_ok (next_block s + 1) = true ->
  exists s', defaultsImpl malloc_ok has ref s = Ok s' /\ heap_ok s'.
Proof.
  intros H Ht M1 M2. unfold defaultsImpl, iperf_defaults. rewrite Ht. cbn [deref obind].
  unfold malloc at 1. rewrite M1. set (a := next_block s) in *.
  set (s1 := s {{ live := {[a]} ∪ live s; next_block := a + 1 }}).
  unfold malloc. change (next_block s1) with (a + 1). rewrite M2. cbn [obind].
  set (t' := _ {{ protocol_blocks := [a; a + 1]; conf := _ }}). eexists. split; [done|].
  assert (Eo : owned ref t' = (ref :: block_of (Jni.server_hostname t) ++ block_of (tmp_template t) ++ [settings_block t]
                ++ kept_blocks t) ++ [a; a + 1] ++ block_of (Jni.logfile t)).
  { clear. unfold owned, freed_blocks, t'. destruct t. cbn. unfold constant. cbn. rewrite <- ?app_assoc. cbn [app]. rewrite <- ?app_assoc. reflexivity. }
  assert (Hsub : sublist ((ref :: block_of (Jni.server_hostname t) ++ block_of (tmp_template t) ++ [settings_block t]
                ++ kept_blocks t) ++ block_of (Jni.logfile t)) (owned ref t)).
  { unfold owned, freed_blocks. cbn [app]. apply sublist_skip. rewrite <- !app_assoc. apply sublist_inserts_l.
    do 2 (apply sublist_app; [done|]). cbn [app]. rewrite <- ?app_assoc. apply sublist_skip, sublist_inserts_l.
    apply sublist_app; [done|]. by do 2 apply sublist_inserts_l. }
  pose proof (fun b Hb => elem_of_sublist _ _ b Hb Hsub) as Hold.
  assert (Hlt : forall b, b ∈ owned ref t -> b < a) by (intros b Hb; apply (proj2 (ho_owned _ H _ _ Ht)), (ho_next _ H) in Hb; lia).
  match goal with |- heap_ok ?x => set (s2 := x) end.
  assert (En : next_block s2 = a + 2) by (change (a + 1 + 1 = a + 2); lia).
  assert (El : live s2 = {[a + 1]} ∪ ({[a]} ∪ live s)) by done.
  assert (Et : tests s2 = <[ref := t']> (tests s)) by done. clearbody s2 t'.
  apply (heap_update s s2 ref t' H); fold a; [lia|done| | |]; rewrite ?En, ?El.
  - intros b. rewrite !elem_of_union, !elem_of_singleton. split; [|tauto].
    intros [->|[->|?]]; [right|right|by left]; split; auto; lia.
  - rewrite Eo. pose proof (proj1 (ho_owned _ H _ _ Ht)) as Hn.
    apply (NoDup_replace _ [] [a; a + 1]).
    + by eapply sublist_NoDup.
    + apply NoDup_cons. split; [|apply NoDup_singleton]. intros E%list_elem_of_singleton. lia.
    + intros b Hb Hb'. apply Hold, Hlt in Hb'. rewrite !elem_of_cons in Hb. destruct Hb as [->|[->|?%elem_of_nil]]; [lia|lia|done].
  - intros b. rewrite Eo. rewrite elem_of_app. intros [Hb|[Hb|Hb]%elem_of_app].
    + left. exists t. split; [done|]. apply Hold. apply elem_of_app. by left.
    + right. rewrite !elem_of_cons in Hb. destruct Hb as [->|[->|?%elem_of_nil]]; [| |done]; split; try lia; set_solver.
    + left. exists t. split; [done|]. apply Hold. apply elem_of_app. by right.
Qed.

(** iperf_free_test releases the test. *)
Lemma free_test_ok s ref t : heap_ok s -> tests s !! ref = Some t ->
  exists s', freeTestImpl ref s = Ok s' /\ heap_ok s' /\ tests s' = delete ref (tests s) /\ i_errno s' = IENONE /\
    live s' = live s ∖ list_to_set (ref :: test_blocks t).
Proof.
  intros H Ht. destruct (ho_owned _ H _ _ Ht) as [Hn Hl]. unfold owned in Hn, Hl.
  inversion Hn as [|? ? Hr Hn']; subst. apply NoDup_app in Hn' as (Hf & Hfl & _).
  unfold freeTestImpl, iperf_free_test. rewrite Ht. cbn [deref obind].
  rewrite free_all_ok; [|done|intros a Ha; apply Hl; right; apply elem_of_app; by left]. cbn [obind].
  unfold free. rewrite bool_decide_eq_true_2.
  2:{ change (ref ∈ live s ∖ list_to_set (freed_blocks t)). apply elem_of_difference. split; [apply Hl; by left|].
      rewrite elem_of_list_to_set. intros Hx. apply Hr, elem_of_app. by left. }
  cbn [obind]. match goal with |- exists _, Ok ?x = Ok _ /\ _ => set (s' := x) end.
  assert (El : live s' = live s ∖ list_to_set (ref :: test_blocks t)).
  { rewrite list_to_set_cons, <- freed_all. change (live s ∖ list_to_set (freed_blocks t) ∖ {[ref]} = live s ∖ ({[ref]} ∪ list_to_set (freed_blocks t))). set_solver. }
  exists s'. split; [done|]. split; [|done].
  assert (Et : tests s' = delete ref (tests s)) by done. assert (En : next_block s' = next_block s) by done. clearbody s'.
  destruct H as [H1 H2 H3 H4]. constructor; rewrite ?Et, ?En, ?El; [intros a; set_solver|done| |].
  - intros r t' [Hne Hr']%lookup_delete_Some. destruct (H3 _ _ Hr') as [N L]. split; [done|]. intros a Ha.
    apply elem_of_difference. split; [by apply L|]. rewrite list_to_set_cons, <- freed_all, <- list_to_set_cons, elem_of_list_to_set.
    intros Ha'. apply Hne.
    eapply (H4 _ _ _ _ a Ht Hr'); [|done]. unfold owned. rewrite elem_of_cons in Ha' |- *. rewrite elem_of_app. tauto.
  - intros r1 t1 r2 t2 a [_ E1]%lookup_delete_Some [_ E2]%lookup_delete_Some. by apply (H4 _ _ _ _ a E1 E2).
Qed.

Lemma new_test_ok s : heap_ok s -> exists ref s', newTestImpl malloc_ok s = Ok (ref, s') /\ heap_ok s' /\
  (ref <> 0 -> exists t, tests s' !! ref = Some t /\ conf t = zero_test /\ tests s !! ref = None).
Proof.
  intros H. unfold newTestImpl, iperf_new_test. destruct (malloc malloc_ok s) as [p s1] eqn:E1.
  destruct (malloc_cases _ _ _ E1) as (N1 & T1 & _ & L1).
  assert (H1 : forall s', next_block s <= next_block s' -> tests s' = tests s -> live s' = live s -> heap_ok s').
  { intros s' Hn Ht Hl. destruct H as [A1 A2 A3 A4]. constructor; rewrite ?Ht, ?Hl; [|lia|done|done].
    intros a Ha. apply A1 in Ha. lia. }
  destruct p as [a|].
  2:{ exists 0, (s1 {{ i_errno := IENEWTEST }}). split; [done|]. split; [|done].
      apply H1; [change (next_block s <= next_block s1); lia|exact T1|exact L1]. }
  destruct L1 as [-> L1]. destruct (malloc malloc_ok s1) as [q s2] eqn:E2.
  destruct (malloc_cases _ _ _ E2) as (N2 & T2 & _ & L2). set (a := next_block s) in *.
  assert (Ha : a ∉ live s) by (intros Ha; apply (ho_next _ H) in Ha; unfold a in *; lia).
  destruct q as [b|].
  - destruct L2 as [-> L2]. set (t := mk_jtest zero_test d0 d0 0 0 (next_block s1) [] None None None None [] [] []).
    match goal with |- exists _ _, Ok (_, ?x) = _ /\ _ => set (s' := x) end. exists a, s'.
    assert (En : next_block s' = a + 2) by (change (next_block s2 = a + 2); lia).
    assert (El : live s' = {[a + 1]} ∪ ({[a]} ∪ live s)) by (change (live s2 = {[a + 1]} ∪ ({[a]} ∪ live s)); by rewrite L2, L1, N1).
    assert (Et : tests s' = <[a := t]> (tests s)) by (change (<[a := t]> (tests s2) = <[a := t]> (tests s)); by rewrite T2, T1).
    split; [done|]. split.
    + assert (Eo : owned a t = [a; a + 1]) by (unfold owned, t; cbn; by rewrite N1). clearbody s' t.
      apply (heap_update s s' a t H); fold a; [lia|done| | |]; rewrite ?En, ?El.
      * intros x. rewrite !elem_of_union, !elem_of_singleton. split; [|tauto].
        intros [->|[->|?]]; [right|right|by left]; split; auto; lia.
      * rewrite Eo. apply NoDup_cons. split; [|apply NoDup_singleton]. intros E%list_elem_of_singleton. lia.
      * rewrite Eo. intros x Hx. right. rewrite !elem_of_cons in Hx. destruct Hx as [->|[->|?%elem_of_nil]]; [| |done]; split; try lia; set_solver.
    + intros _. exists t. rewrite Et, lookup_insert_eq. split; [done|]. split; [done|].
      destruct (tests s !! a) as [t0|] eqn:E0; [|done]. exfalso. apply Ha. apply (ho_owned _ H _ _ E0). by left.
  - unfold free. rewrite bool_decide_eq_true_2 by (rewrite L2, L1; set_solver). cbn [obind].
    eexists 0, _. split; [done|]. split; [|done]. apply H1.
    + change (a <= next_block s2). lia.
    + change (tests s2 = tests s). by rewrite T2, T1.
    + change (live s2 ∖ {[a]} = live s). rewrite L2, L1. set_solver.
Qed.

End Memory.


(** ** The application and the command line *)

(** Calls on one test, in order. *)
Fixpoint jni_calls (malloc_ok : Z -> bool) (has : bool) (ref : Z) (cs : list jcall) (s : jni) : outcome jni :=
  match cs with
  | [] => Ok s
  | c :: cs => let! s := jni_call malloc_ok has ref c s in jni_calls malloc_ok has ref cs s
  end.

Section App.
Variables (host logname template heading bandwidth : bytes) (json rev : bool) (verb dur port ms letter n : Z).

(** The calls FragmentAppIperf makes between newTest and runClient. *)
Definition app_calls : list jcall :=
  [ Defaults; TempFileTemplate template; TestRole role_client; Hostname host; LogFile logname; OutputJson json;
    Duration dur; ServerPort port; Interval ms; Protocol letter; Reverse (if rev then 1 else 0); Verbose verb;
    Bandwidth bandwidth; NumStream n; Title heading ].

(** The command line with the same settings, the numbers given as texts. *)
Definition app_argv (dur_text port_text ms_text n_text : bytes) : list bytes :=
  [ bytes_of "iperf3"; [45; 99]; host ] ++ (if json then [[45; 74]] else []) ++
  [ [45; 116]; dur_text; [45; 112]; port_text; [45; 105]; ms_text ] ++
  (if u8 letter =? 117 then [[45; 117]] else []) ++ (if rev then [[45; 82]] else []) ++
  (if verb =? 0 then [] else [[45; 86]]) ++
  [ [45; 98]; bandwidth; [45; 80]; n_text; [45; 84]; heading; bytes_of "--logfile"; logname ].

End App.

Lemma getopt_arg c a r : c <> 45 -> short_option c shortopts = Some true -> getopt_long ([45; c] :: a :: r) = (c, a) :: getopt_long r.
Proof. intros H E. cbn [getopt_long]. rewrite (proj2 (Z.eqb_neq c 45) H). cbn [cluster hd_error]. by rewrite E. Qed.

Lemma getopt_flag c r : c <> 45 -> short_option c shortopts = Some false -> getopt_long ([45; c] :: r) = (c, []) :: getopt_long r.
Proof. intros H E. cbn [getopt_long]. rewrite (proj2 (Z.eqb_neq c 45) H). cbn [cluster]. by rewrite E. Qed.

Lemma getopt_flag_if (b : bool) c r : c <> 45 -> short_option c shortopts = Some false ->
  getopt_long ((if b then [[45; c]] else []) ++ r) = (if b then [(c, [])] else []) ++ getopt_long r.
Proof. intros. destruct b; [by apply getopt_flag|done]. Qed.

Lemma app_events host logname heading bandwidth json rev verb letter dt pt mt nt :
  getopt_long (tl (app_argv host logname heading bandwidth json rev verb letter dt pt mt nt)) =
  [(99, host)] ++ (if json then [(74, [])] else []) ++ [(116, dt); (112, pt); (105, mt)] ++
  (if u8 letter =? 117 then [(117, [])] else []) ++ (if rev then [(82, [])] else []) ++
  (if negb (verb =? 0) then [(86, [])] else []) ++ [(98, bandwidth); (80, nt); (84, heading); (OPT_LOGFILE, logname)].
Proof.
  unfold app_argv. cbn [app tl]. rewrite getopt_arg by done.
  replace (if verb =? 0 then [] else [[45; 86]]) with (if negb (verb =? 0) then [[45; 86]] else []) by (by destruct (verb =? 0)).
  rewrite getopt_flag_if by done. do 3 rewrite getopt_arg by done. do 3 rewrite getopt_flag_if by done.
  do 3 rewrite getopt_arg by done. reflexivity.
Qed.

(** The options one after the other. *)
Lemma parse_step has ev evs a a' : parse_option has a ev = Ok (Parsed a') ->
  parse_options has (ev :: evs) a = parse_options has evs a'.
Proof. intros E. cbn [parse_options]. by rewrite E. Qed.

Lemma parse_flag has (b : bool) ev evs a a' : parse_option has a ev = Ok (Parsed a') ->
  parse_options has ((if b then [ev] else []) ++ evs) a = parse_options has evs (if b then a' else a).
Proof. intros E. destruct b; [by apply parse_step|done]. Qed.

Lemma split_at_absent c l : c ∉ l -> split_at c l = (l, None).
Proof.
  induction l as [|x l IH]; [done|]. intros H. rewrite not_elem_of_cons in H. destruct H as [H1 H2]. cbn [split_at].
  destruct (Z.eqb_spec x c); [congruence|]. by rewrite IH.
Qed.

(** The test both end with. *)
Definition udp_if (has : bool) (letter : Z) (t : iperf_test) : iperf_test := if u8 letter =? 117 then snd (set_protocol has t Pudp) else t.

Definition app_test (has rev : bool) (letter dur port n r : Z) (heading : bytes) : iperf_test :=
  let t := iperf_set_test_role has (Iperf.iperf_defaults has) role_client in
  let t := udp_if has letter (t {{ duration := dur; server_port := port }}) in
  let t := if rev then iperf_set_test_reverse has t 1 else t in
  let t := t {{ num_streams := n; title := Some heading }} in
  let blk := if u8 letter =? 117 then 0 else DEFAULT_TCP_BLKSIZE in
  t {{ settings -> blksize := blk; settings -> rate := r }}.

Lemma client_first has h :
  parse_option has (default_args has) (99, h) =
  Ok (Parsed ((set_test (default_args has) (iperf_set_test_role has (Iperf.iperf_defaults has) role_client))
              {{ Args.server_hostname := Some h }})).
Proof. by destruct has. Qed.

(** The options of the application, one by one. *)
Section Options.
Variables (has : bool) (evs : list event) (a : args).

Lemma json_flag (b : bool) :
  parse_options has ((if b then [(74, [])] else []) ++ evs) a = parse_options has evs (a {{ Args.json_output := b || Args.json_output a }}).
Proof. by destruct b, a. Qed.

Lemma verbose_flag (b : bool) :
  parse_options has ((if b then [(86, [])] else []) ++ evs) a = parse_options has evs (a {{ Args.verbose := b || Args.verbose a }}).
Proof. by destruct b, a. Qed.

Lemma time_step s d : atoi s = d -> d <= MAX_TIME ->
  parse_options has ((116, s) :: evs) a =
  parse_options has evs ((set_test a ((a_test a) {{ duration := d }})) {{ duration_flag := true; client_flag := true }}).
Proof.
  intros E H. apply parse_step. change (opt_time a s = Ok (Parsed ((set_test a ((a_test a) {{ duration := d }})) {{ duration_flag := true; client_flag := true }}))).
  unfold opt_time. by rewrite E, (proj2 (Z.ltb_ge _ _) H).
Qed.

Lemma port_step s p : atoi s = p -> 1 <= p <= 65535 ->
  parse_options has ((112, s) :: evs) a = parse_options has evs (set_test a ((a_test a) {{ server_port := p }})).
Proof.
  intros E H. apply parse_step. change (opt_port a s = Ok (Parsed (set_test a ((a_test a) {{ server_port := p }})))).
  unfold opt_port. by rewrite E, (proj2 (Z.ltb_ge p 1)), (proj2 (Z.ltb_ge 65535 p)) by lia.
Qed.

Lemma interval_step s x : atof s = x -> (dltb x MIN_INTERVAL || dltb MAX_INTERVAL x) && negb (deqb x d0) = false ->
  parse_options has ((105, s) :: evs) a = parse_options has evs (a {{ Args.stats_interval := x; Args.reporter_interval := x }}).
Proof.
  intros E H. apply parse_step. change (opt_interval a s = Ok (Parsed (a {{ Args.stats_interval := x; Args.reporter_interval := x }}))).
  unfold opt_interval. by rewrite E, H.
Qed.

Lemma udp_flag (b : bool) : client_flag a = true ->
  parse_options has ((if b then [(117, [])] else []) ++ evs) a =
  parse_options has evs (set_test a (if b then snd (set_protocol has (a_test a) Pudp) else a_test a)).
Proof. intros H. destruct b, a; cbn in H; subst; reflexivity. Qed.

Lemma reverse_flag (b : bool) : client_flag a = true -> bidirectional (a_test a) = 0 ->
  parse_options has ((if b then [(82, [])] else []) ++ evs) a =
  parse_options has evs (set_test a (if b then iperf_set_test_reverse has (a_test a) 1 else a_test a)).
Proof.
  intros H Hb. destruct b; [|by destruct a]. apply parse_step.
  change (opt_reverse has a [] = Ok (Parsed (set_test a (iperf_set_test_reverse has (a_test a) 1)))).
  unfold opt_reverse. rewrite Hb. destruct a. cbn in H. by subst.
Qed.

Lemma rate_step s x r : 47 ∉ s -> unit_atof_rate s = Ok x -> u64_of_double x = Ok r -> client_flag a = true ->
  parse_options has ((98, s) :: evs) a =
  parse_options has evs ((set_test a ((a_test a) {{ settings -> rate := r }})) {{ rate_flag := true }}).
Proof.
  intros Hs Hx Hr H. apply parse_step.
  change (opt_rate a s = Ok (Parsed ((set_test a ((a_test a) {{ settings -> rate := r }})) {{ rate_flag := true }}))).
  unfold opt_rate. rewrite (split_at_absent _ _ Hs), Hx. cbn [obind andb]. rewrite Hr. destruct a as [t].
  cbn in H. subst. by destruct t as [].
Qed.

Lemma parallel_step s n : atoi s = n -> n <= MAX_STREAMS -> client_flag a = true ->
  parse_options has ((80, s) :: evs) a = parse_options has evs (set_test a ((a_test a) {{ num_streams := n }})).
Proof.
  intros E H Hc. apply parse_step. change (opt_parallel a s = Ok (Parsed (set_test a ((a_test a) {{ num_streams := n }})))).
  unfold opt_parallel. rewrite E, (proj2 (Z.ltb_ge _ _) H). destruct a. cbn in Hc. by subst.
Qed.

Lemma title_step s : client_flag a = true ->
  parse_options has ((84, s) :: evs) a = parse_options has evs (set_test a ((a_test a) {{ title := Some s }})).
Proof. intros H. apply parse_step. destruct a. cbn in H. by subst. Qed.

Lemma logfile_step s :
  parse_options has ((OPT_LOGFILE, s) :: evs) a = parse_options has evs (a {{ Args.logfile := Some s }}).
Proof. by apply parse_step. Qed.

End Options.

Lemma udp_keeps_bidir has t (b : bool) : bidirectional (if b then snd (set_protocol has t Pudp) else t) = bidirectional t.
Proof. destruct b; [|done]. unfold set_protocol, check_sender_has_retransmits. by destruct (existsb _ _); [destruct (_ && _)|]. Qed.

(** Name the arguments so far. *)
Ltac hold a := match goal with |- context [parse_options _ _ ?x] => set (a := x) end.

(** Settings the command line accepts, and texts for them. *)
Record accepted (dur port ms n : Z) (bandwidth : bytes) (r : Z) (dt pt mt nt : bytes) : Prop := {
  ac_dur : atoi dt = dur /\ dur <= MAX_TIME;
  ac_port : atoi pt = port /\ 1 <= port <= 65535;
  ac_interval : atof mt = ddiv (d_of_Z ms) (d_of_Z 1000) /\
    (dltb (atof mt) MIN_INTERVAL || dltb MAX_INTERVAL (atof mt)) && negb (deqb (atof mt) d0) = false;
  ac_streams : atoi nt = n /\ n <= MAX_STREAMS;
  ac_slash : 47 ∉ bandwidth;
  ac_rate : exists x, unit_atof_rate bandwidth = Ok x /\ u64_of_double x = Ok r }.

Lemma app_parse has host logname heading bandwidth json rev verb letter dur port ms n r dt pt mt nt :
  accepted dur port ms n bandwidth r dt pt mt nt ->
  exists a, iperf_parse_arguments has (default_args has)
      (app_argv host logname heading bandwidth json rev verb letter dt pt mt nt) = Ok (Parsed a) /\
    a_test a = app_test has rev letter dur port n r heading /\ Args.server_hostname a = Some host /\
    Args.logfile a = Some logname /\ Args.json_output a = json /\ Args.verbose a = negb (verb =? 0) /\ Args.stats_interval a = ddiv (d_of_Z ms) (d_of_Z 1000) /\
    Args.reporter_interval a = ddiv (d_of_Z ms) (d_of_Z 1000).
Proof.
  intros [[Hdur Hdur'] [Hport Hport'] [Hms Hms'] [Hn Hn'] Hslash (x & Hrate & Hr)].
  unfold iperf_parse_arguments. rewrite app_events. cbn [app]. rewrite (parse_step _ _ _ _ _ (client_first has host)).
  unfold app_test, udp_if. revert Hms Hms'. generalize (ddiv (d_of_Z ms) (d_of_Z 1000)). intros iv Hms Hms'. rewrite Hms in Hms'.
  hold a0. rewrite json_flag. hold a1. rewrite (time_step _ _ _ _ _ Hdur Hdur'). hold a2.
  rewrite (port_step _ _ _ _ _ Hport Hport'). hold a3. rewrite (interval_step _ _ _ _ _ Hms Hms'). hold a4.
  rewrite udp_flag by done. hold a5. assert (Hb : bidirectional (a_test a5) = 0).
  { change (bidirectional (if u8 letter =? 117 then snd (set_protocol has (a_test a4) Pudp) else a_test a4) = 0).
    rewrite udp_keeps_bidir. by destruct has. }
  rewrite reverse_flag by done. hold a6. rewrite verbose_flag. hold a7.
  rewrite (rate_step _ _ _ _ _ _ Hslash Hrate Hr) by done. hold a8. rewrite (parallel_step _ _ _ _ _ Hn Hn') by done. hold a9.
  rewrite title_step by done. hold a10. rewrite logfile_step. hold a11. clear -r n. cbn [parse_options obind].
  subst a0. destruct has, rev, (u8 letter =? 117); vm_compute;
  (eexists; split; [reflexivity|]); repeat split; first [by destruct json | by destruct verb].
Qed.

(** ** One call and the test after it *)

Section Reaches.
Variable malloc_ok : Z -> bool.
Hypothesis memory : forall a, malloc_ok a = true.
Variables (has : bool) (ref : Z) (P : jtest -> Prop).

(** The calls end with a test with [P]. *)
Definition reaches (cs : list jcall) (s : jni) : Prop :=
  exists s' t, jni_calls malloc_ok has ref cs s = Ok s' /\ tests s' !! ref = Some t /\ P t.

Lemma reach_end s t : tests s !! ref = Some t -> P t -> reaches [] s.
Proof. intros Ht HP. by exists s, t. Qed.

Lemma reach_test c f s t t' cs :
  jni_call malloc_ok has ref c s = with_test ref f s -> tests s !! ref = Some t -> f t = Ok t' ->
  (forall s', tests s' !! ref = Some t' -> reaches cs s') -> reaches (c :: cs) s.
Proof.
  intros E Ht Ef H. unfold reaches. cbn [jni_calls]. rewrite E. unfold with_test. rewrite Ht. cbn [deref obind].
  rewrite Ef. cbn [obind]. apply H. apply lookup_insert_eq.
Qed.

Lemma reach_string c x f s t cs :
  jni_call malloc_ok has ref c s = with_string malloc_ok ref x f s -> tests s !! ref = Some t ->
  (forall s' a, tests s' !! ref = Some (f (Some (a, cstr_of x)) t) -> reaches cs s') -> reaches (c :: cs) s.
Proof.
  intros E Ht H. unfold reaches. cbn [jni_calls]. rewrite E. unfold with_string, strdup, malloc. rewrite Ht, memory.
  cbn [deref obind option_map]. eapply H. apply lookup_insert_eq.
Qed.

Lemma reach_defaults s t cs : tests s !! ref = Some t -> conf t = zero_test ->
  (forall s' t', tests s' !! ref = Some t' -> conf t' = Iperf.iperf_defaults has -> reaches cs s') ->
  reaches (Defaults :: cs) s.
Proof.
  intros Ht E H. unfold reaches. cbn [jni_calls jni_call]. unfold defaultsImpl, iperf_defaults, malloc. rewrite Ht.
  cbn [deref obind]. rewrite !memory. cbn [obind]. eapply H; [apply lookup_insert_eq|]. cbn [conf]. rewrite E. by destruct has.
Qed.

End Reaches.

Lemma reverse_checked has c v : protocol c <> 0 ->
  checked_protocol (iperf_set_test_reverse has c v) = Ok (iperf_set_test_reverse has c v).
Proof. intros H. apply checked_keeps. unfold iperf_set_test_reverse, check_sender_has_retransmits. by destruct (_ && _). Qed.

Lemma app_configures malloc_ok has ref s t host logname template heading bandwidth (json rev : bool)
  verb dur port ms letter n r x :
  (forall a, malloc_ok a = true) -> tests s !! ref = Some t -> conf t = zero_test ->
  unit_atof_rate bandwidth = Ok x -> u64_of_double x = Ok r ->
  reaches malloc_ok has ref (fun t' =>
    conf t' = app_test has rev letter dur port n r (cstr_of heading) /\
    option_map snd (server_hostname t') = Some (cstr_of host) /\ option_map snd (logfile t') = Some (cstr_of logname) /\
    json_output t' = (if json then 1 else 0) /\ verbose t' = verb /\
    stats_interval t' = ddiv (d_of_Z ms) (d_of_Z 1000) /\ reporter_interval t' = ddiv (d_of_Z ms) (d_of_Z 1000))
    (app_calls host logname template heading bandwidth json rev verb dur port ms letter n) s.
Proof.
  intros Hm Ht E0 Hx Hr. unfold app_calls. apply (reach_defaults _ Hm _ _ _ s t _ Ht E0). clear Ht E0 t s.
  intros s [cf si ri v j sb pb h tt ti lf sts kb lb] H E. cbn in E. subst cf.
  eapply (reach_string _ Hm); [reflexivity|exact H|]. clear H. intros ? a H.
  eapply reach_test; [reflexivity|exact H| |].
  { unfold set_role. rewrite checked_keeps by (by destruct has). reflexivity. }
  clear H. intros ? H.
  do 2 (eapply (reach_string _ Hm); [reflexivity|exact H|]; clear H; intros ? ? H).
  do 4 (eapply reach_test; [reflexivity|exact H|reflexivity|]; clear H; intros ? H).
  eapply reach_test; [reflexivity|exact H|unfold set_protocol_letter, iperf_set_test_protocol; reflexivity|]. clear H. intros ? H.
  eapply reach_test; [reflexivity|exact H| |].
  { unfold set_reverse. rewrite reverse_checked; [reflexivity|]. destruct has, (u8 letter =? 117); vm_compute; discriminate. }
  clear H. intros ? H. eapply reach_test; [reflexivity|exact H|reflexivity|]. clear H. intros ? H.
  eapply reach_test; [reflexivity|exact H| |].
  { unfold iperf_set_test_udp_bandwidth. rewrite Hx. cbn [obind]. rewrite Hr. reflexivity. }
  clear H. intros ? H. eapply reach_test; [reflexivity|exact H|reflexivity|]. clear H. intros ? H.
  eapply (reach_string _ Hm); [reflexivity|exact H|]. clear H. intros ? ? H.
  eapply reach_end; [exact H|]. clear H.
  repeat split. unfold app_test, udp_if. destruct has, rev, (u8 letter =? 117); vm_compute; reflexivity.
Qed.

(** C14: The application asks for what the command line would.  A new test that
    FragmentAppIperf sets up through the wrapper (with memory, and settings
    the command line accepts) is, field by field, the test
    iperf_parse_arguments makes of the command line with the same settings,
    and so are the host, the log file, the intervals and the output flags:
    what is proved of accepted command lines holds of the application. *)
Theorem app_test_is_command_line malloc_ok has s ref s0 host logname template heading bandwidth (json rev : bool)
    verb dur port ms letter n r dt pt mt nt :
  (forall a, malloc_ok a = true) -> heap_ok s -> newTestImpl malloc_ok s = Ok (ref, s0) -> ref <> 0 ->
  accepted dur port ms n bandwidth r dt pt mt nt ->
  Forall (fun x => cstr_of x = x) [host; logname; heading] ->
  exists s' t a,
    jni_calls malloc_ok has ref (app_calls host logname template heading bandwidth json rev verb dur port ms letter n) s0
      = Ok s' /\ tests s' !! ref = Some t /\
    iperf_parse_arguments has (default_args has)
      (app_argv host logname heading bandwidth json rev verb letter dt pt mt nt) = Ok (Parsed a) /\
    conf t = a_test a /\ option_map snd (server_hostname t) = Args.server_hostname a /\
    option_map snd (logfile t) = Args.logfile a /\ negb (json_output t =? 0) = Args.json_output a /\
    negb (verbose t =? 0) = Args.verbose a /\ stats_interval t = Args.stats_interval a /\
    reporter_interval t = Args.reporter_interval a.
Proof.
  intros Hm Hs En Hr Ha Hc. rewrite !Forall_cons in Hc. destruct Hc as (C1 & C2 & C3 & _).
  destruct (new_test_ok malloc_ok s Hs) as (ref' & s' & En' & _ & Ht). rewrite En in En'. injection En' as <- <-.
  destruct (Ht Hr) as (t0 & Ht0 & Hz & _). destruct (ac_rate _ _ _ _ _ _ _ _ _ _ Ha) as (x & Hx & Hx').
  destruct (app_configures malloc_ok has ref s0 t0 host logname template heading bandwidth json rev verb dur port ms letter n
    r x Hm Ht0 Hz Hx Hx') as (s1 & t1 & E1 & Ht1 & T1 & T2 & T3 & T4 & T5 & T6 & T7).
  destruct (app_parse has host logname heading bandwidth json rev verb letter dur port ms n r dt pt mt nt Ha)
    as (a & Ea & A1 & A2 & A3 & A4 & A5 & A6 & A7).
  exists s1, t1, a. rewrite T1, T2, T3, T4, T5, T6, T7, A1, A2, A3, A4, A5, A6, A7, C1, C2, C3. by destruct json.
Qed.


Lemma app_test_is_command_line_witness :
  exists s0 s' t a, newTestImpl (fun _ => true) start_jni = Ok (16, s0) /\
    jni_calls (fun _ => true) true 16
      (app_calls [104] [108] [116] [120] (bytes_of "5M") true true 1 10 5201 500 117 4) s0 = Ok s' /\
    tests s' !! 16 = Some t /\
    iperf_parse_arguments true (default_args true)
      (app_argv [104] [108] [120] (bytes_of "5M") true true 1 117 (bytes_of "10") (bytes_of "5201") (bytes_of "0.5") (bytes_of "4"))
      = Ok (Parsed a) /\
    conf t = a_test a.
Proof.
  assert (E0 : exists s0, newTestImpl (fun _ => true) start_jni = Ok (16, s0)) by (eexists; reflexivity).
  destruct E0 as [s0 E0].
  destruct (app_test_is_command_line (fun _ => true) true start_jni 16 s0 [104] [108] [116] [120] (bytes_of "5M") true true 1 10
    5201 500 117 4 5000000 (bytes_of "10") (bytes_of "5201") (bytes_of "0.5") (bytes_of "4"))
    as (s' & t & a & E1 & E2 & E3 & E4 & _); [done|apply start_ok|exact E0|lia| |by repeat constructor|].
  - constructor; [by split; [vm_compute|]|by split; [vm_compute|]|by split; vm_compute|by split; [vm_compute|]| |].
    + apply (bool_decide_unpack (47 ∉ bytes_of "5M")). vm_compute. done.
    + exists (d_of_Z 5000000). by split; vm_compute.
  - exists s0, s', t, a. exact (conj E0 (conj E1 (conj E2 (conj E3 E4)))).
Defined.

(** What the order of the calls and the lack of memory do. *)
Definition short_of (n : Z) : Z -> bool := fun a => negb (a =? n).

(** When the second protocol cannot be allocated, iperf_defaults frees the
    first and leaves it in the list, and freeTest frees it again. *)
Theorem defaults_out_of_memory has :
  exists s0 s1, newTestImpl (short_of 19) start_jni = Ok (16, s0) /\
    jni_call (short_of 19) has 16 Defaults s0 = Ok s1 /\ jni_call (short_of 19) has 16 FreeTest s1 = UB.
Proof. eexists _, _. split; [reflexivity|]. split; [vm_compute; reflexivity|]. vm_compute. reflexivity. Qed.

(** The role before the defaults dereferences a null protocol. *)
Theorem role_before_defaults has :
  exists s0, newTestImpl (fun _ => true) start_jni = Ok (16, s0) /\ jni_call (fun _ => true) has 16 (TestRole role_client) s0 = UB.
Proof. eexists. split; [reflexivity|]. by destruct has. Qed.

(** The name of the log file outlives the test. *)
Theorem logfile_leaks has :
  exists s0 s1 s2, newTestImpl (fun _ => true) start_jni = Ok (16, s0) /\
    jni_call (fun _ => true) has 16 (LogFile [108]) s0 = Ok s1 /\ jni_call (fun _ => true) has 16 FreeTest s1 = Ok s2 /\
    tests s2 = ∅ /\ live s2 = {[18]}.
Proof.
  eexists _, _, _. split; [reflexivity|]. split; [vm_compute; reflexivity|]. split; [vm_compute; reflexivity|].
  split; vm_compute; reflexivity.
Qed.
