(* ===== verification/Results.v ===== *)
(** * Exchange of the results (iperf_api.c: send_results, get_results)

    After a test each side sends the figures of its streams; the other side
    finds its own stream by id and stores what only the peer knows.  Memory is
    available; debug output is left out. *)

From coqutil Require Import Datatypes.RecordSetters.
From Stdlib Require Import SpecFloat.
From Stdlib Require Import String.
From S2P Require Import Prelude.
From S2P Require Import IperfTime.
From S2P Require Import Cdouble.
From S2P Require Import CdoubleFacts.
From S2P Require Import CdoubleText.
From S2P Require Import CjsonData.
From S2P Require Import CjsonPrint.
From S2P Require Import CjsonPrintSpec.
From S2P Require Import CjsonPrintProof.
From S2P Require Import CjsonParse.
From S2P Require Import CjsonRoundtrip.
From S2P Require Import CjsonTree.
From S2P Require Import JsonObject.
From S2P Require Import Stream.
From S2P Require Import Frame.
From S2P Require Import Iperf.
From S2P Require Import Udp.
From S2P Require Import Params.
From stdpp Require Import base numbers gmap list.
Import DoubleBraceUpdate.

Open Scope Z_scope.
Open Scope c_scope.

Abbreviation IESENDRESULTS := 116.
Abbreviation IERECVRESULTS := 117.
Abbreviation IESTREAMID := 208.

(** ** send_results *)

(** What is sent for a stream. *)
Definition sent_bytes (sp : iperf_stream) : Z :=
  if sender sp then u64 (bytes_sent (result sp) - bytes_sent_omit (result sp)) else bytes_received (result sp).
Definition sent_retransmits (test : iperf_test) (sp : iperf_stream) : Z :=
  if sender sp && nonzero_int (sender_has_retransmits test) then stream_retrans (result sp) else -1.
Definition sent_start (sp : iperf_stream) : double :=
  iperf_time_in_secs (snd (iperf_time_diff (start_time (result sp)) (start_time (result sp)))).
Definition sent_end (sp : iperf_stream) : double :=
  iperf_time_in_secs (snd (iperf_time_diff (start_time (result sp)) (end_time (result sp)))).
Definition sent_has_retransmits (test : iperf_test) : Z :=
  if mode test =? RECEIVER then -1 else sender_has_retransmits test.

Definition stream_json (test : iperf_test) (sp : iperf_stream) : outcome cJSON :=
  let num name z j := cJSON_AddNumberToObject j name (d_of_Z z) in
  let! j := deref (cJSON_CreateObject true) in
  let! j := num "id"%string (stream_id sp) j in
  let! j := num "bytes"%string (sent_bytes sp) j in
  let! j := num "retransmits"%string (sent_retransmits test sp) j in
  let! j := cJSON_AddNumberToObject j "jitter" (jitter sp) in
  let! j := num "errors"%string (cnt_error sp) j in
  let! j := num "packets"%string (packet_count sp) j in
  let! j := cJSON_AddNumberToObject j "start_time" (sent_start sp) in
  cJSON_AddNumberToObject j "end_time" (sent_end sp).

(** The loop over the streams: [j_streams] with the object of each. *)
Fixpoint streams_json (test : iperf_test) (l : list iperf_stream) (j_streams : cJSON) : outcome cJSON :=
  match l with
  | [] => Ok j_streams
  | sp :: l =>
      let! j_stream := stream_json test sp in
      let! j_streams := deref (cJSON_AddItemToArray (Some j_streams) (Some j_stream)) in
      streams_json test l j_streams
  end.

Section Results.
Variable allocate : nat -> nat -> bool.
Variable calloc_ok : Z -> bool.

(** What a server adds when the client asks for its output: its JSON output
    (test->json_top) or its lines of text. *)
Definition server_output (json_output : bool) (json_top : cJSON) (output_list : list bytes)
    (test : iperf_test) (j : cJSON) : outcome cJSON :=
  if (role test =? role_server) && nonzero_int (get_server_output test)
  then if json_output
       then let! r := cJSON_AddItemReferenceToObject true true (Some j) (Some (bytes_of "server_output_json")) json_top in
            deref r
       else cJSON_AddStringToObject j "server_output_text" (Some (concat output_list))
  else Ok j.

(** In C the array is added to the object before its elements are added to
    it. *)
Definition results (json_output : bool) (json_top : cJSON) (output_list : list bytes) (test : iperf_test)
    : outcome cJSON :=
  let '(total, user, system) := cpu_util test in
  let! j := deref (cJSON_CreateObject true) in
  let! j := cJSON_AddNumberToObject j "cpu_util_total" total in
  let! j := cJSON_AddNumberToObject j "cpu_util_user" user in
  let! j := cJSON_AddNumberToObject j "cpu_util_system" system in
  let! j := cJSON_AddNumberToObject j "sender_has_retransmits" (d_of_Z (sent_has_retransmits test)) in
  let! j := when (non_null (congestion_used test))
              (fun j => cJSON_AddStringToObject j "congestion_used" (congestion_used test)) j in
  let! j := server_output json_output json_top output_list test j in
  let! a := deref (cJSON_CreateArray true) in
  let! j_streams := streams_json test (streams test) a in
  add_item j "streams" (Some j_streams).

(** The return value, i_errno if it is set, and the socket. *)
Definition send_results (json_output : bool) (json_top : cJSON) (output_list : list bytes)
    (test : iperf_test) (s : sock) : outcome (Z * option Z * sock) :=
  let! j := results json_output json_top output_list test in
  let! r := JSON_write allocate s j in
  let '(rc, s) := r in
  if rc <? 0 then Ok (-1, Some IESENDRESULTS, s) else Ok (0, None, s).

(** ** get_results *)

Definition item (j : cJSON) (name : String.string) : outcome (option cJSON) :=
  cJSON_GetObjectItem (Some j) (Some (bytes_of name)).

(** The first stream with the id, updated. *)
Fixpoint update_stream (sid : Z) (f : iperf_stream -> iperf_stream) (l : list iperf_stream)
    : option (list iperf_stream) :=
  match l with
  | [] => None
  | sp :: l => if stream_id sp =? sid then Some (f sp :: l) else cons sp <$> update_stream sid f l
  end.

Definition elapsed (j_start_time j_end_time : option cJSON) : double :=
  match j_start_time, j_end_time with
  | Some s, Some e => dsub (valuedouble e) (valuedouble s)
  | _, _ => d0
  end.

(** What the figures of the peer change in a stream. *)
Definition merge_stream (bytes_transferred retransmits cerror pcount : Z) (jit time : double)
    (sp : iperf_stream) : iperf_stream :=
  if sender sp
  then sp {{ jitter := jit; cnt_error := cerror; peer_packet_count := pcount;
             result := (result sp) {{ bytes_received := bytes_transferred; receiver_time := time }} }}
  else sp {{ peer_packet_count := pcount;
             result := (result sp) {{ bytes_sent := bytes_transferred; stream_retrans := retransmits;
                                      sender_time := time }} }}.

(** The value to return, i_errno if it is set, and the test. *)
Abbreviation progress := (Z * option Z * iperf_test)%type.

Definition get_stream (j_stream : cJSON) (st : progress) : outcome progress :=
  let '(r, err, test) := st in
  let! j_id := item j_stream "id" in
  let! j_bytes := item j_stream "bytes" in
  let! j_retransmits := item j_stream "retransmits" in
  let! j_jitter := item j_stream "jitter" in
  let! j_errors := item j_stream "errors" in
  let! j_packets := item j_stream "packets" in
  let! j_start_time := item j_stream "start_time" in
  let! j_end_time := item j_stream "end_time" in
  match j_id, j_bytes, j_retransmits, j_jitter, j_errors, j_packets with
  | Some i, Some b, Some rt, Some jt, Some e, Some p =>
      match update_stream (i32 (valueint i))
              (merge_stream (u64 (valueint b)) (i32 (valueint rt)) (i32 (valueint e)) (i32 (valueint p))
                 (valuedouble jt) (elapsed j_start_time j_end_time)) (streams test) with
      | Some l => Ok (r, err, test {{ streams := l }})
      | None => Ok (-1, Some IESTREAMID, test)
      end
  | _, _, _, _, _, _ => Ok (-1, Some IERECVRESULTS, test)
  end.

Fixpoint get_streams (l : list cJSON) (st : progress) : outcome progress :=
  match l with
  | [] => Ok st
  | x :: l => let! st := get_stream x st in get_streams l st
  end.

(** The output of the server the client asked for: its JSON, detached from the
    message, or a copy of its text. *)
Definition get_output (j : cJSON) (test : iperf_test) : outcome (cJSON * option (cJSON + bytes)) :=
  if (role test =? role_client) && nonzero_int (get_server_output test)
  then
    let! d := cJSON_DetachItemFromObject (Some j) (Some (bytes_of "server_output_json")) in
    match d with
    | (Some o, Some j) => Ok (j, Some (inl o))
    | _ =>
        let! t := item j "server_output_text" in
        match t with
        | None => Ok (j, None)
        | Some t => let! s := deref (valuestring t) in Ok (j, Some (inr (cstr_of s)))
        end
    end
  else Ok (j, None).

(** The figures of the message, when all four are there. *)
Definition get_figures (j : cJSON) (test : iperf_test) : outcome (progress * cJSON * option (cJSON + bytes)) :=
  let! ct := item j "cpu_util_total" in
  let! cu := item j "cpu_util_user" in
  let! cs := item j "cpu_util_system" in
  let! sr := item j "sender_has_retransmits" in
  match ct, cu, cs, sr with
  | Some ct, Some cu, Some cs, Some sr =>
      let test := test {{ remote_cpu_util := (valuedouble ct, valuedouble cu, valuedouble cs) }} in
      let result_has_retransmits := i32 (valueint sr) in
      let test :=
        if mode test =? RECEIVER
        then test {{ sender_has_retransmits := result_has_retransmits; other_side_has_retransmits := 0 }}
        else if mode test =? BIDIRECTIONAL
        then test {{ other_side_has_retransmits := result_has_retransmits }} else test in
      let! j_streams := item j "streams" in
      match j_streams with
      | None => Ok (-1, Some IERECVRESULTS, test, j, None)
      | Some a =>
          let n := Z.to_nat (cJSON_GetArraySize a) in
          let! st := get_streams (take n (child a)) (0, None, test) in
          let! o := get_output j test in
          Ok (st, fst o, snd o)
      end
  | _, _, _, _ => Ok (-1, Some IERECVRESULTS, test, j, None)
  end.

(** What is done with the message. *)
Definition apply_results (j : cJSON) (test : iperf_test) : outcome (progress * option (cJSON + bytes)) :=
  let! f := get_figures j test in
  let '(r, err, test, j, out) := f in
  let! test := on_item j "congestion_used"
                 (fun p t => let! s := strdup_item p in Ok (t {{ remote_congestion_used := s }})) test in
  Ok (r, err, test, out).

(** The return value, i_errno if it is set, the test, the output of the server
    and the socket. *)
Definition get_results (test : iperf_test) (s : sock)
    : outcome (progress * option (cJSON + bytes) * sock) :=
  let! r := JSON_read allocate calloc_ok s in
  match r with
  | (None, s) => Ok (-1, Some IERECVRESULTS, test, None, s)
  | (Some j, s) => let! r := apply_results j test in let '(p, out) := r in Ok (p, out, s)
  end.

End Results.
