(* ===== verification/ResultsProof.v ===== *)
(** * The results arrive at the streams they belong to

    What send_results writes is what get_results stores: each figure of a
    stream reaches the stream with the same id on the other side. *)

From coqutil Require Import Datatypes.RecordSetters.
From Stdlib Require Import SpecFloat.
From Stdlib Require Import String.
From S2P Require Import Prelude.
From S2P Require Import IperfTime.
From S2P Require Import Cdouble.
From S2P Require Import CdoubleFacts.
From S2P Require Import CdoubleText.
From S2P Require Import CjsonData.
From S2P Require Import CjsonPrint.
From S2P Require Import CjsonPrintSpec.
From S2P Require Import CjsonPrintProof.
From S2P Require Import CjsonParse.
From S2P Require Import CjsonRoundtrip.
From S2P Require Import CjsonTree.
From S2P Require Import JsonObject.
From S2P Require Import Stream.
From S2P Require Import Frame.
From S2P Require Import Iperf.
From S2P Require Import Udp.
From S2P Require Import Params.
From S2P Require Import Transfer.
From S2P Require Import Results.
From stdpp Require Import base numbers gmap list.
Import DoubleBraceUpdate.

Open Scope Z_scope.
Open Scope c_scope.

Definition arr (key : option bytes) (l : list cJSON) : cJSON := mkcJSON cJSON_Array None 0 d0 key l.

Definition stream_entries (test : iperf_test) (sp : iperf_stream) : list entry :=
  [ ("id"%string, Some (JNum (stream_id sp)));
    ("bytes"%string, Some (JNum (sent_bytes sp)));
    ("retransmits"%string, Some (JNum (sent_retransmits test sp)));
    ("jitter"%string, Some (JDbl (jitter sp)));
    ("errors"%string, Some (JNum (cnt_error sp)));
    ("packets"%string, Some (JNum (packet_count sp)));
    ("start_time"%string, Some (JDbl (sent_start sp)));
    ("end_time"%string, Some (JDbl (sent_end sp))) ].

Definition top_entries (test : iperf_test) : list entry :=
  [ ("cpu_util_total"%string, Some (JDbl (cpu_util test).1.1));
    ("cpu_util_user"%string, Some (JDbl (cpu_util test).1.2));
    ("cpu_util_system"%string, Some (JDbl (cpu_util test).2));
    ("sender_has_retransmits"%string, Some (JNum (sent_has_retransmits test)));
    ("congestion_used"%string, option_map JStr (congestion_used test)) ].

(** The message as it is built, or as it is parsed. *)
Definition message_of (f : String.string -> jvalue -> cJSON) (test : iperf_test) : cJSON :=
  obj (members f (top_entries test) ++
       [arr (key_of "streams") (map (fun sp => obj (members f (stream_entries test sp))) (streams test))]).

Lemma stream_json_obj test sp : stream_json test sp = Ok (obj (members item_of (stream_entries test sp))).
Proof.
  unfold stream_json. cbn [cJSON_CreateObject deref obind].
  change (set_type cJSON_Object cJSON_New_Item) with (obj []).
  repeat first [rewrite add_number | rewrite add_double | progress cbn [obind]]. reflexivity.
Qed.

Lemma streams_json_arr test l : forall done_l,
  streams_json test l (arr None done_l)
    = Ok (arr None (done_l ++ map (fun sp => obj (members item_of (stream_entries test sp))) l)).
Proof.
  induction l as [|sp l IH]; intros done_l; cbn [streams_json map]; [by rewrite app_nil_r|].
  rewrite stream_json_obj. cbn [obind cJSON_AddItemToArray deref].
  change (set_child (child (arr None done_l) ++ _) (arr None done_l))
    with (arr None (done_l ++ [obj (members item_of (stream_entries test sp))])).
  rewrite IH. by rewrite <- app_assoc.
Qed.

Lemma results_message json_output json_top output_list test :
  role test <> role_server \/ get_server_output test = 0 ->
  results json_output json_top output_list test = Ok (message_of item_of test).
Proof.
  intros Hout. unfold results. destruct (cpu_util test) as [[t u] s] eqn:Ec.
  cbn [cJSON_CreateObject deref obind]. change (set_type cJSON_Object cJSON_New_Item) with (obj []).
  rewrite !add_double. cbn [obind]. rewrite !add_double. cbn [obind]. rewrite !add_double. cbn [obind].
  rewrite add_number. cbn [obind]. rewrite when_string. cbn [obind].
  assert (Es : forall j, server_output json_output json_top output_list test j = Ok j).
  { intros j. unfold server_output. destruct Hout as [H|H].
    - by destruct (Z.eqb_spec (role test) role_server).
    - rewrite H. change (nonzero_int 0) with false. by rewrite andb_false_r. }
  rewrite Es. cbn [obind cJSON_CreateArray deref].
  change (set_type cJSON_Array cJSON_New_Item) with (arr None []). rewrite streams_json_arr. cbn [obind].
  unfold message_of, top_entries. rewrite Ec. cbn [fst snd].
  unfold add_item. cbn [cJSON_AddItemToObject obind cJSON_AddItemToArray deref].
  unfold obj. do 2 f_equal. cbn [members flat_map]. rewrite !app_nil_r, <- !app_assoc. reflexivity.
Qed.

(** ** Parsing the message *)

Lemma norm_message test : norm None (message_of item_of test) = message_of parsed_item test.
Proof.
  unfold message_of, obj. cbn [norm child base_type]. change (base_type _) with cJSON_Object. cbn [Z.eqb Pos.eqb].
  f_equal. rewrite map_app. f_equal.
  - exact (f_equal child (norm_obj (top_entries test))).
  - cbn [map]. f_equal. unfold arr. cbn [norm child string]. change (base_type _) with cJSON_Array.
    cbn [Z.eqb Pos.eqb]. f_equal. rewrite map_map. apply map_ext. intros sp. apply norm_obj.
Qed.

(** Values that can be sent. *)
Definition double_ok (d : double) : Prop := number_ok d = true /\ valid_double d.

Record stream_sendable (test : iperf_test) (sp : iperf_stream) : Prop := {
  ss_ints : Forall is_i32 [stream_id sp; sent_retransmits test sp; cnt_error sp; packet_count sp];
  ss_bytes : 0 <= sent_bytes sp < 10 ^ 15;
  ss_doubles : Forall double_ok [jitter sp; sent_end sp] }.

Record results_sendable (test : iperf_test) : Prop := {
  rs_cpu : Forall double_ok [(cpu_util test).1.1; (cpu_util test).1.2; (cpu_util test).2];
  rs_retransmits : is_i32 (sent_has_retransmits test);
  rs_congestion : opt_bytes (congestion_used test);
  rs_streams : Forall (stream_sendable test) (streams test) }.

Lemma sent_start_zero sp : sent_start sp = d0.
Proof. unfold sent_start. by rewrite time_diff_self. Qed.

Lemma stream_entries_ok test sp : stream_sendable test sp -> Forall entry_ok (stream_entries test sp).
Proof.
  intros [Hi Hb Hd]. rewrite !Forall_cons in Hi. rewrite !Forall_cons in Hd. unfold stream_entries.
  rewrite sent_start_zero. destruct_and?.
  repeat constructor; cbn [fst snd]; try reflexivity;
    first [by apply int_ok | by apply size_ok | by apply H | by apply H0 | by apply H1 | by apply H2 | idtac].
  all: cbn; try done.
Qed.

Lemma top_entries_ok test : results_sendable test -> Forall entry_ok (top_entries test).
Proof.
  intros [Hc Hr Hs _]. rewrite !Forall_cons in Hc. unfold top_entries. destruct_and?.
  repeat (apply Forall_cons; split); [..|constructor]; (split; [reflexivity|]); cbn [snd];
    first [by apply string_ok | by apply int_ok | assumption].
Qed.

Lemma printable_obj l : printable (obj l) = forallb printable l.
Proof. done. Qed.
Lemma portable_obj l : portable (obj l) = forallb portable l.
Proof. done. Qed.
Lemma depth_obj l : depth_of (obj l) = S (list_max (map depth_of l)).
Proof. done. Qed.
Lemma printable_arr n l : is_bytesb (cstr_of (bytes_of n)) = true -> printable (arr (key_of n) l) = forallb printable l.
Proof. intros H. cbn. by rewrite H. Qed.
Lemma portable_arr k l : portable (arr k l) = forallb portable l.
Proof. done. Qed.

Lemma message_printable test : results_sendable test ->
  printable (message_of item_of test) = true /\ portable (message_of item_of test) = true /\
  (depth_of (message_of item_of test) <= 3)%nat.
Proof.
  intros Hs. destruct (members_printable (top_entries test) (top_entries_ok test Hs)) as (Hp & Hq & Hd).
  rewrite printable_obj in Hp. rewrite portable_obj in Hq. rewrite depth_obj in Hd.
  assert (Hall : Forall (fun x => printable x = true /\ portable x = true /\ depth_of x = 1%nat)
    (map (fun sp => obj (members item_of (stream_entries test sp))) (streams test))).
  { destruct Hs as [_ _ _ Hs]. induction Hs as [|sp l Hsp _ IH]; constructor; [|done].
    by apply members_printable, stream_entries_ok. }
  unfold message_of. rewrite printable_obj, portable_obj, depth_obj, !forallb_app, map_app, Hp, Hq.
  cbn [forallb map andb]. rewrite portable_arr, printable_arr by done. rewrite !andb_true_r.
  revert Hall. generalize (map (fun sp => obj (members item_of (stream_entries test sp))) (streams test)).
  intros l Hl. split; [|split].
  - apply forallb_forall. intros x Hx%list_elem_of_In. rewrite Forall_forall in Hl. by apply Hl.
  - apply forallb_forall. intros x Hx%list_elem_of_In. rewrite Forall_forall in Hl. by apply Hl.
  - assert (E : depth_of (arr (key_of "streams") l) = S (list_max (map depth_of l))) by done.
    rewrite E, list_max_app. apply Nat.succ_inj in Hd. rewrite Hd. cbn [list_max foldr].
    assert (Hm : (list_max (map depth_of l) <= 1)%nat).
    { apply list_max_le. clear E. induction Hl as [|x l (_ & _ & Hx) _ IH]; constructor; [cbn in *; lia|done]. }
    lia.
Qed.

(** Looking a name up. *)
Lemma find_item_snoc name l x :
  find_item name (l ++ [x]) =
    match find_item name l with
    | Some y => Some y
    | None => if case_insensitive_strcmp (Some name) (string x) =? 0 then Some x else None
    end.
Proof. induction l as [|y l IH]; cbn [find_item app]; [done|]. rewrite IH. by destruct (case_insensitive_strcmp _ (string y) =? 0). Qed.

Lemma find_members name es : find_item (bytes_of name) (members parsed_item es) = lookup_entry name es.
Proof.
  pose proof (lookup_members name es) as H. rewrite cJSON_GetObjectItem_find in H. by injection H.
Qed.

Lemma item_top test name :
  item (message_of parsed_item test) name
    = Ok (match lookup_entry name (top_entries test) with
          | Some x => Some x
          | None => if case_insensitive_strcmp (Some (bytes_of name)) (key_of "streams") =? 0
                    then Some (arr (key_of "streams")
                                 (map (fun sp => obj (members parsed_item (stream_entries test sp))) (streams test)))
                    else None
          end).
Proof.
  unfold item. rewrite cJSON_GetObjectItem_find. f_equal. unfold message_of. cbn [child obj].
  rewrite find_item_snoc, find_members. by destruct (lookup_entry _ _).
Qed.

Lemma item_stream test sp name :
  item (obj (members parsed_item (stream_entries test sp))) name = Ok (lookup_entry name (stream_entries test sp)).
Proof. apply lookup_members. Qed.

(** ** Storing the figures *)

(** The stream [b] with the figures of its counterpart [a]. *)
Definition merged (ta : iperf_test) (a b : iperf_stream) : iperf_stream :=
  merge_stream (sent_bytes a) (sent_retransmits ta a) (cnt_error a) (packet_count a) (jitter a)
    (dsub (sent_end a) d0) b.

Lemma merge_stream_id b r e p j t sp : stream_id (merge_stream b r e p j t sp) = stream_id sp.
Proof. unfold merge_stream. by destruct (sender sp). Qed.

Lemma update_stream_at f pre b post :
  Forall (fun sp => stream_id sp <> stream_id b) pre ->
  update_stream (stream_id b) f (pre ++ b :: post) = Some (pre ++ f b :: post).
Proof.
  induction 1 as [|x pre Hx _ IH]; cbn [app update_stream]; [by rewrite Z.eqb_refl|].
  destruct (Z.eqb_spec (stream_id x) (stream_id b)); [done|]. by rewrite IH.
Qed.

Lemma get_stream_parsed ta sp r err test pre b post :
  stream_sendable ta sp -> streams test = pre ++ b :: post -> stream_id b = stream_id sp ->
  Forall (fun x => stream_id x <> stream_id b) pre ->
  get_stream (obj (members parsed_item (stream_entries ta sp))) (r, err, test)
    = Ok (r, err, test {{ streams := pre ++ merged ta sp b :: post }}).
Proof.
  intros [Hi Hb _] Hl Hid Hpre. rewrite !Forall_cons in Hi. destruct Hi as (I1 & I2 & I3 & I4 & _).
  unfold get_stream. rewrite !item_stream. cbn [obind].
  transitivity (match update_stream (i32 (saturate (d_of_Z (stream_id sp))))
    (merge_stream (u64 (saturate (d_of_Z (sent_bytes sp)))) (i32 (saturate (d_of_Z (sent_retransmits ta sp))))
      (i32 (saturate (d_of_Z (cnt_error sp)))) (i32 (saturate (d_of_Z (packet_count sp)))) (jitter sp)
      (dsub (sent_end sp) (sent_start sp))) (streams test) with
    | Some l => Ok (r, err, test {{ streams := l }})
    | None => Ok (-1, Some IESTREAMID, test)
    end); [reflexivity|].
  assert (Hi : forall z, is_i32 z -> i32 (saturate (d_of_Z z)) = z)
    by (intros z Hz; rewrite saturate_int by zlia; by apply i32_small).
  rewrite !Hi by done. rewrite saturate_int, u64_small by zlia.
  rewrite sent_start_zero, Hl, <- Hid, update_stream_at by done. reflexivity.
Qed.

Lemma get_streams_parsed ta la : Forall (stream_sendable ta) la -> forall test pre lb,
  streams test = pre ++ lb -> map stream_id lb = map stream_id la -> NoDup (map stream_id (pre ++ lb)) ->
  get_streams (map (fun sp => obj (members parsed_item (stream_entries ta sp))) la) (0, None, test)
    = Ok (0, None, test {{ streams := pre ++ zip_with (merged ta) la lb }}).
Proof.
  induction 1 as [|a la Ha _ IH]; intros test pre lb Hl Hid Hn.
  { destruct lb; [|done]. cbn. rewrite app_nil_r in *. rewrite <- Hl. by destruct test. }
  destruct lb as [|b lb]; [done|]. cbn [map] in Hid. injection Hid as Hb Hid. cbn [map get_streams].
  rewrite (get_stream_parsed ta a 0 None test pre b lb); [|done|done|done|].
  - cbn [obind]. rewrite (IH _ (pre ++ [merged ta a b]) lb).
    + do 2 f_equal. cbn [zip_with]. rewrite <- app_assoc. by destruct test.
    + by rewrite <- app_assoc.
    + done.
    + rewrite <- app_assoc. rewrite map_app in *. cbn [map app] in *. unfold merged. by rewrite merge_stream_id.
  - rewrite map_app in Hn. apply NoDup_app in Hn as (_ & Hn & _). apply Forall_forall. intros x Hx E.
    apply (Hn (stream_id x)); [by apply list_elem_of_fmap_2|]. rewrite E. cbn. apply list_elem_of_here.
Qed.

(** ** The exchange *)

(** The test [tb] with the results of its peer [ta]. *)
Definition received (ta tb : iperf_test) : iperf_test :=
  let t := tb {{ remote_cpu_util := cpu_util ta }} in
  let t := if mode tb =? RECEIVER
           then t {{ sender_has_retransmits := sent_has_retransmits ta; other_side_has_retransmits := 0 }}
           else if mode tb =? BIDIRECTIONAL
           then t {{ other_side_has_retransmits := sent_has_retransmits ta }} else t in
  let t := t {{ streams := zip_with (merged ta) (streams ta) (streams tb) }} in
  match congestion_used ta with
  | Some s => t {{ remote_congestion_used := Some (cstr_of s) }}
  | None => t
  end.

(** The same streams on both sides. *)
Record peers (ta tb : iperf_test) : Prop := {
  p_ids : map stream_id (streams tb) = map stream_id (streams ta);
  p_distinct : NoDup (map stream_id (streams tb));
  p_count : Z.of_nat (List.length (streams tb)) < 2 ^ 31;
  p_no_output : get_server_output ta = 0 /\ get_server_output tb = 0 }.

Lemma get_figures_parsed ta tb :
  results_sendable ta -> peers ta tb ->
  get_figures (message_of parsed_item ta) tb
    = let t := tb {{ remote_cpu_util := cpu_util ta }} in
      let t := if mode tb =? RECEIVER
               then t {{ sender_has_retransmits := sent_has_retransmits ta; other_side_has_retransmits := 0 }}
               else if mode tb =? BIDIRECTIONAL
               then t {{ other_side_has_retransmits := sent_has_retransmits ta }} else t in
      Ok (0, None, t {{ streams := zip_with (merged ta) (streams ta) (streams tb) }},
          message_of parsed_item ta, None).
Proof.
  intros Hs [Hid Hn Hlen [_ Hg]]. unfold get_figures. rewrite !item_top. cbn [obind].
  change (lookup_entry "cpu_util_total" (top_entries ta))
    with (Some (parsed_item "cpu_util_total" (JDbl (cpu_util ta).1.1))).
  change (lookup_entry "cpu_util_user" (top_entries ta))
    with (Some (parsed_item "cpu_util_user" (JDbl (cpu_util ta).1.2))).
  change (lookup_entry "cpu_util_system" (top_entries ta))
    with (Some (parsed_item "cpu_util_system" (JDbl (cpu_util ta).2))).
  change (lookup_entry "sender_has_retransmits" (top_entries ta))
    with (Some (parsed_item "sender_has_retransmits" (JNum (sent_has_retransmits ta)))).
  change (lookup_entry "streams" (top_entries ta)) with (@None cJSON).
  change (case_insensitive_strcmp (Some (bytes_of "streams")) (key_of "streams") =? 0) with true.
  cbn iota. cbn [parsed_item valuedouble valueint].
  rewrite saturate_int, i32_small by (destruct Hs as [_ H _ _]; zlia).
  replace ((cpu_util ta).1.1, (cpu_util ta).1.2, (cpu_util ta).2) with (cpu_util ta) by by destruct (cpu_util ta) as [[]].
  set (t0 := tb {{ remote_cpu_util := cpu_util ta }}). change (mode t0) with (mode tb).
  set (t1 := if mode tb =? RECEIVER then _ else _).
  assert (E1 : streams t1 = streams tb /\ get_server_output t1 = 0)
    by (unfold t1, t0; destruct (mode tb =? RECEIVER), (mode tb =? BIDIRECTIONAL); by split).
  destruct E1 as [E1 E2].
  assert (El : List.length (streams ta) = List.length (streams tb))
    by (rewrite <- (length_map stream_id (streams ta)), <- Hid; apply length_map).
  unfold cJSON_GetArraySize. cbn [arr child]. rewrite length_map, i32_small by zlia.
  rewrite Nat2Z.id, take_ge by (by rewrite length_map).
  rewrite (get_streams_parsed ta (streams ta) (rs_streams ta Hs) t1 [] (streams tb)) by done. cbn [obind].
  unfold get_output. rewrite E2. change (nonzero_int 0) with false. rewrite andb_false_r. reflexivity.
Qed.

Lemma apply_results_message ta tb :
  results_sendable ta -> peers ta tb ->
  apply_results (message_of parsed_item ta) tb = Ok (0, None, received ta tb, None).
Proof.
  intros Hs Hpe. unfold apply_results. rewrite (get_figures_parsed ta tb Hs Hpe). cbn zeta. cbn [obind].
  unfold on_item. change (cJSON_GetObjectItem (Some ?j) (Some (bytes_of ?n))) with (item j n).
  rewrite item_top. cbn [obind].
  change (lookup_entry "congestion_used" (top_entries ta))
    with (option_map (parsed_item "congestion_used") (option_map JStr (congestion_used ta))).
  unfold received. destruct (congestion_used ta) as [s|]; cbn [option_map].
  - cbn [parsed_item strdup_item]. unfold strdup_item. cbn [valuestring deref obind]. by rewrite cstr_of_idem.
  - reflexivity.
Qed.

(** What a stream [c], which was [b], knows of its counterpart [a]. *)
Record stream_known (ta : iperf_test) (a b c : iperf_stream) : Prop := {
  sk_identity : socket c = socket b /\ stream_id c = stream_id b /\ sender c = sender b;
  sk_packets : peer_packet_count c = packet_count a /\ packet_count c = packet_count b;
  sk_sender : sender b = true -> sender a = false ->
    jitter c = jitter a /\ cnt_error c = cnt_error a /\
    bytes_received (result c) = bytes_received (result a) /\ bytes_sent (result c) = bytes_sent (result b);
  sk_receiver : sender b = false -> sender a = true ->
    jitter c = jitter b /\ cnt_error c = cnt_error b /\
    bytes_sent (result c) = u64 (bytes_sent (result a) - bytes_sent_omit (result a)) /\
    bytes_received (result c) = bytes_received (result b) /\
    (sender_has_retransmits ta <> 0 -> stream_retrans (result c) = stream_retrans (result a)) }.

(** A test [t], which was [tb], knows the results of [ta]. *)
Record results_known (ta tb t : iperf_test) : Prop := {
  rk_cpu : remote_cpu_util t = cpu_util ta;
  rk_count : List.length (streams t) = List.length (streams tb);
  rk_streams i a b : streams ta !! i = Some a -> streams tb !! i = Some b ->
    exists c, streams t !! i = Some c /\ stream_known ta a b c;
  rk_congestion s : congestion_used ta = Some s -> remote_congestion_used t = Some (cstr_of s) }.

Lemma merged_known ta a b : stream_known ta a b (merged ta a b).
Proof.
  unfold merged, merge_stream. constructor; destruct (sender b) eqn:Eb; try done.
  - intros _ Ea. cbn. unfold sent_bytes, constant. by rewrite Ea.
  - intros _ Ea. cbn. unfold sent_bytes, sent_retransmits, constant, nonzero_int. rewrite Ea.
    split_and!; try done. intros Hr. cbn. by destruct (Z.eqb_spec (sender_has_retransmits ta) 0).
Qed.

Lemma received_known ta tb : List.length (streams ta) = List.length (streams tb) -> results_known ta tb (received ta tb).
Proof.
  intros Hl. pose (keep t := (remote_cpu_util t, streams t)).
  assert (E : keep (received ta tb) = (cpu_util ta, zip_with (merged ta) (streams ta) (streams tb))).
  { unfold received. destruct (congestion_used ta), (mode tb =? RECEIVER), (mode tb =? BIDIRECTIONAL); reflexivity. }
  injection E as E1 E2. constructor; [done|rewrite E2, length_zip_with; lia| |].
  - intros i a b Ha Hb. rewrite E2. exists (merged ta a b). split; [|apply merged_known].
    apply lookup_zip_with_Some. by exists a, b.
  - intros s Hs. unfold received. rewrite Hs. reflexivity.
Qed.

(** C6: The results meet.  When both sides have streams with the same distinct
    ids, what one side sends with send_results the other stores with
    get_results, however the connection splits it: every sending stream gets
    the jitter, losses, packet count and received bytes of its counterpart,
    every receiving stream the packet count, sent bytes (without the omitted
    ones) and retransmissions of its counterpart, the figures a stream counted
    itself stay, and the test gets the CPU figures and the congestion control of
    the peer; both calls return 0. *)
Theorem results_exchanged allocate calloc_ok jo jt ol ta tb w text :
  (forall n s, allocate n s = true) -> (forall n, calloc_ok n = true) ->
  results_sendable ta -> peers ta tb ->
  json_text false 0 (message_of item_of ta) = Some text -> Z.of_nat (List.length text) < 2 ^ 31 ->
  serves (4 + List.length text) (out_sched w) ->
  exists w' sent, send_results allocate jo jt ol ta w = Ok (0, None, w') /\ outp w' = outp w ++ sent /\
    forall r rest, inp r = sent ++ rest -> serves (4 + List.length text) (in_sched r) ->
    exists t r', get_results allocate calloc_ok tb r = Ok (0, None, t, None, r') /\ inp r' = rest /\ results_known ta tb t.
Proof.
  intros Ha Hcal Hs Hpe Et Hlen Hw.
  destruct (message_printable ta Hs) as (Hp & Hq & Hd).
  destruct (JSON_write_message allocate calloc_ok Ha w _ text Hp Et Hlen Hw) as (w' & Ew & Eo & _).
  exists w', (message text). split.
  { unfold send_results. rewrite results_message by (right; apply Hpe). cbn [obind]. by rewrite Ew. }
  split; [done|]. intros r rest Hi Hr.
  destruct (JSON_read_message allocate calloc_ok Ha r _ text rest Hp Hq) as (r' & Er & Ei & _); try done.
  { etransitivity; [exact Hd|]. apply Nat.leb_le. reflexivity. }
  exists (received ta tb), r'. split; [|split; [done|]].
  - unfold get_results. rewrite Er, norm_message. cbn [obind]. by rewrite (apply_results_message ta tb Hs Hpe).
  - apply received_known. rewrite <- (length_map stream_id (streams ta)), <- (p_ids ta tb Hpe). apply length_map.
Qed.

(** A TCP sender and its receiver after a test. *)
Definition done_sender : iperf_test :=
  (iperf_set_test_role true (iperf_defaults true) role_client)
    {{ streams := [mk_stream 5 1 true
         (mk_result 0 4096 0 0 1024 0 3 0 0 0 0 0 (mk_time 10 0) (mk_time 12 0) (mk_time 10 0) d0 d0 [])
         true 0 0 0 d0 d0 0 0 0 0] }}.
Definition done_receiver : iperf_test :=
  (fresh_server true)
    {{ streams := [mk_stream 9 1 false
         (mk_result 3072 0 0 0 0 0 0 0 0 0 0 0 (mk_time 50 0) (mk_time 52 0) (mk_time 50 0) d0 d0 [])
         true 0 0 0 d0 d0 0 0 0 0] }}.

Definition done_text : bytes :=
  Eval vm_compute in from_option id [] (json_text false 0 (message_of item_of done_sender)).

Lemma results_exchanged_witness :
  let allocate := fun _ _ => true in
  exists w' sent,
    send_results allocate false cJSON_New_Item [] done_sender (mksock [] [] [] (repeat (Chunk 0) 300)) = Ok (0, None, w') /\
    outp w' = [] ++ sent /\
    forall r rest, inp r = sent ++ rest -> serves (4 + List.length done_text) (in_sched r) ->
    exists t r', get_results allocate (fun _ => true) done_receiver r = Ok (0, None, t, None, r') /\ inp r' = rest /\
      results_known done_sender done_receiver t.
Proof.
  cbn zeta. apply (results_exchanged (fun _ _ => true) (fun _ => true) false cJSON_New_Item [] done_sender
    done_receiver (mksock [] [] [] (repeat (Chunk 0) 300)) done_text); try done.
  - constructor; [repeat constructor; vm_compute; reflexivity|vm_compute; split; congruence|done|].
    constructor; [|constructor]. constructor; [|vm_compute; split; congruence|].
    + repeat constructor; vm_compute; congruence.
    + repeat constructor; vm_compute; reflexivity.
  - constructor; [done|repeat constructor; apply not_elem_of_nil|cbn; lia|done].
  - split; [apply Nat.leb_le; reflexivity|]. cbn. repeat constructor.
Defined.
