(* ===== verification/Control.v ===== *)
(** * The control protocol (iperf_client_api.c, iperf_server_api.c)

    One turn of the event loops of iperf_run_client and iperf_run_server, at
    the level of control messages: a byte with a state, a JSON message, a
    32-bit number.  How messages are written as bytes is Frame.v's business; a
    JSON message carries the item its reader parses ([norm]).  A side that
    waits for the rest of an exchange in the middle of a handler says so in its
    program counter.  Writes to the control connection succeed; printing is
    left out. *)

From coqutil Require Import Datatypes.RecordSetters.
From Stdlib Require Import SpecFloat.
From Stdlib Require Import String.
From S2P Require Import Prelude.
From S2P Require Import IperfTime.
From S2P Require Import Cdouble.
From S2P Require Import CjsonData.
From S2P Require Import CjsonPrint.
From S2P Require Import CjsonParse.
From S2P Require Import CjsonRoundtrip.
From S2P Require Import CjsonTree.
From S2P Require Import JsonObject.
From S2P Require Import Iperf.
From S2P Require Import Frame.
From S2P Require Import Udp.
From S2P Require Import Params.
From S2P Require Import Results.
From S2P Require Import Stats.
From stdpp Require Import base numbers gmap list.
Import DoubleBraceUpdate.

Open Scope Z_scope.
Open Scope c_scope.

Abbreviation IERECVMESSAGE := 112.
Abbreviation IECTRLREAD := 108.
Abbreviation IECTRLCLOSE := 109.
Abbreviation IEMESSAGE := 110.
Abbreviation IECLIENTTERM := 119.
Abbreviation IESERVERTERM := 120.
Abbreviation IEACCESSDENIED := 121.

Inductive cmsg : Type :=
| MCookie (c : bytes)     (* the first bytes of a connection *)
| MState (s : Z)
| MJson (j : cJSON)
| MInt (z : Z).

(** What a read of the control socket finds. *)
Inductive input : Type :=
| Msg (m : cmsg)
| Closed
| Failed.

(** What follows a handler: the event loop goes on, the handler waits for a
    message, the program returns. *)
Inductive pc : Type :=
| Listen                (* a server without a client *)
| Loop
| WaitParams
| WaitResults
| WaitErr1 | WaitErr2   (* the two numbers after SERVER_ERROR *)
| Stop (rv : Z).

Record turn := mk_turn
  { after : pc;
    ierrno : option Z;          (* i_errno, if it is set *)
    t_test : iperf_test;
    sent : list cmsg;
    dialled : list bytes }.     (* data connections made, by the cookie sent *)

(** The item the peer parses from what JSON_write writes. *)
Definition wire (j : cJSON) : cmsg := MJson (norm None j).

Section Control.
Variable has_tcpinfo_retransmits : bool.

(** The descriptor the protocol's connect returns for the n-th stream of a
    client and the i_errno it leaves, whether iperf_new_stream succeeds and the
    i_errno it leaves; the clock. *)
Variable connect_fd : nat -> Z.
Variable connect_errno : Z.
Variable new_stream_errno : nat -> option Z.
Variable now : iperf_time.

(** The output a server can be asked for: whether it is JSON, the JSON, the
    lines of text. *)
Variable json_output : bool.
Variable json_top : cJSON.
Variable output_list : list bytes.

(** ** The client *)

(** iperf_create_streams; test->bind_port, which numbers the local ports, is
    only used by the connect function. *)
Fixpoint iperf_create_streams (n : nat) (is_sender : bool) (test : iperf_test) : option Z * iperf_test :=
  match n with
  | O => (None, test)
  | S n' =>
      let s := connect_fd (List.length (streams test)) in
      if s <? 0 then (Some connect_errno, test)
      else
        let test := if is_sender then test {{ write_set := {[ s ]} ∪ write_set test }}
                    else test {{ read_set := {[ s ]} ∪ read_set test }} in
        match new_stream_errno (List.length (streams test)) with
        | Some e => (Some e, test)
        | None => iperf_create_streams n' is_sender (iperf_add_stream test (blank_stream s is_sender))
        end
  end.

(** Starting the streams of a test: iperf_init_test, the timers (which start
    the test with [done] and [omitting] as here) and iperf_create_send_timers. *)
Definition start_test (test : iperf_test) : iperf_test :=
  let '(_, _, test) := iperf_init_test 0 (Some now) test in
  let test := if nonzero_int (duration test) then test {{ done_ := false }} else test in
  let test := test {{ omitting := nonzero_int (omit test) }} in
  if nonzero_int (mode test)
  then test {{ streams := map (fun sp => sp {{ green_light := true }}) (streams test) }} else test.

Definition quiet_turn (t : iperf_test) : outcome turn := Ok (mk_turn Loop None t [] []).
Definition failed_turn (e : Z) (t : iperf_test) : outcome turn := Ok (mk_turn (Stop (-1)) (Some e) t [] []).

(** iperf_handle_message_client: the streams are created in order, senders
    first; dialling sends the cookie of the test. *)
Definition client_create_streams (test : iperf_test) : outcome turn :=
  let n := Z.to_nat (num_streams test) in
  let before := List.length (streams test) in
  let '(e, test) :=
    if mode test =? BIDIRECTIONAL
    then match iperf_create_streams n true test with
         | (None, test) => iperf_create_streams n false test
         | r => r
         end
    else iperf_create_streams n (nonzero_int (mode test)) test in
  let dials := repeat (cookie test) (List.length (streams test) - before) in
  match e with
  | None => Ok (mk_turn Loop None test [] dials)
  | Some e => Ok (mk_turn (Stop (-1)) (Some e) test [] dials)
  end.

(** iperf_client_end: the streams and the control socket are closed. *)
Definition iperf_client_end (test : iperf_test) : turn :=
  mk_turn Loop None (test {{ state := IPERF_DONE }}) [MState IPERF_DONE] [].

Definition iperf_handle_message_client (test : iperf_test) (i : input) : outcome turn :=
  match i with
  | Closed => failed_turn IECTRLCLOSE test
  | Failed => failed_turn IERECVMESSAGE test
  | Msg (MState s) =>
      let test := test {{ state := s }} in
      if s =? PARAM_EXCHANGE then let! j := parameters test in Ok (mk_turn Loop None test [wire j] [])
      else if s =? CREATE_STREAMS then client_create_streams test
      else if s =? TEST_START then quiet_turn (start_test test)
      else if s =? TEST_RUNNING then quiet_turn test
      else if s =? EXCHANGE_RESULTS
      then let! j := results json_output json_top output_list test in Ok (mk_turn WaitResults None test [wire j] [])
      else if s =? DISPLAY_RESULTS then Ok (iperf_client_end test)
      else if s =? IPERF_DONE then quiet_turn test
      else if s =? SERVER_TERMINATE then failed_turn IESERVERTERM test
      else if s =? ACCESS_DENIED then failed_turn IEACCESSDENIED test
      else if s =? SERVER_ERROR then Ok (mk_turn WaitErr1 None test [] [])
      else failed_turn IEMESSAGE test
  | Msg _ => UB   (* the bytes of another message would be taken for a state *)
  end.

(** A client that waits in the middle of a handler gets a message. *)
Definition client_resume (p : pc) (test : iperf_test) (m : cmsg) : outcome turn :=
  match p, m with
  | WaitResults, MJson j =>
      let! r := apply_results j test in
      let '(rc, e, test, _) := r in
      if rc <? 0 then Ok (mk_turn (Stop (-1)) e test [] []) else Ok (mk_turn Loop None test [] [])
  | WaitErr1, MInt z => Ok (mk_turn WaitErr2 (Some z) test [] [])
  | WaitErr2, MInt _ => Ok (mk_turn (Stop (-1)) None test [] [])
  | _, _ => UB
  end.

(** One message for a client; when the state becomes IPERF_DONE the loop of
    iperf_run_client ends and it returns 0. *)
Definition client_turn (p : pc) (test : iperf_test) (i : input) : outcome turn :=
  let! r :=
    match p, i with
    | Loop, i => iperf_handle_message_client test i
    | Stop rv, _ => Ok (mk_turn (Stop rv) None test [] [])
    | p, Msg m => client_resume p test m
    | WaitResults, _ => failed_turn IERECVRESULTS test
    | WaitErr1, Closed => UB                                          (* [err] is used uninitialised *)
    | WaitErr2, Closed => Ok (mk_turn (Stop (-1)) None test [] [])    (* [err] keeps the first number *)
    | _, _ => failed_turn IECTRLREAD test
    end in
  match after r with
  | Loop => if state (t_test r) =? IPERF_DONE
            then Ok (mk_turn (Stop 0) (ierrno r) (t_test r) (sent r) (dialled r)) else Ok r
  | _ => Ok r
  end.

(** The end condition of the loop of iperf_run_client. *)
Definition client_done (test : iperf_test) : bool :=
  negb (omitting test) &&
  ((nonzero_int (duration test) && done_ test)
   || (nonzero_int (bytes_ (settings test)) && (bytes_ (settings test) <=? t_bytes_sent test))
   || (nonzero_int (blocks (settings test)) && (blocks (settings test) <=? t_blocks_sent test))).

(** ** The server *)

Record server := mk_server
  { sv_pc : pc;
    sv_test : iperf_test;
    rec_streams_accepted : Z;
    send_streams_accepted : Z;
    streams_to_rec : Z;
    streams_to_send : Z }.

(** The descriptor of the protocol's listen (negative: failure) and the i_errno
    and errno it leaves. *)
Variable listen_fd : Z.
Variable listen_errors : Z * Z.

Definition sv_set (p : pc) (t : iperf_test) (s : server) : server :=
  mk_server p t (rec_streams_accepted s) (send_streams_accepted s) (streams_to_rec s) (streams_to_send s).

(** The part of iperf_run_server that starts the test once all streams are
    there; the listening socket of the control connection, which is made anew
    after a TCP test with socket options, is not part of the state. *)
Definition start_when_complete (s : server) : server * list cmsg :=
  if (state (sv_test s) =? CREATE_STREAMS) &&
     (rec_streams_accepted s =? streams_to_rec s) && (send_streams_accepted s =? streams_to_send s)
  then
    let t := sv_test s in
    let t := if negb (protocol t =? Ptcp) then t {{ read_set := read_set t ∖ {[ prot_listener t ]} }} else t in
    let t := t {{ prot_listener := -1; state := TEST_START }} in
    let t := start_test t in
    (sv_set (sv_pc s) (t {{ state := TEST_RUNNING }}) s, [MState TEST_START; MState TEST_RUNNING])
  else (s, []).

(** iperf_accept: a free server takes the client and asks for the parameters;
    a busy one answers ACCESS_DENIED on the new connection. [fd] is the
    accepted socket (negative if accept fails), [c] the cookie once Nread
    returned ([None] if it fails).  The messages are for the new connection. *)
Definition iperf_accept (s : server) (fd : Z) (c : option bytes) : server * list cmsg :=
  if fd <? 0 then (sv_set (Stop (-1)) (sv_test s) s, [])      (* IEACCEPT *)
  else if ctrl_sck (sv_test s) =? -1
  then
    match c with
    | None => (sv_set (Stop (-1)) ((sv_test s) {{ ctrl_sck := fd }}) s, [])     (* IERECVCOOKIE *)
    | Some c =>
        let t := (sv_test s) {{ ctrl_sck := fd; cookie := c; read_set := {[ fd ]} ∪ read_set (sv_test s);
                                state := PARAM_EXCHANGE }} in
        (sv_set WaitParams t s, [MState PARAM_EXCHANGE])
    end
  else (s, [MState ACCESS_DENIED]).

(** The streams a server receives and sends. *)
Definition expected_streams (t : iperf_test) : Z * Z :=
  let n := num_streams t in
  if mode t =? BIDIRECTIONAL then (n, n) else if mode t =? RECEIVER then (n, 0) else (0, n).

(** The rest of iperf_accept, when the parameters are there: listening for the
    streams, CPU affinity (not supported in this build), and how many streams
    to expect. *)
Definition take_params (s : server) (j : cJSON) : outcome (server * list cmsg) :=
  let! t := apply_parameters has_tcpinfo_retransmits j (sv_test s) in
  if listen_fd <? 0
  then Ok (sv_set (Stop (-1)) (t {{ state := SERVER_ERROR }}) s,
           [MState SERVER_ERROR; MInt (fst listen_errors); MInt (snd listen_errors)])
  else
    let t := t {{ read_set := {[ listen_fd ]} ∪ read_set t; prot_listener := listen_fd; state := CREATE_STREAMS }} in
    if negb (server_affinity t =? -1) then Ok (sv_set (Stop (-1)) t s, [MState CREATE_STREAMS])
    else
      let '(rec, snd) := expected_streams t in
      Ok (mk_server Loop t (rec_streams_accepted s) (send_streams_accepted s) rec snd, [MState CREATE_STREAMS]).

(** A data connection while streams are created (iperf_tcp_accept; UDP sends no
    cookie and every connection is accepted as if it had the right one): a
    stream with another cookie is closed and not used, the first streams are
    received, the others sent. [fd] is the accepted socket; the flag of the
    loop is -1 after each stream and uninitialised before the first. *)
Definition take_stream (s : server) (fd : Z) (c : bytes) : outcome server :=
  if bool_decide (c = cookie (sv_test s))
  then
    let rec := negb (rec_streams_accepted s =? streams_to_rec s) in
    if rec || negb (send_streams_accepted s =? streams_to_send s)
    then
      let t := sv_test s in
      let sp := blank_stream fd (negb rec) in
      match new_stream_errno (List.length (streams t)) with
      | Some e => Ok (sv_set (Stop (-1)) t s)
      | None =>
          let t := iperf_add_stream t sp in
          let t := if rec then t {{ read_set := {[ fd ]} ∪ read_set t }}
                   else t {{ write_set := {[ fd ]} ∪ write_set t }} in
          Ok (mk_server (sv_pc s) t
                (if rec then rec_streams_accepted s + 1 else rec_streams_accepted s)
                (if rec then send_streams_accepted s else send_streams_accepted s + 1)
                (streams_to_rec s) (streams_to_send s))
      end
    else if (rec_streams_accepted s =? 0) && (send_streams_accepted s =? 0)
    then UB   (* [flag] is used uninitialised *)
    else Ok s   (* [flag] is -1 since the last stream *)
  else Ok s.

(** Unless the server returns, it goes on to the start of the test. *)
Definition then_start (s : server) : server * list cmsg :=
  match sv_pc s with
  | Stop _ => (s, [])
  | _ => start_when_complete s
  end.

Definition server_params (s : server) (j : cJSON) : outcome (server * list cmsg) :=
  let! r := take_params s j in
  let '(s, m) := r in
  let '(s, m') := then_start s in Ok (s, m ++ m').

Definition server_accept_stream (s : server) (fd : Z) (c : bytes) : outcome (server * list cmsg) :=
  let! s := take_stream s fd c in Ok (then_start s).

(** The streams leave the sets of descriptors and are closed. *)
Definition drop_streams (t : iperf_test) : iperf_test :=
  let fds := list_to_set (map socket (streams t)) in
  t {{ read_set := read_set t ∖ fds; write_set := write_set t ∖ fds }}.

(** iperf_handle_message_server; [stats] is the effect of the last statistics
    callback. *)
Definition iperf_handle_message_server (stats : iperf_test -> iperf_test) (s : server) (i : input)
    : outcome (server * list cmsg) :=
  let t := sv_test s in
  match i with
  | Closed => Ok (sv_set Loop (t {{ state := IPERF_DONE }}) s, [])
  | Failed => Ok (sv_set (Stop (-1)) t s, [])
  | Msg (MState m) =>
      let t := t {{ state := m }} in
      if m =? TEST_START then Ok (sv_set Loop t s, [])
      else if m =? TEST_END
      then
        let t := drop_streams (stats (t {{ done_ := true }})) in
        Ok (sv_set WaitResults (t {{ state := EXCHANGE_RESULTS }}) s, [MState EXCHANGE_RESULTS])
      else if m =? IPERF_DONE then Ok (sv_set Loop t s, [])
      else if m =? CLIENT_TERMINATE
      then Ok (sv_set Loop ((drop_streams t) {{ state := IPERF_DONE }}) s, [])
      else Ok (sv_set (Stop (-1)) t s, [])    (* IEMESSAGE *)
  | Msg _ => UB
  end.

(** The rest of the handler of TEST_END. *)
Definition server_results (s : server) (j : cJSON) : outcome (server * list cmsg) :=
  let! r := apply_results j (sv_test s) in
  let '(rc, _, t, _) := r in
  if rc <? 0 then Ok (sv_set (Stop (-1)) t s, [])
  else
    let! jr := results json_output json_top output_list t in
    Ok (sv_set Loop (t {{ state := DISPLAY_RESULTS }}) s, [wire jr; MState DISPLAY_RESULTS]).

(** One control message for a server; when the state becomes IPERF_DONE the
    loop of iperf_run_server ends and it returns 0. *)
Definition server_turn (stats : iperf_test -> iperf_test) (s : server) (i : input) : outcome (server * list cmsg) :=
  let! r :=
    match sv_pc s, i with
    | Loop, i => iperf_handle_message_server stats s i
    | WaitParams, Msg (MJson j) => server_params s j
    | WaitResults, Msg (MJson j) => server_results s j
    | WaitParams, Msg _ | WaitResults, Msg _ => UB
    | WaitParams, _ | WaitResults, _ => Ok (sv_set (Stop (-1)) (sv_test s) s, [])
    | _, _ => Ok (s, [])
    end in
  let '(s, m) := r in
  match sv_pc s with
  | Loop => if state (sv_test s) =? IPERF_DONE then Ok (sv_set (Stop 0) (sv_test s) s, m) else Ok (s, m)
  | _ => Ok (s, m)
  end.

End Control.
