(* ===== verification/Protocol.v ===== *)
(** * Client and server together

    The two event loops of Control.v joined by the two directions of the
    control connection and by the data connections, as a step relation: any
    order of turns, transfers and timers is a run.  Nothing fails from outside
    (connections are made, memory is there).  The theorems: a run never goes
    wrong, every run ends with both sides done, and each side then holds the
    results of the other. *)

From coqutil Require Import Datatypes.RecordSetters.
From Stdlib Require Import SpecFloat.
From Stdlib Require Import String.
From S2P Require Import Prelude.
From S2P Require Import IperfTime.
From S2P Require Import Cdouble.
From S2P Require Import CjsonData.
From S2P Require Import CjsonPrint.
From S2P Require Import CjsonPrintSpec.
From S2P Require Import CjsonParse.
From S2P Require Import CjsonRoundtrip.
From S2P Require Import CjsonTree.
From S2P Require Import JsonObject.
From S2P Require Import Iperf.
From S2P Require Import Frame.
From S2P Require Import Udp.
From S2P Require Import Transfer.
From S2P Require Import Stats.
From S2P Require Import Params.
From S2P Require Import ParamsProof.
From S2P Require Import ParamsThms.
From S2P Require Import Results.
From S2P Require Import ResultsProof.
From S2P Require Import Control.
From stdpp Require Import base numbers gmap list relations.
Import DoubleBraceUpdate.

Open Scope Z_scope.
Open Scope c_scope.

Record system := mk_system
  { cl_pc : pc;
    cl_test : iperf_test;
    sv : server;
    to_server : list cmsg;
    to_client : list cmsg;
    conns : list bytes;       (* data connections not accepted yet, by cookie *)
    work : nat }.             (* transfers and callbacks that can still happen *)

(** ** Transfers and statistics

    What moving data and the statistics do to a test: counters, figures of the
    streams and sets of descriptors change, and nothing else. *)
Definition same_control (t t' : iperf_test) : Prop :=
  t' = t {{ streams := streams t'; t_bytes_sent := t_bytes_sent t'; t_blocks_sent := t_blocks_sent t';
            t_bytes_received := t_bytes_received t'; t_blocks_received := t_blocks_received t';
            read_set := read_set t'; write_set := write_set t'; cpu_util := cpu_util t' }} /\
  map identity (streams t') = map identity (streams t).

(** ... and at the end the figures are in the range JSON numbers carry exactly. *)
Definition data_step (t t' : iperf_test) : Prop := same_control t t' /\ results_sendable t'.

(** What the platform decides: whether TCP retransmissions are reported, the
    descriptors of connect and listen, the output kept for the client. *)
Record env := mk_env
  { has_tcpinfo_retransmits : bool;
    connect_fd : nat -> Z;
    listen_fd : Z;
    json_output : bool;
    json_top : cJSON;
    output_list : list bytes }.

(** Connecting and listening succeed. *)
Record env_ok (e : env) : Prop := {
  eo_connect n : 0 <= connect_fd e n;
  eo_listen : 0 <= listen_fd e }.

Section Protocol.
Variable e : env.

Definition no_errno (n : nat) : option Z := None.

Definition client_turn' (now : iperf_time) :=
  client_turn (connect_fd e) 0 no_errno now (json_output e) (json_top e) (output_list e).
Definition server_turn' (now : iperf_time) :=
  server_turn (has_tcpinfo_retransmits e) now (json_output e) (json_top e) (output_list e) (listen_fd e) (0, 0).

Inductive step : system -> system -> Prop :=
(** the client handles a message *)
| client_msg now p t s ts m tc cs w r :
    (forall rv, p <> Stop rv) -> client_turn' now p t (Msg m) = Ok r ->
    step (mk_system p t s ts (m :: tc) cs w)
         (mk_system (after r) (t_test r) s (ts ++ sent r) tc (cs ++ dialled r) w)
(** its omit timer and its test timer fire *)
| client_omit now ti t s ts tc cs w :
    state t = TEST_RUNNING -> omitting t = true ->
    step (mk_system Loop t s ts tc cs w)
         (mk_system Loop ((iperf_reset_stats t now ti) {{ omitting := false }}) s ts tc cs w)
| client_timer t s ts tc cs w :
    state t = TEST_RUNNING -> done_ t = false ->
    step (mk_system Loop t s ts tc cs w) (mk_system Loop (t {{ done_ := true }}) s ts tc cs w)
(** it moves data *)
| client_data t t' s ts tc cs w :
    state t = TEST_RUNNING -> same_control t t' ->
    step (mk_system Loop t s ts tc cs (S w)) (mk_system Loop t' s ts tc cs w)
(** it goes on receiving after the end of a reverse test *)
| client_drain t t' s ts tc cs w :
    state t = TEST_END -> mode t = RECEIVER -> data_step t t' ->
    step (mk_system Loop t s ts tc cs (S w)) (mk_system Loop t' s ts tc cs w)
(** it ends the test: the last statistics callback and TEST_END *)
| client_finish t t' s ts tc cs w :
    state t = TEST_RUNNING -> client_done t = true -> data_step (t {{ done_ := true }}) t' ->
    step (mk_system Loop t s ts tc cs w)
         (mk_system Loop (t' {{ state := TEST_END }}) s (ts ++ [MState TEST_END]) tc cs w)
(** the server takes the client *)
| server_hello fd p t s ts tc cs w ck s' ms :
    sv_pc s = Listen -> 0 <= fd -> iperf_accept s fd (Some ck) = (s', ms) ->
    step (mk_system p t s (MCookie ck :: ts) tc cs w) (mk_system p t s' ts (tc ++ ms) cs w)
(** it handles a message *)
| server_msg now p t s ts tc cs w m s' ms :
    sv_pc s ∈ [Loop; WaitParams; WaitResults] -> m <> MState TEST_END ->
    server_turn' now id s (Msg m) = Ok (s', ms) ->
    step (mk_system p t s (m :: ts) tc cs w) (mk_system p t s' ts (tc ++ ms) cs w)
(** the end of the test, with the last statistics callback *)
| server_end now stats p t s ts tc cs w s' ms :
    sv_pc s = Loop -> data_step ((sv_test s) {{ state := TEST_END; done_ := true }})
                        (stats ((sv_test s) {{ state := TEST_END; done_ := true }})) ->
    server_turn' now stats s (Msg (MState TEST_END)) = Ok (s', ms) ->
    step (mk_system p t s (MState TEST_END :: ts) tc cs w) (mk_system p t s' ts (tc ++ ms) cs w)
(** it accepts a data connection *)
| server_stream now fd p t s ts tc cs w ck s' ms :
    sv_pc s = Loop -> state (sv_test s) = CREATE_STREAMS -> 0 <= fd ->
    server_accept_stream no_errno now s fd ck = Ok (s', ms) ->
    step (mk_system p t s ts tc (ck :: cs) w) (mk_system p t s' ts (tc ++ ms) cs w)
(** its omit timer fires *)
| server_omit now ti p t s ts tc cs w :
    sv_pc s = Loop -> state (sv_test s) = TEST_RUNNING -> omitting (sv_test s) = true ->
    step (mk_system p t s ts tc cs w)
         (mk_system p t (sv_set Loop ((iperf_reset_stats (sv_test s) now ti) {{ omitting := false }}) s) ts tc cs w)
(** it moves data *)
| server_data p t s t' ts tc cs w :
    sv_pc s = Loop -> state (sv_test s) = TEST_RUNNING -> same_control (sv_test s) t' ->
    step (mk_system p t s ts tc cs (S w)) (mk_system p t (sv_set Loop t' s) ts tc cs w).

(** ** The beginning and the end *)

Variable base : iperf_test.
Variable c : iperf_test.

(** A server that waits for a client: it has the defaults or was reset after a
    test, and keeps no output for a client. *)
Definition ready : Prop :=
  exists l, base = iperf_reset_test (has_tcpinfo_retransmits e) l /\ protocols l = [Ptcp; Pudp] /\
    get_server_output l = 0 /\ congestion_used l = None.

Definition server0 : server := mk_server Listen (base {{ state := IPERF_START }}) 0 0 0 0.

(** The client has connected and sent its cookie. *)
Definition start (w : nat) : system := mk_system Loop c server0 [MCookie (cookie c)] [] [] w.

(** What is assumed of the client's test. *)
Record client_ok : Prop := {
  co_sendable : sendable c;
  co_config : client_config c;
  co_role : role c = role_client;
  co_state : state c = 0;
  co_streams : streams c = [];
  co_count : 1 <= num_streams c < 2 ^ 29;
  co_duration : duration c <> 0;
  co_output : get_server_output c = 0;
  co_affinity : server_affinity c = -1;
  co_retransmits : is_i32 (sender_has_retransmits c) }.

(** The streams of the client in the order they are made: true for a sender. *)
Definition flags : list bool :=
  let n := Z.to_nat (num_streams c) in
  if mode c =? BIDIRECTIONAL then repeat true n ++ repeat false n else repeat (nonzero_int (mode c)) n.

Definition has_streams (fl : list bool) (t : iperf_test) : Prop := ids_ok t /\ map sender (streams t) = fl.

(** What does not change in the test of the client ... *)
Record client_like (t : iperf_test) : Prop := {
  cl_role : role t = role_client;
  cl_mode : mode t = mode c;
  cl_output : get_server_output t = 0;
  cl_duration : duration t = duration c;
  cl_cookie : cookie t = cookie c;
  cl_num : num_streams t = num_streams c;
  cl_retransmits : sender_has_retransmits t = sender_has_retransmits c;
  cl_congestion : congestion_used t = congestion_used c }.

(** ... and in that of the server. *)
Record server_like (t : iperf_test) : Prop := {
  sl_mode : mode t = peer_mode (mode c);
  sl_num : num_streams t = num_streams c;
  sl_ctrl : ctrl_sck t <> -1;
  sl_output : get_server_output t = 0;
  sl_cookie : cookie t = cookie c;
  sl_retransmits : 0 <= sender_has_retransmits t <= 1;
  sl_protocols : protocols t = [Ptcp; Pudp];
  sl_congestion : congestion_used t = option_map cstr_of (congestion_used c) }.

(** The number of streams the server receives and sends. *)
Definition to_rec : Z := if mode c =? BIDIRECTIONAL then num_streams c
  else if mode c =? SENDER then num_streams c else 0.
Definition to_send : Z := if mode c =? BIDIRECTIONAL then num_streams c
  else if mode c =? SENDER then 0 else num_streams c.

(** The server after [k] data connections. *)
Definition accepted (k : nat) (p : pc) (t : iperf_test) : server :=
  mk_server p t (Z.min (Z.of_nat k) to_rec) (Z.of_nat k - Z.min (Z.of_nat k) to_rec) to_rec to_send.

Definition total_streams : nat := List.length flags.

(** The phases of a run, counted down. *)
Inductive phase : nat -> system -> Prop :=
| P_hello w : phase 15 (start w)
| P_asked fd rs w :
    0 <= fd -> phase 14 (mk_system Loop c
      (mk_server WaitParams (with_session fd (cookie c) rs ∅ PARAM_EXCHANGE base) 0 0 0 0)
      [] [MState PARAM_EXCHANGE] [] w)
| P_told fd rs w :
    0 <= fd -> phase 13 (mk_system Loop (c {{ state := PARAM_EXCHANGE }})
      (mk_server WaitParams (with_session fd (cookie c) rs ∅ PARAM_EXCHANGE base) 0 0 0 0)
      [MJson (msg c)] [] [] w)
| P_create ts w :
    server_like ts -> state ts = CREATE_STREAMS -> streams ts = [] ->
    phase 12 (mk_system Loop (c {{ state := PARAM_EXCHANGE }}) (accepted 0 Loop ts) [] [MState CREATE_STREAMS] [] w)
| P_accepting k t ts w :
    client_like t -> state t = CREATE_STREAMS -> has_streams flags t ->
    server_like ts -> state ts = CREATE_STREAMS -> has_streams (map negb (take k flags)) ts ->
    (k < total_streams)%nat ->
    phase 11 (mk_system Loop t (accepted k Loop ts) [] [] (repeat (cookie c) (total_streams - k)) w)
| P_started t ts w :
    client_like t -> state t = CREATE_STREAMS -> has_streams flags t ->
    server_like ts -> state ts = TEST_RUNNING -> has_streams (map negb flags) ts ->
    phase 10 (mk_system Loop t (accepted total_streams Loop ts) [] [MState TEST_START; MState TEST_RUNNING] [] w)
| P_starting t ts w :
    client_like t -> state t = TEST_START -> has_streams flags t ->
    server_like ts -> state ts = TEST_RUNNING -> has_streams (map negb flags) ts ->
    phase 9 (mk_system Loop t (accepted total_streams Loop ts) [] [MState TEST_RUNNING] [] w)
| P_running t ts w :
    client_like t -> state t = TEST_RUNNING -> has_streams flags t ->
    server_like ts -> state ts = TEST_RUNNING -> has_streams (map negb flags) ts ->
    phase 8 (mk_system Loop t (accepted total_streams Loop ts) [] [] [] w)
| P_ending t ts w :
    client_like t -> state t = TEST_END -> has_streams flags t -> results_sendable t ->
    server_like ts -> state ts = TEST_RUNNING -> has_streams (map negb flags) ts ->
    phase 7 (mk_system Loop t (accepted total_streams Loop ts) [MState TEST_END] [] [] w)
| P_exchange t ts w :
    client_like t -> state t = TEST_END -> has_streams flags t -> results_sendable t ->
    server_like ts -> has_streams (map negb flags) ts -> results_sendable ts ->
    phase 6 (mk_system Loop t (accepted total_streams WaitResults ts) [] [MState EXCHANGE_RESULTS] [] w)
| P_sent t ts w :
    client_like t -> state t = EXCHANGE_RESULTS -> has_streams flags t -> results_sendable t ->
    server_like ts -> has_streams (map negb flags) ts -> results_sendable ts ->
    phase 5 (mk_system WaitResults t (accepted total_streams WaitResults ts)
      [MJson (message_of parsed_item t)] [] [] w)
| P_back t ts w :
    client_like t -> state t = EXCHANGE_RESULTS -> has_streams flags t -> results_sendable t ->
    server_like ts -> has_streams (map negb flags) ts -> results_sendable ts ->
    phase 4 (mk_system WaitResults t
      (accepted total_streams Loop ((received t ts) {{ state := DISPLAY_RESULTS }}))
      [] [MJson (message_of parsed_item (received t ts)); MState DISPLAY_RESULTS] [] w)
| P_display t ts w :
    client_like t -> state t = EXCHANGE_RESULTS -> has_streams flags t -> results_sendable t ->
    server_like ts -> has_streams (map negb flags) ts -> results_sendable ts ->
    phase 3 (mk_system Loop (received (received t ts) t)
      (accepted total_streams Loop ((received t ts) {{ state := DISPLAY_RESULTS }}))
      [] [MState DISPLAY_RESULTS] [] w)
| P_bye t ts w :
    client_like t -> has_streams flags t -> results_sendable t ->
    server_like ts -> has_streams (map negb flags) ts -> results_sendable ts ->
    phase 2 (mk_system (Stop 0) ((received (received t ts) t) {{ state := IPERF_DONE }})
      (accepted total_streams Loop ((received t ts) {{ state := DISPLAY_RESULTS }})) [MState IPERF_DONE] [] [] w)
| P_over t ts w :
    client_like t -> has_streams flags t -> results_sendable t ->
    server_like ts -> has_streams (map negb flags) ts -> results_sendable ts ->
    phase 1 (mk_system (Stop 0) ((received (received t ts) t) {{ state := IPERF_DONE }})
      (accepted total_streams (Stop 0) ((received t ts) {{ state := IPERF_DONE }})) [] [] [] w).

End Protocol.
