(* ===== verification/DataStep.v ===== *)
(** * Transfers and statistics leave the control state alone

    iperf_send, iperf_recv and iperf_stats_callback change counters, the figures
    of the streams and the sets of descriptors of a test and nothing else: they
    are what Protocol.v lets happen between two control messages. *)

From coqutil Require Import Datatypes.RecordSetters.
From Stdlib Require Import SpecFloat.
From S2P Require Import Prelude.
From S2P Require Import IperfTime.
From S2P Require Import Cdouble.
From S2P Require Import Iperf.
From S2P Require Import Frame.
From S2P Require Import Udp.
From S2P Require Import Transfer.
From S2P Require Import Stats.
From S2P Require Import Protocol.
From stdpp Require Import base numbers gmap list.
Import DoubleBraceUpdate.

Open Scope Z_scope.
Open Scope c_scope.

(** All but the counters, the streams and the sets. *)
Definition same_fields (t t' : iperf_test) : Prop :=
  t' = t {{ streams := streams t'; t_bytes_sent := t_bytes_sent t'; t_blocks_sent := t_blocks_sent t';
            t_bytes_received := t_bytes_received t'; t_blocks_received := t_blocks_received t';
            read_set := read_set t'; write_set := write_set t'; cpu_util := cpu_util t' }}.

#[export] Instance same_fields_refl : Reflexive same_fields.
Proof. intros []. reflexivity. Qed.

#[export] Instance same_fields_trans : Transitive same_fields.
Proof. unfold same_fields. intros x y z E1 E2. rewrite E2, E1. reflexivity. Qed.

Lemma same_fields_streams t t' l : same_fields t t' -> same_fields t (t' {{ streams := l }}).
Proof. unfold same_fields. intros E. rewrite E. reflexivity. Qed.

Lemma same_fields_sets t t' b k ws :
  same_fields t t' -> same_fields t (t' {{ t_bytes_sent := b; t_blocks_sent := k; write_set := ws }}).
Proof. unfold same_fields. intros E. rewrite E. reflexivity. Qed.

#[export] Instance same_control_refl : Reflexive same_control.
Proof. intros t. split; [apply same_fields_refl|done]. Qed.

#[export] Instance same_control_trans : Transitive same_control.
Proof. intros x y z [E1 I1] [E2 I2]. split; [exact (same_fields_trans _ _ _ E1 E2)|congruence]. Qed.

Section Data.
Context {W : Type} (snd_fn rcv_fn : iperf_test -> iperf_stream -> W -> outcome (Z * iperf_stream * W))
  (clock : W -> iperf_time * W).

Lemma send_stream_fields ms now wsP test sp w fl act test' sp' w' :
  send_stream snd_fn ms now wsP test sp w = Ok (fl, act, test', sp', w') -> same_fields test test'.
Proof.
  unfold send_stream. intros H. destruct (green_light sp && sender sp && _); [|by injection H as <- <- <- <- <-].
  destruct (snd_fn test sp w) as [[[r sp1] w1]| |]; cbn [obind] in H; [|done|done].
  destruct (r <? 0); [destruct (r =? _); by injection H as <- <- <- <- <-|].
  set (t1 := test {{ t_bytes_sent := _; t_blocks_sent := _ }}) in H.
  destruct (if _ && _ then iperf_check_throttle t1 sp1 now else Ok (sp1, write_set t1)) as [[sp2 ws]| |];
    cbn [obind] in H; [|done|done].
  assert (E : test' = t1 {{ write_set := ws }})
    by (destruct (_ && _) in H; [by injection H|destruct (_ && _) in H; by injection H]).
  rewrite E. by destruct test.
Qed.

Lemma send_pass_fields ms now wsP todo : forall test active w ret act test' l' w',
  send_pass snd_fn ms now wsP test active todo w = Ok (ret, act, test', l', w') -> same_fields test test'.
Proof.
  induction todo as [|sp todo IH]; intros test active w ret act test' l' w' H; cbn [send_pass] in H.
  { by injection H as <- <- <- <- <-. }
  destruct (send_stream _ _ _ _ _ _ _) as [[[[[fl a] t1] sp1] w1]| |] eqn:E; cbn [obind] in H; [|done|done].
  apply send_stream_fields in E. destruct fl; [|by injection H as <- <- <- <- <-|by injection H as <- <- <- <- <-].
  destruct (send_pass _ _ _ _ _ _ _ _) as [[[[[rt ac] t2] l2] w2]| |] eqn:E2; cbn [obind] in H; [|done|done].
  injection H as <- <- <- <- <-. etransitivity; [exact E|by eapply IH].
Qed.

Lemma send_passes_fields n wsP : forall now test w ret test' w',
  send_passes snd_fn clock n now wsP test w = Ok (ret, test', w') -> same_fields test test'.
Proof.
  induction n as [|n IH]; intros now test w ret test' w' H; cbn [send_passes] in H; [by injection H as <- <- <-|].
  destruct (if _ && _ then clock w else _) as [now1 w1].
  destruct (send_pass _ _ _ _ _ _ _ _) as [[[[[rt ac] t1] l1] w2]| |] eqn:E; cbn [obind] in H; [|done|done].
  apply send_pass_fields, (same_fields_streams _ _ l1) in E.
  destruct rt; [by injection H as <- <- <-|]. destruct ac; [|by injection H as <- <- <-].
  etransitivity; [exact E|by eapply IH].
Qed.

Lemma throttle_all_fields now todo : forall test test' l',
  throttle_all now test todo = Ok (test', l') -> same_fields test test'.
Proof.
  induction todo as [|sp todo IH]; intros test test' l' H; cbn [throttle_all] in H; [by injection H as <- <-|].
  destruct (iperf_check_throttle _ _ _) as [[sp1 ws]| |]; cbn [obind] in H; [|done|done].
  destruct (throttle_all _ _ _) as [[t2 l2]| |] eqn:E2; cbn [obind] in H; [|done|done]. injection H as <- <-.
  apply IH in E2. etransitivity; [|exact E2]. by destruct test.
Qed.

Lemma iperf_send_fields test wsP now0 w rv err test' ws' w' :
  iperf_send snd_fn clock test wsP now0 w = Ok (rv, err, test', ws', w') -> same_fields test test'.
Proof.
  unfold iperf_send. intros H.
  destruct (send_passes _ _ _ _ _ _ _) as [[[ret t1] w1]| |] eqn:E; cbn [obind] in H; [|done|done].
  apply send_passes_fields in E. destruct ret; [by injection H as <- <- <- <- <-|].
  destruct (negb _).
  - destruct (clock w1) as [now w2].
    destruct (throttle_all _ _ _) as [[t2 l2]| |] eqn:Et; cbn [obind] in H; [|done|done].
    injection H as <- <- <- <- <-. apply throttle_all_fields in Et.
    apply same_fields_streams. by etransitivity.
  - cbn [obind] in H. by injection H as <- <- <- <- <-.
Qed.

Lemma recv_pass_fields todo : forall test rs w ret test' rs' l' w',
  recv_pass rcv_fn test rs todo w = Ok (ret, test', rs', l', w') -> same_fields test test'.
Proof.
  induction todo as [|sp todo IH]; intros test rs w ret test' rs' l' w' H; cbn [recv_pass] in H.
  { by injection H as <- <- <- <- <-. }
  destruct (bool_decide _ && _).
  - destruct (rcv_fn test sp w) as [[[r sp1] w1]| |]; cbn [obind] in H; [|done|done].
    destruct (r <? 0); [by injection H as <- <- <- <- <-|].
    destruct (recv_pass _ _ _ _ _) as [[[[[rt t2] rs2] l2] w2]| |] eqn:E2; cbn [obind] in H; [|done|done].
    injection H as <- <- <- <- <-. apply IH in E2. etransitivity; [|exact E2]. by destruct test.
  - destruct (recv_pass _ _ _ _ _) as [[[[[rt t2] rs2] l2] w2]| |] eqn:E2; cbn [obind] in H; [|done|done].
    injection H as <- <- <- <- <-. by eapply IH.
Qed.

Lemma iperf_recv_fields test rs w rv err test' rs' w' :
  iperf_recv rcv_fn test rs w = Ok (rv, err, test', rs', w') -> same_fields test test'.
Proof.
  unfold iperf_recv. intros H.
  destruct (recv_pass _ _ _ _ _) as [[[[[ret t1] rs1] l1] w1]| |] eqn:E; cbn [obind] in H; [|done|done].
  apply recv_pass_fields, (same_fields_streams _ _ l1) in E. destruct ret; by injection H as <- <- <- <- <-.
Qed.

(** ** Which streams there are *)

Lemma kept_identity l l' : Forall2 kept l l' -> map identity l' = map identity l.
Proof. induction 1 as [|a b l l' [Hi _] _ IH]; cbn [map]; congruence. Qed.

Context `{!SendOk snd_fn} `{!RecvOk rcv_fn}.

Lemma iperf_send_identity test wsP now0 w rv err test' ws' w' :
  iperf_send snd_fn clock test wsP now0 w = Ok (rv, err, test', ws', w') ->
  map identity (streams test') = map identity (streams test).
Proof.
  unfold iperf_send. intros H.
  destruct (send_passes _ _ _ _ _ _ _) as [[[ret t1] w1]| |] eqn:E; cbn [obind] in H; [|done|done].
  apply send_passes_sent in E as [[_ E _] _]; [|done]. apply kept_identity in E. rewrite <- E.
  destruct ret; [by injection H as <- <- <- <- <-|]. destruct (negb _).
  - destruct (clock w1) as [now w2].
    destruct (throttle_all _ _ _) as [[t2 l2]| |] eqn:Et; cbn [obind] in H; [|done|done].
    injection H as <- <- <- <- <-. apply throttle_all_sent in Et as [_ Et _]. exact (kept_identity _ _ Et).
  - cbn [obind] in H. by injection H as <- <- <- <- <-.
Qed.

Lemma recv_pass_identity todo : forall test rs w ret test' rs' l' w',
  recv_pass rcv_fn test rs todo w = Ok (ret, test', rs', l', w') -> map identity l' = map identity todo.
Proof.
  induction todo as [|sp todo IH]; intros test rs w ret test' rs' l' w' H; cbn [recv_pass] in H.
  { by injection H as <- <- <- <- <-. }
  destruct (bool_decide _ && _).
  - destruct (rcv_fn test sp w) as [[[r sp1] w1]| |] eqn:Er; cbn [obind] in H; [|done|done].
    apply rcv_identity in Er as (I1 & I2 & I3).
    assert (Hi : identity sp1 = identity sp) by (unfold identity; congruence).
    destruct (r <? 0); [injection H as <- <- <- <- <-; cbn [map]; congruence|].
    destruct (recv_pass _ _ _ _ _) as [[[[[rt t2] rs2] l2] w2]| |] eqn:E2; cbn [obind] in H; [|done|done].
    injection H as <- <- <- <- <-. apply IH in E2. cbn [map]. congruence.
  - destruct (recv_pass _ _ _ _ _) as [[[[[rt t2] rs2] l2] w2]| |] eqn:E2; cbn [obind] in H; [|done|done].
    injection H as <- <- <- <- <-. apply IH in E2. cbn [map]. congruence.
Qed.

Lemma iperf_recv_identity test rs w rv err test' rs' w' :
  iperf_recv rcv_fn test rs w = Ok (rv, err, test', rs', w') ->
  map identity (streams test') = map identity (streams test).
Proof.
  unfold iperf_recv. intros H.
  destruct (recv_pass _ _ _ _ _) as [[[[[ret t1] rs1] l1] w1]| |] eqn:E; cbn [obind] in H; [|done|done].
  apply recv_pass_identity in E. destruct ret; by injection H as <- <- <- <- <-.
Qed.

Lemma stats_streams_identity has test clk ti : forall l temp l',
  stats_streams has test clk ti temp l = Ok l' -> map identity l' = map identity l.
Proof.
  induction l as [|sp l IH]; intros temp l' H; cbn [stats_streams] in H; [by injection H as <-|].
  destruct (stats_stream _ _ _ _ _ _) as [[temp1 sp1]| |] eqn:E; cbn [obind] in H; [|done|done].
  destruct (stats_streams _ _ _ _ _ _) as [l1| |] eqn:E1; cbn [obind] in H; [|done|done].
  injection H as <-. apply IH in E1. cbn [map]. rewrite E1. f_equal. clear - E. unfold stats_stream in E.
  destruct (if protocol test =? Ptcp then _ else _) as [[temp2 rp2]| |]; cbn [obind] in E; [|done|done].
  by injection E as _ <-.
Qed.

Lemma send_same_control test wsP now0 w rv err test' ws' w' :
  iperf_send snd_fn clock test wsP now0 w = Ok (rv, err, test', ws', w') -> same_control test test'.
Proof. intros H. split; [by eapply iperf_send_fields|by eapply iperf_send_identity]. Qed.

Lemma recv_same_control test rs w rv err test' rs' w' :
  iperf_recv rcv_fn test rs w = Ok (rv, err, test', rs', w') -> same_control test test'.
Proof. intros H. split; [by eapply iperf_recv_fields|by eapply iperf_recv_identity]. Qed.

Lemma stats_same_control has t clk ti temp t' :
  iperf_stats_callback has t clk ti temp = Ok t' -> same_control t t'.
Proof.
  unfold iperf_stats_callback. intros H.
  destruct (stats_streams _ _ _ _ _ _) as [l| |] eqn:E; cbn [obind] in H; [|done|done]. injection H as <-.
  split; [by destruct t|]. by eapply stats_streams_identity.
Qed.

(** What happens to a test between two control messages. *)
Inductive transfer (t t' : iperf_test) : Prop :=
| tr_send wsP now0 w rv err ws' w' : iperf_send snd_fn clock t wsP now0 w = Ok (rv, err, t', ws', w') -> transfer t t'
| tr_recv rs w rv err rs' w' : iperf_recv rcv_fn t rs w = Ok (rv, err, t', rs', w') -> transfer t t'
| tr_stats has clk ti temp : iperf_stats_callback has t clk ti temp = Ok t' -> transfer t t'.

(** Data never disturbs control.  For TCP and UDP (any protocol with the
    counting laws of iperf_send and iperf_recv), a call of iperf_send, of
    iperf_recv or of iperf_stats_callback leaves the state of the control
    connection, the role, the parameters, the cookie and all other fields of
    the test as they were, and the streams with their sockets, ids and
    directions in their order; only counters, figures and sets change. *)
Theorem transfer_same_control t t' : transfer t t' -> same_control t t'.
Proof.
  intros [wsP now0 w rv err ws' w' H|rs w rv err rs' w' H|has clk ti temp H];
    [by eapply send_same_control|by eapply recv_same_control|by eapply stats_same_control].
Qed.

End Data.

Lemma transfer_same_control_witness :
  exists t', transfer (iperf_tcp_send false (fun _ => repeat 1 4)) (iperf_tcp_recv (fun _ => repeat 1 4))
               (fun w => (mk_time 0 0, w)) tcp_pair t' /\ same_control tcp_pair t' /\ t_bytes_sent t' = 16.
Proof.
  eexists. split.
  { eapply (tr_send _ _ _ _ _ None (mk_time 0 0) tcp_fds). vm_compute. reflexivity. }
  split; [|reflexivity]. apply (transfer_same_control (iperf_tcp_send false (fun _ => repeat 1 4))
    (iperf_tcp_recv (fun _ => repeat 1 4)) (fun w => (mk_time 0 0, w))).
  eapply (tr_send _ _ _ _ _ None (mk_time 0 0) tcp_fds). vm_compute. reflexivity.
Defined.
