(* ===== verification/ProtocolTurns.v ===== *)
(** * Turns of the client and of the server in a run

    What the handlers do with the messages of Protocol.v's phases. *)

From coqutil Require Import Datatypes.RecordSetters.
From Stdlib Require Import SpecFloat.
From Stdlib Require Import String.
From S2P Require Import Prelude.
From S2P Require Import IperfTime.
From S2P Require Import Cdouble.
From S2P Require Import CjsonData.
From S2P Require Import CjsonPrint.
From S2P Require Import CjsonPrintSpec.
From S2P Require Import CjsonParse.
From S2P Require Import CjsonRoundtrip.
From S2P Require Import CjsonTree.
From S2P Require Import JsonObject.
From S2P Require Import Iperf.
From S2P Require Import Frame.
From S2P Require Import Udp.
From S2P Require Import Transfer.
From S2P Require Import Stats.
From S2P Require Import Params.
From S2P Require Import ParamsProof.
From S2P Require Import ParamsThms.
From S2P Require Import Results.
From S2P Require Import ResultsProof.
From S2P Require Import Control.
From S2P Require Import Protocol.
From stdpp Require Import base numbers gmap list relations.
Import DoubleBraceUpdate.

Open Scope Z_scope.
Open Scope c_scope.

Section Turns.
Context (e : env) (base c : iperf_test).
Hypothesis He : env_ok e.
Hypothesis Hbase : ready e base.
Hypothesis Hc : client_ok c.

Abbreviation client_turn' := (client_turn' e).
Abbreviation server_turn' := (server_turn' e).
Abbreviation client_like := (client_like c).
Abbreviation server_like := (server_like c).
Abbreviation flags := (flags c).
Abbreviation total_streams := (total_streams c).
Abbreviation to_rec := (to_rec c).
Abbreviation to_send := (to_send c).
Abbreviation accepted := (accepted c).

(** ** What the steps keep *)

Lemma ids_identity t t' : map identity (streams t') = map identity (streams t) ->
  ids_ok t -> ids_ok t' /\ map sender (streams t') = map sender (streams t) /\
    map stream_id (streams t') = map stream_id (streams t).
Proof.
  intros E Hok.
  assert (E2 : map stream_id (streams t') = map stream_id (streams t)).
  { apply (f_equal (map (fun x : Z * Z * bool => x.1.2))) in E. rewrite !map_map in E. exact E. }
  split; [|split].
  - intros i sp Hi.
    assert (Hl : map stream_id (streams t') !! i = Some (stream_id sp)) by (by rewrite list_lookup_fmap, Hi).
    rewrite E2 in Hl. apply list_lookup_fmap_Some in Hl as (sp' & -> & Hsp). by apply Hok.
  - apply (f_equal (map (fun x : Z * Z * bool => x.2))) in E. rewrite !map_map in E. exact E.
  - done.
Qed.

Lemma has_streams_data fl t t' : same_control t t' -> has_streams fl t -> has_streams fl t'.
Proof. intros [_ E] [H1 H2]. destruct (ids_identity t t' E H1) as (A & B & _). split; [done|]. by rewrite B. Qed.

Lemma data_fields t t' : same_control t t' ->
  role t' = role t /\ mode t' = mode t /\ get_server_output t' = get_server_output t /\ duration t' = duration t /\
  cookie t' = cookie t /\ num_streams t' = num_streams t /\ sender_has_retransmits t' = sender_has_retransmits t /\
  congestion_used t' = congestion_used t /\ state t' = state t /\ done_ t' = done_ t /\ omitting t' = omitting t /\
  protocols t' = protocols t.
Proof. intros [E _]. rewrite E. repeat split. Qed.

Lemma client_like_data t t' : same_control t t' -> client_like t -> client_like t'.
Proof.
  intros (E1 & E2 & E3 & E4 & E5 & E6 & E7 & E8 & _)%data_fields []. constructor; congruence.
Qed.

Lemma server_like_data t t' : same_control t t' -> server_like t -> server_like t'.
Proof.
  intros S. assert (E0 : ctrl_sck t' = ctrl_sck t) by (by rewrite (proj1 S)). revert S.
  intros (E1 & E2 & E3 & E4 & E5 & E6 & E7 & E8 & _ & _ & _ & E9)%data_fields []. constructor; congruence.
Qed.

(** Results depend on the figures only. *)
Lemma sendable_ext t t' :
  cpu_util t' = cpu_util t -> mode t' = mode t -> sender_has_retransmits t' = sender_has_retransmits t ->
  congestion_used t' = congestion_used t -> streams t' = streams t -> results_sendable t -> results_sendable t'.
Proof.
  intros E1 E2 E3 E4 E5 [H1 H2 H3 H4]. constructor.
  - by rewrite E1.
  - unfold sent_has_retransmits in *. by rewrite E2, E3.
  - by rewrite E4.
  - rewrite E5. eapply Forall_impl; [exact H4|]. intros sp [A B C]. constructor; [|done|done].
    unfold sent_retransmits in *. by rewrite E3.
Qed.

(** ** Turns of the client *)

Lemma turn_params now :
  client_turn' now Loop c (Msg (MState PARAM_EXCHANGE))
    = Ok (mk_turn Loop None (c {{ state := PARAM_EXCHANGE }}) [MJson (msg c)] []).
Proof.
  unfold Protocol.client_turn', client_turn. cbn [iperf_handle_message_client]. cbn [Z.eqb Pos.eqb].
  rewrite parameters_entries. cbn [obind after]. unfold wire. rewrite norm_obj. reflexivity.
Qed.

(** Streams added, nothing else of the configuration changed. *)
Definition same_config (t t' : iperf_test) : Prop :=
  t' = t {{ streams := streams t'; read_set := read_set t'; write_set := write_set t' }}.

Lemma same_config_trans t1 t2 t3 : same_config t1 t2 -> same_config t2 t3 -> same_config t1 t3.
Proof. unfold same_config. intros E1 E2. rewrite E2, E1. by destruct t1. Qed.

Lemma create_streams_ok n b : forall t,
  ids_ok t -> Z.of_nat (List.length (streams t) + n) < 2 ^ 31 - 2 ->
  exists t', iperf_create_streams (connect_fd e) 0 no_errno n b t = (None, t') /\
    same_config t t' /\ ids_ok t' /\ map sender (streams t') = map sender (streams t) ++ repeat b n.
Proof.
  induction n as [|n IH]; intros t Hok Hlen.
  { exists t. split; [done|]. split; [by destruct t|]. split; [done|]. by rewrite app_nil_r. }
  cbn [iperf_create_streams]. destruct (Z.ltb_spec (connect_fd e (List.length (streams t))) 0) as [H|_];
    [pose proof (eo_connect e He (List.length (streams t))); lia|].
  set (t1 := if b then _ else _). assert (E1 : streams t1 = streams t) by (unfold t1; by destruct b).
  assert (S1 : same_config t t1) by (unfold t1, same_config; destruct b, t; reflexivity).
  assert (Hok1 : ids_ok t1) by (unfold ids_ok; by rewrite E1).
  clearbody t1. unfold no_errno at 1.
  set (sp := blank_stream (connect_fd e (List.length (streams t))) b).
  destruct (add_stream_ids t1 sp Hok1) as (Hok2 & sp' & Es & _ & Hb & _); [rewrite E1; lia|].
  assert (S2 : same_config t1 (iperf_add_stream t1 sp)).
  { unfold same_config, iperf_add_stream. destruct (streams t1), t1; reflexivity. }
  destruct (IH (iperf_add_stream t1 sp) Hok2) as (t' & -> & S3 & Hok' & Em).
  { rewrite Es, length_app, E1. cbn [List.length]. lia. }
  exists t'. split; [done|]. split; [eapply same_config_trans; [exact S1|exact (same_config_trans _ _ _ S2 S3)]|].
  split; [done|]. rewrite Em, Es, map_app, E1. cbn [map]. rewrite Hb, <- app_assoc. done.
Qed.

Lemma config_fields t t' : same_config t t' ->
  role t' = role t /\ mode t' = mode t /\ get_server_output t' = get_server_output t /\ duration t' = duration t /\
  cookie t' = cookie t /\ num_streams t' = num_streams t /\ sender_has_retransmits t' = sender_has_retransmits t /\
  congestion_used t' = congestion_used t /\ state t' = state t.
Proof. intros E. rewrite E. repeat split. Qed.

Lemma client_like_c st : client_like (c {{ state := st }}).
Proof. destruct Hc. by constructor. Qed.

Lemma turn_create now :
  exists t', client_turn' now Loop (c {{ state := PARAM_EXCHANGE }}) (Msg (MState CREATE_STREAMS))
    = Ok (mk_turn Loop None t' [] (repeat (cookie c) total_streams)) /\
  client_like t' /\ state t' = CREATE_STREAMS /\ has_streams flags t'.
Proof.
  set (t0 := c {{ state := CREATE_STREAMS }}).
  assert (E0 : streams t0 = []) by apply (co_streams c Hc).
  assert (Hok : ids_ok t0) by (intros i sp; rewrite E0; by rewrite lookup_nil).
  pose proof (co_count c Hc) as Hn.
  assert (H : exists t', (if mode t0 =? BIDIRECTIONAL
    then match iperf_create_streams (connect_fd e) 0 no_errno (Z.to_nat (num_streams t0)) true t0 with
         | (None, test) => iperf_create_streams (connect_fd e) 0 no_errno (Z.to_nat (num_streams t0)) false test
         | r => r end
    else iperf_create_streams (connect_fd e) 0 no_errno (Z.to_nat (num_streams t0)) (nonzero_int (mode t0)) t0)
    = (None, t') /\ same_config t0 t' /\ ids_ok t' /\ map sender (streams t') = flags).
  { unfold flags. change (num_streams t0) with (num_streams c). change (mode t0) with (mode c).
    destruct (mode c =? BIDIRECTIONAL).
    - destruct (create_streams_ok (Z.to_nat (num_streams c)) true t0 Hok) as (t1 & -> & S1 & Hok1 & M1);
        [rewrite E0; cbn; lia|]. rewrite E0 in M1. cbn [map app] in M1.
      destruct (create_streams_ok (Z.to_nat (num_streams c)) false t1 Hok1) as (t2 & -> & S2 & Hok2 & M2).
      { rewrite <- (length_map sender (streams t1)), M1, repeat_length. lia. }
      exists t2. split; [done|]. split; [by eapply same_config_trans|]. split; [done|]. by rewrite M2, M1.
    - destruct (create_streams_ok (Z.to_nat (num_streams c)) (nonzero_int (mode c)) t0 Hok) as (t1 & -> & S1 & Hok1 & M1);
        [rewrite E0; cbn; lia|]. rewrite E0 in M1. by exists t1. }
  destruct H as (t' & E & Hs & Hok' & Em). exists t'.
  apply config_fields in Hs as (F1 & F2 & F3 & F4 & F5 & F6 & F7 & F8 & F9).
  split; [|split; [|by split]].
  - unfold client_turn', client_turn. cbn [iperf_handle_message_client]. cbn [Z.eqb Pos.eqb].
    unfold client_create_streams. change ((c {{ state := PARAM_EXCHANGE }}) {{ state := CREATE_STREAMS }}) with t0.
    rewrite E, E0. cbn [List.length obind after t_test]. rewrite Nat.sub_0_r.
    rewrite F9. cbn [Z.eqb Pos.eqb]. rewrite F5. unfold total_streams. rewrite <- Em, length_map. reflexivity.
  - destruct (client_like_c CREATE_STREAMS) as []. constructor; etransitivity; eassumption.
Qed.

(** Starting the test changes neither the configuration nor which streams there
    are. *)
Definition same_session (t t' : iperf_test) : Prop :=
  t' = t {{ streams := streams t'; done_ := done_ t'; omitting := omitting t' }} /\
  map identity (streams t') = map identity (streams t).

Lemma start_test_session now t : same_session t (start_test now t).
Proof.
  unfold start_test, iperf_init_test. cbn [Z.ltb Z.compare].
  set (t1 := t {{ streams := map _ (streams t) }}).
  assert (H1 : map identity (streams t1) = map identity (streams t)) by exact (map_map _ _ _).
  change (duration t1) with (duration t).
  set (t2 := if nonzero_int (duration t) then t1 {{ done_ := false }} else t1).
  assert (H2 : streams t2 = streams t1) by (unfold t2; by destruct (nonzero_int _)).
  set (t3 := t2 {{ omitting := nonzero_int (omit t2) }}).
  assert (H3 : map identity (streams t3) = map identity (streams t)) by (change (streams t3) with (streams t2); by rewrite H2).
  assert (Hm : mode t3 = mode t) by (unfold t3, t2, t1; by destruct (nonzero_int _)).
  split.
  - rewrite Hm. unfold t3, t2, t1. destruct (nonzero_int (duration t)), (nonzero_int (mode t)); destruct t; reflexivity.
  - destruct (nonzero_int (mode t3)); [|done]. rewrite <- H3. exact (map_map _ _ _).
Qed.

Lemma session_streams fl t t' : map identity (streams t') = map identity (streams t) ->
  has_streams fl t -> has_streams fl t'.
Proof. intros E [H1 H2]. destruct (ids_identity t t' E H1) as (A & B & _). split; [done|]. by rewrite B. Qed.

Lemma session_fields t t' : same_session t t' ->
  role t' = role t /\ mode t' = mode t /\ get_server_output t' = get_server_output t /\ duration t' = duration t /\
  cookie t' = cookie t /\ num_streams t' = num_streams t /\ sender_has_retransmits t' = sender_has_retransmits t /\
  congestion_used t' = congestion_used t /\ state t' = state t /\ protocols t' = protocols t.
Proof. intros [E _]. rewrite E. repeat split. Qed.

Lemma client_like_session t t' : same_session t t' -> client_like t -> client_like t'.
Proof. intros (E1 & E2 & E3 & E4 & E5 & E6 & E7 & E8 & _)%session_fields []. constructor; congruence. Qed.

Lemma server_like_session t t' : same_session t t' -> server_like t -> server_like t'.
Proof.
  intros S. assert (E0 : ctrl_sck t' = ctrl_sck t) by (by rewrite (proj1 S)). revert S.
  intros (E1 & E2 & E3 & E4 & E5 & E6 & E7 & E8 & _ & E9)%session_fields []. constructor; congruence.
Qed.

Lemma client_like_state st t : client_like t -> client_like (t {{ state := st }}).
Proof. by intros []. Qed.
Lemma server_like_state st t : server_like t -> server_like (t {{ state := st }}).
Proof. by intros []. Qed.

Lemma turn_start now t : client_like t -> has_streams flags t ->
  exists t', client_turn' now Loop t (Msg (MState TEST_START)) = Ok (mk_turn Loop None t' [] []) /\
    client_like t' /\ state t' = TEST_START /\ has_streams flags t'.
Proof.
  intros Hl Hs. set (t0 := t {{ state := TEST_START }}). exists (start_test now t0).
  pose proof (start_test_session now t0) as S.
  pose proof (session_fields _ _ S) as F. destruct F as (_ & _ & _ & _ & _ & _ & _ & _ & Ft & _).
  split; [|split; [|split; [exact Ft|]]].
  - unfold Protocol.client_turn', client_turn. cbn [iperf_handle_message_client Z.eqb Pos.eqb quiet_turn obind after t_test].
    fold t0. rewrite Ft. reflexivity.
  - apply (client_like_session t0); [done|]. by apply client_like_state.
  - apply (session_streams _ t0); [apply S|]. exact Hs.
Qed.

Lemma turn_running now t :
  client_turn' now Loop t (Msg (MState TEST_RUNNING)) = Ok (mk_turn Loop None (t {{ state := TEST_RUNNING }}) [] []).
Proof. reflexivity. Qed.

Lemma turn_exchange now t : client_like t ->
  client_turn' now Loop t (Msg (MState EXCHANGE_RESULTS))
    = Ok (mk_turn WaitResults None (t {{ state := EXCHANGE_RESULTS }})
            [MJson (message_of parsed_item (t {{ state := EXCHANGE_RESULTS }}))] []).
Proof.
  intros Hl. unfold Protocol.client_turn', client_turn. cbn [iperf_handle_message_client Z.eqb Pos.eqb].
  rewrite results_message by (right; apply Hl). cbn [obind after]. unfold wire. rewrite norm_message. reflexivity.
Qed.

Lemma received_fields ta tb :
  role (received ta tb) = role tb /\ mode (received ta tb) = mode tb /\
  get_server_output (received ta tb) = get_server_output tb /\ state (received ta tb) = state tb /\
  cpu_util (received ta tb) = cpu_util tb /\ congestion_used (received ta tb) = congestion_used tb /\
  streams (received ta tb) = zip_with (merged ta) (streams ta) (streams tb) /\
  (mode tb <> RECEIVER -> sender_has_retransmits (received ta tb) = sender_has_retransmits tb).
Proof.
  unfold received. destruct (Z.eqb_spec (mode tb) RECEIVER), (mode tb =? BIDIRECTIONAL), (congestion_used ta);
    (repeat split); by intros.
Qed.

Lemma turn_results now ta t : results_sendable ta -> peers ta t -> state t = EXCHANGE_RESULTS ->
  client_turn' now WaitResults t (Msg (MJson (message_of parsed_item ta)))
    = Ok (mk_turn Loop None (received ta t) [] []).
Proof.
  intros Hs Hp Ht. unfold Protocol.client_turn', client_turn. cbn [client_resume].
  rewrite (apply_results_message ta t Hs Hp). cbn [obind Z.ltb Z.compare after t_test].
  destruct (received_fields ta t) as (_ & _ & _ & -> & _). by rewrite Ht.
Qed.

Lemma turn_display now t :
  client_turn' now Loop t (Msg (MState DISPLAY_RESULTS))
    = Ok (mk_turn (Stop 0) None (t {{ state := IPERF_DONE }}) [MState IPERF_DONE] []).
Proof. reflexivity. Qed.

(** ** Turns of the server *)

Lemma accept_client fd : 0 <= fd ->
  iperf_accept (server0 base) fd (Some (cookie c))
    = (mk_server WaitParams (with_session fd (cookie c) ({[ fd ]} ∪ read_set base) ∅
         PARAM_EXCHANGE base) 0 0 0 0, [MState PARAM_EXCHANGE]).
Proof.
  intros H. unfold server0, iperf_accept, with_session. destruct (Z.ltb_spec fd 0); [lia|].
  cbn [sv_test]. destruct Hbase as (l & -> & Hp & _). rewrite reset_eq by done. reflexivity.
Qed.

Lemma mode_cases : mode c = SENDER \/ mode c = RECEIVER \/ mode c = BIDIRECTIONAL.
Proof.
  rewrite (cc_mode c (co_config c Hc)). unfold mode_of. destruct (nonzero_int (bidirectional c)), (nonzero_int (reverse_ c)); auto.
Qed.

Lemma total_count : Z.of_nat total_streams = to_rec + to_send /\ 0 <= to_rec /\ 0 <= to_send /\ 0 < to_rec + to_send < 2 ^ 30.
Proof.
  pose proof (co_count c Hc). unfold Protocol.total_streams, Protocol.flags, Protocol.to_rec, Protocol.to_send.
  destruct mode_cases as [-> | [-> | ->]]; cbn [Z.eqb Pos.eqb]; rewrite ?length_app, !repeat_length; lia.
Qed.

Lemma not_complete k t p : (k < total_streams)%nat ->
  (rec_streams_accepted (accepted k p t) =? streams_to_rec (accepted k p t)) &&
  (send_streams_accepted (accepted k p t) =? streams_to_send (accepted k p t)) = false.
Proof.
  pose proof total_count. intros Hk. cbn [Protocol.accepted rec_streams_accepted streams_to_rec
    send_streams_accepted streams_to_send]. apply andb_false_iff.
  destruct (Z.eqb_spec (Z.min (Z.of_nat k) to_rec) to_rec); [right|by left]. apply Z.eqb_neq. lia.
Qed.

Lemma complete t p :
  (rec_streams_accepted (accepted total_streams p t) =? streams_to_rec (accepted total_streams p t)) &&
  (send_streams_accepted (accepted total_streams p t) =? streams_to_send (accepted total_streams p t)) = true.
Proof.
  pose proof total_count. cbn [Protocol.accepted rec_streams_accepted streams_to_rec
    send_streams_accepted streams_to_send]. apply andb_true_iff; split; apply Z.eqb_eq; lia.
Qed.

Lemma then_start_loop now s : sv_pc s = Loop -> then_start now s = start_when_complete now s.
Proof. unfold then_start. by intros ->. Qed.

Lemma turn_server_params now fd rs : 0 <= fd ->
  let s := mk_server WaitParams
    (with_session fd (cookie c) rs ∅ PARAM_EXCHANGE base) 0 0 0 0 in
  exists ts, server_turn' now id s (Msg (MJson (msg c))) = Ok (accepted 0 Loop ts, [MState CREATE_STREAMS]) /\
    server_like ts /\ state ts = CREATE_STREAMS /\ streams ts = [].
Proof.
  intros Hfd. cbn zeta. unfold Protocol.server_turn', server_turn. cbn [sv_pc]. unfold server_params, take_params. cbn [sv_test].
  destruct Hbase as (l & -> & Hp & Ho & Hu). rewrite apply_parameters_after by (done || apply Hc). cbn [obind].
  destruct (Z.ltb_spec (listen_fd e) 0) as [H|_]; [pose proof (eo_listen e He); lia|].
  set (d := described_after (has_tcpinfo_retransmits e) c l). unfold with_session.
  set (ts := _ {{ read_set := _; prot_listener := _; state := CREATE_STREAMS }}).
  change (server_affinity ts) with (server_affinity c). rewrite (co_affinity c Hc). cbn [negb Z.eqb].
  unfold expected_streams. change (mode ts) with (peer_mode (mode c)). change (num_streams ts) with (num_streams c).
  replace (if peer_mode (mode c) =? BIDIRECTIONAL then (num_streams c, num_streams c)
           else if peer_mode (mode c) =? RECEIVER then (num_streams c, 0) else (0, num_streams c))
    with (to_rec, to_send).
  2:{ unfold peer_mode, Protocol.to_rec, Protocol.to_send. by destruct mode_cases as [-> | [-> | ->]]. }
  exists ts. pose proof total_count as Ht.
  assert (Ea : mk_server Loop ts 0 0 to_rec to_send = accepted 0 Loop ts).
  { unfold Protocol.accepted. f_equal; lia. }
  cbn [rec_streams_accepted send_streams_accepted obind negb Pos.eqb]. rewrite Ea, then_start_loop by done. unfold start_when_complete.
  rewrite <- andb_assoc, not_complete by lia. rewrite andb_false_r. split; [reflexivity|].
  split; [|by split]. constructor; try reflexivity.
  - change (fd <> -1). lia.
  - change (or_else (nonzero_int (get_server_output c)) 1 (get_server_output l) = 0). by rewrite (co_output c Hc), Ho.
  - change (0 <= sender_has_retransmits d <= 1). unfold d, described_after, described, flag. cbn.
    destruct (_ && _); vm_compute; split; discriminate.
  - change (str_or (congestion_used c) (congestion_used l) = option_map cstr_of (congestion_used c)). rewrite Hu. by destruct (congestion_used c).
Qed.

Lemma repeat_lookup {A} (x : A) n k : (k < n)%nat -> repeat x n !! k = Some x.
Proof. revert k. induction n as [|n IH]; intros [|k] Hk; cbn; [lia..|done|]. apply IH. lia. Qed.

(** Senders come first, and so the receivers of the server. *)
Lemma flags_lookup k : (k < total_streams)%nat -> flags !! k = Some (Z.of_nat k <? to_rec).
Proof.
  pose proof (co_count c Hc). unfold Protocol.total_streams, Protocol.flags, Protocol.to_rec.
  set (n := Z.to_nat (num_streams c)).
  destruct mode_cases as [-> | [-> | ->]]; cbn [Z.eqb Pos.eqb]; rewrite ?length_app, ?repeat_length; intros Hk.
  - rewrite repeat_lookup by done. destruct (Z.ltb_spec (Z.of_nat k) (num_streams c)); [done|lia].
  - rewrite repeat_lookup by done. destruct (Z.ltb_spec (Z.of_nat k) 0); [lia|done].
  - destruct (Z.ltb_spec (Z.of_nat k) (num_streams c)).
    + rewrite lookup_app_l by (rewrite repeat_length; lia). by rewrite repeat_lookup by lia.
    + rewrite lookup_app_r by (rewrite repeat_length; lia). rewrite repeat_length. by rewrite repeat_lookup by lia.
Qed.

Lemma add_stream_has k t fd b : (k < total_streams)%nat -> has_streams (map negb (take k flags)) t ->
  flags !! k = Some (negb b) -> has_streams (map negb (take (S k) flags)) (iperf_add_stream t (blank_stream fd b)).
Proof.
  intros Hk [Hok Hm] Hf. pose proof total_count.
  assert (Hl : List.length (streams t) = k).
  { rewrite <- (length_map sender (streams t)), Hm, length_map, length_take. unfold Protocol.total_streams in *. lia. }
  destruct (add_stream_ids t (blank_stream fd b) Hok) as (Hok' & sp & Es & _ & Hb & _); [lia|].
  split; [done|]. rewrite Es, map_app, Hm, (take_S_r _ _ _ Hf), map_app. cbn [map]. by rewrite Hb, negb_involutive.
Qed.

(** The stream in the set of its direction. *)
Definition with_stream (t : iperf_test) (fd : Z) (rec : bool) : iperf_test :=
  let t := iperf_add_stream t (blank_stream fd (negb rec)) in
  if rec then t {{ read_set := {[ fd ]} ∪ read_set t }} else t {{ write_set := {[ fd ]} ∪ write_set t }}.

Lemma with_stream_ok k t fd rec : (k < total_streams)%nat -> flags !! k = Some rec ->
  server_like t -> state t = CREATE_STREAMS -> has_streams (map negb (take k flags)) t ->
  server_like (with_stream t fd rec) /\ state (with_stream t fd rec) = CREATE_STREAMS /\
  has_streams (map negb (take (S k) flags)) (with_stream t fd rec).
Proof.
  intros Hk Hf Hl Ht Hs. rewrite <- (negb_involutive rec) in Hf.
  pose proof (add_stream_has k t fd (negb rec) Hk Hs Hf) as Hs1.
  unfold with_stream. split; [|split].
  - destruct Hl. unfold iperf_add_stream. by destruct (streams t), rec.
  - unfold iperf_add_stream. by destruct (streams t), rec.
  - by destruct rec.
Qed.

Lemma accepted_S k t : (k < total_streams)%nat ->
  let b := Z.min (Z.of_nat k) to_rec =? to_rec in
  mk_server Loop t (if negb b then Z.min (Z.of_nat k) to_rec + 1 else Z.min (Z.of_nat k) to_rec)
    (if negb b then Z.of_nat k - Z.min (Z.of_nat k) to_rec else Z.of_nat k - Z.min (Z.of_nat k) to_rec + 1)
    to_rec to_send = accepted (S k) Loop t /\ flags !! k = Some (negb b).
Proof.
  intros Hk. pose proof total_count. rewrite flags_lookup by done. unfold Protocol.accepted. cbn zeta.
  destruct (Z.eqb_spec (Z.min (Z.of_nat k) to_rec) to_rec), (Z.ltb_spec (Z.of_nat k) to_rec);
    cbn [negb]; (split; [f_equal; lia|]); try done; lia.
Qed.

Lemma turn_accept_stream now fd k ts : (k < total_streams)%nat ->
  server_like ts -> state ts = CREATE_STREAMS -> has_streams (map negb (take k flags)) ts ->
  exists ts', server_like ts' /\ has_streams (map negb (take (S k) flags)) ts' /\
    if (S k =? total_streams)%nat
    then state ts' = TEST_RUNNING /\
         server_accept_stream no_errno now (accepted k Loop ts) fd (cookie c)
           = Ok (accepted total_streams Loop ts', [MState TEST_START; MState TEST_RUNNING])
    else state ts' = CREATE_STREAMS /\
         server_accept_stream no_errno now (accepted k Loop ts) fd (cookie c) = Ok (accepted (S k) Loop ts', []).
Proof.
  intros Hk Hl Ht Hs. pose proof total_count as Hn. pose proof (not_complete k ts Loop Hk) as Hc'.
  unfold server_accept_stream, take_stream. cbn [sv_test accepted rec_streams_accepted streams_to_rec send_streams_accepted
    streams_to_send sv_pc Protocol.accepted] in *.
  rewrite bool_decide_true by (by rewrite (sl_cookie c ts Hl)). rewrite <- negb_andb, Hc'. cbn [negb]. unfold no_errno.
  destruct (accepted_S k (with_stream ts fd (negb (Z.min (Z.of_nat k) to_rec =? to_rec))) Hk) as [Ea Hb].
  fold (with_stream ts fd (negb (Z.min (Z.of_nat k) to_rec =? to_rec))).
  destruct (with_stream_ok k ts fd _ Hk Hb Hl Ht Hs) as (Hl1 & Ht1 & Hs1).
  revert Ea Hl1 Ht1 Hs1. generalize (with_stream ts fd (negb (Z.min (Z.of_nat k) to_rec =? to_rec))).
  intros t1 Ea Hl1 Ht1 Hs1.
  rewrite Ea. cbn [obind]. rewrite then_start_loop by done.
  unfold start_when_complete. rewrite <- andb_assoc.
  destruct (Nat.eqb_spec (S k) total_streams) as [Ek|Ek].
  - rewrite Ek, complete. cbn [sv_test Protocol.accepted]. rewrite Ht1. cbn [Z.eqb Pos.eqb andb].
    set (t2 := (if negb (protocol t1 =? Ptcp) then _ else t1) {{ prot_listener := -1; state := TEST_START }}).
    assert (Hl2 : server_like t2) by (unfold t2; destruct (protocol t1 =? Ptcp), Hl1; by constructor).
    assert (Hs2 : has_streams (map negb (take (Datatypes.S k) flags)) t2) by (unfold t2; by destruct (protocol t1 =? Ptcp)).
    pose proof (start_test_session now t2) as S.
    exists ((start_test now t2) {{ state := TEST_RUNNING }}). split; [|split; [|done]].
    + by apply server_like_state, (server_like_session t2).
    + rewrite <- Ek. change (has_streams (map negb (take (Datatypes.S k) flags)) (start_test now t2)).
      apply (session_streams _ t2); [apply S|done].
  - rewrite not_complete, andb_false_r by lia. exists t1. done.
Qed.

Lemma server_accepted k p ts p' ts' : sv_set p' ts' (accepted k p ts) = accepted k p' ts'.
Proof. reflexivity. Qed.

Lemma turn_end now stats k ts :
  let t0 := ts {{ state := TEST_END; done_ := true }} in
  data_step t0 (stats t0) -> server_like ts -> has_streams (map negb flags) ts ->
  exists ts', server_turn' now stats (accepted k Loop ts) (Msg (MState TEST_END))
      = Ok (accepted k WaitResults ts', [MState EXCHANGE_RESULTS]) /\
    server_like ts' /\ has_streams (map negb flags) ts' /\ results_sendable ts'.
Proof.
  intros t0 Hd Hl Hs. exists ((drop_streams (stats t0)) {{ state := EXCHANGE_RESULTS }}).
  split; [reflexivity|]. split; [|split].
  - assert (H : server_like (stats t0)) by (apply (server_like_data t0 _ (proj1 Hd)); by destruct Hl). by destruct H.
  - change (has_streams (map negb flags) (stats t0)). exact (has_streams_data _ t0 _ (proj1 Hd) Hs).
  - apply (sendable_ext (stats t0)); try reflexivity. apply Hd.
Qed.

Lemma turn_server_results now ta k ts : results_sendable ta -> peers ta ts ->
  server_turn' now id (accepted k WaitResults ts) (Msg (MJson (message_of parsed_item ta)))
    = Ok (accepted k Loop ((received ta ts) {{ state := DISPLAY_RESULTS }}),
          [MJson (message_of parsed_item (received ta ts)); MState DISPLAY_RESULTS]).
Proof.
  intros Hs Hp. unfold Protocol.server_turn', server_turn. cbn [sv_pc Protocol.accepted]. unfold server_results.
  cbn [sv_test Protocol.accepted]. rewrite (apply_results_message ta ts Hs Hp). cbn [obind Z.ltb Z.compare].
  rewrite results_message.
  2:{ right. destruct (received_fields ta ts) as (_ & _ & -> & _). apply Hp. }
  cbn [obind]. unfold wire. rewrite norm_message. reflexivity.
Qed.

Lemma turn_bye now k t :
  server_turn' now id (accepted k Loop t) (Msg (MState IPERF_DONE))
    = Ok (accepted k (Stop 0) (t {{ state := IPERF_DONE }}), []).
Proof. reflexivity. Qed.

(** ** The results of both sides *)

Lemma ids_seq t : ids_ok t -> map stream_id (streams t) = map id_at (seq 0 (List.length (streams t))).
Proof.
  intros Hok. apply list_eq. intros i. rewrite !list_lookup_fmap.
  destruct (streams t !! i) as [sp|] eqn:E.
  - rewrite lookup_seq_lt by (by eapply lookup_lt_Some). cbn. f_equal. by apply Hok.
  - rewrite lookup_seq_ge by (by apply lookup_ge_None). done.
Qed.

Lemma session_peers ta tb fa fb :
  has_streams fa ta -> has_streams fb tb -> List.length fa = total_streams -> List.length fb = total_streams ->
  get_server_output ta = 0 -> get_server_output tb = 0 -> peers ta tb.
Proof.
  intros [Ha Ma] [Hb Mb] La Lb Oa Ob.
  assert (Ea : List.length (streams ta) = total_streams) by (by rewrite <- (length_map sender), Ma).
  assert (Eb : List.length (streams tb) = total_streams) by (by rewrite <- (length_map sender), Mb).
  pose proof total_count. constructor.
  - rewrite !ids_seq by done. by rewrite Ea, Eb.
  - by apply ids_ok_nodup.
  - rewrite Eb. lia.
  - done.
Qed.

Lemma merged_identity ta la lb : List.length la = List.length lb ->
  map identity (zip_with (merged ta) la lb) = map identity lb.
Proof.
  revert lb. induction la as [|a la IH]; intros [|b lb]; cbn [zip_with map List.length]; try done.
  intros [= E]. rewrite IH by done. f_equal. unfold merged, merge_stream. by destruct (sender b).
Qed.

Lemma merged_sendable ta a t t' sp :
  stream_sendable ta a -> stream_sendable t sp ->
  (sender sp = true -> sender_has_retransmits t' = sender_has_retransmits t) -> stream_sendable t' (merged ta a sp).
Proof.
  intros [Ai _ Ad] [Si Sb Sd] Hr. rewrite !Forall_cons in Ai. rewrite !Forall_cons in Si.
  rewrite !Forall_cons in Ad. rewrite !Forall_cons in Sd. unfold merged, merge_stream.
  destruct sp as [x1 x2 b x4 x5 x6 x7 x8 x9 x10 x11 x12 x13 x14]. destruct b.
  - unfold sent_retransmits in Si. cbn [sender andb] in *. constructor; [|exact Sb|rewrite !Forall_cons; tauto].
    rewrite !Forall_cons. unfold sent_retransmits at 1. cbn [sender andb]. rewrite (Hr eq_refl). cbn in Si |- *. tauto.
  - cbn in Si, Sb, Sd. constructor; [|exact Sb|rewrite !Forall_cons; cbn; tauto].
    rewrite !Forall_cons. cbn. tauto.
Qed.

Lemma received_sendable ta tb : List.length (streams ta) = List.length (streams tb) ->
  results_sendable ta -> results_sendable tb ->
  (mode tb = RECEIVER -> Forall (fun sp => sender sp = false) (streams tb)) -> results_sendable (received ta tb).
Proof.
  intros Hlen [_ _ _ Sa] [C1 C2 C3 C4] Hrec.
  destruct (received_fields ta tb) as (_ & Em & _ & _ & Ec & Eg & Es & Er). constructor.
  - by rewrite Ec.
  - unfold sent_has_retransmits in *. rewrite Em. destruct (Z.eqb_spec (mode tb) RECEIVER); [done|]. by rewrite Er.
  - by rewrite Eg.
  - rewrite Es. apply Forall_lookup. intros i sp' (a & b & -> & Ha & Hb)%lookup_zip_with_Some.
    rewrite Forall_lookup in Sa, C4. apply (merged_sendable _ _ tb); [by eapply Sa|by eapply C4|].
    intros Hsp. apply Er. intros Hm. apply Hrec in Hm. rewrite Forall_lookup in Hm. apply Hm in Hb. congruence.
Qed.

End Turns.
