(* ===== verification/ProtocolRun.v ===== *)
(** * Runs of the protocol

    Every step of a run advances through the phases of Protocol.v, no phase is
    stuck, and so every run ends with the results exchanged. *)

From coqutil Require Import Datatypes.RecordSetters.
From Stdlib Require Import SpecFloat.
From Stdlib Require Import String.
From S2P Require Import Prelude.
From S2P Require Import IperfTime.
From S2P Require Import Cdouble.
From S2P Require Import CjsonData.
From S2P Require Import CjsonPrint.
From S2P Require Import CjsonPrintSpec.
From S2P Require Import CjsonParse.
From S2P Require Import CjsonRoundtrip.
From S2P Require Import CjsonTree.
From S2P Require Import JsonObject.
From S2P Require Import Iperf.
From S2P Require Import Frame.
From S2P Require Import Udp.
From S2P Require Import Transfer.
From S2P Require Import Stats.
From S2P Require Import Params.
From S2P Require Import ParamsProof.
From S2P Require Import ParamsThms.
From S2P Require Import Results.
From S2P Require Import ResultsProof.
From S2P Require Import Control.
From S2P Require Import Protocol.
From S2P Require Import ProtocolTurns.
From stdpp Require Import base numbers gmap list relations.
Import DoubleBraceUpdate.

Open Scope Z_scope.
Open Scope c_scope.

Lemma Ok_inj {A} (a b : A) : Ok a = Ok b -> a = b.
Proof. congruence. Qed.

Section Run.
Context (e : env) (base c : iperf_test).
Hypothesis He : env_ok e.
Hypothesis Hbase : ready e base.
Hypothesis Hc : client_ok c.

Abbreviation step := (step e).
Abbreviation phase := (phase base c).

(** What can still happen within a phase. *)
Definition weight (g : system) : nat :=
  List.length (conns g) + work g + Nat.b2n (omitting (cl_test g)) + Nat.b2n (negb (done_ (cl_test g))) +
  Nat.b2n ((state (sv_test (sv g)) =? TEST_RUNNING) && omitting (sv_test (sv g))).

(** A step leads to a later phase, or stays and uses up some of what can happen. *)
Definition advances (i : nat) (g g' : system) : Prop :=
  (exists j, (j < i)%nat /\ phase j g') \/ phase i g' /\ (weight g' < weight g)%nat.

Lemma advances_next i g g' : phase i g' -> advances (S i) g g'.
Proof. left. exists i. split; [lia|done]. Qed.

(** Take a step apart and leave out what cannot happen in the phase. *)
Ltac absurd_case :=
  match goal with
  | H : sv_pc ?s = ?p |- _ =>
      let x := eval hnf in (sv_pc s) in lazymatch x with p => fail | _ => change (x = p) in H; discriminate H end
  | H : sv_pc ?s ∈ [Loop; WaitParams; WaitResults] |- _ =>
      let x := eval hnf in (sv_pc s) in
      change (x ∈ [Loop; WaitParams; WaitResults]) in H; rewrite !elem_of_cons, elem_of_nil in H;
      exfalso; clear - H; intuition discriminate
  | H : forall rv, Stop ?x <> Stop rv |- _ => exfalso; exact (H x eq_refl)
  | H : state ?t = TEST_RUNNING, E : state ?t = ?x |- _ => rewrite H in E; discriminate E
  | H : state (received ?a ?b) = TEST_RUNNING, E : state ?b = ?x |- _ =>
      rewrite (proj1 (proj2 (proj2 (proj2 (received_fields a b)))) : state (received a b) = state b), E in H; discriminate H
  | H : state _ = TEST_RUNNING |- _ => discriminate H
  | H : state ?t = TEST_END, E : state ?t = ?x |- _ => rewrite H in E; discriminate E
  | H : state (received ?a ?b) = TEST_END, E : state ?b = ?x |- _ =>
      rewrite (proj1 (proj2 (proj2 (proj2 (received_fields a b)))) : state (received a b) = state b), E in H; discriminate H
  | H : state _ = TEST_END |- _ => discriminate H
  | H : state (sv_test (Protocol.accepted _ _ _ ?t)) = ?y, E : state ?t = ?x |- _ =>
      change (state t = y) in H; rewrite H in E; discriminate E
  end.

Ltac step_cases H :=
  lazymatch type of H with
  | Protocol.step _ (mk_system _ ?t ?s _ _ _ _) _ =>
      let t0 := fresh "t0" in let Et := fresh "Et" in remember t as t0 eqn:Et in H;
      let s0 := fresh "s0" in let Es := fresh "Es" in remember s as s0 eqn:Es in H;
      inversion H; clear H; subst t0 s0; subst; try absurd_case
  end.

Lemma advance_early i g g' : phase i g -> (12 <= i)%nat -> step g g' -> advances i g g'.
Proof.
  intros Hp Hi H. destruct Hp as [w|fd rs w Hfd|fd rs w Hfd|ts w Hl Ht Hs| | | | | | | | | | | ]; try (cbn in Hi; lia); pose proof (co_state c Hc) as Ec; unfold start in H; step_cases H.
  - match goal with H : iperf_accept _ _ _ = _ |- _ => rewrite (accept_client e base c Hbase) in H by done; injection H as <- <- end.
    apply advances_next. by constructor.
  - match goal with H : client_turn' _ _ _ _ _ = _ |- _ => rewrite turn_params in H; injection H as <- end.
    apply advances_next. by constructor.
  - match goal with H : server_turn' _ _ _ _ _ = _ |- _ =>
      destruct (turn_server_params e base c He Hbase Hc now fd rs Hfd) as (ts & E & Hl & Ht & Hs); rewrite E in H; injection H as <- <- end.
    apply advances_next. by constructor.
  - match goal with H : client_turn' _ _ _ _ _ = _ |- _ =>
      destruct (turn_create e c He Hc now) as (t' & E & Hl' & Ht' & Hs'); rewrite E in H; injection H as <- end.
    apply advances_next. cbn [app after t_test sent dialled]. rewrite <- (Nat.sub_0_r (total_streams c)).
    destruct (total_count c Hc) as (? & ? & ? & ?). constructor; try done; [|lia].
    split; [|by rewrite Hs]. intros j sp. by rewrite Hs.
Qed.

Lemma advance_accepting k t ts w g' :
  let g := mk_system Loop t (accepted c k Loop ts) [] [] (repeat (cookie c) (total_streams c - k)) w in
  client_like c t -> state t = CREATE_STREAMS -> has_streams (flags c) t ->
  server_like c ts -> state ts = CREATE_STREAMS -> has_streams (map negb (take k (flags c))) ts ->
  (k < total_streams c)%nat -> step g g' -> advances 11 g g'.
Proof.
  intros g Hl Ht Hs Hl' Ht' Hs' Hk H. unfold g in *. clear g.
  replace (total_streams c - k)%nat with (S (total_streams c - S k)) in * by lia. cbn [repeat] in *.
  step_cases H. destruct (turn_accept_stream c Hc now fd k ts Hk Hl' Ht' Hs') as (ts' & Hl2 & Hs2 & H2).
  match goal with H : server_accept_stream _ _ _ _ _ = _ |- _ => rename H into E end.
  destruct (Nat.eqb_spec (S k) (total_streams c)) as [Ek|Ek]; destruct H2 as [Ht2 E2]; rewrite E2 in E; injection E as <- <-.
  - apply advances_next. rewrite Ek, Nat.sub_diag. cbn [repeat app]. constructor; try done.
    rewrite Ek in Hs2. unfold total_streams in Hs2. by rewrite firstn_all in Hs2.
  - right. split; [constructor; try done; lia|].
    unfold weight. cbn [conns work cl_test sv sv_test Protocol.accepted List.length]. rewrite Ht', Ht2. cbn. lia.
Qed.

Lemma reset_streams fl t now ti : has_streams fl t -> has_streams fl (iperf_reset_stats t now ti).
Proof. apply session_streams. exact (map_map _ _ _). Qed.

(** The server moves data or ends its omit period: a phase that allows any
    running test of the server goes on. *)
Section Server.
Context (i : nat) (t : iperf_test) (tc tos : list cmsg).
Hypothesis Hphase : forall ts, server_like c ts -> state ts = TEST_RUNNING -> has_streams (map negb (flags c)) ts ->
  forall w, phase i (mk_system Loop t (accepted c (total_streams c) Loop ts) tos tc [] w).

Lemma advance_server_data ts t' w :
  server_like c ts -> state ts = TEST_RUNNING -> has_streams (map negb (flags c)) ts -> same_control ts t' ->
  advances i (mk_system Loop t (accepted c (total_streams c) Loop ts) tos tc [] (S w))
    (mk_system Loop t (sv_set Loop t' (accepted c (total_streams c) Loop ts)) tos tc [] w).
Proof.
  intros Hl Ht Hs Hd. right. rewrite server_accepted.
  pose proof (data_fields _ _ Hd) as F. destruct F as (_ & _ & _ & _ & _ & _ & _ & _ & E1 & _ & E2 & _). split.
  - apply Hphase; [by eapply server_like_data|by rewrite E1|by eapply has_streams_data].
  - unfold weight. cbn [conns work cl_test sv sv_test Protocol.accepted]. rewrite E1, E2. lia.
Qed.

Lemma advance_server_omit now ti ts w :
  server_like c ts -> state ts = TEST_RUNNING -> has_streams (map negb (flags c)) ts -> omitting ts = true ->
  advances i (mk_system Loop t (accepted c (total_streams c) Loop ts) tos tc [] w)
    (mk_system Loop t (sv_set Loop ((iperf_reset_stats ts now ti) {{ omitting := false }})
       (accepted c (total_streams c) Loop ts)) tos tc [] w).
Proof.
  intros Hl Ht Hs Ho. right. rewrite server_accepted. split.
  - apply Hphase; [by destruct Hl|done|by apply (reset_streams _ ts)].
  - unfold weight. cbn [conns work cl_test sv sv_test Protocol.accepted].
    set (t' := (iperf_reset_stats ts now ti) {{ omitting := false }}).
    change (state t') with (state ts). change (omitting t') with false. rewrite Ht, Ho. cbn. lia.
Qed.
End Server.

(** The client of a reverse test receives what is still on its way. *)
Lemma advance_drain i t t' s tos tc w :
  data_step t t' -> client_like c t -> state t = TEST_END -> has_streams (flags c) t ->
  (client_like c t' -> state t' = TEST_END -> has_streams (flags c) t' -> results_sendable t' ->
     phase i (mk_system Loop t' s tos tc [] w)) ->
  advances i (mk_system Loop t s tos tc [] (S w)) (mk_system Loop t' s tos tc [] w).
Proof.
  intros [D Hr] Hl Ht Hs Hp. right.
  pose proof (data_fields _ _ D) as F. destruct F as (_ & _ & _ & _ & _ & _ & _ & _ & F1 & F2 & F3 & _). split.
  - apply Hp; [by eapply client_like_data|by rewrite F1|by eapply has_streams_data|done].
  - unfold weight. cbn [conns work cl_test sv]. rewrite F2, F3. lia.
Qed.

Lemma advance_starting i g g' : phase i g -> (9 <= i <= 10)%nat -> step g g' -> advances i g g'.
Proof.
  intros Hp Hi H.
  destruct Hp as [| | | | |t ts w Hl Ht Hs Hl' Ht' Hs'|t ts w Hl Ht Hs Hl' Ht' Hs'| | | | | | | | ]; try (cbn in Hi; lia);
    step_cases H.
  - match goal with H : client_turn' _ _ _ _ _ = _ |- _ => rename H into E end.
    destruct (turn_start e c now t Hl Hs) as (t' & E' & Hl2 & Ht2 & Hs2). rewrite E' in E. injection E as <-.
    apply advances_next. by constructor.
  - apply advance_server_omit; try done. intros. by constructor.
  - apply advance_server_data; try done. intros. by constructor.
  - match goal with H : client_turn' _ _ _ _ _ = _ |- _ => rename H into E end. rewrite turn_running in E.
    injection E as <-. apply advances_next. constructor; try done. by apply client_like_state.
  - apply advance_server_omit; try done. intros. by constructor.
  - apply advance_server_data; try done. intros. by constructor.
Qed.

Lemma advance_running t ts w g' :
  let g := mk_system Loop t (accepted c (total_streams c) Loop ts) [] [] [] w in
  client_like c t -> state t = TEST_RUNNING -> has_streams (flags c) t ->
  server_like c ts -> state ts = TEST_RUNNING -> has_streams (map negb (flags c)) ts ->
  step g g' -> advances 8 g g'.
Proof.
  intros g Hl Ht Hs Hl' Ht' Hs' H. unfold g in *. clear g. step_cases H.
  - right. split; [constructor; try done; [by destruct Hl|by apply (reset_streams _ t)]|].
    unfold weight. cbn [conns work cl_test sv]. change (omitting (_ {{ omitting := false }})) with false.
    change (done_ (_ {{ omitting := false }})) with (done_ t).
    match goal with H : omitting t = true |- _ => rewrite H end. cbn. lia.
  - right. split; [constructor; try done; by destruct Hl|].
    unfold weight. cbn [conns work cl_test sv]. change (omitting (_ {{ done_ := true }})) with (omitting t).
    change (done_ (_ {{ done_ := true }})) with true.
    match goal with H : done_ t = false |- _ => rewrite H end. cbn. lia.
  - match goal with H : same_control _ _ |- _ => rename H into D end.
    pose proof (data_fields _ _ D) as F. destruct F as (_ & _ & _ & _ & _ & _ & _ & _ & F1 & F2 & F3 & _).
    right. split.
    + constructor; try done; [by eapply client_like_data|by rewrite F1|by eapply has_streams_data].
    + unfold weight. cbn [conns work cl_test sv]. rewrite F2, F3. lia.
  - match goal with H : data_step _ _ |- _ => rename H into D end. apply advances_next.
    constructor; try done.
    + apply client_like_state. eapply client_like_data; [apply D|]. by destruct Hl.
    + by apply (has_streams_data _ _ _ (proj1 D)).
    + apply (sendable_ext t'); try reflexivity. apply D.
  - apply advance_server_omit; try done. intros. by constructor.
  - apply advance_server_data; try done. intros. by constructor.
Qed.

(** ** After the test *)

Lemma flags_length : List.length (flags c) = total_streams c.
Proof. done. Qed.

Lemma negb_length : List.length (map negb (flags c)) = total_streams c.
Proof. apply length_map. Qed.

Section Results.
Context (t ts : iperf_test).
Hypothesis Hl : client_like c t.
Hypothesis Hs : has_streams (flags c) t.
Hypothesis Hr : results_sendable t.
Hypothesis Hl' : server_like c ts.
Hypothesis Hs' : has_streams (map negb (flags c)) ts.
Hypothesis Hr' : results_sendable ts.

Lemma same_count : List.length (streams t) = List.length (streams ts).
Proof.
  destruct Hs as [_ E], Hs' as [_ E']. by rewrite <- (length_map sender (streams t)), <- (length_map sender (streams ts)),
    E, E', length_map.
Qed.

Lemma run_peers : peers t ts.
Proof.
  eapply session_peers; [exact Hc|exact Hs|exact Hs'|apply flags_length|apply negb_length|apply Hl|apply Hl'].
Qed.

Lemma received_has : has_streams (map negb (flags c)) (received t ts).
Proof.
  eapply session_streams; [|exact Hs']. destruct (received_fields t ts) as (_ & _ & _ & _ & _ & _ & -> & _).
  apply merged_identity, same_count.
Qed.

Lemma back_peers : peers (received t ts) t.
Proof.
  eapply session_peers; [exact Hc|exact received_has|exact Hs|apply negb_length|apply flags_length| |apply Hl].
  destruct (received_fields t ts) as (_ & _ & -> & _). apply Hl'.
Qed.

Lemma back_sendable : results_sendable (received t ts).
Proof.
  apply received_sendable; [apply same_count|done|done|]. intros Hm. rewrite (sl_mode c ts Hl') in Hm.
  destruct Hs' as [_ E]. unfold flags in E. destruct (mode_cases c Hc) as [M | [M | M]]; rewrite M in Hm, E; try discriminate Hm.
  cbn [Z.eqb Pos.eqb] in E. change (nonzero_int 1) with true in E. apply Forall_lookup. intros i sp Hi.
  assert (H : map sender (streams ts) !! i = Some (sender sp)) by (by rewrite list_lookup_fmap, Hi).
  rewrite E, list_lookup_fmap in H. destruct (repeat true _ !! i) as [b|] eqn:Eb; [|done].
  apply list_elem_of_lookup_2, list_elem_of_In, repeat_spec in Eb. subst b. by injection H.
Qed.
End Results.

Lemma advance_late i g g' : phase i g -> (i <= 7)%nat -> step g g' -> advances i g g'.
Proof.
  intros Hp Hi H.
  destruct Hp as [| | | | | | | |t ts w Hl Ht Hs Hr Hl' Ht' Hs'|t ts w Hl Ht Hs Hr Hl' Hs' Hr'|t ts w Hl Ht Hs Hr Hl' Hs' Hr'
    |t ts w Hl Ht Hs Hr Hl' Hs' Hr'|t ts w Hl Ht Hs Hr Hl' Hs' Hr'|t ts w Hl Hs Hr Hl' Hs' Hr'|t ts w Hl Hs Hr Hl' Hs' Hr'];
    try (cbn in Hi; lia); step_cases H; try done;
    try match goal with H : client_turn' _ _ _ _ _ = _ |- _ => rename H into E
        | H : server_turn' _ _ _ _ _ = _ |- _ => rename H into E end;
    try (apply advance_drain; try done; intros; by constructor).
  - destruct (turn_end e c now stats (total_streams c) ts) as (ts' & E' & Hl2 & Hs2 & Hr2); try done.
    rewrite E' in E. injection E as <- <-. apply advances_next. by constructor.
  - apply advance_server_omit; try done. intros. by constructor.
  - apply advance_server_data; try done. intros. by constructor.
  - rewrite (turn_exchange e c) in E by done. apply Ok_inj in E as <-. apply advances_next.
    cbn [app after t_test sent dialled].
    apply (P_sent base c (t {{ state := EXCHANGE_RESULTS }}) ts w); try done;
      [by apply client_like_state|by apply (sendable_ext t)].
  - rewrite (turn_server_results e c) in E by (try done; by apply run_peers). injection E as <- <-.
    apply advances_next. by constructor.
  - rewrite turn_results in E by first [done | by apply back_sendable | by apply back_peers].
    injection E as <-. apply advances_next. by constructor.
  - rewrite turn_display in E. injection E as <-. apply advances_next. by constructor.
  - rewrite (turn_bye e c) in E. injection E as <- <-. apply advances_next. by constructor.
Qed.

Lemma phase_step i g g' : phase i g -> step g g' -> advances i g g'.
Proof.
  intros Hp H. destruct (decide (12 <= i)%nat); [by apply advance_early|].
  destruct (decide (i <= 7)%nat); [by apply advance_late|].
  destruct (decide (9 <= i <= 10)%nat); [by apply advance_starting|].
  destruct Hp; try lia; [by apply advance_accepting|by apply advance_running].
Qed.

End Run.
