(* ===== verification/ProtocolThms.v ===== *)
(** * Every run completes

    No phase before the last is stuck, and the weight of ProtocolRun.v makes
    every run finite: whatever the order of messages, connections, transfers
    and timers, both programs return 0 and hold the same figures. *)

From coqutil Require Import Datatypes.RecordSetters.
From Stdlib Require Import SpecFloat.
From Stdlib Require Import String.
From S2P Require Import Prelude.
From S2P Require Import IperfTime.
From S2P Require Import Cdouble.
From S2P Require Import CjsonData.
From S2P Require Import CjsonPrint.
From S2P Require Import CjsonPrintSpec.
From S2P Require Import CjsonParse.
From S2P Require Import CjsonRoundtrip.
From S2P Require Import CjsonTree.
From S2P Require Import JsonObject.
From S2P Require Import Iperf.
From S2P Require Import Frame.
From S2P Require Import Udp.
From S2P Require Import Transfer.
From S2P Require Import Stats.
From S2P Require Import Params.
From S2P Require Import ParamsProof.
From S2P Require Import ParamsThms.
From S2P Require Import Results.
From S2P Require Import ResultsProof.
From S2P Require Import Control.
From S2P Require Import Protocol.
From S2P Require Import ProtocolTurns.
From S2P Require Import ProtocolRun.
From stdpp Require Import base numbers gmap list relations.
Import DoubleBraceUpdate.

Open Scope Z_scope.
Open Scope c_scope.

(** ** What a run ends with *)

(** The figures of a sending and a receiving stream agree. *)
Record agree (s r : iperf_stream) : Prop := {
  ag_received : bytes_received (result s) = bytes_received (result r);
  ag_sent : bytes_sent (result r) = u64 (bytes_sent (result s) - bytes_sent_omit (result s));
  ag_jitter : jitter s = jitter r;
  ag_errors : cnt_error s = cnt_error r;
  ag_packets : peer_packet_count s = packet_count r /\ peer_packet_count r = packet_count s }.

Definition match_streams (a b : iperf_stream) : Prop :=
  stream_id a = stream_id b /\ sender b = negb (sender a) /\ if sender a then agree a b else agree b a.

Record completed (c : iperf_test) (g : system) : Prop := {
  fi_client : cl_pc g = Stop 0;
  fi_server : sv_pc (sv g) = Stop 0;
  fi_to_server : to_server g = [];
  fi_to_client : to_client g = [];
  fi_senders : map sender (streams (cl_test g)) = flags c;
  fi_figures : Forall2 match_streams (streams (cl_test g)) (streams (sv_test (sv g)));
  fi_server_test : protocols (sv_test (sv g)) = [Ptcp; Pudp] /\ get_server_output (sv_test (sv g)) = 0 }.

(** All runs from [g] reach [P]. *)
Inductive eventually {A} (R : A -> A -> Prop) (P : A -> Prop) (g : A) : Prop :=
| ev_now : P g -> eventually R P g
| ev_later : (exists g', R g g') -> (forall g', R g g' -> eventually R P g') -> eventually R P g.

Lemma merged_match t t' a b : stream_id a = stream_id b -> sender b = negb (sender a) ->
  match_streams (merged t' (merged t a b) a) (merged t a b).
Proof.
  intros Hid Hf. unfold merged, merge_stream.
  destruct a as [a1 a2 a3 a4 a5 a6 a7 a8 a9 a10 a11 a12 a13 a14].
  destruct b as [b1 b2 b3 b4 b5 b6 b7 b8 b9 b10 b11 b12 b13 b14].
  destruct a3, b3; try discriminate Hf; (split; [exact Hid|]); (split; [reflexivity|]); constructor; done.
Qed.

Section Thms.
Context (e : env) (base c : iperf_test).
Hypothesis He : env_ok e.
Hypothesis Hbase : ready e base.
Hypothesis Hc : client_ok c.

Lemma same_ids t ts : has_streams (flags c) t -> has_streams (map negb (flags c)) ts ->
  map stream_id (streams t) = map stream_id (streams ts).
Proof.
  intros Hs Hs'. pose proof (same_count c t ts Hs Hs') as E. destruct Hs as [H _], Hs' as [H' _].
  rewrite !ids_seq by done. by rewrite E.
Qed.

Lemma received_protocols ta tb : protocols (received ta tb) = protocols tb.
Proof. unfold received. by destruct (mode tb =? RECEIVER), (mode tb =? BIDIRECTIONAL), (congestion_used ta). Qed.

Lemma over_completed t ts w : server_like c ts -> has_streams (flags c) t -> has_streams (map negb (flags c)) ts ->
  completed c (mk_system (Stop 0) ((received (received t ts) t) {{ state := IPERF_DONE }})
    (accepted c (total_streams c) (Stop 0) ((received t ts) {{ state := IPERF_DONE }})) [] [] [] w).
Proof.
  intros Hl Hs Hs'. pose proof (same_ids t ts Hs Hs') as Hid. pose proof (same_count c t ts Hs Hs') as Hlen.
  destruct (received_fields t ts) as (_ & _ & Eo & _ & _ & _ & Es & _).
  destruct (received_fields (received t ts) t) as (_ & _ & _ & _ & _ & _ & Es2 & _).
  destruct Hs as [_ Hm], Hs' as [_ Hm']. constructor; try done.
  - change (map sender (streams (received (received t ts) t)) = flags c). rewrite Es2, <- Hm.
    assert (E : map identity (zip_with (merged (received t ts)) (streams (received t ts)) (streams t))
      = map identity (streams t)) by (apply merged_identity; rewrite Es, length_zip_with; lia).
    apply (f_equal (map (fun x : Z * Z * bool => x.2))) in E. rewrite !map_map in E. exact E.
  - change (Forall2 match_streams (streams (received (received t ts) t)) (streams (received t ts))).
    rewrite Es2, Es. apply Forall2_same_length_lookup_2; [rewrite !length_zip_with; lia|].
    intros i x y (b' & a & -> & Hb' & Ha)%lookup_zip_with_Some (a2 & b & -> & Ha2 & Hb)%lookup_zip_with_Some.
    apply lookup_zip_with_Some in Hb' as (a3 & b3 & -> & Ha3 & Hb3).
    rewrite Ha in Ha2, Ha3. injection Ha2 as <-. injection Ha3 as <-. rewrite Hb in Hb3. injection Hb3 as <-.
    apply merged_match.
    + assert (H : map stream_id (streams t) !! i = Some (stream_id a)) by (by rewrite list_lookup_fmap, Ha).
      rewrite Hid, list_lookup_fmap, Hb in H. by injection H.
    + assert (H : map sender (streams ts) !! i = Some (sender b)) by (by rewrite list_lookup_fmap, Hb).
      rewrite Hm', <- Hm, !list_lookup_fmap, Ha in H. by injection H.
  - change (protocols (received t ts) = [Ptcp; Pudp] /\ get_server_output (received t ts) = 0).
    rewrite received_protocols, Eo. by destruct Hl.
Qed.

(** ** No phase is stuck *)

(** The stream with all figures zero. *)
Definition quiet_stream (sp : iperf_stream) : iperf_stream :=
  mk_stream (socket sp) (stream_id sp) (sender sp) zero_result false 0 0 0 d0 d0 0 0 0 0.

Lemma data_exists fl t : has_streams fl t -> Z.of_nat (List.length fl) < 2 ^ 30 ->
  is_i32 (sender_has_retransmits t) -> opt_bytes (congestion_used t) -> exists t', data_step t t'.
Proof.
  intros [Hok Hm] Hn Hr Hb. exists (t {{ streams := map quiet_stream (streams t); cpu_util := (d0, d0, d0) }}).
  split; [split|].
  - by destruct t.
  - exact (map_map _ _ _).
  - constructor; [repeat constructor|unfold sent_has_retransmits|exact Hb|].
    + change (is_i32 (if mode t =? RECEIVER then -1 else sender_has_retransmits t)). destruct (mode t =? RECEIVER); [done|exact Hr].
    + apply Forall_lookup. intros i sp (sp' & -> & Hi)%list_lookup_fmap_Some. pose proof (Hok i sp' Hi) as Hid.
      assert (Hl : (i < List.length fl)%nat) by (rewrite <- Hm, length_map; by eapply lookup_lt_Some).
      constructor; [|unfold sent_bytes; cbn [sender quiet_stream]; destruct (sender sp'); vm_compute; split; congruence|repeat constructor].
      rewrite !Forall_cons. split; [|split; [|by split]].
      * cbn. rewrite Hid. unfold id_at. destruct i; zlia.
      * unfold sent_retransmits. destruct (sender _ && _); vm_compute; split; congruence.
Qed.

Lemma total_small : Z.of_nat (List.length (flags c)) < 2 ^ 30.
Proof. destruct (total_count c Hc) as (E & ? & ? & ?). unfold total_streams in E. lia. Qed.

Lemma congestion_bytes : opt_bytes (congestion_used c).
Proof. pose proof (s_strings c (co_sendable c Hc)) as H. rewrite !Forall_cons in H. tauto. Qed.

Lemma client_data_exists t : client_like c t -> has_streams (flags c) t -> exists t', data_step (t {{ done_ := true }}) t'.
Proof.
  intros Hl Hs. apply (data_exists (flags c)); [exact Hs|apply total_small| |].
  - change (is_i32 (sender_has_retransmits t)). rewrite (cl_retransmits c t Hl). apply Hc.
  - change (opt_bytes (congestion_used t)). rewrite (cl_congestion c t Hl). apply congestion_bytes.
Qed.

Lemma server_data_exists t : server_like c t -> has_streams (map negb (flags c)) t -> exists t', data_step t t'.
Proof.
  intros Hl Hs. apply (data_exists (map negb (flags c))); [exact Hs|rewrite length_map; apply total_small| |].
  - pose proof (sl_retransmits c t Hl). zlia.
  - rewrite (sl_congestion c t Hl). pose proof congestion_bytes as H. destruct (congestion_used c); [|done].
    by apply cstr_of_bytes.
Qed.

Definition some_time : iperf_time := mk_time 0 0.
Definition some_info (_ : iperf_stream) : tcp_info := mk_tcp_info 0 0 0 0 0 0.

(** A turn is a step. *)
Lemma client_msg_step now p t s ts m tc cs w r :
  (forall rv, p <> Stop rv) -> client_turn' e now p t (Msg m) = Ok r ->
  exists g', step e (mk_system p t s ts (m :: tc) cs w) g'.
Proof. intros H E. eexists. by eapply client_msg. Qed.

Lemma server_msg_step now p t s ts m tc cs w r :
  sv_pc s ∈ [Loop; WaitParams; WaitResults] -> m <> MState TEST_END -> server_turn' e now id s (Msg m) = Ok r ->
  exists g', step e (mk_system p t s (m :: ts) tc cs w) g'.
Proof. intros H Hm E. destruct r. eexists. by eapply server_msg. Qed.

Lemma running_progress t s ts tc cs w :
  client_like c t -> state t = TEST_RUNNING -> has_streams (flags c) t ->
  exists g', step e (mk_system Loop t s ts tc cs w) g'.
Proof.
  intros Hl Ht Hs. destruct (omitting t) eqn:Eo; [eexists; by apply (client_omit e some_time some_info)|].
  destruct (done_ t) eqn:Ed; [|eexists; by apply client_timer].
  destruct (client_data_exists t Hl Hs) as [t' Hd]. eexists. eapply client_finish; [done| |exact Hd].
  unfold client_done. rewrite Eo, Ed, (cl_duration c t Hl). pose proof (co_duration c Hc).
  unfold nonzero_int at 1. destruct (Z.eqb_spec (duration c) 0); [done|]. done.
Qed.

Lemma phase_progress i g : phase base c i g -> completed c g \/ exists g', step e g g'.
Proof.
  intros Hp. pose proof (total_count c Hc) as Hn.
  destruct Hp as [w|fd rs w Hfd|fd rs w Hfd|ts w Hl Ht Hs|k t ts w Hl Ht Hs Hl' Ht' Hs' Hk|t ts w Hl Ht Hs Hl' Ht' Hs'
    |t ts w Hl Ht Hs Hl' Ht' Hs'|t ts w Hl Ht Hs Hl' Ht' Hs'|t ts w Hl Ht Hs Hr Hl' Ht' Hs'
    |t ts w Hl Ht Hs Hr Hl' Hs' Hr'|t ts w Hl Ht Hs Hr Hl' Hs' Hr'
    |t ts w Hl Ht Hs Hr Hl' Hs' Hr'|t ts w Hl Ht Hs Hr Hl' Hs' Hr'|t ts w Hl Hs Hr Hl' Hs' Hr'|t ts w Hl Hs Hr Hl' Hs' Hr'];
    [right..|left; by apply over_completed].
  - eexists. by apply (server_hello e 0); [|lia|apply (accept_client e base c Hbase)].
  - eapply client_msg_step; [done|apply (turn_params e c some_time)].
  - destruct (turn_server_params e base c He Hbase Hc some_time fd rs Hfd) as (ts & E & _).
    eapply server_msg_step; [set_solver|done|exact E].
  - destruct (turn_create e c He Hc some_time) as (t' & E & _). by eapply client_msg_step; [|exact E].
  - destruct (turn_accept_stream c Hc some_time 0 k ts Hk Hl' Ht' Hs') as (ts' & _ & _ & E).
    replace (total_streams c - k)%nat with (S (total_streams c - S k)) by lia.
    destruct (S k =? total_streams c)%nat; destruct E as [_ E]; eexists; by eapply (server_stream e some_time 0).
  - destruct (turn_start e c some_time t Hl Hs) as (t' & E & _). by eapply client_msg_step; [|exact E].
  - by eapply client_msg_step; [|apply (turn_running e some_time)].
  - by apply running_progress.
  - destruct (server_data_exists (ts {{ state := TEST_END; done_ := true }})) as [t' Hd]; [by destruct Hl'|done|].
    destruct (turn_end e c some_time (fun _ => t') (total_streams c) ts Hd Hl' Hs') as (ts' & E & _).
    eexists. eapply (server_end e some_time (fun _ => t')); [done|exact Hd|exact E].
  - eapply client_msg_step; [done|by apply (turn_exchange e c some_time)].
  - eapply server_msg_step; [set_solver|done|apply (turn_server_results e c some_time); [done|by apply (run_peers c Hc)]].
  - eapply client_msg_step; [done|apply (turn_results e some_time); [by apply (back_sendable c Hc)|by apply (back_peers c Hc)|done]].
  - eapply client_msg_step; [done|apply (turn_display e some_time)].
  - eapply server_msg_step; [set_solver|done|apply (turn_bye e c some_time)].
Qed.

(** ** The runs *)

Lemma phase_eventually i : forall n g, phase base c i g -> (weight g < n)%nat -> eventually (step e) (completed c) g.
Proof.
  induction i as [i IHi] using lt_wf_ind. induction n as [|n IHn]; intros g Hp Hn; [lia|].
  destruct (phase_progress i g Hp) as [H|H]; [by apply ev_now|]. apply ev_later; [done|]. intros g' Hg.
  destruct (phase_step e base c He Hbase Hc i g g' Hp Hg) as [(j & Hj & Hp')|[Hp' Hw]].
  - eapply (IHi j Hj); [exact Hp'|apply Nat.lt_succ_diag_r].
  - apply IHn; [done|lia].
Qed.

Lemma run_eventually w : eventually (step e) (completed c) (start base c w).
Proof. eapply phase_eventually; [apply P_hello|apply Nat.lt_succ_diag_r]. Qed.

Lemma reachable_phase w g : rtc (step e) (start base c w) g -> exists i, phase base c i g.
Proof.
  intros H. remember (start base c w) as g0 eqn:E.
  assert (H0 : exists i, phase base c i g0) by (exists 15%nat; subst; constructor). clear E. revert H0.
  induction H as [g|g1 g2 g3 Hs _ IH]; intros [i Hp]; [by exists i|]. apply IH.
  destruct (phase_step e base c He Hbase Hc i g1 g2 Hp Hs) as [(j & _ & H)|[H _]]; by eexists.
Qed.

(** ** Safety *)

(** What a side is about to do goes well. *)
Record safe (g : system) : Prop := {
  sf_client rv : cl_pc g = Stop rv -> rv = 0;
  sf_server rv : sv_pc (sv g) = Stop rv -> rv = 0;
  sf_to_client now m tc : to_client g = m :: tc -> exists r, client_turn' e now (cl_pc g) (cl_test g) (Msg m) = Ok r;
  sf_to_server now m ts : to_server g = m :: ts -> exists r, server_turn' e now id (sv g) (Msg m) = Ok r;
  sf_conns now fd ck cs : conns g = ck :: cs ->
    ck = cookie (sv_test (sv g)) /\ exists r, server_accept_stream no_errno now (sv g) fd ck = Ok r }.

Lemma phase_safe i g : phase base c i g -> safe g.
Proof.
  intros Hp.
  destruct Hp as [w|fd rs w Hfd|fd rs w Hfd|ts w Hl Ht Hs|k t ts w Hl Ht Hs Hl' Ht' Hs' Hk|t ts w Hl Ht Hs Hl' Ht' Hs'
    |t ts w Hl Ht Hs Hl' Ht' Hs'|t ts w Hl Ht Hs Hl' Ht' Hs'|t ts w Hl Ht Hs Hr Hl' Ht' Hs'
    |t ts w Hl Ht Hs Hr Hl' Hs' Hr'|t ts w Hl Ht Hs Hr Hl' Hs' Hr'
    |t ts w Hl Ht Hs Hr Hl' Hs' Hr'|t ts w Hl Ht Hs Hr Hl' Hs' Hr'|t ts w Hl Hs Hr Hl' Hs' Hr'|t ts w Hl Hs Hr Hl' Hs' Hr'];
    (constructor; [intros rv E; try discriminate E; by injection E|intros rv E; try discriminate E; by injection E
                  |intros now m l E; try discriminate E; injection E as <- _
                  |intros now m l E; try discriminate E; injection E as <- _
                  |intros now fd' ck cs E; try discriminate E]).
  - by eexists.
  - eexists. apply turn_params.
  - destruct (turn_server_params e base c He Hbase Hc now fd rs Hfd) as (ts & E & _). by eexists.
  - destruct (turn_create e c He Hc now) as (t' & E & _). by eexists.
  - destruct (turn_accept_stream c Hc now fd' k ts Hk Hl' Ht' Hs') as (ts' & _ & _ & E').
    destruct (total_streams c - k)%nat; [discriminate E|]. injection E as <- _.
    split; [symmetry; apply Hl'|]. destruct (S k =? total_streams c)%nat; destruct E' as [_ E']; by eexists.
  - destruct (turn_start e c now t Hl Hs) as (t' & E & _). by eexists.
  - eexists. apply turn_running.
  - by eexists.
  - eexists. by apply (turn_exchange e c).
  - eexists. apply (turn_server_results e c); [done|by apply (run_peers c Hc)].
  - eexists. apply turn_results; [by apply (back_sendable c Hc)|by apply (back_peers c Hc)|done].
  - eexists. apply turn_display.
  - eexists. apply (turn_bye e c).
Qed.



End Thms.

(** A client of [iperf3 -c host -P 2 --bidir] and a world without failures. *)
Definition sample_bidir : iperf_test :=
  iperf_set_test_bidirectional true
    ((iperf_set_test_role true (iperf_defaults true) role_client) {{ num_streams := 2 }}) 1.

Definition sample_env : env := mk_env true (fun n => 3 + Z.of_nat n) 7 false cJSON_New_Item [].

Lemma sample_env_ok : env_ok sample_env.
Proof. constructor; intros; cbn; lia. Qed.

Lemma sample_bidir_ok : client_ok sample_bidir.
Proof.
  constructor; try reflexivity; try (vm_compute; split; congruence); try (vm_compute; congruence).
  - constructor; repeat constructor; vm_compute; congruence.
  - constructor; [by left|reflexivity|discriminate|discriminate].
Qed.

Lemma sample_ready : ready sample_env (fresh_server true).
Proof. exists (fresh_server true). by rewrite reset_fresh. Qed.


