(* ===== verification/Serve.v ===== *)
(** * The server program (main.c: run)

    The loop of run() around iperf_run_server: what it does when a test is
    over, and the programs of a list of clients that come one after the other.
    The loop is joined to the runs of Protocol.v: after a test the server is
    reset and waits for the next client. *)

From coqutil Require Import Datatypes.RecordSetters.
From S2P Require Import Prelude.
From S2P Require Import Cdouble.
From S2P Require Import CjsonData.
From S2P Require Import Iperf.
From S2P Require Import ParamsProof.
From S2P Require Import ParamsThms.
From S2P Require Import Control.
From S2P Require Import Protocol.
From S2P Require Import ProtocolThms.
From stdpp Require Import base numbers gmap list relations.
Import DoubleBraceUpdate.

Open Scope Z_scope.

Abbreviation IEAUTHTEST := 142.

(** What cleanup_server does to the test itself; the sockets are those of
    Setup.v, the timers those of TestTimers.v. *)
Definition forget_congestion (t : iperf_test) : iperf_test := t {{ congestion_used := None }}.

(** After iperf_run_server: wait again, return, or exit. *)
Inductive next_test : Type :=
| Again (t : iperf_test)
| Leave (t : iperf_test)
| Exit.

(** The body of the loop behind iperf_run_server, with its result and i_errno. *)
Definition after_server (has one_off : bool) (rc i_errno : Z) (t : iperf_test) : next_test :=
  if rc <? -1 then Exit
  else
    let t := iperf_reset_test has t in
    if one_off
    then if (rc <? 0) && (i_errno =? IEAUTHTEST) then Again t else Leave t
    else Again t.

(** ** A server and its clients *)

(** The clients that are still to come, the one that is served, its run, and
    the runs that are over. *)
Record session := mk_session
  { todo : list iperf_test;
    client : iperf_test;
    run : system;
    over : list (iperf_test * system) }.

Section Serve.
Variable e : env.
Variable one_off : bool.

Inductive serve : session -> session -> Prop :=
(** client and server go on *)
| serve_step cs c g g' o : step e g g' -> serve (mk_session cs c g o) (mk_session cs c g' o)
(** both programs returned from the test: the server waits again, and the next
    client connects *)
| serve_next cs c c' g o rc rc' i_errno base w :
    sv_pc (sv g) = Stop rc -> cl_pc g = Stop rc' ->
    after_server (has_tcpinfo_retransmits e) one_off rc i_errno (forget_congestion (sv_test (sv g))) = Again base ->
    serve (mk_session (c' :: cs) c g o) (mk_session cs c' (start base c' w) (o ++ [(c, g)])).

(** Everyone was served. *)
Definition all_served (clients : list iperf_test) (x : session) : Prop :=
  todo x = [] /\ completed (client x) (run x) /\
  Forall (fun r => completed (fst r) (snd r)) (over x) /\ map fst (over x) ++ [client x] = clients.

End Serve.

(** ** What is left of a test *)

(** Whatever way a test ended, the server that waits again is ready for the
    next client, unless the last one had asked for the output of the server. *)
Lemma after_server_ready e one_off rc i_errno t base :
  protocols t = [Ptcp; Pudp] -> get_server_output t = 0 ->
  after_server (has_tcpinfo_retransmits e) one_off rc i_errno (forget_congestion t) = Again base -> ready e base.
Proof.
  intros Hp Ho. unfold after_server. destruct (rc <? -1); [discriminate|].
  assert (H : ready e (iperf_reset_test (has_tcpinfo_retransmits e) (forget_congestion t))) by (by exists (forget_congestion t)).
  cbv zeta. revert H. generalize (iperf_reset_test (has_tcpinfo_retransmits e) (forget_congestion t)). intros b H.
  destruct one_off; [destruct (_ && _)|]; intros [= <-]; exact H.
Qed.

(** A run that is over makes no more steps. *)
Lemma stopped_final e g g' rc rc' : sv_pc (sv g) = Stop rc -> cl_pc g = Stop rc' -> ~ step e g g'.
Proof. intros H1 H2 Hs. destruct Hs; cbn in H1, H2; try congruence.
  match goal with H : sv_pc s ∈ _ |- _ => rewrite H1, !elem_of_cons in H; by destruct H as [?|[?|[?|?%elem_of_nil]]] end.
Qed.

Section Thm.
Context (e : env).
Hypothesis He : env_ok e.

(** The last run ends the list; every other run is followed by the next. *)
Lemma serves_from cs : forall c base w o,
  ready e base -> client_ok c -> Forall client_ok cs -> Forall (fun r => completed (fst r) (snd r)) o ->
  ProtocolThms.eventually (serve e false) (all_served (map fst o ++ c :: cs)) (mk_session cs c (start base c w) o).
Proof.
  induction cs as [|c' cs IH]; intros c base w o Hb Hc Hcs Ho.
  - induction (run_eventually e base c He Hb Hc w) as [g Hg|g [g' Hg] _ IHg].
    + apply ev_now. by split.
    + apply ev_later; [exists (mk_session [] c g' o); by constructor|]. intros x Hx. inversion Hx; subst. by apply IHg.
  - inversion Hcs as [|? ? Hc' Hcs']; subst.
    induction (run_eventually e base c He Hb Hc w) as [g Hg|g [g' Hg] _ IHg].
    + pose proof Hg as [H1 H2 _ _ _ _ [Hp Hq]].
      apply ev_later.
      * eexists. eapply (serve_next e false cs c c' g o 0 0 0 _ 0%nat H2 H1). reflexivity.
      * intros x Hx. inversion Hx as [? ? ? g1 ? Hs|? ? ? ? ? rc rc' i_errno b w' E1 E2 E3]; subst; [by destruct (stopped_final e g g1 0 0 H2 H1)|].
        replace (map fst o ++ c :: c' :: cs) with (map fst (o ++ [(c, g)]) ++ c' :: cs)
          by (rewrite map_app, <- app_assoc; reflexivity).
        apply IH; [by eapply after_server_ready|done|done|]. apply Forall_app. split; [done|]. by constructor.
    + apply ev_later; [exists (mk_session (c' :: cs) c g' o); by constructor|]. intros x Hx.
      inversion Hx as [? ? ? g1 ? Hs|? ? ? ? ? rc rc' i_errno b w' E1 E2 E3]; subst; [by apply IHg|].
      by destruct (stopped_final e g g' rc rc' E1 E2).
Qed.

End Thm.


(** With -1 the server returns after a test, unless the client was not
    authorised; an error below -1 ends the program either way. *)
Lemma one_off_leaves has rc i_errno t :
  -1 <= rc -> (rc < 0 -> i_errno <> IEAUTHTEST) -> after_server has true rc i_errno t = Leave (iperf_reset_test has t).
Proof.
  intros H1 H2. unfold after_server. destruct (Z.ltb_spec rc (-1)); [lia|]. destruct (Z.ltb_spec rc 0); [|done].
  cbn [andb]. by rewrite (proj2 (Z.eqb_neq _ _) (H2 ltac:(lia))).
Qed.
