(* ===== verification/Process.v ===== *)
(** * The process of a server (iperf_api.c: iperf_create_pidfile,
    iperf_delete_pidfile; iperf_error.c: the end of iperf_errexit)

    Files are a map from names to contents, beside the processes that exist
    and the number of descriptors left open.  Which files can be opened is an
    argument. *)

From coqutil Require Import Datatypes.RecordSetters.
From S2P Require Import Prelude.
From S2P Require Import Cdouble.
From S2P Require Import CdoubleFacts.
From S2P Require Import CdoubleText.
From S2P Require Import Cscan.
From S2P Require Import Units.
From S2P Require Import CscanFacts.
From S2P Require Import Output.
From stdpp Require Import base numbers gmap list.
Import DoubleBraceUpdate.

Open Scope Z_scope.
Open Scope c_scope.

Record machine := mk_machine
  { files : gmap bytes bytes;
    alive : gset Z;
    descriptors : Z }.

(** What iperf_create_pidfile does: return 0, return -1, or exit because of
    another instance. *)
Inductive created : Type :=
| Created
| Failed
| OtherInstance.

Section Pidfile.
(** Whether a file can be opened and read, opened for writing, and written and
    closed. *)
Variables readable writable storable : bytes -> bool.

(** What atoi reads: the buffer up to its NUL. *)
Definition atoi_buffer (buf : bytes) : outcome Z :=
  if bool_decide (0 ∈ buf) then Ok (atoi (cstr_of buf)) else UB.

(** The pid of a running process in an existing file; [junk] is what is in
    the buffer before. *)
Definition running_pid (junk content : bytes) (m : machine) : outcome bool :=
  let buf := take 7 content ++ drop (List.length (take 7 content)) junk in
  let! pid := atoi_buffer buf in
  Ok ((0 <? pid) && bool_decide (pid ∈ alive m)).

(** The result, test->pidfile afterwards, and the machine.  The descriptor of
    the existing file is not closed. *)
Definition iperf_create_pidfile (junk : bytes) (getpid : Z) (pidfile : option bytes) (m : machine)
    : outcome (created * option bytes * machine) :=
  match pidfile with
  | None => Ok (Created, None, m)
  | Some path =>
      let create m :=
        if writable path
        then
          if storable path
          then Ok (Created, pidfile, m {{ files := <[path := take 7 (int_text getpid) ++ [0]]> (files m) }})
          else Ok (Failed, pidfile, m {{ files := <[path := []]> (files m); descriptors := descriptors m + 1 }})
        else Ok (Failed, pidfile, m) in
      match files m !! path with
      | Some content =>
          if readable path
          then
            let m := m {{ descriptors := descriptors m + 1 }} in
            let! other := running_pid junk content m in
            if other then Ok (OtherInstance, None, m) else create m
          else create m
      | None => create m
      end
  end.

Definition iperf_delete_pidfile (pidfile : option bytes) (m : machine) : machine :=
  match pidfile with
  | Some path => m {{ files := delete path (files m) }}
  | None => m
  end.

(** run() before its loop: the machine with the server, or after it exited. *)
Definition start_server (junk : bytes) (getpid : Z) (pidfile : option bytes) (m : machine)
    : outcome (bool * option bytes * machine) :=
  let! r := iperf_create_pidfile junk getpid pidfile m in
  match r with
  | (Created, pidfile, m) => Ok (true, pidfile, m)
  | (_, pidfile, m) => Ok (false, pidfile, iperf_delete_pidfile pidfile m)
  end.
End Pidfile.

(** ** One server per file *)

Section Thms.
Variables readable writable storable : bytes -> bool.

Lemma pid_text p : 0 < p < 10 ^ 7 -> take 7 (int_text p) = digits p.
Proof.
  intros Hp. unfold int_text. destruct (Z.ltb_spec p 0); [lia|]. rewrite Z.abs_eq by lia. cbn [app].
  apply take_ge. apply (digits_length_le p 7); [lia|lia].
Qed.

(** Reading what a server wrote, if its pid has at most six digits: the NUL is
    then among the seven bytes read. *)
Lemma running_pid_written junk p m : 0 < p < 10 ^ 6 ->
  running_pid junk (take 7 (int_text p) ++ [0]) m = Ok (bool_decide (p ∈ alive m)).
Proof.
  intros Hp. rewrite pid_text by lia. pose proof (digits_length_le p 6 ltac:(lia) ltac:(lia)) as Hl.
  unfold running_pid, atoi_buffer. rewrite (take_ge (digits p ++ [0]) 7) by (rewrite length_app; cbn [List.length]; lia).
  rewrite <- app_assoc. cbn [app]. rewrite bool_decide_eq_true_2 by (rewrite elem_of_app, elem_of_cons; auto).
  rewrite cstr_of_app by apply digits_nonzero. rewrite atoi_digits by lia. cbn [obind].
  destruct (Z.ltb_spec 0 p); [done|lia].
Qed.

End Thms.


(** With a pid of seven digits the NUL is not among the bytes read, and atoi
    runs over whatever the buffer held before. *)
Theorem pidfile_seven_digits :
  let m1 := mk_machine {[ [112] := take 7 (int_text 4194303) ++ [0] ]} {[4194303]} 3 in
  start_server (fun _ => true) (fun _ => true) (fun _ => true) (repeat 65 8) 77 (Some [112]) m1 = UB /\
  exists p m2, start_server (fun _ => true) (fun _ => true) (fun _ => true) (repeat 0 8) 77 (Some [112]) m1 = Ok (false, p, m2).
Proof. split; [vm_compute; reflexivity|]. eexists _, _. vm_compute. reflexivity. Qed.

(** Every start over an existing file leaves a descriptor open. *)
Theorem pidfile_descriptor_leaks :
  exists p m, start_server (fun _ => true) (fun _ => true) (fun _ => true) [] 77 (Some [112]) (mk_machine {[ [112] := [53; 0] ]} {[77]} 3)
    = Ok (true, p, m) /\ descriptors m = 4.
Proof. eexists _, _. split; [vm_compute; reflexivity|]. reflexivity. Qed.
