(* ===== verification/TestTimers.v ===== *)
(** * The timers of a test (iperf_client_api.c, iperf_server_api.c, iperf_api.c)

    The timers a client and a server create over the package of timer.c, and
    their callbacks: the end of the test, the statistics, the reports, the end
    of the omit period, the pacing of the streams.  The callbacks run inside
    tmr_run and may themselves reset and cancel timers.  Reports are counted,
    not printed. *)

From coqutil Require Import Datatypes.RecordSetters.
From Stdlib Require Import SpecFloat.
From S2P Require Import Prelude.
From S2P Require Import IperfTime.
From S2P Require Import Timer.
From S2P Require Import TimerSpec.
From S2P Require Import TimerRun.
From S2P Require Import Cdouble.
From S2P Require Import Iperf.
From S2P Require Import Transfer.
From S2P Require Import Stats.
From S2P Require Import Control.
From stdpp Require Import base numbers gmap list.
Import DoubleBraceUpdate.

Open Scope Z_scope.
Open Scope c_scope.

Abbreviation SEC_TO_US := 1000000.
Abbreviation IEINITTEST := 101.

(** The test with its timers. *)
Record session := mk_session
  { s_test : iperf_test;
    stats_interval : double;
    reporter_interval : double;
    timer : option loc;
    stats_timer : option loc;
    reporter_timer : option loc;
    omit_timer : option loc;
    send_timers : gmap Z loc;     (* sp->send_timer, by the id of the stream *)
    reports : nat }.

(** The callbacks. *)
Abbreviation TEST_PROC := 0%nat.
Abbreviation STATS_PROC := 1%nat.
Abbreviation REPORTER_PROC := 2%nat.
Abbreviation OMIT_PROC := 3%nat.
Abbreviation SEND_PROC := 4%nat.
Abbreviation SERVER_PROC := 5%nat.

(** Conversion to int64_t (undefined out of range). *)
Definition i64_of_double (d : double) : outcome Z :=
  match d with
  | S754_zero _ => Ok 0
  | S754_finite _ _ _ =>
      let z := Z_of_double d in if (- 2 ^ 63 <=? z) && (z <? 2 ^ 63) then Ok z else UB
  | _ => UB
  end.

Section Timers.
(** malloc for a timer, the statistics callback, TCP_INFO of the streams. *)
Variable malloc : gmap loc Timer -> option loc.
Variable stats_callback : iperf_time -> iperf_test -> iperf_test.
Variable tcp : iperf_stream -> tcp_info.

(** ** Creating timers: an i_errno, the session, the timers *)

Definition created : Type := option Z * session * tmr_state.

(** tmr_create and the check of its result; [set] stores the timer. *)
Definition arm (set : option loc -> session -> session) (now : iperf_time) (proc : nat) (cd us : Z) (per : bool)
    (s : session) (st : tmr_state) : outcome created :=
  let! r := tmr_create st (malloc (heap st)) now proc cd us per in
  let '(l, st) := r in
  Ok (match l with None => Some IEINITTEST | Some _ => None end, set l s, st).

(** The next step, if there was no error. *)
Definition and_then (r : outcome created) (k : session -> tmr_state -> outcome created) : outcome created :=
  let! c := r in
  match c with
  | (None, s, st) => k s st
  | c => Ok c
  end.

(** A periodic timer with an interval in seconds, unless the interval is 0. *)
Definition arm_interval (set : option loc -> session -> session) (now : iperf_time) (proc : nat) (interval : double)
    (s : session) (st : tmr_state) : outcome created :=
  if deqb interval d0 then Ok (None, s, st)
  else
    let! us := i64_of_double (dmul interval (d_of_Z SEC_TO_US)) in
    arm set now proc 0 us true s st.

(** create_client_timers and create_server_timers differ in the callback at the
    end and in the time the server waits longer. *)
Definition create_timers (proc : nat) (grace : Z) (now : option iperf_time) (s : session) (st : tmr_state)
    : outcome created :=
  match now with
  | None => Ok (Some IEINITTEST, s, st)
  | Some now =>
      let s := s {{ timer := None; stats_timer := None; reporter_timer := None }} in
      and_then
        (and_then
           (if nonzero_int (duration (s_test s))
            then
              let s := s {{ s_test -> done_ := false }} in
              let! d := int_of (duration (s_test s) + omit (s_test s)) in
              let! d := int_of (d + grace) in
              arm (fun l s => s {{ timer := l }}) now proc 0 (d * SEC_TO_US) false s st
            else Ok (None, s, st))
           (fun s st => arm_interval (fun l s => s {{ stats_timer := l }}) now STATS_PROC (stats_interval s) s st))
        (fun s st => arm_interval (fun l s => s {{ reporter_timer := l }}) now REPORTER_PROC (reporter_interval s) s st)
  end.

Definition create_client_timers : option iperf_time -> session -> tmr_state -> outcome created :=
  create_timers TEST_PROC 0.

(** max_rtt * state_transitions *)
Definition grace_period : Z := 4 * 10.
Definition create_server_timers : option iperf_time -> session -> tmr_state -> outcome created :=
  create_timers SERVER_PROC grace_period.

(** create_client_omit_timer; create_server_omit_timer is the same. *)
Definition create_client_omit_timer (now : option iperf_time) (s : session) (st : tmr_state) : outcome created :=
  if omit (s_test s) =? 0 then Ok (None, s {{ omit_timer := None; s_test -> omitting := false }}, st)
  else
    match now with
    | None => Ok (Some IEINITTEST, s, st)
    | Some now =>
        arm (fun l s => s {{ omit_timer := l }}) now OMIT_PROC 0 (omit (s_test s) * SEC_TO_US) false
          (s {{ s_test -> omitting := true }}) st
    end.

(** The loop of iperf_create_send_timers over the streams [l]; [getnow] is the
    clock tmr_create reads. *)
Fixpoint send_timers_loop (getnow : iperf_time) (l : list iperf_stream) (s : session) (st : tmr_state)
    : outcome created :=
  match l with
  | [] => Ok (None, s, st)
  | sp :: l =>
      let s := s {{ s_test -> streams :=
        map (fun x => if stream_id x =? stream_id sp then x {{ green_light := true }} else x) (streams (s_test s)) }} in
      if rate (settings (s_test s)) =? 0 then send_timers_loop getnow l s st
      else
        and_then
          (arm (fun p s => match p with
                           | Some p => s {{ send_timers := <[ stream_id sp := p ]> (send_timers s) }}
                           | None => s
                           end)
               getnow SEND_PROC (stream_id sp) (pacing_timer (settings (s_test s))) true s st)
          (send_timers_loop getnow l)
  end.

Definition iperf_create_send_timers (now : option iperf_time) (getnow : iperf_time) (s : session) (st : tmr_state)
    : outcome created :=
  match now with
  | None => Ok (Some IEINITTEST, s, st)
  | Some _ => send_timers_loop getnow (streams (s_test s)) s st
  end.

(** ** The callbacks *)

Definition test_timer_proc (s : session) : session := s {{ timer := None; s_test -> done_ := true }}.

Definition client_stats_timer_proc (now : iperf_time) (s : session) : session :=
  if done_ (s_test s) then s else s {{ s_test := stats_callback now (s_test s) }}.

Definition client_reporter_timer_proc (s : session) : session :=
  if done_ (s_test s) then s else s {{ reports := S (reports s) }}.

Definition reset_timer (now : iperf_time) (t : option loc) (st : tmr_state) : outcome tmr_state :=
  match t with
  | Some l => tmr_reset st now l
  | None => Ok st
  end.

Definition client_omit_timer_proc (now : iperf_time) (s : session) (st : tmr_state) : outcome (session * tmr_state) :=
  let s := s {{ omit_timer := None; s_test := iperf_reset_stats ((s_test s) {{ omitting := false }}) now tcp }} in
  let! st := reset_timer now (stats_timer s) st in
  let! st := reset_timer now (reporter_timer s) st in
  Ok (s, st).

(** [id] stands for the pointer to the stream, which must not be freed. *)
Definition send_timer_proc (id : Z) (now : iperf_time) (s : session) : outcome session :=
  match find (fun sp => stream_id sp =? id) (streams (s_test s)) with
  | None => UB
  | Some sp =>
      let! r := iperf_check_throttle (s_test s) sp now in
      let '(sp, ws) := r in
      Ok (s {{ s_test := (s_test s) {{ write_set := ws; streams :=
                map (fun x => if stream_id x =? id then sp else x) (streams (s_test s)) }} }})
  end.

(** iperf_free_stream cancels the timer of the stream. *)
Fixpoint free_streams (l : list iperf_stream) (tms : gmap Z loc) (st : tmr_state) : outcome tmr_state :=
  match l with
  | [] => Ok st
  | sp :: l =>
      let! st := match tms !! stream_id sp with Some t => tmr_cancel st t | None => Ok st end in
      free_streams l tms st
  end.

Definition server_timer_proc (s : session) (st : tmr_state) : outcome (session * tmr_state) :=
  let s := s {{ timer := None }} in
  if done_ (s_test s) then Ok (s, st)
  else
    let! st := free_streams (streams (s_test s)) (send_timers s) st in
    Ok (s {{ s_test := (s_test s) {{ done_ := true; streams := [] }}; send_timers := ∅ }}, st).

(** What tmr_run calls. *)
Definition dispatch (p : nat) (cd : Z) (now : iperf_time) (s : session) (st : tmr_state)
    : outcome (session * tmr_state) :=
  match p with
  | TEST_PROC => Ok (test_timer_proc s, st)
  | STATS_PROC => Ok (client_stats_timer_proc now s, st)
  | REPORTER_PROC => Ok (client_reporter_timer_proc s, st)
  | OMIT_PROC => client_omit_timer_proc now s st
  | SEND_PROC => let! s := send_timer_proc cd now s in Ok (s, st)
  | SERVER_PROC => server_timer_proc s st
  | _ => UB
  end.

End Timers.
