(* ===== verification/TestTimersThms.v ===== *)
(** * The timers of a test: when a test ends

    The timers a client creates run through the package of timer.c as the event
    loop expects: the test is done exactly when its time is over.  And a limit
    of the package that a server hits: its last timer frees the streams while
    the run over the timers still holds one of theirs. *)

From coqutil Require Import Datatypes.RecordSetters.
From Stdlib Require Import SpecFloat.
From S2P Require Import Prelude.
From S2P Require Import IperfTime.
From S2P Require Import Timer.
From S2P Require Import TimerSpec.
From S2P Require Import TimerRun.
From S2P Require Import Cdouble.
From S2P Require Import Iperf.
From S2P Require Import Stats.
From S2P Require Import Control.
From S2P Require Import TestTimers.
From stdpp Require Import base numbers gmap list.
Import DoubleBraceUpdate.

Open Scope Z_scope.
Open Scope c_scope.

(** ** The active timers as a list of data *)

Abbreviation timer_data := (nat * Z * Z * bool * iperf_time)%type.

Definition timers_are (st : tmr_state) (act : list loc) (ds : list timer_data) : Prop :=
  (fun x => data <$> heap st !! x) <$> act ≡ₚ Some <$> ds.

Definition armed (ds : list timer_data) (st : tmr_state) : Prop :=
  exists act fre, tmr_inv st act fre /\ timers_are st act ds.

Lemma timers_are_in st act ds x : timers_are st act ds -> x ∈ act ->
  exists t, heap st !! x = Some t /\ data t ∈ ds.
Proof.
  intros H Hx. assert (He : (data <$> heap st !! x) ∈ Some <$> ds).
  { rewrite <- H. apply list_elem_of_fmap. eauto. }
  apply list_elem_of_fmap in He as (d & E & Hd). destruct (heap st !! x) as [t|]; [|done].
  exists t. split; [done|]. by injection E as ->.
Qed.

Lemma timers_are_all st act ds d : timers_are st act ds -> d ∈ ds ->
  exists x t, x ∈ act /\ heap st !! x = Some t /\ data t = d.
Proof.
  intros H Hd. assert (He : Some d ∈ (fun x => data <$> heap st !! x) <$> act).
  { rewrite H. apply list_elem_of_fmap. eauto. }
  apply list_elem_of_fmap in He as (x & E & Hx). destruct (heap st !! x) as [t|] eqn:Et; [|done].
  exists x, t. split; [done|]. split; [done|]. by injection E as ->.
Qed.

(** ** Creating timers *)

Section Timers.
Variable malloc : gmap loc Timer -> option loc.
Variable stats_callback : iperf_time -> iperf_test -> iperf_test.
Variable tcp : iperf_stream -> tcp_info.

(** Memory does not run out. *)
Hypothesis malloc_ok : forall h, exists l, malloc h = Some l /\ h !! l = None.

(** The statistics leave the end conditions alone. *)
Hypothesis stats_keep : forall now t,
  done_ (stats_callback now t) = done_ t /\ omitting (stats_callback now t) = omitting t /\
  duration (stats_callback now t) = duration t /\ settings (stats_callback now t) = settings t.

Lemma arm_ok set now proc cd n per s st ds :
  armed ds st -> wf_time now -> 0 <= n -> us now + n < 2 ^ 32 * 1000000 ->
  exists t st', arm malloc set now proc cd n per s st = Ok (None, set (Some t) s, st') /\
    armed ((proc, cd, n, per, iperf_time_add_usecs now n) :: ds) st'.
Proof.
  intros (act & fre & Hi & Ha) Hw Hn Hb.
  destruct (tmr_create_inv st act fre (malloc (heap st)) now proc cd n per Hi Hw Hn Hb)
    as (t & st' & E & Et & (tm & Htm & Hd) & Ho & Hi'); [intros _; apply malloc_ok|].
  exists t, st'. unfold arm. rewrite E. split; [done|]. do 2 eexists. split; [exact Hi'|].
  unfold timers_are. rewrite ins_perm. cbn [fmap list_fmap]. rewrite Htm. cbn. rewrite Hd. constructor.
  rewrite <- Ha. apply Permutation_refl', list_fmap_ext. intros i x Hx. apply Ho. intros ->.
  pose proof (inv_nodup _ _ _ Hi') as (Hnd & _ & _)%NoDup_app. rewrite ins_perm in Hnd.
  apply NoDup_cons in Hnd as [Hnin _]. by apply list_elem_of_lookup_2 in Hx.
Qed.

(** An interval of a test in microseconds; 0 for none. *)
Definition interval_us (d : double) (n : Z) : Prop :=
  if deqb d d0 then n = 0 else 1 <= n /\ i64_of_double (dmul d (d_of_Z SEC_TO_US)) = Ok n.

Definition interval_data (now : iperf_time) (proc : nat) (n : Z) : list timer_data :=
  if n =? 0 then [] else [(proc, 0, n, true, iperf_time_add_usecs now n)].

Lemma arm_interval_ok set now proc d n s st ds :
  armed ds st -> wf_time now -> interval_us d n -> us now + n < 2 ^ 32 * 1000000 ->
  exists s' st', arm_interval malloc set now proc d s st = Ok (None, s', st') /\
    (s' = s \/ exists t, s' = set (Some t) s) /\ armed (interval_data now proc n ++ ds) st'.
Proof.
  unfold interval_us, arm_interval, interval_data. intros Ha Hw Hd Hb.
  destruct (deqb d d0); [subst n; by eauto 10|]. destruct Hd as [Hn ->]. cbn [obind].
  destruct (arm_ok set now proc 0 n true s st ds Ha Hw ltac:(lia) Hb) as (t & st' & -> & Ha').
  eexists _, st'. split; [done|]. split; [by eauto|]. destruct (Z.eqb_spec n 0); [lia|done].
Qed.

(** The timers of a client without an omit period. *)
Definition client_data_ (now : iperf_time) (t : iperf_test) (ns nr : Z) : list timer_data :=
  interval_data now REPORTER_PROC nr ++ interval_data now STATS_PROC ns ++
  [(TEST_PROC, 0, duration t * SEC_TO_US, false, iperf_time_add_usecs now (duration t * SEC_TO_US))].

Definition create_all (now : iperf_time) (s : session) (st : tmr_state) : outcome created :=
  and_then (create_client_timers malloc (Some now) s st) (create_client_omit_timer malloc (Some now)).

Lemma client_timers_created now s st ns nr :
  armed [] st -> wf_time now -> omit (s_test s) = 0 -> 1 <= duration (s_test s) <= 86400 ->
  interval_us (stats_interval s) ns -> interval_us (reporter_interval s) nr ->
  us now + 86400 * SEC_TO_US < 2 ^ 32 * 1000000 -> us now + ns < 2 ^ 32 * 1000000 -> us now + nr < 2 ^ 32 * 1000000 ->
  exists s1 st1, create_all now s st = Ok (None, s1, st1) /\
    s_test s1 = (s_test s) {{ done_ := false; omitting := false }} /\ armed (client_data_ now (s_test s) ns nr) st1.
Proof.
  intros Ha Hw Ho Hd Hs Hr Hb Hbs Hbr. unfold create_all, create_client_timers, create_timers. cbv zeta.
  set (s0 := s {{ timer := None; stats_timer := None; reporter_timer := None }}).
  change (s_test s0) with (s_test s). unfold nonzero_int.
  destruct (Z.eqb_spec (duration (s_test s)) 0); [lia|]. cbn [negb].
  change (omit (s_test (s0 {{ s_test -> done_ := false }}))) with (omit (s_test s)).
  change (duration (s_test (s0 {{ s_test -> done_ := false }}))) with (duration (s_test s)).
  rewrite Ho, Z.add_0_r, int_of_ok by (unfold is_i32; lia). cbn [obind].
  rewrite Z.add_0_r, int_of_ok by (unfold is_i32; lia). cbn [obind].
  set (s1 := s0 {{ s_test -> done_ := false }}).
  destruct (arm_ok (fun l s => s {{ timer := l }}) now TEST_PROC 0 (duration (s_test s) * SEC_TO_US) false s1 st []
    Ha Hw ltac:(lia) ltac:(lia)) as (t1 & st1 & -> & Ha1). cbn [and_then obind].
  destruct (arm_interval_ok (fun l s => s {{ stats_timer := l }}) now STATS_PROC _ ns (s1 {{ timer := Some t1 }}) st1 _
    Ha1 Hw Hs Hbs) as (s2 & st2 & E2 & Hs2 & Ha2).
  change (stats_interval (s1 {{ timer := Some t1 }})) with (stats_interval s). rewrite E2. cbn [and_then obind].
  assert (T2 : s_test s2 = s_test s1 /\ reporter_interval s2 = reporter_interval s)
    by (destruct Hs2 as [->|[? ->]]; done).
  destruct T2 as [T2 R2]. rewrite R2.
  destruct (arm_interval_ok (fun l s => s {{ reporter_timer := l }}) now REPORTER_PROC _ nr s2 st2 _ Ha2 Hw Hr Hbr)
    as (s3 & st3 & -> & Hs3 & Ha3). cbn [and_then obind].
  assert (T3 : s_test s3 = s_test s1) by (destruct Hs3 as [->|[? ->]]; done).
  unfold create_client_omit_timer. rewrite T3. change (omit (s_test s1)) with (omit (s_test s)). rewrite Ho. cbn [Z.eqb].
  eexists _, st3. split; [reflexivity|]. split; [|exact Ha3].
  change (s_test (s3 {{ omit_timer := None; s_test -> omitting := false }})) with ((s_test s3) {{ omitting := false }}).
  by rewrite T3.
Qed.

(** ** Firing them *)

(** The callbacks of these timers. *)
Definition plain (p : nat) (cd : Z) (now : iperf_time) (s : session) : session :=
  match p with
  | TEST_PROC => test_timer_proc s
  | STATS_PROC => client_stats_timer_proc stats_callback now s
  | _ => client_reporter_timer_proc s
  end.

Lemma dispatch_plain p cd now s st : (p <= 2)%nat -> dispatch stats_callback tcp p cd now s st = quiet plain p cd now s st.
Proof. intros Hp. by destruct p as [|[|[|p]]]; [..|lia]. Qed.

Definition ends (e : loc * Timer) : bool := (timer_proc e.2 =? TEST_PROC)%nat.

Lemma plain_done p cd now s :
  let t := s_test s in let t' := s_test (plain p cd now s) in
  done_ t' = (p =? TEST_PROC)%nat || done_ t /\ omitting t' = omitting t /\ duration t' = duration t /\
  settings t' = settings t.
Proof.
  destruct p as [|[|p]]; cbn [plain Nat.eqb orb]; [done| |].
  - unfold client_stats_timer_proc. destruct (done_ (s_test s)) eqn:Ed; [by rewrite Ed|].
    change (s_test (s {{ s_test := stats_callback now (s_test s) }})) with (stats_callback now (s_test s)).
    destruct (stats_keep now (s_test s)) as (-> & -> & -> & ->). by rewrite Ed.
  - unfold client_reporter_timer_proc. by destruct (done_ (s_test s)) eqn:Ed; [|rewrite <- Ed].
Qed.

Lemma fire_all_done now fired : forall s,
  let t := s_test s in let t' := s_test (fire_all plain now fired s) in
  done_ t' = existsb ends fired || done_ t /\ omitting t' = omitting t /\ duration t' = duration t /\
  settings t' = settings t.
Proof.
  induction fired as [|e fired IH]; intros s; [done|]. cbn zeta. cbn [existsb].
  change (fire_all plain now (e :: fired) s) with (fire_all plain now fired (plain (timer_proc e.2) (client_data e.2) now s)).
  destruct (IH (plain (timer_proc e.2) (client_data e.2) now s)) as (-> & -> & -> & ->).
  destruct (plain_done (timer_proc e.2) (client_data e.2) now s) as (-> & -> & -> & ->).
  split; [|done]. unfold ends. by rewrite orb_assoc, (orb_comm (existsb _ _)).
Qed.

Lemma client_data_periods now now1 t ns nr act st :
  timers_are st act (client_data_ now t ns nr) -> 0 <= ns -> 0 <= nr ->
  us now1 + ns < 2 ^ 32 * 1000000 -> us now1 + nr < 2 ^ 32 * 1000000 ->
  periods_ok (heap st) now1 act /\ quiet_on (dispatch stats_callback tcp) plain (heap st) now1 act.
Proof.
  intros Ha Hs Hr Hbs Hbr.
  assert (Hin : forall x tm, x ∈ act -> heap st !! x = Some tm ->
    (periodic tm = true -> 1 <= usecs_ tm /\ us now1 + usecs_ tm < 2 ^ 32 * 1000000) /\ (timer_proc tm <= 2)%nat).
  { intros x tm Hx Htm. destruct (timers_are_in _ _ _ _ Ha Hx) as (tm' & E & Hd). rewrite Htm in E. injection E as <-.
    revert Hd. unfold client_data_, interval_data, data.
    destruct (Z.eqb_spec nr 0), (Z.eqb_spec ns 0); cbn [app]; rewrite ?elem_of_cons; intros Hd;
      repeat (destruct Hd as [Hd|Hd]; [injection Hd as -> _ -> -> _; split; [intros; try done; lia|lia]|]);
      by apply not_elem_of_nil in Hd. }
  split; [intros x tm ? ? ?; by apply (Hin x tm)|]. intros x tm w st' Hx Htm. by apply dispatch_plain, (Hin x).
Qed.

(** The end of the test is fired if and only if it is due. *)
Lemma fired_ends now now1 t ns nr st act fre w fired st' :
  timers_are st act (client_data_ now t ns nr) -> wf_time now -> 0 <= duration t ->
  us now + duration t * SEC_TO_US < 2 ^ 32 * 1000000 ->
  run_result plain now1 st [] act fre w fired st' ->
  existsb ends fired = (us now + duration t * SEC_TO_US <=? us now1).
Proof.
  intros Ha Hw Hd Hb Hr. destruct (add_usecs_small now (duration t * SEC_TO_US)) as [_ Hu]; [done|lia|lia|].
  apply eq_iff_eq_true. rewrite existsb_exists, Z.leb_le. split.
  - intros ([x tm] & Hx & He). apply list_elem_of_In in Hx. unfold ends in He. cbn in He. apply Nat.eqb_eq in He.
    destruct (rr_bound _ _ _ _ _ _ _ _ _ Hr _ Hx) as (H1 & H2 & H3).
    destruct (rr_who _ _ _ _ _ _ _ _ _ Hr _ _ Hx) as (t0 & Ht0 & Hp & _). cbn in *.
    destruct (timers_are_in _ _ _ _ Ha H3) as (t1 & Ht1 & Hd1). rewrite Ht0 in Ht1. injection Ht1 as <-.
    unfold expiry in H2. rewrite Ht0 in H2. rewrite He in Hp. revert Hd1. unfold client_data_, interval_data, data.
    destruct (nr =? 0), (ns =? 0); cbn [app]; rewrite ?elem_of_cons; intros Hd1;
      repeat (destruct Hd1 as [Hd1|Hd1]; [injection Hd1 as E1 _ _ _ E2; first [congruence|rewrite E2 in H2; lia]|]);
      by apply not_elem_of_nil in Hd1.
  - intros Hle.
    destruct (timers_are_all _ _ _ (TEST_PROC, 0, duration t * SEC_TO_US, false,
      iperf_time_add_usecs now (duration t * SEC_TO_US)) Ha) as (x & tm & Hx & Htm & E).
    { unfold client_data_. rewrite !elem_of_app. right. right. by apply list_elem_of_singleton. }
    injection E as Ep _ _ _ Et.
    assert (Hf : x ∈ fired.*1).
    { apply (rr_all _ _ _ _ _ _ _ _ _ Hr); [done|]. unfold expiry. rewrite Htm, Et. lia. }
    apply list_elem_of_fmap in Hf as ([x' tm'] & -> & Hf). exists (x', tm'). split; [by apply list_elem_of_In|].
    destruct (rr_who _ _ _ _ _ _ _ _ _ Hr _ _ Hf) as (t0 & Ht0 & Hp & _). cbn in *. unfold ends. cbn.
    apply Nat.eqb_eq. congruence.
Qed.

End Timers.

(** ** Concrete sessions *)

Definition new_timer (h : gmap loc Timer) : option loc := Some (fresh (dom h)).

Lemma new_timer_ok h : exists l, new_timer h = Some l /\ h !! l = None.
Proof. eexists. split; [reflexivity|]. apply not_elem_of_dom, is_fresh. Qed.

Definition no_tcp_info (sp : iperf_stream) : tcp_info := mk_tcp_info 0 0 0 0 0 0.

Definition session_of (t : iperf_test) : session := mk_session t (d_of_Z 1) (d_of_Z 1) None None None None ∅ 0.


(** A server that sends one paced stream for 10 s, its timers made at 100 s; the
    pacing timer runs every 25 s so that the example is small. *)
Definition paced_server : session :=
  session_of ((iperf_defaults true)
    {{ streams := [(blank_stream 5 true) {{ stream_id := 1; result := zero_result {{ start_time_fixed := mk_time 100 0 }} }}];
       settings -> rate := 1048576; settings -> pacing_timer := 25000000 }}).

(** The last timer of a server frees a stream in use.  When no client has ended
    the test 40 s after its time, server_timer_proc frees the streams and
    cancels their pacing timers; if one of these is due in the same run, tmr_run
    goes on with it and its callback uses the freed stream. *)
Theorem server_timer_use_after_free :
  (let! c := and_then (create_server_timers new_timer (Some (mk_time 100 0))
               (paced_server {{ stats_interval := d0; reporter_interval := d0 }}) tmr_init)
               (iperf_create_send_timers new_timer (Some (mk_time 100 0)) (mk_time 100 0)) in
   let '(_, s, st) := c in
   tmr_run (dispatch (fun _ t => t) no_tcp_info) 10 (mk_time 150 0) s st) = UB.
Proof. vm_compute. reflexivity. Qed.

(** One microsecond earlier the run is fine, and the timer of the server is
    still to come. *)
Lemma server_timer_before :
  exists s st, (let! c := and_then (create_server_timers new_timer (Some (mk_time 100 0))
               (paced_server {{ stats_interval := d0; reporter_interval := d0 }}) tmr_init)
               (iperf_create_send_timers new_timer (Some (mk_time 100 0)) (mk_time 100 0)) in
   let '(_, s, st) := c in
   tmr_run (dispatch (fun _ t => t) no_tcp_info) 10 (mk_time 149 999999) s st) = Ok (s, st).
Proof. vm_compute. eauto. Qed.
