(* ===== verification/ClientLoop.v ===== *)
(** * The event loop of the client (iperf_client_api.c: iperf_run_client)

    One pass of the loop: select, a control message, the streams, the timers,
    the end of the test, and what still arrives after a reverse test.  The
    handler of a message may wait for another one in the middle; the pass is
    then suspended there.  The system calls and the world behind them are
    arguments. *)

From coqutil Require Import Datatypes.RecordSetters.
From Stdlib Require Import SpecFloat.
From S2P Require Import Prelude.
From S2P Require Import IperfTime.
From S2P Require Import Timer.
From S2P Require Import TimerRun.
From S2P Require Import Cdouble.
From S2P Require Import Iperf.
From S2P Require Import Frame.
From S2P Require Import Udp.
From S2P Require Import Transfer.
From S2P Require Import Stats.
From S2P Require Import Params.
From S2P Require Import Results.
From S2P Require Import Control.
From S2P Require Import Protocol.
From S2P Require Import TestTimers.
From stdpp Require Import base numbers gmap list.
Import DoubleBraceUpdate.

Open Scope Z_scope.
Open Scope c_scope.

Abbreviation IESELECT := 118.
Abbreviation O_NONBLOCK := 2048.

(** What select returns: its result, whether a failure is EINTR, the sets. *)
Record wakeup := mk_wakeup
  { sel_result : Z;
    sel_eintr : bool;
    sel_read : gset Z;
    sel_write : gset Z }.

Section ClientLoop.
Context {W : Type}.

(** The send and receive functions of the protocol, iperf_time_now, the two
    uses of fcntl, cpu_util. *)
Variable snd_fn rcv_fn : iperf_test -> iperf_stream -> W -> outcome (Z * iperf_stream * W).
Variable clock : W -> iperf_time * W.
Variable getfl : Z -> W -> Z * W.
Variable setfl : Z -> Z -> W -> Z * W.
Variable cpu : W -> (double * double * double) * W.

(** malloc for a timer, the statistics callback, TCP_INFO; the iterations
    tmr_run may take; the uninitialised variable of iperf_send. *)
Variable malloc : gmap loc Timer -> option loc.
Variable stats_callback : iperf_time -> iperf_test -> iperf_test.
Variable tcp : iperf_stream -> tcp_info.
Variable fuel : nat.
Variable junk : iperf_time.

Variable e : env.

(** The client between two passes, or inside a handler that waits. *)
Record client := mk_client
  { c_pc : pc;
    c_session : session;
    c_timers : tmr_state;
    startup : bool;
    world : W }.

Definition c_test (x : client) : iperf_test := s_test (c_session x).

(** The pass ends or is suspended with the messages sent, the connections
    made and the messages left; it fails with an i_errno; it waits for a message. *)
Inductive pass_result : Type :=
| Goes (x : client) (snt : list cmsg) (dials : list bytes) (rest : list cmsg)
| Fails (errno : option Z) (x : client)
| Waits.

(** ** Blocking and non-blocking sockets (net.c) *)

Definition setnonblocking (fd : Z) (nonblocking : bool) (w : W) : Z * W :=
  let '(flags, w) := getfl fd w in
  if flags <? 0 then (-1, w)
  else
    let newflags := if nonblocking then Z.lor flags O_NONBLOCK else Z.land flags (Z.lnot O_NONBLOCK) in
    if newflags =? flags then (0, w)
    else let '(r, w) := setfl fd newflags w in (if r <? 0 then -1 else 0, w).

(** The loop over the streams, for all protocols but UDP. *)
Definition set_streams (nonblocking : bool) (t : iperf_test) (w : W) : W :=
  if protocol t =? Pudp then w
  else foldl (fun w sp => snd (setnonblocking (socket sp) nonblocking w)) w (streams t).

(** ** A message *)

(** The start of a test, on both sides: iperf_init_test and the timers, each
    with its own time; [create] is create_client_timers or create_server_timers. *)
Definition begin_test (create : option iperf_time -> session -> tmr_state -> outcome created)
    (s : session) (st : tmr_state) (w : W) : outcome (created * W) :=
  let '(now, w) := clock w in
  let '(rc, err, t) := iperf_init_test 0 (Some now) (s_test s) in
  let s := s {{ s_test := t }} in
  if rc <? 0 then Ok (err, s, st, w)
  else
    let '(now, w) := clock w in
    let '(now_omit, w) := if omit t =? 0 then (now, w) else clock w in
    let '(now_send, w) := if nonzero_int (mode t) then clock w else (now, w) in
    let! r :=
      and_then
        (and_then (create (Some now) s st) (create_client_omit_timer malloc (Some now_omit)))
        (fun s st => if nonzero_int (mode t) then iperf_create_send_timers malloc (Some now_send) now_send s st
                     else Ok (None, s, st)) in
    Ok (r, w).

(** iperf_handle_message_client, or the rest of it, with a message; the first
    component is i_errno, if it is set. *)
Definition client_message (x : client) (m : cmsg) : outcome (option Z * client * list cmsg * list bytes) :=
  let s := c_session x in
  if match c_pc x, m with Loop, MState z => z =? TEST_START | _, _ => false end
  then
    let! r := begin_test (create_client_timers malloc) (s {{ s_test -> state := TEST_START }}) (c_timers x) (world x) in
    let '(err, s, st, w) := r in
    Ok (err, mk_client (match err with None => Loop | Some _ => Stop (-1) end) s st (startup x) w, [], [])
  else
    let '(now, w) := clock (world x) in
    let! r := client_turn' e now (c_pc x) (s_test s) (Msg m) in
    Ok (ierrno r, mk_client (after r) (s {{ s_test := t_test r }}) (c_timers x) (startup x) w, sent r, dialled r).

(** ** The streams and the timers *)

(** iperf_send and iperf_recv as the mode has it. *)
Definition move_data (t : iperf_test) (rd wr : gset Z) (w : W) : outcome (option Z * iperf_test * W) :=
  let send t k :=
    let! r := iperf_send snd_fn clock t (Some wr) junk w in
    let '(rv, err, t, _, w) := r in
    if rv <? 0 then Ok (err, t, w) else k t w in
  let recv t w :=
    let! r := iperf_recv rcv_fn t rd w in
    let '(rv, err, t, _, w) := r in
    if rv <? 0 then Ok (err, t, w) else Ok (None, t, w) in
  if mode t =? BIDIRECTIONAL then send t recv
  else if mode t =? SENDER then send t (fun t w => Ok (None, t, w))
  else recv t w.

(** The callbacks of the timers a client has. *)
Definition client_dispatch (p : nat) : Z -> iperf_time -> session -> tmr_state -> outcome (session * tmr_state) :=
  if (p <=? SEND_PROC)%nat then dispatch stats_callback tcp p else fun _ _ _ _ => UB.

(** What follows the message in a pass. *)
Definition rest_of_pass (rd wr : gset Z) (x : client) (snt : list cmsg) (dials : list bytes) (rest : list cmsg)
    : outcome pass_result :=
  let s := c_session x in
  let t := s_test s in
  if state t =? TEST_RUNNING
  then
    let w := if startup x then set_streams true t (world x) else world x in
    let! r := move_data t rd wr w in
    let '(err, t, w) := r in
    let s := s {{ s_test := t }} in
    match err with
    | Some err => Ok (Fails (Some err) (mk_client Loop s (c_timers x) false w))
    | None =>
        let '(now, w) := clock w in
        let! r := tmr_run client_dispatch fuel now s (c_timers x) in
        let '(s, st) := r in
        if client_done (s_test s)
        then
          let w := set_streams false (s_test s) w in
          let s := s {{ s_test -> done_ := true }} in
          let '(figures, w) := cpu w in
          let s := s {{ s_test -> cpu_util := figures }} in
          let '(now, w) := clock w in
          let t := stats_callback now (s_test s) in
          let s := s {{ s_test := t {{ state := TEST_END }} }} in
          Ok (Goes (mk_client Loop s st false w) (snt ++ [MState TEST_END]) dials rest)
        else Ok (Goes (mk_client Loop s st false w) snt dials rest)
    end
  else if (mode t =? RECEIVER) && (state t =? TEST_END)
  then
    let! r := iperf_recv rcv_fn t rd (world x) in
    let '(rv, err, t, _, w) := r in
    let x' := mk_client Loop (s {{ s_test := t }}) (c_timers x) (startup x) w in
    if rv <? 0 then Ok (Fails err x') else Ok (Goes x' snt dials rest)
  else Ok (Goes x snt dials rest).

(** A message is read and handled, and the pass goes on unless the handler
    fails or waits. *)
Definition handle (io : wakeup) (inbox : list cmsg) (x : client) : outcome pass_result :=
  match inbox with
  | [] => Ok Waits
  | m :: rest =>
      let! r := client_message x m in
      let '(err, x', snt, dials) := r in
      match c_pc x' with
      | Loop => rest_of_pass (sel_read io ∖ {[ ctrl_sck (c_test x') ]}) (sel_write io) x' snt dials rest
      | Stop rv => if rv <? 0 then Ok (Fails err x') else Ok (Goes x' snt dials rest)
      | _ => Ok (Goes x' snt dials rest)
      end
  end.

(** ** A pass, with the messages that wait in the control socket *)
Definition client_pass (io : wakeup) (inbox : list cmsg) (x : client) : outcome pass_result :=
  match c_pc x with
  | Loop =>
      let '(now, w) := clock (world x) in
      let! _ := tmr_timeout (c_timers x) now in     (* how long select may wait *)
      let x := mk_client Loop (c_session x) (c_timers x) (startup x) w in
      if (sel_result io <? 0) && negb (sel_eintr io) then Ok (Fails (Some IESELECT) x)
      else if (0 <? sel_result io) && bool_decide (ctrl_sck (c_test x) ∈ sel_read io) then handle io inbox x
      else rest_of_pass (sel_read io) (sel_write io) x [] [] inbox
  | Stop _ => Ok Waits     (* the program has returned *)
  | _ => handle io inbox x
  end.

End ClientLoop.
