(* ===== verification/ClientLoopThms.v ===== *)
(** * The event loop of the client refines the protocol

    A pass of iperf_run_client that does not fail is a sequence of steps of
    Protocol.v, so that what is proved of the protocol holds of the loop as it
    is written: with its order of messages, transfers and timers, and with the
    callbacks that run inside tmr_run. *)

From coqutil Require Import Datatypes.RecordSetters.
From Stdlib Require Import SpecFloat.
From S2P Require Import Prelude.
From S2P Require Import IperfTime.
From S2P Require Import Timer.
From S2P Require Import TimerRun.
From S2P Require Import Cdouble.
From S2P Require Import CjsonData.
From S2P Require Import Stream.
From S2P Require Import Iperf.
From S2P Require Import Frame.
From S2P Require Import Udp.
From S2P Require Import Transfer.
From S2P Require Import Stats.
From S2P Require Import Params.
From S2P Require Import ParamsThms.
From S2P Require Import Results.
From S2P Require Import ResultsProof.
From S2P Require Import Control.
From S2P Require Import Protocol.
From S2P Require Import DataStep.
From S2P Require Import ProtocolTurns.
From S2P Require Import ProtocolRun.
From S2P Require Import ProtocolThms.
From S2P Require Import TestTimers.
From S2P Require Import ClientLoop.
From stdpp Require Import base numbers gmap list relations.
Import DoubleBraceUpdate.

Open Scope Z_scope.
Open Scope c_scope.

(** ** Relations kept by the timers *)

(** What every callback does from states with [I], a run over the timers does. *)
Lemma tmr_run_rel {V} (call : nat -> Z -> iperf_time -> V -> tmr_state -> outcome (V * tmr_state))
    (I : V -> Prop) (R : V -> V -> Prop) `{!PreOrder R} now :
  (forall p cd v st v' st', I v -> call p cd now v st = Ok (v', st') -> R v v' /\ I v') ->
  forall n v st v' st', I v -> tmr_run call n now v st = Ok (v', st') -> R v v'.
Proof.
  intros Hcall n v st v' st'. unfold tmr_run. generalize (timers st) as o. revert v st.
  induction n as [|n IH]; intros v st [l|] Hv H; cbn [tmr_run_loop] in H; try done; try (by injection H as -> ->).
  destruct (heap st !! l) as [tm|]; [|done]. cbn [deref obind] in H.
  destruct (iperf_time_compare (time tm) now >? 0); [by injection H as -> ->|].
  destruct (call _ _ _ _ _) as [[v1 st1]| |] eqn:E; cbn [obind] in H; [|done|done].
  apply Hcall in E as [HR HI]; [|done]. etransitivity; [exact HR|].
  destruct (heap st1 !! l) as [tm1|]; [|done]. cbn [deref obind] in H.
  destruct (periodic tm1).
  - destruct (upd _ _ _) as [st2| |]; cbn [obind] in H; [|done|done].
    destruct (list_resort _ _) as [st3| |]; cbn [obind] in H; [|done|done]. by eapply IH.
  - destruct (tmr_cancel _ _) as [st2| |]; cbn [obind] in H; [|done|done]. by eapply IH.
Qed.

Section Refine.
Context {W : Type}
  (snd_fn rcv_fn : iperf_test -> iperf_stream -> W -> outcome (Z * iperf_stream * W))
  `{!SendOk snd_fn} `{!RecvOk rcv_fn}
  (clock : W -> iperf_time * W) (getfl : Z -> W -> Z * W) (setfl : Z -> Z -> W -> Z * W)
  (cpu : W -> (double * double * double) * W)
  (malloc : gmap loc Timer -> option loc) (stats_callback : iperf_time -> iperf_test -> iperf_test)
  (tcp : iperf_stream -> tcp_info) (fuel : nat) (junk : iperf_time) (e : env).

(** The statistics callback does what iperf_stats_callback does to a test. *)
Hypothesis stats_same : forall now t, same_control t (stats_callback now t).

Abbreviation client_pass := (client_pass snd_fn rcv_fn clock getfl setfl cpu malloc stats_callback tcp fuel junk e).

(** ** Silent steps of a running client *)

(** From [t] to [t'] without a message; [k] bounds the transfers. *)
Definition silent (t t' : iperf_test) : Prop :=
  exists k, forall s ts tc cs n,
    rtc (step e) (mk_system Loop t s ts tc cs (k + n)) (mk_system Loop t' s ts tc cs n).

#[export] Instance silent_preorder : PreOrder silent.
Proof.
  split.
  - intros t. exists 0%nat. intros. apply rtc_refl.
  - intros t1 t2 t3 [k1 H1] [k2 H2]. exists (k1 + k2)%nat. intros s ts tc cs n.
    rewrite <- Nat.add_assoc. etransitivity; [apply H1|apply H2].
Qed.

(** A running client goes on running with the same streams. *)
Record running (t t' : iperf_test) : Prop := {
  run_silent : silent t t';
  run_state : state t' = state t;
  run_ids : map identity (streams t') = map identity (streams t) }.

#[export] Instance running_preorder : PreOrder running.
Proof.
  split; [intros t; by constructor|]. intros t1 t2 t3 [S1 E1 I1] [S2 E2 I2].
  constructor; [by etransitivity|congruence|congruence].
Qed.

Lemma running_data t t' : state t = TEST_RUNNING -> same_control t t' -> running t t'.
Proof.
  intros Ht H. constructor; [|by rewrite (proj1 H)|apply H].
  exists 1%nat. intros. apply rtc_once. by apply client_data.
Qed.

Lemma running_done t : state t = TEST_RUNNING -> running t (t {{ done_ := true }}).
Proof.
  intros Ht. destruct (done_ t) eqn:Ed.
  - replace (t {{ done_ := true }}) with t by (destruct t; cbn in Ed; by subst). reflexivity.
  - constructor; [|done|done]. exists 0%nat. intros. apply rtc_once. by apply client_timer.
Qed.

Lemma reset_same_control t now : same_control t (iperf_reset_stats t now tcp).
Proof. split; [by destruct t|]. exact (map_map _ _ _). Qed.

Lemma cpu_same_control t v : same_control t (t {{ cpu_util := v }}).
Proof. split; [by destruct t|done]. Qed.

Lemma running_omit t now :
  state t = TEST_RUNNING -> running t (iperf_reset_stats (t {{ omitting := false }}) now tcp).
Proof.
  intros Ht. change (iperf_reset_stats (t {{ omitting := false }}) now tcp)
    with ((iperf_reset_stats t now tcp) {{ omitting := false }}).
  destruct (omitting t) eqn:Eo.
  - constructor; [|done|exact (map_map _ _ _)]. exists 0%nat. intros. apply rtc_once. by apply client_omit.
  - apply running_data; [done|]. etransitivity; [apply reset_same_control|].
    split; [|done]. destruct t; cbn in Eo; by subst.
Qed.

(** ** The callbacks *)

(** Each id belongs to one stream. *)
Lemma ids_unique t a b : ids_ok t -> a ∈ streams t -> b ∈ streams t -> stream_id a = stream_id b -> a = b.
Proof.
  intros Hok [i Ha]%list_elem_of_lookup_1 [j Hb]%list_elem_of_lookup_1 E.
  assert (i = j) as ->; [|congruence].
  eapply (NoDup_lookup (map stream_id (streams t))); [by apply ids_ok_nodup| |]; rewrite list_lookup_fmap;
    [by rewrite Ha|by rewrite Hb, E].
Qed.

Lemma ids_ok_same t t' : map identity (streams t') = map identity (streams t) -> ids_ok t -> ids_ok t'.
Proof. intros E H. by destruct (ids_identity t t' E H). Qed.

Lemma send_timer_same id now s s' :
  ids_ok (s_test s) -> send_timer_proc id now s = Ok s' -> same_control (s_test s) (s_test s').
Proof.
  unfold send_timer_proc. intros Hok H. destruct (find _ _) as [sp|] eqn:Ef; [|done].
  apply find_some in Ef as [Hin Hid]. apply Z.eqb_eq in Hid. apply list_elem_of_In in Hin.
  destruct (iperf_check_throttle _ _ _) as [[sp' ws]| |] eqn:E; cbn [obind] in H; [|done|done].
  apply throttle_effect in E as [E _]. injection H as <-.
  split; [by destruct (s_test s)|].
  transitivity (map identity (map (fun x => if stream_id x =? id then sp' else x) (streams (s_test s)))); [done|].
  rewrite map_map. apply map_ext_in. intros x Hx%list_elem_of_In.
  destruct (Z.eqb_spec (stream_id x) id) as [Ex|]; [|done]. rewrite E. f_equal. symmetry.
  apply (ids_unique (s_test s)); try done. congruence.
Qed.

Lemma dispatch_running p cd now s st s' st' :
  state (s_test s) = TEST_RUNNING -> ids_ok (s_test s) ->
  client_dispatch stats_callback tcp p cd now s st = Ok (s', st') -> running (s_test s) (s_test s').
Proof.
  intros Ht Hok. unfold client_dispatch. destruct p as [|[|[|[|[|p]]]]]; cbn [Nat.leb dispatch]; intros H; [..|done].
  - injection H as <- _. by apply running_done.
  - injection H as <- _. unfold client_stats_timer_proc. destruct (done_ (s_test s)); [reflexivity|].
    apply running_data; [done|apply stats_same].
  - injection H as <- _. unfold client_reporter_timer_proc. by destruct (done_ (s_test s)).
  - unfold client_omit_timer_proc in H. cbv zeta in H.
    destruct (reset_timer _ _ _) as [st1| |]; cbn [obind] in H; [|done|done].
    destruct (reset_timer _ _ st1) as [st2| |]; cbn [obind] in H; [|done|done]. injection H as <- _.
    by apply running_omit.
  - destruct (send_timer_proc _ _ _) as [s1| |] eqn:E; cbn [obind] in H; [|done|done]. injection H as <- _.
    apply running_data; [done|by eapply send_timer_same].
Qed.

Lemma timers_running n now s st s' st' :
  state (s_test s) = TEST_RUNNING -> ids_ok (s_test s) ->
  tmr_run (client_dispatch stats_callback tcp) n now s st = Ok (s', st') -> running (s_test s) (s_test s').
Proof.
  intros Ht Hok H.
  assert (PreOrder (fun a b : session => running (s_test a) (s_test b)))
    by (split; [intros a; reflexivity|intros a b d ? ?; by etransitivity]).
  eapply (tmr_run_rel (client_dispatch stats_callback tcp)
    (fun s => state (s_test s) = TEST_RUNNING /\ ids_ok (s_test s)) (fun s s' => running (s_test s) (s_test s')) now); [|by split|exact H].
  intros p cd v st0 v' st0' [H1 H2] Hd. apply dispatch_running in Hd as HR; [|done|done]. split; [done|].
  destruct HR as [_ E1 E2]. split; [congruence|by apply (ids_ok_same (s_test v))].
Qed.

Lemma move_data_running t rd wr w err t' w' :
  state t = TEST_RUNNING -> move_data snd_fn rcv_fn clock junk t rd wr w = Ok (err, t', w') -> running t t'.
Proof.
  intros Ht H. assert (Hc : same_control t t'); [|by apply running_data]. unfold move_data in H.
  destruct (mode t =? BIDIRECTIONAL); [|destruct (mode t =? SENDER)].
  - destruct (iperf_send _ _ _ _ _ _) as [[[[[rv er] t1] ws] w1]| |] eqn:E; cbn [obind] in H; [|done|done].
    apply send_same_control in E; [|done]. destruct (rv <? 0); [by injection H as <- <- <-|].
    destruct (iperf_recv _ _ _ _) as [[[[[rv2 er2] t2] rs] w2]| |] eqn:E2; cbn [obind] in H; [|done|done].
    apply recv_same_control in E2; [|done]. assert (t' = t2) as -> by (destruct (rv2 <? 0); by injection H).
    by etransitivity.
  - destruct (iperf_send _ _ _ _ _ _) as [[[[[rv er] t1] ws] w1]| |] eqn:E; cbn [obind] in H; [|done|done].
    apply send_same_control in E; [|done]. assert (t' = t1) as -> by (destruct (rv <? 0); by injection H). done.
  - destruct (iperf_recv _ _ _ _) as [[[[[rv2 er2] t2] rs] w2]| |] eqn:E2; cbn [obind] in H; [|done|done].
    apply recv_same_control in E2; [|done]. assert (t' = t2) as -> by (destruct (rv2 <? 0); by injection H). done.
Qed.

(** ** The start of a test *)

(** Creating a timer changes the test only through what stores the timer. *)
Lemma arm_test set now proc cd us per s st err s' st' :
  (forall l, s_test (set l s) = s_test s) ->
  arm malloc set now proc cd us per s st = Ok (err, s', st') -> s_test s' = s_test s.
Proof.
  unfold arm. intros Hset H. destruct (tmr_create _ _ _ _ _ _ _) as [[l st1]| |]; cbn [obind] in H; [|done|done].
  by injection H as _ <- _.
Qed.

Lemma arm_interval_test set now proc d s st err s' st' :
  (forall l, s_test (set l s) = s_test s) ->
  arm_interval malloc set now proc d s st = Ok (err, s', st') -> s_test s' = s_test s.
Proof.
  unfold arm_interval. intros Hset H. destruct (deqb d d0); [by injection H as _ <- _|].
  destruct (i64_of_double _); cbn [obind] in H; [|done|done]. by eapply arm_test.
Qed.

Lemma and_then_ok r k s' st' :
  and_then r k = Ok (None, s', st') -> exists s st, r = Ok (None, s, st) /\ k s st = Ok (None, s', st').
Proof. unfold and_then. intros H. destruct r as [[[[err|] s] st]| |]; cbn [obind] in H; try done. by eauto. Qed.

Lemma create_timers_test proc grace now s st s' st' :
  create_timers malloc proc grace (Some now) s st = Ok (None, s', st') ->
  s_test s' = if nonzero_int (duration (s_test s)) then (s_test s) {{ done_ := false }} else s_test s.
Proof.
  unfold create_timers. cbv zeta. intros H.
  apply and_then_ok in H as (s2 & st2 & H & H3). apply and_then_ok in H as (s1 & st1 & H & H2).
  apply arm_interval_test in H3; [|done]. apply arm_interval_test in H2; [|done]. rewrite H3, H2.
  set (s0 := s {{ timer := None; stats_timer := None; reporter_timer := None }}) in H. change (s_test s0) with (s_test s) in H.
  destruct (nonzero_int (duration (s_test s))); [|by injection H as <- _].
  destruct (int_of _); cbn [obind] in H; [|done|done]. destruct (int_of _); cbn [obind] in H; [|done|done].
  by apply arm_test in H.
Qed.

Lemma omit_timer_test now s st s' st' :
  create_client_omit_timer malloc (Some now) s st = Ok (None, s', st') ->
  s_test s' = (s_test s) {{ omitting := nonzero_int (omit (s_test s)) }}.
Proof.
  unfold create_client_omit_timer, nonzero_int. intros H. destruct (omit (s_test s) =? 0); [by injection H as <- _|].
  by apply arm_test in H.
Qed.

Lemma send_timers_test now l : forall s st s' st',
  send_timers_loop malloc now l s st = Ok (None, s', st') ->
  s_test s' = (s_test s) {{ streams := map (fun x =>
    if existsb (fun sp => stream_id x =? stream_id sp) l then x {{ green_light := true }} else x) (streams (s_test s)) }}.
Proof.
  induction l as [|sp l IH]; intros s st s' st' H; cbn [send_timers_loop] in H.
  - injection H as <- _. cbn [existsb]. rewrite map_id. by destruct (s_test s).
  - assert (E : exists s1 st1, send_timers_loop malloc now l s1 st1 = Ok (None, s', st') /\
      s_test s1 = (s_test s) {{ streams := map (fun x => if stream_id x =? stream_id sp then x {{ green_light := true }} else x)
        (streams (s_test s)) }}).
    { destruct (rate _ =? 0); [by eauto|]. apply and_then_ok in H as (s1 & st1 & H & H2). exists s1, st1.
      split; [done|]. apply arm_test in H; [by rewrite H|]. by intros []. }
    destruct E as (s1 & st1 & E & E1). apply IH in E. rewrite E, E1.
    assert (F : forall l', map (fun x => if existsb (fun sp0 => stream_id x =? stream_id sp0) l then x {{ green_light := true }} else x)
      (map (fun x => if stream_id x =? stream_id sp then x {{ green_light := true }} else x) l')
      = map (fun x => if existsb (fun sp0 => stream_id x =? stream_id sp0) (sp :: l) then x {{ green_light := true }} else x) l').
    { intros l'. rewrite map_map. apply map_ext. intros x. cbn [existsb].
      destruct (stream_id x =? stream_id sp); cbn [orb]; [|done].
      change (stream_id (x {{ green_light := true }})) with (stream_id x). by destruct (existsb _ _). }
    rewrite <- F. reflexivity.
Qed.

Lemma begin_test_test proc grace s st w err s' st' w' :
  begin_test clock malloc (create_timers malloc proc grace) s st w = Ok (err, s', st', w') -> err = None ->
  s_test s' = start_test (fst (clock w)) (s_test s).
Proof.
  unfold begin_test. intros H ->. destruct (clock w) as [now w1]. cbn [iperf_init_test Z.ltb Z.compare] in H.
  destruct (clock w1) as [now2 w2]. destruct (if omit _ =? 0 then _ else _) as [now3 w3].
  destruct (if nonzero_int _ then clock w3 else _) as [now4 w4].
  set (s1 := s {{ s_test := _ }}) in H.
  destruct (and_then _ _) as [[[err s5] st5]| |] eqn:E; cbn [obind] in H; [|done|done]. injection H as -> <- <- _.
  apply and_then_ok in E as (s3 & st3 & E & E3). apply and_then_ok in E as (s2 & st2 & E & E2).
  apply create_timers_test in E. apply omit_timer_test in E2.
  unfold start_test. cbn [iperf_init_test Z.ltb Z.compare fst snd].
  change (s_test s1) with ((s_test s) {{ streams := map (fun sp =>
    sp {{ result := (result sp) {{ start_time := now; start_time_fixed := now }} }}) (streams (s_test s)) }}) in E.
  set (t1 := (s_test s) {{ streams := _ }}) in E, E3 |- *. clearbody t1. rewrite <- E, <- E2.
  assert (M : mode (s_test s3) = mode t1) by (rewrite E2; change (mode (s_test s2) = mode t1); rewrite E; by destruct (nonzero_int _)).
  rewrite M. destruct (nonzero_int (mode t1)); [|by injection E3 as <- _].
  apply send_timers_test in E3. rewrite E3.
  assert (G : map (fun x => if existsb (fun sp => stream_id x =? stream_id sp) (streams (s_test s3))
      then x {{ green_light := true }} else x) (streams (s_test s3))
    = map (fun sp => sp {{ green_light := true }}) (streams (s_test s3))); [|by rewrite G].
  apply map_ext_in. intros x Hx. rewrite (proj2 (existsb_exists _ _)); [done|]. exists x. split; [done|apply Z.eqb_refl].
Qed.

(** ** The parts of a pass *)

Definition sys (x : client (W := W)) (s : server) (ts tc : list cmsg) (cs : list bytes) (n : nat) : system :=
  mk_system (c_pc x) (c_test x) s ts tc cs n.

Lemma rest_steps rd wr x snt dl rest x' snt' dl' rest' :
  c_pc x = Loop -> (state (c_test x) = TEST_RUNNING -> ids_ok (c_test x)) ->
  (state (c_test x') = TEST_END -> results_sendable (c_test x')) ->
  rest_of_pass snd_fn rcv_fn clock getfl setfl cpu stats_callback tcp fuel junk rd wr x snt dl rest
    = Ok (Goes x' snt' dl' rest') ->
  dl' = dl /\ rest' = rest /\ exists more, snt' = snt ++ more /\
    exists k, forall s ts tc cs n, rtc (step e) (sys x s ts tc cs (k + n)) (sys x' s (ts ++ more) tc cs n).
Proof.
  intros Hpc Hok Hsend. unfold rest_of_pass, sys. rewrite Hpc. cbv zeta. change (s_test (c_session x)) with (c_test x).
  destruct (Z.eqb_spec (state (c_test x)) TEST_RUNNING) as [Ht|Ht].
  - destruct (move_data _ _ _ _ _ _ _ _) as [[[err t1] w1]| |] eqn:E1; cbn [obind]; [|done|done].
    apply move_data_running in E1 as R1; [|done]. destruct err as [|]; [done|].
    destruct (clock w1) as [now w2].
    set (s1 := (c_session x) {{ s_test := t1 }}).
    destruct (tmr_run _ _ _ _ _) as [[s2 st2]| |] eqn:E2; cbn [obind]; [|done|done].
    assert (R2 : running (s_test s1) (s_test s2)).
    { eapply timers_running; [| |exact E2]; [exact (eq_trans (run_state _ _ R1) Ht)|exact (ids_ok_same _ _ (run_ids _ _ R1) (Hok Ht))]. }
    assert (R : running (c_test x) (s_test s2)) by (by etransitivity).
    destruct (client_done (s_test s2)) eqn:Ed.
    + destruct (cpu _) as [fig w3]. destruct (clock w3) as [now3 w4]. intros [= <- <- <- <-].
      split; [done|]. split; [done|]. eexists. split; [done|]. destruct R as [[k R] Es _]. exists k. intros s ts tc cs n.
      etransitivity; [apply R|]. apply rtc_once. cbn [c_pc c_test c_session].
      eapply client_finish; [by rewrite Es|done|].
      set (t0 := (s_test s2) {{ done_ := true }}). set (t3 := stats_callback now3 _).
      pose proof (transitivity (cpu_same_control t0 fig) (stats_same now3 _) : same_control t0 t3) as S.
      split; [exact S|]. apply (sendable_ext (t3 {{ state := TEST_END }})); try done. by apply Hsend.
    + intros [= <- <- <- <-]. split; [done|]. split; [done|]. exists []. split; [by rewrite app_nil_r|].
      destruct R as [[k R] _ _]. exists k. intros. rewrite app_nil_r. apply R.
  - destruct (Z.eqb_spec (mode (c_test x)) RECEIVER) as [Hm|], (Z.eqb_spec (state (c_test x)) TEST_END) as [He|]; cbn [andb].
    2-4: intros [= <- <- <- <-]; split; [done|]; split; [done|]; exists []; split; [by rewrite app_nil_r|];
      exists 0%nat; intros; rewrite app_nil_r, Hpc; apply rtc_refl.
    destruct (iperf_recv _ _ _ _) as [[[[[rv er] t1] rs] w1]| |] eqn:E; cbn [obind]; [|done|done].
    apply recv_same_control in E; [|done].
    destruct (rv <? 0); [done|]. intros [= <- <- <- <-]. split; [done|]. split; [done|]. exists []. split; [by rewrite app_nil_r|].
    exists 1%nat. intros. rewrite app_nil_r. apply rtc_once. apply client_drain; [done|done|]. split; [done|].
    apply Hsend. cbn. by rewrite (proj1 E).
Qed.

Lemma start_test_state now t : state (start_test now t) = state t.
Proof.
  unfold start_test. cbn [iperf_init_test Z.ltb Z.compare]. set (t1 := t {{ streams := _ }}).
  change (state t) with (state t1). clearbody t1. destruct (nonzero_int (duration t1)); by destruct (nonzero_int (mode _)).
Qed.

Lemma start_turn now t :
  client_turn' e now Loop t (Msg (MState TEST_START))
  = Ok (mk_turn Loop None (start_test now (t {{ state := TEST_START }})) [] []).
Proof.
  change (client_turn' e now Loop t (Msg (MState TEST_START))) with
    (if state (start_test now (t {{ state := TEST_START }})) =? IPERF_DONE
     then Ok (mk_turn (Stop 0) None (start_test now (t {{ state := TEST_START }})) [] [])
     else Ok (mk_turn Loop None (start_test now (t {{ state := TEST_START }})) [] [])).
  by rewrite start_test_state.
Qed.

Lemma message_step x m err x' snt dl :
  (forall rv, c_pc x <> Stop rv) -> client_message clock malloc e x m = Ok (err, x', snt, dl) -> c_pc x' <> Stop (-1) ->
  forall s ts tc cs n, step e (sys x s ts (m :: tc) cs n) (sys x' s (ts ++ snt) tc (cs ++ dl) n).
Proof.
  intros Hx H Hx' s ts tc cs n. unfold client_message in H. cbv zeta in H.
  destruct (match c_pc x with Loop => _ | _ => _ end) eqn:Es.
  - destruct (c_pc x) eqn:Ep; try done. destruct m as [|z| |]; try done. apply Z.eqb_eq in Es as ->.
    destruct (begin_test _ _ _ _ _ _) as [[[[er s1] st1] w1]| |] eqn:E; cbn [obind] in H; [|done|done].
    injection H as <- <- <- <-. destruct er; [done|]. apply (begin_test_test TEST_PROC 0) in E; [|done].
    unfold sys. rewrite Ep. unfold c_test at 2. cbn [c_pc c_session]. rewrite E.
    apply (client_msg e (fst (clock (world x))) Loop (c_test x) s ts (MState TEST_START) tc cs n
      (mk_turn Loop None (start_test (fst (clock (world x))) ((c_test x) {{ state := TEST_START }})) [] [])); [done|].
    apply start_turn.
  - destruct (clock (world x)) as [now w]. destruct (client_turn' _ _ _ _ _) as [r| |] eqn:E; cbn [obind] in H; [|done|done].
    injection H as <- <- <- <-. by eapply (client_msg e now).
Qed.

(** ** Passes *)

Section Pass.
Context (base c : iperf_test).
Hypothesis He : env_ok e.
Hypothesis Hbase : ready e base.
Hypothesis Hc : client_ok c.

Lemma phase_ids i g : phase base c i g -> state (cl_test g) = TEST_RUNNING -> ids_ok (cl_test g).
Proof.
  pose proof (co_state c Hc) as Ec. intros Hp Ht. destruct Hp; cbn [cl_test start] in *; try congruence;
    try match goal with H : has_streams _ ?t |- ids_ok ?t => apply H end; try (cbn in Ht; discriminate Ht).
  rewrite (proj1 (proj2 (proj2 (proj2 (received_fields _ _))))) in Ht. congruence.
Qed.

(** More transfers do not hurt. *)
Definition more (n : nat) (g : system) : system :=
  mk_system (cl_pc g) (cl_test g) (sv g) (to_server g) (to_client g) (conns g) (work g + n).

Lemma step_more n g g' : step e g g' -> step e (more n g) (more n g').
Proof. destruct 1; by econstructor. Qed.

Lemma steps_more n g g' : rtc (step e) g g' -> rtc (step e) (more n g) (more n g').
Proof. induction 1 as [|g1 g2 g3 H _ IH]; [done|]. eapply rtc_l; [by apply step_more|done]. Qed.

(** The state is one of a run. *)
Definition reached (x : client (W := W)) (s : server) (ts tc : list cmsg) (cs : list bytes) : Prop :=
  exists k n, rtc (step e) (start base c k) (sys x s ts tc cs n).

Lemma reached_ids x s ts tc cs : reached x s ts tc cs -> state (c_test x) = TEST_RUNNING -> ids_ok (c_test x).
Proof. intros (k & n & H) Ht. apply (reachable_phase e base c He Hbase Hc) in H as [i H]. by apply (phase_ids i) in H. Qed.

(** What a pass adds to a run. *)
Lemma reached_steps k x s ts tc cs x' s' ts' tc' cs' :
  reached x s ts tc cs -> (forall n, rtc (step e) (sys x s ts tc cs (k + n)) (sys x' s' ts' tc' cs' n)) ->
  reached x' s' ts' tc' cs'.
Proof.
  intros (k0 & n & H) Hs. apply (steps_more k) in H. exists (k0 + k)%nat, n. etransitivity; [exact H|].
  unfold more. cbn. rewrite Nat.add_comm. apply Hs.
Qed.

Lemma handle_reached io m x s ts tc cs x' snt dl rest :
  reached x s ts (m :: tc) cs -> (forall rv, c_pc x <> Stop rv) ->
  (state (c_test x') = TEST_END -> results_sendable (c_test x')) ->
  handle snd_fn rcv_fn clock getfl setfl cpu malloc stats_callback tcp fuel junk e io (m :: tc) x
    = Ok (Goes x' snt dl rest) -> reached x' s (ts ++ snt) rest (cs ++ dl).
Proof.
  intros Hx Hpc Hs. unfold handle.
  destruct (client_message _ _ _ _ _) as [[[[err x1] snt1] dl1]| |] eqn:E; cbn [obind]; [|done|done]. intros H.
  assert (Hstop : c_pc x1 <> Stop (-1)) by (intros Ep; by rewrite Ep in H).
  assert (H1 : reached x1 s (ts ++ snt1) tc (cs ++ dl1)).
  { eapply (reached_steps 0); [exact Hx|]. intros n. apply rtc_once. by eapply message_step. }
  destruct (c_pc x1) eqn:Ep; try (by injection H as <- <- <- <-).
  - apply rest_steps in H as (-> & -> & mo & -> & k & Hk); [|done|by eapply reached_ids|done].
    rewrite app_assoc. eapply (reached_steps k); [exact H1|]. intros n. apply Hk.
  - destruct (rv <? 0); [done|]. by injection H as <- <- <- <-.
Qed.

Lemma pass_reached io x s ts tc cs x' snt dl rest :
  reached x s ts tc cs -> (state (c_test x') = TEST_END -> results_sendable (c_test x')) ->
  client_pass io tc x = Ok (Goes x' snt dl rest) -> reached x' s (ts ++ snt) rest (cs ++ dl).
Proof.
  intros Hx Hs. unfold ClientLoop.client_pass.
  assert (Hh : forall y, c_pc y = c_pc x -> c_test y = c_test x -> (forall rv, c_pc x <> Stop rv) ->
    handle snd_fn rcv_fn clock getfl setfl cpu malloc stats_callback tcp fuel junk e io tc y
      = Ok (Goes x' snt dl rest) -> reached x' s (ts ++ snt) rest (cs ++ dl)).
  { intros y E1 E2 Hpc. destruct tc as [|m tc]; [done|]. apply handle_reached; [|by rewrite E1|done].
    unfold reached, sys in *. by rewrite E1, E2. }
  destruct (c_pc x) eqn:Ep; try done; try (apply Hh; done).
  destruct (clock (world x)) as [now w]. destruct (tmr_timeout _ _); cbn [obind]; [|done|done].
  set (y := mk_client Loop _ _ _ _). destruct (_ && _); [done|]. destruct (_ && _); [by apply Hh|]. intros H.
  apply rest_steps in H as (-> & -> & mo & -> & k & Hk); [|done|exact (reached_ids x s ts tc cs Hx)|done].
  rewrite app_nil_r. eapply (reached_steps k); [|intros n; apply Hk]. unfold reached, sys in *. by rewrite Ep in Hx.
Qed.

(** ** Failures *)

(** The only error of what creates timers. *)
Definition init_only (r : outcome created) : Prop :=
  forall err s st, r = Ok (Some err, s, st) -> err = IEINITTEST.

Lemma arm_init set now proc cd us per s st : init_only (arm malloc set now proc cd us per s st).
Proof.
  intros err s' st' H. unfold arm in H. destruct (tmr_create _ _ _ _ _ _ _) as [[[l|] st1]| |]; cbn [obind] in H; congruence.
Qed.

Lemma arm_interval_init set now proc d s st : init_only (arm_interval malloc set now proc d s st).
Proof.
  intros err s' st' H. unfold arm_interval in H. destruct (deqb d d0); [congruence|].
  destruct (i64_of_double _); cbn [obind] in H; [|done|done]. by eapply arm_init.
Qed.

Lemma and_then_init r k : init_only r -> (forall s st, init_only (k s st)) -> init_only (and_then r k).
Proof.
  intros Hr Hk err s st H. unfold and_then in H. destruct r as [[[[er|] s1] st1]| |] eqn:E; cbn [obind] in H; try done.
  - injection H as -> -> ->. by eapply Hr.
  - by eapply Hk.
Qed.

Lemma send_timers_init now l : forall s st, init_only (send_timers_loop malloc now l s st).
Proof.
  induction l as [|sp l IH]; intros s st; cbn [send_timers_loop]; [intros err s' st' H; congruence|].
  destruct (rate _ =? 0); [apply IH|]. apply and_then_init; [apply arm_init|apply IH].
Qed.

Lemma begin_test_init proc grace s st w err s' st' w' :
  begin_test clock malloc (create_timers malloc proc grace) s st w = Ok (Some err, s', st', w') -> err = IEINITTEST.
Proof.
  unfold begin_test. intros H. destruct (clock w) as [now w1]. cbn [iperf_init_test Z.ltb Z.compare] in H.
  destruct (clock w1) as [now2 w2]. destruct (if omit _ =? 0 then _ else _) as [now3 w3].
  destruct (if nonzero_int _ then clock w3 else _) as [now4 w4].
  destruct (and_then _ _) as [[[er s5] st5]| |] eqn:E; cbn [obind] in H; [|done|done]. injection H as -> _ _ _.
  revert E. refine ((_ : init_only _) err s5 st5). apply and_then_init; [apply and_then_init|].
  - unfold create_timers. apply and_then_init; [apply and_then_init|].
    + destruct (nonzero_int _); [|by intros ???]. intros er s6 st6 H.
      destruct (int_of _); cbn [obind] in H; [|done|done]. destruct (int_of _); cbn [obind] in H; [|done|done]. by eapply arm_init.
    + intros. apply arm_interval_init.
    + intros. apply arm_interval_init.
  - intros s6 st6. unfold create_client_omit_timer. destruct (omit _ =? 0); [by intros ???|apply arm_init].
  - intros s6 st6. destruct (nonzero_int _); [apply send_timers_init|by intros ???].
Qed.

Abbreviation outside := [Some IESELECT; Some IESTREAMWRITE; Some IESTREAMREAD; Some IEINITTEST].

Lemma recv_error t rs w rv err t' rs' w' :
  iperf_recv rcv_fn t rs w = Ok (rv, err, t', rs', w') -> rv < 0 -> err = Some IESTREAMREAD.
Proof.
  unfold iperf_recv. intros H Hr. destruct (recv_pass _ _ _ _ _) as [[[[[ret t1] rs1] l1] w1]| |]; cbn [obind] in H; [|done|done].
  destruct ret; injection H as <- <- <- <- <-; [done|lia].
Qed.

Lemma send_error t ws now w rv err t' ws' w' :
  iperf_send snd_fn clock t ws now w = Ok (rv, err, t', ws', w') -> rv < 0 -> err = Some IESTREAMWRITE.
Proof.
  unfold iperf_send. intros H Hr. destruct (send_passes _ _ _ _ _ _ _) as [[[ret t1] w1]| |]; cbn [obind] in H; [|done|done].
  destruct ret; [injection H as <- <- _ _ _; done|].
  destruct (if negb _ then _ else _) as [[t2 w2]| |]; cbn [obind] in H; [|done|done]. injection H as <- <- _ _ _. lia.
Qed.

Lemma move_data_error t rd wr w err t' w' :
  move_data snd_fn rcv_fn clock junk t rd wr w = Ok (Some err, t', w') -> Some err ∈ outside.
Proof.
  assert (R : forall t w, (let! r := iperf_recv rcv_fn t rd w in
    let '(rv, err, t, _, w) := r in if rv <? 0 then Ok (err, t, w) else Ok (None, t, w)) = Ok (Some err, t', w') -> Some err ∈ outside).
  { intros t0 w0 H0. destruct (iperf_recv _ _ _ _) as [[[[[rv er] t1] rs] w1]| |] eqn:E; cbn [obind] in H0; [|done|done].
    destruct (Z.ltb_spec rv 0); [|done]. apply recv_error in E; [|done]. injection H0 as H0 _ _. rewrite <- H0, E. set_solver. }
  unfold move_data. intros H. destruct (mode t =? BIDIRECTIONAL); [|destruct (mode t =? SENDER)]; [..|by eapply R].
  all: destruct (iperf_send _ _ _ _ _ _) as [[[[[rv er] t1] ws] w1]| |] eqn:E; cbn [obind] in H; [|done|done];
    destruct (Z.ltb_spec rv 0); [|first [done|by eapply R]]; apply send_error in E; [|done];
    injection H as H _ _; rewrite <- H, E; set_solver.
Qed.

Lemma rest_failures rd wr x snt dl rest err x' :
  rest_of_pass snd_fn rcv_fn clock getfl setfl cpu stats_callback tcp fuel junk rd wr x snt dl rest = Ok (Fails err x') ->
  err ∈ outside.
Proof.
  unfold rest_of_pass. cbv zeta. intros H. destruct (state _ =? TEST_RUNNING).
  - destruct (move_data _ _ _ _ _ _ _ _) as [[[[er|] t1] w1]| |] eqn:E1; cbn [obind] in H; try done.
    + injection H as <- _. by eapply move_data_error.
    + destruct (clock w1) as [now w2]. destruct (tmr_run _ _ _ _ _) as [[s2 st2]| |]; cbn [obind] in H; [|done|done].
      destruct (client_done _); [|done]. destruct (cpu _) as [f w3]. by destruct (clock w3).
  - destruct (_ && _); [|done].
    destruct (iperf_recv _ _ _ _) as [[[[[rv er] t1] rs] w1]| |] eqn:E; cbn [obind] in H; [|done|done].
    destruct (Z.ltb_spec rv 0); [|done]. apply recv_error in E; [|done]. injection H as <- _. rewrite E. set_solver.
Qed.

Lemma handle_failures io x s ts tc cs err x' :
  reached x s ts tc cs -> (forall rv, c_pc x <> Stop rv) ->
  handle snd_fn rcv_fn clock getfl setfl cpu malloc stats_callback tcp fuel junk e io tc x = Ok (Fails err x') ->
  err ∈ outside.
Proof.
  intros Hx Hpc H. destruct tc as [|m tc]; [done|]. cbn [handle] in H.
  destruct (client_message _ _ _ _ _) as [[[[er x1] snt1] dl1]| |] eqn:E; cbn [obind] in H; [|done|done].
  destruct (c_pc x1) eqn:Ep; try done; [by eapply rest_failures|]. destruct (Z.ltb_spec rv 0); [|done]. injection H as <- <-.
  unfold client_message in E. cbv zeta in E. destruct (match c_pc x with Loop => _ | _ => _ end).
  - destruct (begin_test _ _ _ _ _ _) as [[[[[er1|] s1] st1] w1]| |] eqn:E1; cbn [obind] in E; try done;
      injection E as <- <- _ _; [|done]. apply (begin_test_init TEST_PROC 0) in E1 as ->. set_solver.
  - exfalso. destruct (clock (world x)) as [now w]. destruct (client_turn' _ _ _ _ _) as [r| |] eqn:E1; cbn [obind] in E; [|done|done].
    injection E as <- <- _ _. cbn in Ep. destruct Hx as (k & n & Hx).
    assert (Hs : rtc (step e) (start base c k)
      (mk_system (after r) (t_test r) s (ts ++ sent r) tc (cs ++ dialled r) n)).
    { eapply rtc_r; [exact Hx|]. by eapply (client_msg e now). }
    apply (reachable_phase e base c He Hbase Hc) in Hs as [i Hi].
    pose proof (sf_client _ _ (phase_safe e base c He Hbase Hc i _ Hi) rv Ep). lia.
Qed.

(** ** Runs *)

(** The client in its loop, the server, the two directions of the control
    connection and the data connections. *)
Record config := mk_config
  { k_client : client (W := W);
    k_server : server;
    k_to_server : list cmsg;
    k_to_client : list cmsg;
    k_conns : list bytes }.

Definition sys_of (g : config) : nat -> system :=
  sys (k_client g) (k_server g) (k_to_server g) (k_to_client g) (k_conns g).

Inductive loop_step : config -> config -> Prop :=
(** a pass of the client; once it has ended the test its figures are in the
    range of the results *)
| loop_client io x s ts tc cs x' snt dl rest :
    client_pass io tc x = Ok (Goes x' snt dl rest) ->
    (state (c_test x') = TEST_END -> results_sendable (c_test x')) ->
    loop_step (mk_config x s ts tc cs) (mk_config x' s (ts ++ snt) rest (cs ++ dl))
(** a step of the server *)
| loop_server x s ts tc cs s' ts' tc' cs' n n' :
    step e (sys x s ts tc cs n) (sys x s' ts' tc' cs' n') ->
    loop_step (mk_config x s ts tc cs) (mk_config x s' ts' tc' cs').

Definition reached_config (g : config) : Prop :=
  reached (k_client g) (k_server g) (k_to_server g) (k_to_client g) (k_conns g).

Lemma loop_reached g g' : reached_config g -> loop_step g g' -> reached_config g'.
Proof.
  intros H Hs. destruct Hs as [io x s ts tc cs x' snt dl rest Hp Hr|x s ts tc cs s' ts' tc' cs' n n' Hs].
  - by eapply pass_reached.
  - destruct H as (k & m & H). apply (steps_more n) in H. apply (step_more m) in Hs.
    exists (k + n)%nat, (n' + m)%nat. eapply rtc_r; [exact H|]. unfold more in *. cbn in *. by rewrite (Nat.add_comm m n).
Qed.

Definition first_config (x : client) : config := mk_config x (server0 base) [MCookie (cookie c)] [] [].

Lemma loops_reached x g :
  c_pc x = Loop -> c_test x = c -> rtc loop_step (first_config x) g -> reached_config g.
Proof.
  intros Hp Ht H. assert (H0 : reached_config (first_config x)).
  { exists 0%nat, 0%nat. unfold first_config, sys. cbn. by rewrite Hp, Ht. }
  revert H0. induction H as [|g1 g2 g3 Hs _ IH]; [done|]. intros H0. apply IH. by eapply loop_reached.
Qed.

Lemma stopped_completed i g rv rv' :
  phase base c i g -> cl_pc g = Stop rv -> sv_pc (sv g) = Stop rv' -> completed c g.
Proof. intros Hp H1 H2. destruct Hp; try discriminate H1; try discriminate H2. by apply over_completed. Qed.

(** The client's event loop runs the protocol.  Take the loop of
    iperf_run_client as it is written, with select waking it in any way, the
    timers of timer.c and the functions of TCP or UDP, against a server that
    makes any steps.  Every run of passes that do not fail is a run of the
    protocol: it never goes wrong, and when both programs have returned the
    test is complete, with the results of each side held by the other. *)
Theorem client_loop_refines x g :
  c_pc x = Loop -> c_test x = c -> rtc loop_step (first_config x) g ->
  exists k n, rtc (step e) (start base c k) (sys_of g n) /\ safe e (sys_of g n) /\
    (forall rv rv', c_pc (k_client g) = Stop rv -> sv_pc (k_server g) = Stop rv' -> completed c (sys_of g n)).
Proof.
  intros Hp Ht H. destruct (loops_reached x g Hp Ht H) as (k & n & Hr). exists k, n. split; [exact Hr|].
  apply (reachable_phase e base c He Hbase Hc) in Hr as [i Hi]. split; [by eapply (phase_safe e base c)|].
  intros rv rv' H1 H2. exact (stopped_completed i _ rv rv' Hi H1 H2).
Qed.


End Pass.
End Refine.

(** ** A run *)

(** The client of [iperf3 -c host -n 16 -l 4], over sockets that take what is
    written, at a fixed time. *)
Definition demo_test : iperf_test :=
  (iperf_set_test_role true (iperf_defaults true) role_client)
    {{ ctrl_sck := 9; settings -> blksize := 4; settings -> bytes_ := 16 }}.

Definition demo_stats (now : iperf_time) (t : iperf_test) : iperf_test :=
  match iperf_stats_callback true t (fun _ => now) some_info (mk_interval 0 now now d0 0 0 0 0 d0 0 0 false 0 0 0 0 0) with
  | Ok t' => t'
  | _ => t
  end.

Lemma demo_stats_same now t : same_control t (demo_stats now t).
Proof.
  unfold demo_stats. destruct (iperf_stats_callback _ _ _ _ _) as [t'| |] eqn:E; [|reflexivity|reflexivity].
  by apply stats_same_control in E.
Qed.

Definition demo_clock (w : fds) : iperf_time * fds := (mk_time 100 0, w).

Definition demo_client : client :=
  mk_client Loop (mk_session demo_test (d_of_Z 1) (d_of_Z 1) None None None None ∅ 0) tmr_init true
    ({[ 3 := mksock [] [] [] (repeat (Chunk 4) 4) ]} : fds).

Abbreviation with_demo f :=
  (f (iperf_tcp_send false (fun _ => repeat 1 4)) (iperf_tcp_recv (fun _ => repeat 1 4)) demo_clock
    (fun _ w => (0, w)) (fun _ _ w => (0, w)) (fun w => ((d0, d0, d0), w))
    (fun h => Some (fresh (dom h))) demo_stats some_info 10%nat (mk_time 0 0) sample_env).

Abbreviation of_demo f :=
  (f (iperf_tcp_send false (fun _ => repeat 1 4)) (iperf_tcp_recv (fun _ => repeat 1 4)) (tcp_send_ok _ _) (tcp_recv_ok _)
    demo_clock (fun _ w => (0, w)) (fun _ _ w => (0, w)) (fun w => ((d0, d0, d0), w))
    (fun h => Some (fresh (dom h))) demo_stats some_info 10%nat (mk_time 0 0) sample_env).

Lemma demo_ok : client_ok demo_test.
Proof.
  constructor; try reflexivity; try (vm_compute; split; congruence); try (vm_compute; congruence).
  - constructor; repeat constructor; vm_compute; congruence.
  - constructor; [by left|reflexivity|discriminate|discriminate].
Qed.

Ltac client_goes io := eapply rtc_l; [eapply (loop_client _ _ _ _ _ _ _ _ _ _ _ _ io); [vm_compute; reflexivity|try (vm_compute; discriminate)]|].
Ltac server_goes tac := eapply rtc_l; [eapply loop_server with (n := 0%nat) (n' := 0%nat); tac|].

Definition demo_start : config := first_config (fresh_server true) demo_test demo_client.

(** From the connection to the end of the test: the parameters, the stream, the
    start, and a pass that sends 16 bytes and ends the test. *)
Lemma demo_run : exists g, rtc (with_demo loop_step) demo_start g /\
  k_to_server g = [MState TEST_END] /\ t_bytes_sent (c_test (k_client g)) = 16.
Proof.
  eexists. split.
  { unfold demo_start, first_config.
    server_goes ltac:(eapply (server_hello sample_env 8); [reflexivity|lia|vm_compute; reflexivity]).
    client_goes (mk_wakeup 1 false {[ 9 ]} ∅).
    server_goes ltac:(eapply (server_msg sample_env some_time); [set_solver|discriminate|vm_compute; reflexivity]).
    client_goes (mk_wakeup 1 false {[ 9 ]} ∅).
    server_goes ltac:(eapply (server_stream sample_env some_time 5); [reflexivity|reflexivity|lia|vm_compute; reflexivity]).
    client_goes (mk_wakeup 1 false {[ 9 ]} ∅).
    client_goes (mk_wakeup 2 false {[ 9 ]} {[ 3 ]}).
    { intros _. constructor; [repeat constructor; vm_compute; reflexivity|vm_compute; split; congruence|done|].
      constructor; [|constructor]. constructor; [|vm_compute; split; congruence|].
      + repeat constructor; vm_compute; congruence.
      + repeat constructor; vm_compute; reflexivity. }
    apply rtc_refl. }
  by split.
Qed.

Lemma client_loop_refines_witness : exists (g : @config fds) k n,
  k_to_server g = [MState TEST_END] /\ t_bytes_sent (c_test (k_client g)) = 16 /\
  rtc (step sample_env) (start (fresh_server true) demo_test k) (sys_of g n) /\ safe sample_env (sys_of g n).
Proof.
  destruct demo_run as (g & Hr & H1 & H2).
  destruct (of_demo client_loop_refines demo_stats_same (fresh_server true) demo_test
    sample_env_ok sample_ready demo_ok demo_client g eq_refl eq_refl Hr) as (k & n & Hk & Hs & _).
  by exists g, k, n.
Defined.

