(* ===== verification/ServerLoop.v ===== *)
(** * The event loop of the server (iperf_server_api.c: iperf_run_server)

    One pass of the loop: select, a new client, a control message, a data
    connection, the start of the test, the streams, and at the end the timers.
    A pass is suspended while iperf_accept waits for the parameters and while
    the handler of TEST_END waits for the results.  Closing the sockets and the
    timers after the loop is cleanup_server (Setup.v). *)

From coqutil Require Import Datatypes.RecordSetters.
From Stdlib Require Import SpecFloat.
From S2P Require Import Prelude.
From S2P Require Import IperfTime.
From S2P Require Import Timer.
From S2P Require Import TimerRun.
From S2P Require Import Cdouble.
From S2P Require Import Iperf.
From S2P Require Import Frame.
From S2P Require Import Udp.
From S2P Require Import Transfer.
From S2P Require Import Stats.
From S2P Require Import Params.
From S2P Require Import Results.
From S2P Require Import Control.
From S2P Require Import Protocol.
From S2P Require Import TestTimers.
From S2P Require Import ClientLoop.
From stdpp Require Import base numbers gmap list.
Import DoubleBraceUpdate.

Open Scope Z_scope.
Open Scope c_scope.

(** FD_ISSET; a negative descriptor is outside the set's memory. *)
Definition fd_isset (fd : Z) (s : gset Z) : outcome bool :=
  if fd <? 0 then UB else Ok (bool_decide (fd ∈ s)).

Section ServerLoop.
Context {W : Type}.

(** As in ClientLoop.v; accept on a listening socket, netannounce, and the write
    of ACCESS_DENIED to another client. *)
Variable snd_fn rcv_fn : iperf_test -> iperf_stream -> W -> outcome (Z * iperf_stream * W).
Variable clock : W -> iperf_time * W.
Variable getfl : Z -> W -> Z * W.
Variable setfl : Z -> Z -> W -> Z * W.
Variable cpu : W -> (double * double * double) * W.
Variable accept : W -> Z * W.
Variable announce : W -> Z * W.
Variable deny : Z -> W -> Z * W.
Variable malloc : gmap loc Timer -> option loc.
Variable stats_callback : iperf_time -> iperf_test -> iperf_test.
Variable tcp : iperf_stream -> tcp_info.
Variable fuel : nat.
Variable junk : iperf_time.
Variable e : env.

(** The test with its timers, the local variables of iperf_run_server, what
    select returned in this pass, whether it was not to wait, and whether the
    end of the pass is still to come. *)
Record server_loop := mk_loop
  { l_pc : pc;
    l_session : session;
    l_timers : tmr_state;
    l_listener : Z;
    l_rec : Z;
    l_send : Z;
    l_to_rec : Z;
    l_to_send : Z;
    l_wake : wakeup;
    l_zero : bool;
    l_ending : bool;
    l_world : W }.

Definition l_test (y : server_loop) : iperf_test := s_test (l_session y).

Definition server_of (y : server_loop) : server :=
  mk_server (l_pc y) (l_test y) (l_rec y) (l_send y) (l_to_rec y) (l_to_send y).

Definition with_server (s : server) (y : server_loop) : server_loop :=
  y {{ l_pc := sv_pc s; l_session := (l_session y) {{ s_test := sv_test s }};
       l_rec := rec_streams_accepted s; l_send := send_streams_accepted s;
       l_to_rec := streams_to_rec s; l_to_send := streams_to_send s }}.

Definition fd_clr (fd : Z) (y : server_loop) : server_loop :=
  y {{ l_wake := (l_wake y) {{ sel_read := sel_read (l_wake y) ∖ {[ fd ]} }} }}.

(** Messages sent to the client, control messages and data connections that
    wait. *)
Record link := mk_link
  { snt : list cmsg;
    inbox : list cmsg;
    calls : list bytes }.

(** The pass reaches its end or is suspended; the server fails; it waits for a
    message or a connection. *)
Inductive server_result : Type :=
| SGoes (y : server_loop) (l : link)
| SFails (y : server_loop)
| SWaits.

(** ** The streams *)

Definition server_data (y : server_loop) (l : link) : outcome server_result :=
  let t := l_test y in
  let put t w y := y {{ l_session := (l_session y) {{ s_test := t }}; l_world := w }} in
  let ends y := Ok (SGoes (y {{ l_ending := true }}) l) in
  let send k y :=
    let! r := iperf_send snd_fn clock (l_test y) (Some (sel_write (l_wake y))) junk (l_world y) in
    let '(rv, _, t, _, w) := r in
    if rv <? 0 then Ok (SFails (put t w y)) else k (put t w y) in
  let recv k y :=
    let! r := iperf_recv rcv_fn (l_test y) (sel_read (l_wake y)) (l_world y) in
    let '(rv, _, t, _, w) := r in
    if rv <? 0 then Ok (SFails (put t w y)) else k (put t w y) in
  if state t =? TEST_RUNNING
  then
    if mode t =? BIDIRECTIONAL then recv (send ends) y
    else if mode t =? SENDER then send ends y
    else recv ends y
  else ends y.

(** ** The start of the test *)

(** The sockets that listen: UDP stops listening for streams, TCP makes a new
    listener after a test with socket options. *)
Definition relisten (y : server_loop) : option server_loop :=
  let t := l_test y in
  let set_read rs y := y {{ l_session := (l_session y) {{ s_test -> read_set := rs }} }} in
  if negb (protocol t =? Ptcp) then Some (set_read (read_set t ∖ {[ prot_listener t ]}) y)
  else if nonzero_int (no_delay t) || nonzero_int (mss (settings t)) || nonzero_int (socket_bufsize (settings t))
  then
    let '(fd, w) := announce (l_world y) in
    if fd <? 0 then None
    else Some (set_read ({[ fd ]} ∪ (read_set t ∖ {[ l_listener y ]})) (y {{ l_listener := fd; l_world := w }}))
  else Some y.

Definition server_start (y : server_loop) (l : link) : outcome server_result :=
  if (l_rec y =? l_to_rec y) && (l_send y =? l_to_send y)
  then
    match relisten y with
    | None => Ok (SFails (y {{ l_listener := 0 }}))       (* IELISTEN *)
    | Some y =>
        let s := (l_session y) {{ s_test := (l_test y) {{ prot_listener := -1; state := TEST_START }} }} in
        let! r := begin_test clock malloc (create_server_timers malloc) s (l_timers y) (l_world y) in
        let '(err, s, st, w) := r in
        let y := y {{ l_session := s; l_timers := st; l_world := w }} in
        match err with
        | Some _ => Ok (SFails y)
        | None =>
            server_data (y {{ l_session := s {{ s_test -> state := TEST_RUNNING }} }})
              (l {{ snt := snt l ++ [MState TEST_START; MState TEST_RUNNING] }})
        end
    end
  else server_data y l.

(** A new stream that is not an UDP sender gets a non-blocking socket. *)
Definition unblock (fd : Z) (old new : iperf_test) (w : W) : W :=
  match drop (List.length (streams old)) (streams new) with
  | sp :: _ => if negb (protocol new =? Pudp) || negb (sender sp) then snd (setnonblocking getfl setfl fd true w) else w
  | [] => w
  end.

(** Data connections, and the start once they are all there. *)
Definition server_streams (y : server_loop) (l : link) : outcome server_result :=
  let t := l_test y in
  if state t =? CREATE_STREAMS
  then
    let! ready := fd_isset (prot_listener t) (sel_read (l_wake y)) in
    if ready
    then
      match calls l with
      | [] => Ok SWaits
      | ck :: rest =>
          let '(fd, w) := accept (l_world y) in
          if fd <? 0 then Ok (SFails y)
          else
            let! s := take_stream no_errno (server_of y) fd ck in
            let y := with_server s (y {{ l_world := unblock fd t (sv_test s) w }}) in
            match sv_pc s with
            | Stop _ => Ok (SFails y)
            | _ => server_start (fd_clr (prot_listener t) y) (l {{ calls := rest }})
            end
      end
    else server_start y l
  else server_data y l.

(** ** Messages *)

Definition server_message (y : server_loop) (l : link) : outcome server_result :=
  let! ready := fd_isset (ctrl_sck (l_test y)) (sel_read (l_wake y)) in
  if ready
  then
    match inbox l with
    | [] => Ok SWaits
    | m :: rest =>
        let '(figures, w) := cpu (l_world y) in
        let '(now, w) := clock w in
        let w := if match m with MState z => z =? TEST_END | _ => false end then w else l_world y in
        let! r := iperf_handle_message_server (fun t => stats_callback now (t {{ cpu_util := figures }}))
                    (server_of y) (Msg m) in
        let '(s, out) := r in
        let y := with_server s (y {{ l_world := w }}) in
        let l := l {{ snt := snt l ++ out; inbox := rest }} in
        match sv_pc s with
        | Stop _ => Ok (SFails y)
        | Loop => server_streams (fd_clr (ctrl_sck (l_test y)) y) l
        | _ => Ok (SGoes y l)
        end
    end
  else server_streams y l.

(** The listening socket is ready: iperf_accept.  A busy server denies access to
    the new client and counts the streams it expects once more. *)
Definition server_accept (y : server_loop) (l : link) : outcome server_result :=
  let '(fd, w) := accept (l_world y) in
  let y := y {{ l_world := w }} in
  if ctrl_sck (l_test y) =? -1
  then
    match inbox l with
    | [] => Ok SWaits
    | MCookie ck :: rest =>
        let '(s, out) := iperf_accept (server_of y) fd (Some ck) in
        let y := with_server s y in
        match sv_pc s with
        | Stop _ => Ok (SFails y)
        | _ => Ok (SGoes y (l {{ snt := snt l ++ out; inbox := rest }}))
        end
    | _ => UB
    end
  else
    let '(s, _) := iperf_accept (server_of y) fd None in      (* ACCESS_DENIED to the other client *)
    match sv_pc s with
    | Stop _ => Ok (SFails y)
    | _ =>
        let '(r, w) := deny fd (l_world y) in
        let y := with_server s (y {{ l_world := w }}) in
        if r <? 0 then Ok (SFails y)        (* IESENDMESSAGE *)
        else
          let '(rec, snd) := expected_streams (l_test y) in
          server_message (fd_clr (l_listener y) (y {{ l_to_rec := rec; l_to_send := snd }})) l
    end.

(** ** A pass up to the timers *)
Definition server_pass (io : wakeup) (l : link) (y : server_loop) : outcome server_result :=
  match l_pc y with
  | Listen | Loop =>
      let '(now, w) := clock (l_world y) in
      let! tmo := tmr_timeout (l_timers y) now in
      let y := y {{ l_wake := io; l_zero := bool_decide (tmo = Some (0, 0)); l_world := w }} in
      if (sel_result io <? 0) && negb (sel_eintr io) then Ok (SFails y)     (* IESELECT *)
      else if 0 <? sel_result io
      then
        let! ready := fd_isset (l_listener y) (sel_read io) in
        if ready && negb (state (l_test y) =? CREATE_STREAMS) then server_accept y l else server_message y l
      else Ok (SGoes (y {{ l_ending := true }}) l)
  | WaitParams =>
      match inbox l with
      | [] => Ok SWaits
      | MJson j :: rest =>
          let! r := take_params (has_tcpinfo_retransmits e) (listen_fd e) (0, 0) (server_of y) j in
          let '(s, out) := r in
          let y := with_server s y in
          match sv_pc s with
          | Stop _ => Ok (SFails y)
          | _ => server_message (fd_clr (l_listener y) y) (l {{ snt := snt l ++ out; inbox := rest }})
          end
      | _ => UB
      end
  | WaitResults =>
      match inbox l with
      | [] => Ok SWaits
      | MJson j :: rest =>
          let! r := server_results (json_output e) (json_top e) (output_list e) (server_of y) j in
          let '(s, out) := r in
          let y := with_server s y in
          match sv_pc s with
          | Stop _ => Ok (SFails y)
          | _ => server_streams (fd_clr (ctrl_sck (l_test y)) y) (l {{ snt := snt l ++ out; inbox := rest }})
          end
      | _ => UB
      end
  | _ => Ok SWaits
  end.

(** ** The end of a pass: the timers and the condition of the loop *)

(** The callbacks of the timers a server has. *)
Definition server_dispatch (p : nat) : Z -> iperf_time -> session -> tmr_state -> outcome (session * tmr_state) :=
  if (p =? TEST_PROC)%nat then fun _ _ _ _ => UB else dispatch stats_callback tcp p.

Definition end_of_pass (y : server_loop) : outcome server_loop :=
  let! y :=
    if (sel_result (l_wake y) =? 0) || l_zero y
    then
      let '(now, w) := clock (l_world y) in
      let! r := tmr_run server_dispatch fuel now (l_session y) (l_timers y) in
      let '(s, st) := r in Ok (y {{ l_session := s; l_timers := st; l_world := w }})
    else Ok y in
  let y := y {{ l_ending := false }} in
  Ok (if state (l_test y) =? IPERF_DONE then y {{ l_pc := Stop 0 }} else y).

End ServerLoop.
