(* ===== verification/Loops.v ===== *)
(** * Both event loops together

    The passes of iperf_run_server are runs of the protocol too, and so is any
    interleaving of the passes of the two loops. *)

From coqutil Require Import Datatypes.RecordSetters.
From Stdlib Require Import SpecFloat.
From S2P Require Import Prelude.
From S2P Require Import IperfTime.
From S2P Require Import Timer.
From S2P Require Import TimerRun.
From S2P Require Import Cdouble.
From S2P Require Import CjsonData.
From S2P Require Import Stream.
From S2P Require Import Iperf.
From S2P Require Import Frame.
From S2P Require Import Udp.
From S2P Require Import Transfer.
From S2P Require Import Stats.
From S2P Require Import Params.
From S2P Require Import ParamsProof.
From S2P Require Import ParamsThms.
From S2P Require Import Results.
From S2P Require Import ResultsProof.
From S2P Require Import Control.
From S2P Require Import Protocol.
From S2P Require Import DataStep.
From S2P Require Import ProtocolTurns.
From S2P Require Import ProtocolRun.
From S2P Require Import ProtocolThms.
From S2P Require Import TestTimers.
From S2P Require Import ClientLoop.
From S2P Require Import ClientLoopThms.
From S2P Require Import ServerLoop.
From stdpp Require Import base numbers gmap list relations.
Import DoubleBraceUpdate.

Open Scope Z_scope.
Open Scope c_scope.

Section Loops.
Context {W : Type}
  (snd_fn rcv_fn : iperf_test -> iperf_stream -> W -> outcome (Z * iperf_stream * W))
  (HS : SendOk snd_fn) (HR : RecvOk rcv_fn)
  (clock : W -> iperf_time * W) (getfl : Z -> W -> Z * W) (setfl : Z -> Z -> W -> Z * W)
  (cpu : W -> (double * double * double) * W) (accept announce : W -> Z * W) (deny : Z -> W -> Z * W)
  (malloc : gmap loc Timer -> option loc) (stats_callback : iperf_time -> iperf_test -> iperf_test)
  (tcp : iperf_stream -> tcp_info) (fuel : nat) (junk : iperf_time) (e : env).
Hypothesis stats_same : forall now t, same_control t (stats_callback now t).
Context (base c : iperf_test).
Hypothesis He : env_ok e.
Hypothesis Hbase : ready e base.
Hypothesis Hc : client_ok c.

Abbreviation server_loop := (server_loop (W := W)).
Implicit Types y : server_loop.

Lemma SGoes_inj y l y' l' : Ok (SGoes y l) = Ok (SGoes y' l') -> y = y' /\ l = l'.
Proof. intros H. injection H. auto. Qed.

(** ** States of a run *)

Definition at_run (p : pc) (t : iperf_test) (s : server) (ts tc : list cmsg) (cs : list bytes) : Prop :=
  exists k n, rtc (step e) (start base c k) (mk_system p t s ts tc cs n).

Lemma at_run_phase p t s ts tc cs : at_run p t s ts tc cs -> exists i n, phase base c i (mk_system p t s ts tc cs n).
Proof. intros (k & n & H). apply (reachable_phase e base c He Hbase Hc) in H as [i H]. by exists i, n. Qed.

Lemma at_run_step p t s ts tc cs p' t' s' ts' tc' cs' k :
  at_run p t s ts tc cs ->
  (forall n, rtc (step e) (mk_system p t s ts tc cs (k + n)) (mk_system p' t' s' ts' tc' cs' n)) ->
  at_run p' t' s' ts' tc' cs'.
Proof.
  intros (k0 & n & H) Hs. apply (steps_more e k) in H. exists (k0 + k)%nat, n. etransitivity; [exact H|].
  unfold more. cbn. rewrite Nat.add_comm. apply Hs.
Qed.

(** What is known of a server in its loop. *)
Record in_loop (s : server) : Prop := {
  il_ctrl : ctrl_sck (sv_test s) = -1 <-> sv_pc s = Listen;
  il_state : state (sv_test s) <> IPERF_DONE;
  il_listen : sv_pc s = Listen -> state (sv_test s) = IPERF_START;
  il_create : state (sv_test s) = CREATE_STREAMS ->
    (rec_streams_accepted s =? streams_to_rec s) && (send_streams_accepted s =? streams_to_send s) = false;
  il_expected : sv_pc s = Loop -> expected_streams (sv_test s) = (streams_to_rec s, streams_to_send s);
  il_running : state (sv_test s) = TEST_RUNNING -> ids_ok (sv_test s) /\ streams (sv_test s) <> [] }.

Lemma expected_ok ts : server_like c ts -> expected_streams ts = (to_rec c, to_send c).
Proof.
  intros H. unfold expected_streams, to_rec, to_send. rewrite (sl_mode c ts H), (sl_num c ts H).
  by destruct (mode_cases c Hc) as [-> | [-> | ->]].
Qed.

Lemma received_keep a b :
  mode (received a b) = mode b /\ num_streams (received a b) = num_streams b /\ ctrl_sck (received a b) = ctrl_sck b.
Proof. unfold received. by destruct (mode b =? RECEIVER), (mode b =? BIDIRECTIONAL), (congestion_used a). Qed.

Lemma streams_nonempty t : has_streams (map negb (flags c)) t -> ids_ok t /\ streams t <> [].
Proof.
  intros [H1 H2]. split; [done|]. intros E. rewrite E in H2. apply (f_equal (@List.length bool)) in H2.
  rewrite !length_map in H2. pose proof (total_count c Hc) as (T & _ & _ & T'). unfold total_streams in T. cbn in H2. lia.
Qed.

(** A server that has a client. *)
Lemma accepted_in_loop k t :
  ctrl_sck t <> -1 -> state t <> IPERF_DONE -> expected_streams t = (to_rec c, to_send c) ->
  (state t = CREATE_STREAMS -> (k < total_streams c)%nat) ->
  (state t = TEST_RUNNING -> has_streams (map negb (flags c)) t) -> in_loop (accepted c k Loop t).
Proof.
  intros H1 H2 H3 H4 H5. constructor; cbn [sv_pc sv_test Protocol.accepted]; try done.
  - intros E. by apply (not_complete c Hc), H4.
  - intros E. by apply streams_nonempty, H5.
Qed.

Lemma phase_in_loop i g : phase base c i g -> sv_pc (sv g) = Listen \/ sv_pc (sv g) = Loop -> in_loop (sv g).
Proof.
  intros Hp Hpc. pose proof (total_count c Hc) as (Ht & _ & _ & Ht').
  assert (Hrun : forall ts, server_like c ts -> state ts = TEST_RUNNING -> has_streams (map negb (flags c)) ts ->
    in_loop (accepted c (total_streams c) Loop ts)).
  { intros ts Hl E Hs. apply accepted_in_loop; [apply Hl|by rewrite E|by apply expected_ok|by rewrite E|done]. }
  assert (Hres : forall t ts, server_like c ts ->
    in_loop (accepted c (total_streams c) Loop ((received t ts) {{ state := DISPLAY_RESULTS }}))).
  { intros t ts Hl. destruct (received_keep t ts) as (E1 & E2 & E3). apply accepted_in_loop; try done.
    - change (ctrl_sck (received t ts) <> -1). rewrite E3. apply Hl.
    - rewrite <- (expected_ok ts Hl). unfold expected_streams. change (mode (_ {{ state := _ }})) with (mode (received t ts)).
      change (num_streams (_ {{ state := _ }})) with (num_streams (received t ts)). by rewrite E1, E2. }
  destruct Hp as [w|fd rs w Hfd|fd rs w Hfd|ts w Hl Es Hs|k t ts w Hl Et Hs Hl' Et' Hs' Hk|t ts w Hl Et Hs Hl' Et' Hs'
    |t ts w Hl Et Hs Hl' Et' Hs'|t ts w Hl Et Hs Hl' Et' Hs'|t ts w Hl Et Hs Hr Hl' Et' Hs'
    |t ts w Hl Et Hs Hr Hl' Hs' Hr'|t ts w Hl Et Hs Hr Hl' Hs' Hr'
    |t ts w Hl Et Hs Hr Hl' Hs' Hr'|t ts w Hl Et Hs Hr Hl' Hs' Hr'|t ts w Hl Hs Hr Hl' Hs' Hr'|t ts w Hl Hs Hr Hl' Hs' Hr'];
    try (destruct Hpc; discriminate); cbn [sv]; try (by apply Hrun); try (by apply Hres).
  - destruct Hbase as (l & -> & _). by constructor.
  - apply accepted_in_loop; [apply Hl|by rewrite Es|by apply expected_ok|intros; lia|by rewrite Es].
  - apply accepted_in_loop; [apply Hl'|by rewrite Et'|by apply expected_ok|done|by rewrite Et'].
Qed.

(** ** The stages of a pass *)

(** At the end of the loop the server has returned. *)
Definition settled (s : server) : server :=
  if state (sv_test s) =? IPERF_DONE then sv_set (Stop 0) (sv_test s) s else s.

Definition seen (y : server_loop) : server := if l_ending y then settled (server_of y) else server_of y.

Lemma settled_id s : state (sv_test s) <> IPERF_DONE -> settled s = s.
Proof. intros H. unfold settled. by rewrite (proj2 (Z.eqb_neq _ _) H). Qed.

Lemma server_of_with s (y : server_loop) : server_of (with_server s y) = s.
Proof. by destruct s. Qed.

Section Stages.
Context (p : pc) (t : iperf_test) (tc : list cmsg).

Definition runs (s : server) (l : link) : Prop := at_run p t s (inbox l) (tc ++ snt l) (calls l).

(** Where a pass gets to. *)
Definition good (y : server_loop) (l : link) : Prop :=
  runs (seen y) l /\ (l_ending y = true -> l_pc y = Listen \/ l_pc y = Loop).

Lemma runs_in_loop s l : runs s l -> sv_pc s = Listen \/ sv_pc s = Loop -> in_loop s.
Proof. intros H Hpc. apply at_run_phase in H as (i & n & H). by apply (phase_in_loop i _ H). Qed.

Lemma runs_data s l t' :
  sv_pc s = Loop -> state (sv_test s) = TEST_RUNNING -> same_control (sv_test s) t' -> runs s l -> runs (sv_set Loop t' s) l.
Proof.
  intros H1 H2 H3 H. apply (at_run_step _ _ _ _ _ _ _ _ _ _ _ _ 1 H). intros n. apply rtc_once. by apply Protocol.server_data.
Qed.

Abbreviation server_data := (server_data snd_fn rcv_fn clock junk).

Lemma ends_good y l : l_pc y = Loop -> runs (settled (server_of y)) l -> good (y {{ l_ending := true }}) l.
Proof. intros Hp H. split; [exact H|]. by right. Qed.

(** A transfer of a running server. *)
Lemma transfer_runs y l t' w :
  l_pc y = Loop -> state (l_test y) = TEST_RUNNING -> same_control (l_test y) t' -> runs (server_of y) l ->
  let y' := y {{ l_session := (l_session y) {{ s_test := t' }}; l_world := w }} in
  l_pc y' = Loop /\ state (l_test y') = TEST_RUNNING /\ runs (server_of y') l.
Proof.
  intros Hp Ht Hs H y'. split; [done|]. split; [change (state t' = TEST_RUNNING); by rewrite (proj1 Hs)|].
  assert (E : server_of y' = sv_set Loop t' (server_of y)) by (unfold server_of, sv_set; change (l_pc y') with (l_pc y); by rewrite Hp).
  rewrite E. by apply runs_data.
Qed.

Lemma data_stage y l y' l' :
  l_pc y = Loop -> runs (settled (server_of y)) l -> server_data y l = Ok (SGoes y' l') -> good y' l'.
Proof.
  intros Hp H. unfold ServerLoop.server_data. cbv zeta. destruct (Z.eqb_spec (state (l_test y)) TEST_RUNNING) as [Ht|Ht].
  2:{ intros [<- <-]%SGoes_inj. by apply ends_good. }
  rewrite settled_id in H by (cbn; rewrite Ht; discriminate).
  assert (Hend : forall y1, l_pc y1 = Loop -> state (l_test y1) = TEST_RUNNING -> runs (server_of y1) l ->
    good (y1 {{ l_ending := true }}) l).
  { intros y1 H1 H2 H3. apply ends_good; [done|]. rewrite settled_id; [done|]. cbn. by rewrite H2. }
  assert (Hsend : forall y1, l_pc y1 = Loop -> state (l_test y1) = TEST_RUNNING -> runs (server_of y1) l ->
    (let! r := iperf_send snd_fn clock (l_test y1) (Some (sel_write (l_wake y1))) junk (l_world y1) in
     let '(rv, _, t, _, w) := r in
     let y2 := y1 {{ l_session := (l_session y1) {{ s_test := t }}; l_world := w }} in
     if rv <? 0 then Ok (SFails y2) else Ok (SGoes (y2 {{ l_ending := true }}) l)) = Ok (SGoes y' l') -> good y' l').
  { intros y1 H1 H2 H3. destruct (iperf_send _ _ _ _ _ _) as [[[[[rv er] t1] ws] w1]| |] eqn:E; cbn [obind]; [|done|done].
    apply send_same_control in E; [|done]. destruct (rv <? 0); [done|]. intros [<- <-]%SGoes_inj.
    destruct (transfer_runs y1 l t1 w1 H1 H2 E H3) as (A & B & C). by apply Hend. }
  assert (Hrecv : forall k, (forall y1, l_pc y1 = Loop -> state (l_test y1) = TEST_RUNNING -> runs (server_of y1) l ->
      k y1 = Ok (SGoes y' l') -> good y' l') ->
    (let! r := iperf_recv rcv_fn (l_test y) (sel_read (l_wake y)) (l_world y) in
     let '(rv, _, t, _, w) := r in
     let y2 := y {{ l_session := (l_session y) {{ s_test := t }}; l_world := w }} in
     if rv <? 0 then Ok (SFails y2) else k y2) = Ok (SGoes y' l') -> good y' l').
  { intros k Hk. destruct (iperf_recv _ _ _ _) as [[[[[rv er] t1] ws] w1]| |] eqn:E; cbn [obind]; [|done|done].
    apply recv_same_control in E; [|done]. destruct (rv <? 0); [done|].
    destruct (transfer_runs y l t1 w1 Hp Ht E H) as (A & B & C). by apply Hk. }
  destruct (mode (l_test y) =? BIDIRECTIONAL); [|destruct (mode (l_test y) =? SENDER)].
  - apply (Hrecv _ Hsend).
  - by apply Hsend.
  - apply (Hrecv (fun y2 => Ok (SGoes (y2 {{ l_ending := true }}) l))).
    intros y1 H1 H2 H3 [<- <-]%SGoes_inj. by apply Hend.
Qed.

(** *** The start of the test *)

Definition cleared (x : iperf_test) : iperf_test :=
  if negb (protocol x =? Ptcp) then x {{ read_set := read_set x ∖ {[ prot_listener x ]} }} else x.

Lemma relisten_test y y1 : relisten announce y = Some y1 ->
  (exists rs, l_test y1 = (cleared (l_test y)) {{ read_set := rs }}) /\
  l_pc y1 = l_pc y /\ l_rec y1 = l_rec y /\ l_send y1 = l_send y /\ l_to_rec y1 = l_to_rec y /\ l_to_send y1 = l_to_send y.
Proof.
  unfold relisten, cleared. cbv zeta. destruct (negb (protocol (l_test y) =? Ptcp)).
  - intros [= <-]. split; [|done]. by eexists.
  - destruct (_ || _); [|intros [= <-]; split; [exists (read_set (l_test y)); by destruct (l_test y)|done]].
    destruct (announce (l_world y)) as [fd w]. destruct (fd <? 0); [done|]. intros [= <-]. split; [|done]. by eexists.
Qed.

Lemma start_test_read_set now x rs : start_test now (x {{ read_set := rs }}) = (start_test now x) {{ read_set := rs }}.
Proof.
  destruct x as [ro mo a2 a3 a4 a5 a6 om dur]. unfold start_test, iperf_init_test. cbn -[nonzero_int map].
  destruct (nonzero_int dur); cbn -[nonzero_int map]; by destruct (nonzero_int mo).
Qed.

#[local] Opaque start_test.

Lemma started_read_set now x rs :
  (start_test now (x {{ read_set := rs; prot_listener := -1; state := TEST_START }})) {{ state := TEST_RUNNING }}
  = (start_test now (x {{ prot_listener := -1; state := TEST_START }})) {{ state := TEST_RUNNING }} {{ read_set := rs }}.
Proof.
  pose proof (start_test_read_set now (x {{ prot_listener := -1; state := TEST_START }}) rs) as E.
  transitivity (((start_test now (x {{ prot_listener := -1; state := TEST_START }})) {{ read_set := rs }}) {{ state := TEST_RUNNING }});
    [|reflexivity]. rewrite <- E. reflexivity.
Qed.

Lemma read_set_same x rs : same_control x (x {{ read_set := rs }}).
Proof. split; [by destruct x|done]. Qed.

Abbreviation server_start := (server_start snd_fn rcv_fn clock announce malloc junk).

Lemma start_stage y l y' l' :
  l_pc y = Loop -> state (l_test y) = CREATE_STREAMS ->
  (forall now s ms, start_when_complete now (server_of y) = (s, ms) -> runs s (l {{ snt := snt l ++ ms }})) ->
  server_start y l = Ok (SGoes y' l') -> good y' l'.
Proof.
  intros Hp Ht Hnext. unfold ServerLoop.server_start.
  unfold start_when_complete in Hnext. cbn [sv_test server_of rec_streams_accepted streams_to_rec send_streams_accepted
    streams_to_send sv_pc] in Hnext. rewrite Ht in Hnext. cbn [Z.eqb Pos.eqb andb] in Hnext.
  destruct ((l_rec y =? l_to_rec y) && (l_send y =? l_to_send y)).
  2:{ apply data_stage; [done|]. specialize (Hnext some_time _ _ eq_refl). rewrite app_nil_r in Hnext.
      rewrite settled_id by (cbn; by rewrite Ht). by destruct l. }
  destruct (relisten announce y) as [y1|] eqn:E1; [|done]. apply relisten_test in E1 as ([rs E1] & P1 & P2 & P3 & P4 & P5). cbv zeta.
  destruct (begin_test _ _ _ _ _ _) as [[[[err s] st] w]| |] eqn:E; cbn [obind]; [|done|done].
  destruct err; [done|]. apply (begin_test_test clock malloc SERVER_PROC grace_period) in E; [|done].
  set (now := fst (clock (l_world y1))) in E. specialize (Hnext now _ _ eq_refl).
  fold (cleared (l_test y)) in Hnext.
  set (T := (start_test now ((cleared (l_test y)) {{ prot_listener := -1; state := TEST_START }})) {{ state := TEST_RUNNING }}) in Hnext.
  set (y3 := _ {{ l_session := s {{ s_test -> state := TEST_RUNNING }} }}).
  assert (Et : l_test y3 = T {{ read_set := rs }}).
  { transitivity ((s_test s) {{ state := TEST_RUNNING }}); [reflexivity|]. rewrite E. cbn [s_test]. 
    transitivity ((start_test now ((l_test y1) {{ prot_listener := -1; state := TEST_START }})) {{ state := TEST_RUNNING }}); [reflexivity|].
    rewrite E1. apply started_read_set. }
  assert (Es : server_of y3 = sv_set Loop (T {{ read_set := rs }}) (sv_set (l_pc y) T (server_of y))).
  { rewrite <- Et. unfold server_of, sv_set. cbn [rec_streams_accepted send_streams_accepted streams_to_rec streams_to_send].
    change (l_pc y3) with (l_pc y1). change (l_rec y3) with (l_rec y1). change (l_send y3) with (l_send y1).
    change (l_to_rec y3) with (l_to_rec y1). change (l_to_send y3) with (l_to_send y1). by rewrite P1, P2, P3, P4, P5, Hp. }
  intros H. refine (data_stage y3 _ y' l' _ _ H).
  - change (l_pc y1 = Loop). by rewrite P1.
  - rewrite settled_id by (change (state (l_test y3) <> IPERF_DONE); rewrite Et; done). rewrite Es.
    apply runs_data; [exact Hp|reflexivity|apply read_set_same|exact Hnext].
Qed.

(** *** Data connections *)

Lemma take_stream_keeps s fd ck s' : take_stream no_errno s fd ck = Ok s' ->
  sv_pc s' = sv_pc s /\ state (sv_test s') = state (sv_test s).
Proof.
  unfold take_stream. cbv zeta. destruct (bool_decide _); [|by intros [= <-]].
  destruct (_ || _); [|destruct (_ && _); [done|by intros [= <-]]].
  unfold no_errno. intros [= <-]. split; [done|]. unfold iperf_add_stream. cbn [sv_test].
  by destruct (streams (sv_test s)), (negb _).
Qed.

Abbreviation server_streams := (server_streams snd_fn rcv_fn clock getfl setfl accept announce malloc junk).

Lemma streams_stage y l y' l' :
  l_pc y = Loop -> runs (settled (server_of y)) l -> server_streams y l = Ok (SGoes y' l') -> good y' l'.
Proof.
  intros Hp H. unfold ServerLoop.server_streams. cbv zeta.
  destruct (Z.eqb_spec (state (l_test y)) CREATE_STREAMS) as [Ht|Ht]; [|by apply data_stage].
  rewrite settled_id in H by (cbn; rewrite Ht; discriminate).
  destruct (fd_isset _ _) as [[|]| |]; cbn [obind]; [|..|done|done].
  - destruct (calls l) as [|ck rest] eqn:Ec; [done|]. destruct (accept (l_world y)) as [fd w].
    destruct (Z.ltb_spec fd 0); [done|]. destruct (take_stream _ _ _ _) as [s| |] eqn:E; cbn [obind]; [|done|done].
    destruct (take_stream_keeps _ _ _ _ E) as [E1 E2]. cbn in E1, E2. rewrite E1, Hp.
    apply start_stage; [change (sv_pc s = Loop); congruence|change (state (sv_test s) = CREATE_STREAMS); congruence|].
    intros now s2 ms Es.
    assert (Es' : start_when_complete now s = (s2, ms)).
    { rewrite <- Es. exact (f_equal (start_when_complete now) (eq_sym (server_of_with s y))). }
    change (at_run p t s2 (inbox l) (tc ++ (snt l ++ ms)) rest). rewrite app_assoc. unfold runs in H. rewrite Ec in H.
    apply (at_run_step _ _ _ _ _ _ _ _ _ _ _ _ 0 H). intros n. apply rtc_once.
    eapply (server_stream e now fd); [exact Hp|exact Ht|done|].
    unfold server_accept_stream. rewrite E. cbn [obind]. rewrite then_start_loop by congruence. by rewrite Es'.
  - apply start_stage; [done|done|]. intros now s2 ms Es. unfold start_when_complete in Es.
    destruct (runs_in_loop _ _ H (or_intror Hp)) as [_ _ _ Hcr _ _]. specialize (Hcr Ht).
    rewrite <- andb_assoc, Hcr, andb_false_r in Es. injection Es as <- <-. rewrite app_nil_r. by destruct l.
Qed.

(** *** Messages *)

Lemma turn_of_handle now stats s m s1 out : sv_pc s = Loop ->
  iperf_handle_message_server stats s (Msg m) = Ok (s1, out) ->
  server_turn' e now stats s (Msg m) = Ok (match sv_pc s1 with Loop => settled s1 | _ => s1 end, out).
Proof.
  intros Hp E. unfold Protocol.server_turn', server_turn. rewrite Hp, E. cbn [obind]. unfold settled.
  by destruct (sv_pc s1), (state (sv_test s1) =? IPERF_DONE).
Qed.

Lemma handle_stats stats s m : m <> MState TEST_END ->
  iperf_handle_message_server stats s (Msg m) = iperf_handle_message_server id s (Msg m).
Proof.
  intros Hm. destruct m as [|z| |]; try done. cbn [iperf_handle_message_server].
  destruct (z =? TEST_START); [done|]. by destruct (Z.eqb_spec z TEST_END) as [->|].
Qed.

Lemma message_protocol (now : iperf_time) stats s m s1 out ts tcx cs n :
  (forall x, same_control x (stats x)) -> sv_pc s = Loop ->
  iperf_handle_message_server stats s (Msg m) = Ok (s1, out) -> (sv_pc s1 = WaitResults -> results_sendable (sv_test s1)) ->
  step e (mk_system p t s (m :: ts) tcx cs n)
    (mk_system p t (match sv_pc s1 with Loop => settled s1 | _ => s1 end) ts (tcx ++ out) cs n).
Proof.
  intros Hs Hp E Hr.
  destruct (match m with MState z => z =? TEST_END | _ => false end) eqn:Em.
  - destruct m as [|z| |]; try done. apply Z.eqb_eq in Em as ->.
    apply (server_end e now stats); [done| |by apply turn_of_handle].
    split; [apply Hs|]. cbn [iperf_handle_message_server Z.eqb Pos.eqb] in E. injection E as <- _.
    by apply (sendable_ext (sv_test (sv_set WaitResults ((drop_streams (stats ((sv_test s) {{ state := TEST_END; done_ := true }})))
      {{ state := EXCHANGE_RESULTS }}) s))); try done; apply Hr.
  - assert (Hm : m <> MState TEST_END) by (intros ->; done).
    apply (server_msg e now); [rewrite Hp; set_solver|done|]. apply turn_of_handle; [done|]. by rewrite <- (handle_stats stats).
Qed.

Abbreviation server_message := (server_message snd_fn rcv_fn clock getfl setfl cpu accept announce malloc stats_callback junk).

(** The results of a test that has ended are in range. *)
Definition in_range (y : server_loop) : Prop := l_pc y = WaitResults -> results_sendable (l_test y).

Lemma message_stage y l y' l' :
  l_pc y = Loop -> l_ending y = false -> runs (server_of y) l -> in_range y' -> server_message y l = Ok (SGoes y' l') -> good y' l'.
Proof.
  intros Hp Hn H Hr. unfold ServerLoop.server_message.
  destruct (fd_isset _ _) as [[|]| |]; cbn [obind]; [|..|done|done].
  2:{ apply streams_stage; [done|]. rewrite settled_id; [done|]. apply (runs_in_loop _ _ H). by right. }
  destruct (inbox l) as [|m rest] eqn:Ei; [done|]. destruct (cpu (l_world y)) as [fig w]. destruct (clock w) as [now w'].
  set (stats := fun x : iperf_test => _). destruct (iperf_handle_message_server _ _ _) as [[s out]| |] eqn:E; cbn [obind]; [|done|done].
  cbv zeta. set (y1 := with_server s _). set (l1 := l {{ snt := _; inbox := rest }}).
  assert (Hgo : (sv_pc s = WaitResults -> results_sendable (sv_test s)) ->
    runs (match sv_pc s with Loop => settled s | _ => s end) l1).
  { intros Hs. change (at_run p t (match sv_pc s with Loop => settled s | _ => s end) rest (tc ++ (snt l ++ out)) (calls l)).
    rewrite app_assoc. unfold runs in H. rewrite Ei in H.
    apply (at_run_step _ _ _ _ _ _ _ _ _ _ _ _ 0 H). intros n. apply rtc_once.
    apply (message_protocol now stats); [|done|done|done]. intros x.
    exact (transitivity (cpu_same_control x fig) (stats_same now _)). }
  assert (Ey : server_of y1 = s) by apply server_of_with.
  assert (Hsus : sv_pc s <> Loop -> in_range y1 -> good y1 l1).
  { intros Hl Hi. split; [|by change (l_ending y1) with (l_ending y); rewrite Hn].
    unfold seen. change (l_ending y1) with (l_ending y). rewrite Hn, Ey.
    specialize (Hgo Hi). by destruct (sv_pc s). }
  destruct (sv_pc s) eqn:Es; intros H1; try done; try (apply SGoes_inj in H1 as [<- <-]; by apply Hsus).
  revert H1. apply streams_stage; [exact Es|]. change (server_of (fd_clr _ y1)) with (server_of y1). rewrite Ey.
  by apply Hgo.
Qed.


(** *** A new client *)

Abbreviation server_accept := (server_accept snd_fn rcv_fn clock getfl setfl cpu accept announce deny malloc stats_callback junk).

Lemma recount y : in_loop (server_of y) -> l_pc y = Loop ->
  forall rec snd, expected_streams (l_test y) = (rec, snd) -> l_to_rec y = rec /\ l_to_send y = snd.
Proof. intros [_ _ _ _ He' _] Hp rec snd E. specialize (He' Hp). cbn in He'. rewrite E in He'. by injection He' as <- <-. Qed.

Lemma accept_stage y l y' l' :
  l_pc y = Listen \/ l_pc y = Loop -> l_ending y = false -> runs (server_of y) l -> in_range y' ->
  server_accept y l = Ok (SGoes y' l') -> good y' l'.
Proof.
  intros Hp Hn H Hr. pose proof (runs_in_loop _ _ H Hp) as Hi. unfold ServerLoop.server_accept.
  destruct (accept (l_world y)) as [fd w]. cbv zeta. change (ctrl_sck (l_test (y {{ l_world := w }}))) with (ctrl_sck (l_test y)).
  change (server_of (y {{ l_world := w }})) with (server_of y).
  destruct (Z.eqb_spec (ctrl_sck (l_test y)) (-1)) as [Ec|Ec].
  - apply (il_ctrl _ Hi) in Ec. destruct (inbox l) as [|[ck|z|j|z] rest] eqn:Ei; try done.
    destruct (iperf_accept _ _ _) as [s out] eqn:E.
    destruct (Z.ltb_spec fd 0) as [Hfd|Hfd].
    { unfold iperf_accept in E. rewrite (proj2 (Z.ltb_lt fd 0) Hfd) in E. by injection E as <- <-. }
    intros H1. assert (H2 : y' = with_server s (y {{ l_world := w }}) /\ l' = l {{ snt := snt l ++ out; inbox := rest }}).
    { destruct (sv_pc s); apply SGoes_inj in H1 || discriminate H1; destruct H1; auto. }
    destruct H2 as [-> ->]. split; [|by change (l_ending (with_server _ _)) with (l_ending y); rewrite Hn].
    unfold seen. change (l_ending (with_server _ _)) with (l_ending y). rewrite Hn, server_of_with.
    change (at_run p t s rest (tc ++ (snt l ++ out)) (calls l)). rewrite app_assoc. unfold runs in H. rewrite Ei in H.
    apply (at_run_step _ _ _ _ _ _ _ _ _ _ _ _ 0 H). intros n. apply rtc_once. by apply (server_hello e fd).
  - assert (Hl : l_pc y = Loop).
    { destruct Hp as [Hp|Hp]; [|done]. by destruct Ec; apply (il_ctrl _ Hi). }
    unfold iperf_accept. cbn [sv_test server_of]. rewrite (proj2 (Z.eqb_neq _ _) Ec).
    destruct (fd <? 0); [done|]. change (sv_pc (server_of y)) with (l_pc y). rewrite Hl.
    destruct (deny fd _) as [r w1]. cbv zeta. destruct (r <? 0); [done|].
    set (y1 := with_server _ _). change (l_test y1) with (l_test y).
    destruct (expected_streams (l_test y)) as [rec snd] eqn:Ex. destruct (recount y Hi Hl rec snd Ex) as [<- <-].
    apply message_stage; [exact Hl|exact Hn| |done].
    assert (Es : server_of (fd_clr (l_listener y1) (y1 {{ l_to_rec := l_to_rec y; l_to_send := l_to_send y }})) = server_of y) by done.
    by rewrite Es.
Qed.

(** *** The whole pass *)

Abbreviation server_pass := (server_pass snd_fn rcv_fn clock getfl setfl cpu accept announce deny malloc stats_callback junk e).

Lemma take_params_loop s j s1 m :
  take_params (has_tcpinfo_retransmits e) (listen_fd e) (0, 0) s j = Ok (s1, m) ->
  (exists rv, sv_pc s1 = Stop rv) \/
  sv_pc s1 = Loop /\ state (sv_test s1) = CREATE_STREAMS /\ m = [MState CREATE_STREAMS].
Proof.
  unfold take_params. destruct (apply_parameters _ _ _); cbn [obind]; [|done|done].
  destruct (listen_fd e <? 0); [intros [= <- <-]; left; by eexists|]. cbv zeta.
  destruct (negb _); [intros [= <- <-]; left; by eexists|].
  destruct (expected_streams _). intros [= <- <-]. by right.
Qed.

Lemma params_runs y l j rest s1 m :
  l_pc y = WaitParams -> runs (server_of y) l -> inbox l = MJson j :: rest ->
  take_params (has_tcpinfo_retransmits e) (listen_fd e) (0, 0) (server_of y) j = Ok (s1, m) -> sv_pc s1 = Loop ->
  runs s1 (l {{ snt := snt l ++ m; inbox := rest }}).
Proof.
  intros Hp H Ei E Hl.
  assert (Hturn : server_turn' e some_time id (server_of y) (Msg (MJson j)) = Ok (s1, m)).
  { destruct (at_run_phase _ _ _ _ _ _ H) as (i & n & Hph). rewrite Ei in Hph.
    destruct (take_params_loop _ _ _ _ E) as [[rv Es]|(_ & Est & ->)]; [congruence|].
    assert (Hsp : exists fd rs, 0 <= fd /\ j = msg c /\
      server_of y = mk_server WaitParams (with_session fd (cookie c) rs ∅ PARAM_EXCHANGE base) 0 0 0 0).
    { assert (Epc : sv_pc (server_of y) = WaitParams) by exact Hp. clear - Hph Epc.
      remember (server_of y) as s eqn:Es. clear Es.
      inversion Hph; subst; try discriminate Epc; by eauto 6. }
    destruct Hsp as (fd & rs & Hfd & -> & Es). rewrite Es in *.
    destruct (turn_server_params e base c He Hbase Hc some_time fd rs Hfd) as (ts & Et & _). rewrite Et. f_equal. symmetry.
    unfold Protocol.server_turn', server_turn in Et. cbn [sv_pc] in Et. unfold server_params in Et. rewrite E in Et.
    cbn [obind] in Et. rewrite then_start_loop in Et by done. unfold start_when_complete in Et.
    destruct (_ && _ && _); cbn [obind] in Et.
    - destruct (sv_pc _); [..|discriminate Et| | | | ]; try discriminate Et; destruct (state _ =? _); discriminate Et.
    - rewrite Hl, Est in Et. by injection Et as <-. }
  change (at_run p t s1 rest (tc ++ (snt l ++ m)) (calls l)). rewrite app_assoc. unfold runs in H. rewrite Ei in H.
  apply (at_run_step _ _ _ _ _ _ _ _ _ _ _ _ 0 H). intros n. apply rtc_once.
  apply (server_msg e some_time); [cbn; rewrite Hp; set_solver|done|done].
Qed.

Lemma results_runs y l j rest s1 out :
  l_pc y = WaitResults -> runs (server_of y) l -> inbox l = MJson j :: rest ->
  server_results (json_output e) (json_top e) (output_list e) (server_of y) j = Ok (s1, out) ->
  (exists rv, sv_pc s1 = Stop rv) \/ sv_pc s1 = Loop /\ runs (settled s1) (l {{ snt := snt l ++ out; inbox := rest }}).
Proof.
  intros Hp H Ei E. destruct (sv_pc s1) eqn:Es; try (by left; eexists).
  all: try (exfalso; unfold server_results in E; destruct (apply_results _ _) as [[[[rc er] t1] x]| |]; cbn [obind] in E; [|done|done];
    destruct (rc <? 0); [by injection E as <- _|]; destruct (results _ _ _ _); cbn [obind] in E; [|done|done]; by injection E as <- _).
  right. split; [done|].
  change (at_run p t (settled s1) rest (tc ++ (snt l ++ out)) (calls l)). rewrite app_assoc. unfold runs in H. rewrite Ei in H.
  apply (at_run_step _ _ _ _ _ _ _ _ _ _ _ _ 0 H). intros n. apply rtc_once.
  apply (server_msg e some_time); [cbn; rewrite Hp; set_solver|done|].
  unfold Protocol.server_turn', server_turn. change (sv_pc (server_of y)) with (l_pc y). rewrite Hp, E. cbn [obind]. rewrite Es.
  unfold settled. by destruct (state (sv_test s1) =? IPERF_DONE).
Qed.

Lemma pass_good io y l y' l' :
  l_ending y = false -> runs (server_of y) l -> in_range y' -> server_pass io l y = Ok (SGoes y' l') -> good y' l'.
Proof.
  intros Hn H Hr. unfold ServerLoop.server_pass.
  assert (Htop : l_pc y = Listen \/ l_pc y = Loop -> forall w z, 
    let y1 := y {{ l_wake := io; l_zero := z; l_world := w }} in
    (if (sel_result io <? 0) && negb (sel_eintr io) then Ok (SFails y1)
     else if 0 <? sel_result io
     then let! ready := fd_isset (l_listener y1) (sel_read io) in
       if ready && negb (state (l_test y1) =? CREATE_STREAMS) then server_accept y1 l else server_message y1 l
     else Ok (SGoes (y1 {{ l_ending := true }}) l)) = Ok (SGoes y' l') -> good y' l').
  { intros Hp w z y1. destruct (_ && _); [done|]. destruct (0 <? sel_result io).
    - destruct (fd_isset _ _) as [rd| |]; cbn [obind]; [|done|done].
      destruct (rd && _); [by apply accept_stage|]. destruct Hp as [Hp|Hp]; [|by apply message_stage].
      unfold ServerLoop.server_message. change (ctrl_sck (l_test y1)) with (ctrl_sck (l_test y)).
      pose proof (runs_in_loop _ _ H (or_introl Hp)) as Hi. rewrite (proj2 (il_ctrl _ Hi) Hp : ctrl_sck (l_test y) = -1). done.
    - intros [<- <-]%SGoes_inj. split; [|by intros _]. unfold seen. change (l_ending (y1 {{ l_ending := true }})) with true.
      change (server_of (y1 {{ l_ending := true }})) with (server_of y). rewrite settled_id; [done|].
      by apply (runs_in_loop _ _ H). }
  destruct (l_pc y) eqn:Hp; try done.
  - destruct (clock (l_world y)) as [now w]. destruct (tmr_timeout _ _); cbn [obind]; [|done|done]. apply Htop. auto.
  - destruct (clock (l_world y)) as [now w]. destruct (tmr_timeout _ _); cbn [obind]; [|done|done]. apply Htop. auto.
  - destruct (inbox l) as [|[ck|z|j|z] rest] eqn:Ei; try done.
    destruct (take_params _ _ _ _ _) as [[s1 m]| |] eqn:E; cbn [obind]; [|done|done]. cbv zeta.
    destruct (take_params_loop _ _ _ _ E) as [[rv Es]|(Es & _ & _)]; rewrite Es; [done|].
    apply message_stage; [exact Es|exact Hn| |done].
    change (server_of (fd_clr _ ?z)) with (server_of z). rewrite server_of_with. by eapply params_runs.
  - destruct (inbox l) as [|[ck|z|j|z] rest] eqn:Ei; try done.
    destruct (server_results _ _ _ _ _) as [[s1 out]| |] eqn:E; cbn [obind]; [|done|done]. cbv zeta.
    destruct (results_runs y l j rest s1 out Hp H Ei E) as [[rv Es]|[Es Hs]]; rewrite Es; [done|].
    apply streams_stage; [exact Es|]. change (server_of (fd_clr _ ?z)) with (server_of z). by rewrite server_of_with.
Qed.

End Stages.

(** ** The end of a pass *)

(** A running server goes on with the same streams and without a message. *)
Record moves (x x' : iperf_test) : Prop := {
  mv_state : state x' = state x;
  mv_ids : map identity (streams x') = map identity (streams x);
  mv_steps : exists k, forall p t s ts tc cs n, sv_pc s = Loop -> sv_test s = x ->
    rtc (step e) (mk_system p t s ts tc cs (k + n)) (mk_system p t (sv_set Loop x' s) ts tc cs n) }.

#[local] Instance moves_preorder : PreOrder moves.
Proof.
  split.
  - intros x. constructor; [done|done|]. exists 0%nat. intros p t s ts tc cs n Hp Hx.
    replace (sv_set Loop x s) with s; [apply rtc_refl|]. subst x. rewrite <- Hp. by destruct s.
  - intros a b d [S1 I1 [k1 H1]] [S2 I2 [k2 H2]]. constructor; [congruence|congruence|].
    exists (k1 + k2)%nat. intros p t s ts tc cs n Hp Hx. rewrite <- Nat.add_assoc.
    etransitivity; [by apply H1|]. by apply (H2 p t (sv_set Loop b s)).
Qed.

Lemma moves_data x x' : state x = TEST_RUNNING -> same_control x x' -> moves x x'.
Proof.
  intros Hx H. constructor; [by rewrite (proj1 H)|apply H|]. exists 1%nat. intros p t s ts tc cs n Hp <-.
  apply rtc_once. by apply Protocol.server_data.
Qed.

Lemma moves_omit x now :
  state x = TEST_RUNNING -> moves x (iperf_reset_stats (x {{ omitting := false }}) now tcp).
Proof.
  intros Hx. change (iperf_reset_stats (x {{ omitting := false }}) now tcp)
    with ((iperf_reset_stats x now tcp) {{ omitting := false }}).
  destruct (omitting x) eqn:Eo.
  - constructor; [done|exact (map_map _ _ _)|]. exists 0%nat. intros p t s ts tc cs n Hp <-. apply rtc_once. by apply server_omit.
  - apply moves_data; [done|]. etransitivity; [apply reset_same_control|].
    split; [|done]. destruct x; cbn in Eo; by subst.
Qed.

(** The timers move the test on or free its streams. *)
Definition timed (s s' : session) : Prop := moves (s_test s) (s_test s') \/ streams (s_test s') = [].

#[local] Instance timed_preorder : PreOrder timed.
Proof.
  split; [intros s; left; reflexivity|]. intros a b d [H1|H1] [H2|H2]; try (by right); [left; by etransitivity|].
  right. pose proof (mv_ids _ _ H2) as E. rewrite H1 in E. by apply map_eq_nil in E.
Qed.

Definition running_ok (s : session) : Prop := state (s_test s) = TEST_RUNNING /\ ids_ok (s_test s).

Lemma timed_ok s s' : running_ok s -> moves (s_test s) (s_test s') -> timed s s' /\ running_ok s'.
Proof.
  intros [H1 H2] H. split; [by left|]. split; [by rewrite (mv_state _ _ H)|]. exact (ids_ok_same _ _ (mv_ids _ _ H) H2).
Qed.

Lemma dispatch_timed p cd now s st s' st' :
  running_ok s -> server_dispatch stats_callback tcp p cd now s st = Ok (s', st') -> timed s s' /\ running_ok s'.
Proof.
  intros Hs. pose proof Hs as [Ht Hok]. unfold server_dispatch.
  destruct p as [|[|[|[|[|[|p]]]]]]; cbn [Nat.eqb dispatch]; intros H; [done|..|done].
  - injection H as <- _. unfold client_stats_timer_proc. destruct (done_ (s_test s)); [split; [reflexivity|done]|].
    apply timed_ok; [done|]. apply moves_data; [done|apply stats_same].
  - injection H as <- _. unfold client_reporter_timer_proc. destruct (done_ (s_test s)); by apply timed_ok.
  - unfold client_omit_timer_proc in H. cbv zeta in H.
    destruct (reset_timer _ _ _) as [st1| |]; cbn [obind] in H; [|done|done].
    destruct (reset_timer _ _ st1) as [st2| |]; cbn [obind] in H; [|done|done]. injection H as <- _.
    apply timed_ok; [done|]. by apply moves_omit.
  - destruct (send_timer_proc _ _ _) as [s1| |] eqn:E; cbn [obind] in H; [|done|done]. injection H as <- _.
    apply timed_ok; [done|]. apply moves_data; [done|by eapply send_timer_same].
  - unfold server_timer_proc in H. cbv zeta in H.
    change (done_ (s_test (s {{ timer := None }}))) with (done_ (s_test s)) in H.
    destruct (done_ (s_test s)); [injection H as <- _; by apply timed_ok|].
    destruct (free_streams _ _ _); cbn [obind] in H; [|done|done]. injection H as <- _. split; [by right|].
    split; [done|]. intros i sp. done.
Qed.

Lemma timers_timed n now s st s' st' :
  running_ok s -> tmr_run (server_dispatch stats_callback tcp) n now s st = Ok (s', st') -> timed s s'.
Proof.
  intros Hs H. eapply (tmr_run_rel (server_dispatch stats_callback tcp) running_ok timed now); [|exact Hs|exact H].
  intros p cd v st0 v' st0' Hv Hd. by eapply dispatch_timed.
Qed.

Abbreviation end_of_pass := (end_of_pass clock stats_callback tcp fuel).

Lemma end_good p t tc l y y' :
  l_ending y = true -> good p t tc y l -> end_of_pass y = Ok y' ->
  (state (l_test y) = TEST_RUNNING -> streams (l_test y') <> []) ->
  (state (l_test y) <> TEST_RUNNING -> l_test y' = l_test y) -> good p t tc y' l.
Proof.
  intros Hn [H Hp] E Hstr Hsame. specialize (Hp Hn). unfold seen in H. rewrite Hn in H. unfold ServerLoop.end_of_pass in E.
  assert (Hy1 : exists y1, l_pc y1 = l_pc y /\ l_rec y1 = l_rec y /\ l_send y1 = l_send y /\ l_to_rec y1 = l_to_rec y /\
    l_to_send y1 = l_to_send y /\ l_ending y1 = false /\
    y' = (if state (l_test y1) =? IPERF_DONE then y1 {{ l_pc := Stop 0 }} else y1) /\
    (running_ok (l_session y) -> timed (l_session y) (l_session y1))).
  { destruct (_ || _).
    - destruct (clock (l_world y)) as [now w]. destruct (tmr_run _ _ _ _ _) as [[s st]| |] eqn:Et; cbn [obind] in E; [|done|done].
      injection E as <-. exists (y {{ l_session := s; l_timers := st; l_world := w; l_ending := false }}).
      do 6 (split; [done|]). split; [done|]. intros Hr. by eapply timers_timed.
    - cbn [obind] in E. injection E as <-. exists (y {{ l_ending := false }}). do 7 (split; [done|]). intros _. reflexivity. }
  destruct Hy1 as (y1 & P1 & P2 & P3 & P4 & P5 & Pe & -> & Ht). clear E.
  set (y2 := if state (l_test y1) =? IPERF_DONE then _ else _) in *.
  assert (Ee : l_ending y2 = false) by (unfold y2; by destruct (_ =? _)).
  assert (E1 : l_test y2 = l_test y1) by (unfold y2; by destruct (_ =? _)).
  split; [|by rewrite Ee]. unfold seen. rewrite Ee.
  destruct (Z.eq_dec (state (l_test y)) TEST_RUNNING) as [Hs|Hs].
  - rewrite settled_id in H by (cbn; rewrite Hs; discriminate). pose proof (runs_in_loop _ _ _ _ _ H Hp) as Hi.
    destruct (il_running _ Hi Hs) as [Hok Hne].
    assert (Hl : l_pc y = Loop). { destruct Hp as [Hp|Hp]; [|done]. apply (il_listen _ Hi) in Hp. cbn in Hp. congruence. }
    destruct (Ht (conj Hs Hok)) as [[M1 M2 [k M3]]|M].
    + assert (Es : server_of y2 = sv_set Loop (l_test y1) (server_of y)).
      { unfold y2. change (s_test (l_session y1)) with (l_test y1) in M1. change (s_test (l_session y)) with (l_test y) in M1.
        rewrite M1, Hs. cbn [Z.eqb Pos.eqb]. unfold server_of, sv_set. cbn [rec_streams_accepted send_streams_accepted streams_to_rec streams_to_send].
        by rewrite P1, P2, P3, P4, P5, Hl. }
      rewrite Es. apply (at_run_step _ _ _ _ _ _ _ _ _ _ _ _ k H). intros n. by apply M3.
    + destruct (Hstr Hs). by rewrite E1.
  - specialize (Hsame Hs). rewrite E1 in Hsame.
    assert (Es : server_of y2 = settled (server_of y)); [|by rewrite Es].
    unfold y2, settled. rewrite Hsame. cbn [sv_test server_of].
    destruct (state (l_test y) =? IPERF_DONE); unfold server_of, sv_set.
    + cbn [rec_streams_accepted send_streams_accepted streams_to_rec streams_to_send]. rewrite <- Hsame, <- P2, <- P3, <- P4, <- P5. done.
    + by rewrite P1, P2, P3, P4, P5, Hsame.
Qed.

(** ** Runs of both loops *)

Record config2 := mk_config2
  { g_client : client (W := W);
    g_server : server_loop;
    g_to_server : list cmsg;
    g_to_client : list cmsg;
    g_conns : list bytes }.

Abbreviation client_pass := (client_pass snd_fn rcv_fn clock getfl setfl cpu malloc stats_callback tcp fuel junk e).
Abbreviation server_pass := (server_pass snd_fn rcv_fn clock getfl setfl cpu accept announce deny malloc stats_callback junk e).

Inductive loops : config2 -> config2 -> Prop :=
(** a pass of the client *)
| loops_client io x y ts tc cs x' out dl rest :
    client_pass io tc x = Ok (Goes x' out dl rest) ->
    (state (c_test x') = TEST_END -> results_sendable (c_test x')) ->
    loops (mk_config2 x y ts tc cs) (mk_config2 x' y (ts ++ out) rest (cs ++ dl))
(** a pass of the server up to its timers *)
| loops_server io x y ts tc cs y' l :
    l_ending y = false -> server_pass io (mk_link [] ts cs) y = Ok (SGoes y' l) -> in_range y' ->
    loops (mk_config2 x y ts tc cs) (mk_config2 x y' (inbox l) (tc ++ snt l) (calls l))
(** the end of the pass; the timer for a client that went away does not free
    the streams, and no timer changes a test that is not running *)
| loops_end x y ts tc cs y' :
    l_ending y = true -> end_of_pass y = Ok y' ->
    (state (l_test y) = TEST_RUNNING -> streams (l_test y') <> []) ->
    (state (l_test y) <> TEST_RUNNING -> l_test y' = l_test y) ->
    loops (mk_config2 x y ts tc cs) (mk_config2 x y' ts tc cs).

Definition seen_system (g : config2) : nat -> system :=
  mk_system (c_pc (g_client g)) (c_test (g_client g)) (seen (g_server g)) (g_to_server g) (g_to_client g) (g_conns g).

Definition first_config2 (x : client) (y : server_loop) : config2 := mk_config2 x y [MCookie (cookie c)] [] [].

Definition loops_inv (g : config2) : Prop :=
  at_run (c_pc (g_client g)) (c_test (g_client g)) (seen (g_server g)) (g_to_server g) (g_to_client g) (g_conns g) /\
  (l_ending (g_server g) = true -> l_pc (g_server g) = Listen \/ l_pc (g_server g) = Loop).

Lemma loops_keep g g' : loops_inv g -> loops g g' -> loops_inv g'.
Proof.
  intros [H Hp] Hs. destruct Hs as [io x y ts tc cs x' out dl rest Hc' Hr|io x y ts tc cs y' l Hn Hs Hr|x y ts tc cs y' Hn Hs H1 H2];
    cbn [g_client g_server g_to_server g_to_client g_conns] in *.
  - split; [|done]. exact (pass_reached snd_fn rcv_fn clock getfl setfl cpu malloc stats_callback tcp fuel junk e
      stats_same base c He Hbase Hc io x (seen y) ts tc cs x' out dl rest H Hr Hc').
  - unfold seen in H. rewrite Hn in H.
    eapply (pass_good (c_pc x) (c_test x) tc io y (mk_link [] ts cs)); [done| |done|exact Hs].
    unfold runs. cbn [inbox snt calls]. by rewrite app_nil_r.
  - assert (Hg : good (c_pc x) (c_test x) tc y (mk_link [] ts cs)).
    { split; [|done]. unfold runs. cbn [inbox snt calls]. by rewrite app_nil_r. }
    destruct (end_good _ _ _ _ _ _ Hn Hg Hs H1 H2) as [Hg' Hp']. split; [|done].
    unfold runs in Hg'. cbn [inbox snt calls] in Hg'. by rewrite app_nil_r in Hg'.
Qed.


End Loops.

(** ** A client that goes away while it is refused

    A server that runs a test returns an error, and ends the test, when another
    client connects and its connection breaks before ACCESS_DENIED is written. *)
Theorem refused_client_ends_test {W} snd_fn rcv_fn (clock : W -> iperf_time * W) getfl setfl cpu accept announce deny malloc
    stats junk e io l (y : server_loop) :
  l_pc y = Loop -> state (l_test y) = TEST_RUNNING -> ctrl_sck (l_test y) <> -1 -> 0 < sel_result io ->
  0 <= l_listener y -> l_listener y ∈ sel_read io -> (exists tmo, tmr_timeout (l_timers y) (fst (clock (l_world y))) = Ok tmo) ->
  (forall w, 0 <= fst (accept w)) -> (forall fd w, fst (deny fd w) < 0) ->
  exists y', server_pass snd_fn rcv_fn clock getfl setfl cpu accept announce deny malloc stats junk e io l y = Ok (SFails y').
Proof.
  intros Hp Ht Hc Hs Hl Hin [tmo Htm] Hacc Hden. unfold server_pass. rewrite Hp. destruct (clock (l_world y)) as [now w].
  cbn [fst] in Htm. rewrite Htm. cbn [obind]. set (y1 := y {{ l_wake := io; l_zero := _; l_world := w }}).
  destruct (Z.ltb_spec (sel_result io) 0); [lia|]. cbn [andb]. destruct (Z.ltb_spec 0 (sel_result io)); [|lia].
  unfold fd_isset. change (l_listener y1) with (l_listener y). destruct (Z.ltb_spec (l_listener y) 0); [lia|]. cbn [obind].
  rewrite bool_decide_true by done. change (l_test y1) with (l_test y). rewrite Ht. cbn [andb negb Z.eqb Pos.eqb].
  unfold server_accept. specialize (Hacc (l_world y1)). destruct (accept (l_world y1)) as [fd w1]. cbn [fst] in Hacc.
  cbv zeta. change (l_test (y1 {{ l_world := w1 }})) with (l_test y). rewrite (proj2 (Z.eqb_neq _ _) Hc).
  unfold iperf_accept. destruct (Z.ltb_spec fd 0); [lia|]. change (sv_test (server_of _)) with (l_test y).
  rewrite (proj2 (Z.eqb_neq _ _) Hc). change (sv_pc (server_of _)) with (l_pc y). rewrite Hp.
  specialize (Hden fd (l_world (y1 {{ l_world := w1 }}))). destruct (deny fd _) as [r w2]. cbn [fst] in Hden.
  destruct (Z.ltb_spec r 0); [by eexists|lia].
Qed.

(** ** A whole test *)

(** The server of the client of ClientLoop.v: it listens on socket 7, takes the
    control connection as socket 8 and the stream as socket 5. *)
Definition demo_accept (w : fds) : Z * fds :=
  if bool_decide (is_Some (w !! 8)) then (5, w) else (8, <[8 := mksock [] [] [] []]> w).

Definition demo_server : server_loop :=
  mk_loop Listen (mk_session ((fresh_server true) {{ state := IPERF_START }}) (d_of_Z 1) (d_of_Z 1) None None None None ∅ 0)
    tmr_init 7 0 0 0 0 (mk_wakeup 0 false ∅ ∅) false false (∅ : fds).

Abbreviation demo_loops :=
  (loops (iperf_tcp_send false (fun _ => repeat 1 4)) (iperf_tcp_recv (fun _ => repeat 1 4)) demo_clock
    (fun _ w => (0, w)) (fun _ _ w => (0, w)) (fun w => ((d0, d0, d0), w)) demo_accept (fun w => (7, w)) (fun _ w => (1, w))
    (fun h => Some (fresh (dom h))) demo_stats some_info 10%nat (mk_time 0 0) sample_env).

Ltac sendable_now :=
  intros _; constructor; [repeat constructor; vm_compute; reflexivity|vm_compute; split; congruence|done|];
  constructor; [|constructor]; constructor;
    [repeat constructor; vm_compute; congruence|vm_compute; split; congruence|repeat constructor; vm_compute; reflexivity].
Ltac client_turn_now io :=
  eapply rtc_l; [eapply (loops_client _ _ _ _ _ _ _ _ _ _ _ _ _ _ _ io);
    [vm_compute; reflexivity|first [vm_compute; discriminate|sendable_now]]|].
Ltac server_turn_now io :=
  eapply rtc_l; [eapply (loops_server _ _ _ _ _ _ _ _ _ _ _ _ _ _ _ io);
    [reflexivity|vm_compute; reflexivity|first [intros H; vm_compute in H; discriminate H|sendable_now]]|];
  cbn [inbox snt calls app].
Ltac server_ends :=
  eapply rtc_l; [eapply loops_end; [reflexivity|vm_compute; reflexivity|vm_compute; discriminate|intros _; vm_compute; reflexivity]|].

Lemma demo_test_runs : exists g, rtc demo_loops (first_config2 demo_test demo_client demo_server) g /\
  c_pc (g_client g) = Stop 0 /\ l_pc (g_server g) = Stop 0.
Proof.
  eexists. split.
  { unfold first_config2.
    server_turn_now (mk_wakeup 1 false {[ 7 ]} ∅).
    client_turn_now (mk_wakeup 1 false {[ 9 ]} ∅).
    server_turn_now (mk_wakeup 1 false {[ 7 ]} ∅). server_ends.
    client_turn_now (mk_wakeup 1 false {[ 9 ]} ∅).
    server_turn_now (mk_wakeup 1 false {[ 7 ]} ∅). server_ends.
    client_turn_now (mk_wakeup 1 false {[ 9 ]} ∅).
    client_turn_now (mk_wakeup 2 false {[ 9 ]} {[ 3 ]}).
    server_turn_now (mk_wakeup 1 false {[ 8 ]} ∅).
    client_turn_now (mk_wakeup 1 false {[ 9 ]} ∅).
    server_turn_now (mk_wakeup 1 false {[ 8 ]} ∅). server_ends.
    client_turn_now (mk_wakeup 1 false {[ 9 ]} ∅).
    client_turn_now (mk_wakeup 1 false {[ 9 ]} ∅).
    server_turn_now (mk_wakeup 1 false {[ 8 ]} ∅). server_ends.
    apply rtc_refl. }
  by split.
Qed.

