(* ===== verification/Packet.v ===== *)
(** * Packets of the UDP measurement (udprecvlib: packet.cpp, timestamp.cpp)

    The header of a packet is six 64-bit numbers in network byte order; the
    rest is payload.  Parsing throws on a datagram that is too short. *)

From coqutil Require Import Datatypes.RecordSetters.
From S2P Require Import Prelude.
From stdpp Require Import base numbers gmap list.
Import DoubleBraceUpdate.

Open Scope Z_scope.
Open Scope c_scope.

(** ** Numbers in network byte order *)

Fixpoint be_bytes (k : nat) (x : Z) : bytes :=
  match k with
  | O => []
  | S k => u8 (Z.shiftr x (8 * Z.of_nat k)) :: be_bytes k x
  end.

Definition be_value (l : bytes) : Z := foldl (fun a c => Z.shiftl a 8 + c) 0 l.

(** What C++ code may do besides returning: throw, end its thread, wait for
    ever, or run into undefined behaviour. *)
Inductive cpp (A : Type) : Type :=
| Value (a : A)
| Throws
| ThreadExits
| Waits
| Undefined.
Arguments Value {A} a.
Arguments Throws {A}.
Arguments ThreadExits {A}.
Arguments Waits {A}.
Arguments Undefined {A}.

Definition cbind {A B} (m : cpp A) (k : A -> cpp B) : cpp B :=
  match m with
  | Value a => k a
  | Throws => Throws
  | ThreadExits => ThreadExits
  | Waits => Waits
  | Undefined => Undefined
  end.

Declare Scope cpp_scope.
Notation "'let+' x := m 'in' k" := (cbind m (fun x => k))
  (at level 10, x pattern, m at level 100, k at level 200, format "'[v' 'let+'  x  :=  m  'in' '/' k ']'") : cpp_scope.
Open Scope cpp_scope.

(** ** Headers and packets *)

Record Header := mk_header
  { sequence_number : Z;
    send_timestamp : Z;
    ack_sequence_number : Z;
    ack_send_timestamp : Z;
    ack_recv_timestamp : Z;
    ack_payload_length : Z }.

Record Packet := mk_packet
  { header : Header;
    payload : bytes }.

(** uint64_t(-1) *)
Definition NONE : Z := 2 ^ 64 - 1.

Definition get_header_field (n : nat) (str : bytes) : cpp Z :=
  if (List.length str <? (n + 1) * 8)%nat then Throws
  else Value (be_value (take 8 (drop (n * 8) str))).

Definition put_header_filed (n : Z) : bytes := be_bytes 8 n.

Definition parse_header (str : bytes) : cpp Header :=
  let+ a := get_header_field 0 str in
  let+ b := get_header_field 1 str in
  let+ c := get_header_field 2 str in
  let+ d := get_header_field 3 str in
  let+ e := get_header_field 4 str in
  let+ f := get_header_field 5 str in
  Value (mk_header a b c d e f).

Definition parse_packet (str : bytes) : cpp Packet :=
  let+ h := parse_header str in Value (mk_packet h (drop 48 str)).

Definition header_to_string (h : Header) : bytes :=
  put_header_filed (sequence_number h) ++ put_header_filed (send_timestamp h) ++
  put_header_filed (ack_sequence_number h) ++ put_header_filed (ack_send_timestamp h) ++
  put_header_filed (ack_recv_timestamp h) ++ put_header_filed (ack_payload_length h).

Definition to_string (p : Packet) : bytes := header_to_string (header p) ++ payload p.

Definition new_header (s_sequence_number : Z) : Header := mk_header s_sequence_number NONE NONE NONE NONE NONE.

Definition new_packet (s_sequence_number : Z) (s_payload : bytes) : Packet := mk_packet (new_header s_sequence_number) s_payload.

Definition transform_into_ack (sequence recv_timestamp : Z) (p : Packet) : Packet :=
  let h := header p in
  let h := h {{ ack_sequence_number := sequence_number h }} in
  let h := h {{ sequence_number := sequence }} in
  let h := h {{ ack_send_timestamp := send_timestamp h }} in
  let h := h {{ ack_recv_timestamp := recv_timestamp }} in
  let h := h {{ ack_payload_length := u64 (Z.of_nat (List.length (payload p))) }} in
  mk_packet h [].

Definition is_ack (p : Packet) : bool := negb (ack_sequence_number (header p) =? NONE).

(** ** Timestamps *)

Definition MILLION : Z := 1000000.
Definition BILLION : Z := 1000 * MILLION.

(** A time of day, in nanoseconds: [tv_sec * BILLION + tv_nsec] in uint64_t. *)
Record timespec := mk_timespec
  { tv_sec : Z;
    tv_nsec : Z }.

Definition timestamp_ms_raw (ts : timespec) : Z :=
  let nanos := u64 (u64 (u64 (tv_sec ts) * BILLION) + u64 (tv_nsec ts)) in nanos / MILLION.

(** timestamp_ms(ts), once EPOCH is set. *)
Definition since_epoch (EPOCH : Z) (ts : timespec) : Z := u64 (timestamp_ms_raw ts - EPOCH).

(** ** Facts *)

Lemma be_bytes_length k x : List.length (be_bytes k x) = k.
Proof. induction k as [|k IH]; cbn [be_bytes List.length]; [done|by rewrite IH]. Qed.

Lemma be_bytes_are_bytes k x : Forall is_byte (be_bytes k x).
Proof. induction k as [|k IH]; cbn [be_bytes]; constructor; [unfold is_byte; zlia|done]. Qed.

Lemma be_value_acc l : forall a, foldl (fun a c => Z.shiftl a 8 + c) a l = a * 256 ^ Z.of_nat (List.length l) + be_value l.
Proof.
  unfold be_value. induction l as [|c l IH]; intros a; cbn [foldl List.length]; [lia|].
  rewrite IH, (IH (Z.shiftl 0 8 + c)), !Z.shiftl_mul_pow2 by lia. rewrite Nat2Z.inj_succ, Z.pow_succ_r by lia. nia.
Qed.

Lemma be_value_cons c l : be_value (c :: l) = c * 256 ^ Z.of_nat (List.length l) + be_value l.
Proof. unfold be_value at 1. cbn [foldl]. rewrite be_value_acc, Z.shiftl_0_l. lia. Qed.

Lemma be_value_range l : Forall is_byte l -> 0 <= be_value l < 256 ^ Z.of_nat (List.length l).
Proof.
  induction 1 as [|c l Hc _ IH]; [cbn; lia|]. rewrite be_value_cons. cbn [List.length].
  rewrite Nat2Z.inj_succ, Z.pow_succ_r by lia. unfold is_byte in Hc. nia.
Qed.

Lemma be_value_bytes k x : be_value (be_bytes k x) = x mod 256 ^ Z.of_nat k.
Proof.
  induction k as [|k IH]; [cbn; by rewrite Z.mod_1_r|]. cbn [be_bytes]. rewrite be_value_cons, IH, be_bytes_length.
  rewrite Z.shiftr_div_pow2 by lia. rewrite Z.pow_mul_r by lia. change (2 ^ 8) with 256.
  rewrite Nat2Z.inj_succ, Z.pow_succ_r by lia. unfold u8. change (2 ^ 8) with 256.
  pose proof (Z.pow_pos_nonneg 256 (Z.of_nat k)) as Hp. rewrite (Z.mul_comm 256), Z.rem_mul_r by lia. lia.
Qed.

Lemma byte_of_mod x n M : 0 <= n -> n + 8 <= M -> u8 (Z.shiftr (x mod 2 ^ M) n) = u8 (Z.shiftr x n).
Proof.
  intros Hn HM. unfold u8. apply Z.bits_inj'. intros i Hi. rewrite !Z.testbit_mod_pow2, !Z.shiftr_spec, Z.testbit_mod_pow2 by lia.
  destruct (Z.ltb_spec i 8); [|done]. destruct (Z.ltb_spec (i + n) M); [done|lia].
Qed.

Lemma be_bytes_mod k x m : (k <= m)%nat -> be_bytes k (x mod 256 ^ Z.of_nat m) = be_bytes k x.
Proof.
  induction k as [|k IH]; intros Hk; cbn [be_bytes]; [done|]. rewrite IH by lia. f_equal.
  change 256 with (2 ^ 8). rewrite <- Z.pow_mul_r by lia. apply byte_of_mod; lia.
Qed.

Lemma be_bytes_value l : Forall is_byte l -> be_bytes (List.length l) (be_value l) = l.
Proof.
  induction 1 as [|c l Hc Hl IH]; [done|]. cbn [List.length be_bytes]. pose proof (be_value_range l Hl) as Hr. rewrite be_value_cons. f_equal.
  - rewrite Z.shiftr_div_pow2 by lia. rewrite Z.pow_mul_r by lia. change (2 ^ 8) with 256.
    rewrite Z.div_add_l, Z.div_small, Z.add_0_r by (try apply Z.pow_nonzero; lia). unfold is_byte in Hc. zlia.
  - rewrite <- (be_bytes_mod _ _ (List.length l)) by lia. rewrite Z.add_comm, Z_mod_plus_full, Z.mod_small by done. exact IH.
Qed.

Definition is_header (h : Header) : Prop :=
  is_u64 (sequence_number h) /\ is_u64 (send_timestamp h) /\ is_u64 (ack_sequence_number h) /\
  is_u64 (ack_send_timestamp h) /\ is_u64 (ack_recv_timestamp h) /\ is_u64 (ack_payload_length h).

(** A field at its place. *)
Lemma get_field_at n str pre x post : str = pre ++ put_header_filed x ++ post -> List.length pre = (n * 8)%nat -> is_u64 x ->
  get_header_field n str = Value x.
Proof.
  intros -> Hp Hx. unfold get_header_field, put_header_filed. rewrite !length_app, be_bytes_length, Hp.
  destruct (Nat.ltb_spec (n * 8 + (8 + List.length post)) ((n + 1) * 8)); [lia|].
  rewrite drop_app_length', take_app_length' by (rewrite ?be_bytes_length; lia).
  rewrite be_value_bytes, Z.mod_small; [done|]. unfold is_u64 in Hx. change (256 ^ Z.of_nat 8) with (2 ^ 64). exact Hx.
Qed.

Lemma get_field_short n str : (List.length str < (n + 1) * 8)%nat -> get_header_field n str = Throws.
Proof. intros H. unfold get_header_field. by destruct (Nat.ltb_spec (List.length str) ((n + 1) * 8)); [|lia]. Qed.

Lemma get_field_long n str : ((n + 1) * 8 <= List.length str)%nat ->
  get_header_field n str = Value (be_value (take 8 (drop (n * 8) str))).
Proof. intros H. unfold get_header_field. by destruct (Nat.ltb_spec (List.length str) ((n + 1) * 8)); [lia|]. Qed.

Lemma parse_header_written h post : is_header h -> parse_header (header_to_string h ++ post) = Value h.
Proof.
  intros (H0 & H1 & H2 & H3 & H4 & H5). destruct h as [a b c d e f]. cbn [sequence_number send_timestamp ack_sequence_number
    ack_send_timestamp ack_recv_timestamp ack_payload_length] in *. unfold parse_header, header_to_string. cbn [sequence_number send_timestamp
    ack_sequence_number ack_send_timestamp ack_recv_timestamp ack_payload_length].
  set (A := put_header_filed a). set (B := put_header_filed b). set (C := put_header_filed c). set (D := put_header_filed d).
  set (E := put_header_filed e). set (F := put_header_filed f). rewrite <- !app_assoc.
  rewrite (get_field_at 0 _ [] a (B ++ C ++ D ++ E ++ F ++ post)) by done.
  rewrite (get_field_at 1 _ A b (C ++ D ++ E ++ F ++ post)) by done.
  rewrite (get_field_at 2 _ (A ++ B) c (D ++ E ++ F ++ post)) by (rewrite <- ?app_assoc; done).
  rewrite (get_field_at 3 _ (A ++ B ++ C) d (E ++ F ++ post)) by (rewrite <- ?app_assoc; done).
  rewrite (get_field_at 4 _ (A ++ B ++ C ++ D) e (F ++ post)) by (rewrite <- ?app_assoc; done).
  rewrite (get_field_at 5 _ (A ++ B ++ C ++ D ++ E) f post) by (rewrite <- ?app_assoc; done). done.
Qed.

Lemma header_to_string_length h : List.length (header_to_string h) = 48%nat.
Proof. unfold header_to_string, put_header_filed. by rewrite !length_app, !be_bytes_length. Qed.

Lemma parse_written p : is_header (header p) -> parse_packet (to_string p) = Value p.
Proof.
  intros H. unfold parse_packet, to_string. rewrite parse_header_written by done. cbn [cbind].
  rewrite drop_app_length' by (by rewrite header_to_string_length). by destruct p.
Qed.

Lemma field_back l : Forall is_byte l -> List.length l = 8%nat -> put_header_filed (be_value l) = l.
Proof. intros Hb Hl. unfold put_header_filed. rewrite <- Hl. by apply be_bytes_value. Qed.

(** Six fields and the rest make up a long datagram. *)
Lemma parse_long str : Forall is_byte str -> (48 <= List.length str)%nat ->
  exists p, parse_packet str = Value p /\ to_string p = str /\ is_header (header p).
Proof.
  intros Hb Hl. unfold parse_packet, parse_header. rewrite !get_field_long by lia. cbn [cbind]. eexists. split; [reflexivity|].
  assert (Hf : forall n, (n * 8 + 8 <= List.length str)%nat -> Forall is_byte (take 8 (drop (n * 8) str)) /\
    List.length (take 8 (drop (n * 8) str)) = 8%nat).
  { intros n Hn. split; [by apply Forall_take, Forall_drop|]. rewrite length_take, length_drop. lia. }
  split.
  - unfold to_string, header_to_string. cbn [header payload sequence_number send_timestamp ack_sequence_number ack_send_timestamp
      ack_recv_timestamp ack_payload_length].
    rewrite !field_back by (apply Hf; lia).
    assert (chunk : forall n, drop (n * 8) str = take 8 (drop (n * 8) str) ++ drop (S n * 8) str).
    { intros n. rewrite <- (take_drop 8 (drop (n * 8) str)) at 1. rewrite drop_drop. do 2 f_equal. lia. }
    rewrite <- !app_assoc. symmetry. transitivity (drop (0 * 8) str); [by rewrite drop_0|].
    do 6 (etransitivity; [apply chunk|f_equal]).
  - assert (Hr : forall n, (n * 8 + 8 <= List.length str)%nat -> is_u64 (be_value (take 8 (drop (n * 8) str)))).
    { intros n Hn. destruct (Hf n Hn) as [H1 H2]. pose proof (be_value_range _ H1) as H. rewrite H2 in H. exact H. }
    repeat split; apply Hr; lia.
Qed.

(** ** The theorem *)

(** C28: Packets survive the wire.  A packet with 64-bit fields is parsed back
    from its wire form; a datagram of at least 48 bytes always parses, to a
    packet with that wire form; a shorter one throws. *)
Theorem packet_wire_format :
  (forall p, is_header (header p) -> parse_packet (to_string p) = Value p) /\
  (forall str, Forall is_byte str ->
     if (48 <=? List.length str)%nat
     then exists p, parse_packet str = Value p /\ to_string p = str /\ is_header (header p)
     else parse_packet str = Throws).
Proof.
  split; [exact parse_written|]. intros str Hb. destruct (Nat.leb_spec 48 (List.length str)) as [Hl|Hl]; [by apply parse_long|].
  unfold parse_packet, parse_header.
  repeat (match goal with |- context [get_header_field ?n ?s] =>
    destruct (Nat.ltb_spec (List.length s) ((n + 1) * 8)); [by rewrite (get_field_short n) by done|rewrite (get_field_long n) by lia; cbn [cbind]] end).
  lia.
Qed.
