(* ===== verification/UdpClient.v ===== *)
(** * The UDP measurement client (udprecvlib: client.cpp, the calls of the
    system in packet.cpp and timestamp.cpp)

    A thread of the client runs over a world: a clock that each reading moves
    on by any delay, what the socket delivers, what was sent, and the log.  The
    two threads of an uplink measurement share only the flag SENDER_RUNNING,
    whose values at the reads of the receiver are an argument. *)

From coqutil Require Import Datatypes.RecordSetters.
From Stdlib Require Import SpecFloat String.
From S2P Require Import Prelude.
From S2P Require Import Cdouble.
From S2P Require Import Output.
From S2P Require Import Packet.
From stdpp Require Import base numbers gmap list.
Import DoubleBraceUpdate.

Open Scope Z_scope.
Open Scope cpp_scope.

Abbreviation PKT_PAYLOAD_LEN := 1200.

(** What recvmsg does: a datagram with the kernel's time of arrival (if the
    socket has timestamps) and msg_flags, a timeout, another error. *)
Inductive arrival : Type :=
| Arrives (datagram : bytes) (stamp : option timespec) (flags : Z)
| TimesOut
| Fails.

Record world := mk_world
  { now : Z; (* nanoseconds *)
    readings : nat;
    epoch : option Z; (* EPOCH of timestamp_ms *)
    inbox : list arrival;
    outbox : list bytes;
    log_file : bytes }.

Record received_datagram := mk_received
  { timestamp : Z;
    datagram_payload : bytes }.

Section Client.
(** How long it takes until the n-th reading of the clock, and whether the
    n-th sendto sends the datagram. *)
Variable delay : nat -> Z.
Variable send_ok : nat -> bool.

(** clock_gettime does not fail *)
Definition current_time (w : world) : timespec * world :=
  let t := now w + delay (readings w) in
  (mk_timespec (t / BILLION) (t mod BILLION), w {{ now := t; readings := S (readings w) }}).

Definition timestamp_ms (ts : timespec) (w : world) : Z * world :=
  match epoch w with
  | Some EPOCH => (since_epoch EPOCH ts, w)
  | None =>
      let '(t, w) := current_time w in
      let EPOCH := timestamp_ms_raw t in
      (since_epoch EPOCH ts, w {{ epoch := Some EPOCH }})
  end.

(** timestamp_ms() without an argument *)
Definition timestamp_ms_now (w : world) : Z * world :=
  let '(t, w) := current_time w in timestamp_ms t w.

Definition get_current_timestamp (w : world) : Z * world :=
  let '(t, w) := current_time w in (timestamp_ms_raw t, w).

Definition set_send_timestamp (p : Packet) (w : world) : Packet * world :=
  let '(t, w) := timestamp_ms_now w in (p {{ header -> send_timestamp := t }}, w).

Definition create_packet (seq_num : Z) (w : world) : bytes * world :=
  let packet := new_packet seq_num (repeat 120 (Z.to_nat PKT_PAYLOAD_LEN)) in
  let '(packet, w) := set_send_timestamp packet w in (to_string packet, w).

Definition send_packet (payload : bytes) (w : world) : cpp world :=
  if send_ok (List.length (outbox w)) then Value (w {{ outbox := outbox w ++ [payload] }}) else ThreadExits.

(** After an error other than a timeout the control buffer is searched
    although recvmsg did not fill it. *)
Definition recv_packet (w : world) : cpp (received_datagram * world) :=
  match inbox w with
  | [] => Waits
  | a :: rest =>
      let w := w {{ inbox := rest }} in
      match a with
      | TimesOut => ThreadExits
      | Fails => Undefined
      | Arrives d stamp flags =>
          if flags =? 0 then
            match stamp with
            | Some ts => let '(t, w) := timestamp_ms ts w in Value (mk_received t d, w)
            | None => Value (mk_received NONE d, w)
            end
          else ThreadExits
      end
  end.

(** What the conversion %d prints for a 64-bit argument: the low half, on the
    64-bit ABIs. *)
Definition log_int (v : Z) : bytes := int_text (i32 v).

Definition comma : bytes := [44; 32].

Definition log_line (p : Packet) (recv_time current : Z) : bytes :=
  let h := header p in
  log_int (if is_ack p then 1 else 0) ++ comma ++ log_int (sequence_number h) ++ comma ++
  log_int (send_timestamp h) ++ comma ++ log_int (ack_sequence_number h) ++ comma ++
  log_int (ack_send_timestamp h) ++ comma ++ log_int (ack_recv_timestamp h) ++ comma ++
  log_int recv_time ++ comma ++ log_int (ack_payload_length h) ++ comma ++ log_int current ++ [10].

(** Receiving and logging one packet. *)
Definition receive_and_log (w : world) : cpp (received_datagram * Packet * world) :=
  let+ r := recv_packet w in
  let '(message, w) := r in
  let+ packet := parse_packet (datagram_payload message) in
  let '(current, w) := get_current_timestamp w in
  Value (message, packet, w {{ log_file := log_file w ++ log_line packet (timestamp message) current }}).

(** One more in an int *)
Definition next_int (n : Z) : cpp Z := if n <? INT_MAX then Value (n + 1) else Undefined.

Fixpoint ack_loop (fuel : nat) (client_seq_no : Z) (w : world) : cpp world :=
  match fuel with
  | O => Waits
  | S fuel =>
      let+ r := receive_and_log w in
      let '(message, packet, w) := r in
      if sequence_number (header packet) <=? 0 then Value w
      else
        let packet := transform_into_ack (u64 client_seq_no) (timestamp message) packet in
        let+ client_seq_no := next_int client_seq_no in
        let '(packet, w) := set_send_timestamp packet w in
        let+ w := send_packet (to_string packet) w in
        ack_loop fuel client_seq_no w
  end.

(** Every turn takes a datagram. *)
Definition recv_packets_and_send_ack (w : world) : cpp world := ack_loop (S (List.length (inbox w))) 1 w.

(** The receiver of acks; [running n] is SENDER_RUNNING at its n-th turn. *)
Fixpoint log_loop (running : nat -> bool) (fuel n : nat) (w : world) : cpp world :=
  match fuel with
  | O => Waits
  | S fuel =>
      if running n
      then let+ r := receive_and_log w in log_loop running fuel (S n) (snd r)
      else Value w
  end.

Definition recv_udp_packets (running : nat -> bool) (w : world) : cpp world :=
  log_loop running (S (List.length (inbox w))) 0 w.

(** A burst of [count] packets. *)
Fixpoint send_burst (count : nat) (server_seq_no : Z) (w : world) : cpp (Z * world) :=
  match count with
  | O => Value (server_seq_no, w)
  | S count =>
      let '(message, w) := create_packet (u64 server_seq_no) w in
      let+ next := next_int server_seq_no in
      let+ w := send_packet message w in
      send_burst count next w
  end.

Definition sleep_for (ms : Z) (w : world) : world := w {{ now := now w + ms * MILLION }}.

Section Sender.
Variables milliseconds_to_sleep pkts_to_send duration : Z.

Fixpoint send_loop (fuel : nat) (start_time_ms server_seq_no : Z) (w : world) : cpp (Z * world) :=
  match fuel with
  | O => Waits
  | S fuel =>
      let '(t, w) := timestamp_ms_now w in
      if u64 (t - start_time_ms) <=? duration
      then
        let+ r := send_burst (Z.to_nat pkts_to_send) server_seq_no w in
        let '(server_seq_no, w) := r in
        send_loop fuel start_time_ms server_seq_no (sleep_for milliseconds_to_sleep w)
      else Value (server_seq_no, w)
  end.

Fixpoint send_again (n : nat) (message : bytes) (w : world) : cpp world :=
  match n with
  | O => Value w
  | S n => let+ w := send_packet message w in send_again n message w
  end.

Definition send_udp_packets (fuel : nat) (w : world) : cpp world :=
  let '(start_time_ms, w) := timestamp_ms_now w in
  let+ r := send_loop fuel start_time_ms 1 w in
  let '(_, w) := r in
  let '(message, w) := create_packet 0 w in
  send_again 5 message w.
End Sender.

(** The packets that open the measurement: what arrives is not looked at. *)
Definition take_arrival (w : world) : cpp world :=
  match inbox w with
  | [] => Waits
  | _ :: rest => Value (w {{ inbox := rest }})
  end.

Definition plain_send (d : bytes) (w : world) : world :=
  if send_ok (List.length (outbox w)) then w {{ outbox := outbox w ++ [d] }} else w.

Definition handshake (w : world) : cpp world :=
  let w := plain_send (bytes_of "Test1"%string ++ [10]) w in
  let+ w := take_arrival w in
  let+ w := take_arrival w in
  Value (plain_send (bytes_of "Test2_ACK"%string ++ [10]) w).

(** run_client with downlink, once the socket is open. *)
Definition run_client_downlink (w : world) : cpp world :=
  let+ w := handshake w in recv_packets_and_send_ack w.
End Client.

(** ** The sending rate *)

Definition BITS_PER_BYTE : double := d_of_Z 8.
Definition KILO : double := d_of_Z 1024.
Definition MEGA : double := dmul KILO KILO.
Definition SENDING_RATE_CONST : double := ddiv (ddiv MEGA BITS_PER_BYTE) (dmul (d_of_Z PKT_PAYLOAD_LEN) (d_of_Z 1000)).

(** std::round: half away from zero. *)
Definition round (d : double) : double :=
  match d with
  | S754_finite s m e =>
      if 0 <=? e then d
      else
        let v := (Zpos m + 2 ^ (- e - 1)) / 2 ^ (- e) in
        if v =? 0 then S754_zero s else d_of_Z (if s then - v else v)
  | _ => d
  end.

Definition at_least_1 (d : double) : outcome Z := obind (int_of_double d) (fun n => Ok (Z.max 1 n)).

(** milliseconds_to_sleep and pkts_to_send *)
Definition sending_params (sending_rate_mbps : double) : outcome (Z * Z) :=
  let pkts_per_ms := dmul sending_rate_mbps SENDING_RATE_CONST in
  if dltb sending_rate_mbps (ddiv (d_of_Z 1) SENDING_RATE_CONST)
  then obind (at_least_1 (round (ddiv (d_of_Z 1) pkts_per_ms))) (fun ms => Ok (ms, 1))
  else obind (at_least_1 (round pkts_per_ms)) (fun pkts => Ok (1, pkts)).

Definition duration_ms (time_to_run : Z) : outcome Z := obind (int_of (time_to_run * 1000)) (fun d => Ok (u64 d)).
