(* ===== verification/UdpClientThms.v ===== *)
(** * The UDP measurement: what is acknowledged and what is sent

    For any delays of the clock: every packet that arrives is acknowledged by
    its own number; the sender numbers its packets from 1, keeps to the rate
    and ends with five packets numbered 0; the two together. *)

From coqutil Require Import Datatypes.RecordSetters.
From S2P Require Import Prelude.
From S2P Require Import Cdouble.
From S2P Require Import Output.
From S2P Require Import Packet.
From S2P Require Import UdpClient.
From stdpp Require Import base numbers gmap list.
Import DoubleBraceUpdate.

Open Scope Z_scope.
Open Scope cpp_scope.

(** The time of arrival that recv_packet reports. *)
Definition recv_time (E : Z) (stamp : option timespec) : Z :=
  match stamp with Some ts => since_epoch E ts | None => NONE end.

(** EPOCH is [E] or will be set. *)
Definition agrees (E : Z) (w : world) : Prop := epoch w = None \/ epoch w = Some E.

Definition arrived (d : Packet * option timespec) : arrival := Arrives (to_string (fst d)) (snd d) 0.

(** The acks of packets that arrived, numbered from [k], sent at [times]. *)
Fixpoint acks_for (E k : Z) (ps : list (Packet * option timespec)) (times : list Z) : list Packet :=
  match ps, times with
  | (p, s) :: ps, t :: times =>
      mk_packet (mk_header k t (sequence_number (header p)) (send_timestamp (header p)) (recv_time E s)
        (u64 (Z.of_nat (List.length (payload p))))) [] :: acks_for E (k + 1) ps times
  | _, _ => []
  end.

Fixpoint lines_for (E : Z) (ps : list (Packet * option timespec)) (times : list Z) : bytes :=
  match ps, times with
  | (p, s) :: ps, c :: times => log_line p (recv_time E s) c ++ lines_for E ps times
  | _, _ => []
  end.

(** A data packet sent at [t]. *)
Definition data_packet (k t : Z) : Packet := mk_packet (mk_header k t NONE NONE NONE NONE) (repeat 120 (Z.to_nat 1200)).

Fixpoint data_packets (k : Z) (times : list Z) : list Packet :=
  match times with [] => [] | t :: times => data_packet k t :: data_packets (k + 1) times end.

Section Thms.
Variable delay : nat -> Z.
Variable send_ok : nat -> bool.
Hypothesis Hsend : forall n, send_ok n = true.

(** Only the clock and EPOCH change. *)
Record ticked (w w' : world) : Prop := {
  ti_inbox : inbox w' = inbox w;
  ti_outbox : outbox w' = outbox w;
  ti_log : log_file w' = log_file w;
  ti_epoch : forall E, agrees E w' -> agrees E w }.

Lemma ticked_trans w1 w2 w3 : ticked w1 w2 -> ticked w2 w3 -> ticked w1 w3.
Proof. intros [A1 A2 A3 A4] [B1 B2 B3 B4]. constructor; try congruence. auto. Qed.

Lemma current_time_ticks w : ticked w (snd (current_time delay w)).
Proof. by constructor. Qed.

Lemma timestamp_ms_ok ts w : exists t w', timestamp_ms delay ts w = (t, w') /\ ticked w w' /\
  (forall E, agrees E w' -> t = since_epoch E ts).
Proof.
  unfold timestamp_ms. destruct (epoch w) as [e|] eqn:He.
  - exists (since_epoch e ts), w. split; [done|]. split; [by constructor|]. intros E [?|?]; congruence.
  - destruct (current_time delay w) as [t w1] eqn:Et. pose proof (current_time_ticks w) as H. rewrite Et in H. cbn [snd] in H.
    eexists _, _. split; [reflexivity|]. split.
    + destruct H as [H1 H2 H3 H4]. constructor; try done. intros E HE. left. exact He.
    + intros E [?|[= <-]]; done.
Qed.

Lemma set_send_timestamp_ok p w : exists t w', set_send_timestamp delay p w = (p {{ header -> send_timestamp := t }}, w') /\ ticked w w'.
Proof.
  unfold set_send_timestamp, timestamp_ms_now. destruct (current_time delay w) as [ts w1] eqn:Et.
  pose proof (current_time_ticks w) as H. rewrite Et in H. cbn [snd] in H.
  destruct (timestamp_ms_ok ts w1) as (t & w2 & -> & H2 & _). exists t, w2. split; [done|]. by eapply ticked_trans.
Qed.

(** One packet is received and logged. *)
Lemma receive_ok w p s rest : inbox w = arrived (p, s) :: rest -> is_header (header p) ->
  exists t c w', receive_and_log delay w = Value (mk_received t (to_string p), p, w') /\
    inbox w' = rest /\ outbox w' = outbox w /\ log_file w' = log_file w ++ log_line p t c /\
    forall E, agrees E w' -> agrees E w /\ t = recv_time E s.
Proof.
  intros Hi Hp. unfold receive_and_log, recv_packet. rewrite Hi. cbn [arrived fst snd Z.eqb].
  set (w1 := w {{ inbox := rest }}).
  assert (H : exists t w2, match s with
      | Some ts => let '(t, w) := timestamp_ms delay ts w1 in Value (mk_received t (to_string p), w)
      | None => Value (mk_received NONE (to_string p), w1)
      end = Value (mk_received t (to_string p), w2) /\ ticked w1 w2 /\ forall E, agrees E w2 -> t = recv_time E s).
  { destruct s as [ts|].
    - destruct (timestamp_ms_ok ts w1) as (t & w2 & -> & H1 & H2). by exists t, w2.
    - exists NONE, w1. split; [done|]. split; [by constructor|done]. }
  destruct H as (t & w2 & -> & H2 & Ht). cbn [cbind datagram_payload timestamp]. rewrite (parse_written p Hp). cbn [cbind].
  unfold get_current_timestamp. destruct (current_time delay w2) as [c w3] eqn:Ec.
  pose proof (current_time_ticks w2) as H3. rewrite Ec in H3. cbn [snd] in H3.
  exists t, (timestamp_ms_raw c), (w3 {{ log_file := log_file w3 ++ log_line p t (timestamp_ms_raw c) }}).
  split; [reflexivity|]. destruct H2 as [A1 A2 A3 A4], H3 as [B1 B2 B3 B4].
  split; [exact (eq_trans B1 A1)|]. split; [exact (eq_trans B2 A2)|]. split.
  - change (log_file w3 ++ log_line p t (timestamp_ms_raw c) = log_file w ++ log_line p t (timestamp_ms_raw c)). by rewrite B3, A3.
  - intros E HE. assert (HE2 : agrees E w2) by (apply B4; exact HE). split; [exact (A4 E HE2)|exact (Ht E HE2)].
Qed.

Definition numbered (d : Packet * option timespec) : Prop := is_header (header (fst d)) /\ sequence_number (header (fst d)) <> 0.

Lemma ack_loop_ok ps : forall last rest fuel k w,
  Forall numbered ps -> is_header (header (fst last)) -> sequence_number (header (fst last)) = 0 ->
  inbox w = map arrived ps ++ arrived last :: rest -> (List.length ps < fuel)%nat ->
  0 < k -> k + Z.of_nat (List.length ps) <= INT_MAX ->
  exists w', ack_loop delay send_ok fuel k w = Value w' /\ inbox w' = rest /\
    forall E, agrees E w' -> agrees E w /\ exists times cs,
      List.length times = List.length ps /\ List.length cs = S (List.length ps) /\
      outbox w' = outbox w ++ map to_string (acks_for E k ps times) /\
      log_file w' = log_file w ++ lines_for E (ps ++ [last]) cs.
Proof.
  induction ps as [|[p s] ps IH]; intros [pl sl] rest fuel k w Hps Hh Hz Hi Hf Hk Hm; (destruct fuel as [|fuel]; [cbn in Hf; lia|]);
    cbn [map app] in Hi; cbn [fst] in *; cbn [ack_loop].
  - destruct (receive_ok w pl sl rest Hi Hh) as (t & c & w' & -> & H1 & H2 & H3 & H4). cbn [cbind]. rewrite Hz. cbn [Z.leb Z.compare].
    exists w'. split; [done|]. split; [done|]. intros E HE. destruct (H4 E HE) as [HE' ->]. split; [done|]. exists [], [c].
    cbn [acks_for lines_for app map]. rewrite !app_nil_r. done.
  - inversion Hps as [|? ? [Hp1 Hp2] Hps']; subst. cbn [fst] in Hp1, Hp2.
    destruct (receive_ok w p s _ Hi Hp1) as (t & c & w1 & -> & H1 & H2 & H3 & H4). cbn [cbind timestamp].
    destruct (Z.leb_spec (sequence_number (header p)) 0) as [Hle|_]; [destruct Hp1 as [[Hge _] _]; lia|].
    unfold next_int. cbn [List.length] in *. destruct (Z.ltb_spec k INT_MAX); [|lia]. cbn [cbind].
    destruct (set_send_timestamp_ok (transform_into_ack (u64 k) t p) w1) as (st & w2 & -> & [T1 T2 T3 T4]).
    unfold send_packet. rewrite Hsend. cbn [cbind].
    set (w3 := w2 {{ outbox := outbox w2 ++ _ }}).
    destruct (IH (pl, sl) rest fuel (k + 1) w3) as (w' & -> & Hr & HE); [done|done|done| |lia|lia|lia|].
    { exact (eq_trans T1 H1). }
    exists w'. split; [done|]. split; [done|]. intros E Hag. destruct (HE E Hag) as (HE3 & times & cs & L1 & L2 & E1 & E2).
    destruct (H4 E) as [Hw Ht]; [by apply T4|]. split; [done|]. exists (st :: times), (c :: cs).
    split; [cbn; lia|]. split; [cbn; lia|]. rewrite E1, E2.
    change (outbox w3) with (outbox w2 ++ [to_string ((transform_into_ack (u64 k) t p) {{ header -> send_timestamp := st }})]).
    change (log_file w3) with (log_file w2). rewrite T2, T3, H2, H3, Ht, <- !app_assoc. split; [|done].
    rewrite (u64_small k) by (unfold INT_MAX, is_u64 in *; lia). done.
Qed.

(** ** The sender *)

Variable late : Z.
Hypothesis Hdelay : forall n, 0 <= delay n <= late.

Lemma raw_of_nanos t : 0 <= t < 2 ^ 63 -> timestamp_ms_raw (mk_timespec (t / BILLION) (t mod BILLION)) = t / MILLION.
Proof.
  intros H. unfold timestamp_ms_raw. cbn [tv_sec tv_nsec]. f_equal. pose proof (Z.div_mod t BILLION ltac:(done)) as E.
  pose proof (Z.mod_pos_bound t BILLION ltac:(done)) as B. assert (0 <= t / BILLION) by (apply Z.div_pos; [lia|done]).
  assert (Hq : 0 <= t / BILLION <= t) by (unfold BILLION, MILLION in *; nia).
  unfold is_u64 in *. rewrite (u64_small (t / BILLION)), (u64_small (t mod BILLION)), (u64_small (t / BILLION * BILLION)), u64_small;
    unfold is_u64, BILLION, MILLION in *; lia.
Qed.

(** EPOCH is set once the first timestamp was taken; the clock goes on. *)
Lemma now_timestamp w : 0 <= now w -> now w + late < 2 ^ 63 ->
  exists e t w', timestamp_ms_now delay w = (u64 (t / MILLION - e), w') /\ ticked w w' /\ epoch w' = Some e /\
    now w <= t <= now w + late /\ t <= now w' <= t + (match epoch w with Some _ => 0 | None => late end).
Proof.
  intros H0 H1. unfold timestamp_ms_now, current_time. cbn [fst snd].
  set (t := now w + delay (readings w)). set (w1 := w {{ now := t; readings := S (readings w) }}).
  pose proof (Hdelay (readings w)) as Hd. assert (Ht : 0 <= t < 2 ^ 63) by (unfold t; lia).
  unfold timestamp_ms, since_epoch. rewrite (raw_of_nanos t Ht). change (epoch w1) with (epoch w). destruct (epoch w) as [e|] eqn:He.
  - exists e, t, w1. split; [done|]. split; [by constructor|]. split; [exact He|]. change (now w1) with t. unfold t. lia.
  - unfold current_time. change (now w1) with t. change (readings w1) with (S (readings w)).
    pose proof (Hdelay (S (readings w))) as Hd'. eexists _, t, _. split; [reflexivity|]. split; [constructor; try done; intros E _; by left|].
    split; [reflexivity|]. cbn. unfold constant. unfold t. lia.
Qed.

(** The difference of two timestamps is the time between, wherever EPOCH is. *)
Lemma elapsed t0 t1 e : 0 <= t0 <= t1 -> t1 < 2 ^ 63 -> u64 (u64 (t1 / MILLION - e) - u64 (t0 / MILLION - e)) = t1 / MILLION - t0 / MILLION.
Proof.
  intros H1 H2. assert (t0 / MILLION <= t1 / MILLION) by (apply Z.div_le_mono; [done|lia]).
  assert (0 <= t0 / MILLION) by (apply Z.div_pos; [lia|done]).
  assert (t1 / MILLION <= t1) by (apply Z.div_le_upper_bound; unfold MILLION; lia).
  unfold u64. rewrite <- Zminus_mod. rewrite Z.mod_small; lia.
Qed.

(** A burst, with EPOCH set. *)
Lemma burst_ok count : forall k w, epoch w <> None -> 0 <= now w -> now w + (Z.of_nat count + 1) * late < 2 ^ 63 ->
  0 < k -> k + Z.of_nat count <= INT_MAX ->
  exists times w', send_burst delay send_ok count k w = Value (k + Z.of_nat count, w') /\
    List.length times = count /\ Forall is_u64 times /\ outbox w' = outbox w ++ map to_string (data_packets k times) /\
    epoch w' = epoch w /\ inbox w' = inbox w /\ now w <= now w' <= now w + Z.of_nat count * late.
Proof.
  assert (Hl : 0 <= late) by (specialize (Hdelay O); lia).
  induction count as [|count IH]; intros k w He H0 Hn Hk Hm; cbn [send_burst].
  { exists [], w. rewrite Z.add_0_r. split; [done|]. split; [done|]. split; [constructor|]. cbn [data_packets map]. rewrite app_nil_r. by repeat split; lia. }
  unfold create_packet, set_send_timestamp. destruct (now_timestamp w H0) as (e & t & w1 & -> & [T1 T2 T3 T4] & Ee & Ht & Hn1); [nia|].
  destruct (epoch w) as [e'|] eqn:Ew; [|done]. assert (e' = e) as ->.
  { destruct (T4 e) as [?|?]; [by right|congruence|congruence]. }
  unfold next_int. destruct (Z.ltb_spec k INT_MAX); [|lia]. unfold send_packet. rewrite Hsend. cbn [cbind].
  set (w2 := w1 {{ outbox := _ }}).
  destruct (IH (k + 1) w2) as (times & w' & -> & L & Hu & Eo & Ee' & Ei & Hnow); [by change (epoch w2) with (epoch w1); rewrite Ee| | |lia|lia|].
  { change (now w2) with (now w1). lia. } { change (now w2) with (now w1). nia. }
  change (now w2) with (now w1) in Hnow. change (inbox w2) with (inbox w1) in Ei. change (epoch w2) with (epoch w1) in Ee'.
  exists (u64 (t / MILLION - e) :: times), w'. split; [do 2 f_equal; lia|]. split; [cbn; lia|].
  split; [constructor; [apply Z.mod_pos_bound; done|done]|]. split; [|split; [congruence|split; [congruence|nia]]].
  rewrite Eo. change (outbox w2) with (outbox w1 ++ [to_string ((new_packet (u64 k) (repeat 120 (Z.to_nat 1200)))
    {{ header -> send_timestamp := u64 (t / MILLION - e) }})]).
  rewrite T2, <- app_assoc, (u64_small k) by (unfold INT_MAX, is_u64 in *; lia). done.
Qed.

Lemma data_packets_app l1 l2 k : data_packets k (l1 ++ l2) = data_packets k l1 ++ data_packets (k + Z.of_nat (List.length l1)) l2.
Proof.
  revert k. induction l1 as [|t l1 IH]; intros k; cbn [app data_packets List.length]; [by rewrite Z.add_0_r|].
  rewrite IH. cbn [app]. do 3 f_equal. lia.
Qed.

Section Rate.
Variables ms pkts D t0 e : Z.
Hypothesis Hms : 1 <= ms.
Hypothesis Hpkts : 1 <= pkts.
Hypothesis HD : 0 <= D.
Hypothesis Ht0 : 0 <= t0.

(** When the loop turns at the latest. *)
Definition horizon : Z := t0 + (D + 1 + ms) * MILLION + (pkts + 1) * late.

Hypothesis Hrange : horizon + (pkts + 4) * late < 2 ^ 63.
Hypothesis Hcount : (D / ms + 1) * pkts < INT_MAX.

(** The k-th turn starts no earlier than k sleeps after the start. *)
Lemma turn_early k t : 0 <= k -> t0 + k * ms * MILLION <= t -> t / MILLION - t0 / MILLION <= D -> k <= D / ms /\ t <= t0 + (D + 1) * MILLION.
Proof.
  intros Hk Ht Hle. assert (Hq : t0 / MILLION + k * ms <= t / MILLION).
  { rewrite <- Z.div_add by done. apply Z.div_le_mono; [done|lia]. }
  split; [apply Z.div_le_lower_bound; nia|].
  pose proof (Z.div_mod t MILLION ltac:(done)). pose proof (Z.mod_pos_bound t MILLION ltac:(done)).
  pose proof (Z.div_mod t0 MILLION ltac:(done)). pose proof (Z.mod_pos_bound t0 MILLION ltac:(done)). unfold MILLION in *. lia.
Qed.

Lemma send_loop_ok fuel : forall k w, epoch w = Some e -> 0 <= k <= D / ms + 1 ->
  t0 + k * ms * MILLION <= now w <= horizon -> D / ms + 2 <= Z.of_nat fuel + k ->
  exists j times w', send_loop delay send_ok ms pkts D fuel (u64 (t0 / MILLION - e)) (1 + k * pkts) w = Value (1 + (k + j) * pkts, w') /\
    0 <= j /\ k + j <= D / ms + 1 /\ Z.of_nat (List.length times) = j * pkts /\ Forall is_u64 times /\
    outbox w' = outbox w ++ map to_string (data_packets (1 + k * pkts) times) /\
    epoch w' = Some e /\ inbox w' = inbox w /\ 0 <= now w' <= horizon + late.
Proof.
  assert (Hl : 0 <= late) by (specialize (Hdelay O); lia).
  induction fuel as [|fuel IH]; intros k w He Hk Hn Hf; [lia|]. cbn [send_loop].
  assert (Hnw : 0 <= now w) by (unfold MILLION in *; nia).
  destruct (now_timestamp w Hnw) as (e' & t & w1 & -> & [T1 T2 T3 T4] & Ee & Ht & Hn1); [nia|].
  rewrite He in Hn1. assert (e' = e) as ->. { destruct (T4 e') as [?|?]; [by right|congruence|congruence]. }
  assert (Hk0 : t0 <= t) by (unfold MILLION in *; nia). rewrite elapsed by nia.
  destruct (Z.leb_spec (t / MILLION - t0 / MILLION) D) as [Hle|Hgt].
  - destruct (turn_early k t) as [Hkd Htd]; [lia|lia|done|]. assert (Hb : (k + 1) * pkts <= (D / ms + 1) * pkts) by nia.
    destruct (burst_ok (Z.to_nat pkts) (1 + k * pkts) w1) as (tb & w2 & -> & Lb & Ub & Ob & Eb & Ib & Nb);
      [by rewrite Ee|lia|rewrite Z2Nat.id by lia; unfold horizon in *; nia|nia|rewrite Z2Nat.id by lia; nia|].
    rewrite Z2Nat.id in Nb by lia. cbn [cbind]. rewrite Z2Nat.id by lia. set (w3 := sleep_for ms w2).
    replace (1 + k * pkts + pkts) with (1 + (k + 1) * pkts) by lia.
    assert (Hn3 : now w3 = now w2 + ms * MILLION) by done.
    destruct (IH (k + 1) w3) as (j & times & w' & -> & J0 & J1 & J2 & JU & J3 & J4 & J5 & J6);
      [exact (eq_trans Eb Ee)|lia|rewrite Hn3; unfold horizon in *; nia|lia|].
    exists (j + 1), (tb ++ times), w'. split; [do 3 f_equal; lia|]. split; [lia|]. split; [lia|].
    split; [rewrite length_app, Lb; lia|]. split; [by apply Forall_app|]. split; [|split; [done|split; [|done]]].
    + rewrite J3. change (outbox w3) with (outbox w2). rewrite Ob, T2, data_packets_app, map_app, Lb, Z2Nat.id, <- app_assoc by lia.
      do 4 f_equal. lia.
    + rewrite J5. change (inbox w3) with (inbox w2). congruence.
  - exists 0, [], w1. rewrite Z.add_0_r. cbn [data_packets map]. rewrite app_nil_r. split; [done|]. repeat split; try done; try constructor; lia.
Qed.
End Rate.

Lemma send_again_ok n message : forall w, exists w', send_again send_ok n message w = Value w' /\ outbox w' = outbox w ++ repeat message n.
Proof.
  induction n as [|n IH]; intros w; cbn [send_again repeat]; [exists w; by rewrite app_nil_r|].
  unfold send_packet. rewrite Hsend. cbn [cbind]. destruct (IH (w {{ outbox := outbox w ++ [message] }})) as (w' & -> & E).
  exists w'. split; [done|]. rewrite E. change (outbox (w {{ outbox := outbox w ++ [message] }})) with (outbox w ++ [message]). by rewrite <- app_assoc.
Qed.

(** The sender as a whole. *)
Lemma uplink_ok ms pkts D w : 1 <= ms -> 1 <= pkts -> 0 <= D -> 0 <= now w ->
  now w + (D + 1 + ms) * MILLION + (2 * pkts + 9) * late < 2 ^ 63 -> (D / ms + 1) * pkts < INT_MAX ->
  exists n times t w', send_udp_packets delay send_ok ms pkts D (Z.to_nat (D / ms + 2)) w = Value w' /\
    0 <= n <= D / ms + 1 /\ Z.of_nat (List.length times) = n * pkts /\ Forall is_u64 times /\ is_u64 t /\
    outbox w' = outbox w ++ map to_string (data_packets 1 times) ++ repeat (to_string (data_packet 0 t)) 5.
Proof.
  intros Hms Hpkts HD Hn Hr Hc. assert (Hl : 0 <= late) by (specialize (Hdelay O); lia).
  assert (Hdm : 0 <= D / ms) by (apply Z.div_pos; lia).
  unfold send_udp_packets. destruct (now_timestamp w Hn) as (e & t0 & w1 & -> & [T1 T2 T3 T4] & Ee & Ht & Hn1); [unfold MILLION in *; nia|].
  assert (Hn1' : t0 <= now w1 <= t0 + late) by (destruct (epoch w); lia).
  destruct (send_loop_ok ms pkts D t0 e Hms Hpkts) with (fuel := Z.to_nat (D / ms + 2)) (k := 0) (w := w1)
    as (n & times & w2 & E & N0 & N1 & Lt & Ut & Eo & Ee2 & _ & Hn2); try (unfold horizon, MILLION in *; nia); [done|].
  rewrite Z.mul_0_l, Z.add_0_r, Z.add_0_l in *. rewrite E. cbn [cbind].
  unfold create_packet, set_send_timestamp. destruct (now_timestamp w2) as (e3 & t3 & w3 & -> & [V1 V2 V3 V4] & _ & _ & _);
    [lia|unfold horizon, MILLION in *; nia|].
  destruct (send_again_ok 5 (to_string (data_packet 0 (u64 (t3 / MILLION - e3)))) w3) as (w4 & E4 & O4).
  exists n, times, (u64 (t3 / MILLION - e3)), w4. split; [exact E4|]. do 3 (split; [lia || done|]).
  split; [apply Z.mod_pos_bound; done|]. by rewrite O4, V2, Eo, T2, <- app_assoc.
Qed.
End Thms.

(** ** The theorems *)

Lemma acks_fields E ps : forall k times, List.length times = List.length ps ->
  let acks := acks_for E k ps times in
  map (fun a => sequence_number (header a)) acks = seqZ k (Z.of_nat (List.length ps)) /\
  map (fun a => ack_sequence_number (header a)) acks = map (fun d => sequence_number (header (fst d))) ps /\
  map (fun a => ack_send_timestamp (header a)) acks = map (fun d => send_timestamp (header (fst d))) ps /\
  map (fun a => ack_recv_timestamp (header a)) acks = map (fun d => recv_time E (snd d)) ps /\
  map (fun a => ack_payload_length (header a)) acks = map (fun d => u64 (Z.of_nat (List.length (payload (fst d))))) ps /\
  Forall (fun a => payload a = []) acks.
Proof.
  induction ps as [|[p s] ps IH]; intros k [|t times] Hl; try done; cbn [acks_for map List.length].
  destruct (IH (k + 1) times) as (H1 & H2 & H3 & H4 & H5 & H6); [by injection Hl|]. cbv zeta.
  cbn [header sequence_number ack_sequence_number ack_send_timestamp ack_recv_timestamp ack_payload_length fst snd].
    rewrite H1, H2, H3, H4, H5. repeat split; [|by constructor].
    rewrite (seqZ_cons k (Z.of_nat (S (List.length ps)))) by lia. do 2 f_equal; lia.
Qed.

Lemma data_packets_ok times : forall k, 0 <= k -> k + Z.of_nat (List.length times) <= 2 ^ 63 -> Forall is_u64 times ->
  Forall (fun p => is_header (header p) /\ is_ack p = false) (data_packets k times).
Proof.
  induction times as [|t times IH]; intros k H0 Hk Ht; cbn [data_packets]; [constructor|]. apply Forall_cons in Ht as [Hu Ht].
  cbn [List.length] in Hk. constructor; [|apply IH; [lia|lia|done]]. split; [|done].
  assert (is_u64 NONE) by done. assert (is_u64 k) by (unfold is_u64; lia). done.
Qed.

(** C31: Every packet is acknowledged once.  Given packets with numbers other
    than 0 and then one numbered 0, whatever the clock does,
    recv_packets_and_send_ack returns; it has sent one ack per packet, in
    order, numbered from 1, each with the number and the time of sending of its
    packet, the time of arrival and the length of the payload, and has logged
    one line per packet. *)
Theorem downlink_acks delay send_ok ps last rest w :
  (forall n, send_ok n = true) -> Forall numbered ps -> is_header (header (fst last)) -> sequence_number (header (fst last)) = 0 ->
  inbox w = map arrived ps ++ arrived last :: rest -> Z.of_nat (List.length ps) < INT_MAX ->
  exists E w' acks cs, recv_packets_and_send_ack delay send_ok w = Value w' /\ inbox w' = rest /\ agrees E w /\
    outbox w' = outbox w ++ map to_string acks /\ log_file w' = log_file w ++ lines_for E (ps ++ [last]) cs /\
    List.length cs = S (List.length ps) /\
    map (fun a => sequence_number (header a)) acks = seqZ 1 (Z.of_nat (List.length ps)) /\
    map (fun a => ack_sequence_number (header a)) acks = map (fun d => sequence_number (header (fst d))) ps /\
    map (fun a => ack_send_timestamp (header a)) acks = map (fun d => send_timestamp (header (fst d))) ps /\
    map (fun a => ack_recv_timestamp (header a)) acks = map (fun d => recv_time E (snd d)) ps /\
    map (fun a => ack_payload_length (header a)) acks = map (fun d => u64 (Z.of_nat (List.length (payload (fst d))))) ps /\
    Forall (fun a => payload a = []) acks.
Proof.
  intros Hs Hps Hh Hz Hi Hlen. unfold recv_packets_and_send_ack.
  destruct (ack_loop_ok delay send_ok Hs ps last rest (S (List.length (inbox w))) 1 w Hps Hh Hz Hi) as (w' & -> & Hr & HE); [|lia|lia|].
  { rewrite Hi, length_app, length_map. lia. }
  set (E := match epoch w' with Some e => e | None => 0 end).
  destruct (HE E) as (Ha & times & cs & L1 & L2 & E1 & E2); [unfold agrees, E; by destruct (epoch w'); [right|left]|].
  exists E, w', (acks_for E 1 ps times), cs. do 6 (split; [done|]). by apply acks_fields.
Qed.

(** C30: The sender.  Whatever the delays of the clock (up to a bound that keeps
    it in range), send_udp_packets returns within duration / sleep + 2 turns of
    its loop.  It has sent at most duration / sleep + 1 bursts of pkts_to_send
    packets, numbered from 1 without gaps, each with the dummy payload and no
    ack, and then the same packet numbered 0 five times. *)
Theorem uplink_sends delay send_ok late ms pkts D w :
  (forall n, send_ok n = true) -> (forall n, 0 <= delay n <= late) ->
  1 <= ms -> 1 <= pkts -> 0 <= D -> 0 <= now w ->
  now w + (D + 1 + ms) * MILLION + (2 * pkts + 9) * late < 2 ^ 63 -> (D / ms + 1) * pkts < INT_MAX ->
  exists n times t w', send_udp_packets delay send_ok ms pkts D (Z.to_nat (D / ms + 2)) w = Value w' /\
    0 <= n <= D / ms + 1 /\ Z.of_nat (List.length times) = n * pkts /\
    outbox w' = outbox w ++ map to_string (data_packets 1 times) ++ repeat (to_string (data_packet 0 t)) 5 /\
    Forall (fun p => parse_packet (to_string p) = Value p /\ is_ack p = false) (data_packets 1 times).
Proof.
  intros Hs Hd Hms Hpk HD Hn Hr Hc. destruct (uplink_ok delay send_ok Hs late Hd ms pkts D w Hms Hpk HD Hn Hr Hc)
    as (n & times & t & w' & E & H1 & H2 & H3 & H4 & H5).
  exists n, times, t, w'. do 4 (split; [done|]).
  assert (Hlen : 1 + Z.of_nat (List.length times) <= 2 ^ 63) by (unfold INT_MAX in *; nia).
  apply (Forall_impl (fun p => is_header (header p) /\ is_ack p = false)); [by apply data_packets_ok; [lia|..]|].
  intros p [Hp Ha]. split; [by apply parse_written|done].
Qed.

Lemma data_packets_numbered times : forall k, 0 < k -> k + Z.of_nat (List.length times) <= 2 ^ 63 -> Forall is_u64 times ->
  Forall (fun p => is_header (header p) /\ sequence_number (header p) <> 0 /\ List.length (payload p) = 1200%nat) (data_packets k times).
Proof.
  intros k Hk Hl Ht. pose proof (data_packets_ok times k ltac:(lia) Hl Ht) as H. revert k Hk Hl H.
  induction times as [|t times IH]; intros k Hk Hl H; cbn [data_packets] in *; [constructor|].
  apply Forall_cons in Ht as [Hu Ht]. apply Forall_cons in H as [[Hh _] H]. cbn [List.length] in Hl.
  constructor; [|apply IH; [done|lia|lia|done]]. split; [done|]. split; [cbn; lia|]. cbn [data_packet payload]. by rewrite repeat_length.
Qed.

Lemma data_packets_length times k : List.length (data_packets k times) = List.length times.
Proof. revert k. induction times as [|t times IH]; intros k; cbn; [done|]. by rewrite IH. Qed.

(** C15: A measurement from end to end.  The packets of a sender, of which any
    may be lost on the way but one of the last five arrives after the others,
    are acknowledged by the receiver one by one: the numbers, the times of
    sending and the lengths in the acks are those of the packets that arrived,
    whatever the two clocks do. *)
Theorem measurement_acked delay delay' send_ok send_ok' late ms pkts D ws :
  (forall n, send_ok n = true) -> (forall n, send_ok' n = true) -> (forall n, 0 <= delay n <= late) ->
  1 <= ms -> 1 <= pkts -> 0 <= D -> 0 <= now ws ->
  now ws + (D + 1 + ms) * MILLION + (2 * pkts + 9) * late < 2 ^ 63 -> (D / ms + 1) * pkts < INT_MAX ->
  exists times t ws', send_udp_packets delay send_ok ms pkts D (Z.to_nat (D / ms + 2)) ws = Value ws' /\
    outbox ws' = outbox ws ++ map to_string (data_packets 1 times) ++ repeat (to_string (data_packet 0 t)) 5 /\
    forall kept s rest wr, map fst kept `sublist_of` data_packets 1 times ->
      inbox wr = map arrived kept ++ arrived (data_packet 0 t, s) :: rest ->
      exists wr' acks, recv_packets_and_send_ack delay' send_ok' wr = Value wr' /\
        outbox wr' = outbox wr ++ map to_string acks /\
        map (fun a => sequence_number (header a)) acks = seqZ 1 (Z.of_nat (List.length kept)) /\
        map (fun a => ack_sequence_number (header a)) acks = map (fun d => sequence_number (header (fst d))) kept /\
        map (fun a => ack_send_timestamp (header a)) acks = map (fun d => send_timestamp (header (fst d))) kept /\
        Forall (fun a => ack_payload_length (header a) = 1200) acks.
Proof.
  intros Hs Hs' Hd Hms Hpk HD Hn Hr Hc. destruct (uplink_ok delay send_ok Hs late Hd ms pkts D ws Hms Hpk HD Hn Hr Hc)
    as (n & times & t & ws' & E & H1 & H2 & H3 & H4 & H5).
  exists times, t, ws'. split; [done|]. split; [done|]. intros kept s rest wr Hsub Hi.
  assert (Hlen : 1 + Z.of_nat (List.length times) <= 2 ^ 63) by (unfold INT_MAX in *; nia).
  pose proof (data_packets_numbered times 1 ltac:(lia) Hlen H3) as Hnum.
  assert (Hk : Forall (fun d => is_header (header (fst d)) /\ sequence_number (header (fst d)) <> 0 /\ List.length (payload (fst d)) = 1200%nat) kept).
  { apply Forall_forall. intros d Hd'. eapply Forall_forall in Hnum; [exact Hnum|]. eapply elem_of_submseteq; [|by apply sublist_submseteq].
    apply list_elem_of_fmap. by exists d. }
  pose proof (sublist_length _ _ Hsub) as Hlk. rewrite length_map, data_packets_length in Hlk.
  assert (Hnb : Forall numbered kept) by (eapply Forall_impl; [exact Hk|]; intros d (A & B & _); by split).
  unfold recv_packets_and_send_ack.
  destruct (ack_loop_ok delay' send_ok' Hs' kept (data_packet 0 t, s) rest (S (List.length (inbox wr))) 1 wr Hnb) as (wr' & -> & _ & HE);
    [done|done|done|rewrite Hi, length_app, length_map; lia|lia|nia|].
  set (e := match epoch wr' with Some e => e | None => 0 end).
  destruct (HE e) as (_ & ts & cs & L1 & _ & E1 & _); [unfold agrees, e; by destruct (epoch wr'); [right|left]|].
  exists wr', (acks_for e 1 kept ts). do 2 (split; [done|]). destruct (acks_fields e kept 1 ts L1) as (A1 & A2 & A3 & _ & A5 & _).
  do 3 (split; [done|]). apply Forall_forall. intros a Ha. apply (list_elem_of_fmap_2 (fun a => ack_payload_length (header a))) in Ha.
  change ((fun a => ack_payload_length (header a)) <$> acks_for e 1 kept ts) with (map (fun a => ack_payload_length (header a)) (acks_for e 1 kept ts)) in Ha.
  rewrite A5 in Ha. apply list_elem_of_fmap in Ha as (d & -> & Hd'). eapply Forall_forall in Hk; [|exact Hd']. destruct Hk as (_ & _ & ->). done.
Qed.

(** A measurement of 2 ms with a packet per millisecond: the second packet is
    lost, the others are acknowledged. *)
Definition sample_delay (n : nat) : Z := 300000.
Definition all_sent (n : nat) : bool := true.
Definition sample_world : world := mk_world 0 0 None [] [] [].

Lemma sample_delay_ok n : 0 <= sample_delay n <= 300000.
Proof. unfold sample_delay. lia. Qed.

Lemma measurement_acked_witness :
  exists times t ws', send_udp_packets sample_delay all_sent 1 1 2 4 sample_world = Value ws' /\
    exists wr' acks, recv_packets_and_send_ack sample_delay all_sent
        (mk_world 0 0 None (map arrived (map (fun p => (p, None)) (data_packets 1 (take 1 times))) ++ [arrived (data_packet 0 t, None)]) [] [])
        = Value wr' /\ outbox wr' = map to_string acks /\ map (fun a => ack_sequence_number (header a)) acks
          = map (fun p => sequence_number (header p)) (data_packets 1 (take 1 times)).
Proof.
  destruct (measurement_acked sample_delay sample_delay all_sent all_sent 300000 1 1 2 sample_world (fun _ => eq_refl) (fun _ => eq_refl)
    sample_delay_ok) as (times & t & ws' & E & _ & H); try (cbn; lia); [vm_compute; reflexivity|vm_compute; reflexivity|].
  exists times, t, ws'. split; [exact E|].
  destruct (H (map (fun p => (p, None)) (data_packets 1 (take 1 times))) None [] (mk_world 0 0 None
    (map arrived (map (fun p => (p, None)) (data_packets 1 (take 1 times))) ++ [arrived (data_packet 0 t, None)]) [] []))
    as (wr' & acks & E' & Eo & _ & Es & _).
  - rewrite map_map, map_id. rewrite <- (take_drop 1 times) at 2. rewrite data_packets_app. apply sublist_inserts_r. reflexivity.
  - reflexivity.
  - exists wr', acks. split; [exact E'|]. split; [exact Eo|]. by rewrite Es, map_map.
Defined.

Lemma downlink_acks_witness :
  exists E w' acks, recv_packets_and_send_ack sample_delay all_sent
      (mk_world 0 0 None [arrived (data_packet 7 5, Some (mk_timespec 0 4000000)); arrived (data_packet 0 9, None)] [] []) = Value w' /\
    outbox w' = map to_string acks /\ map (fun a => ack_sequence_number (header a)) acks = [7] /\
    map (fun a => ack_recv_timestamp (header a)) acks = [since_epoch E (mk_timespec 0 4000000)].
Proof.
  destruct (downlink_acks sample_delay all_sent [(data_packet 7 5, Some (mk_timespec 0 4000000))] (data_packet 0 9, None) []
    (mk_world 0 0 None [arrived (data_packet 7 5, Some (mk_timespec 0 4000000)); arrived (data_packet 0 9, None)] [] []))
    as (E & w' & acks & cs & E1 & _ & _ & E2 & _ & _ & _ & E3 & _ & E4 & _); [done|repeat constructor; done|done|done|done|done|].
  exists E, w', acks. done.
Defined.

Lemma uplink_sends_witness :
  exists n times t w', send_udp_packets sample_delay all_sent 1 2 2 4 sample_world = Value w' /\ 0 <= n <= 3 /\
    Z.of_nat (List.length times) = n * 2 /\
    outbox w' = map to_string (data_packets 1 times) ++ repeat (to_string (data_packet 0 t)) 5.
Proof.
  destruct (uplink_sends sample_delay all_sent 300000 1 2 2 sample_world (fun _ => eq_refl) sample_delay_ok)
    as (n & times & t & w' & E & Hn & Hl & Ho & _); try (cbn; lia); [vm_compute; reflexivity|vm_compute; reflexivity|].
  exists n, times, t, w'. split; [exact E|]. split; [exact Hn|]. split; [exact Hl|]. exact Ho.
Defined.

(** ** The rate *)

Lemma at_least_1_pos d n : at_least_1 d = Ok n -> 1 <= n.
Proof. unfold at_least_1. destruct (int_of_double d); cbn [obind]; [intros [= <-]; lia|done|done]. Qed.

(** The sending rate.  Whatever the rate asked for, a result of the set-up
    is a sleep and a burst of at least 1, one of which is 1; for every whole
    number of Mbps up to 3000 there is a result, and the packets of 1200 bytes
    it stands for carry between two thirds and three halves of the rate. *)
Theorem sending_rate :
  (forall rate ms pkts, sending_params rate = Ok (ms, pkts) -> 1 <= ms /\ 1 <= pkts /\ (ms = 1 \/ pkts = 1)) /\
  (forall r, 1 <= r <= 3000 -> exists ms pkts, sending_params (d_of_Z r) = Ok (ms, pkts) /\
     2 * (r * 1048576 * ms) <= 3 * (pkts * 1200 * 8 * 1000) /\ 2 * (pkts * 1200 * 8 * 1000) <= 3 * (r * 1048576 * ms)).
Proof.
  split.
  - intros rate ms pkts. unfold sending_params. destruct (dltb _ _).
    + destruct (at_least_1 _) as [m| |] eqn:E; cbn [obind]; [|done|done]. intros [= <- <-]. apply at_least_1_pos in E. lia.
    + destruct (at_least_1 _) as [m| |] eqn:E; cbn [obind]; [|done|done]. intros [= <- <-]. apply at_least_1_pos in E. lia.
  - assert (H : forallb (fun n => let r := Z.of_nat n in match sending_params (d_of_Z r) with
        | Ok (ms, pkts) => (2 * (r * 1048576 * ms) <=? 3 * (pkts * 1200 * 8 * 1000)) &&
            (2 * (pkts * 1200 * 8 * 1000) <=? 3 * (r * 1048576 * ms))
        | _ => false end) (seq 1 3000) = true) by (vm_compute; reflexivity).
    intros r Hr. rewrite forallb_forall in H. specialize (H (Z.to_nat r)). rewrite Z2Nat.id in H by lia.
    cbv zeta in H. destruct (sending_params (d_of_Z r)) as [[ms pkts]| |]; [|discriminate H|discriminate H];
      [|apply in_seq; lia|apply in_seq; lia].
    exists ms, pkts. split; [done|]. assert (Hb := H (proj2 (in_seq 3000 1 (Z.to_nat r)) ltac:(lia))).
    apply andb_true_iff in Hb as [H1 H2]. apply Z.leb_le in H1, H2. done.
Qed.

(** ** What goes wrong *)

(** A rate of 0 is a division by 0 whose result does not fit an int. *)
Theorem rate_zero_undefined : sending_params (d_of_Z 0) = UB.
Proof. vm_compute. reflexivity. Qed.

(** EPOCH is read from the clock after the packet arrived: the first time of
    arrival is before it and wraps around. *)
Theorem first_arrival_wraps :
  exists r w, recv_packet sample_delay (mk_world (10 * BILLION) 0 None
      [Arrives [] (Some (mk_timespec 9 998000000)) 0] [] []) = Value (r, w) /\ timestamp r = 2 ^ 64 - 2.
Proof. eexists _, _. split; vm_compute; reflexivity. Qed.

(** The time of day in milliseconds does not fit the %d it is printed with. *)
Theorem logged_time_wraps : log_int 1700000000000 = int_text (-807049216).
Proof. reflexivity. Qed.

(** The application stops a measurement by closing the socket: the receiver is
    then undefined (recvmsg fails) or throws (it returns 0 bytes). *)
Theorem stop_aborts w rest s :
  (inbox w = Fails :: rest -> recv_packets_and_send_ack sample_delay all_sent w = Undefined) /\
  (inbox w = Arrives [] s 0 :: rest -> recv_packets_and_send_ack sample_delay all_sent w = Throws).
Proof.
  split; intros Hi; unfold recv_packets_and_send_ack; cbn [ack_loop]; unfold receive_and_log, recv_packet; rewrite Hi; cbn [cbind Z.eqb]; [done|].
  destruct s as [ts|]; [|done]. by destruct (timestamp_ms _ _ _).
Qed.
