(* ===== verification/Probe.v ===== *)
(** * The RRC probe (rrclibcpp: client_udp_down.cpp)

    The probe answers numbered pings of a server: YEP when its counters say
    that nothing but this ping was received since the last answer, BAD
    otherwise.  networkStat reads the counters from /proc/net/dev; the other
    counters, the type of the network and the results of sendto are arguments.
    Buffers are lists of bytes, and a write outside one is undefined. *)

From coqutil Require Import Datatypes.RecordSetters.
From Stdlib Require Import String.
From S2P Require Import Prelude.
From S2P Require Import Cdouble.
From S2P Require Import CdoubleFacts.
From S2P Require Import CdoubleText.
From S2P Require Import Cscan.
From S2P Require Import Units.
From S2P Require Import CscanFacts.
From S2P Require Import Output.
From stdpp Require Import base numbers gmap list.
Import DoubleBraceUpdate.

Open Scope Z_scope.
Open Scope c_scope.

(** ** networkStat *)

Record network_info := mk_info
  { recv_bytes : Z;
    recv_pkt : Z;
    send_bytes : Z;
    send_pkt : Z }.

(** line.find(pattern) != npos *)
Fixpoint contains (pattern line : bytes) : bool :=
  has_prefix pattern line || match line with [] => false | _ :: r => contains pattern r end.

(** [tmp >> word]: what follows the first word. *)
Fixpoint drop_word (l : bytes) : bytes :=
  match l with
  | [] => []
  | c :: r => if is_space c then l else drop_word r
  end.

(** [tmp >> n] for an int: the value stored and whether the stream is still
    good; nothing is stored at the end of the text. *)
Inductive extracted : Type :=
| Number (v : Z) (rest : bytes)
| Failed (v : Z)
| AtEnd.

Definition extract_int (l : bytes) : extracted :=
  match skip_space l with
  | [] => AtEnd
  | l =>
      let '(neg, ds) := scan_sign l in
      match scan_digits ds with
      | ([], _) => Failed 0
      | (ds, rest) =>
          let v := if neg : bool then - digits_value 0 ds else digits_value 0 ds in
          if v <? - 2 ^ 31 then Failed (- 2 ^ 31)
          else if INT_MAX <? v then Failed INT_MAX
          else Number v rest
      end
  end.

(** The loop that fills int para[16]. *)
Fixpoint fill_para (fuel count : nat) (para : list Z) (l : bytes) : outcome (list Z) :=
  match fuel with
  | O => Fuel
  | S fuel =>
      match extract_int l with
      | AtEnd => Ok para
      | Failed v => if (count <? 16)%nat then Ok (<[count := v]> para) else UB
      | Number v rest => if (count <? 16)%nat then fill_para fuel (S count) (<[count := v]> para) rest else UB
      end
  end.

(** [para] is the array before it is filled. *)
Fixpoint networkStat (para : list Z) (file : list bytes) (n : network_info) : outcome network_info :=
  match file with
  | [] => Ok n
  | line :: file =>
      if contains (bytes_of "rmnet_data0"%string) line
      then
        let l := drop_word (skip_space line) in
        let! para := fill_para (S (List.length l)) 0 para l in
        let at_ i := nth i para 0 in
        Ok (mk_info (at_ 0%nat) (at_ 1%nat) (at_ 8%nat) (at_ 9%nat))
      else networkStat para file n
  end.

(** ** The loop of client() *)

(** [l] at index [i] of a buffer *)
Definition write_at (i : nat) (l buf : bytes) : outcome bytes :=
  if (i + List.length l <=? List.length buf)%nat
  then Ok (take i buf ++ l ++ drop (i + List.length l) buf) else UB.

(** atoi on a buffer: undefined when it reads past its end. *)
Definition atoi_in (buf : bytes) : outcome Z :=
  match snd (strtol 10 buf) with [] => UB | _ => Ok (atoi buf) end.

Definition YEP : bytes := bytes_of "YEP"%string ++ [10].
Definition BAD : bytes := bytes_of "BAD"%string ++ [10].

(** The answer, in char echo[17]. *)
Definition make_echo (n : nat) (seq_recv netType : Z) (verdict : bytes) : outcome bytes :=
  let echo := repeat 32 17 in
  let! echo := write_at 0 (int_text seq_recv ++ [0]) echo in
  let! echo := write_at n [32] echo in
  let! echo := write_at (n + 1) (int_text netType ++ [0]) echo in
  let! echo := write_at (n + 2) [32] echo in
  let! echo := write_at 16 [0] echo in
  let! echo := write_at (n + 3) (verdict ++ [0]) echo in
  Ok (cstr_of echo).

(** What happens outside during a turn of the loop: the result of recvfrom
    (None for an error), /proc/net/dev and the counters of the application
    after it, the type of the network, whether sendto works, and the file and
    the counters after the answer. *)
Record turn := mk_turn
  { received : option bytes;
    dev_after : list bytes;
    RxAfter : Z;
    TxAfter : Z;
    netType : Z;
    sendto_ok : bool;
    dev_before : list bytes;
    Rx_next : Z;
    Tx_next : Z }.

(** The variables of client(). *)
Record probe := mk_probe
  { data : bytes;
    seq_now : Z;
    n1 : network_info;
    n2 : network_info;
    RxBefore : Z;
    TxBefore : Z;
    replies : list bytes }.

Inductive step_result : Type :=
| Goes (p : probe)
| Returns (p : probe).

Section Probe.
(** What is in uninitialised variables. *)
Variables junk_para junk_seq : bytes.

(** Only one packet was received and none sent. *)
Definition quiet (p : probe) (t : turn) : outcome bool :=
  let! next := int_of (recv_pkt (n1 p) + 1) in
  Ok (((recv_pkt (n2 p) =? next) && (send_pkt (n2 p) =? send_pkt (n1 p)))
      || ((RxAfter t =? RxBefore p + 1) && (TxAfter t =? TxBefore p)))%bool.

Definition probe_turn (t : turn) (p : probe) : outcome step_result :=
  let d := match received t with Some d => d | None => [] end in
  let n := match received t with Some d => Z.of_nat (List.length d) | None => -1 end in
  let p := p {{ data := d ++ drop (List.length d) (data p) }} in
  let! seq_str := write_at 0 (take (Z.to_nat (n + 1)) (data p)) junk_seq in
  let! seq_recv := atoi_in seq_str in
  let! stat := networkStat junk_para (dev_after t) (n2 p) in
  let p := p {{ n2 := stat }} in
  if n <=? 0 then Ok (Returns p)
  else
    let! q := quiet p t in
    let verdict := if q && (seq_now p <? seq_recv) then YEP else BAD in
    let! echo := make_echo (List.length d) seq_recv (netType t) verdict in
    if sendto_ok t
    then
      let! stat := networkStat junk_para (dev_before t) (n1 p) in
      let p := p {{ n1 := stat; RxBefore := Rx_next t; TxBefore := Tx_next t; replies := replies p ++ [echo] }} in
      Ok (Goes (if seq_now p <? seq_recv then p {{ seq_now := seq_recv }} else p))
    else Ok (Returns p).

Fixpoint run_probe (ts : list turn) (p : probe) : outcome step_result :=
  match ts with
  | [] => Ok (Goes p)
  | t :: ts =>
      let! r := probe_turn t p in
      match r with Goes p => run_probe ts p | Returns p => Ok (Returns p) end
  end.
End Probe.

(** ** Reading the counters *)

(** A column of /proc/net/dev: spaces and a number. *)
Definition column (c : nat * Z) : bytes := repeat 32 (S (fst c)) ++ digits (snd c).

Definition columns (cs : list (nat * Z)) : bytes := concat (map column cs).

Lemma skip_spaces k l : skip_space (repeat 32 k ++ l) = skip_space l.
Proof. induction k as [|k IH]; [done|]. exact IH. Qed.

Lemma skip_space_end k : skip_space (repeat 32 k) = [].
Proof. rewrite <- (app_nil_r (repeat 32 k)). apply skip_spaces. Qed.

Lemma extract_column c r : 0 <= snd c <= INT_MAX -> no_digit_first r -> extract_int (column c ++ r) = Number (snd c) r.
Proof.
  destruct c as [k v]. cbn [fst snd]. intros Hv Hr. unfold extract_int, column. cbn [fst snd]. rewrite <- app_assoc, skip_spaces.
  destruct (digits_nonempty v) as (d & l & E & Hd); [lia|].
  assert (Hs : scan_digits (digits v ++ r) = (digits v, r)) by (apply scan_digits_app; [apply digits_are_digits; lia|exact Hr]).
  pose proof (digits_value_digits v ltac:(lia)) as Hval. rewrite E in *. cbn [app skip_space] in *.
  replace (is_space d) with false by (unfold is_space; lia). cbn [scan_sign].
  destruct (Z.eqb_spec d c_minus); [lia|]. destruct (Z.eqb_spec d c_plus); [lia|]. rewrite Hs, Hval.
  destruct (Z.ltb_spec v (- 2 ^ 31)); [lia|]. destruct (Z.ltb_spec INT_MAX v); [lia|]. done.
Qed.

Lemma columns_no_digit cs k : no_digit_first (columns cs ++ repeat 32 k).
Proof. destruct cs as [|c cs]; [by destruct k|]. done. Qed.

Lemma fill_columns cs k : forall fuel count para,
  (List.length cs < fuel)%nat -> (count + List.length cs <= 16)%nat -> List.length para = 16%nat ->
  Forall (fun c => 0 <= snd c <= INT_MAX) cs ->
  fill_para fuel count para (columns cs ++ repeat 32 k) = Ok (take count para ++ map snd cs ++ drop (count + List.length cs) para).
Proof.
  induction cs as [|c cs IH]; intros fuel count para Hf Hc Hp Hv; (destruct fuel as [|fuel]; [cbn in Hf; lia|]); cbn [fill_para].
  - unfold columns. cbn [map concat app List.length]. unfold extract_int. rewrite skip_space_end, Nat.add_0_r, take_drop. done.
  - apply Forall_cons in Hv as [Hv Hvs]. change (columns (c :: cs)) with (column c ++ columns cs). rewrite <- app_assoc.
    rewrite extract_column by (done || apply columns_no_digit). cbn [List.length] in *. destruct (Nat.ltb_spec count 16); [|lia].
    rewrite IH; [|lia|lia|by rewrite length_insert|done]. f_equal.
    rewrite (take_S_r _ _ (snd c)) by (apply list_lookup_insert_eq; lia). rewrite take_insert_ge by lia.
    rewrite drop_insert_lt by lia. rewrite <- app_assoc, Nat.add_succ_r. done.
Qed.

Lemma contains_prefix pattern l r : has_prefix pattern l = true -> has_prefix pattern (l ++ r) = true.
Proof.
  revert l. induction pattern as [|x pattern IH]; intros [|y l]; try done.
  cbn [has_prefix app]. rewrite !andb_true_iff. intros [? ?]. split; [done|]. by apply IH.
Qed.

Lemma contains_app pattern a l r : contains pattern l = true -> contains pattern (a ++ l ++ r) = true.
Proof.
  intros H. assert (Hl : contains pattern (l ++ r) = true).
  { induction l as [|c l IH]; cbn [contains app] in *.
    - rewrite orb_false_r in H. destruct pattern; [|done]. by destruct r.
    - apply orb_true_iff in H as [H|H]; apply orb_true_iff; [left; by apply (contains_prefix pattern (c :: l) r)|right; by apply IH]. }
  induction a as [|c a IH]; [done|]. cbn [contains app]. rewrite IH. apply orb_true_r.
Qed.

Lemma drop_word_app word r : Forall (fun c => is_space c = false) word ->
  match r with [] => True | c :: _ => is_space c = true end -> drop_word (word ++ r) = r.
Proof.
  induction 1 as [|c word Hc _ IH]; intros Hr; cbn [app drop_word].
  - destruct r as [|c r]; [done|]. cbn [drop_word]. by rewrite Hr.
  - rewrite Hc. by apply IH.
Qed.

Lemma columns_length cs : (List.length cs <= List.length (columns cs))%nat.
Proof.
  induction cs as [|c cs IH]; [done|]. change (columns (c :: cs)) with (column c ++ columns cs). rewrite length_app.
  unfold column. cbn [repeat app List.length]. lia.
Qed.



(** Once more than 2 GiB were received the first number does not fit, reading
    stops, and the numbers of packets are whatever the array held. *)
Theorem networkStat_overflow :
  networkStat (repeat 77 16) [bytes_of "rmnet_data0: 2147483648 3 0 0 0 0 0 0 900 2 0 0 0 0 0 0"%string] (mk_info 0 0 0 0)
  = Ok (mk_info INT_MAX 77 77 77).
Proof. vm_compute. reflexivity. Qed.

(** ** The answer *)

Lemma make_echo_ok s net a b c : 0 <= s < 10 ^ 9 -> 0 <= net <= 9 -> a <> 0 -> b <> 0 -> c <> 0 ->
  make_echo (List.length (digits s)) s net [a; b; c; 10] = Ok (digits s ++ [32; 48 + net; 32; a; b; c; 10]).
Proof.
  intros Hs Hnet Ha Hb Hc. unfold make_echo, int_text. destruct (Z.ltb_spec s 0); [lia|]. destruct (Z.ltb_spec net 0); [lia|].
  rewrite !Z.abs_eq, (digits_small net) by lia. cbn [app].
  pose proof (digits_nonzero s) as Hz. pose proof (digits_length_le s 9 ltac:(lia) ltac:(lia)) as Hl.
  destruct (digits_nonempty s) as (d & l & E & _); [lia|]. rewrite E in *. clear E.
  assert (Hnz : forall z, z <> 0 -> (z =? 0) = false) by (intros z ?; by apply Z.eqb_neq).
  do 9 (destruct l as [|? l]; [repeat (apply Forall_cons in Hz as [? Hz]); cbn; by rewrite !Hnz by (done || lia)|]).
  cbn in Hl. lia.
Qed.

(** ** A run of the probe *)

(** A ping with what the counters show after it and after the answer. *)
Record ping := mk_ping
  { ping_seq : Z;
    ping_turn : turn;
    ping_after : network_info;
    ping_before : network_info }.

Section Run.
Variables junk_para junk_seq : bytes.
Hypothesis Hjunk : List.length junk_seq = 11%nat.

(** The server sent the number, the files can be read, the answer goes out. *)
Record proper (x : ping) : Prop := {
  pr_seq : 0 <= ping_seq x < 10 ^ 9;
  pr_received : received (ping_turn x) = Some (digits (ping_seq x));
  pr_after : forall n, networkStat junk_para (dev_after (ping_turn x)) n = Ok (ping_after x);
  pr_before : forall n, networkStat junk_para (dev_before (ping_turn x)) n = Ok (ping_before x);
  pr_net : 0 <= netType (ping_turn x) <= 9;
  pr_sent : sendto_ok (ping_turn x) = true;
  pr_count : 0 <= recv_pkt (ping_before x) < INT_MAX }.

(** Nothing but the ping was received and nothing sent since the last answer. *)
Definition undisturbed (i : network_info) (rx tx : Z) (x : ping) : bool :=
  ((recv_pkt (ping_after x) =? recv_pkt i + 1) && (send_pkt (ping_after x) =? send_pkt i))
  || ((RxAfter (ping_turn x) =? rx + 1) && (TxAfter (ping_turn x) =? tx)).

(** The answers: a ping is good if it is undisturbed and newer than all before. *)
Fixpoint answers (newest : Z) (i : network_info) (rx tx : Z) (xs : list ping) : list bytes :=
  match xs with
  | [] => []
  | x :: xs =>
      (digits (ping_seq x) ++ [32; 48 + netType (ping_turn x); 32] ++
       (if undisturbed i rx tx x && (newest <? ping_seq x) then YEP else BAD))
      :: answers (Z.max newest (ping_seq x)) (ping_before x) (Rx_next (ping_turn x)) (Tx_next (ping_turn x)) xs
  end.

(** No ping is shorter than the one before. *)
Fixpoint grows (n : nat) (xs : list ping) : Prop :=
  match xs with
  | [] => True
  | x :: xs => (n <= List.length (digits (ping_seq x)))%nat /\ grows (List.length (digits (ping_seq x))) xs
  end.

(** Behind the last ping the buffer has no digits. *)
Definition clean (n : nat) (p : probe) : Prop :=
  (10 <= List.length (data p))%nat /\ Forall (fun c => is_digit c = false) (drop n (data p)).

Lemma write_start l buf : (List.length l <= List.length buf)%nat -> write_at 0 l buf = Ok (l ++ drop (List.length l) buf).
Proof. intros H. unfold write_at. rewrite Nat.add_0_l. by destruct (Nat.leb_spec (List.length l) (List.length buf)); [|lia]. Qed.

(** The number is read from the buffer. *)
Lemma seq_read s n p : 0 <= s < 10 ^ 9 -> clean n p -> (n <= List.length (digits s))%nat ->
  exists str, write_at 0 (take (S (List.length (digits s))) (digits s ++ drop (List.length (digits s)) (data p))) junk_seq = Ok str /\
    atoi_in str = Ok s.
Proof.
  intros Hs [Hd Hc] Hn. pose proof (digits_length_le s 9 ltac:(lia) ltac:(lia)) as Hl.
  assert (Hdrop : exists c r, drop (List.length (digits s)) (data p) = c :: r /\ is_digit c = false).
  { destruct (drop (List.length (digits s)) (data p)) as [|c r] eqn:E.
    - apply (f_equal List.length) in E. rewrite length_drop in E. cbn [List.length] in E. lia.
    - exists c, r. split; [done|]. apply (Forall_drop _ (List.length (digits s) - n)) in Hc. rewrite drop_drop in Hc.
      replace (n + (List.length (digits s) - n))%nat with (List.length (digits s)) in Hc by lia. rewrite E in Hc. by inversion Hc. }
  destruct Hdrop as (c & r & -> & Hcd).
  replace (take (S (List.length (digits s))) (digits s ++ c :: r)) with (digits s ++ [c]).
  2:{ change (c :: r) with ([c] ++ r). rewrite app_assoc, take_app_length'; [done|]. rewrite length_app. cbn [List.length]. lia. }
  rewrite write_start by (rewrite length_app; cbn [List.length]; lia). eexists. split; [reflexivity|].
  unfold atoi_in. rewrite <- app_assoc. cbn [app]. rewrite strtol_digits by (done || lia). cbn [snd].
  by rewrite atoi_digits_app by (done || lia).
Qed.

Lemma probe_turn_ok x n p : proper x -> clean n p -> (n <= List.length (digits (ping_seq x)))%nat -> 0 <= recv_pkt (n1 p) < INT_MAX ->
  exists p', probe_turn junk_para junk_seq (ping_turn x) p = Ok (Goes p') /\ clean (List.length (digits (ping_seq x))) p' /\
    seq_now p' = Z.max (seq_now p) (ping_seq x) /\ n1 p' = ping_before x /\ RxBefore p' = Rx_next (ping_turn x) /\
    TxBefore p' = Tx_next (ping_turn x) /\
    replies p' = replies p ++ answers (seq_now p) (n1 p) (RxBefore p) (TxBefore p) [x].
Proof.
  intros [Hs Hrec Haft Hbef Hnet Hsend Hcnt] Hc Hn Hr1. unfold probe_turn. rewrite Hrec.
  set (p1 := p {{ data := digits (ping_seq x) ++ drop (List.length (digits (ping_seq x))) (data p) }}).
  destruct (seq_read (ping_seq x) n p Hs Hc Hn) as (str & Hw & Ha).
  replace (Z.to_nat (Z.of_nat (List.length (digits (ping_seq x))) + 1)) with (S (List.length (digits (ping_seq x)))) by lia.
  change (data p1) with (digits (ping_seq x) ++ drop (List.length (digits (ping_seq x))) (data p)). rewrite Hw. cbn [obind]. rewrite Ha. cbn [obind].
  rewrite Haft. cbn [obind]. destruct (digits_nonempty (ping_seq x)) as (d & l & E & _); [lia|].
  destruct (Z.leb_spec (Z.of_nat (List.length (digits (ping_seq x)))) 0) as [Hle|_]; [rewrite E in Hle; cbn [List.length] in Hle; lia|].
  set (p2 := p1 {{ n2 := ping_after x }}). unfold quiet.
  change (n1 p2) with (n1 p). change (n2 p2) with (ping_after x). change (RxBefore p2) with (RxBefore p). change (TxBefore p2) with (TxBefore p).
  change (seq_now p2) with (seq_now p).
  rewrite int_of_ok by (unfold is_i32, INT_MAX in *; lia). cbn [obind].
  change ((recv_pkt (ping_after x) =? recv_pkt (n1 p) + 1) && (send_pkt (ping_after x) =? send_pkt (n1 p))
    || (RxAfter (ping_turn x) =? RxBefore p + 1) && (TxAfter (ping_turn x) =? TxBefore p)) with (undisturbed (n1 p) (RxBefore p) (TxBefore p) x).
  set (verdict := if undisturbed (n1 p) (RxBefore p) (TxBefore p) x && (seq_now p <? ping_seq x) then YEP else BAD).
  assert (Hecho : make_echo (List.length (digits (ping_seq x))) (ping_seq x) (netType (ping_turn x)) verdict
    = Ok (digits (ping_seq x) ++ [32; 48 + netType (ping_turn x); 32] ++ verdict)).
  { unfold verdict. destruct (undisturbed _ _ _ x && _); by apply make_echo_ok. }
  rewrite Hecho. cbn [obind]. rewrite Hsend, Hbef. cbn [obind].
  eexists. split; [reflexivity|]. cbn [answers].
  assert (Hd : drop (List.length (digits (ping_seq x))) (digits (ping_seq x) ++ drop (List.length (digits (ping_seq x))) (data p))
    = drop (List.length (digits (ping_seq x))) (data p)) by (by apply drop_app_length').
  destruct Hc as [Hc1 Hc2]. apply (Forall_drop _ (List.length (digits (ping_seq x)) - n)) in Hc2. rewrite drop_drop in Hc2.
  replace (n + (List.length (digits (ping_seq x)) - n))%nat with (List.length (digits (ping_seq x))) in Hc2 by lia.
  assert (Hc' : (10 <= List.length (digits (ping_seq x) ++ drop (List.length (digits (ping_seq x))) (data p)))%nat).
  { rewrite length_app, length_drop. lia. }
  change (seq_now (p2 {{ n1 := _; RxBefore := _; TxBefore := _; replies := _ }})) with (seq_now p).
  destruct (Z.ltb_spec (seq_now p) (ping_seq x)) as [Hlt|Hge].
  - split; [split; [exact Hc'|]; change (Forall (fun c => is_digit c = false) (drop (List.length (digits (ping_seq x)))
      (digits (ping_seq x) ++ drop (List.length (digits (ping_seq x))) (data p)))); by rewrite Hd|].
    split; [cbn; unfold constant; lia|]. by repeat split.
  - split; [split; [exact Hc'|]; change (Forall (fun c => is_digit c = false) (drop (List.length (digits (ping_seq x)))
      (digits (ping_seq x) ++ drop (List.length (digits (ping_seq x))) (data p)))); by rewrite Hd|].
    split; [change (seq_now p = Z.max (seq_now p) (ping_seq x)); lia|]. by repeat split.
Qed.
End Run.


Definition sample_dev (rx tx : Z) : list bytes :=
  [bytes_of "rmnet_data0: 0 "%string ++ digits rx ++ bytes_of " 0 0 0 0 0 0 0 "%string ++ digits tx ++ bytes_of " 0 0 0 0 0 0"%string].

Definition sample_ping (s rx tx : Z) : ping :=
  mk_ping s (mk_turn (Some (digits s)) (sample_dev rx tx) 0 0 4 true (sample_dev rx (tx + 1)) 0 0) (mk_info 0 rx 0 tx) (mk_info 0 rx 0 (tx + 1)).

Definition sample_probe : probe := mk_probe (repeat 0 100) (-1) (mk_info 0 7 0 2) (mk_info 0 0 0 0) 5 5 [].


(** A ping that arrives late and is shorter than the last: the byte behind it in
    the buffer is that of the longer one, and 9 after 10 is read as 90; the
    following pings are then all taken for old ones. *)
Theorem probe_misreads_reordered :
  exists p', run_probe (repeat 0 16) (repeat 0 11) (map ping_turn [sample_ping 10 8 2; sample_ping 9 9 3; sample_ping 11 10 4]) sample_probe
      = Ok (Goes p') /\
    replies p' = [bytes_of "10 4 "%string ++ YEP; bytes_of "9 4 "%string ++ YEP; bytes_of "11 4 "%string ++ BAD] /\ seq_now p' = 90.
Proof. eexists. vm_compute. repeat split. Qed.

(** A datagram of more than ten bytes overruns seq_str, one of ten bytes echo. *)
Theorem probe_overruns :
  probe_turn (repeat 0 16) (repeat 0 11) (mk_turn (Some (repeat 49 11)) [] 0 0 4 true [] 0 0) sample_probe = UB /\
  probe_turn (repeat 0 16) (repeat 0 11) (mk_turn (Some (digits 1000000000)) [] 0 0 4 true [] 0 0) sample_probe = UB.
Proof. by split; vm_compute. Qed.
